(* ===== verification/_CoqProject ===== *)
-Q . S2P
Prelude.v
StateError.v
GoText.v
GoNet.v
Timestamps.v
GoTime.v
Encoding.v
RateLimit.v
GoUrl.v
GoPath.v
GoJson.v
GoJsonRead.v
GoJsonSpec.v
GoHttp.v
Client.v
ClientSecurity.v
ClientWebSocket.v
ClientWebSocketSpec.v
ClientToml.v
Supervisor.v
ClientLogic.v
SupervisorSpec.v
SupervisorApply.v
SupervisorRecovery.v
ClientApp.v
ClientAppSpec.v
ClientProxySpec.v
ClientRequests.v
ClientSigned.v
ClientHTTP.v
ClientHTTPSpec.v
ClientSecuritySpec.v
ClientWitness.v
Password.v
Schema.v
Effects.v
Logic.v
Validation.v
Sample.v
Store.v
Jobs.v
Frames.v
QueueExamples.v
Sessions.v
SessionsSpec.v
Mappings.v
MappingsSpec.v
Domains.v
Apply.v
PortsSpec.v
Authorize.v
ApplySpec.v
AuthorizeSpec.v
Users.v
UsersSpec.v
Operations.v
Cloudflare.v
DomainsSpec.v
Workers.v
WorkersSpec.v
Router.v
RouterSpec.v
RouterControl.v
KeyFiles.v
Issuer.v
Backup.v
BackupSpec.v
BackupRoundTrip.v
Startup.v
ServerViews.v
ServerAPI.v
ServerHandlers.v
ServerAdmin.v
ServerPlugin.v
ServerHTTP.v
ServerHTTPSpec.v
ServerGateSpec.v
ServerPluginSpec.v
EndToEnd.v
ServerWitness.v
