(* ===== verification/Prelude.v ===== *)
(** * The FRP panel platform

    The platform lets the users of a Server Panel publish services of their own
    machines through a shared FRPS.  It has four programs:

    - the Server Panel ([src/server/cmd/server]): accounts, mappings of ports,
      domains, the DNS records and certificates behind them, and the signed
      configuration each client fetches, over one SQLite database;
    - FRPS, a third-party program, which asks the server's plugin endpoint before
      every login and every proxy;
    - the router ([src/server/internal/router]), which loads the snapshots the
      server signs and forwards requests to FRPS or to the panel;
    - the Client Panel ([src/client]) on the user's machine, which logs in to the
      server, verifies and applies configurations, and supervises an FRPC.

    ** How the files are arranged

    Foundations, shared by both sides:
    - [Prelude]: record update, [res], notations, generic lemmas and tactics;
    - [StateError]: the state-and-error monad of all handlers, with three ways to
      reason about runs ([_Ok] inversions, [moves] along a preorder, [hoare]);
    - [GoText], [GoPath], [GoNet], [GoUrl], [GoHttp], [Encoding], [Timestamps],
      [GoTime], [GoJson], [GoJsonRead]: the parts of Go's standard library the
      source uses, on byte strings; [GoJsonSpec] proves that what is marshalled is
      read back, [GoTime] that the texts of two times are ordered as the model
      orders them;
    - [RateLimit]: the rate limiter of both HTTP APIs ([rate_limit.go]).

    The server ([src/server/internal]):
    - [Schema] the tables of [db/migrations] as finite maps with their
      constraints, [Store] the statements constraints can reject;
    - [Effects] a call's world (the database and a counter of effects) and the
      environment that answers each effect; [Password] ([auth/password.go]);
    - [service/service.go]: [Validation], [Sessions], [Mappings], [Domains],
      [Apply] (FullConfig, ApplyResult), [Authorize] (the decision of the FRPS
      plugin), [Users], [Operations];
    - [jobs/worker.go]: [Jobs]; [service/cloudflare_jobs.go]: [Workers];
      [providers/cloudflare]: [Cloudflare], the interface of a DNS provider as a
      class with the HTTP client as its instance;
    - [router]: [Router]; [service/router_service.go]: [RouterControl];
    - [httpapi/httpapi.go]: [ServerAPI] (the API's state, replies, middleware, the
      session, the replay of writes, notifications), [ServerHandlers] and
      [ServerAdmin] (the handlers, over the views of [ServerViews]),
      [ServerPlugin] (the endpoint FRPS asks), [ServerHTTP] (the routes, a request
      from its arrival to its reply, the life of a WebSocket);
    - [backup/backup.go]: [Backup];
    - [crypto/crypto.go] and the secret of [config/config.go]: [KeyFiles], as
      programs of system calls; [acme], [clock]: [Issuer];
    - [config/config.go], [db/db.go], [frps/process.go] and the commands of
      [server/cmd]: [Startup], which puts the parts above together in the order in
      which the command starts and stops them.

    The client ([src/client/internal]):
    - [Client] the client's world: files, processes, memory, what it did to the
      outside, and the environment;
    - [security], [config]: [ClientSecurity]; [app/app.go]: [ClientApp] for the
      methods and the command ([client/cmd/client]), [ClientWebSocket] for the goroutines as a step relation;
    - [supervisor/supervisor.go], [healthcheck]: [ClientToml] and [Supervisor];
    - [httpapi/httpapi.go]: [ClientHTTP].

    [Logic], [Frames] and [ClientLogic] hold the reasoning shared by a side;
    a file whose name ends in [Spec] (and [SupervisorApply],
    [SupervisorRecovery], [ClientRequests], [ClientSigned], [BackupRoundTrip],
    [EndToEnd]) the theorems; [Sample], [ClientWitness] and [ServerWitness] hold the
    concrete environments at which theorems with hypotheses are instantiated, and
    with [QueueExamples] most of the instances ([..._witness]).  A definition has the name of the Go function or method it
    translates, fields keep the names of their struct fields or columns behind a
    prefix; a Go method of several steps is split along its early returns, its
    transactions and its loops.

    ** How effects are modelled

    A handler is a function [ST W E A = W -> res E A * W]: an error keeps what was
    written before it.  The [n]-th effect of a run (reading the clock, a new
    identifier, random bytes, an SQL statement, a system call, a request) is
    answered by the environment at [n]; theorems quantify over it, so they hold
    for every clock, every choice of identifiers and every pattern of failures.
    A transaction restores the database when it does not commit.  On the client a
    failing system call changes nothing, a failing write excepted, which leaves a
    prefix; a crash is the pattern in which everything after some effect fails.
    SQLite runs one writer at a time and the handlers hold no state between
    calls, so the calls of the server are atomic sequences; the places where the
    order of single steps matters have step relations: the lease of a job
    ([Jobs]), the router's watcher ([Router]), the WebSocket goroutines of the
    client ([ClientWebSocket]), and, on the server, requests, messages and the ends
    of connections that outlive the request that opened them ([ServerHTTP]).  Key
    and secret files can be written by several processes at once; their functions
    are trees of system calls ([KeyFiles.Prog]), which a schedule interleaves and
    can leave unfinished.

    The command of the server runs its services for its whole life.  [Startup.run]
    is the sequence of what is started and stopped until the server ends, with the
    deferred calls; the service's own work meanwhile is that of the other files.

    A request of the server runs in the state [ServerAPI]: the service's
    world, the reply being written, the middleware's counters and the clients that
    listen for notifications.  The middleware are functions from handlers to
    handlers, composed in the order in which the router applies them, and [serve]
    is the composition.  A backup runs over files named by their absolute
    paths, without directories.

    Timestamps are nanoseconds; the SQL compares their RFC3339Nano texts, which
    drop trailing zeros, and [Timestamps.sql_lt] is that order of texts, not that
    of times.  Integers of Go that can wrap are wrapped ([wrap64]); durations are
    bounded by [max_duration].

    Parameters, each a field of a class: SHA-256, Argon2, AES-GCM, Ed25519,
    [url.Parse], IDNA and the Unicode tables, the text of floats, TLS handshakes,
    the chi router's matching, the WebSocket handshake, [net/http]'s file server,
    scrypt, the zip format, what a SQLite file holds; of the server's start, the
    files and their failures ([Machine]), the curve's keys ([KeyMath]), what
    a migration's statements do ([SqlEngine]), the processes ([FrpsEnv]) and the
    listeners ([PanelEnv]); the ACME library, X.509 and the resolver ([AcmeEnv],
    [TlsFiles]).  A
    theorem that relies on a property of one says so in a hypothesis, and its
    witness has a concrete function there.

    ** Fuel

    - The zone list of Cloudflare: 100 pages, the bound in the code.
    - The port allocator: the length of the port range.
    - Texts (TrimSpace, IPv6 in nine passes, JSON with one more than the length
      of the text and Go's depth of 10000): a measure of the text, so that the
      function is total and no result depends on the bound.
    - Waiting for an orphan process: the number of ticks in the code.
    - The wait for a TXT record: a round per two seconds of the timeout, and two
      more; [Issuer.waitTXT_ends] shows that they are enough for a clock that
      advances as the ticker does.
    - The worker's loop: the number of its rounds, over which the theorem
      quantifies; it ends before only when a round fails or it is stopped.

    ** What the theorems show

    - Server state: the references between mappings, revisions and leases
      ([PortsSpec.ports_invariant]), sessions ([SessionsSpec.sessions_invariant])
      and the queue ([Jobs.queue_invariant]) are kept by every sequence of calls.
    - Functional behaviour: logins, creating and updating mappings, domains,
      deleting users, acknowledgements, each on success with what it changed; and
      on failure with what it left.
    - Authorisation: FRPS is allowed only what a live login of an active user may
      open ([AuthorizeSpec], [ServerPluginSpec]); a suspension or deletion takes
      effect on the next request ([UsersSpec]).
    - Refinement: a snapshot the control side publishes is accepted by the router
      that implements the interface ([RouterControl]); the watcher keeps the
      last good one ([RouterSpec]).
    - Client: a failed Apply restores the last configuration, the active file is
      never torn, one verified process runs ([SupervisorSpec],
      [SupervisorApply]); only signed configurations are written
      ([ClientSigned]); tokens travel only to their server ([ClientRequests]);
      logout erases ([ClientAppSpec]); no WebSocket leaks and a superseded
      goroutine ends ([ClientWebSocketSpec]).
    - HTTP of the client: a stranger's request changes nothing
      ([ClientHTTPSpec.gate]), replies have one shape, a key passes at most twice
      the limit in a window ([RateLimit]).
    - HTTP of the server: a route behind the gate is reached with its credentials
      only ([ServerGateSpec.gate_of_sessions]), the sensitive handlers with a ticket
      besides, a write whose reply was kept is answered with that reply; the places
      of [concurrencyLimit] taken are the open WebSockets in every state the server
      reaches ([ServerHTTPSpec]), and as many as there are places shut it.
    - Composition: an item [FullConfig] serves is a proxy the plugin allows
      ([EndToEnd]).
    - Start and stop: in production nothing is served in plaintext, a server serves
      only with every migration recorded, an administrator and a verified FRPS, a
      migration that was cut short is resumed, and whatever was started is stopped
      ([Startup]); a claim that fails ends the worker for good
      ([Jobs.one_fault_ends_the_worker]).
    - Secrets on disk: one transport secret for all processes that start at once, a
      certificate's file whole at any moment ([KeyFiles]); certificates: no
      challenge record left behind, one account ([Issuer]), the router serves valid
      ones only ([RouterControl.served_certificates_are_valid]).
    - Backup: a package decodes to what was collected ([BackupRoundTrip]); a
      restoration touches the target and the data directory only, and the restored
      database has no live session ([BackupSpec]).

    ** Not modelled

    The meaning of the DDL in the migrations (their tables are [Schema]), the parsing
    of flags and what the commands print, the TypeScript panels, the ACME library and
    X.509, the generator of identifiers and the kernel's file permissions, the
    ticker that reloads certificates and the daily seeding of jobs (each round of
    them is a definition, their being called every so often is not), the
    transports (TLS, TCP, the WebSocket frames), logging.  Two requests interleaved
    within one handler are not modelled: a request runs to its end, a WebSocket
    excepted, which keeps its place and its entry among the clients until a later
    step. *)

From stdpp Require Export prelude gmap strings list fin_maps.
From Stdlib Require Export ZArith Lia.

#[global] Create HintDb stamps.

(** ** Record update

    [r <| field := v |>] is the record [r] with one column changed.  A record
    opts in by an [Eta] instance (its constructor applied to its projections);
    the setter of a field is then computed from it, so that after [cbn [set]]
    every other column is still syntactically a projection of [r]. *)

Class Eta (R : Type) : Type := eta_expand : R -> R.

Class Setter {R T : Type} (proj : R -> T) : Type := set : (T -> T) -> R -> R.
Arguments set {R T} proj {_} _ _ /.

Ltac derive_setter R proj :=
  let e := constr:(_ : Eta R) in
  let e := eval red in (eta_expand (R := R)) in
  let e := match e with
           | ?c => let c' := eval unfold c in c in c'
           | ?c => c
           end in
  let p := eval pattern proj in e in
  match p with
  | ?F _ =>
      let G := constr:(fun u : _ -> _ => F (fun r : R => u (proj r))) in
      let G := eval cbv beta in G in
      exact G
  end.

#[export] Hint Extern 1 (@Setter ?R ?T ?proj) => derive_setter R proj : typeclass_instances.

Declare Scope record_scope.
Delimit Scope record_scope with record.
Open Scope record_scope.
Notation "r <| f := v |>" := (set f (fun _ => v) r)
  (at level 1, f constr at level 99, v constr at level 200, left associativity) : record_scope.
Notation "r <| f ::= g |>" := (set f g r)
  (at level 1, f constr at level 99, g constr at level 200, left associativity) : record_scope.

(** ** Tables

    A table of the database is a finite map from its primary key to the row;
    these are the statements the source writes against a table. *)

Abbreviation Table := (gmap string).

Section Tables.
Context {V : Type}.
Implicit Types (t : Table V) (P : string -> V -> bool).

(** [UPDATE t SET f WHERE P] *)
Definition update_where P (f : V -> V) t : Table V :=
  map_imap (fun k r => Some (if P k r then f r else r)) t.

(** [DELETE FROM t WHERE P] *)
Definition delete_where P t : Table V :=
  map_imap (fun k r => if P k r then None else Some r) t.

(** [SELECT * FROM t WHERE P], in the order of the scan *)
Definition select P t : list (string * V) :=
  base.filter (fun kv => P kv.1 kv.2 = true) (map_to_list t).

(** [SELECT COUNT(1) FROM t WHERE P]; also the rows an UPDATE affects *)
Definition count_where P t : Z := Z.of_nat (length (select P t)).

(** [EXISTS (SELECT 1 FROM t WHERE P)] *)
Definition exists_where P t : bool := negb (bool_decide (select P t = [])).
End Tables.

(** The first row of a scan ordered by a strict order [lt]
    ([ORDER BY ... LIMIT 1]); ties keep the scan's first. *)
Definition first_by {A} (lt : A -> A -> bool) (l : list A) : option A :=
  fold_right (fun x acc => match acc with
                           | None => Some x
                           | Some y => if lt y x then Some y else Some x
                           end) None l.

(** [ORDER BY lt]: a stable insertion sort. *)
Fixpoint insert_by {A} (lt : A -> A -> bool) (x : A) (l : list A) : list A :=
  match l with
  | [] => [x]
  | y :: l' => if lt y x then y :: insert_by lt x l' else x :: l
  end.
Definition order_by {A} (lt : A -> A -> bool) (l : list A) : list A :=
  fold_right (insert_by lt) [] l.

(** [LIMIT n OFFSET m]: a negative offset skips nothing. *)
Definition page_of {A} (limit offset : Z) (l : list A) : list A :=
  take (Z.to_nat limit) (drop (Z.to_nat offset) l).

(** Two's complement in 64 bits, and the offset of a page in it. *)
Definition wrap64 (v : Z) : Z := ((v + 2 ^ 63) mod 2 ^ 64 - 2 ^ 63)%Z.
Lemma wrap64_exact v : (- 2 ^ 63 <= v < 2 ^ 63)%Z -> wrap64 v = v.
Proof. unfold wrap64. intros Hv. rewrite Z.mod_small; lia. Qed.

Definition page_offset (page pageSize : Z) : Z := wrap64 ((page - 1) * pageSize)%Z.

(** A page far behind the last one may be the first one again. *)
Example page_offset_wraps : page_offset (2 ^ 62 + 1)%Z 4%Z = 0%Z.
Proof. reflexivity. Qed.

(** ** Results of fallible code *)

Inductive res (E A : Type) : Type :=
| Ok (a : A)
| Err (e : E).
Arguments Ok {E A} a.
Arguments Err {E A} e.

Definition is_ok {E A} (r : res E A) : bool :=
  match r with Ok _ => true | Err _ => false end.

(** ** Lemmas on tables *)

Section TableLemmas.
Context {V : Type}.
Implicit Types (t : Table V) (P : string -> V -> bool).

Lemma lookup_update_where P f t k :
  update_where P f t !! k = (fun r => if P k r then f r else r) <$> t !! k.
Proof. unfold update_where. rewrite map_lookup_imap. by destruct (t !! k). Qed.

Lemma lookup_delete_where P t k :
  delete_where P t !! k = t !! k ≫= fun r => if P k r then None else Some r.
Proof. apply map_lookup_imap. Qed.

Lemma lookup_delete_where_Some P t k r :
  delete_where P t !! k = Some r <-> t !! k = Some r /\ P k r = false.
Proof.
  rewrite lookup_delete_where. destruct (t !! k) as [r'|]; simpl.
  - destruct (P k r') eqn:E; (split; [intros [=]; by subst | intros [[= ->] ?]; congruence]).
  - split; [done | by intros [? _]].
Qed.

Lemma lookup_update_where_Some P f t k r :
  update_where P f t !! k = Some r <->
  exists r0, t !! k = Some r0 /\ r = if P k r0 then f r0 else r0.
Proof. 
  rewrite lookup_update_where. destruct (t !! k) as [r'|]; simpl.
  - split; [intros [= <-]; by exists r' | by intros (? & [= ->] & ->)].
  - split; [done | by intros (? & ? & _)].
Qed.

Lemma lookup_update_where_is_Some P f t k :
  is_Some (update_where P f t !! k) <-> is_Some (t !! k).
Proof. rewrite lookup_update_where. apply fmap_is_Some. Qed.

Lemma elem_of_select P t k r :
  (k, r) ∈ select P t <-> t !! k = Some r /\ P k r = true.
Proof.
  unfold select. rewrite list_elem_of_filter. simpl.
  rewrite elem_of_map_to_list. tauto.
Qed.

Lemma exists_where_true P t :
  exists_where P t = true <-> exists k r, t !! k = Some r /\ P k r = true.
Proof.
  unfold exists_where. rewrite negb_true_iff, bool_decide_eq_false. split.
  - destruct (select P t) as [|[k r] l] eqn:E; [done|]. intros _.
    exists k, r. apply elem_of_select. rewrite E. left.
  - intros (k & r & H) E. apply elem_of_select in H. rewrite E in H. set_solver.
Qed.

Lemma exists_where_false P t :
  exists_where P t = false <-> forall k r, t !! k = Some r -> P k r = false.
Proof.
  rewrite <- not_true_iff_false, exists_where_true. split.
  - intros H k r Hk. destruct (P k r) eqn:E; [|done]. destruct H. by exists k, r.
  - intros H (k & r & Hk & E). rewrite (H k r Hk) in E. done.
Qed.

Lemma count_where_nonneg P t : (0 <= count_where P t)%Z.
Proof. unfold count_where. lia. Qed.

Lemma count_where_zero P t :
  count_where P t = 0%Z <-> forall k r, t !! k = Some r -> P k r = false.
Proof.
  unfold count_where. split.
  - intros H k r Hk. destruct (P k r) eqn:E; [|done].
    assert ((k, r) ∈ select P t) as Hin by (by apply elem_of_select).
    destruct (select P t); [set_solver | simpl in H; lia].
  - intros H. destruct (select P t) as [|[k r] l] eqn:E; [done|].
    assert ((k, r) ∈ select P t) as Hin by (rewrite E; left).
    apply elem_of_select in Hin as [Hk HP]. rewrite (H k r Hk) in HP. done.
Qed.

(** Inserting a fresh row adds one to a count exactly when it matches. *)
Lemma count_where_insert P t k r :
  t !! k = None ->
  count_where P (<[k := r]> t) = (count_where P t + if P k r then 1 else 0)%Z.
Proof.
  intros Hk. unfold count_where, select.
  rewrite (map_to_list_insert t k r Hk), filter_cons. simpl.
  case_decide as E; [rewrite E | apply not_true_is_false in E; rewrite E]; simpl; lia.
Qed.

Lemma select_ext P Q t :
  (forall k r, t !! k = Some r -> P k r = Q k r) -> select P t = select Q t.
Proof.
  intros H. unfold select.
  assert (Forall (fun kv => P kv.1 kv.2 = Q kv.1 kv.2) (map_to_list t)) as HF.
  { apply Forall_forall. intros [k r] Hin%elem_of_map_to_list. by apply H. }
  induction HF as [|kv l Hkv _ IH]; [done|]. rewrite !filter_cons, IH.
  repeat case_decide; congruence.
Qed.
End TableLemmas.

Lemma select_singleton {V} (t : Table V) P k r :
  t !! k = Some r -> P k r = true ->
  (forall k' r', t !! k' = Some r' -> P k' r' = true -> k' = k) ->
  select P t = [(k, r)].
Proof.
  intros Hk HP Huniq. apply Permutation_singleton_r, NoDup_Permutation.
  - apply NoDup_filter, NoDup_map_to_list.
  - apply NoDup_singleton.
  - intros [k' r']. rewrite elem_of_select, list_elem_of_singleton. split.
    + intros [Hk' HP']. pose proof (Huniq _ _ Hk' HP') as ->. congruence.
    + by intros [= -> ->].
Qed.


Lemma update_where_one {V} (t : Table V) P f k r :
  t !! k = Some r -> P k r = true -> (forall k' r', P k' r' = true -> k' = k) ->
  update_where P f t = <[k := f r]> t.
Proof.
  intros Hk HP Huniq. apply map_eq. intros i. rewrite lookup_update_where, lookup_insert.
  case_decide as D; [subst; rewrite Hk; simpl; by rewrite HP|].
  destruct (t !! i) as [r'|]; [|done]. simpl.
  destruct (P i r') eqn:E; [|done]. by apply Huniq in E as ->.
Qed.


Section FirstBy.
Context {A : Type} (lt : A -> A -> bool).

Lemma first_by_None l : first_by lt l = None <-> l = [].
Proof.
  split; [|by intros ->]. destruct l as [|x l]; [done|]. simpl.
  destruct (first_by lt l); [case_match; done | done].
Qed.

Lemma first_by_elem l x : first_by lt l = Some x -> x ∈ l.
Proof.
  revert x. induction l as [|y l IH]; intros x; simpl; [done|].
  destruct (first_by lt l) as [z|] eqn:E; [|intros [= ->]; left].
  case_match; intros [= ->]; [right; by apply IH | left].
Qed.

(** Under a strict weak order the row returned is minimal. *)
Lemma first_by_least l x :
  (forall a b c, lt a b = false -> lt b c = false -> lt a c = false) ->
  (forall a b, lt a b = true -> lt b a = false) ->
  first_by lt l = Some x -> forall y, y ∈ l -> lt y x = false.
Proof.
  intros Htr Has. assert (forall a, lt a a = false) as Hirr.
  { intros a. destruct (lt a a) eqn:E; [|done]. by rewrite (Has a a E) in E. }
  revert x. induction l as [|z l IH]; intros x; simpl; [done|].
  intros Hx y Hy. destruct (first_by lt l) as [w|] eqn:E.
  - destruct (lt w z) eqn:Ew; injection Hx as <-; apply elem_of_cons in Hy as [->|Hy].
    + by apply Has.
    + by apply IH.
    + apply Hirr.
    + eapply Htr; [by apply (IH w) | done].
  - apply first_by_None in E as ->. injection Hx as <-.
    apply list_elem_of_singleton in Hy as ->. apply Hirr.
Qed.
End FirstBy.

(** ** Sorting *)

Lemma insert_by_perm {A} (lt : A -> A -> bool) x l : insert_by lt x l ≡ₚ x :: l.
Proof.
  induction l as [|y l IH]; [done|]. simpl. destruct (lt y x); [|done].
  rewrite IH. apply Permutation_swap.
Qed.

Lemma order_by_perm {A} (lt : A -> A -> bool) l : order_by lt l ≡ₚ l.
Proof.
  induction l as [|x l IH]; [done|]. unfold order_by. simpl. rewrite insert_by_perm.
  by apply Permutation_cons.
Qed.

Lemma elem_of_order_by {A} (lt : A -> A -> bool) x l : x ∈ order_by lt l <-> x ∈ l.
Proof. by rewrite order_by_perm. Qed.

Lemma select_keys_NoDup {V} (P : string -> V -> bool) (t : Table V) : NoDup (map fst (select P t)).
Proof.
  eapply sublist_NoDup; [apply (NoDup_fst_map_to_list t)|].
  apply (fmap_sublist fst), sublist_filter.
Qed.

Lemma omap_keys_sublist {A B K} (f : A -> option B) (ka : A -> K) (kb : B -> K) l :
  (forall a b, f a = Some b -> kb b = ka a) -> sublist (map kb (omap f l)) (map ka l).
Proof.
  intros Hf. induction l as [|a l IH]; [done|]. simpl. destruct (f a) as [b|] eqn:E; simpl.
  - rewrite (Hf _ _ E). by constructor.
  - by constructor.
Qed.

(** The head of a sorted list is the row [ORDER BY ... LIMIT 1] returns. *)
Lemma head_order_by {A} (lt : A -> A -> bool) l : head (order_by lt l) = first_by lt l.
Proof.
  induction l as [|x l IH]; [done|]. unfold order_by, first_by in *. simpl. rewrite <- IH.
  destruct (fold_right (insert_by lt) [] l) as [|y l']; [done|]. simpl. by destruct (lt y x).
Qed.
