(* ===== verification/StateError.v ===== *)
(** Computations with state and errors: the monad every handler of the
    development is written in, whatever the state ([Effects.World] for the
    server, [Client.Local] for the client).

    A computation always ends in a state, also when it reports an error: what
    was written before the error stays written, as in the source. *)

From S2P Require Import Prelude.

Definition ST (W E A : Type) : Type := W -> res E A * W.

Section Operations.
Context {W E : Type}.
Abbreviation M := (ST W E).

Definition ret {A} (a : A) : M A := fun w => (Ok a, w).
Definition fail {A} (e : E) : M A := fun w => (Err e, w).
Definition bind {A B} (m : M A) (k : A -> M B) : M B := fun w =>
  match m w with
  | (Ok a, w') => k a w'
  | (Err e, w') => (Err e, w')
  end.

#[export] Instance M_ret : MRet M := @ret.
#[export] Instance M_bind : MBind M := fun A B k m => bind m k.

(** [if b { return err }] *)
Definition fail_if (b : bool) (e : E) : M unit := if b then fail e else ret tt.

(** The result of a call whose error the code inspects, or ignores. *)
Definition attempt {A} (m : M A) : M (res E A) := fun w =>
  let '(r, w') := m w in (Ok r, w').
Definition ignore {A} (m : M A) : M unit := fun w => (Ok tt, snd (m w)).
Definition map_err {A} (f : E -> E) (m : M A) : M A := fun w =>
  match m w with
  | (Err e, w') => (Err (f e), w')
  | r => r
  end.

Definition or_fail {A} (e : E) (o : option A) : M A :=
  match o with Some a => ret a | None => fail e end.

(** [defer finish()] before [body]: it runs on every way out, its error is
    ignored. *)
Definition deferred {A} (finish : M unit) (body : M A) : M A := fun w =>
  let '(r, w') := body w in (r, snd (finish w')).

Fixpoint for_each {A} (l : list A) (body : A -> M unit) : M unit :=
  match l with
  | [] => ret tt
  | a :: l' => body a;; for_each l' body
  end.

End Operations.

(** ** Running a computation *)

Ltac solve_run :=
  intros; repeat case_match; split; intros; destruct_and?; simplify_eq; eauto.

Section Runs.
Context {W E : Type}.
Abbreviation M := (ST W E).
Implicit Types (w : W) (e : E).

Lemma bind_Ok {A B} (m : M A) (k : A -> M B) w b w' :
  (m ≫= k) w = (Ok b, w') <->
  exists a w1, m w = (Ok a, w1) /\ k a w1 = (Ok b, w').
Proof.
  unfold mbind, M_bind, bind. split.
  - destruct (m w) as [[a|e] w1]; [|done]. intros H. by exists a, w1.
  - by intros (a & w1 & -> & Hk).
Qed.

Lemma bind_run {A B} (m : M A) (k : A -> M B) w a w1 :
  m w = (Ok a, w1) -> (m ≫= k) w = k a w1.
Proof. unfold mbind, M_bind, bind. by intros ->. Qed.

Lemma bind_fail {A B} (m : M A) (k : A -> M B) w e w1 :
  m w = (Err e, w1) -> (m ≫= k) w = (Err e, w1).
Proof. unfold mbind, M_bind, bind. by intros ->. Qed.

Lemma ret_Ok {A} (a b : A) w w' : ret a w = (Ok b : res E A, w') <-> a = b /\ w' = w.
Proof. unfold ret. solve_run. Qed.

Lemma fail_Ok {A} e (b : A) w w' : fail e w = (Ok b, w') <-> False.
Proof. unfold fail. split; [discriminate | done]. Qed.

Lemma fail_if_Ok b e u w w' : fail_if b e w = (Ok u, w') <-> b = false /\ w' = w.
Proof. unfold fail_if, fail, ret. destruct u, b; solve_run. Qed.

Lemma or_fail_Ok {A} e (o : option A) a w w' :
  or_fail e o w = (Ok a, w') <-> o = Some a /\ w' = w.
Proof. unfold or_fail, ret, fail. destruct o; solve_run. Qed.

Lemma attempt_Ok {A} (m : M A) r w w' : attempt m w = (Ok r, w') <-> m w = (r, w').
Proof. unfold attempt. destruct (m w) as [r' w1]. solve_run. Qed.

Lemma ignore_Ok {A} (m : M A) u w w' : ignore m w = (Ok u, w') <-> w' = snd (m w).
Proof. unfold ignore. destruct u. solve_run. Qed.

Lemma map_err_Ok {A} f (m : M A) a w w' : map_err f m w = (Ok a, w') <-> m w = (Ok a, w').
Proof. unfold map_err. by destruct (m w) as [[] ?]. Qed.

Lemma bind_cases {A B} (m : M A) (k : A -> M B) w r w' :
  (m ≫= k) w = (r, w') ->
  (exists e, m w = (Err e, w') /\ r = Err e) \/ exists a w1, m w = (Ok a, w1) /\ k a w1 = (r, w').
Proof.
  unfold mbind, M_bind, bind. destruct (m w) as [[a|e] w1]; [by right; exists a, w1|]. intros [= <- <-]. left. by exists e.
Qed.

Lemma deferred_Ok {A} finish (body : M A) w a w' :
  deferred finish body w = (Ok a, w') -> exists w1, body w = (Ok a, w1) /\ w' = snd (finish w1).
Proof. unfold deferred. destruct (body w) as [r w1]. intros [= -> <-]. by exists w1. Qed.

Lemma bind_Err {A B} (m : M A) (k : A -> M B) w e w' :
  (m ≫= k) w = (Err e, w') ->
  m w = (Err e, w') \/ exists a w1, m w = (Ok a, w1) /\ k a w1 = (Err e, w').
Proof.
  unfold mbind, M_bind, bind. destruct (m w) as [[a|e'] w1]; [|by intros [= <- <-]; left].
  intros Hk. right. by exists a, w1.
Qed.
End Runs.

(** ** What every run does

    [moves R m]: every run of [m], successful or not, goes from its first state
    to a state [R] relates to it.  For a preorder [R] the composition of
    computations that move along [R] moves along [R], so a claim about a handler
    reduces to its primitive effects. *)
Definition moves {W E A} (R : W -> W -> Prop) (m : ST W E A) : Prop :=
  forall w, R w (snd (m w)).

(** An invariant is kept: the relation [I w -> I w']. *)
Definition keeping {W} (I : W -> Prop) : W -> W -> Prop := fun w w' => I w -> I w'.

#[export] Instance keeping_preorder {W} (I : W -> Prop) : PreOrder (keeping I).
Proof. split; unfold keeping; [intros ? ?; assumption | firstorder]. Qed.

(** The value of an observation never changes. *)
Definition same {W O} (f : W -> O) : W -> W -> Prop := fun w w' => f w' = f w.

#[export] Instance same_preorder {W O} (f : W -> O) : PreOrder (same f).
Proof. split; unfold same; [done | congruence]. Qed.

Section Moves.
Context {W E : Type} (R : W -> W -> Prop) `{HR : !PreOrder R}.
Abbreviation M := (ST W E).

Lemma moves_ret {A} (a : A) : moves R (ret a : M A).
Proof using HR. intros w. reflexivity. Qed.
Lemma moves_mret {A} (a : A) : moves R (mret a : M A).
Proof using HR. intros w. reflexivity. Qed.
Lemma moves_fail {A} (e : E) : moves R (fail e : M A).
Proof using HR. intros w. reflexivity. Qed.
Lemma moves_fail_if b (e : E) : moves R (fail_if b e : M unit).
Proof using HR. intros w. by destruct b. Qed.
Lemma moves_or_fail {A} (e : E) (o : option A) : moves R (or_fail e o : M A).
Proof using HR. intros w. by destruct o. Qed.

Lemma moves_bind {A B} (m : M A) (k : A -> M B) :
  moves R m -> (forall a, moves R (k a)) -> moves R (m ≫= k).
Proof using HR.
  intros Hm Hk w. specialize (Hm w). unfold mbind, M_bind, bind.
  destruct (m w) as [[a|e] w1]; [|done]. simpl in Hm. etrans; [exact Hm | apply Hk].
Qed.

(** What follows a computation needs to move only from its results. *)
Lemma moves_bind_result {A B} (m : M A) (k : A -> M B) :
  moves R m -> (forall w a w', m w = (Ok a, w') -> moves R (k a)) -> moves R (m ≫= k).
Proof using HR.
  intros Hm Hk w. specialize (Hm w). unfold mbind, M_bind, bind.
  destruct (m w) as [[a|e] w1] eqn:Em; [|done]. simpl in Hm. etrans; [exact Hm|]. by apply (Hk w a w1).
Qed.

Lemma moves_attempt {A} (m : M A) : moves R m -> moves R (attempt m).
Proof using Type. intros Hm w. specialize (Hm w). unfold attempt. by destruct (m w). Qed.
Lemma moves_ignore {A} (m : M A) : moves R m -> moves R (ignore m).
Proof using Type. intros Hm w. exact (Hm w). Qed.
Lemma moves_map_err {A} f (m : M A) : moves R m -> moves R (map_err f m).
Proof using Type. intros Hm w. specialize (Hm w). unfold map_err. by destruct (m w) as [[] ?]. Qed.

Lemma moves_deferred {A} (finish : M unit) (body : M A) : moves R finish -> moves R body -> moves R (deferred finish body).
Proof using HR.
  intros Hf Hb w. specialize (Hb w). unfold deferred. destruct (body w) as [r w1]. simpl in *.
  etrans; [exact Hb|apply Hf].
Qed.

Lemma moves_for_each_in {A} (l : list A) body :
  (forall a, a ∈ l -> moves R (body a)) -> moves R (for_each l body : M unit).
Proof using HR.
  induction l as [|a l IH]; simpl; intros Hb; [apply moves_ret|].
  apply moves_bind; [apply Hb; left|]. intros _. apply IH. intros b Hin. apply Hb. by right.
Qed.

Lemma moves_for_each {A} (l : list A) body :
  (forall a, moves R (body a)) -> moves R (for_each l body : M unit).
Proof using HR.
  intros Hb. induction l; simpl; [apply moves_ret|]. by apply moves_bind.
Qed.
End Moves.

#[global] Create HintDb moves.
#[export] Hint Resolve moves_ret moves_mret moves_fail moves_fail_if moves_or_fail : moves.

(** [moving] reduces [moves R m] to the primitive effects of [m] that the
    database [moves] does not know. *)
Ltac move_step :=
  match goal with
  | |- moves _ (mbind _ _) => apply moves_bind; [typeclasses eauto| |intros ?]
  | |- moves _ (attempt _) => apply moves_attempt
  | |- moves _ (ignore _) => apply moves_ignore
  | |- moves _ (map_err _ _) => apply moves_map_err
  | |- moves _ (deferred _ _) => apply moves_deferred; [typeclasses eauto|..]
  | |- moves _ (for_each _ _) => apply moves_for_each; [typeclasses eauto|intros ?]
  | |- moves _ (if ?b then _ else _) => destruct b eqn:?
  | |- moves _ (match ?x with _ => _ end) => destruct x eqn:?
  | |- moves _ (let _ := _ in _) => cbv zeta
  | |- moves _ _ => solve [eauto 3 with moves nocore typeclass_instances]
  end.
Ltac moving := repeat move_step.

(** From states in [P] every run ends in [Q], successful or not. *)
Definition leads {W E A} (P Q : W -> Prop) (m : ST W E A) : Prop :=
  forall w, P w -> Q (snd (m w)).

Lemma leads_keeping {W E A} (I : W -> Prop) (m : ST W E A) : moves (keeping I) m -> leads I I m.
Proof. intros Hm w. apply Hm. Qed.

(** Two phases. *)
Lemma leads_bind {W E A B} (P Q R : W -> Prop) (m : ST W E A) (k : A -> ST W E B) :
  leads P Q m -> (forall w, Q w -> R w) -> (forall a, leads Q R (k a)) -> leads P R (m ≫= k).
Proof.
  intros Hm HQR Hk w Hw. specialize (Hm w Hw). unfold mbind, M_bind, bind.
  destruct (m w) as [[a|e] w1]; simpl in *; [by apply Hk|by apply HQR].
Qed.

Lemma leads_attempt {W E A} (P Q : W -> Prop) (m : ST W E A) : leads P Q m -> leads P Q (attempt m).
Proof. intros Hm w Hw. specialize (Hm w Hw). unfold attempt. by destruct (m w). Qed.

(** *** Pre- and postconditions

    [hoare P m Q F]: from [P], success ends in [Q] of the result and an error
    ends in [F]. *)
Definition hoare {W E A} (P : W -> Prop) (m : ST W E A) (Q : A -> W -> Prop) (F : W -> Prop) : Prop :=
  forall w, P w -> match m w with
                   | (Ok a, w') => Q a w'
                   | (Err _, w') => F w'
                   end.

Section Hoare.
Context {W E : Type}.
Abbreviation M := (ST W E).
Implicit Types (P F I : W -> Prop).

Lemma hoare_bind {A B} P (m : M A) Q (k : A -> M B) R F :
  hoare P m Q F -> (forall a, hoare (Q a) (k a) R F) -> hoare P (m ≫= k) R F.
Proof.
  intros Hm Hk w Hw. specialize (Hm w Hw). unfold mbind, M_bind, bind.
  destruct (m w) as [[a|e] w1]; [by apply Hk|done].
Qed.

Lemma hoare_ret {A} P (a : A) (Q : A -> W -> Prop) F : (forall w, P w -> Q a w) -> hoare P (ret a : M A) Q F.
Proof. intros HPQ w Hw. by apply HPQ. Qed.

Lemma hoare_fail {A} P (e : E) (Q : A -> W -> Prop) F : (forall w, P w -> F w) -> hoare P (fail e : M A) Q F.
Proof. intros HPF w Hw. by apply HPF. Qed.

Lemma hoare_weaken {A} P P' (m : M A) (Q Q' : A -> W -> Prop) F F' :
  hoare P' m Q' F' -> (forall w, P w -> P' w) -> (forall a w, Q' a w -> Q a w) ->
  (forall w, F' w -> F w) -> hoare P m Q F.
Proof.
  intros Hm HP HQ HF w Hw. specialize (Hm w (HP w Hw)). destruct (m w) as [[a|e] w1]; auto.
Qed.

Lemma hoare_keeping {A} I (m : M A) : moves (keeping I) m -> hoare I m (fun _ => I) I.
Proof. intros Hm w Hw. specialize (Hm w Hw). by destruct (m w) as [[a|e] w1]. Qed.

Lemma hoare_moves {A} I (m : M A) : hoare I m (fun _ => I) I -> moves (keeping I) m.
Proof. intros Hm w Hw. specialize (Hm w Hw). by destruct (m w) as [[a|e] w1]. Qed.

Lemma hoare_deferred {A} P (finish : M unit) (body : M A) Q Q' F F' :
  hoare P body Q F -> (forall a, leads (Q a) (Q' a) finish) -> leads F F' finish -> hoare P (deferred finish body) Q' F'.
Proof.
  intros Hb HQ HF w Hw. specialize (Hb w Hw). unfold deferred. destruct (body w) as [[a|e] w1]; [by apply HQ|by apply HF].
Qed.

Lemma hoare_attempt {A} P (m : M A) Q F R :
  hoare P m Q F -> hoare P (attempt m) (fun r w => match r with Ok a => Q a w | Err _ => F w end) R.
Proof. intros Hm w Hw. specialize (Hm w Hw). unfold attempt. by destruct (m w) as [[a|e] w1]. Qed.

Lemma hoare_ignore {A} P (m : M A) Q R :
  hoare P m (fun _ => Q) Q -> hoare P (ignore m) (fun _ => Q) R.
Proof. intros Hm w Hw. specialize (Hm w Hw). unfold ignore. by destruct (m w) as [[a|e] w1]. Qed.

Lemma hoare_if {A} (b : bool) P (m n : M A) Q F :
  (b = true -> hoare P m Q F) -> (b = false -> hoare P n Q F) -> hoare P (if b then m else n) Q F.
Proof. destruct b; auto. Qed.

(** The precondition may be used as a fact about a state. *)
Lemma hoare_pre {A} P (m : M A) Q F :
  (forall w, P w -> hoare (eq w) m Q F) -> hoare P m Q F.
Proof. intros Hm w Hw. by apply (Hm w Hw w). Qed.

(** An observation that a computation leaves alone carries any claim about it. *)
Lemma hoare_same {A O} (f : W -> O) (P : O -> Prop) (m : M A) :
  moves (same f) m -> hoare (fun w => P (f w)) m (fun _ w => P (f w)) (fun w => P (f w)).
Proof.
  intros Hm w Hw. specialize (Hm w). unfold same in Hm.
  destruct (m w) as [[a|e] w1]; simpl in Hm; by rewrite Hm.
Qed.
End Hoare.
