(* ===== verification/GoText.v ===== *)
(** Go's [strings] functions on byte strings, as the source uses them.

    A Go string is its list of bytes, i.e. a [string] of [ascii].  White space
    is Unicode's [White_Space] set in UTF-8 ([strings.TrimSpace]); case mapping
    is ASCII on ASCII-only strings, and on any other string it is the
    [unicode] package's table, which stays an argument ([unicode_lower]). *)

From S2P Require Import Prelude.
From Stdlib Require Import Ascii String.
Open Scope string_scope.

(** ** Bytes *)

Definition byte_in (lo hi : Z) (c : ascii) : bool :=
  let n := Z.of_nat (nat_of_ascii c) in ((lo <=? n) && (n <=? hi))%Z.

Definition is_digit : ascii -> bool := byte_in 48 57.
Definition is_upper : ascii -> bool := byte_in 65 90.
Definition is_lower : ascii -> bool := byte_in 97 122.
Definition is_letter (c : ascii) : bool := is_upper c || is_lower c.
Definition is_alnum (c : ascii) : bool := is_letter c || is_digit c.
Definition is_ascii (c : ascii) : bool := byte_in 0 127 c.

Fixpoint forallb_str (p : ascii -> bool) (s : string) : bool :=
  match s with
  | EmptyString => true
  | String c s' => p c && forallb_str p s'
  end.

Fixpoint map_str (f : ascii -> ascii) (s : string) : string :=
  match s with
  | EmptyString => EmptyString
  | String c s' => String (f c) (map_str f s')
  end.

(** ** Prefixes, suffixes, slices *)

Fixpoint HasPrefix (s p : string) : bool :=
  match p, s with
  | EmptyString, _ => true
  | String a p', String b s' => Ascii.eqb a b && HasPrefix s' p'
  | _, EmptyString => false
  end.

(** [s[n:]] for [n <= len(s)] *)
Fixpoint drop_str (n : nat) (s : string) : string :=
  match n, s with
  | O, _ => s
  | S n', String _ s' => drop_str n' s'
  | S _, EmptyString => EmptyString
  end.

(** [s[:n]] for [n <= len(s)] *)
Fixpoint take_str (n : nat) (s : string) : string :=
  match n, s with
  | O, _ => EmptyString
  | S n', String c s' => String c (take_str n' s')
  | S _, EmptyString => EmptyString
  end.

Definition HasSuffix (s p : string) : bool :=
  if Nat.ltb (String.length s) (String.length p) then false
  else String.eqb (drop_str (String.length s - String.length p) s) p.

Definition TrimPrefix (s p : string) : string :=
  if HasPrefix s p then drop_str (String.length p) s else s.

Definition TrimSuffix (s p : string) : string :=
  if HasSuffix s p then take_str (String.length s - String.length p) s else s.

Fixpoint Contains (s sub : string) : bool :=
  HasPrefix s sub ||
  match s with
  | EmptyString => false
  | String _ s' => Contains s' sub
  end.

Definition ContainsAny (s : string) (chars : list ascii) : bool :=
  negb (forallb_str (fun c => negb (existsb (Ascii.eqb c) chars)) s).

(** [strings.Count] of a one-byte substring *)
Fixpoint CountByte (s : string) (c : ascii) : nat :=
  match s with
  | EmptyString => 0
  | String d s' => (if Ascii.eqb d c then 1 else 0) + CountByte s' c
  end.

(** [strings.Split] on a one-byte separator *)
Fixpoint SplitByte (s : string) (sep : ascii) : list string :=
  match s with
  | EmptyString => [EmptyString]
  | String c s' =>
      if Ascii.eqb c sep then EmptyString :: SplitByte s' sep
      else match SplitByte s' sep with
           | [] => [String c EmptyString]
           | w :: ws => String c w :: ws
           end
  end.

(** [strings.ReplaceAll] of a one-byte substring by a string *)
Fixpoint ReplaceByte (s : string) (old : ascii) (new : string) : string :=
  match s with
  | EmptyString => EmptyString
  | String c s' =>
      if Ascii.eqb c old then new ++ ReplaceByte s' old new
      else String c (ReplaceByte s' old new)
  end.

(** [strings.ReplaceAll] of a non-empty substring: scan left to right, an
    occurrence is skipped as a whole. [skip] counts the bytes of the current
    occurrence still to drop. *)
Fixpoint replace_from (skip : nat) (s old new : string) : string :=
  match s with
  | EmptyString => EmptyString
  | String c s' =>
      match skip with
      | S k => replace_from k s' old new
      | O => if HasPrefix s old
             then new ++ replace_from (String.length old - 1) s' old new
             else String c (replace_from 0 s' old new)
      end
  end.

Definition ReplaceAll (s old new : string) : string := replace_from 0 s old new.

(** ** White space *)

Definition bytes (l : list nat) : string :=
  fold_right (fun n s => String (ascii_of_nat n) s) EmptyString l.

(** The encodings of the runes [unicode.IsSpace] accepts. *)
Definition go_spaces : list string :=
  [bytes [9]; bytes [10]; bytes [11]; bytes [12]; bytes [13]; bytes [32];
   bytes [194; 133]; bytes [194; 160]; bytes [225; 154; 128];
   bytes [226; 128; 128]; bytes [226; 128; 129]; bytes [226; 128; 130];
   bytes [226; 128; 131]; bytes [226; 128; 132]; bytes [226; 128; 133];
   bytes [226; 128; 134]; bytes [226; 128; 135]; bytes [226; 128; 136];
   bytes [226; 128; 137]; bytes [226; 128; 138]; bytes [226; 128; 168];
   bytes [226; 128; 169]; bytes [226; 128; 175]; bytes [226; 129; 159];
   bytes [227; 128; 128]].

(** Each pass removes at least one byte, so [len s] passes are enough. *)
Fixpoint trim_left_n (n : nat) (s : string) : string :=
  match n with
  | O => s
  | S n' => match List.find (HasPrefix s) go_spaces with
            | Some w => trim_left_n n' (drop_str (String.length w) s)
            | None => s
            end
  end.

Fixpoint trim_right_n (n : nat) (s : string) : string :=
  match n with
  | O => s
  | S n' => match List.find (HasSuffix s) go_spaces with
            | Some w => trim_right_n n' (take_str (String.length s - String.length w) s)
            | None => s
            end
  end.

Definition TrimSpace (s : string) : string :=
  let l := trim_left_n (String.length s) s in
  trim_right_n (String.length l) l.

(** ** Case mapping *)

Definition lower_byte (c : ascii) : ascii :=
  if is_upper c then ascii_of_nat (nat_of_ascii c + 32) else c.
Definition upper_byte (c : ascii) : ascii :=
  if is_lower c then ascii_of_nat (nat_of_ascii c - 32) else c.

Class UnicodeTables := {
  unicode_lower : string -> string;
  unicode_upper : string -> string;
  unicode_fold_eq : string -> string -> bool
}.

Section Case.
Context `{UnicodeTables}.

Definition ToLower (s : string) : string :=
  if forallb_str is_ascii s then map_str lower_byte s else unicode_lower s.

Definition ToUpper (s : string) : string :=
  if forallb_str is_ascii s then map_str upper_byte s else unicode_upper s.

Definition EqualFold (s t : string) : bool :=
  if forallb_str is_ascii s && forallb_str is_ascii t
  then String.eqb (map_str lower_byte s) (map_str lower_byte t)
  else unicode_fold_eq s t.
End Case.

(** ** Trimming a text without white space *)

Lemma forallb_drop_str p n s : forallb_str p s = true -> forallb_str p (drop_str n s) = true.
Proof.
  revert s. induction n; intros [|c s]; simpl; try done. intros [_ ?]%andb_true_iff. auto.
Qed.

Lemma HasPrefix_chars p s w : HasPrefix s w = true -> forallb_str p s = true -> forallb_str p w = true.
Proof.
  revert s. induction w as [|a w IH]; intros [|c s]; simpl; try done.
  rewrite !andb_true_iff. intros [->%Ascii.eqb_eq Hp] [? ?]. eauto.
Qed.

Lemma HasSuffix_chars p s w : HasSuffix s w = true -> forallb_str p s = true -> forallb_str p w = true.
Proof.
  unfold HasSuffix. destruct (Nat.ltb _ _); [done|]. intros <-%String.eqb_eq. apply forallb_drop_str.
Qed.

(** The characters no encoding of a space contains: ASCII and printable. *)
Definition graphic (c : ascii) : bool := byte_in 33 126 c.

Lemma find_spaces_None P s :
  (forall w, P w = true -> forallb_str graphic s = true -> forallb_str graphic w = true) ->
  forallb_str graphic s = true -> List.find P go_spaces = None.
Proof.
  intros HP Hs. destruct (List.find P go_spaces) as [w|] eqn:E; [|done].
  apply List.find_some in E as [Hin Hw]. specialize (HP w Hw Hs).
  assert (forallb (fun w => negb (forallb_str graphic w)) go_spaces = true) as Hall by reflexivity.
  rewrite forallb_forall in Hall. specialize (Hall w Hin). by rewrite HP in Hall.
Qed.

Lemma TrimSpace_graphic s : forallb_str graphic s = true -> TrimSpace s = s.
Proof.
  intros Hs. unfold TrimSpace.
  assert (trim_left_n (String.length s) s = s) as ->.
  { destruct (String.length s); [done|]. cbn -[go_spaces].
    rewrite (find_spaces_None _ s); [done| |done]. intros w. apply HasPrefix_chars. }
  destruct (String.length s); [done|]. cbn -[go_spaces].
  rewrite (find_spaces_None _ s); [done| |done]. intros w. apply HasSuffix_chars.
Qed.

Lemma append_cons c u t : (String c u ++ t)%string = String c (u ++ t).
Proof. done. Qed.
Lemma append_nil t : ("" ++ t)%string = t.
Proof. done. Qed.

Lemma take_drop_str n s : (take_str n s ++ drop_str n s)%string = s.
Proof.
  revert s. induction n as [|n IH]; intros [|c s]; [done..|].
  exact (f_equal (String c) (IH s)).
Qed.

Lemma drop_str_app r p : drop_str (String.length r) (r ++ p) = p.
Proof. induction r; [done|]. done. Qed.

Lemma forallb_str_append p s t : forallb_str p (s ++ t) = forallb_str p s && forallb_str p t.
Proof. induction s as [|c s IH]; [done|]. rewrite append_cons. simpl. by rewrite IH, andb_assoc. Qed.

Lemma length_app_str (s t : string) : String.length (s ++ t) = (String.length s + String.length t)%nat.
Proof. induction s as [|c s IH]; [done|]. exact (f_equal S IH). Qed.

Lemma take_str_app r p : take_str (String.length r) (r ++ p) = r.
Proof. induction r as [|c r IH]; [by destruct p|]. exact (f_equal (String c) IH). Qed.

Lemma HasPrefix_append p t : HasPrefix (p ++ t) p = true.
Proof.
  induction p as [|c p IH]; [by destruct t|]. change (String c p ++ t)%string with (String c (p ++ t)).
  simpl. by rewrite Ascii.eqb_refl.
Qed.

Lemma TrimPrefix_append p t : TrimPrefix (p ++ t) p = t.
Proof. unfold TrimPrefix. by rewrite HasPrefix_append, drop_str_app. Qed.
