(* ===== verification/GoNet.v ===== *)
(** Literal IP addresses as Go's [net.ParseIP], [IP.To4] and [IP.String] treat
    them.  An address is its sixteen bytes; IPv4 is the mapped form. *)

From S2P Require Import Prelude GoText.
From Stdlib Require Import Ascii String.
Open Scope Z_scope.

Abbreviation IP := (list Z).

Definition code (c : ascii) : Z := Z.of_nat (nat_of_ascii c).

(** [idna.Lookup.ToASCII] of [golang.org/x/net/idna]. *)
Class Idna := { idna_ToASCII : string -> option string }.

(** *** Dotted decimal *)

Fixpoint decimal (acc : Z) (s : string) : Z :=
  match s with
  | EmptyString => acc
  | String c s' => decimal (10 * acc + (code c - 48)) s'
  end.

(** One field: digits only, no leading zero, at most 255. *)
Definition ipv4_field (s : string) : option Z :=
  match s with
  | EmptyString => None
  | String c rest =>
      if forallb_str is_digit s && (String.eqb rest EmptyString || negb (Ascii.eqb c "0"))
      then let v := decimal 0 s in if v <=? 255 then Some v else None
      else None
  end.

Definition parseIPv4Fields (s : string) : option (list Z) :=
  match SplitByte s "." with
  | [a; b; c; d] =>
      a' ← ipv4_field a; b' ← ipv4_field b; c' ← ipv4_field c; d' ← ipv4_field d;
      Some [a'; b'; c'; d']
  | _ => None
  end.

Definition v4_prefix : list Z := [0; 0; 0; 0; 0; 0; 0; 0; 0; 0; 255; 255].

(** *** Colon-separated hexadecimal *)

Definition hex_value (c : ascii) : option Z :=
  if is_digit c then Some (code c - 48)
  else if byte_in 97 102 c then Some (code c - 87)
  else if byte_in 65 70 c then Some (code c - 55)
  else None.

(** The leading hexadecimal digits: their number, their value, the rest; the
    fifth digit is an error. *)
Fixpoint scan_group (off : nat) (acc : Z) (s : string) : option (nat * Z * string) :=
  match s with
  | EmptyString => Some (off, acc, s)
  | String c s' =>
      match hex_value c with
      | None => Some (off, acc, s)
      | Some d => if Nat.ltb 3 off then None else scan_group (S off) (16 * acc + d) s'
      end
  end.

(** The loop of [parseIPv6]: [i] bytes are known in [acc] (reversed), [ell] is
    the position of the ellipsis.  A pass consumes two bytes of the address, so
    nine passes are more than enough. *)
Fixpoint ipv6_groups (fuel : nat) (acc : list Z) (ell : option nat) (s : string)
    : option (list Z * option nat * string) :=
  let i := List.length acc in
  match fuel with
  | O => None
  | S fuel' =>
      if Nat.leb 16 i then Some (acc, ell, s)
      else match scan_group 0 0 s with
           | None => None
           | Some (O, _, _) => None
           | Some (S _, v, rest) =>
               match rest with
               | String "." _ =>
                   if (match ell with None => negb (Nat.eqb i 12) | Some _ => false end)
                      || Nat.ltb 16 (i + 4) then None
                   else f ← parseIPv4Fields s; Some ((rev f ++ acc)%list, ell, EmptyString)
               | EmptyString => Some (v mod 256 :: v / 256 :: acc, ell, EmptyString)
               | String ":" EmptyString => None
               | String ":" (String ":" rest') =>
                   match ell with
                   | Some _ => None
                   | None =>
                       let acc' := v mod 256 :: v / 256 :: acc in
                       match rest' with
                       | EmptyString => Some (acc', Some (List.length acc'), EmptyString)
                       | _ => ipv6_groups fuel' acc' (Some (List.length acc')) rest'
                       end
                   end
               | String ":" rest' => ipv6_groups fuel' (v mod 256 :: v / 256 :: acc) ell rest'
               | _ => None
               end
           end
  end.

Definition parseIPv6 (s : string) : option IP :=
  let '(ell0, s0) := if HasPrefix s "::" then (Some 0%nat, drop_str 2 s) else (None, s) in
  match ell0, s0 with
  | Some _, EmptyString => Some (replicate 16 0)
  | _, _ =>
      '(acc, ell, rest) ← ipv6_groups 9 [] ell0 s0;
      match rest with
      | String _ _ => None
      | EmptyString =>
          let ip := rev acc in
          match ell with
          | None => if Nat.eqb (List.length ip) 16 then Some ip else None
          | Some e =>
              if Nat.leb 16 (List.length ip) then None
              else Some (take e ip ++ replicate (16 - List.length ip) 0 ++ drop e ip)%list
          end
      end
  end.

(** The first of [.], [:] and [%] decides; a zone is not accepted. *)
Fixpoint first_separator (s : string) : option ascii :=
  match s with
  | EmptyString => None
  | String c s' =>
      if existsb (Ascii.eqb c) ["."; ":"; "%"]%char then Some c else first_separator s'
  end.

Definition ParseIP (s : string) : option IP :=
  match first_separator s with
  | Some "."%char => f ← parseIPv4Fields s; Some (v4_prefix ++ f)%list
  | Some ":"%char =>
      if ContainsAny s ["%"%char] then None else parseIPv6 s
  | _ => None
  end.

Definition To4 (ip : IP) : option (list Z) :=
  if bool_decide (take 12 ip = v4_prefix) && Nat.eqb (List.length ip) 16 then Some (drop 12 ip) else None.

(** *** Printing *)

Fixpoint digits_str (base : Z) (fuel : nat) (v : Z) (acc : string) : string :=
  match fuel with
  | O => acc
  | S f =>
      let d := v mod base in
      let c := if d <? 10 then ascii_of_nat (Z.to_nat (48 + d)) else ascii_of_nat (Z.to_nat (87 + d)) in
      if v <? base then String c acc else digits_str base f (v / base) (String c acc)
  end.
(** Decimal text of a number below 10^20, and hexadecimal of one below 2^16. *)
Definition itoa (v : Z) : string :=
  if v <? 0 then String "-" (digits_str 10 20 (- v) EmptyString) else digits_str 10 20 v EmptyString.
Definition hex16 (v : Z) : string := digits_str 16 4 v EmptyString.

Fixpoint join (sep : string) (l : list string) : string :=
  match l with
  | [] => EmptyString
  | [x] => x
  | x :: l' => (x ++ sep ++ join sep l')%string
  end.

Fixpoint groups16 (ip : list Z) : list Z :=
  match ip with
  | h :: l :: rest => (256 * h + l) :: groups16 rest
  | _ => []
  end.

Fixpoint zero_run (l : list Z) : nat :=
  match l with
  | 0 :: l' => S (zero_run l')
  | _ => O
  end.

(** The first longest run of at least two zero groups: its start and length. *)
Fixpoint longest_run (i : nat) (best : nat * nat) (l : list Z) : nat * nat :=
  match l with
  | [] => best
  | _ :: l' =>
      let n := zero_run l in
      longest_run (S i) (if Nat.leb 2 n && Nat.ltb best.2 n then (i, n) else best) l'
  end.

Definition IPString (ip : IP) : string :=
  match To4 ip with
  | Some f => join "." (map itoa f)
  | None =>
      let g := groups16 ip in
      match longest_run 0 (0%nat, 0%nat) g with
      | (_, O) => join ":" (map hex16 g)
      | (start, n) =>
          (join ":" (map hex16 (take start g)) ++ "::" ++
           join ":" (map hex16 (drop (start + n) g)))%string
      end
  end.

Example ip_v4 : IPString <$> ParseIP "203.0.113.10" = Some "203.0.113.10"%string.
Proof. reflexivity. Qed.
Example ip_v4_zero : ParseIP "203.0.113.010" = None.
Proof. reflexivity. Qed.
Example ip_v6 : IPString <$> ParseIP "2001:DB8:0:0:1::1" = Some "2001:db8::1:0:0:1"%string.
Proof. reflexivity. Qed.
Example ip_v6_mapped : IPString <$> ParseIP "::ffff:10.0.0.1" = Some "10.0.0.1"%string.
Proof. reflexivity. Qed.
Example ip_v6_bad : ParseIP "1:2:3:4:5:6:7:8::" = None.
Proof. reflexivity. Qed.
Example ip_v6_loopback : IPString <$> ParseIP "::1" = Some "::1"%string.
Proof. reflexivity. Qed.

(** [strconv.Atoi]: an optional sign, then digits, within 64 bits. *)
Definition Atoi (t : string) : option Z :=
  let digits d := if negb (String.eqb d "") && forallb_str is_digit d then Some (decimal 0 d) else None in
  match t with
  | String "-" d => v ← digits d; if v <=? 2 ^ 63 then Some (- v) else None
  | String "+" d => v ← digits d; if v <? 2 ^ 63 then Some v else None
  | _ => v ← digits t; if v <? 2 ^ 63 then Some v else None
  end.

(** ** What is parsed is made of bytes *)

Definition is_byte (v : Z) : Prop := 0 <= v < 256.

Lemma code_range c : 0 <= code c < 256.
Proof. unfold code. pose proof (nat_ascii_bounded c). lia. Qed.

Lemma is_digit_code c : is_digit c = true -> 48 <= code c <= 57.
Proof. unfold is_digit, byte_in, code. intros [H1%Z.leb_le H2%Z.leb_le]%andb_true_iff. lia. Qed.

Lemma decimal_nonneg s acc : 0 <= acc -> forallb_str is_digit s = true -> 0 <= decimal acc s.
Proof.
  revert acc. induction s as [|c s IH]; simpl; [done|]. intros acc Ha [Hc Hs]%andb_true_iff.
  apply is_digit_code in Hc. apply IH; [lia|done].
Qed.

(** *** A number written in decimal is read back *)

Lemma code_digit d : 0 <= d < 10 -> code (ascii_of_nat (Z.to_nat (48 + d))) = 48 + d.
Proof. intros Hd. unfold code. rewrite nat_ascii_embedding by lia. lia. Qed.

Lemma digits_str_decimal fuel v acc :
  0 <= v < 10 ^ Z.of_nat fuel -> forallb_str is_digit acc = true ->
  decimal 0 (digits_str 10 fuel v acc) = decimal v acc /\
  forallb_str is_digit (digits_str 10 fuel v acc) = true /\ (fuel <> O -> digits_str 10 fuel v acc <> "").
Proof.
  revert v acc. induction fuel as [|f IH]; intros v acc Hv Ha.
  - simpl in Hv. assert (v = 0) as -> by lia. by split_and!.
  - rewrite Nat2Z.inj_succ, Z.pow_succ_r in Hv by lia. cbn [digits_str].
    pose proof (Z.mod_pos_bound v 10 ltac:(lia)) as Hm. rewrite (proj2 (Z.ltb_lt (v mod 10) 10)) by lia.
    set (c := ascii_of_nat _). pose proof (code_digit (v mod 10) Hm) as Hc. fold c in Hc. clearbody c.
    assert (is_digit c = true) as Hd.
    { unfold is_digit, byte_in. change (Z.of_nat (nat_of_ascii c)) with (code c). rewrite Hc.
      apply andb_true_iff. rewrite !Z.leb_le. lia. }
    destruct (Z.ltb_spec v 10) as [Hlt|Hge].
    + split_and!; [|cbn; by rewrite Hd, Ha|done]. cbn [decimal]. f_equal. rewrite Hc, Z.mod_small; lia.
    + destruct (IH (v / 10) (String c acc)) as (E & E2 & E3).
      { split; [apply Z.div_pos; lia|apply Z.div_lt_upper_bound; lia]. }
      { cbn. by rewrite Hd, Ha. }
      split_and!; [|done|]. { rewrite E. cbn [decimal]. f_equal. pose proof (Z.div_mod v 10 ltac:(lia)). lia. }
      intros _. apply E3. intros ->. simpl in Hv. lia.
Qed.

Lemma itoa_digits v : 0 <= v < 2 ^ 63 -> forallb_str is_digit (itoa v) = true /\ itoa v <> "" /\ decimal 0 (itoa v) = v.
Proof.
  intros Hv. unfold itoa. rewrite (proj2 (Z.ltb_ge v 0)) by lia.
  destruct (digits_str_decimal 20 v "" ltac:(split; [lia|apply Z.lt_trans with (2 ^ 63); [lia|reflexivity]]) eq_refl)
    as (E & Hd & Hne). split_and!; [done|by apply Hne|exact E].
Qed.

Lemma Atoi_itoa v : 0 <= v < 2 ^ 63 -> Atoi (itoa v) = Some v.
Proof.
  intros Hv. destruct (itoa_digits v Hv) as (Hd & Hne & E). unfold Atoi.
  assert (negb (String.eqb (itoa v) "") && forallb_str is_digit (itoa v) = true) as Hok.
  { rewrite Hd, andb_true_r. apply negb_true_iff. by apply String.eqb_neq. }
  destruct (itoa v) as [|c t]; [done|]. cbn [forallb_str] in Hd. apply andb_true_iff in Hd as [Hc _].
  destruct c as [[] [] [] [] [] [] [] []]; try discriminate Hc;
    (rewrite Hok; cbn [mbind option_bind]; rewrite E; by rewrite (proj2 (Z.ltb_lt v (2 ^ 63))) by lia).
Qed.

Lemma ipv4_field_byte s v : ipv4_field s = Some v -> is_byte v.
Proof.
  unfold ipv4_field, is_byte. destruct s as [|c s]; [done|].
  destruct (forallb_str is_digit (String c s) && _) eqn:Hd; [|done]. apply andb_true_iff in Hd as [Hd _].
  pose proof (decimal_nonneg (String c s) 0 ltac:(lia) Hd) as Hn. cbv zeta. revert Hn.
  generalize (decimal 0 (String c s)) as x. intros x Hn. destruct (Z.leb_spec x 255); intros [= <-]; lia.
Qed.

Lemma parseIPv4Fields_bytes s l : parseIPv4Fields s = Some l -> Forall is_byte l.
Proof.
  unfold parseIPv4Fields. intros E. destruct (SplitByte s ".") as [|a [|b [|c [|d []]]]]; try discriminate E.
  destruct (ipv4_field a) eqn:Ha, (ipv4_field b) eqn:Hb, (ipv4_field c) eqn:Hc, (ipv4_field d) eqn:Hd; try discriminate E.
  injection E as <-. repeat (apply Forall_cons_2; [by eapply ipv4_field_byte|]). apply Forall_nil_2.
Qed.

Lemma hex_value_range c d : hex_value c = Some d -> 0 <= d < 16.
Proof.
  unfold hex_value, is_digit, byte_in, code. intros E. repeat case_match; try done; injection E as <-;
    repeat match goal with H : _ && _ = true |- _ => apply andb_true_iff in H as [?%Z.leb_le ?%Z.leb_le] end; lia.
Qed.

Lemma scan_group_range s off acc n v rest :
  (off <= 4)%nat -> 0 <= acc < 16 ^ Z.of_nat off -> scan_group off acc s = Some (n, v, rest) -> 0 <= v < 65536.
Proof.
  revert off acc. induction s as [|c s IH]; intros off acc Hoff Ha E; simpl in E.
  - injection E as <- <- <-. pose proof (Z.pow_le_mono_r 16 (Z.of_nat off) 4 ltac:(lia) ltac:(lia)). lia.
  - destruct (hex_value c) as [d|] eqn:Hd.
    + destruct (Nat.ltb_spec 3 off); [discriminate E|]. apply hex_value_range in Hd.
      apply IH in E; [done|lia|]. rewrite Nat2Z.inj_succ, Z.pow_succ_r by lia. lia.
    + injection E as <- <- <-. pose proof (Z.pow_le_mono_r 16 (Z.of_nat off) 4 ltac:(lia) ltac:(lia)). lia.
Qed.

Lemma ipv6_groups_bytes fuel acc ell s acc' ell' rest :
  Forall is_byte acc -> ipv6_groups fuel acc ell s = Some (acc', ell', rest) -> Forall is_byte acc'.
Proof.
  revert acc ell s. induction fuel as [|fuel IH]; intros acc ell s Ha E; [discriminate E|].
  cbn [ipv6_groups] in E. destruct (Nat.leb 16 (List.length acc)); [by injection E as <- <- <-|].
  destruct (scan_group 0 0 s) as [[[n v] r]|] eqn:Es; [|discriminate E].
  apply scan_group_range in Es; [|lia|simpl; lia].
  assert (Forall is_byte (v mod 256 :: v / 256 :: acc)) as Hv.
  { apply Forall_cons_2; [apply Z.mod_pos_bound; lia|]. apply Forall_cons_2; [|done].
    split; [apply Z.div_pos|apply Z.div_lt_upper_bound]; lia. }
  repeat case_match; simplify_eq; try done; try (by eapply IH; [|exact E]).
  all: apply bind_Some in E as (f & Hf & [= <- <- <-]); apply Forall_app; split; [|done].
  all: apply Forall_rev; by eapply parseIPv4Fields_bytes.
Qed.

Lemma parseIPv4Fields_length s l : parseIPv4Fields s = Some l -> List.length l = 4%nat.
Proof.
  unfold parseIPv4Fields. intros E. destruct (SplitByte s ".") as [|a [|b [|c [|d []]]]]; try discriminate E.
  destruct (ipv4_field a), (ipv4_field b), (ipv4_field c), (ipv4_field d); try discriminate E. by injection E as <-.
Qed.

(** Where the bytes of a parsed address come from. *)
Lemma ParseIP_shape s ip :
  ParseIP s = Some ip ->
  ip = replicate 16 0 \/ (exists f, parseIPv4Fields s = Some f /\ ip = (v4_prefix ++ f)%list) \/
  exists ell0 s0 acc ell, ipv6_groups 9 [] ell0 s0 = Some (acc, ell, EmptyString) /\ let l := rev acc in
    (ip = l /\ List.length l = 16%nat \/
     exists e, (List.length l < 16)%nat /\ ip = (take e l ++ replicate (16 - List.length l) 0 ++ drop e l)%list).
Proof.
  unfold ParseIP. destruct (first_separator s) as [c|]; [|done]. intros E.
  assert ((exists f, parseIPv4Fields s = Some f /\ ip = (v4_prefix ++ f)%list) \/ parseIPv6 s = Some ip) as [Hv4|E6];
    [|by right; left|].
  { repeat case_match; try done; [|by right]. left. apply bind_Some in E as (f & Hf & [= <-]). by exists f. }
  unfold parseIPv6 in E6. destruct (if HasPrefix s "::" then _ else _) as [ell0 s0].
  assert (forall x, (x ≫= (fun '(acc, ell, rest) =>
          match rest with
          | String _ _ => None
          | EmptyString => match ell with
              | None => if Nat.eqb (List.length (rev acc)) 16 then Some (rev acc) else None
              | Some e => if Nat.leb 16 (List.length (rev acc)) then None
                          else Some (take e (rev acc) ++ replicate (16 - List.length (rev acc)) 0 ++ drop e (rev acc))%list
              end
          end)) = Some ip ->
        exists acc ell, x = Some (acc, ell, EmptyString) /\ let l := rev acc in
          (ip = l /\ List.length l = 16%nat \/
           exists e, (List.length l < 16)%nat /\ ip = (take e l ++ replicate (16 - List.length l) 0 ++ drop e l)%list)) as Hx.
  { intros x Ex. apply bind_Some in Ex as ([[acc ell] rest] & -> & Ex). exists acc, ell.
    destruct rest; [|discriminate Ex]. split; [done|]. cbv zeta. destruct ell as [e|]; case_match; simplify_eq.
    - right. exists e. split; [by apply Nat.leb_gt|done].
    - left. split; [done|by apply Nat.eqb_eq]. }
  destruct ell0, s0; simplify_eq; auto; right; right; eexists _, _; by apply Hx.
Qed.

Lemma ParseIP_bytes s ip : ParseIP s = Some ip -> Forall is_byte ip.
Proof.
  assert (forall n, Forall is_byte (replicate n 0)) as Hzero.
  { intros n. apply Forall_replicate. unfold is_byte. lia. }
  intros [->|[(f & Hf & ->)|(ell0 & s0 & acc & ell & Eg & Hip)]]%ParseIP_shape.
  - apply Hzero.
  - apply Forall_app. split; [|by eapply parseIPv4Fields_bytes]. unfold v4_prefix, is_byte. repeat constructor; lia.
  - apply ipv6_groups_bytes in Eg; [|constructor]. apply Forall_rev in Eg. cbv zeta in Hip.
    destruct Hip as [[-> _]|(e & _ & ->)]; [done|].
    repeat (apply Forall_app; split); [by apply Forall_take|apply Hzero|by apply Forall_drop].
Qed.

Lemma ParseIP_length s ip : ParseIP s = Some ip -> List.length ip = 16%nat.
Proof.
  intros [->|[(f & Hf & ->)|(ell0 & s0 & acc & ell & _ & Hip)]]%ParseIP_shape; [done| |].
  - apply parseIPv4Fields_length in Hf. rewrite length_app, Hf. done.
  - cbv zeta in Hip. destruct Hip as [[-> Hl]|(e & Hl & ->)]; [done|].
    rewrite !length_app, length_replicate, length_take, length_drop. lia.
Qed.
