(* ===== verification/Timestamps.v ===== *)
(** Timestamps: the text the server stores and the order SQLite sees.

    Every time column holds [t.UTC().Format(time.RFC3339Nano)], and the SQL
    compares those columns as text (BINARY collation, byte by byte).  A column
    is represented by the instant it was formatted from, in nanoseconds since
    the epoch, and SQL's [<] is [sql_lt], the byte order of the texts: the
    [2006-01-02T15:04:05] part has fixed width for the years 0 to 9999 and
    orders as the number of whole seconds; the rest is the fraction, from which
    RFC3339Nano removes the trailing zeros (and the point, when nothing is
    left), followed by [Z]. *)

From S2P Require Import Prelude.
From Stdlib Require Import Ascii String.
Open Scope Z_scope.

Abbreviation Stamp := Z.

Definition second : Z := 1000000000.
Definition minute : Z := 60 * second.
Definition hour : Z := 60 * minute.

(** The nine decimal digits of the nanoseconds within the second. *)
Fixpoint digits_of (n : nat) (v : Z) : list Z :=
  match n with
  | O => []
  | S n' => digits_of n' (v / 10) ++ [v mod 10]
  end.

Fixpoint drop_zeros (l : list Z) : list Z :=
  match l with
  | 0 :: l' => drop_zeros l'
  | _ => l
  end.

Definition digit_char (d : Z) : ascii := ascii_of_nat (48 + Z.to_nat d).

(** What follows the seconds in the text: the fraction, then the zone. *)
Definition fraction_text (ns : Z) : string :=
  match rev (drop_zeros (rev (digits_of 9 ns))) with
  | [] => "Z"%string
  | ds => String "." (fold_right (fun d s => String (digit_char d) s) "Z"%string ds)
  end.

Definition seconds_of (t : Stamp) : Z := t / second.

(** SQL's [a < b] and [a <= b] on two timestamp columns. *)
Definition sql_lt (a b : Stamp) : bool :=
  if seconds_of a <? seconds_of b then true
  else if seconds_of b <? seconds_of a then false
  else String.ltb (fraction_text (a mod second)) (fraction_text (b mod second)).

Definition sql_le (a b : Stamp) : bool := negb (sql_lt b a).

(** ** The order on texts *)

Lemma String_ltb_irrefl s : String.ltb s s = false.
Proof.
  unfold String.ltb. destruct (String.compare s s) eqn:E; try done.
  pose proof (String.compare_antisym s s) as H. by rewrite E in H.
Qed.

Lemma String_ltb_asym s t : String.ltb s t = true -> String.ltb t s = false.
Proof.
  unfold String.ltb. pose proof (String.compare_antisym t s) as H.
  by destruct (String.compare s t), (String.compare t s).
Qed.

Lemma Ascii_compare_N a b : Ascii.compare a b = N.compare (N_of_ascii a) (N_of_ascii b).
Proof. done. Qed.

(** [>=] on strings is transitive. *)
Lemma String_ltb_ge_trans s t u :
  String.ltb s t = false -> String.ltb t u = false -> String.ltb s u = false.
Proof.
  unfold String.ltb. revert t u. induction s as [|a s IH]; intros [|b t] [|c u]; simpl; try done.
  rewrite !Ascii_compare_N.
  destruct (N.compare_spec (N_of_ascii a) (N_of_ascii b)),
    (N.compare_spec (N_of_ascii b) (N_of_ascii c)),
    (N.compare_spec (N_of_ascii a) (N_of_ascii c)); try done; try lia. apply IH.
Qed.

Lemma sql_lt_ge_trans a b c : sql_lt a b = false -> sql_lt b c = false -> sql_lt a c = false.
Proof.
  unfold sql_lt. repeat case_match; try done; try lia. intros; by eapply String_ltb_ge_trans.
Qed.

Lemma sql_lt_irrefl a : sql_lt a a = false.
Proof. unfold sql_lt. by rewrite Z.ltb_irrefl, String_ltb_irrefl. Qed.

Lemma sql_le_refl a : sql_le a a = true.
Proof. unfold sql_le. by rewrite sql_lt_irrefl. Qed.

Lemma sql_lt_asym a b : sql_lt a b = true -> sql_lt b a = false.
Proof.
  unfold sql_lt. repeat case_match; try done; try lia. apply String_ltb_asym.
Qed.

(** Instants in different seconds compare as the instants do. *)
Lemma sql_lt_seconds a b : seconds_of a < seconds_of b -> sql_lt a b = true.
Proof. intros H. unfold sql_lt. by apply Z.ltb_lt in H as ->. Qed.

(** One whole second apart is enough for the texts to order correctly ... *)
Lemma sql_lt_apart a b : a + second <= b -> sql_lt a b = true.
Proof.
  intros H. apply sql_lt_seconds. unfold seconds_of, second in *.
  apply Z.lt_le_trans with ((a + 1000000000) / 1000000000).
  - rewrite <- (Z.mul_1_l 1000000000) at 2. rewrite Z.div_add by lia. lia.
  - apply Z.div_le_mono; lia.
Qed.

(** ... and an answer of the comparison is never wrong by a second or more. *)
Lemma sql_lt_sound a b : sql_lt a b = true -> a < b + second.
Proof.
  intros H. destruct (Z.le_gt_cases (b + second) a) as [Hle|]; [|lia].
  apply sql_lt_apart, sql_lt_asym in Hle. congruence.
Qed.

Lemma sql_le_sound a b : sql_le a b = true -> a < b + second.
Proof.
  unfold sql_le. rewrite negb_true_iff. intros H.
  destruct (Z.le_gt_cases (b + second) a) as [Hle|]; [|lia].
  apply sql_lt_apart in Hle. congruence.
Qed.

#[export] Hint Resolve sql_le_refl sql_lt_irrefl sql_lt_asym sql_lt_apart : stamps.
