(* ===== verification/GoTime.v ===== *)
(** [time.Time.Format(time.RFC3339Nano)] in UTC: the text of an instant, as the
    database stores it and as [encoding/json] prints it; and the proof that
    comparing such texts byte by byte, as SQLite does with the time columns, is
    [Timestamps.sql_lt]. *)

From S2P Require Import Prelude GoText Timestamps.
From Stdlib Require Import Ascii String.
Open Scope Z_scope.

(** ** Dates

    The proleptic Gregorian calendar repeats every 400 years, which are 146097
    days.  A period starts on a first of March, so that the leap day comes last. *)

Definition day_seconds : Z := 86400.
Definition period : Z := 146097.

(** The first of March of the year 0, in days before 1970-01-01. *)
Definition epoch_shift : Z := 719468.

(** The year of a period, and the day within that year, of a day of the period. *)
Definition year_of_period (doe : Z) : Z := (doe - doe / 1460 + doe / 36524 - doe / 146096) / 365.
Definition day_of_year (doe : Z) : Z :=
  let yoe := year_of_period doe in doe - (365 * yoe + yoe / 4 - yoe / 100).

(** The month, counted from March. *)
Definition march_month (doy : Z) : Z := (5 * doy + 2) / 153.
Definition month_of (mp : Z) : Z := if mp <? 10 then mp + 3 else mp - 9.

(** Year, month and day of a number of days since 1970-01-01. *)
Definition date_of (days : Z) : Z * Z * Z :=
  let z := days + epoch_shift in
  let doe := z mod period in
  let doy := day_of_year doe in
  let mp := march_month doy in
  let month := month_of mp in
  let year := year_of_period doe + 400 * (z / period) + (if month <=? 2 then 1 else 0) in
  (year, month, doy - (153 * mp + 2) / 5 + 1).

(** ** Texts *)

Definition digit_string (ds : list Z) : string := fold_right (fun d s => String (digit_char d) s) EmptyString ds.

(** A number in [n] digits, with leading zeros. *)
Definition padded (n : nat) (v : Z) : string := digit_string (digits_of n v).

Definition date_text (days : Z) : string :=
  let '(y, m, d) := date_of days in (padded 4 y ++ "-" ++ padded 2 m ++ "-" ++ padded 2 d)%string.

Definition clock_text (s : Z) : string :=
  (padded 2 (s / 3600) ++ ":" ++ padded 2 (s / 60 mod 60) ++ ":" ++ padded 2 (s mod 60))%string.

Definition RFC3339Nano (t : Stamp) : string :=
  let s := seconds_of t in
  (date_text (s / day_seconds) ++ "T" ++ clock_text (s mod day_seconds) ++ fraction_text (t mod second))%string.

Example rfc1 : RFC3339Nano 0 = "1970-01-01T00:00:00Z"%string.
Proof. vm_compute. reflexivity. Qed.
Example rfc2 : RFC3339Nano 1709210096789000000 = "2024-02-29T12:34:56.789Z"%string.
Proof. vm_compute. reflexivity. Qed.
Example rfc3 : RFC3339Nano (951782400 * second - 1) = "2000-02-28T23:59:59.999999999Z"%string.
Proof. vm_compute. reflexivity. Qed.
Example rfc4 : RFC3339Nano (- 1) = "1969-12-31T23:59:59.999999999Z"%string.
Proof. vm_compute. reflexivity. Qed.

(** ** The order of concatenated texts *)

Definition then_compare (r s : comparison) : comparison := match r with Eq => s | _ => r end.

Lemma compare_app a b c d :
  String.length a = String.length c ->
  String.compare (a ++ b) (c ++ d) = then_compare (String.compare a c) (String.compare b d).
Proof.
  revert c. induction a as [|x a IH]; intros [|y c]; [done..|]. intros [= Hl].
  rewrite !append_cons. cbn [String.compare]. rewrite IH by done. by destruct (Ascii.compare x y).
Qed.

Lemma compare_refl s : String.compare s s = Eq.
Proof.
  pose proof (String.compare_antisym s s). by destruct (String.compare s s).
Qed.

(** A common separator. *)
Lemma compare_sep a b c d e :
  String.length a = String.length c ->
  String.compare (a ++ e ++ b) (c ++ e ++ d) = then_compare (String.compare a c) (String.compare b d).
Proof. intros Hl. by rewrite compare_app, (compare_app e) , compare_refl. Qed.

Lemma ltb_compare s t : String.ltb s t = match String.compare s t with Lt => true | _ => false end.
Proof. done. Qed.

(** ** Numbers of fixed width *)

Lemma digit_string_app a b : digit_string (a ++ b) = (digit_string a ++ digit_string b)%string.
Proof. induction a as [|d a IH]; [done|]. exact (f_equal (String (digit_char d)) IH). Qed.

Lemma padded_S n v : padded (S n) v = (padded n (v / 10) ++ String (digit_char (v mod 10)) "")%string.
Proof. unfold padded. cbn [digits_of]. by rewrite digit_string_app. Qed.

Lemma padded_length n v : String.length (padded n v) = n.
Proof.
  revert v. induction n as [|n IH]; intros v; [done|].
  rewrite padded_S, length_app_str, IH. simpl. lia.
Qed.

Lemma digit_compare a b :
  0 <= a < 10 -> 0 <= b < 10 -> Ascii.compare (digit_char a) (digit_char b) = Z.compare a b.
Proof.
  intros Ha Hb. unfold digit_char. rewrite Ascii_compare_N. unfold N_of_ascii at 1 2.
  assert (forall x, 0 <= x < 10 -> x = 0 \/ x = 1 \/ x = 2 \/ x = 3 \/ x = 4 \/ x = 5 \/ x = 6 \/ x = 7 \/ x = 8 \/ x = 9)
    as Hx by lia.
  apply Hx in Ha, Hb.
  destruct Ha as [->|[->|[->|[->|[->|[->|[->|[->|[->| ->]]]]]]]]],
    Hb as [->|[->|[->|[->|[->|[->|[->|[->|[->| ->]]]]]]]]]; reflexivity.
Qed.

Lemma padded_compare n v w :
  0 <= v < 10 ^ Z.of_nat n -> 0 <= w < 10 ^ Z.of_nat n ->
  String.compare (padded n v) (padded n w) = Z.compare v w.
Proof.
  revert v w. induction n as [|n IH]; intros v w Hv Hw.
  - simpl in *. assert (v = 0) as -> by lia. assert (w = 0) as -> by lia. done.
  - rewrite !padded_S, compare_app by (by rewrite !padded_length).
    rewrite Nat2Z.inj_succ, Z.pow_succ_r in Hv, Hw by lia.
    rewrite IH by (split; [apply Z.div_pos|apply Z.div_lt_upper_bound]; lia).
    pose proof (Z.mod_pos_bound v 10). pose proof (Z.mod_pos_bound w 10).
    cbn [String.compare]. rewrite digit_compare by lia.
    pose proof (Z.div_mod v 10). pose proof (Z.div_mod w 10).
    destruct (Z.compare_spec (v / 10) (w / 10)), (Z.compare_spec (v mod 10) (w mod 10)),
      (Z.compare_spec v w); cbn [then_compare]; try done; lia.
Qed.

(** ** Dates *)

(** A test of the numbers below [n]. *)
Definition all_below (n : nat) (P : Z -> bool) : bool := forallb (fun k => P (Z.of_nat k)) (seq 0 n).

Lemma all_below_at n P k : all_below n P = true -> 0 <= k < Z.of_nat n -> P k = true.
Proof.
  intros H Hk. unfold all_below in H. rewrite forallb_forall in H.
  specialize (H (Z.to_nat k)). rewrite Z2Nat.id in H by lia. apply H, in_seq. lia.
Qed.

(** The days of a period that begin and end its year [y]. *)
Definition year_start (y : Z) : Z := 365 * y + y / 4 - y / 100.
Definition year_end (y : Z) : Z := if y =? 399 then period else year_start (y + 1).

Definition scaled (doe : Z) : Z := doe - doe / 1460 + doe / 36524 - doe / 146096.

Lemma scaled_mono a b : 0 <= a -> a <= b -> b < period -> scaled a <= scaled b.
Proof.
  intros Ha Hab. replace b with (a + Z.of_nat (Z.to_nat (b - a))) by lia.
  induction (Z.to_nat (b - a)) as [|n IH]; [rewrite Z.add_0_r; lia|].
  rewrite Nat2Z.inj_succ. intros Hb. etrans; [apply IH; lia|]. clear IH.
  set (x := a + Z.of_nat n) in *. assert (0 <= x) by lia. replace (a + Z.succ (Z.of_nat n)) with (x + 1) in * by lia.
  unfold scaled, period in *. clearbody x. clear n a b Ha Hab.
  Z.div_mod_to_equations. lia.
Qed.

Definition year_bounds (y : Z) : bool :=
  (365 * y <=? scaled (year_start y)) && (scaled (year_end y - 1) <? 365 * (y + 1)) &&
  (0 <=? year_start y) && (year_start y <? year_end y) && (year_end y <=? period) && (year_end y - year_start y <=? 366) &&
  ((y =? 399) || (year_end y =? year_start (y + 1))).

Lemma years_bounded : all_below 400 year_bounds = true.
Proof. vm_compute. reflexivity. Qed.

Lemma year_bounds_at y :
  0 <= y < 400 ->
  365 * y <= scaled (year_start y) /\ scaled (year_end y - 1) < 365 * (y + 1) /\ 0 <= year_start y < year_end y /\
  year_end y <= period /\ year_end y - year_start y <= 366 /\ (y = 399 \/ year_end y = year_start (y + 1)).
Proof.
  intros Hy. pose proof (all_below_at _ _ y years_bounded ltac:(lia)) as H. unfold year_bounds in H.
  rewrite !andb_true_iff, orb_true_iff, !Z.leb_le, !Z.ltb_lt, !Z.eqb_eq in H. naive_solver.
Qed.

Lemma year_exists doe : 0 <= doe < period -> exists y, 0 <= y < 400 /\ year_start y <= doe < year_end y.
Proof.
  intros Hd. assert (forall n : nat, (n < 400)%nat -> doe < year_end (Z.of_nat n) ->
    exists y, 0 <= y < 400 /\ year_start y <= doe < year_end y) as H.
  { induction n as [|n IH]; intros Hn He.
    - exists 0. split; [lia|]. split; [exact (proj1 Hd)|exact He].
    - destruct (Z.le_gt_cases (year_start (Z.of_nat (S n))) doe) as [|Hs].
      + exists (Z.of_nat (S n)). split; [lia|done].
      + apply IH; [lia|]. destruct (year_bounds_at (Z.of_nat n) ltac:(lia)) as (_ & _ & _ & _ & _ & [Ha|Ha]); [lia|].
        rewrite Ha. replace (Z.of_nat n + 1) with (Z.of_nat (S n)) by lia. lia. }
  apply (H 399%nat); [lia|]. exact (proj2 Hd).
Qed.

Lemma year_of_period_at y doe :
  0 <= y < 400 -> year_start y <= doe < year_end y -> year_of_period doe = y /\ day_of_year doe = doe - year_start y.
Proof.
  intros Hy Hd. destruct (year_bounds_at y Hy) as (H1 & H2 & H0 & H3 & _).
  assert (year_of_period doe = y) as E.
  { change (year_of_period doe) with (scaled doe / 365).
    pose proof (scaled_mono (year_start y) doe ltac:(lia) ltac:(lia) ltac:(lia)).
    pose proof (scaled_mono doe (year_end y - 1) ltac:(lia) ltac:(lia) ltac:(lia)).
    symmetry. apply Z.div_unique with (scaled doe - 365 * y); lia. }
  split; [done|]. unfold day_of_year. rewrite E. unfold year_start. lia.
Qed.

(** *** The days of a year *)

Definition month_day (doy : Z) : Z * Z :=
  (month_of (march_month doy), doy - (153 * march_month doy + 2) / 5 + 1).

(** A day of a year, which starts in March, as a number. *)
Definition day_number (doy : Z) : Z :=
  let '(m, d) := month_day doy in (if m <=? 2 then 10000 else 0) + 100 * m + d.

Definition day_ok (doy : Z) : bool :=
  let '(m, d) := month_day doy in
  (1 <=? m) && (m <=? 12) && (1 <=? d) && (d <=? 31) && (301 <=? day_number doy) && (day_number doy <? 10300) &&
  ((doy =? 365) || (day_number doy <? day_number (doy + 1))).

Lemma days_ok : all_below 366 day_ok = true.
Proof. vm_compute. reflexivity. Qed.

(** A date as a number whose order is that of the dates. *)
Definition date_number (days : Z) : Z := let '(y, m, d) := date_of days in 10000 * y + 100 * m + d.

(** The same within one period, of the day [doe] of it. *)
Definition period_number (doe : Z) : Z := date_number (doe - epoch_shift).

Lemma date_of_period y doe :
  0 <= y < 400 -> year_start y <= doe < year_end y ->
  let '(m, d) := month_day (doe - year_start y) in
  date_of (doe - epoch_shift) = (y + (if m <=? 2 then 1 else 0), m, d).
Proof.
  intros Hy Hd. destruct (year_of_period_at y doe Hy Hd) as [Ey Ed].
  destruct (year_bounds_at y Hy) as (_ & _ & H0 & H3 & _). unfold month_day, date_of.
  replace (doe - epoch_shift + epoch_shift) with doe by lia.
  rewrite Z.mod_small, Z.div_small, Ey, Ed by lia. f_equal. f_equal. lia.
Qed.

Lemma period_number_at y doe :
  0 <= y < 400 -> year_start y <= doe < year_end y -> period_number doe = 10000 * y + day_number (doe - year_start y).
Proof.
  intros Hy Hd. pose proof (date_of_period y doe Hy Hd) as E.
  unfold period_number, date_number, day_number. destruct (month_day _) as [m d]. rewrite E. case_match; lia.
Qed.

Lemma day_ok_at doy :
  0 <= doy < 366 ->
  301 <= day_number doy < 10300 /\ (doy = 365 \/ day_number doy < day_number (doy + 1)) /\
  1 <= fst (month_day doy) <= 12 /\ 1 <= snd (month_day doy) <= 31.
Proof.
  intros Hd. pose proof (all_below_at _ _ doy days_ok Hd) as H. unfold day_ok in H.
  destruct (month_day doy) as [m d]. cbn [fst snd].
  rewrite !andb_true_iff, orb_true_iff, !Z.leb_le, !Z.ltb_lt, Z.eqb_eq in H. lia.
Qed.

Lemma period_number_succ doe : 0 <= doe < period - 1 -> period_number doe < period_number (doe + 1).
Proof.
  intros Hd. destruct (year_exists doe) as (y & Hy & Hb); [unfold period in *; lia|].
  destruct (year_bounds_at y Hy) as (_ & _ & _ & _ & H366 & Hn).
  rewrite (period_number_at y doe Hy Hb).
  destruct (day_ok_at (doe - year_start y) ltac:(lia)) as (Hr & Hs & _).
  destruct (Z.lt_ge_cases (doe + 1) (year_end y)) as [Hin|Hout].
  - rewrite (period_number_at y (doe + 1) Hy ltac:(lia)).
    replace (doe + 1 - year_start y) with (doe - year_start y + 1) by lia. lia.
  - assert (doe + 1 = year_end y) as He by lia. destruct Hn as [->|Hn].
    { change (year_end 399) with period in He. lia. }
    destruct (Z.eq_dec y 399) as [->|Hne].
    { change (year_end 399) with period in He. lia. }
    destruct (year_bounds_at (y + 1) ltac:(lia)) as (H1 & H2 & H0 & _).
    rewrite (period_number_at (y + 1) (doe + 1)) by lia.
    destruct (day_ok_at (doe + 1 - year_start (y + 1)) ltac:(lia)) as (Hr' & _ & _). lia.
Qed.

(** A period later the date is the same, 400 years later. *)
Lemma date_of_split days :
  let z := days + epoch_shift in
  let '(y, m, d) := date_of (z mod period - epoch_shift) in date_of days = (y + 400 * (z / period), m, d).
Proof.
  intros z. unfold date_of. fold z.
  replace (z mod period - epoch_shift + epoch_shift) with (z mod period) by lia.
  rewrite Z.mod_mod, (Z.div_small (z mod period)) by (unfold period; try apply Z.mod_pos_bound; lia).
  f_equal. f_equal. lia.
Qed.

Lemma date_number_split days :
  let z := days + epoch_shift in date_number days = period_number (z mod period) + 4000000 * (z / period).
Proof.
  intros z. pose proof (date_of_split days) as Hs. cbv zeta in Hs. fold z in Hs.
  unfold period_number, date_number. destruct (date_of (z mod period - epoch_shift)) as [[y m] d].
  rewrite Hs. lia.
Qed.

Lemma date_number_succ days : date_number days < date_number (days + 1).
Proof.
  rewrite !date_number_split. set (z := days + epoch_shift).
  replace (days + 1 + epoch_shift) with (z + 1) by lia.
  pose proof (Z.mod_pos_bound z period) as Hb. pose proof (Z.div_mod z period) as Hd. unfold period in Hb, Hd.
  destruct (Z.eq_dec (z mod period) (period - 1)) as [E|E].
  - assert ((z + 1) mod period = 0 /\ (z + 1) / period = z / period + 1) as [-> ->].
    { unfold period in *. rewrite E in Hd.
      assert (z + 1 = (z / 146097 + 1) * 146097) as -> by lia.
      rewrite Z.mod_mul, Z.div_mul by lia. split; lia. }
    rewrite E. change (period_number (period - 1)) with 4000229. change (period_number 0) with 301. lia.
  - assert ((z + 1) mod period = z mod period + 1 /\ (z + 1) / period = z / period) as [-> ->].
    { unfold period in *. assert (z + 1 = (z mod 146097 + 1) + z / 146097 * 146097) as -> by lia.
      rewrite Z.mod_add, Z.div_add by lia. rewrite Z.mod_small, Z.div_small by lia. lia. }
    pose proof (period_number_succ (z mod period) ltac:(unfold period in *; lia)). lia.
Qed.

Lemma date_number_mono a b : a < b -> date_number a < date_number b.
Proof.
  intros H. replace b with (a + 1 + Z.of_nat (Z.to_nat (b - a - 1))) by lia.
  generalize (Z.to_nat (b - a - 1)) as n. induction n as [|n IH].
  - rewrite Z.add_0_r. apply date_number_succ.
  - rewrite Nat2Z.inj_succ. etrans; [exact IH|].
    replace (a + 1 + Z.succ (Z.of_nat n)) with (a + 1 + Z.of_nat n + 1) by lia. apply date_number_succ.
Qed.

Lemma date_number_compare a b : Z.compare (date_number a) (date_number b) = Z.compare a b.
Proof.
  destruct (Z.compare_spec a b) as [->|H|H]; [by rewrite Z.compare_refl|..];
    apply date_number_mono in H; [by apply Z.compare_lt_iff|by apply Z.compare_gt_iff].
Qed.

Lemma date_fields days y m d : date_of days = (y, m, d) -> 1 <= m <= 12 /\ 1 <= d <= 31.
Proof.
  intros E. pose proof (date_of_split days) as Hs. cbv zeta in Hs.
  set (z := days + epoch_shift) in Hs.
  destruct (year_exists (z mod period) ltac:(apply Z.mod_pos_bound; done)) as (y' & Hy & Hb).
  pose proof (date_of_period y' _ Hy Hb) as Ed.
  destruct (year_bounds_at y' Hy) as (_ & _ & _ & _ & H366 & _).
  destruct (day_ok_at (z mod period - year_start y') ltac:(lia)) as (_ & _ & Hm & Hd).
  destruct (month_day _) as [m' d']. rewrite Ed, E in Hs. injection Hs as -> -> ->. done.
Qed.

(** ** Texts *)

(** The instants whose year has four digits. *)
Definition four_digit_year (t : Stamp) : Prop :=
  let '(y, _, _) := date_of (seconds_of t / day_seconds) in 0 <= y <= 9999.

Lemma date_text_length days : String.length (date_text days) = 10%nat.
Proof.
  unfold date_text. destruct (date_of days) as [[y m] d].
  rewrite !length_app_str, !padded_length. reflexivity.
Qed.

Lemma clock_text_length s : String.length (clock_text s) = 8%nat.
Proof. unfold clock_text. rewrite !length_app_str, !padded_length. reflexivity. Qed.

Lemma then_compare_numbers (k a b c d : Z) :
  0 <= c < k -> 0 <= d < k -> then_compare (Z.compare a b) (Z.compare c d) = Z.compare (k * a + c) (k * b + d).
Proof.
  intros. destruct (Z.compare_spec a b), (Z.compare_spec c d), (Z.compare_spec (k * a + c) (k * b + d));
    cbn [then_compare]; try done; nia.
Qed.

Lemma date_text_compare a b :
  (let '(y, _, _) := date_of a in 0 <= y <= 9999) -> (let '(y, _, _) := date_of b in 0 <= y <= 9999) ->
  String.compare (date_text a) (date_text b) = Z.compare a b.
Proof.
  intros Ha Hb. rewrite <- date_number_compare. unfold date_text, date_number.
  destruct (date_of a) as [[y m] d] eqn:Ea, (date_of b) as [[y' m'] d'] eqn:Eb.
  apply date_fields in Ea as [? ?], Eb as [? ?].
  rewrite !compare_sep by (by rewrite !padded_length). rewrite !padded_compare by (simpl; lia).
  rewrite (then_compare_numbers 100 m) , (then_compare_numbers 10000) by lia. f_equal; lia.
Qed.

Lemma clock_text_compare s t :
  0 <= s < day_seconds -> 0 <= t < day_seconds -> String.compare (clock_text s) (clock_text t) = Z.compare s t.
Proof.
  unfold day_seconds. intros Hs Ht. unfold clock_text.
  rewrite !compare_sep by (by rewrite !padded_length).
  assert (forall x, 0 <= x < 86400 ->
    0 <= x / 3600 < 24 /\ 0 <= x / 60 mod 60 < 60 /\ 0 <= x mod 60 < 60 /\
    x = 3600 * (x / 3600) + (60 * (x / 60 mod 60) + x mod 60)) as Hx.
  { intros x Hx. Z.div_mod_to_equations. lia. }
  apply Hx in Hs as (? & ? & ? & Es), Ht as (? & ? & ? & Et).
  rewrite !padded_compare by (simpl; lia).
  rewrite (then_compare_numbers 60 (s / 60 mod 60)), (then_compare_numbers 3600) by lia.
  f_equal; lia.
Qed.

(** The order SQLite sees is the one of the model: for instants of the
    years 0 to 9999, comparing the texts of two time columns byte by byte gives
    the same answer as [sql_lt], which is the order of the instants only between
    different seconds. *)
Theorem sql_lt_is_text_order a b :
  four_digit_year a -> four_digit_year b -> String.ltb (RFC3339Nano a) (RFC3339Nano b) = sql_lt a b.
Proof.
  unfold four_digit_year, RFC3339Nano, sql_lt. intros Ha Hb.
  rewrite !ltb_compare, !(compare_app (date_text _)) by (by rewrite !date_text_length).
  rewrite (compare_app "T"), compare_refl, (compare_app (clock_text _)) by (try done; by rewrite !clock_text_length).
  rewrite date_text_compare by done.
  rewrite clock_text_compare by (apply Z.mod_pos_bound; done).
  cbn [then_compare].
  pose proof (Z.div_mod (seconds_of a) day_seconds). pose proof (Z.div_mod (seconds_of b) day_seconds).
  pose proof (Z.mod_pos_bound (seconds_of a) day_seconds). pose proof (Z.mod_pos_bound (seconds_of b) day_seconds).
  unfold day_seconds in *.
  destruct (Z.compare_spec (seconds_of a / 86400) (seconds_of b / 86400)),
    (Z.compare_spec (seconds_of a mod 86400) (seconds_of b mod 86400)),
    (Z.ltb_spec (seconds_of a) (seconds_of b)), (Z.ltb_spec (seconds_of b) (seconds_of a));
    cbn [then_compare]; rewrite ?ltb_compare; try done; lia.
Qed.

Lemma sql_lt_is_text_order_witness :
  let a := 1709210096 * second + 100000000 in let b := a + 20000000 in
  RFC3339Nano a = "2024-02-29T12:34:56.1Z"%string /\ RFC3339Nano b = "2024-02-29T12:34:56.12Z"%string /\
  a < b /\ String.ltb (RFC3339Nano a) (RFC3339Nano b) = false.
Proof.
  split; [vm_compute; reflexivity|]. split; [vm_compute; reflexivity|]. split; [unfold second; lia|].
  rewrite (sql_lt_is_text_order (1709210096 * second + 100000000) (1709210096 * second + 100000000 + 20000000));
    [reflexivity|vm_compute; split; discriminate|vm_compute; split; discriminate].
Defined.
