(* ===== verification/Encoding.v ===== *)
(** Hexadecimal and base64, as [encoding/hex] and [encoding/base64] write and
    read them: [RawStdEncoding] for password hashes, [RawURLEncoding] for tokens
    and signatures, [StdEncoding] for bytes in JSON and PEM. *)

From S2P Require Import Prelude GoText.
From Stdlib Require Import Ascii String.
Open Scope string_scope.

(** ** Hexadecimal *)

Definition hex_digit (n : nat) : ascii :=
  if Nat.ltb n 10 then ascii_of_nat (48 + n) else ascii_of_nat (87 + n).

Fixpoint hex_encode (s : string) : string :=
  match s with
  | EmptyString => EmptyString
  | String c s' =>
      String (hex_digit (nat_of_ascii c / 16))
        (String (hex_digit (nat_of_ascii c mod 16)) (hex_encode s'))
  end.

(** ** Base64

    The unit of work is the sextet; a byte is its eight bits, the most
    significant first. *)

Inductive sextet := Sextet (b5 b4 b3 b2 b1 b0 : bool).

Definition sextet_value (x : sextet) : nat :=
  let '(Sextet a b c d e f) := x in
  32 * Nat.b2n a + 16 * Nat.b2n b + 8 * Nat.b2n c + 4 * Nat.b2n d + 2 * Nat.b2n e + Nat.b2n f.

Definition sextet_of (n : nat) : sextet :=
  Sextet (Nat.testbit n 5) (Nat.testbit n 4) (Nat.testbit n 3)
         (Nat.testbit n 2) (Nat.testbit n 1) (Nat.testbit n 0).

(** The alphabets differ in the characters of 62 and 63. *)
Record Alphabet := { c62 : ascii; c63 : ascii }.
Definition std_alphabet : Alphabet := {| c62 := "+"; c63 := "/" |}.
Definition url_alphabet : Alphabet := {| c62 := "-"; c63 := "_" |}.

Section Base64.
Context (al : Alphabet).

Definition b64_char (x : sextet) : ascii :=
  let n := sextet_value x in
  if Nat.ltb n 26 then ascii_of_nat (65 + n)
  else if Nat.ltb n 52 then ascii_of_nat (71 + n)
  else if Nat.ltb n 62 then ascii_of_nat (n - 4)
  else if Nat.eqb n 62 then c62 al else c63 al.

Definition b64_value (c : ascii) : option sextet :=
  let n := nat_of_ascii c in
  if is_upper c then Some (sextet_of (n - 65))
  else if is_lower c then Some (sextet_of (n - 71))
  else if is_digit c then Some (sextet_of (n + 4))
  else if Ascii.eqb c (c62 al) then Some (sextet_of 62)
  else if Ascii.eqb c (c63 al) then Some (sextet_of 63)
  else None.

(** [EncodeToString]: three bytes become four characters, a tail of one or
    two bytes becomes two or three. *)
Fixpoint b64_encode (s : string) : string :=
  match s with
  | EmptyString => EmptyString
  | String (Ascii a0 a1 a2 a3 a4 a5 a6 a7) EmptyString =>
      String (b64_char (Sextet a7 a6 a5 a4 a3 a2))
        (String (b64_char (Sextet a1 a0 false false false false)) EmptyString)
  | String (Ascii a0 a1 a2 a3 a4 a5 a6 a7)
      (String (Ascii e0 e1 e2 e3 e4 e5 e6 e7) EmptyString) =>
      String (b64_char (Sextet a7 a6 a5 a4 a3 a2))
        (String (b64_char (Sextet a1 a0 e7 e6 e5 e4))
          (String (b64_char (Sextet e3 e2 e1 e0 false false)) EmptyString))
  | String (Ascii a0 a1 a2 a3 a4 a5 a6 a7)
      (String (Ascii e0 e1 e2 e3 e4 e5 e6 e7)
        (String (Ascii g0 g1 g2 g3 g4 g5 g6 g7) s')) =>
      String (b64_char (Sextet a7 a6 a5 a4 a3 a2))
        (String (b64_char (Sextet a1 a0 e7 e6 e5 e4))
          (String (b64_char (Sextet e3 e2 e1 e0 g7 g6))
            (String (b64_char (Sextet g5 g4 g3 g2 g1 g0)) (b64_encode s'))))
  end.

(** [DecodeString], not strict: the spare bits of a tail are ignored; a lone
    last character is corrupt input. *)
Fixpoint b64_decode (s : string) : option string :=
  match s with
  | EmptyString => Some EmptyString
  | String _ EmptyString => None
  | String w (String x EmptyString) =>
      match b64_value w, b64_value x with
      | Some (Sextet a b c d e f), Some (Sextet g h _ _ _ _) =>
          Some (String (Ascii h g f e d c b a) EmptyString)
      | _, _ => None
      end
  | String w (String x (String y EmptyString)) =>
      match b64_value w, b64_value x, b64_value y with
      | Some (Sextet a b c d e f), Some (Sextet g h i j k l), Some (Sextet m n o p _ _) =>
          Some (String (Ascii h g f e d c b a) (String (Ascii p o n m l k j i) EmptyString))
      | _, _, _ => None
      end
  | String w (String x (String y (String z s'))) =>
      match b64_value w, b64_value x, b64_value y, b64_value z, b64_decode s' with
      | Some (Sextet a b c d e f), Some (Sextet g h i j k l),
        Some (Sextet m n o p q r), Some (Sextet s0 t u v w0 x0), Some rest =>
          Some (String (Ascii h g f e d c b a)
                 (String (Ascii p o n m l k j i) (String (Ascii x0 w0 v u t s0 r q) rest)))
      | _, _, _, _, _ => None
      end
  end.

(** The decoder skips line breaks. *)
Definition not_newline (c : ascii) : bool :=
  negb (Ascii.eqb c (ascii_of_nat 10) || Ascii.eqb c (ascii_of_nat 13)).

Fixpoint strip_newlines (s : string) : string :=
  match s with
  | EmptyString => EmptyString
  | String c s' => if not_newline c then String c (strip_newlines s') else strip_newlines s'
  end.

Definition DecodeString (s : string) : option string := b64_decode (strip_newlines s).
End Base64.

Lemma b64_value_char (al : Alphabet) x :
  al = std_alphabet \/ al = url_alphabet -> b64_value al (b64_char al x) = Some x.
Proof. by intros [-> | ->]; destruct x as [[] [] [] [] [] []]. Qed.

Lemma string_ind3 (P : string -> Prop) :
  P "" -> (forall a, P (String a "")) -> (forall a b, P (String a (String b ""))) ->
  (forall a b c s, P s -> P (String a (String b (String c s)))) -> forall s, P s.
Proof.
  intros H0 H1 H2 H3. fix IH 1.
  intros [|a [|b [|c s]]]; [done | apply H1 | apply H2 | apply H3, IH].
Qed.

Lemma b64_decode_encode (al : Alphabet) s :
  al = std_alphabet \/ al = url_alphabet -> b64_decode al (b64_encode al s) = Some s.
Proof.
  intros Hal. induction s as [|[]|[] []|[] [] [] s IH] using string_ind3; [done| | |];
    cbn -[b64_value b64_char]; rewrite !b64_value_char by done; [done..|].
  by rewrite IH.
Qed.

Lemma b64_encode_chars (al : Alphabet) (p : ascii -> bool) s :
  (forall x, p (b64_char al x) = true) -> forallb_str p (b64_encode al s) = true.
Proof.
  intros Hp. induction s as [|[]|[] []|[] [] [] s IH] using string_ind3;
    cbn -[b64_char]; rewrite ?Hp, ?IH; done.
Qed.

Lemma strip_newlines_id s : forallb_str not_newline s = true -> strip_newlines s = s.
Proof.
  induction s as [|c s IH]; simpl; [done|].
  intros [-> Hs]%andb_true_iff. by rewrite IH.
Qed.

Lemma b64_char_not_newline (al : Alphabet) x :
  al = std_alphabet \/ al = url_alphabet -> not_newline (b64_char al x) = true.
Proof. by intros [-> | ->]; destruct x as [[] [] [] [] [] []]. Qed.

Lemma DecodeString_encode (al : Alphabet) s :
  al = std_alphabet \/ al = url_alphabet -> DecodeString al (b64_encode al s) = Some s.
Proof.
  intros Hal. unfold DecodeString. rewrite strip_newlines_id.
  - by apply b64_decode_encode.
  - apply b64_encode_chars. intros x. by apply b64_char_not_newline.
Qed.

(** No character of a base64 text is the [$] that separates the fields of an
    encoded password. *)
Lemma b64_char_not (x : sextet) :
  b64_char std_alphabet x <> "$"%char.
Proof. by destruct x as [[] [] [] [] [] []]. Qed.

(** A URL token has no white space, so trimming leaves it alone. *)
Lemma TrimSpace_token s : TrimSpace (b64_encode url_alphabet s) = b64_encode url_alphabet s.
Proof.
  apply TrimSpace_graphic, b64_encode_chars. intros x. by destruct x as [[] [] [] [] [] []].
Qed.

Lemma b64_encode_nonempty al s : s <> "" -> b64_encode al s <> "".
Proof. destruct s as [|[] [|[] [|[]]]]; done. Qed.

(** ** Hexadecimal texts *)

Lemma hex_encode_chars (p : ascii -> bool) s :
  (forall n, (n < 16)%nat -> p (hex_digit n) = true) -> forallb_str p (hex_encode s) = true.
Proof.
  intros Hp. induction s as [|c s IH]; [done|]. cbn [hex_encode forallb_str]. pose proof (nat_ascii_bounded c).
  rewrite !Hp, IH; [done|apply Nat.mod_upper_bound; lia|apply Nat.Div0.div_lt_upper_bound; lia].
Qed.

Lemma hex_digits_all (p : nat -> bool) n : forallb p (List.seq 0 16) = true -> (n < 16)%nat -> p n = true.
Proof. rewrite forallb_forall. intros Hp Hn. apply Hp, in_seq. lia. Qed.

Lemma hex_encode_length s : String.length (hex_encode s) = (2 * String.length s)%nat.
Proof. induction s as [|c s IH]; [done|]. cbn [hex_encode String.length]. rewrite IH. lia. Qed.

(** ** Padding

    [StdEncoding] pads a text to a multiple of four characters. *)

Definition padding (n : nat) : string :=
  match (n mod 3)%nat with 1%nat => "==" | 2%nat => "=" | _ => "" end.
Definition std_encode (s : string) : string := (b64_encode std_alphabet s ++ padding (String.length s))%string.

Definition std_decode (s : string) : option string :=
  let s := strip_newlines s in
  let n := String.length s in
  if negb (Nat.eqb (n mod 4) 0) then None
  else if HasSuffix s "==" then b64_decode std_alphabet (take_str (n - 2) s)
  else if HasSuffix s "=" then b64_decode std_alphabet (take_str (n - 1) s)
  else b64_decode std_alphabet s.

Example std_encode1 : std_encode "ab" = "YWI=".
Proof. reflexivity. Qed.
Example std_decode1 : std_decode "YQ==" = Some "a".
Proof. reflexivity. Qed.
Example std_decode2 : std_decode "YQ=" = None.
Proof. reflexivity. Qed.

Lemma b64_length al s : String.length (b64_encode al s) = ((4 * String.length s + 2) / 3)%nat.
Proof.
  induction s as [|[]|[] []|[] [] [] s IH] using string_ind3; [done..|].
  cbn [b64_encode String.length]. rewrite IH.
  replace (4 * S (S (S (String.length s))) + 2)%nat with (4 * String.length s + 2 + 4 * 3)%nat by lia.
  rewrite Nat.div_add by done. lia.
Qed.

Lemma HasSuffix_app s t : HasSuffix (s ++ t) t = true.
Proof.
  unfold HasSuffix. rewrite length_app_str. destruct (Nat.ltb_spec (String.length s + String.length t) (String.length t)); [lia|].
  replace (String.length s + String.length t - String.length t)%nat with (String.length s) by lia.
  by rewrite drop_str_app, String.eqb_refl.
Qed.

Lemma b64_not_equals s : forallb_str (fun c => negb (Ascii.eqb c "=")) (b64_encode std_alphabet s) = true.
Proof. apply b64_encode_chars. intros x. by destruct x as [[] [] [] [] [] []]. Qed.

Lemma no_suffix_equals s t :
  forallb_str (fun c => negb (Ascii.eqb c "=")) s = true -> HasSuffix s (t ++ "=") = false.
Proof.
  intros Hs. destruct (HasSuffix s (t ++ "=")) eqn:E; [|done]. apply (HasSuffix_chars _ _ _ E) in Hs.
  rewrite forallb_str_append in Hs. by rewrite andb_false_r in Hs.
Qed.

Lemma drop_str_app_le n s t : (n <= String.length s)%nat -> drop_str n (s ++ t) = drop_str n s ++ t.
Proof. revert n. induction s as [|c s IH]; intros [|n] Hn; [done|simpl in Hn; lia|done|]. apply IH. simpl in Hn. lia. Qed.

Lemma double_equals s :
  forallb_str (fun c => negb (Ascii.eqb c "=")) s = true -> HasSuffix (s ++ "=") "==" = false.
Proof.
  intros Hs. destruct (HasSuffix (s ++ "=") "==") eqn:E; [|done]. unfold HasSuffix in E.
  rewrite length_app_str in E. cbn [String.length] in E. destruct (Nat.ltb_spec (String.length s + 1) 2) as [|Hl]; [done|].
  apply String.eqb_eq in E. rewrite drop_str_app_le in E by lia.
  pose proof (forallb_drop_str _ (String.length s + 1 - 2) s Hs) as Hd.
  destruct (drop_str (String.length s + 1 - 2) s) as [|c t]; [done|].
  injection E as -> _. done.
Qed.

Lemma std_decode_encode s : std_decode (std_encode s) = Some s.
Proof.
  unfold std_decode, std_encode. pose proof (b64_not_equals s) as Hne. pose proof (b64_length std_alphabet s) as Hlen.
  pose proof (b64_decode_encode std_alphabet s (or_introl eq_refl)) as Hd.
  assert (strip_newlines (b64_encode std_alphabet s ++ padding (String.length s)) = (b64_encode std_alphabet s ++ padding (String.length s))%string) as ->.
  { apply strip_newlines_id. rewrite forallb_str_append. apply andb_true_iff. split.
    - apply b64_encode_chars. intros x. apply b64_char_not_newline. by left.
    - unfold padding. by repeat case_match. }
  pose proof (Nat.div_mod_eq (String.length s) 3) as Hm. pose proof (Nat.mod_upper_bound (String.length s) 3 ltac:(done)) as Hb.
  set (q := (String.length s / 3)%nat) in *. set (r := (String.length s mod 3)%nat) in *.
  assert (String.length (b64_encode std_alphabet s) = 4 * q + (4 * r + 2) / 3)%nat as Hlen'.
  { rewrite Hlen, Hm. replace (4 * (3 * q + r) + 2)%nat with (4 * r + 2 + (4 * q) * 3)%nat by lia. rewrite Nat.div_add by done. lia. }
  assert (forall m k, k = 0%nat -> Nat.eqb ((4 * m + k) mod 4) 0 = true) as Hmod.
  { intros m k ->. rewrite Nat.add_0_r, Nat.mul_comm, Nat.Div0.mod_mul. done. }
  unfold padding. fold r. destruct r as [|[|[|r]]]; [| | |lia].
  - assert (forall t : string, (t ++ "")%string = t) as Hnil by (intros t; induction t as [|c t IH]; [done|exact (f_equal (String c) IH)]).
    rewrite Hnil, Hlen'. change ((4 * 0 + 2) / 3)%nat with 0%nat. rewrite Hmod by done. cbn [negb].
    rewrite (no_suffix_equals _ "=") by done. by rewrite (no_suffix_equals _ "") by done.
  - rewrite HasSuffix_app, length_app_str, Hlen'. cbn [String.length]. change ((4 * 1 + 2) / 3)%nat with 2%nat.
    replace (4 * q + 2 + 2)%nat with (4 * (q + 1) + 0)%nat by lia. rewrite Hmod by done. cbn [negb].
    replace (4 * (q + 1) + 0 - 2)%nat with (String.length (b64_encode std_alphabet s)) by (rewrite Hlen'; change ((4 * 1 + 2) / 3)%nat with 2%nat; lia).
    by rewrite take_str_app.
  - rewrite HasSuffix_app, length_app_str, Hlen'. cbn [String.length]. change ((4 * 2 + 2) / 3)%nat with 3%nat.
    replace (4 * q + 3 + 1)%nat with (4 * (q + 1) + 0)%nat by lia. rewrite Hmod by done. cbn [negb].
    replace (4 * (q + 1) + 0 - 1)%nat with (String.length (b64_encode std_alphabet s)) by (rewrite Hlen'; change ((4 * 2 + 2) / 3)%nat with 3%nat; lia).
    rewrite take_str_app, double_equals by done. done.
Qed.
