(* ===== verification/RateLimit.v ===== *)
(** The rate limiter of both HTTP APIs ([rate_limit.go], the same text in the
    client and in the server): a fixed window per key, in memory. *)

From S2P Require Import Prelude Timestamps.
From Stdlib Require Import String.
Open Scope Z_scope.

(** [int64] arithmetic of a [time.Duration]. *)
Definition max_duration : Z := 2 ^ 63 - 1.

(** [t.Sub(u)]: the difference, at most the largest duration. *)
Definition Sub (t u : Stamp) : Z := Z.max (- 2 ^ 63) (Z.min max_duration (t - u)).

Module Limiter.

(** [rateBucket]; the zero time of a missing entry is no entry. *)
Record Bucket := mkBucket { bk_started : Stamp; bk_count : Z }.

(** [requestRateLimiter] *)
Record Limiter := mkLimiter { lm_entries : gmap string Bucket; lm_limit : Z; lm_window : Z }.
#[export] Instance Eta_Limiter : Eta Limiter := fun r => mkLimiter r.(lm_entries) r.(lm_limit) r.(lm_window).

Definition newRequestRateLimiter (limit window : Z) : Limiter := mkLimiter ∅ limit window.

Definition max_entries : nat := 4096.

(** A table that has grown too large is emptied. *)
Definition swept (l : Limiter) : gmap string Bucket :=
  if Nat.ltb max_entries (size (lm_entries l)) then ∅ else lm_entries l.

(** The bucket of a key: a new one when there is none or its window is over. *)
Definition bucket_at (l : Limiter) (key : string) (now : Stamp) : Bucket :=
  match swept l !! key with
  | Some b => if lm_window l <=? Sub now (bk_started b) then mkBucket now 0 else b
  | None => mkBucket now 0
  end.

(** Whether the request passes, and the delay a refused one is told. *)
Definition allow (key : string) (now : Stamp) (l : Limiter) : (bool * Z) * Limiter :=
  let bucket := bucket_at l key now in
  if lm_limit l <=? bk_count bucket then
    let remaining := wrap64 (lm_window l - Sub now (bk_started bucket)) in
    ((false, Z.max second remaining), l <| lm_entries := swept l |>)
  else
    ((true, 0), l <| lm_entries := <[key := mkBucket (bk_started bucket) (bk_count bucket + 1)]> (swept l) |>).

Definition reset (key : string) (l : Limiter) : Limiter := l <| lm_entries ::= delete key |>.

(** ** Runs *)

(** A sequence of calls, and which of them passed. *)
Fixpoint run (calls : list (string * Stamp)) (l : Limiter) : list bool * Limiter :=
  match calls with
  | [] => ([], l)
  | (key, now) :: calls' =>
      let '((ok, _), l1) := allow key now l in
      let '(oks, l2) := run calls' l1 in
      (ok :: oks, l2)
  end.

(** How many calls of a key passed within the window that starts at [t]. *)
Definition in_span (t window : Z) (key : string) (call : string * Stamp) : bool :=
  String.eqb (fst call) key && (t <=? snd call) && (snd call <? t + window).

Definition passed (t window : Z) (key : string) (calls : list (string * Stamp)) (oks : list bool) : Z :=
  Z.of_nat (List.length (List.filter (fun c => in_span t window key (fst c) && snd c) (zip calls oks))).

(** The clock does not go back from one call to the next. *)
Fixpoint in_order (last : Stamp) (calls : list (string * Stamp)) : Prop :=
  match calls with
  | [] => True
  | (_, now) :: calls' => last <= now /\ in_order now calls'
  end.

(** ** Facts *)

Lemma bucket_fresh l key now : swept l !! key = None -> bucket_at l key now = mkBucket now 0.
Proof. unfold bucket_at. by intros ->. Qed.

Lemma Sub_ge window t u : - 2 ^ 63 < window <= max_duration -> (window <=? Sub t u) = (window <=? t - u).
Proof. unfold Sub, max_duration. intros Hw. destruct (Z.leb_spec window (t - u)); lia. Qed.

Lemma Sub_exact t u : 0 <= t - u <= max_duration -> Sub t u = t - u.
Proof. unfold Sub, max_duration. lia. Qed.

Lemma limit_kept key now l :
  lm_limit (snd (allow key now l)) = lm_limit l /\ lm_window (snd (allow key now l)) = lm_window l.
Proof. unfold allow. by case_match. Qed.

Lemma swept_small l : (size (lm_entries l) <= max_entries)%nat -> swept l = lm_entries l.
Proof. unfold swept. intros Hs. by rewrite (proj2 (Nat.ltb_ge _ _) Hs). Qed.

(** The keys of the table are keys of calls. *)
Lemma allow_dom key now l (K : gset string) :
  dom (lm_entries l) ⊆ K -> key ∈ K -> dom (lm_entries (snd (allow key now l))) ⊆ K.
Proof.
  intros HK Hk. assert (dom (swept l) ⊆ K) as Hs by (unfold swept; case_match; set_solver).
  unfold allow. case_match; simpl; [done|]. rewrite dom_insert. set_solver.
Qed.

Lemma small_table (m : gmap string Bucket) (K : gset string) :
  dom m ⊆ K -> (size K <= max_entries)%nat -> (size m <= max_entries)%nat.
Proof. intros HK Hn. rewrite <- size_dom. pose proof (subseteq_size _ _ HK). lia. Qed.

(** ** The bound of a span *)

Section Span.
Context (key : string) (limit window t : Z).
Context (Hlimit : 0 <= limit) (Hwindow : 0 < window <= max_duration).

(** What is known of the [n] calls of the key that passed in the span, from its
    bucket: those of a bucket that began before the span are in its count; a
    bucket that began in the span has at most one before it that reaches into
    the span. *)
Definition span_inv (last : Stamp) (o : option Bucket) (n : Z) : Prop :=
  0 <= n <= 2 * limit /\ (last < t -> n = 0) /\
  match o with
  | None => n = 0
  | Some (mkBucket started count) =>
      0 <= count <= limit /\ started <= last /\
      (started < t -> n <= count) /\ (started < t + window -> n <= limit + count)
  end.

Lemma span_step l k now last n :
  lm_limit l = limit -> lm_window l = window -> (size (lm_entries l) <= max_entries)%nat -> last <= now ->
  span_inv last (lm_entries l !! key) n ->
  span_inv now (lm_entries (snd (allow k now l)) !! key)
    (n + if in_span t window key (k, now) && fst (fst (allow k now l)) then 1 else 0).
Proof using Hlimit Hwindow.
  intros HL HW Hs Hl Hinv. unfold allow, bucket_at, in_span. rewrite (swept_small _ Hs), HL, HW. simpl fst; simpl snd.
  destruct (decide (k = key)) as [->|Hk].
  - rewrite String.eqb_refl. simpl andb.
    assert (exists b, (match lm_entries l !! key with
        | Some b => if window <=? Sub now (bk_started b) then mkBucket now 0 else b
        | None => mkBucket now 0 end) = b /\
      (bk_count b < limit ->
       span_inv now (Some (mkBucket (bk_started b) (bk_count b + 1)))
         (n + if (t <=? now) && (now <? t + window) then 1 else 0))) as (b & -> & Hb).
    { eexists; split; [reflexivity|]. unfold span_inv in *.
      destruct (lm_entries l !! key) as [[started count]|] eqn:E; cbn [bk_started bk_count];
        [rewrite Sub_ge by lia; destruct (Z.leb_spec window (now - started)); cbn [bk_started bk_count]|];
        destruct (Z.leb_spec t now), (Z.ltb_spec now (t + window)); simpl; lia. }
    destruct (Z.leb_spec limit (bk_count b)) as [Hc|Hc]; simpl fst; simpl snd.
    + rewrite andb_false_r, Z.add_0_r. cbn. unfold span_inv in *.
      destruct (lm_entries l !! key) as [[started count]|]; lia.
    + rewrite andb_true_r. simpl. rewrite lookup_insert_eq. by apply Hb.
  - rewrite (proj2 (String.eqb_neq _ _) Hk). simpl andb. rewrite Z.add_0_r.
    assert (span_inv now (lm_entries l !! key) n).
    { unfold span_inv in *. destruct (lm_entries l !! key) as [[started count]|]; lia. }
    case_match; simpl; [done|]. by rewrite lookup_insert_ne.
Qed.

Lemma span_bound l calls last n :
  lm_limit l = limit -> lm_window l = window -> in_order last calls ->
  (size (dom (lm_entries l) ∪ list_to_set (map fst calls) : gset string) <= max_entries)%nat ->
  span_inv last (lm_entries l !! key) n ->
  n + passed t window key calls (fst (run calls l)) <= 2 * limit.
Proof using Hlimit Hwindow.
  revert l last n. induction calls as [|[k now] calls IH]; intros l last n HL HW Ho Hs Hinv.
  { unfold passed. simpl. destruct Hinv as [? _]. lia. }
  destruct Ho as [Ho1 Ho2]. cbn [map fst list_to_set] in Hs.
  assert (size (lm_entries l) <= max_entries)%nat as Hl by (eapply small_table; [|exact Hs]; set_solver).
  pose proof (span_step l k now last n HL HW Hl Ho1 Hinv) as Hstep.
  pose proof (limit_kept k now l) as [HL1 HW1].
  pose proof (allow_dom k now l (dom (lm_entries l) ∪ ({[k]} ∪ list_to_set (map fst calls)))
    ltac:(set_solver) ltac:(set_solver)) as Hdom.
  cbn [run]. destruct (allow k now l) as [[ok r] l1]. cbn [fst snd] in *.
  assert (size (dom (lm_entries l1) ∪ list_to_set (map fst calls) : gset string) <= max_entries)%nat as Hs1.
  { etransitivity; [apply subseteq_size|exact Hs]. set_solver. }
  specialize (IH l1 now _ ltac:(congruence) ltac:(congruence) Ho2 Hs1 Hstep). destruct (run calls l1) as [oks l2]. cbn [fst] in *.
  unfold passed in *. cbn [zip zip_with List.filter fst snd].
  destruct (in_span t window key (k, now) && ok); cbn [List.length]; lia.
Qed.
End Span.

(** C40: Within every span of one window at most twice the limit of requests of a
    key pass, whatever other keys do, as long as the keys fit the table: from an
    empty table, in any sequence of calls along which the clock does not go
    back. *)
Theorem window_bound limit window key t start calls :
  0 <= limit -> 0 < window <= max_duration -> in_order start calls ->
  (size (list_to_set (map fst calls) : gset string) <= max_entries)%nat ->
  passed t window key calls (fst (run calls (newRequestRateLimiter limit window))) <= 2 * limit.
Proof.
  intros HL HW Ho Hs. pose proof (span_bound key limit window t HL HW (newRequestRateLimiter limit window) calls start 0) as Hb.
  simpl in Hb. apply Hb; [done|done|done| |].
  - by rewrite dom_empty_L, (left_id_L ∅ (∪)).
  - unfold span_inv. rewrite lookup_empty. lia.
Qed.

(** A refused request is told when it will pass: after the delay it is told,
    the same key passes again. *)
Theorem refused_then_served key now now' l delay l1 :
  0 < lm_limit l -> 0 < lm_window l <= max_duration ->
  (forall b, lm_entries l !! key = Some b -> bk_started b <= now) ->
  allow key now l = ((false, delay), l1) -> now + delay <= now' ->
  second <= delay /\ fst (fst (allow key now' l1)) = true.
Proof.
  intros HL HW Hb E Hnow. unfold allow in E.
  destruct (Z.leb_spec (lm_limit l) (bk_count (bucket_at l key now))) as [Hc|Hc]; [|discriminate E].
  injection E as <- Hl1. split; [lia|].
  assert (swept l1 = swept l /\ lm_window l1 = lm_window l /\ lm_limit l1 = lm_limit l) as (Hsw & HW1 & HL1).
  { subst l1. split; [|done]. unfold swept. simpl.
    destruct (Nat.ltb max_entries (size (lm_entries l))) eqn:E; [done|]. by rewrite E. }
  unfold allow. unfold bucket_at in *. rewrite Hsw, HW1, HL1.
  destruct (swept l !! key) as [b|] eqn:Eb; [|cbn [bk_count] in Hc; lia].
  assert (bk_started b <= now) as Hs.
  { apply Hb. unfold swept in Eb. destruct (Nat.ltb max_entries (size (lm_entries l))); [by rewrite lookup_empty in Eb|done]. }
  rewrite Sub_ge in * by (pose proof HW; unfold max_duration in *; lia).
  destruct (Z.leb_spec (lm_window l) (now - bk_started b)) as [Hw|Hw]; [simpl in Hc; lia|].
  rewrite Sub_exact, wrap64_exact in Hnow by (unfold max_duration in *; lia).
  rewrite (proj2 (Z.leb_le (lm_window l) (now' - bk_started b))) by (unfold second in *; lia).
  simpl. by rewrite (proj2 (Z.leb_gt _ _) HL).
Qed.

(** A table that has grown too large forgets every key: the request passes
    whatever its key did before. *)
Lemma full_table_forgets key now l :
  (max_entries < size (lm_entries l))%nat -> 0 < lm_limit l -> fst (fst (allow key now l)) = true.
Proof.
  intros Hs HL. unfold allow. rewrite bucket_fresh.
  - simpl. by rewrite (proj2 (Z.leb_gt _ _) HL).
  - unfold swept. by rewrite (proj2 (Nat.ltb_lt _ _) Hs).
Qed.

Lemma window_bound_witness :
  let calls := [("a", 0); ("b", 1); ("a", 2); ("a", 3); ("a", 60 * second)]%string in
  fst (run calls (newRequestRateLimiter 2 minute)) = [true; true; true; false; true] /\
  passed 0 minute "a" calls (fst (run calls (newRequestRateLimiter 2 minute))) <= 4.
Proof.
  split; [vm_compute; reflexivity|].
  apply (window_bound 2 minute "a" 0 0); [lia|vm_compute; split; [reflexivity|discriminate]|simpl; unfold second; lia|].
  vm_compute. lia.
Defined.

Lemma refused_then_served_witness :
  exists l1, allow "a" 5 (mkLimiter {["a"%string := mkBucket 3 2]} 2 minute) = ((false, minute - 2), l1) /\
    fst (fst (allow "a" (minute + 3) l1)) = true.
Proof.
  eexists. split; [vm_compute; reflexivity|].
  refine (proj2 (refused_then_served "a" 5 (minute + 3) (mkLimiter {["a"%string := mkBucket 3 2]} 2 minute) (minute - 2) _ _ _ _ _ _)).
  - simpl. lia.
  - vm_compute. split; [reflexivity|discriminate].
  - intros b Hb. simpl in Hb. rewrite lookup_singleton_eq in Hb. injection Hb as <-. simpl. lia.
  - vm_compute. reflexivity.
  - lia.
Defined.
End Limiter.
