(* ===== verification/GoUrl.v ===== *)
(** What the program uses of [net] and [net/url] around hosts and ports:
    [net.SplitHostPort], [net.JoinHostPort], [net.ParseCIDR],
    [IPNet.Contains], the classes of addresses, and the accessors of a [URL].
    [url.Parse] itself is an argument. *)

From S2P Require Import Prelude GoText GoNet.
From Stdlib Require Import Ascii String.
Open Scope Z_scope.

(** ** Indices *)

Fixpoint index_byte (c : ascii) (s : string) : option nat :=
  match s with
  | EmptyString => None
  | String d s' => if Ascii.eqb d c then Some 0%nat else S <$> index_byte c s'
  end.

Fixpoint last_index (c : ascii) (s : string) : option nat :=
  match s with
  | EmptyString => None
  | String d s' =>
      match last_index c s' with
      | Some i => Some (S i)
      | None => if Ascii.eqb d c then Some 0%nat else None
      end
  end.

Definition has_byte (c : ascii) (s : string) : bool := bool_decide (is_Some (index_byte c s)).

(** [strings.Trim], [TrimLeft] and [TrimRight] for a set of ASCII characters. *)
Fixpoint TrimLeft (s : string) (cutset : list ascii) : string :=
  match s with
  | String c s' => if existsb (Ascii.eqb c) cutset then TrimLeft s' cutset else s
  | EmptyString => s
  end.
Fixpoint TrimRight (s : string) (cutset : list ascii) : string :=
  match s with
  | String c s' =>
      let r := TrimRight s' cutset in
      if String.eqb r "" && existsb (Ascii.eqb c) cutset then EmptyString else String c r
  | EmptyString => EmptyString
  end.
Definition Trim (s : string) (cutset : list ascii) : string := TrimRight (TrimLeft s cutset) cutset.

Definition brackets : list ascii := ["["; "]"]%char.

(** ** [net.SplitHostPort] *)

(** The prefix and suffix at an index. *)
Definition upto (i : nat) (s : string) : string := take_str i s.
Definition after (i : nat) (s : string) : string := drop_str (S i) s.

Definition addr_error (hostport why : string) : string := ("address " ++ hostport ++ ": " ++ why)%string.

Definition SplitHostPort (hostport : string) : res string (string * string) :=
  let err why := Err (addr_error hostport why) in
  match last_index ":" hostport with
  | None => err "missing port in address"%string
  | Some i =>
      let finish host j k :=
        if has_byte "[" (drop_str j hostport) then err "unexpected '[' in address"%string
        else if has_byte "]" (drop_str k hostport) then err "unexpected ']' in address"%string
        else Ok (host, after i hostport) in
      if HasPrefix hostport "[" then
        match index_byte "]" hostport with
        | None => err "missing ']' in address"%string
        | Some e =>
            if Nat.eqb (S e) (String.length hostport) then err "missing port in address"%string
            else if Nat.eqb (S e) i then finish (drop_str 1 (upto e hostport)) 1%nat (S e)
            else if HasPrefix (after e hostport) ":" then err "too many colons in address"%string
            else err "missing port in address"%string
        end
      else if has_byte ":" (upto i hostport) then err "too many colons in address"%string
      else finish (upto i hostport) 0%nat 0%nat
  end.

Definition JoinHostPort (host port : string) : string :=
  if has_byte ":" host then ("[" ++ host ++ "]:" ++ port)%string else (host ++ ":" ++ port)%string.

Example split1 : SplitHostPort "127.0.0.1:7410" = Ok ("127.0.0.1", "7410")%string.
Proof. reflexivity. Qed.
Example split2 : SplitHostPort "[::1]:80" = Ok ("::1", "80")%string.
Proof. reflexivity. Qed.
Example split3 : SplitHostPort "::1" = Err "address ::1: too many colons in address"%string.
Proof. reflexivity. Qed.
Example split4 : SplitHostPort "localhost" = Err "address localhost: missing port in address"%string.
Proof. reflexivity. Qed.
Example split5 : SplitHostPort ":" = Ok ("", "")%string.
Proof. reflexivity. Qed.

(** ** Addresses *)

Definition ipv6_loopback : IP := [0; 0; 0; 0; 0; 0; 0; 0; 0; 0; 0; 0; 0; 0; 0; 1].

Definition IsLoopback (ip : IP) : bool :=
  match To4 ip with
  | Some (a :: _) => a =? 127
  | _ => bool_decide (ip = ipv6_loopback)
  end.

Definition IsUnspecified (ip : IP) : bool :=
  bool_decide (ip = (v4_prefix ++ [0; 0; 0; 0])%list) || bool_decide (ip = replicate 16 0).

(** A network: its address and its mask, of four or of sixteen bytes. *)
Record IPNet := mkIPNet { net_IP : list Z; net_Mask : list Z }.

(** The byte of a mask with [bits] leading ones left. *)
Definition mask_byte (bits : Z) : Z :=
  if 8 <=? bits then 255 else if bits <=? 0 then 0 else 256 - 2 ^ (8 - bits).

(** [net.CIDRMask] *)
Fixpoint CIDRMask (ones : Z) (len : nat) : list Z :=
  match len with
  | O => []
  | S n => mask_byte ones :: CIDRMask (ones - 8) n
  end.

Definition mask_bytes (ip mask : list Z) : list Z := zip_with Z.land ip mask.

(** [dtoi]: digits only, below [0xFFFFFF]. *)
Definition dtoi (s : string) : option Z :=
  if negb (String.eqb s "") && forallb_str is_digit s && (decimal 0 s <? 16777215)
  then Some (decimal 0 s) else None.

Fixpoint Cut (s : string) (sep : ascii) : option (string * string) :=
  match s with
  | EmptyString => None
  | String c s' =>
      if Ascii.eqb c sep then Some (EmptyString, s')
      else '(a, b) ← Cut s' sep; Some (String c a, b)
  end.

(** [net.ParseCIDR]: whether the text is in dotted form decides the width of
    the mask, so [::ffff:0:0] is a sixteen-byte network. *)
Definition ParseCIDR (s : string) : res string IPNet :=
  let err := Err ("invalid CIDR address: " ++ s)%string in
  match Cut s "/" with
  | None => err
  | Some (addr, mask) =>
      match ParseIP addr, dtoi mask with
      | Some ip, Some n =>
          match first_separator addr, To4 ip with
          | Some "."%char, Some ip4 =>
              if 32 <? n then err
              else Ok (mkIPNet (mask_bytes ip4 (CIDRMask n 4)) (CIDRMask n 4))
          | _, _ =>
              if 128 <? n then err
              else Ok (mkIPNet (mask_bytes ip (CIDRMask n 16)) (CIDRMask n 16))
          end
      | _, _ => err
      end
  end.

(** [networkNumberAndMask] *)
Definition network_number (n : IPNet) : option (list Z * list Z) :=
  let ip := default (net_IP n) (if Nat.eqb (List.length (net_IP n)) 4 then Some (net_IP n) else To4 (net_IP n)) in
  if Nat.eqb (List.length (net_Mask n)) 4 then
    if Nat.eqb (List.length ip) 4 then Some (ip, net_Mask n) else None
  else if Nat.eqb (List.length ip) 4 then Some (ip, drop 12 (net_Mask n)) else Some (ip, net_Mask n).

(** [IPNet.Contains] *)
Definition net_Contains (n : IPNet) (ip : IP) : bool :=
  match network_number n with
  | None => false
  | Some (nn, m) =>
      let x := default ip (To4 ip) in
      Nat.eqb (List.length x) (List.length nn) && bool_decide (mask_bytes nn m = mask_bytes x m)
  end.

Definition contains_text (cidr ip : string) : option bool :=
  match ParseCIDR cidr, ParseIP ip with
  | Ok n, Some x => Some (net_Contains n x)
  | _, _ => None
  end.
Example cidr1 : contains_text "127.0.0.0/8" "127.9.9.9" = Some true.
Proof. reflexivity. Qed.
Example cidr2 : contains_text "10.1.2.0/23" "10.1.4.1" = Some false.
Proof. reflexivity. Qed.
Example cidr3 : contains_text "::1/128" "::1" = Some true.
Proof. reflexivity. Qed.
Example cidr4 : contains_text "127.0.0.0/8" "::ffff:127.0.0.1" = Some true.
Proof. reflexivity. Qed.
Example cidr5 : contains_text "::ffff:0.0.0.0/96" "8.8.8.8" = Some true.
Proof. reflexivity. Qed.
Example cidr6 : contains_text "10.0.0.0/33" "10.0.0.1" = None.
Proof. reflexivity. Qed.

(** ** URLs *)

Record URL := mkURL {
  u_Scheme : string;
  u_Opaque : string;
  u_User : option string;
  u_Host : string;
  u_Path : string;
  u_RawQuery : string;
  u_Fragment : string
}.
#[export] Instance Eta_URL : Eta URL := fun r =>
  mkURL r.(u_Scheme) r.(u_Opaque) r.(u_User) r.(u_Host) r.(u_Path) r.(u_RawQuery) r.(u_Fragment).

(** [url.Parse], [url.JoinPath] and [URL.String]. *)
Class GoUrl := {
  url_Parse : string -> res string URL;
  url_JoinPath : string -> string -> res string string;
  url_String : URL -> string
}.

Definition validOptionalPort (port : string) : bool :=
  match port with
  | EmptyString => true
  | String c digits => Ascii.eqb c ":" && forallb_str is_digit digits
  end.

(** [splitHostPort] of [net/url]: the host without brackets, and the port. *)
Definition url_split (hostport : string) : string * string :=
  let '(host, port) :=
    match last_index ":" hostport with
    | Some i => if validOptionalPort (drop_str i hostport) then (upto i hostport, after i hostport)
                else (hostport, ""%string)
    | None => (hostport, ""%string)
    end in
  (if HasPrefix host "[" && HasSuffix host "]"
   then drop_str 1 (take_str (String.length host - 1) host) else host, port).
Definition Hostname (u : URL) : string := fst (url_split (u_Host u)).
Definition Port (u : URL) : string := snd (url_split (u_Host u)).
