(* ===== verification/GoPath.v ===== *)
(** [path/filepath] on Unix: [Clean] and [Join], as the client builds the paths
    of its data directory. *)

From S2P Require Import Prelude GoText.
From Stdlib Require Import Ascii String.
Open Scope string_scope.

(** [Clean], component by component: [.] and empty components disappear, [..]
    removes the component before it, or is dropped at the root. *)
Definition clean_step (rooted : bool) (stack : list string) (c : string) : list string :=
  if String.eqb c "" || String.eqb c "." then stack
  else if String.eqb c ".." then
    match stack with
    | [] => if rooted then [] else [c]
    | top :: rest => if String.eqb top ".." then c :: stack else rest
    end
  else c :: stack.

Definition is_rooted (p : string) : bool := HasPrefix p "/".

(** The components of the cleaned path, the last one first. *)
Definition clean_stack (p : string) : list string :=
  fold_left (clean_step (is_rooted p)) (SplitByte p "/") [].

Fixpoint join_path (l : list string) : string :=
  match l with
  | [] => ""
  | [x] => x
  | x :: l' => x ++ "/" ++ join_path l'
  end.

Definition clean_text (rooted : bool) (stack : list string) : string :=
  if rooted then "/" ++ join_path (rev stack)
  else match stack with [] => "." | _ => join_path (rev stack) end.

Definition Clean (p : string) : string := clean_text (is_rooted p) (clean_stack p).

(** [Join]: the non-empty elements, separated and cleaned. *)
Definition Join (elems : list string) : string :=
  match base.filter (fun e => e <> "") elems with
  | [] => ""
  | l => Clean (join_path l)
  end.

(** [Dir] and [Base]: the path without its last component, and the last
    component of a path without trailing slashes. *)
Definition Dir (p : string) : string :=
  match removelast (SplitByte p "/") with [] => "." | l => Clean (join_path l ++ "/") end.

Fixpoint drop_slashes (s : string) : string :=
  match s with
  | String c s' =>
      let r := drop_slashes s' in
      if String.eqb r "" && Ascii.eqb c "/" then "" else String c r
  | EmptyString => ""
  end.
Definition Base (p : string) : string :=
  if String.eqb p "" then "."
  else match List.last (SplitByte (drop_slashes p) "/") "" with "" => "/" | c => c end.

Example base1 : Base "/srv/data/frps.secret" = "frps.secret".
Proof. reflexivity. Qed.
Example base2 : Base "data/keys//" = "keys".
Proof. reflexivity. Qed.
Example base3 : Base "//" = "/".
Proof. reflexivity. Qed.
Example dir1 : Dir "data/frps.secret" = "data".
Proof. reflexivity. Qed.
Example dir2 : Dir "/frps.secret" = "/".
Proof. reflexivity. Qed.
Example dir3 : Dir "frps.secret" = ".".
Proof. reflexivity. Qed.

Example clean1 : Clean "./data/../data//x/." = "data/x".
Proof. reflexivity. Qed.
Example clean2 : Clean "/../a/b/../c/" = "/a/c".
Proof. reflexivity. Qed.
Example clean3 : Clean "../../a" = "../../a".
Proof. reflexivity. Qed.
Example join1 : Join ["/data"; "config"; "frpc.toml"] = "/data/config/frpc.toml".
Proof. reflexivity. Qed.
Example join2 : Join ["."; "state"] = "state".
Proof. reflexivity. Qed.

(** ** Paths below a directory

    [Join] of a directory and plain names is a prefix, which depends on the
    directory only, and the names. *)

Definition plain_name (c : string) : Prop :=
  c <> "" /\ c <> "." /\ c <> ".." /\ forallb_str (fun a => negb (Ascii.eqb a "/")) c = true.

(** What stands before the names. *)
Definition dir_prefix (dir : string) : string :=
  let stack := clean_stack dir in
  (if is_rooted dir then "/" else "") ++
  match stack with [] => "" | _ => join_path (rev stack) ++ "/" end.

Lemma append_assoc (a b c : string) : (a ++ b) ++ c = a ++ (b ++ c).
Proof. induction a as [|x a IH]; [done|]. exact (f_equal (String x) IH). Qed.

Lemma append_empty_r (a : string) : a ++ "" = a.
Proof. induction a as [|x a IH]; [done|]. exact (f_equal (String x) IH). Qed.

Lemma append_inj_l (p a b : string) : p ++ a = p ++ b -> a = b.
Proof. induction p as [|x p IH]; [done|]. intros H. apply IH. by injection H. Qed.

Lemma SplitByte_nonempty s sep : SplitByte s sep <> [].
Proof. destruct s as [|c s]; simpl; [done|]. destruct (Ascii.eqb c sep); [done|]. by destruct (SplitByte s sep). Qed.

Lemma SplitByte_plain c sep :
  forallb_str (fun a => negb (Ascii.eqb a sep)) c = true -> SplitByte c sep = [c].
Proof.
  induction c as [|a c IH]; [done|]. simpl. intros [Ha Hc]%andb_true_iff.
  apply negb_true_iff in Ha as ->. by rewrite (IH Hc).
Qed.

Lemma SplitByte_app p c sep :
  SplitByte (p ++ String sep c) sep = (SplitByte p sep ++ SplitByte c sep)%list.
Proof.
  induction p as [|a p IH].
  - change ("" ++ String sep c) with (String sep c). simpl. by rewrite Ascii.eqb_refl.
  - change (String a p ++ String sep c) with (String a (p ++ String sep c)). simpl. rewrite IH.
    destruct (Ascii.eqb a sep); [done|]. pose proof (SplitByte_nonempty p sep). by destruct (SplitByte p sep).
Qed.

Lemma is_rooted_app p q : p <> "" -> is_rooted (p ++ q) = is_rooted p.
Proof.
  destruct p as [|a p]; [done|]. intros _. unfold is_rooted.
  change (String a p ++ q) with (String a (p ++ q)). simpl. by destruct p, q.
Qed.

Lemma clean_step_plain b st c : plain_name c -> clean_step b st c = c :: st.
Proof.
  intros (H1 & H2 & H3 & _). unfold clean_step.
  apply String.eqb_neq in H1 as ->, H2 as ->, H3 as ->. done.
Qed.

Lemma clean_stack_app p names :
  p <> "" -> names <> [] -> Forall plain_name names ->
  clean_stack (p ++ "/" ++ join_path names) = (rev names ++ clean_stack p)%list /\
  is_rooted (p ++ "/" ++ join_path names) = is_rooted p.
Proof.
  intros Hp Hn Hpl. rewrite is_rooted_app by done. split; [|done].
  unfold clean_stack. rewrite is_rooted_app by done.
  change ("/" ++ join_path names) with (String "/" (join_path names)).
  rewrite SplitByte_app, fold_left_app.
  generalize (fold_left (clean_step (is_rooted p)) (SplitByte p "/") []) as st.
  clear Hp. induction Hpl as [|c l Hc Hl IH]; [done|]. intros st.
  destruct l as [|d l].
  - simpl. rewrite SplitByte_plain by apply Hc. simpl. by apply clean_step_plain.
  - change (join_path (c :: d :: l)) with (c ++ String "/" (join_path (d :: l))).
    rewrite SplitByte_app, SplitByte_plain, fold_left_app by apply Hc. simpl fold_left at 2.
    rewrite clean_step_plain by done. rewrite IH by done. simpl rev. by rewrite <- (app_assoc _ [c] st).
Qed.

Lemma join_path_app a b :
  b <> [] -> join_path (a ++ b) = match a with [] => "" | _ => join_path a ++ "/" end ++ join_path b.
Proof.
  intros Hb. induction a as [|x a IH]; [done|]. change ((x :: a) ++ b)%list with (x :: (a ++ b)%list).
  destruct a as [|y a].
  - destruct b; [done|]. change (join_path (x :: ([] ++ s :: b)%list)) with (x ++ "/" ++ join_path (s :: b)).
    simpl join_path at 2. by rewrite append_assoc.
  - change (join_path (x :: ((y :: a) ++ b)%list)) with (x ++ "/" ++ join_path ((y :: a) ++ b)%list).
    rewrite IH. change (join_path (x :: y :: a)) with (x ++ "/" ++ join_path (y :: a)).
    by rewrite !append_assoc.
Qed.

Lemma Join_names dir names :
  dir <> "" -> names <> [] -> Forall plain_name names ->
  Join (dir :: names) = dir_prefix dir ++ join_path names.
Proof.
  intros Hd Hn Hpl. unfold Join.
  assert (base.filter (fun e => e <> "") (dir :: names) = dir :: names) as ->.
  { rewrite filter_cons_True by done. f_equal. clear Hn. induction Hpl as [|c l Hc _ IH]; [done|].
    rewrite filter_cons_True by apply Hc. by rewrite IH. }
  change (join_path (dir :: names)) with
    (match names with [] => dir | _ => dir ++ "/" ++ join_path names end).
  destruct names as [|n names]; [done|].
  destruct (clean_stack_app dir (n :: names)) as [E1 E2]; [done..|].
  unfold Clean. rewrite E1, E2. unfold clean_text, dir_prefix.
  rewrite rev_app_distr, rev_involutive, join_path_app by done.
  destruct (is_rooted dir).
  - rewrite append_assoc. f_equal.
    destruct (clean_stack dir) as [|c st]; [done|]. simpl rev.
    by destruct (rev st ++ [c])%list eqn:E; [destruct (rev st)|].
  - destruct (clean_stack dir) as [|c st]; simpl.
    + destruct (rev names ++ [n])%list eqn:E; [by destruct (rev names)|]. done.
    + destruct ((rev names ++ [n]) ++ c :: st)%list eqn:E; [by destruct (rev names)|].
      by destruct (rev st ++ [c])%list eqn:E2'; [destruct (rev st)|].
Qed.

(** ** Cleaning a clean path

    What the components of a cleaned path look like, the last one first: plain
    names, below them, in a relative path, some [..]. *)
Inductive normal_stack (rooted : bool) : list string -> Prop :=
| normal_nil : normal_stack rooted []
| normal_up st : rooted = false -> Forall (eq "..") st -> normal_stack rooted (".." :: st)
| normal_plain c st : plain_name c -> normal_stack rooted st -> normal_stack rooted (c :: st).

Definition no_slash (c : string) : Prop :=
  forallb_str (fun a => negb (Ascii.eqb a "/")) c = true.

Lemma SplitByte_no_slash s : Forall no_slash (SplitByte s "/").
Proof.
  induction s as [|a s IH]; simpl; [by repeat constructor|].
  destruct (Ascii.eqb a "/") eqn:E; [by constructor|].
  destruct (SplitByte s "/") as [|c l]; [by repeat constructor; unfold no_slash; simpl; rewrite E|].
  inversion IH; subst. constructor; [|done]. unfold no_slash in *. simpl. by rewrite E.
Qed.

Lemma dots_normal st : Forall (eq "..") st -> normal_stack false st.
Proof. destruct 1 as [|c st <- H]; by constructor. Qed.

Lemma clean_step_normal b st c : no_slash c -> normal_stack b st -> normal_stack b (clean_step b st c).
Proof.
  intros Hc Hst. unfold clean_step.
  destruct (String.eqb_spec c ""); [done|]. destruct (String.eqb_spec c "."); [done|]. simpl.
  destruct (String.eqb_spec c "..") as [->|]; [|by constructor].
  destruct Hst as [|st Hb Hall|c' st Hc' Hst].
  - destruct b; by repeat constructor.
  - rewrite String.eqb_refl. constructor; [done|]. by constructor.
  - destruct Hc' as (_ & _ & Hn & _). by apply String.eqb_neq in Hn as ->.
Qed.

Lemma clean_stack_normal p : normal_stack (is_rooted p) (clean_stack p).
Proof.
  unfold clean_stack. pose proof (SplitByte_no_slash p) as Hl. revert Hl.
  generalize (normal_nil (is_rooted p)). generalize (@nil string) as st.
  induction (SplitByte p "/") as [|c l IH]; intros st Hst Hl; simpl; [done|].
  inversion Hl; subst. apply IH; [|done]. by apply clean_step_normal.
Qed.

Lemma normal_no_slash b st : normal_stack b st -> Forall no_slash st.
Proof.
  induction 1 as [|st _ Hall|c st Hc _ IH]; [done| |by constructor; [apply Hc|]].
  constructor; [done|]. eapply Forall_impl; [exact Hall|]. by intros c <-.
Qed.

Lemma fold_clean_normal b st : normal_stack b st -> fold_left (clean_step b) (rev st) [] = st.
Proof.
  induction 1 as [|st Hb Hall|c st Hc Hst IH]; [done|..]; simpl; rewrite fold_left_app; simpl.
  - assert (fold_left (clean_step b) (rev st) [] = st) as ->.
    { clear -Hb Hall. induction Hall as [|c st <- Hall IH]; [done|]. simpl.
      rewrite fold_left_app, IH. simpl. unfold clean_step. simpl.
      destruct Hall as [|d st <- _]; [by rewrite Hb | by rewrite String.eqb_refl]. }
    unfold clean_step. simpl. destruct Hall as [|d st <- _]; [by rewrite Hb | by rewrite String.eqb_refl].
  - rewrite IH. by apply clean_step_plain.
Qed.

Lemma SplitByte_join l : l <> [] -> Forall no_slash l -> SplitByte (join_path l) "/" = l.
Proof.
  intros Hn Hl. induction Hl as [|c l Hc Hl IH]; [done|]. destruct l as [|d l].
  - by apply SplitByte_plain.
  - change (join_path (c :: d :: l)) with (c ++ String "/" (join_path (d :: l))).
    rewrite SplitByte_app, SplitByte_plain by done. by rewrite IH.
Qed.

Lemma normal_first_plain b st c l :
  normal_stack b st -> rev st = c :: l -> c <> "" /\ no_slash c.
Proof.
  intros Hst E. assert (c ∈ st) as Hin.
  { apply list_elem_of_In, in_rev. rewrite E. by left. }
  split; [|eapply Forall_forall in Hin; [exact Hin|by eapply normal_no_slash]].
  clear E. induction Hst as [|st _ Hall|d st Hd _ IH]; [set_solver|..];
    apply elem_of_cons in Hin as [->|Hin]; [done| |apply Hd|by apply IH].
  eapply Forall_forall in Hin; [|exact Hall]. by subst.
Qed.

Lemma clean_text_stack b st :
  normal_stack b st -> is_rooted (clean_text b st) = b /\ clean_stack (clean_text b st) = st.
Proof.
  intros Hst. pose proof (fold_clean_normal b st Hst) as Hfold.
  assert (is_rooted (clean_text b st) = b) as Hroot.
  { destruct b.
    { unfold clean_text, is_rooted. change ("/" ++ join_path (rev st)) with (String "/" (join_path (rev st))).
      simpl. by destruct (join_path _). }
    destruct st as [|c st]; [done|]. unfold clean_text.
    destruct (rev (c :: st)) as [|d l] eqn:E; [by simpl in E; destruct (rev st)|].
    destruct (normal_first_plain _ _ _ _ Hst E) as [Hd Hs].
    assert (is_rooted (join_path (d :: l)) = is_rooted d) as ->.
    { destruct l; [done|]. by apply is_rooted_app. }
    destruct d as [|a d]; [done|]. unfold no_slash in Hs. simpl in Hs. apply andb_true_iff in Hs as [Hs _].
    unfold is_rooted. cbn [HasPrefix]. rewrite Ascii.eqb_sym. apply negb_true_iff in Hs. by rewrite Hs. }
  split; [done|]. unfold clean_stack. rewrite Hroot.
  assert (Forall no_slash (rev st)) as Hns.
  { apply Forall_rev. by eapply normal_no_slash. }
  destruct b; unfold clean_text.
  - change ("/" ++ join_path (rev st)) with ("" ++ String "/" (join_path (rev st))).
    rewrite SplitByte_app, fold_left_app. simpl fold_left at 2.
    destruct st as [|c st]; [done|]. rewrite SplitByte_join; [done|by simpl; destruct (rev st)|done].
  - destruct st as [|c st]; [done|]. rewrite SplitByte_join; [done|by simpl; destruct (rev st)|done].
Qed.

Lemma Clean_stack p : is_rooted (Clean p) = is_rooted p /\ clean_stack (Clean p) = clean_stack p.
Proof. apply clean_text_stack, clean_stack_normal. Qed.

(** Two joins in a row. *)
Lemma dir_prefix_Join dir names :
  dir <> "" -> names <> [] -> Forall plain_name names ->
  dir_prefix (Join (dir :: names)) = dir_prefix dir ++ join_path names ++ "/".
Proof.
  intros Hd Hn Hpl.
  assert (exists p, Join (dir :: names) = Clean p /\ is_rooted p = is_rooted dir /\
            clean_stack p = (rev names ++ clean_stack dir)%list) as (p & -> & Hr & Hs).
  { exists (dir ++ "/" ++ join_path names). destruct (clean_stack_app dir names) as [E1 E2]; [done..|].
    split; [|done]. unfold Join.
    assert (base.filter (fun e => e <> "") (dir :: names) = dir :: names) as ->.
    { rewrite filter_cons_True by done. f_equal. clear -Hpl. induction Hpl as [|c l Hc _ IH]; [done|].
      rewrite filter_cons_True by apply Hc. by rewrite IH. }
    by destruct names. }
  destruct (Clean_stack p) as [E1 E2]. unfold dir_prefix at 1. rewrite E1, E2, Hr, Hs.
  unfold dir_prefix. rewrite rev_app_distr, rev_involutive.
  destruct (rev names ++ clean_stack dir)%list as [|x l] eqn:El.
  { apply app_eq_nil in El as [El _]. apply (f_equal (@rev _)) in El. rewrite rev_involutive in El. done. }
  rewrite join_path_app by done. rewrite !append_assoc. f_equal.
  destruct (clean_stack dir) as [|c st]; [done|]. simpl rev.
  destruct (rev st ++ [c])%list eqn:E; [by destruct (rev st)|]. done.
Qed.

Lemma Join_Join dir names more :
  dir <> "" -> names <> [] -> more <> [] -> Forall plain_name names -> Forall plain_name more ->
  Join (Join (dir :: names) :: more) = dir_prefix dir ++ join_path (names ++ more).
Proof.
  intros Hd Hn Hm Hpl Hpm.
  rewrite Join_names; [|intros E; pose proof (Join_names dir names Hd Hn Hpl) as E2|done..].
  - rewrite dir_prefix_Join, join_path_app by done. destruct names; [done|]. by rewrite !append_assoc.
  - rewrite E in E2. destruct Hpl as [|c l (Hc & _) _]; [done|].
    symmetry in E2. destruct (dir_prefix dir); [|done]. destruct c; [done|]. by destruct l.
Qed.
