(* ===== verification/GoJson.v ===== *)
(** JSON values as Go holds them in an [interface{}], and [json.Marshal] of a
    string: the escapes of [encoding/json] with HTML escaping, and what is read
    back from them. *)

From S2P Require Import Prelude GoText GoPath GoNet.
From Stdlib Require Import Ascii String.
Open Scope Z_scope.

(** ** Values

    [JNumber m e] is the [float64] [m * 2 ^ e], with [m] odd or both zero;
    [JInt] is an [int] or [int64] the program put there itself.  The fields of
    an object are in the order of their keys, which makes the representation of
    a Go map unique. *)
Inductive JSON :=
| JNull
| JBool (b : bool)
| JNumber (m e : Z)
| JInt (v : Z)
| JString (s : string)
| JArray (l : list JSON)
| JObject (fields : list (string * JSON)).

(** [reflect.DeepEqual] *)
Fixpoint json_eqb (a b : JSON) {struct a} : bool :=
  match a, b with
  | JNull, JNull => true
  | JBool x, JBool y => Bool.eqb x y
  | JNumber m e, JNumber m' e' => (m =? m') && (e =? e')
  | JInt x, JInt y => x =? y
  | JString x, JString y => String.eqb x y
  | JArray l, JArray l' =>
      (fix eqb_list l l' := match l, l' with
       | [], [] => true
       | x :: l, y :: l' => json_eqb x y && eqb_list l l'
       | _, _ => false
       end) l l'
  | JObject l, JObject l' =>
      (fix eqb_fields l l' := match l, l' with
       | [], [] => true
       | (k, x) :: l, (k', y) :: l' => String.eqb k k' && json_eqb x y && eqb_fields l l'
       | _, _ => false
       end) l l'
  | _, _ => false
  end.

(** The lookup [object[key]]; a missing key reads as [nil]. *)
Definition field (fields : list (string * JSON)) (key : string) : JSON :=
  match List.find (fun kv => String.eqb (fst kv) key) fields with
  | Some kv => snd kv
  | None => JNull
  end.

(** Truncation towards zero, Go's conversion of a [float64] in range. *)
Definition trunc_float (m e : Z) : Z := if 0 <=? e then m * 2 ^ e else Z.quot m (2 ^ (- e)).

(** The exact [float64] of an integer of at most 53 bits, in lowest terms. *)
Fixpoint float_of_pos (p : positive) (e : Z) : Z * Z :=
  match p with
  | xO p' => float_of_pos p' (e + 1)
  | _ => (Z.pos p, e)
  end.
Definition number_of_int (v : Z) : JSON :=
  match v with
  | Z0 => JNumber 0 0
  | Z.pos p => let '(m, e) := float_of_pos p 0 in JNumber m e
  | Z.neg p => let '(m, e) := float_of_pos p 0 in JNumber (- m) e
  end.

Lemma float_of_pos_value p e m e' :
  float_of_pos p e = (m, e') -> e <= e' /\ Z.pos p = m * 2 ^ (e' - e).
Proof.
  revert e. induction p as [p IH|p IH|]; simpl; intros e; [intros [= <- <-]| |intros [= <- <-]].
  - rewrite Z.sub_diag. lia.
  - intros [Hle Hp]%IH. split; [lia|].
    replace (e' - e) with (1 + (e' - (e + 1))) by lia. rewrite Z.pow_add_r by lia. lia.
  - rewrite Z.sub_diag. lia.
Qed.

Lemma trunc_number_of_int v :
  match number_of_int v with JNumber m e => trunc_float m e = v | _ => False end.
Proof.
  unfold number_of_int. destruct v as [|p|p]; [done|..];
    destruct (float_of_pos p 0) as [m e] eqn:E; apply float_of_pos_value in E as [Hle Hp];
    unfold trunc_float; apply Z.leb_le in Hle as ->; rewrite Z.sub_0_r in Hp; lia.
Qed.

(** ** UTF-8 ([utf8.DecodeRuneInString]) *)

Definition in_range (lo hi : Z) (c : ascii) : bool := (lo <=? code c) && (code c <=? hi).
Definition cont : ascii -> bool := in_range 128 191.

(** The size of the valid encoding of a rune above U+007F at the head; zero
    when there is none. *)
Definition utf8_size (s : string) : nat :=
  match s with
  | String a (String b r) =>
      if in_range 194 223 a then (if cont b then 2%nat else O)
      else match r with
      | String c r' =>
          if in_range 224 239 a then
            let lo := if code a =? 224 then 160 else 128 in
            let hi := if code a =? 237 then 159 else 191 in
            if in_range lo hi b && cont c then 3%nat else O
          else match r' with
          | String d _ =>
              if in_range 240 244 a then
                let lo := if code a =? 240 then 144 else 128 in
                let hi := if code a =? 244 then 143 else 191 in
                if in_range lo hi b && cont c && cont d then 4%nat else O
              else O
          | _ => O
          end
      | _ => O
      end
  | _ => O
  end.

(** [utf8.ValidString]; [skip] counts the bytes left of the current rune. *)
Fixpoint valid_from (skip : nat) (s : string) : bool :=
  match s with
  | EmptyString => Nat.eqb skip 0
  | String c s' =>
      match skip with
      | S k => valid_from k s'
      | O => if is_ascii c then valid_from 0 s'
             else match utf8_size s with
                  | O => false
                  | S k => valid_from k s'
                  end
      end
  end.
Definition valid_utf8 : string -> bool := valid_from 0.

(** The encoding of a code point. *)
Definition utf8_encode (v : Z) : string :=
  let ch x := ascii_of_nat (Z.to_nat x) in
  if v <? 128 then String (ch v) ""
  else if v <? 2048 then String (ch (192 + v / 64)) (String (ch (128 + v mod 64)) "")
  else if v <? 65536 then
    String (ch (224 + v / 4096))
      (String (ch (128 + v / 64 mod 64)) (String (ch (128 + v mod 64)) ""))
  else
    String (ch (240 + v / 262144)) (String (ch (128 + v / 4096 mod 64))
      (String (ch (128 + v / 64 mod 64)) (String (ch (128 + v mod 64)) ""))).

(** ** Strings ([appendString] of [encoding/json], HTML escaping on) *)

Definition quote : ascii := ascii_of_nat 34.
Definition backslash : ascii := ascii_of_nat 92.

Definition html_safe (c : ascii) : bool :=
  in_range 32 127 c && negb (existsb (Ascii.eqb c) [quote; backslash; "<"; ">"; "&"]%char).

Definition hex4 (v : Z) : string :=
  let d k := String (if (v / 16 ^ k) mod 16 <? 10 then ascii_of_nat (Z.to_nat (48 + (v / 16 ^ k) mod 16))
                     else ascii_of_nat (Z.to_nat (87 + (v / 16 ^ k) mod 16))) "" in
  (d 3 ++ d 2 ++ d 1 ++ d 0)%string.

Definition escape_u (v : Z) : string := String backslash ("u" ++ hex4 v).
Definition escape_c (c : ascii) : string := String backslash (String c "").

(** The escape of an ASCII byte that is not safe. *)
Definition escape_byte (c : ascii) : string :=
  if Ascii.eqb c quote || Ascii.eqb c backslash then escape_c c
  else if code c =? 8 then escape_c "b"
  else if code c =? 12 then escape_c "f"
  else if code c =? 10 then escape_c "n"
  else if code c =? 13 then escape_c "r"
  else if code c =? 9 then escape_c "t"
  else escape_u (code c).

(** U+2028 and U+2029, which are escaped although they are valid. *)
Definition line_separators : list string := [bytes [226; 128; 168]%nat; bytes [226; 128; 169]%nat].

(** [skip] counts the bytes still to drop of a rune already written. *)
Fixpoint escape_from (skip : nat) (s : string) : string :=
  match s with
  | EmptyString => EmptyString
  | String c s' =>
      match skip with
      | S k => escape_from k s'
      | O =>
          if is_ascii c then
            (if html_safe c then String c "" else escape_byte c) ++ escape_from 0 s'
          else match utf8_size s with
               | O => escape_u 65533 ++ escape_from 0 s'
               | S k =>
                   (if HasPrefix s (bytes [226; 128; 168]%nat) then escape_u 8232
                    else if HasPrefix s (bytes [226; 128; 169]%nat) then escape_u 8233
                    else take_str (S k) s) ++ escape_from k s'
               end
      end
  end%string.

Definition json_string (s : string) : string :=
  String quote (escape_from 0 s ++ String quote "").

(** ** Reading a quoted string ([unquoteBytes] of [encoding/json]) *)

(** [prefixed u r]: the reading [r] of the rest, with [u] read before it. *)
Definition prefixed (u : string) (r : option (string * string)) : option (string * string) :=
  '(t, rest) ← r; Some ((u ++ t)%string, rest).

Definition unescape_simple (c : ascii) : option ascii :=
  if Ascii.eqb c quote || Ascii.eqb c backslash || Ascii.eqb c "/" then Some c
  else if Ascii.eqb c "b" then Some (ascii_of_nat 8)
  else if Ascii.eqb c "f" then Some (ascii_of_nat 12)
  else if Ascii.eqb c "n" then Some (ascii_of_nat 10)
  else if Ascii.eqb c "r" then Some (ascii_of_nat 13)
  else if Ascii.eqb c "t" then Some (ascii_of_nat 9)
  else None.

Definition read_hex4 (a b c d : ascii) : option Z :=
  x ← hex_value a; y ← hex_value b; z ← hex_value c; t ← hex_value d;
  Some (4096 * x + 256 * y + 16 * z + t).

Definition is_surrogate (v : Z) : bool := (55296 <=? v) && (v <? 57344).
Definition replacement : Z := 65533.

(** [utf16.DecodeRune] *)
Definition decode_surrogates (hi lo : Z) : option Z :=
  if (55296 <=? hi) && (hi <? 56320) && (56320 <=? lo) && (lo <? 57344)
  then Some ((hi - 55296) * 1024 + (lo - 56320) + 65536) else None.

(** The low half a high one needs: the escape at the head of [s]. *)
Definition escape_value (b u g1 g2 g3 g4 : ascii) : option Z :=
  if Ascii.eqb b backslash && Ascii.eqb u "u" then read_hex4 g1 g2 g3 g4 else None.

(** After the opening quote: the text up to the closing one, and what follows
    it.  A control character is an error; bytes that are not UTF-8 become
    U+FFFD.  [skip] counts the bytes left of a rune that is copied. *)
Fixpoint read_from (skip : nat) (s : string) : option (string * string) :=
  match s with
  | EmptyString => None
  | String c s' =>
      match skip with
      | S k => prefixed (String c "") (read_from k s')
      | O =>
          if Ascii.eqb c quote then Some (EmptyString, s')
          else if Ascii.eqb c backslash then
            match s' with
            | String "u" (String h1 (String h2 (String h3 (String h4 rest)))) =>
                v ← read_hex4 h1 h2 h3 h4;
                if is_surrogate v then
                  match rest with
                  | String b (String u (String g1 (String g2 (String g3 (String g4 rest'))))) =>
                      match escape_value b u g1 g2 g3 g4 ≫= decode_surrogates v with
                      | Some r => prefixed (utf8_encode r) (read_from 0 rest')
                      | None => prefixed (utf8_encode replacement) (read_from 0 rest)
                      end
                  | _ => prefixed (utf8_encode replacement) (read_from 0 rest)
                  end
                else prefixed (utf8_encode v) (read_from 0 rest)
            | String e rest =>
                x ← unescape_simple e; prefixed (String x "") (read_from 0 rest)
            | EmptyString => None
            end
          else if code c <? 32 then None
          else if is_ascii c then prefixed (String c "") (read_from 0 s')
          else match utf8_size s with
               | O => prefixed (utf8_encode replacement) (read_from 0 s')
               | S k => prefixed (String c "") (read_from k s')
               end
      end
  end.
Definition read_chars : string -> option (string * string) := read_from 0.

Definition read_string (s : string) : option (string * string) :=
  match s with
  | String c s' => if Ascii.eqb c quote then read_chars s' else None
  | EmptyString => None
  end.

Example json_string1 :
  json_string (bytes [97; 34; 10; 60; 1; 226; 128; 168; 255]%nat) =
  String quote ("a" ++ bytes [92]%nat ++ String quote (bytes [92]%nat ++ "n" ++ bytes [92]%nat ++ "u003c" ++
    bytes [92]%nat ++ "u0001" ++ bytes [92]%nat ++ "u2028" ++ bytes [92]%nat ++ "ufffd" ++ String quote ""))%string.
Proof. vm_compute. reflexivity. Qed.

(** ** The round trip *)

Lemma prefixed_prefixed u v r : prefixed u (prefixed v r) = prefixed (u ++ v)%string r.
Proof. destruct r as [[t rest]|]; [|done]. simpl. by rewrite append_assoc. Qed.

Lemma read_plain c t :
  Ascii.eqb c quote = false -> Ascii.eqb c backslash = false -> (code c <? 32) = false ->
  is_ascii c = true -> read_chars (String c t) = prefixed (String c "") (read_chars t).
Proof. intros H1 H2 H3 H4. unfold read_chars. cbn [read_from]. by rewrite H1, H2, H3, H4. Qed.

Lemma read_simple e x t :
  Ascii.eqb e "u" = false -> unescape_simple e = Some x ->
  read_chars (String backslash (String e t)) = prefixed (String x "") (read_chars t).
Proof.
  intros He Hx. unfold read_chars. cbn [read_from].
  change (Ascii.eqb backslash quote) with false. change (Ascii.eqb backslash backslash) with true.
  cbv iota. destruct e as [[] [] [] [] [] [] [] []]; try discriminate He; by rewrite Hx.
Qed.

Lemma read_u a b c d v t :
  read_hex4 a b c d = Some v -> is_surrogate v = false ->
  read_chars (String backslash (String "u" (String a (String b (String c (String d t)))))) =
  prefixed (utf8_encode v) (read_chars t).
Proof.
  intros Hv Hs. unfold read_chars. cbn [read_from].
  change (Ascii.eqb backslash quote) with false. change (Ascii.eqb backslash backslash) with true.
  cbv iota. rewrite Hv. cbn [mbind option_bind]. by rewrite Hs.
Qed.

(** One ASCII byte, escaped or not, reads back as itself. *)
Lemma read_escaped_byte c t :
  is_ascii c = true ->
  read_chars ((if html_safe c then String c "" else escape_byte c) ++ t)%string =
  prefixed (String c "") (read_chars t).
Proof.
  intros Hc. destruct c as [[] [] [] [] [] [] [] []]; try discriminate Hc; clear Hc;
    match goal with |- context [read_chars (?u ++ t)%string] =>
      let v := eval vm_compute in u in change u with v end;
    (apply read_plain; reflexivity) || (apply read_simple; reflexivity) ||
    (etransitivity; [refine (read_u _ _ _ _ _ t _ _); reflexivity | reflexivity]).
Qed.

Definition high_byte (c : ascii) : bool := in_range 128 255 c.

(** Inside a rune the bytes are copied. *)
Lemma read_copied u t : read_from (String.length u) (u ++ t)%string = prefixed u (read_chars t).
Proof.
  induction u as [|c u IH].
  - change ("" ++ t)%string with t. simpl. unfold read_chars. by destruct (read_from 0 t) as [[]|].
  - change (String c u ++ t)%string with (String c (u ++ t)). cbn [String.length read_from].
    rewrite IH. apply prefixed_prefixed.
Qed.

Lemma utf8_size_high s k : utf8_size s = S k -> forallb_str high_byte (take_str (S k) s) = true.
Proof.
  assert (forall lo hi c, 128 <= lo -> hi <= 255 -> in_range lo hi c = true -> high_byte c = true) as Hr.
  { unfold high_byte, in_range. intros lo hi c ? ?. rewrite !andb_true_iff, !Z.leb_le. lia. }
  destruct s as [|a [|b r]]; [done..|]. cbn [utf8_size].
  destruct (in_range 194 223 a) eqn:Ha.
  { destruct (cont b) eqn:Hb; [|done]. intros [= <-]. simpl.
    apply Hr in Ha; [|done..]. apply Hr in Hb; [|done..]. by rewrite Ha, Hb. }
  destruct r as [|c r]; [done|]. destruct (in_range 224 239 a) eqn:Ha3.
  { cbv zeta. destruct (in_range _ _ b && cont c) eqn:Hb; [|done]. intros [= <-].
    apply andb_true_iff in Hb as [Hb Hc]. simpl.
    apply Hr in Ha3; [|done..]. apply Hr in Hc; [|done..].
    apply Hr in Hb; [|by destruct (code a =? 224)|by destruct (code a =? 237)].
    by rewrite Ha3, Hb, Hc. }
  destruct r as [|d r]; [done|]. destruct (in_range 240 244 a) eqn:Ha4; [|done].
  cbv zeta. destruct (in_range _ _ b && cont c && cont d) eqn:Hb; [|done]. intros [= <-].
  apply andb_true_iff in Hb as [Hb Hd]. apply andb_true_iff in Hb as [Hb Hc]. simpl.
  apply Hr in Ha4; [|done..]. apply Hr in Hc; [|done..]. apply Hr in Hd; [|done..].
  apply Hr in Hb; [|by destruct (code a =? 240)|by destruct (code a =? 244)].
  by rewrite Ha4, Hb, Hc, Hd.
Qed.

(** Evaluates [take_str] and [++] on a text that starts with known bytes. *)
Ltac expose := cbn [take_str String.length]; rewrite ?append_cons, ?append_nil; cbn [utf8_size].

(** The size of a rune depends on its own bytes only. *)
Lemma utf8_size_take s k t :
  utf8_size s = S k ->
  utf8_size (take_str (S k) s ++ t)%string = S k /\ String.length (take_str (S k) s) = S k.
Proof.
  destruct s as [|a [|b [|c [|d r]]]]; cbn [utf8_size]; try done.
  - destruct (in_range 194 223 a) eqn:Ha; [|done]. destruct (cont b) eqn:Hb; [|done].
    intros [= <-]. expose. by rewrite Ha, Hb.
  - destruct (in_range 194 223 a) eqn:Ha.
    { destruct (cont b) eqn:Hb; [|done]. intros [= <-]. expose. by rewrite Ha, Hb. }
    destruct (in_range 224 239 a) eqn:Ha3; [|done]. destruct (_ && _) eqn:Hb; [|done].
    intros [= <-]. expose. by rewrite Ha, Ha3, Hb.
  - destruct (in_range 194 223 a) eqn:Ha.
    { destruct (cont b) eqn:Hb; [|done]. intros [= <-]. expose. by rewrite Ha, Hb. }
    destruct (in_range 224 239 a) eqn:Ha3.
    { destruct (_ && _) eqn:Hb; [|done]. intros [= <-]. expose. by rewrite Ha, Ha3, Hb. }
    destruct (in_range 240 244 a) eqn:Ha4; [|done]. destruct (_ && _) eqn:Hb; [|done].
    intros [= <-]. expose. by rewrite Ha, Ha3, Ha4, Hb.
Qed.

Lemma HasPrefix_app s p : HasPrefix s p = true -> s = (p ++ drop_str (String.length p) s)%string.
Proof.
  revert s. induction p as [|a p IH]; intros s; simpl; [by destruct s|].
  destruct s as [|b s]; [done|]. intros [->%Ascii.eqb_eq H]%andb_true_iff.
  exact (f_equal (String b) (IH s H)).
Qed.

Lemma read_rune s k t :
  utf8_size s = S k -> read_chars (take_str (S k) s ++ t)%string = prefixed (take_str (S k) s) (read_chars t).
Proof.
  intros Hk. destruct (utf8_size_take s k t Hk) as [Ht Hl]. pose proof (utf8_size_high s k Hk) as Hh.
  destruct (take_str (S k) s) as [|c u]; [done|]. injection Hl as Hl.
  cbn [forallb_str] in Hh. apply andb_true_iff in Hh as [Hc _].
  change (String c u ++ t)%string with (String c (u ++ t)) in *.
  assert (Ascii.eqb c quote = false /\ Ascii.eqb c backslash = false /\ (code c <? 32) = false /\
    is_ascii c = false) as (H1 & H2 & H3 & H4).
  { clear - Hc. destruct c as [[] [] [] [] [] [] [] []]; (discriminate Hc || by split_and!). }
  unfold read_chars. cbn [read_from]. rewrite H1, H2, H3, H4, Ht, <- Hl, read_copied.
  apply prefixed_prefixed.
Qed.

Lemma read_escaped s k rest :
  valid_from k s = true ->
  read_chars (escape_from k s ++ String quote rest)%string = Some (drop_str k s, rest).
Proof.
  revert k. induction s as [|c s IH]; intros k Hv.
  - by destruct k.
  - destruct k as [|k]; [|exact (IH k Hv)]. cbn [escape_from]. cbn [valid_from] in Hv.
    destruct (is_ascii c) eqn:Hc.
    + rewrite append_assoc, read_escaped_byte, (IH 0%nat Hv) by done. reflexivity.
    + destruct (utf8_size (String c s)) as [|k] eqn:Hk; [done|].
      rewrite append_assoc. pose proof (IH k Hv) as IHk.
      pose proof (take_drop_str (S k) (String c s)) as Htd.
      assert (forall u, (u ++ drop_str k s)%string = String c s ->
        prefixed u (Some (drop_str k s, rest)) = Some (String c s, rest)) as Hfin.
      { intros u Hu. simpl. by rewrite Hu. }
      destruct (HasPrefix (String c s) (bytes [226; 128; 168]%nat)) eqn:H1;
        [|destruct (HasPrefix (String c s) (bytes [226; 128; 169]%nat)) eqn:H2].
      * assert (k = 2%nat) as ->.
        { apply HasPrefix_app in H1. rewrite H1 in Hk. vm_compute in Hk. by injection Hk. }
        assert (forall t, read_chars (escape_u 8232 ++ t)%string =
          prefixed (bytes [226; 128; 168]%nat) (read_chars t)) as -> by (intros t; etransitivity; [refine (read_u _ _ _ _ _ t _ _); reflexivity | reflexivity]).
        rewrite IHk. apply Hfin. apply HasPrefix_app in H1. by symmetry.
      * assert (k = 2%nat) as ->.
        { apply HasPrefix_app in H2. rewrite H2 in Hk. vm_compute in Hk. by injection Hk. }
        assert (forall t, read_chars (escape_u 8233 ++ t)%string =
          prefixed (bytes [226; 128; 169]%nat) (read_chars t)) as -> by (intros t; etransitivity; [refine (read_u _ _ _ _ _ t _ _); reflexivity | reflexivity]).
        rewrite IHk. apply Hfin. apply HasPrefix_app in H2. by symmetry.
      * rewrite (read_rune _ k) by done. rewrite IHk. by apply Hfin.
Qed.

(** A valid UTF-8 text survives being quoted and read back, whatever follows. *)
Lemma read_json_string s rest :
  valid_utf8 s = true -> read_string (json_string s ++ rest)%string = Some (s, rest).
Proof.
  intros Hv. change (read_chars ((escape_from 0 s ++ String quote "") ++ rest)%string = Some (s, rest)).
  rewrite append_assoc. by apply read_escaped.
Qed.

(** *** A quoted text stays on its line *)

Definition printable (c : ascii) : bool := 32 <=? code c.

Lemma forallb_str_app p a b : forallb_str p (a ++ b)%string = forallb_str p a && forallb_str p b.
Proof.
  induction a as [|c a IH]; [done|]. change (String c a ++ b)%string with (String c (a ++ b)).
  simpl. by rewrite IH, andb_assoc.
Qed.

Lemma escape_printable k s : forallb_str printable (escape_from k s) = true.
Proof.
  revert k. induction s as [|c s IH]; intros k; [done|]. cbn [escape_from].
  destruct k as [|k]; [|apply IH]. destruct (is_ascii c) eqn:Hc.
  - rewrite forallb_str_app, IH, andb_true_r. clear IH.
    destruct c as [[] [] [] [] [] [] [] []]; [discriminate Hc || (vm_compute; reflexivity)..].
  - destruct (utf8_size (String c s)) as [|k] eqn:Hk.
    + rewrite forallb_str_app, IH. done.
    + rewrite forallb_str_app, IH, andb_true_r.
      destruct (HasPrefix _ _); [done|]. destruct (HasPrefix _ _); [done|].
      apply utf8_size_high in Hk. revert Hk. generalize (take_str (S k) (String c s)) as u.
      induction u as [|d u IHu]; [done|]. simpl. intros [Hd Hu]%andb_true_iff.
      rewrite IHu by done. unfold high_byte, in_range, printable in *.
      apply andb_true_iff in Hd as [Hd _]. apply Z.leb_le in Hd.
      rewrite andb_true_r. apply Z.leb_le. lia.
Qed.

Lemma json_string_printable s : forallb_str printable (json_string s) = true.
Proof. unfold json_string. simpl. by rewrite forallb_str_app, escape_printable. Qed.

(** ** Printing values

    The text of a [float64] is the shortest that reads back, in the format of
    [encoding/json] and in that of [fmt]'s [%v]; both stay arguments, as do
    [strconv.ParseFloat] and the conversion of a [float64] that no [int]
    represents. *)
Class GoFloat := {
  parse_float : string -> option (Z * Z);
  json_float : Z -> Z -> string;
  fmt_float : Z -> Z -> string;
  int_overflow : Z -> Z -> Z
}.

Section Printing.
Context `{GoFloat}.

(** [json.Marshal] *)
Fixpoint json_marshal (v : JSON) : string :=
  match v with
  | JNull => "null"
  | JBool b => if b then "true" else "false"
  | JNumber m e => json_float m e
  | JInt v => itoa v
  | JString s => json_string s
  | JArray l => "[" ++ join "," (map json_marshal l) ++ "]"
  | JObject fields =>
      "{" ++ join "," (map (fun kv => json_string (fst kv) ++ ":" ++ json_marshal (snd kv)) fields) ++ "}"
  end%string.

(** [fmt.Sprint] of one operand *)
Fixpoint Sprint (v : JSON) : string :=
  match v with
  | JNull => "<nil>"
  | JBool b => if b then "true" else "false"
  | JNumber m e => fmt_float m e
  | JInt v => itoa v
  | JString s => s
  | JArray l => "[" ++ join " " (map Sprint l) ++ "]"
  | JObject fields =>
      "map[" ++ join " " (map (fun kv => fst kv ++ ":" ++ Sprint (snd kv)) fields) ++ "]"
  end%string.

(** The conversion [int(f)] of a [float64]. *)
Definition int_of_float (m e : Z) : Z :=
  let v := trunc_float m e in
  if (- 2 ^ 63 <=? v) && (v <? 2 ^ 63) then v else int_overflow m e.
End Printing.
