(* ===== verification/GoJsonRead.v ===== *)
(** [json.Unmarshal]: the grammar of [encoding/json] as a parser that keeps the
    text of every number, and the decoding of the parsed text into the Go types
    the program reads: [interface{}], strings, integers, maps and structs. *)

From S2P Require Import Prelude GoText GoPath GoNet Timestamps GoJson.
From Stdlib Require Import Ascii String.
Open Scope Z_scope.

(** A parsed text: numbers by their literal, fields in their order. *)
Inductive JText :=
| TNull
| TBool (b : bool)
| TNumber (literal : string)
| TString (s : string)
| TArray (l : list JText)
| TObject (fields : list (string * JText)).

(** ** Numbers *)

Fixpoint span (p : ascii -> bool) (s : string) : string * string :=
  match s with
  | String c s' => if p c then let '(a, b) := span p s' in (String c a, b) else (EmptyString, s)
  | EmptyString => (EmptyString, EmptyString)
  end.

(** At least one digit. *)
Definition scan_digits (s : string) : option (string * string) :=
  let '(d, r) := span is_digit s in if String.eqb d "" then None else Some (d, r).

Definition scan_sign (signs : list ascii) (s : string) : string * string :=
  match s with
  | String c r => if existsb (Ascii.eqb c) signs then (String c "", r) else (EmptyString, s)
  | EmptyString => (EmptyString, s)
  end.

(** No digit may follow a leading zero. *)
Definition scan_int (s : string) : option (string * string) :=
  match s with
  | String c r => if Ascii.eqb c "0" then Some (String c "", r) else scan_digits s
  | EmptyString => None
  end.

(** An optional part that [intro] starts. *)
Definition scan_part (intro : ascii -> bool) (signs : list ascii) (s : string)
    : option (string * string) :=
  match s with
  | String c r =>
      if intro c then
        let '(sign, r1) := scan_sign signs r in
        '(d, r2) ← scan_digits r1; Some (String c (sign ++ d)%string, r2)
      else Some (EmptyString, s)
  | EmptyString => Some (EmptyString, s)
  end.

Definition is_exponent (c : ascii) : bool := Ascii.eqb c "e" || Ascii.eqb c "E".

(** The literal at the head of [s] and what follows it. *)
Definition scan_number (s : string) : option (string * string) :=
  let '(sign, s1) := scan_sign ["-"%char] s in
  '(int, s2) ← scan_int s1;
  '(frac, s3) ← scan_part (fun c => Ascii.eqb c ".") [] s2;
  '(exp, s4) ← scan_part is_exponent ["+"; "-"]%char s3;
  Some ((sign ++ int ++ frac ++ exp)%string, s4).

(** ** Values *)

Definition json_space (c : ascii) : bool :=
  existsb (Ascii.eqb c) (map ascii_of_nat [9; 10; 13; 32]%nat).
Definition skip_ws (s : string) : string := snd (span json_space s).

(** After a [[]: the elements, separated by commas, to the closing bracket. *)
Fixpoint parse_elements (value : string -> option (JText * string)) (n : nat) (s : string)
    : option (list JText * string) :=
  match n with
  | O => None
  | S n' =>
      '(v, r) ← value s;
      match skip_ws r with
      | String c r' =>
          if Ascii.eqb c "," then '(vs, r'') ← parse_elements value n' r'; Some (v :: vs, r'')
          else if Ascii.eqb c "]" then Some ([v], r')
          else None
      | EmptyString => None
      end
  end.

Fixpoint parse_members (value : string -> option (JText * string)) (n : nat) (s : string)
    : option (list (string * JText) * string) :=
  match n with
  | O => None
  | S n' =>
      '(k, r) ← read_string (skip_ws s);
      match skip_ws r with
      | String c r1 =>
          if Ascii.eqb c ":" then
            '(v, r2) ← value r1;
            match skip_ws r2 with
            | String d r3 =>
                if Ascii.eqb d "," then
                  '(vs, r4) ← parse_members value n' r3; Some ((k, v) :: vs, r4)
                else if Ascii.eqb d "}" then Some ([(k, v)], r3)
                else None
            | EmptyString => None
            end
          else None
      | EmptyString => None
      end
  end.

Definition max_depth : Z := 10000.

(** [n] bounds the nesting and the length of the lists: more than the length of
    [s] is never needed.  [depth] counts the open brackets, of which Go allows
    [max_depth]. *)
Fixpoint parse_value (n : nat) (depth : Z) (s0 : string) : option (JText * string) :=
  match n with
  | O => None
  | S n' =>
      let s := skip_ws s0 in
      match s with
      | EmptyString => None
      | String c r =>
          if Ascii.eqb c quote then '(t, r') ← read_chars r; Some (TString t, r')
          else if Ascii.eqb c "{" then
            if max_depth <=? depth then None
            else if HasPrefix (skip_ws r) "}" then Some (TObject [], drop_str 1 (skip_ws r))
            else '(l, r') ← parse_members (parse_value n' (depth + 1)) n' r; Some (TObject l, r')
          else if Ascii.eqb c "[" then
            if max_depth <=? depth then None
            else if HasPrefix (skip_ws r) "]" then Some (TArray [], drop_str 1 (skip_ws r))
            else '(l, r') ← parse_elements (parse_value n' (depth + 1)) n' r; Some (TArray l, r')
          else if HasPrefix s "true" then Some (TBool true, drop_str 4 s)
          else if HasPrefix s "false" then Some (TBool false, drop_str 5 s)
          else if HasPrefix s "null" then Some (TNull, drop_str 4 s)
          else '(t, r') ← scan_number s; Some (TNumber t, r')
      end
  end.

(** A whole text ([checkValid]). *)
Definition json_parse (s : string) : option JText :=
  '(v, r) ← parse_value (S (String.length s)) 0 s;
  if String.eqb (skip_ws r) "" then Some v else None.

(** ** Decoding

    A value of the wrong type is an error, which is reported when the rest has
    been decoded: the result is the variable after decoding, and whether all of
    it fitted. *)

Section Decode.
Context `{GoFloat}.

(** An assignment [m[k] = v] on fields in order, unless a later one was made. *)
Fixpoint put_new (kv : string * JSON) (fields : list (string * JSON)) : list (string * JSON) :=
  match fields with
  | [] => [kv]
  | kv' :: l =>
      if String.eqb (fst kv) (fst kv') then fields
      else if String.ltb (fst kv) (fst kv') then kv :: fields
      else kv' :: put_new kv l
  end.

(** Into an [interface{}]. *)
Fixpoint to_interface (t : JText) : JSON :=
  match t with
  | TNull => JNull
  | TBool b => JBool b
  | TNumber lit => match parse_float lit with Some (m, e) => JNumber m e | None => JNull end
  | TString s => JString s
  | TArray l => JArray (map to_interface l)
  | TObject fields => JObject (fold_right put_new [] (map (fun kv => (fst kv, to_interface (snd kv))) fields))
  end.

(** Every number fits a [float64]. *)
Fixpoint numbers_fit (t : JText) : bool :=
  match t with
  | TNumber lit => match parse_float lit with Some _ => true | None => false end
  | TArray l => forallb numbers_fit l
  | TObject fields => forallb (fun kv => numbers_fit (snd kv)) fields
  | _ => true
  end.
End Decode.

(** A Go type a text can be decoded into, with the encoding of its values. *)
Record Target (A : Type) := mkTarget {
  tg_decode : JText -> A -> A * bool;
  tg_encode : A -> string
}.
Arguments mkTarget {A} _ _.
Arguments tg_decode {A} _ _ _.
Arguments tg_encode {A} _ _.

(** [json.Unmarshal(data, &a)]: the variable, and whether it returned no error.
    A text that is not JSON leaves the variable alone. *)
Definition json_unmarshal {A} (T : Target A) (data : string) (a : A) : A * bool :=
  match json_parse data with
  | Some t => tg_decode T t a
  | None => (a, false)
  end.

Definition decode_string (t : JText) (a : string) : string * bool :=
  match t with TString s => (s, true) | TNull => (a, true) | _ => (a, false) end.

(** [int64]: the literal must be an integer in range. *)
Definition decode_int64 (t : JText) (a : Z) : Z * bool :=
  match t with
  | TNumber lit => match Atoi lit with Some v => (v, true) | None => (a, false) end
  | TNull => (a, true)
  | _ => (a, false)
  end.

(** A struct: [assign key value] decodes one field; a key that no field has is
    ignored. *)
Definition decode_struct {A} (assign : string -> JText -> A -> A * bool) (t : JText) (a : A) : A * bool :=
  match t with
  | TObject fields =>
      fold_left (fun r kv => let '(a', ok) := assign (fst kv) (snd kv) (fst r) in (a', snd r && ok))
        fields (a, true)
  | TNull => (a, true)
  | _ => (a, false)
  end.

(** The [assign] of a list of fields with their setters; field names match
    whatever their case. *)
Definition struct_field (A : Type) : Type := (string * (JText -> A -> A * bool))%type.

Section Structs.
Context `{GoFloat} `{UnicodeTables}.

Definition assign_fields {A} (fields : list (struct_field A)) (key : string) (t : JText) (a : A) : A * bool :=
  match List.find (fun f => EqualFold (fst f) key) fields with
  | Some f => snd f t a
  | None => (a, true)
  end.

(** A field of type [T] that [get] and [put] reach. *)
Definition on_field {A T} (get : A -> T) (put : (T -> T) -> A -> A)
    (decode : JText -> T -> T * bool) (t : JText) (a : A) : A * bool :=
  let '(v, ok) := decode t (get a) in (put (fun _ => v) a, ok).

Definition decode_interface (t : JText) (_ : JSON) : JSON * bool := (to_interface t, numbers_fit t).

(** [map[string]interface{}]: the entries are added to those of the variable. *)
Definition decode_map (t : JText) (a : option (gmap string JSON)) : option (gmap string JSON) * bool :=
  match t with
  | TObject fields =>
      (Some (fold_left (fun m kv => <[fst kv := to_interface (snd kv)]> m) fields (default ∅ a)),
       forallb (fun kv => numbers_fit (snd kv)) fields)
  | TNull => (None, true)
  | _ => (a, false)
  end.

Definition interface_target : Target JSON := mkTarget decode_interface json_marshal.
End Structs.
