(* ===== verification/GoJsonSpec.v ===== *)
(** The JSON the program writes is the JSON it reads: [json.Unmarshal] of
    [json.Marshal] gives the value back. *)

From S2P Require Import Prelude GoText GoPath GoNet Timestamps GoJson GoJsonRead.
From Stdlib Require Import Ascii String.
Open Scope Z_scope.

(** ** Literals *)

(** No character that continues a number. *)
Definition ends_number (c : ascii) : bool :=
  negb (is_digit c || Ascii.eqb c "." || is_exponent c).
Definition delimited (s : string) : Prop :=
  match s with String c _ => ends_number c = true | EmptyString => True end.

Lemma span_app p s a b t :
  span p s = (a, b) -> (match t with String c _ => p c = false | EmptyString => True end) ->
  span p (s ++ t)%string = (a, (b ++ t)%string).
Proof.
  revert a b. induction s as [|c s IH]; intros a b.
  - intros [= <- <-] Ht. rewrite !append_nil. destruct t as [|c t]; [done|]. simpl. by rewrite Ht.
  - rewrite append_cons. cbn [span]. destruct (p c); [|by intros [= <- <-] _; rewrite append_cons].
    destruct (span p s) as [a' b'] eqn:E. intros [= <- <-] Ht. by rewrite (IH _ _ eq_refl Ht).
Qed.

Lemma delimited_not p s :
  delimited s -> (forall c, ends_number c = true -> p c = false) ->
  match s with String c _ => p c = false | EmptyString => True end.
Proof. destruct s; auto. Qed.

Lemma scan_digits_app s a b t :
  scan_digits s = Some (a, b) -> delimited t -> scan_digits (s ++ t)%string = Some (a, (b ++ t)%string).
Proof.
  unfold scan_digits. intros E Ht. destruct (span is_digit s) as [d r] eqn:Es.
  rewrite (span_app _ _ _ _ t Es).
  - destruct (String.eqb d ""); [done|]. by injection E as <- <-.
  - apply delimited_not; [done|]. unfold ends_number. intros c. by destruct (is_digit c).
Qed.

Lemma scan_int_app s a b t :
  scan_int s = Some (a, b) -> delimited t -> scan_int (s ++ t)%string = Some (a, (b ++ t)%string).
Proof.
  destruct s as [|c s]; [done|]. rewrite append_cons. cbn [scan_int]. destruct (Ascii.eqb c "0").
  - by intros [= <- <-] _.
  - apply (scan_digits_app (String c s)).
Qed.

Lemma scan_sign_app signs c s a b t :
  scan_sign signs (String c s) = (a, b) -> scan_sign signs (String c s ++ t)%string = (a, (b ++ t)%string).
Proof.
  rewrite append_cons. cbn [scan_sign]. destruct (existsb _ signs); intros [= <- <-]; [done|].
  by rewrite append_cons.
Qed.

Lemma scan_part_app intro signs s a b t :
  (forall c, ends_number c = true -> intro c = false) ->
  scan_part intro signs s = Some (a, b) -> delimited t ->
  scan_part intro signs (s ++ t)%string = Some (a, (b ++ t)%string).
Proof.
  intros Hi E Ht. destruct s as [|c s].
  - injection E as <- <-. rewrite !append_nil. pose proof (delimited_not intro t Ht Hi) as Hn.
    destruct t; [done|]. cbn [scan_part]. by rewrite Hn.
  - rewrite append_cons. cbn [scan_part] in *. destruct (intro c); [|by injection E as <- <-].
    destruct s as [|d s].
    { exfalso. cbn in E. done. }
    destruct (scan_sign signs (String d s)) as [g r] eqn:Eg. rewrite (scan_sign_app _ _ _ _ _ t Eg).
    destruct (scan_digits r) as [[x y]|] eqn:Ed; [|done]. rewrite (scan_digits_app _ _ _ t Ed Ht).
    by injection E as <- <-.
Qed.

Lemma scan_number_app s a b t :
  scan_number s = Some (a, b) -> delimited t -> scan_number (s ++ t)%string = Some (a, (b ++ t)%string).
Proof.
  intros E Ht. unfold scan_number in *. destruct s as [|c s]; [done|].
  destruct (scan_sign ["-"%char] (String c s)) as [g s1] eqn:Eg. rewrite (scan_sign_app _ _ _ _ _ t Eg).
  destruct (scan_int s1) as [[i s2]|] eqn:Ei; [|done]. rewrite (scan_int_app _ _ _ t Ei Ht).
  cbn [mbind option_bind] in *.
  destruct (scan_part _ [] s2) as [[f s3]|] eqn:Ef; [|done].
  rewrite (scan_part_app _ _ _ _ _ t) with (2 := Ef); [| |done].
  2:{ unfold ends_number. intros d. by destruct (is_digit d), (Ascii.eqb d "."). }
  cbn [mbind option_bind] in *.
  destruct (scan_part _ _ s3) as [[x s4]|] eqn:Ex; [|done].
  rewrite (scan_part_app _ _ _ _ _ t) with (2 := Ex); [| |done].
  2:{ unfold ends_number. intros d. by destruct (is_digit d), (Ascii.eqb d "."), (is_exponent d). }
  cbn [mbind option_bind] in *. by injection E as <- <-.
Qed.

(** The head of a literal. *)
Lemma scan_number_head s r : scan_number s = Some r -> exists c s', s = String c s' /\ (is_digit c || Ascii.eqb c "-") = true.
Proof.
  unfold scan_number. destruct s as [|c s]; [done|]. intros E. exists c, s. split; [done|].
  destruct (is_digit c) eqn:Ed; [done|]. cbn [scan_sign existsb] in E.
  destruct (Ascii.eqb c "-"); [done|]. cbn [orb] in E. cbn [scan_int] in E.
  destruct (Ascii.eqb c "0") eqn:E0.
  { apply Ascii.eqb_eq in E0 as ->. done. }
  exfalso. unfold scan_digits in E. cbn [span] in E. by rewrite Ed in E.
Qed.

(** The digits of a number start with a zero only if it is zero. *)
Lemma digits_str_head fuel v acc :
  0 < v < 10 ^ Z.of_nat fuel -> exists c s, digits_str 10 fuel v acc = String c s /\ c <> "0"%char.
Proof.
  revert v acc. induction fuel as [|f IH]; intros v acc Hv; [simpl in Hv; lia|].
  rewrite Nat2Z.inj_succ, Z.pow_succ_r in Hv by lia. cbn [digits_str].
  pose proof (Z.mod_pos_bound v 10 ltac:(lia)) as Hm. rewrite (proj2 (Z.ltb_lt (v mod 10) 10)) by lia.
  destruct (Z.ltb_spec v 10) as [Hlt|Hge].
  - eexists _, _. split; [done|]. rewrite Z.mod_small by lia. intros E.
    apply (f_equal nat_of_ascii) in E. rewrite nat_ascii_embedding in E by lia. change (nat_of_ascii "0"%char) with 48%nat in E. lia.
  - apply IH. split; [apply Z.div_str_pos; lia|apply Z.div_lt_upper_bound; lia].
Qed.

Lemma span_all p s : forallb_str p s = true -> span p s = (s, ""%string).
Proof. induction s as [|c s IH]; [done|]. cbn. intros [-> Hs]%andb_true_iff. by rewrite IH. Qed.

Lemma valid_ascii s : forallb_str is_ascii s = true -> valid_utf8 s = true.
Proof.
  unfold valid_utf8. induction s as [|c s IH]; [done|]. cbn. intros [Hc Hs]%andb_true_iff. rewrite Hc. by apply IH.
Qed.

Lemma itoa_literal v : 0 <= v < 2 ^ 63 -> scan_number (itoa v) = Some (itoa v, ""%string).
Proof.
  intros Hv. destruct (itoa_digits v Hv) as (Hd & Hne & _).
  assert (scan_int (itoa v) = Some (itoa v, ""%string)) as Hi.
  { destruct (Z.eq_dec v 0) as [->|Hnz]; [done|].
    assert (exists c s, itoa v = String c s /\ c <> "0"%char) as (c & s & E & Hc).
    { unfold itoa. rewrite (proj2 (Z.ltb_ge v 0)) by lia. apply digits_str_head. split; [lia|].
      apply Z.lt_trans with (2 ^ 63); [lia|reflexivity]. }
    rewrite E in *. cbn [scan_int]. rewrite (proj2 (Ascii.eqb_neq c "0") Hc). unfold scan_digits. by rewrite (span_all _ _ Hd). }
  unfold scan_number. assert (scan_sign ["-"%char] (itoa v) = (""%string, itoa v)) as ->.
  { destruct (itoa v) as [|c s]; [done|]. cbn in Hd |- *. apply andb_true_iff in Hd as [Hd _].
    clear - Hd. destruct c as [[] [] [] [] [] [] [] []]; (discriminate Hd || done). }
  rewrite Hi. cbn [mbind option_bind]. cbn [scan_part mbind option_bind]. rewrite append_nil, !append_empty_r. done.
Qed.

(** ** Values *)

(** The induction that reaches inside arrays and objects. *)
Lemma JSON_nested_ind (P : JSON -> Prop) :
  P JNull -> (forall b, P (JBool b)) -> (forall m e, P (JNumber m e)) -> (forall v, P (JInt v)) ->
  (forall s, P (JString s)) -> (forall l, Forall P l -> P (JArray l)) ->
  (forall fs, Forall (fun kv => P (snd kv)) fs -> P (JObject fs)) -> forall v, P v.
Proof.
  intros Hn Hb Hf Hi Hs Ha Ho. fix IH 1. intros [|b|m e|v|s|l|fs].
  - exact Hn.
  - apply Hb.
  - apply Hf.
  - apply Hi.
  - apply Hs.
  - apply Ha. induction l as [|x l IHl]; constructor; [apply IH|exact IHl].
  - apply Ho. induction fs as [|[k v] fs IHfs]; constructor; [apply IH|exact IHfs].
Qed.

Section Reading.
Context `{GoFloat}.

(** [v] nested at most [d] deep consists of what survives JSON: numbers whose
    text is a literal that reads back, texts in UTF-8, fields in order.  An
    [int] does not: it comes back as a [float64]. *)
Fixpoint reads_back (d : nat) (v : JSON) {struct v} : Prop :=
  match v with
  | JNull | JBool _ => True
  | JNumber m e => scan_number (json_float m e) = Some (json_float m e, ""%string) /\
                   parse_float (json_float m e) = Some (m, e)
  | JInt _ => False
  | JString s => valid_utf8 s = true
  | JArray l =>
      match d with
      | O => False
      | S d' => (fix all l := match l with [] => True | x :: l => reads_back d' x /\ all l end) l
      end
  | JObject fs =>
      match d with
      | O => False
      | S d' =>
          (fix all lo fs := match fs with
           | [] => True
           | (k, x) :: fs => valid_utf8 k = true /\ reads_back d' x /\
               (match lo with Some k' => String.ltb k' k = true | None => True end) /\ all (Some k) fs
           end) None fs
      end
  end.

(** The parsed form of what [json_marshal] writes. *)
Fixpoint text_of (v : JSON) : JText :=
  match v with
  | JNull => TNull
  | JBool b => TBool b
  | JNumber m e => TNumber (json_float m e)
  | JInt v => TNumber (itoa v)
  | JString s => TString s
  | JArray l => TArray (map text_of l)
  | JObject fs => TObject (map (fun kv => (fst kv, text_of (snd kv))) fs)
  end.

Lemma reads_back_array d l :
  reads_back d (JArray l) <-> exists d', d = S d' /\ Forall (reads_back d') l.
Proof.
  destruct d as [|d]; simpl; [naive_solver|]. split.
  - intros Hl. exists d. split; [done|]. induction l; constructor; naive_solver.
  - intros (d' & [= <-] & Hl). induction Hl; auto.
Qed.

Inductive ordered : option string -> list string -> Prop :=
| ordered_nil lo : ordered lo []
| ordered_cons lo k l : (match lo with Some k' => String.ltb k' k = true | None => True end) ->
    ordered (Some k) l -> ordered lo (k :: l).

Lemma reads_back_object d fs :
  reads_back d (JObject fs) <->
  exists d', d = S d' /\ Forall (fun kv => valid_utf8 (fst kv) = true /\ reads_back d' (snd kv)) fs /\
    ordered None (map fst fs).
Proof.
  destruct d as [|d]; [simpl; naive_solver|]. cbn [reads_back]. generalize (@None string) as lo.
  assert (forall lo, ((fix all lo fs := match fs with
     | [] => True
     | (k, x) :: fs => valid_utf8 k = true /\ reads_back d x /\
         (match lo with Some k' => String.ltb k' k = true | None => True end) /\ all (Some k) fs
     end) lo fs : Prop) <->
    Forall (fun kv => valid_utf8 (fst kv) = true /\ reads_back d (snd kv)) fs /\ ordered lo (map fst fs)) as Hall.
  { induction fs as [|[k x] fs IH]; intros lo; [split; [split; constructor|done]|].
    rewrite IH. simpl. split.
    - intros (? & ? & ? & ? & ?). by repeat constructor.
    - intros [Hf Ho]. inversion Hf; inversion Ho; simplify_eq/=. naive_solver. }
  intros lo. rewrite Hall. naive_solver.
Qed.

(** What is read from a text that [json_marshal] wrote.  The fields of a struct
    come in any order, and an [int] has a literal of its own. *)
Fixpoint writes (d : nat) (v : JSON) {struct v} : Prop :=
  match v with
  | JNull | JBool _ => True
  | JNumber m e => scan_number (json_float m e) = Some (json_float m e, ""%string)
  | JInt v => scan_number (itoa v) = Some (itoa v, ""%string)
  | JString s => valid_utf8 s = true
  | JArray l =>
      match d with
      | O => False
      | S d' => (fix all l := match l with [] => True | x :: l => writes d' x /\ all l end) l
      end
  | JObject fs =>
      match d with
      | O => False
      | S d' => (fix all fs := match fs with [] => True | (k, x) :: fs => valid_utf8 k = true /\ writes d' x /\ all fs end) fs
      end
  end.

Lemma writes_array d l : writes d (JArray l) <-> exists d', d = S d' /\ Forall (writes d') l.
Proof.
  destruct d as [|d]; simpl; [naive_solver|]. split.
  - intros Hl. exists d. split; [done|]. induction l; constructor; naive_solver.
  - intros (d' & [= <-] & Hl). induction Hl; auto.
Qed.

Lemma writes_object d fs :
  writes d (JObject fs) <-> exists d', d = S d' /\ Forall (fun kv => valid_utf8 (fst kv) = true /\ writes d' (snd kv)) fs.
Proof.
  destruct d as [|d]; [simpl; naive_solver|]. cbn [writes]. split.
  - intros Hl. exists d. split; [done|]. induction fs as [|[]]; constructor; naive_solver.
  - intros (d' & [= <-] & Hl). induction Hl as [|[]]; naive_solver.
Qed.

Lemma reads_back_writes d v : reads_back d v -> writes d v.
Proof.
  revert d. induction v as [| | | | |l IH|fs IH] using JSON_nested_ind; intros d; try done.
  - by intros [Hs _].
  - intros (d' & -> & Hl)%reads_back_array. apply writes_array. exists d'. split; [done|].
    rewrite Forall_forall in *. auto.
  - intros (d' & -> & Hl & _)%reads_back_object. apply writes_object. exists d'. split; [done|].
    rewrite Forall_forall in *. intros kv Hin. destruct (Hl kv Hin). auto.
Qed.

(** Nothing of a text written by [json_marshal] is white space. *)
Lemma skip_ws_head c s : json_space c = false -> skip_ws (String c s) = String c s.
Proof. intros Hc. unfold skip_ws. cbn [span]. by rewrite Hc. Qed.

Lemma literal_head lit : scan_number lit = Some (lit, ""%string) ->
  exists c s, lit = String c s /\ json_space c = false /\ c <> "]"%char.
Proof.
  intros (c & s & E & Hc)%scan_number_head. exists c, s. split; [done|]. clear E.
  destruct c as [[] [] [] [] [] [] [] []]; (discriminate Hc || done).
Qed.

Lemma marshal_head d v : writes d v -> exists c s, json_marshal v = String c s /\ json_space c = false.
Proof.
  destruct v as [|b|m e|i|s|l|fs]; intros Hv; try (do 2 eexists; split; [reflexivity|reflexivity]).
  - destruct b; do 2 eexists; (split; [reflexivity|reflexivity]).
  - destruct (literal_head _ Hv) as (c & s & E & Hc & _). by exists c, s.
  - destruct (literal_head _ Hv) as (c & s & E & Hc & _). by exists c, s.
Qed.

Lemma skip_ws_marshal d v t : writes d v -> skip_ws (json_marshal v ++ t)%string = (json_marshal v ++ t)%string.
Proof. intros Hv. destruct (marshal_head d v Hv) as (c & s & -> & Hc). rewrite append_cons. by apply skip_ws_head. Qed.

(** ** Parsing what was written *)

Fixpoint size (v : JSON) : nat :=
  match v with
  | JArray l => S (fold_right (fun x n => S (size x + n))%nat 0%nat l)
  | JObject fs => S (fold_right (fun kv n => S (size (snd kv) + n))%nat 0%nat fs)
  | _ => 1%nat
  end.

(** The claim about one value: it parses, whatever delimiter follows. *)
Definition parses (v : JSON) : Prop := forall n d depth rest,
  writes d v -> depth + Z.of_nat d <= max_depth -> (size v <= n)%nat -> delimited rest ->
  parse_value n depth (json_marshal v ++ rest)%string = Some (text_of v, rest).

Lemma parse_step n depth c s :
  json_space c = false ->
  parse_value (S n) depth (String c s) =
    if Ascii.eqb c quote then '(t, r') ← read_chars s; Some (TString t, r')
    else if Ascii.eqb c "{" then
      if max_depth <=? depth then None
      else if HasPrefix (skip_ws s) "}" then Some (TObject [], drop_str 1 (skip_ws s))
      else '(l, r') ← parse_members (parse_value n (depth + 1)) n s; Some (TObject l, r')
    else if Ascii.eqb c "[" then
      if max_depth <=? depth then None
      else if HasPrefix (skip_ws s) "]" then Some (TArray [], drop_str 1 (skip_ws s))
      else '(l, r') ← parse_elements (parse_value n (depth + 1)) n s; Some (TArray l, r')
    else if HasPrefix (String c s) "true" then Some (TBool true, drop_str 4 (String c s))
    else if HasPrefix (String c s) "false" then Some (TBool false, drop_str 5 (String c s))
    else if HasPrefix (String c s) "null" then Some (TNull, drop_str 4 (String c s))
    else '(t, r') ← scan_number (String c s); Some (TNumber t, r').
Proof. intros Hc. cbn [parse_value]. by rewrite !(skip_ws_head c s Hc). Qed.

(** A literal that is read to its end. *)
Lemma parse_literal lit n depth rest :
  scan_number lit = Some (lit, ""%string) -> delimited rest ->
  parse_value (S n) depth (lit ++ rest)%string = Some (TNumber lit, rest).
Proof.
  intros Hs Hr.
  pose proof (scan_number_app _ _ _ rest Hs Hr) as Hsc. rewrite append_nil in Hsc.
  destruct (scan_number_head _ _ Hs) as (c & s & E & Hc). rewrite E, append_cons in *.
  assert (json_space c = false) as Hw by (clear - Hc; destruct c as [[] [] [] [] [] [] [] []]; (discriminate Hc || reflexivity)).
  rewrite parse_step by done. rewrite Hsc. clear - Hc.
  destruct c as [[] [] [] [] [] [] [] []]; (discriminate Hc || reflexivity).
Qed.

Lemma parses_number m e : parses (JNumber m e).
Proof. intros n d depth rest Hs _ Hn Hr. destruct n as [|n]; [simpl in Hn; lia|]. by apply parse_literal. Qed.
Lemma parses_int v : parses (JInt v).
Proof. intros n d depth rest Hs _ Hn Hr. destruct n as [|n]; [simpl in Hn; lia|]. by apply parse_literal. Qed.

Lemma parses_string s : parses (JString s).
Proof.
  intros n d depth rest Hv _ Hn _. destruct n as [|n]; [simpl in Hn; lia|]. cbn [json_marshal text_of].
  pose proof (read_json_string s rest Hv) as Hr.
  change (json_string s ++ rest)%string with (String quote ((escape_from 0 s ++ String quote "") ++ rest))%string in *.
  rewrite parse_step by done. change (Ascii.eqb quote quote) with true. cbv iota.
  cbn [read_string] in Hr. change (Ascii.eqb quote quote) with true in Hr. cbv iota in Hr.
  by rewrite Hr.
Qed.
(** What separates and closes a list of values. *)
Lemma close_list c t : (Ascii.eqb c "," || Ascii.eqb c "]" || Ascii.eqb c "}") = true ->
  delimited (String c t) /\ skip_ws (String c t) = String c t.
Proof.
  intros Hc. split; [|apply skip_ws_head]; destruct c as [[] [] [] [] [] [] [] []]; (discriminate Hc || done).
Qed.

Lemma parse_elements_written value d rest l x n :
  Forall (fun v => writes d v /\ forall t, delimited t -> value (json_marshal v ++ t)%string = Some (text_of v, t)) (x :: l) ->
  (List.length l < n)%nat ->
  parse_elements value n (join "," (map json_marshal (x :: l)) ++ String "]" rest)%string =
    Some (map text_of (x :: l), rest).
Proof.
  revert x n. induction l as [|y l IH]; intros x n Hl Hn; (destruct n as [|n]; [simpl in Hn; lia|]);
    apply Forall_cons_1 in Hl as [[_ Hx] Hl]; cbn [parse_elements].
  - change (join "," (map json_marshal [x])) with (json_marshal x).
    destruct (close_list "]" rest eq_refl) as [Hd Hw]. rewrite Hx by done. cbn [mbind option_bind].
    rewrite Hw. done.
  - change (join "," (map json_marshal (x :: y :: l)))
      with (json_marshal x ++ "," ++ join "," (map json_marshal (y :: l)))%string.
    rewrite append_assoc. change (("," ++ join "," (map json_marshal (y :: l))) ++ String "]" rest)%string
      with (String "," (join "," (map json_marshal (y :: l)) ++ String "]" rest)%string).
    destruct (close_list "," (join "," (map json_marshal (y :: l)) ++ String "]" rest)%string eq_refl) as [Hd Hw].
    rewrite Hx by done. cbn [mbind option_bind]. rewrite Hw. change (Ascii.eqb "," ",") with true. cbv iota.
    rewrite (IH y n Hl) by (simpl in Hn; lia). done.
Qed.

Definition marshal_member (kv : string * JSON) : string := (json_string (fst kv) ++ ":" ++ json_marshal (snd kv))%string.

Lemma parse_members_written value d rest l x n :
  Forall (fun kv => valid_utf8 (fst kv) = true /\ writes d (snd kv) /\
    forall t, delimited t -> value (json_marshal (snd kv) ++ t)%string = Some (text_of (snd kv), t)) (x :: l) ->
  (List.length l < n)%nat ->
  parse_members value n (join "," (map marshal_member (x :: l)) ++ String "}" rest)%string =
    Some (map (fun kv => (fst kv, text_of (snd kv))) (x :: l), rest).
Proof.
  assert (forall kv t, valid_utf8 (fst kv) = true ->
    read_string (skip_ws (marshal_member kv ++ t)%string) = Some (fst kv, String ":" (json_marshal (snd kv) ++ t)%string)) as Hkey.
  { intros [k v] t Hv. unfold marshal_member. cbn [fst snd]. rewrite append_assoc.
    change ((":" ++ json_marshal v) ++ t)%string with (String ":" (json_marshal v ++ t)%string).
    rewrite <- (read_json_string k (String ":" (json_marshal v ++ t)%string) Hv).
    unfold json_string. rewrite append_cons. by rewrite skip_ws_head. }
  revert x n. induction l as [|y l IH]; intros x n Hl Hn; (destruct n as [|n]; [simpl in Hn; lia|]);
    apply Forall_cons_1 in Hl as [(Hk & _ & Hx) Hl]; cbn [parse_members].
  - change (join "," (map marshal_member [x])) with (marshal_member x).
    destruct (close_list "}" rest eq_refl) as [Hd Hw]. rewrite Hkey by done. cbn [mbind option_bind].
    rewrite skip_ws_head by done. change (Ascii.eqb ":" ":") with true. cbv iota. rewrite Hx by done.
    cbn [mbind option_bind]. rewrite Hw. by destruct x.
  - change (join "," (map marshal_member (x :: y :: l)))
      with (marshal_member x ++ "," ++ join "," (map marshal_member (y :: l)))%string.
    rewrite append_assoc. change (("," ++ join "," (map marshal_member (y :: l))) ++ String "}" rest)%string
      with (String "," (join "," (map marshal_member (y :: l)) ++ String "}" rest)%string).
    destruct (close_list "," (join "," (map marshal_member (y :: l)) ++ String "}" rest)%string eq_refl) as [Hd Hw].
    rewrite Hkey by done. cbn [mbind option_bind]. rewrite skip_ws_head by done.
    change (Ascii.eqb ":" ":") with true. cbv iota. rewrite Hx by done. cbn [mbind option_bind].
    rewrite Hw. change (Ascii.eqb "," ",") with true. cbv iota.
    rewrite (IH y n Hl) by (simpl in Hn; lia). by destruct x.
Qed.

(** The sizes of the parts of a list bound its length. *)
Lemma sum_bounds {A} (f : A -> nat) l n :
  (fold_right (fun x n => S (f x + n)) 0 l <= n)%nat ->
  (List.length l <= n)%nat /\ Forall (fun x => f x < n)%nat l.
Proof.
  revert n. induction l as [|x l IH]; simpl; intros n Hn; [split; [lia|constructor]|].
  destruct n as [|n]; [lia|]. destruct (IH n) as [H1 H2]; [lia|]. split; [lia|].
  constructor; [lia|]. eapply Forall_impl; [exact H2|]. simpl. lia.
Qed.

Lemma parses_array l : Forall parses l -> parses (JArray l).
Proof.
  intros Hl n d depth rest (d' & -> & Hv)%writes_array Hd Hn _. destruct n as [|n]; [simpl in Hn; lia|].
  apply le_S_n, (sum_bounds size) in Hn as [Hlen Hs]. cbn [json_marshal text_of].
  rewrite !append_assoc. change ("[" ++ join "," (map json_marshal l) ++ "]" ++ rest)%string
    with (String "[" (join "," (map json_marshal l) ++ String "]" rest)%string).
  rewrite parse_step by done. change (Ascii.eqb "[" quote) with false. change (Ascii.eqb "[" "{") with false.
  change (Ascii.eqb "[" "[") with true. cbv iota.
  destruct (Z.leb_spec max_depth depth); [lia|]. destruct l as [|x l]; [by destruct rest|].
  assert (HasPrefix (skip_ws (join "," (map json_marshal (x :: l)) ++ String "]" rest)) "]" = false) as ->.
  { pose proof (Forall_inv Hv) as Hx. destruct (marshal_head d' x Hx) as (c & s & E & Hc).
    assert (c <> "]"%char) as Hne by (intros ->; destruct x as [|[]|m e|i|t|k|k]; try discriminate E;
      destruct (literal_head _ Hx) as (? & ? & E' & _ & Hne); simpl in E; rewrite E in E'; congruence).
    assert (exists t, join "," (map json_marshal (x :: l)) = String c t) as [t ->].
    { destruct l; [exists s; exact E|]. exists (s ++ "," ++ join "," (map json_marshal (j :: l)))%string.
      change (json_marshal x ++ "," ++ join "," (map json_marshal (j :: l)) =
        String c s ++ "," ++ join "," (map json_marshal (j :: l)))%string. by rewrite E. }
    rewrite append_cons, skip_ws_head by done. cbn [HasPrefix]. destruct (Ascii.eqb_spec c "]"); [done|].
    by destruct (Ascii.eqb_spec "]" c). }
  erewrite (parse_elements_written _ d'); [done| |simpl in Hlen; lia].
  rewrite Forall_forall in *. intros v Hin. split; [by apply Hv|]. intros t Ht.
  apply (Hl v Hin n d'); [by apply Hv|lia|specialize (Hs v Hin); lia|done].
Qed.

Lemma parses_object fs : Forall (fun kv => parses (snd kv)) fs -> parses (JObject fs).
Proof.
  intros Hl n d depth rest (d' & -> & Hv)%writes_object Hd Hn _. destruct n as [|n]; [simpl in Hn; lia|].
  apply le_S_n, (sum_bounds (fun kv => size (snd kv))) in Hn as [Hlen Hs]. cbn [json_marshal text_of].
  rewrite !append_assoc. change ("{" ++ join "," (map (fun kv => json_string (fst kv) ++ ":" ++ json_marshal (snd kv)) fs) ++ "}" ++ rest)%string
    with (String "{" (join "," (map marshal_member fs) ++ String "}" rest)%string).
  rewrite parse_step by done. change (Ascii.eqb "{" quote) with false. change (Ascii.eqb "{" "{") with true. cbv iota.
  destruct (Z.leb_spec max_depth depth); [lia|]. destruct fs as [|x l]; [by destruct rest|].
  assert (HasPrefix (skip_ws (join "," (map marshal_member (x :: l)) ++ String "}" rest)) "}" = false) as ->.
  { assert (exists t, join "," (map marshal_member (x :: l)) = String quote t) as [t ->].
    { destruct l; eexists; reflexivity. }
    rewrite append_cons, skip_ws_head by done. done. }
  erewrite (parse_members_written _ d'); [done| |simpl in Hlen; lia].
  rewrite Forall_forall in *. intros v Hin. destruct (Hv v Hin). split; [done|]. split; [done|]. intros t Ht.
  apply (Hl v Hin n d'); [done|lia|specialize (Hs v Hin); lia|done].
Qed.

Lemma all_parse v : parses v.
Proof.
  induction v using JSON_nested_ind.
  1,2: intros n d depth rest _ _ Hn _; (destruct n as [|n]; [simpl in Hn; lia|]); try destruct b;
    cbn [json_marshal text_of]; rewrite ?append_cons, ?append_nil, parse_step by done; by destruct rest.
  - apply parses_number.
  - apply parses_int.
  - apply parses_string.
  - by apply parses_array.
  - by apply parses_object.
Qed.

(** ** Decoding into an [interface{}] *)

Lemma put_new_first kv fs lo :
  ordered (Some (fst kv)) (map fst fs) -> lo = fst kv -> put_new kv fs = kv :: fs.
Proof.
  intros Ho _. destruct fs as [|[k v] fs]; [done|]. inversion Ho as [|? ? ? Hlt]; simplify_eq/=.
  destruct (String.eqb_spec (fst kv) k) as [E|]; [|by rewrite Hlt].
  rewrite E, String_ltb_irrefl in Hlt. done.
Qed.

Lemma put_all_ordered lo fs :
  ordered lo (map fst fs) -> fold_right put_new [] fs = fs.
Proof.
  revert lo. induction fs as [|kv fs IH]; intros lo Ho; [done|].
  inversion Ho as [|? ? ? _ Ho']; simplify_eq/=. rewrite (IH (Some (fst kv))) by done.
  by eapply put_new_first.
Qed.

Lemma interface_of_text d v : reads_back d v -> to_interface (text_of v) = v /\ numbers_fit (text_of v) = true.
Proof.
  revert d. induction v as [| | | | |l IH|fs IH] using JSON_nested_ind; intros d Hv; try done.
  - destruct Hv as [_ Hp]. simpl. by rewrite Hp.
  - apply reads_back_array in Hv as (d' & -> & Hl). cbn [text_of to_interface numbers_fit].
    assert (map to_interface (map text_of l) = l /\ forallb numbers_fit (map text_of l) = true) as [-> ->]; [|done].
    induction l as [|x l IHl]; [done|]. apply Forall_cons_1 in IH as [Hx IH], Hl as [Hr Hl].
    destruct (Hx d' Hr) as [E1 E2]. destruct (IHl IH Hl) as [E3 E4]. simpl. by rewrite E1, E2, E3, E4.
  - apply reads_back_object in Hv as (d' & -> & Hl & Ho). cbn [text_of to_interface numbers_fit].
    rewrite map_map.
    assert (map (fun kv => (fst kv, to_interface (text_of (snd kv)))) fs = fs /\
      forallb (fun kv => numbers_fit (snd kv)) (map (fun kv => (fst kv, text_of (snd kv))) fs) = true) as [E1 E2].
    { clear Ho. induction fs as [|[k x] fs IHl]; [done|].
      apply Forall_cons_1 in IH as [Hx IH], Hl as [[_ Hr] Hl].
      destruct (Hx d' Hr) as [E1 E2]. destruct (IHl IH Hl) as [E3 E4]. simpl in *. by rewrite E1, E2, E3, E4. }
    cbn [fst snd]. rewrite E1, E2. by rewrite (put_all_ordered None).
Qed.

(** [json.Unmarshal] of [json.Marshal], into an [interface{}]. *)
Lemma size_le_length d v : writes d v -> (size v <= String.length (json_marshal v))%nat.
Proof.
  assert (forall t u, String.length (t ++ u) = String.length t + String.length u)%nat as Hlen.
  { intros t u. induction t; [done|]. rewrite append_cons. simpl. lia. }
  revert d. induction v as [| | | | |l IH|fs IH] using JSON_nested_ind; intros d Hv; try done;
    try (destruct (marshal_head d _ Hv) as (c & t & -> & _); simpl; lia).
  - apply writes_array in Hv as (d' & -> & Hl). cbn [json_marshal size]. rewrite !Hlen.
    cut (fold_right (fun x n => S (size x + n)) 0 l <= S (String.length (join "," (map json_marshal l))))%nat;
      [simpl; lia|].
    induction l as [|x [|y l] IHl]; [simpl; lia|..]; apply Forall_cons_1 in IH as [Hx IH], Hl as [Hr Hl];
      specialize (Hx d' Hr); [simpl; lia|]. specialize (IHl IH Hl).
    change (join "," (map json_marshal (x :: y :: l)))
      with (json_marshal x ++ "," ++ join "," (map json_marshal (y :: l)))%string.
    rewrite !Hlen. change (String.length ",") with 1%nat.
    change (S (size x + fold_right (fun x n => S (size x + n)) 0 (y :: l)) <=
      S (String.length (json_marshal x) + (1 + String.length (join "," (map json_marshal (y :: l))))))%nat. lia.
  - apply writes_object in Hv as (d' & -> & Hl). cbn [json_marshal size]. rewrite !Hlen.
    change (map (fun kv => json_string (fst kv) ++ ":" ++ json_marshal (snd kv))%string fs) with (map marshal_member fs).
    cut (fold_right (fun kv n => S (size (snd kv) + n)) 0 fs <= S (String.length (join "," (map marshal_member fs))))%nat;
      [simpl; lia|].
    assert (forall kv, S (String.length (json_marshal (snd kv))) <= String.length (marshal_member kv))%nat as Hm.
    { intros kv. unfold marshal_member. rewrite !Hlen. simpl. lia. }
    induction fs as [|x [|y l] IHl]; [simpl; lia|..]; apply Forall_cons_1 in IH as [Hx IH], Hl as [[_ Hr] Hl];
      specialize (Hx d' Hr); specialize (Hm x) as Hmx.
    { change (S (size (snd x) + 0) <= S (String.length (marshal_member x)))%nat. lia. }
    specialize (IHl IH Hl).
    change (join "," (map marshal_member (x :: y :: l)))
      with (marshal_member x ++ "," ++ join "," (map marshal_member (y :: l)))%string.
    rewrite !Hlen. change (String.length ",") with 1%nat.
    change (S (size (snd x) + fold_right (fun kv n => S (size (snd kv) + n)) 0 (y :: l)) <=
      S (String.length (marshal_member x) + (1 + String.length (join "," (map marshal_member (y :: l))))))%nat. lia.
Qed.

Lemma parse_written d v :
  writes d v -> Z.of_nat d <= max_depth -> json_parse (json_marshal v) = Some (text_of v).
Proof.
  intros Hv Hd. unfold json_parse.
  assert (parse_value (S (String.length (json_marshal v))) 0 (json_marshal v ++ "")%string = Some (text_of v, ""%string)) as E.
  { apply (all_parse v _ d); [done|lia|pose proof (size_le_length d v Hv); lia|done]. }
  rewrite append_empty_r in E. by rewrite E.
Qed.

Lemma parse_marshal d v :
  reads_back d v -> Z.of_nat d <= max_depth -> json_parse (json_marshal v) = Some (text_of v).
Proof. intros Hv. by apply parse_written, reads_back_writes. Qed.

Lemma unmarshal_interface d v a :
  reads_back d v -> Z.of_nat d <= max_depth ->
  json_unmarshal interface_target (json_marshal v) a = (v, true).
Proof.
  intros Hv Hd. unfold json_unmarshal. rewrite (parse_marshal d v Hv Hd).
  destruct (interface_of_text d v Hv) as [E1 E2]. simpl. unfold decode_interface. by rewrite E1, E2.
Qed.

End Reading.
