(* ===== verification/GoHttp.v ===== *)
(** What both HTTP APIs use of [net/http] and [encoding/json] around a request:
    the reply being written, cookies, JSON objects assembled from encoded values,
    problem documents, and the decoding of a request's body. *)

From S2P Require Import Prelude GoText GoPath GoNet GoUrl Timestamps GoJson GoJsonRead.
From Stdlib Require Import Ascii String.
Open Scope Z_scope.

(** ** Replies *)

(** A cookie: always with [SameSite=Strict] and the path [/]. *)
Record SetCookie := mkSetCookie {
  ck_Name : string;
  ck_Value : string;
  ck_HttpOnly : bool;
  ck_Secure : bool;
  ck_MaxAge : Z
}.

(** The [http.ResponseWriter]: the headers, the status once it is written. *)
Record ReplyWriter := mkReplyWriter {
  rp_Header : gmap string string;
  rp_Cookies : list SetCookie;
  rp_Status : option Z;
  rp_Body : string
}.
#[export] Instance Eta_ReplyWriter : Eta ReplyWriter := fun r =>
  mkReplyWriter r.(rp_Header) r.(rp_Cookies) r.(rp_Status) r.(rp_Body).
Definition no_reply : ReplyWriter := mkReplyWriter ∅ [] None "".

(** [Retry-After]: whole seconds, at least one. *)
Definition retry_seconds (delay : Z) : Z := Z.max 1 (Z.quot delay second).

(** The host of [RemoteAddr]. *)
Definition remote_host (remoteAddr : string) : string :=
  match SplitHostPort remoteAddr with Ok (host, _) => host | Err _ => remoteAddr end.

(** ** Encodings *)

(** A struct or a map whose values are encoded already. *)
Definition json_object (fields : list (string * string)) : string :=
  ("{" ++ join "," (map (fun kv => json_string (fst kv) ++ ":" ++ snd kv)%string fields) ++ "}")%string.

Definition json_bool (b : bool) : string := if b then "true" else "false".
Definition json_strings (l : list string) : string := ("[" ++ join "," (map json_string l) ++ "]")%string.
Definition zero_time : string := "0001-01-01T00:00:00Z".

Section Problems.
Context `{UnicodeTables}.

Definition problem_type (code : string) : string :=
  ("https://docs.example.invalid/problems/" ++ ToLower (ReplaceAll code "_" "-"))%string.

Definition problem_body (path requestID : string) (status : Z) (code detail : string) : JSON := JObject
  [("code", JString code); ("detail", JString detail); ("instance", JString path);
   ("request_id", JString requestID); ("status", JInt status); ("title", JString code);
   ("type", JString (problem_type code))]%string.

End Problems.

(** ** Bodies *)

Definition max_body : Z := 2 ^ 20.

Section Bodies.
Context `{GoFloat} `{UnicodeTables}.

(** [DisallowUnknownFields] *)
Definition assign_known {A} (fields : list (struct_field A)) (key : string) (t : JText) (a : A) : A * bool :=
  match List.find (fun f => EqualFold (fst f) key) fields with
  | Some f => snd f t a
  | None => (a, false)
  end.

(** An object or an array ends with its bracket; the end of any other value is
    only seen in the byte after it. *)
Definition bracketed (t : JText) : bool := match t with TArray _ | TObject _ => true | _ => false end.

(** [decodeJSON]: one value and nothing after it, at most 1 MiB; otherwise the
    detail of the problem. *)
Definition decode_body {A} (decode : JText -> A -> A * bool) (body : string) (a : A) : res string A :=
  let over := max_body <? Z.of_nat (String.length body) in
  let data := if over then take_str (Z.to_nat max_body) body else body in
  let malformed := Err "请求格式不正确。"%string in
  match parse_value (S (String.length data)) 0 data with
  | None => malformed
  | Some (t, rest) =>
      if over && String.eqb rest "" && negb (bracketed t) then malformed
      else
        let '(a', ok) := decode t a in
        if negb ok then malformed
        else if over || negb (String.eqb (skip_ws rest) "") then Err "请求体只能包含一个 JSON 值。"%string
        else Ok a'
  end.

(** What the target holds when [decodeJSON] has returned, even without success. *)
Definition body_target {A} (decode : JText -> A -> A * bool) (body : string) (a : A) : A :=
  let over := max_body <? Z.of_nat (String.length body) in
  let data := if over then take_str (Z.to_nat max_body) body else body in
  match parse_value (S (String.length data)) 0 data with
  | None => a
  | Some (t, rest) => if over && String.eqb rest "" && negb (bracketed t) then a else fst (decode t a)
  end.
End Bodies.
