(* ===== verification/Client.v ===== *)
(** The client's world: the files of its data directory, the FRPC processes it
    started, what it did to the outside, the supervisor's and the panel's
    memory; and the primitive effects its code is written with.

    What the outside answers to the [n]-th effect is the environment
    [ClientEnv]: the clock, failing system calls, the results of commands and
    requests.  A system call that fails changes nothing, a failing [write]
    excepted, which leaves a prefix of the data.  A crash of the client at some
    effect leaves the files in which every later system call fails, so a claim
    about the files under every fault pattern is a claim about crashes too. *)

From S2P Require Import Prelude StateError GoText GoPath GoNet GoJson Timestamps.
From Stdlib Require Import Ascii String.
Open Scope Z_scope.

(** ** Data *)

(** [supervisor.Snapshot] *)
Record ClientSnapshot := mkClientSnapshot {
  cs_SchemaVersion : string;
  cs_ConfigVersion : Z;
  cs_UserID : string;
  cs_SessionGeneration : Z;
  cs_IssuedAt : string;
  cs_ExpiresAt : string;
  cs_ConfigHash : string;
  cs_SigningKeyID : string;
  cs_Signature : string;
  cs_Payload : option (gmap string JSON)
}.
#[export] Instance Eta_ClientSnapshot : Eta ClientSnapshot := fun r =>
  mkClientSnapshot r.(cs_SchemaVersion) r.(cs_ConfigVersion) r.(cs_UserID)
    r.(cs_SessionGeneration) r.(cs_IssuedAt) r.(cs_ExpiresAt) r.(cs_ConfigHash)
    r.(cs_SigningKeyID) r.(cs_Signature) r.(cs_Payload).

(** [supervisor.Snapshot{}] *)
Definition zero_snapshot : ClientSnapshot := mkClientSnapshot "" 0 "" 0 "" "" "" "" "" None.

(** The map, a nil one read as empty. *)
Definition payload_of (s : ClientSnapshot) : gmap string JSON := default ∅ (cs_Payload s).

Inductive SupState := Stopped | Applying | Running | ConfigError | Offline.
Inductive SupMode := Simulated | Real.
#[export] Instance SupState_eq_dec : EqDecision SupState.
Proof. solve_decision. Defined.
#[export] Instance SupMode_eq_dec : EqDecision SupMode.
Proof. solve_decision. Defined.

(** [supervisor.Status] *)
Record Status := mkStatus {
  st_State : SupState;
  st_Mode : SupMode;
  st_PID : Z;
  st_DesiredVersion : Z;
  st_AppliedVersion : Z;
  st_ConfigHash : string;
  st_LastGoodAvailable : bool;
  st_LastError : string;
  st_UpdatedAt : Stamp
}.
#[export] Instance Eta_Status : Eta Status := fun r =>
  mkStatus r.(st_State) r.(st_Mode) r.(st_PID) r.(st_DesiredVersion) r.(st_AppliedVersion)
    r.(st_ConfigHash) r.(st_LastGoodAvailable) r.(st_LastError) r.(st_UpdatedAt).

(** [runningProcess]: the process, the identity of the object, and whether its [done] value was already
    received, after which nothing more arrives on the channel. *)
Record Process := mkProcess { pr_pid : Z; pr_id : nat; pr_drained : bool }.

(** What of [supervisor.Supervisor] changes. *)
Record SupMemory := mkSupMemory {
  sm_status : Status;
  sm_started : bool;
  sm_process : option Process;
  sm_lastSnapshot : option ClientSnapshot
}.
#[export] Instance Eta_SupMemory : Eta SupMemory := fun r =>
  mkSupMemory r.(sm_status) r.(sm_started) r.(sm_process) r.(sm_lastSnapshot).

(** The WebSocket part of [app.App].  Connections and cancellable contexts are
    numbers; [ws_cancelled] and [ws_open] are what the runtime knows of them:
    the contexts that were cancelled, the connections dialled and not closed. *)
Record WsState := mkWsState {
  ws_conn : option nat;
  ws_cancel : option nat;
  ws_generation : nat;
  ws_cancelled : gset nat;
  ws_open : gset nat
}.
#[export] Instance Eta_WsState : Eta WsState := fun r =>
  mkWsState r.(ws_conn) r.(ws_cancel) r.(ws_generation) r.(ws_cancelled) r.(ws_open).

(** What of [app.App] changes.  The zero [time.Time] is [None]. *)
Record AppMemory := mkAppMemory {
  am_serverURL : string;
  am_serverToken : string;
  am_serverSPKIPin : string;
  am_serverReachable : bool;
  am_runtimeCredential : string;
  am_frpUsername : string;
  am_frpSecret : string;
  am_frpsTransportSecret : string;
  am_localSession : string;
  am_csrfToken : string;
  am_user : option (gmap string JSON);
  am_expiresAt : option Stamp;
  am_lastCache : gmap string string;
  am_lastConfig : ClientSnapshot;
  am_ws : WsState
}.
#[export] Instance Eta_AppMemory : Eta AppMemory := fun r =>
  mkAppMemory r.(am_serverURL) r.(am_serverToken) r.(am_serverSPKIPin) r.(am_serverReachable)
    r.(am_runtimeCredential) r.(am_frpUsername) r.(am_frpSecret) r.(am_frpsTransportSecret)
    r.(am_localSession) r.(am_csrfToken) r.(am_user) r.(am_expiresAt) r.(am_lastCache)
    r.(am_lastConfig) r.(am_ws).

(** A file: its bytes and its permission bits. *)
Record File := mkFile { f_content : string; f_mode : Z }.

Inductive Signal := SigInterrupt | SigKill.

(** A request of the client to the Server Panel. *)
Record HttpRequest := mkHttpRequest {
  hq_URL : string;
  hq_Pin : string;
  hq_Method : string;
  hq_Token : string;
  hq_RequestID : string;
  hq_IdempotencyKey : option string;
  hq_Body : option JSON
}.

(** What the client did to the outside: a command it ran (its arguments, the
    bytes of the binary and those of the file [-c] names), [ps], a signal it sent, a
    request it made, a WebSocket it dialled. *)
Inductive Event :=
| EvExec (args : list string) (binary config : option string)
| EvPs (pid : Z)
| EvSignal (pid : Z) (s : Signal)
| EvRequest (r : HttpRequest)
| EvDial (url token pin : string).

(** An operation of the supervisor's queue. *)
Inductive QueueOp := QApply (snapshot : ClientSnapshot) | QStop | QRecover.

(** [l_pending]: the operations of the queue whose caller gave up waiting; they
    still run, before any later one.  [l_children]: the FRPC processes the client started and that have not
    exited, with whether SIGKILL was sent. *)
Record Local := mkLocal {
  l_tick : nat;
  l_pending : list QueueOp;
  l_files : gmap string File;
  l_children : gmap Z bool;
  l_events : list Event;
  l_sup : SupMemory;
  l_app : AppMemory
}.
#[export] Instance Eta_Local : Eta Local := fun r =>
  mkLocal r.(l_tick) r.(l_pending) r.(l_files) r.(l_children) r.(l_events) r.(l_sup) r.(l_app).

(** Errors: an [app.RemoteError], [os.ErrNotExist], any other error by its text. *)
Inductive ClErr :=
| EText (text : string)
| ENotExist (text : string)
| ERemote (status : Z) (code detail : string).

(** [err.Error()] *)
Definition Error (e : ClErr) : string :=
  match e with
  | EText t | ENotExist t => t
  | ERemote _ code detail => if String.eqb detail "" then code else detail
  end.

(** ** The environment *)

(** How a process that was signalled ends: within two seconds, after SIGKILL,
    or not before the caller's context does. *)
Inductive WaitResult := DoneInTime | DoneAfterKill | ContextEnded (text : string).

(** What [restart] finds on the [done] channel of the process it started; if it
    exited, whether the goroutine that waits for it has finished its work. *)
Inductive StartResult := StillRunning | Exited (err : option string) (reaped : bool).

Inductive SignalResult := Delivered | AlreadyDone | SignalError (text : string).

(** How the wait of [terminateOrphan] ends. *)
Inductive OrphanWait := CtxDone (text : string) | DeadlinePassed.

(** The answer to a request: none, or a status and a body. *)
Inductive HttpReply := NoReply (text : string) | Reply (status : Z) (body : string).

(** The answer to a WebSocket handshake. *)
Inductive DialResult := DialFailed (status : option Z) | Dialled.

Class ClientEnv := {
  ce_now : nat -> Stamp;
  ce_id : nat -> string;
  ce_random : nat -> option string;
  ce_disk : nat -> option string;
  ce_torn : nat -> nat;
  ce_ctx : nat -> option string;
  ce_command : nat -> string * option string;
  ce_start : nat -> res string Z;
  ce_early : nat -> StartResult;
  ce_wait : nat -> WaitResult;
  ce_alive : nat -> bool;
  ce_signal : nat -> SignalResult;
  ce_ticks : nat -> nat;
  ce_orphan : nat -> OrphanWait;
  ce_dial : nat -> option string;
  ce_http : nat -> HttpRequest -> HttpReply;
  ce_ws : nat -> DialResult;
  ce_order : nat -> list (string * string) -> list (string * string);
  ce_order_perm n l : Permutation (ce_order n l) l;
  ce_pid : Z;
  ce_gives_up : nat -> option string;
  ce_cwd : option string;
  ce_quote : string -> string;
  ce_rfc3339 : Stamp -> string;
  ce_time_ok : string -> bool;
  ce_json_error : string -> string;
  ce_sha256 : string -> string;
  ce_ed25519 : string -> string -> string -> bool;
  ce_float :: GoFloat;
  ce_unicode :: UnicodeTables
}.

(** ** Effects *)

Abbreviation C := (ST Local ClErr).

Definition bump (w : Local) : Local := w <| l_tick ::= S |>.

Definition gets {A} (f : Local -> A) : C A := fun w => (Ok (f w), w).
Definition modify (f : Local -> Local) : C unit := fun w => (Ok tt, f w).
Definition emit (e : Event) : C unit := modify (fun w => w <| l_events ::= cons e |>).

Section Effects.
Context `{ClientEnv}.

(** The answer of the environment to this effect. *)
Definition draw {A} (f : nat -> A) : C A := fun w => (Ok (f (l_tick w)), bump w).

Definition time_now : C Stamp := draw ce_now.
Definition new_id : C string := draw ce_id.
Definition ctx_err : C (option string) := draw ce_ctx.

(** A system call on the files. *)
Definition disk (f : gmap string File -> gmap string File) : C unit := fun w =>
  match ce_disk (l_tick w) with
  | None => (Ok tt, bump w <| l_files ::= f |>)
  | Some e => (Err (EText e), bump w)
  end.

(** A system call that needs the file [path] to exist. *)
Definition disk_at (path : string) (f : File -> gmap string File -> gmap string File) : C unit := fun w =>
  match ce_disk (l_tick w) with
  | Some e => (Err (EText e), bump w)
  | None => match l_files w !! path with
            | Some x => (Ok tt, bump w <| l_files ::= f x |>)
            | None => (Err (ENotExist "no such file or directory"), bump w)
            end
  end.

Definition os_ReadFile (path : string) : C string := fun w =>
  match ce_disk (l_tick w) with
  | Some e => (Err (EText e), bump w)
  | None => match l_files w !! path with
            | Some x => (Ok (f_content x), bump w)
            | None => (Err (ENotExist "no such file or directory"), bump w)
            end
  end.

Definition os_Stat (path : string) : C unit := disk_at path (fun _ fs => fs).
(** Directories are not modelled, only the outcome of creating one. *)
Definition os_MkdirAll : C unit := disk (fun fs => fs).
Definition os_Remove (path : string) : C unit := disk_at path (fun _ => delete path).
Definition os_Rename (source target : string) : C unit :=
  disk_at source (fun x fs => <[target := x]> (delete source fs)).

(** [os.OpenFile(path, O_CREATE|O_WRONLY|O_TRUNC, mode)] *)
Definition open_trunc (path : string) (mode : Z) : C unit :=
  disk (fun fs => <[path := match fs !! path with
                            | Some x => mkFile "" (f_mode x)
                            | None => mkFile "" mode
                            end]> fs).
Definition file_Write (path content : string) : C unit := fun w =>
  let put text := alter (fun x => mkFile (f_content x ++ text) (f_mode x)) path in
  match ce_disk (l_tick w) with
  | None => (Ok tt, bump w <| l_files ::= put content |>)
  | Some e => (Err (EText e),
               bump w <| l_files ::= put (take_str (ce_torn (l_tick w)) content) |>)
  end.
(** [Sync] and [Close] of a file or a directory, [os.Open] of a directory. *)
Definition file_sync : C unit := disk (fun fs => fs).
Definition file_close : C unit := disk (fun fs => fs).
Definition open_dir : C unit := disk (fun fs => fs).
Definition file_Chmod (path : string) (mode : Z) : C unit :=
  disk (alter (fun x => mkFile (f_content x) mode) path).

(** [p] is [dir] or lies below it. *)
Definition below (dir p : string) : bool := String.eqb p dir || HasPrefix p (dir ++ "/").
Definition os_RemoveAll (path : string) : C unit :=
  disk (base.filter (fun kv => below path (fst kv) = false)).
End Effects.
