(* ===== verification/ClientSecurity.v ===== *)
(** The client's addresses, certificates and settings
    ([client/internal/security/address.go], [trust.go] and
    [client/internal/config/config.go]): what a Server Panel address becomes,
    which certificate a pin accepts, which listener the client opens. *)

From S2P Require Import Prelude StateError GoText GoNet GoUrl GoPath GoJson Timestamps Encoding Client.
From Stdlib Require Import Ascii String.
Open Scope Z_scope.

(** ** Addresses ([address.go]) *)

Definition formatHost (host : string) : string :=
  if has_byte ":" host && negb (HasPrefix host "[") then ("[" ++ host ++ "]")%string else host.

Section Address.
Context `{GoUrl} `{UnicodeTables}.

(** The host in its canonical text: an address as [IP.String] writes it. *)
Definition canonical_host (host : string) : res string string :=
  if has_byte ":" host then
    match ParseIP host with
    | None => Err "server address host is invalid"%string
    | Some ip => Ok (IPString ip)
    end
  else Ok (match ParseIP host with Some ip => IPString ip | None => host end).

Definition default_port (scheme : string) : string := if String.eqb scheme "http" then "80" else "443".

(** The address without the default port of its scheme. *)
Definition address_text (scheme host port : string) : string :=
  if String.eqb scheme "https" && String.eqb port "443" || String.eqb scheme "http" && String.eqb port "80"
  then (scheme ++ "://" ++ formatHost host)%string
  else (scheme ++ "://" ++ formatHost host ++ ":" ++ port)%string.

(** A URL with nothing but a scheme, a host and a port. *)
Definition bare_url (u : URL) : bool :=
  match u_User u with None => true | Some _ => false end &&
  String.eqb (u_Path u) "" && String.eqb (u_RawQuery u) "" && String.eqb (u_Fragment u) "".

Definition NormalizeServerURL (raw : string) (development : bool) : res string string :=
  let raw := TrimSpace raw in
  if String.eqb raw "" then Err "server panel address is required"%string
  else
    let raw := if Contains raw "://" then raw else ("https://" ++ raw)%string in
    match url_Parse raw with
    | Err _ => Err "server address must not contain userinfo, path, query or fragment"%string
    | Ok u =>
        if negb (bare_url u)
        then Err "server address must not contain userinfo, path, query or fragment"%string
        else if negb (String.eqb (u_Scheme u) "https") && negb (development && String.eqb (u_Scheme u) "http")
        then Err "only https is allowed outside explicit development mode"%string
        else if String.eqb (Hostname u) "" || ContainsAny (Hostname u) brackets
        then Err "server address host is required"%string
        else
          match canonical_host (ToLower (Hostname u)) with
          | Err e => Err e
          | Ok host =>
              let port := if String.eqb (Port u) "" then default_port (u_Scheme u) else Port u in
              match Atoi port with
              | None => Err "server address port is invalid"%string
              | Some n =>
                  if (n <? 1) || (65535 <? n) then Err "server address port is invalid"%string
                  else Ok (address_text (u_Scheme u) host port)
              end
          end
    end.
End Address.

(** ** Certificates ([trust.go]) *)

(** [hex.DecodeString] *)
Fixpoint hex_decode (s : string) : option string :=
  match s with
  | EmptyString => Some EmptyString
  | String a (String b s') =>
      x ← hex_value a; y ← hex_value b; r ← hex_decode s';
      Some (String (ascii_of_nat (Z.to_nat (16 * x + y))) r)
  | _ => None
  end.

(** Thirty-two bytes. *)
Definition digest_of (o : option string) : option string :=
  match o with
  | Some d => if Nat.eqb (String.length d) 32 then Some d else None
  | None => None
  end.

Definition spki_text (digest : string) : string := ("sha256/" ++ b64_encode std_alphabet digest)%string.

Definition NormalizeSPKIHash (raw : string) : res string string :=
  let raw := TrimSpace raw in
  if String.eqb raw "" then Ok ""%string
  else
    let value := TrimPrefix raw "sha256/" in
    let decoded :=
      match digest_of (DecodeString std_alphabet (TrimRight value ["="%char])) with
      | Some d => Some d
      | None => digest_of (hex_decode value)
      end in
    match decoded with
    | Some d => Ok (spki_text d)
    | None => Err "SPKI SHA-256 fingerprint must be 32 bytes"%string
    end.

(** What of an [x509.Certificate] the client reads. *)
Record Certificate := mkCertificate {
  crt_Subject : string;
  crt_Issuer : string;
  crt_NotBefore : Stamp;
  crt_NotAfter : Stamp;
  crt_RawSubjectPublicKeyInfo : string;
  crt_DNSNames : list string;
  crt_IPAddresses : list IP
}.

Record CertificateInfo := mkCertificateInfo {
  ci_ServerPanelURL : string;
  ci_Transport : string;
  ci_Verified : bool;
  ci_VerificationError : string;
  ci_Subject : string;
  ci_Issuer : string;
  ci_NotBefore : option Stamp;
  ci_NotAfter : option Stamp;
  ci_SPKISHA256 : string;
  ci_DNSNames : list string;
  ci_IPAddresses : list string
}.
#[export] Instance Eta_CertificateInfo : Eta CertificateInfo := fun r =>
  mkCertificateInfo r.(ci_ServerPanelURL) r.(ci_Transport) r.(ci_Verified) r.(ci_VerificationError)
    r.(ci_Subject) r.(ci_Issuer) r.(ci_NotBefore) r.(ci_NotAfter) r.(ci_SPKISHA256)
    r.(ci_DNSNames) r.(ci_IPAddresses).

(** The network and the system's trust: a TLS handshake (the chain the peer
    shows, the leaf first), whether there are system roots, [leaf.Verify]. *)
Class TrustEnv := {
  tls_dial : string -> string -> res string (list Certificate);
  system_roots : bool;
  x509_verify : Certificate -> list Certificate -> string -> option string
}.

Section Trust.
Context `{ClientEnv} `{TrustEnv} `{GoUrl}.

Definition SPKISHA256 (c : Certificate) : string := spki_text (ce_sha256 (crt_RawSubjectPublicKeyInfo c)).

(** The error, if any. *)
Definition verifyCertificate (now : Stamp) (leaf : Certificate) (chain : list Certificate)
    (hostname : string) : option string :=
  if (now <? crt_NotBefore leaf) || (crt_NotAfter leaf <? now)
  then Some "certificate is outside its validity period"%string
  else if negb system_roots then Some "system trust store is unavailable"%string
  else x509_verify leaf chain hostname.

Definition leaf_info (now : Stamp) (info : CertificateInfo) (leaf : Certificate)
    (chain : list Certificate) (hostname : string) : CertificateInfo :=
  let info := info <| ci_Subject := crt_Subject leaf |> <| ci_Issuer := crt_Issuer leaf |>
    <| ci_NotBefore := Some (crt_NotBefore leaf) |> <| ci_NotAfter := Some (crt_NotAfter leaf) |>
    <| ci_SPKISHA256 := SPKISHA256 leaf |> <| ci_DNSNames := crt_DNSNames leaf |>
    <| ci_IPAddresses := map IPString (crt_IPAddresses leaf) |> in
  match verifyCertificate now leaf chain hostname with
  | Some e => info <| ci_VerificationError := e |>
  | None => info <| ci_Verified := true |>
  end.

Definition InspectServerCertificate (now : Stamp) (serverPanelURL : string) : res string CertificateInfo :=
  match url_Parse serverPanelURL with
  | Err _ => Err "invalid server panel URL"%string
  | Ok parsed =>
      if String.eqb (Hostname parsed) "" then Err "invalid server panel URL"%string
      else
        let info := mkCertificateInfo serverPanelURL (u_Scheme parsed) false "" "" "" None None "" [] [] in
        if String.eqb (u_Scheme parsed) "http"
        then Ok (info <| ci_VerificationError := "TLS is not enabled for this development connection"%string |>)
        else if negb (String.eqb (u_Scheme parsed) "https")
        then Err "certificate inspection requires https"%string
        else
          let port := if String.eqb (Port parsed) "" then "443"%string else Port parsed in
          match tls_dial (JoinHostPort (Hostname parsed) port) (Hostname parsed) with
          | Err e => Err ("TLS certificate inspection failed: " ++ e)%string
          | Ok [] => Err "server did not present a certificate"%string
          | Ok (leaf :: chain) => Ok (leaf_info now info leaf chain (Hostname parsed))
          end
  end.

(** [VerifyConnection] of a pinned configuration; the clock is read twice. *)
Definition verify_pinned (pin : string) (now now' : Stamp) (peer : list Certificate) : res string unit :=
  match peer with
  | [] => Err "server did not present a certificate"%string
  | leaf :: _ =>
      if (now <? crt_NotBefore leaf) || (crt_NotAfter leaf <? now')
      then Err "server certificate is outside its validity period"%string
      else if negb (String.eqb (SPKISHA256 leaf) pin)
      then Err "server certificate fingerprint changed"%string
      else Ok tt
  end.

(** The server name and the normalised pin a pinned configuration checks. *)
Definition PinnedTLSConfig (serverName rawPin : string) : res string (string * string) :=
  match NormalizeSPKIHash rawPin with
  | Err e => Err e
  | Ok pin => if String.eqb pin "" then Err "certificate pin is required"%string else Ok (serverName, pin)
  end.
End Trust.

(** ** Settings ([config.go]) *)

Record ClientConfig := mkClientConfig {
  cf_ListenAddr : string;
  cf_DataDir : string;
  cf_Environment : string;
  cf_FRPCBinary : string;
  cf_FRPCBinarySHA256 : string;
  cf_FRPCVersion : string;
  cf_AllowedHost : string;
  cf_AllowedCIDRs : list string;
  cf_AllowLAN : bool;
  cf_TLSCertFile : string;
  cf_TLSKeyFile : string;
  cf_ClientWebDir : string
}.

Definition splitCSV (value : string) : list string :=
  List.filter (fun item => negb (String.eqb item "")) (map TrimSpace (SplitByte value ",")).

Section Settings.
(** [os.Getenv] *)
Context (getenv_os : string -> string).

Definition getenv (key fallback : string) : string :=
  if String.eqb (getenv_os key) "" then fallback else getenv_os key.

Definition LoadClient : ClientConfig :=
  mkClientConfig (getenv "CLIENT_LISTEN_ADDR" "127.0.0.1:7410")
    (Clean (getenv "FRP_CLIENT_DATA_DIR" "./data"))
    (getenv "FRP_PANEL_ENV" "development")
    (getenv_os "FRPC_BINARY") (getenv_os "FRPC_BINARY_SHA256") (getenv "FRPC_VERSION" "0.68.0")
    (getenv "CLIENT_ALLOWED_HOST" "127.0.0.1,localhost,[::1]")
    (splitCSV (getenv "CLIENT_ALLOWED_CIDRS" "127.0.0.0/8,::1/128"))
    (String.eqb (getenv_os "CLIENT_ALLOW_LAN") "true")
    (getenv_os "CLIENT_TLS_CERT_FILE") (getenv_os "CLIENT_TLS_KEY_FILE") (getenv_os "FRP_CLIENT_WEB_DIR").
End Settings.

(** The first network that does not parse. *)
Fixpoint first_bad_cidr (l : list string) : option (string * string) :=
  match l with
  | [] => None
  | raw :: l' => match ParseCIDR raw with Err e => Some (raw, e) | Ok _ => first_bad_cidr l' end
  end.

Definition ValidateListenSecurity `{ClientEnv} (c : ClientConfig) : res string unit :=
  match SplitHostPort (cf_ListenAddr c) with
  | Err e => Err ("client listen address is invalid: " ++ e)%string
  | Ok (host, _) =>
      match ParseIP (Trim host brackets) with
      | None => Err "client listen address must use a literal IP"%string
      | Some ip =>
          if IsUnspecified ip
          then Err "client listener must bind a specific address, not an unspecified address"%string
          else if negb (Bool.eqb (String.eqb (cf_TLSCertFile c) "") (String.eqb (cf_TLSKeyFile c) ""))
          then Err "client TLS certificate and key must be configured together"%string
          else match first_bad_cidr (cf_AllowedCIDRs c) with
          | Some (raw, e) => Err ("client allowed CIDR " ++ ce_quote raw ++ " is invalid: " ++ e)%string
          | None =>
              if IsLoopback ip then Ok tt
              else if negb (cf_AllowLAN c)
              then Err "non-loopback Client Panel access requires CLIENT_ALLOW_LAN=true"%string
              else if String.eqb (cf_TLSCertFile c) "" || String.eqb (cf_TLSKeyFile c) ""
              then Err "LAN Client Panel access requires CLIENT_TLS_CERT_FILE and CLIENT_TLS_KEY_FILE"%string
              else if bool_decide (cf_AllowedCIDRs c = [])
              then Err "LAN Client Panel access requires CLIENT_ALLOWED_CIDRS"%string
              else Ok tt
          end
      end
  end.
