(* ===== verification/ClientWebSocket.v ===== *)
(** The WebSocket of the client ([client/internal/app/app.go]): the five
    operations under [wsMu], the delays between connections, and
    [runWebSocket] as the steps its goroutines take, each step one critical
    section or one effect, in any interleaving. *)

From S2P Require Import Prelude StateError GoText GoNet GoUrl Timestamps Client ClientSecurity.
From Stdlib Require Import Ascii String.
Open Scope Z_scope.

(** ** Under the lock *)

Definition cancel_context (o : option nat) (ws : WsState) : WsState :=
  match o with
  | Some ctx => ws <| ws_cancelled ::= fun s => {[ctx]} ∪ s |>
  | None => ws
  end.

Definition close_conn (conn : nat) (ws : WsState) : WsState := ws <| ws_open ::= fun s => s ∖ {[conn]} |>.

(** The new generation names the new context too.  (A [uint64]; it counts the
    logins of one process.) *)
Definition start_ws (ws : WsState) : WsState :=
  let ws := cancel_context (ws_cancel ws) ws in
  let ws := ws <| ws_generation ::= S |> in
  ws <| ws_cancel := Some (ws_generation ws) |>.

Definition stop_ws (ws : WsState) : WsState :=
  let ws := cancel_context (ws_cancel ws) ws in
  let ws := ws <| ws_cancel := None |> <| ws_generation ::= S |> in
  match ws_conn ws with
  | Some conn => close_conn conn (ws <| ws_conn := None |>)
  | None => ws
  end.

Definition currentWebSocket (generation : nat) (ws : WsState) : bool :=
  Nat.eqb (ws_generation ws) generation && bool_decide (is_Some (ws_cancel ws)).

Definition installWebSocket (generation conn : nat) (ws : WsState) : option WsState :=
  if currentWebSocket generation ws then Some (ws <| ws_conn := Some conn |>) else None.

Definition clearWebSocket (generation conn : nat) (ws : WsState) : WsState :=
  if Nat.eqb (ws_generation ws) generation && bool_decide (ws_conn ws = Some conn)
  then ws <| ws_conn := None |> else ws.

(** ** Delays and addresses *)

Definition max_backoff : Z := 60 * second.

Definition next_backoff (backoff : Z) : Z :=
  if backoff <? max_backoff then
    let b := 2 * backoff in if max_backoff <? b then max_backoff else b
  else backoff.

(** [sample]: the random byte, if it could be read. *)
Definition jitter (delay : Z) (sample : option Z) : Z :=
  if delay <=? 0 then second
  else match sample with
       | None => delay
       | Some b => Z.quot (delay * (80 + Z.rem b 41)) 100
       end.

Section Addresses.
Context `{GoUrl} `{ClientEnv}.

Definition websocketURL (baseURL : string) : res string string :=
  match url_Parse (TrimRight baseURL ["/"%char]) with
  | Err e => Err e
  | Ok parsed =>
      if String.eqb (u_Host parsed) "" then Err "server URL has no host"%string
      else
        let upgrade scheme := Ok (url_String (parsed <| u_Scheme := scheme |>
          <| u_Path := (TrimRight (u_Path parsed) ["/"%char] ++ "/api/v1/ws")%string |>
          <| u_RawQuery := ""%string |> <| u_Fragment := ""%string |>)) in
        if String.eqb (u_Scheme parsed) "http" then upgrade "ws"%string
        else if String.eqb (u_Scheme parsed) "https" then upgrade "wss"%string
        else Err ("unsupported server URL scheme " ++ ce_quote (u_Scheme parsed))%string
  end.

Definition localOrigin (cfg : ClientConfig) : string :=
  match SplitHostPort (cf_ListenAddr cfg) with
  | Err _ => ""
  | Ok (host, port) =>
      if String.eqb port "" then ""
      else
        let host := if existsb (String.eqb host) [""; "0.0.0.0"; "::"; "[::]"]%string
                    then "127.0.0.1"%string else host in
        let scheme := if negb (String.eqb (cf_TLSCertFile cfg) "") && negb (String.eqb (cf_TLSKeyFile cfg) "")
                      then "https" else "http" in
        (scheme ++ "://" ++ JoinHostPort host port)%string
  end.
End Addresses.

(** ** The goroutines *)

(** The type of a message the server sends. *)
Inductive WsMessage := MsgInvalidate | MsgShutdown | MsgSync | MsgOther.

Definition message_of (type : string) : WsMessage :=
  if existsb (String.eqb type) ["session_replaced"; "session_expired"; "user_disabled"; "frp_secret_rotated"]%string
  then MsgInvalidate
  else if String.eqb type "shutdown_frpc" then MsgShutdown
  else if existsb (String.eqb type) ["config_version_changed"; "force_full_sync"; "mapping_deleted"]%string
  then MsgSync
  else MsgOther.

(** Where a goroutine of [runWebSocket] stands.  [Act] and [Unauthorized] lie
    between the test that the generation is current and what the test allows. *)
Inductive WsPhase :=
| Top (backoff : Z)
| Dial (backoff : Z)
| Refused (backoff : Z)
| Unauthorized
| Wait (backoff : Z)
| Install (conn : nat)
| Read (conn : nat)
| Receive (conn : nat)
| Received (conn : nat) (m : WsMessage)
| Act (conn : nat) (m : WsMessage)
| Leave (conn : nat) (invalidated : bool)
| Clear (conn : nat) (invalidated : bool)
| Decide (invalidated : bool)
| Finished.

Record WsWorld := mkWsWorld { ww_ws : WsState; ww_threads : gmap nat WsPhase; ww_next : nat }.
#[export] Instance Eta_WsWorld : Eta WsWorld := fun r =>
  mkWsWorld r.(ww_ws) r.(ww_threads) r.(ww_next).

(** What the others see of a step: the session invalidated, FRPC stopped, a
    synchronisation, a connection installed. *)
Inductive WsLabel := Silent | DidInvalidate | DidShutdown | DidSync | DidInstall (conn : nat).

(** One step of the goroutine of [generation] in [phase]. *)
Inductive phase_step (generation : nat) : WsState -> nat -> WsPhase -> WsLabel -> WsState -> nat -> WsPhase -> Prop :=
| st_top_stale ws n b :
    generation ∈ ws_cancelled ws \/ currentWebSocket generation ws = false ->
    phase_step generation ws n (Top b) Silent ws n Finished
| st_top_no_session ws n b : phase_step generation ws n (Top b) Silent ws n Finished
| st_top ws n b :
    generation ∉ ws_cancelled ws -> currentWebSocket generation ws = true ->
    phase_step generation ws n (Top b) Silent ws n (Dial b)
| st_dialled ws n b :
    phase_step generation ws n (Dial b) Silent (ws <| ws_open ::= fun s => {[n]} ∪ s |>) (S n) (Install n)
| st_dial_failed ws n b : phase_step generation ws n (Dial b) Silent ws n (Wait b)
| st_dial_refused ws n b : phase_step generation ws n (Dial b) Silent ws n (Refused b)
| st_refused ws n b :
    phase_step generation ws n (Refused b) Silent ws n
      (if currentWebSocket generation ws then Unauthorized else Wait b)
| st_unauthorized ws n : phase_step generation ws n Unauthorized DidInvalidate (stop_ws ws) n Finished
| st_wait ws n b : phase_step generation ws n (Wait b) Silent ws n (Top (next_backoff b))
| st_wait_cancelled ws n b :
    generation ∈ ws_cancelled ws -> phase_step generation ws n (Wait b) Silent ws n Finished
| st_install ws n conn ws' :
    installWebSocket generation conn ws = Some ws' ->
    phase_step generation ws n (Install conn) (DidInstall conn) ws' n (Read conn)
| st_not_installed ws n conn :
    installWebSocket generation conn ws = None ->
    phase_step generation ws n (Install conn) Silent (close_conn conn ws) n Finished
| st_read ws n conn :
    phase_step generation ws n (Read conn) Silent ws n
      (if currentWebSocket generation ws then Receive conn else Leave conn true)
| st_received ws n conn m : phase_step generation ws n (Receive conn) Silent ws n (Received conn m)
| st_read_failed ws n conn : phase_step generation ws n (Receive conn) Silent ws n (Leave conn false)
| st_check ws n conn m :
    phase_step generation ws n (Received conn m) Silent ws n
      (if currentWebSocket generation ws then Act conn m else Leave conn true)
| st_invalidate ws n conn :
    phase_step generation ws n (Act conn MsgInvalidate) DidInvalidate (stop_ws ws) n (Leave conn true)
| st_shutdown ws n conn : phase_step generation ws n (Act conn MsgShutdown) DidShutdown ws n (Read conn)
| st_sync ws n conn : phase_step generation ws n (Act conn MsgSync) DidSync ws n (Read conn)
| st_other ws n conn : phase_step generation ws n (Act conn MsgOther) Silent ws n (Read conn)
| st_leave ws n conn i :
    phase_step generation ws n (Leave conn i) Silent (close_conn conn ws) n (Clear conn i)
| st_clear ws n conn i :
    phase_step generation ws n (Clear conn i) Silent
      (close_conn conn (clearWebSocket generation conn ws)) n (Decide i)
| st_decide_end ws n i :
    i = true \/ generation ∈ ws_cancelled ws \/ currentWebSocket generation ws = false ->
    phase_step generation ws n (Decide i) Silent ws n Finished
| st_decide_again ws n :
    generation ∉ ws_cancelled ws -> currentWebSocket generation ws = true ->
    phase_step generation ws n (Decide false) Silent ws n (Wait second).

(** The connection of a goroutine between the dial and its close. *)
Definition holds (p : WsPhase) : option nat :=
  match p with
  | Install c | Read c | Receive c | Received c _ | Act c _ | Leave c _ => Some c
  | _ => None
  end.

(** A step of the system: one goroutine, the goroutine that writes its
    heartbeats (a failed write closes the connection), a login or a logout. *)
Inductive ws_step : WsWorld -> WsWorld -> Prop :=
| ws_thread g p l w ws' n' p' :
    ww_threads w !! g = Some p ->
    phase_step g (ww_ws w) (ww_next w) p l ws' n' p' ->
    ws_step w (mkWsWorld ws' (<[g := p']> (ww_threads w)) n')
| ws_heartbeat_failed g p conn w :
    ww_threads w !! g = Some p -> holds p = Some conn -> (forall c, p <> Install c) ->
    ws_step w (w <| ww_ws ::= close_conn conn |>)
| ws_start w :
    ws_step w (mkWsWorld (start_ws (ww_ws w))
      (<[ws_generation (start_ws (ww_ws w)) := Top second]> (ww_threads w)) (ww_next w))
| ws_stop w : ws_step w (mkWsWorld (stop_ws (ww_ws w)) (ww_threads w) (ww_next w)).

Definition ws_zero : WsState := mkWsState None None 0 ∅ ∅.
Definition ws_initial : WsWorld := mkWsWorld ws_zero ∅ 0.
