(* ===== verification/ClientWebSocketSpec.v ===== *)
(** What the WebSocket goroutines promise in any interleaving with logins and
    logouts: no connection leaks, a goroutine of an earlier session falls
    silent and ends, and the one race the code leaves. *)

From S2P Require Import Prelude StateError GoText GoNet GoUrl Timestamps Client ClientSecurity ClientWebSocket.
From Stdlib Require Import Ascii String.
Open Scope Z_scope.

#[local] Arguments start_ws : simpl never.
#[local] Arguments stop_ws : simpl never.

(** ** The invariant *)

(** Every goroutine is the current one or its context was cancelled; every open
    connection is in the hands of a goroutine; connections are numbered in the
    order of their dialling. *)
Record ws_inv (w : WsWorld) : Prop := {
  inv_generation : forall g p, ww_threads w !! g = Some p -> (g <= ws_generation (ww_ws w))%nat;
  inv_cancel : forall g, ws_cancel (ww_ws w) = Some g -> g = ws_generation (ww_ws w);
  inv_current : forall g p, ww_threads w !! g = Some p ->
    currentWebSocket g (ww_ws w) = true \/ g ∈ ws_cancelled (ww_ws w);
  inv_open : forall c, c ∈ ws_open (ww_ws w) -> exists g p, ww_threads w !! g = Some p /\ holds p = Some c
}.

Lemma current_true g ws : currentWebSocket g ws = true <-> ws_generation ws = g /\ is_Some (ws_cancel ws).
Proof. unfold currentWebSocket. by rewrite andb_true_iff, Nat.eqb_eq, bool_decide_eq_true. Qed.

Lemma ws_initial_inv : ws_inv ws_initial.
Proof. split; simpl; try done. all: intros; set_solver. Qed.

(** What a step of a goroutine can do to the state the others see. *)
Record ws_frame (g : nat) (ws ws' : WsState) (p p' : WsPhase) : Prop := {
  fr_generation : (ws_generation ws <= ws_generation ws')%nat;
  fr_cancel : ws_cancel ws' = ws_cancel ws /\ ws_generation ws' = ws_generation ws /\
                ws_cancelled ws' = ws_cancelled ws \/
              ws_cancel ws' = None /\ ws_cancelled ws' =
                match ws_cancel ws with Some c => {[c]} ∪ ws_cancelled ws | None => ws_cancelled ws end;
  fr_open : forall c, c ∈ ws_open ws' -> holds p' = Some c \/ c ∈ ws_open ws /\ holds p <> Some c
}.

Lemma stop_ws_fields ws :
  ws_generation (stop_ws ws) = S (ws_generation ws) /\ ws_cancel (stop_ws ws) = None /\
  ws_cancelled (stop_ws ws) = match ws_cancel ws with Some c => {[c]} ∪ ws_cancelled ws | None => ws_cancelled ws end /\
  ws_open (stop_ws ws) ⊆ ws_open ws.
Proof.
  destruct ws as [[c|] [x|] gen cs op]; unfold stop_ws, cancel_context, close_conn; simpl;
    (split_and!; [done..|set_solver]).
Qed.

Lemma start_ws_fields ws :
  ws_generation (start_ws ws) = S (ws_generation ws) /\ ws_cancel (start_ws ws) = Some (S (ws_generation ws)) /\
  ws_cancelled (start_ws ws) = match ws_cancel ws with Some c => {[c]} ∪ ws_cancelled ws | None => ws_cancelled ws end /\
  ws_open (start_ws ws) = ws_open ws.
Proof. by destruct ws as [c [x|] gen cs op]. Qed.

Lemma phase_step_frame g ws n p l ws' n' p' :
  phase_step g ws n p l ws' n' p' -> ws_frame g ws ws' p p'.
Proof.
  assert (forall ws p p', (forall c, holds p = Some c -> holds p' = Some c) -> ws_frame g ws ws p p') as Hsame.
  { intros w q q' Hq. split; [lia|by left|]. intros c Hc.
    destruct (decide (holds q = Some c)) as [E|]; [left; by apply Hq|by right]. }
  assert (forall ws conn p p', holds p = Some conn -> ws_frame g ws (close_conn conn ws) p p') as Hclose.
  { intros w conn q q' Hq. split; [simpl; lia|by left|]. simpl. intros c Hc. right.
    rewrite Hq. set_solver. }
  assert (forall ws p p', (forall c, holds p = Some c -> holds p' = Some c) -> ws_frame g ws (stop_ws ws) p p') as Hstop.
  { intros w q q' Hq. destruct (stop_ws_fields w) as (E1 & E2 & E3 & E4). split; [lia|by right|].
    intros c Hc%E4. destruct (decide (holds q = Some c)) as [E|]; [left; by apply Hq|by right]. }
  intros []; try (apply Hsame; intros; simpl in *; (repeat case_match); done);
    try (apply Hclose; done); try (apply Hstop; done).
  - split; [simpl; lia|by left|]. simpl. intros c. rewrite elem_of_union, elem_of_singleton.
    intros [->|]; [by left|by right].
  - match goal with H : installWebSocket _ _ _ = Some _ |- _ => unfold installWebSocket in H; case_match; simplify_eq end.
    split; [simpl; lia|by left|]. simpl. intros c Hc. destruct (decide (c = conn)) as [->|]; [by left|].
    right. split; [done|congruence].
  - split; [unfold clearWebSocket; case_match; simpl; lia|left; unfold clearWebSocket; by case_match|].
    intros c Hc. right. split; [|done]. revert Hc. unfold clearWebSocket. case_match; simpl; set_solver.
Qed.

(** A frame keeps what the others rely on. *)
Lemma frame_current g ws ws' p p' h :
  ws_frame g ws ws' p p' ->
  (currentWebSocket h ws = true \/ h ∈ ws_cancelled ws) ->
  (forall c, ws_cancel ws = Some c -> c = ws_generation ws) ->
  currentWebSocket h ws' = true \/ h ∈ ws_cancelled ws'.
Proof.
  intros [_ [(E1 & E2 & E3)|[E1 E2]] _] Hh Hc.
  - unfold currentWebSocket. by rewrite E1, E2, E3.
  - right. rewrite E2. destruct Hh as [[<- [c E]]%current_true|Hh]; [|case_match; set_solver].
    rewrite E, (Hc c E). set_solver.
Qed.

Lemma ws_step_inv w w' : ws_step w w' -> ws_inv w -> ws_inv w'.
Proof.
  intros [g p l w1 ws' n' p' Hp Hs|g p conn w1 Hp Hh _|w1|w1] [I1 I2 I3 I4].
  - apply phase_step_frame in Hs as Hf. destruct Hf as [F1 F2 F3]. pose proof Hs as Hf%phase_step_frame.
    split; simpl.
    + intros h q [[<- <-]|[_ Hq]]%lookup_insert_Some; [specialize (I1 g p Hp)|specialize (I1 h q Hq)]; lia.
    + intros h Eh. destruct F2 as [(E1 & E2 & E3)|[E1 E2]]; [|congruence]. rewrite E2. apply I2. congruence.
    + intros h q Hq. assert (exists q, ww_threads w1 !! h = Some q) as [q0 Hq0].
      { apply lookup_insert_Some in Hq as [[<- <-]|[_ Hq]]; eauto. }
      by eapply frame_current; [exact Hf|eapply I3|].
    + intros c Hc. destruct (F3 c Hc) as [Hh|[Hc' Hn]].
      * exists g, p'. by rewrite lookup_insert_eq.
      * destruct (I4 c Hc') as (h & q & Hq & Hh). exists h, q. split; [|done].
        rewrite lookup_insert_ne; [done|]. intros ->. congruence.
  - split; simpl; [done..|]. intros c Hc. apply I4. set_solver.
  - destruct (start_ws_fields (ww_ws w1)) as (E1 & E2 & E3 & E4). split; cbn [ww_ws ww_threads ww_next].
    + intros h q [[<- <-]|[_ Hq%I1]]%lookup_insert_Some; lia.
    + congruence.
    + intros h q [[<- _]|[_ Hq%I3]]%lookup_insert_Some; [left; apply current_true; rewrite E2; by split|right].
      rewrite E3. destruct Hq as [[<- [c E]]%current_true|Hq]; [rewrite E, (I2 c E); set_solver|].
      case_match; set_solver.
    + rewrite E4. intros c Hc. destruct (I4 c Hc) as (h & q & Hq & Hh). exists h, q. split; [|done].
      rewrite lookup_insert_ne; [done|]. intros <-. apply I1 in Hq. lia.
  - destruct (stop_ws_fields (ww_ws w1)) as (E1 & E2 & E3 & E4). split; cbn [ww_ws ww_threads ww_next].
    + intros h q Hq%I1. lia.
    + congruence.
    + intros h q Hq. right. rewrite E3. destruct (I3 h q Hq) as [[<- [c E]]%current_true|Hc].
      * rewrite E, (I2 c E). set_solver.
      * case_match; set_solver.
    + intros c Hc%E4. by apply I4.
Qed.

Lemma ws_reachable_inv w : rtc ws_step ws_initial w -> ws_inv w.
Proof.
  intros Hr. pose proof ws_initial_inv as Hi. revert Hi. induction Hr; [done|].
  intros Hi. apply IHHr. by eapply ws_step_inv.
Qed.

(** ** No leak *)

(** Whatever goroutines, logins and logouts interleave: an open connection is
    always in the hands of a goroutine that has not finished with it, so when
    every goroutine has ended, every connection is closed; and a goroutine that
    is not the current one has had its context cancelled. *)
Theorem connections_closed w :
  rtc ws_step ws_initial w ->
  (forall c, c ∈ ws_open (ww_ws w) -> exists g p, ww_threads w !! g = Some p /\ holds p = Some c) /\
  ((forall g p, ww_threads w !! g = Some p -> p = Finished) -> ws_open (ww_ws w) = ∅) /\
  (forall g p, ww_threads w !! g = Some p ->
     currentWebSocket g (ww_ws w) = true \/ g ∈ ws_cancelled (ww_ws w)).
Proof.
  intros [I1 I2 I3 I4]%ws_reachable_inv. split_and!; [done| |done].
  intros Hall. apply set_eq. intros c. split; [|set_solver].
  intros (g & p & Hp & Hh)%I4. by rewrite (Hall g p Hp) in Hh.
Qed.

(** ** Superseded goroutines *)

(** Not the current one, and past no test that said it was. *)
Definition superseded (g : nat) (w : WsWorld) : Prop :=
  (g <= ws_generation (ww_ws w))%nat /\ currentWebSocket g (ww_ws w) = false /\
  match ww_threads w !! g with Some (Act _ _ | Unauthorized) => False | _ => True end.

Lemma not_current_frame g h ws ws' p p' :
  ws_frame h ws ws' p p' -> (g <= ws_generation ws)%nat -> currentWebSocket g ws = false ->
  currentWebSocket g ws' = false.
Proof.
  intros [Hle Hc _] Hg Hn. destruct (currentWebSocket g ws') eqn:E; [|done].
  apply current_true in E as [E1 [c E2]]. destruct Hc as [(F1 & F2 & _)|[F1 _]]; [|congruence].
  assert (currentWebSocket g ws = true); [|congruence]. apply current_true. rewrite F1, F2 in *. eauto.
Qed.

Lemma superseded_phase g ws n p l ws' n' p' :
  currentWebSocket g ws = false -> (match p with Act _ _ | Unauthorized => False | _ => True end) ->
  phase_step g ws n p l ws' n' p' ->
  l = Silent /\ match p' with Act _ _ | Unauthorized => False | _ => True end.
Proof.
  intros Hn Hp Hs. inversion Hs; simplify_eq; try done; try (by rewrite Hn).
  unfold installWebSocket in *. by rewrite Hn in *.
Qed.

Lemma superseded_stable g w w' : ws_step w w' -> ws_inv w -> superseded g w -> superseded g w'.
Proof.
  intros Hs [I1 I2 _ _] (Hg & Hn & Hp). destruct Hs as [h p l w1 ws' n' p' Hh Hs|h p conn w1 _ _ _|w1|w1].
  - pose proof (phase_step_frame _ _ _ _ _ _ _ _ Hs) as Hf. split_and!; simpl.
    + destruct Hf. lia.
    + by eapply not_current_frame.
    + destruct (decide (h = g)) as [->|]; [|by rewrite lookup_insert_ne].
      rewrite lookup_insert_eq. rewrite Hh in Hp. by eapply superseded_phase in Hs as [_ ?].
  - done.
  - destruct (start_ws_fields (ww_ws w1)) as (E1 & E2 & E3 & E4).
    split_and!; cbn [ww_ws ww_threads]; [lia| |].
    + unfold currentWebSocket. rewrite E1. destruct (Nat.eqb_spec (S (ws_generation (ww_ws w1))) g); [lia|done].
    + rewrite lookup_insert_ne by lia. done.
  - destruct (stop_ws_fields (ww_ws w1)) as (E1 & E2 & E3 & E4).
    split_and!; cbn [ww_ws ww_threads]; [lia| |done].
    unfold currentWebSocket. rewrite E2. apply andb_false_r.
Qed.

(** Once a later session has replaced its own, a goroutine does nothing any
    more that others see, whatever happens around it: it installs no
    connection, ends no session, stops no FRPC, starts no synchronisation, and
    never becomes current again. *)
Theorem superseded_is_silent g w w' p l ws' n' p' :
  rtc ws_step ws_initial w -> superseded g w -> rtc ws_step w w' ->
  ww_threads w' !! g = Some p -> phase_step g (ww_ws w') (ww_next w') p l ws' n' p' ->
  l = Silent /\ currentWebSocket g ws' = false.
Proof.
  intros Hr Hs Hrun Hp Hstep.
  assert (ws_inv w' /\ superseded g w') as [_ (Hg & Hn & Ha)].
  { pose proof (ws_reachable_inv w Hr) as Hi. clear Hr Hp Hstep. induction Hrun as [|w w1 w2 H1 _ IH]; [done|].
    apply IH; [by eapply superseded_stable|by eapply ws_step_inv]. }
  rewrite Hp in Ha. split; [by eapply superseded_phase in Hstep as [? _]|].
  by eapply not_current_frame; [eapply phase_step_frame|..].
Qed.

(** *** It ends *)

(** The steps it can still take. *)
Definition steps_left (p : WsPhase) : nat :=
  match p with
  | Finished => 0
  | Top _ | Decide _ | Install _ | Unauthorized => 1
  | Wait _ | Clear _ _ => 2
  | Refused _ | Leave _ _ => 3
  | Dial _ | Read _ | Received _ _ => 4
  | Receive _ | Act _ _ => 5
  end.

(** [k] steps of the goroutine of [g], each in a state in which it is not the
    current one; between them anything may happen. *)
Inductive own_steps (g : nat) : nat -> WsPhase -> WsPhase -> Prop :=
| own_none p : own_steps g 0 p p
| own_more k ws n p l ws' n' p' q :
    currentWebSocket g ws = false -> phase_step g ws n p l ws' n' p' -> own_steps g k p' q ->
    own_steps g (S k) p q.

(** C37: A goroutine that is no longer current ends after at most five more steps
    of its own, whatever it is answered and whatever happens between them: until
    it has finished it can take a step, and it cannot take more than five. *)
Theorem superseded_ends g :
  (forall ws n p, p <> Finished -> exists l ws' n' p', phase_step g ws n p l ws' n' p') /\
  (forall k p q, own_steps g k p q -> (k + steps_left q <= steps_left p)%nat /\ (steps_left p <= 5)%nat).
Proof.
  split.
  - intros ws n [b|b|b| |b|c|c|c|c m|c m|c i|c i|i|] Hp; try done;
      try (by do 4 eexists; (apply st_top_no_session || apply st_dial_failed || apply st_read_failed));
      try (by do 4 eexists; constructor).
    + destruct (installWebSocket g c ws) eqn:E; do 4 eexists; [by apply st_install|by apply st_not_installed].
    + destruct m; by do 4 eexists; constructor.
    + destruct (decide (g ∈ ws_cancelled ws)); [do 4 eexists; apply st_decide_end; by auto|].
      destruct i; [do 4 eexists; apply st_decide_end; by auto|].
      destruct (currentWebSocket g ws) eqn:E; do 4 eexists; [by apply st_decide_again|apply st_decide_end; by auto].
  - intros k p q Hk. split; [|destruct p; simpl; lia].
    induction Hk as [p|k ws n p l ws' n' p' q Hn Hs Hk IH]; [lia|].
    assert (S (steps_left p') <= steps_left p)%nat; [|lia].
    inversion Hs; simplify_eq; simpl; try lia; try (rewrite Hn; simpl; lia); try congruence.
    unfold installWebSocket in *. by rewrite Hn in *.
Qed.

(** ** Between the test and the act *)

(** The test that a goroutine is current and what it allows are two steps: a
    login in between lets the goroutine of the old session, told that its
    session was replaced, stop the WebSocket of the new session with the new
    session's memory. *)
Theorem stale_goroutine_ends_new_session :
  exists w ws' n' p', rtc ws_step ws_initial w /\ currentWebSocket 3 (ww_ws w) = true /\
    ww_threads w !! 1%nat = Some Unauthorized /\
    phase_step 1 (ww_ws w) (ww_next w) Unauthorized DidInvalidate ws' n' p' /\
    currentWebSocket 3 ws' = false.
Proof.
  set (t0 := mkWsWorld (start_ws ws_zero) {[1%nat := Top second]} 0).
  set (at_phase p := mkWsWorld (start_ws ws_zero) {[1%nat := p]} 0).
  assert (forall p q l, phase_step 1 (start_ws ws_zero) 0 p l (start_ws ws_zero) 0 q ->
    ws_step (at_phase p) (at_phase q)) as Hstep.
  { intros p q l Hs. pose proof (ws_thread 1 p l (at_phase p) (start_ws ws_zero) 0 q) as Ht.
    unfold at_phase in *. cbn [ww_threads ww_ws ww_next] in Ht. rewrite insert_singleton_eq in Ht. apply Ht; [by rewrite lookup_singleton_eq|done]. }
  eexists (mkWsWorld (start_ws (stop_ws (start_ws ws_zero))) {[1%nat := Unauthorized; 3%nat := Top second]} 0),
    (stop_ws (start_ws (stop_ws (start_ws ws_zero)))), 0%nat, Finished.
  split_and!; [|done|done|apply st_unauthorized|done].
  eapply rtc_l with (y := t0); [exact (ws_start ws_initial)|].
  eapply rtc_l; [apply (Hstep (Top second) (Dial second) Silent); apply st_top; [vm_compute; set_solver|done]|].
  eapply rtc_l; [apply (Hstep (Dial second) (Refused second) Silent); apply st_dial_refused|].
  eapply rtc_l; [apply (Hstep (Refused second) Unauthorized Silent); exact (st_refused 1 (start_ws ws_zero) 0 second)|].
  eapply rtc_l; [exact (ws_stop (at_phase Unauthorized))|].
  eapply rtc_l; [exact (ws_start (mkWsWorld (stop_ws (start_ws ws_zero)) {[1%nat := Unauthorized]} 0))|].
  match goal with |- rtc _ ?a ?b => assert (a = b) as ->; [reflexivity|done] end.
Qed.

(** ** Delays *)

Lemma next_backoff_range b : second <= b <= max_backoff -> second <= next_backoff b <= max_backoff.
Proof. unfold next_backoff, max_backoff, second. intros Hb. repeat case_match; lia. Qed.

(** The [n]-th delay of a goroutine that cannot connect. *)
Definition nth_backoff (n : nat) : Z := Nat.iter n next_backoff second.

(** The delays between connection attempts double from one second and stop
    at sixty; the random part keeps each within 80 and 120 per cent, whatever
    byte is drawn, and the delay fits a [time.Duration]. *)
Theorem reconnect_delays n sample :
  (forall b, sample = Some b -> 0 <= b < 256) ->
  nth_backoff n = Z.min (second * 2 ^ Z.of_nat n) max_backoff /\
  80 * nth_backoff n <= 100 * jitter (nth_backoff n) sample + 99 /\
  100 * jitter (nth_backoff n) sample <= 120 * nth_backoff n /\
  0 < jitter (nth_backoff n) sample < 2 ^ 63.
Proof.
  intros Hb.
  assert (nth_backoff n = Z.min (second * 2 ^ Z.of_nat n) max_backoff) as E.
  { induction n as [|n IH]; [done|]. change (nth_backoff (S n)) with (next_backoff (nth_backoff n)). rewrite IH.
    rewrite Nat2Z.inj_succ, Z.pow_succ_r by lia. unfold next_backoff, max_backoff, second.
    repeat case_match; lia. }
  assert (second <= nth_backoff n <= max_backoff) as Hn.
  { rewrite E. assert (1 <= 2 ^ Z.of_nat n) by (apply (Z.pow_le_mono_r 2 0); lia). unfold max_backoff, second in *. lia. }
  split; [done|]. clear E. generalize dependent (nth_backoff n). intros d Hd. unfold max_backoff, second in Hd.
  unfold jitter. destruct (Z.leb_spec d 0); [lia|]. destruct sample as [b|]; [|lia].
  specialize (Hb b eq_refl). rewrite Z.rem_mod_nonneg by lia.
  pose proof (Z.mod_pos_bound b 41 eq_refl) as Hr. revert Hr. generalize (b mod 41) as r. intros r Hr.
  assert (80 * d <= d * (80 + r) <= 120 * d) as Hx by nia.
  rewrite Z.quot_div_nonneg by lia.
  revert Hx. generalize (d * (80 + r)) as x. intros x Hx.
  pose proof (Z.div_mod x 100). pose proof (Z.mod_pos_bound x 100). lia.
Qed.
