(* ===== verification/ClientToml.v ===== *)
(** The configuration file the client writes for FRPC, and the version test
    ([client/internal/supervisor/supervisor.go], [VerifySnapshot],
    [renderTOMLForVersion], [frpcVersionAtLeast] and their helpers). *)

From S2P Require Import Prelude StateError GoText GoPath GoNet GoJson Timestamps Encoding Client.
From Stdlib Require Import Ascii String.
Open Scope Z_scope.

(** ** Payload access *)

Definition lookup_key (payload : gmap string JSON) (key : string) : JSON :=
  default JNull (payload !! key).

Definition as_string (v : JSON) : string := match v with JString s => s | _ => "" end.

Definition payloadString (payload : gmap string JSON) (key : string) : string :=
  as_string (lookup_key payload key).

Section Ints.
Context `{GoFloat}.

Definition as_int (v : JSON) (fallback : Z) : Z :=
  match v with
  | JNumber m e => int_of_float m e
  | JInt v => v
  | _ => fallback
  end.

Definition payloadInt (payload : gmap string JSON) (key : string) (fallback : Z) : Z :=
  as_int (lookup_key payload key) fallback.
End Ints.

Definition tomlString (value : string) : string := json_string value.

(** ** Versions *)

Fixpoint leading_digits (s : string) : string :=
  match s with
  | String c s' => if is_digit c then String c (leading_digits s') else EmptyString
  | EmptyString => EmptyString
  end.

(** [strconv.Atoi] of a text of digits: out of range is an error. *)
Definition atoi_digits (s : string) : option Z :=
  let v := decimal 0 s in if v <? 2 ^ 63 then Some v else None.

(** One component: its leading digits, at least one. *)
Definition parse_component (part : string) : option Z :=
  let d := leading_digits part in
  if String.eqb d "" then None else atoi_digits d.

(** The components read, at most three; missing ones are zero. *)
Fixpoint parse_components (n : nat) (parts : list string) : option (list Z) :=
  match n, parts with
  | O, _ => Some []
  | S _, [] => Some (replicate n 0)
  | S n', p :: parts' =>
      v ← parse_component p; vs ← parse_components n' parts'; Some (v :: vs)
  end.

Definition parse_version (value : string) : option (list Z) :=
  let parts := SplitByte (TrimSpace value) "." in
  if Nat.ltb (List.length parts) 2 then None else parse_components 3 parts.

(** [a >= b], the first differing component decides. *)
Fixpoint version_ge (a b : list Z) : bool :=
  match a, b with
  | x :: a', y :: b' => if x =? y then version_ge a' b' else y <? x
  | _, _ => true
  end.

Definition frpcVersionAtLeast (actual minimum : string) : bool :=
  match parse_version actual, parse_version minimum with
  | Some a, Some m => version_ge a m
  | _, _ => false
  end.

Example version1 : frpcVersionAtLeast "0.68.0" "0.68.0" = true.
Proof. reflexivity. Qed.
Example version2 : frpcVersionAtLeast "0.67.9" "0.68.0" = false.
Proof. reflexivity. Qed.
Example version3 : frpcVersionAtLeast " 1.0-rc1 " "0.68.0" = true.
Proof. reflexivity. Qed.
Example version4 : frpcVersionAtLeast "v0.68.0" "0.68.0" = false.
Proof. reflexivity. Qed.

(** ** Signatures *)

Section Signatures.
Context `{ClientEnv}.

(** [json.Marshal] of a map: its fields in the order of the keys. *)
Definition sorted_fields (m : gmap string JSON) : list (string * JSON) :=
  order_by (fun a b => String.ltb (fst a) (fst b)) (map_to_list m).

Definition marshal_payload (p : option (gmap string JSON)) : string :=
  match p with
  | None => "null"
  | Some m => json_marshal (JObject (sorted_fields m))
  end.

(** [json.Marshal] of a [Snapshot]: the fields in the order of the struct. *)
Definition marshal_snapshot (s : ClientSnapshot) : string :=
  let str k v := (json_string k ++ ":" ++ json_string v)%string in
  let int k v := (json_string k ++ ":" ++ itoa v)%string in
  ("{" ++ join "," [
     str "schema_version" (cs_SchemaVersion s); int "config_version" (cs_ConfigVersion s);
     str "user_id" (cs_UserID s); int "session_generation" (cs_SessionGeneration s);
     str "issued_at" (cs_IssuedAt s); str "expires_at" (cs_ExpiresAt s);
     str "config_hash" (cs_ConfigHash s); str "signing_key_id" (cs_SigningKeyID s);
     str "signature" (cs_Signature s);
     json_string "payload" ++ ":" ++ marshal_payload (cs_Payload s)]%string ++ "}")%string.

Definition VerifySnapshot (snapshot : ClientSnapshot) (publicKey : string) : bool :=
  if String.eqb (cs_Signature snapshot) "" || negb (Nat.eqb (String.length publicKey) 32) then false
  else match DecodeString url_alphabet (cs_Signature snapshot) with
       | None => false
       | Some signature =>
           ce_ed25519 publicKey (marshal_snapshot (snapshot <| cs_Signature := "" |>)) signature
       end.
End Signatures.

(** ** The configuration file *)

Definition newline : string := String (ascii_of_nat 10) "".
Definition quoted (s : string) : string := (String quote s ++ String quote "")%string.

Definition key_value (key value : string) : string := (key ++ " = " ++ value ++ newline)%string.

Section Render.
Context `{ClientEnv}.

(** The secret of the transport and that of the user, each with its fallback. *)
Definition transport_secret (payload : gmap string JSON) : string :=
  let t := payloadString payload "frps_transport_secret" in
  if String.eqb t "" then payloadString payload "frp_secret" else t.
Definition user_secret (payload : gmap string JSON) : string :=
  let t := payloadString payload "frp_user_secret" in
  if String.eqb t "" then payloadString payload "frp_secret" else t.

Definition item_field (item : JSON) (key : string) : JSON :=
  match item with JObject fields => field fields key | _ => JNull end.

(** The block of one mapping. *)
Definition render_mapping (item : JSON) : string :=
  let get := item_field item in
  let mappingID := Sprint (get "mapping_id") in
  ("[[proxies]]" ++ newline ++
   key_value "name" (tomlString ("mapping-" ++ mappingID)) ++
   key_value "type" (tomlString (Sprint (get "proxy_type"))) ++
   key_value "localIP" (tomlString (Sprint (get "local_ip"))) ++
   key_value "localPort" (itoa (as_int (get "local_port") 0)) ++
   (if json_eqb (get "proxy_type") (JString "http") then ""
    else key_value "remotePort" (itoa (as_int (get "remote_port") 0))) ++
   match get "custom_domains" with
   | JArray (d :: ds) =>
       key_value "customDomains"
         ("[" ++ join ", " (map (fun d => tomlString (Sprint d)) (d :: ds)) ++ "]")
   | _ => ""
   end ++
   key_value "metadatas"
     ("{ mapping_id = " ++ tomlString mappingID ++
      ", mapping_revision = " ++ tomlString (itoa (as_int (get "revision") 1)) ++ " }") ++
   newline)%string.

Definition concat_strings : list string -> string := fold_right String.append "".

Definition render_mappings (payload : gmap string JSON) : string :=
  match lookup_key payload "mappings" with
  | JArray items => concat_strings (map render_mapping items)
  | _ => ""
  end.

Definition transport_path (dataDir : string) : string :=
  if String.eqb (TrimSpace dataDir) "" then Join ["runtime"; "secrets"; "transport-token"]%string
  else Join [dataDir; "runtime"; "secrets"; "transport-token"]%string.

Definition renderTOMLForVersion (snapshot : ClientSnapshot) (dataDir frpcVersion : string) : string :=
  let payload := payload_of snapshot in
  let host := payloadString payload "frps_public_host" in
  let serverAddr := if String.eqb host "" then payloadString payload "server_addr" else host in
  let username := payloadString payload "frp_username" in
  ("# Generated by FRP Panel Client; do not edit." ++ newline ++
   "# config_version = " ++ itoa (cs_ConfigVersion snapshot) ++ newline ++
   "# payload_sha256 = " ++ hex_encode (ce_sha256 (marshal_payload (cs_Payload snapshot))) ++
     newline ++ newline ++
   (if String.eqb username "" then "" else key_value "user" (tomlString username)) ++
   key_value "serverAddr" (tomlString serverAddr) ++
   key_value "serverPort" (itoa (payloadInt payload "frps_public_port" 7000)) ++
   key_value "loginFailExit" "false" ++
   key_value "auth.method" (quoted "token") ++
   (if frpcVersionAtLeast frpcVersion "0.64.0" then
      key_value "auth.tokenSource.type" (quoted "file") ++
      key_value "auth.tokenSource.file.path" (tomlString (transport_path dataDir))
    else key_value "auth.token" (tomlString (transport_secret payload))) ++
   key_value "metadatas"
     ("{ frp_runtime_credential = " ++ tomlString (payloadString payload "runtime_credential") ++
      ", session_generation = " ++ tomlString (itoa (cs_SessionGeneration snapshot)) ++
      ", frp_user_secret = " ++ tomlString (user_secret payload) ++ " }") ++
   newline ++
   render_mappings payload)%string.
End Render.
