(* ===== verification/Supervisor.v ===== *)
(** The client's supervisor ([client/internal/supervisor/supervisor.go] and
    [client/internal/healthcheck/check.go]): applying a configuration to the
    FRPC process it owns, with roll-back; stopping; recovering the process of a
    client that died; erasing the runtime secrets. *)

From S2P Require Import Prelude StateError GoText GoPath GoNet GoJson Timestamps Encoding Client ClientToml.
From Stdlib Require Import Ascii String.
Open Scope Z_scope.

(** The fields of [supervisor.Supervisor] that never change. *)
Record Supervisor := mkSupervisor {
  dataDir : string;
  binary : string;
  binarySHA256 : string;
  frpcVersion : string
}.

Definition mode_private : Z := 384.  (* 0o600 *)

Definition configPath (s : Supervisor) (name : string) : string :=
  Join [Join [dataDir s; "config"]; name]%string.
Definition activePath (s : Supervisor) : string := configPath s "frpc.toml".
Definition lastGoodPath (s : Supervisor) : string := configPath s "frpc.last-good.toml".
Definition manifestPath (s : Supervisor) : string :=
  Join [dataDir s; "state"; "last-good-manifest.json"]%string.
Definition pidPath (s : Supervisor) : string := Join [dataDir s; "state"; "frpc.pid"]%string.
Definition secretDir (s : Supervisor) : string := Join [dataDir s; "runtime"; "secrets"]%string.

Definition redacted : string := "Bearer [redacted]".
Definition sanitize (value : string) : string :=
  let v := ReplaceAll value "Bearer " redacted in
  if Nat.ltb 240 (String.length v) then take_str 240 v else v.

Definition processCommandGone (commandLine : string) `{UnicodeTables} : bool :=
  let trimmed := TrimSpace commandLine in
  String.eqb trimmed "" || Contains (ToLower trimmed) "<defunct>".

Section Supervisor.
Context `{ClientEnv}.

Definition text {A} (t : string) : C A := fail (EText t).

(** ** Files *)

(** A failing call on an open file closes it and returns its own error. *)
Definition or_close (m : C unit) : C unit :=
  r ← attempt m;
  match r with
  | Ok _ => ret tt
  | Err e => ignore file_close;; fail e
  end.

Definition writeDurableFile (path content : string) (mode : Z) : C unit :=
  os_MkdirAll;;
  open_trunc path mode;;
  or_close (file_Write path content);;
  or_close file_sync;;
  or_close (file_Chmod path mode);;
  file_close.

Definition durableRename (source target : string) : C unit :=
  os_Rename source target;;
  open_dir;;
  deferred file_close file_sync.

Definition atomicWriteDurable (path content : string) (mode : Z) : C unit :=
  n ← time_now;
  let tmpPath := (path ++ ".tmp." ++ itoa n)%string in
  deferred (os_Remove tmpPath)
    (writeDurableFile tmpPath content mode;; durableRename tmpPath path).

(** ** The PID marker *)

Definition writePID (s : Supervisor) (pid : Z) : C unit :=
  atomicWriteDurable (pidPath s) (itoa pid ++ newline) mode_private.

Definition removePIDIf (s : Supervisor) (pid : Z) : C unit :=
  r ← attempt (os_ReadFile (pidPath s));
  match r with
  | Err (ENotExist _) => ret tt
  | Err e => fail e
  | Ok encoded =>
      if negb (String.eqb (TrimSpace encoded) (itoa pid)) then ret tt
      else
        r ← attempt (os_Remove (pidPath s));
        match r with
        | Ok _ | Err (ENotExist _) => ret tt
        | Err e => fail e
        end
  end.

(** ** Commands and processes *)

Definition set_sup (f : SupMemory -> SupMemory) : C unit := modify (fun w => w <| l_sup ::= f |>).
Definition set_status (f : Status -> Status) : C unit := set_sup (fun m => m <| sm_status ::= f |>).
Definition set_process (p : option Process) : C unit := set_sup (fun m => m <| sm_process := p |>).

(** [s.verifyBinary]: nothing to check without a binary or a hash. *)
Definition verifyBinary (s : Supervisor) : C unit :=
  if String.eqb (binary s) "" || String.eqb (binarySHA256 s) "" then ret tt
  else
    content ← os_ReadFile (binary s);
    fail_if (negb (String.eqb (hex_encode (ce_sha256 content)) (binarySHA256 s)))
      (EText "frpc binary sha256 mismatch").

Definition exec_event (s : Supervisor) (args : list string) (config : string) (w : Local) : Event :=
  EvExec args (f_content <$> l_files w !! binary s) (f_content <$> l_files w !! config).

(** A command that runs to its end; its output and its error. *)
Definition run_command (s : Supervisor) (args : list string) (config : string)
    : C (string * option string) :=
  e ← gets (exec_event s args config); emit e;; draw ce_command.

(** [cmd.Start]; the system never gives out the identifier of a live process. *)
Definition start_process (s : Supervisor) (args : list string) (config : string) : C Z := fun w =>
  match ce_start (l_tick w) with
  | Err t => (Err (EText t), bump w)
  | Ok pid =>
      if bool_decide (is_Some (l_children w !! pid)) then (Err (EText "fork/exec"), bump w)
      else (Ok pid, bump w <| l_children ::= <[pid := false]> |>
                          <| l_events ::= cons (exec_event s args config w) |>)
  end.

(** The process has ended. *)
Definition child_exited (pid : Z) : C unit := modify (fun w => w <| l_children ::= delete pid |>).
Definition send_kill (pid : Z) : C unit :=
  emit (EvSignal pid SigKill);;
  modify (fun w => w <| l_children ::= alter (fun _ => true) pid |>).

Definition verify (s : Supervisor) (path : string) : C unit :=
  fail_if (String.eqb (TrimSpace path) "") (EText "config path is empty");;
  if String.eqb (binary s) "" then ret tt
  else
    verifyBinary s;;
    out ← run_command s ["verify"; "-c"; path]%string path;
    match snd out with
    | None => ret tt
    | Some _ => text ("fixed frpc verify failed: " ++ sanitize (fst out))
    end.

Definition reload (s : Supervisor) : C unit :=
  verifyBinary s;;
  out ← run_command s ["reload"; "-c"; activePath s]%string (activePath s);
  match snd out with
  | None => ret tt
  | Some e => text ("frpc reload failed: " ++ e)
  end.

(** [stopProcess]: SIGINT, two seconds, SIGKILL.  When the [done] value of the
    process was received before, the channel stays empty and only the context
    ends the wait. *)
Definition await_stop (s : Supervisor) (p : Process) : C unit :=
  emit (EvSignal (pr_pid p) SigInterrupt);;
  wait ← draw ce_wait;
  match wait, pr_drained p with
  | DoneInTime, false => child_exited (pr_pid p);; ignore (removePIDIf s (pr_pid p))
  | DoneAfterKill, false =>
      send_kill (pr_pid p);; child_exited (pr_pid p);; ignore (removePIDIf s (pr_pid p))
  | ContextEnded t, _ => send_kill (pr_pid p);; text t
  | _, true => send_kill (pr_pid p);; text "context deadline exceeded"
  end.

Definition stopProcess (s : Supervisor) : C unit :=
  process ← gets (fun w => sm_process (l_sup w));
  set_process None;;
  match process with
  | None => ret tt
  | Some p => await_stop s p
  end.

(** What the goroutine that waits for a process does after the process ended
    (the identity of the process object decides, not its PID). *)
Definition reap (s : Supervisor) (p : Process) : C unit :=
  ignore (removePIDIf s (pr_pid p));;
  current ← gets (fun w => sm_process (l_sup w));
  if bool_decide (pr_id <$> current = Some (pr_id p)) then
    now ← time_now;
    set_process None;;
    set_status (fun st =>
      let st := st <| st_PID := 0 |> in
      if decide (st_State st = Running)
      then st <| st_State := Offline |> <| st_LastError := sanitize "FRPC exited" |>
              <| st_UpdatedAt := now |>
      else st)
  else ret tt.

(** The current process ends on its own. *)
Definition process_exits (s : Supervisor) : C unit :=
  current ← gets (fun w => sm_process (l_sup w));
  match current with
  | Some p => child_exited (pr_pid p);; reap s p
  | None => ret tt
  end.

(** A started process becomes the current one, unless it ends at once. *)
Definition adopt_process (s : Supervisor) (pid : Z) (identity : nat) : C unit :=
  set_process (Some (mkProcess pid identity false));;
  set_status (fun st => st <| st_Mode := Real |> <| st_PID := pid |>);;
  set_sup (fun m => m <| sm_started := true |>);;
  early ← draw ce_early;
  match early with
  | StillRunning => ret tt
  | Exited err reaped =>
      child_exited pid;;
      (if reaped then reap s (mkProcess pid identity false)
       else set_process (Some (mkProcess pid identity true)));;
      text (match err with
            | Some e => "frpc exited during start: " ++ e
            | None => "frpc exited during start"
            end)
  end.

Definition spawn (s : Supervisor) : C unit :=
  identity ← gets l_tick;
  pid ← start_process s ["-c"; activePath s]%string (activePath s);
  r ← attempt (writePID s pid);
  match r with
  | Err e => send_kill pid;; child_exited pid;; text ("write frpc pid: " ++ Error e)
  | Ok _ => adopt_process s pid identity
  end.

Definition restart (s : Supervisor) : C unit :=
  if String.eqb (binary s) "" then
    set_status (fun st => st <| st_Mode := Simulated |> <| st_PID := 0 |>)
  else
    verifyBinary s;;
    stopProcess s;;
    spawn s.

(** ** Applying a configuration *)

Definition sup_fail {A} (message : string) : C A :=
  now ← time_now;
  set_status (fun st => st <| st_State := ConfigError |> <| st_LastError := sanitize message |>
                           <| st_UpdatedAt := now |>);;
  text message.

(** [if err := m; err != nil { return s.fail(message err) }] *)
Definition or_sup_fail (message : ClErr -> string) (m : C unit) : C unit :=
  r ← attempt m;
  match r with
  | Ok _ => ret tt
  | Err e => sup_fail (message e)
  end.

Definition write_secret (s : Supervisor) (nv : string * string) : C unit :=
  atomicWriteDurable (Join [secretDir s; fst nv]) (snd nv ++ newline) mode_private.

Definition writeRuntimeSecrets (s : Supervisor) (snapshot : ClientSnapshot) : C unit :=
  let payload := payload_of snapshot in
  let transportSecret := transport_secret payload in
  let userSecret := user_secret payload in
  let runtimeCredential := payloadString payload "runtime_credential" in
  if String.eqb transportSecret "" || String.eqb userSecret "" || String.eqb runtimeCredential ""
  then text "runtime FRP secrets are incomplete"
  else
    os_MkdirAll;;
    secrets ← gets (fun w => ce_order (l_tick w)
      [("transport-token", transportSecret); ("user-frp-secret", userSecret);
       ("runtime-token", runtimeCredential)]%string);
    for_each secrets (write_secret s).

(** [healthcheck.Check] *)
Definition check_service (proxyType host : string) (port : Z) : C unit :=
  fail_if (String.eqb host "" || (port <? 1) || (65535 <? port)) (EText "invalid local service address");;
  if existsb (String.eqb proxyType) ["tcp"; "udp"; "http"]%string then
    r ← draw ce_dial;
    match r with None => ret tt | Some e => text e end
  else text ("unsupported proxy type " ++ ce_quote proxyType).

Definition checkLocalServices (payload : gmap string JSON) : C unit :=
  match lookup_key payload "mappings" with
  | JArray items =>
      for_each items (fun raw =>
        match raw with
        | JObject item =>
            let proxyType := as_string (field item "proxy_type") in
            let host := as_string (field item "local_ip") in
            let port := as_int (field item "local_port") 0 in
            map_err (fun e => EText (proxyType ++ " " ++ host ++ ":" ++ itoa port ++ ": " ++ Error e))
              (check_service proxyType host port)
        | _ => text "invalid mapping payload"
        end)
  | _ => ret tt
  end.

(** Every field but the mappings is unchanged. *)
Definition same_but_mappings (a b : gmap string JSON) : bool :=
  forallb (fun kv => String.eqb (fst kv) "mappings" ||
                     json_eqb (snd kv) (lookup_key b (fst kv))) (map_to_list a).

Definition reloadEligible (s : Supervisor) (snapshot : ClientSnapshot) (m : SupMemory) : bool :=
  if String.eqb (binary s) "" then false
  else match sm_lastSnapshot m, sm_process m with
       | Some previous, Some _ =>
           String.eqb (cs_UserID previous) (cs_UserID snapshot) &&
           (cs_SessionGeneration previous =? cs_SessionGeneration snapshot) &&
           same_but_mappings (payload_of previous) (payload_of snapshot) &&
           same_but_mappings (payload_of snapshot) (payload_of previous)
       | _, _ => false
       end.

Definition valid_metadata (snapshot : ClientSnapshot) : bool :=
  String.eqb (cs_SchemaVersion snapshot) "v1" && (0 <=? cs_ConfigVersion snapshot) &&
  negb (String.eqb (cs_UserID snapshot) "") && (1 <=? cs_SessionGeneration snapshot).

(** [json.MarshalIndent] of the manifest. *)
Definition manifest_text (snapshot : ClientSnapshot) (now : Stamp) : string :=
  let line k v := ("  " ++ json_string k ++ ": " ++ v)%string in
  ("{" ++ newline ++
   line "applied_at" (json_string (ce_rfc3339 now)) ++ "," ++ newline ++
   line "config_hash" (json_string (cs_ConfigHash snapshot)) ++ "," ++ newline ++
   line "config_version" (itoa (cs_ConfigVersion snapshot)) ++ newline ++ "}")%string.

(** After a failed start or reload: the old file comes back, and with a real
    FRPC the process is started from it again. *)
Definition roll_back (s : Supervisor) (old : res ClErr string) (runErr : ClErr) : C unit :=
  match old with
  | Ok oldConfig =>
      ignore (atomicWriteDurable (activePath s) oldConfig mode_private);;
      if String.eqb (binary s) "" then ret tt
      else
        r ← attempt (restart s);
        match r with
        | Ok _ => ret tt
        | Err e => sup_fail ("FRPC_RESTART_FAILED: " ++ Error runErr ++ "; rollback failed: " ++ Error e)
        end
  | Err _ => ret tt
  end;;
  sup_fail ("FRPC_RESTART_FAILED: " ++ Error runErr).

Definition record_applied (s : Supervisor) (snapshot : ClientSnapshot) : C unit :=
  applied ← time_now;
  ignore os_MkdirAll;;
  ignore (atomicWriteDurable (manifestPath s) (manifest_text snapshot applied) mode_private);;
  now ← time_now;
  set_sup (fun m => m <| sm_lastSnapshot := Some snapshot |>);;
  set_status (fun st => st <| st_State := Running |> <| st_AppliedVersion := cs_ConfigVersion snapshot |>
    <| st_ConfigHash := cs_ConfigHash snapshot |> <| st_LastGoodAvailable := true |>
    <| st_LastError := "" |> <| st_UpdatedAt := now |>).

(** From the verified temporary file to the running configuration. *)
Definition switch_config (s : Supervisor) (snapshot : ClientSnapshot) (tmpPath : string) : C unit :=
  or_sup_fail (fun e => "FRPC_VERIFY_FAILED: " ++ Error e) (verify s tmpPath);;
  oldConfig ← attempt (os_ReadFile (activePath s));
  (match oldConfig with
   | Ok t => ignore (atomicWriteDurable (lastGoodPath s) t mode_private)
   | Err _ => ret tt
   end);;
  or_sup_fail (fun _ => "FRPC_VERIFY_FAILED: atomic replace") (durableRename tmpPath (activePath s));;
  useReload ← gets (fun w => reloadEligible s snapshot (l_sup w));
  runErr ← attempt (if useReload : bool then reload s else restart s);
  match runErr with
  | Err e => roll_back s oldConfig e
  | Ok _ => record_applied s snapshot
  end.

Definition apply (s : Supervisor) (snapshot : ClientSnapshot) : C unit :=
  now ← time_now;
  set_status (fun st => st <| st_State := Applying |> <| st_DesiredVersion := cs_ConfigVersion snapshot |>
                           <| st_LastError := "" |> <| st_UpdatedAt := now |>);;
  if negb (valid_metadata snapshot)
  then sup_fail "FRPC_VERIFY_FAILED: invalid signed config metadata"
  else if negb (frpcVersionAtLeast (frpcVersion s) "0.68.0")
  then sup_fail "FRPC_VERSION_UNSUPPORTED: platform requires FRPC 0.68.0 or newer"
  else
    cancelled ← ctx_err;
    match cancelled with
    | Some e => sup_fail e
    | None =>
        let configText := renderTOMLForVersion snapshot (dataDir s) (frpcVersion s) in
        or_sup_fail (fun e => "FRPC_VERIFY_FAILED: " ++ Error e) (writeRuntimeSecrets s snapshot);;
        (if String.eqb (binary s) "" then ret tt
         else or_sup_fail (fun e => "LOCAL_SERVICE_UNAVAILABLE: " ++ Error e)
                (checkLocalServices (payload_of snapshot)));;
        n ← time_now;
        let tmpPath := configPath s ("frpc.toml.tmp." ++ itoa n) in
        or_sup_fail (fun _ => "FRPC_VERIFY_FAILED: write temporary config"%string)
          (writeDurableFile tmpPath configText mode_private);;
        deferred (os_Remove tmpPath) (switch_config s snapshot tmpPath)
    end.

(** ** Stopping and erasing *)

Definition stop (s : Supervisor) : C unit :=
  r ← attempt (stopProcess s);
  now ← time_now;
  set_status (fun st => st <| st_State := Stopped |> <| st_PID := 0 |>
    <| st_LastGoodAvailable := false |> <| st_UpdatedAt := now |>);;
  match r with
  | Ok _ => ret tt
  | Err e => fail e
  end.

Definition ClearRuntimeSecrets (s : Supervisor) : C unit :=
  for_each [secretDir s; activePath s; lastGoodPath s] os_RemoveAll;;
  set_sup (fun m => m <| sm_lastSnapshot := None |>).

(** ** Recovery *)

Definition clearRecoveredRuntime (s : Supervisor) : C unit :=
  ClearRuntimeSecrets s;;
  manifest ← attempt (os_Stat (manifestPath s));
  now ← time_now;
  set_status (fun st => st <| st_State := Stopped |>
    <| st_Mode := if String.eqb (binary s) "" then Simulated else Real |> <| st_PID := 0 |>
    <| st_LastGoodAvailable := is_ok manifest |> <| st_UpdatedAt := now |>).

(** [filepath.Abs] *)
Definition abs_of (p : string) : option string :=
  if is_rooted p then Some (Clean p) else cwd ← ce_cwd; Some (Join [cwd; p]).
Definition Abs (p : string) : C string := or_fail (EText "getwd") (abs_of p).

Definition processCommandLine (pid : Z) : C string :=
  emit (EvPs pid);;
  out ← draw ce_command;
  match snd out with
  | Some e => text e
  | None => ret (TrimSpace (fst out))
  end.

Definition processAlive : C bool := draw ce_alive.

Definition send_signal (pid : Z) (sig : Signal) : C SignalResult :=
  emit (EvSignal pid sig);; draw ce_signal.

(** The wait of [terminateOrphan]: [n] ticks pass before the context or the
    deadline ends it. *)
Fixpoint await_orphan (s : Supervisor) (pid : Z) (n : nat) : C unit :=
  alive ← processAlive;
  if negb alive then ret tt
  else match n with
  | S n' => await_orphan s pid n'
  | O =>
      wait ← draw ce_orphan;
      match wait with
      | CtxDone e => text e
      | DeadlinePassed =>
          line ← attempt (processCommandLine pid);
          match line with
          | Err e =>
              alive ← processAlive;
              if negb alive then ret tt
              else text ("cannot revalidate orphan frpc pid " ++ itoa pid ++ ": " ++ Error e)
          | Ok commandLine =>
              if processCommandGone commandLine then ret tt
              else
                configuredBinary ← Abs (binary s);
                if negb (Contains commandLine configuredBinary)
                then text ("frpc pid " ++ itoa pid ++ " command changed before force kill: " ++
                           ce_quote commandLine)
                else
                  r ← send_signal pid SigKill;
                  match r with SignalError e => text e | _ => ret tt end
          end
      end
  end.

Definition terminateOrphan (s : Supervisor) (pid : Z) : C unit :=
  r ← send_signal pid SigInterrupt;
  match r with
  | SignalError e =>
      alive ← processAlive;
      if negb alive then ret tt else text e
  | _ => n ← gets (fun w => ce_ticks (l_tick w)); await_orphan s pid n
  end.

Definition forget_orphan (s : Supervisor) (pid : Z) : C unit :=
  removePIDIf s pid;; clearRecoveredRuntime s.

Definition recoverOrphan (s : Supervisor) : C unit :=
  encoded ← attempt (os_ReadFile (pidPath s));
  match encoded with
  | Err (ENotExist _) => clearRecoveredRuntime s
  | Err e => fail e
  | Ok t =>
      match Atoi (TrimSpace t) with
      | None => text "invalid frpc pid marker"
      | Some pid =>
          if pid <? 1 then text "invalid frpc pid marker"
          else if pid =? ce_pid then text "refusing to terminate current client process"
          else if String.eqb (TrimSpace (binary s)) "" then forget_orphan s pid
          else
            line ← attempt (processCommandLine pid);
            match line with
            | Err e =>
                alive ← processAlive;
                if negb alive then forget_orphan s pid
                else text ("cannot inspect orphan frpc pid " ++ itoa pid ++ ": " ++ Error e)
            | Ok commandLine =>
                if processCommandGone commandLine then forget_orphan s pid
                else
                  configuredBinary ← Abs (binary s);
                  if negb (Contains commandLine configuredBinary)
                  then text ("frpc pid " ++ itoa pid ++ " command does not match configured binary")
                  else terminateOrphan s pid;; forget_orphan s pid
            end
      end
  end.

(** ** The queue

    One goroutine runs the operations in the order they were enqueued.  The
    caller waits for the result or for the end of its context; in that case its
    operation stays in the queue. *)

Definition run_op (s : Supervisor) (op : QueueOp) : C unit :=
  match op with
  | QApply snapshot => apply s snapshot
  | QStop => stop s
  | QRecover => recoverOrphan s
  end.

(** The queue works off what nobody waits for any more. *)
Definition drain (s : Supervisor) : C unit :=
  ops ← gets l_pending;
  modify (fun w => w <| l_pending := [] |>);;
  for_each ops (fun op => ignore (run_op s op)).

Definition enqueue (s : Supervisor) (op : QueueOp) : C unit :=
  gives_up ← draw ce_gives_up;
  match gives_up with
  | Some e => modify (fun w => w <| l_pending ::= fun q => (q ++ [op])%list |>);; text e
  | None => drain s;; run_op s op
  end.

Definition Apply (s : Supervisor) (snapshot : ClientSnapshot) : C unit := enqueue s (QApply snapshot).
Definition Stop (s : Supervisor) : C unit := enqueue s QStop.
Definition RecoverOrphan (s : Supervisor) : C unit := enqueue s QRecover.
End Supervisor.

(** [NewWithBinaryHashAndVersion]: the fixed fields, and the first memory. *)
Definition NewSupervisor (dir bin sha version : string) `{UnicodeTables} : Supervisor :=
  mkSupervisor dir bin (ToLower (TrimSpace sha))
    (TrimSpace (if String.eqb (TrimSpace version) "" then "0.68.0" else version)).

Definition new_memory `{ClientEnv} (s : Supervisor) (w : Local) : SupMemory :=
  mkSupMemory
    (mkStatus Stopped (if String.eqb (TrimSpace (binary s)) "" then Simulated else Real) 0 0 0 ""
       (is_ok (fst (os_Stat (manifestPath s) w))) "" (ce_now (S (l_tick w))))
    false None None.
