(* ===== verification/ClientLogic.v ===== *)
(** Reasoning about the client: what its primitive effects do to a relation
    between states, the durable writes, and the paths of the data directory. *)

From S2P Require Import Prelude StateError GoText GoPath GoNet GoJson Timestamps Encoding Client ClientToml Supervisor.
From Stdlib Require Import Ascii String.
Open Scope Z_scope.

(** ** Primitive effects *)

Section Primitives.
Context `{ClientEnv} (R : Local -> Local -> Prop).

Lemma moves_modify f : (forall w, R w (f w)) -> moves R (modify f).
Proof. intros Hf w. apply Hf. Qed.
Lemma moves_gets `{HR : !PreOrder R} {A} (f : Local -> A) : moves R (gets f).
Proof using Type. intros w. reflexivity. Qed.
(** What is read is known to be a value of the observation. *)
Lemma moves_gets_bind {A B} (f : Local -> A) (k : A -> C B) :
  (forall w, moves R (k (f w))) -> moves R (gets f ≫= k).
Proof. intros Hk w. exact (Hk w w). Qed.
Lemma moves_draw {A} (f : nat -> A) : (forall w, R w (bump w)) -> moves R (draw f).
Proof. intros Hf w. apply Hf. Qed.
Lemma moves_disk f :
  (forall w, R w (bump w)) -> (forall w, R w (bump w <| l_files ::= f |>)) -> moves R (disk f).
Proof. intros Hb Hf w. unfold disk. destruct (ce_disk _); [apply Hb|apply Hf]. Qed.
Lemma moves_disk_at path f :
  (forall w, R w (bump w)) ->
  (forall w x, l_files w !! path = Some x -> R w (bump w <| l_files ::= f x |>)) ->
  moves R (disk_at path f).
Proof.
  intros Hb Hf w. unfold disk_at. destruct (ce_disk _); [apply Hb|].
  destruct (l_files w !! path) eqn:E; [by apply Hf|apply Hb].
Qed.
Lemma moves_read path : (forall w, R w (bump w)) -> moves R (os_ReadFile path).
Proof. intros Hb w. unfold os_ReadFile. destruct (ce_disk _); [apply Hb|]. by destruct (l_files w !! path); apply Hb. Qed.
Lemma moves_write path content :
  (forall w text, R w (bump w <| l_files ::= alter (fun x => mkFile (f_content x ++ text) (f_mode x)) path |>)) ->
  moves R (file_Write path content).
Proof. intros Hf w. unfold file_Write. destruct (ce_disk _); apply Hf. Qed.
Lemma moves_start s args config :
  (forall w, R w (bump w)) ->
  (forall w pid, R w (bump w <| l_children ::= <[pid := false]> |>
                        <| l_events ::= cons (exec_event s args config w) |>)) ->
  moves R (start_process s args config).
Proof.
  intros Hb Hf w. unfold start_process. destruct (ce_start _); [|apply Hb].
  case_bool_decide; [apply Hb|apply Hf].
Qed.
Lemma moves_run_command `{HR : !PreOrder R} s args config :
  (forall w, R w (w <| l_events ::= cons (exec_event s args config w) |>)) -> (forall w, R w (bump w)) ->
  moves R (run_command s args config).
Proof using Type.
  intros He Hb w. unfold run_command. etrans; [apply He|apply Hb].
Qed.
End Primitives.

(** Effects that cannot fail. *)
Section Total.
Context `{ClientEnv}.

Lemma hoare_modify P f (Q : unit -> Local -> Prop) F :
  (forall w, P w -> Q tt (f w)) -> hoare P (modify f) Q F.
Proof. intros Hf w Hw. by apply Hf. Qed.
Lemma hoare_gets {A} P (f : Local -> A) (Q : A -> Local -> Prop) F :
  (forall w, P w -> Q (f w) w) -> hoare P (gets f) Q F.
Proof. intros Hf w Hw. by apply Hf. Qed.
Lemma hoare_draw {A} P (f : nat -> A) (Q : A -> Local -> Prop) F :
  (forall w, P w -> Q (f (l_tick w)) (bump w)) -> hoare P (draw f) Q F.
Proof. intros Hf w Hw. by apply Hf. Qed.
Lemma hoare_text {A} P t (Q : A -> Local -> Prop) F : (forall w, P w -> F w) -> hoare P (text t) Q F.
Proof. intros Hf w Hw. by apply Hf. Qed.
End Total.

(** Side conditions of the primitives: the relation does not look at what the
    effect changes. *)
Ltac move_prim :=
  match goal with
  | |- moves _ (modify _) => apply moves_modify; intros ?
  | |- moves _ (gets _) => apply moves_gets; typeclasses eauto
  | |- moves _ (draw _) => apply moves_draw; intros ?
  | |- moves _ (disk _) => apply moves_disk; intros ?
  | |- moves _ (disk_at _ _) => apply moves_disk_at; intros ? **
  | |- moves _ (os_ReadFile _) => apply moves_read; intros ?
  | |- moves _ (file_Write _ _) => apply moves_write; intros ? ?
  | |- moves _ (run_command _ _ _) => apply moves_run_command; [typeclasses eauto|intros ?..]
  | |- moves _ (start_process _ _ _) => apply moves_start; intros ? **
  | |- moves _ (deferred _ _) => apply moves_deferred; [typeclasses eauto|..]
  end.

(** The whole supervisor, but the operations listed in the database [moves]. *)
Ltac unfold_prim :=
  match goal with
  | |- moves _ (text _) => unfold text
  | |- moves _ time_now => unfold time_now
  | |- moves _ ctx_err => unfold ctx_err
  | |- moves _ processAlive => unfold processAlive
  | |- moves _ (emit _) => unfold emit
  | |- moves _ (set_sup _) => unfold set_sup
  | |- moves _ (set_status _) => unfold set_status, set_sup
  | |- moves _ (set_process _) => unfold set_process, set_sup
  | |- moves _ (child_exited _) => unfold child_exited
  | |- moves _ os_MkdirAll => unfold os_MkdirAll
  | |- moves _ (os_Stat _) => unfold os_Stat
  | |- moves _ (os_Remove _) => unfold os_Remove
  | |- moves _ (os_Rename _ _) => unfold os_Rename
  | |- moves _ (os_RemoveAll _) => unfold os_RemoveAll
  | |- moves _ (open_trunc _ _) => unfold open_trunc
  | |- moves _ file_sync => unfold file_sync
  | |- moves _ file_close => unfold file_close
  | |- moves _ open_dir => unfold open_dir
  | |- moves _ (file_Chmod _ _) => unfold file_Chmod
  | |- moves _ (or_close _) => unfold or_close
  | |- moves _ (sup_fail _) => unfold sup_fail
  | |- moves _ (or_sup_fail _ _) => unfold or_sup_fail
  | |- moves _ (send_kill _) => unfold send_kill
  | |- moves _ (send_signal _ _) => unfold send_signal
  end.
Ltac run_moves := repeat first [ solve [eauto 3 with moves nocore typeclass_instances] | move_step | move_prim | unfold_prim ];
  try solve [unfold same; reflexivity].

(** ** What no supervisor operation looks at *)

Section Frames.
Context `{ClientEnv} {O : Type} (f : Local -> O).

(** [quiet]: the observation sees neither the clock nor the files. *)
Class Quiet : Prop := {
  quiet_bump w : f (bump w) = f w;
  quiet_files w g : f (bump w <| l_files ::= g |>) = f w
}.
Context `{Q : !Quiet}.

Lemma quiet_disk g : moves (same f) (disk g).
Proof using Q. apply moves_disk; intros w; [apply quiet_bump|apply quiet_files]. Qed.
Lemma quiet_disk_at p g : moves (same f) (disk_at p g).
Proof using Q. apply moves_disk_at; intros w **; [apply quiet_bump|apply quiet_files]. Qed.
Lemma quiet_read p : moves (same f) (os_ReadFile p).
Proof using Q. apply moves_read; intros w; apply quiet_bump. Qed.
Lemma quiet_write p t : moves (same f) (file_Write p t).
Proof using Q. apply moves_write; intros w u; apply quiet_files. Qed.
Lemma quiet_draw {A} (g : nat -> A) : moves (same f) (draw g).
Proof using Q. apply moves_draw; intros w; apply quiet_bump. Qed.
End Frames.
#[export] Hint Resolve quiet_disk quiet_disk_at quiet_read quiet_write quiet_draw : moves.
#[export] Hint Extern 2 (Quiet _) => (constructor; reflexivity) : typeclass_instances.

Section Durable.
Context `{ClientEnv} {O : Type} (f : Local -> O) `{Q : !Quiet f}.

Lemma quiet_atomic p t m : moves (same f) (atomicWriteDurable p t m).
Proof using Q.
  unfold atomicWriteDurable, writeDurableFile, durableRename, time_now. run_moves.
Qed.
Lemma quiet_writeDurable p t m : moves (same f) (writeDurableFile p t m).
Proof using Q. unfold writeDurableFile. run_moves. Qed.
Lemma quiet_rename a b : moves (same f) (durableRename a b).
Proof using Q. unfold durableRename. run_moves. Qed.
Lemma quiet_removePIDIf s pid : moves (same f) (removePIDIf s pid).
Proof using Q. unfold removePIDIf. run_moves. Qed.
Lemma quiet_verifyBinary s : moves (same f) (verifyBinary s).
Proof using Q. unfold verifyBinary. run_moves. Qed.
End Durable.
#[export] Hint Resolve quiet_atomic quiet_writeDurable quiet_rename quiet_removePIDIf quiet_verifyBinary : moves.

(** ** Which files change *)

(** The files outside [P] stay as they are. *)
Definition untouched (P : string -> Prop) : Local -> Local -> Prop := fun w w' =>
  forall p, ~ P p -> l_files w' !! p = l_files w !! p.

#[export] Instance untouched_preorder P : PreOrder (untouched P).
Proof. split; [by intros w p _|]. intros w1 w2 w3 H1 H2 p Hp. by rewrite H2, H1. Qed.

Lemma untouched_weaken (P Q : string -> Prop) {A} (m : C A) :
  (forall p, P p -> Q p) -> moves (untouched P) m -> moves (untouched Q) m.
Proof. intros HPQ Hm w p Hp. apply Hm. naive_solver. Qed.

(** The file and the temporary files beside it. *)
Definition own_file (path p : string) : Prop := p = path \/ HasPrefix p (path ++ ".tmp.") = true.


Lemma length_append (a b : string) :
  String.length (a ++ b) = (String.length a + String.length b)%nat.
Proof. induction a as [|c a IH]; [done|]. exact (f_equal S IH). Qed.

Section Files.
Context `{ClientEnv}.
Implicit Types (P : string -> Prop) (path content : string).

Lemma untouched_disk P f :
  (forall fs p, ~ P p -> f fs !! p = fs !! p) -> moves (untouched P) (disk f).
Proof. intros Hf. apply moves_disk; intros w p Hp; [done|]. by apply Hf. Qed.
Lemma untouched_disk_at P path f :
  (forall x fs p, ~ P p -> f x fs !! p = fs !! p) -> moves (untouched P) (disk_at path f).
Proof. intros Hf. apply moves_disk_at; intros w **; intros p Hp; [done|]. by apply Hf. Qed.
Lemma untouched_read P path : moves (untouched P) (os_ReadFile path).
Proof. apply moves_read. by intros w p Hp. Qed.
Lemma untouched_write P path t : P path -> moves (untouched P) (file_Write path t).
Proof. intros HP. apply moves_write. intros w u p Hp. apply lookup_alter_ne. naive_solver. Qed.

Ltac touch := solve [intros; rewrite ?lookup_insert_ne, ?lookup_delete_ne, ?lookup_alter_ne by naive_solver; done].

Lemma untouched_writeDurable P path content mode :
  P path -> moves (untouched P) (writeDurableFile path content mode).
Proof.
  intros HP. unfold writeDurableFile, or_close.
  repeat first [apply untouched_write; done | apply untouched_disk; touch | move_step | unfold_prim ].
Qed.

Lemma untouched_rename P a b : P a -> P b -> moves (untouched P) (durableRename a b).
Proof.
  intros Ha Hb. unfold durableRename, os_Rename.
  repeat first [apply untouched_disk_at; touch | apply untouched_disk; touch | move_step
    | move_prim | unfold_prim ].
Qed.

Lemma untouched_Remove P a : P a -> moves (untouched P) (os_Remove a).
Proof. intros Ha. apply untouched_disk_at. touch. Qed.

Lemma untouched_atomic path content mode :
  moves (untouched (own_file path)) (atomicWriteDurable path content mode).
Proof.
  unfold atomicWriteDurable, time_now. move_step; [by apply moves_draw|]. cbv zeta.
  assert (own_file path (path ++ ".tmp." ++ itoa a)) as Htmp.
  { right. rewrite <- append_assoc. apply HasPrefix_append. }
  apply moves_deferred; [typeclasses eauto|by apply untouched_Remove|].
  move_step; [by apply untouched_writeDurable|]. apply untouched_rename; [done|by left].
Qed.

(** *** The result of a durable write *)

Lemma disk_run f w r w' :
  disk f w = (r, w') -> match r with
                        | Ok _ => w' = bump w <| l_files ::= f |>
                        | Err _ => w' = bump w
                        end.
Proof. unfold disk. destruct (ce_disk _); by intros [= <- <-]. Qed.

Lemma or_close_Ok m u w w' : or_close m w = (Ok u, w') -> exists v, m w = (Ok v, w').
Proof.
  unfold or_close. intros (r & w1 & E1 & E2)%bind_Ok. apply (proj1 (attempt_Ok _ _ _ _)) in E1.
  destruct r as [v|e].
  - apply (ret_Ok (E := ClErr)) in E2 as [_ ->]. by exists v.
  - apply bind_Ok in E2 as (? & ? & _ & E2). by apply fail_Ok in E2.
Qed.

Lemma disk_Ok f u w w' : disk f w = (Ok u, w') -> w' = bump w <| l_files ::= f |>.
Proof. apply disk_run. Qed.

Lemma write_Ok path t u w w' :
  file_Write path t w = (Ok u, w') ->
  w' = bump w <| l_files ::= alter (fun x => mkFile (f_content x ++ t) (f_mode x)) path |>.
Proof. unfold file_Write. destruct (ce_disk _); by intros [= _ <-]. Qed.

(** A write that reports success has replaced the whole file. *)
Lemma writeDurable_Ok path content mode u w w' :
  writeDurableFile path content mode w = (Ok u, w') ->
  l_files w' !! path = Some (mkFile content mode).
Proof.
  unfold writeDurableFile. intros (? & w1 & E1 & E)%bind_Ok. apply disk_Ok in E1.
  apply bind_Ok in E as (? & w2 & E2 & E). apply disk_Ok in E2.
  apply bind_Ok in E as (? & w3 & (? & E3)%or_close_Ok & E). apply write_Ok in E3.
  apply bind_Ok in E as (? & w4 & (? & E4)%or_close_Ok & E). apply disk_Ok in E4.
  apply bind_Ok in E as (? & w5 & (? & E5)%or_close_Ok & E). apply disk_Ok in E5.
  apply disk_Ok in E. subst. simpl. rewrite lookup_alter_eq, lookup_alter_eq, lookup_insert_eq.
  by destruct (l_files w !! path).
Qed.

(** A renaming either happened or changed nothing; success means it happened. *)
Lemma rename_run a b r w w' :
  durableRename a b w = (r, w') ->
  (exists x, l_files w !! a = Some x /\ l_files w' = <[b := x]> (delete a (l_files w))) \/
  (l_files w' = l_files w /\ is_ok r = false).
Proof.
  unfold durableRename, os_Rename. unfold mbind at 1, M_bind at 1, bind at 1.
  destruct (disk_at a _ w) as [[u|e] w1] eqn:E1; unfold disk_at in E1;
    destruct (ce_disk (l_tick w)); simplify_eq; [|by intros [= <- <-]; right|];
    destruct (l_files w !! a) as [x|] eqn:Ex; simplify_eq; [|by intros [= <- <-]; right].
  intros E2. left. exists x. split; [done|].
  match type of E2 with ?m ?w1 = _ =>
    assert (moves (untouched (fun _ => False)) m) as Hm end.
  { move_step; [by apply untouched_disk|]. apply moves_deferred; [typeclasses eauto|..];
      by apply untouched_disk. }
  match type of E2 with ?m ?w1 = _ => specialize (Hm w1); rewrite E2 in Hm end.
  apply map_eq. intros p. exact (Hm p (fun F => F)).
Qed.

(** [atomicWriteDurable]: all or nothing. *)
Lemma atomic_run path content mode r w w' :
  atomicWriteDurable path content mode w = (r, w') ->
  l_files w' !! path = Some (mkFile content mode) \/
  (l_files w' !! path = l_files w !! path /\ is_ok r = false).
Proof.
  set (tmp := (path ++ ".tmp." ++ itoa (ce_now (l_tick w)))%string).
  change (deferred (os_Remove tmp) (writeDurableFile tmp content mode;; durableRename tmp path) (bump w)
    = (r, w') -> l_files w' !! path = Some (mkFile content mode) \/
       (l_files w' !! path = l_files w !! path /\ is_ok r = false)).
  assert (path <> tmp) as Hne.
  { unfold tmp. intros E. apply (f_equal String.length) in E. rewrite length_append in E. simpl in E. lia. }
  unfold deferred.
  destruct ((writeDurableFile tmp content mode;; durableRename tmp path) (bump w)) as [r0 w2] eqn:E2.
  intros [= <- <-].
  pose proof (untouched_Remove (eq tmp) tmp eq_refl w2 path (not_eq_sym Hne)) as Hrm.
  rewrite Hrm. clear Hrm. unfold mbind, M_bind, bind in E2.
  pose proof (untouched_writeDurable (eq tmp) tmp content mode eq_refl (bump w) path (not_eq_sym Hne)) as Hw.
  destruct (writeDurableFile tmp content mode (bump w)) as [[u|e] w1] eqn:E1; simplify_eq; [|by right].
  apply writeDurable_Ok in E1. simpl in Hw.
  apply rename_run in E2 as [(x & Hx & ->)|[-> Hr]]; [left|by right].
  rewrite lookup_insert_eq. congruence.
Qed.

(** Without a failing system call the renaming and the write happen. *)
Lemma disk_total f w : (forall n, ce_disk n = None) -> disk f w = (Ok tt, bump w <| l_files ::= f |>).
Proof. intros Hd. unfold disk. by rewrite Hd. Qed.

Lemma rename_total a b x w :
  (forall n, ce_disk n = None) -> l_files w !! a = Some x -> is_ok (fst (durableRename a b w)) = true.
Proof.
  intros Hd Hx. unfold durableRename, os_Rename.
  erewrite bind_run; [|unfold disk_at; rewrite Hd, Hx; reflexivity].
  unfold open_dir. erewrite bind_run; [|by apply disk_total]. unfold deferred, file_sync. by rewrite disk_total.
Qed.

Lemma writeDurable_total path content mode w :
  (forall n, ce_disk n = None) -> is_ok (fst (writeDurableFile path content mode w)) = true.
Proof.
  intros Hd. assert (forall m v w', m v = (Ok tt, w') -> or_close m v = (Ok tt, w')) as Hclose.
  { intros m v w' E. unfold or_close, attempt, mbind, M_bind, bind. by rewrite E. }
  unfold writeDurableFile, os_MkdirAll, open_trunc, file_sync, file_Chmod, file_close.
  erewrite bind_run; [|by apply disk_total]. erewrite bind_run; [|by apply disk_total].
  erewrite bind_run; [|apply Hclose; unfold file_Write; rewrite Hd; reflexivity].
  erewrite bind_run; [|by apply Hclose, disk_total]. erewrite bind_run; [|by apply Hclose, disk_total].
  by rewrite disk_total.
Qed.

Lemma atomic_total path content mode w :
  (forall n, ce_disk n = None) -> is_ok (fst (atomicWriteDurable path content mode w)) = true.
Proof.
  intros Hd. set (tmp := (path ++ ".tmp." ++ itoa (ce_now (l_tick w)))%string).
  change (is_ok (fst (deferred (os_Remove tmp) (writeDurableFile tmp content mode;; durableRename tmp path) (bump w))) = true).
  unfold deferred. pose proof (writeDurable_total tmp content mode (bump w) Hd) as Hw.
  destruct (writeDurableFile tmp content mode (bump w)) as [[[]|e] w1] eqn:E1; [|done].
  rewrite (bind_run _ _ _ _ _ E1). pose proof (writeDurable_Ok _ _ _ _ _ _ E1) as Ht.
  pose proof (rename_total tmp path _ w1 Hd Ht) as Hr. by destruct (durableRename tmp path w1).
Qed.
End Files.

(** ** The data directory

    Every path of the supervisor is the directory's prefix and a fixed name;
    the names below are not prefixes of one another. *)

Lemma HasPrefix_trans p a b : HasPrefix p (a ++ b) = true -> HasPrefix p a = true.
Proof.
  revert p. induction a as [|c a IH]; intros p; [by destruct p|].
  change (String c a ++ b)%string with (String c (a ++ b)). destruct p as [|d p]; [done|].
  simpl. intros [-> Hp]%andb_true_iff. simpl. by apply IH.
Qed.

Lemma HasPrefix_conflict d p a b :
  HasPrefix p (d ++ a) = true -> HasPrefix p (d ++ b) = true -> HasPrefix a b || HasPrefix b a = true.
Proof.
  revert p. induction d as [|c d IH]; intros p.
  - change ("" ++ a)%string with a. change ("" ++ b)%string with b. revert a b.
    induction p as [|c p IHp]; intros [|x a] [|y b]; try done. simpl.
    intros [->%Ascii.eqb_eq Ha]%andb_true_iff [->%Ascii.eqb_eq Hb]%andb_true_iff.
    rewrite Ascii.eqb_refl. simpl. by apply IHp.
  - change (String c d ++ a)%string with (String c (d ++ a)).
    change (String c d ++ b)%string with (String c (d ++ b)).
    destruct p as [|e p]; [done|]. simpl. intros [_ Ha]%andb_true_iff [_ Hb]%andb_true_iff. by apply (IH p).
Qed.

Lemma HasPrefix_append_refl p : HasPrefix p p = true.
Proof. pose proof (HasPrefix_append p "") as Hp. by rewrite append_empty_r in Hp. Qed.

Lemma own_file_prefix path p : own_file path p -> HasPrefix p path = true.
Proof.
  intros [->|Hp]; [apply HasPrefix_append_refl|by eapply HasPrefix_trans].
Qed.

Section Directory.
Context (s : Supervisor).

Definition area (name p : string) : Prop := HasPrefix p (dir_prefix (dataDir s) ++ name) = true.

Definition active_area := area "config/frpc.toml".
Definition good_area := area "config/frpc.last-good.toml".
Definition manifest_area := area "state/last-good-manifest.json".
Definition pid_area := area "state/frpc.pid".
Definition secret_area := area "runtime/secrets".

Lemma area_disjoint a b p : HasPrefix a b || HasPrefix b a = false -> area a p -> ~ area b p.
Proof. unfold area. intros Hab Ha Hb. pose proof (HasPrefix_conflict _ _ _ _ Ha Hb). congruence. Qed.

Lemma area_refl name : area name (dir_prefix (dataDir s) ++ name).
Proof. apply HasPrefix_append_refl. Qed.

Lemma area_self name p : area name (dir_prefix (dataDir s) ++ name ++ p).
Proof. unfold area. rewrite <- append_assoc. apply HasPrefix_append. Qed.
End Directory.

Ltac plain := split_and!; [done..|vm_compute; reflexivity].
Ltac plains := repeat (apply Forall_cons; split; [plain|]); apply Forall_nil; exact I.

Lemma digits_no_slash base fuel v acc :
  forallb_str (fun a => negb (Ascii.eqb a "/")) acc = true -> 2 <= base <= 16 ->
  forallb_str (fun a => negb (Ascii.eqb a "/")) (digits_str base fuel v acc) = true.
Proof.
  revert v acc. induction fuel as [|fuel IH]; intros v acc Hacc Hb; [done|]. simpl.
  assert (forall d, 0 <= d < 16 ->
    negb (Ascii.eqb (if d <? 10 then ascii_of_nat (Z.to_nat (48 + d)) else ascii_of_nat (Z.to_nat (87 + d))) "/") = true) as Hd.
  { intros d Hd. rewrite <- (Z2Nat.id d) by lia.
    assert (Z.to_nat d < 16)%nat as Hn by lia. revert Hn. generalize (Z.to_nat d) as n. intros n Hn.
    do 16 (destruct n as [|n]; [reflexivity|]). lia. }
  assert (0 <= v mod base < 16) as Hm by (pose proof (Z.mod_pos_bound v base); lia).
  destruct (v <? base); [|apply IH; [|done]]; cbn [forallb_str]; by rewrite (Hd _ Hm), Hacc.
Qed.

Lemma itoa_no_slash v : forallb_str (fun a => negb (Ascii.eqb a "/")) (itoa v) = true.
Proof. unfold itoa. destruct (v <? 0); [cbn [forallb_str]|]; by rewrite digits_no_slash. Qed.

Section Paths.
Context (s : Supervisor) (Hdir : dataDir s <> ""%string).
Abbreviation D := (dir_prefix (dataDir s)).

Lemma configPath_eq name :
  plain_name name -> configPath s name = (D ++ "config/" ++ name)%string.
Proof using Hdir.
  intros Hn. unfold configPath.
  rewrite Join_Join; [done|done|done|done|plains|].
  apply Forall_cons; by split.
Qed.

Lemma activePath_eq : activePath s = (D ++ "config/frpc.toml")%string.
Proof using Hdir. unfold activePath. rewrite configPath_eq; [done|plain]. Qed.
Lemma lastGoodPath_eq : lastGoodPath s = (D ++ "config/frpc.last-good.toml")%string.
Proof using Hdir. unfold lastGoodPath. rewrite configPath_eq; [done|plain]. Qed.
Lemma manifestPath_eq : manifestPath s = (D ++ "state/last-good-manifest.json")%string.
Proof using Hdir. unfold manifestPath. rewrite Join_names; [done|done|done|plains]. Qed.
Lemma pidPath_eq : pidPath s = (D ++ "state/frpc.pid")%string.
Proof using Hdir. unfold pidPath. rewrite Join_names; [done|done|done|plains]. Qed.
Lemma secretDir_eq : secretDir s = (D ++ "runtime/secrets")%string.
Proof using Hdir. unfold secretDir. rewrite Join_names; [done|done|done|plains]. Qed.
Lemma secretPath_eq name :
  plain_name name -> Join [secretDir s; name] = (D ++ "runtime/secrets/" ++ name)%string.
Proof using Hdir.
  intros Hn. unfold secretDir. rewrite (Join_Join (dataDir s) ["runtime"; "secrets"] [name])%string;
    [done|done|done|done|plains|]. apply Forall_cons; by split.
Qed.

Lemma tmpPath_plain n : plain_name ("frpc.toml.tmp." ++ itoa n)%string.
Proof using Type.
  split_and!; [done..|].
  change (forallb_str (fun a => negb (Ascii.eqb a "/")) (itoa n) = true). apply itoa_no_slash.
Qed.

Lemma tmpPath_eq n :
  configPath s ("frpc.toml.tmp." ++ itoa n) = (D ++ "config/frpc.toml" ++ ".tmp." ++ itoa n)%string.
Proof using Hdir. rewrite configPath_eq by apply tmpPath_plain. done. Qed.

Lemma own_area path name p : path = (D ++ name)%string -> own_file path p -> area s name p.
Proof using Type. intros -> Hp. by apply own_file_prefix in Hp. Qed.
End Paths.
