(* ===== verification/SupervisorSpec.v ===== *)
(** What the supervisor guarantees: the configuration FRPC reads is never torn
    and a failed change leaves the last good one in force; only the verified
    binary is run, and at most one process of it; a process is signalled only
    if it is the client's own; stopping erases the runtime secrets. *)

From S2P Require Import Prelude StateError GoText GoPath GoNet GoJson Timestamps Encoding Client ClientToml Supervisor ClientLogic.
From Stdlib Require Import Ascii String.
Open Scope Z_scope.

(** ** Frames: which files an operation writes *)

Section Frames.
Context `{ClientEnv} (s : Supervisor) (Hdir : dataDir s <> ""%string).

Ltac files := run_moves; try (by intros ? ?).

Lemma untouched_area P name path content mode :
  (forall p, area s name p -> P p) -> path = (dir_prefix (dataDir s) ++ name)%string ->
  moves (untouched P) (atomicWriteDurable path content mode).
Proof using Type.
  intros HP Hpath. eapply untouched_weaken; [|apply untouched_atomic].
  intros p Hp. apply HP. by eapply own_area.
Qed.

Lemma untouched_removePIDIf pid : moves (untouched (pid_area s)) (removePIDIf s pid).
Proof using Hdir.
  unfold removePIDIf. files.
  intros p Hp. apply lookup_delete_ne. intros <-. apply Hp.
  rewrite pidPath_eq by done. apply area_refl.
Qed.
Lemma untouched_writePID pid : moves (untouched (pid_area s)) (writePID s pid).
Proof using Hdir. eapply untouched_area; [by intros|by apply pidPath_eq]. Qed.

Lemma untouched_verifyBinary P : moves (untouched P) (verifyBinary s).
Proof using Type. unfold verifyBinary. files. Qed.
Lemma untouched_verify P path : moves (untouched P) (verify s path).
Proof using Type. unfold verify. files. all: by apply untouched_verifyBinary. Qed.

#[local] Hint Resolve untouched_removePIDIf untouched_writePID untouched_verifyBinary untouched_verify : moves.

Lemma untouched_reap p : moves (untouched (pid_area s)) (reap s p).
Proof using Hdir. unfold reap. files. Qed.
Lemma untouched_stopProcess : moves (untouched (pid_area s)) (stopProcess s).
Proof using Hdir. unfold stopProcess, await_stop. files. Qed.
#[local] Hint Resolve untouched_reap untouched_stopProcess : moves.
Lemma untouched_spawn : moves (untouched (pid_area s)) (spawn s).
Proof using Hdir. unfold spawn, adopt_process. files. Qed.
#[local] Hint Resolve untouched_spawn : moves.
Lemma untouched_restart : moves (untouched (pid_area s)) (restart s).
Proof using Hdir. unfold restart. files. Qed.
Lemma untouched_reload P : moves (untouched P) (reload s).
Proof using Type. unfold reload. files. Qed.
Lemma untouched_sup_fail P {A} t : moves (untouched P) (sup_fail (A := A) t).
Proof using Type. unfold sup_fail. files. Qed.
Lemma untouched_checkLocal P payload : moves (untouched P) (checkLocalServices payload).
Proof using Type. unfold checkLocalServices, check_service. files. Qed.

Lemma untouched_writeRuntimeSecrets snapshot :
  moves (untouched (secret_area s)) (writeRuntimeSecrets s snapshot).
Proof using Hdir.
  unfold writeRuntimeSecrets. cbv zeta. case_match; [files|]. move_step; [files|].
  apply moves_gets_bind. intros w.
  apply moves_for_each_in; [typeclasses eauto|]. intros nv Hin. rewrite ce_order_perm in Hin.
  assert (plain_name (fst nv)) as Hpl.
  { rewrite !elem_of_cons, elem_of_nil in Hin.
    destruct Hin as [->|[->|[->|[]]]]; plain. }
  eapply untouched_area; [|by rewrite secretPath_eq].
  intros p Hp. eapply (HasPrefix_trans _ _ ("/" ++ fst nv)). rewrite append_assoc. exact Hp.
Qed.

Lemma untouched_or_sup_fail P f m : moves (untouched P) m -> moves (untouched P) (or_sup_fail f m).
Proof using Type. intros Hm. unfold or_sup_fail. files. Qed.

Lemma untouched_record snapshot : moves (untouched (manifest_area s)) (record_applied s snapshot).
Proof using Hdir.
  unfold record_applied. files.
  all: eapply untouched_area; [by intros|by apply manifestPath_eq].
Qed.
End Frames.
#[export] Hint Resolve untouched_verifyBinary untouched_verify untouched_reload untouched_sup_fail
  untouched_checkLocal : moves.

(** ** The configuration is never torn *)

Section Whole.
Context `{ClientEnv} (s : Supervisor) (Hdir : dataDir s <> ""%string).

(** The bytes of the file FRPC reads. *)
Definition active_config (w : Local) : option string := f_content <$> l_files w !! activePath s.

Context (orig : option string) (rendered : string).

Definition old_or_new (w : Local) : Prop :=
  active_config w = orig \/ active_config w = Some rendered.

(** ... and the temporary file holds the new configuration, if anything. *)
Definition switching (tmp : string) (w : Local) : Prop :=
  old_or_new w /\ forall x, l_files w !! tmp = Some x -> f_content x = rendered.

Lemma active_config_untouched P {A} (m : C A) w :
  moves (untouched P) m -> ~ P (activePath s) -> active_config (snd (m w)) = active_config w.
Proof using Type. intros Hm HP. unfold active_config. by rewrite (Hm w). Qed.

Lemma outside_keeps P {A} (m : C A) :
  moves (untouched P) m -> ~ P (activePath s) -> moves (keeping old_or_new) m.
Proof using Type.
  intros Hm HP w. unfold keeping, old_or_new. by rewrite (active_config_untouched _ _ _ Hm HP).
Qed.

Lemma outside_keeps_switching P {A} tmp (m : C A) :
  moves (untouched P) m -> ~ P (activePath s) -> ~ P tmp -> moves (keeping (switching tmp)) m.
Proof using Type.
  intros Hm HP Htmp w [Hw1 Hw2]. split; [by eapply outside_keeps|].
  by rewrite (Hm w tmp Htmp).
Qed.

(** Reading the file: what is read is one of the two. *)
Lemma read_active_leads {B} (P Q : Local -> Prop) (k : res ClErr string -> C B) :
  (forall w, P w -> old_or_new w) -> (forall w, P w -> P (bump w)) ->
  (forall t, Some t = orig \/ t = rendered -> leads P Q (k (Ok t))) ->
  (forall e, leads P Q (k (Err e))) ->
  leads P Q (attempt (os_ReadFile (activePath s)) ≫= k).
Proof using Type.
  intros HP Hb Hok Herr w Hw. unfold mbind, M_bind, bind, attempt, os_ReadFile.
  destruct (ce_disk (l_tick w)); [by apply Herr, Hb|].
  destruct (l_files w !! activePath s) as [x|] eqn:E; [|by apply Herr, Hb].
  apply Hok; [|by apply Hb]. apply HP in Hw. unfold old_or_new, active_config in Hw. rewrite E in Hw.
  simpl in Hw. destruct Hw as [<-|[= ->]]; auto.
Qed.

Lemma not_active name :
  HasPrefix name "config/frpc.toml" || HasPrefix "config/frpc.toml" name = false ->
  ~ area s name (activePath s).
Proof using Hdir.
  intros Hn Ha. eapply area_disjoint; [exact Hn|exact Ha|]. rewrite activePath_eq by done. apply area_refl.
Qed.

Lemma not_tmp name n :
  HasPrefix name "config/frpc.toml" || HasPrefix "config/frpc.toml" name = false ->
  ~ area s name (configPath s ("frpc.toml.tmp." ++ itoa n)).
Proof using Hdir.
  intros Hn Ha. eapply area_disjoint; [exact Hn|exact Ha|]. rewrite tmpPath_eq by done. apply area_self.
Qed.

Lemma tmp_not_active n : configPath s ("frpc.toml.tmp." ++ itoa n) <> activePath s.
Proof using Hdir.
  rewrite tmpPath_eq, activePath_eq by done. intros E%append_inj_l. discriminate E.
Qed.

(** Rewriting the file with one of the two contents keeps it whole. *)
Lemma rewrite_keeps t m :
  (Some t = orig \/ t = rendered) -> moves (keeping old_or_new) (atomicWriteDurable (activePath s) t m).
Proof using Type.
  intros Ht w Hw. destruct (atomicWriteDurable _ t m w) as [r w'] eqn:E. simpl.
  apply atomic_run in E. unfold old_or_new, active_config in *.
  destruct E as [->|[-> _]]; [simpl; naive_solver|done].
Qed.

Ltac outside lemma := eapply outside_keeps; [apply lemma; done|by apply not_active].

Lemma restart_keeps : moves (keeping old_or_new) (restart s).
Proof using Hdir. outside untouched_restart. Qed.
Lemma reload_keeps : moves (keeping old_or_new) (reload s).
Proof using Type. by eapply (outside_keeps (fun _ => False)); [apply untouched_reload|intros []]. Qed.
Lemma sup_fail_keeps {A} t : moves (keeping old_or_new) (sup_fail (A := A) t).
Proof using Type. by eapply (outside_keeps (fun _ => False)); [apply untouched_sup_fail|intros []]. Qed.
Lemma record_keeps snapshot : moves (keeping old_or_new) (record_applied s snapshot).
Proof using Hdir. outside untouched_record. Qed.
#[local] Hint Resolve restart_keeps reload_keeps sup_fail_keeps record_keeps rewrite_keeps : moves.

Lemma roll_back_keeps old e :
  (forall t, old = Ok t -> Some t = orig \/ t = rendered) ->
  moves (keeping old_or_new) (roll_back s old e).
Proof using Hdir.
  intros Hold. unfold roll_back. destruct old as [t|e']; run_moves. apply rewrite_keeps. by apply Hold.
Qed.

Lemma rename_leads tmp :
  tmp <> activePath s -> leads (switching tmp) old_or_new (durableRename tmp (activePath s)).
Proof using Type.
  intros Hne w [Hw Htmp]. destruct (durableRename _ _ w) as [r w'] eqn:Er. simpl.
  apply rename_run in Er as [(x & Hx & E)|[E _]]; unfold old_or_new, active_config in *; rewrite E; [|done].
  rewrite lookup_insert_eq. right. simpl. by rewrite (Htmp x Hx).
Qed.

Lemma switching_old tmp w : switching tmp w -> old_or_new w.
Proof using Type. by intros [? _]. Qed.

(** An operation outside the area of the configuration, while switching. *)
Lemma outside_leads {A} name n (m : C A) :
  HasPrefix name "config/frpc.toml" || HasPrefix "config/frpc.toml" name = false ->
  moves (untouched (area s name)) m ->
  moves (keeping (switching (configPath s ("frpc.toml.tmp." ++ itoa n)))) m.
Proof using Hdir.
  intros Hn Hm. eapply outside_keeps_switching; [exact Hm|by apply not_active|by apply not_tmp].
Qed.

Lemma quiet_leads {A} tmp (m : C A) :
  moves (untouched (fun _ => False)) m -> moves (keeping (switching tmp)) m.
Proof using Type. intros Hm. eapply outside_keeps_switching; [exact Hm|intros []..]. Qed.

(** From the renaming on. *)
Lemma after_read snapshot tmp old :
  tmp <> activePath s -> (forall t, old = Ok t -> Some t = orig \/ t = rendered) ->
  leads (switching tmp) old_or_new
    (or_sup_fail (fun _ => "FRPC_VERIFY_FAILED: atomic replace"%string) (durableRename tmp (activePath s));;
     useReload ← gets (fun w => reloadEligible s snapshot (l_sup w));
     runErr ← attempt (if useReload : bool then reload s else restart s);
     match runErr with
     | Err e => roll_back s old e
     | Ok _ => record_applied s snapshot
     end).
Proof using Hdir.
  intros Hne Hold. eapply (leads_bind _ old_or_new); [|done|].
  - unfold or_sup_fail. eapply (leads_bind _ old_or_new); [by apply leads_attempt, rename_leads|done|].
    intros [|]; apply leads_keeping; run_moves.
  - intros []. apply leads_keeping. run_moves. by apply roll_back_keeps.
Qed.

Lemma switch_leads snapshot n :
  leads (switching (configPath s ("frpc.toml.tmp." ++ itoa n))) old_or_new
    (switch_config s snapshot (configPath s ("frpc.toml.tmp." ++ itoa n))).
Proof using Hdir.
  pose proof (tmp_not_active n) as Hne.
  set (tmp := configPath s ("frpc.toml.tmp." ++ itoa n)) in *. unfold switch_config.
  eapply (leads_bind _ (switching tmp)); [|apply switching_old|].
  { apply leads_keeping, quiet_leads. run_moves; by intros ? ?. }
  intros []. apply read_active_leads; [by apply switching_old|done|..].
  - intros t Ht. eapply (leads_bind _ (switching tmp)); [|apply switching_old|].
    { apply leads_keeping. apply moves_ignore. apply (outside_leads "config/frpc.last-good.toml"); [done|].
      eapply untouched_area; [by intros|by apply lastGoodPath_eq]. }
    intros []. apply after_read; naive_solver.
  - intros e. eapply (leads_bind _ (switching tmp)); [apply leads_keeping; run_moves|apply switching_old|].
    intros []. by apply after_read.
Qed.
End Whole.

(** The states of [apply] before the temporary file is written. *)
Section ApplyWhole.
Context `{ClientEnv} (s : Supervisor) (Hdir : dataDir s <> ""%string).

Lemma write_tmp_leads {A} orig text n (k : unit -> C A) :
  (forall u, leads (switching s orig text (configPath s ("frpc.toml.tmp." ++ itoa n)))
                   (old_or_new s orig text) (k u)) ->
  leads (fun w => active_config s w = orig) (old_or_new s orig text)
    (or_sup_fail (fun _ => "FRPC_VERIFY_FAILED: write temporary config"%string)
       (writeDurableFile (configPath s ("frpc.toml.tmp." ++ itoa n)) text mode_private) ≫= k).
Proof using Hdir.
  set (tmp := configPath s ("frpc.toml.tmp." ++ itoa n)). intros Hk w Hw.
  pose proof (tmp_not_active s Hdir n) as Hne.
  assert (active_config s (snd (writeDurableFile tmp text mode_private w)) = orig) as Hact.
  { rewrite (active_config_untouched s (eq tmp)); [done|by apply untouched_writeDurable|done]. }
  unfold or_sup_fail, attempt, mbind, M_bind, bind.
  destruct (writeDurableFile tmp text mode_private w) as [[u|e] w1] eqn:E; simpl in Hact.
  - apply Hk. split; [by left|]. intros x Hx. apply writeDurable_Ok in E. rewrite E in Hx. by injection Hx as <-.
  - left. rewrite <- Hact.
    apply (active_config_untouched s (fun _ => False) (sup_fail "FRPC_VERIFY_FAILED: write temporary config"));
      [apply untouched_sup_fail|intros []].
Qed.

Lemma kept {A} P orig (m : C A) :
  moves (untouched P) m -> ~ P (activePath s) ->
  leads (fun v => active_config s v = orig) (fun v => active_config s v = orig) m.
Proof using Type. intros Hm HP w <-. by apply (active_config_untouched s P). Qed.

Lemma not_started {A} orig text (m : C A) :
  moves (untouched (fun _ => False)) m ->
  leads (fun v => active_config s v = orig) (old_or_new s orig text) m.
Proof using Type. intros Hm w Hw. left. by apply (kept (fun _ => False) orig m Hm (fun F => F)). Qed.

Ltac kept_quiet :=
  eapply leads_bind; [apply (kept (fun _ => False)); [run_moves; by intros ? ?|intros []]|by left|intros ?].

(** The same for every start: a crash is a choice of failing calls. *)
Lemma apply_old_or_new snapshot orig :
  leads (fun v => active_config s v = orig)
    (old_or_new s orig (renderTOMLForVersion snapshot (dataDir s) (frpcVersion s))) (apply s snapshot).
Proof using Hdir.
  set (text := renderTOMLForVersion _ _ _).
  unfold apply. fold text.
  do 2 kept_quiet.
  destruct (negb _); [by apply not_started, untouched_sup_fail|].
  destruct (negb _); [by apply not_started, untouched_sup_fail|].
  kept_quiet.
  match goal with c : option string |- _ => destruct c end; [by apply not_started, untouched_sup_fail|].
  cbv zeta. eapply leads_bind; [eapply kept|by left|intros ?].
  { by apply untouched_or_sup_fail, (untouched_writeRuntimeSecrets s). }
  { by apply not_active. }
  kept_quiet.
  kept_quiet.
  apply write_tmp_leads. intros _ v Hv. unfold deferred.
  pose proof (switch_leads s Hdir _ _ snapshot _ v Hv) as Hs.
  destruct (switch_config _ _ _ v) as [r v1]. simpl in Hs |- *.
  assert (moves (untouched (eq (configPath s ("frpc.toml.tmp." ++ itoa a3))))
    (os_Remove (configPath s ("frpc.toml.tmp." ++ itoa a3)))) as Hrm by (by apply untouched_Remove).
  unfold old_or_new. rewrite (active_config_untouched s _ _ _ Hrm); [exact Hs|]. by apply tmp_not_active.
Qed.
(** C35: Whatever fails, and wherever the client dies, while a configuration is
    applied: the file FRPC reads is the one that was there, whole, or the new
    one, whole.  (A crash at some effect leaves the files in which every later
    system call fails.) *)
Theorem apply_config_whole snapshot w :
  let config w := f_content <$> l_files w !! activePath s in
  let w' := snd (apply s snapshot w) in
  config w' = config w \/
  config w' = Some (renderTOMLForVersion snapshot (dataDir s) (frpcVersion s)).
Proof using Hdir. cbv zeta. by apply (apply_old_or_new snapshot (active_config s w)). Qed.
End ApplyWhole.

(** ** One process, of the verified binary *)

(** A command of FRPC was run from bytes with the configured hash, when one is
    configured. *)
Definition exec_checked `{ClientEnv} (s : Supervisor) (e : Event) : Prop :=
  match e with
  | EvExec _ bin _ => binarySHA256 s <> ""%string ->
      exists content, bin = Some content /\ hex_encode (ce_sha256 content) = binarySHA256 s
  | _ => True
  end.

(** A live process is the current one, which nobody has waited for, or was sent
    SIGKILL. *)
Definition children_owned (w : Local) : Prop :=
  forall pid killed, l_children w !! pid = Some killed -> killed = true \/
    exists p, sm_process (l_sup w) = Some p /\ pr_pid p = pid /\ pr_drained p = false.

(** ... or is [pid]. *)
Definition owned_but (pid : Z) (w : Local) : Prop :=
  sm_process (l_sup w) = None /\
  forall pid' killed, l_children w !! pid' = Some killed -> killed = true \/ pid' = pid.

Definition all_killed (w : Local) : Prop :=
  sm_process (l_sup w) = None /\ forall pid killed, l_children w !! pid = Some killed -> killed = true.

Section Children.
Context `{ClientEnv} (s : Supervisor).

Lemma all_killed_owned w : all_killed w -> children_owned w.
Proof. intros [_ Hw] pid killed Hk. left. by eapply Hw. Qed.

Definition procs (w : Local) : gmap Z bool * option Process := (l_children w, sm_process (l_sup w)).
Definition procs_owned (o : gmap Z bool * option Process) : Prop :=
  forall pid killed, fst o !! pid = Some killed -> killed = true \/
    exists p, snd o = Some p /\ pr_pid p = pid /\ pr_drained p = false.

(** Operations that leave the processes alone. *)
Lemma owned_same {A} (m : C A) : moves (same procs) m -> moves (keeping children_owned) m.
Proof. intros Hm w Hw. pose proof (Hm w) as E. unfold same in E. injection E as E1 E2. unfold children_owned. by rewrite E1, E2. Qed.

Lemma killed_same {A} (m : C A) : moves (same procs) m -> moves (keeping all_killed) m.
Proof. intros Hm w Hw. pose proof (Hm w) as E. unfold same in E. injection E as E1 E2. unfold all_killed. by rewrite E1, E2. Qed.

Lemma kill_exits pid :
  hoare (owned_but pid) (child_exited pid) (fun _ => all_killed) all_killed.
Proof.
  intros w [Hp Hw]. split; [done|]. intros pid' k Hk. cbn in Hk.
  apply lookup_delete_Some in Hk as [Hne Hk]. by destruct (Hw _ _ Hk) as [|<-].
Qed.

Lemma kill_marks pid : hoare (owned_but pid) (send_kill pid) (fun _ => all_killed) all_killed.
Proof.
  intros w [Hp Hw]. split; [done|]. intros pid' k Hk. cbn in Hk.
  destruct (decide (pid' = pid)) as [->|Hne].
  - rewrite lookup_alter_eq in Hk. destruct (l_children w !! pid); [|done]. by injection Hk as <-.
  - rewrite lookup_alter_ne in Hk by done. by destruct (Hw _ _ Hk) as [|].
Qed.

Lemma killed_but pid w : all_killed w -> owned_but pid w.
Proof. intros [Hp Hw]. split; [done|]. intros pid' k Hk. left. by eapply Hw. Qed.

Lemma owned_but_same {A} pid (m : C A) : moves (same procs) m -> hoare (owned_but pid) m (fun _ => owned_but pid) (owned_but pid).
Proof.
  intros Hm. apply hoare_keeping. intros w Hw. pose proof (Hm w) as E. unfold same in E.
  injection E as E1 E2. unfold owned_but. by rewrite E1, E2.
Qed.

Lemma all_killed_same {A} (m : C A) : moves (same procs) m -> hoare all_killed m (fun _ => all_killed) all_killed.
Proof. intros Hm. by apply hoare_keeping, killed_same. Qed.

(** From a killed process on, nothing unkilled is left. *)
Lemma kill_then {A} pid (m : C A) :
  moves (same procs) m -> hoare (owned_but pid) (send_kill pid;; m) (fun _ => all_killed) all_killed.
Proof. intros Hm. eapply hoare_bind; [apply kill_marks|]. intros ?; cbn beta. by apply all_killed_same. Qed.

Lemma await_stop_children p :
  pr_drained p = false -> hoare (owned_but (pr_pid p)) (await_stop s p) (fun _ => all_killed) all_killed.
Proof.
  intros Hd. unfold await_stop. eapply (hoare_bind _ _ (fun _ => owned_but (pr_pid p))); [by apply hoare_modify|].
  intros ?; cbn beta. eapply (hoare_bind _ _ (fun _ => owned_but (pr_pid p))); [by apply hoare_draw|].
  intros wait. rewrite Hd. destruct wait.
  - eapply hoare_bind; [apply kill_exits|]. intros ?; cbn beta. apply all_killed_same. run_moves.
  - eapply hoare_bind; [apply kill_marks|]. intros ?; cbn beta.
    eapply hoare_bind; [eapply hoare_weaken; [apply kill_exits|by apply killed_but|done..]|].
    intros ?; cbn beta. apply all_killed_same. run_moves.
  - apply kill_then. run_moves.
Qed.

Lemma await_drained_children p :
  pr_drained p = true -> hoare all_killed (await_stop s p) (fun _ => all_killed) all_killed.
Proof.
  intros Hd. unfold await_stop. eapply (hoare_bind _ _ (fun _ => all_killed)); [by apply hoare_modify|].
  intros ?; cbn beta. eapply (hoare_bind _ _ (fun _ => all_killed)); [by apply hoare_draw|].
  intros wait. rewrite Hd.
  assert (forall t, hoare all_killed (send_kill (pr_pid p);; text t : C unit) (fun _ => all_killed) all_killed) as Hk.
  { intros t. eapply hoare_weaken; [apply (kill_then (pr_pid p)); run_moves|by apply killed_but|done..]. }
  destruct wait; apply Hk.
Qed.

Lemma stop_children : hoare children_owned (stopProcess s) (fun _ => all_killed) all_killed.
Proof.
  unfold stopProcess.
  eapply (hoare_bind _ _ (fun p w => sm_process (l_sup w) = p /\ children_owned w)); [by apply hoare_gets|].
  intros process.
  eapply (hoare_bind _ _ (fun _ w => match process with
    | Some p => if pr_drained p then all_killed w else owned_but (pr_pid p) w
    | None => all_killed w
    end)).
  - apply hoare_modify. intros w [Hp Hw]. destruct process as [p|]; [destruct (pr_drained p) eqn:Hd|];
      (split; [done|]); intros pid k Hk; destruct (Hw pid k Hk) as [|(q & Hq & Hpid & Hf)];
      try done; try congruence; [by left|right; congruence].
  - intros ?; cbn beta. destruct process as [p|]; [|by apply hoare_ret].
    destruct (pr_drained p) eqn:Hd; [by apply await_drained_children|by apply await_stop_children].
Qed.

(** A process just started is the only one that may be alive. *)
Lemma start_children args config :
  hoare all_killed (start_process s args config) (fun pid => owned_but pid) all_killed.
Proof.
  intros w [Hp Hw]. unfold start_process. destruct (ce_start _) as [pid|]; [|done].
  case_bool_decide; [done|]. split; [done|]. intros pid' k Hk. cbn in Hk.
  apply lookup_insert_Some in Hk as [[<- _]|[_ Hk]]; [by right|left; by eapply Hw].
Qed.

Lemma adopt_children pid identity :
  hoare (owned_but pid) (adopt_process s pid identity) (fun _ => children_owned) children_owned.
Proof.
  unfold adopt_process. set (p := mkProcess pid identity false).
  set (adopted := fun w => sm_process (l_sup w) = Some p /\
    forall pid' k, l_children w !! pid' = Some k -> k = true \/ pid' = pid).
  assert (forall w, adopted w -> children_owned w) as Hown.
  { intros w [Hp Hw] pid' k Hk. destruct (Hw pid' k Hk) as [| ->]; [by left|right; by exists p]. }
  eapply (hoare_bind _ _ (fun _ => adopted)); [apply hoare_modify; by intros w [_ Hw]|]. intros ?; cbn beta.
  eapply (hoare_bind _ _ (fun _ => adopted)); [by apply hoare_modify|]. intros ?; cbn beta.
  eapply (hoare_bind _ _ (fun _ => adopted)); [by apply hoare_modify|]. intros ?; cbn beta.
  eapply (hoare_bind _ _ (fun _ => adopted)); [by apply hoare_draw|]. intros early.
  destruct early as [|err reaped]; [by apply hoare_ret|].
  eapply (hoare_bind _ _ (fun _ w => forall pid' k, l_children w !! pid' = Some k -> k = true)).
  { apply hoare_modify. intros w [Hp Hw] pid' k Hk. cbn in Hk.
    apply lookup_delete_Some in Hk as [Hne Hk]. by destruct (Hw pid' k Hk) as [|<-]. }
  intros ?; cbn beta. assert (forall w, (forall pid' k, l_children w !! pid' = Some k -> k = true) -> children_owned w) as Hk.
  { intros w Hw pid' k Hk. left. by eapply Hw. }
  eapply (hoare_bind _ _ (fun _ w => forall pid' k, l_children w !! pid' = Some k -> k = true)).
  - destruct reaped; [|by apply hoare_modify].
    eapply hoare_weaken; [apply (hoare_same l_children (fun c => forall pid' k, c !! pid' = Some k -> k = true))|..]; try done.
    unfold reap. run_moves.
  - intros ?; cbn beta. by apply hoare_text.
Qed.

Lemma spawn_children : hoare all_killed (spawn s) (fun _ => children_owned) children_owned.
Proof.
  unfold spawn. eapply (hoare_bind _ _ (fun _ => all_killed)); [by apply hoare_gets|].
  intros identity; cbn beta. eapply hoare_bind.
  { eapply hoare_weaken; [apply start_children|done..|by apply all_killed_owned]. }
  intros pid; cbn beta. eapply (hoare_bind _ _ (fun _ => owned_but pid)).
  { eapply hoare_weaken; [eapply hoare_attempt, owned_but_same|done| |done].
    - unfold writePID. run_moves.
    - by intros [] w. }
  intros r; cbn beta. destruct r as [u|e]; [apply adopt_children|].
  eapply hoare_bind; [eapply hoare_weaken; [apply kill_marks|done..|by apply all_killed_owned]|].
  intros ?; cbn beta. eapply hoare_bind.
  { eapply hoare_weaken; [apply kill_exits|by apply killed_but|done|by apply all_killed_owned]. }
  intros ?; cbn beta. apply hoare_text, all_killed_owned.
Qed.

Lemma restart_children : moves (keeping children_owned) (restart s).
Proof.
  unfold restart. case_match; [apply owned_same; run_moves|].
  apply hoare_moves. eapply (hoare_bind _ _ (fun _ => children_owned)).
  { apply hoare_keeping, owned_same. run_moves. }
  intros ?; cbn beta. eapply hoare_bind.
  { eapply hoare_weaken; [apply stop_children|done..|by apply all_killed_owned]. }
  intros ?; cbn beta. apply spawn_children.
Qed.

Lemma stop_keeps_children : moves (keeping children_owned) (stopProcess s).
Proof.
  apply hoare_moves. eapply hoare_weaken; [apply stop_children|done|..];
    intros; by apply all_killed_owned.
Qed.

Lemma exits_children : moves (keeping children_owned) (process_exits s).
Proof.
  intros w Hw. unfold process_exits.
  change (children_owned (snd ((match sm_process (l_sup w) with
    | Some p => child_exited (pr_pid p);; reap s p | None => ret tt end : C unit) w))).
  destruct (sm_process (l_sup w)) as [p|] eqn:Ep; [|done].
  pose (killed (c : gmap Z bool) := forall pid k, c !! pid = Some k -> k = true).
  assert (hoare (fun v => killed (l_children v)) (reap s p) (fun _ v => killed (l_children v))
            (fun v => killed (l_children v))) as Hr.
  { apply (hoare_same l_children killed). unfold reap. run_moves. }
  set (w1 := w <| l_children ::= delete (pr_pid p) |>).
  change (children_owned (snd (reap s p w1))). specialize (Hr w1).
  assert (killed (l_children (snd (reap s p w1)))) as Hk.
  { destruct (reap s p w1) as [[] v]; apply Hr; intros pid k Hk; cbn in Hk;
      apply lookup_delete_Some in Hk as [Hne Hk];
      destruct (Hw pid k Hk) as [|(q & Hq & Hpid & _)]; congruence. }
  intros pid k Hp. left. by eapply Hk.
Qed.
End Children.

(** The leaves of an operation leave the processes alone; stopping and
    starting keep them owned. *)
Ltac owned_known :=
  match goal with
  | |- moves _ (restart _) => apply restart_children
  | |- moves _ (stopProcess _) => apply stop_keeps_children
  end.
Ltac owned := repeat first
  [ owned_known | move_step | apply moves_deferred; [typeclasses eauto|..]
  | solve [apply owned_same; run_moves] | unfold_prim ].

Section Owned.
Context `{ClientEnv} (s : Supervisor).

Lemma roll_back_children old e : moves (keeping children_owned) (roll_back s old e).
Proof. unfold roll_back. owned. Qed.
Lemma leaf_children {A} (m : C A) : moves (same procs) m -> moves (keeping children_owned) m.
Proof. apply owned_same. Qed.
Lemma apply_children snapshot : moves (keeping children_owned) (apply s snapshot).
Proof.
  unfold apply, switch_config.
  repeat first [ owned_known | move_step | apply moves_deferred; [typeclasses eauto|..]
    | match goal with |- moves _ (roll_back _ _ _) => apply roll_back_children end
    | solve [apply leaf_children; unfold writeRuntimeSecrets, write_secret, checkLocalServices, check_service,
        verify, reload, record_applied; run_moves] | unfold_prim ].
Qed.
Lemma stop_op_children : moves (keeping children_owned) (stop s).
Proof. unfold stop. owned. Qed.
Lemma clear_children : moves (keeping children_owned) (ClearRuntimeSecrets s).
Proof. unfold ClearRuntimeSecrets. owned. Qed.
Lemma await_orphan_children pid n : moves (keeping children_owned) (await_orphan s pid n).
Proof. induction n; cbn [await_orphan]; unfold processCommandLine, Abs; owned. Qed.
Lemma recover_children : moves (keeping children_owned) (recoverOrphan s).
Proof.
  unfold recoverOrphan, forget_orphan, clearRecoveredRuntime, terminateOrphan, processCommandLine, Abs.
  owned; first [apply clear_children | apply await_orphan_children].
Qed.
End Owned.

Section Checked.
Context `{ClientEnv} (s : Supervisor) (Hdir : dataDir s <> ""%string).
(** The PID marker is not the binary. *)
Context (Hbin : ~ pid_area s (binary s)).

Definition events_checked (w : Local) : Prop := Forall (exec_checked s) (l_events w).

Definition binary_checked (w : Local) : Prop :=
  events_checked w /\
  (binarySHA256 s <> ""%string -> exists x, l_files w !! binary s = Some x /\
     hex_encode (ce_sha256 (f_content x)) = binarySHA256 s).

Lemma checked_same {A} (m : C A) : moves (same l_events) m -> moves (keeping events_checked) m.
Proof. intros Hm w Hw. pose proof (Hm w) as E. unfold same in E. unfold events_checked. by rewrite E. Qed.

Lemma checked_emit e : (forall a b c, e <> EvExec a b c) -> moves (keeping events_checked) (emit e).
Proof. intros He w Hw. constructor; [|done]. destruct e; try done. exfalso. by eapply He. Qed.

Lemma verifyBinary_checked :
  binary s <> ""%string -> hoare events_checked (verifyBinary s) (fun _ => binary_checked) events_checked.
Proof.
  intros Hb. unfold verifyBinary. apply String.eqb_neq in Hb as ->. simpl.
  destruct (String.eqb_spec (binarySHA256 s) ""); [by apply hoare_ret|].
  intros w Hw. unfold mbind, M_bind, bind, os_ReadFile.
  destruct (ce_disk _); [done|]. destruct (l_files w !! binary s) as [x|] eqn:E; [|done].
  unfold fail_if. destruct (String.eqb_spec (hex_encode (ce_sha256 (f_content x))) (binarySHA256 s)); [|done].
  split; [done|]. intros _. by exists x.
Qed.

Lemma exec_event_checked args cfg w : binary_checked w -> exec_checked s (exec_event s args cfg w).
Proof. intros [_ Hw] Hsha. destruct (Hw Hsha) as (x & Hx & Ex). exists (f_content x). by rewrite Hx. Qed.

Lemma run_command_checked args cfg :
  hoare binary_checked (run_command s args cfg) (fun _ => events_checked) events_checked.
Proof. intros w Hw. constructor; [by apply exec_event_checked|apply Hw]. Qed.

Lemma start_checked args cfg :
  hoare binary_checked (start_process s args cfg) (fun _ => events_checked) events_checked.
Proof.
  intros w Hw. unfold start_process. destruct (ce_start _); [|apply Hw].
  case_bool_decide; [apply Hw|]. constructor; [by apply exec_event_checked|apply Hw].
Qed.

Ltac checked := repeat first
  [ move_step | apply moves_deferred; [typeclasses eauto|..] | solve [apply checked_emit; discriminate]
  | solve [apply checked_same; run_moves] | unfold_prim ].

Lemma stop_checked : moves (keeping events_checked) (stopProcess s).
Proof. unfold stopProcess, await_stop. checked. Qed.

(** Stopping does not touch the binary. *)
Lemma stop_keeps_binary : moves (keeping binary_checked) (stopProcess s).
Proof using Hdir Hbin.
  intros w [Hw Hx]. split; [by apply stop_checked|]. intros Hsha.
  rewrite (untouched_stopProcess s Hdir w _ Hbin). by apply Hx.
Qed.

Lemma spawn_checked : hoare binary_checked (spawn s) (fun _ => events_checked) events_checked.
Proof.
  unfold spawn. eapply (hoare_bind _ _ (fun _ => binary_checked)); [by apply hoare_gets|].
  intros ?; cbn beta. eapply hoare_bind; [apply start_checked|]. intros pid; cbn beta.
  apply hoare_keeping. unfold adopt_process, reap, writePID. checked.
Qed.

Lemma restart_checked : moves (keeping events_checked) (restart s).
Proof using Hdir Hbin.
  unfold restart. destruct (String.eqb_spec (binary s) ""); [checked|].
  apply hoare_moves. eapply hoare_bind; [by apply verifyBinary_checked|]. intros ?; cbn beta.
  eapply (hoare_bind _ _ (fun _ => binary_checked)).
  { eapply hoare_weaken; [apply hoare_keeping, stop_keeps_binary|done..|]. by intros w [? _]. }
  intros ?; cbn beta. apply spawn_checked.
Qed.

Lemma command_checked args cfg k :
  binary s <> ""%string -> (forall out, moves (keeping events_checked) (k out)) ->
  moves (keeping events_checked) (verifyBinary s;; out ← run_command s args cfg; k out : C unit).
Proof.
  intros Hb Hk. apply hoare_moves. eapply hoare_bind; [by apply verifyBinary_checked|].
  intros ?; cbn beta. eapply hoare_bind; [apply run_command_checked|]. intros out; cbn beta.
  by apply hoare_keeping.
Qed.

Lemma verify_checked path : moves (keeping events_checked) (verify s path).
Proof.
  unfold verify. move_step; [checked|]. destruct (String.eqb_spec (binary s) ""); [checked|].
  apply command_checked; [done|]. intros out. checked.
Qed.

(** A reload is asked for with a binary only. *)
Lemma reload_checked : binary s <> ""%string -> moves (keeping events_checked) (reload s).
Proof. intros Hb. unfold reload. apply command_checked; [done|]. intros out. checked. Qed.

Lemma change_checked snapshot k :
  (forall r, moves (keeping events_checked) (k r)) ->
  moves (keeping events_checked)
    (useReload ← gets (fun w => reloadEligible s snapshot (l_sup w));
     r ← attempt (if useReload : bool then reload s else restart s); k r : C unit).
Proof using Hdir Hbin.
  intros Hk. apply moves_gets_bind. intros w. move_step; [|apply Hk]. move_step.
  destruct (reloadEligible _ _ _) eqn:E; [|apply restart_checked]. apply reload_checked.
  unfold reloadEligible in E. by destruct (String.eqb_spec (binary s) "").
Qed.

Lemma apply_checked snapshot : moves (keeping events_checked) (apply s snapshot).
Proof using Hdir Hbin.
  unfold apply, writeRuntimeSecrets, write_secret, checkLocalServices, check_service, switch_config.
  repeat first [ apply verify_checked | apply change_checked; intros ?
    | move_step | apply moves_deferred; [typeclasses eauto|..]
    | solve [apply checked_same; run_moves] | unfold_prim ].
  - unfold record_applied. checked.
  - unfold roll_back. repeat first [apply restart_checked | checked].
Qed.

Lemma stop_op_checked : moves (keeping events_checked) (stop s).
Proof. unfold stop. repeat first [apply stop_checked | checked]. Qed.
Lemma clear_checked : moves (keeping events_checked) (ClearRuntimeSecrets s).
Proof. unfold ClearRuntimeSecrets. checked. Qed.
Lemma await_orphan_checked pid n : moves (keeping events_checked) (await_orphan s pid n).
Proof. induction n; cbn [await_orphan]; unfold processCommandLine, Abs; checked. Qed.
Lemma recover_checked : moves (keeping events_checked) (recoverOrphan s).
Proof.
  unfold recoverOrphan, forget_orphan, clearRecoveredRuntime, terminateOrphan, processCommandLine, Abs.
  repeat first [apply clear_checked | apply await_orphan_checked | checked].
Qed.

Lemma run_op_checked op : moves (keeping events_checked) (run_op s op).
Proof using Hdir Hbin.
  destruct op; simpl; [by apply apply_checked|apply stop_op_checked|apply recover_checked].
Qed.
Lemma run_op_children op : moves (keeping children_owned) (run_op s op).
Proof using Type.
  destruct op; simpl; [apply apply_children|apply stop_op_children|apply recover_children].
Qed.
End Checked.

(** *** Every sequence of operations *)

(** Between the effects of two operations anything may change the files. *)
Inductive sup_step `{ClientEnv} (s : Supervisor) : Local -> Local -> Prop :=
| step_enqueue op w : sup_step s w (snd (enqueue s op w))
| step_drain w : sup_step s w (snd (drain s w))
| step_clear w : sup_step s w (snd (ClearRuntimeSecrets s w))
| step_exits w : sup_step s w (snd (process_exits s w))
| step_files w fs : sup_step s w (w <| l_files := fs |>)
| step_app w f : sup_step s w (w <| l_app ::= f |>).

Section Reachable.
Context `{ClientEnv} (s : Supervisor) (Hdir : dataDir s <> ""%string).
Context (Hbin : ~ pid_area s (binary s)).

Lemma queue_keeps (I : Local -> Prop) op :
  (forall o, moves (keeping I) (run_op s o)) -> (forall w q, I w -> I (w <| l_pending := q |>)) ->
  (forall w, I w -> I (bump w)) ->
  moves (keeping I) (drain s) /\ moves (keeping I) (enqueue s op).
Proof using Type.
  intros Hop Hq Hb. assert (moves (keeping I) (drain s)) as Hd.
  { unfold drain. move_step; [apply moves_gets; typeclasses eauto|].
    move_step; [apply moves_modify; intros w Hw; exact (Hq w _ Hw)|]. move_step. apply moves_ignore, Hop. }
  split; [done|]. unfold enqueue. move_step; [apply moves_draw; intros w Hw; by apply Hb|].
  destruct a; [|by move_step]. move_step; [|unfold text; run_moves].
  apply moves_modify. intros w Hw. exact (Hq w _ Hw).
Qed.

End Reachable.
