(* ===== verification/SupervisorApply.v ===== *)
(** What [Apply] promises: on success FRPC runs the new configuration, which it
    verified; on failure it runs the old one, and nothing of the new one is
    recorded. *)

From S2P Require Import Prelude StateError GoText GoPath GoNet GoJson Timestamps Encoding Client ClientToml Supervisor ClientLogic SupervisorSpec.
From Stdlib Require Import Ascii String.
Open Scope Z_scope.

(** The configuration FRPC was last started from or told to reload. *)
Fixpoint last_run (events : list Event) : option string :=
  match events with
  | [] => None
  | EvExec (a :: _) _ cfg :: l => if String.eqb a "verify" then last_run l else cfg
  | _ :: l => last_run l
  end.

(** What is recorded of the configuration in force. *)
Definition recorded (w : Local) : Z * string * option ClientSnapshot :=
  (st_AppliedVersion (sm_status (l_sup w)), st_ConfigHash (sm_status (l_sup w)), sm_lastSnapshot (l_sup w)).

(** A running FRPC serves [t]. *)
Definition serves (t : string) (w : Local) : Prop :=
  is_Some (sm_process (l_sup w)) -> last_run (l_events w) = Some t.

Definition in_error (w : Local) : Prop := st_State (sm_status (l_sup w)) = ConfigError.

Class NoDiskFaults `{ClientEnv} : Prop := no_disk_fault : forall n, ce_disk n = None.

(** ** Observations *)

Section Observations.
Context `{ClientEnv} (s : Supervisor) (Hdir : dataDir s <> ""%string).

Definition sup_obs (w : Local) : option Process * option string * (Z * string * option ClientSnapshot) :=
  (sm_process (l_sup w), last_run (l_events w), recorded w).

Definition obs (w : Local) : option string * (option Process * option string * (Z * string * option ClientSnapshot)) :=
  (active_config s w, sup_obs w).

Lemma same_obs {A} P (m : C A) :
  moves (untouched P) m -> ~ P (activePath s) -> moves (same sup_obs) m -> moves (same obs) m.
Proof using Type.
  intros Hm HP Hs w. unfold same, obs. rewrite (active_config_untouched s P m w Hm HP). by rewrite (Hs w).
Qed.

(** Operations before the switch. *)
Lemma still_obs {A} (m : C A) :
  moves (untouched (fun _ => False)) m -> moves (same sup_obs) m -> moves (same obs) m.
Proof using Type. intros Hm Hs. by eapply same_obs; [..|exact Hs]; [exact Hm|intros []]. Qed.

Lemma secrets_obs snapshot : moves (same obs) (writeRuntimeSecrets s snapshot).
Proof using Hdir.
  eapply same_obs; [by apply untouched_writeRuntimeSecrets|by apply not_active|].
  unfold writeRuntimeSecrets, write_secret. run_moves.
Qed.
Lemma checkLocal_obs payload : moves (same obs) (checkLocalServices payload).
Proof using Type.
  apply still_obs; [apply untouched_checkLocal|]. unfold checkLocalServices, check_service. run_moves.
Qed.
Lemma verify_obs path : moves (same obs) (verify s path).
Proof using Type. apply still_obs; [apply untouched_verify|]. unfold verify. run_moves. Qed.

Lemma tmp_obs n content mode :
  moves (same obs) (writeDurableFile (configPath s ("frpc.toml.tmp." ++ itoa n)) content mode).
Proof using Hdir.
  eapply (same_obs (eq (configPath s ("frpc.toml.tmp." ++ itoa n)))).
  - by apply untouched_writeDurable.
  - by apply tmp_not_active.
  - unfold writeDurableFile. run_moves.
Qed.

Lemma remove_tmp_obs n : moves (same obs) (os_Remove (configPath s ("frpc.toml.tmp." ++ itoa n))).
Proof using Hdir.
  eapply (same_obs (eq (configPath s ("frpc.toml.tmp." ++ itoa n)))).
  - by apply untouched_Remove.
  - by apply tmp_not_active.
  - run_moves.
Qed.

Lemma last_good_obs t m : moves (same obs) (atomicWriteDurable (lastGoodPath s) t m).
Proof using Hdir.
  eapply (same_obs (area s "config/frpc.last-good.toml")); [|by apply not_active|run_moves].
  eapply untouched_area; [by intros|by apply lastGoodPath_eq].
Qed.
End Observations.

(** ** Failure *)

Section Failure.
Context `{ClientEnv} (s : Supervisor) (Hdir : dataDir s <> ""%string) `{ND : !NoDiskFaults}.
(** The binary is none of the supervisor's own files. *)
Context (Hpid : ~ pid_area s (binary s)) (Hact : ~ own_file (activePath s) (binary s)).

(** The old configuration, and what was recorded of it. *)
Context (t : string) (r0 : Z * string * option ClientSnapshot).

Definition last_good (w : Local) : Prop :=
  active_config s w = Some t /\ serves t w /\ recorded w = r0.
Definition failed_good (w : Local) : Prop := last_good w /\ in_error w.

(** [verifyBinary] would succeed. *)
Definition runnable (w : Local) : Prop :=
  binary s <> ""%string /\ (binarySHA256 s <> ""%string -> exists x, l_files w !! binary s = Some x /\
    hex_encode (ce_sha256 (f_content x)) = binarySHA256 s).

Lemma last_good_obs_same {A} (m : C A) : moves (same (obs s)) m -> moves (keeping last_good) m.
Proof using Type.
  intros Hm w (H1 & H2 & H3). pose proof (Hm w) as E. unfold same in E.
  injection E as E1 E2 E3 E4 E5 E6. unfold last_good, serves, recorded in *.
  by rewrite E1, E2, E3, E4, E5, E6.
Qed.

Lemma sup_fail_good {A} m (Q : A -> Local -> Prop) : hoare last_good (sup_fail m) Q failed_good.
Proof using Type. intros w Hw. by split. Qed.

Lemma or_sup_fail_good f m (Q : Local -> Prop) :
  hoare last_good m (fun _ => Q) last_good -> hoare last_good (or_sup_fail f m) (fun _ => Q) failed_good.
Proof using Type.
  intros Hm. unfold or_sup_fail. eapply hoare_bind; [by apply hoare_attempt|].
  intros [u|e]; cbn beta iota; [by apply hoare_ret|apply sup_fail_good].
Qed.

Lemma checked_step f m :
  moves (same (obs s)) m -> hoare last_good (or_sup_fail f m) (fun _ => last_good) failed_good.
Proof using Type. intros Hm. by apply or_sup_fail_good, hoare_keeping, last_good_obs_same. Qed.

(** *** Running the binary *)

Lemma verifyBinary_good (P : Local -> Prop) :
  (forall w, P w -> P (bump w)) ->
  hoare (fun w => P w) (verifyBinary s)
    (fun _ w => P w /\ (binary s <> ""%string -> runnable w)) (fun w => P w /\ ~ runnable w).
Proof using ND.
  intros HP w Hw. unfold verifyBinary.
  destruct (String.eqb_spec (binary s) ""); [by split|].
  destruct (String.eqb_spec (binarySHA256 s) ""); [by repeat split|].
  cbn [orb]. unfold mbind, M_bind, bind, os_ReadFile. rewrite no_disk_fault.
  destruct (l_files w !! binary s) as [x|] eqn:E.
  - unfold fail_if. destruct (String.eqb_spec (hex_encode (ce_sha256 (f_content x))) (binarySHA256 s)) as [Eh|Eh].
    + split; [by apply HP|]. intros _. split; [done|]. intros _. by exists x.
    + split; [by apply HP|]. intros [_ Hr]. destruct Hr as (y & Hy & Ey); [done|].
      cbn in Hy. rewrite E in Hy. by injection Hy as <-.
  - split; [by apply HP|]. intros [_ Hr]. destruct Hr as (y & Hy & Ey); [done|]. cbn in Hy. congruence.
Qed.

Lemma runnable_kept P {A} (m : C A) :
  moves (untouched P) m -> ~ P (binary s) -> moves (keeping runnable) m.
Proof using Type. intros Hm HP w [Hb Hr]. split; [done|]. by rewrite (Hm w _ HP). Qed.

(** A failed change leaves FRPC where it was, or with a binary that runs. *)
Lemma change_fails use :
  (use = true -> binary s <> ""%string) ->
  hoare (serves t) (if use : bool then reload s else restart s) (fun _ _ => True)
    (fun w => binary s <> ""%string /\ (serves t w \/ runnable w)).
Proof using Hdir ND Hpid.
  intros Hu. apply hoare_if; intros Hus.
  - specialize (Hu Hus). unfold reload. eapply hoare_bind.
    { eapply hoare_weaken; [by apply (verifyBinary_good (serves t))|done|done|]. intros w [? _]. auto. }
    intros ?; cbn beta. eapply (hoare_bind _ _ (fun _ => runnable)).
    + eapply hoare_weaken; [apply hoare_keeping, (runnable_kept (fun _ => False));
        [run_moves; by intros ? ?|intros []]| | |]; [intros w [_ Hr]; by apply Hr|done|by auto].
    + intros [out [e|]]; cbn beta iota; [apply hoare_text; auto|by apply hoare_ret].
  - unfold restart. destruct (String.eqb_spec (binary s) ""); [by intros w Hw|]. eapply hoare_bind.
    { eapply hoare_weaken; [by apply (verifyBinary_good (serves t))|done|done|]. intros w [? _]. auto. }
    intros ?; cbn beta. eapply (hoare_bind _ _ (fun _ => runnable)).
    + eapply hoare_weaken; [apply hoare_keeping, (runnable_kept (pid_area s)); [by apply untouched_stopProcess|done]| | |];
        [intros w [_ Hr]; by apply Hr|done|by auto].
    + intros ?; cbn beta. eapply hoare_weaken; [apply hoare_keeping, (runnable_kept (pid_area s))| | |]; [|done..|by auto].
      by apply untouched_spawn.
Qed.

Definition restored (w : Local) : Prop := active_config s w = Some t /\ serves t w.

Lemma stop_none : hoare (fun _ => True) (stopProcess s)
  (fun _ w => sm_process (l_sup w) = None) (fun w => sm_process (l_sup w) = None).
Proof using Type.
  unfold stopProcess. eapply (hoare_bind _ _ (fun _ _ => True)); [by apply hoare_gets|].
  intros p; cbn beta. eapply (hoare_bind _ _ (fun _ w => sm_process (l_sup w) = None)); [by apply hoare_modify|].
  intros ?; cbn beta. apply (hoare_same (fun w => sm_process (l_sup w)) (fun o => o = None)).
  destruct p; unfold await_stop; run_moves.
Qed.

(** What was started reads the file as it stands. *)
Lemma spawn_restored :
  hoare (fun w => active_config s w = Some t /\ sm_process (l_sup w) = None) (spawn s)
    (fun _ => restored) restored.
Proof using Hdir.
  unfold spawn. set (pre := fun w => active_config s w = Some t /\ sm_process (l_sup w) = None).
  eapply (hoare_bind _ _ (fun _ => pre)); [by apply hoare_gets|]. intros identity; cbn beta.
  set (started := fun w => active_config s w = Some t /\ last_run (l_events w) = Some t).
  assert (forall w, started w -> restored w) as Hst by (intros w [? ?]; split; [done|by intros _]).
  eapply (hoare_bind _ _ (fun _ => started)).
  { intros w [Ha Hp]. unfold start_process. destruct (ce_start _).
    - case_bool_decide; [|by split]. split; [done|]. intros [p E]. cbn in E. congruence.
    - split; [done|]. intros [p E]. cbn in E. congruence. }
  intros pid; cbn beta.
  assert (forall A (m : C A), moves (untouched (pid_area s)) m ->
    moves (same (fun w => last_run (l_events w))) m -> hoare started m (fun _ => started) started) as Hk.
  { intros A m Hf He. apply hoare_keeping. intros w [Ha Hl]. split; [|by rewrite (He w)].
    rewrite (active_config_untouched s _ m w Hf); [done|]. by apply not_active. }
  eapply hoare_weaken; [apply Hk|done|auto|auto].
  - move_step; [run_moves; by apply untouched_writePID|]. unfold adopt_process, reap.
    run_moves; try (by intros ? ?); by apply untouched_removePIDIf.
  - unfold writePID, adopt_process, reap. run_moves.
Qed.

Lemma restart_restores :
  binary s <> ""%string ->
  hoare (fun w => active_config s w = Some t /\ (serves t w \/ runnable w)) (restart s)
    (fun _ => restored) restored.
Proof using Hdir ND Hpid.
  intros Hb. unfold restart. apply String.eqb_neq in Hb as ->.
  eapply hoare_bind; [eapply hoare_weaken|].
  { by apply (verifyBinary_good (fun w => active_config s w = Some t /\ (serves t w \/ runnable w))). }
  { done. } { done. }
  { intros w [[Ha [Hs|Hr]] Hn]; [by split|done]. }
  intros ?; cbn beta. eapply (hoare_bind _ _ (fun _ w => active_config s w = Some t /\ sm_process (l_sup w) = None)).
  - intros w [[Ha _] _]. pose proof (stop_none w I) as Hn.
    pose proof (active_config_untouched s _ _ w (untouched_stopProcess s Hdir)) as Hk.
    destruct (stopProcess s w) as [[u|e] w']; simpl in Hk;
      (assert (active_config s w' = Some t) as Ha'; [rewrite Hk; [done|by apply not_active]|]).
    + by split.
    + split; [done|]. intros [p E]. congruence.
  - intros ?; cbn beta. apply spawn_restored.
Qed.

Lemma restart_recorded : moves (same recorded) (restart s).
Proof using Type.
  unfold restart, stopProcess, await_stop, spawn, adopt_process, reap, writePID. run_moves.
  all: unfold same, recorded; cbn; by destruct (decide _).
Qed.
Lemma reload_recorded : moves (same recorded) (reload s).
Proof using Type. unfold reload. run_moves. Qed.

(** What holds when a change of FRPC failed. *)
Definition change_failed (w : Local) : Prop :=
  recorded w = r0 /\ binary s <> ""%string /\ (serves t w \/ runnable w).

Lemma rewrite_active w :
  change_failed w ->
  let w' := snd (atomicWriteDurable (activePath s) t mode_private w) in
  recorded w' = r0 /\ active_config s w' = Some t /\ (serves t w' \/ runnable w').
Proof using ND Hact.
  intros (Hr & Hb & Hs). cbv zeta.
  pose proof (quiet_atomic (fun v => (recorded v, sm_process (l_sup v), l_events v)) (activePath s) t mode_private w) as Hq.
  pose proof (untouched_atomic (activePath s) t mode_private w _ Hact) as Hf.
  pose proof (atomic_total (activePath s) t mode_private w no_disk_fault) as Hok.
  destruct (atomicWriteDurable _ t mode_private w) as [r w'] eqn:E. simpl in *.
  unfold same in Hq. injection Hq as Eq1 Eq2 Eq3 Eq4 Eq5. split_and!.
  - unfold recorded in *. congruence.
  - unfold active_config. apply atomic_run in E as [->|[_ Hn]]; [done|]. by rewrite Hok in Hn.
  - destruct Hs as [Hs|[_ Hr']]; [left|right].
    + unfold serves. by rewrite Eq4, Eq5.
    + split; [done|]. by rewrite Hf.
Qed.

Lemma roll_back_good e Q : hoare change_failed (roll_back s (Ok t) e) Q failed_good.
Proof using Hdir ND Hpid Hact.
  unfold roll_back. eapply (hoare_bind _ _ (fun _ => last_good)); [|intros ?; apply sup_fail_good].
  eapply (hoare_bind _ _ (fun _ w => recorded w = r0 /\ active_config s w = Some t /\ (serves t w \/ runnable w) /\
    binary s <> ""%string)).
  { intros w Hw. pose proof (rewrite_active w Hw) as (H1 & H2 & H3). destruct Hw as (_ & Hb & _). by split_and!. }
  intros ?; cbn beta. destruct (String.eqb_spec (binary s) "") as [|Hb]; [by intros w (_ & _ & _ & ?)|].
  eapply (hoare_bind _ _ (fun _ => last_good)).
  - intros w (Hr & Ha & Hs & _). pose proof (restart_restores Hb w (conj Ha Hs)) as Hres.
    pose proof (restart_recorded w) as Hrec. unfold attempt. destruct (restart s w) as [[u|e'] w'];
      destruct Hres as [H1 H2]; (split_and!; [done..|]); unfold same in Hrec; simpl in Hrec; congruence.
  - intros [u|e']; cbn beta iota; [by apply hoare_ret|apply sup_fail_good].
Qed.

Lemma rename_good tmp x :
  tmp <> activePath s ->
  hoare (fun w => last_good w /\ l_files w !! tmp = Some x)
    (or_sup_fail (fun _ => "FRPC_VERIFY_FAILED: atomic replace"%string) (durableRename tmp (activePath s)))
    (fun _ w => recorded w = r0 /\ serves t w) failed_good.
Proof using ND.
  intros Hne w [(_ & Hs & Hr) Ht]. unfold or_sup_fail, attempt, mbind, M_bind, bind.
  pose proof (rename_total tmp (activePath s) x w no_disk_fault Ht) as Hok.
  pose proof (quiet_rename (fun v => (recorded v, sm_process (l_sup v), l_events v)) tmp (activePath s) w) as Hq.
  destruct (durableRename _ _ w) as [[u|e] w']; [|done]. simpl in Hq. unfold same in Hq.
  injection Hq as E1 E2 E3 E4 E5. simpl. unfold recorded, serves in *. by rewrite E1, E2, E3, E4, E5.
Qed.

Lemma record_total snapshot w : exists w', record_applied s snapshot w = (Ok tt, w').
Proof using Type. by eexists. Qed.

Lemma switch_good snapshot n rendered :
  hoare (fun w => last_good w /\ l_files w !! configPath s ("frpc.toml.tmp." ++ itoa n) = Some rendered)
    (switch_config s snapshot (configPath s ("frpc.toml.tmp." ++ itoa n))) (fun _ _ => True) failed_good.
Proof using Hdir ND Hpid Hact.
  set (tmp := configPath s ("frpc.toml.tmp." ++ itoa n)).
  set (ready := fun w => last_good w /\ l_files w !! tmp = Some rendered).
  unfold switch_config. eapply (hoare_bind _ _ (fun _ => ready)).
  { intros w [Hw Ht]. pose proof (checked_step (fun e => "FRPC_VERIFY_FAILED: " ++ Error e)%string
      (verify s tmp) (verify_obs s tmp) w Hw) as Hg.
    pose proof (untouched_or_sup_fail (fun _ => False) (fun e => "FRPC_VERIFY_FAILED: " ++ Error e)%string _
      (untouched_verify s _ tmp) w tmp (fun F => F)) as Hf.
    destruct (or_sup_fail _ _ w) as [[u|e] w']; [|done]. split; [done|]. by rewrite <- Ht, <- Hf. }
  intros ?; cbn beta. eapply (hoare_bind _ _ (fun r w => r = Ok t /\ ready w)).
  { intros w [Hw Ht]. destruct Hw as (Ha & Hw). unfold attempt, os_ReadFile. rewrite no_disk_fault.
    unfold active_config in Ha. destruct (l_files w !! activePath s) as [x|] eqn:E; [|done].
    simpl in Ha. injection Ha as Ha. split; [by rewrite Ha|]. split; [|done]. split; [|done].
    unfold active_config. change (l_files (bump w)) with (l_files w). by rewrite E, <- Ha. }
  intros r; cbn beta. destruct r as [t'|e]; [|by intros w [? _]]. destruct (decide (t' = t)) as [->|]; [|by intros w [[=] _]].
  apply (hoare_weaken _ ready _ _ (fun _ _ => True) _ failed_good); [|by intros w [_ ?]|done..].
  eapply (hoare_bind _ _ (fun _ => ready)).
  { apply hoare_ignore, hoare_keeping. intros w [Hw Ht]. split.
    - by apply (last_good_obs_same _ (last_good_obs s Hdir t mode_private)).
    - rewrite <- Ht. apply (untouched_area s (area s "config/frpc.last-good.toml") "config/frpc.last-good.toml");
        [by intros|by apply lastGoodPath_eq|by apply not_tmp]. }
  intros ?; cbn beta.
  eapply (hoare_bind _ _ (fun _ w => recorded w = r0 /\ serves t w)); [apply rename_good; by apply tmp_not_active|].
  intros ?; cbn beta.
  eapply (hoare_bind _ _ (fun use w => recorded w = r0 /\ serves t w /\ (use = true -> binary s <> ""%string))).
  { apply hoare_gets. intros w [? ?]. split_and!; [done..|]. unfold reloadEligible.
    by destruct (String.eqb_spec (binary s) ""). }
  intros use; cbn beta. apply hoare_pre. intros w0 (Hr0 & Hs0 & Hu).
  eapply (hoare_bind _ _ (fun r w => match r with Ok _ => True | Err _ => change_failed w end)).
  { intros w <-. unfold attempt. pose proof (change_fails use Hu w0 Hs0) as Hc.
    assert (moves (same recorded) (if use then reload s else restart s)) as Hrec
      by (destruct use; [apply reload_recorded|apply restart_recorded]).
    specialize (Hrec w0). destruct ((if use then reload s else restart s) w0) as [[u|e] w']; [done|].
    unfold same in Hrec. simpl in Hrec. split; [congruence|done]. }
  intros [u|e]; cbn beta iota; [|apply roll_back_good].
  intros w _. by destruct (record_total snapshot w) as [w' ->].
Qed.

Lemma quiet_good {A B} (m : C A) (k : A -> C B) Q :
  moves (same (obs s)) m -> (forall w, is_ok (fst (m w)) = true) ->
  (forall a, hoare last_good (k a) Q failed_good) -> hoare last_good (m ≫= k) Q failed_good.
Proof using Type.
  intros Hm Hok Hk. eapply (hoare_bind _ _ (fun _ => last_good)); [|done].
  intros w Hw. pose proof (last_good_obs_same m Hm w Hw) as Hw'. specialize (Hok w).
  by destruct (m w) as [[a|e] w'].
Qed.

Lemma apply_good snapshot : hoare last_good (apply s snapshot) (fun _ _ => True) failed_good.
Proof using Hdir ND Hpid Hact.
  unfold apply. apply quiet_good; [apply still_obs; run_moves; by intros ? ?|done|intros now0].
  apply quiet_good; [apply still_obs; run_moves; by intros ? ?|done|intros _].
  destruct (negb _); [apply sup_fail_good|]. destruct (negb _); [apply sup_fail_good|].
  apply quiet_good; [apply still_obs; run_moves; by intros ? ?|done|intros [c|]]; [apply sup_fail_good|].
  cbv zeta. eapply (hoare_bind _ _ (fun _ => last_good)); [by apply checked_step, secrets_obs|].
  intros ?; cbn beta. eapply (hoare_bind _ _ (fun _ => last_good)).
  { apply hoare_if; intros _; [by apply hoare_ret|by apply checked_step, checkLocal_obs]. }
  intros ?; cbn beta. apply quiet_good; [apply still_obs; run_moves; by intros ? ?|done|intros n].
  set (tmp := configPath s ("frpc.toml.tmp." ++ itoa n)).
  set (text := renderTOMLForVersion _ _ _).
  eapply (hoare_bind _ _ (fun _ w => last_good w /\ l_files w !! tmp = Some (mkFile text mode_private))).
  { intros w Hw. unfold or_sup_fail, attempt, mbind, M_bind, bind.
    pose proof (last_good_obs_same _ (tmp_obs s Hdir n text mode_private) w Hw) as Hg. fold tmp in Hg.
    destruct (writeDurableFile tmp text mode_private w) as [[u|e] w'] eqn:E; [|by split].
    apply writeDurable_Ok in E. by split. }
  intros ?; cbn beta. intros w Hw. unfold deferred.
  pose proof (switch_good snapshot n _ w Hw) as Hsw. fold tmp in Hsw.
  pose proof (last_good_obs_same _ (remove_tmp_obs s Hdir n)) as Hrm.
  assert (moves (same (fun v => st_State (sm_status (l_sup v)))) (os_Remove tmp)) as Hst by run_moves.
  destruct (switch_config s snapshot tmp w) as [[u|e] w']; [done|]. destruct Hsw as [Hg He].
  split; [by apply Hrm|]. unfold in_error. by rewrite (Hst w').
Qed.
End Failure.

Section FailureTheorem.
Context `{ClientEnv} (s : Supervisor) (Hdir : dataDir s <> ""%string) `{ND : !NoDiskFaults}.
Context (Hpid : ~ pid_area s (binary s)) (Hact : ~ own_file (activePath s) (binary s)).

End FailureTheorem.

(** ** Success *)

Section Success.
Context `{ClientEnv} (s : Supervisor) (Hdir : dataDir s <> ""%string).
Context (snapshot : ClientSnapshot) (n : Z).
Abbreviation tmp := (configPath s ("frpc.toml.tmp." ++ itoa n)).
Abbreviation rendered := (renderTOMLForVersion snapshot (dataDir s) (frpcVersion s)).

(** The events are only added to. *)
Definition grows (w w' : Local) : Prop := exists new, l_events w' = (new ++ l_events w)%list.

(** FRPC was asked to verify these bytes. *)
Definition verified (t : string) (w : Local) : Prop :=
  exists path b, EvExec ["verify"; "-c"; path]%string b (Some t) ∈ l_events w.

(** A live FRPC serves [t]. *)
Definition running_on (t : string) (w : Local) : Prop :=
  is_Some (sm_process (l_sup w)) /\ last_run (l_events w) = Some t.

Lemma verified_kept t {A} (m : C A) :
  moves grows m -> moves (keeping (verified t)) m.
Proof using Type.
  intros Hm w (path & b & Hin). destruct (Hm w) as [new E]. exists path, b. rewrite E. apply elem_of_app. by right.
Qed.

#[local] Instance grows_preorder : PreOrder grows.
Proof.
  split; [by intros w; exists []|]. intros w1 w2 w3 [a E1] [b E2]. exists (b ++ a)%list.
  by rewrite E2, E1, app_assoc.
Qed.

Lemma grows_same {A} (m : C A) :
  moves (same l_events) m -> moves grows m.
Proof using Type. intros Hm w. exists []. apply (Hm w). Qed.

Ltac grow := repeat first
  [ move_step | apply moves_deferred; [typeclasses eauto|..]
  | match goal with |- moves _ (emit ?e) => intros w; by exists [e] end
  | solve [apply grows_same; run_moves] | unfold_prim ].

Lemma grows_start args cfg :
  moves grows (start_process s args cfg).
Proof using Type. apply moves_start; intros w; [by exists []|]. intros pid. by eexists [_]. Qed.
Lemma grows_command args cfg :
  moves grows (run_command s args cfg).
Proof using Type. apply moves_run_command; [typeclasses eauto|intros w; by eexists [_]|intros w; by exists []]. Qed.
#[local] Hint Resolve grows_start grows_command : moves.

Lemma grows_stop : moves grows (stopProcess s).
Proof using Type. unfold stopProcess, await_stop. grow. Qed.
#[local] Hint Resolve grows_stop : moves.
Lemma grows_change (use : bool) :
  moves grows (if use then reload s else restart s).
Proof using Type.
  destruct use; [unfold reload; grow|]. unfold restart, spawn, adopt_process, reap, writePID. grow.
Qed.

Lemma verify_verified :
  hoare (fun w => l_files w !! tmp = Some (mkFile rendered mode_private)) (verify s tmp)
    (fun _ w => l_files w !! tmp = Some (mkFile rendered mode_private) /\ (binary s <> ""%string -> verified rendered w))
    (fun _ => True).
Proof using Type.
  unfold verify. eapply (hoare_bind _ _ (fun _ w => l_files w !! tmp = Some (mkFile rendered mode_private))).
  { intros w Hw. by destruct (String.eqb _ _). }
  intros ?; cbn beta. destruct (String.eqb_spec (binary s) ""); [by apply hoare_ret|].
  eapply (hoare_bind _ _ (fun _ w => l_files w !! tmp = Some (mkFile rendered mode_private))).
  { intros w Hw. pose proof (untouched_verifyBinary s (fun _ => False) w tmp (fun F => F)) as Hf.
    destruct (verifyBinary s w) as [[u|e] w']; [|done]. by rewrite <- Hw, <- Hf. }
  intros ?; cbn beta. eapply (hoare_bind _ _ (fun _ w => l_files w !! tmp = Some (mkFile rendered mode_private) /\ verified rendered w)).
  { intros w Hw. split; [done|]. exists tmp, (f_content <$> l_files w !! binary s). unfold exec_event.
    rewrite Hw. left. }
  intros [out [e|]]; cbn beta iota; [by apply hoare_text|]. apply hoare_ret. by intros w [? ?].
Qed.

Lemma spawn_running w :
  match spawn s w with
  | (Ok _, w') => is_Some (sm_process (l_sup w')) /\ last_run (l_events w') = active_config s w
  | _ => True
  end.
Proof using Type.
  assert (hoare (eq w) (spawn s) (fun _ w' => is_Some (sm_process (l_sup w')) /\
    last_run (l_events w') = active_config s w) (fun _ => True)) as Hh; [|by apply (Hh w)].
  unfold spawn. eapply (hoare_bind _ _ (fun _ => eq w)); [by apply hoare_gets|]. intros identity; cbn beta.
  pose (started := fun v => last_run (l_events v) = active_config s w).
  eapply (hoare_bind _ _ (fun _ => started)).
  { intros v <-. unfold start_process. destruct (ce_start _); [case_bool_decide|]; done. }
  intros pid; cbn beta. eapply (hoare_bind _ _ (fun _ => started)).
  { eapply hoare_weaken; [apply (hoare_attempt started _ (fun _ => started) started (fun _ => True))|done| |done].
    - apply (hoare_same (fun v => last_run (l_events v)) (fun o => o = active_config s w)).
      unfold writePID. run_moves.
    - by intros [] ?. }
  intros [u|e]; cbn beta iota.
  - unfold adopt_process. pose (adopted := fun v => is_Some (sm_process (l_sup v)) /\ started v).
    eapply (hoare_bind _ _ (fun _ => adopted)); [apply hoare_modify; intros v Hv; by split; [eexists|]|].
    intros ?; cbn beta. eapply (hoare_bind _ _ (fun _ => adopted)); [by apply hoare_modify|].
    intros ?; cbn beta. eapply (hoare_bind _ _ (fun _ => adopted)); [by apply hoare_modify|].
    intros ?; cbn beta. eapply (hoare_bind _ _ (fun _ => adopted)); [by apply hoare_draw|].
    intros [|err reaped]; cbn beta iota; [by apply hoare_ret|].
    eapply (hoare_bind _ _ (fun _ _ => True)); [by intros v _|]. intros ?; cbn beta.
    eapply (hoare_bind _ _ (fun _ _ => True)); [by intros v _; destruct (_ v) as [[] ?]|].
    intros ?; cbn beta. by apply hoare_text.
  - eapply (hoare_bind _ _ (fun _ _ => True)); [by intros v _|]. intros ?; cbn beta.
    eapply (hoare_bind _ _ (fun _ _ => True)); [by intros v _|]. intros ?; cbn beta. by apply hoare_text.
Qed.

(** After a successful change FRPC runs the active file. *)
Lemma change_runs t (use : bool) :
  hoare (fun w => active_config s w = Some t /\ (use = true -> is_Some (sm_process (l_sup w))))
    (if use then reload s else restart s)
    (fun _ w => active_config s w = Some t /\ (binary s <> ""%string -> running_on t w)) (fun _ => True).
Proof using Hdir.
  destruct use.
  - unfold reload. eapply (hoare_bind _ _ (fun _ w => active_config s w = Some t /\ is_Some (sm_process (l_sup w)))).
    { intros w [Ha Hp]. pose proof (active_config_untouched s (fun _ => False) _ w (untouched_verifyBinary s _) (fun F => F)) as Hf.
      pose proof (quiet_verifyBinary (fun v => sm_process (l_sup v)) s w) as Hq.
      destruct (verifyBinary s w) as [[u|e] w']; [|done]. simpl in *. unfold same in Hq. rewrite Hf, Hq. auto. }
    intros ?; cbn beta. eapply (hoare_bind _ _ (fun _ w => active_config s w = Some t /\ running_on t w)).
    { intros w [Ha Hp]. split; [done|]. split; [done|]. exact Ha. }
    intros [out [e|]]; cbn beta iota; [by apply hoare_text|]. apply hoare_ret. by intros w [? ?].
  - unfold restart. destruct (String.eqb_spec (binary s) "").
    { intros w [Ha _]. by split. }
    eapply (hoare_bind _ _ (fun _ w => active_config s w = Some t)).
    { intros w [Ha _]. pose proof (active_config_untouched s (fun _ => False) _ w (untouched_verifyBinary s _) (fun F => F)) as Hf.
      destruct (verifyBinary s w) as [[u|e] w']; [|done]. by rewrite <- Ha, <- Hf. }
    intros ?; cbn beta. eapply (hoare_bind _ _ (fun _ w => active_config s w = Some t)).
    { intros w Ha. pose proof (active_config_untouched s _ _ w (untouched_stopProcess s Hdir)) as Hf.
      destruct (stopProcess s w) as [[u|e] w']; [|done]. rewrite <- Ha, <- Hf; [done|by apply not_active]. }
    intros ?; cbn beta. intros w Ha.
    pose proof (active_config_untouched s _ _ w (untouched_spawn s Hdir)) as Hf.
    pose proof (spawn_running w) as Hs. destruct (spawn s w) as [[u|e] w']; [|done].
    split; [rewrite <- Ha, <- Hf; [done|by apply not_active]|]. intros _. rewrite Ha in Hs. exact Hs.
Qed.

Lemma record_spec w :
  let w' := snd (record_applied s snapshot w) in
  sm_process (l_sup w') = sm_process (l_sup w) /\ l_events w' = l_events w /\
  st_State (sm_status (l_sup w')) = Running /\ st_LastError (sm_status (l_sup w')) = ""%string /\
  recorded w' = (cs_ConfigVersion snapshot, cs_ConfigHash snapshot, Some snapshot).
Proof using Type.
  cbv zeta. unfold record_applied.
  set (w1 := bump w). set (w2 := snd (os_MkdirAll w1)).
  set (w3 := snd (atomicWriteDurable (manifestPath s) (manifest_text snapshot (ce_now (l_tick w))) mode_private w2)).
  assert ((sm_process (l_sup w3), l_events w3) = (sm_process (l_sup w), l_events w)) as E.
  { assert (moves (same (fun v => (sm_process (l_sup v), l_events v)))
      (ignore os_MkdirAll;; ignore (atomicWriteDurable (manifestPath s) (manifest_text snapshot (ce_now (l_tick w))) mode_private))) as Hm
      by run_moves.
    exact (Hm w1). }
  injection E as E1 E2.
  split_and!; [exact E1|exact E2|done..].
Qed.

Lemma or_sup_fail_ok f m (P Q : Local -> Prop) :
  hoare P m (fun _ => Q) (fun _ => True) -> hoare P (or_sup_fail f m) (fun _ => Q) (fun _ => True).
Proof using Type.
  intros Hm w Hw. specialize (Hm w Hw). unfold or_sup_fail, attempt, mbind, M_bind, bind.
  by destruct (m w) as [[u|e] w'].
Qed.

Lemma roll_back_fails old e w : is_ok (fst (roll_back s old e w)) = false.
Proof using Type.
  assert (forall A m v, is_ok (fst (sup_fail (A := A) m v)) = false) as Hs by done.
  unfold roll_back, mbind at 1, M_bind at 1, bind at 1.
  match goal with |- context [match ?x with (_, _) => _ end] => destruct x as [[u|e'] w1] end; [apply Hs|done].
Qed.

(** What a successful application leaves. *)
Definition applied (w : Local) : Prop :=
  active_config s w = Some rendered /\ st_State (sm_status (l_sup w)) = Running /\
  st_LastError (sm_status (l_sup w)) = ""%string /\
  recorded w = (cs_ConfigVersion snapshot, cs_ConfigHash snapshot, Some snapshot) /\
  (binary s <> ""%string -> verified rendered w /\ running_on rendered w).

Lemma switch_applies :
  hoare (fun w => l_files w !! tmp = Some (mkFile rendered mode_private)) (switch_config s snapshot tmp)
    (fun _ => applied) (fun _ => True).
Proof using Hdir.
  pose proof (tmp_not_active s Hdir n) as Hne.
  set (ready := fun w => l_files w !! tmp = Some (mkFile rendered mode_private) /\
    (binary s <> ""%string -> verified rendered w)).
  unfold switch_config. eapply (hoare_bind _ _ (fun _ => ready)).
  { eapply hoare_weaken; [apply or_sup_fail_ok, verify_verified|done..]. }
  intros ?; cbn beta. eapply (hoare_bind _ _ (fun _ => ready)).
  { intros w Hw. unfold attempt, os_ReadFile. destruct (ce_disk _); [done|]. by destruct (l_files w !! _). }
  intros old; cbn beta. eapply (hoare_bind _ _ (fun _ => ready)).
  { destruct old as [t|e]; [|by apply hoare_ret]. apply hoare_ignore, hoare_keeping.
    intros w [Ht Hv]. split.
    - rewrite <- Ht. apply (untouched_area s (area s "config/frpc.last-good.toml") "config/frpc.last-good.toml");
        [by intros|by apply lastGoodPath_eq|by apply not_tmp].
    - intros Hb. apply (verified_kept rendered (atomicWriteDurable (lastGoodPath s) t mode_private)); [|by apply Hv].
      apply grows_same. run_moves. }
  intros ?; cbn beta.
  eapply (hoare_bind _ _ (fun _ w => active_config s w = Some rendered /\ (binary s <> ""%string -> verified rendered w))).
  { apply or_sup_fail_ok. intros w [Ht Hv].
    destruct (durableRename tmp (activePath s) w) as [[u|e] w'] eqn:E; [|done].
    pose proof (quiet_rename l_events tmp (activePath s) w) as Hq. rewrite E in Hq. unfold same in Hq. simpl in Hq.
    apply rename_run in E as [(x & Hx & E)|[_ E]]; [|done].
    split; [|intros Hb; unfold verified; rewrite Hq; by apply Hv].
    unfold active_config. rewrite E, lookup_insert_eq. simpl. rewrite Ht in Hx. by injection Hx as <-. }
  intros ?; cbn beta.
  eapply (hoare_bind _ _ (fun use w => (active_config s w = Some rendered /\ (binary s <> ""%string -> verified rendered w)) /\
    (use = true -> is_Some (sm_process (l_sup w))))).
  { apply hoare_gets. intros w Hw. split; [done|]. unfold reloadEligible.
    repeat case_match; intros; try done; by eexists. }
  intros use; cbn beta.
  eapply (hoare_bind _ _ (fun r w => match r with Ok _ => active_config s w = Some rendered /\
     (binary s <> ""%string -> verified rendered w /\ running_on rendered w) | Err _ => True end)).
  { intros w [[Ha Hv] Hu]. unfold attempt. pose proof (change_runs rendered use w (conj Ha Hu)) as Hc.
    pose proof (verified_kept rendered _ (grows_change use) w) as Hk.
    destruct ((if use then reload s else restart s) w) as [[u|e] w']; [|done].
    destruct Hc as [Ha' Hr]. split; [done|]. intros Hb. split; [by apply Hk, Hv|by apply Hr]. }
  intros [u|e]; cbn beta iota.
  - intros w [Ha Hb]. pose proof (record_spec w) as Hrec.
    pose proof (active_config_untouched s _ _ w (untouched_record s Hdir snapshot)) as Hf.
    destruct (record_total s snapshot w) as [w' E]. rewrite E in *. simpl in *.
    destruct Hrec as (E1 & E2 & E3 & E4 & E5). split_and!; [|done..|].
    + rewrite <- Ha. apply Hf. by apply not_active.
    + intros Hbin. destruct (Hb Hbin) as [(p & b & Hin) [Hp Hl]]. unfold verified, running_on. rewrite E1, E2.
      split; [by exists p, b|done].
  - intros w _. pose proof (roll_back_fails old e w) as Hf. by destruct (roll_back s old e w) as [[] w'].
Qed.
End Success.

Section SuccessTheorem.
Context `{ClientEnv} (s : Supervisor) (Hdir : dataDir s <> ""%string).

Lemma apply_applies snapshot :
  hoare (fun _ => True) (apply s snapshot)
    (fun _ w => (valid_metadata snapshot = true /\ frpcVersionAtLeast (frpcVersion s) "0.68.0" = true) /\
       applied s snapshot w) (fun _ => True).
Proof using Hdir.
  assert (forall A P (m : C A), hoare P m (fun _ _ => True) (fun _ => True)) as Hany.
  { intros A P m w _. by destruct (m w) as [[] ?]. }
  unfold apply. do 2 (eapply hoare_bind; [apply Hany|intros ?; cbn beta]).
  destruct (valid_metadata snapshot); cbn [negb]; [|by intros w _].
  destruct (frpcVersionAtLeast _ _); cbn [negb]; [|by intros w _].
  eapply hoare_bind; [apply Hany|intros [c|]; cbn beta iota]; [by intros w _|]. cbv zeta.
  do 3 (eapply hoare_bind; [apply Hany|intros ?; cbn beta]).
  set (tmp := configPath s _). set (text := renderTOMLForVersion _ _ _).
  eapply (hoare_bind _ _ (fun _ w => l_files w !! tmp = Some (mkFile text mode_private))).
  { apply or_sup_fail_ok. intros w _. destruct (writeDurableFile _ _ _ w) as [[u|e] w'] eqn:E; [|done].
    by apply writeDurable_Ok in E. }
  intros ?; cbn beta. intros w Hw. unfold deferred.
  pose proof (switch_applies s Hdir snapshot a3 w Hw) as Hs. fold tmp in Hs.
  destruct (switch_config s snapshot tmp w) as [[u|e] w']; [|done].
  pose proof (active_config_untouched s (eq tmp) _ w' (untouched_Remove (eq tmp) tmp eq_refl)) as Hf.
  assert (moves (same (fun v => (sm_status (l_sup v), l_events v, l_sup v))) (os_Remove tmp)) as Hq by run_moves.
  specialize (Hq w'). unfold same in Hq. injection Hq as E1 E2 E3.
  split; [done|]. destruct Hs as (H1 & H2 & H3 & H4 & H5).
  unfold applied, recorded, verified, running_on in *. rewrite Hf, E2, E3 by (by apply tmp_not_active).
  by split_and!.
Qed.

(** A configuration applied with success was well-formed, is in the file
    FRPC reads, whole, and is recorded as the one in force; a real FRPC was
    asked to verify exactly these bytes, and is live and was last started from
    them or told to reload them. *)
Theorem apply_success snapshot w w' :
  apply s snapshot w = (Ok tt, w') ->
  let text := renderTOMLForVersion snapshot (dataDir s) (frpcVersion s) in
  let st := sm_status (l_sup w') in
  valid_metadata snapshot = true /\
  f_content <$> l_files w' !! activePath s = Some text /\
  (st_State st, st_LastError st, st_AppliedVersion st, st_ConfigHash st) =
    (Running, ""%string, cs_ConfigVersion snapshot, cs_ConfigHash snapshot) /\
  sm_lastSnapshot (l_sup w') = Some snapshot /\
  (binary s <> ""%string -> verified text w' /\ running_on text w').
Proof using Hdir.
  intros E. cbv zeta. pose proof (apply_applies snapshot w I) as Hs. rewrite E in Hs.
  destruct Hs as ([Hv _] & Ha & H1 & H2 & H3 & H4). unfold recorded in H3. injection H3 as H3 H5 H6.
  split_and!; [done|done|congruence|done|done].
Qed.
End SuccessTheorem.
