(* ===== verification/SupervisorRecovery.v ===== *)
(** What the supervisor promises of processes it did not start, and of the
    secrets on disk: only the client's own FRPC is signalled; erasing the
    runtime secrets removes them, and nothing else. *)

From S2P Require Import Prelude StateError GoText GoPath GoNet GoJson Timestamps Encoding Client ClientToml Supervisor ClientLogic SupervisorSpec.
From Stdlib Require Import Ascii String.
Open Scope Z_scope.

Section Erase.
Context `{ClientEnv} (s : Supervisor).

(** The files that hold runtime secrets under their final names. *)
Definition secret_file (p : string) : bool :=
  below (secretDir s) p || below (activePath s) p || below (lastGoodPath s) p.

Lemma removeAll_run path w u w' :
  os_RemoveAll path w = (Ok u, w') ->
  l_files w' = base.filter (fun kv => below path (fst kv) = false) (l_files w) /\ l_sup w' = l_sup w.
Proof. intros E. apply disk_Ok in E as ->. done. Qed.

(** The files without the secret ones. *)
Lemma clear_removes w w' :
  ClearRuntimeSecrets s w = (Ok tt, w') ->
  (forall p, l_files w' !! p = if secret_file p then None else l_files w !! p) /\
  sm_lastSnapshot (l_sup w') = None /\ sm_status (l_sup w') = sm_status (l_sup w).
Proof.
  unfold ClearRuntimeSecrets. intros (u & w3 & E & E')%bind_Ok. cbn [for_each] in E.
  apply bind_Ok in E as (u1 & w1 & [E1 S1]%removeAll_run & E).
  apply bind_Ok in E as (u2 & w2 & [E2 S2]%removeAll_run & E).
  apply bind_Ok in E as (u3 & w4 & [E3 S3]%removeAll_run & E).
  apply (ret_Ok (E := ClErr)) in E as [_ ->]. injection E' as <-.
  split; [|simpl; by rewrite S3, S2, S1]. intros p. cbn [l_files set].
  change (l_files w4 !! p = if secret_file p then None else l_files w !! p).
  rewrite E3, E2, E1, !map_lookup_filter. unfold secret_file.
  destruct (l_files w !! p) as [x|]; simpl; [|by destruct (_ || _)].
  destruct (below (secretDir s) p) eqn:B1; simpl; rewrite ?B1; [done|].
  destruct (below (activePath s) p) eqn:B2; simpl; rewrite ?B2; [done|].
  by destruct (below (lastGoodPath s) p) eqn:B3; simpl; rewrite ?B3.
Qed.
(** Erasing the runtime secrets, when it succeeds, removes the secret files,
    the active configuration and the last good one, leaves every other file as
    it was (a temporary configuration of a client that died among them), and
    forgets the snapshot with the secrets. *)
Theorem clear_erases w w' :
  ClearRuntimeSecrets s w = (Ok tt, w') ->
  (forall p, l_files w' !! p = if secret_file p then None else l_files w !! p) /\
  sm_lastSnapshot (l_sup w') = None /\ sm_status (l_sup w') = sm_status (l_sup w).
Proof. apply clear_removes. Qed.

Lemma clear_total w : (forall n, ce_disk n = None) -> exists w', ClearRuntimeSecrets s w = (Ok tt, w').
Proof.
  intros Hd. unfold ClearRuntimeSecrets. cbn [for_each].
  eexists. unfold mbind, M_bind, bind, os_RemoveAll. rewrite !disk_total by done. reflexivity.
Qed.
End Erase.

(** ** Recovery *)

Section Recover.
Context `{ClientEnv} (s : Supervisor).

(** The [k]-th answer shows a live process of the configured binary. *)
Definition shows_binary (k : nat) : Prop :=
  exists out b, ce_command k = (out, None) /\ processCommandGone (TrimSpace out) = false /\
    abs_of (binary s) = Some b /\ Contains (TrimSpace out) b = true.

(** What recovery does to the process [pid], newest first: nothing, a look, or
    signals, each kind after a look that showed the configured binary. *)
Inductive recovery_events (from : nat) (pid : Z) : list Event -> Prop :=
| re_none : recovery_events from pid []
| re_look : recovery_events from pid [EvPs pid]
| re_interrupt k : (from <= k)%nat -> shows_binary k ->
    recovery_events from pid [EvSignal pid SigInterrupt; EvPs pid]
| re_look_again k : (from <= k)%nat -> shows_binary k ->
    recovery_events from pid [EvPs pid; EvSignal pid SigInterrupt; EvPs pid]
| re_kill k k' : (from <= k < k')%nat -> shows_binary k -> shows_binary k' ->
    recovery_events from pid [EvSignal pid SigKill; EvPs pid; EvSignal pid SigInterrupt; EvPs pid].

Lemma command_line_run pid r w w' :
  processCommandLine pid w = (r, w') ->
  l_events w' = EvPs pid :: l_events w /\ l_tick w' = S (l_tick w) /\ l_files w' = l_files w /\
  forall line, r = Ok line -> exists out, ce_command (l_tick w) = (out, None) /\ line = TrimSpace out.
Proof.
  unfold processCommandLine, mbind, M_bind, bind, emit, modify, draw, text, ret, fail. simpl.
  destruct (ce_command (l_tick w)) as [out [e|]] eqn:E; cbn [fst snd]; intros [= <- <-]; split_and!; try done.
  intros line [= <-]. by exists out.
Qed.

(** The wait after SIGINT: SIGKILL only after another look. *)
Lemma await_orphan_run pid n r w w' :
  await_orphan s pid n w = (r, w') ->
  l_files w' = l_files w /\
  (l_events w' = l_events w \/ l_events w' = EvPs pid :: l_events w \/
   exists k, (l_tick w <= k)%nat /\ shows_binary k /\
     l_events w' = EvSignal pid SigKill :: EvPs pid :: l_events w).
Proof.
  revert w. induction n as [|n IH]; intros w; cbn [await_orphan];
    (unfold processAlive; rewrite (bind_run (draw ce_alive) _ w (ce_alive (l_tick w)) (bump w) eq_refl));
    (destruct (ce_alive (l_tick w)); cbn [negb]; [|by intros [= <- <-]; auto]).
  - rewrite (bind_run (draw ce_orphan) _ (bump w) (ce_orphan (S (l_tick w))) (bump (bump w)) eq_refl).
    destruct (ce_orphan _); [by intros [= <- <-]; auto|].
    destruct (processCommandLine pid (bump (bump w))) as [r1 w1] eqn:E1.
    rewrite (bind_run (attempt _) _ _ r1 w1) by (unfold attempt; by rewrite E1).
    apply command_line_run in E1 as (Ev & Tk & Fs & Hl). destruct r1 as [line|e].
    + destruct (Hl line eq_refl) as (out & Ho & ->). destruct (processCommandGone _) eqn:Eg.
      { intros [= <- <-]. simpl in *. by auto. }
      unfold Abs. destruct (abs_of (binary s)) as [b|] eqn:Eb; [|intros [= <- <-]; by auto].
      rewrite (bind_run (or_fail _ (Some b)) _ w1 b w1 eq_refl).
      destruct (Contains _ _) eqn:Ec; cbn [negb]; [|intros [= <- <-]; by auto].
      unfold send_signal. intros E. split.
      * transitivity (l_files w1); [|exact Fs]. unfold mbind, M_bind, bind, emit, modify, draw in E.
        destruct (ce_signal _); by injection E as <- <-.
      * right. right. exists (S (S (l_tick w))). split; [lia|]. split; [by exists out, b|].
        unfold mbind, M_bind, bind, emit, modify, draw in E.
        destruct (ce_signal _); injection E as <- <-; simpl; by rewrite Ev.
    + unfold mbind, M_bind, bind, draw. destruct (ce_alive _); intros [= <- <-]; simpl; by auto.
  - intros E. apply IH in E as [E1 [E2|[E2|(k & ? & ? & E2)]]]; (split; [done|]); auto.
    right. right. exists k. split; [simpl in *; lia|done].
Qed.

Lemma terminate_run pid r w w' :
  terminateOrphan s pid w = (r, w') ->
  l_files w' = l_files w /\
  (l_events w' = EvSignal pid SigInterrupt :: l_events w \/
   l_events w' = EvPs pid :: EvSignal pid SigInterrupt :: l_events w \/
   exists k, (l_tick w < k)%nat /\ shows_binary k /\
     l_events w' = EvSignal pid SigKill :: EvPs pid :: EvSignal pid SigInterrupt :: l_events w).
Proof.
  unfold terminateOrphan. set (w1 := bump (w <| l_events ::= cons (EvSignal pid SigInterrupt) |>)).
  rewrite (bind_run (send_signal pid SigInterrupt) _ w (ce_signal (l_tick w)) w1 eq_refl).
  assert (forall n, await_orphan s pid n w1 = (r, w') -> l_files w' = l_files w /\
    (l_events w' = EvSignal pid SigInterrupt :: l_events w \/
     l_events w' = EvPs pid :: EvSignal pid SigInterrupt :: l_events w \/
     exists k, (l_tick w < k)%nat /\ shows_binary k /\
       l_events w' = EvSignal pid SigKill :: EvPs pid :: EvSignal pid SigInterrupt :: l_events w)) as Hw.
  { intros n E. apply await_orphan_run in E as [E1 [E2|[E2|(k & ? & ? & E2)]]]; (split; [done|]); auto.
    right. right. exists k. split; [simpl in *; lia|done]. }
  destruct (ce_signal (l_tick w)); [apply Hw..|].
  unfold mbind, M_bind, bind, processAlive, draw. destruct (ce_alive _); intros [= <- <-]; auto.
Qed.

Lemma forget_events pid w : l_events (snd (forget_orphan s pid w)) = l_events w.
Proof.
  assert (moves (same l_events) (forget_orphan s pid)) as Hm; [|apply (Hm w)].
  unfold forget_orphan, clearRecoveredRuntime, ClearRuntimeSecrets. run_moves.
Qed.

(** Recovery touches only the process its own marker names: never the
    client itself, never without a configured binary, and each signal follows a
    look at the process that showed the configured binary, SIGKILL a second
    one. *)
Theorem recovery_signals w r w' :
  recoverOrphan s w = (r, w') ->
  l_events w' = l_events w \/
  exists marker pid new,
    f_content <$> l_files w !! pidPath s = Some marker /\ Atoi (TrimSpace marker) = Some pid /\
    1 <= pid /\ pid <> ce_pid /\ TrimSpace (binary s) <> ""%string /\
    recovery_events (l_tick w) pid new /\ l_events w' = (new ++ l_events w)%list.
Proof.
  assert (moves (same l_events) (clearRecoveredRuntime s)) as Hclear.
  { unfold clearRecoveredRuntime, ClearRuntimeSecrets. run_moves. }
  unfold recoverOrphan. destruct (os_ReadFile (pidPath s) w) as [rd w1] eqn:Erd.
  rewrite (bind_run (attempt _) _ w rd w1) by (unfold attempt; by rewrite Erd).
  assert (w1 = bump w /\ forall t, rd = Ok t -> f_content <$> l_files w !! pidPath s = Some t) as [-> Hrd].
  { unfold os_ReadFile in Erd. destruct (ce_disk _); [|destruct (l_files w !! pidPath s)]; simplify_eq; split; try done.
    intros t [= <-]. done. }
  destruct rd as [marker|[e|e|? ? ?]]; [|by intros [= <- <-]; left| |by intros [= <- <-]; left].
  2:{ intros E. left. pose proof (Hclear (bump w)) as Hc. rewrite E in Hc. exact Hc. }
  specialize (Hrd marker eq_refl).
  destruct (Atoi (TrimSpace marker)) as [pid|] eqn:Ea; [|by intros [= <- <-]; left].
  destruct (pid <? 1) eqn:E1; [by intros [= <- <-]; left|]. apply Z.ltb_ge in E1.
  destruct (pid =? ce_pid) eqn:E2; [by intros [= <- <-]; left|]. apply Z.eqb_neq in E2.
  destruct (String.eqb_spec (TrimSpace (binary s)) "") as [|Eb].
  { intros E. left. pose proof (forget_events pid (bump w)) as Hf. rewrite E in Hf. exact Hf. }
  intros E. right. exists marker, pid.
  enough (exists new, recovery_events (l_tick w) pid new /\ l_events w' = (new ++ l_events w)%list) as (new & ? & ?)
    by (exists new; by split_and!).
  destruct (processCommandLine pid (bump w)) as [r1 w2] eqn:Ec.
  rewrite (bind_run (attempt _) _ _ r1 w2) in E by (unfold attempt; by rewrite Ec).
  apply command_line_run in Ec as (Ev & Tk & Fs & Hl).
  assert (exists new, recovery_events (l_tick w) pid new /\ l_events w2 = (new ++ l_events w)%list) as Hlook.
  { exists [EvPs pid]. split; [constructor|]. by rewrite Ev. }
  destruct r1 as [line|e].
  - destruct (Hl line eq_refl) as (out & Ho & ->). simpl in Ho, Tk.
    destruct (processCommandGone _) eqn:Eg.
    { pose proof (forget_events pid w2) as Hf. rewrite E in Hf. simpl in Hf. by rewrite Hf. }
    unfold Abs in E. destruct (abs_of (binary s)) as [b|] eqn:Eab; [|by injection E as <- <-].
    rewrite (bind_run (or_fail _ (Some b)) _ w2 b w2 eq_refl) in E.
    destruct (Contains _ _) eqn:Eco; cbn [negb] in E; [|by injection E as <- <-].
    assert (shows_binary (S (l_tick w))) as Hsh by (by exists out, b).
    destruct (terminateOrphan s pid w2) as [r3 w3] eqn:Et. pose proof (terminate_run _ _ _ _ Et) as [_ Hev].
    assert (l_events w' = l_events w3) as ->.
    { destruct r3 as [u|e]; [rewrite (bind_run _ _ _ _ _ Et) in E|rewrite (bind_fail _ _ _ _ _ Et) in E; by injection E as <- <-].
      pose proof (forget_events pid w3) as Hf. rewrite E in Hf. exact Hf. }
    destruct Hev as [->|[->|(k & Hk & Hs & ->)]]; rewrite Ev; change (l_events (bump w)) with (l_events w).
    + exists [EvSignal pid SigInterrupt; EvPs pid]. split; [|done]. by apply (re_interrupt _ _ (S (l_tick w))); [lia|].
    + exists [EvPs pid; EvSignal pid SigInterrupt; EvPs pid]. split; [|done].
      by apply (re_look_again _ _ (S (l_tick w))); [lia|].
    + exists [EvSignal pid SigKill; EvPs pid; EvSignal pid SigInterrupt; EvPs pid]. split; [|done].
      apply (re_kill _ _ (S (l_tick w)) k); [simpl in *; lia|done..].
  - unfold mbind, M_bind, bind, processAlive, draw in E. destruct (ce_alive _); cbn [negb] in E.
    + by injection E as <- <-.
    + pose proof (forget_events pid (bump w2)) as Hf. rewrite E in Hf. simpl in Hf. by rewrite Hf.
Qed.
End Recover.
