(* ===== verification/ClientApp.v ===== *)
(** The client application ([client/internal/app/app.go]): the session with the
    Server Panel, the requests made with it, the cache that stands in for an
    unreachable server, and the configurations fetched and applied; and the command
    that starts and stops it ([client/cmd/client/main.go]).

    Every method runs to its end before another one starts; what the goroutines
    of the WebSocket can interleave is in [ClientWebSocket]. *)

From S2P Require Import Prelude StateError GoText GoNet GoUrl GoPath GoJson GoJsonRead Timestamps Encoding Client ClientSecurity ClientWebSocket ClientToml Supervisor.
From Stdlib Require Import Ascii String.
Open Scope Z_scope.

Definition ClientVersion : string := "0.1.0".

(** [ClientSession] *)
Record ClientSession := mkClientSession {
  se_CSRFToken : string;
  se_User : option (gmap string JSON);
  se_ServerPanelURL : string;
  se_ExpiresAt : option Stamp
}.

(** The answer to a login. *)
Record LoginResponse := mkLoginResponse {
  lr_Token : string;
  lr_User : option (gmap string JSON);
  lr_RuntimeCredential : string;
  lr_FRPUsername : string;
  lr_FRPSecret : string;
  lr_FRPSTransportSecret : string
}.
#[export] Instance Eta_LoginResponse : Eta LoginResponse := fun r =>
  mkLoginResponse r.(lr_Token) r.(lr_User) r.(lr_RuntimeCredential) r.(lr_FRPUsername)
    r.(lr_FRPSecret) r.(lr_FRPSTransportSecret).
Definition zero_login : LoginResponse := mkLoginResponse "" None "" "" "" "".

(** [NewAppMemory]: the zero values, an empty cache. *)
Definition new_app : AppMemory :=
  mkAppMemory "" "" "" false "" "" "" "" "" "" None None ∅ zero_snapshot ws_zero.

(** ** What is decoded *)

Section Targets.
Context `{ClientEnv}.

(** Values that are only read; what they encode to is never used. *)
Definition read_only {A} (decode : JText -> A -> A * bool) : Target A := mkTarget decode (fun _ => "null"%string).

Definition decode_time (t : JText) {A} (a : A) : A * bool :=
  match t with
  | TString s => (a, ce_time_ok s)
  | TNull => (a, true)
  | _ => (a, false)
  end.

Definition login_target : Target LoginResponse := read_only (decode_struct (assign_fields [
  ("token", on_field lr_Token (fun f r => r <| lr_Token ::= f |>) decode_string);
  ("user", on_field lr_User (fun f r => r <| lr_User ::= f |>) decode_map);
  ("session_expires_at", fun t => decode_time t);
  ("runtime_credential", on_field lr_RuntimeCredential (fun f r => r <| lr_RuntimeCredential ::= f |>) decode_string);
  ("frp_username", on_field lr_FRPUsername (fun f r => r <| lr_FRPUsername ::= f |>) decode_string);
  ("frp_secret", on_field lr_FRPSecret (fun f r => r <| lr_FRPSecret ::= f |>) decode_string);
  ("frps_transport_secret", on_field lr_FRPSTransportSecret (fun f r => r <| lr_FRPSTransportSecret ::= f |>) decode_string)
  ]%string)).

Definition snapshot_target : Target ClientSnapshot := mkTarget (decode_struct (assign_fields [
  ("schema_version", on_field cs_SchemaVersion (fun f r => r <| cs_SchemaVersion ::= f |>) decode_string);
  ("config_version", on_field cs_ConfigVersion (fun f r => r <| cs_ConfigVersion ::= f |>) decode_int64);
  ("user_id", on_field cs_UserID (fun f r => r <| cs_UserID ::= f |>) decode_string);
  ("session_generation", on_field cs_SessionGeneration (fun f r => r <| cs_SessionGeneration ::= f |>) decode_int64);
  ("issued_at", on_field cs_IssuedAt (fun f r => r <| cs_IssuedAt ::= f |>) decode_string);
  ("expires_at", on_field cs_ExpiresAt (fun f r => r <| cs_ExpiresAt ::= f |>) decode_string);
  ("config_hash", on_field cs_ConfigHash (fun f r => r <| cs_ConfigHash ::= f |>) decode_string);
  ("signing_key_id", on_field cs_SigningKeyID (fun f r => r <| cs_SigningKeyID ::= f |>) decode_string);
  ("signature", on_field cs_Signature (fun f r => r <| cs_Signature ::= f |>) decode_string);
  ("payload", on_field cs_Payload (fun f r => r <| cs_Payload ::= f |>) decode_map)
  ]%string)) marshal_snapshot.

Definition key_target : Target string := read_only (decode_struct (assign_fields [("public_key"%string, decode_string)])).

(** The fields [code] and [detail] of an error answer. *)
Definition problem_target : Target (string * string) := read_only (decode_struct (assign_fields [
  ("code", on_field fst (fun f p => (f (fst p), snd p)) decode_string);
  ("detail", on_field snd (fun f p => (fst p, f (snd p))) decode_string)
  ]%string)).

Definition map_target : Target (option (gmap string JSON)) := mkTarget decode_map marshal_payload.
End Targets.

(** ** Memory *)

Definition set_app (f : AppMemory -> AppMemory) : C unit := modify (fun w => w <| l_app ::= f |>).
Definition get_app {A} (f : AppMemory -> A) : C A := gets (fun w => f (l_app w)).
Definition set_ws (f : WsState -> WsState) : C unit := set_app (fun a => a <| am_ws ::= f |>).

Definition startWebSocket : C unit := set_ws start_ws.
Definition stopWebSocket : C unit := set_ws stop_ws.
Definition setServerReachable (value : bool) : C unit := set_app (fun a => a <| am_serverReachable := value |>).

(** The session that Logout erases. *)
Definition erase_session (a : AppMemory) : AppMemory :=
  a <| am_serverToken := ""%string |> <| am_serverURL := ""%string |> <| am_serverSPKIPin := ""%string |>
    <| am_serverReachable := false |> <| am_runtimeCredential := ""%string |> <| am_frpUsername := ""%string |>
    <| am_frpSecret := ""%string |> <| am_frpsTransportSecret := ""%string |> <| am_localSession := ""%string |>
    <| am_csrfToken := ""%string |> <| am_user := None |> <| am_expiresAt := None |>
    <| am_lastConfig := zero_snapshot |> <| am_lastCache := ∅ |>.

(** What [invalidateRemoteSession] erases: the transport secret stays. *)
Definition invalidate_session (a : AppMemory) : AppMemory :=
  a <| am_serverToken := ""%string |> <| am_serverURL := ""%string |> <| am_serverSPKIPin := ""%string |>
    <| am_runtimeCredential := ""%string |> <| am_frpUsername := ""%string |> <| am_frpSecret := ""%string |>
    <| am_localSession := ""%string |> <| am_csrfToken := ""%string |> <| am_user := None |>
    <| am_expiresAt := None |> <| am_lastConfig := zero_snapshot |> <| am_lastCache := ∅ |>
    <| am_serverReachable := false |>.

Section App.
Context `{ClientEnv} `{GoUrl} (cfg : ClientConfig).

(** The supervisor [New] makes. *)
Definition sup : Supervisor :=
  NewSupervisor (cf_DataDir cfg) (cf_FRPCBinary cfg) (cf_FRPCBinarySHA256 cfg) (cf_FRPCVersion cfg).

Definition development : bool := String.eqb (cf_Environment cfg) "development".

(** ** Requests *)

(** [randomToken] *)
Definition randomToken : C string :=
  raw ← draw ce_random;
  match raw with
  | Some bytes => ret (b64_encode url_alphabet bytes)
  | None => text "random"
  end.

(** The pin the connection checks; no pin means the trust of the system. *)
Definition serverHTTPClientFor (baseURL pin : string) : res ClErr string :=
  if String.eqb (TrimSpace pin) "" then Ok ""%string
  else
    let err := Err (EText "certificate pin requires an https Server Panel address") in
    match url_Parse baseURL with
    | Err _ => err
    | Ok parsed =>
        if negb (String.eqb (u_Scheme parsed) "https") || String.eqb (Hostname parsed) "" then err
        else match PinnedTLSConfig (Hostname parsed) pin with
             | Err e => Err (EText e)
             | Ok (_, pin) => Ok pin
             end
    end.

Definition of_res {A} (r : res ClErr A) : C A := match r with Ok a => ret a | Err e => fail e end.
Definition of_text {A} (r : res string A) : C A := match r with Ok a => ret a | Err e => text e end.

Definition writes (method : string) : bool := existsb (String.eqb method) ["POST"; "PUT"; "DELETE"]%string.

(** The [Idempotency-Key] of a writing request. *)
Definition idempotency_key (method : string) (keys : list string) : C (option string) :=
  if writes method then
    let given := match keys with k :: _ => TrimSpace k | [] => ""%string end in
    if String.eqb given "" then fresh ← new_id; ret (Some fresh) else ret (Some given)
  else ret None.

(** [io.LimitReader]: at most 2 MiB are read. *)
Definition limit_body (data : string) : string :=
  if Z.of_nat (String.length data) <=? 2 ^ 21 then data else take_str (Z.to_nat (2 ^ 21)) data.

(** From the request to the data of a successful answer. *)
Definition exchange (baseURL pin method path : string) (payload : option JSON) (token : string)
    (keys : list string) : C string :=
  requestURL ← of_text (url_JoinPath (TrimRight baseURL ["/"%char]) path);
  _ ← of_text (url_Parse requestURL);
  requestID ← new_id;
  key ← idempotency_key method keys;
  checked ← of_res (serverHTTPClientFor baseURL pin);
  let request := mkHttpRequest requestURL checked method token requestID key payload in
  emit (EvRequest request);;
  reply ← draw (fun n => ce_http n request);
  match reply with
  | NoReply e => text e
  | Reply status body =>
      let data := limit_body body in
      if (status <? 200) || (300 <=? status) then
        let '(code, detail) := fst (json_unmarshal problem_target data (""%string, ""%string)) in
        fail (ERemote status code detail)
      else ret data
  end.

(** [json.Unmarshal(data, response)] unless there is nothing to decode, or into:
    the variable and the error. *)
Definition read_response {A} (response : option (Target A)) (a : A) (r : res ClErr string)
    : A * option ClErr :=
  match r with
  | Err e => (a, Some e)
  | Ok data =>
      match response with
      | Some T =>
          if String.eqb data "" then (a, None)
          else let '(a', ok) := json_unmarshal T data a in
               (a', if ok then None else Some (EText (ce_json_error data)))
      | None => (a, None)
      end
  end.

(** The variable [response] points to, as the call leaves it, and the error. *)
Definition serverRequestWithPin {A} (baseURL pin method path : string) (payload : option JSON)
    (token : string) (response : option (Target A)) (a : A) (keys : list string) : C (A * option ClErr) :=
  r ← attempt (exchange baseURL pin method path payload token keys);
  ret (read_response response a r).

Definition serverRequest {A} (baseURL method path : string) (payload : option JSON)
    (token : string) (response : option (Target A)) (a : A) (keys : list string) : C (A * option ClErr) :=
  pin ← get_app (fun m =>
    if String.eqb (TrimRight baseURL ["/"%char]) (TrimRight (am_serverURL m) ["/"%char])
    then am_serverSPKIPin m else ""%string);
  serverRequestWithPin baseURL pin method path payload token response a keys.

(** ** The end of a session *)

Definition invalidateRemoteSession : C unit :=
  stopWebSocket;;
  ignore (Stop sup);;
  ignore (ClearRuntimeSecrets sup);;
  set_app invalidate_session.

Definition logout_path : string := "/api/v1/auth/logout".

Definition Logout : C unit :=
  stopWebSocket;;
  token ← get_app am_serverToken;
  urlValue ← get_app am_serverURL;
  pin ← get_app am_serverSPKIPin;
  (if String.eqb token "" then ret tt
   else _ ← serverRequestWithPin urlValue pin "POST" logout_path None token None tt []; ret tt);;
  ignore (Stop sup);;
  ignore (ClearRuntimeSecrets sup);;
  set_app erase_session.

(** ** The local session *)

Definition ValidateLocal (cookie : string) : C bool :=
  now ← time_now;
  get_app (fun m =>
    negb (String.eqb cookie "") && String.eqb cookie (am_localSession m) &&
    match am_expiresAt m with Some t => now <? t | None => false end).

Definition CSRFValid (value : string) (m : AppMemory) : bool :=
  negb (String.eqb value "") && String.eqb value (am_csrfToken m).

Definition Session (m : AppMemory) : ClientSession :=
  mkClientSession (am_csrfToken m) (am_user m) (am_serverURL m) (am_expiresAt m).

(** ** The cache and the proxy *)

Definition cached_paths : list string :=
  ["/api/v1/dashboard"; "/api/v1/mappings"; "/api/v1/domains"; "/api/v1/operations"; "/api/v1/config/full"]%string.

Definition cacheResponse {A} (path : string) (response : option (Target A)) (a : A) : C unit :=
  match response with
  | Some T =>
      if existsb (String.eqb path) cached_paths
      then set_app (fun m => m <| am_lastCache ::= <[path := tg_encode T a]> |>)
      else ret tt
  | None => ret tt
  end.

(** The variable after decoding the entry, and whether that succeeded. *)
Definition loadCached {A} (path : string) (response : option (Target A)) (a : A) (m : AppMemory) : A * bool :=
  match response with
  | None => (a, false)
  | Some T =>
      match am_lastCache m !! path with
      | Some encoded => if String.eqb encoded "" then (a, false) else json_unmarshal T encoded a
      | None => (a, false)
      end
  end.

(** The codes that end the session. *)
Definition ends_session (code : string) : bool :=
  existsb (String.eqb code) ["SESSION_REPLACED"; "SESSION_EXPIRED"; "AUTH_USER_DISABLED"]%string.

Definition is_get (method : string) : bool := String.eqb method "GET".

(** A read is answered from the cache, if it can be. *)
Definition from_cache {A} (method path : string) (response : option (Target A)) (a : A) (e : ClErr)
    : C (A * option ClErr) :=
  if is_get method then
    r ← get_app (loadCached path response a);
    if (snd r : bool) then setServerReachable false;; ret (fst r, None) else ret (fst r, Some e)
  else ret (a, Some e).

Definition Proxy {A} (method path : string) (body : option JSON) (csrf : string)
    (response : option (Target A)) (a : A) (keys : list string) : C (A * option ClErr) :=
  token ← get_app am_serverToken;
  urlValue ← get_app am_serverURL;
  pin ← get_app am_serverSPKIPin;
  if String.eqb token "" || String.eqb urlValue ""
  then from_cache method path response a (EText "client session is offline")
  else
    valid ← get_app (CSRFValid csrf);
    if negb (is_get method) && negb (String.eqb method "HEAD") && negb (valid : bool)
    then ret (a, Some (EText "local csrf validation failed"))
    else
      r ← serverRequestWithPin urlValue pin method path body token response a keys;
      match snd r with
      | None => setServerReachable true;; cacheResponse path response (fst r);; ret (fst r, None)
      | Some (ERemote status code detail) =>
          (if ends_session code then invalidateRemoteSession else ret tt);;
          if status <? 500 then ret (fst r, Some (ERemote status code detail))
          else from_cache method path response (fst r) (ERemote status code detail)
      | Some e => from_cache method path response (fst r) e
      end.

(** ** Configurations *)

(** A [if err != nil { return err }] after a call that fills a variable. *)
Definition or_return {A} (m : C (A * option ClErr)) : C A :=
  r ← m;
  match snd r with
  | None => ret (fst r)
  | Some e => fail e
  end.

(** [hex.DecodeString] gives 32 bytes. *)
Definition public_key (hex : string) : option string :=
  match hex_decode hex with
  | Some k => if Nat.eqb (String.length k) 32 then Some k else None
  | None => None
  end.

Definition fetchConfig : C ClientSnapshot :=
  snapshot ← or_return (Proxy "GET" "/api/v1/config/full" None "" (Some snapshot_target) zero_snapshot []);
  token ← get_app am_serverToken;
  serverURL ← get_app am_serverURL;
  key ← or_return (serverRequest serverURL "GET" "/api/v1/config/signing-key" None token (Some key_target) ""%string []);
  match public_key key with
  | Some k => if VerifySnapshot snapshot k then ret snapshot else text "config signature verification failed"
  | None => text "config signature verification failed"
  end.

(** The payload with the secrets of the session. *)
Definition with_secrets (m : AppMemory) (payload : gmap string JSON) : gmap string JSON :=
  <["runtime_credential" := JString (am_runtimeCredential m)]>
  (<["frps_transport_secret" := JString (am_frpsTransportSecret m)]>
  (<["frp_user_secret" := JString (am_frpSecret m)]>
  (<["frp_secret" := JString (am_frpSecret m)]>
  (<["frp_username" := JString (am_frpUsername m)]> payload))))%string.

(** The report of an application. *)
Definition apply_report (snapshot : ClientSnapshot) (r : res ClErr unit) : JSON :=
  JObject (([("applied_config_hash", JString (cs_ConfigHash snapshot));
             ("client_panel_version", JString ClientVersion);
             ("config_version", JInt (cs_ConfigVersion snapshot))]%string ++
            match r with
            | Ok _ => []
            | Err e => [("error_code", JString "FRPC_VERIFY_FAILED"); ("error_message", JString (Error e))]%string
            end ++
            [("frpc_version", JString (cf_FRPCVersion cfg));
             ("status", JString (if is_ok r then "succeeded" else "failed"))]%string)%list).

(** The supervisor's [ClearRuntimeSecrets] also deletes four keys of the map it
    was last given, which is that of [lastConfig]; [lastConfig] is never read. *)
Definition applySnapshot (snapshot : ClientSnapshot) : C unit :=
  payload ← get_app (fun m => with_secrets m (payload_of snapshot));
  let snapshot := snapshot <| cs_Payload := Some payload |> in
  set_app (fun m => m <| am_lastConfig := snapshot |>);;
  r ← attempt (Apply sup snapshot);
  token ← get_app am_serverToken;
  serverURL ← get_app am_serverURL;
  serverRequest serverURL "POST" "/api/v1/config/apply-result" (Some (apply_report snapshot r)) token
    (Some map_target) (Some ∅) [];;
  of_res r.

Definition FetchConfigAndApply : C unit := snapshot ← fetchConfig; applySnapshot snapshot.

(** ** Login *)

Definition login_body (username password : string) : JSON :=
  JObject [("password", JString password); ("username", JString username)]%string.

(** The session of a login; what belonged to the session before goes. *)
Definition new_session (url pin local csrf : string) (r : LoginResponse) (expires : Stamp)
    (a : AppMemory) : AppMemory :=
  a <| am_serverURL := url |> <| am_serverToken := lr_Token r |> <| am_serverSPKIPin := pin |>
    <| am_serverReachable := true |> <| am_runtimeCredential := lr_RuntimeCredential r |>
    <| am_frpUsername := lr_FRPUsername r |> <| am_frpSecret := lr_FRPSecret r |>
    <| am_frpsTransportSecret := lr_FRPSTransportSecret r |> <| am_localSession := local |>
    <| am_csrfToken := csrf |> <| am_user := lr_User r |> <| am_expiresAt := Some expires |>
    <| am_lastCache := ∅ |> <| am_lastConfig := zero_snapshot |>.

Definition LoginWithTrust (serverURL username password trustedSPKI : string) : C ClientSession :=
  normalized ← of_text (NormalizeServerURL serverURL development);
  trusted ← of_text (NormalizeSPKIHash trustedSPKI);
  oldToken ← get_app am_serverToken;
  oldURL ← get_app am_serverURL;
  oldPin ← get_app am_serverSPKIPin;
  let pin := if String.eqb trusted "" && String.eqb oldURL normalized then oldPin else trusted in
  response ← or_return (serverRequestWithPin normalized pin "POST" "/api/v1/auth/client-login"
    (Some (login_body username password)) "" (Some login_target) zero_login []);
  if String.eqb (lr_Token response) "" then text "server did not return a session"
  else
    (if negb (String.eqb oldToken "") && negb (String.eqb oldURL "")
     then _ ← serverRequestWithPin oldURL oldPin "POST" logout_path None oldToken None tt []; ret tt
     else ret tt);;
    stopWebSocket;;
    local ← randomToken;
    csrf ← randomToken;
    now ← time_now;
    set_app (new_session normalized pin local csrf response (now + 30 * minute));;
    (if String.eqb oldToken "" then ret tt
     else ignore (Stop sup);; ignore (ClearRuntimeSecrets sup));;
    r ← attempt fetchConfig;
    (match r with Ok snapshot => ignore (applySnapshot snapshot) | Err _ => ret tt end);;
    startWebSocket;;
    expires ← get_app am_expiresAt;
    ret (mkClientSession csrf (lr_User response) normalized expires).

Definition Login (serverURL username password : string) : C ClientSession :=
  LoginWithTrust serverURL username password "".

(** ** The WebSocket *)

(** A message of the server, when the goroutine is the current one: whether the
    session ended. *)
Definition handle_message (m : WsMessage) : C bool :=
  match m with
  | MsgInvalidate => invalidateRemoteSession;; ret true
  | MsgShutdown => ignore (Stop sup);; ignore (ClearRuntimeSecrets sup);; ret false
  | MsgSync => ignore FetchConfigAndApply;; ret false
  | MsgOther => ret false
  end.

(** [dialServerWebSocketWithPin] *)
Definition dialServerWebSocketWithPin (baseURL token pin origin : string) : C DialResult :=
  wsURL ← of_text (websocketURL baseURL);
  checked ← (if String.eqb (TrimSpace pin) "" then ret ""%string
             else parsed ← of_text (url_Parse baseURL);
                  c ← of_text (PinnedTLSConfig (Hostname parsed) pin); ret (snd c));
  emit (EvDial wsURL token checked);;
  draw ce_ws.

(** ** The command ([client/cmd/client/main.go]) *)

Definition client_dirs : list string :=
  [cf_DataDir cfg; Join [cf_DataDir cfg; "config"]; Join [cf_DataDir cfg; "state"];
   Join [cf_DataDir cfg; "runtime"; "secrets"]; Join [cf_DataDir cfg; "logs"]]%string.
Definition EnsureDirs : C unit := for_each client_dirs (fun _ => os_MkdirAll).

(** [app.New] *)
Definition new_client : C unit := modify (fun w => w <| l_sup := new_memory sup w |> <| l_app := new_app |>).

(** The start, with the exit code when it ends there.  [listen n] is why the listener
    does not open at effect [n]. *)
Definition client_start (listen : nat -> option string) : C (option Z) :=
  dirs ← attempt EnsureDirs;
  match dirs with
  | Err _ => ret (Some 1)
  | Ok _ =>
      match ValidateListenSecurity cfg with
      | Err _ => ret (Some 1)
      | Ok _ =>
          new_client;;
          ignore (RecoverOrphan sup);;
          failed ← draw listen;
          match failed with Some _ => ret (Some 1) | None => ret None end
      end
  end.

(** After the signal. *)
Definition client_stop : C Z := ignore Logout;; ret 0.

Lemma dirs_events (l : list string) w : l_events (snd (for_each l (fun _ => os_MkdirAll) w)) = l_events w.
Proof.
  assert (moves (same l_events) (for_each l (fun _ => os_MkdirAll))) as Hm; [|apply (Hm w)].
  apply moves_for_each; [typeclasses eauto|]. intros _ w1. unfold os_MkdirAll, disk. by case_match.
Qed.

(** The client serves only on an address that passed the check, and touches no
    process before it. *)
Theorem client_start_checked listen w r w' :
  client_start listen w = (Ok r, w') -> r = None \/ l_events w' <> l_events w -> ValidateListenSecurity cfg = Ok tt.
Proof.
  unfold client_start. intros (dirs & w1 & E1 & E)%bind_Ok Hr. apply (proj1 (attempt_Ok _ _ _ _)) in E1.
  pose proof (dirs_events client_dirs w) as He. change (for_each client_dirs _ w) with (EnsureDirs w) in He. rewrite E1 in He. cbn in He.
  destruct dirs as [u|e].
  - destruct (ValidateListenSecurity cfg) as [[]|e]; [done|]. injection E as <- <-. by destruct Hr.
  - injection E as <- <-. by destruct Hr.
Qed.
End App.
