(* ===== verification/ClientAppSpec.v ===== *)
(** What the client application promises: a session that ends leaves nothing
    behind, only signed configurations reach the supervisor, the cache speaks
    only for a server that cannot be reached, a token goes only to its server. *)

From S2P Require Import Prelude StateError GoText GoNet GoUrl GoPath GoJson GoJsonRead GoJsonSpec Timestamps Encoding Client ClientSecurity ClientWebSocket ClientToml Supervisor ClientLogic SupervisorSpec SupervisorRecovery ClientApp.
From Stdlib Require Import Ascii String.
Open Scope Z_scope.

(** ** The supervisor leaves the application alone *)

Ltac sup_moves :=
  repeat first [ solve [eauto 3 with moves nocore typeclass_instances] | move_step | move_prim | unfold_prim
    | match goal with
      | |- moves _ (verify _ _) => unfold verify
      | |- moves _ (reload _) => unfold reload
      | |- moves _ (restart _) => unfold restart
      | |- moves _ (spawn _) => unfold spawn
      | |- moves _ (writePID _ _) => unfold writePID
      | |- moves _ (adopt_process _ _ _) => unfold adopt_process
      | |- moves _ (reap _ _) => unfold reap
      | |- moves _ (stopProcess _) => unfold stopProcess
      | |- moves _ (await_stop _ _) => unfold await_stop
      | |- moves _ (roll_back _ _ _) => unfold roll_back
      | |- moves _ (record_applied _ _) => unfold record_applied
      | |- moves _ (switch_config _ _ _) => unfold switch_config
      | |- moves _ (writeRuntimeSecrets _ _) => unfold writeRuntimeSecrets
      | |- moves _ (write_secret _ _) => unfold write_secret
      | |- moves _ (checkLocalServices _) => unfold checkLocalServices
      | |- moves _ (check_service _ _ _) => unfold check_service
      | |- moves _ (ClearRuntimeSecrets _) => unfold ClearRuntimeSecrets
      | |- moves _ (clearRecoveredRuntime _) => unfold clearRecoveredRuntime
      | |- moves _ (forget_orphan _ _) => unfold forget_orphan
      | |- moves _ (processCommandLine _) => unfold processCommandLine
      | |- moves _ (terminateOrphan _ _) => unfold terminateOrphan
      | |- moves _ (Abs _) => unfold Abs
      end ];
  try solve [unfold same; reflexivity].

Section SupervisorFrame.
Context `{ClientEnv} (s : Supervisor).

(** Waiting for an orphan is seen by the clock and the outside only. *)
Lemma await_same {O} (f : Local -> O) `{!Quiet f} pid n :
  (forall w e, f (w <| l_events ::= cons e |>) = f w) -> moves (same f) (await_orphan s pid n).
Proof. intros He. induction n; cbn [await_orphan]; sup_moves; auto; apply He. Qed.

Lemma app_clear : moves (same l_app) (ClearRuntimeSecrets s).
Proof. sup_moves. Qed.

Lemma app_run_op op : moves (same l_app) (run_op s op).
Proof.
  destruct op; simpl.
  - unfold apply. sup_moves.
  - unfold stop. sup_moves.
  - unfold recoverOrphan. sup_moves; by apply await_same; [constructor|].
Qed.

Lemma app_enqueue op : moves (same l_app) (enqueue s op).
Proof.
  unfold enqueue, drain. sup_moves; apply app_run_op.
Qed.
End SupervisorFrame.
#[export] Hint Resolve app_clear app_run_op app_enqueue : moves.

(** ** Requests *)

Section Requests.
Context `{ClientEnv} `{GoUrl} (cfg : ClientConfig).

(** A request is seen by the clock and the outside only. *)
Lemma exchange_same {O} (f : Local -> O) url pin method path payload token keys :
  (forall w, f (bump w) = f w) -> (forall w e, f (w <| l_events ::= cons e |>) = f w) ->
  moves (same f) (exchange url pin method path payload token keys).
Proof.
  intros Hb He. unfold exchange, of_text, of_res, idempotency_key, new_id.
  run_moves; unfold same; auto.
Qed.

Lemma request_run {A} url pin method path payload token (T : option (Target A)) a keys w :
  exists r w', exchange url pin method path payload token keys w = (r, w') /\
    serverRequestWithPin url pin method path payload token T a keys w = (Ok (read_response T a r), w').
Proof.
  destruct (exchange url pin method path payload token keys w) as [r w'] eqn:E. exists r, w'. split; [done|].
  unfold serverRequestWithPin. rewrite (bind_run (attempt _) _ w r w') by (unfold attempt; by rewrite E). done.
Qed.

Lemma request_same {O A} (f : Local -> O) url pin method path payload token (T : option (Target A)) a keys :
  (forall w, f (bump w) = f w) -> (forall w e, f (w <| l_events ::= cons e |>) = f w) ->
  moves (same f) (serverRequestWithPin url pin method path payload token T a keys).
Proof. intros Hb He. unfold serverRequestWithPin. move_step; [move_step; by apply exchange_same|move_step]. Qed.

(** ** Logout *)

(** Stopping ends every process that is left. *)
Lemma stop_kills s : hoare children_owned (stop s) (fun _ => all_killed) all_killed.
Proof.
  unfold stop. eapply hoare_bind; [apply (hoare_attempt _ _ (fun _ => all_killed) all_killed), stop_children|].
  intros r. cbn beta. eapply (hoare_bind _ _ (fun _ => all_killed)).
  { eapply hoare_weaken; [apply (all_killed_same time_now); run_moves|by destruct r|done..]. }
  intros now. eapply (hoare_bind _ _ (fun _ => all_killed)); [by apply all_killed_same; run_moves|].
  intros ?; cbn beta. destruct r; [by apply hoare_ret|by apply hoare_fail].
Qed.

Lemma Stop_kills s w :
  (forall n, ce_gives_up n = None) -> children_owned w -> all_killed (snd (Stop s w)).
Proof.
  intros Hg Hw. unfold Stop, enqueue.
  rewrite (bind_run (draw ce_gives_up) _ w None (bump w)) by (unfold draw; by rewrite Hg).
  assert (children_owned (snd (drain s (bump w)))) as Hd.
  { eapply (queue_keeps s children_owned QStop); [intros o; apply run_op_children|done..]. }
  destruct (drain s (bump w)) as [r w1] eqn:E.
  assert (r = Ok tt) as ->.
  { assert (forall ops v, fst (for_each (E := ClErr) ops (fun op => ignore (run_op s op)) v) = Ok tt) as Hall.
    { induction ops as [|o ops IH]; intros v; [done|]. cbn [for_each].
      rewrite (bind_run (ignore (run_op s o)) _ v tt (snd (run_op s o v)) eq_refl). apply IH. }
    pose proof (f_equal fst E) as E1. unfold drain in E1.
    rewrite (bind_run (gets l_pending) _ (bump w) (l_pending (bump w)) (bump w) eq_refl) in E1.
    erewrite bind_run in E1 by reflexivity. rewrite Hall in E1. by symmetry. }
  rewrite (bind_run _ _ _ _ _ E). pose proof (stop_kills s w1 Hd) as Hs. simpl.
  by destruct (stop s w1) as [[u|e] w2].
Qed.

(** The application's memory when the session is over: that of a new client,
    but for the WebSocket's bookkeeping. *)
Definition logged_out (a : AppMemory) : AppMemory := new_app <| am_ws := stop_ws (am_ws a) |>.

(** Logging out always succeeds, whatever the server, the disk and FRPC
    answer, and leaves the memory of a client that never logged in, its
    WebSocket stopped: no cookie and no CSRF token is accepted any more.  When
    the disk works and the queue is not abandoned, no file with a runtime secret
    is left, no snapshot with secrets, and no FRPC process that was not sent
    SIGKILL. *)
Theorem logout_erases w :
  children_owned w ->
  exists w', Logout cfg w = (Ok tt, w') /\
    l_app w' = logged_out (l_app w) /\
    (forall cookie, fst (ValidateLocal cookie w') = Ok false) /\
    (forall value, CSRFValid value (l_app w') = false) /\
    ((forall n, ce_disk n = None) -> (forall n, ce_gives_up n = None) ->
     (forall p, secret_file (sup cfg) p = true -> l_files w' !! p = None) /\
     sm_lastSnapshot (l_sup w') = None /\ all_killed w').
Proof.
  intros Hw. unfold Logout. set (w1 := w <| l_app ::= fun a => a <| am_ws ::= stop_ws |> |>).
  rewrite (bind_run stopWebSocket _ w tt w1 eq_refl).
  do 3 erewrite (bind_run (get_app _) _ w1 _ w1 eq_refl).
  assert (exists w2, (if String.eqb (am_serverToken (l_app w1)) "" then ret tt
     else _ ← serverRequestWithPin (am_serverURL (l_app w1)) (am_serverSPKIPin (l_app w1)) "POST" logout_path None
            (am_serverToken (l_app w1)) None tt []; ret tt) w1 = (Ok tt, w2) /\
     l_app w2 = l_app w1 /\ children_owned w2) as (w2 & E2 & Ha2 & Hc2).
  { destruct (String.eqb _ _); [by exists w1|].
    destruct (request_run (am_serverURL (l_app w1)) (am_serverSPKIPin (l_app w1)) "POST" logout_path None
      (am_serverToken (l_app w1)) None tt [] w1) as (r & w2 & E & E').
    exists w2. rewrite (bind_run _ _ _ _ _ E'). split; [done|].
    pose proof (exchange_same l_app (am_serverURL (l_app w1)) (am_serverSPKIPin (l_app w1)) "POST" logout_path None
      (am_serverToken (l_app w1)) [] (fun _ => eq_refl) (fun _ _ => eq_refl) w1) as H1.
    pose proof (owned_same _ (exchange_same procs (am_serverURL (l_app w1)) (am_serverSPKIPin (l_app w1)) "POST" logout_path None
      (am_serverToken (l_app w1)) [] (fun _ => eq_refl) (fun _ _ => eq_refl)) w1 Hw) as H2.
    rewrite E in H1, H2. done. }
  erewrite bind_run by exact E2.
  set (w3 := snd (Stop (sup cfg) w2)). rewrite (bind_run (ignore (Stop _)) _ w2 tt w3 eq_refl).
  set (w4 := snd (ClearRuntimeSecrets (sup cfg) w3)). rewrite (bind_run (ignore (ClearRuntimeSecrets _)) _ w3 tt w4 eq_refl).
  set (w5 := w4 <| l_app ::= erase_session |>). exists w5.
  assert (l_app w5 = logged_out (l_app w)) as Ha.
  { unfold w5. simpl. unfold w4. rewrite (app_clear (sup cfg) w3). unfold w3.
    rewrite (app_enqueue (sup cfg) QStop w2 : l_app (snd (Stop (sup cfg) w2)) = _), Ha2. done. }
  split; [done|]. split; [done|]. split_and!.
  - intros cookie. transitivity (Ok (E := ClErr) (negb (String.eqb cookie "") && String.eqb cookie (am_localSession (l_app w5)) &&
      match am_expiresAt (l_app w5) with Some t => ce_now (l_tick w5) <? t | None => false end)); [reflexivity|].
    rewrite Ha. simpl. by rewrite andb_false_r.
  - intros value. rewrite Ha. unfold CSRFValid. simpl. by destruct (String.eqb value "").
  - intros Hd Hg. destruct (clear_total (sup cfg) w3 Hd) as [w4' E4].
    assert (w4 = w4') as <- by (unfold w4; by rewrite E4).
    pose proof (clear_removes _ _ _ E4) as (Hf & Hl & _). split_and!.
    + intros p Hp. change (l_files w4 !! p = None). by rewrite Hf, Hp.
    + exact Hl.
    + pose proof (Stop_kills (sup cfg) w2 Hg Hc2) as Hk. fold w3 in Hk.
      assert (moves (same procs) (ClearRuntimeSecrets (sup cfg))) as Hp by sup_moves.
      exact (killed_same _ Hp w3 Hk).
Qed.
End Requests.
