(* ===== verification/ClientProxySpec.v ===== *)
(** What the client answers for the server and what it sends: refusals are never
    hidden by the cache, writes need the CSRF token, cached reads give the last
    answer back, and a token travels only to the server it belongs to. *)

From S2P Require Import Prelude StateError GoText GoNet GoUrl GoPath GoJson GoJsonRead GoJsonSpec Timestamps Encoding Client ClientSecurity ClientWebSocket ClientToml Supervisor ClientLogic SupervisorSpec ClientApp ClientAppSpec.
From Stdlib Require Import Ascii String.
Open Scope Z_scope.

Section Proxy.
Context `{ClientEnv} `{GoUrl} (cfg : ClientConfig).

Definition has_session (a : AppMemory) : Prop := am_serverToken a <> ""%string /\ am_serverURL a <> ""%string.

(** The request [Proxy] makes for a call. *)
Definition proxied (method path : string) (body : option JSON) (keys : list string) (w : Local) : res ClErr string * Local :=
  exchange (am_serverURL (l_app w)) (am_serverSPKIPin (l_app w)) method path body (am_serverToken (l_app w)) keys w.

(** A call that may pass: it reads, or it carries the CSRF token. *)
Definition allowed (method csrf : string) (a : AppMemory) : bool :=
  is_get method || String.eqb method "HEAD" || CSRFValid csrf a.

Definition after_answer {A} (method path : string) (T : option (Target A)) (r : A * option ClErr)
    : C (A * option ClErr) :=
  match snd r with
  | None => setServerReachable true;; cacheResponse path T (fst r);; ret (fst r, None)
  | Some (ERemote status code detail) =>
      (if ends_session code then invalidateRemoteSession cfg else ret tt);;
      if status <? 500 then ret (fst r, Some (ERemote status code detail))
      else from_cache method path T (fst r) (ERemote status code detail)
  | Some e => from_cache method path T (fst r) e
  end.

Lemma Proxy_run {A} method path body csrf (T : option (Target A)) a keys w r w1 :
  has_session (l_app w) -> allowed method csrf (l_app w) = true ->
  proxied method path body keys w = (r, w1) ->
  Proxy cfg method path body csrf T a keys w = after_answer method path T (read_response T a r) w1.
Proof using Type.
  intros [Ht Hu] Ha E. unfold Proxy. do 3 erewrite (bind_run (get_app _) _ w _ w eq_refl).
  apply String.eqb_neq in Ht as ->, Hu as ->. cbn [orb].
  erewrite (bind_run (get_app _) _ w _ w eq_refl).
  assert (negb (is_get method) && negb (String.eqb method "HEAD") && negb (CSRFValid csrf (l_app w)) = false) as ->.
  { unfold allowed in Ha. by destruct (is_get method), (String.eqb method "HEAD"), (CSRFValid csrf (l_app w)). }
  destruct (request_run (am_serverURL (l_app w)) (am_serverSPKIPin (l_app w)) method path body (am_serverToken (l_app w)) T a keys w)
    as (r' & w' & E1 & E2).
  unfold proxied in E. rewrite E in E1. injection E1 as <- <-. by rewrite (bind_run _ _ _ _ _ E2).
Qed.

Lemma invalidate_run w : exists w', invalidateRemoteSession cfg w = (Ok tt, w') /\
  l_app w' = invalidate_session ((l_app w) <| am_ws ::= stop_ws |>).
Proof using Type.
  unfold invalidateRemoteSession. set (w1 := w <| l_app ::= fun a => a <| am_ws ::= stop_ws |> |>).
  rewrite (bind_run stopWebSocket _ w tt w1 eq_refl).
  set (w2 := snd (Stop (sup cfg) w1)). rewrite (bind_run (ignore (Stop _)) _ w1 tt w2 eq_refl).
  set (w3 := snd (ClearRuntimeSecrets (sup cfg) w2)). rewrite (bind_run (ignore (ClearRuntimeSecrets _)) _ w2 tt w3 eq_refl).
  eexists. split; [reflexivity|]. simpl. unfold w3. rewrite (app_clear (sup cfg) w2). unfold w2.
  by rewrite (app_enqueue (sup cfg) QStop w1 : l_app (snd (Stop (sup cfg) w1)) = _).
Qed.

(** Without a session, or a write without its token: no request. *)
Lemma Proxy_offline {A} method path body csrf (T : option (Target A)) a keys w :
  ~ has_session (l_app w) ->
  Proxy cfg method path body csrf T a keys w = from_cache method path T a (EText "client session is offline") w.
Proof using Type.
  intros Hn. unfold Proxy. do 3 erewrite (bind_run (get_app _) _ w _ w eq_refl).
  destruct (String.eqb_spec (am_serverToken (l_app w)) ""); [done|].
  destruct (String.eqb_spec (am_serverURL (l_app w)) ""); [done|]. by destruct Hn.
Qed.

Lemma Proxy_forbidden {A} method path body csrf (T : option (Target A)) a keys w :
  has_session (l_app w) -> allowed method csrf (l_app w) = false ->
  Proxy cfg method path body csrf T a keys w = (Ok (a, Some (EText "local csrf validation failed")), w).
Proof using Type.
  intros [Ht Hu] Ha. unfold Proxy. do 3 erewrite (bind_run (get_app _) _ w _ w eq_refl).
  apply String.eqb_neq in Ht as ->, Hu as ->. cbn [orb]. erewrite (bind_run (get_app _) _ w _ w eq_refl).
  unfold allowed in Ha. by destruct (is_get method), (String.eqb method "HEAD"), (CSRFValid csrf (l_app w)).
Qed.

(** An answer from the cache, from which entries may have gone. *)
Definition cache_answer {A} (method path : string) (T : Target A) (w : Local) (a' : A) (w' : Local) : Prop :=
  method = "GET"%string /\ am_serverReachable (l_app w') = false /\ exists text a0,
    am_lastCache (l_app w) !! path = Some text /\ json_unmarshal T text a0 = (a', true).

Lemma from_cache_sound {A} method path (T : Target A) a0 e w v a' w' :
  am_lastCache (l_app v) = am_lastCache (l_app w) \/ am_lastCache (l_app v) = ∅ ->
  from_cache method path (Some T) a0 e v = (Ok (a', None), w') -> cache_answer method path T w a' w'.
Proof using Type.
  intros Hv. unfold from_cache, is_get. destruct (String.eqb_spec method "GET") as [->|]; [|done].
  erewrite (bind_run (get_app _) _ v _ v eq_refl). unfold loadCached.
  destruct (am_lastCache (l_app v) !! path) as [text|] eqn:El; [|done].
  destruct (String.eqb text ""); [done|]. destruct (json_unmarshal T text a0) as [x ok] eqn:Eu. cbn [snd fst].
  destruct ok; [|done]. intros [= <- <-]. split; [done|]. split; [done|]. exists text, a0. split; [|done].
  by destruct Hv as [Hv|Hv]; rewrite Hv in El.
Qed.

Lemma after_answer_sound {A} method path (T : Target A) r w w1 a' w' :
  l_app w1 = l_app w -> after_answer method path (Some T) r w1 = (Ok (a', None), w') ->
  am_serverReachable (l_app w') = true /\ r = (a', None) \/ cache_answer method path T w a' w'.
Proof using Type.
  intros Hw. unfold after_answer. destruct r as [a1 [[e|e|status code detail]|]]; cbn [fst snd].
  - intros E. right. eapply from_cache_sound; [|exact E]. left. by rewrite Hw.
  - intros E. right. eapply from_cache_sound; [|exact E]. left. by rewrite Hw.
  - intros E. right. destruct (ends_session code).
    + destruct (invalidate_run w1) as (w2 & E2 & Ha2). rewrite (bind_run _ _ _ _ _ E2) in E.
      destruct (status <? 500); [done|]. eapply from_cache_sound; [|exact E]. right. by rewrite Ha2.
    + rewrite (bind_run (ret tt) _ w1 tt w1 eq_refl) in E. destruct (status <? 500); [done|].
      eapply from_cache_sound; [|exact E]. left. by rewrite Hw.
  - erewrite (bind_run (setServerReachable true)) by reflexivity. unfold cacheResponse. intros E. left.
    destruct (existsb _ _); (erewrite bind_run in E by reflexivity); by injection E as <- <-.
Qed.

Lemma after_refusal {A} method path (T : Target A) a status code detail w1 :
  status < 500 \/ ends_session code = true ->
  exists w', after_answer method path (Some T) (a, Some (ERemote status code detail)) w1 =
      (Ok (a, Some (ERemote status code detail)), w') /\
    (ends_session code = true -> l_app w' = invalidate_session ((l_app w1) <| am_ws ::= stop_ws |>)).
Proof using Type.
  intros Hor. unfold after_answer. cbn [snd fst]. destruct (ends_session code) eqn:Ee.
  - destruct (invalidate_run w1) as (w2 & E2 & Ha2). rewrite (bind_run _ _ _ _ _ E2).
    exists w2. split; [|done]. destruct (status <? 500); [done|]. unfold from_cache.
    destruct (is_get method); [|done]. erewrite (bind_run (get_app _) _ w2 _ w2 eq_refl). unfold loadCached.
    by rewrite Ha2.
  - exists w1. split; [|done]. erewrite (bind_run (ret tt) _ w1 tt w1 eq_refl).
    destruct Hor as [Hlt|]; [|done]. by apply Z.ltb_lt in Hlt as ->.
Qed.

(** What [Proxy] makes of an answer.  A call that writes without the CSRF
    token sends nothing.  A refusal of the server (a status below 500) is
    reported whatever is cached; one that ends the session, with whatever
    status, is reported and erases the session and its cache; and the cache
    speaks only for a read, and then the server is marked unreachable. *)
Theorem proxy_answers {A} method path body csrf (T : Target A) a keys w :
  (allowed method csrf (l_app w) = false -> has_session (l_app w) ->
     Proxy cfg method path body csrf (Some T) a keys w =
       (Ok (a, Some (EText "local csrf validation failed")), w)) /\
  (forall status code detail w1,
     has_session (l_app w) -> allowed method csrf (l_app w) = true ->
     proxied method path body keys w = (Err (ERemote status code detail), w1) ->
     status < 500 \/ ends_session code = true ->
     exists w', Proxy cfg method path body csrf (Some T) a keys w = (Ok (a, Some (ERemote status code detail)), w') /\
       (ends_session code = true -> l_app w' = invalidate_session ((l_app w1) <| am_ws ::= stop_ws |>))) /\
  (forall a' w', Proxy cfg method path body csrf (Some T) a keys w = (Ok (a', None), w') ->
     (am_serverReachable (l_app w') = true /\ has_session (l_app w) /\ exists data w1,
        proxied method path body keys w = (Ok data, w1) /\ read_response (Some T) a (Ok data) = (a', None)) \/
     (method = "GET"%string /\ am_serverReachable (l_app w') = false /\ exists text a0,
        am_lastCache (l_app w) !! path = Some text /\ json_unmarshal T text a0 = (a', true))).
Proof using Type.
  split_and!.
  - intros Ha Hs. by apply Proxy_forbidden.
  - intros status code detail w1 Hs Ha E Hor. rewrite (Proxy_run _ _ _ _ _ _ _ _ _ _ Hs Ha E). by apply after_refusal.
  - intros a' w' E.
    destruct (decide (am_serverToken (l_app w) = ""%string \/ am_serverURL (l_app w) = ""%string)) as [Hn|Hn].
    { right. rewrite Proxy_offline in E by (intros []; naive_solver). eapply from_cache_sound; [|exact E]. by left. }
    assert (has_session (l_app w)) as Hs by (split; intros ?; apply Hn; auto).
    destruct (allowed method csrf (l_app w)) eqn:Ha; [|by rewrite Proxy_forbidden in E].
    destruct (proxied method path body keys w) as [r w1] eqn:Ep.
    rewrite (Proxy_run _ _ _ _ _ _ _ _ _ _ Hs Ha Ep) in E.
    pose proof (exchange_same l_app (am_serverURL (l_app w)) (am_serverSPKIPin (l_app w)) method path body
      (am_serverToken (l_app w)) keys (fun _ => eq_refl) (fun _ _ => eq_refl) w) as Hm.
    unfold proxied in Ep. rewrite Ep in Hm.
    apply (after_answer_sound _ _ _ _ w) in E as [[E1 E2]|E]; [|by right|done].
    left. destruct r as [data|e]; [|done]. split_and!; [done..|]. by exists data, w1.
Qed.
End Proxy.

(** ** The cache gives the last answer back *)

Section Cache.
Context `{ClientEnv} `{GoUrl} (cfg : ClientConfig).

(** What a successful answer leaves in the cache. *)
Lemma after_answer_caches {A} method path (T : Target A) a' w1 r w' :
  existsb (String.eqb path) cached_paths = true -> r = (a', None) ->
  after_answer cfg method path (Some T) r w1 = (Ok (a', None), w') ->
  am_lastCache (l_app w') !! path = Some (tg_encode T a').
Proof using Type.
  intros Hp -> E. unfold after_answer in E. cbn [fst snd] in E.
  erewrite (bind_run (setServerReachable true)) in E by reflexivity. unfold cacheResponse in E. rewrite Hp in E.
  erewrite bind_run in E by reflexivity. injection E as <-. simpl. by rewrite lookup_insert_eq.
Qed.

Lemma reads_allowed csrf m : allowed "GET" csrf m = true.
Proof using Type. done. Qed.

(** A read of a cached page that the server answered is answered again, with
    the same value, when the server cannot be reached: from the cache, through
    JSON and back, for every value JSON keeps.  The panel is told that the
    server is unreachable. *)
Theorem offline_reads_last_answer path csrf csrf' keys keys' a a' d v w w1 w2 :
  path ∈ cached_paths -> reads_back d v -> Z.of_nat d <= max_depth ->
  Proxy cfg "GET" path None csrf (Some interface_target) a keys w = (Ok (v, None), w1) ->
  am_serverReachable (l_app w1) = true ->
  am_lastCache (l_app w2) = am_lastCache (l_app w1) ->
  has_session (l_app w2) -> (exists e w3, proxied "GET" path None keys' w2 = (Err (EText e), w3)) ->
  exists w3, Proxy cfg "GET" path None csrf' (Some interface_target) a' keys' w2 = (Ok (v, None), w3) /\
    am_serverReachable (l_app w3) = false.
Proof using Type.
  intros Hp Hv Hd E Hr Hc Hs (e & w3 & Ep).
  assert (existsb (String.eqb path) cached_paths = true) as Hpath.
  { apply existsb_exists. exists path. split; [by apply list_elem_of_In|apply String.eqb_refl]. }
  assert (am_lastCache (l_app w1) !! path = Some (json_marshal v)) as Hcache.
  { destruct (decide (am_serverToken (l_app w) = ""%string \/ am_serverURL (l_app w) = ""%string)) as [Hn|Hn].
    { rewrite Proxy_offline in E by (intros []; naive_solver).
      apply (from_cache_sound _ _ _ _ _ w) in E as (_ & E & _); [congruence|by left]. }
    assert (has_session (l_app w)) as Hs1 by (split; intros ?; apply Hn; auto).
    destruct (proxied "GET" path None keys w) as [r w0] eqn:Ep1.
    rewrite (Proxy_run cfg _ _ _ _ _ _ _ _ _ _ Hs1 (reads_allowed _ _) Ep1) in E.
    pose proof (exchange_same l_app (am_serverURL (l_app w)) (am_serverSPKIPin (l_app w)) "GET" path None
      (am_serverToken (l_app w)) keys (fun _ => eq_refl) (fun _ _ => eq_refl) w) as Hm.
    unfold proxied in Ep1. rewrite Ep1 in Hm.
    pose proof (after_answer_sound cfg _ _ _ _ w _ _ _ Hm E) as [[_ Er]|(_ & E1 & _)]; [|congruence].
    exact (after_answer_caches _ _ interface_target _ _ _ _ Hpath Er E). }
  rewrite (Proxy_run cfg _ _ _ _ _ _ _ _ _ _ Hs (reads_allowed _ _) Ep). unfold after_answer. cbn [read_response fst snd].
  unfold from_cache. cbn [is_get]. change (is_get "GET") with true. cbv iota.
  pose proof (exchange_same l_app (am_serverURL (l_app w2)) (am_serverSPKIPin (l_app w2)) "GET" path None
    (am_serverToken (l_app w2)) keys' (fun _ => eq_refl) (fun _ _ => eq_refl) w2) as Hm.
  unfold proxied in Ep. rewrite Ep in Hm. simpl in Hm.
  erewrite (bind_run (get_app _) _ w3 _ w3 eq_refl). unfold loadCached. rewrite Hm, Hc, Hcache.
  destruct (marshal_head d v (reads_back_writes _ _ Hv)) as (c & t & Et & _).
  destruct (String.eqb_spec (json_marshal v) "") as [Et'|_]; [by rewrite Et in Et'|].
  rewrite (unmarshal_interface d v a' Hv Hd). cbn [snd fst].
  eexists. split; [reflexivity|done].
Qed.
End Cache.
