(* ===== verification/ClientRequests.v ===== *)
(** Where the client sends its session token: every request an operation makes
    with a token carries the token of the session, to the server of the session,
    over a connection that checks the pin of the session. *)

From S2P Require Import Prelude StateError GoText GoNet GoUrl GoPath GoJson GoJsonRead Timestamps Encoding Client ClientSecurity ClientWebSocket ClientToml Supervisor ClientLogic SupervisorSpec ClientApp ClientAppSpec.
From Stdlib Require Import Ascii String.
Open Scope Z_scope.

(** ** Events only added *)

Definition adds (P : Event -> Prop) (w w' : Local) : Prop :=
  exists new, l_events w' = (new ++ l_events w)%list /\ Forall P new.

#[export] Instance adds_preorder P : PreOrder (adds P).
Proof.
  split; [intros w; by exists []|]. intros w1 w2 w3 (n1 & E1 & H1) (n2 & E2 & H2).
  exists (n2 ++ n1)%list. rewrite E2, E1, app_assoc. split; [done|]. by apply Forall_app.
Qed.

Lemma adds_same `{ClientEnv} P {A} (m : C A) : moves (same l_events) m -> moves (adds P) m.
Proof. intros Hm w. exists []. split; [exact (Hm w)|constructor]. Qed.

Lemma adds_weaken `{ClientEnv} (P Q : Event -> Prop) {A} (m : C A) :
  (forall e, P e -> Q e) -> moves (adds P) m -> moves (adds Q) m.
Proof. intros HPQ Hm w. destruct (Hm w) as (new & E & Hn). exists new. split; [done|]. by eapply Forall_impl. Qed.

Definition not_request (e : Event) : Prop := match e with EvRequest _ => False | _ => True end.

Section Supervisor.
Context `{ClientEnv} (s : Supervisor).

Lemma adds_atomic p t m : moves (adds not_request) (atomicWriteDurable p t m).
Proof. apply adds_same. eauto with moves typeclass_instances. Qed.
Lemma adds_writeDurable p t m : moves (adds not_request) (writeDurableFile p t m).
Proof. apply adds_same. eauto with moves typeclass_instances. Qed.
Lemma adds_rename a b : moves (adds not_request) (durableRename a b).
Proof. apply adds_same. eauto with moves typeclass_instances. Qed.
Lemma adds_removePIDIf pid : moves (adds not_request) (removePIDIf s pid).
Proof. apply adds_same. eauto with moves typeclass_instances. Qed.
Lemma adds_verifyBinary : moves (adds not_request) (verifyBinary s).
Proof. apply adds_same. eauto with moves typeclass_instances. Qed.
#[local] Hint Resolve adds_atomic adds_writeDurable adds_rename adds_removePIDIf adds_verifyBinary : moves.

(** What one primitive adds. *)
Ltac adds_leaf :=
  match goal with |- adds _ _ _ => first [by exists [] | eexists [_]; split; [reflexivity|by repeat constructor]] end.

Lemma adds_await pid n : moves (adds not_request) (await_orphan s pid n).
Proof. induction n; cbn [await_orphan]; sup_moves; try adds_leaf; done. Qed.

Lemma adds_clear : moves (adds not_request) (ClearRuntimeSecrets s).
Proof. sup_moves; adds_leaf. Qed.

Lemma adds_run_op op : moves (adds not_request) (run_op s op).
Proof.
  destruct op; simpl.
  - unfold apply. sup_moves; adds_leaf.
  - unfold stop. sup_moves; adds_leaf.
  - unfold recoverOrphan. sup_moves; first [apply adds_await | adds_leaf].
Qed.

Lemma adds_enqueue op : moves (adds not_request) (enqueue s op).
Proof. unfold enqueue, drain. sup_moves; first [apply adds_run_op | adds_leaf]. Qed.
End Supervisor.

(** ** Sessions *)

(** The server, the token and the pin of a session. *)
Abbreviation Credentials := (string * string * string)%type.
Definition credentials (a : AppMemory) : Credentials := (am_serverURL a, am_serverToken a, am_serverSPKIPin a).

Section Sessions.
Context `{ClientEnv} `{GoUrl} (cfg : ClientConfig).

(** A request of the session [c]. *)
Definition request_of (c : Credentials) (r : HttpRequest) : Prop :=
  let '(url, token, pin) := c in
  hq_Token r = token /\ serverHTTPClientFor url pin = Ok (hq_Pin r) /\
  exists path, url_JoinPath (TrimRight url ["/"%char]) path = Ok (hq_URL r).

Section Within.
(** The sessions the operation may use, and the events before it. *)
Context (S : Credentials -> Prop) (before : list Event).

Definition at_home (e : Event) : Prop :=
  match e with
  | EvRequest r => hq_Token r = ""%string \/ exists c, S c /\ request_of c r
  | _ => True
  end.

Record within (w : Local) : Prop := {
  within_session : am_serverToken (l_app w) = ""%string \/ S (credentials (l_app w));
  within_events : exists new, l_events w = (new ++ before)%list /\ Forall at_home new
}.

Lemma within_same {A} (m : C A) :
  moves (same (fun w => (credentials (l_app w), l_events w))) m -> moves (keeping within) m.
Proof using Type.
  intros Hm w [H1 H2]. pose proof (Hm w) as E. unfold same, credentials in E. injection E as E1 E2 E3 E4.
  unfold credentials in *. split; unfold credentials; by rewrite ?E1, ?E2, ?E3, ?E4.
Qed.

Lemma within_supervisor {A} (m : C A) :
  moves (same l_app) m -> moves (adds not_request) m -> moves (keeping within) m.
Proof using Type.
  intros Ha He w [H1 (new & E & Hn)]. destruct (He w) as (new' & E' & Hn'). pose proof (Ha w) as Hw. unfold same in Hw.
  split; [by rewrite Hw|]. exists (new' ++ new)%list. rewrite E', E, app_assoc. split; [done|].
  apply Forall_app. split; [|done]. eapply Forall_impl; [exact Hn'|]. by intros [].
Qed.

Lemma within_enqueue s op : moves (keeping within) (enqueue s op).
Proof using Type. apply within_supervisor; [apply app_enqueue|apply adds_enqueue]. Qed.
Lemma within_clear s : moves (keeping within) (ClearRuntimeSecrets s).
Proof using Type. apply within_supervisor; [apply app_clear|apply adds_clear]. Qed.

(** A step that ends with a value known beforehand. *)
Lemma within_of_text {A B} (r : res string A) (k : A -> C B) :
  (forall a, r = Ok a -> moves (keeping within) (k a)) -> moves (keeping within) (of_text r ≫= k).
Proof using Type.
  intros Hk w Hw. destruct r as [a|e]; [|done]. by apply (Hk a eq_refl).
Qed.
Lemma within_of_res {A B} (r : res ClErr A) (k : A -> C B) :
  (forall a, r = Ok a -> moves (keeping within) (k a)) -> moves (keeping within) (of_res r ≫= k).
Proof using Type.
  intros Hk w Hw. destruct r as [a|e]; [|done]. by apply (Hk a eq_refl).
Qed.

Lemma exchange_within url token pin method path payload keys :
  token = ""%string \/ S (url, token, pin) ->
  moves (keeping within) (exchange url pin method path payload token keys).
Proof using Type.
  intros Hs. unfold exchange. apply within_of_text. intros requestURL Eu.
  move_step; [apply within_same; unfold of_text; run_moves; done|].
  move_step; [apply within_same; run_moves; done|].
  move_step; [apply within_same; unfold idempotency_key, new_id; run_moves; done|].
  apply within_of_res. intros checked Ec.
  move_step; [|apply within_same; run_moves; done].
  apply moves_modify. intros w [H1 (new & E & Hn)]. split; [done|].
  eexists (_ :: new). simpl. rewrite E. split; [reflexivity|]. constructor; [|done].
  destruct Hs as [-> |Hs]; [by left|right]. exists (url, token, pin). split; [done|].
  split; [done|]. split; [done|]. by exists path.
Qed.

Lemma request_within {A} url token pin method path payload (T : option (Target A)) a keys :
  token = ""%string \/ S (url, token, pin) ->
  moves (keeping within) (serverRequestWithPin url pin method path payload token T a keys).
Proof using Type. intros Hs. unfold serverRequestWithPin. move_step; [move_step; by apply exchange_within|move_step]. Qed.

(** The credentials are read together. *)
Lemma read_credentials {B} (k : string -> string -> string -> C B) :
  (forall url token pin, token = ""%string \/ S (url, token, pin) -> moves (keeping within) (k token url pin)) ->
  moves (keeping within)
    (token ← get_app am_serverToken; url ← get_app am_serverURL; pin ← get_app am_serverSPKIPin; k token url pin).
Proof using Type.
  intros Hk w Hw. do 3 erewrite (bind_run (get_app _) _ w _ w eq_refl). apply Hk; [|done]. by destruct Hw.
Qed.

(** A request made with the credentials of the moment. *)
Lemma current_request {A} method path payload (T : option (Target A)) a keys w :
  within w ->
  within (snd (serverRequest (am_serverURL (l_app w)) method path payload (am_serverToken (l_app w)) T a keys w)).
Proof using Type.
  intros Hw. unfold serverRequest. erewrite (bind_run (get_app _) _ w _ w eq_refl). rewrite String.eqb_refl.
  apply request_within; [by destruct Hw|done].
Qed.

Lemma within_bind_at {A B} (m : C A) (k : A -> C B) w :
  within (snd (m w)) -> (forall a, moves (keeping within) (k a)) -> within (snd ((m ≫= k) w)).
Proof using Type.
  intros Hm Hk. unfold mbind, M_bind, bind. destruct (m w) as [[a|e] w1]; [by apply Hk|done].
Qed.

Ltac within_step :=
  first [ match goal with
          | |- moves _ (ClearRuntimeSecrets _) => apply within_clear
          | |- moves _ (Stop _) => apply within_enqueue
          | |- moves _ (Supervisor.Apply _ _) => apply within_enqueue
          | |- moves _ (from_cache _ _ _ _ _) => unfold from_cache
          | |- moves _ (cacheResponse _ _ _) => unfold cacheResponse
          | |- moves _ (invalidateRemoteSession _) => unfold invalidateRemoteSession
          | |- moves _ (or_return _) => unfold or_return
          | |- moves _ (set_app invalidate_session) => apply moves_modify; intros w [H1 H2]; by split; [left|]
          | |- moves _ (set_app erase_session) => apply moves_modify; intros w [H1 H2]; by split; [left|]
          end
        | move_step | solve [apply within_same; run_moves; done] ].

Lemma Proxy_within {A} method path body csrf (T : option (Target A)) a keys :
  moves (keeping within) (Proxy cfg method path body csrf T a keys).
Proof using Type.
  unfold Proxy. apply read_credentials. intros url token pin Hs.
  destruct (_ || _); [repeat within_step|]. move_step; [repeat within_step|]. destruct (_ && _); [repeat within_step|].
  move_step; [by apply request_within|repeat within_step].
Qed.

Lemma Logout_within : moves (keeping within) (Logout cfg).
Proof using Type.
  unfold Logout. move_step; [repeat within_step|]. apply read_credentials. intros url token pin Hs.
  move_step; [destruct (String.eqb token ""); [repeat within_step|]|repeat within_step].
  move_step; [by apply request_within|repeat within_step].
Qed.

Lemma fetchConfig_within : moves (keeping within) (fetchConfig cfg).
Proof using Type.
  unfold fetchConfig. move_step; [unfold or_return; move_step; [apply Proxy_within|repeat within_step]|].
  intros w Hw. do 2 erewrite (bind_run (get_app _) _ w _ w eq_refl).
  apply within_bind_at; [|intros key; repeat within_step].
  unfold or_return. apply within_bind_at; [by apply current_request|intros r; repeat within_step].
Qed.

Lemma applySnapshot_within snapshot : moves (keeping within) (applySnapshot cfg snapshot).
Proof using Type.
  unfold applySnapshot. move_step; [repeat within_step|]. cbv zeta.
  move_step; [repeat within_step|]. move_step; [repeat within_step|].
  intros w Hw. do 2 erewrite (bind_run (get_app _) _ w _ w eq_refl).
  apply within_bind_at; [by apply current_request|intros r; unfold of_res; repeat within_step].
Qed.

Lemma sync_within : moves (keeping within) (FetchConfigAndApply cfg).
Proof using Type. unfold FetchConfigAndApply. move_step; [apply fetchConfig_within|apply applySnapshot_within]. Qed.

Lemma message_within m : moves (keeping within) (handle_message cfg m).
Proof using Type.
  destruct m; simpl; [repeat within_step..|move_step; [move_step; apply sync_within|repeat within_step]|repeat within_step].
Qed.

Lemma initial_within w : S (credentials (l_app w)) -> l_events w = before -> within w.
Proof using Type. intros Hs He. split; [by right|]. exists []. by rewrite He. Qed.

(** A new session among those allowed. *)
Lemma session_within f :
  (forall a, S (credentials (f a))) -> moves (keeping within) (set_app f).
Proof using Type. intros Hf. apply moves_modify. intros w [_ H2]. split; [right; apply Hf|done]. Qed.
End Within.

Lemma within_mono S S' before w : (forall c, S c -> S' c) -> within S before w -> within S' before w.
Proof using Type.
  intros HS [H1 (new & E & Hn)]. split; [naive_solver|]. exists new. split; [done|].
  eapply Forall_impl; [exact Hn|]. intros [| | |r|]; try done. intros [|(c & Hc & Hr)]; [by left|right]. exists c. auto.
Qed.

(** The rest of a login, once the server gave a token. *)
Definition login_tail (normalized pin oldToken oldURL oldPin : string) (response : LoginResponse) : C ClientSession :=
  (if negb (String.eqb oldToken "") && negb (String.eqb oldURL "")
   then _ ← serverRequestWithPin oldURL oldPin "POST" logout_path None oldToken None tt []; ret tt
   else ret tt);;
  stopWebSocket;;
  local ← randomToken;
  csrf ← randomToken;
  now ← time_now;
  set_app (new_session normalized pin local csrf response (now + 30 * minute));;
  (if String.eqb oldToken "" then ret tt
   else ignore (Stop (sup cfg));; ignore (ClearRuntimeSecrets (sup cfg)));;
  r ← attempt (fetchConfig cfg);
  (match r with Ok snapshot => ignore (applySnapshot cfg snapshot) | Err _ => ret tt end);;
  startWebSocket;;
  expires ← get_app am_expiresAt;
  ret (mkClientSession csrf (lr_User response) normalized expires).

Lemma login_tail_within S before normalized pin oldToken oldURL oldPin response :
  oldToken = ""%string \/ S (oldURL, oldToken, oldPin) -> S (normalized, lr_Token response, pin) ->
  moves (keeping (within S before)) (login_tail normalized pin oldToken oldURL oldPin response).
Proof using Type.
  intros Hold Hnew. unfold login_tail.
  assert (forall (m : C unit), moves (same (fun w => (credentials (l_app w), l_events w))) m -> moves (keeping (within S before)) m) as Hs.
  { intros m. apply within_same. }
  move_step; [destruct (_ && _); [move_step; [by apply request_within|move_step]|move_step]|].
  do 4 (move_step; [apply within_same; unfold randomToken; run_moves; done|]).
  move_step; [by apply session_within|].
  move_step; [destruct (String.eqb oldToken ""); [move_step|]; move_step; move_step;
    [apply within_enqueue|apply within_clear]|].
  move_step; [move_step; apply fetchConfig_within|].
  move_step; [match goal with r : res _ _ |- _ => destruct r end; [move_step; apply applySnapshot_within|move_step]|].
  move_step; [apply within_same; run_moves; done|]. apply within_same. run_moves. done.
Qed.

(** The operations of the client, a login aside. *)
Inductive AppCall : Type :=
| CallLogout
| CallProxy {A : Type} (method path : string) (body : option JSON) (csrf : string) (T : option (Target A)) (a : A) (keys : list string)
| CallSync
| CallMessage (m : WsMessage).

Definition run_call (c : AppCall) : C unit :=
  match c with
  | CallLogout => Logout cfg
  | CallProxy method path body csrf T a keys => ignore (Proxy cfg method path body csrf T a keys)
  | CallSync => FetchConfigAndApply cfg
  | CallMessage m => ignore (handle_message cfg m)
  end.

(** The pin a login checks: the one confirmed now, or that of the session with
    the same server. *)
Definition login_pin (normalized trusted : string) (a : AppMemory) : string :=
  if String.eqb trusted "" && String.eqb (am_serverURL a) normalized then am_serverSPKIPin a else trusted.

End Sessions.
