(* ===== verification/ClientSigned.v ===== *)
(** Only configurations the server signed are ever written for FRPC: an
    invariant of every sequence of the client's operations. *)

From S2P Require Import Prelude StateError GoText GoNet GoUrl GoPath GoJson GoJsonRead Timestamps Encoding Client ClientSecurity ClientWebSocket ClientToml Supervisor ClientLogic SupervisorSpec SupervisorRecovery ClientApp ClientAppSpec.
From Stdlib Require Import Ascii String.
Open Scope Z_scope.

Section Signed.
Context `{ClientEnv} `{GoUrl} (cfg : ClientConfig) (Hdir : cf_DataDir cfg <> ""%string).

(** The server at [base] answered a request for its signing key with [key]. *)
Definition signing_key (base key : string) : Prop :=
  exists n request status body,
    ce_http n request = Reply status body /\ 200 <= status < 300 /\
    hq_Method request = "GET"%string /\
    url_JoinPath (TrimRight base ["/"%char]) "/api/v1/config/signing-key" = Ok (hq_URL request) /\
    public_key (fst (json_unmarshal key_target (limit_body body) ""%string)) = Some key.

(** A snapshot whose signature that key verifies, with the secrets of a session
    in its payload. *)
Definition signed (s : ClientSnapshot) : Prop :=
  exists s0 base key m, signing_key base key /\ VerifySnapshot s0 key = true /\
    s = s0 <| cs_Payload := Some (with_secrets m (payload_of s0)) |>.

(** What FRPC could read, what could be applied later, what was applied. *)
Definition auth_obs (w : Local) : list QueueOp * option ClientSnapshot * option string :=
  (l_pending w, sm_lastSnapshot (l_sup w), active_config (sup cfg) w).
Definition op_signed (op : QueueOp) : Prop := match op with QApply s => signed s | _ => True end.
Definition text_signed (t : string) : Prop :=
  exists s, signed s /\ t = renderTOMLForVersion s (dataDir (sup cfg)) (frpcVersion (sup cfg)).

Record authentic (w : Local) : Prop := {
  auth_pending : Forall op_signed (l_pending w);
  auth_last : forall s, sm_lastSnapshot (l_sup w) = Some s -> signed s;
  auth_file : forall t, active_config (sup cfg) w = Some t -> text_signed t
}.

Lemma authentic_same {A} (m : C A) : moves (same auth_obs) m -> moves (keeping authentic) m.
Proof using Type.
  intros Hm w [H1 H2 H3]. pose proof (Hm w) as E. injection E as E1 E2 E3. split; by rewrite ?E1, ?E2, ?E3.
Qed.

(** ** The supervisor *)

Definition last_signed (w : Local) : Prop := forall s, sm_lastSnapshot (l_sup w) = Some s -> signed s.

Lemma last_same {A} (m : C A) :
  moves (same (fun w => sm_lastSnapshot (l_sup w))) m -> moves (keeping last_signed) m.
Proof using Type. intros Hm w Hw. pose proof (Hm w) as E. unfold same in E. unfold last_signed. by rewrite E. Qed.

Lemma record_last snapshot : signed snapshot -> moves (keeping last_signed) (record_applied (sup cfg) snapshot).
Proof using Type.
  intros Hs. unfold record_applied. repeat (move_step; [solve [apply last_same; sup_moves]|]).
  move_step; [|apply last_same; sup_moves]. apply moves_modify. intros w _ s E. simpl in E. by injection E as <-.
Qed.

Lemma clear_last : moves (keeping last_signed) (ClearRuntimeSecrets (sup cfg)).
Proof using Type.
  unfold ClearRuntimeSecrets. move_step; [apply last_same; sup_moves|]. by apply moves_modify.
Qed.

Ltac last_step :=
  first [ match goal with |- moves _ (ClearRuntimeSecrets _) => apply clear_last end | move_step | apply moves_deferred; [typeclasses eauto|..] | solve [apply last_same; sup_moves] | unfold_prim ].

Lemma run_op_last op : op_signed op -> moves (keeping last_signed) (run_op (sup cfg) op).
Proof using Type.
  intros Hop. destruct op as [snapshot| |]; simpl in *.
  - unfold apply, switch_config. repeat first [ match goal with |- moves _ (record_applied _ _) => by apply record_last end | last_step ].
  - apply last_same. unfold stop. sup_moves.
  - unfold recoverOrphan, forget_orphan, clearRecoveredRuntime, terminateOrphan. repeat last_step.
    all: by apply last_same, await_same; [constructor|].
Qed.

Definition file_signed (w : Local) : Prop := forall t, active_config (sup cfg) w = Some t -> text_signed t.

(** Operations on other files, and those that only remove. *)
Lemma file_untouched {A} (m : C A) :
  moves (untouched (pid_area (sup cfg))) m -> moves (keeping file_signed) m.
Proof using Hdir.
  intros Hm w Hw t. rewrite (active_config_untouched (sup cfg) _ _ _ Hm); [apply Hw|]. by apply not_active.
Qed.

Lemma file_same {A} (m : C A) : moves (same l_files) m -> moves (keeping file_signed) m.
Proof using Type. intros Hm w Hw t. unfold active_config. rewrite (Hm w). apply Hw. Qed.

Lemma clear_file : moves (keeping file_signed) (ClearRuntimeSecrets (sup cfg)).
Proof using Type.
  unfold ClearRuntimeSecrets. move_step; [|apply file_same; sup_moves].
  move_step. unfold os_RemoveAll. apply moves_disk; [by intros w Hw|].
  intros w Hw t. unfold active_config. simpl. rewrite map_lookup_filter.
  destruct (l_files w !! activePath (sup cfg)) as [x|] eqn:E; [|done]. simpl.
  case_guard; [|done]. intros [= <-]. apply Hw. unfold active_config. by rewrite E.
Qed.

Ltac file_step :=
  first [ match goal with
          | |- moves _ (ClearRuntimeSecrets _) => apply clear_file
          | |- moves _ (removePIDIf _ _) => by apply file_untouched, untouched_removePIDIf
          | |- moves _ (stopProcess _) => by apply file_untouched, untouched_stopProcess
          | |- moves _ (await_orphan _ _ _) => apply file_same
          end
        | move_step | solve [apply file_untouched; run_moves; by intros ? ?] | unfold_prim ].

Lemma await_files pid n : moves (same l_files) (await_orphan (sup cfg) pid n).
Proof using Type.
  induction n; cbn [await_orphan]; unfold processCommandLine, Abs, send_signal; run_moves; done.
Qed.

Lemma run_op_file op : op_signed op -> moves (keeping file_signed) (run_op (sup cfg) op).
Proof using Hdir.
  intros Hop. destruct op as [snapshot| |]; simpl in *.
  - intros w Hw t E.
    destruct (apply_old_or_new (sup cfg) Hdir snapshot (active_config (sup cfg) w) w eq_refl) as [E'|E'];
      rewrite E' in E; [by apply Hw|]. injection E as <-. by exists snapshot.
  - unfold stop. repeat file_step.
  - unfold recoverOrphan, forget_orphan, clearRecoveredRuntime, terminateOrphan, processCommandLine, Abs.
    repeat file_step. all: apply await_files.
Qed.

Lemma run_op_pending op : moves (same l_pending) (run_op (sup cfg) op).
Proof using Type.
  destruct op; simpl.
  - unfold apply. sup_moves.
  - unfold stop. sup_moves.
  - unfold recoverOrphan. sup_moves; by apply await_same; [constructor|].
Qed.

Lemma run_op_authentic op : op_signed op -> moves (keeping authentic) (run_op (sup cfg) op).
Proof using Hdir.
  intros Hop w [H1 H2 H3]. split.
  - by rewrite (run_op_pending op w).
  - by apply (run_op_last op Hop w).
  - by apply (run_op_file op Hop w).
Qed.

Lemma drain_authentic : moves (keeping authentic) (drain (sup cfg)).
Proof using Hdir.
  intros w Hw. unfold drain.
  rewrite (bind_run (gets l_pending) _ w (l_pending w) w eq_refl).
  rewrite (bind_run (modify _) _ w tt (w <| l_pending := [] |>) eq_refl).
  apply (moves_for_each_in (keeping authentic)).
  - intros o Ho. apply moves_ignore, run_op_authentic.
    destruct Hw as [Hp _ _]. rewrite Forall_forall in Hp. by apply Hp.
  - destruct Hw as [_ H2 H3]. by split; [constructor|..].
Qed.

Lemma exits_authentic : moves (keeping authentic) (process_exits (sup cfg)).
Proof using Hdir.
  intros w [H1 H2 H3]. split.
  - assert (moves (same l_pending) (process_exits (sup cfg))) as Hp by (unfold process_exits; sup_moves).
    by rewrite (Hp w).
  - apply (last_same (process_exits (sup cfg))); [unfold process_exits; sup_moves|done].
  - apply (file_untouched (process_exits (sup cfg))); [|done].
    unfold process_exits. repeat first [ match goal with |- moves _ (reap _ _) => by apply untouched_reap end
      | move_step | move_prim | unfold_prim ]; by intros ? ?.
Qed.

Lemma enqueue_authentic op : op_signed op -> moves (keeping authentic) (enqueue (sup cfg) op).
Proof using Hdir.
  intros Hop.
  unfold enqueue. move_step; [apply moves_draw; by intros w []|].
  destruct a; [|move_step; [apply drain_authentic|by apply run_op_authentic]].
  move_step; [|apply authentic_same; unfold text; run_moves].
  apply moves_modify. intros w [H1 H2 H3]. split; [|done..].
  apply Forall_app. by repeat constructor.
Qed.

Lemma clear_authentic : moves (keeping authentic) (ClearRuntimeSecrets (sup cfg)).
Proof using Type.
  intros w [H1 H2 H3]. split.
  - assert (moves (same l_pending) (ClearRuntimeSecrets (sup cfg))) as Hp by sup_moves. by rewrite (Hp w).
  - by apply (clear_last w).
  - by apply (clear_file w).
Qed.

(** ** The application *)

Lemma exchange_authentic url pin method path payload token keys :
  moves (keeping authentic) (exchange url pin method path payload token keys).
Proof using Type. by apply authentic_same, exchange_same. Qed.

Ltac auth_step :=
  first [ match goal with
          | |- moves _ (exchange _ _ _ _ _ _ _) => apply exchange_authentic
          | |- moves _ (ClearRuntimeSecrets _) => apply clear_authentic
          | |- moves _ (Stop _) => by apply (enqueue_authentic QStop)
          | |- moves _ (serverRequestWithPin _ _ _ _ _ _ _ _ _) => unfold serverRequestWithPin
          | |- moves _ (serverRequest _ _ _ _ _ _ _ _) => unfold serverRequest
          | |- moves _ (from_cache _ _ _ _ _) => unfold from_cache
          | |- moves _ (cacheResponse _ _ _) => unfold cacheResponse
          | |- moves _ invalidateRemoteSession => unfold invalidateRemoteSession
          | |- moves _ (invalidateRemoteSession _) => unfold invalidateRemoteSession
          | |- moves _ (or_return _) => unfold or_return
          | |- moves _ (of_res _) => unfold of_res
          | |- moves _ (of_text _) => unfold of_text
          end
        | move_step | solve [apply authentic_same; run_moves; done] ].
Ltac auth := repeat auth_step.

Lemma Proxy_authentic {A} method path body csrf (T : option (Target A)) a keys :
  moves (keeping authentic) (Proxy cfg method path body csrf T a keys).
Proof using Hdir. unfold Proxy. auth. Qed.

(** What [fetchConfig] returns is signed with a key of the server. *)
Lemma fetchConfig_signed w s w' :
  fetchConfig cfg w = (Ok s, w') ->
  exists base key, signing_key base key /\ VerifySnapshot s key = true.
Proof using Type.
  unfold fetchConfig. intros (s0 & w1 & _ & E)%bind_Ok.
  apply bind_Ok in E as (token & w2 & [= <- <-] & E). apply bind_Ok in E as (url & w3 & [= <- <-] & E).
  apply bind_Ok in E as (hex & w4 & E1 & E). destruct (public_key hex) as [k|] eqn:Ek; [|done].
  destruct (VerifySnapshot s0 k) eqn:Ev; [|done]. injection E as <- <-.
  exists (am_serverURL (l_app w1)), k. split; [|done].
  unfold or_return in E1. apply bind_Ok in E1 as ([x e] & w5 & E1 & E2). simpl in E2.
  destruct e; [done|]. injection E2 as <- <-.
  unfold serverRequest in E1. apply bind_Ok in E1 as (pin & w6 & [= <- <-] & E1).
  unfold serverRequestWithPin in E1. apply bind_Ok in E1 as (r & w7 & E1 & E2).
  apply (proj1 (attempt_Ok _ _ _ _)) in E1. injection E2 as E2 <-.
  destruct r as [data|e]; [|done]. unfold read_response in E2. destruct (String.eqb_spec data "") as [->|].
  { injection E2 as <-. done. }
  destruct (json_unmarshal key_target data ""%string) as [x' ok] eqn:Eu. injection E2 as <- Eok.
  unfold exchange in E1. apply bind_Ok in E1 as (req & v1 & E3 & E1).
  apply bind_Ok in E1 as (u2 & v2 & _ & E1). apply bind_Ok in E1 as (id & v3 & _ & E1).
  apply bind_Ok in E1 as (key & v4 & _ & E1). apply bind_Ok in E1 as (checked & v5 & _ & E1).
  apply bind_Ok in E1 as (u6 & v6 & _ & E1). apply bind_Ok in E1 as (reply & v7 & [= <- <-] & E1).
  destruct (ce_http _ _) as [t|status body] eqn:Eh; [done|].
  destruct ((status <? 200) || (300 <=? status)) eqn:Es.
  { destruct (fst _). done. }
  injection E1 as <- <-. eexists _, _, status, body. split; [exact Eh|]. simpl.
  apply orb_false_iff in Es as [H1%Z.ltb_ge H2%Z.leb_gt].
  split_and!; [lia|lia|done| |by rewrite Eu].
  unfold of_text in E3. destruct (url_JoinPath _ _); [|done]. by injection E3 as <- <-.
Qed.

Lemma fetchConfig_authentic : moves (keeping authentic) (fetchConfig cfg).
Proof using Hdir.
  unfold fetchConfig. move_step; [|auth]. unfold or_return. move_step; [apply Proxy_authentic|auth].
Qed.

Lemma applySnapshot_authentic s base key :
  signing_key base key -> VerifySnapshot s key = true -> moves (keeping authentic) (applySnapshot cfg s).
Proof using Hdir.
  intros Hk Hv. unfold applySnapshot, get_app. apply moves_gets_bind. intros w. cbv zeta.
  move_step; [auth|]. move_step; [move_step; apply enqueue_authentic; by exists s, base, key, (l_app w)|auth].
Qed.

Lemma FetchConfigAndApply_authentic : moves (keeping authentic) (FetchConfigAndApply cfg).
Proof using Hdir.
  intros w Hw. unfold FetchConfigAndApply. pose proof (fetchConfig_authentic w Hw) as H1.
  destruct (fetchConfig cfg w) as [[s|e] w1] eqn:E.
  - rewrite (bind_run _ _ _ _ _ E). apply fetchConfig_signed in E as (base & key & Hk & Hv).
    by eapply applySnapshot_authentic.
  - by rewrite (bind_fail _ _ _ _ _ E).
Qed.
Lemma Logout_authentic : moves (keeping authentic) (Logout cfg).
Proof using Hdir. unfold Logout. auth. Qed.

Lemma invalidate_authentic : moves (keeping authentic) (invalidateRemoteSession cfg).
Proof using Hdir. auth. Qed.

Lemma fetch_then {B} (k : C B) :
  moves (keeping authentic) k ->
  moves (keeping authentic) (attempt (fetchConfig cfg) ≫= fun r =>
    (match r with Ok snapshot => ignore (applySnapshot cfg snapshot) | Err _ => ret tt end);; k).
Proof using Hdir.
  intros Hk w Hw. pose proof (fetchConfig_authentic w Hw) as H1.
  destruct (fetchConfig cfg w) as [r w1] eqn:E.
  erewrite bind_run by (unfold attempt; by rewrite E). destruct r as [s|e]; cbn beta iota.
  - apply fetchConfig_signed in E as (base & key & Hs & Hv).
    apply (moves_bind (keeping authentic)); [apply moves_ignore; by eapply applySnapshot_authentic|done|done].
  - apply (moves_bind (keeping authentic)); [by apply moves_ret; typeclasses eauto|done|done].
Qed.

Lemma Login_authentic url user password spki : moves (keeping authentic) (LoginWithTrust cfg url user password spki).
Proof using Hdir.
  unfold LoginWithTrust, of_text. repeat first
    [ match goal with
      | |- moves _ (attempt (fetchConfig _) ≫= _) => apply fetch_then
      | |- moves _ randomToken => unfold randomToken
      end | auth_step ].
Qed.

Lemma message_authentic m : moves (keeping authentic) (handle_message cfg m).
Proof using Hdir.
  destruct m; simpl.
  - move_step; [apply invalidate_authentic|auth].
  - auth.
  - move_step; [move_step; apply FetchConfigAndApply_authentic|auth].
  - auth.
Qed.
End Signed.

(** ** Every sequence of operations *)

(** What happens to a client: its methods, the messages of the server, the
    recovery at its start, the exit of its FRPC process. *)
Inductive app_step `{ClientEnv} `{GoUrl} (cfg : ClientConfig) : Local -> Local -> Prop :=
| app_login url user password spki w : app_step cfg w (snd (LoginWithTrust cfg url user password spki w))
| app_logout w : app_step cfg w (snd (Logout cfg w))
| app_proxy {A} method path body csrf (T : option (Target A)) a keys w :
    app_step cfg w (snd (Proxy cfg method path body csrf T a keys w))
| app_sync w : app_step cfg w (snd (FetchConfigAndApply cfg w))
| app_message m w : app_step cfg w (snd (handle_message cfg m w))
| app_recover w : app_step cfg w (snd (RecoverOrphan (sup cfg) w))
| app_queue w : app_step cfg w (snd (drain (sup cfg) w))
| app_exit w : app_step cfg w (snd (process_exits (sup cfg) w)).

Section Sequences.
Context `{ClientEnv} `{GoUrl} (cfg : ClientConfig) (Hdir : cf_DataDir cfg <> ""%string).

Lemma step_authentic w w' : app_step cfg w w' -> authentic cfg w -> authentic cfg w'.
Proof using Hdir.
  intros [url user password spki w1|w1|A method path body csrf T a keys w1|w1|m w1|w1|w1|w1] Hw.
  - by apply (Login_authentic cfg Hdir).
  - by apply (Logout_authentic cfg Hdir).
  - by apply (Proxy_authentic cfg Hdir).
  - by apply (FetchConfigAndApply_authentic cfg Hdir).
  - by apply (message_authentic cfg Hdir).
  - by apply (enqueue_authentic cfg Hdir QRecover).
  - by apply (drain_authentic cfg Hdir).
  - revert Hw. apply (exits_authentic cfg Hdir).
Qed.

End Sequences.
