(* ===== verification/ClientHTTP.v ===== *)
(** The HTTP API the client serves to the local browser
    ([client/internal/httpapi/httpapi.go]): the middleware every request goes
    through, the routes and their handlers.

    A request is run to its end; the requests that are under way at the same
    time are counted by [pn_busy]. *)

From S2P Require Import Prelude StateError GoText GoNet GoUrl GoPath GoJson GoJsonRead GoHttp Timestamps Encoding RateLimit Client ClientSecurity ClientWebSocket ClientToml Supervisor ClientApp.
From Stdlib Require Import Ascii String.
Import Limiter.
Open Scope Z_scope.

(** ** Requests and replies *)

(** What of an [http.Request] is read: [rq_Header] is [r.Header.Get], the cookie
    is that of the local session, [rq_RequestID] the value in its context. *)
Record LocalRequest := mkLocalRequest {
  rq_Method : string;
  rq_Path : string;
  rq_Header : string -> string;
  rq_Cookie : option string;
  rq_Host : string;
  rq_RemoteAddr : string;
  rq_Body : string;
  rq_RequestID : string
}.
#[export] Instance Eta_LocalRequest : Eta LocalRequest := fun r =>
  mkLocalRequest r.(rq_Method) r.(rq_Path) r.(rq_Header) r.(rq_Cookie) r.(rq_Host) r.(rq_RemoteAddr)
    r.(rq_Body) r.(rq_RequestID).

(** [API], with the application it serves and the reply being written. *)
Record Panel := mkPanel {
  pn_local : Local;
  pn_apiLimit : Limiter;
  pn_loginLimit : Limiter;
  pn_busy : nat;
  pn_reply : ReplyWriter
}.
#[export] Instance Eta_Panel : Eta Panel := fun r =>
  mkPanel r.(pn_local) r.(pn_apiLimit) r.(pn_loginLimit) r.(pn_busy) r.(pn_reply).

Definition max_concurrent : nat := 64.

(** [New] *)
Definition NewAPI (w : Local) : Panel :=
  mkPanel w (newRequestRateLimiter 300 minute) (newRequestRateLimiter 10 minute) 0 no_reply.

(** Handlers report errors in the reply. *)
Abbreviation H := (ST Panel False).

Definition set_reply (f : ReplyWriter -> ReplyWriter) : H unit := fun p => (Ok tt, p <| pn_reply ::= f |>).
Definition set_header (name value : string) : H unit := set_reply (fun w => w <| rp_Header ::= <[name := value]> |>).
Definition get_header (name : string) : H string := fun p =>
  (Ok (default ""%string (rp_Header (pn_reply p) !! name)), p).

(** The first status written stays. *)
Definition WriteHeader (status : Z) : H unit :=
  set_reply (fun w => w <| rp_Status ::= fun o => match o with Some s => Some s | None => Some status end |>).
Definition Write (body : string) : H unit := set_reply (fun w => w <| rp_Body ::= fun b => (b ++ body)%string |>).
Definition add_cookie (c : SetCookie) : H unit := set_reply (fun w => w <| rp_Cookies ::= fun l => (l ++ [c])%list |>).

(** A method of the application; a computation on one limiter. *)
Definition in_app {A} (m : C A) : H (res ClErr A) := fun p =>
  let '(r, w) := m (pn_local p) in (Ok r, p <| pn_local := w |>).
Definition reads_app {A} (f : Local -> A) : H A := fun p => (Ok (f (pn_local p)), p).
Definition api_allow (key : string) (now : Stamp) : H (bool * Z) := fun p =>
  let '(r, l) := allow key now (pn_apiLimit p) in (Ok r, p <| pn_apiLimit := l |>).
Definition login_allow (key : string) (now : Stamp) : H (bool * Z) := fun p =>
  let '(r, l) := allow key now (pn_loginLimit p) in (Ok r, p <| pn_loginLimit := l |>).
Definition login_reset (key : string) : H unit := fun p => (Ok tt, p <| pn_loginLimit ::= reset key |>).

(** ** Who may ask *)

Section Addresses.
Context `{UnicodeTables}.

(** [net.SplitHostPort], or the text without brackets. *)
Definition host_and_port (s : string) : string * string :=
  match SplitHostPort s with Ok hp => hp | Err _ => (Trim s brackets, ""%string) end.

Definition cidrAllowed (remoteAddr : string) (configured : list string) : bool :=
  match ParseIP (fst (host_and_port (TrimSpace remoteAddr))) with
  | None => false
  | Some ip =>
      existsb (fun raw => match ParseCIDR (TrimSpace raw) with
                          | Ok network => net_Contains network ip
                          | Err _ => false
                          end) configured
  end.

Definition host_name (s : string) : string := ToLower (TrimSuffix (TrimSpace s) ".").

(** One host of the list, with or without a port. *)
Definition host_matches (requestName requestPort candidate : string) : bool :=
  let candidate := TrimSpace (TrimSuffix candidate ".") in
  if String.eqb candidate "" then false
  else
    let '(name, port) := host_and_port candidate in
    String.eqb (host_name name) requestName && (String.eqb port "" || String.eqb port requestPort).

Definition hostAllowed (requestHost configured : string) : bool :=
  let requestHost := TrimSpace (TrimSuffix requestHost ".") in
  if String.eqb requestHost "" then false
  else
    let '(name, port) := host_and_port requestHost in
    existsb (host_matches (host_name name) port) (SplitByte configured ",").
End Addresses.

Definition remoteIP (r : LocalRequest) : string := remote_host (rq_RemoteAddr r).

(** ** Encodings *)

Section Encodings.
Context `{ClientEnv}.

Definition json_time (t : option Stamp) : string :=
  json_string (match t with Some t => ce_rfc3339 t | None => zero_time end).

Definition session_json (s : ClientSession) : string := json_object
  [("csrf_token", json_string (se_CSRFToken s)); ("user", marshal_payload (se_User s));
   ("server_panel_url", json_string (se_ServerPanelURL s)); ("expires_at", json_time (se_ExpiresAt s))]%string.

Definition state_text (s : SupState) : string :=
  match s with
  | Stopped => "stopped" | Applying => "applying" | Running => "running"
  | ConfigError => "config_error" | Offline => "offline"
  end.

(** Fields with [omitempty] only when there is something. *)
Definition optional (name value text : string) : list (string * string) :=
  if String.eqb value "" then [] else [(name, text)].

Definition status_json (s : Status) : string := json_object
  ([("state", json_string (state_text (st_State s)));
    ("mode", json_string (match st_Mode s with Simulated => "simulated" | Real => "real" end));
    ("pid", itoa (st_PID s)); ("desired_config_version", itoa (st_DesiredVersion s));
    ("applied_config_version", itoa (st_AppliedVersion s)); ("config_hash", json_string (st_ConfigHash s));
    ("last_good_available", json_bool (st_LastGoodAvailable s))]%string
   ++ optional "last_error" (st_LastError s) (json_string (st_LastError s))
   ++ [("updated_at"%string, json_time (Some (st_UpdatedAt s)))])%list.

Definition certificate_json (c : CertificateInfo) : string := json_object
  ([("server_panel_url", json_string (ci_ServerPanelURL c)); ("transport", json_string (ci_Transport c));
    ("verified", json_bool (ci_Verified c))]%string
   ++ optional "verification_error" (ci_VerificationError c) (json_string (ci_VerificationError c))
   ++ optional "subject" (ci_Subject c) (json_string (ci_Subject c))
   ++ optional "issuer" (ci_Issuer c) (json_string (ci_Issuer c))
   ++ [("not_before", json_time (ci_NotBefore c)); ("not_after", json_time (ci_NotAfter c))]%string
   ++ optional "spki_sha256" (ci_SPKISHA256 c) (json_string (ci_SPKISHA256 c))
   ++ (match ci_DNSNames c with [] => [] | l => [("dns_names"%string, json_strings l)] end)
   ++ (match ci_IPAddresses c with [] => [] | l => [("ip_addresses"%string, json_strings l)] end))%list.

(** ** Replies *)

(** The value is encoded; an object gets the request's identifier. *)
Definition writeJSON (status : Z) (encoded : string) : H unit :=
  requestID ← get_header "X-Request-ID";
  let body :=
    if (200 <=? status) && (status <? 300) then
      match json_unmarshal map_target encoded None with
      | (Some object, true) =>
          match object !! "request_id"%string with
          | Some _ => encoded
          | None => if String.eqb requestID "" then encoded
                    else marshal_payload (Some (<["request_id"%string := JString requestID]> object))
          end
      | _ => encoded
      end
    else encoded in
  set_header "Content-Type" "application/json";;
  WriteHeader status;;
  Write (body ++ newline).

(** What the error of the server changes in a problem. *)
Definition caused (cause : option ClErr) (status : Z) (code detail : string) : Z * string * string :=
  match cause with
  | Some (ERemote s c d) =>
      (s, if String.eqb c "" then code else c, if String.eqb d "" then detail else d)
  | _ => (status, code, detail)
  end.

Definition problem (r : LocalRequest) (status : Z) (code detail : string) (cause : option ClErr) : H unit :=
  let '(status, code, detail) := caused cause status code detail in
  set_header "Content-Type" "application/problem+json";;
  WriteHeader status;;
  Write (json_marshal (problem_body (rq_Path r) (rq_RequestID r) status code detail) ++ newline).
End Encodings.

(** ** Bodies *)

Section Bodies.
Context `{ClientEnv}.

Definition decodeJSON {A} (decode : JText -> A -> A * bool) (r : LocalRequest) (a : A) (k : A -> H unit) : H unit :=
  match decode_body decode (rq_Body r) a with
  | Ok a' => k a'
  | Err detail => problem r 400 "INVALID_JSON" detail None
  end.
End Bodies.

(** ** The inputs of the handlers *)

Record LoginInput := mkLoginInput {
  li_ServerPanelURL : string; li_Username : string; li_Password : string; li_TrustedSPKI : string }.
#[export] Instance Eta_LoginInput : Eta LoginInput := fun r =>
  mkLoginInput r.(li_ServerPanelURL) r.(li_Username) r.(li_Password) r.(li_TrustedSPKI).

Record PasswordInput := mkPasswordInput { pi_CurrentPassword : string; pi_NewPassword : string }.
#[export] Instance Eta_PasswordInput : Eta PasswordInput := fun r =>
  mkPasswordInput r.(pi_CurrentPassword) r.(pi_NewPassword).

Record ResetInput := mkResetInput { ri_CurrentPassword : string; ri_ReauthTicket : string }.
#[export] Instance Eta_ResetInput : Eta ResetInput := fun r =>
  mkResetInput r.(ri_CurrentPassword) r.(ri_ReauthTicket).

Section Inputs.
Context `{ClientEnv}.

Definition decode_login : JText -> LoginInput -> LoginInput * bool := decode_struct (assign_known [
  ("server_panel_url", on_field li_ServerPanelURL (fun f r => r <| li_ServerPanelURL ::= f |>) decode_string);
  ("username", on_field li_Username (fun f r => r <| li_Username ::= f |>) decode_string);
  ("password", on_field li_Password (fun f r => r <| li_Password ::= f |>) decode_string);
  ("trusted_spki_sha256", on_field li_TrustedSPKI (fun f r => r <| li_TrustedSPKI ::= f |>) decode_string)]%string).

Definition decode_inspect : JText -> string -> string * bool :=
  decode_struct (assign_known [("server_panel_url"%string, decode_string)]).

Definition decode_password : JText -> PasswordInput -> PasswordInput * bool := decode_struct (assign_known [
  ("current_password", on_field pi_CurrentPassword (fun f r => r <| pi_CurrentPassword ::= f |>) decode_string);
  ("new_password", on_field pi_NewPassword (fun f r => r <| pi_NewPassword ::= f |>) decode_string)]%string).

Definition decode_reauth : JText -> string -> string * bool :=
  decode_struct (assign_known [("current_password"%string, decode_string)]).

Definition decode_reset : JText -> ResetInput -> ResetInput * bool := decode_struct (assign_known [
  ("current_password", on_field ri_CurrentPassword (fun f r => r <| ri_CurrentPassword ::= f |>) decode_string);
  ("reauth_ticket", on_field ri_ReauthTicket (fun f r => r <| ri_ReauthTicket ::= f |>) decode_string)]%string).

Definition ticket_target : Target string :=
  read_only (decode_struct (assign_fields [("reauth_ticket"%string, decode_string)])).

(** What is sent on. *)
Definition password_json (i : PasswordInput) : JSON := JObject
  [("current_password", JString (pi_CurrentPassword i)); ("new_password", JString (pi_NewPassword i))]%string.
Definition reauth_json (currentPassword : string) : JSON := JObject [("current_password"%string, JString currentPassword)].
Definition reset_json (i : ResetInput) : JSON :=
  let some name value := if String.eqb value "" then [] else [(name, JString value)] in
  JObject (some "current_password"%string (ri_CurrentPassword i) ++ some "reauth_ticket"%string (ri_ReauthTicket i))%list.
Definition map_json (m : option (gmap string JSON)) : JSON :=
  match m with Some m => JObject (sorted_fields m) | None => JNull end.
End Inputs.

(** ** Middleware *)

Section Middleware.
Context `{ClientEnv} `{GoUrl} `{TrustEnv} (cfg : ClientConfig).

Definition clock : H Stamp := fun p => (Ok (ce_now (l_tick (pn_local p))), p <| pn_local ::= bump |>).
Definition fresh_id : H string := fun p => (Ok (ce_id (l_tick (pn_local p))), p <| pn_local ::= bump |>).

Definition security_headers : list (string * string) :=
  [("Content-Security-Policy", "default-src 'self'; connect-src 'self' http://127.0.0.1:5174 http://localhost:5174; style-src 'self' 'unsafe-inline'; script-src 'self'; img-src 'self' data:");
   ("X-Content-Type-Options", "nosniff"); ("X-Frame-Options", "DENY");
   ("Referrer-Policy", "no-referrer"); ("Cache-Control", "no-store")]%string.

Definition headers (next : LocalRequest -> H unit) (r : LocalRequest) : H unit :=
  for_each security_headers (fun kv => set_header (fst kv) (snd kv));;
  next r.

Definition line_breaks : list ascii := [ascii_of_nat 13; ascii_of_nat 10].

Definition requestID (next : LocalRequest -> H unit) (r : LocalRequest) : H unit :=
  let given := TrimSpace (rq_Header r "X-Request-ID") in
  value ← (if String.eqb given "" || Nat.ltb 80 (String.length given) || ContainsAny given line_breaks
           then fresh_id else ret given);
  set_header "X-Request-ID" value;;
  next (r <| rq_RequestID := value |>).

Definition protocolV1 (next : LocalRequest -> H unit) (r : LocalRequest) : H unit :=
  let requested := TrimSpace (rq_Header r "X-FRP-Protocol-Version") in
  if negb (String.eqb requested "") && negb (String.eqb requested "v1") then
    set_header "Upgrade-Required" "v1";;
    problem r 426 "UPGRADE_REQUIRED" "Client Panel API protocol version is unsupported." None
  else next r.

Definition development_origins : list string := ["http://127.0.0.1:5174"; "http://localhost:5174"]%string.

Definition cors (next : LocalRequest -> H unit) (r : LocalRequest) : H unit :=
  let origin := rq_Header r "Origin" in
  (if existsb (String.eqb origin) development_origins then
     set_header "Access-Control-Allow-Origin" origin;;
     set_header "Access-Control-Allow-Credentials" "true";;
     set_header "Access-Control-Allow-Headers" "Content-Type, Idempotency-Key, X-CSRF-Token, X-FRP-Protocol-Version";;
     set_header "Access-Control-Allow-Methods" "GET, POST, PUT, DELETE, OPTIONS"
   else ret tt);;
  if String.eqb (rq_Method r) "OPTIONS" then WriteHeader 204 else next r.

(** Whole seconds of a delay (exact below 2^23 seconds), at least one. *)
Definition too_many (r : LocalRequest) (delay : Z) (code detail : string) : H unit :=
  set_header "Retry-After" (itoa (retry_seconds delay));;
  problem r 429 code detail None.

Definition rateLimit (next : LocalRequest -> H unit) (r : LocalRequest) : H unit :=
  now ← clock;
  verdict ← api_allow (remoteIP r) now;
  if fst verdict : bool then next r
  else too_many r (snd verdict) "RATE_LIMITED" "请求过于频繁，请稍后重试。".

(** The slot is given back on every way out. *)
Definition with_slot (m : H unit) : H unit := fun p =>
  let '(x, p') := m (p <| pn_busy ::= S |>) in (x, p' <| pn_busy ::= pred |>).

Definition concurrencyLimit (next : LocalRequest -> H unit) (r : LocalRequest) : H unit := fun p =>
  if Nat.ltb (pn_busy p) max_concurrent then with_slot (next r) p
  else
    (set_header "Retry-After" "1";;
     problem r 429 "CONCURRENCY_LIMITED" "并发请求已达到上限，请稍后重试。" None) p.

Definition localAuth (next : LocalRequest -> H unit) (r : LocalRequest) : H unit :=
  if negb (cidrAllowed (rq_RemoteAddr r) (cf_AllowedCIDRs cfg)) then problem r 404 "NOT_FOUND" "资源不存在。" None
  else if negb (hostAllowed (rq_Host r) (cf_AllowedHost cfg)) then problem r 404 "NOT_FOUND" "资源不存在。" None
  else next r.

Definition sessionRequired (next : LocalRequest -> H unit) (r : LocalRequest) : H unit :=
  valid ← (match rq_Cookie r with
           | Some cookie => in_app (ValidateLocal cookie)
           | None => ret (Ok false)
           end);
  match valid with
  | Ok true =>
      csrf ← reads_app (fun w => CSRFValid (rq_Header r "X-CSRF-Token") (l_app w));
      if negb (String.eqb (rq_Method r) "GET") && negb (String.eqb (rq_Path r) "/api/v1/logout") && negb csrf
      then problem r 403 "CSRF_INVALID" "请求校验失败，请刷新面板。" None
      else next r
  | _ => problem r 401 "SESSION_EXPIRED" "本地浏览器会话已失效，请重新登录。" None
  end.
End Middleware.

(** ** Handlers *)

(** The static pages, which [net/http] serves from the web directory. *)
Inductive StaticPage := IndexPage | Assets | FaviconIco | FaviconSvg.

Inductive Endpoint :=
| Health | Static (page : StaticPage) | EpLogin | EpInspect
| EpLogout | EpPassword | EpReauth | EpResetFRPCredential | EpSession | EpDashboard
| EpMappings | EpCreateMapping | EpUpdateMapping | EpDeleteMapping | EpToggleMapping
| EpDomains | EpOperations | EpCreateDomain | EpDeleteDomain | EpDomainDNSAction
| EpConfig | EpSync | EpLocalStatus | EpLogs.

Abbreviation Route := (string * string * Endpoint)%type.

Definition public_routes : list Route :=
  [("GET", "/healthz", Health); ("GET", "/", Static IndexPage); ("*", "/assets/*", Static Assets);
   ("GET", "/favicon.ico", Static FaviconIco); ("*", "/favicon.svg", Static FaviconSvg);
   ("POST", "/api/v1/login", EpLogin); ("POST", "/api/v1/server/inspect", EpInspect)]%string.

Definition session_routes : list Route :=
  [("POST", "/api/v1/logout", EpLogout); ("POST", "/api/v1/password", EpPassword);
   ("POST", "/api/v1/reauth", EpReauth); ("POST", "/api/v1/frp-credential/reset", EpResetFRPCredential);
   ("GET", "/api/v1/session", EpSession); ("GET", "/api/v1/dashboard", EpDashboard);
   ("GET", "/api/v1/mappings", EpMappings); ("POST", "/api/v1/mappings", EpCreateMapping);
   ("PUT", "/api/v1/mappings/{id}", EpUpdateMapping); ("DELETE", "/api/v1/mappings/{id}", EpDeleteMapping);
   ("POST", "/api/v1/mappings/{id}/toggle", EpToggleMapping); ("GET", "/api/v1/domains", EpDomains);
   ("GET", "/api/v1/operations", EpOperations); ("POST", "/api/v1/domains", EpCreateDomain);
   ("DELETE", "/api/v1/domains/{id}", EpDeleteDomain); ("POST", "/api/v1/domains/{id}/dns-action", EpDomainDNSAction);
   ("GET", "/api/v1/config", EpConfig); ("POST", "/api/v1/sync", EpSync);
   ("GET", "/api/v1/local-status", EpLocalStatus); ("GET", "/api/v1/logs", EpLogs)]%string.

(** The router (chi) and the file server (net/http): the route of a method and a
    path with its [id], the reply when there is none, the reply with a file. *)
Class Web := {
  chi_match : list Route -> string -> string -> option (Route * string);
  chi_unmatched : LocalRequest -> ReplyWriter -> ReplyWriter;
  serve_file : StaticPage -> LocalRequest -> ReplyWriter -> ReplyWriter
}.

Section Handlers.
Context `{ClientEnv} `{GoUrl} `{TrustEnv} (cfg : ClientConfig).

(** [App.Proxy] with the variable it fills. *)
Definition call {A} (method path : string) (body : option JSON) (csrf : string) (T : Target A) (a : A)
    (keys : list string) : H (A * option ClErr) :=
  r ← in_app (Proxy cfg method path body csrf (Some T) a keys);
  ret (match r with Ok x => x | Err e => (a, Some e) end).

Definition csrf_of (r : LocalRequest) : string := rq_Header r "X-CSRF-Token".
Definition key_of (r : LocalRequest) : string := rq_Header r "Idempotency-Key".

Definition production : bool := String.eqb (cf_Environment cfg) "production".

Definition health : H unit :=
  writeJSON 200 (json_object [("service", json_string "frp-panel-client"); ("status", json_string "ok")]%string).

(** Words of an error text, without regard to case. *)
Definition mentions (message : string) (words : list string) : bool := existsb (Contains (ToLower message)) words.

Definition invalid_credentials : string := "用户名或密码不正确，或账号已停用。".
Definition tls_failed : string := "Server Panel TLS 验证失败；请先检查证书并确认 SPKI 指纹。".

Definition loginProblem (err : ClErr) : Z * string * string :=
  match err with
  | ERemote status code _ =>
      let code := if String.eqb code "" then "AUTH_INVALID_CREDENTIALS"%string else code in
      (status, code, if String.eqb code "SERVER_TLS_VALIDATION_FAILED" then tls_failed else invalid_credentials)
  | _ =>
      if mentions (Error err) ["url"; "scheme"; "host"]%string
      then (400, "SERVER_ADDRESS_INVALID", "Server Panel 地址无效。")%string
      else if mentions (Error err) ["certificate"; "tls"; "x509"; "https"]%string
      then (400, "SERVER_TLS_VALIDATION_FAILED"%string, tls_failed)
      else (401, "AUTH_INVALID_CREDENTIALS"%string, invalid_credentials)
  end.

Definition login (r : LocalRequest) : H unit :=
  decodeJSON decode_login r (mkLoginInput "" "" "" "") (fun input =>
    let limitKey := (remoteIP r ++ "|" ++ TrimSpace (li_Username input))%string in
    now ← clock;
    verdict ← login_allow limitKey now;
    if negb (fst verdict) then too_many r (snd verdict) "AUTH_RATE_LIMITED" "登录尝试过于频繁，请稍后重试。"
    else
      session ← in_app (LoginWithTrust cfg (li_ServerPanelURL input) (li_Username input) (li_Password input)
        (li_TrustedSPKI input));
      match session with
      | Err e => let '(status, code, detail) := loginProblem e in problem r status code detail None
      | Ok session =>
          login_reset limitKey;;
          cookie ← reads_app (fun w => am_localSession (l_app w));
          add_cookie (mkSetCookie "frp_client_session" cookie true production 1800);;
          writeJSON 200 (session_json session)
      end).

(** [App.InspectServerCertificate] *)
Definition inspect (serverURL : string) : C CertificateInfo :=
  normalized ← of_text (NormalizeServerURL serverURL (development cfg));
  now ← time_now;
  of_text (InspectServerCertificate now normalized).

Definition inspectServer (r : LocalRequest) : H unit :=
  decodeJSON decode_inspect r ""%string (fun serverURL =>
    certificate ← in_app (inspect serverURL);
    match certificate with
    | Err e => problem r 400 "SERVER_CERTIFICATE_INSPECTION_FAILED" "无法检查 Server Panel 证书；未发送登录密码。" (Some e)
    | Ok info => writeJSON 200 (certificate_json info)
    end).

Definition json_ok : string := json_object [("ok", "true")]%string.

Definition clear_cookie : H unit := add_cookie (mkSetCookie "frp_client_session" "" true production (-1)).

Definition logout (r : LocalRequest) : H unit :=
  _ ← in_app (Logout cfg);
  clear_cookie;;
  writeJSON 200 json_ok.

Definition password (r : LocalRequest) : H unit :=
  decodeJSON decode_password r (mkPasswordInput "" "") (fun input =>
    res ← call "POST" "/api/v1/auth/change-password" (Some (password_json input)) (csrf_of r) interface_target JNull [];
    match snd res with
    | Some e => problem r 400 "PASSWORD_CHANGE_FAILED" (Error e) None
    | None => writeJSON 200 json_ok
    end).

Definition reauth (r : LocalRequest) : H unit :=
  decodeJSON decode_reauth r ""%string (fun currentPassword =>
    res ← call "POST" "/api/v1/auth/reauth" (Some (reauth_json currentPassword)) (csrf_of r) interface_target JNull [];
    match snd res with
    | Some e => problem r 401 "AUTH_REAUTH_FAILED" (Error e) None
    | None => writeJSON 200 (json_marshal (fst res))
    end).

(** The second half of a reset, with a ticket or without. *)
Definition reset_with (r : LocalRequest) (input : ResetInput) : H unit :=
  res ← call "POST" "/api/v1/auth/reset-frp-credential" (Some (reset_json input)) (csrf_of r) map_target None [key_of r];
  match snd res with
  | Some e => problem r 400 "FRP_SECRET_RESET_FAILED" (Error e) (Some e)
  | None =>
      _ ← in_app (Logout cfg);
      clear_cookie;;
      writeJSON 200 (marshal_payload (fst res))
  end.

Definition resetFRPCredential (r : LocalRequest) : H unit :=
  decodeJSON decode_reset r (mkResetInput "" "") (fun input =>
    if String.eqb (ri_ReauthTicket input) "" && negb (String.eqb (ri_CurrentPassword input) "") then
      ticket ← call "POST" "/api/v1/auth/reauth" (Some (reauth_json (ri_CurrentPassword input))) (csrf_of r)
        ticket_target ""%string [];
      match snd ticket with
      | Some e => problem r 401 "AUTH_REAUTH_FAILED" (Error e) None
      | None => reset_with r (mkResetInput "" (fst ticket))
      end
    else reset_with r input).

Definition session : H unit :=
  s ← reads_app (fun w => Session (l_app w));
  writeJSON 200 (session_json s).

Definition markDataSource : H unit :=
  reachable ← reads_app (fun w => am_serverReachable (l_app w));
  if reachable : bool then set_header "X-Panel-Data" "server"
  else
    set_header "X-Panel-Data" "cached";;
    set_header "Warning" ("110 - " ++ quoted "Server Panel unavailable; cached read-only data").

(** [dashboard], [mappings], [domains], [operations], [config]: a page of the
    server, or the cached one. *)
Definition read_page (path detail : string) (r : LocalRequest) : H unit :=
  res ← call "GET" path None "" interface_target JNull [];
  match snd res with
  | Some e => problem r 503 "SERVER_UNAVAILABLE" detail (Some e)
  | None =>
      markDataSource;;
      writeJSON 200 (json_marshal (fst res))
  end.

Definition unreachable : string := "Server Panel 暂不可达。".
Definition dashboard : LocalRequest -> H unit :=
  read_page "/api/v1/dashboard" "Server Panel 暂不可达，当前仅可查看本地缓存。".
Definition mappings : LocalRequest -> H unit := read_page "/api/v1/mappings" unreachable.
Definition domains : LocalRequest -> H unit := read_page "/api/v1/domains" unreachable.
Definition operations : LocalRequest -> H unit := read_page "/api/v1/operations" unreachable.
Definition config : LocalRequest -> H unit := read_page "/api/v1/config/full" unreachable.

(** A write that is passed on; afterwards the configuration is fetched, if it
    may have changed. *)
Definition pass_on (method path : string) (body : option JSON) (code : string) (status : Z) (sync : bool)
    (r : LocalRequest) : H unit :=
  res ← call method path body (csrf_of r) interface_target JNull [key_of r];
  match snd res with
  | Some e => problem r 400 code (Error e) (Some e)
  | None =>
      (if sync then _ ← in_app (FetchConfigAndApply cfg); ret tt else ret tt);;
      writeJSON status (json_marshal (fst res))
  end.

Definition with_map (r : LocalRequest) (k : JSON -> H unit) : H unit :=
  decodeJSON decode_map r None (fun input => k (map_json input)).

Definition createMapping (r : LocalRequest) : H unit :=
  with_map r (fun input => pass_on "POST" "/api/v1/mappings" (Some input) "MAPPING_CREATE_FAILED" 201 true r).
Definition updateMapping (id : string) (r : LocalRequest) : H unit :=
  with_map r (fun input => pass_on "PUT" ("/api/v1/mappings/" ++ id) (Some input) "MAPPING_UPDATE_FAILED" 200 true r).
Definition deleteMapping (id : string) (r : LocalRequest) : H unit :=
  pass_on "DELETE" ("/api/v1/mappings/" ++ id) None "MAPPING_DELETE_FAILED" 202 true r.
Definition toggleMapping (id : string) (r : LocalRequest) : H unit :=
  with_map r (fun input =>
    pass_on "POST" ("/api/v1/mappings/" ++ id ++ "/toggle") (Some input) "MAPPING_TOGGLE_FAILED" 200 true r).
Definition createDomain (r : LocalRequest) : H unit :=
  with_map r (fun input => pass_on "POST" "/api/v1/domains" (Some input) "DOMAIN_CREATE_FAILED" 202 true r).
Definition deleteDomain (id : string) (r : LocalRequest) : H unit :=
  pass_on "DELETE" ("/api/v1/domains/" ++ id) None "DOMAIN_DELETE_FAILED" 202 true r.
Definition domainDNSAction (id : string) (r : LocalRequest) : H unit :=
  with_map r (fun input =>
    pass_on "POST" ("/api/v1/domains/" ++ id ++ "/dns-action") (Some input) "DNS_ACTION_FAILED" 202 false r).

Definition sync (r : LocalRequest) : H unit :=
  done ← in_app (FetchConfigAndApply cfg);
  match done with
  | Err e => problem r 400 "SYNC_FAILED" (Error e) None
  | Ok _ =>
      status ← reads_app (fun w => sm_status (l_sup w));
      writeJSON 200 (json_object [("ok", "true"); ("status", status_json status)]%string)
  end.

Definition localStatus : H unit :=
  status ← reads_app (fun w => sm_status (l_sup w));
  writeJSON 200 (status_json status).

Definition logs : H unit :=
  now ← clock;
  writeJSON 200 (json_object [("items", "[" ++ json_object
    [("level", json_string "info"); ("message", json_string "本地日志由 Supervisor 脱敏收集；当前版本不展示秘密。");
     ("time", json_time (Some now))] ++ "]")]%string).
End Handlers.

(** ** Routes *)

Section Routing.
Context `{ClientEnv} `{GoUrl} `{TrustEnv} `{Web} (cfg : ClientConfig).

Definition dispatch (endpoint : Endpoint) (id : string) (r : LocalRequest) : H unit :=
  match endpoint with
  | Health => health
  | Static page => set_reply (serve_file page r)
  | EpLogin => login cfg r
  | EpInspect => inspectServer cfg r
  | EpLogout => logout cfg r
  | EpPassword => password cfg r
  | EpReauth => reauth cfg r
  | EpResetFRPCredential => resetFRPCredential cfg r
  | EpSession => session
  | EpDashboard => dashboard cfg r
  | EpMappings => mappings cfg r
  | EpCreateMapping => createMapping cfg r
  | EpUpdateMapping => updateMapping cfg id r
  | EpDeleteMapping => deleteMapping cfg id r
  | EpToggleMapping => toggleMapping cfg id r
  | EpDomains => domains cfg r
  | EpOperations => operations cfg r
  | EpCreateDomain => createDomain cfg r
  | EpDeleteDomain => deleteDomain cfg id r
  | EpDomainDNSAction => domainDNSAction cfg id r
  | EpConfig => config cfg r
  | EpSync => sync cfg r
  | EpLocalStatus => localStatus
  | EpLogs => logs
  end.

(** The routes of the group are behind the session; the router looks at all of
    them at once. *)
Definition in_session (endpoint : Endpoint) : bool :=
  match endpoint with Health | Static _ | EpLogin | EpInspect => false | _ => true end.

Definition route (r : LocalRequest) : H unit :=
  match chi_match (public_routes ++ session_routes)%list (rq_Method r) (rq_Path r) with
  | None => set_reply (chi_unmatched r)
  | Some (_, _, endpoint, id) =>
      if in_session endpoint then sessionRequired (dispatch endpoint id) r else dispatch endpoint id r
  end.

(** [Handler]: the middleware in the order of [r.Use]. *)
Definition Handler : LocalRequest -> H unit :=
  headers (requestID (protocolV1 (cors (rateLimit (concurrencyLimit (localAuth cfg route)))))).

(** A request is served with a reply of its own. *)
Definition serve (r : LocalRequest) (p : Panel) : Panel := snd (Handler r (p <| pn_reply := no_reply |>)).
End Routing.
