(* ===== verification/ClientHTTPSpec.v ===== *)
(** What the middleware of the client's HTTP API promises: which requests reach
    the application, and what every reply looks like. *)

From S2P Require Import Prelude StateError GoText GoNet GoUrl GoPath GoJson GoJsonRead GoHttp Timestamps Encoding RateLimit Client ClientSecurity ClientWebSocket ClientToml Supervisor ClientApp ClientHTTP.
From Stdlib Require Import Ascii String.
Import Limiter.
Open Scope Z_scope.

(** Only time passed. *)
Definition quiet (w w' : Local) : Prop := w' = w <| l_tick := l_tick w' |> /\ (l_tick w <= l_tick w')%nat.

#[export] Instance quiet_preorder : PreOrder quiet.
Proof.
  split.
  - intros []. split; [reflexivity|lia].
  - intros [] [] [] [E1 H1] [E2 H2]. simpl in *; simplify_eq; split; [reflexivity|simpl in *; lia].
Qed.

Lemma quiet_bump w : quiet w (bump w).
Proof. destruct w. split; [reflexivity|simpl; lia]. Qed.

(** A quiet step leaves the application's memory as it was. *)
Lemma quiet_app w w' : quiet w w' -> l_app w' = l_app w.
Proof. intros [-> _]. reflexivity. Qed.

(** The part of a panel that the first four middlewares leave alone. *)
Definition still (p p' : Panel) : Prop :=
  quiet (pn_local p) (pn_local p') /\ pn_apiLimit p' = pn_apiLimit p /\ pn_busy p' = pn_busy p.

#[export] Instance still_preorder : PreOrder still.
Proof.
  unfold still. split; [done|]. intros p1 p2 p3 (H1 & H2 & H3) (H4 & H5 & H6).
  split_and!; [by etrans|congruence..].
Qed.

(** The same request, but for the identifier in its context. *)
Definition same_request (r r' : LocalRequest) : Prop := r' = r <| rq_RequestID := rq_RequestID r' |>.

#[export] Instance same_request_preorder : PreOrder same_request.
Proof.
  unfold same_request. split; [by intros []|].
  intros [] [] [] H1 H2. simpl in *; congruence.
Qed.

(** ** Computations that never fail *)

Section Runs.
Context {A : Type}.

Lemma runs (m : H A) p : exists a, m p = (Ok a, snd (m p)).
Proof. destruct (m p) as [[a|[]] p']. by exists a. Qed.

Lemma snd_bind {B} (m : H A) (k : A -> H B) p a : fst (m p) = Ok a -> snd ((m ≫= k) p) = snd (k a (snd (m p))).
Proof. unfold mbind, M_bind, bind. destruct (m p) as [r p']. simpl. by intros ->. Qed.
End Runs.

(** ** Replies are written without touching the application *)

(** Only the reply changes. *)
Definition reply_only (p p' : Panel) : Prop := p' = p <| pn_reply := pn_reply p' |>.
Abbreviation replies := (moves reply_only).

#[export] Instance reply_only_preorder : PreOrder reply_only.
Proof.
  unfold reply_only. split; [by intros []|].
  intros [] [] [] H1 H2. simpl in *; congruence.
Qed.

Lemma reply_only_still p p' : reply_only p p' -> still p p'.
Proof. intros ->. split_and!; reflexivity. Qed.

Lemma replies_set_reply f : replies (set_reply f).
Proof. by intros []. Qed.
Lemma replies_get_header name : replies (get_header name).
Proof. by intros []. Qed.
#[export] Hint Resolve replies_set_reply replies_get_header : moves.

Ltac replying := repeat first
  [ solve [eauto 3 with moves nocore typeclass_instances] | move_step
  | progress unfold set_header, WriteHeader, Write, add_cookie, clear_cookie ].

Section Replies.
Context `{ClientEnv}.

Lemma replies_writeJSON status encoded : replies (writeJSON status encoded).
Proof. unfold writeJSON. replying. Qed.

Lemma replies_problem r status code detail cause : replies (problem r status code detail cause).
Proof. unfold problem. replying. Qed.
#[local] Hint Resolve replies_problem : moves.

Lemma replies_too_many r delay code detail : replies (too_many r delay code detail).
Proof. unfold too_many. replying. Qed.
End Replies.
#[export] Hint Resolve replies_writeJSON replies_problem replies_too_many : moves.

(** ** The gate *)

Section Gate.
Context `{ClientEnv} `{GoUrl} `{TrustEnv} `{Web} (cfg : ClientConfig).
Implicit Types (G : Local -> Prop) (next : LocalRequest -> H unit) (r : LocalRequest) (p : Panel).

(** What a computation ends in, after a part that leaves the panel alone. *)
Lemma after_still {A B} (m : H A) (k : A -> H B) p G :
  moves still m -> (forall a p', still p p' -> fst (m p) = Ok a -> G (pn_local (snd (k a p')))) ->
  G (pn_local (snd ((m ≫= k) p))).
Proof using Type.
  intros Hm Hk. destruct (runs m p) as [a E]. rewrite (snd_bind m k p a) by (by rewrite E).
  apply Hk; [apply Hm|by rewrite E].
Qed.

Lemma still_of_replies {A} (m : H A) : replies m -> moves still m.
Proof using Type. intros Hm p. apply reply_only_still, Hm. Qed.

Lemma refused {A} (m : H A) p G :
  replies m -> (forall w, quiet (pn_local p) w -> G w) -> G (pn_local (snd (m p))).
Proof using Type. intros Hm HG. apply HG. apply (still_of_replies m Hm p). Qed.

Lemma headers_pass next r p G :
  (forall p', still p p' -> G (pn_local (snd (next r p')))) -> G (pn_local (snd (headers next r p))).
Proof using Type. intros Hn. unfold headers. apply (after_still _ _ _ G); [apply still_of_replies; replying|auto]. Qed.

Lemma still_clock : moves still clock.
Proof using Type. intros p. split_and!; [apply quiet_bump|done..]. Qed.
Lemma still_fresh_id : moves still fresh_id.
Proof using Type. intros p. split_and!; [apply quiet_bump|done..]. Qed.

Lemma requestID_pass next r p G :
  (forall r' p', still p p' -> same_request r r' -> G (pn_local (snd (next r' p')))) ->
  G (pn_local (snd (requestID next r p))).
Proof using Type.
  intros Hn. unfold requestID. apply (after_still _ _ _ G).
  { destruct (_ || _); [apply still_fresh_id|apply moves_ret; typeclasses eauto]. }
  intros value p1 S1 _. apply (after_still _ _ _ G); [apply still_of_replies; replying|].
  intros _ p2 S2 _. apply Hn; [by etrans|reflexivity].
Qed.

(** The protocol version the client asked for, if it did. *)
Definition speaks_v1 (r : LocalRequest) : bool :=
  let requested := TrimSpace (rq_Header r "X-FRP-Protocol-Version") in
  String.eqb requested "" || String.eqb requested "v1".

Lemma protocol_pass next r p G :
  (forall w, quiet (pn_local p) w -> G w) ->
  (speaks_v1 r = true -> G (pn_local (snd (next r p)))) -> G (pn_local (snd (protocolV1 next r p))).
Proof using Type.
  intros HG Hn. unfold protocolV1. rewrite <- negb_orb. fold (speaks_v1 r).
  destruct (speaks_v1 r); cbn [negb]; [by apply Hn|]. apply (refused _ _ G); [replying|done].
Qed.

Lemma cors_pass next r p G :
  (forall w, quiet (pn_local p) w -> G w) ->
  (forall p', still p p' -> rq_Method r <> "OPTIONS"%string -> G (pn_local (snd (next r p')))) ->
  G (pn_local (snd (cors next r p))).
Proof using Type.
  intros HG Hn. unfold cors. apply (after_still _ _ _ G); [apply still_of_replies; replying|]. intros _ p1 S1 _.
  destruct (String.eqb_spec (rq_Method r) "OPTIONS") as [Hm|Hm]; [|by apply Hn].
  apply (refused _ _ G); [replying|]. intros w Hw. apply HG. etrans; [apply S1|exact Hw].
Qed.

(** The key is within its limit at some moment from [p] on. *)
Definition within_rate (r : LocalRequest) (p : Panel) : Prop :=
  exists n, (l_tick (pn_local p) <= n)%nat /\ fst (fst (allow (remoteIP r) (ce_now n) (pn_apiLimit p))) = true.

Lemma rate_pass next r p G :
  (forall w, quiet (pn_local p) w -> G w) ->
  (forall p', quiet (pn_local p) (pn_local p') -> pn_busy p' = pn_busy p -> within_rate r p -> G (pn_local (snd (next r p')))) ->
  G (pn_local (snd (rateLimit next r p))).
Proof using Type.
  intros HG Hn. unfold rateLimit. rewrite (snd_bind clock _ p (ce_now (l_tick (pn_local p)))) by done.
  unfold api_allow at 1. unfold mbind, M_bind, bind. cbn [snd clock].
  destruct (allow (remoteIP r) (ce_now (l_tick (pn_local p))) (pn_apiLimit p)) as [[ok delay] l] eqn:E.
  assert (pn_apiLimit (p <| pn_local ::= bump |>) = pn_apiLimit p) as -> by done.
  rewrite E. cbn [fst snd]. destruct ok.
  - apply Hn; [apply quiet_bump|done|]. exists (l_tick (pn_local p)). split; [lia|by rewrite E].
  - apply (refused _ _ G); [replying|]. intros w Hw. apply HG. etrans; [apply quiet_bump|exact Hw].
Qed.

Lemma concurrency_pass next r p G :
  (forall w, quiet (pn_local p) w -> G w) ->
  (forall p', pn_local p' = pn_local p -> (pn_busy p < max_concurrent)%nat -> G (pn_local (snd (next r p')))) ->
  G (pn_local (snd (concurrencyLimit next r p))).
Proof using Type.
  intros HG Hn. unfold concurrencyLimit. destruct (Nat.ltb_spec (pn_busy p) max_concurrent) as [Hb|Hb].
  - unfold with_slot. match goal with |- context [next r ?q] => specialize (Hn q eq_refl Hb); destruct (next r q) as [x p'] end.
    exact Hn.
  - apply (refused _ _ G); [replying|done].
Qed.

(** The address and the host name are allowed. *)
Definition local_caller (r : LocalRequest) : bool :=
  cidrAllowed (rq_RemoteAddr r) (cf_AllowedCIDRs cfg) && hostAllowed (rq_Host r) (cf_AllowedHost cfg).

Lemma localAuth_pass next r p G :
  (forall w, quiet (pn_local p) w -> G w) ->
  (local_caller r = true -> G (pn_local (snd (next r p)))) -> G (pn_local (snd (localAuth cfg next r p))).
Proof using Type.
  intros HG Hn. unfold localAuth, local_caller in *.
  destruct (cidrAllowed _ _); cbn [negb andb] in *; [|apply (refused _ _ G); [replying|done]].
  destruct (hostAllowed _ _); cbn [negb andb] in *; [by apply Hn|apply (refused _ _ G); [replying|done]].
Qed.

(** The browser has the session's cookie, in time, and shows its CSRF token
    where one is asked for. *)
Definition in_own_session (r : LocalRequest) (w : Local) : Prop :=
  exists cookie expires n, rq_Cookie r = Some cookie /\ cookie <> ""%string /\
    cookie = am_localSession (l_app w) /\ am_expiresAt (l_app w) = Some expires /\
    (l_tick w <= n)%nat /\ ce_now n < expires /\
    (rq_Method r = "GET"%string \/ rq_Path r = "/api/v1/logout"%string \/
     (csrf_of r <> ""%string /\ csrf_of r = am_csrfToken (l_app w))).

Lemma session_pass next r p G :
  (forall w, quiet (pn_local p) w -> G w) ->
  (forall p', quiet (pn_local p) (pn_local p') -> in_own_session r (pn_local p) -> G (pn_local (snd (next r p')))) ->
  G (pn_local (snd (sessionRequired next r p))).
Proof using Type.
  intros HG Hn. unfold sessionRequired. apply (after_still _ _ _ G).
  { destruct (rq_Cookie r); [|apply moves_ret; typeclasses eauto]. intros q. split_and!; [apply quiet_bump|done..]. }
  intros valid p1 (S1 & _ & _) E.
  destruct valid as [[|]|e]; [|apply (refused _ _ G); [replying|intros w Hw; apply HG; by etrans]..].
  assert (exists cookie, rq_Cookie r = Some cookie /\ fst (ValidateLocal cookie (pn_local p)) = Ok true) as (cookie & Hc & Hv).
  { destruct (rq_Cookie r) as [cookie|]; [|discriminate E]. exists cookie. split; [done|].
    unfold in_app in E. destruct (ValidateLocal cookie (pn_local p)). simpl in *. congruence. }
  apply (after_still (reads_app _) _ _ G); [by intros q|]. intros csrf p2 (S2 & _ & _) E2.
  injection E2 as <-. rewrite (quiet_app _ _ S1).
  unfold ValidateLocal in Hv. simpl in Hv. injection Hv as Hv.
  apply andb_true_iff in Hv as [[Hv1 Hv2]%andb_true_iff Hv3].
  apply negb_true_iff, String.eqb_neq in Hv1. apply String.eqb_eq in Hv2.
  destruct (am_expiresAt (l_app (pn_local p))) as [expires|] eqn:He; [|done].
  destruct (String.eqb_spec (rq_Method r) "GET") as [Hm|Hm]; [|destruct (String.eqb_spec (rq_Path r) "/api/v1/logout") as [Hl|Hl];
    [|destruct (CSRFValid (rq_Header r "X-CSRF-Token") (l_app (pn_local p))) eqn:Hcsrf]]; cbn [negb andb];
    try (apply Hn; [by etrans|]; exists cookie, expires, (l_tick (pn_local p)); split_and!; try done; try lia; auto).
  - right; right. unfold CSRFValid in Hcsrf. apply andb_true_iff in Hcsrf as [C1 C2].
    apply negb_true_iff, String.eqb_neq in C1. by apply String.eqb_eq in C2.
  - apply (refused _ _ G); [replying|]. intros w Hw. apply HG. etrans; [exact S1|]. etrans; [exact S2|exact Hw].
Qed.

Lemma own_session_quiet r w w1 : quiet w w1 -> in_own_session r w1 -> in_own_session r w.
Proof using Type.
  intros Hq (cookie & expires & n & S1 & S2 & S3 & S4 & S5 & S6 & S7). rewrite (quiet_app _ _ Hq) in *.
  destruct Hq as [_ Hn]. exists cookie, expires, n. split_and!; try done. lia.
Qed.

(** The middleware lets the request through to the routes. *)
Definition admitted (r : LocalRequest) (p : Panel) : Prop :=
  speaks_v1 r = true /\ rq_Method r <> "OPTIONS"%string /\ within_rate r p /\
  (pn_busy p < max_concurrent)%nat /\ local_caller r = true.

(** A request of the route may act on the application. *)
Definition may_act (r : LocalRequest) (w : Local) (endpoint : Endpoint) : Prop :=
  endpoint = EpLogin \/ endpoint = EpInspect \/ (in_session endpoint = true /\ in_own_session r w).

Lemma Handler_pass r p G :
  (forall w, quiet (pn_local p) w -> G w) ->
  (forall r' p', quiet (pn_local p) (pn_local p') -> same_request r r' -> admitted r p ->
   G (pn_local (snd (route cfg r' p')))) ->
  G (pn_local (snd (Handler cfg r p))).
Proof using Type.
  intros HG Hroute. unfold Handler.
  apply (headers_pass _ _ _ G). intros p1 S1.
  apply (requestID_pass _ _ _ G). intros r1 p2 S2 Hr. assert (still p p2) as (Q2 & L2 & B2) by (by etrans).
  rewrite Hr in *. clear Hr S1 S2.
  apply (protocol_pass _ _ _ G); [intros w Hw; apply HG; by etrans|]. intros Hv1.
  apply (cors_pass _ _ _ G); [intros w Hw; apply HG; by etrans|]. intros p3 (Q3 & L3 & B3) Hm.
  apply (rate_pass _ _ _ G); [intros w Hw; apply HG; do 2 (etrans; [eassumption|]); exact Hw|].
  intros p4 Q4 B4 (n & Hn & Hrate).
  assert (quiet (pn_local p) (pn_local p4)) as Q by (do 2 (etrans; [eassumption|]); exact Q4).
  apply (concurrency_pass _ _ _ G); [intros w Hw; apply HG; by etrans|]. intros p5 E5 Hb.
  apply (localAuth_pass _ _ _ G); [intros w Hw; rewrite E5 in Hw; apply HG; by etrans|]. intros Hl.
  apply Hroute; [by rewrite E5|reflexivity|]. split_and!; [exact Hv1|exact Hm| |congruence|exact Hl].
  exists n. rewrite <- L2, <- L3. split; [|exact Hrate]. destruct Q2 as [_ Q2], Q3 as [_ Q3]. lia.
Qed.

(** C38: Nothing happens for a stranger.  Whatever the request, either the
    application is as before (its memory, its files, FRPC, the requests made to
    the server), or the request passed the rate limit, the limit of concurrent
    requests, the networks and the host names allowed, and the route is the login
    or the inspection of a certificate, or the request carries the cookie of the
    running session, before it expires, and, unless it is a GET or the logout,
    the session's CSRF token. *)
Theorem gate r p :
  quiet (pn_local p) (pn_local (serve cfg r p)) \/
  (admitted r p /\ exists method pattern endpoint id,
     chi_match (public_routes ++ session_routes)%list (rq_Method r) (rq_Path r) = Some (method, pattern, endpoint, id) /\
     may_act r (pn_local p) endpoint).
Proof using Type.
  unfold serve. set (p0 := p <| pn_reply := no_reply |>).
  change (pn_local p) with (pn_local p0). change (admitted r p) with (admitted r p0).
  apply (Handler_pass r p0 (fun w => quiet (pn_local p0) w \/ _)); [by left|].
  intros r' p' Q Hr Hadm. unfold route. assert (rq_Method r' = rq_Method r /\ rq_Path r' = rq_Path r) as [-> ->].
  { rewrite Hr. done. }
  destruct (chi_match _ _ _) as [[[[method pattern] endpoint] id]|] eqn:E.
  2:{ left. etrans; [exact Q|]. apply (still_of_replies (set_reply _)). replying. }
  set (G := fun w => quiet (pn_local p0) w \/ (admitted r p0 /\ exists m q e i,
    Some (method, pattern, endpoint, id) = Some (m, q, e, i) /\ may_act r (pn_local p0) e)).
  change (G (pn_local (snd ((if in_session endpoint then sessionRequired (dispatch cfg endpoint id) r'
    else dispatch cfg endpoint id r') p')))).
  assert (forall w, quiet (pn_local p') w -> G w) as Hq by (intros w Hw; left; by etrans).
  assert (may_act r (pn_local p0) endpoint -> forall w, G w) as Hact.
  { intros Ha w. right. split; [exact Hadm|]. by exists method, pattern, endpoint, id. }
  clearbody G. destruct (in_session endpoint) eqn:Es.
  - apply (session_pass _ _ _ G); [exact Hq|]. intros p2 Q2 Hown. apply Hact. right; right. split; [exact Es|].
    apply (own_session_quiet r _ (pn_local p')); [exact Q|]. rewrite Hr in Hown. exact Hown.
  - destruct endpoint; try discriminate Es.
    + exact (refused health p' G (replies_writeJSON _ _) Hq).
    + exact (refused (set_reply (serve_file page r')) p' G (replies_set_reply _) Hq).
    + apply Hact. by left.
    + apply Hact. right; by left.
Qed.
End Gate.

(** ** The shape of a reply *)

Definition protected_headers : list string := (map fst security_headers ++ ["X-Request-ID"])%list%string.
Definition allow_origin : string := "Access-Control-Allow-Origin".

(** The headers every reply carries are kept, an origin is allowed only if it is
    one of the development panel; no slot is taken or given back. *)
Definition headers_kept (p p' : Panel) : Prop :=
  Forall (fun k => rp_Header (pn_reply p') !! k = rp_Header (pn_reply p) !! k) protected_headers /\
  (rp_Header (pn_reply p') !! allow_origin = rp_Header (pn_reply p) !! allow_origin \/
   exists origin, origin ∈ development_origins /\ rp_Header (pn_reply p') !! allow_origin = Some origin) /\
  pn_busy p' = pn_busy p.

#[export] Instance headers_kept_preorder : PreOrder headers_kept.
Proof.
  unfold headers_kept. split.
  - intros p. split_and!; [by apply Forall_forall|by left|done].
  - intros p1 p2 p3 (F1 & C1 & B1) (F2 & C2 & B2). rewrite Forall_forall in *. split_and!; [| |congruence].
    + intros k Hk. by rewrite (F2 k Hk), (F1 k Hk).
    + destruct C2 as [C2|C2]; [rewrite C2; exact C1|by right].
Qed.

(** Nothing is answered yet. *)
Definition framed (p p' : Panel) : Prop :=
  headers_kept p p' /\ rp_Status (pn_reply p') = rp_Status (pn_reply p) /\ rp_Body (pn_reply p') = rp_Body (pn_reply p).

#[export] Instance framed_preorder : PreOrder framed.
Proof.
  unfold framed. split; [intros p; split_and!; reflexivity|].
  intros p1 p2 p3 (F1 & S1 & B1) (F2 & S2 & B2). split_and!; [by etrans|congruence..].
Qed.

(** A whole answer: a problem document, a JSON value, or nothing to a preflight. *)
Inductive document `{ClientEnv} (r : LocalRequest) (w : ReplyWriter) : Prop :=
| is_problem status code detail :
    rp_Status w = Some status -> rp_Header w !! "Content-Type"%string = Some "application/problem+json"%string ->
    rp_Body w = (json_marshal (problem_body (rq_Path r) (rq_RequestID r) status code detail) ++ newline)%string ->
    document r w
| is_json status value :
    status ∈ [200; 201; 202] -> rp_Status w = Some status ->
    rp_Header w !! "Content-Type"%string = Some "application/json"%string ->
    rp_Body w = (value ++ newline)%string -> document r w
| is_preflight :
    rq_Method r = "OPTIONS"%string -> rp_Status w = Some 204 -> rp_Body w = ""%string -> document r w.

Definition unanswered (p : Panel) : Prop := rp_Status (pn_reply p) = None /\ rp_Body (pn_reply p) = ""%string.

(** [m] keeps the headers and answers the request. *)
Definition answers `{ClientEnv} {A} (r : LocalRequest) (m : H A) : Prop :=
  forall p, unanswered p -> headers_kept p (snd (m p)) /\ document r (pn_reply (snd (m p))).

Section Answers.
Context `{ClientEnv}.

Lemma answers_bind {A B} r (m : H A) (k : A -> H B) :
  moves framed m -> (forall a, answers r (k a)) -> answers r (m ≫= k).
Proof using Type.
  intros Hm Hk p [Hs Hb]. destruct (runs m p) as [a E]. rewrite (snd_bind m k p a) by (by rewrite E).
  destruct (Hm p) as (F & S1 & B1). destruct (Hk a (snd (m p))) as [F' D]; [split; congruence|].
  split; [by etrans|exact D].
Qed.

Lemma set_header_framed name value :
  name ∉ protected_headers -> (name = allow_origin -> value ∈ development_origins) -> moves framed (set_header name value).
Proof using Type.
  intros Hn Ho p. split_and!; [|done..]. split_and!; [| |done].
  - apply Forall_forall. intros k Hk. simpl. rewrite lookup_insert_ne; [done|]. intros ->. contradiction.
  - simpl. destruct (decide (name = allow_origin)) as [->|Hne].
    + right. exists value. split; [by apply Ho|]. by rewrite lookup_insert_eq.
    + left. by rewrite lookup_insert_ne.
Qed.

Lemma frame_prim {A} (m : H A) : (forall p, pn_reply (snd (m p)) = pn_reply p /\ pn_busy (snd (m p)) = pn_busy p) -> moves framed m.
Proof using Type.
  intros Hm p. destruct (Hm p) as [E1 E2]. unfold framed, headers_kept. rewrite E1, E2.
  split_and!; [by apply Forall_forall|by left|done..].
Qed.

Lemma framed_in_app {A} (m : C A) : moves framed (in_app m).
Proof using Type. apply frame_prim. intros p. unfold in_app. by destruct (m (pn_local p)). Qed.
Lemma framed_reads_app {A} (f : Local -> A) : moves framed (reads_app f).
Proof using Type. by apply frame_prim. Qed.
Lemma framed_get_header name : moves framed (get_header name).
Proof using Type. by apply frame_prim. Qed.
Lemma framed_clock : moves framed clock.
Proof using Type. by apply frame_prim. Qed.
Lemma framed_fresh_id : moves framed fresh_id.
Proof using Type. by apply frame_prim. Qed.
Lemma framed_api_allow key now : moves framed (api_allow key now).
Proof using Type. apply frame_prim. intros p. unfold api_allow. by destruct (allow _ _ _). Qed.
Lemma framed_login_allow key now : moves framed (login_allow key now).
Proof using Type. apply frame_prim. intros p. unfold login_allow. by destruct (allow _ _ _). Qed.
Lemma framed_login_reset key : moves framed (login_reset key).
Proof using Type. by apply frame_prim. Qed.
Lemma framed_add_cookie c : moves framed (add_cookie c).
Proof using Type. intros p. split_and!; [|done..]. split_and!; [by apply Forall_forall|by left|done]. Qed.

Lemma answers_problem r status code detail cause : answers r (problem r status code detail cause).
Proof using Type.
  intros p [Hs Hb]. unfold problem. destruct (caused cause status code detail) as [[s c] d].
  pose proof (set_header_framed "Content-Type" "application/problem+json" ltac:(set_solver) ltac:(done) p) as [F _].
  split.
  - etrans; [exact F|]. split_and!; [by apply Forall_forall|by left|done].
  - apply (is_problem r _ s c d); simpl; [by rewrite Hs|by rewrite lookup_insert_eq|by rewrite Hb].
Qed.

Lemma answers_writeJSON r status encoded : status ∈ [200; 201; 202] -> answers r (writeJSON status encoded).
Proof using Type.
  intros Hst p [Hs Hb]. unfold writeJSON.
  rewrite (snd_bind (get_header _) _ p (default ""%string (rp_Header (pn_reply p) !! "X-Request-ID"%string)) eq_refl).
  cbv zeta. cbn [snd get_header]. generalize (default ""%string (rp_Header (pn_reply p) !! "X-Request-ID"%string)) as id. intros id.
  generalize (if (200 <=? status) && (status <? 300) then
      match json_unmarshal map_target encoded None with
      | (Some object, true) =>
          match object !! "request_id"%string with
          | Some _ => encoded
          | None => if String.eqb id "" then encoded
                    else marshal_payload (Some (<["request_id"%string := JString id]> object))
          end
      | _ => encoded
      end
    else encoded) as body. intros body.
  pose proof (set_header_framed "Content-Type" "application/json" ltac:(set_solver) ltac:(done) p) as [F _].
  split.
  - etrans; [exact F|]. split_and!; [by apply Forall_forall|by left|done].
  - apply (is_json r _ status body); simpl; [done|by rewrite Hs|by rewrite lookup_insert_eq|by rewrite Hb].
Qed.
End Answers.
#[export] Hint Resolve framed_in_app framed_reads_app framed_get_header framed_clock framed_fresh_id framed_api_allow
  framed_login_allow framed_login_reset framed_add_cookie : moves.

Ltac framing := repeat first
  [ solve [eauto 3 with moves nocore typeclass_instances]
  | match goal with |- moves _ (set_header _ _) => apply set_header_framed; [set_solver|try done] end
  | move_step
  | progress unfold call, clear_cookie ].

Ltac answers_step :=
  match goal with
  | |- answers _ (mbind _ _) => apply answers_bind; [solve [framing]|intros ?]
  | |- answers _ (problem _ _ _ _ _) => apply answers_problem
  | |- answers _ (writeJSON _ _) => apply answers_writeJSON; set_solver
  | |- answers _ (if ?b then _ else _) => destruct b eqn:?
  | |- answers _ (match ?x with _ => _ end) => destruct x eqn:?
  | |- answers _ _ => solve [eauto 3 with answers nocore]
  end.
Ltac answering := repeat answers_step.
#[global] Create HintDb answers.

Section Documents.
Context `{ClientEnv} `{GoUrl} `{TrustEnv} `{Web} (cfg : ClientConfig).
Implicit Types (r : LocalRequest) (p : Panel).

Lemma answers_too_many r delay code detail : answers r (too_many r delay code detail).
Proof using Type. unfold too_many. answering. Qed.
#[local] Hint Resolve answers_too_many : answers.

Lemma answers_decodeJSON {A} (decode : JText -> A -> A * bool) r a (k : A -> H unit) :
  (forall a, answers r (k a)) -> answers r (decodeJSON decode r a k).
Proof using Type. intros Hk. unfold decodeJSON. answering. Qed.

Lemma answers_reset_with r input : answers r (reset_with cfg r input).
Proof using Type. unfold reset_with. answering. Qed.

Lemma answers_read_page path detail r : answers r (read_page cfg path detail r).
Proof using Type. unfold read_page, markDataSource. answering. Qed.

Lemma answers_pass_on method path body code status sync r :
  status ∈ [200; 201; 202] -> answers r (pass_on cfg method path body code status sync r).
Proof using Type. intros Hs. unfold pass_on. answering. Qed.

Lemma answers_with_map r (k : JSON -> H unit) : (forall v, answers r (k v)) -> answers r (with_map r k).
Proof using Type. intros Hk. apply answers_decodeJSON. intros a. apply Hk. Qed.

Ltac handled := repeat first
  [ match goal with
    | |- answers _ (decodeJSON _ _ _ _) => apply answers_decodeJSON; intros ?; cbv beta zeta
    | |- answers _ (with_map _ _) => apply answers_with_map; intros ?; cbv beta
    | |- answers _ (pass_on _ _ _ _ _ _ _ _) => apply answers_pass_on; set_solver
    | |- answers _ (read_page _ _ _ _) => apply answers_read_page
    | |- answers _ (reset_with _ _ _) => apply answers_reset_with
    end
  | answers_step ].

Definition static (endpoint : Endpoint) : bool := match endpoint with Static _ => true | _ => false end.

Lemma answers_dispatch endpoint id r : static endpoint = false -> answers r (dispatch cfg endpoint id r).
Proof using Type.
  intros Hs. destruct endpoint; try discriminate Hs; clear Hs; cbn [dispatch];
    unfold health, login, inspectServer, logout, password, reauth, resetFRPCredential, session, dashboard, mappings,
      createMapping, updateMapping, deleteMapping, toggleMapping, domains, operations, createDomain, deleteDomain,
      domainDNSAction, config, sync, localStatus, logs; handled.
Qed.

(** The routes the client answers itself. *)
Definition ours (r : LocalRequest) : bool :=
  match chi_match (public_routes ++ session_routes)%list (rq_Method r) (rq_Path r) with
  | Some (_, _, endpoint, _) => negb (static endpoint)
  | None => false
  end.

Lemma answers_route r : ours r = true -> answers r (route cfg r).
Proof using Type.
  unfold ours, route. destruct (chi_match _ _ _) as [[[[m q] endpoint] id]|]; [|discriminate].
  intros Hs. apply negb_true_iff in Hs. destruct (in_session endpoint); [|by apply answers_dispatch].
  unfold sessionRequired. answering; by apply answers_dispatch.
Qed.

Lemma answers_slot r (m : H unit) : answers r m -> answers r (with_slot m).
Proof using Type.
  intros Hm p Hp. unfold with_slot. match goal with |- context [m ?q] => destruct (Hm q Hp) as [(F1 & C1 & B1) D]; destruct (m q) as [x p'] end.
  split; [|exact D]. split_and!; [exact F1|exact C1|]. simpl in *. lia.
Qed.

(** From the identifier on, the middleware and the routes answer. *)
Lemma answers_protocol r : ours r = true ->
  answers r (protocolV1 (cors (rateLimit (concurrencyLimit (localAuth cfg (route cfg))))) r).
Proof using Type.
  intros Ho. unfold protocolV1. answering. unfold cors. apply answers_bind.
  { destruct (existsb _ _) eqn:E; [|framing]. framing. intros _.
    apply existsb_exists in E as (o & Hin & ->%String.eqb_eq). by apply list_elem_of_In. }
  intros _. destruct (String.eqb_spec (rq_Method r) "OPTIONS") as [Hm|Hm].
  { intros p [Hs Hb]. split; [split_and!; [by apply Forall_forall|by left|done]|].
    apply is_preflight; [exact Hm|simpl; by rewrite Hs|exact Hb]. }
  unfold rateLimit. answering. unfold concurrencyLimit. intros p Hp.
  destruct (Nat.ltb (pn_busy p) max_concurrent).
  - revert p Hp. apply answers_slot. unfold localAuth. answering. by apply answers_route.
  - revert p Hp. apply (answers_bind r (set_header _ _) (fun _ => problem r 429 _ _ None)); [framing|intros _; apply answers_problem].
Qed.

(** An identifier that a header can carry: the caller's, if it is short and has
    no line break, or a new one. *)
Definition sound_id (id : string) : Prop :=
  (id <> ""%string /\ (String.length id <= 80)%nat /\ ContainsAny id line_breaks = false) \/ exists n, id = ce_id n.

End Documents.
