(* ===== verification/ClientSecuritySpec.v ===== *)
(** What the client's settings and pins promise: a panel with the default
    settings is for this machine only, a pin stands for one public key. *)

From S2P Require Import Prelude StateError GoText GoNet GoUrl GoPath GoJson GoJsonRead GoHttp Timestamps Encoding RateLimit Client ClientSecurity ClientWebSocket ClientToml Supervisor ClientApp ClientHTTP ClientHTTPSpec.
From Stdlib Require Import Ascii String.
Open Scope Z_scope.

(** ** Networks *)

Lemma land_byte v : is_byte v -> Z.land v 255 = v.
Proof. intros Hv. change 255 with (Z.ones 8). rewrite Z.land_ones by lia. apply Z.mod_small. exact Hv. Qed.

Lemma mask_all l n : Forall is_byte l -> mask_bytes l (replicate n 255) = take n l.
Proof.
  intros Hl. revert n. induction Hl as [|v l Hv Hl IH]; intros [|n]; try done.
  unfold mask_bytes in *. simpl. by rewrite land_byte, IH.
Qed.

Definition loopback4 : IPNet := mkIPNet [127; 0; 0; 0] [255; 0; 0; 0].
Definition loopback6 : IPNet := mkIPNet ipv6_loopback (replicate 16 255).

Lemma loopback_networks :
  ParseCIDR "127.0.0.0/8" = Ok loopback4 /\ ParseCIDR "::1/128" = Ok loopback6.
Proof. split; vm_compute; reflexivity. Qed.

Lemma loopback4_contains ip :
  Forall is_byte ip -> List.length ip = 16%nat -> net_Contains loopback4 ip = true -> IsLoopback ip = true.
Proof.
  intros Hb Hlen. unfold net_Contains, IsLoopback. change (network_number loopback4) with (Some ([127; 0; 0; 0], [255; 0; 0; 0])).
  intros [Hl Hm]%andb_true_iff. apply bool_decide_eq_true in Hm.
  destruct (To4 ip) as [x|] eqn:E4; [|simpl in Hl; rewrite Hlen in Hl; discriminate Hl].
  simpl in Hm. assert (Forall is_byte x) as Hx.
  { unfold To4 in E4. case_match; simplify_eq. by apply Forall_drop. }
  destruct x as [|a x]; [discriminate Hl|]. apply Forall_cons in Hx as [Ha _].
  apply Z.eqb_eq. injection Hm as Hm _. rewrite (land_byte a Ha) in Hm. exact (eq_sym Hm).
Qed.

Lemma loopback6_contains ip :
  Forall is_byte ip -> List.length ip = 16%nat -> net_Contains loopback6 ip = true -> IsLoopback ip = true.
Proof.
  intros Hb Hlen. unfold net_Contains, IsLoopback.
  change (network_number loopback6) with (Some (ipv6_loopback, replicate 16 255)).
  intros [Hl Hm]%andb_true_iff. apply bool_decide_eq_true in Hm.
  destruct (To4 ip) as [x|] eqn:E4.
  - unfold To4 in E4. case_match; simplify_eq. simpl in Hl. rewrite length_drop, Hlen in Hl. discriminate Hl.
  - simpl default in Hm. rewrite !mask_all, take_ge in Hm by (try done; unfold ipv6_loopback, is_byte; repeat constructor; lia).
    rewrite take_ge in Hm by (rewrite Hlen; lia). apply bool_decide_eq_true. by symmetry.
Qed.

(** The default networks hold this machine only. *)
Lemma default_networks `{UnicodeTables} remoteAddr :
  cidrAllowed remoteAddr ["127.0.0.0/8"; "::1/128"]%string = true ->
  exists ip, ParseIP (fst (host_and_port (TrimSpace remoteAddr))) = Some ip /\ IsLoopback ip = true.
Proof.
  unfold cidrAllowed. destruct (ParseIP _) as [ip|] eqn:E; [|done]. intros Hex. exists ip. split; [done|].
  pose proof (ParseIP_bytes _ _ E) as Hb. pose proof (ParseIP_length _ _ E) as Hl.
  change (TrimSpace "127.0.0.0/8") with "127.0.0.0/8"%string in Hex.
  cbn [existsb] in Hex. change (TrimSpace "127.0.0.0/8") with "127.0.0.0/8"%string in Hex.
  change (TrimSpace "::1/128") with "::1/128"%string in Hex.
  destruct loopback_networks as [E4 E6]. rewrite E4, E6 in Hex.
  rewrite orb_false_r in Hex. apply orb_true_iff in Hex as [Hc|Hc]; [by apply loopback4_contains|by apply loopback6_contains].
Qed.

(** ** The default panel *)

Definition default_settings : ClientConfig := LoadClient (fun _ => ""%string).

Lemma default_hosts `{UnicodeTables} requestHost :
  hostAllowed requestHost (cf_AllowedHost default_settings) = true ->
  host_name (fst (host_and_port (TrimSpace (TrimSuffix requestHost ".")))) ∈ ["127.0.0.1"; "localhost"; "::1"]%string.
Proof.
  unfold hostAllowed. destruct (String.eqb _ ""); [done|]. destruct (host_and_port _) as [name port]. cbn [fst].
  change (SplitByte (cf_AllowedHost default_settings) ",") with ["127.0.0.1"; "localhost"; "[::1]"]%string.
  generalize (host_name name) as n. intros n Hex. cbn [existsb] in Hex.
  assert (forall c h, host_matches n port c = true -> host_matches n port c = String.eqb h n && true -> n = h) as Hm.
  { intros c h -> E. symmetry in E. apply andb_true_iff in E as [E _]. by apply String.eqb_eq in E. }
  rewrite !orb_true_iff in Hex. destruct Hex as [Hex|[Hex|[Hex|Hex]]]; [..|discriminate Hex].
  - rewrite (Hm _ "127.0.0.1"%string Hex) by reflexivity. left.
  - rewrite (Hm _ "localhost"%string Hex) by reflexivity. right; left.
  - rewrite (Hm _ "::1"%string Hex) by reflexivity. right; right; left.
Qed.

Section DefaultPanel.
Context `{ClientEnv} `{GoUrl} `{TrustEnv} `{Web}.

(** With the default settings the panel is for this machine only: the
    settings are accepted, and a request does something only when it comes from a
    loopback address and names this machine as its host. *)
Theorem default_panel_is_local r p :
  ValidateListenSecurity default_settings = Ok tt /\
  (quiet (pn_local p) (pn_local (serve default_settings r p)) \/
   exists ip, ParseIP (fst (host_and_port (TrimSpace (rq_RemoteAddr r)))) = Some ip /\ IsLoopback ip = true /\
     host_name (fst (host_and_port (TrimSpace (TrimSuffix (rq_Host r) ".")))) ∈ ["127.0.0.1"; "localhost"; "::1"]%string).
Proof using Type.
  split; [vm_compute; reflexivity|].
  apply (Handler_pass default_settings r (p <| pn_reply := no_reply |>) (fun w => quiet (pn_local p) w \/ _)); [by left|].
  intros r' p' _ _ (_ & _ & _ & _ & Hl). right. unfold local_caller in Hl. apply andb_true_iff in Hl as [Hc Hh].
  destruct (default_networks (rq_RemoteAddr r) Hc) as (ip & Hip & Hlo).
  exists ip. split_and!; [exact Hip|exact Hlo|]. by apply default_hosts.
Qed.
End DefaultPanel.

(** ** Listeners *)

(** What makes a listener acceptable. *)
Definition guarded (c : ClientConfig) (ip : IP) : Prop :=
  IsUnspecified ip = false /\ (cf_TLSCertFile c = ""%string <-> cf_TLSKeyFile c = ""%string) /\
  Forall (fun raw => exists network, ParseCIDR raw = Ok network) (cf_AllowedCIDRs c) /\
  (IsLoopback ip = true \/
   (cf_AllowLAN c = true /\ cf_TLSCertFile c <> ""%string /\ cf_TLSKeyFile c <> ""%string /\ cf_AllowedCIDRs c <> [])).

Lemma first_bad_cidr_None l :
  first_bad_cidr l = None <-> Forall (fun raw => exists network, ParseCIDR raw = Ok network) l.
Proof.
  induction l as [|raw l IH]; simpl; [by split; [constructor|]|].
  rewrite Forall_cons, <- IH. destruct (ParseCIDR raw) as [network|e]; [naive_solver|].
  split; [done|]. intros [[network Hn] _]. discriminate Hn.
Qed.

Lemma ValidateListenSecurity_spec `{ClientEnv} c :
  ValidateListenSecurity c = Ok tt <->
  exists host port ip, SplitHostPort (cf_ListenAddr c) = Ok (host, port) /\
    ParseIP (Trim host brackets) = Some ip /\ guarded c ip.
Proof.
  unfold ValidateListenSecurity. destruct (SplitHostPort (cf_ListenAddr c)) as [[host port]|e]; [|split; [done|naive_solver]].
  destruct (ParseIP (Trim host brackets)) as [ip|] eqn:Eip; [|split; [done|naive_solver]].
  assert (guarded c ip <-> exists h q i, @Ok string _ (host, port) = Ok (h, q) /\ ParseIP (Trim h brackets) = Some i /\ guarded c i) as <-.
  { split; [eauto 10|]. intros (h & q & i & [= <- <-] & Ei & Hg). congruence. }
  unfold guarded. rewrite <- first_bad_cidr_None.
  destruct (IsUnspecified ip); [split; [done|naive_solver]|].
  destruct (String.eqb_spec (cf_TLSCertFile c) ""), (String.eqb_spec (cf_TLSKeyFile c) ""); simpl;
    try (split; [done|naive_solver]);
    (destruct (first_bad_cidr (cf_AllowedCIDRs c)) as [[raw why]|]; [split; [done|naive_solver]|]);
    (destruct (IsLoopback ip); [naive_solver|]); destruct (cf_AllowLAN c); simpl; try (split; [done|naive_solver]).
  destruct (bool_decide_reflect (cf_AllowedCIDRs c = [])); naive_solver.
Qed.

(** ** Pins *)

Lemma TrimRight_none s cutset :
  forallb_str (fun c => negb (existsb (Ascii.eqb c) cutset)) s = true -> TrimRight s cutset = s.
Proof.
  induction s as [|c s IH]; simpl; [done|]. intros [Hc Hs]%andb_true_iff. rewrite (IH Hs).
  apply negb_true_iff in Hc. by rewrite Hc, andb_false_r.
Qed.

Lemma hex_decode_encode s : hex_decode (hex_encode s) = Some s.
Proof.
  assert (forall n, (n < 16)%nat -> hex_value (hex_digit n) = Some (Z.of_nat n)) as Hv.
  { intros n Hn. do 16 (destruct n as [|n]; [reflexivity|]). lia. }
  induction s as [|c s IH]; [done|]. cbn [hex_encode hex_decode]. pose proof (nat_ascii_bounded c) as Hc.
  rewrite (Hv (nat_of_ascii c / 16)%nat) by (apply Nat.Div0.div_lt_upper_bound; lia).
  rewrite (Hv (nat_of_ascii c mod 16)%nat) by (apply Nat.mod_upper_bound; lia).
  pose proof (Nat.div_mod_eq (nat_of_ascii c) 16) as E. revert E.
  generalize (nat_of_ascii c / 16)%nat, (nat_of_ascii c mod 16)%nat. intros a b E.
  simpl. rewrite IH. simpl. do 2 f_equal. rewrite <- (ascii_nat_embedding c). f_equal. lia.
Qed.

Lemma b64_decode_length al s d k :
  b64_decode al s = Some d -> String.length s = (4 * k)%nat -> String.length d = (3 * k)%nat.
Proof.
  revert s d. induction k as [|k IH]; intros s d E Hl.
  - destruct s; [|discriminate Hl]. by injection E as <-.
  - destruct s as [|w [|x [|y [|z s]]]]; try (simpl in Hl; lia). cbn [b64_decode] in E.
    destruct (b64_value al w) as [[]|], (b64_value al x) as [[]|], (b64_value al y) as [[]|], (b64_value al z) as [[]|]; try discriminate E.
    destruct (b64_decode al s) as [rest|] eqn:Er; [|discriminate E]. injection E as <-.
    cbn [String.length] in *. rewrite (IH s rest Er) by lia. lia.
Qed.

(** A digest has one text as a pin, whether it was entered in base64, with or
    without the [sha256/] in front, or in hexadecimal. *)
Inductive written_as (d : string) : string -> Prop :=
| as_pin : written_as d (spki_text d)
| as_base64 : HasPrefix (b64_encode std_alphabet d) "sha256/" = false -> written_as d (b64_encode std_alphabet d)
| as_hex : written_as d (hex_encode d).

Lemma no_equals_sign d :
  TrimRight (b64_encode std_alphabet d) ["="%char] = b64_encode std_alphabet d.
Proof.
  apply TrimRight_none, b64_encode_chars. intros x. by destruct x as [[] [] [] [] [] []].
Qed.

Lemma digest_base64 d :
  String.length d = 32%nat -> digest_of (DecodeString std_alphabet (TrimRight (b64_encode std_alphabet d) ["="%char])) = Some d.
Proof. intros Hd. rewrite no_equals_sign, DecodeString_encode by auto. unfold digest_of. by rewrite Hd. Qed.

Lemma digest_hex d :
  String.length d = 32%nat ->
  digest_of (DecodeString std_alphabet (TrimRight (hex_encode d) ["="%char])) = None /\ digest_of (hex_decode (hex_encode d)) = Some d.
Proof.
  intros Hd. split; [|rewrite hex_decode_encode; unfold digest_of; by rewrite Hd].
  rewrite TrimRight_none.
  2:{ apply hex_encode_chars. intros n. by apply (hex_digits_all (fun n => negb (existsb (Ascii.eqb (hex_digit n)) ["="%char]))). }
  unfold DecodeString. rewrite strip_newlines_id.
  2:{ apply hex_encode_chars. intros n. by apply (hex_digits_all (fun n => not_newline (hex_digit n))). }
  destruct (b64_decode std_alphabet (hex_encode d)) as [x|] eqn:E; [|done].
  apply (b64_decode_length _ _ _ 16) in E; [|by rewrite hex_encode_length, Hd]. unfold digest_of. by rewrite E.
Qed.

Lemma TrimPrefix_none s p : HasPrefix s p = false -> TrimPrefix s p = s.
Proof. unfold TrimPrefix. by intros ->. Qed.

Lemma hex_no_prefix d : HasPrefix (hex_encode d) "sha256/" = false.
Proof.
  destruct d as [|c d]; [done|]. cbn [hex_encode HasPrefix].
  assert (forall n, (n < 16)%nat -> Ascii.eqb "s" (hex_digit n) = false) as Hn.
  { intros n Hn. do 16 (destruct n as [|n]; [reflexivity|]). lia. }
  rewrite Hn; [done|]. pose proof (nat_ascii_bounded c). apply Nat.Div0.div_lt_upper_bound. lia.
Qed.

Lemma written_trimmed d s : written_as d s -> TrimSpace s = s.
Proof.
  assert (forallb_str graphic (b64_encode std_alphabet d) = true) as Hb.
  { apply b64_encode_chars. intros x. by destruct x as [[] [] [] [] [] []]. }
  intros [| |]; apply TrimSpace_graphic.
  - unfold spki_text. by rewrite forallb_str_append, Hb.
  - exact Hb.
  - apply hex_encode_chars. intros n. by apply (hex_digits_all (fun n => graphic (hex_digit n))).
Qed.

Lemma written_nonempty d s : String.length d = 32%nat -> written_as d s -> s <> ""%string.
Proof.
  intros Hd [| |]; [discriminate| |].
  - apply b64_encode_nonempty. by intros ->.
  - intros E. apply (f_equal String.length) in E. rewrite hex_encode_length, Hd in E. discriminate E.
Qed.

Lemma NormalizeSPKIHash_written d s :
  String.length d = 32%nat -> written_as d s -> NormalizeSPKIHash s = Ok (spki_text d).
Proof.
  intros Hd Hs. unfold NormalizeSPKIHash. rewrite (written_trimmed _ _ Hs).
  rewrite (proj2 (String.eqb_neq _ _) (written_nonempty _ _ Hd Hs)). destruct Hs as [|Hp|].
  - assert (TrimPrefix (spki_text d) "sha256/" = b64_encode std_alphabet d) as -> by apply TrimPrefix_append.
    by rewrite (digest_base64 d Hd).
  - rewrite (TrimPrefix_none _ _ Hp). by rewrite (digest_base64 d Hd).
  - rewrite (TrimPrefix_none _ _ (hex_no_prefix d)). destruct (digest_hex d Hd) as [-> ->]. done.
Qed.

Lemma spki_text_inj d d' : spki_text d = spki_text d' -> d = d'.
Proof.
  intros E. apply (f_equal (fun s => DecodeString std_alphabet (TrimPrefix s "sha256/"))) in E.
  assert (forall x, TrimPrefix (spki_text x) "sha256/" = b64_encode std_alphabet x) as Ht by (intros x; apply TrimPrefix_append).
  rewrite !Ht, !DecodeString_encode in E by auto. by injection E.
Qed.

(** A pin names one public key.  A fingerprint of thirty-two bytes,
    entered in any of its forms, is accepted; the connection then goes through
    exactly when the certificate the server shows first has that hash of its
    public key and is within its validity, whoever issued it. *)
Theorem pin_names_one_key `{ClientEnv} serverName d raw now now' peer :
  String.length d = 32%nat -> written_as d raw ->
  exists pin, PinnedTLSConfig serverName raw = Ok (serverName, pin) /\
    (verify_pinned pin now now' peer = Ok tt <->
     exists leaf chain, peer = leaf :: chain /\ ce_sha256 (crt_RawSubjectPublicKeyInfo leaf) = d /\
       crt_NotBefore leaf <= now /\ now' <= crt_NotAfter leaf).
Proof.
  intros Hd Hraw. exists (spki_text d). unfold PinnedTLSConfig. rewrite (NormalizeSPKIHash_written d raw Hd Hraw).
  split; [done|]. unfold verify_pinned. destruct peer as [|leaf chain]; [split; [done|naive_solver]|].
  assert (forall P : Certificate -> list Certificate -> Prop,
    (exists l c, leaf :: chain = l :: c /\ P l c) <-> P leaf chain) as HP by naive_solver.
  rewrite HP. clear HP. destruct (Z.ltb_spec now (crt_NotBefore leaf)); cbn [orb]; [split; [done|lia]|].
  destruct (Z.ltb_spec (crt_NotAfter leaf) now'); [split; [done|lia]|].
  destruct (String.eqb_spec (SPKISHA256 leaf) (spki_text d)) as [E|E]; cbn [negb].
  - apply spki_text_inj in E. split; [intros _; split_and!; [exact E|lia|lia]|reflexivity].
  - split; [done|]. intros (E' & _). exfalso. apply E. unfold SPKISHA256. by rewrite E'.
Qed.
