(* ===== verification/ClientWitness.v ===== *)
(** Instances of the theorems about the client, at a concrete outside: a clock, a
    disk, commands that succeed, a server that answers; and a client with a real
    FRPC in it. *)

From S2P Require Import Prelude StateError GoText GoNet Timestamps Encoding RateLimit GoUrl GoPath GoJson GoJsonRead GoJsonSpec GoHttp Client ClientSecurity ClientWebSocket ClientWebSocketSpec ClientToml Supervisor ClientLogic SupervisorSpec SupervisorApply SupervisorRecovery ClientApp ClientAppSpec ClientProxySpec ClientRequests ClientSigned ClientHTTP ClientHTTPSpec ClientSecuritySpec.
From Stdlib Require Import Ascii String.
Open Scope Z_scope.

Section Outside.

(** Integers have their decimal text; no other number occurs. *)
#[local] Instance plain_float : GoFloat := {|
  parse_float s := match Atoi s with
                   | Some v => match number_of_int v with JNumber m e => Some (m, e) | _ => None end
                   | None => None
                   end;
  json_float m e := itoa (trunc_float m e);
  fmt_float m e := itoa (trunc_float m e);
  int_overflow _ _ := 0
|}.

#[local] Instance plain_unicode : UnicodeTables := {|
  unicode_lower s := s; unicode_upper s := s; unicode_fold_eq := String.eqb
|}.

Definition a_digest : string := "0123456789abcdef0123456789abcdef".

(** [early] tells how a started process fares, [http] what the server answers,
    [orphan] what [ps] prints. *)
Definition outside (early : nat -> StartResult) (http : nat -> HttpRequest -> HttpReply)
    (orphan : string) : ClientEnv := {|
  ce_now n := 1700000000 * second + Z.of_nat n;
  ce_id n := "id";
  ce_random n := Some "random";
  ce_disk n := None;
  ce_torn n := 0%nat;
  ce_ctx n := None;
  ce_command n := (orphan, None);
  ce_start n := Ok (1000 + Z.of_nat n);
  ce_early := early;
  ce_wait n := DoneInTime;
  ce_alive n := true;
  ce_signal n := Delivered;
  ce_ticks n := 1%nat;
  ce_orphan n := DeadlinePassed;
  ce_dial n := None;
  ce_http := http;
  ce_ws n := Dialled;
  ce_order n l := l;
  ce_order_perm n l := reflexivity l;
  ce_pid := 1;
  ce_gives_up n := None;
  ce_cwd := Some "/"%string;
  ce_quote s := s;
  ce_rfc3339 := itoa;
  ce_time_ok s := true;
  ce_json_error s := "invalid JSON";
  ce_sha256 s := a_digest;
  ce_ed25519 k m s := true;
  ce_float := plain_float;
  ce_unicode := plain_unicode
|}%string.

Definition runs (n : nat) : StartResult := StillRunning.
Definition no_server (n : nat) (r : HttpRequest) : HttpReply := NoReply "connection refused".
Definition plain_outside : ClientEnv := outside runs no_server "".

(** A process that ends at once, at one moment. *)
Definition ends_at (k n : nat) : StartResult := if Nat.eqb n k then Exited None true else StillRunning.

Definition a_supervisor : Supervisor :=
  mkSupervisor "/var/lib/frp" "/usr/bin/frpc" (hex_encode a_digest) "0.68.0".

Definition stopped : SupMemory := mkSupMemory (mkStatus Stopped Real 0 0 0 "" false "" 0) false None None.

Definition frpc_binary : gmap string File := {["/usr/bin/frpc"%string := mkFile "ELF" 493]}.

(** A client that has just started. *)
Definition fresh : Local := mkLocal 0 [] frpc_binary ∅ [] stopped new_app.

Definition a_payload : gmap string JSON :=
  list_to_map [("frp_secret", JString "s3cret"); ("runtime_credential", JString "rc");
               ("frps_public_host", JString "frp.example.org");
               ("mappings", JArray [JObject [("local_ip", JString "127.0.0.1"); ("local_port", JInt 8080);
                 ("mapping_id", JString "m1"); ("proxy_type", JString "tcp"); ("remote_port", JInt 20001)]])]%string.
Definition a_snapshot : ClientSnapshot :=
  mkClientSnapshot "v1" 7 "u1" 3 "" "" "hash" "key" "" (Some a_payload).

(** Another configuration, and a start of it that fails: the process started
    then ends at once. *)
Definition other_snapshot : ClientSnapshot :=
  a_snapshot <| cs_ConfigVersion := 8 |> <| cs_UserID := "u2"%string |>.
Definition failing_start : ClientEnv := outside (ends_at 168) no_server "".

(** An FRPC that an earlier client left behind. *)
Definition orphaned : ClientEnv := outside runs no_server "/usr/bin/frpc -c /var/lib/frp/config/frpc.toml".
Definition left_behind : Local :=
  fresh <| l_files ::= <["/var/lib/frp/state/frpc.pid"%string := mkFile ("4711" ++ newline) 384]> |>.

(** ** A server *)

(** URLs of the form [scheme://host/path]. *)
Definition parse_plain (s : string) : res string URL :=
  match SplitByte s ":" with
  | scheme :: _ =>
      let rest := drop_str (String.length scheme + 3) s in
      let host := match SplitByte rest "/" with h :: _ => h | [] => "" end in
      Ok (mkURL scheme "" None host (drop_str (String.length host) rest) "" "")
  | [] => Err "parse"%string
  end%string.

#[export] Instance plain_url : GoUrl | 1000 := {|
  url_Parse := parse_plain;
  url_JoinPath base path := Ok (base ++ path)%string;
  url_String u := (u_Scheme u ++ "://" ++ u_Host u ++ u_Path u)%string
|}.

Definition a_key : string := hex_encode a_digest.
Definition a_token : string := "server-token".

Definition server_snapshot : string := json_marshal (JObject
  [("config_hash", JString "hash"); ("config_version", JInt 7); ("expires_at", JString ""); ("issued_at", JString "");
   ("payload", JObject [("frps_public_host", JString "frp.example.org"); ("mappings", JArray [])]);
   ("schema_version", JString "v1"); ("session_generation", JInt 3); ("signature", JString "c2ln");
   ("signing_key_id", JString "key"); ("user_id", JString "u1")]%string).

(** It knows one user; on the dashboard it counts. *)
Definition answers (n : nat) (r : HttpRequest) : HttpReply :=
  if HasSuffix (hq_URL r) "/auth/client-login" then
    Reply 200 (json_marshal (JObject [("frp_secret", JString "s3cret"); ("frp_username", JString "u1");
      ("frps_transport_secret", JString "t0"); ("runtime_credential", JString "rc"); ("token", JString a_token)]%string))
  else if HasSuffix (hq_URL r) "/config/full" then Reply 200 server_snapshot
  else if HasSuffix (hq_URL r) "/config/signing-key" then
    Reply 200 (json_marshal (JObject [("public_key"%string, JString a_key)]))
  else if HasSuffix (hq_URL r) "/dashboard" then
    Reply 200 (json_marshal (JObject [("mappings"%string, JInt 3)]))
  else Reply 200 "{}".

Definition online : ClientEnv := outside runs answers "".

(** The server goes away at some moment. *)
Definition until (k n : nat) (r : HttpRequest) : HttpReply :=
  if Nat.ltb n k then answers n r else NoReply "connection refused".
Definition lost_at (k : nat) : ClientEnv := outside runs (until k) "".

Definition a_config : ClientConfig :=
  mkClientConfig "127.0.0.1:7410" "/var/lib/frp" "production" "/usr/bin/frpc" a_key "0.68.0"
    "127.0.0.1,localhost,[::1]" ["127.0.0.0/8"; "::1/128"]%string false "" "" "".

(** ** A browser *)

Fixpoint match_segments (pattern path : list string) : option string :=
  match pattern, path with
  | [], [] => Some ""
  | ["*"], _ => Some ""
  | p :: pattern', s :: path' =>
      if String.eqb p s then match_segments pattern' path'
      else if HasPrefix p "{" then _ ← match_segments pattern' path'; Some s
      else None
  | _, _ => None
  end%string.

Definition match_route (method path : string) (route : Route) : option (Route * string) :=
  let '(m, pattern, _) := route in
  if String.eqb m method || String.eqb m "*" then
    id ← match_segments (SplitByte pattern "/") (SplitByte path "/"); Some (route, id)
  else None.

(** The first route that matches; files have no content. *)
#[export] Instance plain_web : Web | 1000 := {|
  chi_match table method path := head (omap (match_route method path) table);
  chi_unmatched r w := w <| rp_Status := Some 404 |>;
  serve_file page r w := w <| rp_Status := Some 200 |>
|}.

#[export] Instance no_trust : TrustEnv | 1000 := {|
  tls_dial address serverName := Err "connection refused"%string;
  system_roots := false;
  x509_verify leaf chain host := None
|}.

(** A request of the browser on the same machine. *)
Definition browser (method path body : string) (cookie : option string) (csrf : string) : LocalRequest :=
  mkLocalRequest method path
    (fun name => if String.eqb name "X-CSRF-Token" then csrf else if String.eqb name "Idempotency-Key" then "k1" else "")
    cookie "127.0.0.1:7410" "127.0.0.1:50000" body "".

Definition login_text : string := json_marshal (JObject
  [("password", JString "p"); ("server_panel_url", JString "frp.example.org"); ("username", JString "u")]%string).

Definition status_of (p : Panel) : option Z := rp_Status (pn_reply p).

End Outside.

(** ** Witnesses of the supervisor *)

Section Supervisor.
#[local] Existing Instance plain_outside.

Lemma a_dir : dataDir a_supervisor <> ""%string.
Proof. done. Qed.
Lemma a_binary_elsewhere : ~ pid_area a_supervisor (binary a_supervisor).
Proof. unfold pid_area, area. by vm_compute. Qed.

Lemma apply_config_whole_witness :
  dataDir a_supervisor <> ""%string /\
  f_content <$> l_files (snd (apply a_supervisor a_snapshot fresh)) !! activePath a_supervisor =
    Some (renderTOMLForVersion a_snapshot (dataDir a_supervisor) (frpcVersion a_supervisor)).
Proof.
  split; [done|].
  destruct (apply_config_whole a_supervisor a_dir a_snapshot fresh) as [E|E]; [|exact E].
  exfalso. revert E. vm_compute. done.
Defined.


Lemma apply_success_witness :
  exists w', apply a_supervisor a_snapshot fresh = (Ok tt, w') /\
    running_on (renderTOMLForVersion a_snapshot (dataDir a_supervisor) (frpcVersion a_supervisor)) w'.
Proof.
  exists (snd (apply a_supervisor a_snapshot fresh)).
  assert (apply a_supervisor a_snapshot fresh = (Ok tt, snd (apply a_supervisor a_snapshot fresh))) as E.
  { assert (fst (apply a_supervisor a_snapshot fresh) = Ok tt) as E1 by (vm_compute; reflexivity).
    destruct (apply a_supervisor a_snapshot fresh). simpl in E1. by rewrite E1. }
  split; [exact E|].
  apply (apply_success a_supervisor a_dir a_snapshot fresh _ E). discriminate.
Defined.

Lemma clear_erases_witness :
  let w := snd (apply a_supervisor a_snapshot fresh) in
  exists w', ClearRuntimeSecrets a_supervisor w = (Ok tt, w') /\
    is_Some (l_files w !! activePath a_supervisor) /\ l_files w' !! activePath a_supervisor = None.
Proof.
  set (w := snd (apply a_supervisor a_snapshot fresh)). cbv zeta.
  assert (forall n, ce_disk n = None) as Hd by done.
  destruct (clear_total a_supervisor w Hd) as [w' E]. exists w'. split; [exact E|].
  split; [vm_compute; by eexists|].
  destruct (clear_erases a_supervisor w w' E) as [Hf _]. by rewrite Hf.
Defined.
End Supervisor.


(** ** A failing start, an orphan *)

Section Failing.
#[local] Existing Instance failing_start.

Definition running_first : Local := snd (apply a_supervisor a_snapshot fresh).
Definition first_text : string := renderTOMLForVersion a_snapshot "/var/lib/frp" "0.68.0".

End Failing.

Section Orphan.
#[local] Existing Instance orphaned.

Lemma recovery_signals_witness :
  exists marker pid new, f_content <$> l_files left_behind !! pidPath a_supervisor = Some marker /\
    Atoi (TrimSpace marker) = Some pid /\ recovery_events a_supervisor (l_tick left_behind) pid new /\
    l_events (snd (recoverOrphan a_supervisor left_behind)) = new /\ new <> [].
Proof.
  destruct (recovery_signals a_supervisor left_behind (fst (recoverOrphan a_supervisor left_behind))
    (snd (recoverOrphan a_supervisor left_behind))) as [E|(marker & pid & new & H1 & H2 & _ & _ & _ & H6 & H7)].
  - by destruct (recoverOrphan a_supervisor left_behind).
  - exfalso. revert E. vm_compute. discriminate.
  - exists marker, pid, new. rewrite app_nil_r in H7. split_and!; [done..|].
    intros ->. revert H7. vm_compute. discriminate.
Defined.

(** A second client started on the data directory of a first one signals the
    first one's FRPC, and then ends because the address is taken. *)
Lemma second_start_ends_frpc :
  let '(r, w) := client_start a_config (fun _ => Some "address already in use"%string) left_behind in
  r = Ok (Some 1) /\ EvSignal 4711 SigInterrupt ∈ l_events w.
Proof. vm_compute. split; [reflexivity|]. repeat (first [left; reflexivity|right]). Qed.
End Orphan.

(** ** The application *)

(** The outcome of a computation, by evaluation. *)
Lemma outcome {A} (m : C A) w a : fst (m w) = Ok a -> m w = (Ok a, snd (m w)).
Proof. destruct (m w) as [r w']. simpl. by intros ->. Qed.

Section Online.
#[local] Existing Instance online.

Definition logged_in : Local := snd (LoginWithTrust a_config "frp.example.org" "u" "p" "" fresh).

Lemma logged_in_children : l_children logged_in = {[1065 := false]}.
Proof. vm_compute. reflexivity. Qed.
Lemma logged_in_process : sm_process (l_sup logged_in) = Some (mkProcess 1065 65 false).
Proof. vm_compute. reflexivity. Qed.
Lemma logged_in_token : am_serverToken (l_app logged_in) = a_token.
Proof. vm_compute. reflexivity. Qed.
Lemma logged_in_file : is_Some (f_content <$> l_files logged_in !! activePath (sup a_config)).
Proof. vm_compute. by eexists. Qed.

Lemma logout_erases_witness :
  am_serverToken (l_app logged_in) = a_token /\
  exists w', Logout a_config logged_in = (Ok tt, w') /\
    l_app w' = logged_out (l_app logged_in) /\ am_serverToken (l_app w') = ""%string /\ all_killed w'.
Proof.
  pose proof logged_in_children as E1. pose proof logged_in_process as E2. pose proof logged_in_token as E3.
  pose proof (logout_erases a_config logged_in) as T. revert E1 E2 E3 T. generalize logged_in as w.
  intros w E1 E2 E3 T. split; [exact E3|].
  destruct T as (w' & E & Ha & _ & _ & Hclean).
  { intros pid killed Hp. rewrite E1 in Hp. apply lookup_singleton_Some in Hp as [<- <-]. right.
    exists (mkProcess 1065 65 false). by rewrite E2. }
  destruct Hclean as (_ & _ & Hk); [intros n; reflexivity|intros n; reflexivity|].
  exists w'. split; [exact E|split; [exact Ha|split; [by rewrite Ha|exact Hk]]].
Defined.

End Online.

Section Lost.
(** The server goes away after the dashboard was read. *)
Definition lost : ClientEnv := lost_at 100.
#[local] Existing Instance lost.

Definition before_loss : Local := snd (LoginWithTrust a_config "frp.example.org" "u" "p" "" fresh).
Definition dashboard : C (JSON * option ClErr) :=
  Proxy a_config "GET" "/api/v1/dashboard" None "" (Some interface_target) JNull [].
Definition three_mappings : JSON := JObject [("mappings"%string, JNumber 3 0)].

Lemma dashboard_answers : fst (dashboard before_loss) = Ok (three_mappings, None).
Proof. vm_compute. reflexivity. Qed.
Definition page_read : Local := snd (dashboard before_loss).

Lemma dashboard_read : dashboard before_loss = (Ok (three_mappings, None), page_read).
Proof. exact (outcome dashboard before_loss _ dashboard_answers). Qed.
Lemma page_read_reachable : am_serverReachable (l_app page_read) = true.
Proof. vm_compute. reflexivity. Qed.
Lemma page_read_session : has_session (l_app page_read).
Proof. split; vm_compute; discriminate. Qed.
Lemma page_read_lost : fst (proxied "GET" "/api/v1/dashboard" None [] page_read) = Err (EText "connection refused").
Proof. vm_compute. reflexivity. Qed.
Lemma three_mappings_read_back : reads_back 1 three_mappings.
Proof. repeat split. Qed.

Lemma offline_reads_last_answer_witness :
  fst (dashboard before_loss) = Ok (three_mappings, None) /\
  exists w3, dashboard page_read = (Ok (three_mappings, None), w3) /\ am_serverReachable (l_app w3) = false.
Proof.
  split; [exact dashboard_answers|].
  pose proof dashboard_read as E1. pose proof page_read_reachable as E2. pose proof page_read_session as E3.
  pose proof page_read_lost as E4. revert E1 E2 E3 E4. generalize page_read as w1, before_loss as w.
  intros w1 w E1 E2 E3 E4.
  apply (offline_reads_last_answer a_config "/api/v1/dashboard" "" "" [] [] JNull JNull 1 three_mappings w w1 w1).
  - left.
  - exact three_mappings_read_back.
  - vm_compute. discriminate.
  - exact E1.
  - exact E2.
  - reflexivity.
  - exact E3.
  - destruct (proxied "GET" "/api/v1/dashboard" None [] w1) as [r w3]. exists "connection refused"%string, w3.
    simpl in E4. by rewrite E4.
Defined.
End Lost.

(** ** The WebSocket *)

(** A goroutine dials, and a logout happens meanwhile. *)
Definition dialled : WsWorld :=
  mkWsWorld ((start_ws ws_zero) <| ws_open ::= fun s => {[0%nat]} ∪ s |>) {[1%nat := Install 0]} 1.
Definition replaced : WsWorld := mkWsWorld (stop_ws (ww_ws dialled)) {[1%nat := Install 0]} 1.

Lemma dialled_reachable : rtc ws_step ws_initial dialled.
Proof.
  assert (forall p q ws' n', phase_step 1 (start_ws ws_zero) 0 p Silent ws' n' q ->
    ws_step (mkWsWorld (start_ws ws_zero) {[1%nat := p]} 0) (mkWsWorld ws' {[1%nat := q]} n')) as Hstep.
  { intros p q ws' n' Hs.
    pose proof (ws_thread 1 p Silent (mkWsWorld (start_ws ws_zero) {[1%nat := p]} 0) ws' n' q) as Ht.
    cbn [ww_threads ww_ws ww_next] in Ht. rewrite insert_singleton_eq in Ht.
    apply Ht; [by rewrite lookup_singleton_eq|done]. }
  eapply rtc_l; [exact (ws_start ws_initial)|].
  eapply rtc_l; [apply (Hstep (Top second) (Dial second)); apply st_top; [vm_compute; set_solver|done]|].
  eapply rtc_l; [apply (Hstep (Dial second) (Install 0)); exact (st_dialled 1 (start_ws ws_zero) 0 second)|].
  apply rtc_refl.
Qed.

Lemma connections_closed_witness :
  ws_open (ww_ws dialled) <> ∅ /\ exists g p, ww_threads dialled !! g = Some p /\ holds p = Some 0%nat.
Proof.
  split; [vm_compute; discriminate|].
  destruct (connections_closed dialled dialled_reachable) as [H _]. apply H. vm_compute. set_solver.
Defined.

Lemma superseded_is_silent_witness :
  rtc ws_step dialled replaced /\ superseded 1 replaced /\
  installWebSocket 1 0 (ww_ws replaced) = None.
Proof.
  assert (rtc ws_step ws_initial replaced) as Hr.
  { eapply rtc_r; [exact dialled_reachable|exact (ws_stop dialled)]. }
  assert (superseded 1 replaced) as Hs by (split_and!; [vm_compute; lia|reflexivity|done]).
  split; [apply rtc_once; exact (ws_stop dialled)|split; [exact Hs|]].
  destruct (installWebSocket 1 0 (ww_ws replaced)) as [ws'|] eqn:E; [|done].
  destruct (superseded_is_silent 1 replaced replaced (Install 0) (DidInstall 0) ws' 1 (Read 0) Hr Hs
    (rtc_refl _ _) eq_refl (st_install 1 (ww_ws replaced) 1 0 ws' E)) as [Hl _]. discriminate Hl.
Defined.

Lemma reconnect_delays_witness :
  nth_backoff 10 = max_backoff /\ 100 * jitter (nth_backoff 10) (Some 255) <= 120 * nth_backoff 10.
Proof.
  destruct (reconnect_delays 10 (Some 255)) as (H1 & _ & H3 & _); [intros b [= <-]; lia|].
  split; [exact H1|exact H3].
Defined.

(** ** The HTTP API *)

Section Browser.
#[local] Existing Instance online.

Definition started : Panel := NewAPI fresh.
Definition after_login : Panel := serve a_config (browser "POST" "/api/v1/login" login_text None "") started.
Definition token : string := b64_encode url_alphabet "random".

(** The same request with the token of the session, without it, and from another
    machine. *)
Example login_and_sync :
  status_of after_login = Some 200 /\ map ck_Value (rp_Cookies (pn_reply after_login)) = [token] /\
  status_of (serve a_config (browser "POST" "/api/v1/sync" "" (Some token) token) after_login) = Some 200 /\
  status_of (serve a_config (browser "POST" "/api/v1/sync" "" (Some token) "") after_login) = Some 403 /\
  status_of (serve a_config (browser "POST" "/api/v1/sync" "" None token) after_login) = Some 401 /\
  status_of (serve a_config ((browser "POST" "/api/v1/sync" "" (Some token) token) <| rq_RemoteAddr := "192.0.2.7:1"%string |>)
    after_login) = Some 404.
Proof. vm_compute. by split_and!. Qed.

(** A connection that is refused is reported as a failed TLS validation: the
    text of the error quotes the URL, which has [https] in it. *)
Example refused_connection :
  loginProblem (EText "Post https://192.0.2.1/api/v1/auth/client-login: dial tcp 192.0.2.1:443: connect: connection refused") =
    (400, "SERVER_TLS_VALIDATION_FAILED"%string, tls_failed) /\
  loginProblem (EText "server panel address is required") = (401, "AUTH_INVALID_CREDENTIALS"%string, invalid_credentials).
Proof. split; vm_compute; reflexivity. Qed.


Definition a_certificate : Certificate := mkCertificate "CN=frp" "CN=frp" 0 (2 ^ 62) "spki" [] [].

Lemma pin_names_one_key_witness :
  String.length a_digest = 32%nat /\
  exists pin, PinnedTLSConfig "frp.example.org" (hex_encode a_digest) = Ok ("frp.example.org"%string, pin) /\
    verify_pinned pin 5 6 [a_certificate] = Ok tt.
Proof.
  split; [reflexivity|].
  destruct (pin_names_one_key "frp.example.org" a_digest (hex_encode a_digest) 5 6 [a_certificate] eq_refl (as_hex a_digest))
    as (pin & E & Hv). exists pin. split; [exact E|]. apply Hv. exists a_certificate, []. split_and!; try reflexivity; vm_compute; discriminate.
Defined.
End Browser.
