(* ===== verification/Password.v ===== *)
(** Password storage ([server/internal/auth/password.go]): the encoded Argon2id
    string, its creation and its verification.  Argon2 itself
    ([golang.org/x/crypto/argon2]) is the argument [argon2_IDKey] of password,
    salt, time, memory, threads and key length. *)

From S2P Require Import Prelude GoText Encoding.
From Stdlib Require Import Ascii String.
Open Scope string_scope.

Definition argonMemory : Z := 65536.
Definition argonTime : Z := 3.
Definition argonThreads : Z := 2.
Definition argonKeyLen : Z := 32.
Definition saltLen : nat := 16.

(** *** The scanner of ["m=%d,t=%d,p=%d"] *)

Fixpoint skip_spaces (s : string) : string :=
  match s with
  | String c s' => if Ascii.eqb c " " then skip_spaces s' else s
  | EmptyString => EmptyString
  end.

Fixpoint scan_digits (acc : Z) (s : string) : Z * string :=
  match s with
  | String c s' =>
      if is_digit c then scan_digits (10 * acc + (Z.of_nat (nat_of_ascii c) - 48))%Z s' else (acc, s)
  | EmptyString => (acc, EmptyString)
  end.

(** [%d] into a [uint32]: at least one digit, and no overflow. *)
Definition scan_uint32 (s : string) : option (Z * string) :=
  match skip_spaces s with
  | String c s' =>
      if is_digit c then
        let '(v, rest) := scan_digits 0 (String c s') in
        if (v <? 2 ^ 32)%Z then Some (v, rest) else None
      else None
  | EmptyString => None
  end.

Definition expect (lit s : string) : option string :=
  if HasPrefix s lit then Some (drop_str (String.length lit) s) else None.

Definition scan_params (s : string) : option (Z * Z * Z) :=
  s1 ← expect "m=" s; '(m, s2) ← scan_uint32 s1;
  s3 ← expect ",t=" s2; '(t, s4) ← scan_uint32 s3;
  s5 ← expect ",p=" s4; '(p, _) ← scan_uint32 s5;
  Some (m, t, p).

Section Password.
Context (argon2_IDKey : string -> string -> Z -> Z -> Z -> Z -> string).

(** [HashPassword]; [salt] is what [passwordRandomReader] delivered, [None]
    when it failed. *)
Definition HashPassword (password : string) (salt : option string) : option string :=
  if Nat.ltb (String.length password) 12 then None
  else match salt with
       | None => None
       | Some salt =>
           let hash := argon2_IDKey password salt argonTime argonMemory argonThreads argonKeyLen in
           Some ("$argon2id$v=19$m=65536,t=3,p=2$" ++ b64_encode std_alphabet salt
                 ++ "$" ++ b64_encode std_alphabet hash)
       end.

Definition VerifyPassword (encoded password : string) : bool :=
  match SplitByte encoded "$" with
  | [_; p1; p2; p3; p4; p5] =>
      String.eqb p1 "argon2id" && String.eqb p2 "v=19" &&
      match scan_params p3, DecodeString std_alphabet p4, DecodeString std_alphabet p5 with
      | Some (memory, time, threads), Some salt, Some expected =>
          let len := Z.of_nat (String.length expected) in
          negb (len =? 0)%Z && (len <=? 2 ^ 32 - 1)%Z &&
          String.eqb (argon2_IDKey password salt time memory (threads mod 256)%Z len) expected
      | _, _, _ => false
      end
  | _ => false
  end.
End Password.

(** *** Splitting at the separators *)

Lemma SplitByte_none s c :
  forallb_str (fun d => negb (Ascii.eqb d c)) s = true -> SplitByte s c = [s].
Proof.
  induction s as [|d s IH]; simpl; [done|].
  intros [Hd Hs]%andb_true_iff. apply negb_true_iff in Hd. by rewrite Hd, IH.
Qed.

Lemma SplitByte_field s t c :
  forallb_str (fun d => negb (Ascii.eqb d c)) s = true ->
  SplitByte (s ++ String c t) c = s :: SplitByte t c.
Proof.
  induction s as [|d s IH]; simpl.
  - intros _. by rewrite Ascii.eqb_refl.
  - intros [Hd Hs]%andb_true_iff. apply negb_true_iff in Hd. by rewrite Hd, IH.
Qed.

Lemma b64_no_dollar s :
  forallb_str (fun d => negb (Ascii.eqb d "$")) (b64_encode std_alphabet s) = true.
Proof.
  apply b64_encode_chars. intros x. by destruct x as [[] [] [] [] [] []].
Qed.

Section RoundTrip.
Context (argon2_IDKey : string -> string -> Z -> Z -> Z -> Z -> string).

(** A password verifies against the encoding [HashPassword] produced for
    it, whatever the salt, and another password verifies only if Argon2 maps
    it to the same key under that salt. [argon2_len] is Argon2's documented
    contract: the derived key has the requested length. *)
Theorem VerifyPassword_HashPassword password salt encoded other :
  (forall p s t m h n, String.length (argon2_IDKey p s t m h n) = Z.to_nat n) ->
  HashPassword argon2_IDKey password (Some salt) = Some encoded ->
  VerifyPassword argon2_IDKey encoded password = true /\
  (VerifyPassword argon2_IDKey encoded other = true <->
   argon2_IDKey other salt argonTime argonMemory argonThreads argonKeyLen =
   argon2_IDKey password salt argonTime argonMemory argonThreads argonKeyLen).
Proof.
  intros Hlen. unfold HashPassword. destruct (Nat.ltb _ _); [done|]. intros [= <-].
  assert (forall pw, VerifyPassword argon2_IDKey
     ("$argon2id$v=19$m=65536,t=3,p=2$" ++ b64_encode std_alphabet salt ++ "$" ++
       b64_encode std_alphabet (argon2_IDKey password salt argonTime argonMemory argonThreads argonKeyLen)) pw
     = String.eqb (argon2_IDKey pw salt argonTime argonMemory argonThreads argonKeyLen)
         (argon2_IDKey password salt argonTime argonMemory argonThreads argonKeyLen)) as Hv.
  { intros pw. unfold VerifyPassword.
    change ("$argon2id$v=19$m=65536,t=3,p=2$" ++ b64_encode std_alphabet salt ++ "$" ++ ?r)
      with ("" ++ String "$" ("argon2id" ++ String "$" ("v=19" ++ String "$"
            ("m=65536,t=3,p=2" ++ String "$" (b64_encode std_alphabet salt ++ String "$" r))))).
    rewrite !SplitByte_field, SplitByte_none by (try apply b64_no_dollar; reflexivity).
    rewrite !DecodeString_encode by (by left). rewrite !Hlen. reflexivity. }
  rewrite !Hv. split; [apply String.eqb_refl|apply String.eqb_eq].
Qed.

(** Nothing shorter than twelve bytes is ever stored. *)
Lemma HashPassword_length password salt encoded :
  HashPassword argon2_IDKey password salt = Some encoded ->
  (12 <= String.length password)%nat.
Proof.
  unfold HashPassword. destruct (Nat.ltb _ _) eqn:E; [done|]. intros _.
  by apply Nat.ltb_ge in E.
Qed.
End RoundTrip.
