(* ===== verification/Schema.v ===== *)
(** The database: the tables of [server/internal/db/migrations], one record per
    table with the table's columns, and the constraints SQLite enforces on
    them.  A table is a [Table]: a finite map from the primary key to the row.
    A nullable column is an [option]; a CHECK-restricted text column is an
    inductive type with the texts the CHECK admits as its constructors; an
    INTEGER column is a [Z]; a timestamp is a [Stamp] (Timestamps.v). *)

From S2P Require Import Prelude Timestamps.
From Stdlib Require Import Ascii String.
Open Scope Z_scope.

(** A boolean equality test for any type with decidable equality. *)
Notation "x == y" := (bool_decide (x = y)) (at level 70, no associativity).
Notation "x != y" := (negb (bool_decide (x = y))) (at level 70, no associativity).

(** ** Enumerated columns *)

Inductive Role := RAdmin | RUser.
Inductive UserStatus := UActive | UDisabled | UDeleting | UDeleted.
Inductive Channel := AdminPanel | ClientPanel.
Inductive ProxyType := Tcp | Udp | Http.
Inductive Lifecycle := LReserved | LPendingApply | LRunning | LOffline | LConfigError | LDisabled | LDeleting | LDeleted.
Inductive DesiredState := DEnabled | DDisabled.
Inductive Observed := ObOffline | ObRunning.
Inductive RevStatus := RPending | RApplying | RActive | RFailed | RSuperseded | RRolledBack.
Inductive LeaseRole := LeaseActive | LeasePending.
Inductive HttpsMode := AutoCertificate | CloudflareProxy | HttpOnly.
Inductive DomainStatus := DsReserved | DsPendingDns | DsPendingClient | DsPendingCertificate | DsPendingRouter | DsActive | DsOffline | DsDnsError | DsCertificateError | DsRouterError | DsDeleting | DsDeleted.
Inductive DnsType := DnsA | DnsAAAA | DnsCNAME.
Inductive TokenStatus := TkMissing | TkPending | TkValid | TkInvalid | TkPermissionDenied | TkRetired.
Inductive OpStatus := OpPending | OpRunning | OpSucceeded | OpFailed | OpCanceled.
Inductive JobStatus := JPending | JRunning | JRetryWait | JSucceeded | JFailed | JCanceled.
Inductive CertStatus := CPending | CValid | CRenewing | CExpired | CError | CRevoked.
Inductive SnapStatus := SnPending | SnApplying | SnActive | SnFailed | SnSuperseded.

#[export] Instance Role_eq_dec : EqDecision Role.
Proof. solve_decision. Defined.
#[export] Instance UserStatus_eq_dec : EqDecision UserStatus.
Proof. solve_decision. Defined.
#[export] Instance Channel_eq_dec : EqDecision Channel.
Proof. solve_decision. Defined.
#[export] Instance ProxyType_eq_dec : EqDecision ProxyType.
Proof. solve_decision. Defined.
#[export] Instance Lifecycle_eq_dec : EqDecision Lifecycle.
Proof. solve_decision. Defined.
#[export] Instance DesiredState_eq_dec : EqDecision DesiredState.
Proof. solve_decision. Defined.
#[export] Instance Observed_eq_dec : EqDecision Observed.
Proof. solve_decision. Defined.
#[export] Instance RevStatus_eq_dec : EqDecision RevStatus.
Proof. solve_decision. Defined.
#[export] Instance LeaseRole_eq_dec : EqDecision LeaseRole.
Proof. solve_decision. Defined.
#[export] Instance HttpsMode_eq_dec : EqDecision HttpsMode.
Proof. solve_decision. Defined.
#[export] Instance DomainStatus_eq_dec : EqDecision DomainStatus.
Proof. solve_decision. Defined.
#[export] Instance DnsType_eq_dec : EqDecision DnsType.
Proof. solve_decision. Defined.
#[export] Instance TokenStatus_eq_dec : EqDecision TokenStatus.
Proof. solve_decision. Defined.
#[export] Instance OpStatus_eq_dec : EqDecision OpStatus.
Proof. solve_decision. Defined.
#[export] Instance JobStatus_eq_dec : EqDecision JobStatus.
Proof. solve_decision. Defined.
#[export] Instance CertStatus_eq_dec : EqDecision CertStatus.
Proof. solve_decision. Defined.
#[export] Instance SnapStatus_eq_dec : EqDecision SnapStatus.
Proof. solve_decision. Defined.

(** ** Job payloads and stored responses

    A payload is the JSON object of a job: the source writes strings, integers
    and booleans into it. *)
Inductive PVal := PStr (s : string) | PInt (z : Z) | PBool (b : bool).
#[export] Instance PVal_eq_dec : EqDecision PVal.
Proof. solve_decision. Defined.

Abbreviation Payload := (gmap string PVal).

(** A [payload_json] column: the object it decodes to, or the message with
    which [json.Unmarshal] rejects it. *)
Abbreviation PayloadText := (res string Payload).

(** A mapping and a domain as the API returns them (and as an idempotency record
    keeps them). *)
Record MappingView := MappingV {
  mv_id : string;
  mv_user_id : string;
  mv_name : string;
  mv_proxy_type : ProxyType;
  mv_lifecycle : Lifecycle;
  mv_desired : DesiredState;
  mv_observed : Observed;
  mv_revision : Z;
  mv_local_ip : string;
  mv_local_port : Z;
  mv_remote_port : option Z;
  mv_created : Stamp;
  mv_updated : Stamp
}.
#[export] Instance Eta_MappingView : Eta MappingView := fun r =>
  MappingV r.(mv_id) r.(mv_user_id) r.(mv_name) r.(mv_proxy_type) r.(mv_lifecycle) 
    r.(mv_desired) r.(mv_observed) r.(mv_revision) r.(mv_local_ip) 
    r.(mv_local_port) r.(mv_remote_port) r.(mv_created) r.(mv_updated).

Record DomainView := DomainV {
  dv_id : string;
  dv_mapping_id : string;
  dv_hostname : string;
  dv_normalized : string;
  dv_https_mode : HttpsMode;
  dv_redirect : bool;
  dv_dns_type : DnsType;
  dv_dns_content : string;
  dv_dns_ttl : Z;
  dv_dns_proxied : bool;
  dv_dns_managed : bool;
  dv_dns_adopted : bool;
  dv_status : DomainStatus;
  dv_revision : Z;
  dv_created : Stamp;
  dv_updated : Stamp
}.
#[export] Instance Eta_DomainView : Eta DomainView := fun r =>
  DomainV r.(dv_id) r.(dv_mapping_id) r.(dv_hostname) r.(dv_normalized) 
    r.(dv_https_mode) r.(dv_redirect) r.(dv_dns_type) r.(dv_dns_content) 
    r.(dv_dns_ttl) r.(dv_dns_proxied) r.(dv_dns_managed) r.(dv_dns_adopted) 
    r.(dv_status) r.(dv_revision) r.(dv_created) r.(dv_updated).

Record SecretReset := SecretR {
  sr_secret_version : Z;
  sr_session_generation : Z
}.
#[export] Instance Eta_SecretReset : Eta SecretReset := fun r =>
  SecretR r.(sr_secret_version) r.(sr_session_generation).

(** The response an idempotency record replays: the JSON document of a service
    call by its content, or the text the HTTP middleware wrote (an encrypted
    document). *)
Inductive Response :=
| RespMapping (v : MappingView)
| RespDomain (v : DomainView)
| RespOperation (op : string)
| RespAction (op : option string) (action : string)
| RespOk
| RespSecret (v : SecretReset)
| RespText (text : string).

(** ** Tables *)

(** [users] *)
Record User := mkUser {
  u_username : string;
  u_password_hash : string;
  u_role : Role;
  u_status : UserStatus;
  u_must_change_password : bool;
  u_must_change_username : bool;
  u_auth_version : Z;
  u_generation : Z;
  u_desired_config : Z;
  u_applied_config : Z;
  u_last_failed_config : option Z;
  u_active_cf_version : option Z;
  u_max_mappings : Z;
  u_max_domains : Z;
  u_max_pending_mappings : Z;
  u_max_pending_port_leases : Z;
  u_max_pending_domain_operations : Z;
  u_max_certificate_jobs : Z;
  u_created : Stamp;
  u_updated : Stamp
}.
#[export] Instance Eta_User : Eta User := fun r =>
  mkUser r.(u_username) r.(u_password_hash) r.(u_role) r.(u_status) 
    r.(u_must_change_password) r.(u_must_change_username) r.(u_auth_version) 
    r.(u_generation) r.(u_desired_config) r.(u_applied_config) 
    r.(u_last_failed_config) r.(u_active_cf_version) r.(u_max_mappings) 
    r.(u_max_domains) r.(u_max_pending_mappings) 
    r.(u_max_pending_port_leases) r.(u_max_pending_domain_operations) 
    r.(u_max_certificate_jobs) r.(u_created) r.(u_updated).

(** [sessions] *)
Record Session := mkSession {
  s_user_id : string;
  s_hash : string;
  s_channel : Channel;
  s_generation : Z;
  s_source_ip : string;
  s_user_agent : string;
  s_expires : Stamp;
  s_idle_expires : Stamp;
  s_last_seen : Stamp;
  s_revoked : option Stamp;
  s_revoke_reason : option string;
  s_csrf_hash : string;
  s_created : Stamp
}.
#[export] Instance Eta_Session : Eta Session := fun r =>
  mkSession r.(s_user_id) r.(s_hash) r.(s_channel) r.(s_generation) r.(s_source_ip) 
    r.(s_user_agent) r.(s_expires) r.(s_idle_expires) r.(s_last_seen) 
    r.(s_revoked) r.(s_revoke_reason) r.(s_csrf_hash) r.(s_created).

(** [frp_credentials] *)
Record FrpCredential := mkFrpCredential {
  fc_user_id : string;
  fc_frp_username : string;
  fc_secret_hash : string;
  fc_ciphertext : string;
  fc_nonce : string;
  fc_secret_version : Z;
  fc_created : Stamp;
  fc_rotated : option Stamp
}.
#[export] Instance Eta_FrpCredential : Eta FrpCredential := fun r =>
  mkFrpCredential r.(fc_user_id) r.(fc_frp_username) r.(fc_secret_hash) r.(fc_ciphertext) 
    r.(fc_nonce) r.(fc_secret_version) r.(fc_created) r.(fc_rotated).

(** [frp_runtime_credentials] *)
Record RuntimeCredential := mkRuntimeCredential {
  rc_user_id : string;
  rc_session_id : string;
  rc_generation : Z;
  rc_token_hash : string;
  rc_expires : Stamp;
  rc_revoked : option Stamp;
  rc_created : Stamp
}.
#[export] Instance Eta_RuntimeCredential : Eta RuntimeCredential := fun r =>
  mkRuntimeCredential r.(rc_user_id) r.(rc_session_id) r.(rc_generation) r.(rc_token_hash) 
    r.(rc_expires) r.(rc_revoked) r.(rc_created).

(** [user_runtime_state] *)
Record RuntimeState := mkRuntimeState {
  rs_active_session : option string;
  rs_observed : string;
  rs_panel_version : option string;
  rs_frpc_version : option string;
  rs_last_heartbeat : option Stamp;
  rs_last_applied : Z;
  rs_last_error_code : option string;
  rs_last_error_message : option string;
  rs_updated : Stamp
}.
#[export] Instance Eta_RuntimeState : Eta RuntimeState := fun r =>
  mkRuntimeState r.(rs_active_session) r.(rs_observed) r.(rs_panel_version) 
    r.(rs_frpc_version) r.(rs_last_heartbeat) r.(rs_last_applied) 
    r.(rs_last_error_code) r.(rs_last_error_message) r.(rs_updated).

(** [idempotency_records] *)
Record Idempotency := mkIdempotency {
  i_user_id : string;
  i_generation : Z;
  i_method : string;
  i_path : string;
  i_key : string;
  i_body_hash : string;
  i_status : Z;
  i_response : Response;
  i_operation : option string;
  i_expires : Stamp;
  i_created : Stamp
}.
#[export] Instance Eta_Idempotency : Eta Idempotency := fun r =>
  mkIdempotency r.(i_user_id) r.(i_generation) r.(i_method) r.(i_path) r.(i_key) 
    r.(i_body_hash) r.(i_status) r.(i_response) r.(i_operation) 
    r.(i_expires) r.(i_created).

(** [mappings] *)
Record Mapping := mkMapping {
  m_user_id : string;
  m_name : string;
  m_proxy_type : ProxyType;
  m_lifecycle : Lifecycle;
  m_desired : DesiredState;
  m_observed : Observed;
  m_active_rev : option string;
  m_pending_rev : option string;
  m_created : Stamp;
  m_updated : Stamp
}.
#[export] Instance Eta_Mapping : Eta Mapping := fun r =>
  mkMapping r.(m_user_id) r.(m_name) r.(m_proxy_type) r.(m_lifecycle) r.(m_desired) 
    r.(m_observed) r.(m_active_rev) r.(m_pending_rev) r.(m_created) 
    r.(m_updated).

(** [mapping_revisions] *)
Record Revision := mkRevision {
  r_mapping_id : string;
  r_revision : Z;
  r_local_ip : string;
  r_local_port : Z;
  r_remote_port : option Z;
  r_status : RevStatus;
  r_created : Stamp;
  r_applied : option Stamp
}.
#[export] Instance Eta_Revision : Eta Revision := fun r =>
  mkRevision r.(r_mapping_id) r.(r_revision) r.(r_local_ip) r.(r_local_port) 
    r.(r_remote_port) r.(r_status) r.(r_created) r.(r_applied).

(** [port_leases] *)
Record Lease := mkLease {
  l_mapping_id : string;
  l_rev_id : string;
  l_port : Z;
  l_role : LeaseRole;
  l_created : Stamp
}.
#[export] Instance Eta_Lease : Eta Lease := fun r =>
  mkLease r.(l_mapping_id) r.(l_rev_id) r.(l_port) r.(l_role) r.(l_created).

(** [domain_bindings] *)
Record Domain := mkDomain {
  d_user_id : string;
  d_mapping_id : string;
  d_hostname : string;
  d_normalized : string;
  d_zone_id : option string;
  d_https_mode : HttpsMode;
  d_redirect : bool;
  d_status : DomainStatus;
  d_revision : Z;
  d_created : Stamp;
  d_updated : Stamp
}.
#[export] Instance Eta_Domain : Eta Domain := fun r =>
  mkDomain r.(d_user_id) r.(d_mapping_id) r.(d_hostname) r.(d_normalized) 
    r.(d_zone_id) r.(d_https_mode) r.(d_redirect) r.(d_status) 
    r.(d_revision) r.(d_created) r.(d_updated).

(** [dns_records] *)
Record DnsRecord := mkDnsRecord {
  n_user_id : string;
  n_domain_id : option string;
  n_type : DnsType;
  n_name : string;
  n_normalized : string;
  n_content : string;
  n_ttl : Z;
  n_proxied : bool;
  n_zone_id : option string;
  n_record_id : option string;
  n_managed : bool;
  n_adopted : bool;
  n_sync_status : string;
  n_last_synced : option Stamp
}.
#[export] Instance Eta_DnsRecord : Eta DnsRecord := fun r =>
  mkDnsRecord r.(n_user_id) r.(n_domain_id) r.(n_type) r.(n_name) r.(n_normalized) 
    r.(n_content) r.(n_ttl) r.(n_proxied) r.(n_zone_id) r.(n_record_id) 
    r.(n_managed) r.(n_adopted) r.(n_sync_status) r.(n_last_synced).

(** [cloudflare_credentials] *)
Record CfCredential := mkCfCredential {
  cc_user_id : string;
  cc_version : Z;
  cc_ciphertext : string;
  cc_nonce : string;
  cc_status : TokenStatus;
  cc_capabilities : string;
  cc_verified : option Stamp;
  cc_activated : option Stamp;
  cc_retired : option Stamp;
  cc_created : Stamp
}.
#[export] Instance Eta_CfCredential : Eta CfCredential := fun r =>
  mkCfCredential r.(cc_user_id) r.(cc_version) r.(cc_ciphertext) r.(cc_nonce) 
    r.(cc_status) r.(cc_capabilities) r.(cc_verified) r.(cc_activated) 
    r.(cc_retired) r.(cc_created).

(** [operations] *)
Record Operation := mkOperation {
  o_user_id : option string;
  o_resource_type : string;
  o_resource_id : string;
  o_op_type : string;
  o_status : OpStatus;
  o_phase : string;
  o_step : string;
  o_key : option string;
  o_compensation : string;
  o_error_code : option string;
  o_error_message : option string;
  o_created : Stamp;
  o_updated : Stamp;
  o_completed : option Stamp
}.
#[export] Instance Eta_Operation : Eta Operation := fun r =>
  mkOperation r.(o_user_id) r.(o_resource_type) r.(o_resource_id) r.(o_op_type) 
    r.(o_status) r.(o_phase) r.(o_step) r.(o_key) r.(o_compensation) 
    r.(o_error_code) r.(o_error_message) r.(o_created) r.(o_updated) 
    r.(o_completed).

(** [jobs] *)
Record Job := mkJob {
  j_type : string;
  j_resource_type : string;
  j_resource_id : option string;
  j_status : JobStatus;
  j_run_after : Stamp;
  j_attempts : Z;
  j_max_attempts : Z;
  j_lock_owner : option string;
  j_locked_at : option Stamp;
  j_lock_expires : option Stamp;
  j_heartbeat : option Stamp;
  j_dedup : option string;
  j_token_version : option Z;
  j_last_error : option string;
  j_payload : PayloadText;
  j_created : Stamp;
  j_updated : Stamp;
  j_completed : option Stamp
}.
#[export] Instance Eta_Job : Eta Job := fun r =>
  mkJob r.(j_type) r.(j_resource_type) r.(j_resource_id) r.(j_status) 
    r.(j_run_after) r.(j_attempts) r.(j_max_attempts) r.(j_lock_owner) 
    r.(j_locked_at) r.(j_lock_expires) r.(j_heartbeat) r.(j_dedup) 
    r.(j_token_version) r.(j_last_error) r.(j_payload) r.(j_created) 
    r.(j_updated) r.(j_completed).

(** [config_snapshots] *)
Record ConfigSnapshotRow := mkConfigSnapshotRow {
  cs_user_id : string;
  cs_version : Z;
  cs_generation : Z;
  cs_hash : string;
  cs_key_id : string;
  cs_signature : string;
  cs_created : Stamp
}.
#[export] Instance Eta_ConfigSnapshotRow : Eta ConfigSnapshotRow := fun r =>
  mkConfigSnapshotRow r.(cs_user_id) r.(cs_version) r.(cs_generation) r.(cs_hash) 
    r.(cs_key_id) r.(cs_signature) r.(cs_created).

(** [audit_logs] *)
Record AuditLog := mkAuditLog {
  a_actor_type : string;
  a_actor_id : string;
  a_session_id : string;
  a_generation : Z;
  a_source_ip : string;
  a_user_agent : string;
  a_request_id : string;
  a_operation : option string;
  a_action : string;
  a_resource_type : option string;
  a_resource_id : option string;
  a_result : string;
  a_metadata : list (string * PVal);
  a_created : Stamp
}.
#[export] Instance Eta_AuditLog : Eta AuditLog := fun r =>
  mkAuditLog r.(a_actor_type) r.(a_actor_id) r.(a_session_id) r.(a_generation) 
    r.(a_source_ip) r.(a_user_agent) r.(a_request_id) r.(a_operation) 
    r.(a_action) r.(a_resource_type) r.(a_resource_id) r.(a_result) 
    r.(a_metadata) r.(a_created).

(** [certificates] *)
Record Certificate := mkCertificate {
  c_domain_id : string;
  c_provider : string;
  c_status : CertStatus;
  c_not_before : option Stamp;
  c_not_after : option Stamp;
  c_renew_after : option Stamp;
  c_cert_path : option string;
  c_key_ciphertext : option string;
  c_key_nonce : option string;
  c_cert_hash : option string;
  c_updated : Stamp
}.
#[export] Instance Eta_Certificate : Eta Certificate := fun r =>
  mkCertificate r.(c_domain_id) r.(c_provider) r.(c_status) r.(c_not_before) 
    r.(c_not_after) r.(c_renew_after) r.(c_cert_path) r.(c_key_ciphertext) 
    r.(c_key_nonce) r.(c_cert_hash) r.(c_updated).

(** [router_snapshots] *)
Record RouterSnapshotRow := mkRouterSnapshotRow {
  rt_path : string;
  rt_hash : string;
  rt_hmac : string;
  rt_status : SnapStatus;
  rt_generated : Stamp;
  rt_applied : Stamp
}.
#[export] Instance Eta_RouterSnapshotRow : Eta RouterSnapshotRow := fun r =>
  mkRouterSnapshotRow r.(rt_path) r.(rt_hash) r.(rt_hmac) r.(rt_status) r.(rt_generated) 
    r.(rt_applied).

(** [external_residues] *)
Record Residue := mkResidue {
  x_user_id : option string;
  x_operation : option string;
  x_resource_type : string;
  x_resource_id : string;
  x_provider : string;
  x_identifier : string;
  x_reason : string;
  x_created : Stamp;
  x_resolved : option Stamp
}.
#[export] Instance Eta_Residue : Eta Residue := fun r =>
  mkResidue r.(x_user_id) r.(x_operation) r.(x_resource_type) r.(x_resource_id) 
    r.(x_provider) r.(x_identifier) r.(x_reason) r.(x_created) 
    r.(x_resolved).

(** [reauth_tickets] *)
Record ReauthTicket := mkReauthTicket {
  t_user_id : string;
  t_generation : Z;
  t_token_hash : string;
  t_expires : Stamp;
  t_created : Stamp
}.
#[export] Instance Eta_ReauthTicket : Eta ReauthTicket := fun r =>
  mkReauthTicket r.(t_user_id) r.(t_generation) r.(t_token_hash) r.(t_expires) 
    r.(t_created).

(** [router_state], its one row. *)
Record RouterState := mkRouterState {
  rst_config_version : Z;
  rst_applied_version : Z;
  rst_last_good : option Z;
  rst_last_good_path : option string;
  rst_last_good_hash : option string;
  rst_last_error : option string;
  rst_updated : Stamp
}.
#[export] Instance Eta_RouterState : Eta RouterState := fun r =>
  mkRouterState r.(rst_config_version) r.(rst_applied_version) r.(rst_last_good) 
    r.(rst_last_good_path) r.(rst_last_good_hash) r.(rst_last_error) 
    r.(rst_updated).

(** The whole database. *)
Record DB := mkDB {
  users : Table User;
  sessions : Table Session;
  frp_credentials : Table FrpCredential;
  runtime_credentials : Table RuntimeCredential;
  runtime_state : Table RuntimeState;
  idempotency : Table Idempotency;
  mappings : Table Mapping;
  revisions : Table Revision;
  leases : Table Lease;
  domains : Table Domain;
  dns_records : Table DnsRecord;
  cf_credentials : Table CfCredential;
  operations : Table Operation;
  jobs : Table Job;
  config_snapshots : Table ConfigSnapshotRow;
  audit_logs : Table AuditLog;
  certificates : Table Certificate;
  router_snapshots : gmap Z RouterSnapshotRow;
  residues : Table Residue;
  reauth_tickets : Table ReauthTicket;
  router_state : RouterState
}.
#[export] Instance Eta_DB : Eta DB := fun r =>
  mkDB r.(users) r.(sessions) r.(frp_credentials) r.(runtime_credentials) 
    r.(runtime_state) r.(idempotency) r.(mappings) r.(revisions) r.(leases) 
    r.(domains) r.(dns_records) r.(cf_credentials) r.(operations) r.(jobs) 
    r.(config_snapshots) r.(audit_logs) r.(certificates) 
    r.(router_snapshots) r.(residues) r.(reauth_tickets) r.(router_state).

