(* ===== verification/Effects.v ===== *)
(** The effects of a service call: the database, the clock, identifiers, random
    bytes and failing statements, and the monad the handlers are written in.

    A call runs in a [World]: the database and a counter of the effects
    performed so far.  What the outside answers to the [n]-th effect (the time
    [time.Now] reads, the identifier [id.New] returns, the bytes [crypto/rand]
    delivers, whether the statement fails in the driver) is the environment
    [Env], over which every theorem is quantified. *)

From S2P Require Import Prelude StateError GoText GoNet Timestamps Encoding Password Schema.
From Stdlib Require Import Ascii String.
Open Scope Z_scope.

(** ** Errors

    [ErrPanic] is a run-time panic: it is not an error value, no caller handles
    it, and it ends the process. *)

Inductive SqlError := NoRows | UniqueViolation | CheckViolation | ForeignKeyViolation | DriverError.

Inductive GoErr :=
| ErrInvalidCredentials | ErrSessionInvalid | ErrForbidden | ErrNotFound
| ErrConfigConflict | ErrRevisionConflict | ErrIdempotencyReuse | ErrPortReserved
| ErrReauthRequired | ErrNoJob
| ErrMsg (text : string)
| ErrSql (e : SqlError)
| ErrBlocked (text : string)
| ErrAPI (status : Z) (text : string)
| ErrPanic (text : string).

#[export] Instance SqlError_eq_dec : EqDecision SqlError.
Proof. solve_decision. Defined.
#[export] Instance GoErr_eq_dec : EqDecision GoErr.
Proof. solve_decision. Defined.

(** [strings.Contains(err.Error(), "UNIQUE")]: SQLite's message for a violated
    UNIQUE or PRIMARY KEY constraint. *)
Definition is_unique_error (e : GoErr) : bool :=
  match e with ErrSql UniqueViolation => true | _ => false end.

(** ** The environment *)

(** The values a request body can have where it is hashed. *)
Inductive HashBody :=
| HbMapping (name proxy_type local_ip : string) (local_port : Z)
    (remote_port expected_config expected_revision : option Z)
| HbForce (force : bool)
| HbToggle (enabled : bool) (expected_config expected_revision : option Z)
| HbDomain (mapping_id hostname https_mode : string) (redirect : bool)
    (dns_type dns_content : string) (dns_ttl : Z) (expected_config : option Z)
| HbAction (action : string)
| HbEmpty
| HbReset (target password : string).

(** [config.Config], the fields the modelled code reads. *)
Record Config := mkConfig {
  cfg_AdminPassword : string;
  cfg_DataDir : string;
  cfg_SessionTTLHours : Z;
  cfg_PortStart : Z;
  cfg_PortEnd : Z;
  cfg_FRPSBindPort : Z;
  cfg_FRPSPublicHost : string;
  cfg_FRPSPublicPort : Z;
  cfg_FRPSTransportSecret : string;
  cfg_RouterControlHosts : list string;
  cfg_RouterControlTarget : string;
  cfg_RouterBusinessTarget : string;
  cfg_RouterSnapshotDir : string;
  cfg_ACMEEnabled : bool
}.

(** [jobs.Store]: the fields besides the database. *)
Record JobStore := mkJobStore { st_owner : string; st_lease : Z; st_retry_base : Z }.

(** [auditRequestMetadata], what the HTTP layer attaches to the request's context. *)
Record auditRequestMetadata := mkauditRequestMetadata {
  am_SourceIP : string;
  am_UserAgent : string;
  am_RequestID : string
}.

#[export] Instance JobStore_eq_dec : EqDecision JobStore.
Proof. solve_decision. Defined.

Class Env := {
  env_now : nat -> Stamp;
  env_id : nat -> string;
  env_random : nat -> nat -> option string;
  env_fault : nat -> bool;
  env_config : Config;
  env_jobs : option JobStore;
  env_audit : auditRequestMetadata;
  env_sha256 : string -> string;
  env_hash_body : HashBody -> string;
  env_argon2 : string -> string -> Z -> Z -> Z -> Z -> string;
  env_gcm_seal : string -> string -> string -> string -> string;
  env_gcm_open : string -> string -> string -> string -> option string;
  env_master_key : string;
  (** the driver's text of a failed statement *)
  env_sql_text : SqlError -> string;
  env_certificate_key : string;
  env_router_key : string;
  env_unicode :: UnicodeTables;
  env_idna :: Idna
}.

(** ** The monad *)

Record World := mkWorld { w_db : DB; w_tick : nat }.
#[export] Instance Eta_World : Eta World := fun r => mkWorld r.(w_db) r.(w_tick).

Abbreviation M := (ST World GoErr).

Definition step (w : World) : World := mkWorld (w_db w) (S (w_tick w)).

Section Effects.
Context `{Env}.

(** *** Clock, identifiers, randomness *)

Definition now : M Stamp := fun w => (Ok (env_now (w_tick w)), step w).
Definition newID : M string := fun w => (Ok (env_id (w_tick w)), step w).
Definition rand_read (n : nat) : M string := fun w =>
  match env_random (w_tick w) n with
  | Some b => (Ok b, step w)
  | None => (Err (ErrMsg "crypto/rand"), step w)
  end.

(** *** Statements

    Each statement may fail in the driver; otherwise it runs to completion or
    is rejected by a constraint, leaving the database as it was. *)

Definition query {A} (q : DB -> A) : M A := fun w =>
  if env_fault (w_tick w) then (Err (ErrSql DriverError), step w)
  else (Ok (q (w_db w)), step w).

(** [QueryRowContext(...).Scan(...)]: no row is an error. *)
Definition query_row {A} (q : DB -> option A) : M A := fun w =>
  if env_fault (w_tick w) then (Err (ErrSql DriverError), step w)
  else match q (w_db w) with
       | Some a => (Ok a, step w)
       | None => (Err (ErrSql NoRows), step w)
       end.

Definition exec (f : DB -> DB) : M unit := fun w =>
  if env_fault (w_tick w) then (Err (ErrSql DriverError), step w)
  else (Ok tt, mkWorld (f (w_db w)) (S (w_tick w))).

(** A statement that a constraint can reject. *)
Definition exec_checked (f : DB -> res SqlError DB) : M unit := fun w =>
  if env_fault (w_tick w) then (Err (ErrSql DriverError), step w)
  else match f (w_db w) with
       | Ok db' => (Ok tt, mkWorld db' (S (w_tick w)))
       | Err e => (Err (ErrSql e), step w)
       end.

(** A statement whose [RowsAffected] the code reads. *)
Definition exec_count (n : DB -> Z) (f : DB -> DB) : M Z := fun w =>
  if env_fault (w_tick w) then (Err (ErrSql DriverError), step w)
  else (Ok (n (w_db w)), mkWorld (f (w_db w)) (S (w_tick w))).

(** *** Transactions

    The body either asks for the commit or returns early; an early return, an
    error and a failing BEGIN or COMMIT all leave the database as it was
    ([defer tx.Rollback()]). *)
Inductive outcome (A : Type) := Commit (a : A) | Rollback (a : A).
Arguments Commit {A} a.
Arguments Rollback {A} a.

Definition transaction {A} (body : M (outcome A)) : M A := fun w =>
  if env_fault (w_tick w) then (Err (ErrSql DriverError), step w)
  else match body (step w) with
       | (Ok (Commit a), w') =>
           if env_fault (w_tick w') then (Err (ErrSql DriverError), mkWorld (w_db w) (S (w_tick w')))
           else (Ok a, step w')
       | (Ok (Rollback a), w') => (Ok a, mkWorld (w_db w) (w_tick w'))
       | (Err e, w') => (Err e, mkWorld (w_db w) (w_tick w'))
       end.

(** *** Derived primitives of [service.go] *)

Definition sha256Hex (value : string) : string := hex_encode (env_sha256 value).
Definition requestHash (b : HashBody) : string := sha256Hex (env_hash_body b).
Definition randomSecret : M string :=
  raw ← rand_read 32; ret (b64_encode url_alphabet raw).
Definition randomToken : M string := randomSecret.
Definition nowString : M Stamp := now.

(** *** [crypto.Manager] ([server/internal/crypto/crypto.go])

    AES-GCM is the pair [env_gcm_seal], [env_gcm_open] of key, nonce, text and
    associated data; the nonce is twelve random bytes. *)

Definition aes_key_ok (key : string) : bool :=
  existsb (Nat.eqb (String.length key)) [16; 24; 32]%nat.

Definition encryptWithKey (key plaintext aad : string) : M (string * string) :=
  fail_if (negb (aes_key_ok key)) (ErrMsg "crypto/aes: invalid key size");;
  nonce ← rand_read 12;
  ret (env_gcm_seal key nonce plaintext aad, nonce).

Definition decryptWithKey (key ciphertext nonce aad : string) : M string :=
  fail_if (negb (aes_key_ok key)) (ErrMsg "crypto/aes: invalid key size");;
  fail_if (negb (Nat.eqb (String.length nonce) 12)) (ErrMsg "invalid nonce length");;
  or_fail (ErrMsg "cipher: message authentication failed")
    (env_gcm_open key nonce ciphertext aad).

Definition Encrypt (plaintext aad : string) : M (string * string) :=
  encryptWithKey env_master_key plaintext aad.
Definition Decrypt (ciphertext nonce aad : string) : M string :=
  decryptWithKey env_master_key ciphertext nonce aad.

Definition verify_password : string -> string -> bool := VerifyPassword env_argon2.
Definition hash_password (password : string) : M string :=
  if Nat.ltb (String.length password) 12
  then fail (ErrMsg "password must be at least 12 characters")
  else salt ← rand_read saltLen;
       or_fail (ErrMsg "hash") (HashPassword env_argon2 password (Some salt)).
End Effects.
Arguments Commit {A} a.
Arguments Rollback {A} a.

(** ** Running a computation

    The lemmas below take a successful run apart, one effect at a time. *)

Section Runs.
Context `{Env}.

Lemma now_Ok a w w' : now w = (Ok a, w') <-> a = env_now (w_tick w) /\ w' = step w.
Proof. unfold now. solve_run. Qed.

Lemma newID_Ok a w w' : newID w = (Ok a, w') <-> a = env_id (w_tick w) /\ w' = step w.
Proof. unfold newID. solve_run. Qed.

Lemma rand_read_Ok n a w w' :
  rand_read n w = (Ok a, w') <-> env_random (w_tick w) n = Some a /\ w' = step w.
Proof. unfold rand_read. solve_run. Qed.

Lemma query_Ok {A} (q : DB -> A) a w w' :
  query q w = (Ok a, w') <->
  env_fault (w_tick w) = false /\ a = q (w_db w) /\ w' = step w.
Proof. unfold query. solve_run. Qed.

Lemma query_row_Ok {A} (q : DB -> option A) a w w' :
  query_row q w = (Ok a, w') <->
  env_fault (w_tick w) = false /\ q (w_db w) = Some a /\ w' = step w.
Proof. unfold query_row. solve_run. Qed.

Lemma exec_Ok f u w w' :
  exec f w = (Ok u, w') <->
  env_fault (w_tick w) = false /\ w' = mkWorld (f (w_db w)) (S (w_tick w)).
Proof. unfold exec. destruct u. solve_run. Qed.

Lemma exec_checked_Ok f u w w' :
  exec_checked f w = (Ok u, w') <->
  env_fault (w_tick w) = false /\
  exists db', f (w_db w) = Ok db' /\ w' = mkWorld db' (S (w_tick w)).
Proof.
  unfold exec_checked. destruct u, (env_fault _); [split; [done|by intros [? _]]|].
  destruct (f (w_db w)); split; intros Hr; simplify_eq; eauto.
  - destruct Hr as (_ & ? & ? & ->). by simplify_eq.
  - by destruct Hr as (_ & ? & ? & _).
Qed.

Lemma exec_count_Ok n f a w w' :
  exec_count n f w = (Ok a, w') <->
  env_fault (w_tick w) = false /\ a = n (w_db w) /\
  w' = mkWorld (f (w_db w)) (S (w_tick w)).
Proof. unfold exec_count. solve_run. Qed.

Lemma transaction_Ok {A} (body : M (outcome A)) a w w' :
  transaction body w = (Ok a, w') <->
  env_fault (w_tick w) = false /\
  ((exists w1, body (step w) = (Ok (Commit a), w1) /\
      env_fault (w_tick w1) = false /\ w' = step w1) \/
   (exists w1, body (step w) = (Ok (Rollback a), w1) /\
      w' = mkWorld (w_db w) (w_tick w1))).
Proof.
  unfold transaction. destruct (env_fault (w_tick w)); [split; [done|by intros [? _]]|].
  destruct (body (step w)) as [[[b|b]|e] w1]; [destruct (env_fault (w_tick w1)) eqn:F|..];
    split; intros Hr; simplify_eq; eauto 10;
    destruct Hr as (_ & [(w2 & ? & ? & ->) | (w2 & ? & ->)]); simplify_eq; auto; congruence.
Qed.

(** A transaction that reports an error has changed nothing, wherever in its
    body the error arose, the COMMIT included. *)
Lemma transaction_atomic {A} (body : M (outcome A)) w e w' :
  transaction body w = (Err e, w') -> w_db w' = w_db w.
Proof.
  unfold transaction. destruct (env_fault _); [by intros [= _ <-]|].
  destruct (body _) as [[[b|b]|e'] w1]; [case_match; [by intros [= _ <-]|done]|done|].
  by intros [= _ <-].
Qed.
End Runs.
