(* ===== verification/Logic.v ===== *)
(** Reasoning about handlers: inversion of a successful run, forward execution
    when no statement fails, and preservation of an invariant of the database
    by every run, successful or not. *)

From S2P Require Import Prelude StateError GoText Timestamps Schema Effects.
From Stdlib Require Import Ascii String.
Open Scope Z_scope.

(** ** Inversion

    [run_inv] takes every hypothesis that says a computation succeeded apart
    into the facts its effects establish. *)

Ltac run_inv_step :=
  match goal with
  | H : mbind _ _ _ = (Ok _, _) |- _ =>
      let a := fresh "a" in let w1 := fresh "w" in let H1 := fresh "Hr" in
      apply bind_Ok in H as (a & w1 & H1 & H); cbn beta in H
  | H : ret _ _ = (Ok _, _) |- _ => apply ret_Ok in H as [? ->]
  | H : mret _ _ = (Ok _, _) |- _ => apply ret_Ok in H as [? ->]
  | H : fail _ _ = (Ok _, _) |- _ => by apply fail_Ok in H
  | H : fail_if _ _ _ = (Ok _, _) |- _ => apply fail_if_Ok in H as [? ->]
  | H : or_fail _ _ _ = (Ok _, _) |- _ => apply or_fail_Ok in H as [? ->]
  | H : now _ = (Ok _, _) |- _ => apply now_Ok in H as [-> ->]
  | H : nowString _ = (Ok _, _) |- _ => apply now_Ok in H as [-> ->]
  | H : newID _ = (Ok _, _) |- _ => apply newID_Ok in H as [-> ->]
  | H : rand_read _ _ = (Ok _, _) |- _ => apply rand_read_Ok in H as [? ->]
  | H : query _ _ = (Ok _, _) |- _ => apply query_Ok in H as (? & -> & ->)
  | H : query_row _ _ = (Ok _, _) |- _ => apply query_row_Ok in H as (? & ? & ->)
  | H : exec _ _ = (Ok _, _) |- _ => apply exec_Ok in H as (? & ->)
  | H : exec_checked _ _ = (Ok _, _) |- _ => apply exec_checked_Ok in H as (? & ? & ? & ->)
  | H : exec_count _ _ _ = (Ok _, _) |- _ => apply exec_count_Ok in H as (? & -> & ->)
  | H : map_err _ _ _ = (Ok _, _) |- _ => apply (proj1 (map_err_Ok _ _ _ _ _)) in H
  | H : ignore _ _ = (Ok _, _) |- _ => apply (proj1 (ignore_Ok _ _ _ _)) in H
  | H : attempt _ _ = (Ok _, _) |- _ => apply (proj1 (attempt_Ok _ _ _ _)) in H
  | H : (if ?b then _ else _) _ = (Ok _, _) |- _ => destruct b eqn:?
  | H : (match ?x with _ => _ end) _ = (Ok _, _) |- _ => destruct x eqn:?
  end.

Ltac run_inv := repeat (run_inv_step; cbn [w_db w_tick step] in *).

(** ** Forward execution *)

Class NoFaults `{Env} : Prop := no_fault : forall n, env_fault n = false.

Section Forward.
Context `{NoFaults}.

Lemma run_query {A B} (q : DB -> A) (k : A -> M B) w :
  (query q ≫= k) w = k (q (w_db w)) (step w).
Proof. apply bind_run. unfold query. by rewrite no_fault. Qed.

Lemma run_query_row {A B} (q : DB -> option A) (k : A -> M B) w a :
  q (w_db w) = Some a -> (query_row q ≫= k) w = k a (step w).
Proof. intros Hq. apply bind_run. unfold query_row. by rewrite no_fault, Hq. Qed.

Lemma run_query_row_none {A B} (q : DB -> option A) (k : A -> M B) w :
  q (w_db w) = None -> (query_row q ≫= k) w = (Err (ErrSql NoRows), step w).
Proof. intros Hq. apply bind_fail. unfold query_row. by rewrite no_fault, Hq. Qed.

Lemma run_exec {B} f (k : unit -> M B) w :
  (exec f ≫= k) w = k tt (mkWorld (f (w_db w)) (S (w_tick w))).
Proof. apply bind_run. unfold exec. by rewrite no_fault. Qed.

Lemma run_exec_checked {B} f (k : unit -> M B) w db' :
  f (w_db w) = Ok db' -> (exec_checked f ≫= k) w = k tt (mkWorld db' (S (w_tick w))).
Proof. intros Hf. apply bind_run. unfold exec_checked. by rewrite no_fault, Hf. Qed.

Lemma run_exec_count {B} n f (k : Z -> M B) w :
  (exec_count n f ≫= k) w = k (n (w_db w)) (mkWorld (f (w_db w)) (S (w_tick w))).
Proof. apply bind_run. unfold exec_count. by rewrite no_fault. Qed.

(** The same effects in tail position. *)
Lemma query_row_run {A} (q : DB -> option A) w a :
  q (w_db w) = Some a -> query_row q w = (Ok a, step w).
Proof. intros Hq. unfold query_row. by rewrite no_fault, Hq. Qed.
Lemma exec_run f w : exec f w = (Ok tt, mkWorld (f (w_db w)) (S (w_tick w))).
Proof. unfold exec. by rewrite no_fault. Qed.

Lemma run_now {B} (k : Stamp -> M B) w :
  (now ≫= k) w = k (env_now (w_tick w)) (step w).
Proof. done. Qed.

Lemma run_newID {B} (k : string -> M B) w :
  (newID ≫= k) w = k (env_id (w_tick w)) (step w).
Proof. done. Qed.

Lemma run_attempt_query_row {A B} (q : DB -> option A) (k : res GoErr A -> M B) w :
  (attempt (query_row q) ≫= k) w =
  k (match q (w_db w) with Some a => Ok a | None => Err (ErrSql NoRows) end) (step w).
Proof.
  unfold attempt, query_row, mbind, M_bind, bind. rewrite no_fault. by destruct (q _).
Qed.
End Forward.

Lemma run_fail_if_true {B} e (k : unit -> M B) w : (fail_if true e ≫= k) w = (Err e, w).
Proof. done. Qed.
Lemma run_fail_if_false {B} e (k : unit -> M B) w : (fail_if false e ≫= k) w = k tt w.
Proof. done. Qed.

(** A lookup whose every failure is reported as the same error. *)
Lemma run_query_row_or `{Env} {A B} e (q : DB -> option A) (k : A -> M B) w :
  (map_err (fun _ => e) (query_row q) ≫= k) w =
  match (if env_fault (w_tick w) then None else q (w_db w)) with
  | Some a => k a (step w)
  | None => (Err e, step w)
  end.
Proof.
  unfold mbind, M_bind, bind, map_err, query_row. destruct (env_fault _); [done|]. by destruct (q _).
Qed.

(** ** Invariants *)

Definition preserves (I : DB -> Prop) {A} (m : M A) : Prop :=
  forall w, I (w_db w) -> I (w_db (snd (m w))).

Section Preservation.
Context `{Env} (I : DB -> Prop).

Lemma preserves_ret {A} (a : A) : preserves I (ret a).
Proof. by intros w. Qed.
Lemma preserves_mret {A} (a : A) : preserves I (mret a).
Proof. by intros w. Qed.
Lemma preserves_fail {A} e : preserves I (fail (A := A) e).
Proof. by intros w. Qed.
Lemma preserves_fail_if b e : preserves I (fail_if b e).
Proof. destruct b; by intros w. Qed.
Lemma preserves_or_fail {A} e (o : option A) : preserves I (or_fail e o).
Proof. destruct o; by intros w. Qed.
Lemma preserves_now : preserves I now.
Proof. by intros w. Qed.
Lemma preserves_newID : preserves I newID.
Proof. by intros w. Qed.
Lemma preserves_rand_read n : preserves I (rand_read n).
Proof. intros w Hw. unfold rand_read. by case_match. Qed.

Lemma preserves_bind {A B} (m : M A) (k : A -> M B) :
  preserves I m -> (forall a, preserves I (k a)) -> preserves I (m ≫= k).
Proof.
  intros Hm Hk w Hw. specialize (Hm w Hw). unfold mbind, M_bind, bind.
  destruct (m w) as [[a|e] w1]; [by apply Hk|done].
Qed.

Lemma preserves_attempt {A} (m : M A) : preserves I m -> preserves I (attempt m).
Proof. intros Hm w Hw. specialize (Hm w Hw). unfold attempt. by destruct (m w). Qed.
Lemma preserves_ignore {A} (m : M A) : preserves I m -> preserves I (ignore m).
Proof. intros Hm w Hw. exact (Hm w Hw). Qed.
Lemma preserves_map_err {A} f (m : M A) : preserves I m -> preserves I (map_err f m).
Proof. intros Hm w Hw. specialize (Hm w Hw). unfold map_err. by destruct (m w) as [[] ?]. Qed.

Lemma preserves_for_each {A} (l : list A) body :
  (forall a, preserves I (body a)) -> preserves I (for_each l body).
Proof.
  intros Hb. induction l; simpl; [apply preserves_ret|].
  by apply preserves_bind.
Qed.

Lemma preserves_query {A} (q : DB -> A) : preserves I (query q).
Proof. intros w Hw. unfold query. by case_match. Qed.
Lemma preserves_query_row {A} (q : DB -> option A) : preserves I (query_row q).
Proof. intros w Hw. unfold query_row. by repeat case_match. Qed.
Lemma preserves_exec f : (forall db, I db -> I (f db)) -> preserves I (exec f).
Proof. intros Hf w Hw. unfold exec. case_match; [done|]. by apply Hf. Qed.
Lemma preserves_exec_checked f :
  (forall db db', I db -> f db = Ok db' -> I db') -> preserves I (exec_checked f).
Proof.
  intros Hf w Hw. unfold exec_checked. case_match; [done|].
  destruct (f _) eqn:E; [|done]. by eapply Hf.
Qed.
Lemma preserves_exec_count n f : (forall db, I db -> I (f db)) -> preserves I (exec_count n f).
Proof. intros Hf w Hw. unfold exec_count. case_match; [done|]. by apply Hf. Qed.

Lemma preserves_transaction {A} (body : M (outcome A)) :
  preserves I body -> preserves I (transaction body).
Proof.
  intros Hb w Hw. unfold transaction. case_match; [done|].
  specialize (Hb (step w) Hw). destruct (body (step w)) as [[[b|b]|e] w1]; [|done..].
  by case_match.
Qed.
End Preservation.

#[global] Create HintDb preserve.
#[export] Hint Resolve preserves_ret preserves_mret preserves_fail preserves_fail_if
  preserves_or_fail preserves_now preserves_newID preserves_rand_read
  preserves_query preserves_query_row : preserve.

(** [preserve] reduces [preserves I m] to the statements of [m] that write. *)
Ltac preserve_step :=
  match goal with
  | |- preserves _ (mbind _ _) => apply preserves_bind; [|intros ?]
  | |- preserves _ (attempt _) => apply preserves_attempt
  | |- preserves _ (ignore _) => apply preserves_ignore
  | |- preserves _ (map_err _ _) => apply preserves_map_err
  | |- preserves _ (transaction _) => apply preserves_transaction
  | |- preserves _ (for_each _ _) => apply preserves_for_each; intros ?
  | |- preserves _ (if ?b then _ else _) => destruct b
  | |- preserves _ (match ?x with _ => _ end) => destruct x
  | |- preserves _ (let _ := _ in _) => cbv zeta
  | |- preserves _ _ => solve [eauto 3 with preserve nocore]
  | |- preserves _ (exec _) => apply preserves_exec; intros ? ?
  | |- preserves _ (exec_count _ _) => apply preserves_exec_count; intros ? ?
  | |- preserves _ (exec_checked _) => apply preserves_exec_checked; intros ? ? ? ?
  end.
Ltac preserve := repeat preserve_step.

(** A computation that only reads. *)
Definition reads {A} (m : M A) : Prop := forall w, w_db (snd (m w)) = w_db w.

Lemma reads_preserves {A} (m : M A) : (forall d, preserves (eq d) m) -> reads m.
Proof. intros Hm w. symmetry. by apply (Hm (w_db w) w). Qed.

(** ** Inversion of a failing run *)

(** [keeps m]: a run of [m] that reports an error has changed nothing. *)
Definition keeps {A} (m : M A) : Prop :=
  forall w e w', m w = (Err e, w') -> w_db w' = w_db w.

Section Keeps.
Context `{Env}.

Lemma keeps_reads {A} (m : M A) : reads m -> keeps m.
Proof. intros Hm w e w' E. specialize (Hm w). by rewrite E in Hm. Qed.

Lemma keeps_transaction {A} (body : M (outcome A)) : keeps (transaction body).
Proof. intros w e w'. apply transaction_atomic. Qed.

(** Reads, then something that keeps. *)
Lemma keeps_after_reads {A B} (m : M A) (k : A -> M B) :
  reads m -> (forall a, keeps (k a)) -> keeps (m ≫= k).
Proof.
  intros Hm Hk w e w' [E|(a & w1 & E & E2)]%bind_Err; specialize (Hm w); rewrite E in Hm; [done|].
  simpl in Hm. rewrite <- Hm. by eapply Hk.
Qed.

(** Something that keeps, then something that cannot fail. *)
Lemma keeps_then_total {A B} (m : M A) (k : A -> M B) :
  keeps m -> (forall a w e w', k a w <> (Err e, w')) -> keeps (m ≫= k).
Proof.
  intros Hm Hk w e w' [E|(a & w1 & E & E2)]%bind_Err; [by eapply Hm|]. by apply Hk in E2.
Qed.

Lemma total_ret {A} (a : A) w e w' : (ret a : M A) w <> (Err e, w').
Proof. done. Qed.
Lemma total_ignore_ret {A B} (m : M A) (b : B) w e w' : (ignore m;; ret b) w <> (Err e, w').
Proof. done. Qed.
Lemma total_ignore {A} (m : M A) w e w' : ignore m w <> (Err e, w').
Proof. done. Qed.
End Keeps.
