(* ===== verification/Validation.v ===== *)
(** Request validation and the small pure helpers of
    [server/internal/service/service.go]: mapping and DNS validation, domain
    normalisation, paging, and the shapes of texts that reach the database. *)

From S2P Require Import Prelude StateError GoText GoNet Timestamps Schema Effects.
From Stdlib Require Import Ascii String.
Open Scope Z_scope.

(** ** Requests *)

Record MappingRequest := mkMappingRequest {
  mq_name : string;
  mq_proxy_type : string;
  mq_local_ip : string;
  mq_local_port : Z;
  mq_remote_port : option Z;
  mq_expected_config : option Z;
  mq_expected_revision : option Z
}.

Record DomainRequest := mkDomainRequest {
  dq_mapping_id : string;
  dq_hostname : string;
  dq_https_mode : string;
  dq_redirect : bool;
  dq_dns_type : string;
  dq_dns_content : string;
  dq_dns_ttl : Z;
  dq_expected_config : option Z
}.

Definition proxy_type_of (s : string) : option ProxyType :=
  if String.eqb s "tcp" then Some Tcp
  else if String.eqb s "udp" then Some Udp
  else if String.eqb s "http" then Some Http else None.

Definition proxy_type_text (p : ProxyType) : string :=
  match p with Tcp => "tcp" | Udp => "udp" | Http => "http" end.

Definition https_mode_of (s : string) : option HttpsMode :=
  if String.eqb s "auto_certificate" then Some AutoCertificate
  else if String.eqb s "cloudflare_proxy" then Some CloudflareProxy
  else if String.eqb s "http_only" then Some HttpOnly else None.

(** ** Patterns *)

Definition name_char (c : ascii) : bool :=
  is_alnum c || existsb (Ascii.eqb c) ["."; "_"; "-"]%char.

(** [^F[A-Za-z0-9._-]{lo,hi}$] with a first character from [F]. *)
Definition matches_name (first : ascii -> bool) (lo hi : nat) (s : string) : bool :=
  match s with
  | EmptyString => false
  | String c rest =>
      first c && forallb_str name_char rest &&
      Nat.leb lo (String.length rest) && Nat.leb (String.length rest) hi
  end.

Definition validUsername (value : string) : bool := matches_name is_letter 2 39 value.

(** ** Validation *)

Section Validation.
Context `{UnicodeTables} `{Idna}.

Definition validateMapping (req : MappingRequest) : option GoErr :=
  if negb (matches_name is_alnum 0 79 (TrimSpace (mq_name req)))
  then Some (ErrMsg "invalid mapping name")
  else if negb (existsb (String.eqb (mq_proxy_type req)) ["tcp"; "udp"; "http"]%string)
  then Some (ErrMsg "unsupported proxy type")
  else if (ParseIP (mq_local_ip req) == None) && negb (matches_name is_alnum 0 252 (mq_local_ip req))
  then Some (ErrMsg "invalid local_ip")
  else if (mq_local_port req <? 1) || (65535 <? mq_local_port req)
  then Some (ErrMsg "invalid local_port")
  else if match mq_remote_port req with
          | Some p => (p <? 0) || (65535 <? p)
          | None => false
          end
  then Some (ErrMsg "invalid remote_port")
  else None.

Definition valid_label (label : string) : bool :=
  Nat.leb 1 (String.length label) && Nat.leb (String.length label) 63 &&
  negb (HasPrefix label "-") && negb (HasSuffix label "-").

Definition normalizeDomain (raw : string) : res GoErr string :=
  let raw := TrimSuffix (ToLower (TrimSpace raw)) "." in
  if String.eqb raw "" || Nat.ltb 253 (String.length raw) || ContainsAny raw ["/"; "*"; "\"]%char
  then Err (ErrMsg "invalid domain")
  else match idna_ToASCII raw with
       | None => Err (ErrMsg "invalid IDNA domain")
       | Some ascii =>
           let labels := SplitByte ascii "." in
           if Nat.ltb (List.length labels) 2
           then Err (ErrMsg "domain must contain a registrable suffix")
           else if forallb valid_label labels then Ok ascii
           else Err (ErrMsg "invalid DNS label")
       end.

Definition dns_type_of (s : string) : option DnsType :=
  if String.eqb s "A" then Some DnsA
  else if String.eqb s "AAAA" then Some DnsAAAA
  else if String.eqb s "CNAME" then Some DnsCNAME else None.

Definition normalizeDNSIntent (defaultContent : string) (req : DomainRequest)
    : res GoErr (DnsType * string * Z * bool) :=
  let recordType := ToUpper (TrimSpace (dq_dns_type req)) in
  let recordType := if String.eqb recordType "" then "CNAME"%string else recordType in
  match dns_type_of recordType with
  | None => Err (ErrMsg "invalid DNS record type")
  | Some ty =>
      let ttl := if dq_dns_ttl req =? 0 then 300 else dq_dns_ttl req in
      if (ttl <? 60) || (86400 <? ttl)
      then Err (ErrMsg "DNS TTL must be between 60 and 86400 seconds")
      else
        let content := TrimSpace (dq_dns_content req) in
        let proxied := String.eqb (dq_https_mode req) "cloudflare_proxy" in
        match ty with
        | DnsA =>
            match (ip ← ParseIP content; To4 ip) with
            | None => Err (ErrMsg "DNS A content must be an IPv4 address")
            | Some v4 => Ok (ty, IPString (v4_prefix ++ v4)%list, ttl, proxied)
            end
        | DnsAAAA =>
            match ParseIP content with
            | None => Err (ErrMsg "DNS AAAA content must be an IPv6 address")
            | Some ip =>
                if To4 ip == None then Ok (ty, IPString ip, ttl, proxied)
                else Err (ErrMsg "DNS AAAA content must be an IPv6 address")
            end
        | DnsCNAME =>
            let content := if String.eqb content "" then defaultContent else content in
            let content := if String.eqb content "" then "frp.example.com"%string else content in
            match normalizeDomain content with
            | Err _ => Err (ErrMsg "invalid DNS CNAME content")
            | Ok content => Ok (ty, content, ttl, proxied)
            end
        end
  end.
End Validation.

(** ** Helpers *)

Definition boolInt (value : bool) : Z := if value then 1 else 0.

Definition normalizePage (page pageSize : Z) : Z * Z :=
  let page := if page <? 1 then 1 else page in
  let pageSize := if pageSize <? 1 then 50 else pageSize in
  let pageSize := if 200 <? pageSize then 200 else pageSize in
  (page, pageSize).

Definition shortID (value : string) : string :=
  let value := ReplaceByte value "-" "" in
  if Nat.ltb 12 (String.length value) then take_str 12 value else value.

Definition safeError (value : string) : string :=
  let value := TrimSpace value in
  let value := ReplaceByte value (ascii_of_nat 13) " " in
  let value := ReplaceByte value (ascii_of_nat 10) " " in
  if Nat.ltb 240 (String.length value) then take_str 240 value else value.

Definition nullableString (value : string) : option string :=
  if String.eqb value "" then None else Some value.

Definition allowedAuditField (value : string) : bool :=
  existsb (String.eqb value)
    ["proxy_type"; "revision"; "enabled"; "status"; "username"; "config_version"; "error_code";
     "force"; "domain_count"; "mapping_count"; "residue_count"; "provider"]%string.
