(* ===== verification/Sample.v ===== *)
(** A concrete environment and a small database, at which the theorems about
    handlers are instantiated.  Effect [n] reads the clock at [n] seconds after
    a base, returns the identifier [id-n] and [n]-valued random bytes; no
    statement fails; SHA-256 is the identity, Argon2 a padding of password and
    salt, AES-GCM a tagging with the associated data. *)

From S2P Require Import Prelude StateError GoText GoNet Timestamps Encoding Password Schema Effects Logic.
From Stdlib Require Import Ascii String.
Open Scope Z_scope.

Fixpoint repeat_char (c : ascii) (n : nat) : string :=
  match n with O => EmptyString | S n' => String c (repeat_char c n') end.

(** Pads or cuts a text to [n] bytes. *)
Fixpoint fit (n : nat) (s : string) : string :=
  match n, s with
  | O, _ => EmptyString
  | S n', EmptyString => String "." (fit n' EmptyString)
  | S n', String c s' => String c (fit n' s')
  end.

Lemma fit_length n s : String.length (fit n s) = n.
Proof. revert s. induction n; intros []; simpl; auto. Qed.

Definition sample_argon2 (password salt : string) (_ _ _ len : Z) : string :=
  fit (Z.to_nat len) (password ++ salt).

Definition opt_port_text (o : option Z) : string :=
  match o with Some p => itoa p | None => "-" end.

Definition sample_hash_body (b : HashBody) : string :=
  match b with
  | HbMapping n t ip lp rp ec er =>
      join "|" [n; t; ip; itoa lp; opt_port_text rp; opt_port_text ec; opt_port_text er]%string
  | HbForce f => if f then "force" else "soft"
  | HbToggle e ec er =>
      join "|" [if e then "on" else "off"; opt_port_text ec; opt_port_text er]%string
  | HbDomain m h mode r ty c ttl ec =>
      join "|" [m; h; mode; if r then "r" else "-"; ty; c; itoa ttl; opt_port_text ec]%string
  | HbAction a => a
  | HbEmpty => ""
  | HbReset t p => join "|" [t; p]
  end%string.

Definition sample_config : Config :=
  {| cfg_AdminPassword := ""; cfg_DataDir := "/data"; cfg_SessionTTLHours := 12;
     cfg_PortStart := 6000; cfg_PortEnd := 6003; cfg_FRPSBindPort := 7000;
     cfg_FRPSPublicHost := "frp.example.com"; cfg_FRPSPublicPort := 7000;
     cfg_FRPSTransportSecret := "transport"; cfg_RouterControlHosts := ["panel.example.com"%string];
     cfg_RouterControlTarget := "http://127.0.0.1:8080";
     cfg_RouterBusinessTarget := "http://127.0.0.1:8081"; cfg_RouterSnapshotDir := "/router";
     cfg_ACMEEnabled := false |}.

Definition sample_unicode : UnicodeTables :=
  {| unicode_lower := fun s => s; unicode_upper := fun s => s; unicode_fold_eq := String.eqb |}.
Definition sample_idna : Idna := {| idna_ToASCII := Some |}.

#[export] Instance sample_env : Env | 1000 :=
  {| env_unicode := sample_unicode; env_idna := sample_idna;
      env_now := fun n => 1700000000 * second + Z.of_nat n * second;
     env_id := fun n => ("id-" ++ itoa (Z.of_nat n))%string;
     env_random := fun n k => Some (repeat_char (ascii_of_nat n) k);
     env_fault := fun _ => false;
     env_config := sample_config;
     env_jobs := Some {| st_owner := "server-worker"; st_lease := 30 * second; st_retry_base := second |};
     env_audit := mkauditRequestMetadata "" "" "request";
     env_sha256 := fun s => s;
     env_hash_body := sample_hash_body;
     env_argon2 := sample_argon2;
     env_gcm_seal := fun _ _ plaintext aad => (aad ++ plaintext)%string;
     env_gcm_open := fun _ _ ciphertext aad =>
       if HasPrefix ciphertext aad then Some (TrimPrefix ciphertext aad) else None;
     env_master_key := "0123456789abcdef0123456789abcdef";
     env_sql_text := fun e => match e with UniqueViolation => "UNIQUE constraint failed" | _ => "sql error" end;
     env_certificate_key := "fedcba9876543210fedcba9876543210";
     env_router_key := "00112233445566778899aabbccddeeff" |}.

#[export] Instance sample_no_faults : NoFaults | 1000.
Proof. intros n. reflexivity. Qed.

Definition empty_db : DB :=
  {| users := ∅; sessions := ∅; frp_credentials := ∅; runtime_credentials := ∅;
     runtime_state := ∅; idempotency := ∅; mappings := ∅; revisions := ∅; leases := ∅;
     domains := ∅; dns_records := ∅; cf_credentials := ∅; operations := ∅; jobs := ∅;
     config_snapshots := ∅; audit_logs := ∅; certificates := ∅; router_snapshots := ∅;
     residues := ∅; reauth_tickets := ∅;
     router_state := {| rst_config_version := 0; rst_applied_version := 0; rst_last_good := None;
       rst_last_good_path := None; rst_last_good_hash := None; rst_last_error := None;
       rst_updated := 0 |} |}.

Definition sample_password : string := "correct horse battery".

Definition sample_user (name : string) (role : Role) : User :=
  {| u_username := name;
     u_password_hash := default "" (HashPassword sample_argon2 sample_password (Some "salt"%string));
     u_role := role; u_status := UActive; u_must_change_password := false;
     u_must_change_username := false; u_auth_version := 1; u_generation := 0;
     u_desired_config := 0; u_applied_config := 0; u_last_failed_config := None;
     u_active_cf_version := None; u_max_mappings := 50; u_max_domains := 50;
     u_max_pending_mappings := 10; u_max_pending_port_leases := 10;
     u_max_pending_domain_operations := 10; u_max_certificate_jobs := 5;
     u_created := 0; u_updated := 0 |}.

(** One administrator [root] and one user [alice] with an FRP credential. *)
Definition sample_db : DB :=
  empty_db <| users := <["u-root" := sample_user "root" RAdmin]>
                         (<["u-alice" := sample_user "alice" RUser]> ∅) |>
    <| frp_credentials := <["f-alice" := {| fc_user_id := "u-alice"; fc_frp_username := "user-alice";
         fc_secret_hash := hex_encode "secret"; fc_ciphertext := "user:u-alice:frp_secret:v1secret";
         fc_nonce := "123456789012"; fc_secret_version := 1; fc_created := 0;
         fc_rotated := None |}]> ∅ |>.

Definition sample_world (db : DB) : World := mkWorld db 0.

(** A test on the result of a run and the world it ends in. *)
Definition result_is {A} (P : A -> World -> bool) (x : res GoErr A * World) : bool :=
  match fst x with Ok a => P a (snd x) | Err _ => false end.

(** [sample_run m r w E P] runs the closed computation [m], which must succeed
    with a result that satisfies [P], and names its result, its final world, the
    equation and the fact about the result. *)
Ltac sample_run m r w E P HP :=
  assert (result_is P m = true) as HP by (vm_compute; reflexivity);
  destruct m as [[r|?] w] eqn:E; [|discriminate HP]; unfold result_is in HP; cbn [fst snd] in HP.

Lemma sample_rand_full n k b : env_random n k = Some b -> String.length b = k.
Proof.
  intros [= <-]. induction k; simpl; [done|]. by f_equal.
Qed.
