(* ===== verification/Store.v ===== *)
(** The statements that constraints can reject, and what every handler shares:
    the caller's [AuthContext], the audit log and the idempotency records.

    An INSERT is checked the way SQLite checks it: CHECK constraints, then
    UNIQUE and PRIMARY KEY, then foreign keys; a rejected row leaves the
    database as it was.  A DELETE carries the foreign-key actions of the schema
    (CASCADE and SET NULL). *)

From S2P Require Import Prelude StateError GoText Timestamps Schema Effects Logic Validation.
From Stdlib Require Import Ascii String.
Open Scope Z_scope.

(** ** Constraints *)

Definition reject {A} (bad : bool) (e : SqlError) (k : res SqlError A) : res SqlError A :=
  if bad then Err e else k.

Lemma reject_Ok {A} bad e (k : res SqlError A) a :
  reject bad e k = Ok a <-> bad = false /\ k = Ok a.
Proof. unfold reject. destruct bad; split; [done|by intros [? _]|done|by intros [_ ?]]. Qed.

Definition taken {V} (t : Table V) (k : string) : bool := t !! k != None.
Definition absent {V} (t : Table V) (k : string) : bool := t !! k == None.
Definition duplicate {V} (P : V -> bool) (t : Table V) : bool := exists_where (fun _ => P) t.

Lemma taken_false {V} (t : Table V) k : taken t k = false <-> t !! k = None.
Proof. unfold taken. by rewrite negb_false_iff, bool_decide_eq_true. Qed.
Lemma absent_false {V} (t : Table V) k : absent t k = false <-> is_Some (t !! k).
Proof.
  unfold absent. rewrite bool_decide_eq_false. apply not_eq_None_Some.
Qed.
Lemma duplicate_false {V} P (t : Table V) :
  duplicate P t = false <-> forall k r, t !! k = Some r -> P r = false.
Proof. apply exists_where_false. Qed.

(** ** INSERT *)

Definition insert_user (id : string) (r : User) (db : DB) : res SqlError DB :=
  reject (taken (users db) id) UniqueViolation $
  reject (duplicate (fun x => u_username x == u_username r) (users db)) UniqueViolation $
  Ok (db <| users ::= <[id := r]> |>).

Definition insert_frp_credential (id : string) (r : FrpCredential) (db : DB) : res SqlError DB :=
  reject (taken (frp_credentials db) id) UniqueViolation $
  reject (duplicate (fun x => fc_user_id x == fc_user_id r) (frp_credentials db)) UniqueViolation $
  reject (duplicate (fun x => fc_frp_username x == fc_frp_username r) (frp_credentials db))
    UniqueViolation $
  reject (absent (users db) (fc_user_id r)) ForeignKeyViolation $
  Ok (db <| frp_credentials ::= <[id := r]> |>).

(** The rows the index [one_active_client_session_per_user] covers. *)
Definition live_client (s : Session) : bool :=
  (s_channel s == ClientPanel) && (s_revoked s == None).

Definition insert_session (id : string) (r : Session) (db : DB) : res SqlError DB :=
  reject (taken (sessions db) id) UniqueViolation $
  reject (duplicate (fun x => s_hash x == s_hash r) (sessions db)) UniqueViolation $
  reject (live_client r &&
          duplicate (fun x => live_client x && (s_user_id x == s_user_id r)) (sessions db))
    UniqueViolation $
  reject (absent (users db) (s_user_id r)) ForeignKeyViolation $
  Ok (db <| sessions ::= <[id := r]> |>).

Definition insert_runtime_credential (id : string) (r : RuntimeCredential) (db : DB)
    : res SqlError DB :=
  reject (taken (runtime_credentials db) id) UniqueViolation $
  reject (duplicate (fun x => rc_session_id x == rc_session_id r) (runtime_credentials db))
    UniqueViolation $
  reject (duplicate (fun x => rc_token_hash x == rc_token_hash r) (runtime_credentials db))
    UniqueViolation $
  reject (absent (users db) (rc_user_id r)) ForeignKeyViolation $
  reject (absent (sessions db) (rc_session_id r)) ForeignKeyViolation $
  Ok (db <| runtime_credentials ::= <[id := r]> |>).

(** [INSERT ... ON CONFLICT(user_id) DO UPDATE SET ...] of a login. *)
Definition upsert_runtime_state (uid session : string) (t : Stamp) (db : DB) : res SqlError DB :=
  match runtime_state db !! uid with
  | Some r =>
      Ok (db <| runtime_state ::= <[uid := r <| rs_active_session := Some session |>
                                             <| rs_observed := "offline"%string |>
                                             <| rs_updated := t |>]> |>)
  | None =>
      reject (absent (users db) uid) ForeignKeyViolation $
      Ok (db <| runtime_state ::=
        <[uid := {| rs_active_session := Some session; rs_observed := "offline";
                    rs_panel_version := None; rs_frpc_version := None; rs_last_heartbeat := None;
                    rs_last_applied := 0; rs_last_error_code := None;
                    rs_last_error_message := None; rs_updated := t |}]> |>)
  end.

Definition insert_reauth_ticket (id : string) (r : ReauthTicket) (db : DB) : res SqlError DB :=
  reject (taken (reauth_tickets db) id) UniqueViolation $
  reject (duplicate (fun x => t_token_hash x == t_token_hash r) (reauth_tickets db))
    UniqueViolation $
  reject (absent (users db) (t_user_id r)) ForeignKeyViolation $
  Ok (db <| reauth_tickets ::= <[id := r]> |>).

Definition insert_audit_log (id : string) (r : AuditLog) (db : DB) : res SqlError DB :=
  reject (taken (audit_logs db) id) UniqueViolation $
  Ok (db <| audit_logs ::= <[id := r]> |>).

Definition insert_idempotency (id : string) (r : Idempotency) (db : DB) : res SqlError DB :=
  reject (taken (idempotency db) id) UniqueViolation $
  reject (duplicate (fun x =>
    (i_user_id x == i_user_id r) && (i_generation x =? i_generation r) &&
    (i_method x == i_method r) && (i_path x == i_path r) && (i_key x == i_key r))
    (idempotency db)) UniqueViolation $
  reject (absent (users db) (i_user_id r)) ForeignKeyViolation $
  Ok (db <| idempotency ::= <[id := r]> |>).

Definition insert_mapping (id : string) (r : Mapping) (db : DB) : res SqlError DB :=
  reject (taken (mappings db) id) UniqueViolation $
  reject (absent (users db) (m_user_id r)) ForeignKeyViolation $
  Ok (db <| mappings ::= <[id := r]> |>).

Definition port_ok (p : Z) : bool := (1 <=? p) && (p <=? 65535).

Definition insert_revision (id : string) (r : Revision) (db : DB) : res SqlError DB :=
  reject (negb (port_ok (r_local_port r))) CheckViolation $
  reject (match r_remote_port r with Some p => negb (port_ok p) | None => false end)
    CheckViolation $
  reject (taken (revisions db) id) UniqueViolation $
  reject (duplicate (fun x => (r_mapping_id x == r_mapping_id r) && (r_revision x =? r_revision r))
    (revisions db)) UniqueViolation $
  reject (absent (mappings db) (r_mapping_id r)) ForeignKeyViolation $
  Ok (db <| revisions ::= <[id := r]> |>).

(** [server_id] is 'default' in every statement: [UNIQUE(server_id, remote_port)]
    is uniqueness of the port. *)
Definition insert_lease (id : string) (r : Lease) (db : DB) : res SqlError DB :=
  reject (negb (port_ok (l_port r))) CheckViolation $
  reject (taken (leases db) id) UniqueViolation $
  reject (duplicate (fun x => l_port x =? l_port r) (leases db)) UniqueViolation $
  reject (absent (mappings db) (l_mapping_id r)) ForeignKeyViolation $
  reject (absent (revisions db) (l_rev_id r)) ForeignKeyViolation $
  Ok (db <| leases ::= <[id := r]> |>).

(** The trigger [domain_bindings_http_only_redirect_insert] and the CHECK say
    the same. *)
Definition insert_domain (id : string) (r : Domain) (db : DB) : res SqlError DB :=
  reject ((d_https_mode r == HttpOnly) && d_redirect r) CheckViolation $
  reject (taken (domains db) id) UniqueViolation $
  reject (duplicate (fun x => d_normalized x == d_normalized r) (domains db)) UniqueViolation $
  reject (absent (users db) (d_user_id r)) ForeignKeyViolation $
  reject (absent (mappings db) (d_mapping_id r)) ForeignKeyViolation $
  Ok (db <| domains ::= <[id := r]> |>).

Definition insert_dns_record (id : string) (r : DnsRecord) (db : DB) : res SqlError DB :=
  reject (taken (dns_records db) id) UniqueViolation $
  reject (absent (users db) (n_user_id r)) ForeignKeyViolation $
  reject (match n_domain_id r with Some d => absent (domains db) d | None => false end)
    ForeignKeyViolation $
  Ok (db <| dns_records ::= <[id := r]> |>).

Definition insert_operation (id : string) (r : Operation) (db : DB) : res SqlError DB :=
  reject (taken (operations db) id) UniqueViolation $
  reject (match o_user_id r with Some u => absent (users db) u | None => false end)
    ForeignKeyViolation $
  Ok (db <| operations ::= <[id := r]> |>).

Definition insert_cf_credential (id : string) (r : CfCredential) (db : DB) : res SqlError DB :=
  reject (taken (cf_credentials db) id) UniqueViolation $
  reject (duplicate (fun x => (cc_user_id x == cc_user_id r) && (cc_version x =? cc_version r))
    (cf_credentials db)) UniqueViolation $
  reject (absent (users db) (cc_user_id r)) ForeignKeyViolation $
  Ok (db <| cf_credentials ::= <[id := r]> |>).

(** [INSERT OR REPLACE]: the rows that conflict are deleted first. *)
Definition replace_config_snapshot (id : string) (r : ConfigSnapshotRow) (db : DB)
    : res SqlError DB :=
  reject (absent (users db) (cs_user_id r)) ForeignKeyViolation $
  Ok (db <| config_snapshots ::= fun t =>
    <[id := r]> (delete_where (fun _ x =>
      (cs_user_id x == cs_user_id r) && (cs_version x =? cs_version r)) t) |>).

Definition insert_residue (id : string) (r : Residue) (db : DB) : res SqlError DB :=
  reject (taken (residues db) id) UniqueViolation $
  reject (match x_user_id r with Some u => absent (users db) u | None => false end)
    ForeignKeyViolation $
  Ok (db <| residues ::= <[id := r]> |>).

(** [INSERT OR IGNORE]: IGNORE covers uniqueness, not foreign keys. *)
Definition insert_certificate_or_ignore (id : string) (r : Certificate) (db : DB)
    : res SqlError DB :=
  if taken (certificates db) id ||
     duplicate (fun x => (c_domain_id x == c_domain_id r) && (c_provider x == c_provider r))
       (certificates db)
  then Ok db
  else reject (absent (domains db) (c_domain_id r)) ForeignKeyViolation $
       Ok (db <| certificates ::= <[id := r]> |>).

(** ** DELETE with the foreign-key actions *)

(** The key of a row that satisfies [P]. *)
Definition gone {V} (P : string -> V -> bool) (t : Table V) (k : string) : bool :=
  match t !! k with Some r => P k r | None => false end.

(** The domains that satisfy [P] go, with their certificates; their DNS rows
    stay without a domain. *)
Definition delete_domains (P : string -> Domain -> bool) (db : DB) : DB :=
  let gone := gone P (domains db) in
  db <| domains ::= delete_where P |>
     <| certificates ::= delete_where (fun _ c => gone (c_domain_id c)) |>
     <| dns_records ::= update_where
          (fun _ n => match n_domain_id n with Some d => gone d | None => false end)
          (fun n => n <| n_domain_id := None |>) |>.

(** The mappings that satisfy [P] go, with revisions, leases and domains. *)
Definition delete_mappings (P : string -> Mapping -> bool) (db : DB) : DB :=
  let gone := gone P (mappings db) in
  let gone_rev r := match revisions db !! r with Some x => gone (r_mapping_id x) | None => false end in
  let db := delete_domains (fun _ d => gone (d_mapping_id d)) db in
  db <| mappings ::= delete_where P |>
     <| revisions ::= delete_where (fun _ r => gone (r_mapping_id r)) |>
     <| leases ::= delete_where (fun _ l => gone (l_mapping_id l) || gone_rev (l_rev_id l)) |>.

(** The users that satisfy [P] go, with everything that references them; an
    external residue stays without its user. *)
Definition delete_users (P : string -> User -> bool) (db : DB) : DB :=
  let gone := gone P (users db) in
  let db := delete_mappings (fun _ m => gone (m_user_id m)) db in
  let db := delete_domains (fun _ d => gone (d_user_id d)) db in
  db <| users ::= delete_where P |>
     <| sessions ::= delete_where (fun _ s => gone (s_user_id s)) |>
     <| frp_credentials ::= delete_where (fun _ c => gone (fc_user_id c)) |>
     <| runtime_credentials ::= delete_where (fun _ c => gone (rc_user_id c)) |>
     <| runtime_state ::= delete_where (fun u _ => gone u) |>
     <| idempotency ::= delete_where (fun _ i => gone (i_user_id i)) |>
     <| dns_records ::= delete_where (fun _ n => gone (n_user_id n)) |>
     <| cf_credentials ::= delete_where (fun _ c => gone (cc_user_id c)) |>
     <| operations ::= delete_where
          (fun _ o => match o_user_id o with Some u => gone u | None => false end) |>
     <| config_snapshots ::= delete_where (fun _ c => gone (cs_user_id c)) |>
     <| reauth_tickets ::= delete_where (fun _ t => gone (t_user_id t)) |>
     <| residues ::= update_where
          (fun _ x => match x_user_id x with Some u => gone u | None => false end)
          (fun x => x <| x_user_id := None |>) |>.

Section Deletions.
Context (P : string -> Mapping -> bool) (db : DB).
Let gone_mapping := gone P (mappings db).

Lemma mappings_delete_mappings : mappings (delete_mappings P db) = delete_where P (mappings db).
Proof. reflexivity. Qed.
Lemma revisions_delete_mappings : revisions (delete_mappings P db) =
  delete_where (fun _ r => gone_mapping (r_mapping_id r)) (revisions db).
Proof. reflexivity. Qed.
Lemma leases_delete_mappings : leases (delete_mappings P db) =
  delete_where (fun _ l => gone_mapping (l_mapping_id l) ||
    match revisions db !! l_rev_id l with Some x => gone_mapping (r_mapping_id x) | None => false end)
    (leases db).
Proof. reflexivity. Qed.
Lemma domains_delete_mappings : domains (delete_mappings P db) =
  delete_where (fun _ d => gone_mapping (d_mapping_id d)) (domains db).
Proof. reflexivity. Qed.
End Deletions.

(** ** The caller *)

(** [service.AuthContext]. *)
Record AuthContext := mkAuthContext {
  ac_SessionID : string;
  ac_UserID : string;
  ac_Username : string;
  ac_Role : Role;
  ac_Status : UserStatus;
  ac_Generation : Z;
  ac_Channel : Channel;
  ac_MustChange : bool;
  ac_MustChangeUsername : bool;
  ac_ExpiresAt : Stamp;
  ac_CSRFTokenHash : string;
  ac_SourceIP : string;
  ac_UserAgent : string;
  ac_RequestID : string
}.

Definition role_text (r : Role) : string :=
  match r with RAdmin => "admin" | RUser => "user" end.

(** The first value that is not the empty string. *)
Definition prefer (a b : string) : string := if String.eqb a "" then b else a.

Section Store.
Context `{Env}.

(** ** Audit *)

(** [Audit] for a caller whose role reads [actor]. *)
Definition audit_as (actor : string) (ac : AuthContext)
    (action resourceType resourceID result : string)
    (metadata : list (string * PVal)) (operationID : string) : M unit :=
  let metadata := base.filter (fun kv => allowedAuditField kv.1 = true) metadata in
  let sourceIP := prefer (am_SourceIP env_audit) (ac_SourceIP ac) in
  let userAgent := prefer (am_UserAgent env_audit) (ac_UserAgent ac) in
  let requestID := prefer (am_RequestID env_audit) (ac_RequestID ac) in
  requestID ← (if String.eqb requestID "" then newID else ret requestID);
  auditID ← newID;
  t ← nowString;
  exec_checked (insert_audit_log auditID
    {| a_actor_type := actor; a_actor_id := ac_UserID ac;
       a_session_id := ac_SessionID ac; a_generation := ac_Generation ac;
       a_source_ip := sourceIP; a_user_agent := safeError userAgent;
       a_request_id := requestID; a_operation := nullableString operationID;
       a_action := action; a_resource_type := nullableString resourceType;
       a_resource_id := nullableString resourceID; a_result := result;
       a_metadata := metadata; a_created := t |}).

Definition Audit (ac : AuthContext) (action resourceType resourceID result : string)
    (metadata : list (string * PVal)) (operationID : string) : M unit :=
  audit_as (role_text (ac_Role ac)) ac action resourceType resourceID result metadata operationID.

(** [AuthContext{UserID: userID, Role: "system"}]: the fields [Audit] reads. *)
Definition system_context (uid : string) : AuthContext :=
  {| ac_SessionID := ""; ac_UserID := uid; ac_Username := ""; ac_Role := RUser;
     ac_Status := UActive; ac_Generation := 0; ac_Channel := ClientPanel;
     ac_MustChange := false; ac_MustChangeUsername := false; ac_ExpiresAt := 0;
     ac_CSRFTokenHash := ""; ac_SourceIP := ""; ac_UserAgent := ""; ac_RequestID := "" |}.

Definition audit_system (uid action resourceType resourceID result : string)
    (metadata : list (string * PVal)) (operationID : string) : M unit :=
  audit_as "system" (system_context uid) action resourceType resourceID result metadata operationID.

(** ** Idempotency records *)

Definition idem_matches (uid : string) (generation : Z) (method path key : string)
    (_ : string) (r : Idempotency) : bool :=
  (i_user_id r == uid) && (i_generation r =? generation) && (i_method r == method) &&
  (i_path r == path) && (i_key r == key).

(** [SELECT ... FROM idempotency_records WHERE user_id=? AND ...] *)
Definition find_idempotency (ac : AuthContext) (method path key : string) (db : DB)
    : option Idempotency :=
  snd <$> head (select (idem_matches (ac_UserID ac) (ac_Generation ac) method path key)
                  (idempotency db)).

Definition record_idempotency (ac : AuthContext) (method path key bodyHash : string)
    (status : Z) (response : Response) (operation : option string) (created : Stamp) : M unit :=
  recordID ← newID;
  t ← now;
  exec_checked (insert_idempotency recordID
    {| i_user_id := ac_UserID ac; i_generation := ac_Generation ac; i_method := method;
       i_path := path; i_key := key; i_body_hash := bodyHash; i_status := status;
       i_response := response; i_operation := operation; i_expires := t + 24 * hour;
       i_created := created |}).

(** ** Operations *)

(** A row of [operations] as the handlers insert it. *)
Definition new_operation (uid : option string) (rtype rid optype phase stp : string)
    (key : option string) (t : Stamp) : Operation :=
  {| o_user_id := uid; o_resource_type := rtype; o_resource_id := rid; o_op_type := optype;
     o_status := OpPending; o_phase := phase; o_step := stp; o_key := key;
     o_compensation := "not_required"; o_error_code := None; o_error_message := None;
     o_created := t; o_updated := t; o_completed := None |}.

Definition bump_desired (uid : string) (t : Stamp) (db : DB) : DB :=
  db <| users ::= update_where (fun k _ => k == uid) (fun u =>
    u <| u_desired_config ::= Z.succ |> <| u_updated := t |>) |>.

(** A key the caller left empty is replaced by a fresh one. *)
Definition key_or_new (key : string) : M string :=
  if String.eqb key "" then newID else ret key.
End Store.

(** ** Accepted statements *)

Lemma insert_mapping_Ok id r db db' :
  insert_mapping id r db = Ok db' ->
  mappings db !! id = None /\ is_Some (users db !! m_user_id r) /\
  db' = db <| mappings ::= <[id := r]> |>.
Proof.
  unfold insert_mapping. rewrite !reject_Ok, taken_false, absent_false. by intros (? & ? & [= <-]).
Qed.

Lemma insert_revision_Ok id r db db' :
  insert_revision id r db = Ok db' ->
  port_ok (r_local_port r) = true /\
  match r_remote_port r with Some p => port_ok p = true | None => True end /\
  revisions db !! id = None /\
  (forall k x, revisions db !! k = Some x -> r_mapping_id x = r_mapping_id r ->
     r_revision x <> r_revision r) /\
  is_Some (mappings db !! r_mapping_id r) /\ db' = db <| revisions ::= <[id := r]> |>.
Proof.
  unfold insert_revision. rewrite !reject_Ok, taken_false, duplicate_false, absent_false, negb_false_iff.
  intros (? & Hp & ? & Hd & ? & [= <-]). split_and!; try done.
  - case_match; [by apply negb_false_iff|done].
  - intros k x Hk Hm He. apply Hd in Hk. by rewrite Hm, He, bool_decide_true, Z.eqb_refl in Hk.
Qed.

Lemma insert_lease_Ok id r db db' :
  insert_lease id r db = Ok db' ->
  port_ok (l_port r) = true /\ leases db !! id = None /\
  (forall k x, leases db !! k = Some x -> l_port x <> l_port r) /\
  is_Some (mappings db !! l_mapping_id r) /\ is_Some (revisions db !! l_rev_id r) /\
  db' = db <| leases ::= <[id := r]> |>.
Proof.
  unfold insert_lease. rewrite !reject_Ok, taken_false, duplicate_false, !absent_false, negb_false_iff.
  intros (? & ? & Hd & ? & ? & [= <-]). split_and!; try done.
  intros k x Hk He. apply Hd in Hk. by rewrite He, Z.eqb_refl in Hk.
Qed.

Lemma insert_operation_Ok id r db db' :
  insert_operation id r db = Ok db' ->
  operations db !! id = None /\ db' = db <| operations ::= <[id := r]> |>.
Proof.
  unfold insert_operation. rewrite !reject_Ok, taken_false. by intros (? & _ & [= <-]).
Qed.

Lemma insert_idempotency_Ok id r db db' :
  insert_idempotency id r db = Ok db' ->
  idempotency db !! id = None /\
  (forall k x, idempotency db !! k = Some x ->
     idem_matches (i_user_id r) (i_generation r) (i_method r) (i_path r) (i_key r) k x = false) /\
  db' = db <| idempotency ::= <[id := r]> |>.
Proof.
  unfold insert_idempotency. rewrite !reject_Ok, taken_false, duplicate_false.
  by intros (? & ? & _ & [= <-]).
Qed.

Lemma insert_audit_log_Ok id r db db' :
  insert_audit_log id r db = Ok db' -> db' = db <| audit_logs ::= <[id := r]> |>.
Proof. unfold insert_audit_log. rewrite reject_Ok. by intros (_ & [= <-]). Qed.

Lemma insert_domain_Ok id r db db' :
  insert_domain id r db = Ok db' ->
  (d_https_mode r = HttpOnly -> d_redirect r = false) /\ domains db !! id = None /\
  (forall k x, domains db !! k = Some x -> d_normalized x <> d_normalized r) /\
  is_Some (users db !! d_user_id r) /\ is_Some (mappings db !! d_mapping_id r) /\
  db' = db <| domains ::= <[id := r]> |>.
Proof.
  unfold insert_domain. rewrite !reject_Ok, taken_false, duplicate_false, !absent_false.
  intros (Hr & ? & Hd & ? & ? & [= <-]). split_and!; try done.
  - intros He. by rewrite He, bool_decide_true in Hr.
  - intros k x Hk He. apply Hd in Hk. by rewrite He, bool_decide_true in Hk.
Qed.

Lemma insert_dns_record_Ok id r db db' :
  insert_dns_record id r db = Ok db' ->
  dns_records db !! id = None /\ db' = db <| dns_records ::= <[id := r]> |>.
Proof.
  unfold insert_dns_record. rewrite !reject_Ok, taken_false. by intros (? & _ & _ & [= <-]).
Qed.

(** ** The audit log is the only table an audit writes *)

Lemma audit_preserves `{Env} (I : DB -> Prop) actor ac action rt ri result md op :
  (forall db f, I db -> I (db <| audit_logs ::= f |>)) ->
  preserves I (audit_as actor ac action rt ri result md op).
Proof.
  intros HI. unfold audit_as. preserve.
  match goal with Hi : insert_audit_log _ _ _ = Ok _ |- _ => apply insert_audit_log_Ok in Hi as -> end.
  by apply HI.
Qed.
