(* ===== verification/Jobs.v ===== *)
(** The durable job queue ([server/internal/jobs/worker.go]): enqueueing with
    deduplication, claiming under a lease, heartbeat, completion, retry with
    back-off and blocking, and the worker's loop. *)

From S2P Require Import Prelude StateError GoText GoNet Timestamps Schema Effects Logic.
From Stdlib Require Import Ascii String.
Open Scope Z_scope.

(** ** Statements on [jobs] *)

Definition job_active (s : JobStatus) : bool :=
  (s == JPending) || (s == JRunning) || (s == JRetryWait).

(** The partial unique index [one_active_deduplicated_job]. *)
Definition job_matches (ty key : string) (_ : string) (j : Job) : bool :=
  String.eqb (j_type j) ty && (j_dedup j == Some key) && job_active (j_status j).

Definition insert_job_or_ignore (id : string) (row : Job) (db : DB) : DB :=
  if negb (jobs db !! id == None) ||
     match j_dedup row with
     | Some key => exists_where (job_matches (j_type row) key) (jobs db)
     | None => false
     end
  then db else db <| jobs ::= <[id := row]> |>.

Definition created_order (a b : string * Job) : bool := sql_lt (j_created a.2) (j_created b.2).

Definition lock_free (t : Stamp) (j : Job) : bool :=
  match j_lock_expires j with None => true | Some e => sql_le e t end.

Definition claimable (t : Stamp) (_ : string) (j : Job) : bool :=
  job_active (j_status j) && sql_le (j_run_after j) t && lock_free t j.

(** [ORDER BY run_after ASC, id ASC] *)
Definition run_order (a b : string * Job) : bool :=
  sql_lt (j_run_after a.2) (j_run_after b.2) ||
  (negb (sql_lt (j_run_after b.2) (j_run_after a.2)) && String.ltb a.1 b.1).

Definition leased (id owner : string) (k : string) (j : Job) : bool :=
  (k == id) && (j_status j == JRunning) && (j_lock_owner j == Some owner).

(** A job as the worker receives it. *)
Record ClaimedJob := mkClaimedJob {
  cj_id : string;
  cj_type : string;
  cj_resource_type : string;
  cj_resource_id : string;
  cj_attempts : Z;
  cj_max_attempts : Z;
  cj_lock_owner : string;
  cj_lock_expires : Stamp;
  cj_token_version : option Z;
  cj_payload : Payload
}.

(** [message[:500]] *)
Definition truncate (n : nat) (s : string) : string :=
  if Nat.ltb n (String.length s) then take_str n s else s.

(** [err.Error()]; the driver's texts are [env_sql_text]. *)
Definition error_text `{Env} (e : GoErr) : string :=
  match e with
  | ErrMsg s => s
  | ErrBlocked s => s
  | ErrAPI status s => "cloudflare returned HTTP " ++ itoa status ++ ": " ++ s
  | ErrPanic s => s
  | ErrSql e => env_sql_text e
  | ErrInvalidCredentials => "invalid credentials"
  | ErrSessionInvalid => "session invalid"
  | ErrForbidden => "forbidden"
  | ErrNotFound => "not found"
  | ErrConfigConflict => "configuration version conflict"
  | ErrRevisionConflict => "resource revision conflict"
  | ErrIdempotencyReuse => "idempotency key reused"
  | ErrPortReserved => "port already reserved"
  | ErrReauthRequired => "reauthentication required"
  | ErrNoJob => "no due job"
  end%string.

(** Seconds to wait after the [attempts]-th failure: 1, 2, 4, ... capped at 300. *)
Definition backoff_seconds (attempts : Z) : Z := Z.min 300 (2 ^ Z.max 0 (attempts - 1)).

Section Jobs.
Context `{Env}.

Definition Enqueue (jobType resourceType resourceID dedup : string) (payload : Payload)
    (tokenVersion : option Z) : M string :=
  fail_if (String.eqb jobType "" || String.eqb resourceType "")
    (ErrMsg "job type and resource type are required");;
  jobID ← newID;
  t ← now;
  let key := if String.eqb dedup "" then None else Some dedup in
  exec (insert_job_or_ignore jobID
    {| j_type := jobType; j_resource_type := resourceType;
       j_resource_id := if String.eqb resourceID "" then None else Some resourceID;
       j_status := JPending; j_run_after := t; j_attempts := 0; j_max_attempts := 5;
       j_lock_owner := None; j_locked_at := None; j_lock_expires := None; j_heartbeat := None;
       j_dedup := key; j_token_version := tokenVersion; j_last_error := None;
       j_payload := Ok payload; j_created := t; j_updated := t; j_completed := None |});;
  if String.eqb dedup "" then ret jobID
  else query_row (fun db =>
         fst <$> first_by created_order (select (job_matches jobType dedup) (jobs db))).

Definition set_running (st : JobStore) (t : Stamp) (j : Job) : Job :=
  j <| j_status := JRunning |> <| j_attempts ::= Z.succ |>
    <| j_lock_owner := Some (st_owner st) |> <| j_locked_at := Some t |>
    <| j_lock_expires := Some (t + st_lease st) |> <| j_heartbeat := Some t |>
    <| j_updated := t |>.

Definition decode_error (detail : string) : string :=
  ("decode job payload: " ++ detail)%string.

Definition set_undecodable (t : Stamp) (detail : string) (j : Job) : Job :=
  j <| j_status := JFailed |> <| j_last_error := Some (truncate 500 (decode_error detail)) |>
    <| j_lock_owner := None |> <| j_locked_at := None |> <| j_lock_expires := None |>
    <| j_heartbeat := None |> <| j_completed := Some t |> <| j_updated := t |>.

(** [WHERE id=? AND status IN (...) AND (lock_expires_at IS NULL OR ...)] *)
Definition still_claimable (id : string) (t : Stamp) (k : string) (j : Job) : bool :=
  (k == id) && job_active (j_status j) && lock_free t j.

(** The transaction of a claim at time [t]. *)
Definition claim_tx (st : JobStore) (t : Stamp) : M (outcome (res GoErr ClaimedJob)) :=
  row ← attempt (query_row (fun db => first_by run_order (select (claimable t) (jobs db))));
  match row with
  | Err (ErrSql NoRows) => fail ErrNoJob
  | Err e => fail e
  | Ok (id, j) =>
      let where_ := still_claimable id t in
      match j_payload j with
      | Err detail =>
          n ← exec_count (fun db => count_where where_ (jobs db))
                (fun db => db <| jobs ::= update_where where_ (set_undecodable t detail) |>);
          fail_if (negb (n =? 1)) ErrNoJob;;
          ret (Commit (Err (ErrMsg (decode_error detail))))
      | Ok payload =>
          n ← exec_count (fun db => count_where where_ (jobs db))
                (fun db => db <| jobs ::= update_where where_ (set_running st t) |>);
          fail_if (negb (n =? 1)) ErrNoJob;;
          ret (Commit (Ok
            {| cj_id := id; cj_type := j_type j; cj_resource_type := j_resource_type j;
               cj_resource_id := default ""%string (j_resource_id j);
               cj_attempts := j_attempts j + 1; cj_max_attempts := j_max_attempts j;
               cj_lock_owner := st_owner st; cj_lock_expires := t + st_lease st;
               cj_token_version := j_token_version j; cj_payload := payload |}))
      end
  end.

Definition Claim (st : JobStore) : M ClaimedJob :=
  t ← now;
  r ← transaction (claim_tx st t);
  match r with Ok job => ret job | Err e => fail e end.

Definition Heartbeat (st : JobStore) (id : string) : M unit :=
  t ← now;
  exec (fun db => db <| jobs ::= update_where (leased id (st_owner st)) (fun j =>
    j <| j_heartbeat := Some t |> <| j_lock_expires := Some (t + st_lease st) |>
      <| j_updated := t |>) |>).

Definition Complete (st : JobStore) (id : string) : M unit :=
  t ← now;
  n ← exec_count (fun db => count_where (leased id (st_owner st)) (jobs db))
    (fun db => db <| jobs ::= update_where (leased id (st_owner st)) (fun j =>
      j <| j_status := JSucceeded |> <| j_lock_owner := None |> <| j_locked_at := None |>
        <| j_lock_expires := None |> <| j_heartbeat := None |>
        <| j_completed := Some t |> <| j_updated := t |>) |>);
  fail_if (negb (n =? 1)) (ErrMsg "job lease lost").

(** [WHERE id=? AND lock_owner=?] *)
Definition owned (id owner : string) (k : string) (j : Job) : bool :=
  (k == id) && (j_lock_owner j == Some owner).

Definition Fail (st : JobStore) (id : string) (jobErr : GoErr) : M unit :=
  '(attempts, maxAttempts) ← query_row (fun db =>
    j ← jobs db !! id;
    if leased id (st_owner st) id j then Some (j_attempts j, j_max_attempts j) else None);
  t ← now;
  let message := truncate 500 (error_text jobErr) in
  if maxAttempts <=? attempts then
    exec (fun db => db <| jobs ::= update_where (owned id (st_owner st)) (fun j =>
      j <| j_status := JFailed |> <| j_last_error := Some message |> <| j_lock_owner := None |>
        <| j_lock_expires := None |> <| j_heartbeat := None |>
        <| j_completed := Some t |> <| j_updated := t |>) |>)
  else
    let runAfter := t + backoff_seconds attempts * st_retry_base st in
    exec (fun db => db <| jobs ::= update_where (owned id (st_owner st)) (fun j =>
      j <| j_status := JRetryWait |> <| j_run_after := runAfter |>
        <| j_last_error := Some message |> <| j_lock_owner := None |>
        <| j_lock_expires := None |> <| j_heartbeat := None |> <| j_updated := t |>) |>).

Definition Block (st : JobStore) (id : string) (jobErr : GoErr) : M unit :=
  let message := truncate 500 (error_text jobErr) in
  t ← now;
  let wake := t + 24 * hour in
  exec (fun db => db <| jobs ::= update_where (leased id (st_owner st)) (fun j =>
    j <| j_status := JRetryWait |> <| j_run_after := wake |>
      <| j_last_error := Some message |> <| j_lock_owner := None |>
      <| j_lock_expires := None |> <| j_heartbeat := None |> <| j_updated := t |>) |>).

(** [EnqueueRouterSnapshot] of [router_service.go]. *)
Definition EnqueueRouterSnapshot : M unit :=
  fail_if (env_jobs == None) (ErrMsg "job worker is unavailable");;
  Enqueue "router_snapshot_apply" "router" "singleton" "router:snapshot" ∅ None;;
  ret tt.

(** One turn of the worker.  The heartbeat goroutine runs beside the handler;
    its effect on the queue is [Heartbeat], a step of its own. *)
Definition runOnce (st : JobStore) (handler : ClaimedJob -> M unit) : M unit :=
  job ← Claim st;
  r ← attempt (handler job);
  match r with
  | Err (ErrPanic msg) => fail (ErrPanic msg)
  | Err (ErrBlocked msg) => Block st (cj_id job) (ErrBlocked msg)
  | Err e => Fail st (cj_id job) e
  | Ok _ => Complete st (cj_id job)
  end.

(** The loop of [Store.Run], for a number of rounds, after which it still runs;
    [done n] is the error of the context at effect [n], once it has ended. *)
Definition is_no_job (e : GoErr) : bool := match e with ErrNoJob => true | _ => false end.
Fixpoint Run (rounds : nat) (done : nat -> option GoErr) (st : JobStore) (handler : ClaimedJob -> M unit) : M unit :=
  match rounds with
  | O => ret tt
  | S rounds =>
      r ← attempt (runOnce st handler);
      match r with
      | Err e => fail_if (negb (is_no_job e)) e
      | Ok _ => ret tt
      end;;
      ended ← (fun w => (Ok (done (w_tick w)), w));
      match ended with
      | Some e => fail e
      | None => Run rounds done st handler
      end
  end.
End Jobs.

(** ** Correctness *)

(** *** Deduplication *)

(** At most one live job per type and deduplication key. *)
Definition dedup_unique (db : DB) : Prop :=
  forall k1 k2 j1 j2 key,
    jobs db !! k1 = Some j1 -> jobs db !! k2 = Some j2 ->
    j_type j1 = j_type j2 -> j_dedup j1 = Some key -> j_dedup j2 = Some key ->
    job_active (j_status j1) = true -> job_active (j_status j2) = true -> k1 = k2.

(** Only a running job has an owner. *)
Definition owner_running (db : DB) : Prop :=
  forall k j o, jobs db !! k = Some j -> j_lock_owner j = Some o -> j_status j = JRunning.

Definition queue_ok (db : DB) : Prop := dedup_unique db /\ owner_running db.

(** An update that makes no live job out of a dead one, keeps type and key, and
    leaves no owner on a job that does not run. *)
Lemma queue_ok_update P f db :
  (forall k j, jobs db !! k = Some j -> P k j = true -> job_active (j_status (f j)) = true ->
     job_active (j_status j) = true) ->
  (forall j, j_type (f j) = j_type j) -> (forall j, j_dedup (f j) = j_dedup j) ->
  (forall k j o, jobs db !! k = Some j -> P k j = true -> j_lock_owner (f j) = Some o ->
     j_status (f j) = JRunning) ->
  queue_ok db -> queue_ok (db <| jobs ::= update_where P f |>).
Proof.
  intros Hact Hty Hkey Hown [Hu Ho]. split.
  - intros k1 k2 j1 j2 key. simpl.
    intros (i1 & L1 & ->)%lookup_update_where_Some (i2 & L2 & ->)%lookup_update_where_Some.
    intros Ht Hk1 Hk2 Ha1 Ha2.
    apply (Hu k1 k2 i1 i2 key L1 L2);
      destruct (P k1 i1) eqn:E1, (P k2 i2) eqn:E2; rewrite ?Hty, ?Hkey in *; eauto.
  - intros k j o. simpl. intros (i & L & ->)%lookup_update_where_Some.
    destruct (P k i) eqn:E; eauto.
Qed.

Lemma leased_running id owner k j : leased id owner k j = true -> j_status j = JRunning.
Proof. unfold leased. rewrite !andb_true_iff, !bool_decide_eq_true. tauto. Qed.

Lemma still_claimable_active id t k j :
  still_claimable id t k j = true -> job_active (j_status j) = true.
Proof. unfold still_claimable. rewrite !andb_true_iff. tauto. Qed.

Lemma owned_owner id owner k j :
  owned id owner k j = true -> j_lock_owner j = Some owner.
Proof. unfold owned. rewrite !andb_true_iff, !bool_decide_eq_true. tauto. Qed.

Lemma job_matches_iff ty key k j :
  job_matches ty key k j = true <->
  j_type j = ty /\ j_dedup j = Some key /\ job_active (j_status j) = true.
Proof.
  unfold job_matches. rewrite !andb_true_iff, String.eqb_eq, bool_decide_eq_true. tauto.
Qed.

Lemma queue_ok_insert id row db :
  j_lock_owner row = None -> queue_ok db -> queue_ok (insert_job_or_ignore id row db).
Proof.
  intros Hrow [Hu Ho]. unfold insert_job_or_ignore.
  destruct (negb (jobs db !! id == None)) eqn:Eid; [done|].
  apply negb_false_iff, bool_decide_eq_true in Eid. simpl.
  destruct (match j_dedup row with Some _ => _ | None => false end) eqn:E; [done|].
  assert (forall k j key, jobs db !! k = Some j -> j_dedup row = Some key ->
    j_type j = j_type row -> j_dedup j = Some key -> job_active (j_status j) = true -> False) as Hno.
  { intros k j key Hk Hd Hty Hj Ha. rewrite Hd in E.
    pose proof (proj1 (exists_where_false _ _) E k j Hk) as Hf.
    assert (job_matches (j_type row) key k j = true) as Ht by (by apply job_matches_iff).
    congruence. }
  split.
  - intros k1 k2 j1 j2 key. simpl. rewrite !lookup_insert.
    case_decide as D1; case_decide as D2; intros; simplify_eq; auto.
    + exfalso. eapply (Hno k2); eauto.
    + exfalso. eapply (Hno k1); eauto.
    + eapply (Hu k1 k2); eauto.
  - intros k j o. simpl. rewrite lookup_insert. case_decide; [|eauto].
    intros [= <-] ?. congruence.
Qed.

Section Queue.
Context `{Env}.
Implicit Types (st : JobStore).

Lemma Enqueue_queue_ok ty rt ri key payload tv :
  preserves queue_ok (Enqueue ty rt ri key payload tv).
Proof. unfold Enqueue. preserve; by apply queue_ok_insert. Qed.

Lemma Claim_queue_ok st : preserves queue_ok (Claim st).
Proof.
  unfold Claim, claim_tx. preserve; apply queue_ok_update; try done;
    intros; by eapply still_claimable_active.
Qed.

Lemma Heartbeat_queue_ok st id : preserves queue_ok (Heartbeat st id).
Proof.
  unfold Heartbeat. preserve. apply queue_ok_update; try done; simpl; intros; try done.
  by eapply leased_running.
Qed.

Lemma Complete_queue_ok st id : preserves queue_ok (Complete st id).
Proof. unfold Complete. preserve. by apply queue_ok_update. Qed.

Lemma Fail_queue_ok st id e : preserves queue_ok (Fail st id e).
Proof.
  unfold Fail. preserve; (apply queue_ok_update; try done);
    match goal with Hq : queue_ok _ |- _ => destruct Hq as [_ Ho] end;
    intros k j Hk HP _; by rewrite (Ho k j _ Hk (owned_owner _ _ _ _ HP)).
Qed.

Lemma Block_queue_ok st id e : preserves queue_ok (Block st id e).
Proof.
  unfold Block. preserve. apply queue_ok_update; try done.
  intros k j _ HP _. by rewrite (leased_running _ _ _ _ HP).
Qed.

(** C20: every operation of the queue, successful or failing at any statement,
    keeps the two invariants of the queue: a type and deduplication key has at
    most one live job (the index [one_active_deduplicated_job], which no
    statement of the queue can therefore violate), and only a running job has
    an owner. *)
Theorem queue_invariant st id ty rt ri key payload tv e :
  preserves queue_ok (Enqueue ty rt ri key payload tv) /\
  preserves queue_ok (Claim st) /\ preserves queue_ok (Heartbeat st id) /\
  preserves queue_ok (Complete st id) /\ preserves queue_ok (Fail st id e) /\
  preserves queue_ok (Block st id e).
Proof.
  split_and!; [apply Enqueue_queue_ok | apply Claim_queue_ok | apply Heartbeat_queue_ok
    | apply Complete_queue_ok | apply Fail_queue_ok | apply Block_queue_ok].
Qed.
End Queue.
#[export] Hint Resolve Enqueue_queue_ok Claim_queue_ok Heartbeat_queue_ok
  Complete_queue_ok Fail_queue_ok Block_queue_ok : preserve.

(** *** Claiming *)

Lemma run_order_ge_trans a b c :
  run_order a b = false -> run_order b c = false -> run_order a c = false.
Proof.
  unfold run_order. rewrite !orb_false_iff, !andb_false_iff, !negb_false_iff.
  set (x := j_run_after a.2). set (y := j_run_after b.2). set (z := j_run_after c.2).
  intros [Hab Hab'] [Hbc Hbc']. split; [by eapply sql_lt_ge_trans|].
  destruct (sql_lt z x) eqn:Ezx; [by left|]. right.
  pose proof (sql_lt_ge_trans _ _ _ Hbc Ezx). pose proof (sql_lt_ge_trans _ _ _ Ezx Hab).
  destruct Hab' as [?|Hab']; [congruence|].
  destruct Hbc' as [?|Hbc']; [congruence|]. by eapply String_ltb_ge_trans.
Qed.

Lemma run_order_asym a b : run_order a b = true -> run_order b a = false.
Proof.
  unfold run_order. rewrite orb_true_iff, andb_true_iff, negb_true_iff, orb_false_iff,
    andb_false_iff, negb_false_iff.
  intros [H|[H1 H2]].
  - split; [by apply sql_lt_asym|by left].
  - split; [done|]. right. by apply String_ltb_asym.
Qed.

Lemma claimable_still id t j : claimable t id j = true -> still_claimable id t id j = true.
Proof.
  unfold claimable, still_claimable. rewrite !andb_true_iff, bool_decide_eq_true. tauto.
Qed.

Lemma still_claimable_id id t k j : still_claimable id t k j = true -> k = id.
Proof. unfold still_claimable. rewrite !andb_true_iff, bool_decide_eq_true. tauto. Qed.

Lemma leased_owner id owner k j : leased id owner k j = true -> j_lock_owner j = Some owner.
Proof. unfold leased. rewrite !andb_true_iff, !bool_decide_eq_true. tauto. Qed.

Lemma update_job_one db P f k r :
  jobs db !! k = Some r -> P k r = true -> (forall k' r', P k' r' = true -> k' = k) ->
  db <| jobs ::= update_where P f |> = db <| jobs ::= <[k := f r]> |>.
Proof. intros Hk HP Hu. unfold set. by rewrite (update_where_one _ _ _ k r). Qed.

Section Claiming.
Context `{Env}.
Implicit Types (st : JobStore).

(** The row a successful claim has taken. *)
Lemma Claim_run st w job w' :
  Claim st w = (Ok job, w') ->
  let t := env_now (w_tick w) in
  exists j, first_by run_order (select (claimable t) (jobs (w_db w))) = Some (cj_id job, j) /\
    jobs (w_db w) !! cj_id job = Some j /\ claimable t (cj_id job) j = true /\
    w_db w' = (w_db w) <| jobs ::= <[cj_id job := set_running st t j]> |> /\
    cj_attempts job = j_attempts j + 1 /\ cj_lock_owner job = st_owner st /\
    cj_lock_expires job = t + st_lease st /\ j_payload j = Ok (cj_payload job).
Proof.
  intros Hrun. unfold Claim, claim_tx in Hrun. apply bind_Ok in Hrun as (t & w1 & Ht & Hrun).
  apply now_Ok in Ht as [-> ->].
  apply bind_Ok in Hrun as (r & w2 & Htx & Hrun).
  apply transaction_Ok in Htx as [_ [(w3 & Hb & _ & ->) | (w3 & Hb & ->)]];
    apply bind_Ok in Hb as (row & w4 & Hq & Hb); apply (proj1 (attempt_Ok _ _ _ _)) in Hq;
    (destruct row as [[id j]|[| | | | | | | | | | |[]| | |]]; [|by run_inv..]);
    apply query_row_Ok in Hq as (_ & Hq & ->); cbn [w_db w_tick step] in *;
    (destruct (j_payload j) eqn:Ep; run_inv; simplify_eq).
  pose proof (first_by_elem _ _ _ Hq) as Hin. apply elem_of_select in Hin as [Hj Hc].
  exists j. cbn [cj_id cj_attempts cj_lock_owner cj_lock_expires cj_payload w_db step].
  split_and!; try done.
  apply update_job_one; [done|by apply claimable_still|].
  intros k' r'. apply still_claimable_id.
Qed.

(** What a successful claim does.  The job was live, due and not under an
    unexpired lease; no claimable job precedes it in the order of due time
    and identifier; its row is now running under the worker's lease with one
    more attempt, and nothing else in the database changed. *)
Theorem Claim_spec st w job w' :
  Claim st w = (Ok job, w') ->
  let t := env_now (w_tick w) in
  exists j, jobs (w_db w) !! cj_id job = Some j /\ claimable t (cj_id job) j = true /\
    (forall k j', jobs (w_db w) !! k = Some j' -> claimable t k j' = true ->
       run_order (k, j') (cj_id job, j) = false) /\
    w_db w' = (w_db w) <| jobs ::= <[cj_id job := set_running st t j]> |> /\
    cj_attempts job = j_attempts j + 1 /\ cj_lock_owner job = st_owner st /\
    cj_lock_expires job = t + st_lease st /\ j_payload j = Ok (cj_payload job).
Proof.
  intros (j & Hq & Hj & Hc & Hdb & ? & ? & ? & ?)%Claim_run. exists j.
  split; [done|]. split; [done|]. split; [|by split_and!].
  intros k j' Hk Hck. eapply first_by_least; [apply run_order_ge_trans|apply run_order_asym|exact Hq|].
  by apply elem_of_select.
Qed.

(** C21: the lease is exclusive.  A row leased by one worker is left exactly as
    it is by every operation of a worker with another owner name: heartbeat,
    completion, failure and blocking of any job, enqueueing, and a claim made
    while, by the texts SQLite compares, the lease has not run out. *)
Theorem lease_exclusive st id j other e ty rt ri key payload tv :
  j_lock_owner j = Some (st_owner st) -> st_owner other <> st_owner st ->
  let kept db := jobs db !! id = Some j in
  (forall id', preserves kept (Heartbeat other id') /\ preserves kept (Complete other id') /\
     preserves kept (Fail other id' e) /\ preserves kept (Block other id' e)) /\
  preserves kept (Enqueue ty rt ri key payload tv) /\
  (forall w, kept (w_db w) -> lock_free (env_now (w_tick w)) j = false ->
     kept (w_db (snd (Claim other w)))).
Proof.
  intros Hown Hne kept.
  assert (forall P f db, (forall k r, P k r = true -> j_lock_owner r = Some (st_owner other)) ->
    kept db -> kept (db <| jobs ::= update_where P f |>)) as Hupd.
  { intros P f db HP Hk. unfold kept. simpl. rewrite lookup_update_where, Hk. simpl.
    destruct (P id j) eqn:E; [|done]. apply HP in E. congruence. }
  split_and!.
  - intros id'. split_and!; unfold Heartbeat, Complete, Fail, Block; preserve;
      (apply Hupd; [|done]); intros k r; [apply leased_owner..|apply owned_owner|apply owned_owner|apply leased_owner].
  - unfold Enqueue. preserve. unfold kept, insert_job_or_ignore in *.
    destruct (negb (jobs db !! _ == None)) eqn:Eid; [done|].
    apply negb_false_iff, bool_decide_eq_true in Eid. simpl.
    destruct (if String.eqb key "" then None else Some key); [case_match; [done|]|];
      simpl; (rewrite lookup_insert_ne; [done|congruence]).
  - intros w Hk Hf. apply (preserves_bind kept (transaction (claim_tx other (env_now (w_tick w))))); [|intros []; preserve|done].
    unfold claim_tx. preserve; unfold kept in *; simpl; rewrite lookup_update_where;
      match goal with Hd : jobs _ !! id = _ |- _ => rewrite Hd end; simpl;
      unfold still_claimable; by rewrite Hf, andb_false_r.
Qed.
End Claiming.

(** *** Enqueueing, failing, blocking *)

Lemma backoff_bounds attempts : 1 <= backoff_seconds attempts <= 300.
Proof.
  unfold backoff_seconds. pose proof (Z.pow_pos_nonneg 2 (Z.max 0 (attempts - 1))). lia.
Qed.

Section Retry.
Context `{Env}.
Implicit Types (st : JobStore).

(** Enqueueing under a deduplication key is idempotent.  When a live job
    has the type and key, its identifier is returned and the queue is
    untouched; otherwise a fresh pending job, due now and with no attempt
    made, is the only change and its identifier is returned. *)
Theorem Enqueue_spec {NF : NoFaults} ty rt ri key payload tv w :
  ty <> ""%string -> rt <> ""%string -> key <> ""%string -> queue_ok (w_db w) ->
  jobs (w_db w) !! env_id (w_tick w) = None ->
  (forall k j, jobs (w_db w) !! k = Some j -> job_matches ty key k j = true ->
     exists w', Enqueue ty rt ri key payload tv w = (Ok k, w') /\ w_db w' = w_db w) /\
  ((forall k j, jobs (w_db w) !! k = Some j -> job_matches ty key k j = false) ->
     exists w' j, Enqueue ty rt ri key payload tv w = (Ok (env_id (w_tick w)), w') /\
       w_db w' = (w_db w) <| jobs ::= <[env_id (w_tick w) := j]> |> /\
       j_status j = JPending /\ j_attempts j = 0 /\ j_run_after j = env_now (S (w_tick w)) /\
       j_payload j = Ok payload).
Proof.
  intros Hty Hrt Hkey [Hu Ho] Hfresh.
  assert (forall k j db, jobs db !! k = Some j -> job_matches ty key k j = true -> dedup_unique db ->
    fst <$> first_by created_order (select (job_matches ty key) (jobs db)) = Some k) as Hsel.
  { intros k j db Hk Hm Hdb. rewrite (select_singleton _ _ k j Hk Hm); [done|].
    intros k' j' Hk' (? & ? & ?)%job_matches_iff. apply job_matches_iff in Hm as (? & ? & ?).
    eapply Hdb; eauto. congruence. }
  unfold Enqueue.
  rewrite (proj2 (String.eqb_neq ty "")), (proj2 (String.eqb_neq rt "")),
    (proj2 (String.eqb_neq key "")) by done.
  rewrite run_fail_if_false, run_newID, run_now, run_exec. cbn [w_db w_tick step].
  unfold insert_job_or_ignore. rewrite (bool_decide_eq_true_2 _ Hfresh).
  cbn [j_dedup j_type negb orb].
  destruct (exists_where (job_matches ty key) (jobs (w_db w))) eqn:He; split.
  - intros k j Hk Hm. eexists. split; [apply query_row_run; eapply Hsel; eauto|done].
  - intros Hno. by rewrite (proj2 (exists_where_false _ _) Hno) in He.
  - intros k j Hk Hm. by rewrite (proj1 (exists_where_false _ _) He k j Hk) in Hm.
  - intros Hno. eexists _, _. split; [apply query_row_run|split; [reflexivity|by split_and!]].
    eapply Hsel; [by apply lookup_insert_eq| |].
    + by apply job_matches_iff.
    + assert (queue_ok (w_db w)) as Hq by (split; [done|exact Ho]).
      pose proof (queue_ok_insert (env_id (w_tick w)) _ _ (eq_refl : j_lock_owner (mkJob ty rt
        (if String.eqb ri "" then None else Some ri) JPending (env_now (S (w_tick w))) 0 5 None None
        None None (Some key) tv None (Ok payload) (env_now (S (w_tick w)))
        (env_now (S (w_tick w))) None) = None) Hq) as [Hr _].
      unfold insert_job_or_ignore in Hr. rewrite (bool_decide_eq_true_2 _ Hfresh) in Hr.
      cbn [j_dedup j_type negb orb] in Hr. by rewrite He in Hr.
Qed.

(** What a failure report does to the leased job: with the attempt budget
    used up the job is failed for good; otherwise it waits, without owner or
    lease, for the back-off of its attempt count and can be claimed again. *)
Theorem Fail_spec st id e w u w' :
  Fail st id e w = (Ok u, w') ->
  exists j, jobs (w_db w) !! id = Some j /\ leased id (st_owner st) id j = true /\
    let t := env_now (S (w_tick w)) in
    exists j', w_db w' = (w_db w) <| jobs ::= <[id := j']> |> /\
      j_lock_owner j' = None /\ j_lock_expires j' = None /\ j_attempts j' = j_attempts j /\
      j_last_error j' = Some (truncate 500 (error_text e)) /\
      if j_max_attempts j <=? j_attempts j
      then j_status j' = JFailed /\ j_completed j' = Some t
      else j_status j' = JRetryWait /\
           j_run_after j' = t + backoff_seconds (j_attempts j) * st_retry_base st.
Proof.
  unfold Fail. intros Hrun. apply bind_Ok in Hrun as ([n m] & w1 & Hq & Hrun).
  apply query_row_Ok in Hq as (_ & Hq & ->). cbn [w_db] in Hq.
  destruct (jobs (w_db w) !! id) as [j|] eqn:Hj; [|done]. simpl in Hq.
  destruct (leased id (st_owner st) id j) eqn:Hl; [|done]. injection Hq as <- <-.
  assert (owned id (st_owner st) id j = true) as Ho.
  { unfold owned. apply andb_true_iff. rewrite !bool_decide_eq_true.
    by split; [|eapply leased_owner]. }
  assert (forall k' r', owned id (st_owner st) k' r' = true -> k' = id) as Hu.
  { intros k' r'. unfold owned. rewrite andb_true_iff, !bool_decide_eq_true. tauto. }
  exists j. split; [done|]. split; [done|].
  run_inv; eexists; (split; [by apply update_job_one|]); by split_and!.
Qed.

(** A blocked turn spends an attempt.  The claim counts the attempt and
    [Block] does not give it back, so a job that was only ever blocked has its
    retry budget used up after [max_attempts] turns, and the next real failure
    is final. *)
Theorem Block_spends_attempt st w job w1 e w2 :
  Claim st w = (Ok job, w1) -> Block st (cj_id job) e w1 = (Ok tt, w2) ->
  exists j j2, jobs (w_db w) !! cj_id job = Some j /\ jobs (w_db w2) !! cj_id job = Some j2 /\
    j_status j2 = JRetryWait /\ j_attempts j2 = j_attempts j + 1 /\
    j_max_attempts j2 = j_max_attempts j.
Proof.
  intros (j & _ & Hj & _ & Hdb & _)%Claim_run HB.
  unfold Block in HB. run_inv. exists j.
  set (j1 := set_running st (env_now (w_tick w)) j) in *.
  assert (jobs (w_db w1) !! cj_id job = Some j1) as Hj1 by (by rewrite Hdb; apply lookup_insert_eq).
  assert (leased (cj_id job) (st_owner st) (cj_id job) j1 = true) as Hl.
  { unfold leased. rewrite !andb_true_iff, !bool_decide_eq_true. by split_and!. }
  eexists. split; [exact Hj|]. split; [|split; [|split]].
  - rewrite (update_job_one _ _ _ _ _ Hj1 Hl); [apply lookup_insert_eq|].
    intros k' r'. unfold leased. rewrite !andb_true_iff, !bool_decide_eq_true. tauto.
  - reflexivity.
  - reflexivity.
  - reflexivity.
Qed.
End Retry.

(** *** The loop *)

Section Loop.
Context `{Env} (done : nat -> option GoErr) (st : JobStore) (handler : ClaimedJob -> M unit).

Lemma Run_app rounds more w w1 :
  Run rounds done st handler w = (Ok tt, w1) -> Run (rounds + more) done st handler w = Run more done st handler w1.
Proof.
  revert w. induction rounds as [|n IH]; intros w; cbn [Run]; [by intros [= <-]|].
  intros (r & w2 & E2 & E)%bind_Ok. apply bind_Ok in E as (u & w3 & E3 & E). apply bind_Ok in E as (ended & w4 & [= <- <-] & E).
  destruct (done (w_tick w3)) eqn:Ed; [done|]. apply IH in E. rewrite <- E. cbn [Nat.add Run].
  rewrite (bind_run _ _ _ _ _ E2), (bind_run _ _ _ _ _ E3). erewrite bind_run by reflexivity. by rewrite Ed.
Qed.

End Loop.
