(* ===== verification/Frames.v ===== *)
(** Invariants that do not read the bookkeeping tables.  Most handlers end by
    recording an operation, an idempotency row, a job and an audit line; an
    invariant that reads none of these four tables survives that. *)

From S2P Require Import Prelude StateError GoText GoNet Timestamps Schema Effects Logic Store Jobs.
From Stdlib Require Import Ascii String.
Open Scope Z_scope.

Class Bookkept (I : DB -> Prop) : Prop := {
  bk_jobs db f : I db -> I (db <| jobs ::= f |>);
  bk_operations db f : I db -> I (db <| operations ::= f |>);
  bk_idempotency db f : I db -> I (db <| idempotency ::= f |>);
  bk_audit db f : I db -> I (db <| audit_logs ::= f |>)
}.

#[export] Instance bookkept_and I J : Bookkept I -> Bookkept J -> Bookkept (fun db => I db /\ J db).
Proof. intros HI HJ. split; intros db f [? ?]; split; first [by apply HI|by apply HJ]. Qed.

Section Frames.
Context `{Env} (I : DB -> Prop) {BK : Bookkept I}.

Lemma Audit_bookkept actor ac action rt ri result md op :
  preserves I (audit_as actor ac action rt ri result md op).
Proof. apply audit_preserves. exact bk_audit. Qed.

Lemma Enqueue_bookkept ty rt ri key payload tv : preserves I (Enqueue ty rt ri key payload tv).
Proof.
  unfold Enqueue. preserve. unfold insert_job_or_ignore.
  destruct (_ || _); [done|by apply bk_jobs].
Qed.

Lemma EnqueueRouterSnapshot_bookkept : preserves I EnqueueRouterSnapshot.
Proof. unfold EnqueueRouterSnapshot. preserve. apply Enqueue_bookkept. Qed.

Lemma record_idempotency_bookkept ac method path key hash st resp op t :
  preserves I (record_idempotency ac method path key hash st resp op t).
Proof.
  unfold record_idempotency. preserve.
  match goal with Hi : insert_idempotency _ _ _ = Ok _ |- _ =>
    apply insert_idempotency_Ok in Hi as (_ & _ & ->) end.
  by apply bk_idempotency.
Qed.

Lemma insert_operation_bookkept id o : preserves I (exec_checked (insert_operation id o)).
Proof.
  preserve. match goal with Hi : insert_operation _ _ _ = Ok _ |- _ =>
    apply insert_operation_Ok in Hi as (_ & ->) end.
  by apply bk_operations.
Qed.
End Frames.

#[export] Hint Extern 0 (Bookkept _) => typeclasses eauto : preserve.
#[export] Hint Resolve Audit_bookkept Enqueue_bookkept EnqueueRouterSnapshot_bookkept
  record_idempotency_bookkept insert_operation_bookkept : preserve.
