(* ===== verification/QueueExamples.v ===== *)
(** The theorems on stored passwords and on the job queue, at the sample
    environment. *)

From S2P Require Import Prelude StateError GoText Timestamps Encoding Password Schema Effects Logic Sample Jobs.
From Stdlib Require Import Ascii String.
Open Scope Z_scope.

Lemma sample_argon2_length p s t m h n :
  String.length (sample_argon2 p s t m h n) = Z.to_nat n.
Proof. apply fit_length. Qed.

Lemma VerifyPassword_HashPassword_witness :
  exists encoded, HashPassword sample_argon2 sample_password (Some "salt"%string) = Some encoded /\
    VerifyPassword sample_argon2 encoded sample_password = true /\
    VerifyPassword sample_argon2 encoded "another password" = false.
Proof.
  destruct (HashPassword sample_argon2 sample_password (Some "salt"%string)) as [encoded|] eqn:E;
    [|discriminate E].
  exists encoded.
  pose proof (VerifyPassword_HashPassword sample_argon2 sample_password "salt" encoded
    "another password" sample_argon2_length E) as [Hsame Hother].
  split; [reflexivity|]. split; [exact Hsame|].
  destruct (VerifyPassword sample_argon2 encoded "another password") eqn:D; [|reflexivity].
  pose proof (proj1 Hother eq_refl) as K. vm_compute in K. discriminate K.
Defined.

(** *** A queue with two due jobs *)

Definition sample_job (ty key : string) (due : Stamp) : Job :=
  {| j_type := ty; j_resource_type := "domain"; j_resource_id := Some "d-1"%string;
     j_status := JPending; j_run_after := due; j_attempts := 0; j_max_attempts := 5;
     j_lock_owner := None; j_locked_at := None; j_lock_expires := None; j_heartbeat := None;
     j_dedup := Some key; j_token_version := None; j_last_error := None;
     j_payload := Ok ∅; j_created := due; j_updated := due; j_completed := None |}.

Definition sample_queue : DB :=
  empty_db <| jobs := <["j-2" := sample_job "domain_dns_sync" "domain:d-1:dns" (2 * second)]>
                      (<["j-1" := sample_job "acme_certificate_issue" "domain:d-1:acme" second]> ∅) |>.

Definition worker (owner : string) : JobStore :=
  {| st_owner := owner; st_lease := 30 * second; st_retry_base := second |}.

Lemma sample_queue_ok : queue_ok sample_queue.
Proof.
  assert (forall k j, jobs sample_queue !! k = Some j ->
    (k = "j-2"%string /\ j = sample_job "domain_dns_sync" "domain:d-1:dns" (2 * second)) \/
    (k = "j-1"%string /\ j = sample_job "acme_certificate_issue" "domain:d-1:acme" second)) as Hall.
  { intros k j. cbn [jobs sample_queue set].
    intros [[<- <-]|[_ [[<- <-]|[_ H]]%lookup_insert_Some]]%lookup_insert_Some;
      [by left|by right|by rewrite lookup_empty in H]. }
  split.
  - intros k1 k2 j1 j2 key [[-> ->]|[-> ->]]%Hall [[-> ->]|[-> ->]]%Hall; cbn; congruence.
  - by intros k j o [[-> ->]|[-> ->]]%Hall.
Qed.

Lemma Claim_spec_witness :
  exists job w', Claim (worker "a") (sample_world sample_queue) = (Ok job, w') /\
    cj_id job = "j-1"%string /\
    exists j, jobs sample_queue !! cj_id job = Some j /\ cj_attempts job = j_attempts j + 1.
Proof.
  sample_run (Claim (worker "a") (sample_world sample_queue)) job w' E
    (fun job (_ : World) => String.eqb (cj_id job) "j-1") HP.
  exists job, w'. split; [reflexivity|]. split; [exact (proj1 (String.eqb_eq _ _) HP)|].
  destruct (Claim_spec _ _ _ _ E) as (j & Hj & _ & _ & _ & Ha & _).
  exists j. exact (conj Hj Ha).
Defined.

(** The queue after the claim of [j-1] by the worker [a]. *)
Definition sample_claimed : World := snd (Claim (worker "a") (sample_world sample_queue)).
Definition sample_claimed_job : Job :=
  set_running (worker "a") (env_now 0) (sample_job "acme_certificate_issue" "domain:d-1:acme" second).
Lemma sample_claimed_row : jobs (w_db sample_claimed) !! "j-1"%string = Some sample_claimed_job.
Proof. vm_compute. reflexivity. Qed.

Lemma lease_exclusive_witness :
  jobs (w_db (snd (Claim (worker "b") sample_claimed))) !! "j-1"%string = Some sample_claimed_job /\
  jobs (w_db (snd (Complete (worker "b") "j-1" sample_claimed))) !! "j-1"%string = Some sample_claimed_job.
Proof.
  destruct (lease_exclusive (worker "a") "j-1" sample_claimed_job (worker "b") ErrNoJob "" "" "" "" ∅ None)
    as (Hops & _ & Hclaim); [reflexivity|discriminate|].
  split.
  - apply Hclaim; [exact sample_claimed_row|vm_compute; reflexivity].
  - apply (proj1 (proj2 (Hops "j-1"%string))). exact sample_claimed_row.
Defined.

Lemma Enqueue_spec_witness :
  exists w', Enqueue "domain_dns_sync" "domain" "d-1" "domain:d-1:dns" ∅ None (sample_world sample_queue)
    = (Ok "j-2"%string, w') /\ w_db w' = sample_queue.
Proof.
  pose proof (Enqueue_spec "domain_dns_sync" "domain" "d-1" "domain:d-1:dns" ∅ None
    (sample_world sample_queue)) as [Hdup _];
    [discriminate|discriminate|discriminate|exact sample_queue_ok|reflexivity|].
  exact (Hdup "j-2"%string _ eq_refl eq_refl).
Defined.

Lemma Fail_spec_witness :
  exists w', Fail (worker "a") "j-1" (ErrMsg "boom") sample_claimed = (Ok tt, w') /\
    exists j, jobs (w_db sample_claimed) !! "j-1"%string = Some j /\
      leased "j-1" "a" "j-1" j = true.
Proof.
  sample_run (Fail (worker "a") "j-1" (ErrMsg "boom") sample_claimed) u w' E
    (fun (_ : unit) (_ : World) => true) HP.
  exists w'. destruct u. split; [reflexivity|].
  destruct (Fail_spec _ _ _ _ _ _ E) as (j & Hj & Hl & _). exists j. exact (conj Hj Hl).
Defined.

Lemma Block_spends_attempt_witness :
  exists job w1 w2, Claim (worker "a") (sample_world sample_queue) = (Ok job, w1) /\
    Block (worker "a") (cj_id job) (ErrBlocked "paused") w1 = (Ok tt, w2) /\
    exists j j2, jobs sample_queue !! cj_id job = Some j /\ jobs (w_db w2) !! cj_id job = Some j2 /\
      j_attempts j2 = j_attempts j + 1.
Proof.
  sample_run (Claim (worker "a") (sample_world sample_queue)) job w1 E
    (fun job w1 => result_is (fun (_ : unit) (_ : World) => true)
       (Block (worker "a") (cj_id job) (ErrBlocked "paused") w1)) HP.
  destruct (Block (worker "a") (cj_id job) (ErrBlocked "paused") w1) as [[[]|?] w2] eqn:E2;
    [|discriminate HP].
  exists job, w1, w2. split; [reflexivity|]. split; [exact E2|].
  destruct (Block_spends_attempt _ _ _ _ _ _ E E2) as (j & j2 & Hj & Hj2 & _ & Ha & _).
  exists j, j2. exact (conj Hj (conj Hj2 Ha)).
Defined.

(** *** A worker whose second claim cannot begin *)

Definition failing_env : Env :=
  {| env_unicode := env_unicode; env_idna := env_idna; env_now := env_now; env_id := env_id; env_random := env_random;
     env_fault := fun n => Nat.eqb n 8;
     env_config := env_config; env_jobs := env_jobs; env_audit := env_audit; env_sha256 := env_sha256;
     env_hash_body := env_hash_body; env_argon2 := env_argon2; env_gcm_seal := env_gcm_seal; env_gcm_open := env_gcm_open;
     env_master_key := env_master_key; env_sql_text := env_sql_text; env_certificate_key := env_certificate_key;
     env_router_key := env_router_key |}.
Definition endless (n : nat) : option GoErr := None.
Definition nothing_to_do (job : ClaimedJob) : M unit := ret tt.
Definition one_round := @Run failing_env 1 endless (worker "a") nothing_to_do (sample_world sample_queue).

