(* ===== verification/Sessions.v ===== *)
(** Accounts and sessions ([server/internal/service/service.go], [EnsureAdmin]
    to [RequireReauthTicket], [Heartbeat] and [TouchSession]): the initial
    administrator, login on the two channels, bearer authentication, logout,
    credential change and re-authentication tickets. *)

From S2P Require Import Prelude StateError GoText Timestamps Encoding Schema Effects Logic Validation Store.
From Stdlib Require Import Ascii String.
Open Scope Z_scope.

Record UserSummary := mkUserSummary {
  us_ID : string;
  us_Username : string;
  us_Role : Role;
  us_Status : UserStatus;
  us_MustChangePassword : bool;
  us_MustChangeUsername : bool
}.

Record LoginResult := mkLoginResult {
  lr_Token : string;
  lr_SessionID : string;
  lr_SessionExpires : Stamp;
  lr_CSRFToken : string;
  lr_User : UserSummary;
  lr_RuntimeCredential : string;
  lr_FRPUsername : string;
  lr_FRPSecret : string;
  lr_FRPSTransportSecret : string
}.

Definition channel_of (s : string) : option Channel :=
  if String.eqb s "admin_panel" then Some AdminPanel
  else if String.eqb s "client_panel" then Some ClientPanel else None.

(** The associated data under which a user's FRP secret is sealed. *)
Definition frp_secret_aad (uid : string) : string := ("user:" ++ uid ++ ":frp_secret:v1")%string.

(** A row of [users] with the schema's defaults. *)
Definition new_user (username hash : string) (role : Role) (mustPassword mustUsername : bool)
    (generation : Z) (t : Stamp) : User :=
  {| u_username := username; u_password_hash := hash; u_role := role; u_status := UActive;
     u_must_change_password := mustPassword; u_must_change_username := mustUsername;
     u_auth_version := 1; u_generation := generation; u_desired_config := 0;
     u_applied_config := 0; u_last_failed_config := None; u_active_cf_version := None;
     u_max_mappings := 50; u_max_domains := 50; u_max_pending_mappings := 10;
     u_max_pending_port_leases := 10; u_max_pending_domain_operations := 10;
     u_max_certificate_jobs := 5; u_created := t; u_updated := t |}.

Definition new_frp_credential (uid name secretHash ciphertext nonce : string) (t : Stamp)
    : FrpCredential :=
  {| fc_user_id := uid; fc_frp_username := name; fc_secret_hash := secretHash;
     fc_ciphertext := ciphertext; fc_nonce := nonce; fc_secret_version := 1;
     fc_created := t; fc_rotated := None |}.

Definition user_summary (uid : string) (u : User) : UserSummary :=
  {| us_ID := uid; us_Username := u_username u; us_Role := u_role u; us_Status := u_status u;
     us_MustChangePassword := u_must_change_password u;
     us_MustChangeUsername := u_must_change_username u |}.

(** [WHERE revoked_at IS NULL] *)
Definition unrevoked (s : Session) : bool := s_revoked s == None.

Definition revoke_session (t : Stamp) (reason : string) (s : Session) : Session :=
  s <| s_revoked := Some t |> <| s_revoke_reason := Some reason |>.

Section Sessions.
Context `{Env}.

(** *** The initial administrator *)

Definition GenerateInitialPassword : M string :=
  b ← rand_read 18; ret (b64_encode url_alphabet b).

(** The file is outside the database; the write can fail. *)
Definition osWritePrivate (path content : string) : M unit := exec (fun db => db).

Definition passwordIfNeeded (configured generated : string) : string :=
  if negb (String.eqb configured "") then "" else generated.

Definition newline : string := String (ascii_of_nat 10) EmptyString.

Definition initial_password : M string :=
  let configured := cfg_AdminPassword env_config in
  if String.eqb configured "" then
    password ← GenerateInitialPassword;
    osWritePrivate (cfg_DataDir env_config ++ "/initial-admin.txt")
      ("username=admin" ++ newline ++ "password=" ++ password ++ newline);;
    ret password
  else ret configured.

Definition EnsureAdmin : M string :=
  count ← query (fun db => count_where (fun _ u =>
    (u_role u == RAdmin) && (u_status u != UDeleted)) (users db));
  if 0 <? count then ret ""%string
  else
    password ← initial_password;
    hash ← hash_password password;
    t ← nowString;
    userID ← newID;
    secret ← randomSecret;
    '(ciphertext, nonce) ← Encrypt secret (frp_secret_aad userID);
    let fresh := String.eqb (cfg_AdminPassword env_config) "" in
    exec_checked (insert_user userID (new_user "admin" hash RAdmin fresh fresh 1 t));;
    credID ← newID;
    exec_checked (insert_frp_credential credID
      (new_frp_credential userID ("admin-" ++ shortID userID) (sha256Hex secret)
         ciphertext nonce t));;
    ret (passwordIfNeeded (cfg_AdminPassword env_config) password).

(** *** Login *)

(** A client login revokes the user's live client sessions and opens a new
    generation. *)
Definition replace_client_sessions (uid : string) : M Z :=
  t ← nowString;
  exec (fun db => db <| sessions ::= update_where
    (fun _ s => (s_user_id s == uid) && (s_channel s == ClientPanel) && unrevoked s)
    (revoke_session t "SESSION_REPLACED") |>);;
  t2 ← nowString;
  exec (fun db => db <| users ::= update_where (fun k _ => k == uid) (fun u =>
    u <| u_generation ::= Z.succ |> <| u_updated := t2 |>) |>);;
  query_row (fun db => u_generation <$> users db !! uid).

(** The runtime credential of a client session and the secrets the client
    needs: runtime token, FRP user name, FRP secret, transport secret. *)
Definition issue_runtime_credential (uid sessionID : string) (generation : Z)
    (expires now_ : Stamp) : M (string * string * string * string) :=
  runtimeToken ← randomToken;
  cred ← query_row (fun db =>
    snd <$> head (select (fun _ c => fc_user_id c == uid) (frp_credentials db)));
  secret ← Decrypt (fc_ciphertext cred) (fc_nonce cred) (frp_secret_aad uid);
  credID ← newID;
  exec_checked (insert_runtime_credential credID
    {| rc_user_id := uid; rc_session_id := sessionID; rc_generation := generation;
       rc_token_hash := sha256Hex runtimeToken; rc_expires := expires; rc_revoked := None;
       rc_created := now_ |});;
  ret (runtimeToken, fc_frp_username cred, secret, cfg_FRPSTransportSecret env_config).

Definition find_login (username : string) (db : DB) : option (string * User) :=
  head (select (fun _ u => (u_username u == username) && (u_status u != UDeleted)) (users db)).

Definition login_tx (username password channel sourceIP userAgent : string)
    : M (outcome LoginResult) :=
  let admin := String.eqb channel "admin_panel" in
  let client := String.eqb channel "client_panel" in
  '(uid, u) ← map_err (fun _ => ErrInvalidCredentials) (query_row (find_login username));
  fail_if (negb (verify_password (u_password_hash u) password)) ErrInvalidCredentials;;
  fail_if (u_status u != UActive) (ErrMsg "user disabled");;
  fail_if (admin && (u_role u != RAdmin)) ErrInvalidCredentials;;
  fail_if (client && (u_role u != RUser)) ErrInvalidCredentials;;
  generation ← (if client then replace_client_sessions uid else ret (u_generation u));
  token ← randomToken;
  sessionID ← newID;
  csrfToken ← (if admin then randomToken else ret ""%string);
  let csrfTokenHash := if admin then sha256Hex csrfToken else ""%string in
  t ← now;
  let expires := t + cfg_SessionTTLHours env_config * hour in
  let idle := t + 30 * minute in
  exec_checked (fun db =>
    match channel_of channel with
    | None => Err CheckViolation
    | Some ch => insert_session sessionID
        {| s_user_id := uid; s_hash := sha256Hex token; s_channel := ch;
           s_generation := generation; s_source_ip := sourceIP; s_user_agent := userAgent;
           s_expires := expires; s_idle_expires := idle; s_last_seen := t; s_revoked := None;
           s_revoke_reason := None; s_csrf_hash := csrfTokenHash; s_created := t |} db
    end);;
  '(runtimeCredential, frpUsername, frpSecret, transport) ←
    (if client then issue_runtime_credential uid sessionID generation expires t
     else ret (""%string, ""%string, ""%string, ""%string));
  exec_checked (upsert_runtime_state uid sessionID t);;
  ret (Commit
    {| lr_Token := token; lr_SessionID := sessionID; lr_SessionExpires := expires;
       lr_CSRFToken := csrfToken; lr_User := user_summary uid u;
       lr_RuntimeCredential := runtimeCredential; lr_FRPUsername := frpUsername;
       lr_FRPSecret := frpSecret; lr_FRPSTransportSecret := transport |}).

Definition Login (username password channel sourceIP userAgent : string) : M LoginResult :=
  fail_if (String.eqb (TrimSpace username) "" || Nat.ltb (String.length password) 12)
    ErrInvalidCredentials;;
  transaction (login_tx username password channel sourceIP userAgent).

(** *** Authentication *)

(** [SELECT ... FROM sessions s JOIN users u ON u.id=s.user_id WHERE s.session_hash=?] *)
Definition find_session (hash : string) (db : DB) : option (string * Session * User) :=
  head (omap (fun '(k, s) => u ← users db !! s_user_id s; Some (k, s, u))
          (select (fun _ s => s_hash s == hash) (sessions db))).

Definition auth_context (k : string) (s : Session) (u : User) : AuthContext :=
  {| ac_SessionID := k; ac_UserID := s_user_id s; ac_Username := u_username u;
     ac_Role := u_role u; ac_Status := u_status u; ac_Generation := s_generation s;
     ac_Channel := s_channel s; ac_MustChange := u_must_change_password u;
     ac_MustChangeUsername := u_must_change_username u; ac_ExpiresAt := s_expires s;
     ac_CSRFTokenHash := s_csrf_hash s; ac_SourceIP := s_source_ip s;
     ac_UserAgent := s_user_agent s; ac_RequestID := "" |}.

Definition touch (t : Stamp) (s : Session) : Session :=
  s <| s_last_seen := t |> <| s_idle_expires := t + 30 * minute |>.

Definition Authenticate (bearer : string) : M AuthContext :=
  let bearer := TrimSpace (TrimPrefix bearer "Bearer ") in
  fail_if (String.eqb bearer "") ErrSessionInvalid;;
  '(k, s, u) ← map_err (fun _ => ErrSessionInvalid) (query_row (find_session (sha256Hex bearer)));
  fail_if (negb (unrevoked s)) (ErrMsg "session replaced");;
  t ← now;
  fail_if ((u_status u != UActive) || (s_expires s <? t) || (s_idle_expires s <? t))
    ErrSessionInvalid;;
  current ← map_err (fun _ => ErrMsg "session replaced")
    (query_row (fun db => u_generation <$> users db !! s_user_id s));
  fail_if (negb (current =? s_generation s) && (s_channel s == ClientPanel))
    (ErrMsg "session replaced");;
  ignore (exec (fun db => db <| sessions ::=
    update_where (fun k' s' => (k' == k) && unrevoked s') (touch t) |>));;
  ret (auth_context k s u).

Definition ValidateCSRF (ac : AuthContext) (token : string) : bool :=
  if String.eqb (ac_CSRFTokenHash ac) "" || String.eqb (TrimSpace token) "" then false
  else String.eqb (ac_CSRFTokenHash ac) (sha256Hex token).

Definition Logout (ac : AuthContext) (reason : string) : M unit :=
  t ← nowString;
  exec (fun db => db <| sessions ::= update_where
    (fun k s => (k == ac_SessionID ac) && unrevoked s) (revoke_session t reason) |>);;
  t2 ← nowString;
  ignore (exec (fun db => db <| runtime_credentials ::= update_where
    (fun _ c => (rc_session_id c == ac_SessionID ac) && (rc_revoked c == None))
    (fun c => c <| rc_revoked := Some t2 |>) |>));;
  t3 ← nowString;
  ignore (exec (fun db => db <| runtime_state ::= update_where
    (fun k r => (k == ac_UserID ac) && (rs_active_session r == Some (ac_SessionID ac)))
    (fun r => r <| rs_active_session := None |> <| rs_observed := "offline"%string |>
                <| rs_updated := t3 |>) |>)).

(** *** Credentials *)

Definition set_password (hash : string) (t : Stamp) (u : User) : User :=
  u <| u_password_hash := hash |> <| u_must_change_password := false |>
    <| u_must_change_username := false |> <| u_auth_version ::= Z.succ |> <| u_updated := t |>.

(** [UPDATE users SET username=?,...]: the new name must be free. *)
Definition rename_user (uid username hash : string) (t : Stamp) (db : DB) : res SqlError DB :=
  reject (negb (users db !! uid == None) &&
          exists_where (fun k u => negb (k == uid) && (u_username u == username)) (users db))
    UniqueViolation $
  Ok (db <| users ::= update_where (fun k _ => k == uid)
        (fun u => (set_password hash t u) <| u_username := username |>) |>).

Definition check_new_username (ac : AuthContext) (newUsername : string) : option GoErr :=
  if ac_MustChangeUsername ac && String.eqb newUsername ""
  then Some (ErrMsg "a new username is required for the initial administrator login")
  else if String.eqb newUsername "" then None
  else if ac_Role ac != RAdmin then Some ErrForbidden
  else if negb (validUsername newUsername) ||
          (String.eqb newUsername "admin" && negb (String.eqb newUsername (ac_Username ac)))
  then Some (ErrMsg "invalid username")
  else if ac_MustChangeUsername ac && String.eqb newUsername (ac_Username ac)
  then Some (ErrMsg "initial username must be changed")
  else None.

(** [if err := ...; err != nil { return err }] for a pure check. *)
Definition require (o : option GoErr) : M unit :=
  match o with Some e => fail e | None => ret tt end.

(** The stored hash verifies the password, else one error for every reason. *)
Definition check_password (find : DB -> option User) (password : string) : M unit :=
  hash ← map_err (fun _ => ErrInvalidCredentials)
    (query_row (fun db => u_password_hash <$> find db));
  fail_if (negb (verify_password hash password)) ErrInvalidCredentials.

Definition ChangeCredentials (ac : AuthContext) (currentPassword newUsername newPassword : string)
    : M unit :=
  fail_if (Nat.ltb (String.length newPassword) 12)
    (ErrMsg "password must be at least 12 characters");;
  let newUsername := TrimSpace newUsername in
  require (check_new_username ac newUsername);;
  check_password (fun db => users db !! ac_UserID ac) currentPassword;;
  hash ← hash_password newPassword;
  transaction (
    t ← nowString;
    (if String.eqb newUsername "" then
       exec (fun db => db <| users ::=
         update_where (fun k _ => k == ac_UserID ac) (set_password hash t) |>)
     else exec_checked (rename_user (ac_UserID ac) newUsername hash t));;
    ret (Commit tt));;
  Audit ac "credentials_changed" "user" (ac_UserID ac) "success"
    (if String.eqb newUsername "" then [] else [("username"%string, PStr newUsername)]) "".

Definition ChangePassword (ac : AuthContext) (currentPassword newPassword : string) : M unit :=
  ChangeCredentials ac currentPassword "" newPassword.

(** *** Re-authentication *)

(** [WHERE id=? AND status='active'] *)
Definition active_user (uid : string) (db : DB) : option User :=
  u ← users db !! uid; if u_status u == UActive then Some u else None.

Definition IssueReauthTicket (ac : AuthContext) (currentPassword : string) : M (string * Stamp) :=
  fail_if (String.eqb (TrimSpace currentPassword) "") ErrInvalidCredentials;;
  check_password (active_user (ac_UserID ac)) currentPassword;;
  ticket ← randomToken;
  t ← now;
  let expires := t + 5 * minute in
  t2 ← now;
  exec (fun db => db <| reauth_tickets ::= delete_where (fun _ x => sql_le (t_expires x) t2) |>);;
  ticketID ← newID;
  t3 ← now;
  exec_checked (insert_reauth_ticket ticketID
    {| t_user_id := ac_UserID ac; t_generation := ac_Generation ac;
       t_token_hash := sha256Hex ticket; t_expires := expires; t_created := t3 |});;
  ret (ticket, expires).

Definition ticket_valid (ac : AuthContext) (hash : string) (t : Stamp)
    (_ : string) (x : ReauthTicket) : bool :=
  (t_user_id x == ac_UserID ac) && (t_generation x =? ac_Generation ac) &&
  (t_token_hash x == hash) && sql_lt t (t_expires x).

Definition RequireReauthTicket (ac : AuthContext) (ticket : string) : M unit :=
  let ticket := TrimSpace ticket in
  fail_if (String.eqb ticket "") ErrReauthRequired;;
  t ← now;
  valid ← query (fun db => count_where (ticket_valid ac (sha256Hex ticket) t) (reauth_tickets db));
  fail_if (negb (valid =? 1)) ErrReauthRequired.

Definition requireReauth (ac : AuthContext) (proof : string) : M unit :=
  let proof := TrimSpace proof in
  fail_if (String.eqb proof "") ErrReauthRequired;;
  r ← attempt (RequireReauthTicket ac proof);
  if is_ok r then ret tt
  else
    row ← attempt (query_row (fun db => u_password_hash <$> active_user (ac_UserID ac) db));
    match row with
    | Ok hash => fail_if (negb (verify_password hash proof)) ErrInvalidCredentials
    | Err _ => fail ErrInvalidCredentials
    end.

(** *** Liveness *)

Definition Heartbeat (ac : AuthContext) (clientVersion frpcVersion : string) : M unit :=
  t ← nowString;
  exec (fun db => db <| runtime_state ::= update_where (fun k _ => k == ac_UserID ac) (fun r =>
    r <| rs_observed := "online"%string |> <| rs_panel_version := Some clientVersion |>
      <| rs_frpc_version := Some frpcVersion |> <| rs_last_heartbeat := Some t |>
      <| rs_updated := t |>) |>).

Definition touchable (ac : AuthContext) (t : Stamp) (db : DB) (k : string) (s : Session) : bool :=
  (k == ac_SessionID ac) && (s_user_id s == ac_UserID ac) &&
  (s_generation s =? ac_Generation ac) && unrevoked s && sql_lt t (s_expires s) &&
  sql_lt t (s_idle_expires s) &&
  match active_user (ac_UserID ac) db with
  | Some u => u_generation u =? ac_Generation ac
  | None => false
  end.

Definition TouchSession (ac : AuthContext) : M unit :=
  t ← now;
  affected ← exec_count (fun db => count_where (touchable ac t db) (sessions db))
    (fun db => db <| sessions ::= update_where (touchable ac t db) (touch t) |>);
  fail_if (negb (affected =? 1)) ErrSessionInvalid.
End Sessions.
