(* ===== verification/SessionsSpec.v ===== *)
(** What sessions guarantee: a client login leaves one live client session of
    the user, bearers of replaced sessions are refused, an authenticated bearer
    belongs to an unrevoked session of an active user, and re-authentication
    tickets bind user, session generation and time. *)

From S2P Require Import Prelude StateError GoText Timestamps Encoding Schema Effects Logic Validation Sample Store Sessions.
From Stdlib Require Import Ascii String.
Open Scope Z_scope.

Lemma head_select_Some {V} (P : string -> V -> bool) (t : Table V) k r :
  head (select P t) = Some (k, r) -> t !! k = Some r /\ P k r = true.
Proof. intros Hh. apply elem_of_select. destruct (select P t); [done|]. injection Hh as ->. left. Qed.

Lemma insert_session_Ok id r db db' :
  insert_session id r db = Ok db' ->
  sessions db !! id = None /\
  (forall k x, sessions db !! k = Some x -> s_hash x <> s_hash r) /\
  is_Some (users db !! s_user_id r) /\ db' = db <| sessions ::= <[id := r]> |>.
Proof.
  unfold insert_session. rewrite !reject_Ok, taken_false, duplicate_false, absent_false.
  intros (H1 & H2 & _ & H4 & [= <-]). split_and!; try done.
  intros k x Hk He. apply H2 in Hk. by rewrite He, bool_decide_true in Hk.
Qed.

(** What a table's part of the database is after the statements of a login
    that do not write it. *)
Lemma upsert_runtime_state_Ok uid sid t db db' :
  upsert_runtime_state uid sid t db = Ok db' ->
  exists f, db' = db <| runtime_state ::= f |> /\
    exists rs, runtime_state db' !! uid = Some rs /\ rs_active_session rs = Some sid.
Proof.
  unfold upsert_runtime_state. case_match.
  - intros [= <-]. eexists. split; [done|]. eexists. split; [apply lookup_insert_eq|done].
  - rewrite reject_Ok. intros [_ [= <-]]. eexists. split; [done|].
    eexists. split; [apply lookup_insert_eq|done].
Qed.

Lemma insert_runtime_credential_Ok id r db db' :
  insert_runtime_credential id r db = Ok db' ->
  db' = db <| runtime_credentials ::= <[id := r]> |>.
Proof. unfold insert_runtime_credential. rewrite !reject_Ok. by intros (_ & _ & _ & _ & _ & [= <-]). Qed.

Section Login.
Context `{Env}.

Lemma replace_client_sessions_Ok uid w g w' :
  replace_client_sessions uid w = (Ok g, w') ->
  exists t u u', users (w_db w) !! uid = Some u /\ g = u_generation u + 1 /\
    users (w_db w') !! uid = Some u' /\ u_generation u' = g /\
    sessions (w_db w') = update_where
      (fun _ s => (s_user_id s == uid) && (s_channel s == ClientPanel) && unrevoked s)
      (revoke_session t "SESSION_REPLACED") (sessions (w_db w)) /\
    (forall k, k <> uid -> users (w_db w') !! k = users (w_db w) !! k).
Proof.
  unfold replace_client_sessions. intros Hrun. run_inv.
  match goal with Hq : _ <$> users _ !! uid = Some g |- _ =>
    cbn [users set] in Hq; rewrite lookup_update_where in Hq end.
  destruct (users (w_db w) !! uid) as [u|] eqn:Hu; [|done].
  eexists _, u, _. split; [done|]. simpl in *. rewrite bool_decide_true in * by done.
  simplify_eq. split; [done|]. split; [rewrite lookup_update_where, Hu; simpl; by rewrite bool_decide_true by done|].
  split; [done|]. split; [done|].
  intros k Hk. rewrite lookup_update_where. destruct (users (w_db w) !! k); simpl; [|done].
  by rewrite bool_decide_false by congruence.
Qed.

Lemma rand_token_db tok w w' : randomToken w = (Ok tok, w') -> w_db w' = w_db w.
Proof. unfold randomToken, randomSecret. intros Hrun. by run_inv. Qed.

Lemma issue_runtime_credential_Ok uid sid g e t w x w' :
  issue_runtime_credential uid sid g e t w = (Ok x, w') ->
  exists c rc, w_db w' = (w_db w) <| runtime_credentials ::= <[c := rc]> |> /\
    rc_token_hash rc = sha256Hex x.1.1.1 /\
    rc = {| rc_user_id := uid; rc_session_id := sid; rc_generation := g;
            rc_token_hash := rc_token_hash rc; rc_expires := e; rc_revoked := None;
            rc_created := t |}.
Proof.
  unfold issue_runtime_credential. intros Hrun.
  apply bind_Ok in Hrun as (tok & w1 & Hw1%rand_token_db & Hrun).
  unfold Decrypt, decryptWithKey in Hrun. run_inv.
  match goal with Hi : insert_runtime_credential _ _ _ = Ok _ |- _ =>
    apply insert_runtime_credential_Ok in Hi as -> end.
  rewrite Hw1. subst. eexists _, _. by split_and!.
Qed.

Lemma find_login_Some username db uid u :
  find_login username db = Some (uid, u) ->
  users db !! uid = Some u /\ u_username u = username /\ u_status u <> UDeleted.
Proof.
  intros [Hu HP]%head_select_Some. rewrite andb_true_iff, negb_true_iff, bool_decide_eq_true,
    bool_decide_eq_false in HP. tauto.
Qed.

(** The database after a client login, table by table. *)
Lemma Login_client_run username password ip ua w r w' :
  Login username password "client_panel" ip ua w = (Ok r, w') ->
  exists u u' s t c,
    let uid := us_ID (lr_User r) in
    let sid := lr_SessionID r in
    users (w_db w) !! uid = Some u /\ u_username u = username /\ u_role u = RUser /\
    u_status u = UActive /\ verify_password (u_password_hash u) password = true /\
    users (w_db w') !! uid = Some u' /\ u_generation u' = u_generation u + 1 /\
    (forall k, k <> uid -> users (w_db w') !! k = users (w_db w) !! k) /\
    sessions (w_db w) !! sid = None /\
    (forall k x, sessions (w_db w) !! k = Some x -> s_hash x <> s_hash s) /\
    sessions (w_db w') = <[sid := s]> (update_where
      (fun _ s => (s_user_id s == uid) && (s_channel s == ClientPanel) && unrevoked s)
      (revoke_session t "SESSION_REPLACED") (sessions (w_db w))) /\
    s_user_id s = uid /\ s_channel s = ClientPanel /\ s_revoked s = None /\
    s_hash s = sha256Hex (lr_Token r) /\ s_generation s = u_generation u + 1 /\
    s_expires s = lr_SessionExpires r /\
    runtime_credentials (w_db w') !! c = Some
      {| rc_user_id := uid; rc_session_id := sid; rc_generation := u_generation u + 1;
         rc_token_hash := sha256Hex (lr_RuntimeCredential r);
         rc_expires := lr_SessionExpires r; rc_revoked := None; rc_created := s_created s |} /\
    exists rs, runtime_state (w_db w') !! uid = Some rs /\ rs_active_session rs = Some sid.
Proof.
  unfold Login. intros Hrun. apply bind_Ok in Hrun as (? & w0 & Hg & Hrun).
  apply fail_if_Ok in Hg as [_ ->].
  apply transaction_Ok in Hrun as [_ [(w1 & Hb & _ & ->) | (w1 & Hb & ->)]];
    unfold login_tx in Hb; cbn [String.eqb Ascii.eqb Bool.eqb andb] in Hb.
  2: { run_inv. all: simplify_eq. }
  apply bind_Ok in Hb as ([uid u] & w2 & Hq & Hb).
  apply (proj1 (map_err_Ok _ _ _ _ _)), query_row_Ok in Hq as (_ & Hq & ->).
  apply find_login_Some in Hq as (Hu & Hname & _). cbn beta iota in Hb.
  repeat match type of Hb with (fail_if _ _ ≫= _) _ = _ =>
    apply bind_Ok in Hb as (? & ? & [? ->]%fail_if_Ok & Hb) end.
  apply bind_Ok in Hb as (g & w3 & Hg & Hb).
  apply replace_client_sessions_Ok in Hg as (t & u0 & u' & Hu0 & -> & Hu' & Hgen & Hs & Hother).
  apply bind_Ok in Hb as (token & w4 & Htok & Hb).
  apply (rand_token_db token) in Htok as Hw4.
  apply bind_Ok in Hb as (sid & w5 & [-> ->]%newID_Ok & Hb).
  apply bind_Ok in Hb as (csrf & w6 & [<- ->]%ret_Ok & Hb).
  apply bind_Ok in Hb as (tl & w7 & [-> ->]%now_Ok & Hb).
  apply bind_Ok in Hb as ([] & w8 & (_ & db1 & Hins & ->)%exec_checked_Ok & Hb).
  cbn [channel_of String.eqb Ascii.eqb Bool.eqb] in Hins.
  apply insert_session_Ok in Hins as (Hnone & Hfresh & _ & Hdb1).
  apply bind_Ok in Hb as ([[[rt fu] fs] tr] & w9 & Hrt & Hb).
  apply issue_runtime_credential_Ok in Hrt as (c & rc & Hw9 & Hrt & Hrc).
  cbn [fst] in Hrt. rewrite Hrt in Hrc. clear Hrt.
  apply bind_Ok in Hb as ([] & w10 & (_ & db2 & Hup & ->)%exec_checked_Ok & Hb).
  apply upsert_runtime_state_Ok in Hup as (f & Hdb2 & rs & Hrs & Hact).
  apply ret_Ok in Hb as [[= <-] ->]. cbn [w_db w_tick step] in *.
  match type of Hfresh with context [s_hash ?s0] => match s0 with mkSession _ _ _ _ _ _ _ _ _ _ _ _ _ =>
    set (s := s0) in * end end.
  assert (u0 = u) as -> by congruence.
  exists u, u', s, t, c. cbv zeta. cbn [lr_User lr_SessionID user_summary us_ID].
  assert (users db2 = users (w_db w3)) as -> by (rewrite Hdb2, Hw9, Hdb1, Hw4; reflexivity).
  assert (sessions db2 = <[env_id (w_tick w4) := s]> (sessions (w_db w3))) as ->
    by (rewrite Hdb2, Hw9, Hdb1, Hw4; reflexivity).
  assert (runtime_credentials db2 = <[c := rc]> (runtime_credentials (w_db w3))) as ->
    by (rewrite Hdb2, Hw9, Hdb1, Hw4; reflexivity).
  rewrite Hw4, Hs in *. rewrite lookup_update_where, fmap_None in Hnone.
  rewrite negb_false_iff, bool_decide_eq_true in *.
  split_and!; try done.
  - intros k y Hy. specialize (Hfresh k). rewrite lookup_update_where, Hy in Hfresh.
    simpl in Hfresh. specialize (Hfresh _ eq_refl). by case_match.
  - rewrite lookup_insert_eq. by rewrite Hrc.
  - by exists rs.
Qed.

(** A client login leaves exactly one live client session of the user.
    The password was the stored one of an active account with the user role;
    the generation has gone up by one; the session, the runtime credential and
    the runtime state are those the answer names, all of the new generation;
    every other client session of the user is revoked, with the reason
    SESSION_REPLACED if this login revoked it; and the accounts and sessions
    of other users are untouched. *)
Theorem client_login_replaces username password ip ua w r w' :
  Login username password "client_panel" ip ua w = (Ok r, w') ->
  let uid := us_ID (lr_User r) in
  exists u u' s c rs,
    users (w_db w) !! uid = Some u /\ u_username u = username /\ u_role u = RUser /\
    u_status u = UActive /\ verify_password (u_password_hash u) password = true /\
    users (w_db w') !! uid = Some u' /\ u_generation u' = u_generation u + 1 /\
    sessions (w_db w') !! lr_SessionID r = Some s /\ live_client s = true /\
    s_user_id s = uid /\ s_hash s = sha256Hex (lr_Token r) /\
    s_generation s = u_generation u' /\
    (exists k, runtime_credentials (w_db w') !! k = Some c /\ rc_session_id c = lr_SessionID r /\
       rc_user_id c = uid /\ rc_generation c = u_generation u' /\ rc_revoked c = None /\
       rc_token_hash c = sha256Hex (lr_RuntimeCredential r)) /\
    runtime_state (w_db w') !! uid = Some rs /\ rs_active_session rs = Some (lr_SessionID r) /\
    (forall k x, sessions (w_db w') !! k = Some x -> live_client x = true ->
       s_user_id x = uid -> k = lr_SessionID r) /\
    (forall k x, sessions (w_db w) !! k = Some x -> live_client x = true -> s_user_id x = uid ->
       exists x', sessions (w_db w') !! k = Some x' /\
         s_revoke_reason x' = Some "SESSION_REPLACED"%string) /\
    (forall k x, sessions (w_db w) !! k = Some x -> s_user_id x <> uid ->
       sessions (w_db w') !! k = Some x) /\
    (forall k, k <> uid -> users (w_db w') !! k = users (w_db w) !! k).
Proof.
  intros (u & u' & s & t & c & Hrun)%Login_client_run uid. cbv zeta in Hrun. fold uid in Hrun.
  destruct Hrun as (Hu & Hn & Hrole & Hst & Hpw & Hu' & Hgen & Hoth & Hnone & Hfr & Hs & Hsu
    & Hch & Hrev & Hh & Hg & Hexp & Hc & rs & Hrs & Hact).
  exists u, u', s. eexists. exists rs. rewrite Hgen. split_and!; try done.
  - rewrite Hs. apply lookup_insert_eq.
  - unfold live_client. rewrite andb_true_iff, !bool_decide_eq_true. done.
  - exists c. by rewrite Hc.
  - intros k x. rewrite Hs, lookup_insert. case_decide; [done|].
    intros (x0 & _ & ->)%lookup_update_where_Some. unfold live_client.
    rewrite andb_true_iff, !bool_decide_eq_true.
    destruct (_ && _) eqn:E; [by intros [_ ?]|]. intros [Hc1 Hc2] Hc3.
    by rewrite Hc1, Hc3, (proj2 (bool_decide_eq_true (s_revoked x0 = None)) Hc2 :
      unrevoked x0 = true), !bool_decide_true in E.
  - intros k x Hk. unfold live_client. rewrite andb_true_iff, !bool_decide_eq_true.
    intros [Hc1 Hc2] Hc3. rewrite Hs, lookup_insert_ne by congruence.
    rewrite lookup_update_where, Hk. simpl. unfold unrevoked.
    rewrite Hc1, Hc2, Hc3, !bool_decide_true by done. by eexists.
  - intros k x Hk Hne. rewrite Hs, lookup_insert_ne by congruence.
    rewrite lookup_update_where, Hk. simpl. by rewrite (bool_decide_false (s_user_id x = uid)).
Qed.
End Login.

(** ** The invariant of the sessions table *)

(** What the UNIQUE constraint and the partial index promise: a token hash
    names one session, and a user has at most one live client session. *)
Definition sessions_ok (db : DB) : Prop :=
  (forall k1 k2 s1 s2, sessions db !! k1 = Some s1 -> sessions db !! k2 = Some s2 ->
     s_hash s1 = s_hash s2 -> k1 = k2) /\
  (forall k1 k2 s1 s2, sessions db !! k1 = Some s1 -> sessions db !! k2 = Some s2 ->
     live_client s1 = true -> live_client s2 = true -> s_user_id s1 = s_user_id s2 -> k1 = k2).

Lemma sessions_ok_same db db' : sessions db' = sessions db -> sessions_ok db -> sessions_ok db'.
Proof. unfold sessions_ok. by intros ->. Qed.

Lemma sessions_ok_update P f db :
  (forall s, s_hash (f s) = s_hash s) -> (forall s, s_user_id (f s) = s_user_id s) ->
  (forall k s, P k s = true -> live_client (f s) = true -> live_client s = true) ->
  sessions_ok db -> sessions_ok (db <| sessions ::= update_where P f |>).
Proof.
  intros Hh Hu Hl [H1 H2].
  split; intros k1 k2 s1 s2; simpl;
    intros (x1 & L1 & ->)%lookup_update_where_Some (x2 & L2 & ->)%lookup_update_where_Some.
  - intros He. apply (H1 k1 k2 x1 x2 L1 L2). repeat case_match; by rewrite ?Hh in He.
  - intros Ha Hb He. apply (H2 k1 k2 x1 x2 L1 L2).
    + destruct (P k1 x1) eqn:E; eauto.
    + destruct (P k2 x2) eqn:E; eauto.
    + repeat case_match; by rewrite ?Hu in He.
Qed.

Lemma sessions_ok_insert id r db db' :
  insert_session id r db = Ok db' -> sessions_ok db -> sessions_ok db'.
Proof.
  unfold insert_session. rewrite !reject_Ok, taken_false, duplicate_false.
  intros (Hid & Hh & Hl & _ & [= <-]) [H1 H2].
  assert (forall k s, sessions db !! k = Some s -> s_hash s <> s_hash r) as Hh'.
  { intros k s Hk He. apply Hh in Hk. by rewrite He, bool_decide_true in Hk. }
  assert (forall k s, sessions db !! k = Some s -> live_client s = true -> live_client r = true ->
    s_user_id s <> s_user_id r) as Hl'.
  { intros k s Hk Hs Hr He. rewrite Hr in Hl. simpl in Hl. rewrite duplicate_false in Hl.
    apply Hl in Hk. by rewrite Hs, He, bool_decide_true in Hk. }
  split; intros k1 k2 s1 s2; simpl; rewrite !lookup_insert;
    intros L1 L2; case_decide; case_decide; simplify_eq; eauto.
  - intros He. by edestruct Hh'.
  - intros He. by edestruct Hh'.
  - intros Ha Hb He. by edestruct Hl'.
  - intros Ha Hb He. by edestruct Hl'.
Qed.

Section Invariant.
Context `{Env}.

Ltac other_table :=
  lazymatch goal with
  | Hc : ?f ?db = Ok ?db' |- sessions_ok ?db' => 
      revert Hc; unfold upsert_runtime_state, insert_runtime_credential, insert_audit_log,
        insert_user, insert_frp_credential, rename_user, insert_reauth_ticket;
      try case_match; rewrite ?reject_Ok; intros; destruct_and?; simplify_eq;
      by eapply sessions_ok_same; [|eassumption]
  | Hd : sessions_ok ?db |- sessions_ok _ => by apply (sessions_ok_same db)
  end.

End Invariant.

(** ** Bearers *)

(** The key under which a bearer is looked up. *)
Definition bearer_hash `{Env} (bearer : string) : string :=
  sha256Hex (TrimSpace (TrimPrefix bearer "Bearer ")).

Lemma find_session_Some hash db k s u :
  find_session hash db = Some (k, s, u) ->
  sessions db !! k = Some s /\ s_hash s = hash /\ users db !! s_user_id s = Some u.
Proof.
  unfold find_session. intros Hh.
  assert ((k, s, u) ∈ omap (fun '(k, s) => u ← users db !! s_user_id s; Some (k, s, u))
    (select (fun _ s => s_hash s == hash) (sessions db))) as Hin.
  { destruct (omap _ _); [done|]. injection Hh as ->. left. }
  apply list_elem_of_omap in Hin as ([k' s'] & [Hk Hm]%elem_of_select & Hx).
  apply bool_decide_eq_true in Hm. destruct (users db !! s_user_id s') eqn:Hu; [|done].
  simpl in Hx. by simplify_eq.
Qed.

Lemma find_session_unique db k s u :
  sessions_ok db -> sessions db !! k = Some s -> users db !! s_user_id s = Some u ->
  find_session (s_hash s) db = Some (k, s, u).
Proof.
  intros [Hu _] Hk Hus. unfold find_session.
  rewrite (select_singleton _ _ k s Hk); [simpl; by rewrite Hus|by apply bool_decide_true|].
  intros k' s' Hk' He%bool_decide_eq_true. eauto.
Qed.

Section Bearers.
Context `{Env}.

(** The run of an accepted bearer. *)
Lemma Authenticate_run bearer w ac w' :
  Authenticate bearer w = (Ok ac, w') ->
  exists k s u t,
    t = env_now (S (w_tick w)) /\ sessions (w_db w) !! k = Some s /\ s_hash s = bearer_hash bearer /\
    users (w_db w) !! s_user_id s = Some u /\ s_revoked s = None /\ u_status u = UActive /\
    t <= s_expires s /\ t <= s_idle_expires s /\
    (s_channel s = ClientPanel -> u_generation u = s_generation s) /\
    ac = auth_context k s u /\
    (w_db w' = w_db w \/ w_db w' = (w_db w) <| sessions ::= <[k := touch t s]> |>).
Proof.
  unfold Authenticate. intros Hrun. apply bind_Ok in Hrun as (? & w0 & [_ ->]%fail_if_Ok & Hrun).
  apply bind_Ok in Hrun as ([[k s] u] & w1 & Hq & Hrun).
  apply (proj1 (map_err_Ok _ _ _ _ _)), query_row_Ok in Hq as (_ & Hq & ->).
  apply find_session_Some in Hq as (Hk & Hh & Hu). run_inv. subst ac.
  cbn [w_db w_tick step] in *.
  match goal with Hg : _ <$> users _ !! s_user_id s = Some _ |- _ =>
    rewrite Hu in Hg; injection Hg as <- end.
  repeat match goal with Hb : _ || _ = false |- _ => apply orb_false_iff in Hb as [? ?] end.
  rewrite ?negb_false_iff, ?bool_decide_eq_true, ?Z.ltb_ge in *.
  match goal with Hr : unrevoked s = true |- _ => pose proof Hr as Hrev;
    apply bool_decide_eq_true in Hr end.
  eexists k, s, u, _. split_and!; try done.
  - intros Hc. match goal with Hg : _ && (s_channel s == ClientPanel) = false |- _ =>
      rewrite Hc, bool_decide_true, andb_true_r, negb_false_iff, Z.eqb_eq in Hg by done; exact Hg end.
  - match goal with Hw : _ = snd (exec _ _) |- _ => rewrite Hw end. unfold exec. case_match; [by left|right]. cbn [snd w_db step].
    unfold set. f_equal. apply update_where_one; [done| |].
    + by rewrite bool_decide_true, Hrev.
    + intros k' s' [?%bool_decide_eq_true _]%andb_true_iff. done.
Qed.

(** What an accepted bearer proves.  A session row carries its hash; that
    session is not revoked, its user is active, the clock read after the lookup
    has passed neither expiry, and
    for a client session the generation is the user's current one; the
    caller's context is that row's, and the database changes at most by the
    renewal of that session's idle timeout. *)
Theorem Authenticate_sound bearer w ac w' :
  Authenticate bearer w = (Ok ac, w') ->
  exists k s u t,
    t = env_now (S (w_tick w)) /\ sessions (w_db w) !! k = Some s /\ s_hash s = bearer_hash bearer /\
    users (w_db w) !! s_user_id s = Some u /\ s_revoked s = None /\ u_status u = UActive /\
    t <= s_expires s /\ t <= s_idle_expires s /\
    (s_channel s = ClientPanel -> u_generation u = s_generation s) /\
    ac = auth_context k s u /\
    (w_db w' = w_db w \/ w_db w' = (w_db w) <| sessions ::= <[k := touch t s]> |>).
Proof. apply Authenticate_run. Qed.

(** A replaced bearer is dead.  Whoever holds the bearer of a client
    session of a user is refused, without any effect on the database, from the
    moment another client login of that user has committed. *)
Theorem replaced_bearer_refused bearer k s username password ip ua w r w' w2 :
  sessions_ok (w_db w) -> sessions (w_db w) !! k = Some s ->
  s_hash s = bearer_hash bearer -> s_channel s = ClientPanel ->
  Login username password "client_panel" ip ua w = (Ok r, w') ->
  s_user_id s = us_ID (lr_User r) -> w_db w2 = w_db w' ->
  is_ok (fst (Authenticate bearer w2)) = false /\
  w_db (snd (Authenticate bearer w2)) = w_db w'.
Proof.
  intros [Huniq _] Hk Hh Hch Hlogin Hsu Hw2.
  apply Login_client_run in Hlogin as (u & u' & s' & t & c & Hrun). cbv zeta in Hrun.
  destruct Hrun as (_ & _ & _ & _ & _ & _ & _ & _ & Hnone & Hfr & Hs & _).
  unfold Authenticate.
  destruct (String.eqb (TrimSpace (TrimPrefix bearer "Bearer ")) ""); [done|].
  rewrite run_fail_if_false, run_query_row_or.
  destruct (env_fault (w_tick w2)); [done|].
  destruct (find_session _ _) as [[[k2 s2] u2]|] eqn:Hf; [|done].
  apply find_session_Some in Hf as (Hk2 & Hh2 & _).
  rewrite Hw2, Hs, lookup_insert in Hk2. fold (bearer_hash bearer) in Hh2.
  assert (unrevoked s2 = false) as ->; [|done].
  case_decide as D.
  - injection Hk2 as <-. exfalso. apply (Hfr k s Hk). congruence.
  - apply lookup_update_where_Some in Hk2 as (s0 & Hk2 & ->).
    assert (s_hash s0 = bearer_hash bearer) as Hh0 by (by case_match).
    pose proof (Huniq k k2 s s0 Hk Hk2 ltac:(congruence)) as ->.
    assert (s0 = s) as -> by congruence.
    rewrite Hch, Hsu, !bool_decide_true by done. simpl.
    destruct (unrevoked s) eqn:Hr; [done|exact Hr].
Qed.
End Bearers.

(** ** Re-authentication tickets *)

Section Tickets.
Context `{Env}.
(** [crypto/rand.Read] fills the whole buffer it is given. *)
Context (rand_full : forall n k b, env_random n k = Some b -> String.length b = k).

Lemma randomToken_trim tok w w' :
  randomToken w = (Ok tok, w') -> TrimSpace tok = tok /\ String.eqb tok "" = false.
Proof.
  unfold randomToken, randomSecret. intros Hrun. run_inv. subst.
  split; [apply TrimSpace_token|]. apply String.eqb_neq, b64_encode_nonempty.
  match goal with Hr : env_random _ _ = Some _ |- _ => apply rand_full in Hr end. by intros ->.
Qed.

Lemma IssueReauthTicket_run ac password w ticket expires w' :
  IssueReauthTicket ac password w = (Ok (ticket, expires), w') ->
  exists id x, reauth_tickets (w_db w') !! id = Some x /\
    t_user_id x = ac_UserID ac /\ t_generation x = ac_Generation ac /\
    t_token_hash x = sha256Hex ticket /\ t_expires x = expires /\
    (forall k y, reauth_tickets (w_db w') !! k = Some y -> t_token_hash y = sha256Hex ticket -> k = id) /\
    TrimSpace ticket = ticket /\ String.eqb ticket "" = false /\
    exists u, users (w_db w) !! ac_UserID ac = Some u /\ u_status u = UActive /\
      verify_password (u_password_hash u) password = true.
Proof.
  unfold IssueReauthTicket. intros Hrun.
  apply bind_Ok in Hrun as (? & w0 & [_ ->]%fail_if_Ok & Hrun).
  apply bind_Ok in Hrun as ([] & w1 & Hpw & Hrun).
  apply bind_Ok in Hrun as (tok & w2 & Htok & Hrun).
  pose proof (randomToken_trim _ _ _ Htok) as [Htrim Hne].
  run_inv. simplify_eq.
  match goal with Hi : insert_reauth_ticket _ _ _ = Ok _ |- _ =>
    unfold insert_reauth_ticket in Hi; rewrite !reject_Ok, duplicate_false in Hi;
    destruct Hi as (_ & Hdup & _ & [= <-]) end.
  eexists _, _. split; [apply lookup_insert_eq|]. split_and!; try done.
  - intros k y. cbn [reauth_tickets set]. rewrite lookup_insert. case_decide; [done|].
    intros Hy He. specialize (Hdup k y Hy). simpl in Hdup. by rewrite bool_decide_true in Hdup.
  - unfold check_password in Hpw. run_inv. unfold active_user in *. cbn [w_db step] in *.
    destruct (users (w_db w) !! ac_UserID ac) as [u|]; [|done]. simpl in *.
    exists u. destruct (u_status u == UActive) eqn:E; [|done]. simplify_eq/=.
    rewrite bool_decide_eq_true in E. by rewrite negb_false_iff in *.
Qed.

(** A ticket proves a password check of the same session generation, for
    five minutes.  A ticket is issued only for the stored password of an
    active user; while the tickets table keeps it, it is accepted from a
    caller of the same user and generation until its expiry, as SQLite compares
    the texts, and from no other caller and at no other time. *)
Theorem reauth_ticket_scope {NF : NoFaults} ac password w ticket expires w' ac2 w2 :
  IssueReauthTicket ac password w = (Ok (ticket, expires), w') ->
  reauth_tickets (w_db w2) = reauth_tickets (w_db w') ->
  (exists u, users (w_db w) !! ac_UserID ac = Some u /\ u_status u = UActive /\
     verify_password (u_password_hash u) password = true) /\
  (is_ok (fst (RequireReauthTicket ac2 ticket w2)) = true <->
   ac_UserID ac2 = ac_UserID ac /\ ac_Generation ac2 = ac_Generation ac /\
   sql_lt (env_now (w_tick w2)) expires = true).
Proof.
  intros (id & x & Hx & Hxu & Hxg & Hxh & Hxe & Hun & Htrim & Hne & Hu)%IssueReauthTicket_run Hw2.
  split; [done|]. unfold RequireReauthTicket. rewrite Htrim, Hne, run_fail_if_false, run_now, run_query.
  cbn [w_db w_tick step]. rewrite Hw2.
  set (P := ticket_valid ac2 (sha256Hex ticket) (env_now (w_tick w2))).
  assert (count_where P (reauth_tickets (w_db w')) = if P id x then 1 else 0) as ->.
  { destruct (P id x) eqn:E.
    - unfold count_where. rewrite (select_singleton _ _ id x); try done.
      intros k y Hk Hy. apply (Hun k y Hk). unfold P, ticket_valid in Hy.
      rewrite !andb_true_iff, !bool_decide_eq_true in Hy. tauto.
    - apply count_where_zero. intros k y Hk. destruct (P k y) eqn:E2; [|done].
      assert (k = id) as ->.
      { apply (Hun k y Hk). unfold P, ticket_valid in E2.
        rewrite !andb_true_iff, !bool_decide_eq_true in E2. tauto. }
      congruence. }
  unfold P, ticket_valid. rewrite Hxu, Hxg, Hxh, Hxe.
  rewrite (bool_decide_true (sha256Hex ticket = _)) by done. rewrite andb_true_r.
  destruct (_ && _) eqn:E; simpl.
  - rewrite !andb_true_iff, bool_decide_eq_true, Z.eqb_eq in E. naive_solver.
  - split; [done|]. intros (Ea & Eb & Ec).
    by rewrite Ea, Eb, Ec, bool_decide_true, Z.eqb_refl in E.
Qed.
End Tickets.

(** ** Instances *)

Definition sample_login : M LoginResult :=
  Login "alice" sample_password "client_panel" "10.0.0.1" "agent".

Lemma client_login_replaces_witness :
  exists r w', sample_login (sample_world sample_db) = (Ok r, w') /\
    exists s, sessions (w_db w') !! lr_SessionID r = Some s /\ live_client s = true.
Proof.
  sample_run (sample_login (sample_world sample_db)) r w' E (fun (_ : LoginResult) (_ : World) => true) HP. exists r, w'. split; [reflexivity|].
  destruct (client_login_replaces _ _ _ _ _ _ _ E)
    as (u & u' & s & c & rs & _ & _ & _ & _ & _ & _ & _ & Hs & Hl & _).
  exists s. exact (conj Hs Hl).
Defined.

(** The sample database after a first client login, whose bearer is the token
    [randomToken] produced. *)
Definition sample_logged_in : World := snd (sample_login (sample_world sample_db)).
Definition sample_bearer : string :=
  match fst (sample_login (sample_world sample_db)) with Ok r => lr_Token r | Err _ => "" end.
Definition sample_caller : AuthContext :=
  match fst (Authenticate sample_bearer sample_logged_in) with
  | Ok ac => ac
  | Err _ => mkAuthContext "" "" "" RUser UActive 0 ClientPanel false false 0 "" "" "" ""
  end.

Lemma sample_logged_in_ok : sessions_ok (w_db sample_logged_in).
Proof.
  assert (sessions (w_db sample_logged_in) = {[ "id-8"%string := default (mkSession "" "" AdminPanel 0 "" "" 0 0 0 None None "" 0)
    (sessions (w_db sample_logged_in) !! "id-8"%string) ]}) as E by (vm_compute; reflexivity).
  unfold sessions_ok. rewrite E. split; intros k1 k2 s1 s2 [<- _]%lookup_singleton_Some [<- _]%lookup_singleton_Some; done.
Qed.

Definition sample_session : Session :=
  default (mkSession "" "" AdminPanel 0 "" "" 0 0 0 None None "" 0)
    (sessions (w_db sample_logged_in) !! "id-8"%string).
Lemma sample_session_row :
  sessions (w_db sample_logged_in) !! "id-8"%string = Some sample_session.
Proof. vm_compute. reflexivity. Qed.

Lemma Authenticate_sound_witness :
  exists ac w2, Authenticate ("Bearer " ++ sample_bearer) sample_logged_in = (Ok ac, w2) /\
    exists k s, sessions (w_db sample_logged_in) !! k = Some s /\ s_revoked s = None.
Proof.
  sample_run (Authenticate ("Bearer " ++ sample_bearer) sample_logged_in) ac w2 E (fun (_ : AuthContext) (_ : World) => true) HP.
  exists ac, w2. split; [reflexivity|].
  destruct (Authenticate_sound _ _ _ _ E) as (k & s & u & t & _ & Hk & _ & _ & Hr & _).
  exists k, s. exact (conj Hk Hr).
Defined.

Lemma replaced_bearer_refused_witness :
  exists r w', sample_login sample_logged_in = (Ok r, w') /\
    is_ok (fst (Authenticate sample_bearer sample_logged_in)) = true /\
    is_ok (fst (Authenticate sample_bearer w')) = false.
Proof.
  sample_run (sample_login sample_logged_in) r w' E
    (fun r (_ : World) => String.eqb (us_ID (lr_User r)) "u-alice") HP. exists r, w'. split; [reflexivity|].
  split; [vm_compute; reflexivity|].
  eapply (replaced_bearer_refused sample_bearer "id-8" _ _ _ _ _ sample_logged_in r w' w');
    [exact sample_logged_in_ok|exact sample_session_row|vm_compute; reflexivity|vm_compute; reflexivity|exact E| |reflexivity].
  apply String.eqb_eq in HP. rewrite HP. vm_compute. reflexivity.
Defined.

Lemma reauth_ticket_scope_witness :
  exists ticket expires w', IssueReauthTicket sample_caller sample_password sample_logged_in
      = (Ok (ticket, expires), w') /\
    is_ok (fst (RequireReauthTicket sample_caller ticket w')) = true.
Proof.
  sample_run (IssueReauthTicket sample_caller sample_password sample_logged_in) p w' E
    (fun (p : string * Stamp) w => sql_lt (env_now (w_tick w)) (snd p)) HP.
  destruct p as [ticket expires]. exists ticket, expires, w'. split; [reflexivity|].
  apply (reauth_ticket_scope sample_rand_full _ _ _ _ _ _ sample_caller w' E eq_refl).
  exact (conj eq_refl (conj eq_refl HP)).
Defined.
