(* ===== verification/Mappings.v ===== *)
(** Port mappings ([server/internal/service/service.go], [ListMappings] to
    [ToggleMapping] and [allocatePort]): creation, revision, deletion and
    toggling under quotas, port leases, optimistic concurrency and idempotency
    keys. *)

From S2P Require Import Prelude StateError GoText GoNet Timestamps Schema Effects Logic Validation Store Jobs Sessions.
From Stdlib Require Import Ascii String.
Open Scope Z_scope.

Record PageInfo := mkPageInfo { pi_Page : Z; pi_PageSize : Z; pi_Total : Z }.

Record ToggleMappingOptions := mkToggleMappingOptions {
  to_ExpectedConfigVersion : option Z;
  to_ExpectedRevision : option Z;
  to_IdempotencyKey : string
}.

(** ** Queries *)

(** [lifecycle_status IN ('reserved','pending_apply')] *)
Definition lifecycle_pending (s : Lifecycle) : bool := (s == LReserved) || (s == LPendingApply).

(** [LEFT JOIN mapping_revisions r ON r.id=COALESCE(m.pending_revision_id,m.active_revision_id)] *)
Definition current_revision (db : DB) (m : Mapping) : option Revision :=
  id ← match m_pending_rev m with Some p => Some p | None => m_active_rev m end;
  revisions db !! id.

Definition mapping_view (db : DB) (k : string) (m : Mapping) : MappingView :=
  let r := current_revision db m in
  {| mv_id := k; mv_user_id := m_user_id m; mv_name := m_name m; mv_proxy_type := m_proxy_type m;
     mv_lifecycle := m_lifecycle m; mv_desired := m_desired m; mv_observed := m_observed m;
     mv_revision := from_option r_revision 0 r; mv_local_ip := from_option r_local_ip ""%string r;
     mv_local_port := from_option r_local_port 0 r; mv_remote_port := r ≫= r_remote_port;
     mv_created := m_created m; mv_updated := m_updated m |}.

(** [WHERE user_id=? AND lifecycle_status <> 'deleted'] *)
Definition owned_mapping (uid : string) (_ : string) (m : Mapping) : bool :=
  (m_user_id m == uid) && (m_lifecycle m != LDeleted).

(** [WHERE id=? AND user_id=? AND lifecycle_status <> 'deleted'] *)
Definition owned_mapping_id (id uid : string) (k : string) (m : Mapping) : bool :=
  (k == id) && (m_user_id m == uid) && (m_lifecycle m != LDeleted).

Definition count_mappings (uid : string) (db : DB) : Z :=
  count_where (owned_mapping uid) (mappings db).

Definition count_pending_mappings (uid : string) (db : DB) : Z :=
  count_where (fun _ m => (m_user_id m == uid) && lifecycle_pending (m_lifecycle m)) (mappings db).

(** [FROM port_leases p JOIN mappings m ON m.id=p.mapping_id WHERE m.user_id=? AND
    (p.lease_role='pending' OR m.lifecycle_status IN (...))] *)
Definition count_pending_ports (uid : string) (db : DB) : Z :=
  count_where (fun _ l =>
    match mappings db !! l_mapping_id l with
    | Some m => (m_user_id m == uid) &&
                ((l_role l == LeasePending) || lifecycle_pending (m_lifecycle m))
    | None => false
    end) (leases db).

(** [SELECT COALESCE(MAX(revision),0) FROM mapping_revisions WHERE mapping_id=?];
    revisions are positive. *)
Definition latest_revision (mid : string) (db : DB) : Z :=
  fold_right Z.max 0 (map (fun kr => r_revision kr.2)
    (select (fun _ r => r_mapping_id r == mid) (revisions db))).

Definition newest_mapping (a b : string * Mapping) : bool := sql_lt (m_created b.2) (m_created a.2).

(** ** Statements *)

(** [UPDATE users SET desired_config_version=?,updated_at=? WHERE id=?] *)
Definition set_desired (uid : string) (version : Z) (t : Stamp) (db : DB) : DB :=
  db <| users ::= update_where (fun k _ => k == uid) (fun u =>
    u <| u_desired_config := version |> <| u_updated := t |>) |>.

(** [UPDATE mapping_revisions SET status='superseded' WHERE id=? AND status IN
    ('pending','applying')] *)
Definition supersede (rid : string) (db : DB) : DB :=
  db <| revisions ::= update_where
    (fun k r => (k == rid) && ((r_status r == RPending) || (r_status r == RApplying)))
    (fun r => r <| r_status := RSuperseded |>) |>.

(** [DELETE FROM port_leases WHERE mapping_revision_id=? AND lease_role='pending'] *)
Definition release_pending (rid : string) (db : DB) : DB :=
  db <| leases ::= delete_where (fun _ l => (l_rev_id l == rid) && (l_role l == LeasePending)) |>.

Definition request_changes_port (remote current : option Z) : bool :=
  match remote with
  | None => false
  | Some p => match current with None => true | Some q => negb (p =? q) end
  end.

Section Mappings.
Context `{Env}.

(** *** Listing *)

Definition ListMappingsPage (userID : string) (page pageSize : Z)
    : M (list MappingView * PageInfo) :=
  let '(page, pageSize) := normalizePage page pageSize in
  total ← query (count_mappings userID);
  let offset := page_offset page pageSize in
  rows ← query (fun db =>
    map (fun km => mapping_view db km.1 km.2)
      (page_of pageSize offset
        (order_by newest_mapping (select (owned_mapping userID) (mappings db)))));
  ret (rows, mkPageInfo page pageSize total).

Definition ListMappings (userID : string) : M (list MappingView) :=
  '(items, _) ← ListMappingsPage userID 1 1000000;
  ret items.

(** *** Allocation *)

Fixpoint allocate_from (n : nat) (port : Z) : M Z :=
  match n with
  | O => fail (ErrMsg "no allocatable port")
  | S n' =>
      count ← query (fun db => count_where (fun _ l => l_port l =? port) (leases db));
      if count =? 0 then ret port else allocate_from n' (port + 1)
  end.

Definition allocatePort (start end_ : Z) : M Z :=
  allocate_from (Z.to_nat (end_ - start + 1)) start.

(** *** Creation *)

(** The stored response of an idempotent replay. *)
Definition replay_mapping (bodyHash : string) (r : Idempotency) : M MappingView :=
  fail_if (negb (String.eqb (i_body_hash r) bodyHash)) ErrIdempotencyReuse;;
  match i_response r with
  | RespMapping v => ret v
  | _ => fail (ErrMsg "json: cannot unmarshal")
  end.

Definition mapping_body_hash (req : MappingRequest) : string :=
  requestHash (HbMapping (mq_name req) (mq_proxy_type req) (mq_local_ip req) (mq_local_port req)
    (mq_remote_port req) (mq_expected_config req) (mq_expected_revision req)).

Definition conflicts (expected : option Z) (actual : Z) : bool :=
  match expected with Some v => negb (v =? actual) | None => false end.

(** The port of a new tcp or udp mapping: within quota, requested or
    allocated, in the configured range and not the port frps binds. *)
Definition choose_port (uid : string) (requested : option Z) (maxPendingPortLeases : Z) : M (option Z) :=
  pendingPorts ← query (count_pending_ports uid);
  fail_if (maxPendingPortLeases <=? pendingPorts) (ErrMsg "pending port lease quota exceeded");;
  port ← (if (requested == None) || (requested == Some 0)
          then allocatePort (cfg_PortStart env_config) (cfg_PortEnd env_config)
          else or_fail (ErrMsg "unreachable") requested);
  fail_if ((port <? cfg_PortStart env_config) || (cfg_PortEnd env_config <? port) ||
           (port =? cfg_FRPSBindPort env_config)) (ErrMsg "port not allowed");;
  ret (Some port).

Definition insert_port_lease (mappingID revisionID : string) (remotePort : option Z)
    (role : LeaseRole) (t : Stamp) : M unit :=
  match remotePort with
  | None => ret tt
  | Some port =>
      leaseID ← newID;
      map_err (fun e => if is_unique_error e then ErrPortReserved else e)
        (exec_checked (insert_lease leaseID
          {| l_mapping_id := mappingID; l_rev_id := revisionID; l_port := port;
             l_role := role; l_created := t |}))
  end.

Definition is_tcp_udp (ty : ProxyType) : bool := (ty == Tcp) || (ty == Udp).

Definition new_mapping (uid : string) (req : MappingRequest) (ty : ProxyType)
    (revisionID : string) (t : Stamp) : Mapping :=
  {| m_user_id := uid; m_name := TrimSpace (mq_name req); m_proxy_type := ty;
     m_lifecycle := LPendingApply; m_desired := DEnabled; m_observed := ObOffline;
     m_active_rev := None; m_pending_rev := Some revisionID; m_created := t; m_updated := t |}.

Definition new_revision (mappingID : string) (n : Z) (req : MappingRequest)
    (remotePort : option Z) (t : Stamp) : Revision :=
  {| r_mapping_id := mappingID; r_revision := n; r_local_ip := mq_local_ip req;
     r_local_port := mq_local_port req; r_remote_port := remotePort; r_status := RPending;
     r_created := t; r_applied := None |}.

(** The transaction of a creation; the second component names the operation
    of a fresh mapping, [None] for a replayed response. *)
Definition create_mapping_tx (ac : AuthContext) (req : MappingRequest) (ty : ProxyType)
    (key bodyHash : string) : M (outcome (MappingView * option string)) :=
  let uid := ac_UserID ac in
  existing ← attempt (query_row (find_idempotency ac "POST" "/api/v1/mappings" key));
  match existing with
  | Ok r => item ← replay_mapping bodyHash r; ret (Rollback (item, None))
  | Err _ =>
      u ← map_err (fun _ => ErrForbidden) (query_row (active_user uid));
      let desired := u_desired_config u in
      fail_if (conflicts (mq_expected_config req) desired) ErrConfigConflict;;
      count ← map_err (fun _ => ErrMsg "mapping quota exceeded") (query (count_mappings uid));
      fail_if (u_max_mappings u <=? count) (ErrMsg "mapping quota exceeded");;
      pendingMappings ← query (count_pending_mappings uid);
      fail_if (u_max_pending_mappings u <=? pendingMappings)
        (ErrMsg "pending mapping quota exceeded");;
      remotePort ← (if is_tcp_udp ty
                    then choose_port uid (mq_remote_port req) (u_max_pending_port_leases u)
                    else ret (mq_remote_port req));
      t ← nowString;
      mappingID ← newID;
      revisionID ← newID;
      exec_checked (insert_mapping mappingID (new_mapping uid req ty revisionID t));;
      exec_checked (insert_revision revisionID (new_revision mappingID 1 req remotePort t));;
      insert_port_lease mappingID revisionID remotePort LeaseActive t;;
      exec (set_desired uid (desired + 1) t);;
      operationID ← newID;
      exec_checked (insert_operation operationID
        (new_operation (Some uid) "mapping" mappingID "create" "mapping" "reserved" (Some key) t));;
      let item := {| mv_id := mappingID; mv_user_id := uid; mv_name := TrimSpace (mq_name req);
                     mv_proxy_type := ty; mv_lifecycle := LPendingApply; mv_desired := DEnabled;
                     mv_observed := ObOffline; mv_revision := 1; mv_local_ip := mq_local_ip req;
                     mv_local_port := mq_local_port req; mv_remote_port := remotePort;
                     mv_created := t; mv_updated := t |} in
      record_idempotency ac "POST" "/api/v1/mappings" key bodyHash 201 (RespMapping item)
        (Some operationID) t;;
      ret (Commit (item, Some operationID))
  end.

Definition CreateMapping (ac : AuthContext) (req : MappingRequest) (idempotencyKey : string)
    : M MappingView :=
  require (validateMapping req);;
  ty ← or_fail (ErrMsg "unsupported proxy type") (proxy_type_of (mq_proxy_type req));
  key ← key_or_new idempotencyKey;
  '(item, fresh) ← transaction (create_mapping_tx ac req ty key (mapping_body_hash req));
  match fresh with
  | None => ret item
  | Some operationID =>
      ignore (Audit ac "mapping_created" "mapping" (mv_id item) "success"
        [("proxy_type"%string, PStr (mq_proxy_type req)); ("revision"%string, PInt 1)] operationID);;
      ret item
  end.

(** *** Update *)

(** [WHERE m.id=? AND m.user_id=? AND m.lifecycle_status <> 'deleted'] *)
Definition find_mapping (id uid : string) (db : DB) : option (Mapping * MappingView) :=
  m ← mappings db !! id;
  if owned_mapping_id id uid id m then Some (m, mapping_view db id m) else None.

Definition update_port (ty : ProxyType) (requested current : option Z) : M (option Z) :=
  if is_tcp_udp ty then
    let port := if (requested == None) || (requested == Some 0) then current else requested in
    match port with
    | None => fail (ErrMsg "port not allowed")
    | Some p =>
        fail_if ((p <? cfg_PortStart env_config) || (cfg_PortEnd env_config <? p))
          (ErrMsg "port not allowed");;
        ret (Some p)
    end
  else ret requested.

(** [SET name=?,proxy_type=?,lifecycle_status='pending_apply',pending_revision_id=?,updated_at=?] *)
Definition revised (req : MappingRequest) (ty : ProxyType) (revisionID : string) (t : Stamp)
    (m : Mapping) : Mapping :=
  m <| m_name := TrimSpace (mq_name req) |> <| m_proxy_type := ty |>
    <| m_lifecycle := LPendingApply |> <| m_pending_rev := Some revisionID |>
    <| m_updated := t |>.

Definition update_mapping_tx (ac : AuthContext) (mappingID : string) (req : MappingRequest)
    (ty : ProxyType) (key path bodyHash : string)
    : M (outcome (MappingView * option string)) :=
  let uid := ac_UserID ac in
  existing ← attempt (query_row (find_idempotency ac "PUT" path key));
  match existing with
  | Ok r => item ← replay_mapping bodyHash r; ret (Rollback (item, None))
  | Err _ =>
      '(m, current) ← map_err (fun _ => ErrNotFound) (query_row (find_mapping mappingID uid));
      u ← query_row (fun db => users db !! uid);
      let desired := u_desired_config u in
      fail_if (conflicts (mq_expected_config req) desired) ErrConfigConflict;;
      fail_if (conflicts (mq_expected_revision req) (mv_revision current)) ErrRevisionConflict;;
      (if negb (lifecycle_pending (mv_lifecycle current)) then
         pendingMappings ← query (count_pending_mappings uid);
         fail_if (u_max_pending_mappings u <=? pendingMappings)
           (ErrMsg "pending mapping quota exceeded")
       else ret tt);;
      remotePort ← update_port ty (mq_remote_port req) (mv_remote_port current);
      let changes := request_changes_port remotePort (mv_remote_port current) in
      (if changes then
         pendingPorts ← query (count_pending_ports uid);
         fail_if (u_max_pending_port_leases u <=? pendingPorts)
           (ErrMsg "pending port lease quota exceeded")
       else ret tt);;
      t ← nowString;
      match m_pending_rev m with
      | Some pendingID => exec (supersede pendingID);; exec (release_pending pendingID)
      | None => ret tt
      end;;
      latest ← query (latest_revision mappingID);
      revisionID ← newID;
      exec_checked (insert_revision revisionID
        (new_revision mappingID (latest + 1) req remotePort t));;
      (if changes then insert_port_lease mappingID revisionID remotePort LeasePending t
       else ret tt);;
      exec (fun db => db <| mappings ::= update_where
        (fun k m => (k == mappingID) && (m_user_id m == uid)) (revised req ty revisionID t) |>);;
      exec (set_desired uid (desired + 1) t);;
      operationID ← newID;
      exec_checked (insert_operation operationID
        (new_operation (Some uid) "mapping" mappingID "update" "mapping" "reserved" (Some key) t));;
      let item := {| mv_id := mv_id current; mv_user_id := mv_user_id current;
                     mv_name := TrimSpace (mq_name req); mv_proxy_type := ty;
                     mv_lifecycle := LPendingApply; mv_desired := mv_desired current;
                     mv_observed := ObOffline; mv_revision := latest + 1;
                     mv_local_ip := mq_local_ip req; mv_local_port := mq_local_port req;
                     mv_remote_port := remotePort; mv_created := mv_created current;
                     mv_updated := t |} in
      record_idempotency ac "PUT" path key bodyHash 200 (RespMapping item) (Some operationID) t;;
      ret (Commit (item, Some operationID))
  end.

Definition UpdateMapping (ac : AuthContext) (mappingID : string) (req : MappingRequest)
    (idempotencyKey : string) : M MappingView :=
  require (validateMapping req);;
  ty ← or_fail (ErrMsg "unsupported proxy type") (proxy_type_of (mq_proxy_type req));
  key ← key_or_new idempotencyKey;
  let path := ("/api/v1/mappings/" ++ mappingID)%string in
  '(item, fresh) ← transaction
     (update_mapping_tx ac mappingID req ty key path (mapping_body_hash req));
  match fresh with
  | None => ret item
  | Some operationID =>
      ignore (Audit ac "mapping_updated" "mapping" mappingID "success"
        [("revision"%string, PInt (mv_revision item))] operationID);;
      ret item
  end.

(** *** Deletion *)

(** [WHERE mapping_id=? AND status <> 'deleted'] *)
Definition mapping_domain (mid : string) (_ : string) (d : Domain) : bool :=
  (d_mapping_id d == mid) && (d_status d != DsDeleted).

Definition op_open (s : OpStatus) : bool := (s == OpPending) || (s == OpRunning).

(** [WHERE resource_type=? AND resource_id=? AND operation_type='delete' AND
    status IN ('pending','running')] *)
Definition open_delete (rtype rid : string) (_ : string) (o : Operation) : bool :=
  (o_resource_type o == rtype) && (o_resource_id o == rid) && (o_op_type o == "delete"%string) &&
  op_open (o_status o).

(** A domain of the deleted mapping gets a deletion operation unless it has
    one. *)
Definition ensure_domain_delete (uid : string) (t : Stamp) (domainID : string) : M unit :=
  existing ← attempt (query_row (fun db =>
    fst <$> head (select (open_delete "domain" domainID) (operations db))));
  match existing with
  | Ok _ => ret tt
  | Err (ErrSql NoRows) =>
      opID ← newID;
      exec_checked (insert_operation opID
        (new_operation (Some uid) "domain" domainID "delete" "router" "awaiting_client" None t))
  | Err e => fail e
  end.

Definition mark_domains_deleting (P : string -> Domain -> bool) (t : Stamp) (db : DB) : DB :=
  db <| domains ::= update_where P (fun d =>
    d <| d_status := DsDeleting |> <| d_updated := t |>) |>.

Definition delete_mapping_tx (ac : AuthContext) (mappingID key0 : string) (force : bool)
    : M (outcome (string * option Z)) :=
  let uid := ac_UserID ac in
  let path := ("/api/v1/mappings/" ++ mappingID)%string in
  t ← nowString;
  key ← key_or_new (TrimSpace key0);
  let bodyHash := requestHash (HbForce force) in
  existing ← attempt (query_row (find_idempotency ac "DELETE" path key));
  match existing with
  | Ok r =>
      fail_if (negb (String.eqb (i_body_hash r) bodyHash)) ErrIdempotencyReuse;;
      ret (Rollback (default ""%string (i_operation r), None))
  | Err (ErrSql NoRows) =>
      n ← exec_count (fun db => count_where (owned_mapping_id mappingID uid) (mappings db))
        (fun db => db <| mappings ::= update_where (owned_mapping_id mappingID uid) (fun m =>
          m <| m_lifecycle := LDeleting |> <| m_desired := DDisabled |> <| m_updated := t |>) |>);
      fail_if (n =? 0) ErrNotFound;;
      domainIDs ← query (fun db => map fst (select (mapping_domain mappingID) (domains db)));
      exec (mark_domains_deleting (mapping_domain mappingID) t);;
      for_each domainIDs (ensure_domain_delete uid t);;
      exec (bump_desired uid t);;
      opID ← newID;
      exec_checked (insert_operation opID
        (new_operation (Some uid) "mapping" mappingID "delete" "client" "awaiting_apply" None t));;
      record_idempotency ac "DELETE" path key bodyHash 202 (RespOperation opID) (Some opID) t;;
      ret (Commit (opID, Some (Z.of_nat (List.length domainIDs))))
  | Err e => fail e
  end.

Definition DeleteMapping (ac : AuthContext) (mappingID : string) (force : bool)
    (idempotencyKey : string) : M string :=
  '(opID, fresh) ← transaction (delete_mapping_tx ac mappingID idempotencyKey force);
  match fresh with
  | None => ret opID
  | Some domainCount =>
      let auditAction := if force then "mapping_force_delete_requested"%string
                         else "mapping_delete_requested"%string in
      ignore (Audit ac auditAction "mapping" mappingID "pending"
        [("force"%string, PBool force); ("domain_count"%string, PInt domainCount)] opID);;
      ret opID
  end.

(** *** Toggling *)

Definition toggle_mapping_tx (ac : AuthContext) (mappingID : string) (enabled : bool)
    (option_ : ToggleMappingOptions) (key : string) : M (outcome bool) :=
  let uid := ac_UserID ac in
  let path := ("/api/v1/mappings/" ++ mappingID ++ "/toggle")%string in
  let bodyHash := requestHash (HbToggle enabled (to_ExpectedConfigVersion option_)
                                 (to_ExpectedRevision option_)) in
  existing ← attempt (query_row (find_idempotency ac "POST" path key));
  match existing with
  | Ok r =>
      fail_if (negb (String.eqb (i_body_hash r) bodyHash)) ErrIdempotencyReuse;;
      ret (Rollback false)
  | Err (ErrSql NoRows) =>
      '(version, revision) ← map_err
        (fun e => match e with ErrSql NoRows => ErrNotFound | _ => e end)
        (query_row (fun db =>
          u ← users db !! uid; '(_, v) ← find_mapping mappingID uid db;
          Some (u_desired_config u, mv_revision v)));
      fail_if (conflicts (to_ExpectedConfigVersion option_) version) ErrConfigConflict;;
      fail_if (conflicts (to_ExpectedRevision option_) revision) ErrRevisionConflict;;
      t ← nowString;
      n ← exec_count (fun db => count_where (owned_mapping_id mappingID uid) (mappings db))
        (fun db => db <| mappings ::= update_where (owned_mapping_id mappingID uid) (fun m =>
          m <| m_desired := if enabled then DEnabled else DDisabled |>
            <| m_lifecycle := if enabled then LPendingApply else LDisabled |>
            <| m_updated := t |>) |>);
      fail_if (n =? 0) ErrNotFound;;
      exec (bump_desired uid t);;
      record_idempotency ac "POST" path key bodyHash 200 RespOk None t;;
      ret (Commit true)
  | Err e => fail e
  end.

Definition ToggleMapping (ac : AuthContext) (mappingID : string) (enabled : bool)
    (option_ : ToggleMappingOptions) : M unit :=
  key ← key_or_new (TrimSpace (to_IdempotencyKey option_));
  fresh ← transaction (toggle_mapping_tx ac mappingID enabled option_ key);
  if negb fresh then ret tt
  else
    ignore (Audit ac "mapping_toggled" "mapping" mappingID "success"
      [("enabled"%string, PBool enabled)] "");;
    if env_jobs == None then ret tt else ignore EnqueueRouterSnapshot.
End Mappings.
