(* ===== verification/MappingsSpec.v ===== *)
(** What the mapping operations guarantee: the allocator takes the least free
    port, a creation stays within quotas and range and reserves its port, a
    replay returns the recorded response, an update replaces the one pending
    revision, and the schema's references hold throughout. *)

From S2P Require Import Prelude StateError GoText GoNet Timestamps Schema Effects Logic Validation Sample Store Jobs Sessions SessionsSpec Mappings.
From Stdlib Require Import Ascii String.
Open Scope Z_scope.

Definition port_free (db : DB) (p : Z) : Prop :=
  forall k l, leases db !! k = Some l -> l_port l <> p.

(** ** Taking accepted INSERTs apart *)

Ltac insert_inv :=
  repeat match goal with
  | Hi : insert_mapping _ _ _ = Ok _ |- _ => apply insert_mapping_Ok in Hi as (? & ? & ?)
  | Hi : insert_revision _ _ _ = Ok _ |- _ => apply insert_revision_Ok in Hi as (? & ? & ? & ? & ? & ?)
  | Hi : insert_lease _ _ _ = Ok _ |- _ => apply insert_lease_Ok in Hi as (? & ? & ? & ? & ? & ?)
  | Hi : insert_operation _ _ _ = Ok _ |- _ => apply insert_operation_Ok in Hi as (? & ?)
  | Hi : insert_idempotency _ _ _ = Ok _ |- _ => apply insert_idempotency_Ok in Hi as (? & ? & ?)
  | Hi : insert_audit_log _ _ _ = Ok _ |- _ => apply insert_audit_log_Ok in Hi
  end.

Section Allocation.
Context `{Env}.

Lemma port_count_zero db p :
  count_where (fun _ l => l_port l =? p) (leases db) = 0 <-> port_free db p.
Proof.
  rewrite count_where_zero. unfold port_free. split; intros Hf k l Hk.
  - specialize (Hf k l Hk). simpl in Hf. by apply Z.eqb_neq in Hf.
  - apply Z.eqb_neq. eauto.
Qed.

Lemma allocate_from_Ok n start w p w' :
  allocate_from n start w = (Ok p, w') ->
  w_db w' = w_db w /\ start <= p < start + Z.of_nat n /\ port_free (w_db w) p /\
  forall q, start <= q < p -> ~ port_free (w_db w) q.
Proof.
  revert start w. induction n as [|n IH]; intros start w; simpl; [by intros ?%fail_Ok|].
  intros Hrun. apply bind_Ok in Hrun as (c & w1 & (_ & -> & ->)%query_Ok & Hrun).
  destruct (_ =? 0) eqn:Hc.
  - apply ret_Ok in Hrun as [-> ->]. apply Z.eqb_eq, port_count_zero in Hc.
    split_and!; try done; lia.
  - apply IH in Hrun as (Hdb & Hr & Hf & Hl). cbn [w_db step] in *.
    split_and!; try done; try lia. intros q Hq.
    destruct (decide (q = start)) as [->|]; [|apply Hl; lia].
    intros Hfree%port_count_zero. by rewrite Hfree in Hc.
Qed.

Lemma allocate_from_total {NF : NoFaults} n start w q :
  start <= q < start + Z.of_nat n -> port_free (w_db w) q ->
  is_ok (fst (allocate_from n start w)) = true.
Proof.
  revert start w. induction n as [|n IH]; intros start w Hq Hfree; simpl; [lia|].
  rewrite run_query. destruct (_ =? 0) eqn:Hc; [done|].
  apply IH; [|done]. destruct (decide (q = start)) as [->|]; [|lia].
  apply port_count_zero in Hfree. by rewrite Hfree in Hc.
Qed.

(** The allocator returns the least port of the range that no lease holds,
    reads only, and fails exactly when every port of the range is leased. *)
Theorem allocatePort_least_free {NF : NoFaults} a b w :
  match allocatePort a b w with
  | (Ok p, w') => w_db w' = w_db w /\ a <= p <= b /\ port_free (w_db w) p /\
                  forall q, a <= q < p -> ~ port_free (w_db w) q
  | (Err e, _) => e = ErrMsg "no allocatable port" /\
                  forall q, a <= q <= b -> ~ port_free (w_db w) q
  end.
Proof.
  unfold allocatePort. destruct (allocate_from _ _ _) as [[p|e] w'] eqn:Hrun.
  - apply allocate_from_Ok in Hrun as (? & ? & ? & ?). split_and!; try done; lia.
  - split.
    + clear -Hrun NF. remember (Z.to_nat (b - a + 1)) as n eqn:En. clear En. revert a w Hrun.
      induction n as [|n IH]; intros a w; simpl; [by intros [= <- _]|].
      rewrite run_query. destruct (_ =? 0); [done|]. apply IH.
    + intros q Hq Hfree. pose proof (allocate_from_total (Z.to_nat (b - a + 1)) a w q ltac:(lia) Hfree) as Ht.
      by rewrite Hrun in Ht.
Qed.
End Allocation.

(** The record a replay answers from. *)
Definition replay_record (ac : AuthContext) (method path key hash : string) (db : DB)
    (resp : Response) : Prop :=
  exists r, find_idempotency ac method path key db = Some r /\
    i_body_hash r = hash /\ i_response r = resp.

Section Creation.
Context `{Env}.

Lemma replay_mapping_Ok bodyHash r w item w' :
  replay_mapping bodyHash r w = (Ok item, w') ->
  w' = w /\ i_body_hash r = bodyHash /\ i_response r = RespMapping item.
Proof.
  unfold replay_mapping. intros Hrun. run_inv. subst.
  match goal with Hb : negb _ = false |- _ => apply negb_false_iff, String.eqb_eq in Hb end. done.
Qed.

Lemma find_idempotency_Some ac method path key db r :
  find_idempotency ac method path key db = Some r ->
  exists k, idempotency db !! k = Some r /\
    idem_matches (ac_UserID ac) (ac_Generation ac) method path key k r = true.
Proof.
  unfold find_idempotency. intros ([k r'] & Hh & ->)%fmap_Some. exists k.
  by apply head_select_Some.
Qed.

Lemma active_user_Some uid db u :
  active_user uid db = Some u <-> users db !! uid = Some u /\ u_status u = UActive.
Proof.
  unfold active_user. destruct (users db !! uid) as [u'|]; simpl; [|naive_solver].
  case_bool_decide; naive_solver.
Qed.

Lemma choose_port_Ok uid requested maxp w port w' :
  choose_port uid requested maxp w = (Ok port, w') ->
  w_db w' = w_db w /\ count_pending_ports uid (w_db w) < maxp /\
  exists p, port = Some p /\ cfg_PortStart env_config <= p <= cfg_PortEnd env_config /\
    p <> cfg_FRPSBindPort env_config /\
    (requested <> None -> requested <> Some 0 -> requested = Some p) /\
    ((requested = None \/ requested = Some 0) -> port_free (w_db w) p /\
       forall q, cfg_PortStart env_config <= q < p -> ~ port_free (w_db w) q).
Proof.
  unfold choose_port. intros Hrun.
  apply bind_Ok in Hrun as (n & w1 & (_ & -> & ->)%query_Ok & Hrun).
  apply bind_Ok in Hrun as (? & w2 & [Hq ->]%fail_if_Ok & Hrun). apply Z.leb_gt in Hq.
  apply bind_Ok in Hrun as (p & w3 & Hp & Hrun).
  apply bind_Ok in Hrun as (? & w4 & [Hr ->]%fail_if_Ok & [<- ->]%ret_Ok).
  rewrite !orb_false_iff, !Z.ltb_ge, Z.eqb_neq in Hr. destruct Hr as [[? ?] ?].
  destruct ((requested == None) || (requested == Some 0)) eqn:E.
  - apply allocate_from_Ok in Hp as (Hdb & _ & Hf & Hl). cbn [w_db step] in *.
    rewrite orb_true_iff, !bool_decide_eq_true in E.
    split_and!; try done. exists p. split_and!; try done. naive_solver.
  - apply or_fail_Ok in Hp as [-> ->]. rewrite orb_false_iff, !bool_decide_eq_false in E.
    split_and!; try done. exists p. split_and!; try done. naive_solver.
Qed.

Lemma insert_port_lease_Ok mid rid port role t w u w' :
  insert_port_lease mid rid port role t w = (Ok u, w') ->
  exists lid, w_db w' = match port with
    | None => w_db w
    | Some p => (w_db w) <| leases ::= <[lid := {| l_mapping_id := mid; l_rev_id := rid; l_port := p;
                                                  l_role := role; l_created := t |}]> |>
    end /\
    match port with
    | None => True
    | Some p => port_free (w_db w) p /\ port_ok p = true /\ leases (w_db w) !! lid = None /\
                is_Some (mappings (w_db w) !! mid) /\ is_Some (revisions (w_db w) !! rid)
    end.
Proof.
  unfold insert_port_lease. destruct port as [p|]; intros Hrun.
  - run_inv. insert_inv. subst. eexists. split; [done|]. by split_and!.
  - apply ret_Ok in Hrun as [_ ->]. by exists ""%string.
Qed.

Lemma record_idempotency_Ok ac method path key hash status resp op t w u w' :
  record_idempotency ac method path key hash status resp op t w = (Ok u, w') ->
  (exists f, w_db w' = (w_db w) <| idempotency ::= f |>) /\
  replay_record ac method path key hash (w_db w') resp.
Proof.
  unfold record_idempotency. intros Hrun. run_inv. insert_inv. subst. split; [by eexists|].
  cbn [i_user_id i_generation i_method i_path i_key] in *.
  rename select (forall k x, idempotency _ !! k = Some x -> _) into Hf.
  exists {| i_user_id := ac_UserID ac; i_generation := ac_Generation ac; i_method := method;
     i_path := path; i_key := key; i_body_hash := hash; i_status := status;
     i_response := resp; i_operation := op; i_expires := env_now (S (w_tick w)) + 24 * hour;
     i_created := t |}.
  split; [|split; reflexivity]. unfold find_idempotency.
  erewrite (select_singleton (idempotency _) _ _ _ (lookup_insert_eq (idempotency (w_db w)) _ _)).
  - reflexivity.
  - unfold idem_matches. cbn. by rewrite !bool_decide_true, Z.eqb_refl.
  - intros k x Hk Hm. destruct (decide (k = env_id (w_tick w))) as [->|Hn]; [done|].
    apply (lookup_insert_Some (idempotency (w_db w))) in Hk as [[? _]|[_ Hk]]; [by subst|].
    by rewrite (Hf k x Hk) in Hm.
Qed.
End Creation.

(** ** Creation *)

(** What a creation has done to the database. *)
Record mapping_created `{Env} (ac : AuthContext) (req : MappingRequest) (ty : ProxyType)
    (db db' : DB) (item : MappingView) : Prop := {
  (* the caller is active, the expected version is current, quotas are not used up *)
  mc_user : exists u u', users db !! ac_UserID ac = Some u /\ u_status u = UActive /\
    conflicts (mq_expected_config req) (u_desired_config u) = false /\
    count_mappings (ac_UserID ac) db < u_max_mappings u /\
    count_pending_mappings (ac_UserID ac) db < u_max_pending_mappings u /\
    (is_tcp_udp ty = true -> count_pending_ports (ac_UserID ac) db < u_max_pending_port_leases u) /\
    (* the desired configuration has a new version *)
    users db' !! ac_UserID ac = Some u' /\ u_desired_config u' = u_desired_config u + 1 /\
    (forall k, k <> ac_UserID ac -> users db' !! k = users db !! k);
  (* one new mapping, with one pending revision *)
  mc_rows : exists rid t, mappings db !! mv_id item = None /\
    mappings db' = <[mv_id item := new_mapping (ac_UserID ac) req ty rid t]> (mappings db) /\
    revisions db !! rid = None /\
    revisions db' = <[rid := new_revision (mv_id item) 1 req (mv_remote_port item) t]> (revisions db) /\
    (* and a lease of its port, which no lease held *)
    match mv_remote_port item with
    | None => leases db' = leases db
    | Some p => port_free db p /\ port_ok p = true /\ exists lid, leases db !! lid = None /\
        leases db' = <[lid := {| l_mapping_id := mv_id item; l_rev_id := rid; l_port := p;
                                 l_role := LeaseActive; l_created := t |}]> (leases db)
    end;
  (* a tcp or udp mapping has a port of the range, not the one frps binds; the
     requested one, or the least free one *)
  mc_port : is_tcp_udp ty = true -> exists p, mv_remote_port item = Some p /\
    cfg_PortStart env_config <= p <= cfg_PortEnd env_config /\ p <> cfg_FRPSBindPort env_config /\
    (mq_remote_port req <> None -> mq_remote_port req <> Some 0 -> mq_remote_port req = Some p) /\
    (mq_remote_port req = None \/ mq_remote_port req = Some 0 ->
     forall q, cfg_PortStart env_config <= q < p -> ~ port_free db q);
  (* an http mapping keeps the port it was given *)
  mc_http : is_tcp_udp ty = false -> mv_remote_port item = mq_remote_port req;
  (* the rest of the tables of mappings is as it was *)
  mc_frame : domains db' = domains db /\ sessions db' = sessions db /\ jobs db' = jobs db
}.

Section CreateMapping.
Context `{Env}.

Lemma create_mapping_tx_Ok ac req ty key hash w o w' :
  create_mapping_tx ac req ty key hash w = (Ok o, w') ->
  match o with
  | Rollback (item, fresh) => fresh = None /\ w_db w' = w_db w /\
      replay_record ac "POST" "/api/v1/mappings" key hash (w_db w) (RespMapping item)
  | Commit (item, fresh) => exists op, fresh = Some op /\
      mapping_created ac req ty (w_db w) (w_db w') item /\
      replay_record ac "POST" "/api/v1/mappings" key hash (w_db w') (RespMapping item)
  end.
Proof.
  unfold create_mapping_tx. intros Hrun.
  apply bind_Ok in Hrun as (existing & w1 & He & Hrun). apply (proj1 (attempt_Ok _ _ _ _)) in He.
  destruct existing as [r|].
  { apply query_row_Ok in He as (_ & Hf & ->).
    apply bind_Ok in Hrun as (item & w2 & (-> & Hh & Hr)%replay_mapping_Ok & [<- ->]%ret_Ok).
    split; [done|]. split; [done|]. by exists r. }
  assert (w_db w1 = w_db w) as Ew1.
  { unfold query_row in He. destruct (env_fault _); [by injection He as _ <-|].
    by destruct (find_idempotency _ _ _ _ _); injection He as _ <-. }
  clear He.
  apply bind_Ok in Hrun as (u & w2 & Hu & Hrun).
  apply (proj1 (map_err_Ok _ _ _ _ _)), query_row_Ok in Hu as (_ & [Hu Hact]%active_user_Some & ->).
  apply bind_Ok in Hrun as (? & w3 & [Hcfg ->]%fail_if_Ok & Hrun).
  apply bind_Ok in Hrun as (n & w4 & Hn & Hrun).
  apply (proj1 (map_err_Ok _ _ _ _ _)), query_Ok in Hn as (_ & -> & ->).
  apply bind_Ok in Hrun as (? & w5 & [Hmax ->]%fail_if_Ok & Hrun).
  apply bind_Ok in Hrun as (n & w6 & (_ & -> & ->)%query_Ok & Hrun).
  apply bind_Ok in Hrun as (? & w7 & [Hpend ->]%fail_if_Ok & Hrun).
  cbn [w_db step] in *. rewrite Ew1 in *. apply Z.leb_gt in Hmax, Hpend.
  apply bind_Ok in Hrun as (port & w8 & Hport & Hrun).
  assert (w_db w8 = w_db w) as Ew8.
  { destruct (is_tcp_udp ty); [apply choose_port_Ok in Hport as (-> & _); exact Ew1|].
    apply ret_Ok in Hport as [_ ->]. exact Ew1. }
  apply bind_Ok in Hrun as (t & w9 & [-> ->]%now_Ok & Hrun).
  apply bind_Ok in Hrun as (mid & w10 & [-> ->]%newID_Ok & Hrun).
  apply bind_Ok in Hrun as (rid & w11 & [-> ->]%newID_Ok & Hrun).
  apply bind_Ok in Hrun as (? & w12 & (_ & db1 & (Hmn & _ & Hdb1)%insert_mapping_Ok & ->)%exec_checked_Ok & Hrun).
  apply bind_Ok in Hrun as (? & w13 & (_ & db2 & (_ & _ & Hrn & _ & _ & Hdb2)%insert_revision_Ok & ->)%exec_checked_Ok & Hrun).
  apply bind_Ok in Hrun as (? & w14 & (lid & Hw14 & Hl)%insert_port_lease_Ok & Hrun).
  apply bind_Ok in Hrun as (? & w15 & (_ & ->)%exec_Ok & Hrun).
  apply bind_Ok in Hrun as (op & w16 & [-> ->]%newID_Ok & Hrun).
  apply bind_Ok in Hrun as (? & w17 & (_ & db3 & (_ & Hdb3)%insert_operation_Ok & ->)%exec_checked_Ok & Hrun).
  apply bind_Ok in Hrun as (? & w18 & ([fi Hw18] & Hrec)%record_idempotency_Ok & [<- ->]%ret_Ok).
  cbn [w_db w_tick step] in *.
  set (mid := env_id (S (w_tick w8))) in *. set (rid := env_id (S (S (w_tick w8)))) in *.
  set (t := env_now (w_tick w8)) in *.
  set (item := {| mv_id := mid |}) in *.
  assert (mappings (w_db w18) = mappings db1 /\ revisions (w_db w18) = revisions db2 /\
          leases (w_db w18) = leases (w_db w14) /\ leases db2 = leases (w_db w) /\
          domains (w_db w18) = domains (w_db w) /\ sessions (w_db w18) = sessions (w_db w) /\
          jobs (w_db w18) = jobs (w_db w) /\
          users (w_db w18) = users (set_desired (ac_UserID ac) (u_desired_config u + 1) t (w_db w)))
    as (Em & Er & El & El2 & Ed & Es & Ej & Eu).
  { rewrite Hw18, Hdb3. unfold set_desired. rewrite Hw14.
    destruct port; rewrite Hdb2, Hdb1, Ew8; by split_and!. }
  rewrite Ew8 in Hmn, Hdb1.
  exists (env_id (S (w_tick w14))). split; [done|]. split; [split|].
  - eexists u, _. rewrite Eu. unfold set_desired. split_and!; try done.
    + intros Hty. rewrite Hty in Hport. apply choose_port_Ok in Hport as (_ & Hlt & _).
      cbn [w_db step] in Hlt. by rewrite Ew1 in Hlt.
    + cbn [users set]. rewrite lookup_update_where, Hu. simpl. by rewrite bool_decide_true.
    + done.
    + intros k Hk. cbn [users set]. rewrite lookup_update_where.
      destruct (users (w_db w) !! k); simpl; [|done]. by rewrite bool_decide_false.
  - exists rid, t. rewrite Em, Er, El, Hdb2, Hdb1. rewrite Hdb1 in Hrn.
    split_and!; try done. cbn [mv_remote_port item]. rewrite Hw14. destruct port as [p|].
    + destruct Hl as (Hf & Hp & Hlid & _). split; [|split; [done|]].
      * unfold port_free in *. by rewrite El2 in Hf.
      * exists lid. rewrite El2 in Hlid. split; [done|]. cbn [leases set]. by rewrite El2.
    + done.
  - intros Hty. rewrite Hty in Hport. apply choose_port_Ok in Hport as (_ & _ & p & -> & [? ?] & Hb & Hq1 & Hq2).
    exists p. split_and!; try done. intros Hor. cbn [w_db step] in Hq2. rewrite Ew1 in Hq2. by destruct (Hq2 Hor).
  - intros Hty. rewrite Hty in Hport. by apply ret_Ok in Hport as [-> _].
  - by split_and!.
  - exact Hrec.
Qed.

(** Auditing and other ignored effects leave these tables alone. *)
Lemma ignored_audit w actor ac action rt ri result md op u w' :
  ignore (audit_as actor ac action rt ri result md op) w = (Ok u, w') ->
  exists f, w_db w' = (w_db w) <| audit_logs ::= f |>.
Proof.
  intros ->%(proj1 (ignore_Ok _ _ _ _)).
  assert (preserves (fun db => exists f, db = (w_db w) <| audit_logs ::= f |>)
    (audit_as actor ac action rt ri result md op)) as Hp.
  { apply audit_preserves. intros db f [g ->]. by exists (f ∘ g). }
  apply Hp. exists id. by destruct (w_db w).
Qed.

(** The run of a creation, whatever the key was before. *)
Lemma CreateMapping_run ac req key w item w' :
  key <> ""%string -> CreateMapping ac req key w = (Ok item, w') ->
  validateMapping req = None /\
  exists ty, proxy_type_of (mq_proxy_type req) = Some ty /\
  ((w_db w' = w_db w /\
    replay_record ac "POST" "/api/v1/mappings" key (mapping_body_hash req) (w_db w)
      (RespMapping item)) \/
   (exists db f, mapping_created ac req ty (w_db w) db item /\
      w_db w' = db <| audit_logs ::= f |> /\
      replay_record ac "POST" "/api/v1/mappings" key (mapping_body_hash req) (w_db w')
        (RespMapping item))).
Proof.
  unfold CreateMapping. intros Hkey Hrun.
  apply bind_Ok in Hrun as (? & w1 & Hv & Hrun).
  destruct (validateMapping req) eqn:Ev; [by apply fail_Ok in Hv|].
  apply ret_Ok in Hv as [_ ->]. split; [done|].
  apply bind_Ok in Hrun as (ty & w1 & [Hty ->]%or_fail_Ok & Hrun). exists ty. split; [done|].
  apply bind_Ok in Hrun as (k & w1 & Hk & Hrun). unfold key_or_new in Hk.
  rewrite (proj2 (String.eqb_neq key "") Hkey) in Hk. apply ret_Ok in Hk as [<- ->].
  apply bind_Ok in Hrun as ([it fresh] & w2 & Htx & Hrun).
  apply transaction_Ok in Htx as (_ & [(w3 & Hb & _ & ->) | (w3 & Hb & ->)]);
    apply create_mapping_tx_Ok in Hb.
  - destruct Hb as (op & -> & Hc & Hr). right.
    apply bind_Ok in Hrun as (? & w4 & [f Hf]%ignored_audit & [<- ->]%ret_Ok).
    exists (w_db w3), f. by rewrite Hf.
  - destruct Hb as (-> & _ & Hr). left. by apply ret_Ok in Hrun as [<- ->].
Qed.

(** C5: what a successful creation means.  Either the key was used before in
    this session with the same request, the recorded mapping is returned and
    nothing changed; or the caller is active and within every quota, the
    expected version matched, and the database has one new mapping with one
    pending revision and a lease of its port, one more desired version, and a
    record for the replay.  The port of a tcp or udp mapping is in the
    configured range, is not the port frps binds, was free, and is the
    requested one or else the least free one. *)
Theorem CreateMapping_spec ac req key w item w' :
  key <> ""%string -> CreateMapping ac req key w = (Ok item, w') ->
  validateMapping req = None /\
  exists ty, proxy_type_of (mq_proxy_type req) = Some ty /\
  ((w_db w' = w_db w /\
    replay_record ac "POST" "/api/v1/mappings" key (mapping_body_hash req) (w_db w)
      (RespMapping item)) \/
   (exists db f, mapping_created ac req ty (w_db w) db item /\
      w_db w' = db <| audit_logs ::= f |> /\
      replay_record ac "POST" "/api/v1/mappings" key (mapping_body_hash req) (w_db w')
        (RespMapping item))).
Proof. apply CreateMapping_run. Qed.
End CreateMapping.

(** ** Revision numbers *)

Lemma latest_revision_ge mid db k r :
  revisions db !! k = Some r -> r_mapping_id r = mid -> r_revision r <= latest_revision mid db.
Proof.
  intros Hk Hm. unfold latest_revision.
  assert ((k, r) ∈ select (fun _ r => r_mapping_id r == mid) (revisions db)) as Hin.
  { apply elem_of_select. by rewrite bool_decide_true. }
  revert Hin. generalize (select (fun _ r => r_mapping_id r == mid) (revisions db)).
  intros l. induction l as [|y l IH]; [by intros ?%elem_of_nil|]. simpl.
  intros [<-|Hin]%elem_of_cons; simpl; [lia|]. apply IH in Hin. lia.
Qed.

Lemma latest_revision_attained mid db :
  latest_revision mid db = 0 \/
  exists k r, revisions db !! k = Some r /\ r_mapping_id r = mid /\
    r_revision r = latest_revision mid db.
Proof.
  unfold latest_revision.
  assert (forall x, x ∈ select (fun _ r => r_mapping_id r == mid) (revisions db) ->
    revisions db !! x.1 = Some x.2 /\ r_mapping_id x.2 = mid) as Hall.
  { intros [k r] [? ?%bool_decide_eq_true]%elem_of_select. done. }
  induction (select _ _) as [|x l IH]; simpl; [by left|].
  destruct (Z.max_spec (r_revision x.2) (fold_right Z.max 0 (map (fun kr => r_revision kr.2) l)))
    as [[_ ->]|[_ ->]].
  - apply IH. intros y Hy. apply Hall. by right.
  - right. exists x.1, x.2. destruct (Hall x) as [? ?]; [left|]. done.
Qed.

(** ** Updates *)

(** The revision that waits for the client gives way to the new one, and the
    port it had reserved goes back. *)
Definition withdrawn (pending : option string) (db : DB) : DB :=
  match pending with
  | Some p => release_pending p (supersede p db)
  | None => db
  end.

(** A mapping that has been given the pending revision [rid]. *)
Definition repointed (m m' : Mapping) (rid : string) : Prop :=
  m_pending_rev m' = Some rid /\ m_active_rev m' = m_active_rev m /\
  m_lifecycle m' = LPendingApply /\ m_desired m' = m_desired m /\ m_user_id m' = m_user_id m.

(** What an update has done to the database. *)
Record mapping_updated `{Env} (ac : AuthContext) (mid : string) (req : MappingRequest) (ty : ProxyType)
    (db db' : DB) (item : MappingView) : Prop := {
  mu_rows : exists m rid t,
    mappings db !! mid = Some m /\ owned_mapping_id mid (ac_UserID ac) mid m = true /\
    (* a caller that names a revision names the current one *)
    conflicts (mq_expected_revision req) (mv_revision (mapping_view db mid m)) = false /\
    revisions db !! rid = None /\
    (* the mapping points to one new pending revision; its active one stays *)
    mappings db' = <[mid := revised req ty rid t m]> (mappings db) /\
    repointed m (revised req ty rid t m) rid /\
    revisions db' = <[rid := new_revision mid (mv_revision item) req (mv_remote_port item) t]>
      (revisions (withdrawn (m_pending_rev m) db)) /\
    (* whose port is leased when it differs from that of the replaced revision *)
    let changes := request_changes_port (mv_remote_port item) (mv_remote_port (mapping_view db mid m)) in
    match mv_remote_port item with
    | Some p =>
        if changes then
          port_free (withdrawn (m_pending_rev m) db) p /\ port_ok p = true /\
          exists lid, leases db' = <[lid := {| l_mapping_id := mid; l_rev_id := rid; l_port := p;
            l_role := LeasePending; l_created := t |}]> (leases (withdrawn (m_pending_rev m) db))
        else leases db' = leases (withdrawn (m_pending_rev m) db)
    | None => leases db' = leases (withdrawn (m_pending_rev m) db)
    end;
  (* revisions are numbered consecutively *)
  mu_number : (forall k r, revisions db !! k = Some r -> r_mapping_id r = mid ->
      r_revision r < mv_revision item) /\
    (mv_revision item = 1 \/ exists k r, revisions db !! k = Some r /\ r_mapping_id r = mid /\
      r_revision r = mv_revision item - 1);
  mu_user : exists u u', users db !! ac_UserID ac = Some u /\
    conflicts (mq_expected_config req) (u_desired_config u) = false /\
    users db' !! ac_UserID ac = Some u' /\ u_desired_config u' = u_desired_config u + 1;
  mu_frame : domains db' = domains db /\ sessions db' = sessions db /\ jobs db' = jobs db
}.

Section UpdateMapping.
Context `{Env}.

Lemma withdraw_number pending db k r :
  revisions (withdrawn pending db) !! k = Some r ->
  exists r0, revisions db !! k = Some r0 /\ r_mapping_id r0 = r_mapping_id r /\
    r_revision r0 = r_revision r /\ r_remote_port r0 = r_remote_port r.
Proof.
  destruct pending as [p|]; [|by exists r]. unfold withdrawn.
  change (revisions (release_pending p (supersede p db))) with (revisions (supersede p db)).
  intros (r0 & Hr0 & ->)%lookup_update_where_Some. exists r0. by destruct (_ && _).
Qed.

Lemma number_withdrawn pending db k r0 :
  revisions db !! k = Some r0 ->
  exists r, revisions (withdrawn pending db) !! k = Some r /\ r_mapping_id r = r_mapping_id r0 /\
    r_revision r = r_revision r0 /\ r_remote_port r = r_remote_port r0.
Proof.
  destruct pending as [p|]; [|intros Hr; by exists r0]. unfold withdrawn.
  change (revisions (release_pending p (supersede p db))) with (revisions (supersede p db)).
  intros Hr0. eexists. split; [apply lookup_update_where_Some; by exists r0|]. by destruct (_ && _).
Qed.

Lemma withdraw_run pending w u w' :
  match pending with
  | Some pendingID => exec (supersede pendingID);; exec (release_pending pendingID)
  | None => ret tt
  end w = (Ok u, w') -> w_db w' = withdrawn pending (w_db w).
Proof. destruct pending; intros Hrun; run_inv; by subst. Qed.

Lemma update_port_Ok ty requested current w port w' :
  update_port ty requested current w = (Ok port, w') ->
  w' = w /\
  (is_tcp_udp ty = false -> port = requested) /\
  (is_tcp_udp ty = true -> exists p, port = Some p /\
    cfg_PortStart env_config <= p <= cfg_PortEnd env_config /\
    port = if (requested == None) || (requested == Some 0) then current else requested).
Proof.
  unfold update_port. destruct (is_tcp_udp ty).
  - destruct (if _ || _ then current else requested) as [p|] eqn:E; [|by intros ?%fail_Ok].
    intros Hrun. apply bind_Ok in Hrun as (? & w1 & [Hr ->]%fail_if_Ok & [<- ->]%ret_Ok).
    rewrite orb_false_iff, !Z.ltb_ge in Hr. split_and!; try done. intros _. by exists p.
  - by intros [<- ->]%ret_Ok.
Qed.

Lemma find_mapping_Some id uid db m v :
  find_mapping id uid db = Some (m, v) ->
  mappings db !! id = Some m /\ owned_mapping_id id uid id m = true /\ v = mapping_view db id m.
Proof.
  unfold find_mapping. destruct (mappings db !! id) as [m'|]; [|done]. simpl.
  destruct (owned_mapping_id id uid id m') eqn:E; [|done]. by intros [= <- <-].
Qed.

(** A guard that only reads. *)
Lemma guard_Ok (b : bool) {A} (q : DB -> A) (f : A -> bool) e w u w' :
  (if b then n ← query q; fail_if (f n) e else ret tt) w = (Ok u, w') ->
  w_db w' = w_db w /\ (b = true -> f (q (w_db w)) = false).
Proof. destruct b; intros Hrun; run_inv; by subst. Qed.

Lemma owned_by id uid k m : owned_mapping_id id uid k m = true -> k = id /\ m_user_id m = uid.
Proof. unfold owned_mapping_id. rewrite !andb_true_iff, !bool_decide_eq_true. tauto. Qed.

(** The lease of an update's port. *)
Lemma leased_port (changes : bool) mid rid port t w u w' :
  (if changes then insert_port_lease mid rid port LeasePending t else ret tt) w = (Ok u, w') ->
  (w_db w' = w_db w \/ exists f, w_db w' = (w_db w) <| leases ::= f |>) /\
  match port with
  | Some p =>
      if changes then
        port_free (w_db w) p /\ port_ok p = true /\
        exists lid, leases (w_db w') = <[lid := {| l_mapping_id := mid; l_rev_id := rid; l_port := p;
          l_role := LeasePending; l_created := t |}]> (leases (w_db w))
      else leases (w_db w') = leases (w_db w)
  | None => leases (w_db w') = leases (w_db w)
  end.
Proof.
  destruct changes.
  - intros (lid & E & Hl)%insert_port_lease_Ok. rewrite E. destruct port as [p|]; [|by split; [left|]].
    destruct Hl as (Hf & Hp & _). split; [right; by eexists|]. split_and!; try done. by exists lid.
  - intros [_ ->]%ret_Ok. split; [by left|]. by destruct port.
Qed.

Lemma update_mapping_tx_Ok ac mid req ty key path hash w o w' :
  update_mapping_tx ac mid req ty key path hash w = (Ok o, w') ->
  match o with
  | Rollback (item, fresh) => fresh = None /\ w_db w' = w_db w /\
      replay_record ac "PUT" path key hash (w_db w) (RespMapping item)
  | Commit (item, fresh) => exists op, fresh = Some op /\
      mapping_updated ac mid req ty (w_db w) (w_db w') item /\
      replay_record ac "PUT" path key hash (w_db w') (RespMapping item)
  end.
Proof.
  unfold update_mapping_tx. intros Hrun.
  apply bind_Ok in Hrun as (existing & w1 & He & Hrun). apply (proj1 (attempt_Ok _ _ _ _)) in He.
  destruct existing as [r|].
  { apply query_row_Ok in He as (_ & Hf & ->).
    apply bind_Ok in Hrun as (item & w2 & (-> & Hh & Hr)%replay_mapping_Ok & [<- ->]%ret_Ok).
    split; [done|]. split; [done|]. by exists r. }
  assert (w_db w1 = w_db w) as Ew1.
  { unfold query_row in He. destruct (env_fault _); [by injection He as _ <-|].
    by destruct (find_idempotency _ _ _ _ _); injection He as _ <-. }
  clear He.
  apply bind_Ok in Hrun as ([m current] & w2 & Hm & Hrun).
  apply (proj1 (map_err_Ok _ _ _ _ _)), query_row_Ok in Hm as (_ & (Hm & Hown & ->)%find_mapping_Some & ->).
  apply bind_Ok in Hrun as (u & w3 & (_ & Hu & ->)%query_row_Ok & Hrun).
  apply bind_Ok in Hrun as (? & w4 & [Hcfg ->]%fail_if_Ok & Hrun).
  apply bind_Ok in Hrun as (? & w5 & [Hrevc ->]%fail_if_Ok & Hrun).
  apply bind_Ok in Hrun as (? & w6 & [Ew6 _]%guard_Ok & Hrun).
  apply bind_Ok in Hrun as (port & w7 & (-> & _ & _)%update_port_Ok & Hrun).
  apply bind_Ok in Hrun as (? & w8 & [Ew8 _]%guard_Ok & Hrun).
  apply bind_Ok in Hrun as (t & w9 & [-> ->]%now_Ok & Hrun).
  apply bind_Ok in Hrun as (? & w10 & Ew10%withdraw_run & Hrun).
  apply bind_Ok in Hrun as (n & w11 & (_ & -> & ->)%query_Ok & Hrun).
  apply bind_Ok in Hrun as (rid & w12 & [-> ->]%newID_Ok & Hrun).
  apply bind_Ok in Hrun as (? & w13 & (_ & db1 & (_ & _ & Hrn & Hnum & _ & Hdb1)%insert_revision_Ok & ->)%exec_checked_Ok & Hrun).
  apply bind_Ok in Hrun as (? & w14 & Hl & Hrun).
  apply bind_Ok in Hrun as (? & w15 & (_ & ->)%exec_Ok & Hrun).
  apply bind_Ok in Hrun as (? & w16 & (_ & ->)%exec_Ok & Hrun).
  apply bind_Ok in Hrun as (op & w17 & [-> ->]%newID_Ok & Hrun).
  apply bind_Ok in Hrun as (? & w18 & (_ & db3 & (_ & Hdb3)%insert_operation_Ok & ->)%exec_checked_Ok & Hrun).
  apply bind_Ok in Hrun as (? & w19 & ([fi Hw19] & Hrec)%record_idempotency_Ok & [<- ->]%ret_Ok).
  cbn [w_db w_tick step] in *.
  assert (w_db w8 = w_db w) as E8 by congruence. clear Ew6 Ew8. rewrite E8 in Ew10.
  set (t := env_now (w_tick w8)) in *. set (rid := env_id (S (w_tick w10))) in *.
  set (n := latest_revision mid (w_db w10)) in *.
  set (item := {| mv_id := _; mv_user_id := _; mv_name := _; mv_proxy_type := _; mv_lifecycle := _;
    mv_desired := _; mv_observed := _; mv_revision := _ |}) in *.
  rewrite Ew1 in *.
  exists (env_id (S (S (w_tick w14)))). split; [done|]. split; [|exact Hrec].
  apply leased_port in Hl as (Hw14 & Hl). rewrite Hdb1 in Hw14, Hl.
  assert (mappings (w_db w10) = mappings (w_db w) /\ users (w_db w10) = users (w_db w) /\
    domains (w_db w10) = domains (w_db w) /\ sessions (w_db w10) = sessions (w_db w) /\
    jobs (w_db w10) = jobs (w_db w)) as (E1 & E2 & E3 & E4 & E5).
  { rewrite Ew10. by destruct (m_pending_rev m). }
  assert (exists f, w_db w14 = (w_db w10) <| revisions ::= <[rid := new_revision mid (n + 1) req port t]> |>
            <| leases ::= f |>) as [fl E14].
  { destruct Hw14 as [->|[? ->]]; [exists id|by eexists]. by destruct (w_db w10). }
  split.
  - exists m, rid, t. rewrite <- Ew10. split_and!; try done.
    + destruct (revisions (w_db w) !! rid) as [r|] eqn:Er; [|done].
      apply (number_withdrawn (m_pending_rev m)) in Er as (r' & Er & _). by rewrite <- Ew10, Hrn in Er.
    + rewrite Hw19, Hdb3, E14.
      change (update_where (fun k m => (k == mid) && (m_user_id m == ac_UserID ac))
        (revised req ty rid t) (mappings (w_db w10)) = <[mid := revised req ty rid t m]> (mappings (w_db w))).
      rewrite E1. apply update_where_one; [done| |].
      * apply andb_true_iff. split; [by apply bool_decide_true|].
        apply owned_by in Hown as [_ <-]. by apply bool_decide_true.
      * intros ? ? [?%bool_decide_eq_true _]%andb_true_iff. done.
    + rewrite Hw19, Hdb3. change (revisions (w_db w14) = <[rid := new_revision mid (n + 1) req port t]> (revisions (w_db w10))).
      by rewrite E14.
    + assert (leases (w_db w19) = leases (w_db w14)) as -> by (by rewrite Hw19, Hdb3).
      exact Hl.
  - split.
    + intros k r Hk Hr. apply (number_withdrawn (m_pending_rev m)) in Hk as (r' & Hk & Hm' & <- & _).
      rewrite <- Ew10 in Hk. pose proof (latest_revision_ge mid _ _ _ Hk (eq_trans Hm' Hr)) as Hge.
      fold n in Hge. change (mv_revision item) with (n + 1). lia.
    + destruct (latest_revision_attained mid (w_db w10)) as [Hz|(k & r & Hk & Hr & Hn)]; fold n in Hz || fold n in Hn.
      * left. change (mv_revision item) with (n + 1). lia.
      * right. rewrite Ew10 in Hk. apply withdraw_number in Hk as (r0 & Hk & E6 & E7 & _).
        exists k, r0. change (mv_revision item) with (n + 1). split_and!; [done|congruence|lia].
  - exists u, (u <| u_desired_config := u_desired_config u + 1 |> <| u_updated := t |>).
    split; [done|]. split; [done|]. split.
    + rewrite Hw19, Hdb3, E14.
      change (users (set_desired (ac_UserID ac) (u_desired_config u + 1) t (w_db w10)) !! ac_UserID ac =
        Some (u <| u_desired_config := u_desired_config u + 1 |> <| u_updated := t |>)).
      unfold set_desired. cbn [users set]. rewrite lookup_update_where, E2, Hu. simpl.
      by rewrite bool_decide_true.
    + done.
  - rewrite Hw19, Hdb3, E14. by split_and!.
Qed.
End UpdateMapping.

Section Operations.
Context `{Env}.

Lemma reads_key_or_new key : reads (key_or_new key).
Proof. intros w. unfold key_or_new. by destruct (String.eqb key ""). Qed.
Lemma reads_or_fail {A} e (o : option A) : reads (or_fail e o).
Proof. intros w. by destruct o. Qed.
Lemma reads_require o : reads (require o).
Proof. intros w. by destruct o. Qed.

(** An update makes one new pending revision.  When it succeeds, either the
    key was used before with the same request and nothing changed; or the
    caller owns the mapping, the expected versions were the current ones, the
    replaced pending revision is superseded and its reserved port given back,
    and the mapping points to a new revision, numbered one after the last, that
    leases its port if the port changed.  The active revision is untouched. *)
Theorem UpdateMapping_spec ac mid req key w item w' :
  key <> ""%string -> UpdateMapping ac mid req key w = (Ok item, w') ->
  let path := ("/api/v1/mappings/" ++ mid)%string in
  exists ty, proxy_type_of (mq_proxy_type req) = Some ty /\
  ((w_db w' = w_db w /\
    replay_record ac "PUT" path key (mapping_body_hash req) (w_db w) (RespMapping item)) \/
   (exists db f, mapping_updated ac mid req ty (w_db w) db item /\
      w_db w' = db <| audit_logs ::= f |> /\
      replay_record ac "PUT" path key (mapping_body_hash req) (w_db w') (RespMapping item))).
Proof.
  intros Hkey Hrun path. unfold UpdateMapping, key_or_new in Hrun. fold path in Hrun.
  rewrite (proj2 (String.eqb_neq key "") Hkey) in Hrun.
  apply bind_Ok in Hrun as (? & w1 & Hv & Hrun).
  assert (w1 = w) as ->. { destruct (validateMapping req); [by apply fail_Ok in Hv|by apply ret_Ok in Hv as [_ ->]]. }
  apply bind_Ok in Hrun as (ty & w1 & [Hty ->]%or_fail_Ok & Hrun). exists ty. split; [done|].
  apply bind_Ok in Hrun as (k & w1 & [<- ->]%ret_Ok & Hrun).
  apply bind_Ok in Hrun as ([it fresh] & w2 & Htx & Hrun).
  apply transaction_Ok in Htx as (_ & [(w3 & Hb & _ & ->) | (w3 & Hb & ->)]);
    apply update_mapping_tx_Ok in Hb.
  - destruct Hb as (op & -> & Hc & Hr). right.
    apply bind_Ok in Hrun as (? & w4 & [f Hf]%ignored_audit & [<- ->]%ret_Ok).
    exists (w_db w3), f. by rewrite Hf.
  - destruct Hb as (-> & _ & Hr). left. by apply ret_Ok in Hrun as [<- ->].
Qed.

(** Creation is idempotent.  The same request under the same key in the same
    session, at any later time while its record is kept, returns the recorded
    mapping and changes nothing; another valid request under that key is
    refused. *)
Theorem CreateMapping_idempotent {NF : NoFaults} ac req req' key w item w' w2 :
  key <> ""%string -> CreateMapping ac req key w = (Ok item, w') ->
  idempotency (w_db w2) = idempotency (w_db w') ->
  (exists w3, CreateMapping ac req key w2 = (Ok item, w3) /\ w_db w3 = w_db w2) /\
  (validateMapping req' = None -> is_Some (proxy_type_of (mq_proxy_type req')) ->
   mapping_body_hash req' <> mapping_body_hash req ->
   exists w3, CreateMapping ac req' key w2 = (Err ErrIdempotencyReuse, w3) /\ w_db w3 = w_db w2).
Proof.
  intros Hkey Hrun Hw2. pose proof (CreateMapping_run _ _ _ _ _ _ Hkey Hrun) as (Hv & ty & Hty & Hr).
  assert (replay_record ac "POST" "/api/v1/mappings" key (mapping_body_hash req) (w_db w2)
    (RespMapping item)) as (r & Hf & Hh & Hresp).
  { destruct Hr as [[E Hr]|(_ & _ & _ & _ & Hr)]; unfold replay_record, find_idempotency in *;
      rewrite Hw2; [by rewrite E|done]. }
  assert (forall rq tx, find_idempotency ac "POST" "/api/v1/mappings" key (w_db w2) = Some r ->
    transaction (create_mapping_tx ac rq tx key (mapping_body_hash rq)) w2 =
    if String.eqb (i_body_hash r) (mapping_body_hash rq)
    then (Ok (item, None), mkWorld (w_db w2) (S (S (w_tick w2))))
    else (Err ErrIdempotencyReuse, mkWorld (w_db w2) (S (S (w_tick w2))))) as Htx.
  { intros rq tx Hfi. unfold transaction. rewrite no_fault. unfold create_mapping_tx.
    rewrite run_attempt_query_row. cbn [w_db step]. rewrite Hfi. unfold replay_mapping.
    rewrite Hresp. by destruct (String.eqb _ _). }
  split.
  - unfold CreateMapping, key_or_new. rewrite Hv, Hty, (proj2 (String.eqb_neq key "") Hkey).
    unfold mbind, M_bind, bind, require, or_fail, ret. rewrite Htx, Hh, String.eqb_refl by done.
    by eexists.
  - intros Hv' [ty' Hty'] Hne.
    unfold CreateMapping, key_or_new. rewrite Hv', Hty', (proj2 (String.eqb_neq key "") Hkey).
    unfold mbind, M_bind, bind, require, or_fail, ret.
    rewrite Htx, Hh, (proj2 (String.eqb_neq _ _)) by congruence. by eexists.
Qed.

(** A mapping operation that reports an error has changed nothing, wherever
    the error arose: a refused guard, a constraint, the driver, the COMMIT. *)
Theorem mapping_operations_atomic ac mid req enabled force option_ key :
  keeps (CreateMapping ac req key) /\ keeps (UpdateMapping ac mid req key) /\
  keeps (DeleteMapping ac mid force key) /\ keeps (ToggleMapping ac mid enabled option_).
Proof.
  unfold CreateMapping, UpdateMapping, DeleteMapping, ToggleMapping. split_and!;
    repeat (apply keeps_after_reads;
            [solve [auto using reads_key_or_new, reads_or_fail, reads_require]|intros ?]);
    (apply keeps_then_total; [apply keeps_transaction|]).
  - intros [? []] ? ? ?; [apply total_ignore_ret|apply total_ret].
  - intros [? []] ? ? ?; [apply total_ignore_ret|apply total_ret].
  - intros [? []] ? ? ?; [apply total_ignore_ret|apply total_ret].
  - intros [] ? ? ?; simpl; [|apply total_ret].
    unfold mbind, M_bind, bind, ignore. by destruct (env_jobs == None).
Qed.

End Operations.

(** ** Instances *)

Definition sample_mapping_request (name : string) (port : option Z) : MappingRequest :=
  mkMappingRequest name "tcp" "127.0.0.1" 22 port None None.

Definition sample_create (name : string) (port : option Z) (key : string) : M MappingView :=
  CreateMapping sample_caller (sample_mapping_request name port) key.

(** The logged-in user's first mapping, on the first port of the range. *)
Definition sample_mapped : World := snd (sample_create "ssh" None "k1" sample_logged_in).
Definition sample_mapping_id : string :=
  match fst (sample_create "ssh" None "k1" sample_logged_in) with Ok v => mv_id v | Err _ => "" end.

Lemma CreateMapping_spec_witness :
  exists item w', sample_create "ssh" None "k1" sample_logged_in = (Ok item, w') /\
    mv_remote_port item = Some 6000 /\ validateMapping (sample_mapping_request "ssh" None) = None.
Proof.
  sample_run (sample_create "ssh" None "k1" sample_logged_in) item w' E
    (fun item (_ : World) => bool_decide (mv_remote_port item = Some 6000)) HP.
  exists item, w'. split; [reflexivity|]. split; [exact (bool_decide_eq_true_1 _ HP)|].
  destruct (CreateMapping_spec sample_caller _ "k1" _ _ _ ltac:(discriminate) E) as [Hv _]. exact Hv.
Defined.

Lemma UpdateMapping_spec_witness :
  exists item w', UpdateMapping sample_caller sample_mapping_id
      (sample_mapping_request "ssh" (Some 6001)) "k2" sample_mapped = (Ok item, w') /\
    mv_revision item = 2 /\ proxy_type_of "tcp" = Some Tcp.
Proof.
  sample_run (UpdateMapping sample_caller sample_mapping_id (sample_mapping_request "ssh" (Some 6001)) "k2"
    sample_mapped) item w' E (fun item (_ : World) => mv_revision item =? 2) HP.
  exists item, w'. split; [reflexivity|]. split; [exact (proj1 (Z.eqb_eq _ _) HP)|].
  destruct (UpdateMapping_spec sample_caller _ _ "k2" _ _ _ ltac:(discriminate) E) as (ty & Hty & _).
  destruct ty; [exact Hty|discriminate Hty|discriminate Hty].
Defined.

Lemma CreateMapping_idempotent_witness :
  exists item w' w3, sample_create "ssh" None "k1" sample_logged_in = (Ok item, w') /\
    sample_create "ssh" None "k1" w' = (Ok item, w3) /\ w_db w3 = w_db w' /\
    exists w4, sample_create "web" None "k1" w' = (Err ErrIdempotencyReuse, w4).
Proof.
  sample_run (sample_create "ssh" None "k1" sample_logged_in) item w' E
    (fun (_ : MappingView) (_ : World) => true) HP.
  destruct (CreateMapping_idempotent sample_caller _ (sample_mapping_request "web" None) "k1" _ _ _ w'
    ltac:(discriminate) E eq_refl) as [(w3 & E3 & Hdb) Hother].
  destruct Hother as (w4 & E4 & _);
    [reflexivity|exists Tcp; reflexivity|vm_compute; discriminate|].
  exists item, w', w3. split; [reflexivity|]. split; [exact E3|]. split; [exact Hdb|].
  exists w4. exact E4.
Defined.

Lemma allocatePort_least_free_witness :
  exists p w', allocatePort 6000 6003 sample_mapped = (Ok p, w') /\ p = 6001 /\
    port_free (w_db sample_mapped) p.
Proof.
  sample_run (allocatePort 6000 6003 sample_mapped) p w' E (fun p (_ : World) => p =? 6001) HP.
  exists p, w'. split; [reflexivity|]. split; [exact (proj1 (Z.eqb_eq _ _) HP)|].
  pose proof (allocatePort_least_free 6000 6003 sample_mapped) as Hspec.
  rewrite E in Hspec. exact (proj1 (proj2 (proj2 Hspec))).
Defined.
