(* ===== verification/Domains.v ===== *)
(** Domain bindings ([server/internal/service/service.go], [ListDomains] to
    [DeleteDomain]): listing, creation under quotas, the resolution of DNS
    conflicts and deletion. *)

From S2P Require Import Prelude StateError GoText GoNet Timestamps Schema Effects Logic Validation Store Jobs Sessions Mappings.
From Stdlib Require Import Ascii String.
Open Scope Z_scope.

(** ** Queries *)

(** [WHERE user_id=? AND status <> 'deleted'] *)
Definition owned_domain (uid : string) (_ : string) (d : Domain) : bool :=
  (d_user_id d == uid) && (d_status d != DsDeleted).

(** [WHERE id=? AND user_id=? AND status <> 'deleted'] *)
Definition owned_domain_id (id uid : string) (k : string) (d : Domain) : bool :=
  (k == id) && (d_user_id d == uid) && (d_status d != DsDeleted).

(** [ORDER BY last_synced_at DESC]: NULL is the smallest value. *)
Definition synced_later (a b : string * DnsRecord) : bool :=
  match n_last_synced a.2, n_last_synced b.2 with
  | Some x, Some y => sql_lt y x
  | Some _, None => true
  | None, _ => false
  end.

(** [SELECT ... FROM dns_records WHERE domain_binding_id=? ORDER BY
    last_synced_at DESC LIMIT 1] *)
Definition latest_dns (domainID : string) (db : DB) : option (string * DnsRecord) :=
  first_by synced_later (select (fun _ n => n_domain_id n == Some domainID) (dns_records db)).

Definition domain_view (db : DB) (k : string) (d : Domain) : DomainView :=
  let n := snd <$> latest_dns k db in
  {| dv_id := k; dv_mapping_id := d_mapping_id d; dv_hostname := d_hostname d;
     dv_normalized := d_normalized d; dv_https_mode := d_https_mode d;
     dv_redirect := d_redirect d; dv_dns_type := from_option n_type DnsCNAME n;
     dv_dns_content := from_option n_content ""%string n; dv_dns_ttl := from_option n_ttl 300 n;
     dv_dns_proxied := from_option n_proxied false n;
     dv_dns_managed := from_option n_managed false n;
     dv_dns_adopted := from_option n_adopted false n; dv_status := d_status d;
     dv_revision := d_revision d; dv_created := d_created d; dv_updated := d_updated d |}.

Definition newest_domain (a b : string * Domain) : bool := sql_lt (d_created b.2) (d_created a.2).

Definition count_domains (uid : string) (db : DB) : Z :=
  count_where (owned_domain uid) (domains db).

(** [SELECT COUNT(1) FROM operations WHERE user_id=? AND resource_type='domain' AND
    status IN ('pending','running')] *)
Definition count_domain_operations (uid : string) (db : DB) : Z :=
  count_where (fun _ o => (o_user_id o == Some uid) && (o_resource_type o == "domain"%string) &&
    op_open (o_status o)) (operations db).

(** [FROM certificates c JOIN domain_bindings d ON d.id=c.domain_binding_id WHERE
    d.user_id=? AND c.status IN ('pending','renewing')] *)
Definition count_certificate_jobs (uid : string) (db : DB) : Z :=
  count_where (fun _ c =>
    match domains db !! c_domain_id c with
    | Some d => (d_user_id d == uid) && ((c_status c == CPending) || (c_status c == CRenewing))
    | None => false
    end) (certificates db).

(** ** Jobs *)

Definition dns_dedup (domainID : string) : string := ("domain:" ++ domainID ++ ":dns")%string.

Definition dns_payload (uid domainID action : string) : Payload :=
  <["user_id"%string := PStr uid]> (<["domain_id"%string := PStr domainID]>
    (<["action"%string := PStr action]> ∅)).

Definition set_domain_status (P : string -> Domain -> bool) (s : DomainStatus) (t : Stamp)
    (db : DB) : DB :=
  db <| domains ::= update_where P (fun d => d <| d_status := s |> <| d_updated := t |>) |>.

Section Domains.
Context `{Env}.

Definition ListDomainsPage (userID : string) (page pageSize : Z)
    : M (list DomainView * PageInfo) :=
  let '(page, pageSize) := normalizePage page pageSize in
  total ← query (count_domains userID);
  let offset := page_offset page pageSize in
  rows ← query (fun db =>
    map (fun kd => domain_view db kd.1 kd.2)
      (page_of pageSize offset
        (order_by newest_domain (select (owned_domain userID) (domains db)))));
  ret (rows, mkPageInfo page pageSize total).

Definition ListDomains (userID : string) : M (list DomainView) :=
  '(items, _) ← ListDomainsPage userID 1 1000000;
  ret items.

Definition enqueue_dns (uid domainID action : string) : M unit :=
  Enqueue "domain_dns_sync" "domain" domainID (dns_dedup domainID)
    (dns_payload uid domainID action) None;;
  ret tt.

(** *** Creation *)

Definition replay_domain (bodyHash : string) (r : Idempotency) : M DomainView :=
  fail_if (negb (String.eqb (i_body_hash r) bodyHash)) ErrIdempotencyReuse;;
  match i_response r with
  | RespDomain v => ret v
  | _ => fail (ErrMsg "json: cannot unmarshal")
  end.

Definition domain_body_hash (req : DomainRequest) : string :=
  requestHash (HbDomain (dq_mapping_id req) (dq_hostname req) (dq_https_mode req)
    (dq_redirect req) (dq_dns_type req) (dq_dns_content req) (dq_dns_ttl req)
    (dq_expected_config req)).

(** The mapping a domain is bound to: the caller's, of type http. *)
Definition http_mapping (uid mid : string) : M unit :=
  m ← map_err (fun _ => ErrMsg "HTTP mapping is required") (query_row (fun db =>
    m ← mappings db !! mid; if m_lifecycle m == LDeleted then None else Some m));
  fail_if ((m_user_id m != uid) || (m_proxy_type m != Http)) (ErrMsg "HTTP mapping is required").

Definition domain_quotas (uid : string) (u : User) (mode : HttpsMode) : M unit :=
  domainCount ← map_err (fun _ => ErrMsg "domain quota exceeded") (query (count_domains uid));
  fail_if (u_max_domains u <=? domainCount) (ErrMsg "domain quota exceeded");;
  pending ← query (count_domain_operations uid);
  fail_if (u_max_pending_domain_operations u <=? pending)
    (ErrMsg "pending domain operation quota exceeded");;
  if mode == HttpOnly then ret tt
  else
    certificateJobs ← query (count_certificate_jobs uid);
    fail_if (u_max_certificate_jobs u <=? certificateJobs)
      (ErrMsg "certificate job quota exceeded").

Definition create_domain_tx (ac : AuthContext) (req : DomainRequest) (mode : HttpsMode)
    (normalized : string) (dns : DnsType * string * Z * bool) (key0 : string)
    : M (outcome (DomainView * option string)) :=
  let uid := ac_UserID ac in
  let '(dnsType, dnsContent, dnsTTL, dnsProxied) := dns in
  key ← key_or_new (TrimSpace key0);
  let bodyHash := domain_body_hash req in
  existing ← attempt (query_row (find_idempotency ac "POST" "/api/v1/domains" key));
  match existing with
  | Ok r => item ← replay_domain bodyHash r; ret (Rollback (item, None))
  | Err _ =>
      u ← map_err (fun _ => ErrForbidden) (query_row (active_user uid));
      let desired := u_desired_config u in
      fail_if (conflicts (dq_expected_config req) desired) ErrConfigConflict;;
      http_mapping uid (dq_mapping_id req);;
      domain_quotas uid u mode;;
      t ← nowString;
      domainID ← newID;
      map_err (fun e => if is_unique_error e then ErrMsg "domain already reserved" else e)
        (exec_checked (insert_domain domainID
          {| d_user_id := uid; d_mapping_id := dq_mapping_id req;
             d_hostname := TrimSpace (dq_hostname req); d_normalized := normalized;
             d_zone_id := None; d_https_mode := mode; d_redirect := dq_redirect req;
             d_status := DsPendingDns; d_revision := 1; d_created := t; d_updated := t |}));;
      dnsID ← newID;
      exec_checked (insert_dns_record dnsID
        {| n_user_id := uid; n_domain_id := Some domainID; n_type := dnsType;
           n_name := normalized; n_normalized := normalized; n_content := dnsContent;
           n_ttl := dnsTTL; n_proxied := dnsProxied; n_zone_id := None; n_record_id := None;
           n_managed := false; n_adopted := false; n_sync_status := "pending";
           n_last_synced := None |});;
      exec (set_desired uid (desired + 1) t);;
      opID ← newID;
      exec_checked (insert_operation opID
        (new_operation (Some uid) "domain" domainID "create" "dns" "awaiting_provider" (Some key) t));;
      let item := {| dv_id := domainID; dv_mapping_id := dq_mapping_id req;
                     dv_hostname := TrimSpace (dq_hostname req); dv_normalized := normalized;
                     dv_https_mode := mode; dv_redirect := dq_redirect req;
                     dv_dns_type := dnsType; dv_dns_content := dnsContent; dv_dns_ttl := dnsTTL;
                     dv_dns_proxied := dnsProxied; dv_dns_managed := false;
                     dv_dns_adopted := false; dv_status := DsPendingDns; dv_revision := 1;
                     dv_created := t; dv_updated := t |} in
      record_idempotency ac "POST" "/api/v1/domains" key bodyHash 202 (RespDomain item)
        (Some opID) t;;
      ret (Commit (item, Some opID))
  end.

Definition lift_res {A} (r : res GoErr A) : M A :=
  match r with Ok a => ret a | Err e => fail e end.

Definition CreateDomain (ac : AuthContext) (req : DomainRequest) (idempotencyKey : string)
    : M DomainView :=
  mode ← or_fail (ErrMsg "invalid https mode") (https_mode_of (dq_https_mode req));
  fail_if ((mode == HttpOnly) && dq_redirect req)
    (ErrMsg "http_only domains cannot enable HTTP to HTTPS redirect");;
  normalized ← lift_res (normalizeDomain (dq_hostname req));
  dns ← lift_res (normalizeDNSIntent (cfg_FRPSPublicHost env_config) req);
  '(item, fresh) ← transaction (create_domain_tx ac req mode normalized dns idempotencyKey);
  match fresh with
  | None => ret item
  | Some opID =>
      ignore (Audit ac "domain_created" "domain" (dv_id item) "pending"
        [("status"%string, PStr "pending_dns")] opID);;
      (if env_jobs == None then ret tt else enqueue_dns (ac_UserID ac) (dv_id item) "check");;
      ret item
  end.

(** *** DNS conflicts *)

Definition dns_action_ok (action : string) : bool :=
  existsb (String.eqb action) ["adopt"; "overwrite"; "cancel"; "sync"]%string.

(** [UPDATE operations SET status='pending',phase='dns',... WHERE
    resource_type='domain' AND resource_id=? AND status IN ('failed','canceled')] *)
Definition reopen_domain_operations (domainID : string) (t : Stamp) (db : DB) : DB :=
  db <| operations ::= update_where
    (fun _ o => (o_resource_type o == "domain"%string) && (o_resource_id o == domainID) &&
      ((o_status o == OpFailed) || (o_status o == OpCanceled)))
    (fun o => o <| o_status := OpPending |> <| o_phase := "dns"%string |>
      <| o_step := "awaiting_provider"%string |> <| o_error_code := None |>
      <| o_error_message := None |> <| o_updated := t |> <| o_completed := None |>) |>.

(** The transaction returns the domain's owner, or [None] for a replay. *)
Definition resolve_dns_tx (ac : AuthContext) (domainID action key : string)
    : M (outcome (option string)) :=
  let path := ("/api/v1/domains/" ++ domainID ++ "/dns-action")%string in
  let bodyHash := requestHash (HbAction action) in
  existing ← attempt (query_row (find_idempotency ac "POST" path key));
  match existing with
  | Ok r =>
      fail_if (negb (String.eqb (i_body_hash r) bodyHash)) ErrIdempotencyReuse;;
      ret (Rollback None)
  | Err (ErrSql NoRows) =>
      owner ← map_err (fun e => match e with ErrSql NoRows => ErrNotFound | _ => e end)
        (query_row (fun db =>
          d ← domains db !! domainID;
          if d_status d == DsDeleted then None else Some (d_user_id d)));
      fail_if (negb (String.eqb owner (ac_UserID ac)) && (ac_Role ac != RAdmin)) ErrNotFound;;
      t ← nowString;
      if String.eqb action "sync" then
        managed ← map_err (fun e => match e with
                                    | ErrSql NoRows => ErrMsg "DNS record is not managed by panel"
                                    | _ => e end)
          (query_row (fun db => (n_managed ∘ snd) <$> latest_dns domainID db));
        fail_if (negb managed) (ErrMsg "DNS record is not managed by panel");;
        exec (set_domain_status (fun k _ => k == domainID) DsPendingDns t);;
        opID ← newID;
        exec_checked (insert_operation opID
          (new_operation (Some owner) "domain" domainID "dns_sync" "dns" "awaiting_provider"
             (Some key) t));;
        record_idempotency ac "POST" path key bodyHash 202 (RespAction (Some opID) action)
          (Some opID) t;;
        ret (Commit (Some owner))
      else
        exec (set_domain_status (fun k _ => k == domainID) DsPendingDns t);;
        exec (reopen_domain_operations domainID t);;
        record_idempotency ac "POST" path key bodyHash 202 (RespAction None action) None t;;
        ret (Commit (Some owner))
  | Err e => fail e
  end.

Definition ResolveDomainDNS (ac : AuthContext) (domainID action idempotencyKey : string) : M unit :=
  fail_if (negb (dns_action_ok action)) (ErrMsg "unsupported DNS conflict action");;
  fail_if (env_jobs == None) (ErrMsg "job worker is unavailable");;
  key ← key_or_new (TrimSpace idempotencyKey);
  owner ← transaction (resolve_dns_tx ac domainID action key);
  match owner with
  | None => ret tt
  | Some owner => enqueue_dns owner domainID action
  end.

(** *** Deletion *)

Definition delete_domain_tx (ac : AuthContext) (domainID key0 : string)
    : M (outcome (string * bool)) :=
  let uid := ac_UserID ac in
  let path := ("/api/v1/domains/" ++ domainID)%string in
  t ← nowString;
  key ← key_or_new (TrimSpace key0);
  let bodyHash := requestHash HbEmpty in
  existing ← attempt (query_row (find_idempotency ac "DELETE" path key));
  match existing with
  | Ok r =>
      fail_if (negb (String.eqb (i_body_hash r) bodyHash)) ErrIdempotencyReuse;;
      ret (Rollback (default ""%string (i_operation r), false))
  | Err (ErrSql NoRows) =>
      n ← exec_count (fun db => count_where (owned_domain_id domainID uid) (domains db))
        (mark_domains_deleting (owned_domain_id domainID uid) t);
      fail_if (n =? 0) ErrNotFound;;
      exec (bump_desired uid t);;
      opID ← newID;
      exec_checked (insert_operation opID
        (new_operation (Some uid) "domain" domainID "delete" "router" "awaiting_client" (Some key) t));;
      record_idempotency ac "DELETE" path key bodyHash 202 (RespOperation opID) (Some opID) t;;
      ret (Commit (opID, true))
  | Err e => fail e
  end.

Definition DeleteDomain (ac : AuthContext) (domainID idempotencyKey : string) : M string :=
  '(opID, fresh) ← transaction (delete_domain_tx ac domainID idempotencyKey);
  if negb fresh then ret opID
  else
    (if env_jobs == None then ret tt else EnqueueRouterSnapshot);;
    ignore (Audit ac "domain_delete_requested" "domain" domainID "pending" [] opID);;
    ret opID.
End Domains.
