(* ===== verification/Apply.v ===== *)
(** The client's configuration and its acknowledgement ([FullConfig] and
    [ApplyResult] of [server/internal/service/service.go], the finalisation of
    deletions in [cloudflare_jobs.go]): which revision becomes authoritative,
    which port leases survive, and what a deletion waits for. *)

From S2P Require Import Prelude StateError GoText GoNet Timestamps Schema Effects Logic Validation Store Jobs Sessions Mappings Domains.
From Stdlib Require Import Ascii String.
Open Scope Z_scope.

(** ** The snapshot a client receives *)

Record ConfigItem := mkConfigItem {
  ci_mapping_id : string;
  ci_name : string;
  ci_proxy_type : ProxyType;
  ci_local_ip : string;
  ci_local_port : Z;
  ci_remote_port : option Z;
  ci_revision : Z;
  ci_custom_domains : list string
}.

Record ConfigPayload := mkConfigPayload {
  cp_frps_public_host : string;
  cp_frps_public_port : Z;
  cp_mappings : list ConfigItem;
  cp_transport_secret_ref : string
}.

Record ConfigSnapshot := mkConfigSnapshot {
  cfs_SchemaVersion : string;
  cfs_ConfigVersion : Z;
  cfs_UserID : string;
  cfs_SessionGeneration : Z;
  cfs_IssuedAt : Stamp;
  cfs_ExpiresAt : Stamp;
  cfs_ConfigHash : string;
  cfs_SigningKeyID : string;
  cfs_Signature : string;
  cfs_Payload : ConfigPayload
}.
#[export] Instance Eta_ConfigSnapshot : Eta ConfigSnapshot := fun r =>
  mkConfigSnapshot r.(cfs_SchemaVersion) r.(cfs_ConfigVersion) r.(cfs_UserID)
    r.(cfs_SessionGeneration) r.(cfs_IssuedAt) r.(cfs_ExpiresAt) r.(cfs_ConfigHash)
    r.(cfs_SigningKeyID) r.(cfs_Signature) r.(cfs_Payload).

(** [domainMap[id]]: the names bound to a mapping, without those being deleted. *)
Definition custom_domains (domains : list DomainView) (mid : string) : list string :=
  map dv_normalized (base.filter (fun d => dv_status d <> DsDeleting /\ dv_mapping_id d = mid) domains).

Definition served (m : MappingView) : bool :=
  negb ((mv_lifecycle m == LDeleting) || (mv_desired m == DDisabled)).

Definition config_items (mappings : list MappingView) (domains : list DomainView)
    : list ConfigItem :=
  map (fun m =>
    {| ci_mapping_id := mv_id m; ci_name := mv_name m; ci_proxy_type := mv_proxy_type m;
       ci_local_ip := mv_local_ip m; ci_local_port := mv_local_port m;
       ci_remote_port := mv_remote_port m; ci_revision := mv_revision m;
       ci_custom_domains := custom_domains domains (mv_id m) |})
    (base.filter (fun m => served m = true) mappings).

(** ** The acknowledgement *)

Record ApplyResultRequest := mkApplyResultRequest {
  ar_Status : string;
  ar_ConfigVersion : Z;
  ar_AppliedConfigHash : string;
  ar_ErrorCode : string;
  ar_ErrorMessage : string;
  ar_ClientPanelVersion : string;
  ar_FRPCVersion : string
}.

(** [mapping_id IN (SELECT id FROM mappings WHERE user_id=?)] *)
Definition mapping_of_user (uid : string) (db : DB) (mid : string) : bool :=
  match mappings db !! mid with Some m => m_user_id m == uid | None => false end.

(** [id IN (SELECT active_revision_id FROM mappings WHERE user_id=? AND
    pending_revision_id IS NOT NULL AND active_revision_id IS NOT NULL)] *)
Definition replaced_active (uid : string) (db : DB) (rid : string) : bool :=
  exists_where (fun _ m => (m_user_id m == uid) && (m_pending_rev m != None) &&
    (m_active_rev m == Some rid)) (mappings db).

(** [id IN (SELECT pending_revision_id FROM mappings WHERE user_id=? AND ...)] *)
Definition is_pending_rev (uid : string) (db : DB) (rid : string) : bool :=
  exists_where (fun _ m => (m_user_id m == uid) && (m_pending_rev m == Some rid)) (mappings db).

Definition supersede_replaced (uid : string) (db : DB) : DB :=
  db <| revisions ::= update_where (fun k _ => replaced_active uid db k)
          (fun r => r <| r_status := RSuperseded |>) |>.

Definition activate_pending (uid : string) (t : Stamp) (db : DB) : DB :=
  db <| revisions ::= update_where (fun k _ => is_pending_rev uid db k)
          (fun r => r <| r_status := RActive |> <| r_applied := Some t |>) |>.

(** [active_revision_id=COALESCE(pending_revision_id,active_revision_id), ...] *)
Definition promote (t : Stamp) (m : Mapping) : Mapping :=
  let active := match m_pending_rev m with Some p => Some p | None => m_active_rev m end in
  let lifecycle := if m_lifecycle m == LDeleting then LDeleting
                   else if m_desired m == DDisabled then LDisabled else LRunning in
  m <| m_active_rev := active |> <| m_pending_rev := None |> <| m_lifecycle := lifecycle |>
    <| m_observed := ObRunning |> <| m_updated := t |>.

Definition promote_mappings (uid : string) (t : Stamp) (db : DB) : DB :=
  db <| mappings ::= update_where (owned_mapping uid) (promote t) |>.

(** [EXISTS (SELECT 1 FROM mappings m JOIN mapping_revisions r ON
    r.id=m.active_revision_id WHERE m.id=port_leases.mapping_id AND
    r.remote_port=port_leases.remote_port)] *)
Definition lease_backed (db : DB) (l : Lease) : bool :=
  match (m ← mappings db !! l_mapping_id l; rid ← m_active_rev m; revisions db !! rid) with
  | Some r => r_remote_port r == Some (l_port l)
  | None => false
  end.

Definition drop_unbacked_leases (uid : string) (db : DB) : DB :=
  db <| leases ::= delete_where
          (fun _ l => mapping_of_user uid db (l_mapping_id l) && negb (lease_backed db l)) |>.

(** The column is NOT NULL: a mapping without active revision would abort the
    statement. *)
Definition activate_leases (uid : string) (db : DB) : res SqlError DB :=
  let active l := m ← mappings db !! l_mapping_id l; m_active_rev m in
  reject (exists_where (fun _ l => mapping_of_user uid db (l_mapping_id l) && (active l == None))
            (leases db)) CheckViolation $
  Ok (db <| leases ::= update_where (fun _ l => mapping_of_user uid db (l_mapping_id l))
          (fun l => l <| l_role := LeaseActive |>
                      <| l_rev_id := default (l_rev_id l) (active l) |>) |>).

(** *** Failure *)

Definition fail_revisions (uid : string) (db : DB) : DB :=
  db <| revisions ::= update_where
          (fun _ r => mapping_of_user uid db (r_mapping_id r) &&
                      ((r_status r == RPending) || (r_status r == RApplying)))
          (fun r => r <| r_status := RFailed |>) |>.

Definition lifecycle_kept (s : Lifecycle) : bool :=
  (s == LDeleted) || (s == LDisabled) || (s == LDeleting).

Definition demote (t : Stamp) (m : Mapping) : Mapping :=
  let kept := lifecycle_kept (m_lifecycle m) in
  m <| m_pending_rev := None |>
    <| m_lifecycle := if kept then m_lifecycle m else LConfigError |>
    <| m_observed := if kept then m_observed m else ObOffline |> <| m_updated := t |>.

Definition demote_mappings (uid : string) (t : Stamp) (db : DB) : DB :=
  db <| mappings ::= update_where (fun _ m => m_user_id m == uid) (demote t) |>.

Definition release_pending_leases (uid : string) (db : DB) : DB :=
  db <| leases ::= delete_where
          (fun _ l => mapping_of_user uid db (l_mapping_id l) && (l_role l == LeasePending)) |>.

(** ** Finalising deletions *)

(** [lifecycle_status='deleting' AND NOT EXISTS (SELECT 1 FROM domain_bindings
    WHERE mapping_id=mappings.id AND status <> 'deleted')] *)
Definition deletable_mapping (db : DB) (k : string) (m : Mapping) : bool :=
  (m_lifecycle m == LDeleting) && negb (exists_where (mapping_domain k) (domains db)).

(** [SET status='succeeded',phase='cleanup',step='completed',error_code=NULL,...] *)
Definition operation_done (t : Stamp) (o : Operation) : Operation :=
  o <| o_status := OpSucceeded |> <| o_phase := "cleanup"%string |>
    <| o_step := "completed"%string |> <| o_error_code := None |> <| o_error_message := None |>
    <| o_updated := t |> <| o_completed := Some t |>.

Section Apply.
Context `{Env}.

Definition finalizeDeletedMapping (mappingID : string) : M unit :=
  transaction (
    affected ← exec_count
      (fun db => count_where (fun k m => (k == mappingID) && deletable_mapping db k m) (mappings db))
      (fun db => delete_mappings (fun k m => (k == mappingID) && deletable_mapping db k m) db);
    if affected =? 0 then ret (Commit tt)
    else
      t ← nowString;
      exec (fun db => db <| operations ::= update_where
        (open_delete "mapping" mappingID) (operation_done t) |>);;
      ret (Commit tt)).

Definition finalizeDeletedMappings (userID : string) : M unit :=
  ids ← query (fun db => map fst (select (fun k m =>
    (m_user_id m == userID) && deletable_mapping db k m) (mappings db)));
  for_each ids finalizeDeletedMapping.

(** *** [ApplyResult] *)

(** The version and, when given, the hash must be those of the desired
    configuration. *)
Definition check_apply (ac : AuthContext) (req : ApplyResultRequest) : M unit :=
  fail_if (negb (existsb (String.eqb (ar_Status req)) ["succeeded"; "failed"]%string))
    (ErrMsg "invalid apply status");;
  desired ← query_row (fun db => u_desired_config <$> active_user (ac_UserID ac) db);
  fail_if (negb (ar_ConfigVersion req =? desired)) ErrConfigConflict;;
  let appliedHash := TrimSpace (ar_AppliedConfigHash req) in
  if String.eqb appliedHash "" then ret tt
  else
    hash ← map_err (fun e => match e with ErrSql NoRows => ErrConfigConflict | _ => e end)
      (query_row (fun db => (cs_hash ∘ snd) <$>
        first_by (fun a b => sql_lt (cs_created b.2) (cs_created a.2))
          (select (fun _ c => (cs_user_id c == ac_UserID ac) &&
                              (cs_version c =? ar_ConfigVersion req)) (config_snapshots db))));
    fail_if (negb (EqualFold appliedHash hash)) ErrConfigConflict.

Definition apply_succeeded_tx (uid : string) (req : ApplyResultRequest) (t : Stamp)
    : M (outcome unit) :=
  exec (supersede_replaced uid);;
  exec (activate_pending uid t);;
  exec (promote_mappings uid t);;
  exec (drop_unbacked_leases uid);;
  exec_checked (activate_leases uid);;
  exec (fun db => db <| users ::= update_where (fun k _ => k == uid) (fun u =>
    u <| u_applied_config := ar_ConfigVersion req |> <| u_last_failed_config := None |>
      <| u_updated := t |>) |>);;
  exec (fun db => db <| runtime_state ::= update_where (fun k _ => k == uid) (fun r =>
    r <| rs_observed := "online"%string |> <| rs_panel_version := Some (ar_ClientPanelVersion req) |>
      <| rs_frpc_version := Some (ar_FRPCVersion req) |> <| rs_last_heartbeat := Some t |>
      <| rs_last_applied := ar_ConfigVersion req |> <| rs_last_error_code := None |>
      <| rs_last_error_message := None |> <| rs_updated := t |>) |>);;
  ret (Commit tt).

Definition delete_payload (uid domainID : string) : Payload :=
  <["user_id"%string := PStr uid]> (<["domain_id"%string := PStr domainID]> ∅).

Definition enqueue_domain_delete (domainID uid : string) : M unit :=
  Enqueue "domain_delete" "domain" domainID ("domain:" ++ domainID ++ ":delete")
    (delete_payload uid domainID) None;;
  ret tt.

Definition apply_failed_tx (uid : string) (req : ApplyResultRequest) (t : Stamp)
    : M (outcome unit) :=
  exec (fail_revisions uid);;
  exec (demote_mappings uid t);;
  exec (release_pending_leases uid);;
  exec (fun db => db <| users ::= update_where (fun k _ => k == uid) (fun u =>
    u <| u_last_failed_config := Some (ar_ConfigVersion req) |> <| u_updated := t |>) |>);;
  exec (fun db => db <| runtime_state ::= update_where (fun k _ => k == uid) (fun r =>
    r <| rs_observed := "online"%string |> <| rs_last_error_code := Some (ar_ErrorCode req) |>
      <| rs_last_error_message := Some (safeError (ar_ErrorMessage req)) |>
      <| rs_updated := t |>) |>);;
  ret (Commit tt).

Definition ApplyResult (ac : AuthContext) (req : ApplyResultRequest) : M unit :=
  let uid := ac_UserID ac in
  check_apply ac req;;
  t ← nowString;
  if String.eqb (ar_Status req) "succeeded" then
    transaction (apply_succeeded_tx uid req t);;
    deletions ← query (fun db => map (fun kd => (kd.1, d_user_id kd.2))
      (select (fun _ d => d_status d == DsDeleting) (domains db)));
    for_each deletions (fun '(domainID, userID) => enqueue_domain_delete domainID userID);;
    finalizeDeletedMappings uid;;
    ignore EnqueueRouterSnapshot;;
    Audit ac "config_apply_succeeded" "config" (itoa (ar_ConfigVersion req)) "success"
      [("config_version"%string, PInt (ar_ConfigVersion req))] ""
  else
    transaction (apply_failed_tx uid req t);;
    ignore (Audit ac "config_apply_failed" "config" (itoa (ar_ConfigVersion req)) "failure"
      [("error_code"%string, PStr (ar_ErrorCode req))] "").

(** *** [FullConfig]

    [json.Marshal] of a snapshot and the manager's signature are arguments. *)
Section Snapshot.
Context (json_snapshot : ConfigSnapshot -> string) (key_id : string) (Sign : string -> string).

Definition FullConfig (ac : AuthContext) : M ConfigSnapshot :=
  u ← query_row (fun db => users db !! ac_UserID ac);
  mappings ← ListMappings (ac_UserID ac);
  r ← attempt (ListDomains (ac_UserID ac));
  let domains := match r with Ok l => l | Err _ => [] end in
  let payload := {| cp_frps_public_host := cfg_FRPSPublicHost env_config;
                    cp_frps_public_port := cfg_FRPSPublicPort env_config;
                    cp_mappings := config_items mappings domains;
                    cp_transport_secret_ref := "runtime-only" |} in
  t ← now;
  let unsigned :=
    {| cfs_SchemaVersion := "v1"; cfs_ConfigVersion := u_desired_config u;
       cfs_UserID := ac_UserID ac; cfs_SessionGeneration := u_generation u;
       cfs_IssuedAt := t; cfs_ExpiresAt := t + 5 * minute; cfs_ConfigHash := "";
       cfs_SigningKeyID := key_id; cfs_Signature := ""; cfs_Payload := payload |} in
  let hashed := unsigned <| cfs_ConfigHash := sha256Hex (json_snapshot unsigned) |> in
  let snapshot := hashed <| cfs_Signature := Sign (json_snapshot hashed) |> in
  rowID ← newID;
  t2 ← nowString;
  exec_checked (replace_config_snapshot rowID
    {| cs_user_id := ac_UserID ac; cs_version := u_desired_config u;
       cs_generation := u_generation u; cs_hash := cfs_ConfigHash snapshot;
       cs_key_id := key_id; cs_signature := cfs_Signature snapshot; cs_created := t2 |});;
  ret snapshot.
End Snapshot.
End Apply.
