(* ===== verification/PortsSpec.v ===== *)
(** The references between mappings, revisions and port leases: an invariant of
    every sequence of mapping operations and acknowledgements, and what an
    acknowledgement makes of the pending revisions. *)

From S2P Require Import Prelude StateError GoText GoNet Timestamps Schema Effects Logic Validation Sample Store Jobs Frames Sessions SessionsSpec Mappings MappingsSpec Domains Apply.
From Stdlib Require Import Ascii String.
Open Scope Z_scope.

(** A revision of the mapping [k]. *)
Definition revision_of (db : DB) (k : string) (rid : option string) : Prop :=
  match rid with
  | None => True
  | Some rid => exists r, revisions db !! rid = Some r /\ r_mapping_id r = k
  end.

Record ports_ok (db : DB) : Prop := {
  (* a lease is of the port of its revision, which is a revision of its mapping *)
  po_lease : forall lid l, leases db !! lid = Some l ->
    exists r, revisions db !! l_rev_id l = Some r /\ r_mapping_id r = l_mapping_id l /\
      r_remote_port r = Some (l_port l);
  (* a port has one lease *)
  po_port : forall k1 k2 l1 l2, leases db !! k1 = Some l1 -> leases db !! k2 = Some l2 ->
    l_port l1 = l_port l2 -> k1 = k2;
  (* a revision is of a mapping *)
  po_revision : forall rid r, revisions db !! rid = Some r -> is_Some (mappings db !! r_mapping_id r);
  (* a mapping points to revisions of its own *)
  po_mapping : forall k m, mappings db !! k = Some m ->
    revision_of db k (m_active_rev m) /\ revision_of db k (m_pending_rev m)
}.

Lemma ports_ok_frame db db' :
  mappings db' = mappings db -> revisions db' = revisions db -> leases db' = leases db ->
  ports_ok db -> ports_ok db'.
Proof.
  intros Em Er El [H1 H2 H3 H4]. split; unfold revision_of; rewrite ?Em, ?Er, ?El; eauto.
Qed.

(** A table the invariant does not read. *)
Ltac other_tables := apply ports_ok_frame; reflexivity.

Lemma preserves_transaction_commit `{Env} (I : DB -> Prop) {A} (body : M (outcome A)) :
  (forall w a w', body w = (Ok (Commit a), w') -> I (w_db w) -> I (w_db w')) ->
  preserves I (transaction body).
Proof.
  intros Hb w Hw. unfold transaction. case_match; [done|].
  destruct (body (step w)) as [[[b|b]|e] w1] eqn:E; [|done..].
  case_match; [done|]. exact (Hb (step w) _ _ E Hw).
Qed.

(** ** Statements *)

(** Rewriting rows without the columns the invariant reads. *)
Lemma ports_ok_mappings P f db :
  (forall m, m_active_rev (f m) = m_active_rev m /\ m_pending_rev (f m) = m_pending_rev m) ->
  ports_ok db -> ports_ok (db <| mappings ::= update_where P f |>).
Proof.
  intros Hf [H1 H2 H3 H4]. split.
  - exact H1.
  - exact H2.
  - intros rid r Hr. apply lookup_update_where_is_Some. exact (H3 _ _ Hr).
  - intros k m (m0 & Hk & ->)%lookup_update_where_Some. destruct (H4 _ _ Hk) as [Ha Hp].
    unfold revision_of in *. cbn [revisions set]. destruct (P k m0); [|done].
    by destruct (Hf m0) as [-> ->].
Qed.

Lemma ports_ok_revisions P f db :
  (forall r, r_mapping_id (f r) = r_mapping_id r /\ r_remote_port (f r) = r_remote_port r) ->
  ports_ok db -> ports_ok (db <| revisions ::= update_where P f |>).
Proof.
  intros Hf [H1 H2 H3 H4].
  assert (forall rid r, revisions db !! rid = Some r ->
    exists r', update_where P f (revisions db) !! rid = Some r' /\
      r_mapping_id r' = r_mapping_id r /\ r_remote_port r' = r_remote_port r) as Hr.
  { intros rid r Hk. eexists. split; [apply lookup_update_where_Some; by eexists|].
    destruct (P rid r); [|done]. apply Hf. }
  assert (forall k o, revision_of db k o ->
    revision_of (db <| revisions ::= update_where P f |>) k o) as Ho.
  { intros k [rid|] Hk; [|done]. destruct Hk as (r & (r' & ? & E & _)%Hr & <-). by exists r'. }
  split.
  - intros lid l Hl. destruct (H1 _ _ Hl) as (r & (r' & Hk & E1 & E2)%Hr & <- & <-). by exists r'.
  - exact H2.
  - intros rid r (r0 & Hk & ->)%lookup_update_where_Some.
    assert (r_mapping_id (if P rid r0 then f r0 else r0) = r_mapping_id r0) as ->.
    { destruct (P rid r0); [apply Hf|done]. }
    exact (H3 _ _ Hk).
  - intros k m Hk. destruct (H4 _ _ Hk). split; by apply Ho.
Qed.

Lemma ports_ok_drop_leases P db :
  ports_ok db -> ports_ok (db <| leases ::= delete_where P |>).
Proof.
  intros [H1 H2 H3 H4]. split; [| |exact H3|exact H4].
  - intros lid l [Hl _]%lookup_delete_where_Some. exact (H1 _ _ Hl).
  - intros k1 k2 l1 l2 [L1 _]%lookup_delete_where_Some [L2 _]%lookup_delete_where_Some. eauto.
Qed.

Lemma ports_ok_delete_mappings P db : ports_ok db -> ports_ok (delete_mappings P db).
Proof.
  intros [H1 H2 H3 H4].
  assert (forall k o, gone P (mappings db) k = false -> revision_of db k o ->
    revision_of (delete_mappings P db) k o) as Ho.
  { intros k [rid|] Hg Hk; [|done]. destruct Hk as (r & Hk & <-). exists r. split; [|done].
    rewrite revisions_delete_mappings. by apply lookup_delete_where_Some. }
  split; rewrite ?mappings_delete_mappings, ?revisions_delete_mappings, ?leases_delete_mappings.
  - intros lid l [Hl Hg]%lookup_delete_where_Some. apply orb_false_iff in Hg as [Hg _].
    destruct (H1 _ _ Hl) as (r & Hr & Em & Ep). exists r. split; [|done].
    apply lookup_delete_where_Some. split; [done|]. by rewrite Em.
  - intros k1 k2 l1 l2 [L1 _]%lookup_delete_where_Some [L2 _]%lookup_delete_where_Some. eauto.
  - intros rid r [Hr Hg]%lookup_delete_where_Some. destruct (H3 _ _ Hr) as [m Hm].
    exists m. apply lookup_delete_where_Some. split; [done|]. unfold gone in Hg. by rewrite Hm in Hg.
  - intros k m [Hk Hg]%lookup_delete_where_Some. destruct (H4 _ _ Hk).
    split; (apply Ho; [unfold gone; by rewrite Hk|done]).
Qed.

(** A new revision [rid] of the mapping [mid], to which the mapping points, and
    perhaps a lease of its port. *)
Lemma ports_ok_new_revision mid m rid r db db' :
  revisions db !! rid = None -> r_mapping_id r = mid ->
  m_pending_rev m = Some rid -> revision_of db mid (m_active_rev m) ->
  mappings db' = <[mid := m]> (mappings db) -> revisions db' = <[rid := r]> (revisions db) ->
  (leases db' = leases db \/
   exists lid l, leases db' = <[lid := l]> (leases db) /\ l_mapping_id l = mid /\ l_rev_id l = rid /\
     r_remote_port r = Some (l_port l) /\ port_free db (l_port l)) ->
  ports_ok db -> ports_ok db'.
Proof.
  intros Hfresh Hrm Hp Ha Em Er El [H1 H2 H3 H4].
  assert (forall x y, revisions db !! x = Some y -> revisions db' !! x = Some y) as Hold.
  { intros x y Hx. rewrite Er, lookup_insert. case_decide; [congruence|done]. }
  assert (forall k o, revision_of db k o -> revision_of db' k o) as Hrev.
  { intros k [x|] Hk; [|done]. destruct Hk as (y & Hy & <-). exists y. auto. }
  split.
  - intros lid l Hl. destruct El as [El|(nid & n & El & En1 & En2 & En3 & _)]; rewrite El in Hl.
    + destruct (H1 _ _ Hl) as (y & Hy & ?). exists y. auto.
    + apply lookup_insert_Some in Hl as [[_ <-]|[_ Hl]].
      * exists r. rewrite Er, En2, lookup_insert_eq. split_and!; congruence.
      * destruct (H1 _ _ Hl) as (y & Hy & ?). exists y. auto.
  - intros k1 k2 l1 l2. destruct El as [El|(nid & n & El & _ & _ & _ & Hfree)]; rewrite El; [by apply H2|].
    intros [[<- <-]|[? L1]]%lookup_insert_Some [[<- <-]|[? L2]]%lookup_insert_Some E; try done.
    + by destruct (Hfree _ _ L2).
    + by destruct (Hfree _ _ L1).
    + by eapply H2.
  - intros x y. rewrite Er, Em. intros [[_ <-]|[_ Hx]]%lookup_insert_Some.
    + rewrite Hrm, lookup_insert_eq. by eexists.
    + destruct (H3 _ _ Hx) as [z Hz]. rewrite lookup_insert. case_decide; by eexists.
  - intros k x. rewrite Em. intros [[<- <-]|[_ Hk]]%lookup_insert_Some.
    + split; [by apply Hrev|]. rewrite Hp. exists r. by rewrite Er, lookup_insert_eq.
    + destruct (H4 _ _ Hk). split; by apply Hrev.
Qed.

Section Operations.
Context `{Env}.

Lemma ports_ok_created ac req ty db db' item :
  mapping_created ac req ty db db' item -> ports_ok db -> ports_ok db'.
Proof.
  intros [_ (rid & t & _ & Em & Hrid & Er & El) _ _ _] Hok.
  eapply (ports_ok_new_revision _ _ rid _ db); [done| | | |exact Em|exact Er| |done]; try done.
  destruct (mv_remote_port item) as [p|]; [|by left].
  destruct El as (Hf & _ & lid & _ & El). right. exists lid. eexists. split; [exact El|]. by split_and!.
Qed.

Lemma ports_ok_withdrawn pending db : ports_ok db -> ports_ok (withdrawn pending db).
Proof.
  destruct pending as [p|]; [|done]. intros Hok.
  apply ports_ok_drop_leases, ports_ok_revisions; [done|exact Hok].
Qed.

Lemma withdrawn_mappings pending db : mappings (withdrawn pending db) = mappings db.
Proof. by destruct pending. Qed.

Lemma ports_ok_updated ac mid req ty db db' item :
  mapping_updated ac mid req ty db db' item -> ports_ok db -> ports_ok db'.
Proof.
  intros [(m & rid & t & Hm & _ & _ & Hrid & Em & _ & Er & El) _ _ _] Hok.
  pose proof (ports_ok_withdrawn (m_pending_rev m) _ Hok) as Hw.
  eapply (ports_ok_new_revision mid (revised req ty rid t m) rid _ (withdrawn (m_pending_rev m) db));
    [| | | | |exact Er| |done]; try done.
  - destruct (revisions (withdrawn (m_pending_rev m) db) !! rid) as [r|] eqn:E; [|done].
    apply withdraw_number in E as (r0 & E & _). by rewrite E in Hrid.
  - apply (po_mapping _ Hw mid m). by rewrite withdrawn_mappings.
  - by rewrite withdrawn_mappings.
  - cbv zeta in El. destruct (mv_remote_port item) as [p|]; [|by left].
    destruct (request_changes_port _ _); [|by left].
    destruct El as (Hf & _ & lid & El). right. exists lid. eexists. split; [exact El|]. by split_and!.
Qed.
End Operations.

#[export] Instance ports_ok_bookkept : Bookkept ports_ok.
Proof. split; intros db f; other_tables. Qed.

Section Invariant.
Context `{Env}.

Lemma CreateMapping_ports_ok ac req key : preserves ports_ok (CreateMapping ac req key).
Proof.
  unfold CreateMapping, key_or_new, require, Audit.
  apply preserves_bind; [preserve|intros _]. apply preserves_bind; [preserve|intros ty].
  apply preserves_bind; [preserve|intros k]. apply preserves_bind; [|intros [? []]; preserve].
  apply preserves_transaction_commit. intros w [item fresh] w' Hb.
  apply create_mapping_tx_Ok in Hb as (op & _ & Hc & _). by eapply ports_ok_created.
Qed.

Lemma UpdateMapping_ports_ok ac mid req key : preserves ports_ok (UpdateMapping ac mid req key).
Proof.
  unfold UpdateMapping, key_or_new, require, Audit.
  apply preserves_bind; [preserve|intros _]. apply preserves_bind; [preserve|intros ty].
  apply preserves_bind; [preserve|intros k]. apply preserves_bind; [|intros [? []]; preserve].
  apply preserves_transaction_commit. intros w [item fresh] w' Hb.
  apply update_mapping_tx_Ok in Hb as (op & _ & Hc & _). by eapply ports_ok_updated.
Qed.

Lemma DeleteMapping_ports_ok ac mid force key : preserves ports_ok (DeleteMapping ac mid force key).
Proof.
  unfold DeleteMapping, delete_mapping_tx, key_or_new, ensure_domain_delete, Audit. preserve.
  - by apply ports_ok_mappings.
  - eapply ports_ok_frame; [..|eassumption]; reflexivity.
  - eapply ports_ok_frame; [..|eassumption]; reflexivity.
Qed.

Lemma ToggleMapping_ports_ok ac mid enabled option_ :
  preserves ports_ok (ToggleMapping ac mid enabled option_).
Proof.
  unfold ToggleMapping, toggle_mapping_tx, key_or_new, EnqueueRouterSnapshot, Audit. preserve.
  - by apply ports_ok_mappings.
  - eapply ports_ok_frame; [..|eassumption]; reflexivity.
Qed.

(** *** The acknowledgement *)

Lemma ports_ok_promote uid t db : ports_ok db -> ports_ok (promote_mappings uid t db).
Proof.
  intros [H1 H2 H3 H4]. split; [exact H1|exact H2| |].
  - intros rid r Hr. apply lookup_update_where_is_Some. exact (H3 _ _ Hr).
  - intros k m (m0 & Hk & ->)%lookup_update_where_Some. destruct (H4 _ _ Hk) as [Ha Hp].
    destruct (owned_mapping uid k m0); [|done].
    change (revision_of db k (match m_pending_rev m0 with Some p => Some p | None => m_active_rev m0 end)
      /\ True). split; [|done]. by destruct (m_pending_rev m0).
Qed.

Lemma ports_ok_demote uid t db : ports_ok db -> ports_ok (demote_mappings uid t db).
Proof.
  intros [H1 H2 H3 H4]. split; [exact H1|exact H2| |].
  - intros rid r Hr. apply lookup_update_where_is_Some. exact (H3 _ _ Hr).
  - intros k m (m0 & Hk & ->)%lookup_update_where_Some. destruct (H4 _ _ Hk) as [Ha Hp].
    by destruct (m_user_id m0 == uid).
Qed.

(** After the unbacked leases are gone, each lease can follow its mapping's
    active revision. *)
Lemma ports_ok_activate uid db db' :
  (forall lid l, leases db !! lid = Some l -> mapping_of_user uid db (l_mapping_id l) = true ->
     lease_backed db l = true) ->
  activate_leases uid db = Ok db' -> ports_ok db -> ports_ok db'.
Proof.
  intros Hb Hrun [H1 H2 H3 H4]. unfold activate_leases in Hrun. apply reject_Ok in Hrun as [_ [= <-]].
  split; [| |exact H3|exact H4].
  - intros lid l (l0 & Hl & ->)%lookup_update_where_Some.
    destruct (mapping_of_user uid db (l_mapping_id l0)) eqn:Hu; [|exact (H1 _ _ Hl)].
    pose proof (Hb _ _ Hl Hu) as Hback. unfold lease_backed in Hback.
    change (exists r, revisions db !! default (l_rev_id l0) (m ← mappings db !! l_mapping_id l0; m_active_rev m)
      = Some r /\ r_mapping_id r = l_mapping_id l0 /\ r_remote_port r = Some (l_port l0)).
    destruct (mappings db !! l_mapping_id l0) as [m|] eqn:Hm; [|done]. simpl in *.
    destruct (m_active_rev m) as [rid|] eqn:Ha; [|done]. simpl in *.
    destruct (revisions db !! rid) as [r|] eqn:Hr; [|done]. apply bool_decide_eq_true in Hback.
    destruct (H4 _ _ Hm) as [Hrev _]. rewrite Ha in Hrev. destruct Hrev as (r' & Hr' & E).
    exists r'. rewrite Hr in Hr'. injection Hr' as <-. by split_and!.
  - intros k1 k2 l1 l2 (x1 & L1 & ->)%lookup_update_where_Some (x2 & L2 & ->)%lookup_update_where_Some E.
    apply (H2 k1 k2 x1 x2 L1 L2). by destruct (mapping_of_user uid db (l_mapping_id x1)),
      (mapping_of_user uid db (l_mapping_id x2)).
Qed.

Lemma unbacked_dropped uid db lid l :
  leases (drop_unbacked_leases uid db) !! lid = Some l ->
  mapping_of_user uid (drop_unbacked_leases uid db) (l_mapping_id l) = true ->
  lease_backed (drop_unbacked_leases uid db) l = true.
Proof.
  intros [_ Hb]%lookup_delete_where_Some Hu.
  change (mapping_of_user uid db (l_mapping_id l) = true) in Hu.
  rewrite Hu in Hb. by apply negb_false_iff in Hb.
Qed.

Lemma apply_succeeded_Ok uid req t w o w' :
  apply_succeeded_tx uid req t w = (Ok o, w') ->
  o = Commit tt /\ exists db fr,
    activate_leases uid (drop_unbacked_leases uid (promote_mappings uid t
      (activate_pending uid t (supersede_replaced uid (w_db w))))) = Ok db /\
    w_db w' = db <| users ::= update_where (fun k _ => k == uid) (fun u =>
      u <| u_applied_config := ar_ConfigVersion req |> <| u_last_failed_config := None |>
        <| u_updated := t |>) |> <| runtime_state ::= fr |>.
Proof.
  unfold apply_succeeded_tx. intros Hrun. run_inv. subst. split; [done|].
  eexists _, _. split; [eassumption|reflexivity].
Qed.

Lemma ApplyResult_ports_ok ac req : preserves ports_ok (ApplyResult ac req).
Proof.
  unfold ApplyResult, check_apply, apply_failed_tx, enqueue_domain_delete, finalizeDeletedMappings,
    finalizeDeletedMapping, EnqueueRouterSnapshot, Audit.
  apply preserves_bind; [preserve|intros _]. apply preserves_bind; [preserve|intros t].
  destruct (String.eqb _ _).
  - apply preserves_bind; [|intros _; preserve].
    + apply preserves_transaction_commit. intros w a w' (_ & db & fr & Ha & ->)%apply_succeeded_Ok Hok.
      apply (ports_ok_frame db); try reflexivity.
      apply ports_ok_activate in Ha; [done|apply unbacked_dropped|].
      apply ports_ok_drop_leases, ports_ok_promote, ports_ok_revisions; [done|].
      by apply ports_ok_revisions.
    + by apply ports_ok_delete_mappings.
    + eapply ports_ok_frame; [..|eassumption]; reflexivity.
  - preserve.
    + by apply ports_ok_revisions.
    + by apply ports_ok_demote.
    + by apply ports_ok_drop_leases.
    + eapply ports_ok_frame; [..|eassumption]; reflexivity.
    + eapply ports_ok_frame; [..|eassumption]; reflexivity.
Qed.

(** The steps that write mappings, revisions or leases, each with whatever
    arguments and whether it succeeds or not. *)
Inductive mapping_step : World -> World -> Prop :=
| step_create ac req key w : mapping_step w (snd (CreateMapping ac req key w))
| step_update ac mid req key w : mapping_step w (snd (UpdateMapping ac mid req key w))
| step_delete ac mid force key w : mapping_step w (snd (DeleteMapping ac mid force key w))
| step_toggle ac mid enabled o w : mapping_step w (snd (ToggleMapping ac mid enabled o w))
| step_apply ac req w : mapping_step w (snd (ApplyResult ac req w)).

(** C2: port leases stay exclusive and consistent.  From a database whose leases
    are in order - an empty one is - every sequence of creations, updates,
    deletions, toggles and acknowledgements, by any callers and with any
    statements failing, reaches only databases in which no two leases hold the
    same port, every lease is of the port of a revision of its mapping, and
    every mapping points to revisions of its own. *)
Theorem ports_invariant w w' :
  ports_ok (w_db w) -> rtc mapping_step w w' -> ports_ok (w_db w').
Proof.
  intros Hw Hs. revert Hw. induction Hs as [w|w w1 w2 Hstep _ IH]; [done|]. intros Hw. apply IH.
  destruct Hstep; [apply CreateMapping_ports_ok|apply UpdateMapping_ports_ok|apply DeleteMapping_ports_ok
    |apply ToggleMapping_ports_ok|apply ApplyResult_ports_ok]; exact Hw.
Qed.
End Invariant.
