(* ===== verification/Authorize.v ===== *)
(** The authorisation of FRPS requests ([authorizeFRP] of
    [server/internal/service/service.go]), which the FRPS plugin asks before
    every login and proxy. *)

From S2P Require Import Prelude StateError GoText Timestamps Schema Effects Logic Validation Store Sessions Mappings.
From Stdlib Require Import Ascii String.
Open Scope Z_scope.

(** What the plugin asks. *)
Record FRPRequest := mkFRPRequest {
  fr_operation : string;
  fr_frpUsername : string;
  fr_runtimeCredential : string;
  fr_userFRPSecret : string;
  fr_generation : Z;
  fr_mappingID : string;
  fr_mappingRevision : Z;
  fr_remotePort : Z;
  fr_hostname : string;
  fr_requestedProxyType : string
}.

(** The row of the four-table join. *)
Record RuntimeRow := mkRuntimeRow {
  rr_userID : string;
  rr_user : User;
  rr_sessionGeneration : Z;
  rr_secretHash : string;
  rr_expires : Stamp
}.

(** [frp_credentials fc JOIN users u ON u.id=fc.user_id JOIN
    frp_runtime_credentials rc ON rc.user_id=u.id JOIN sessions s ON
    s.id=rc.server_session_id WHERE fc.frp_username=? AND rc.token_hash=? AND
    rc.revoked_at IS NULL AND s.revoked_at IS NULL] *)
Definition runtime_rows (frpUsername tokenHash : string) (db : DB) : list RuntimeRow :=
  fc ← map snd (select (fun _ c => fc_frp_username c == frpUsername) (frp_credentials db));
  rc ← map snd (select (fun _ c => (rc_user_id c == fc_user_id fc) && (rc_token_hash c == tokenHash) &&
                                   (rc_revoked c == None)) (runtime_credentials db));
  match users db !! fc_user_id fc, sessions db !! rc_session_id rc with
  | Some u, Some s =>
      if unrevoked s
      then [mkRuntimeRow (fc_user_id fc) u (s_generation s) (fc_secret_hash fc) (rc_expires rc)]
      else []
  | _, _ => []
  end.

(** [mappings m JOIN mapping_revisions r ON r.id=COALESCE(m.pending_revision_id,
    m.active_revision_id) WHERE m.id=?] *)
Definition mapping_with_revision (mid : string) (db : DB) : option (Mapping * Revision) :=
  m ← mappings db !! mid; r ← current_revision db m; Some (m, r).

Definition session_operation (op : string) : bool :=
  existsb (String.eqb op) ["Login"; "Ping"; "NewWorkConn"; "NewUserConn"; "CloseProxy"]%string.

(** A verdict: allowed, or the code of the refusal. *)
Inductive Verdict := Allowed | Denied (code : string).

Section Authorize.
Context `{Env}.

(** The first refusal of a list of checks made in order. *)
Definition deny_if (b : bool) (code : string) (k : M Verdict) : M Verdict :=
  if b then ret (Denied code) else k.

Definition authorize_hostname (userID mid hostname : string) (k : M Verdict) : M Verdict :=
  if String.eqb hostname "" then k
  else
    match normalizeDomain hostname with
    | Err _ => ret (Denied "DOMAIN_NOT_AUTHORIZED")
    | Ok normalized =>
        d ← attempt (query_row (fun db =>
          snd <$> head (select (fun _ d => d_normalized d == normalized) (domains db))));
        match d with
        | Err _ => ret (Denied "DOMAIN_NOT_AUTHORIZED")
        | Ok d =>
            deny_if ((d_user_id d != userID) || (d_mapping_id d != mid) || (d_status d == DsDeleted))
              "DOMAIN_NOT_AUTHORIZED" k
        end
    end.

Definition mapping_closed (userID : string) (m : Mapping) : bool :=
  (m_user_id m != userID) || (m_desired m == DDisabled) || (m_lifecycle m == LDisabled) ||
  (m_lifecycle m == LDeleting) || (m_lifecycle m == LDeleted).

Definition authorize_proxy (userID : string) (q : FRPRequest) : M Verdict :=
  mr ← attempt (query_row (mapping_with_revision (fr_mappingID q)));
  match mr with
  | Err _ => ret (Denied "MAPPING_NOT_FOUND")
  | Ok (m, r) =>
      deny_if (mapping_closed userID m) "MAPPING_NOT_AUTHORIZED" $
      deny_if (negb (String.eqb (fr_requestedProxyType q) "") &&
               negb (EqualFold (fr_requestedProxyType q) (proxy_type_text (m_proxy_type m))))
        "PROXY_TYPE_NOT_ALLOWED" $
      deny_if (negb (r_revision r =? fr_mappingRevision q)) "RESOURCE_REVISION_CONFLICT" $
      deny_if (match r_remote_port r with
               | Some p => negb (fr_remotePort q =? p)
               | None => false
               end) "PORT_NOT_ALLOWED" $
      authorize_hostname userID (fr_mappingID q) (fr_hostname q) $
      deny_if ((m_proxy_type m == Http) && String.eqb (fr_hostname q) "") "DOMAIN_REQUIRED" $
      ret Allowed
  end.

Definition authorizeFRP (q : FRPRequest) : M Verdict :=
  row ← attempt (query_row (fun db =>
    head (runtime_rows (fr_frpUsername q) (sha256Hex (fr_runtimeCredential q)) db)));
  match row with
  | Err _ => ret (Denied "FRP_RUNTIME_CREDENTIAL_INVALID")
  | Ok row =>
      deny_if (negb (String.eqb (fr_userFRPSecret q) "") &&
               negb (String.eqb (rr_secretHash row) (sha256Hex (fr_userFRPSecret q))))
        "FRP_USER_CREDENTIAL_INVALID" $
      deny_if (u_status (rr_user row) != UActive) "AUTH_USER_DISABLED" $
      deny_if (negb (u_generation (rr_user row) =? fr_generation q) ||
               negb (rr_sessionGeneration row =? fr_generation q)) "SESSION_GENERATION_MISMATCH"
        (t ← now;
         deny_if (rr_expires row <? t) "SESSION_EXPIRED" $
         if session_operation (fr_operation q) then ret Allowed
         else deny_if (negb (String.eqb (fr_operation q) "NewProxy")) "FRP_OPERATION_NOT_ALLOWED" $
              authorize_proxy (rr_userID row) q)
  end.
End Authorize.
