(* ===== verification/ApplySpec.v ===== *)
(** What an acknowledgement means: on success the pending revisions become the
    authoritative ones and only their ports stay leased, on failure the active
    ones stay; and two sequences of requests after which leases and revisions
    do not fit together. *)

From S2P Require Import Prelude StateError GoText GoNet Timestamps Schema Effects Logic Validation Sample Store Jobs Sessions SessionsSpec Mappings MappingsSpec Domains Apply PortsSpec Authorize.
From Stdlib Require Import Ascii String.
Open Scope Z_scope.

(** A mapping whose pending revision has become the authoritative one. *)
Definition promoted (m m' : Mapping) : Prop :=
  m_pending_rev m' = None /\
  (forall p, m_pending_rev m = Some p -> m_active_rev m' = Some p) /\
  (m_pending_rev m = None -> m_active_rev m' = m_active_rev m) /\
  (m_lifecycle m' = LRunning <-> m_lifecycle m <> LDeleting /\ m_desired m <> DDisabled) /\
  (m_lifecycle m = LDeleting -> m_lifecycle m' = LDeleting).

Lemma promote_promoted t m : promoted m (promote t m).
Proof.
  unfold promoted, promote. cbn. split; [done|]. split; [by intros p ->|]. split; [by intros ->|].
  destruct (m_lifecycle m == LDeleting) eqn:E; [apply bool_decide_eq_true in E|apply bool_decide_eq_false in E].
  - rewrite E. split; [|done]. split; [done|]. by intros [? _].
  - split; [|done]. destruct (m_desired m == DDisabled) eqn:E2;
      [apply bool_decide_eq_true in E2|apply bool_decide_eq_false in E2].
    + split; [done|]. by intros [_ ?].
    + by split.
Qed.

(** What the acknowledgement of [version] at time [t] has made of [db0]; rows may
    have been deleted since. *)
Record acknowledged (uid : string) (version : Z) (t : Stamp) (db0 db : DB) : Prop := {
  (* each of the user's mappings now has its pending revision, or else its
     active one, as the authoritative one; other users' mappings are untouched *)
  ak_mapping : forall k m', mappings db !! k = Some m' ->
    exists m, mappings db0 !! k = Some m /\
      (if owned_mapping uid k m then promoted m m' /\ m' = promote t m else m' = m);
  (* the pending revisions are active, those they replace superseded *)
  ak_revision : forall rid r', revisions db !! rid = Some r' ->
    exists r, revisions db0 !! rid = Some r /\ r_remote_port r' = r_remote_port r /\
      r_mapping_id r' = r_mapping_id r /\
      r_status r' = if is_pending_rev uid db0 rid then RActive
                    else if replaced_active uid db0 rid then RSuperseded else r_status r;
  (* a lease of the user's is active, of the authoritative revision and its port *)
  ak_lease : forall lid l m, leases db !! lid = Some l -> mappings db0 !! l_mapping_id l = Some m ->
    if m_user_id m == uid then
      l_role l = LeaseActive /\
      Some (l_rev_id l) = m_active_rev (if owned_mapping uid (l_mapping_id l) m then promote t m else m) /\
      exists r, revisions db0 !! l_rev_id l = Some r /\ r_remote_port r = Some (l_port l)
    else leases db0 !! lid = Some l;
  (* the acknowledged version was the desired one and is the applied one *)
  ak_user : exists u u', users db0 !! uid = Some u /\ u_status u = UActive /\ u_desired_config u = version /\
    users db !! uid = Some u' /\ u_applied_config u' = version /\ u_desired_config u' = version /\
    u_last_failed_config u' = None
}.

Lemma acknowledged_frame uid v t db0 db db' :
  users db' = users db ->
  (forall k m, mappings db' !! k = Some m -> mappings db !! k = Some m) ->
  (forall k r, revisions db' !! k = Some r -> revisions db !! k = Some r) ->
  (forall k l, leases db' !! k = Some l -> leases db !! k = Some l) ->
  acknowledged uid v t db0 db -> acknowledged uid v t db0 db'.
Proof.
  intros Eu Hm Hr Hl [A1 A2 A3 A4]. split; [by eauto|by eauto| |by rewrite Eu].
  intros lid l m Hk. apply A3. auto.
Qed.

Section Success.
Context `{Env}.

Lemma Enqueue_acknowledged uid v t db0 ty rt ri key payload tv :
  preserves (acknowledged uid v t db0) (Enqueue ty rt ri key payload tv).
Proof.
  unfold Enqueue. preserve. unfold insert_job_or_ignore. destruct (_ || _); [done|].
  eapply acknowledged_frame; [..|eassumption]; done.
Qed.

Lemma Audit_acknowledged uid v t db0 actor ac action rt ri result md op :
  preserves (acknowledged uid v t db0) (audit_as actor ac action rt ri result md op).
Proof. apply audit_preserves. intros db f. by apply acknowledged_frame. Qed.

Lemma delete_mappings_acknowledged uid v t db0 P db :
  acknowledged uid v t db0 db -> acknowledged uid v t db0 (delete_mappings P db).
Proof.
  apply acknowledged_frame; [done|..]; intros ? ?.
  - rewrite mappings_delete_mappings. by intros [? _]%lookup_delete_where_Some.
  - rewrite revisions_delete_mappings. by intros [? _]%lookup_delete_where_Some.
  - rewrite leases_delete_mappings. by intros [? _]%lookup_delete_where_Some.
Qed.

Lemma check_apply_Ok ac req w u w' :
  check_apply ac req w = (Ok u, w') ->
  w_db w' = w_db w /\
  exists x, users (w_db w) !! ac_UserID ac = Some x /\ u_status x = UActive /\
    u_desired_config x = ar_ConfigVersion req.
Proof.
  unfold check_apply. intros Hrun.
  apply bind_Ok in Hrun as (? & w1 & [_ ->]%fail_if_Ok & Hrun).
  apply bind_Ok in Hrun as (d & w2 & (_ & Hq & ->)%query_row_Ok & Hrun).
  apply bind_Ok in Hrun as (? & w3 & [Hv ->]%fail_if_Ok & Hrun).
  apply negb_false_iff, Z.eqb_eq in Hv.
  destruct (active_user (ac_UserID ac) (w_db w)) as [y|] eqn:Hx; [|done]. injection Hq as <-.
  apply active_user_Some in Hx as [Hu Ha]. split; [|by exists y].
  destruct (String.eqb _ _); run_inv; by subst.
Qed.

(** The rows before the leases are touched. *)
Lemma ak_promoted uid t db :
  let db1 := promote_mappings uid t (activate_pending uid t (supersede_replaced uid db)) in
  (forall k m', mappings db1 !! k = Some m' ->
     exists m, mappings db !! k = Some m /\ m' = if owned_mapping uid k m then promote t m else m) /\
  (forall k m, mappings db !! k = Some m ->
     mappings db1 !! k = Some (if owned_mapping uid k m then promote t m else m)) /\
  (forall rid r', revisions db1 !! rid = Some r' ->
     exists r, revisions db !! rid = Some r /\ r_remote_port r' = r_remote_port r /\
       r_mapping_id r' = r_mapping_id r /\
       r_status r' = if is_pending_rev uid db rid then RActive
                     else if replaced_active uid db rid then RSuperseded else r_status r).
Proof.
  split; [|split].
  - by intros k m' (m & Hk & ->)%lookup_update_where_Some; exists m.
  - intros k m Hk. apply lookup_update_where_Some. by exists m.
  - intros rid r' (r1 & (r & Hr & ->)%lookup_update_where_Some & ->)%lookup_update_where_Some.
    exists r. split; [done|].
    change (is_pending_rev uid (supersede_replaced uid db) rid) with (is_pending_rev uid db rid).
    by destruct (is_pending_rev uid db rid), (replaced_active uid db rid).
Qed.

Lemma mapping_of_user_promoted uid t db mid :
  mapping_of_user uid (promote_mappings uid t db) mid = mapping_of_user uid db mid.
Proof.
  unfold mapping_of_user. cbn [mappings promote_mappings set]. rewrite lookup_update_where.
  destruct (mappings db !! mid) as [m|]; simpl; [|done]. by destruct (owned_mapping uid mid m).
Qed.

Lemma ak_leases uid t db db' :
  activate_leases uid (drop_unbacked_leases uid (promote_mappings uid t
    (activate_pending uid t (supersede_replaced uid db)))) = Ok db' ->
  mappings db' = mappings (promote_mappings uid t (activate_pending uid t (supersede_replaced uid db))) /\
  revisions db' = revisions (activate_pending uid t (supersede_replaced uid db)) /\
  users db' = users db /\
  forall lid l m, leases db' !! lid = Some l -> mappings db !! l_mapping_id l = Some m ->
  if m_user_id m == uid then
    l_role l = LeaseActive /\
    Some (l_rev_id l) = m_active_rev (if owned_mapping uid (l_mapping_id l) m then promote t m else m) /\
    exists r, revisions db !! l_rev_id l = Some r /\ r_remote_port r = Some (l_port l)
  else leases db !! lid = Some l.
Proof.
  set (db1 := promote_mappings _ _ _). intros Ha.
  unfold activate_leases in Ha. apply reject_Ok in Ha as [_ [= <-]].
  split; [done|]. split; [done|]. split; [done|].
  intros lid l m (l0 & Hl & Hupd)%lookup_update_where_Some Hm.
  assert (l_mapping_id l = l_mapping_id l0) as El by (rewrite Hupd; by case_match).
  assert (mapping_of_user uid db1 (l_mapping_id l0) = (m_user_id m == uid)) as Eu.
  { unfold db1. rewrite mapping_of_user_promoted.
    unfold mapping_of_user. change (mappings _) with (mappings db). by rewrite <- El, Hm. }
  change (mapping_of_user uid (drop_unbacked_leases uid db1) (l_mapping_id l0)) with
    (mapping_of_user uid db1 (l_mapping_id l0)) in Hupd.
  pose proof (unbacked_dropped uid db1 lid l0 Hl) as Hback.
  change (mapping_of_user uid (drop_unbacked_leases uid db1) (l_mapping_id l0)) with
    (mapping_of_user uid db1 (l_mapping_id l0)) in Hback.
  rewrite Eu in *. destruct (m_user_id m == uid).
  - specialize (Hback eq_refl).
    assert (l_rev_id l = default (l_rev_id l0) (m ← mappings db1 !! l_mapping_id l0; m_active_rev m) /\
      l_port l = l_port l0 /\ l_role l = LeaseActive) as (E1 & E2 & E3)
      by (rewrite Hupd; split; [reflexivity|by split]).
    clear Hupd. destruct (ak_promoted uid t db) as (_ & Hm1 & Hr1). fold db1 in Hm1, Hr1.
    change (lease_backed (drop_unbacked_leases uid db1) l0) with (lease_backed db1 l0) in Hback.
    clearbody db1. unfold lease_backed in Hback. rewrite <- El, (Hm1 _ _ Hm) in Hback. simpl in Hback.
    set (m1 := if owned_mapping uid (l_mapping_id l) m then promote t m else m) in *.
    destruct (m_active_rev m1) as [rid|] eqn:Er; [|done]. simpl in Hback.
    destruct (revisions db1 !! rid) as [r1|] eqn:Hr; [|done].
    apply bool_decide_eq_true in Hback. destruct (Hr1 _ _ Hr) as (r & Hr0 & Ep & _).
    rewrite <- El, (Hm1 _ _ Hm) in E1. fold m1 in E1. simpl in E1. rewrite Er in E1. simpl in E1.
    split; [done|]. split; [congruence|]. exists r. split; [congruence|]. congruence.
  - rewrite Hupd. by apply lookup_delete_where_Some in Hl as [Hl _].
Qed.
End Success.

#[export] Hint Resolve Enqueue_acknowledged Audit_acknowledged : preserve.

(** A mapping whose pending revision has been given up. *)
Definition demoted (m m' : Mapping) : Prop :=
  m_pending_rev m' = None /\ m_active_rev m' = m_active_rev m /\ m_user_id m' = m_user_id m /\
  (m_lifecycle m ∈ [LDeleted; LDisabled; LDeleting] -> m_lifecycle m' = m_lifecycle m) /\
  (m_lifecycle m ∉ [LDeleted; LDisabled; LDeleting] ->
     m_lifecycle m' = LConfigError /\ m_observed m' = ObOffline).

Lemma demote_demoted t m : demoted m (demote t m).
Proof.
  unfold demoted, demote, lifecycle_kept. cbn [m_pending_rev m_active_rev m_user_id m_lifecycle m_observed set].
  split_and!; try done; destruct (m_lifecycle m); set_solver.
Qed.

(** What a failure report of [version] at time [t] has made of [db0]. *)
Record refused (uid : string) (version : Z) (t : Stamp) (db0 db : DB) : Prop := {
  (* no mapping of the user waits any more; the active revision, if any, stays *)
  rf_mapping : forall k, mappings db !! k =
    (fun m => if m_user_id m == uid then demote t m else m) <$> mappings db0 !! k;
  rf_demoted : forall k m', mappings db !! k = Some m' -> m_user_id m' = uid ->
    exists m, mappings db0 !! k = Some m /\ demoted m m';
  (* the revisions that waited have failed; none of their ports changes *)
  rf_revision : forall rid r', revisions db !! rid = Some r' ->
    exists r, revisions db0 !! rid = Some r /\ r_remote_port r' = r_remote_port r /\
      r_status r' = if mapping_of_user uid db0 (r_mapping_id r) &&
                       ((r_status r == RPending) || (r_status r == RApplying))
                    then RFailed else r_status r;
  (* exactly the user's pending leases are given back *)
  rf_lease : forall lid l, leases db !! lid = Some l <->
    leases db0 !! lid = Some l /\
    (l_role l = LeasePending -> mapping_of_user uid db0 (l_mapping_id l) = false);
  (* the version the client runs stays the applied one *)
  rf_user : exists u u', users db0 !! uid = Some u /\ u_desired_config u = version /\
    users db !! uid = Some u' /\ u_applied_config u' = u_applied_config u /\
    u_desired_config u' = version /\ u_last_failed_config u' = Some version
}.

Section Acknowledgement.
Context `{Env}.

(** C4: a successful acknowledgement makes the pending configuration
    authoritative.  It is accepted only for the version the user desires; then
    each mapping's pending revision is its active one, the replaced revisions
    are superseded, every lease the user keeps is an active lease of the
    authoritative revision and of its port, nothing of another user's mappings
    and leases has changed, and the version is recorded as applied. *)
Theorem ApplyResult_success ac req w u w' :
  ar_Status req = "succeeded"%string -> ApplyResult ac req w = (Ok u, w') ->
  exists t, acknowledged (ac_UserID ac) (ar_ConfigVersion req) t (w_db w) (w_db w').
Proof.
  unfold ApplyResult. intros Hst Hrun. rewrite Hst in Hrun.
  apply bind_Ok in Hrun as (? & w1 & Hc & Hrun); apply check_apply_Ok in Hc as (Edb & y & Hu & Ha & Hv).
  apply bind_Ok in Hrun as (t & w2 & [-> ->]%now_Ok & Hrun). exists (env_now (w_tick w1)).
  cbn [String.eqb] in Hrun. cbv iota in Hrun.
  apply bind_Ok in Hrun as (? & w3 & Htx & Hrun).
  assert (acknowledged (ac_UserID ac) (ar_ConfigVersion req) (env_now (w_tick w1)) (w_db w) (w_db w3)) as Hak.
  { apply transaction_Ok in Htx as (_ & [(w4 & Hb & _ & ->) | (w4 & Hb & _)]);
      apply apply_succeeded_Ok in Hb as (Ho & db & fr & Hact & Hdb); [|done].
    cbn [w_db step] in *. rewrite Edb in Hact.
    apply ak_leases in Hact as (Em & Er & Eu & Hl).
    destruct (ak_promoted (ac_UserID ac) (env_now (w_tick w1)) (w_db w)) as (Hm & _ & Hr).
    rewrite Hdb. split.
    - intros k m'. rewrite <- Em in Hm. intros (m & Hk & ->)%(Hm k m'). exists m. split; [done|].
      destruct (owned_mapping _ _ _); [split; [apply promote_promoted|]|]; done.
    - intros rid r'. change (revisions (promote_mappings _ _ ?d)) with (revisions d) in Hr.
      rewrite <- Er in Hr. exact (Hr rid r').
    - exact Hl.
    - exists y. eexists. split; [done|]. split; [done|]. split; [done|].
      cbn [users set]. rewrite lookup_update_where, Eu, Hu. simpl. rewrite bool_decide_true by done.
      split; [reflexivity|]. by split_and!. }
  match type of Hrun with ?m w3 = _ => assert (preserves (acknowledged (ac_UserID ac)
    (ar_ConfigVersion req) (env_now (w_tick w1)) (w_db w)) m) as Hp end.
  { unfold enqueue_domain_delete, finalizeDeletedMappings, finalizeDeletedMapping, EnqueueRouterSnapshot,
      Audit. preserve.
    - by apply delete_mappings_acknowledged.
    - eapply acknowledged_frame; [..|eassumption]; done. }
  specialize (Hp w3 Hak). by rewrite Hrun in Hp.
Qed.

Lemma apply_failed_Ok uid req t w o w' :
  apply_failed_tx uid req t w = (Ok o, w') ->
  exists fr, w_db w' = release_pending_leases uid (demote_mappings uid t (fail_revisions uid (w_db w)))
    <| users ::= update_where (fun k _ => k == uid) (fun u =>
         u <| u_last_failed_config := Some (ar_ConfigVersion req) |> <| u_updated := t |>) |>
    <| runtime_state ::= fr |>.
Proof.
  unfold apply_failed_tx. intros Hrun. run_inv. subst. eexists. reflexivity.
Qed.

(** C28: a failure report leaves the running configuration in force.  No mapping
    of the user waits any more, the revisions that waited are marked failed and
    exactly the user's pending leases are given back; active revisions, active
    leases, the desired and the applied version stay. *)
Theorem ApplyResult_failure ac req w u w' :
  ar_Status req = "failed"%string -> ApplyResult ac req w = (Ok u, w') ->
  exists t db f, refused (ac_UserID ac) (ar_ConfigVersion req) t (w_db w) db /\
    w_db w' = db <| audit_logs ::= f |>.
Proof.
  unfold ApplyResult. intros Hst Hrun. rewrite Hst in Hrun.
  apply bind_Ok in Hrun as (? & w1 & Hc & Hrun); apply check_apply_Ok in Hc as (Edb & y & Hu & Ha & Hv).
  apply bind_Ok in Hrun as (t & w2 & [-> ->]%now_Ok & Hrun). exists (env_now (w_tick w1)).
  cbn [String.eqb] in Hrun. cbv iota in Hrun.
  apply bind_Ok in Hrun as (? & w3 & Htx & [f Hf]%ignored_audit). exists (w_db w3), f.
  split; [|exact Hf]. apply transaction_Ok in Htx as (_ & [(w4 & Hb & _ & ->) | (w4 & Hb & ->)]).
  - apply apply_failed_Ok in Hb as [fr Hdb]. cbn [w_db step] in *. rewrite Edb in Hdb.
    split.
    + intros k. rewrite Hdb. exact (lookup_update_where _ _ _ _).
    + intros k m'. rewrite Hdb. intros (m & Hk & ->)%lookup_update_where_Some Hown. exists m. split; [exact Hk|].
      destruct (m_user_id m == ac_UserID ac) eqn:E; [apply demote_demoted|].
      apply bool_decide_eq_false in E. by destruct E.
    + intros rid r'. rewrite Hdb. intros (r & Hr & ->)%lookup_update_where_Some.
      exists r. split; [done|]. by destruct (_ && _).
    + intros lid l.
      assert (leases (w_db w4) = leases (release_pending_leases (ac_UserID ac)
        (demote_mappings (ac_UserID ac) (env_now (w_tick w1)) (fail_revisions (ac_UserID ac) (w_db w)))))
        as -> by (rewrite Hdb; reflexivity).
      cbn [leases release_pending_leases set]. rewrite lookup_delete_where_Some.
      assert (mapping_of_user (ac_UserID ac) (demote_mappings (ac_UserID ac) (env_now (w_tick w1))
        (fail_revisions (ac_UserID ac) (w_db w))) (l_mapping_id l) =
        mapping_of_user (ac_UserID ac) (w_db w) (l_mapping_id l)) as ->.
      { unfold mapping_of_user. change (mappings (demote_mappings ?a ?b ?d)) with
          (update_where (fun _ m => m_user_id m == a) (demote b) (mappings d)).
        rewrite lookup_update_where. change (mappings (fail_revisions ?a ?d)) with (mappings d).
        destruct (mappings (w_db w) !! l_mapping_id l) as [m|]; simpl; [|done].
        destruct (m_user_id m == ac_UserID ac) eqn:E; [exact E|exact E]. }
      rewrite andb_false_iff, bool_decide_eq_false.
      split; [intros [? [?|?]]; split; done|].
      intros [Hl Hn]. split; [exact Hl|]. destruct (decide (l_role l = LeasePending)); auto.
    + exists y. eexists. split; [done|]. split; [done|]. rewrite Hdb. split.
      * etransitivity; [exact (lookup_update_where _ _ _ _)|].
        change (users (demote_mappings _ _ _)) with (users (w_db w)).
        rewrite Hu. simpl. rewrite bool_decide_true by done. reflexivity.
      * by split_and!.
  - unfold apply_failed_tx in Hb. run_inv. discriminate.
Qed.

(** A stale acknowledgement is refused.  A client that reports on any
    version but the desired one gets a conflict and nothing changes. *)
Theorem stale_acknowledgement_refused {NF : NoFaults} ac req w u :
  ar_Status req = "succeeded"%string \/ ar_Status req = "failed"%string ->
  users (w_db w) !! ac_UserID ac = Some u -> u_status u = UActive ->
  ar_ConfigVersion req <> u_desired_config u ->
  exists w', ApplyResult ac req w = (Err ErrConfigConflict, w') /\ w_db w' = w_db w.
Proof.
  intros Hst Hu Ha Hv. exists (step w). split; [|done]. unfold ApplyResult. apply bind_fail.
  unfold check_apply.
  assert (negb (existsb (String.eqb (ar_Status req)) ["succeeded"; "failed"]%string) = false) as ->
    by (by destruct Hst as [-> | ->]).
  rewrite run_fail_if_false.
  rewrite (run_query_row _ _ _ (u_desired_config u)).
  - rewrite (proj2 (Z.eqb_neq _ _) Hv). done.
  - unfold active_user. rewrite Hu. simpl. by rewrite Ha, bool_decide_true.
Qed.
End Acknowledgement.

(** ** Instances *)

Definition sample_ack (status : string) (version : Z) : M unit :=
  ApplyResult sample_caller (mkApplyResultRequest status version "" "" "" "1.0" "0.61").

Lemma ApplyResult_success_witness :
  exists w', sample_ack "succeeded" 1 sample_mapped = (Ok tt, w') /\
    exists t, acknowledged (ac_UserID sample_caller) 1 t (w_db sample_mapped) (w_db w').
Proof.
  sample_run (sample_ack "succeeded" 1 sample_mapped) u w' E (fun (_ : unit) (_ : World) => true) HP.
  exists w'. destruct u. split; [reflexivity|].
  exact (ApplyResult_success sample_caller
    (mkApplyResultRequest "succeeded" 1 "" "" "" "1.0" "0.61") _ _ _ eq_refl E).
Defined.

Lemma ApplyResult_failure_witness :
  exists w', sample_ack "failed" 1 sample_mapped = (Ok tt, w') /\
    exists t db f, refused (ac_UserID sample_caller) 1 t (w_db sample_mapped) db /\
      w_db w' = db <| audit_logs ::= f |>.
Proof.
  sample_run (sample_ack "failed" 1 sample_mapped) u w' E (fun (_ : unit) (_ : World) => true) HP.
  exists w'. destruct u. split; [reflexivity|].
  exact (ApplyResult_failure sample_caller
    (mkApplyResultRequest "failed" 1 "" "" "" "1.0" "0.61") _ _ _ eq_refl E).
Defined.

Definition sample_user_row : User := default (sample_user "" RUser) (users (w_db sample_mapped) !! "u-alice"%string).
Lemma stale_acknowledgement_refused_witness :
  exists w', sample_ack "succeeded" 7 sample_mapped = (Err ErrConfigConflict, w') /\
    w_db w' = w_db sample_mapped.
Proof.
  apply (stale_acknowledgement_refused sample_caller
    (mkApplyResultRequest "succeeded" 7 "" "" "" "1.0" "0.61") sample_mapped sample_user_row);
    [left; reflexivity|vm_compute; reflexivity|vm_compute; reflexivity|vm_compute; discriminate].
Defined.

Lemma empty_ports_ok : ports_ok empty_db.
Proof.
  split.
  - intros lid l Hl. discriminate Hl.
  - intros k1 k2 l1 l2 Hl. discriminate Hl.
  - intros rid r Hr. discriminate Hr.
  - intros k m Hm. discriminate Hm.
Qed.

Lemma ports_invariant_witness :
  ports_ok (w_db (snd (sample_ack "succeeded" 1 sample_mapped))) /\
  bool_decide (leases (w_db (snd (sample_ack "succeeded" 1 sample_mapped))) = ∅) = false.
Proof.
  split; [|vm_compute; reflexivity].
  apply (ports_invariant sample_logged_in).
  - apply (ports_ok_frame empty_db); [vm_compute; reflexivity..|exact empty_ports_ok].
  - eapply rtc_l; [apply (step_create sample_caller (sample_mapping_request "ssh" None) "k1")|].
    apply rtc_once. apply step_apply.
Defined.

(** ** A port that two mappings use *)

(** Two updates of one mapping to the same new port, and then another mapping
    created on that port. *)
Definition double_port : M (MappingView * MappingView) :=
  a ← sample_create "a" (Some 6000) "k1";
  sample_ack "succeeded" 1;;
  UpdateMapping sample_caller (mv_id a) (sample_mapping_request "a" (Some 6001)) "k2";;
  a ← UpdateMapping sample_caller (mv_id a) (sample_mapping_request "a" (Some 6001)) "k3";
  b ← sample_create "b" (Some 6001) "k4";
  sample_ack "succeeded" 4;;
  ret (a, b).

Definition sample_frp_request (mid : string) (revision port : Z) : FRPRequest :=
  match fst (sample_login (sample_world sample_db)) with
  | Ok r => mkFRPRequest "NewProxy" (lr_FRPUsername r) (lr_RuntimeCredential r) (lr_FRPSecret r) 1
              mid revision port "" "tcp"
  | Err _ => mkFRPRequest "" "" "" "" 0 "" 0 0 "" ""
  end.

(** The leases do not keep two running mappings off one port.  The second of
    two updates to the same new port gives the port's lease back with the
    superseded revision and, since the port does not change, takes no new one;
    another mapping can then be created on that port, the acknowledgement makes
    both revisions authoritative, and both proxies are authorised on it. *)
Theorem updated_port_is_not_reserved :
  match double_port sample_logged_in with
  | (Ok (a, b), w) =>
      mv_id a <> mv_id b /\ mv_remote_port a = Some 6001 /\ mv_remote_port b = Some 6001 /\
      fst (authorizeFRP (sample_frp_request (mv_id a) 3 6001) w) = Ok Allowed /\
      fst (authorizeFRP (sample_frp_request (mv_id b) 1 6001) w) = Ok Allowed /\
      count_where (fun _ l => l_port l =? 6001) (leases (w_db w)) = 1
  | _ => False
  end.
Proof.
  vm_compute. split; [discriminate|]. by split_and!.
Qed.
