(* ===== verification/AuthorizeSpec.v ===== *)
(** What an authorisation proves: the FRPS plugin is answered only from live
    rows, nothing is written, and a refusal is the answer to any doubt. *)

From S2P Require Import Prelude StateError GoText Timestamps Schema Effects Logic Validation Sample Store Jobs Sessions SessionsSpec Mappings MappingsSpec Domains Apply Authorize ApplySpec.
From Stdlib Require Import Ascii String.
Open Scope Z_scope.

(** A live login of an FRP client: credential, user, runtime credential and
    session, not revoked and of one generation. *)
Definition live_runtime `{Env} (q : FRPRequest) (db : DB) (t : Stamp) (uid : string) : Prop :=
  exists kf fc u kr rc s,
    frp_credentials db !! kf = Some fc /\ fc_frp_username fc = fr_frpUsername q /\ fc_user_id fc = uid /\
    (fr_userFRPSecret q <> ""%string -> fc_secret_hash fc = sha256Hex (fr_userFRPSecret q)) /\
    users db !! uid = Some u /\ u_status u = UActive /\ u_generation u = fr_generation q /\
    runtime_credentials db !! kr = Some rc /\ rc_user_id rc = uid /\
    rc_token_hash rc = sha256Hex (fr_runtimeCredential q) /\ rc_revoked rc = None /\ t <= rc_expires rc /\
    sessions db !! rc_session_id rc = Some s /\ s_revoked s = None /\ s_generation s = fr_generation q.

(** A proxy the user may open. *)
Definition open_proxy `{Env} (q : FRPRequest) (db : DB) (uid : string) : Prop :=
  exists m r,
    mappings db !! fr_mappingID q = Some m /\ current_revision db m = Some r /\
    m_user_id m = uid /\ m_desired m = DEnabled /\
    m_lifecycle m <> LDisabled /\ m_lifecycle m <> LDeleting /\ m_lifecycle m <> LDeleted /\
    (fr_requestedProxyType q <> ""%string ->
       EqualFold (fr_requestedProxyType q) (proxy_type_text (m_proxy_type m)) = true) /\
    r_revision r = fr_mappingRevision q /\
    (forall p, r_remote_port r = Some p -> fr_remotePort q = p) /\
    (m_proxy_type m = Http -> fr_hostname q <> ""%string) /\
    (fr_hostname q <> ""%string -> exists normalized kd d,
       normalizeDomain (fr_hostname q) = Ok normalized /\ domains db !! kd = Some d /\
       d_normalized d = normalized /\ d_user_id d = uid /\ d_mapping_id d = fr_mappingID q /\
       d_status d <> DsDeleted).

Section Soundness.
Context `{Env}.

Lemma runtime_rows_elem name hash db row :
  row ∈ runtime_rows name hash db ->
  exists kf fc kr rc s,
    frp_credentials db !! kf = Some fc /\ fc_frp_username fc = name /\
    runtime_credentials db !! kr = Some rc /\ rc_user_id rc = fc_user_id fc /\
    rc_token_hash rc = hash /\ rc_revoked rc = None /\
    users db !! fc_user_id fc = Some (rr_user row) /\
    sessions db !! rc_session_id rc = Some s /\ s_revoked s = None /\
    rr_userID row = fc_user_id fc /\ rr_sessionGeneration row = s_generation s /\
    rr_secretHash row = fc_secret_hash fc /\ rr_expires row = rc_expires rc.
Proof.
  unfold runtime_rows. intros (fc & Hrow & Hfc)%list_elem_of_bind.
  apply list_elem_of_bind in Hrow as (rc & Hrow & Hrc).
  apply list_elem_of_fmap in Hfc as ([kf fc'] & -> & [Hf Hn]%elem_of_select).
  apply list_elem_of_fmap in Hrc as ([kr rc'] & -> & [Hr Hm]%elem_of_select). simpl in *.
  rewrite !andb_true_iff, !bool_decide_eq_true in Hm. apply bool_decide_eq_true in Hn.
  destruct (users db !! fc_user_id fc') as [u|] eqn:Hu; [|by apply elem_of_nil in Hrow].
  destruct (sessions db !! rc_session_id rc') as [s|] eqn:Hs; [|by apply elem_of_nil in Hrow].
  destruct (unrevoked s) eqn:Hun; [|by apply elem_of_nil in Hrow].
  apply list_elem_of_singleton in Hrow as ->. apply bool_decide_eq_true in Hun.
  destruct Hm as [[? ?] ?]. exists kf, fc', kr, rc', s. by split_and!.
Qed.

(** The verdict of a list of checks is [Allowed] only when none refuses. *)
Lemma deny_if_Allowed b code k w w' :
  deny_if b code k w = (Ok Allowed, w') -> b = false /\ k w = (Ok Allowed, w').
Proof. unfold deny_if. destruct b; [by intros [? _]%ret_Ok|done]. Qed.

Lemma attempt_row_Allowed {A} (q : DB -> option A) code (k : A -> M Verdict) w w' :
  (r ← attempt (query_row q); match r with Err _ => ret (Denied code) | Ok a => k a end) w = (Ok Allowed, w') ->
  exists a, q (w_db w) = Some a /\ k a (step w) = (Ok Allowed, w').
Proof.
  intros (r & w1 & Hq & Hk)%bind_Ok. apply (proj1 (attempt_Ok _ _ _ _)) in Hq.
  destruct r as [a|e]; [|by apply ret_Ok in Hk as [? _]].
  apply query_row_Ok in Hq as (_ & Hq & ->). by exists a.
Qed.

Lemma authorize_hostname_Allowed uid mid hostname k w w' :
  authorize_hostname uid mid hostname k w = (Ok Allowed, w') ->
  (hostname <> ""%string -> exists normalized kd d,
     normalizeDomain hostname = Ok normalized /\ domains (w_db w) !! kd = Some d /\
     d_normalized d = normalized /\ d_user_id d = uid /\ d_mapping_id d = mid /\
     d_status d <> DsDeleted) /\
  exists w1, w_db w1 = w_db w /\ k w1 = (Ok Allowed, w').
Proof.
  unfold authorize_hostname. destruct (String.eqb hostname "") eqn:E.
  - apply String.eqb_eq in E. intros Hk. split; [done|]. by exists w.
  - destruct (normalizeDomain hostname) as [nm|] eqn:En; [|by intros [? _]%ret_Ok].
    intros (d & Hq & Hk)%attempt_row_Allowed. apply deny_if_Allowed in Hk as [Hb Hk].
    rewrite !orb_false_iff, !negb_false_iff, !bool_decide_eq_true, bool_decide_eq_false in Hb.
    split; [|by exists (step w)]. intros _.
    destruct (select _ _) as [|[kd d'] l] eqn:Es; [done|]. injection Hq as ->.
    assert ((kd, d) ∈ select (fun _ d => d_normalized d == nm) (domains (w_db w))) as Hin by (rewrite Es; left).
    apply elem_of_select in Hin as [Hd Hn%bool_decide_eq_true].
    destruct Hb as [[Hb1 Hb2] Hb3]. exists nm, kd, d. split_and!; [done|exact Hd|done|done|done|exact Hb3].
Qed.

Lemma authorize_proxy_Allowed uid q w w' :
  authorize_proxy uid q w = (Ok Allowed, w') -> open_proxy q (w_db w) uid.
Proof.
  unfold authorize_proxy. intros ([m r] & Hq & Hk)%attempt_row_Allowed.
  unfold mapping_with_revision in Hq. destruct (mappings (w_db w) !! fr_mappingID q) as [m'|] eqn:Hm; [|done].
  simpl in Hq. destruct (current_revision (w_db w) m') as [r'|] eqn:Hr; [|done]. injection Hq as -> ->.
  apply deny_if_Allowed in Hk as [Hc Hk]. apply deny_if_Allowed in Hk as [Ht Hk].
  apply deny_if_Allowed in Hk as [Hn Hk]. apply deny_if_Allowed in Hk as [Hp Hk].
  apply authorize_hostname_Allowed in Hk as (Hh & w1 & _ & Hk). apply deny_if_Allowed in Hk as [Hd _].
  unfold mapping_closed in Hc.
  rewrite !orb_false_iff, negb_false_iff, !bool_decide_eq_false, bool_decide_eq_true in Hc.
  rewrite andb_false_iff, !negb_false_iff, String.eqb_eq in Ht.
  apply negb_false_iff, Z.eqb_eq in Hn.
  rewrite andb_false_iff, bool_decide_eq_false, String.eqb_neq in Hd.
  destruct Hc as [[[[? ?] ?] ?] ?].
  exists m, r. split_and!; try done.
  - destruct (m_desired m); [done|]. done.
  - intros Hne. by destruct Ht.
  - intros p Hrp. rewrite Hrp in Hp. by apply negb_false_iff, Z.eqb_eq in Hp.
  - intros Hty. by destruct Hd.
Qed.

Lemma authorizeFRP_live q w w' :
  authorizeFRP q w = (Ok Allowed, w') ->
  exists uid t, live_runtime q (w_db w) t uid /\
    (session_operation (fr_operation q) = true \/
     fr_operation q = "NewProxy"%string /\ open_proxy q (w_db w) uid).
Proof.
  unfold authorizeFRP. intros (row & Hq & Hk)%attempt_row_Allowed.
  assert (row ∈ runtime_rows (fr_frpUsername q) (sha256Hex (fr_runtimeCredential q)) (w_db w)) as Hin.
  { destruct (runtime_rows _ _ _); [done|]. injection Hq as ->. left. }
  apply runtime_rows_elem in Hin as (kf & fc & kr & rc & s & Hf & Hn & Hr & Hru & Hrt & Hrr & Hu & Hs & Hsr & E1 & E2 & E3 & E4).
  apply deny_if_Allowed in Hk as [Hsec Hk]. apply deny_if_Allowed in Hk as [Hact Hk].
  apply deny_if_Allowed in Hk as [Hgen Hk].
  apply bind_Ok in Hk as (t & w1 & [-> ->]%now_Ok & Hk). apply deny_if_Allowed in Hk as [Hexp Hk].
  rewrite negb_false_iff, bool_decide_eq_true in Hact.
  rewrite orb_false_iff, !negb_false_iff, !Z.eqb_eq in Hgen. apply Z.ltb_ge in Hexp.
  rewrite andb_false_iff, !negb_false_iff, !String.eqb_eq in Hsec.
  exists (fc_user_id fc), (env_now (w_tick (step w))). split.
  - exists kf, fc, (rr_user row), kr, rc, s. destruct Hgen. split_and!; try done; try congruence.
    intros Hne. destruct Hsec; congruence.
  - destruct (session_operation _); [by left|right].
    apply deny_if_Allowed in Hk as [Hop Hk]. apply negb_false_iff, String.eqb_eq in Hop.
    split; [done|]. apply authorize_proxy_Allowed in Hk. by rewrite <- E1.
Qed.


Lemma attempt_row_total {A} (q : DB -> option A) (k : res GoErr A -> M Verdict) w :
  (forall r w1, w_db w1 = w_db w -> exists v w', k r w1 = (Ok v, w') /\ w_db w' = w_db w) ->
  exists v w', (attempt (query_row q) ≫= k) w = (Ok v, w') /\ w_db w' = w_db w.
Proof.
  intros Hk. unfold mbind, M_bind, bind, attempt, query_row.
  destruct (env_fault _); [by apply Hk|]. destruct (q _); by apply Hk.
Qed.

Ltac verdict :=
  match goal with
  | |- context [deny_if ?b ?c ?k] => destruct b; [by eexists _, _|cbn [deny_if]]
  end.

Lemma authorize_proxy_total uid q w :
  exists v w', authorize_proxy uid q w = (Ok v, w') /\ w_db w' = w_db w.
Proof.
  apply attempt_row_total. intros [[m r]|] w1 <-; [|by eexists _, _]. do 4 verdict.
  unfold authorize_hostname. destruct (String.eqb _ ""); [verdict; by eexists _, _|].
  destruct (normalizeDomain _); [|by eexists _, _].
  apply attempt_row_total. intros [d|] w2 <-; [|by eexists _, _]. do 2 verdict. by eexists _, _.
Qed.

(** Every request gets a verdict and none changes the database: whatever
    fails while the rows are read, the answer is a refusal and not an error. *)
Theorem authorizeFRP_total q w :
  exists v w', authorizeFRP q w = (Ok v, w') /\ w_db w' = w_db w /\
    (env_fault (w_tick w) = true -> v = Denied "FRP_RUNTIME_CREDENTIAL_INVALID").
Proof.
  assert (exists v w', authorizeFRP q w = (Ok v, w') /\ w_db w' = w_db w) as (v & w' & E & Hdb).
  { apply attempt_row_total. intros [row|] w1 <-; [|by eexists _, _]. do 3 verdict.
    rewrite <- (eq_refl : w_db (step w1) = w_db w1).
    change ((now ≫= ?k) w1) with (k (env_now (w_tick w1)) (step w1)). cbv beta. verdict.
    destruct (session_operation _); [by eexists _, _|]. verdict. apply authorize_proxy_total. }
  exists v, w'. split; [done|]. split; [done|]. intros Hf.
  unfold authorizeFRP, mbind, M_bind, bind, attempt, query_row in E. rewrite Hf in E. by injection E as <- _.
Qed.
End Soundness.

(** ** Instances *)

