(* ===== verification/Users.v ===== *)
(** User administration ([server/internal/service/service.go], [AdminUsersPage]
    to [ClearCloudflareToken]): creation, suspension, password and secret
    resets, deletion, and the Cloudflare token. *)

From S2P Require Import Prelude StateError GoText GoNet Timestamps Encoding Schema Effects Logic Validation Store Jobs Sessions Mappings Domains Apply.
From Stdlib Require Import Ascii String.
Open Scope Z_scope.

Record FRPCredentialStatus := mkFRPCredentialStatus {
  fcs_Present : bool;
  fcs_SecretVersion : Z;
  fcs_RotatedAt : option Stamp;
  fcs_Status : string
}.

Record UserRecord := mkUserRecord {
  ur_Summary : UserSummary;
  ur_CreatedAt : Stamp;
  ur_DesiredConfig : Z;
  ur_AppliedConfig : Z;
  ur_ActiveSessionGen : Z;
  ur_FRPCredential : FRPCredentialStatus
}.

Definition user_status_text (s : UserStatus) : string :=
  match s with UActive => "active" | UDisabled => "disabled" | UDeleting => "deleting" | UDeleted => "deleted" end.

Definition user_status_of (s : string) : option UserStatus :=
  if String.eqb s "active" then Some UActive
  else if String.eqb s "disabled" then Some UDisabled else None.

(** [frp_credentials fc ON fc.user_id=u.id] *)
Definition frp_credential_of (uid : string) (db : DB) : option FrpCredential :=
  snd <$> head (select (fun _ c => fc_user_id c == uid) (frp_credentials db)).

Definition user_record (db : DB) (k : string) (u : User) : UserRecord :=
  let fc := frp_credential_of k db in
  let version := from_option fc_secret_version 0 fc in
  {| ur_Summary := user_summary k u; ur_CreatedAt := u_created u;
     ur_DesiredConfig := u_desired_config u; ur_AppliedConfig := u_applied_config u;
     ur_ActiveSessionGen := u_generation u;
     ur_FRPCredential :=
       {| fcs_Present := 0 <? version; fcs_SecretVersion := version;
          fcs_RotatedAt := fc ≫= fc_rotated;
          fcs_Status := user_status_text (u_status u) |} |}.

(** ** Statements *)

(** [WHERE id=? AND role='user'] *)
Definition plain_user (uid : string) (k : string) (u : User) : bool := (k == uid) && (u_role u == RUser).

(** [UPDATE sessions SET revoked_at=?,revoke_reason=? WHERE user_id=? AND revoked_at
    IS NULL] *)
Definition revoke_sessions (uid : string) (t : Stamp) (reason : string) (db : DB) : DB :=
  db <| sessions ::= update_where (fun _ s => (s_user_id s == uid) && unrevoked s)
          (revoke_session t reason) |>.

(** [UPDATE frp_runtime_credentials SET revoked_at=? WHERE user_id=? AND revoked_at
    IS NULL] *)
Definition revoke_runtime_credentials (uid : string) (t : Stamp) (db : DB) : DB :=
  db <| runtime_credentials ::= update_where (fun _ c => (rc_user_id c == uid) && (rc_revoked c == None))
          (fun c => c <| rc_revoked := Some t |>) |>.

(** [UPDATE user_runtime_state SET active_server_session_id=NULL,
    observed_client_status='offline',updated_at=? WHERE user_id=?] *)
Definition clear_runtime_state (uid : string) (t : Stamp) (db : DB) : DB :=
  db <| runtime_state ::= update_where (fun k _ => k == uid) (fun r =>
    r <| rs_active_session := None |> <| rs_observed := "offline"%string |>
      <| rs_updated := t |>) |>.

Definition cloudflare_aad (uid : string) : string := ("user:" ++ uid ++ ":cloudflare_token:v1")%string.

(** [SELECT COALESCE(MAX(token_version),0)+1 FROM cloudflare_credentials WHERE user_id=?] *)
Definition next_token_version (uid : string) (db : DB) : Z :=
  fold_right Z.max 0 (map (fun kc => cc_version kc.2)
    (select (fun _ c => cc_user_id c == uid) (cf_credentials db))) + 1.

Section Users.
Context `{Env}.

Definition AdminUsersPage (page pageSize : Z) : M (list UserRecord * PageInfo) :=
  let '(page, pageSize) := normalizePage page pageSize in
  total ← query (fun db => count_where (fun _ u => u_status u != UDeleted) (users db));
  let offset := page_offset page pageSize in
  rows ← query (fun db =>
    map (fun ku => user_record db ku.1 ku.2)
      (page_of pageSize offset
        (order_by (fun a b : string * User => sql_lt (u_created b.2) (u_created a.2))
          (select (fun _ u => u_status u != UDeleted) (users db)))));
  ret (rows, mkPageInfo page pageSize total).

Definition AdminUsers : M (list UserRecord) :=
  '(items, _) ← AdminUsersPage 1 200;
  ret items.

(** *** Creation

    Two statements, no transaction. *)
Definition CreateUser (ac : AuthContext) (username : string) : M (UserRecord * string) :=
  fail_if (ac_Role ac != RAdmin) ErrForbidden;;
  let username := TrimSpace username in
  fail_if (negb (validUsername username) || String.eqb username "admin") (ErrMsg "invalid username");;
  password ← GenerateInitialPassword;
  hash ← hash_password password;
  userID ← newID;
  secret ← randomSecret;
  '(ciphertext, nonce) ← Encrypt secret (frp_secret_aad userID);
  t ← nowString;
  exec_checked (insert_user userID (new_user username hash RUser true false 0 t));;
  credID ← newID;
  exec_checked (insert_frp_credential credID
    (new_frp_credential userID ("user-" ++ shortID userID) (sha256Hex secret) ciphertext nonce t));;
  ignore (Audit ac "user_created" "user" userID "success" [("username"%string, PStr username)] "");;
  ret ({| ur_Summary := {| us_ID := userID; us_Username := username; us_Role := RUser;
                           us_Status := UActive; us_MustChangePassword := true;
                           us_MustChangeUsername := false |};
          ur_CreatedAt := t; ur_DesiredConfig := 0; ur_AppliedConfig := 0;
          ur_ActiveSessionGen := 0;
          ur_FRPCredential := mkFRPCredentialStatus false 0 None "" |}, password).

(** *** Suspension and password reset *)

Definition SetUserStatus (ac : AuthContext) (userID status : string) : M unit :=
  fail_if (ac_Role ac != RAdmin) ErrForbidden;;
  st ← or_fail (ErrMsg "invalid user status") (user_status_of status);
  t ← nowString;
  n ← exec_count (fun db => count_where (plain_user userID) (users db))
    (fun db => db <| users ::= update_where (plain_user userID) (fun u =>
      u <| u_status := st |> <| u_generation ::= Z.succ |> <| u_updated := t |>) |>);
  fail_if (n =? 0) ErrNotFound;;
  (if st == UDisabled then
     t1 ← nowString;
     ignore (exec (revoke_sessions userID t1 "USER_DISABLED"));;
     t2 ← nowString;
     ignore (exec (revoke_runtime_credentials userID t2))
   else ret tt);;
  t3 ← nowString;
  ignore (exec (clear_runtime_state userID t3));;
  Audit ac "user_status_changed" "user" userID "success" [("status"%string, PStr status)] "".

Definition ResetUserPassword (ac : AuthContext) (userID : string) : M string :=
  fail_if (ac_Role ac != RAdmin) ErrForbidden;;
  password ← GenerateInitialPassword;
  hash ← hash_password password;
  t ← nowString;
  n ← exec_count (fun db => count_where (plain_user userID) (users db))
    (fun db => db <| users ::= update_where (plain_user userID) (fun u =>
      u <| u_password_hash := hash |> <| u_must_change_password := true |>
        <| u_must_change_username := false |> <| u_auth_version ::= Z.succ |>
        <| u_generation ::= Z.succ |> <| u_updated := t |>) |>);
  fail_if (n =? 0) ErrNotFound;;
  t1 ← nowString;
  ignore (exec (revoke_sessions userID t1 "PASSWORD_RESET"));;
  t2 ← nowString;
  ignore (exec (revoke_runtime_credentials userID t2));;
  t3 ← nowString;
  ignore (exec (clear_runtime_state userID t3));;
  ignore (Audit ac "user_password_reset" "user" userID "success" [] "");;
  ret password.

(** *** Rotation of the FRP secret *)

(** The user whose secret a caller may rotate, and the path of the request. *)
Definition reset_target (ac : AuthContext) (target : string) : option (string * string) :=
  let target := TrimSpace target in
  match ac_Role ac with
  | RUser =>
      let target := if String.eqb target "" then ac_UserID ac else target in
      if String.eqb target (ac_UserID ac)
      then Some (target, "/api/v1/auth/reset-frp-credential"%string) else None
  | RAdmin =>
      if String.eqb target "" || String.eqb target (ac_UserID ac) then None
      else Some (target, ("/api/v1/admin/users/" ++ target ++ "/reset-frp-credential")%string)
  end.

Definition rotate_secret (uid secretHash ciphertext nonce : string) (version : Z) (t : Stamp)
    (db : DB) : DB :=
  db <| frp_credentials ::= update_where (fun _ c => fc_user_id c == uid) (fun c =>
    c <| fc_secret_hash := secretHash |> <| fc_ciphertext := ciphertext |>
      <| fc_nonce := nonce |> <| fc_secret_version := version |> <| fc_rotated := Some t |>) |>.

Definition reset_frp_tx (ac : AuthContext) (target path key bodyHash : string)
    : M (outcome (SecretReset * bool)) :=
  existing ← attempt (query_row (find_idempotency ac "POST" path key));
  match existing with
  | Ok r =>
      fail_if (negb (String.eqb (i_body_hash r) bodyHash)) ErrIdempotencyReuse;;
      match i_response r with
      | RespSecret v => ret (Rollback (v, false))
      | _ => fail (ErrMsg "json: cannot unmarshal")
      end
  | Err (ErrSql NoRows) =>
      '(u, fc) ← map_err (fun _ => ErrNotFound) (query_row (fun db =>
        u ← users db !! target; fc ← frp_credential_of target db; Some (u, fc)));
      fail_if ((u_role u != RUser) || (u_status u == UDeleted)) ErrForbidden;;
      secret ← randomSecret;
      '(ciphertext, nonce) ← Encrypt secret (frp_secret_aad target);
      let version := fc_secret_version fc + 1 in
      t ← nowString;
      exec (rotate_secret target (sha256Hex secret) ciphertext nonce version t);;
      exec (fun db => db <| users ::= update_where (fun k _ => k == target) (fun u =>
        u <| u_generation ::= Z.succ |> <| u_desired_config ::= Z.succ |> <| u_updated := t |>) |>);;
      generation ← query_row (fun db => u_generation <$> users db !! target);
      exec (revoke_sessions target t "FRP_SECRET_RESET");;
      exec (revoke_runtime_credentials target t);;
      exec (clear_runtime_state target t);;
      let result := SecretR version generation in
      record_idempotency ac "POST" path key bodyHash 200 (RespSecret result) None t;;
      ret (Commit (result, true))
  | Err e => fail e
  end.

Definition ResetFRPCredential (ac : AuthContext) (targetUserID currentPassword idempotencyKey : string)
    : M SecretReset :=
  '(target, path) ← or_fail ErrForbidden (reset_target ac targetUserID);
  fail_if (String.eqb (TrimSpace currentPassword) "") ErrInvalidCredentials;;
  requireReauth ac currentPassword;;
  key ← (if String.eqb (TrimSpace idempotencyKey) "" then newID else ret idempotencyKey);
  '(result, fresh) ← transaction
     (reset_frp_tx ac target path key (requestHash (HbReset target currentPassword)));
  (if (fresh : bool) then
     ignore (Audit ac "frp_secret_reset" "user" target "success"
       [("secret_version"%string, PInt (sr_secret_version result));
        ("session_generation"%string, PInt (sr_session_generation result))] "")
   else ret tt);;
  ret result.

(** *** Deletion *)

Definition user_delete_payload (userID operationID : string) (force : bool) : Payload :=
  <["user_id"%string := PStr userID]> (<["operation_id"%string := PStr operationID]>
    (<["force"%string := PBool force]> ∅)).

Definition enqueueUserDeleteJob (userID operationID : string) (force : bool) : M string :=
  fail_if (env_jobs == None) (ErrMsg "job worker is unavailable");;
  let payload := user_delete_payload userID operationID force in
  jobID ← Enqueue "user_delete" "user" userID ("user:" ++ userID ++ ":delete") payload None;
  t ← nowString;
  exec (fun db => db <| jobs ::= update_where
    (fun k j => (k == jobID) && job_active (j_status j)) (fun j =>
      j <| j_payload := Ok payload |> <| j_run_after := t |> <| j_last_error := None |>
        <| j_updated := t |>
        <| j_status := if j_status j == JRetryWait then JPending else j_status j |>) |>);;
  ret jobID.

(** A deletion asked again while it runs: the open operation is reused, a
    failed one is reopened, [force] can only be added. *)
Definition reopen_delete (force : bool) (t : Stamp) (o : Operation) : Operation :=
  let failed := o_status o == OpFailed in
  o <| o_status := if failed then OpPending else o_status o |>
    <| o_phase := if failed then "external"%string else o_phase o |>
    <| o_step := if failed then "deleting_domains"%string else o_step o |>
    <| o_compensation := if force then "force_requested"%string else o_compensation o |>
    <| o_error_code := if failed then None else o_error_code o |>
    <| o_error_message := if failed then None else o_error_message o |>
    <| o_completed := if failed then None else o_completed o |> <| o_updated := t |>.

Definition user_delete_open (userID : string) (_ : string) (o : Operation) : bool :=
  (o_resource_type o == "user"%string) && (o_resource_id o == userID) &&
  (o_op_type o == "delete"%string) && (op_open (o_status o) || (o_status o == OpFailed)).

Definition compensation_forces (c : string) : bool :=
  String.eqb c "force_requested" || String.eqb c "external_residue".

Definition requeue_delete (ac : AuthContext) (userID : string) (force : bool) (key path bodyHash : string)
    : M (string * bool) :=
  '(opID, compensation) ← query_row (fun db =>
    (fun ko => (ko.1, o_compensation ko.2)) <$>
      first_by (fun a b : string * Operation => sql_lt (o_created b.2) (o_created a.2))
        (select (user_delete_open userID) (operations db)));
  t ← nowString;
  exec (fun db => db <| operations ::=
    update_where (fun k _ => k == opID) (reopen_delete force t) |>);;
  recordID ← newID;
  t2 ← now;
  t3 ← nowString;
  exec_checked (insert_idempotency recordID
    {| i_user_id := ac_UserID ac; i_generation := ac_Generation ac; i_method := "DELETE";
       i_path := path; i_key := key; i_body_hash := bodyHash; i_status := 202;
       i_response := RespOperation opID; i_operation := Some opID;
       i_expires := t2 + 24 * hour; i_created := t3 |});;
  ret (opID, force || compensation_forces compensation).

(** What a deletion does to the user and what the user owns. *)
Definition begin_user_delete (userID : string) (t : Stamp) : M unit :=
  exec (fun db => db <| users ::= update_where (plain_user userID) (fun u =>
    u <| u_status := UDeleting |> <| u_generation ::= Z.succ |>
      <| u_desired_config ::= Z.succ |> <| u_updated := t |>) |>);;
  exec (revoke_sessions userID t "USER_DELETING");;
  exec (revoke_runtime_credentials userID t);;
  exec (clear_runtime_state userID t);;
  exec (mark_domains_deleting (owned_domain userID) t);;
  exec (fun db => db <| mappings ::= update_where (owned_mapping userID) (fun m =>
    m <| m_lifecycle := LDeleting |> <| m_desired := DDisabled |> <| m_updated := t |>) |>).

(** One deletion operation per resource of the user. *)
Definition resource_delete_operation (userID operationID rtype phase stp : string) (t : Stamp)
    (rid : string) : M unit :=
  opID ← newID;
  exec_checked (insert_operation opID
    (new_operation (Some userID) rtype rid "delete" phase stp
       (Some ("user-delete:" ++ operationID ++ ":" ++ rid)%string) t)).

(** How a transaction of [DeleteUser] ended. *)
Inductive DeleteOutcome :=
| Replayed (op : string)
| Requeued (op : string) (force : bool)
| Started (op : string) (domainCount mappingCount : Z).

Definition start_delete (ac : AuthContext) (userID : string) (force : bool) (key path bodyHash : string)
    : M DeleteOutcome :=
  t ← nowString;
  domainIDs ← query (fun db => map fst (select (owned_domain userID) (domains db)));
  mappingIDs ← query (fun db => map fst (select (owned_mapping userID) (mappings db)));
  begin_user_delete userID t;;
  operationID ← newID;
  exec_checked (insert_operation operationID
    ((new_operation (Some (ac_UserID ac)) "user" userID "delete" "external" "deleting_domains"
       (Some key) t)
     <| o_compensation := if force then "force_requested"%string else "not_required"%string |>));;
  for_each domainIDs
    (resource_delete_operation userID operationID "domain" "dns" "awaiting_external" t);;
  for_each mappingIDs
    (resource_delete_operation userID operationID "mapping" "user" "awaiting_domains" t);;
  record_idempotency ac "DELETE" path key bodyHash 202 (RespOperation operationID)
    (Some operationID) t;;
  ret (Started operationID (Z.of_nat (List.length domainIDs)) (Z.of_nat (List.length mappingIDs))).

Definition delete_user_tx (ac : AuthContext) (userID : string) (force : bool) (key : string)
    : M (outcome DeleteOutcome) :=
  let path := ("/api/v1/admin/users/" ++ userID)%string in
  let bodyHash := requestHash (HbForce force) in
  existing ← attempt (query_row (find_idempotency ac "DELETE" path key));
  match existing with
  | Ok r =>
      fail_if (negb (String.eqb (i_body_hash r) bodyHash)) ErrIdempotencyReuse;;
      ret (Rollback (Replayed (default ""%string (i_operation r))))
  | Err (ErrSql NoRows) =>
      u ← map_err (fun e => match e with ErrSql NoRows => ErrNotFound | _ => e end)
        (query_row (fun db => users db !! userID));
      fail_if (u_role u != RUser) ErrNotFound;;
      match u_status u with
      | UDeleting =>
          '(opID, operationForce) ← requeue_delete ac userID force key path bodyHash;
          ret (Commit (Requeued opID operationForce))
      | UDeleted => fail ErrNotFound
      | _ =>
          r ← start_delete ac userID force key path bodyHash;
          ret (Commit r)
      end
  | Err e => fail e
  end.

Definition DeleteUser (ac : AuthContext) (userID : string) (force : bool) (requestedKey : string)
    : M string :=
  fail_if (ac_Role ac != RAdmin) ErrForbidden;;
  key ← key_or_new (TrimSpace requestedKey);
  r ← transaction (delete_user_tx ac userID force key);
  match r with
  | Replayed op => ret op
  | Requeued op operationForce =>
      enqueueUserDeleteJob userID op operationForce;;
      ignore (Audit ac "user_delete_requeued" "user" userID "pending"
        [("force"%string, PBool operationForce)] op);;
      ret op
  | Started op domainCount mappingCount =>
      enqueueUserDeleteJob userID op force;;
      ignore EnqueueRouterSnapshot;;
      ignore (Audit ac "user_delete_requested" "user" userID "pending"
        [("force"%string, PBool force); ("domain_count"%string, PInt domainCount);
         ("mapping_count"%string, PInt mappingCount)] op);;
      ret op
  end.

(** *** The Cloudflare token *)

Record TokenStatusView := mkTokenStatusView {
  ts_configured : bool;
  ts_status : TokenStatus;
  ts_version : Z;
  ts_verified : option Stamp;
  ts_capabilities : string
}.

Definition CloudflareStatus (userID : string) : M TokenStatusView :=
  r ← attempt (query_row (fun db =>
    snd <$> first_by (fun a b : string * CfCredential => cc_version b.2 <? cc_version a.2)
      (select (fun _ c => (cc_user_id c == userID) && (cc_status c != TkRetired))
        (cf_credentials db))));
  match r with
  | Ok c => ret (mkTokenStatusView true (cc_status c) (cc_version c) (cc_verified c) (cc_capabilities c))
  | Err (ErrSql NoRows) => ret (mkTokenStatusView false TkMissing 0 None "{}")
  | Err e => fail e
  end.

Definition token_payload (uid : string) (version : Z) : Payload :=
  <["user_id"%string := PStr uid]> (<["token_version"%string := PInt version]> ∅).

Definition enqueue_token_verify (uid : string) (version : Z) : M unit :=
  Enqueue "cloudflare_token_verify" "cloudflare_token" uid
    ("cloudflare:" ++ uid ++ ":" ++ itoa version) (token_payload uid version) (Some version);;
  ret tt.

Definition SaveCloudflareToken (ac : AuthContext) (token proof : string) : M unit :=
  let uid := ac_UserID ac in
  requireReauth ac proof;;
  fail_if (Nat.ltb (String.length (TrimSpace token)) 20) (ErrMsg "cloudflare token is too short");;
  r ← attempt (query (next_token_version uid));
  let next := match r with Ok n => n | Err _ => 0 end in
  '(ciphertext, nonce) ← Encrypt token (cloudflare_aad uid);
  t ← nowString;
  rowID ← newID;
  exec_checked (insert_cf_credential rowID
    {| cc_user_id := uid; cc_version := next; cc_ciphertext := ciphertext; cc_nonce := nonce;
       cc_status := TkPending; cc_capabilities := "{}"; cc_verified := None;
       cc_activated := None; cc_retired := None; cc_created := t |});;
  ignore (Audit ac "cloudflare_token_uploaded" "cloudflare_token" (itoa next) "pending" [] "");;
  enqueue_token_verify uid next.

Definition ClearCloudflareToken (ac : AuthContext) (currentPassword : string) : M unit :=
  requireReauth ac currentPassword;;
  t ← nowString;
  exec (fun db => db <| cf_credentials ::= update_where
    (fun _ c => (cc_user_id c == ac_UserID ac) && (cc_status c != TkRetired))
    (fun c => c <| cc_status := TkRetired |> <| cc_retired := Some t |>) |>);;
  ignore (Audit ac "cloudflare_token_cleared" "cloudflare_token" (ac_UserID ac) "success" [] "").
End Users.
