(* ===== verification/UsersSpec.v ===== *)
(** What the administration of users guarantees: a suspension, a rotation of the
    FRP secret and a deletion take effect on the next request; and two places
    where administration leaves a user in a state nobody asked for. *)

From S2P Require Import Prelude StateError GoText GoNet Timestamps Schema Effects Logic Validation Sample Store Jobs Frames Sessions SessionsSpec Mappings MappingsSpec Domains Apply Authorize ApplySpec AuthorizeSpec Users.
From Stdlib Require Import Ascii String.
Open Scope Z_scope.

(** No session and no runtime credential of the user is live. *)
Definition shut_out (uid : string) (db : DB) : Prop :=
  (forall k s, sessions db !! k = Some s -> s_user_id s = uid -> s_revoked s <> None) /\
  (forall k c, runtime_credentials db !! k = Some c -> rc_user_id c = uid -> rc_revoked c <> None).

Definition no_access (uid : string) (db : DB) : Prop :=
  (forall u, users db !! uid = Some u -> u_status u <> UActive) \/ shut_out uid db.

Section Access.
Context `{Env}.

(** C29: a user without access is refused everywhere.  While a user is not active,
    or none of the user's sessions and runtime credentials is live, no bearer
    is accepted in the user's name, and the FRPS plugin is answered only for
    live logins of other users. *)
Theorem no_access_is_enforced uid db :
  no_access uid db ->
  (forall bearer w ac w', w_db w = db -> Authenticate bearer w = (Ok ac, w') -> ac_UserID ac <> uid) /\
  (forall q w w', w_db w = db -> authorizeFRP q w = (Ok Allowed, w') ->
     exists other t, live_runtime q db t other /\ other <> uid).
Proof.
  intros Hno. split.
  - intros bearer w ac w' <- (k & s & u & t & _ & Hk & _ & Hu & Hr & Ha & _ & _ & _ & -> & _)%Authenticate_run.
    intros E. cbn [ac_UserID auth_context] in E. rewrite E in *.
    destruct Hno as [Hno|[Hno _]]; [by eapply Hno|by eapply Hno].
  - intros q w w' <- (other & t & Hl & _)%authorizeFRP_live. exists other, t. split; [done|].
    intros ->. destruct Hl as (? & ? & u & kr & rc & ? & _ & _ & _ & _ & Hu & Ha & _ & Hr & Hru & _ & Hrr & _).
    destruct Hno as [Hno|[_ Hno]]; [by eapply Hno|by eapply Hno].
Qed.

(** *** Statements that end sessions *)

Lemma shut_out_revoked uid t t' reason db :
  shut_out uid (revoke_runtime_credentials uid t' (revoke_sessions uid t reason db)).
Proof.
  split.
  - intros k s (s0 & _ & ->)%lookup_update_where_Some. unfold unrevoked.
    destruct (s_user_id s0 == uid) eqn:E; simpl.
    + destruct (s_revoked s0 == None) eqn:E2; [done|]. by apply bool_decide_eq_false in E2.
    + by apply bool_decide_eq_false in E.
  - intros k c (c0 & _ & ->)%lookup_update_where_Some.
    destruct (rc_user_id c0 == uid) eqn:E; simpl.
    + destruct (rc_revoked c0 == None) eqn:E2; [done|]. by apply bool_decide_eq_false in E2.
    + by apply bool_decide_eq_false in E.
Qed.

Lemma shut_out_frame uid db db' :
  sessions db' = sessions db -> runtime_credentials db' = runtime_credentials db ->
  shut_out uid db -> shut_out uid db'.
Proof. unfold shut_out. by intros -> ->. Qed.

(** Ending every session of a user touches no user and no FRP credential. *)
Lemma end_sessions uid t reason f db db' :
  db' = (clear_runtime_state uid t (revoke_runtime_credentials uid t
           (revoke_sessions uid t reason db))) <| idempotency ::= f |> ->
  users db' = users db /\ frp_credentials db' = frp_credentials db /\ shut_out uid db'.
Proof.
  intros ->. split; [done|]. split; [done|].
  eapply shut_out_frame; [..|apply shut_out_revoked]; reflexivity.
Qed.

(** *** Suspension *)

Lemma count_plain_user uid db :
  count_where (plain_user uid) (users db) =? 0 = false ->
  exists u, users db !! uid = Some u /\ u_role u = RUser.
Proof.
  intros Hn%Z.eqb_neq. destruct (users db !! uid) as [u|] eqn:Hu.
  - exists u. split; [done|]. destruct (decide (u_role u = RUser)) as [|Hr]; [done|].
    destruct Hn. apply count_where_zero. intros k r Hk. unfold plain_user.
    destruct (k == uid) eqn:E; [|done]. apply bool_decide_eq_true in E as ->.
    simplify_eq. by apply bool_decide_eq_false.
  - destruct Hn. apply count_where_zero. intros k r Hk. unfold plain_user.
    destruct (k == uid) eqn:E; [|done]. apply bool_decide_eq_true in E as ->. congruence.
Qed.

(** A suspension takes effect at once.  When it succeeds the user, an
    ordinary one, is disabled with a new session generation and so without
    access, whatever became of the revocations, whose errors are ignored. *)
Theorem SetUserStatus_disables ac uid w u w' :
  SetUserStatus ac uid "disabled" w = (Ok u, w') ->
  ac_Role ac = RAdmin /\ no_access uid (w_db w') /\
  exists x x', users (w_db w) !! uid = Some x /\ u_role x = RUser /\
    users (w_db w') !! uid = Some x' /\ u_status x' = UDisabled /\
    u_generation x' = u_generation x + 1.
Proof.
  unfold SetUserStatus. intros Hrun.
  apply bind_Ok in Hrun as (? & w1 & [Hadm ->]%fail_if_Ok & Hrun).
  apply negb_false_iff, bool_decide_eq_true in Hadm.
  apply bind_Ok in Hrun as (st & w1 & [[= <-] ->]%or_fail_Ok & Hrun).
  apply bind_Ok in Hrun as (t & w1 & [-> ->]%now_Ok & Hrun).
  apply bind_Ok in Hrun as (n & w1 & (_ & -> & ->)%exec_count_Ok & Hrun).
  apply bind_Ok in Hrun as (? & w1 & [Hn ->]%fail_if_Ok & Hrun). cbn [w_db step] in *.
  apply count_plain_user in Hn as (y & Hx & Hr).
  set (x' := y <| u_status := UDisabled |> <| u_generation ::= Z.succ |> <| u_updated := env_now (w_tick w) |>).
  match type of Hrun with ?m ?w0 = _ =>
    assert (preserves (fun db => users db !! uid = Some x') m) as Hp;
    [|assert (users (w_db w0) !! uid = Some x') as H0] end.
  - unfold Audit. preserve; try done. by apply audit_preserves.
  - cbn [w_db users set]. rewrite lookup_update_where, Hx. simpl. unfold plain_user.
    by rewrite (bool_decide_true (uid = uid)), (bool_decide_true (u_role y = RUser)).
  - apply Hp in H0. rewrite Hrun in H0. cbn [snd] in H0. split; [done|]. split.
    + left. intros z Hz. rewrite H0 in Hz. by injection Hz as <-.
    + exists y, x'. by split_and!.
Qed.

(** *** Rotation of the FRP secret *)

Lemma rotated_tables uid h c n v t g db db' :
  db' = (rotate_secret uid h c n v t db) <| users ::= g |> ->
  users db' = g (users db) /\
  frp_credentials db' = update_where (fun _ c => fc_user_id c == uid) (fun x =>
    x <| fc_secret_hash := h |> <| fc_ciphertext := c |> <| fc_nonce := n |>
      <| fc_secret_version := v |> <| fc_rotated := Some t |>) (frp_credentials db).
Proof. by intros ->. Qed.

Lemma reset_frp_tx_fresh ac target path key hash w o w' :
  find_idempotency ac "POST" path key (w_db w) = None -> env_fault (w_tick w) = false ->
  reset_frp_tx ac target path key hash w = (Ok o, w') ->
  exists r, o = Commit (r, true) /\ shut_out target (w_db w') /\
    exists u fc u', users (w_db w) !! target = Some u /\ u_role u = RUser /\
      frp_credential_of target (w_db w) = Some fc /\ sr_secret_version r = fc_secret_version fc + 1 /\
      users (w_db w') !! target = Some u' /\ u_generation u' = u_generation u + 1 /\
      u_desired_config u' = u_desired_config u + 1 /\ sr_session_generation r = u_generation u + 1 /\
      (forall k c, frp_credentials (w_db w') !! k = Some c -> fc_user_id c = target ->
         fc_secret_version c = fc_secret_version fc + 1).
Proof.
  unfold reset_frp_tx. intros Hnone Hf Hrun.
  apply bind_Ok in Hrun as (e & w1 & He & Hrun). apply (proj1 (attempt_Ok _ _ _ _)) in He.
  unfold query_row in He. rewrite Hf, Hnone in He. injection He as <- <-.
  apply bind_Ok in Hrun as ([u fc] & w2 & Hq & Hrun).
  apply (proj1 (map_err_Ok _ _ _ _ _)), query_row_Ok in Hq as (_ & Hq & ->). cbn [w_db step] in Hq.
  destruct (users (w_db w) !! target) as [u0|] eqn:Hu; [|done]. simpl in Hq.
  destruct (frp_credential_of target (w_db w)) as [fc0|] eqn:Hfc; [|done]. injection Hq as -> ->.
  apply bind_Ok in Hrun as (? & w3 & [Hg ->]%fail_if_Ok & Hrun).
  apply orb_false_iff in Hg as [Hr _]. apply negb_false_iff, bool_decide_eq_true in Hr.
  apply bind_Ok in Hrun as (secret & w4 & Hs & Hrun). apply (rand_token_db secret) in Hs as E4.
  apply bind_Ok in Hrun as ([c n] & w5 & Hc & Hrun).
  assert (w_db w5 = w_db w4) as E5 by (unfold Encrypt, encryptWithKey in Hc; by run_inv; subst).
  rewrite E4 in E5. clear Hs Hc E4. cbn [w_db step] in E5.
  apply bind_Ok in Hrun as (t & w6 & [-> ->]%now_Ok & Hrun).
  apply bind_Ok in Hrun as (? & w7 & (_ & ->)%exec_Ok & Hrun).
  apply bind_Ok in Hrun as (? & w8 & (_ & ->)%exec_Ok & Hrun).
  apply bind_Ok in Hrun as (g & w9 & (_ & Hgen & ->)%query_row_Ok & Hrun).
  apply bind_Ok in Hrun as (? & w10 & (_ & ->)%exec_Ok & Hrun).
  apply bind_Ok in Hrun as (? & w11 & (_ & ->)%exec_Ok & Hrun).
  apply bind_Ok in Hrun as (? & w12 & (_ & ->)%exec_Ok & Hrun).
  apply bind_Ok in Hrun as (? & w13 & ([f Hdb] & _)%record_idempotency_Ok & [<- ->]%ret_Ok).
  cbn [w_db w_tick step] in *. eexists. split; [done|].
  set (u' := u <| u_generation ::= Z.succ |> <| u_desired_config ::= Z.succ |> <| u_updated := env_now (w_tick w5) |>).
  rewrite E5 in *. match type of Hgen with (u_generation <$> users ?d !! _) = _ => remember d as db2 eqn:E2 end.
  apply rotated_tables in E2 as [Eu2 Ef2].
  assert (users db2 !! target = Some u') as Hu'.
  { rewrite Eu2, lookup_update_where, Hu. simpl. by rewrite bool_decide_true. }
  rewrite Hu' in Hgen. injection Hgen as <-.
  apply end_sessions in Hdb as (Eu & Ef & Hout). split; [exact Hout|].
  exists u, fc, u'. rewrite Eu, Ef. split_and!; try done.
  intros k c0. rewrite Ef2. intros (c1 & _ & ->)%lookup_update_where_Some.
  by destruct (fc_user_id c1 == target) eqn:E; [|apply bool_decide_eq_false in E].
Qed.

Lemma reads_requireReauth ac proof : reads (requireReauth ac proof).
Proof.
  apply reads_preserves. intros d. unfold requireReauth, RequireReauthTicket. preserve.
Qed.

Lemma requireReauth_db ac proof w u w' : requireReauth ac proof w = (Ok u, w') -> w_db w' = w_db w.
Proof. intros E. pose proof (reads_requireReauth ac proof w) as Hr. by rewrite E in Hr. Qed.

(** A rotated secret locks the old one out.  A rotation that is not a replay
    is of an ordinary user's credential, the caller's own or, for an
    administrator, another's; its transaction revokes every session and
    runtime credential of that user, raises the session generation, the desired
    configuration and the secret version by one, and returns the new numbers. *)
Theorem ResetFRPCredential_rotates {NF : NoFaults} ac target path targetID password key w r w' :
  reset_target ac targetID = Some (target, path) -> TrimSpace key <> ""%string ->
  find_idempotency ac "POST" path key (w_db w) = None ->
  ResetFRPCredential ac targetID password key w = (Ok r, w') ->
  no_access target (w_db w') /\
  exists u fc u', users (w_db w) !! target = Some u /\ u_role u = RUser /\
    frp_credential_of target (w_db w) = Some fc /\ sr_secret_version r = fc_secret_version fc + 1 /\
    users (w_db w') !! target = Some u' /\ u_generation u' = u_generation u + 1 /\
    u_desired_config u' = u_desired_config u + 1 /\ sr_session_generation r = u_generation u + 1 /\
    (forall k c, frp_credentials (w_db w') !! k = Some c -> fc_user_id c = target ->
       fc_secret_version c = fc_secret_version fc + 1).
Proof.
  intros Ht Hkey Hnone Hrun. unfold ResetFRPCredential in Hrun. rewrite Ht in Hrun.
  rewrite (proj2 (String.eqb_neq _ _) Hkey) in Hrun.
  apply bind_Ok in Hrun as ([? ?] & w1 & [[= <- <-] ->]%or_fail_Ok & Hrun).
  apply bind_Ok in Hrun as (? & w1 & [_ ->]%fail_if_Ok & Hrun).
  apply bind_Ok in Hrun as (? & w1 & E1%requireReauth_db & Hrun).
  apply bind_Ok in Hrun as (? & w2 & [<- ->]%ret_Ok & Hrun).
  apply bind_Ok in Hrun as ([r0 fresh] & w2 & Htx & Hrun).
  rewrite <- E1 in *. apply transaction_Ok in Htx as (_ & Htx).
  destruct Htx as [(w3 & Hb & _ & ->) | (w3 & Hb & ->)];
    apply reset_frp_tx_fresh in Hb as (r1 & Ho & Hout & u & fc & u' & Hfacts); [|done|apply no_fault| |done|apply no_fault];
    [|discriminate Ho].
  injection Ho as -> ->. cbn [w_db step] in Hfacts.
  apply bind_Ok in Hrun as (? & w4 & [f Hf]%ignored_audit & [<- ->]%ret_Ok). cbn [w_db step] in Hf. rewrite Hf.
  split; [right; by eapply shut_out_frame; [..|exact Hout]|].
  exists u, fc, u'. exact Hfacts.
Qed.

(** *** Deletion *)

(** What a deletion leaves of a user: the row, marked; no live session; every
    mapping and domain on its way out. *)
Definition being_deleted (uid : string) (u' : User) (db : DB) : Prop :=
  users db !! uid = Some u' /\ shut_out uid db /\
  (forall k m, mappings db !! k = Some m -> m_user_id m = uid ->
     m_lifecycle m = LDeleted \/ m_lifecycle m = LDeleting /\ m_desired m = DDisabled) /\
  (forall k d, domains db !! k = Some d -> d_user_id d = uid ->
     d_status d = DsDeleted \/ d_status d = DsDeleting).

#[export] Instance being_deleted_bookkept uid u' : Bookkept (being_deleted uid u').
Proof. by split. Qed.

Lemma frp_ended uid t reason db :
  shut_out uid (clear_runtime_state uid t (revoke_runtime_credentials uid t (revoke_sessions uid t reason db))).
Proof. eapply shut_out_frame; [..|apply shut_out_revoked]; reflexivity. Qed.

Lemma begin_user_delete_Ok uid t u w x w' :
  users (w_db w) !! uid = Some u -> u_role u = RUser ->
  begin_user_delete uid t w = (Ok x, w') ->
  being_deleted uid (u <| u_status := UDeleting |> <| u_generation ::= Z.succ |>
      <| u_desired_config ::= Z.succ |> <| u_updated := t |>) (w_db w').
Proof.
  intros Hu Hr Hrun. unfold begin_user_delete in Hrun.
  apply bind_Ok in Hrun as (? & w1 & (_ & ->)%exec_Ok & Hrun).
  apply bind_Ok in Hrun as (? & w2 & (_ & ->)%exec_Ok & Hrun).
  apply bind_Ok in Hrun as (? & w3 & (_ & ->)%exec_Ok & Hrun).
  apply bind_Ok in Hrun as (? & w4 & (_ & ->)%exec_Ok & Hrun).
  apply bind_Ok in Hrun as (? & w5 & (_ & ->)%exec_Ok & (_ & ->)%exec_Ok).
  cbn [w_db w_tick]. split_and!.
  - etransitivity; [exact (lookup_update_where _ _ _ _)|]. rewrite Hu. simpl. unfold plain_user.
    by rewrite (bool_decide_true (uid = uid)), (bool_decide_true (u_role u = RUser)).
  - eapply shut_out_frame; [..|apply frp_ended]; reflexivity.
  - intros k m (m0 & _ & ->)%lookup_update_where_Some. unfold owned_mapping.
    destruct (m_user_id m0 == uid) eqn:E; simpl; [|by apply bool_decide_eq_false in E].
    destruct (m_lifecycle m0 == LDeleted) eqn:E2; [apply bool_decide_eq_true in E2; by left|by right].
  - intros k d (d0 & _ & ->)%lookup_update_where_Some. unfold owned_domain.
    destruct (d_user_id d0 == uid) eqn:E; simpl; [|by apply bool_decide_eq_false in E].
    destruct (d_status d0 == DsDeleted) eqn:E2; [apply bool_decide_eq_true in E2; by left|by right].
Qed.

Lemma run_preserves {A} (I : DB -> Prop) (m : M A) w r w' :
  preserves I m -> m w = (r, w') -> I (w_db w) -> I (w_db w').
Proof. intros Hm E Hw. specialize (Hm w Hw). by rewrite E in Hm. Qed.

Lemma start_delete_Ok ac uid force key path hash u w r w' :
  users (w_db w) !! uid = Some u -> u_role u = RUser ->
  start_delete ac uid force key path hash w = (Ok r, w') ->
  (exists op d m, r = Started op d m) /\
  exists t, being_deleted uid (u <| u_status := UDeleting |> <| u_generation ::= Z.succ |>
      <| u_desired_config ::= Z.succ |> <| u_updated := t |>) (w_db w').
Proof.
  intros Hu Hr Hrun. unfold start_delete in Hrun.
  apply bind_Ok in Hrun as (t & w1 & [-> ->]%now_Ok & Hrun).
  apply bind_Ok in Hrun as (ds & w2 & (_ & -> & ->)%query_Ok & Hrun).
  apply bind_Ok in Hrun as (ms & w3 & (_ & -> & ->)%query_Ok & Hrun).
  apply bind_Ok in Hrun as (? & w4 & Hb & Hrun).
  apply (begin_user_delete_Ok _ _ u) in Hb; [|exact Hu|exact Hr].
  split; [by run_inv; subst; eauto|]. eexists. eapply run_preserves; [|exact Hrun|exact Hb].
  unfold resource_delete_operation. preserve.
Qed.

(** A deletion takes effect before anything external has been cleaned up.
    A deletion that starts is an administrator's and of an ordinary user; when
    it succeeds the user is marked, with a new session generation and desired
    configuration, and is without access; every mapping of the user is disabled
    and being deleted, and so is every domain. *)
Theorem DeleteUser_shuts_out ac uid force key u w op w' :
  users (w_db w) !! uid = Some u -> u_status u <> UDeleting -> TrimSpace key <> ""%string ->
  find_idempotency ac "DELETE" ("/api/v1/admin/users/" ++ uid) (TrimSpace key) (w_db w) = None ->
  DeleteUser ac uid force key w = (Ok op, w') ->
  ac_Role ac = RAdmin /\ u_role u = RUser /\ no_access uid (w_db w') /\
  exists u', being_deleted uid u' (w_db w') /\ u_status u' = UDeleting /\
    u_generation u' = u_generation u + 1 /\ u_desired_config u' = u_desired_config u + 1.
Proof.
  intros Hu Hdel Hkey Hnone Hrun. unfold DeleteUser in Hrun.
  apply bind_Ok in Hrun as (? & w1 & [Hadm ->]%fail_if_Ok & Hrun).
  apply negb_false_iff, bool_decide_eq_true in Hadm. unfold key_or_new in Hrun.
  rewrite (proj2 (String.eqb_neq _ _) Hkey) in Hrun.
  apply bind_Ok in Hrun as (k & w1 & [<- ->]%ret_Ok & Hrun).
  apply bind_Ok in Hrun as (r & w2 & Htx & Hrun).
  assert (u_role u = RUser /\ (exists op d m, r = Started op d m) /\
    exists t, being_deleted uid (u <| u_status := UDeleting |> <| u_generation ::= Z.succ |>
      <| u_desired_config ::= Z.succ |> <| u_updated := t |>) (w_db w2)) as (Hr & (op' & d & m & ->) & t & Hd).
  { apply transaction_Ok in Htx as (_ & [(w3 & Hb & _ & ->) | (w3 & Hb & ->)]);
      unfold delete_user_tx in Hb;
      apply bind_Ok in Hb as (e & w4 & He & Hb); apply (proj1 (attempt_Ok _ _ _ _)) in He;
      unfold query_row in He; cbn [w_db step] in He; rewrite Hnone in He;
      (destruct (env_fault (w_tick (step w))); injection He as <- <-; [by apply fail_Ok in Hb|]);
      apply bind_Ok in Hb as (u0 & w5 & Hq & Hb);
      apply (proj1 (map_err_Ok _ _ _ _ _)), query_row_Ok in Hq as (_ & Hq & ->); cbn [w_db step] in Hq;
      rewrite Hu in Hq; injection Hq as <-;
      apply bind_Ok in Hb as (? & w6 & [Hr ->]%fail_if_Ok & Hb);
      apply negb_false_iff, bool_decide_eq_true in Hr;
      destruct (u_status u) eqn:Es; try done; try (by apply fail_Ok in Hb);
      apply bind_Ok in Hb as (r0 & w7 & Hs & [Ho ->]%ret_Ok); try discriminate Ho; injection Ho as ->;
      apply (start_delete_Ok _ _ _ _ _ _ u) in Hs as [Hst Hd]; done. }
  split; [done|]. split; [done|].
  assert (being_deleted uid (u <| u_status := UDeleting |> <| u_generation ::= Z.succ |>
      <| u_desired_config ::= Z.succ |> <| u_updated := t |>) (w_db w')) as Hd'.
  { eapply run_preserves; [|exact Hrun|exact Hd]. unfold enqueueUserDeleteJob, Audit. preserve. by apply bk_jobs. }
  split; [right; exact (proj1 (proj2 Hd'))|]. eexists. split; [exact Hd'|]. by split_and!.
Qed.
End Access.

(** ** Instances *)

(** The administrator's session beside the user's. *)
Definition sample_admin_login : M AuthContext :=
  r ← Login "root" sample_password "admin_panel" "10.0.0.2" "agent";
  Authenticate (lr_Token r).
Definition sample_both : World := snd (sample_admin_login sample_logged_in).
Definition sample_admin : AuthContext :=
  match fst (sample_admin_login sample_logged_in) with Ok ac => ac | Err _ => sample_caller end.

Lemma SetUserStatus_disables_witness :
  exists w', SetUserStatus sample_admin "u-alice" "disabled" sample_both = (Ok tt, w') /\
    no_access "u-alice" (w_db w').
Proof.
  sample_run (SetUserStatus sample_admin "u-alice" "disabled" sample_both) u w' E (fun (_ : unit) (_ : World) => true) HP.
  destruct u. exists w'. split; [reflexivity|].
  destruct (SetUserStatus_disables _ _ _ _ _ E) as (_ & Hno & _). exact Hno.
Defined.

Definition sample_suspended : World := snd (SetUserStatus sample_admin "u-alice" "disabled" sample_both).

Lemma no_access_is_enforced_witness :
  is_ok (fst (Authenticate sample_bearer sample_both)) = true /\
  no_access "u-alice" (w_db sample_suspended) /\
  (forall bearer w ac w', w_db w = w_db sample_suspended ->
     Authenticate bearer w = (Ok ac, w') -> ac_UserID ac <> "u-alice"%string).
Proof.
  assert (no_access "u-alice" (w_db sample_suspended)) as Hno.
  { left. intros u E. destruct u as [n h r s]. assert (u_status <$> users (w_db sample_suspended) !! "u-alice"%string = Some UDisabled) as Es by (vm_compute; reflexivity).
    rewrite E in Es. simpl in Es. injection Es as ->. discriminate. }
  split; [vm_compute; reflexivity|]. split; [exact Hno|].
  exact (proj1 (no_access_is_enforced "u-alice" (w_db sample_suspended) Hno)).
Defined.

Lemma ResetFRPCredential_rotates_witness :
  exists r w', ResetFRPCredential sample_admin "u-alice" sample_password "k1" sample_both = (Ok r, w') /\
    no_access "u-alice" (w_db w').
Proof.
  sample_run (ResetFRPCredential sample_admin "u-alice" sample_password "k1" sample_both) r w' E
    (fun (r : SecretReset) (_ : World) => sr_secret_version r =? 2) HP.
  exists r, w'. split; [reflexivity|].
  destruct (ResetFRPCredential_rotates sample_admin "u-alice" "/api/v1/admin/users/u-alice/reset-frp-credential" "u-alice" sample_password "k1" sample_both r w'
    ltac:(vm_compute; reflexivity) ltac:(discriminate) ltac:(vm_compute; reflexivity) E) as [Hno _]. exact Hno.
Defined.

Definition sample_alice : User :=
  default (sample_user "" RUser) (users (w_db sample_both) !! "u-alice"%string).

Lemma DeleteUser_shuts_out_witness :
  exists op w', DeleteUser sample_admin "u-alice" false "k1" sample_both = (Ok op, w') /\
    no_access "u-alice" (w_db w').
Proof.
  sample_run (DeleteUser sample_admin "u-alice" false "k1" sample_both) op w' E (fun (_ : string) (_ : World) => true) HP.
  exists op, w'. split; [reflexivity|].
  destruct (DeleteUser_shuts_out sample_admin "u-alice" false "k1"
    sample_alice sample_both op w'
    ltac:(vm_compute; reflexivity) ltac:(vm_compute; discriminate) ltac:(discriminate) ltac:(vm_compute; reflexivity) E)
    as (_ & _ & Hno & _). exact Hno.
Defined.

(** ** A deletion that is undone *)

(** A suspension lifted from a user being deleted brings the user back.
      [SetUserStatus] does not look at the status it replaces: after a deletion
      has been accepted, and while its job is still on the queue, an activation
      succeeds and the user logs in. *)
Theorem deleting_user_reactivated :
  match (DeleteUser sample_admin "u-alice" false "k1";;
         SetUserStatus sample_admin "u-alice" "active";; sample_login) sample_both with
  | (Ok r, w) =>
      us_ID (lr_User r) = "u-alice"%string /\
      count_where (fun _ j => (j_type j == "user_delete"%string) && job_active (j_status j)) (jobs (w_db w)) = 1
  | _ => False
  end.
Proof. vm_compute. by split. Qed.

(** ** A user without a credential *)

(** The sample environment, where the second of the two inserts of [CreateUser]
    fails in the driver. *)
Definition faulty_env (n : nat) : Env :=
  {| env_unicode := sample_unicode; env_idna := sample_idna; env_now := @env_now sample_env;
     env_id := @env_id sample_env; env_random := @env_random sample_env;
     env_fault := fun k => Nat.eqb k n; env_config := sample_config; env_jobs := None;
     env_audit := @env_audit sample_env; env_sha256 := @env_sha256 sample_env;
     env_hash_body := sample_hash_body; env_argon2 := sample_argon2;
     env_gcm_seal := @env_gcm_seal sample_env; env_gcm_open := @env_gcm_open sample_env;
     env_master_key := @env_master_key sample_env; env_sql_text := @env_sql_text sample_env;
     env_certificate_key := @env_certificate_key sample_env;
     env_router_key := @env_router_key sample_env |}.

(** [CreateUser] is not atomic.  When its second insert fails it reports the
      error and has nevertheless added a user, whose name is taken and who has no
      FRP credential. *)
Theorem CreateUser_not_atomic :
  exists n, match @CreateUser (faulty_env n) sample_admin "bob" sample_both with
  | (Err _, w) =>
      exists_where (fun k u => (u_username u == "bob"%string) &&
        bool_decide (frp_credential_of k (w_db w) = None)) (users (w_db w)) = true
  | _ => False
  end.
Proof. exists (w_tick sample_both + 8)%nat. vm_compute. reflexivity. Qed.
