(* ===== verification/Operations.v ===== *)
(** Operations ([server/internal/service/service.go], [OperationsPage] and
    [RetryOperation]): the list a user sees, and what a retry puts back on the
    queue. *)

From S2P Require Import Prelude StateError GoText GoNet Timestamps Schema Effects Logic Validation Store Jobs Sessions Mappings Domains Apply Users.
From Stdlib Require Import Ascii String.
Open Scope Z_scope.

Record ResidueView := mkResidueView {
  rv_resource_type : string;
  rv_resource_id : string;
  rv_provider : string;
  rv_identifier : string;
  rv_reason : string;
  rv_created_at : Stamp;
  rv_resolved_at : option Stamp
}.

Record OperationView := mkOperationView {
  ov_id : string;
  ov_row : Operation;
  ov_residue_count : Z;
  ov_residues : list ResidueView
}.

(** [SELECT COUNT(1) FROM external_residues WHERE operation_id=? AND resolved_at IS
    NULL] *)
Definition open_residues (operationID : string) (db : DB) : Z :=
  count_where (fun _ x => (x_operation x == Some operationID) && (x_resolved x == None)) (residues db).

Section Operations.
Context `{Env}.

Definition externalResidues (operationID : string) : M (list ResidueView) :=
  query (fun db =>
    map (fun kx => {| rv_resource_type := x_resource_type kx.2; rv_resource_id := x_resource_id kx.2;
                      rv_provider := x_provider kx.2; rv_identifier := x_identifier kx.2;
                      rv_reason := x_reason kx.2; rv_created_at := x_created kx.2;
                      rv_resolved_at := x_resolved kx.2 |})
      (order_by (fun a b : string * Residue => sql_lt (x_created a.2) (x_created b.2))
        (select (fun _ x => x_operation x == Some operationID) (residues db)))).

Fixpoint with_residues (rows : list (string * Operation * Z)) : M (list OperationView) :=
  match rows with
  | [] => ret []
  | (k, o, n) :: rows' =>
      residues ← externalResidues k;
      rest ← with_residues rows';
      ret (mkOperationView k o n residues :: rest)
  end.

Definition OperationsPage (userID : string) (admin : bool) (page pageSize : Z)
    : M (list OperationView * PageInfo) :=
  let '(page, pageSize) := normalizePage page pageSize in
  let visible (_ : string) (o : Operation) := admin || (o_user_id o == Some userID) in
  total ← query (fun db => count_where visible (operations db));
  rows ← query (fun db =>
    map (fun ko => (ko.1, ko.2, open_residues ko.1 db))
      (page_of pageSize (page_offset page pageSize)
        (order_by (fun a b : string * Operation => sql_lt (o_created b.2) (o_created a.2))
          (select visible (operations db)))));
  items ← with_residues rows;
  ret (items, mkPageInfo page pageSize total).

Definition ListOperations (userID : string) (admin : bool) : M (list OperationView) :=
  '(items, _) ← OperationsPage userID admin 1 200;
  ret items.

(** *** Retry *)

(** The job a domain operation is retried with: type, payload and
    deduplication key. *)
Definition domain_retry (owner domainID optype phase : string) (status : DomainStatus)
    : string * Payload * string :=
  if String.eqb optype "delete" then
    ("domain_delete", delete_payload owner domainID, "domain:" ++ domainID ++ ":delete")%string
  else
    let jobType := if String.eqb phase "certificate" || (status == DsPendingCertificate)
                   then "acme_certificate_issue"%string else "domain_dns_sync"%string in
    if String.eqb phase "router" || (status == DsPendingRouter)
    then ("router_snapshot_apply", ∅, "router:snapshot")%string
    else (jobType, dns_payload owner domainID "check", "domain:" ++ domainID ++ ":" ++ jobType)%string.

(** The status a retried domain waits in. *)
Definition retry_status (jobType : string) : DomainStatus :=
  if String.eqb jobType "domain_delete" then DsDeleting
  else if String.eqb jobType "acme_certificate_issue" then DsPendingCertificate
  else if String.eqb jobType "router_snapshot_apply" then DsPendingRouter
  else DsPendingDns.

Definition retry_job (ac : AuthContext) (operationID : string) (o : Operation)
    : M (string * Payload * string) :=
  let owner := default ""%string (o_user_id o) in
  let rid := o_resource_id o in
  if String.eqb (o_resource_type o) "user" then
    fail_if (ac_Role ac != RAdmin) ErrNotFound;;
    ret ("user_delete"%string,
         user_delete_payload rid operationID (compensation_forces (o_compensation o)),
         ("user:" ++ rid ++ ":delete")%string)
  else if String.eqb (o_resource_type o) "domain" then
    status ← map_err (fun e => match e with ErrSql NoRows => ErrNotFound | _ => e end)
      (query_row (fun db =>
        d ← domains db !! rid;
        if d_user_id d == owner then Some (d_status d) else None));
    ret (domain_retry owner rid (o_op_type o) (o_phase o) status)
  else fail (ErrMsg "operation type is not retryable").

Definition RetryOperation (ac : AuthContext) (operationID : string) : M unit :=
  o ← map_err (fun e => match e with ErrSql NoRows => ErrNotFound | _ => e end)
    (query_row (fun db => operations db !! operationID));
  let owner := default ""%string (o_user_id o) in
  fail_if ((ac_Role ac != RAdmin) && negb (String.eqb owner (ac_UserID ac))) ErrNotFound;;
  fail_if (negb ((o_status o == OpFailed) || (o_status o == OpCanceled)))
    (ErrMsg "operation is not retryable");;
  fail_if (env_jobs == None) (ErrMsg "job worker is unavailable");;
  '(jobType, payload, dedup) ← retry_job ac operationID o;
  t ← nowString;
  exec (fun db => db <| operations ::= update_where (fun k _ => k == operationID) (fun o =>
    o <| o_status := OpPending |> <| o_error_code := None |> <| o_error_message := None |>
      <| o_completed := None |> <| o_updated := t |>) |>);;
  (if String.eqb (o_resource_type o) "domain" then
     exec (set_domain_status (fun k d => (k == o_resource_id o) && (d_user_id d == owner))
             (retry_status jobType) t)
   else ret tt);;
  Enqueue jobType (o_resource_type o) (o_resource_id o) dedup payload None;;
  ignore (Audit ac "operation_retried" (o_resource_type o) (o_resource_id o) "pending"
    [("operation_id"%string, PStr operationID)] operationID).
End Operations.
