(* ===== verification/Cloudflare.v ===== *)
(** The Cloudflare provider ([server/internal/providers/cloudflare]): the data
    it exchanges, the operations the server relies on, as an interface, the
    matching of a hostname to a zone, and the HTTP client that implements the
    interface over a transport; the zone matched is the most specific one, and the
    HTTP client meets the interface the handlers are written against. *)

From S2P Require Import Prelude StateError GoText GoNet Schema Effects Logic Sample.
From Stdlib Require Import Ascii String.
Open Scope Z_scope.

Record Capabilities := mkCapabilities {
  cap_TokenValid : bool;
  cap_ZoneRead : bool;
  cap_DNSRead : bool;
  cap_DNSWrite : bool;
  cap_DNSWriteChecked : bool;
  cap_Missing : list string
}.
#[export] Instance Eta_Capabilities : Eta Capabilities := fun r =>
  mkCapabilities r.(cap_TokenValid) r.(cap_ZoneRead) r.(cap_DNSRead) r.(cap_DNSWrite)
    r.(cap_DNSWriteChecked) r.(cap_Missing).

Record Zone := mkZone { zone_ID : string; zone_Name : string }.

(** [cloudflare.Record]. *)
Record CfRecord := mkCfRecord {
  rec_ID : string;
  rec_Type : string;
  rec_Name : string;
  rec_Content : string;
  rec_TTL : Z;
  rec_Proxied : bool
}.
#[export] Instance Eta_CfRecord : Eta CfRecord := fun r =>
  mkCfRecord r.(rec_ID) r.(rec_Type) r.(rec_Name) r.(rec_Content) r.(rec_TTL) r.(rec_Proxied).
#[export] Instance CfRecord_eq_dec : EqDecision CfRecord.
Proof. solve_decision. Defined.
#[export] Instance Zone_eq_dec : EqDecision Zone.
Proof. solve_decision. Defined.

(** [cloudflare.Provider], as the server uses it: every operation is a call
    with the token of the user it acts for. *)
Class Provider `{Env} := {
  VerifyToken : string -> M Capabilities;
  ListZones : string -> Z -> M (list Zone * bool);
  ListDNS : string -> Zone -> string -> string -> M (list CfRecord);
  UpsertDNS : string -> Zone -> CfRecord -> M CfRecord;
  CreateDNS : string -> Zone -> CfRecord -> M CfRecord;
  DeleteDNS : string -> Zone -> string -> M unit
}.

(** An operation of the provider changes no row of the server's database. *)
Class ProviderReads `{Provider} : Prop := {
  VerifyToken_reads tok : reads (VerifyToken tok);
  ListZones_reads tok page : reads (ListZones tok page);
  ListDNS_reads tok z n ty : reads (ListDNS tok z n ty);
  UpsertDNS_reads tok z r : reads (UpsertDNS tok z r);
  CreateDNS_reads tok z r : reads (CreateDNS tok z r);
  DeleteDNS_reads tok z id : reads (DeleteDNS tok z id)
}.

(** ** Zones *)

Section Zones.
Context `{UnicodeTables}.

(** [strings.TrimSuffix(strings.ToLower(strings.TrimSpace(name)), ".")] *)
Definition zone_name (s : string) : string := TrimSuffix (ToLower (TrimSpace s)) ".".

Definition zone_covers (hostname name : string) : bool :=
  negb (String.eqb name "") &&
  (String.eqb hostname name || HasSuffix hostname ("." ++ name)).

Definition more_specific (a b : Zone) : bool :=
  Nat.ltb (CountByte (zone_Name b) ".") (CountByte (zone_Name a) ".").

Definition eligible_zones (hostname : string) (zones : list Zone) : list Zone :=
  omap (fun z => let name := zone_name (zone_Name z) in
                 if zone_covers hostname name then Some (mkZone (zone_ID z) name) else None) zones.

Definition MatchZone (hostname : string) (zones : list Zone) : option Zone :=
  head (order_by more_specific (eligible_zones (zone_name hostname) zones)).
End Zones.

(** ** Errors *)

(** [cloudflarePermissionError] of [cloudflare_jobs.go]: code and message. *)
Definition cloudflarePermissionError (e : GoErr) : option (string * string) :=
  match e with
  | ErrAPI status _ =>
      if (status =? 401) || (status =? 403)
      then Some ("CLOUDFLARE_PERMISSION_DENIED",
                 "Cloudflare denied the required Zone or DNS permission.")%string
      else None
  | _ => None
  end.

(** ** The HTTP client

    [HTTPProvider] over a transport: the status and the decoded body the API
    answers the [n]-th request with. *)

Inductive Method := GET | POST | PUT | DELETE.

(** The JSON bodies the client decodes: [{result: ...}] with its paging, and the
    success flag. *)
Record ApiBody := mkApiBody {
  ab_success : bool;
  ab_errors : list string;
  ab_zones : list Zone;
  ab_total_pages : Z;
  ab_records : list CfRecord;
  ab_record : CfRecord
}.

(** What a request ends in: no response (or one that the clock check of its
    Date header rejects), or a status with its text and a body, which is empty,
    not JSON, or decoded. *)
Inductive ApiResponse :=
| NetworkError (text : string)
| Reply (status : Z) (status_text : string) (body : option (res string ApiBody)).

Class Transport := {
  http_do : nat -> string -> Method -> string -> option CfRecord -> ApiResponse;
  query_escape : string -> string;
  path_escape : string -> string
}.

Section HTTPProvider.
Context `{Env} `{Transport}.

Definition empty_record : CfRecord := mkCfRecord "" "" "" "" 0 false.
Definition empty_body : ApiBody := mkApiBody false [] [] 0 [] empty_record.

Definition first_message (body : option (res string ApiBody)) : string :=
  match body with Some (Ok b) => default ""%string (head (ab_errors b)) | _ => ""%string end.

(** [request]: a status outside 2xx is an [APIError] with the first message of
    the body; an unsuccessful envelope with a message is an error; [target]
    says whether the caller decodes the body. *)
Definition request (token : string) (method : Method) (path : string) (payload : option CfRecord)
    (target : bool) : M ApiBody := fun w =>
  match http_do (w_tick w) token method path payload with
  | NetworkError text => (Err (ErrMsg text), step w)
  | Reply status status_text body =>
      if (status <? 200) || (300 <=? status)
      then let m := first_message body in
           (Err (ErrAPI status (if String.eqb m "" then status_text else m)), step w)
      else match body with
           | None => (Ok empty_body, step w)
           | Some (Err detail) => (if target then Err (ErrMsg detail) else Ok empty_body, step w)
           | Some (Ok b) =>
               match ab_success b, ab_errors b with
               | false, m :: _ => (Err (ErrMsg ("cloudflare: " ++ m)), step w)
               | _, _ => (Ok b, step w)
               end
           end
  end.

Definition zone_path (z : Zone) : string :=
  ("/zones/" ++ path_escape (zone_ID z) ++ "/dns_records")%string.

Definition http_ListZones (token : string) (page : Z) : M (list Zone * bool) :=
  b ← request token GET ("/zones?page=" ++ query_escape (itoa page) ++ "&per_page=50") None true;
  ret (ab_zones b, page <? ab_total_pages b).

Definition http_ListDNS (token : string) (zone : Zone) (name recordType : string)
    : M (list CfRecord) :=
  let path := (zone_path zone ++ "?per_page=100")%string in
  let path := if String.eqb name "" then path else (path ++ "&name=" ++ query_escape name)%string in
  let path := if String.eqb recordType "" then path
              else (path ++ "&type=" ++ query_escape recordType)%string in
  b ← request token GET path None true;
  ret (ab_records b).

(** The payload names every field but the identifier. *)
Definition record_payload (r : CfRecord) : CfRecord := r <| rec_ID := ""%string |>.

Definition http_CreateDNS (token : string) (zone : Zone) (record : CfRecord) : M CfRecord :=
  b ← request token POST (zone_path zone) (Some (record_payload record)) true;
  ret (ab_record b).

Definition http_UpsertDNS (token : string) (zone : Zone) (record : CfRecord) : M CfRecord :=
  existing ← request token GET
    (zone_path zone ++ "?type=" ++ query_escape (rec_Type record) ++ "&name=" ++
     query_escape (rec_Name record) ++ "&per_page=1") None true;
  match ab_records existing with
  | [] => http_CreateDNS token zone record
  | r :: _ =>
      b ← request token PUT (zone_path zone ++ "/" ++ path_escape (rec_ID r))
        (Some (record_payload record)) true;
      ret (ab_record b)
  end.

Definition http_DeleteDNS (token : string) (zone : Zone) (recordID : string) : M unit :=
  request token DELETE (zone_path zone ++ "/" ++ path_escape recordID) None false;; ret tt.

(** 401 and 403 *)
Definition denied_status (e : GoErr) : bool :=
  match e with ErrAPI status _ => (status =? 401) || (status =? 403) | _ => false end.

Definition http_VerifyToken (token : string) : M Capabilities :=
  let none := mkCapabilities false false false false false [] in
  verify ← attempt (request token GET "/user/tokens/verify" None true);
  match verify with
  | Err e => if denied_status e then ret (none <| cap_Missing := ["Token.Verify"%string] |>) else fail e
  | Ok b =>
      let c := none <| cap_TokenValid := ab_success b |> in
      if negb (ab_success b) then ret c
      else
        zones ← attempt (http_ListZones token 1);
        match zones with
        | Err e => if denied_status e then ret (c <| cap_Missing := ["Zone.Read"%string] |>) else fail e
        | Ok ([], _) =>
            ret (c <| cap_ZoneRead := true |> <| cap_Missing := ["DNS.Read"%string] |>)
        | Ok (z :: _, _) =>
            let c := c <| cap_ZoneRead := true |> in
            dns ← attempt (http_ListDNS token z "" "");
            match dns with
            | Err e => if denied_status e then ret (c <| cap_Missing := ["DNS.Read"%string] |>) else fail e
            | Ok _ => ret (c <| cap_DNSRead := true |>)
            end
        end
  end.

#[export] Instance http_provider : Provider :=
  {| VerifyToken := http_VerifyToken; ListZones := http_ListZones; ListDNS := http_ListDNS;
     UpsertDNS := http_UpsertDNS; CreateDNS := http_CreateDNS; DeleteDNS := http_DeleteDNS |}.
End HTTPProvider.

(** ** Suffixes *)

Lemma append_nil_l p : ("" ++ p)%string = p.
Proof. done. Qed.


Lemma string_app_length r p : String.length (r ++ p) = (String.length r + String.length p)%nat.
Proof. induction r as [|c r IH]; [done|]. rewrite append_cons. simpl. by rewrite IH. Qed.

Lemma HasSuffix_true s p : HasSuffix s p = true <-> exists r, s = (r ++ p)%string.
Proof.
  unfold HasSuffix. split.
  - destruct (Nat.ltb _ _); [done|]. intros E%String.eqb_eq.
    exists (take_str (String.length s - String.length p) s). etransitivity; [symmetry; apply take_drop_str|]. by rewrite E.
  - intros [r ->]. rewrite string_app_length.
    destruct (Nat.ltb_spec (String.length r + String.length p) (String.length p)) as [|_]; [lia|].
    rewrite Nat.add_sub, drop_str_app. apply String.eqb_refl.
Qed.

(** Of two suffixes of one text the shorter is a suffix of the longer. *)
Lemma suffix_total a b ra rb :
  (ra ++ a)%string = (rb ++ b)%string -> (String.length a <= String.length b)%nat ->
  exists r, b = (r ++ a)%string.
Proof.
  revert rb. induction ra as [|c ra IH]; intros rb E Hl.
  - exists ""%string. rewrite append_nil_l in *. subst a. destruct rb as [|d rb]; [done|].
    rewrite append_cons in Hl. cbn [String.length] in Hl. rewrite string_app_length in Hl. lia.
  - destruct rb as [|d rb].
    + exists (String c ra). by rewrite E.
    + rewrite !append_cons in E. injection E as _ E. by eapply IH.
Qed.

Lemma CountByte_app r p c : CountByte (r ++ p) c = (CountByte r c + CountByte p c)%nat.
Proof. induction r as [|d r IH]; [done|]. rewrite append_cons. simpl. rewrite IH. lia. Qed.

(** ** Zones *)

Section Zones.
Context `{UnicodeTables}.

(** A zone covers a name exactly when its labels end the name's labels. *)
Lemma zone_covers_true h z :
  zone_covers h z = true <-> z <> ""%string /\ exists r, ("." ++ h)%string = (r ++ "." ++ z)%string.
Proof.
  unfold zone_covers. rewrite andb_true_iff, negb_true_iff, String.eqb_neq, orb_true_iff, String.eqb_eq,
    HasSuffix_true. split; intros [Hz Hr]; (split; [done|]).
  - destruct Hr as [->|[r ->]]; [by exists ""%string|]. by exists (String "." r).
  - destruct Hr as [[|c r] E]; [injection E as E; by left|]. right. exists r. injection E as _ E. exact E.
Qed.

(** Of two zones that cover a name, the one with no fewer dots is covered by the
    other. *)
Lemma zones_nested h a b :
  zone_covers h a = true -> zone_covers h b = true ->
  (CountByte b "." <= CountByte a ".")%nat -> zone_covers a b = true.
Proof.
  rewrite !zone_covers_true. intros [Ha [ra Ea]] [Hb [rb Eb]] Hc. split; [done|].
  destruct (Nat.le_gt_cases (String.length b) (String.length a)) as [Hl|Hl].
  - eapply (suffix_total ("." ++ b) ("." ++ a) rb ra); [congruence|].
    rewrite !string_app_length. cbn [String.length]. lia.
  - destruct (suffix_total ("." ++ a) ("." ++ b) ra rb) as [r E];
      [congruence|rewrite !string_app_length; cbn [String.length]; lia|].
    destruct r as [|c r].
    + injection E as E. assert (b = a) as -> by exact E. lia.
    + injection E as _ E. assert (b = (r ++ "." ++ a)%string) as -> by exact E.
      rewrite CountByte_app, append_cons, append_nil_l in Hc. simpl in Hc. lia.
Qed.

(** The zone a hostname is matched to is the most specific one.  It is one of
    the accessible zones, under its normal name; it covers the hostname, as a
    whole-label suffix; and every accessible zone that covers the hostname also
    covers it.  No zone is matched only if none covers the hostname. *)
Theorem MatchZone_most_specific hostname zones :
  let covers z := zone_covers (zone_name hostname) (zone_name (zone_Name z)) = true in
  match MatchZone hostname zones with
  | Some z =>
      (exists z0, z0 ∈ zones /\ covers z0 /\ z = mkZone (zone_ID z0) (zone_name (zone_Name z0))) /\
      (forall z', z' ∈ zones -> covers z' -> zone_covers (zone_Name z) (zone_name (zone_Name z')) = true)
  | None => forall z', z' ∈ zones -> ~ covers z'
  end.
Proof.
  intros covers. unfold MatchZone. rewrite head_order_by.
  assert (forall z, z ∈ eligible_zones (zone_name hostname) zones <->
    exists z0, z0 ∈ zones /\ covers z0 /\ z = mkZone (zone_ID z0) (zone_name (zone_Name z0))) as Hel.
  { intros z. unfold eligible_zones. rewrite list_elem_of_omap. cbv zeta. split.
    - intros (z0 & Hin & Hz). exists z0. unfold covers. destruct (zone_covers _ _); [|done]. by injection Hz as <-.
    - intros (z0 & Hin & Hc & ->). exists z0. split; [done|]. unfold covers in Hc. by rewrite Hc. }
  destruct (first_by _ _) as [z|] eqn:Hf.
  - pose proof (first_by_elem _ _ _ Hf) as (z0 & Hin & Hc & Hz)%Hel. split; [by exists z0|].
    intros z' Hin' Hc'. subst z. cbn [zone_Name].
    apply (first_by_least more_specific) with (y := mkZone (zone_ID z') (zone_name (zone_Name z'))) in Hf.
    + unfold more_specific in Hf. cbn [zone_Name] in Hf. apply Nat.ltb_ge in Hf. by eapply zones_nested.
    + unfold more_specific. intros a b c ?%Nat.ltb_ge ?%Nat.ltb_ge. apply Nat.ltb_ge. lia.
    + unfold more_specific. intros a b ?%Nat.ltb_lt. apply Nat.ltb_ge. lia.
    + apply Hel. by exists z'.
  - apply first_by_None in Hf. intros z' Hin Hc.
    assert (mkZone (zone_ID z') (zone_name (zone_Name z')) ∈ eligible_zones (zone_name hostname) zones) as Hz
      by (apply Hel; by exists z').
    rewrite Hf in Hz. by apply not_elem_of_nil in Hz.
Qed.
End Zones.

(** ** The HTTP client *)

Section Client.
Context `{Env} `{Transport}.

Lemma reads_bind {A B} (m : M A) (k : A -> M B) : reads m -> (forall a, reads (k a)) -> reads (m ≫= k).
Proof.
  intros Hm Hk w. specialize (Hm w). unfold mbind, M_bind, bind. destruct (m w) as [[a|e] w1]; [|done].
  rewrite Hk. exact Hm.
Qed.

Lemma reads_attempt {A} (m : M A) : reads m -> reads (attempt m).
Proof. intros Hm w. specialize (Hm w). unfold attempt. by destruct (m w). Qed.

Lemma reads_ret {A} (a : A) : reads (ret a).
Proof. done. Qed.

Lemma reads_fail {A} e : reads (fail (A := A) e).
Proof. done. Qed.

Lemma reads_request token method path payload target : reads (request token method path payload target).
Proof. intros w. unfold request. repeat case_match; done. Qed.

Ltac reads_step :=
  match goal with
  | |- reads (mbind _ _) => apply reads_bind; [|intros ?]
  | |- reads (attempt _) => apply reads_attempt
  | |- reads (ret _) => apply reads_ret
  | |- reads (fail _) => apply reads_fail
  | |- reads (request _ _ _ _ _) => apply reads_request
  | |- reads (if ?b then _ else _) => destruct b
  | |- reads (match ?x with _ => _ end) => destruct x
  | |- reads (let _ := _ in _) => cbv zeta
  end.

(** The client meets the interface: an API call changes no row of the server. *)
#[export] Instance http_provider_reads : ProviderReads.
Proof.
  split; intros; cbn [VerifyToken ListZones ListDNS UpsertDNS CreateDNS DeleteDNS http_provider];
    unfold http_VerifyToken, http_ListZones, http_ListDNS, http_UpsertDNS, http_CreateDNS, http_DeleteDNS;
    repeat reads_step.
Qed.
End Client.

(** ** Instances *)

Lemma MatchZone_most_specific_witness :
  exists z, @MatchZone sample_unicode "api.eu.example.com"
      [mkZone "root" "example.com"; mkZone "regional" "EU.example.com."; mkZone "wrong" "ample.com";
       mkZone "eu" "eu.example.com"] = Some z /\
    zone_covers (zone_Name z) "example.com" = true.
Proof.
  pose proof (@MatchZone_most_specific sample_unicode "api.eu.example.com"
    [mkZone "root" "example.com"; mkZone "regional" "EU.example.com."; mkZone "wrong" "ample.com";
     mkZone "eu" "eu.example.com"]) as Hm.
  destruct (MatchZone _ _) as [z|] eqn:E; [|vm_compute in E; discriminate E].
  exists z. split; [reflexivity|]. apply (proj2 Hm (mkZone "root" "example.com")); [left|vm_compute; reflexivity].
Defined.
