(* ===== verification/DomainsSpec.v ===== *)
(** What the handlers of domains guarantee: a hostname is accepted in one normal
    form that is a well-formed DNS name, the record it asks for is within bounds,
    and a creation binds it, once, to the caller's http mapping. *)

From S2P Require Import Prelude StateError GoText GoNet Timestamps Schema Effects Logic Validation Sample Store Jobs Frames Sessions SessionsSpec Mappings MappingsSpec Domains Cloudflare.
From Stdlib Require Import Ascii String.
Open Scope Z_scope.

(** ** Names *)

Section Names.
Context `{UnicodeTables} `{Idna}.

(** A DNS name: two labels or more, each of 1 to 63 bytes and without a hyphen at
    its ends. *)
Definition dns_name (d : string) : Prop :=
  (2 <= List.length (SplitByte d "."))%nat /\
  forall label, label ∈ SplitByte d "." ->
    (1 <= String.length label <= 63)%nat /\ HasPrefix label "-" = false /\ HasSuffix label "-" = false.

Lemma valid_label_true label :
  valid_label label = true <->
  (1 <= String.length label <= 63)%nat /\ HasPrefix label "-" = false /\ HasSuffix label "-" = false.
Proof.
  unfold valid_label. rewrite !andb_true_iff, !negb_true_iff, !Nat.leb_le. tauto.
Qed.

Lemma normalizeDomain_Ok raw d :
  normalizeDomain raw = Ok d <->
  let host := TrimSuffix (ToLower (TrimSpace raw)) "." in
  host <> ""%string /\ (String.length host <= 253)%nat /\ ContainsAny host ["/"; "*"; "\"]%char = false /\
  idna_ToASCII host = Some d /\ dns_name d.
Proof.
  unfold normalizeDomain, dns_name. cbv zeta. set (host := TrimSuffix _ _). clearbody host.
  destruct (_ || _ || _) eqn:E.
  - split; [done|]. intros (Hn & Hl & Hc & _). rewrite (proj2 (String.eqb_neq _ _) Hn), Hc in E.
    cbn [orb] in E. rewrite orb_false_r in E. apply Nat.ltb_lt in E. lia.
  - apply orb_false_iff in E as [[Hn%String.eqb_neq Hl%Nat.ltb_ge]%orb_false_iff Hc].
    destruct (idna_ToASCII host) as [a|]; [|split; [done|by intros (_ & _ & _ & ? & _)]].
    destruct (Nat.ltb_spec (List.length (SplitByte a ".")) 2) as [Hlen|Hlen].
    + split; [done|]. intros (_ & _ & _ & [= ->] & ? & _). lia.
    + destruct (forallb valid_label (SplitByte a ".")) eqn:Hv.
      * rewrite forallb_forall in Hv. split.
        -- intros [= <-]. split_and!; try done. intros label Hin%list_elem_of_In.
           by apply valid_label_true, Hv.
        -- by intros (_ & _ & _ & [= ->] & _).
      * split; [done|]. intros (_ & _ & _ & [= <-] & _ & Hall). rewrite (proj2 (forallb_forall _ _)) in Hv; [done|].
        intros label Hin%list_elem_of_In. by apply valid_label_true, Hall.
Qed.

Lemma SplitByte_trailing r : exists w l, SplitByte (r ++ ".") "." = (w :: l ++ [""%string])%list.
Proof.
  induction r as [|c r (w & l & IH)]; [by exists ""%string, []|].
  rewrite append_cons. cbn [SplitByte]. rewrite IH.
  destruct (Ascii.eqb c "."); [exists ""%string, (w :: l); done|]. by exists (String c w), l.
Qed.

(** A DNS name does not end in a dot. *)
Lemma dns_name_no_dot d : dns_name d -> TrimSuffix d "." = d.
Proof.
  intros [_ Hl]. unfold TrimSuffix. destruct (HasSuffix d ".") eqn:E; [|done].
  apply HasSuffix_true in E as [r ->]. destruct (SplitByte_trailing r) as (w & l & Es).
  assert (""%string ∈ SplitByte (r ++ ".") ".") as Hin by (rewrite Es; set_solver).
  apply Hl in Hin as [Hin _]. simpl in Hin. lia.
Qed.

(** A hostname has one normal form.  The normal form of an accepted hostname
    is the IDNA form of the text without surrounding space, final dot and case,
    and a DNS name: two labels or more, each of 1 to 63 bytes and not begun or
    ended by a hyphen; exactly the texts with such a form, of at most 253 bytes
    and without a slash, a star or a backslash, are accepted; and, as IDNA maps
    its results to themselves, a normal form that is not over-long is its own. *)
Theorem normalizeDomain_normal_form raw d :
  (forall x y, idna_ToASCII x = Some y -> forallb_str graphic y = true /\ ToLower y = y /\
     ContainsAny y ["/"; "*"; "\"]%char = false /\ idna_ToASCII y = Some y) ->
  (normalizeDomain raw = Ok d <->
   let host := TrimSuffix (ToLower (TrimSpace raw)) "." in
   host <> ""%string /\ (String.length host <= 253)%nat /\ ContainsAny host ["/"; "*"; "\"]%char = false /\
   idna_ToASCII host = Some d /\ dns_name d) /\
  (normalizeDomain raw = Ok d -> (String.length d <= 253)%nat -> normalizeDomain d = Ok d).
Proof.
  intros Hidna. split; [apply normalizeDomain_Ok|].
  intros (_ & _ & _ & Ha & Hd)%normalizeDomain_Ok Hlen.
  destruct (Hidna _ _ Ha) as (Hg & Hlow & Hc & Hfix).
  apply normalizeDomain_Ok. rewrite TrimSpace_graphic, Hlow, dns_name_no_dot by done. cbv zeta.
  split_and!; try done. intros ->. destruct Hd as [Hd _]. simpl in Hd. lia.
Qed.

(** The record a domain asks for is within bounds.  An accepted intent has one
    of the three record types, a time to live of 60 to 86400 seconds and is
    proxied exactly in the mode [cloudflare_proxy]; an A record holds the text of
    an IPv4 address, an AAAA record that of an address which is not IPv4, and a
    CNAME a DNS name in normal form. *)
Theorem normalizeDNSIntent_bounds defaultContent req ty content ttl proxied :
  normalizeDNSIntent defaultContent req = Ok (ty, content, ttl, proxied) ->
  60 <= ttl <= 86400 /\ (dq_dns_ttl req = 0 -> ttl = 300) /\ (dq_dns_ttl req <> 0 -> ttl = dq_dns_ttl req) /\
  (proxied = true <-> dq_https_mode req = "cloudflare_proxy"%string) /\
  match ty with
  | DnsA => exists ip v4, ParseIP (TrimSpace (dq_dns_content req)) = Some ip /\ To4 ip = Some v4 /\
      content = IPString (v4_prefix ++ v4)%list
  | DnsAAAA => exists ip, ParseIP (TrimSpace (dq_dns_content req)) = Some ip /\ To4 ip = None /\
      content = IPString ip
  | DnsCNAME => dns_name content /\ exists raw, normalizeDomain raw = Ok content
  end.
Proof.
  unfold normalizeDNSIntent. cbv zeta. set (ttl0 := if dq_dns_ttl req =? 0 then 300 else dq_dns_ttl req).
  destruct (dns_type_of _) as [ty0|]; [|done].
  destruct (_ || _) eqn:E; [done|]. apply orb_false_iff in E as [E1%Z.ltb_ge E2%Z.ltb_ge].
  assert (forall P : Prop, P -> ttl = ttl0 -> proxied = String.eqb (dq_https_mode req) "cloudflare_proxy" ->
    60 <= ttl <= 86400 /\ (dq_dns_ttl req = 0 -> ttl = 300) /\ (dq_dns_ttl req <> 0 -> ttl = dq_dns_ttl req) /\
    (proxied = true <-> dq_https_mode req = "cloudflare_proxy"%string) /\ P) as Hmk.
  { intros P HP -> ->. rewrite String.eqb_eq. split_and!; try done; unfold ttl0.
    - by intros ->.
    - intros Hn. by rewrite (proj2 (Z.eqb_neq _ _) Hn). }
  clearbody ttl0. destruct ty0.
  - destruct (ParseIP _) as [ip|] eqn:Hp; cbn [mbind option_bind]; [|done].
    destruct (To4 ip) as [v4|] eqn:H4; [|done]. intros [= <- <- <- <-]. apply Hmk; [|done|done]. by exists ip, v4.
  - destruct (ParseIP _) as [ip|] eqn:Hp; [|done]. destruct (bool_decide _) eqn:H4; [|done].
    apply bool_decide_eq_true in H4. intros [= <- <- <- <-]. apply Hmk; [|done|done]. by exists ip.
  - destruct (normalizeDomain _) as [c|] eqn:Hn; [|done]. intros [= <- <- <- <-]. apply Hmk; [|done|done].
    split; [by apply normalizeDomain_Ok in Hn as (_ & _ & _ & _ & ?)|by eexists].
Qed.
End Names.

(** ** Creation *)

(** What a creation has done to the database. *)
Record domain_created `{Env} (ac : AuthContext) (req : DomainRequest) (mode : HttpsMode) (normalized : string)
    (dns : DnsType * string * Z * bool) (db db' : DB) (item : DomainView) (op : string) : Prop := {
  (* the caller is active, the expected version is current, quotas are not used up *)
  dc_user : exists u t, users db !! ac_UserID ac = Some u /\ u_status u = UActive /\
    conflicts (dq_expected_config req) (u_desired_config u) = false /\
    count_domains (ac_UserID ac) db < u_max_domains u /\
    count_domain_operations (ac_UserID ac) db < u_max_pending_domain_operations u /\
    (mode <> HttpOnly -> count_certificate_jobs (ac_UserID ac) db < u_max_certificate_jobs u) /\
    (* the desired configuration has a new version *)
    users db' = users (set_desired (ac_UserID ac) (u_desired_config u + 1) t db);
  (* the mapping is the caller's and of type http *)
  dc_mapping : exists m, mappings db !! dq_mapping_id req = Some m /\ m_user_id m = ac_UserID ac /\
    m_proxy_type m = Http /\ m_lifecycle m <> LDeleted;
  (* the name was not bound, to anyone *)
  dc_unbound : forall k d, domains db !! k = Some d -> d_normalized d <> normalized;
  (* one new domain, waiting for its DNS record *)
  dc_rows : exists t n nid,
    domains db !! dv_id item = None /\
    domains db' = <[dv_id item :=
      {| d_user_id := ac_UserID ac; d_mapping_id := dq_mapping_id req;
         d_hostname := TrimSpace (dq_hostname req); d_normalized := normalized; d_zone_id := None;
         d_https_mode := mode; d_redirect := dq_redirect req; d_status := DsPendingDns;
         d_revision := 1; d_created := t; d_updated := t |}]> (domains db) /\
    (* with the record it asks for, which nobody manages yet *)
    dns_records db !! nid = None /\ dns_records db' = <[nid := n]> (dns_records db) /\
    n_domain_id n = Some (dv_id item) /\ n_managed n = false /\
    (n_type n, n_content n, n_ttl n, n_proxied n) = dns /\ n_normalized n = normalized;
  (* and the operation that tracks it *)
  dc_operation : exists o, operations db !! op = None /\ operations db' = <[op := o]> (operations db) /\
    o_user_id o = Some (ac_UserID ac) /\ o_resource_type o = "domain"%string /\
    o_resource_id o = dv_id item /\ o_status o = OpPending;
  (* the rest is as it was *)
  dc_frame : mappings db' = mappings db /\ sessions db' = sessions db /\ leases db' = leases db /\
    jobs db' = jobs db
}.

Section CreateDomain.
Context `{Env}.

Lemma replay_domain_Ok hash r w item w' :
  replay_domain hash r w = (Ok item, w') -> w' = w /\ i_body_hash r = hash /\ i_response r = RespDomain item.
Proof.
  unfold replay_domain. intros Hrun. apply bind_Ok in Hrun as (? & w1 & [Hh ->]%fail_if_Ok & Hrun).
  apply negb_false_iff, String.eqb_eq in Hh.
  destruct (i_response r); try by apply fail_Ok in Hrun. by apply ret_Ok in Hrun as [-> ->].
Qed.

Lemma http_mapping_Ok uid mid w x w' :
  http_mapping uid mid w = (Ok x, w') ->
  w_db w' = w_db w /\ exists m, mappings (w_db w) !! mid = Some m /\ m_user_id m = uid /\
    m_proxy_type m = Http /\ m_lifecycle m <> LDeleted.
Proof.
  unfold http_mapping. intros Hrun. apply bind_Ok in Hrun as (m & w1 & Hm & [Hc ->]%fail_if_Ok).
  apply (proj1 (map_err_Ok _ _ _ _ _)), query_row_Ok in Hm as (_ & Hm & ->). split; [done|].
  destruct (mappings (w_db w) !! mid) as [m0|]; [|done]. simpl in Hm.
  destruct (m_lifecycle m0 == LDeleted) eqn:E; [done|]. injection Hm as ->. exists m.
  apply orb_false_iff in Hc as [H1%negb_false_iff%bool_decide_eq_true H2%negb_false_iff%bool_decide_eq_true].
  apply bool_decide_eq_false in E. by split_and!.
Qed.

Lemma domain_quotas_Ok uid u mode w x w' :
  domain_quotas uid u mode w = (Ok x, w') ->
  w_db w' = w_db w /\ count_domains uid (w_db w) < u_max_domains u /\
  count_domain_operations uid (w_db w) < u_max_pending_domain_operations u /\
  (mode <> HttpOnly -> count_certificate_jobs uid (w_db w) < u_max_certificate_jobs u).
Proof.
  unfold domain_quotas. intros Hrun.
  apply bind_Ok in Hrun as (n & w1 & Hn & Hrun).
  apply (proj1 (map_err_Ok _ _ _ _ _)), query_Ok in Hn as (_ & -> & ->).
  apply bind_Ok in Hrun as (? & w2 & [Hd%Z.leb_gt ->]%fail_if_Ok & Hrun).
  apply bind_Ok in Hrun as (n & w3 & (_ & -> & ->)%query_Ok & Hrun).
  apply bind_Ok in Hrun as (? & w4 & [Ho%Z.leb_gt ->]%fail_if_Ok & Hrun). cbn [w_db step] in *.
  destruct (mode == HttpOnly) eqn:E.
  - apply ret_Ok in Hrun as [_ ->]. split_and!; try done. by apply bool_decide_eq_true in E.
  - apply bind_Ok in Hrun as (n & w5 & (_ & -> & ->)%query_Ok & [Hc%Z.leb_gt ->]%fail_if_Ok). by split_and!.
Qed.

Lemma create_domain_tx_Ok ac req mode normalized dns key w o w' :
  TrimSpace key <> ""%string -> create_domain_tx ac req mode normalized dns key w = (Ok o, w') ->
  match o with
  | Rollback (item, fresh) => fresh = None /\ w_db w' = w_db w /\
      replay_record ac "POST" "/api/v1/domains" (TrimSpace key) (domain_body_hash req) (w_db w) (RespDomain item)
  | Commit (item, fresh) => exists op, fresh = Some op /\
      domain_created ac req mode normalized dns (w_db w) (w_db w') item op /\
      dv_normalized item = normalized /\ dv_status item = DsPendingDns /\
      replay_record ac "POST" "/api/v1/domains" (TrimSpace key) (domain_body_hash req) (w_db w') (RespDomain item)
  end.
Proof.
  destruct dns as [[[ty content] ttl] proxied]. unfold create_domain_tx, key_or_new. intros Hkey Hrun.
  rewrite (proj2 (String.eqb_neq _ _) Hkey) in Hrun.
  apply bind_Ok in Hrun as (k & w0 & [<- ->]%ret_Ok & Hrun). cbv zeta in Hrun.
  apply bind_Ok in Hrun as (existing & w1 & He & Hrun). apply (proj1 (attempt_Ok _ _ _ _)) in He.
  destruct existing as [r|].
  { apply query_row_Ok in He as (_ & Hf & ->).
    apply bind_Ok in Hrun as (item & w2 & (-> & Hh & Hr)%replay_domain_Ok & [<- ->]%ret_Ok).
    split; [done|]. split; [done|]. by exists r. }
  assert (w_db w1 = w_db w) as Ew1.
  { unfold query_row in He. destruct (env_fault _); [by injection He as _ <-|].
    by destruct (find_idempotency _ _ _ _ _); injection He as _ <-. }
  clear He.
  apply bind_Ok in Hrun as (u & w2 & Hu & Hrun).
  apply (proj1 (map_err_Ok _ _ _ _ _)), query_row_Ok in Hu as (_ & [Hu Hact]%active_user_Some & ->).
  apply bind_Ok in Hrun as (? & w3 & [Hcfg ->]%fail_if_Ok & Hrun).
  apply bind_Ok in Hrun as (? & w4 & [Ew4 Hm]%http_mapping_Ok & Hrun).
  apply bind_Ok in Hrun as (? & w5 & (Ew5 & Hq1 & Hq2 & Hq3)%domain_quotas_Ok & Hrun).
  cbn [w_db step] in *. rewrite Ew4, Ew1 in *.
  apply bind_Ok in Hrun as (t & w6 & [-> ->]%now_Ok & Hrun).
  apply bind_Ok in Hrun as (did & w7 & [-> ->]%newID_Ok & Hrun).
  apply bind_Ok in Hrun as (? & w8 & Hins & Hrun).
  apply (proj1 (map_err_Ok _ _ _ _ _)), exec_checked_Ok in Hins as (_ & db1 & Hdb1 & ->).
  apply insert_domain_Ok in Hdb1 as (_ & Hdn & Hun & _ & _ & Hdb1).
  apply bind_Ok in Hrun as (nid & w9 & [-> ->]%newID_Ok & Hrun).
  apply bind_Ok in Hrun as (? & w10 & (_ & db2 & (Hnn & Hdb2)%insert_dns_record_Ok & ->)%exec_checked_Ok & Hrun).
  apply bind_Ok in Hrun as (? & w11 & (_ & ->)%exec_Ok & Hrun).
  apply bind_Ok in Hrun as (op & w12 & [-> ->]%newID_Ok & Hrun).
  apply bind_Ok in Hrun as (? & w13 & (_ & db3 & (Hon & Hdb3)%insert_operation_Ok & ->)%exec_checked_Ok & Hrun).
  apply bind_Ok in Hrun as (? & w14 & ([fi Hw14] & Hrec)%record_idempotency_Ok & [<- ->]%ret_Ok).
  cbn [w_db w_tick step] in *. rewrite Ew5 in *.
  assert (domains (w_db w14) = domains db1 /\ dns_records (w_db w14) = dns_records db2 /\
    operations (w_db w14) = operations db3 /\ mappings (w_db w14) = mappings (w_db w) /\
    sessions (w_db w14) = sessions (w_db w) /\ leases (w_db w14) = leases (w_db w) /\
    jobs (w_db w14) = jobs (w_db w) /\
    users (w_db w14) = users (set_desired (ac_UserID ac) (u_desired_config u + 1) (env_now (w_tick w5)) (w_db w)))
    as (Ed & En & Eo & Em & Es & El & Ej & Eu).
  { rewrite Hw14, Hdb3. unfold set_desired. rewrite Hdb2, Hdb1. by split_and!. }
  rewrite Hdb1 in Hnn, Hdb2. unfold set_desired in Hon, Hdb3. rewrite Hdb2 in Hon, Hdb3.
  eexists. split; [reflexivity|]. split; [|by split_and!]. split.
  - exists u, (env_now (w_tick w5)). by split_and!.
  - destruct Hm as (m & ? & ? & ? & ?). by exists m.
  - intros k d Hk. by apply (Hun k d Hk).
  - eexists _, _, _. rewrite Ed, En, Hdb2, Hdb1. cbn [dv_id]. split; [exact Hdn|]. split; [reflexivity|].
    split; [exact Hnn|]. split; [reflexivity|]. by split_and!.
  - eexists. rewrite Eo, Hdb3. split; [exact Hon|]. split; [reflexivity|]. by split_and!.
  - by split_and!.
Qed.

(** A job that has been enqueued under a key is there, and the queue is the only
    table that changed. *)
Lemma Enqueue_live ty rt ri key payload tv w job w' :
  key <> ""%string -> Enqueue ty rt ri key payload tv w = (Ok job, w') ->
  (exists f, w_db w' = (w_db w) <| jobs ::= f |>) /\
  exists k j, jobs (w_db w') !! k = Some j /\ job_matches ty key k j = true.
Proof.
  intros Hkey Hrun. unfold Enqueue in Hrun.
  apply bind_Ok in Hrun as (? & w1 & [_ ->]%fail_if_Ok & Hrun).
  apply bind_Ok in Hrun as (jid & w2 & [_ ->]%newID_Ok & Hrun).
  apply bind_Ok in Hrun as (t & w3 & [_ ->]%now_Ok & Hrun). cbv zeta in Hrun.
  apply bind_Ok in Hrun as (? & w4 & (_ & ->)%exec_Ok & Hrun).
  rewrite (proj2 (String.eqb_neq _ _) Hkey) in Hrun. apply query_row_Ok in Hrun as (_ & Hq & ->).
  cbn [w_db step] in *. split.
  - unfold insert_job_or_ignore. destruct (_ || _); [exists id; by destruct (w_db w)|by eexists].
  - apply fmap_Some in Hq as ([k j] & Hf & _). apply first_by_elem, elem_of_select in Hf as [Hj Hm]. by exists k, j.
Qed.

(** What a successful creation of a domain means.  The mode is one of the
    three and plain HTTP does not redirect; hostname and record have a normal
    form.  Then either the key was used before in this session with the same
    request, and nothing changed; or the caller is active, within every quota and
    at the expected version, the mapping is the caller's http mapping, nobody had
    bound the name, and the database has one new domain waiting for DNS, the
    record it asks for, the operation that tracks it, one more desired version and
    a record for the replay; and its synchronisation is queued, when there is a
    worker. *)
Theorem CreateDomain_spec ac req key w item w' :
  TrimSpace key <> ""%string -> CreateDomain ac req key w = (Ok item, w') ->
  exists mode normalized dns,
    https_mode_of (dq_https_mode req) = Some mode /\ (mode = HttpOnly -> dq_redirect req = false) /\
    normalizeDomain (dq_hostname req) = Ok normalized /\
    normalizeDNSIntent (cfg_FRPSPublicHost env_config) req = Ok dns /\
    ((w_db w' = w_db w /\
      replay_record ac "POST" "/api/v1/domains" (TrimSpace key) (domain_body_hash req) (w_db w) (RespDomain item)) \/
     (exists db op f g, domain_created ac req mode normalized dns (w_db w) db item op /\
        dv_normalized item = normalized /\ dv_status item = DsPendingDns /\
        replay_record ac "POST" "/api/v1/domains" (TrimSpace key) (domain_body_hash req) db (RespDomain item) /\
        w_db w' = (db <| audit_logs ::= f |>) <| jobs ::= g |> /\
        (env_jobs <> None -> exists k j, jobs (w_db w') !! k = Some j /\
           job_matches "domain_dns_sync" (dns_dedup (dv_id item)) k j = true))).
Proof.
  intros Hkey Hrun. unfold CreateDomain in Hrun.
  apply bind_Ok in Hrun as (mode & w1 & [Hmode ->]%or_fail_Ok & Hrun).
  apply bind_Ok in Hrun as (? & w1 & [Hred ->]%fail_if_Ok & Hrun).
  apply bind_Ok in Hrun as (n & w1 & Hn & Hrun). unfold lift_res in Hn.
  destruct (normalizeDomain _) as [n0|] eqn:En; [|by apply fail_Ok in Hn]. apply ret_Ok in Hn as [<- ->].
  apply bind_Ok in Hrun as (dns & w1 & Hd & Hrun). unfold lift_res in Hd.
  destruct (normalizeDNSIntent _ _) as [d0|] eqn:Ed; [|by apply fail_Ok in Hd]. apply ret_Ok in Hd as [<- ->].
  exists mode, n0, d0. split; [done|]. split.
  { intros ->. by rewrite bool_decide_true in Hred. }
  split; [done|]. split; [done|].
  apply bind_Ok in Hrun as ([it fresh] & w2 & Htx & Hrun).
  apply transaction_Ok in Htx as (_ & [(w3 & Hb & _ & ->) | (w3 & Hb & ->)]);
    apply create_domain_tx_Ok in Hb; try exact Hkey.
  - destruct Hb as (op & -> & Hc & Hnm & Hst & Hr). right. unfold Audit in Hrun.
    apply bind_Ok in Hrun as (? & w4 & [f Hf]%ignored_audit & Hrun). cbn [w_db step] in Hf.
    apply bind_Ok in Hrun as (? & w5 & Hq & [<- ->]%ret_Ok).
    assert (exists g, w_db w5 = (w_db w4) <| jobs ::= g |> /\
      (env_jobs <> None -> exists k j, jobs (w_db w5) !! k = Some j /\
         job_matches "domain_dns_sync" (dns_dedup (dv_id it)) k j = true)) as (g & Hg & Hj).
    { destruct (env_jobs == None) eqn:Ej.
      - apply ret_Ok in Hq as [_ ->]. exists id. split; [by destruct (w_db w4)|].
        by apply bool_decide_eq_true in Ej.
      - unfold enqueue_dns in Hq. apply bind_Ok in Hq as (jid & w6 & Hq & [_ ->]%ret_Ok).
        apply Enqueue_live in Hq as [[g Hg] Hj]; [|done]. exists g. by split. }
    exists (w_db w3), op, f, g. rewrite Hf in Hg. by split_and!.
  - destruct Hb as (-> & _ & Hr). left. by apply ret_Ok in Hrun as [<- ->].
Qed.
End CreateDomain.

(** ** Instances *)

(** An IDNA whose results are the lower-case names it is given. *)
Definition name_byte (c : ascii) : bool := is_lower c || is_digit c || Ascii.eqb c "-" || Ascii.eqb c ".".
Definition lower_idna : Idna :=
  {| idna_ToASCII s := if forallb_str name_byte s then Some s else None |}.

Lemma forallb_str_impl (p q : ascii -> bool) s :
  (forall c, p c = true -> q c = true) -> forallb_str p s = true -> forallb_str q s = true.
Proof.
  intros Hpq. induction s as [|c s IH]; [done|]. simpl. rewrite !andb_true_iff. intros [? ?]. auto.
Qed.

Lemma map_str_id (p : ascii -> bool) f s :
  (forall c, p c = true -> f c = c) -> forallb_str p s = true -> map_str f s = s.
Proof.
  intros Hpf. induction s as [|c s IH]; [done|]. simpl. rewrite andb_true_iff. intros [? ?].
  by rewrite Hpf, IH.
Qed.

Lemma lower_idna_ok x y :
  @idna_ToASCII lower_idna x = Some y ->
  forallb_str graphic y = true /\ @ToLower sample_unicode y = y /\
  ContainsAny y ["/"; "*"; "\"]%char = false /\ @idna_ToASCII lower_idna y = Some y.
Proof.
  cbn [idna_ToASCII lower_idna]. destruct (forallb_str _ x) eqn:E; [|done]. intros [= <-]. split_and!.
  - eapply forallb_str_impl; [|exact E]. intros [[] [] [] [] [] [] [] []]; vm_compute; congruence.
  - assert (forallb_str is_ascii x = true) as Ha.
    { eapply forallb_str_impl; [|exact E]. intros [[] [] [] [] [] [] [] []]; vm_compute; congruence. }
    unfold ToLower. rewrite Ha.
    eapply map_str_id; [|exact E]. intros [[] [] [] [] [] [] [] []]; vm_compute; congruence.
  - unfold ContainsAny. apply negb_false_iff. eapply forallb_str_impl; [|exact E].
    intros [[] [] [] [] [] [] [] []]; vm_compute; congruence.
  - by rewrite E.
Qed.

Lemma normalizeDomain_normal_form_witness :
  @normalizeDomain sample_unicode lower_idna " App.Example.com. " = Ok "app.example.com"%string /\
  @normalizeDomain sample_unicode lower_idna "app.example.com" = Ok "app.example.com"%string.
Proof.
  assert (@normalizeDomain sample_unicode lower_idna " App.Example.com. " = Ok "app.example.com"%string) as E
    by (vm_compute; reflexivity).
  split; [exact E|].
  apply (@normalizeDomain_normal_form sample_unicode lower_idna " App.Example.com. " "app.example.com" lower_idna_ok);
    [exact E|vm_compute; lia].
Defined.

Definition sample_domain_request (mid : string) : DomainRequest :=
  mkDomainRequest mid "App.Example.com" "cloudflare_proxy" false "" "" 0 None.

Lemma normalizeDNSIntent_bounds_witness :
  exists content, @normalizeDNSIntent sample_unicode lower_idna "frp.example.com" (sample_domain_request "m")
      = Ok (DnsCNAME, content, 300, true) /\ dns_name content.
Proof.
  exists "frp.example.com"%string.
  assert (@normalizeDNSIntent sample_unicode lower_idna "frp.example.com" (sample_domain_request "m")
    = Ok (DnsCNAME, "frp.example.com"%string, 300, true)) as E by (vm_compute; reflexivity).
  split; [exact E|].
  destruct (@normalizeDNSIntent_bounds sample_unicode lower_idna _ _ _ _ _ _ E) as (_ & _ & _ & _ & Hd & _). exact Hd.
Defined.

(** The logged-in user's http mapping. *)
Definition sample_http_create : M MappingView :=
  CreateMapping sample_caller (mkMappingRequest "web" "http" "127.0.0.1" 8080 None None None) "k1".
Definition sample_http_mapping : string :=
  match fst (sample_http_create sample_logged_in) with Ok v => mv_id v | Err _ => "" end.

Lemma CreateDomain_spec_witness :
  exists item w', CreateDomain sample_caller (sample_domain_request sample_http_mapping) "k2"
      (snd (sample_http_create sample_logged_in)) = (Ok item, w') /\
    exists mode, https_mode_of "cloudflare_proxy" = Some mode /\ mode = CloudflareProxy.
Proof.
  sample_run (CreateDomain sample_caller (sample_domain_request sample_http_mapping) "k2"
    (snd (sample_http_create sample_logged_in))) item w' E (fun (_ : DomainView) (_ : World) => true) HP.
  exists item, w'. split; [reflexivity|].
  destruct (CreateDomain_spec sample_caller (sample_domain_request sample_http_mapping) "k2" _ _ _ ltac:(vm_compute; discriminate) E)
    as (mode & _ & _ & Hm & _). exists mode. split; [exact Hm|]. by injection Hm as <-.
Defined.
