(* ===== verification/Workers.v ===== *)
(** The external-operation worker ([server/internal/service/cloudflare_jobs.go]):
    seeding the queue at start, and the handlers that talk to Cloudflare and to
    the ACME provider. *)

From S2P Require Import Prelude StateError GoText GoNet Timestamps Schema Effects Logic Validation Store Jobs Sessions Mappings Domains Apply Users Operations Cloudflare.
From Stdlib Require Import Ascii String.
Open Scope Z_scope.

(** ** Payloads *)

Definition payloadString (p : Payload) (key : string) : string :=
  match p !! key with Some (PStr s) => s | _ => "" end.
Definition payloadInt64 (p : Payload) (key : string) : Z :=
  match p !! key with Some (PInt z) => z | _ => 0 end.
Definition payloadBool (p : Payload) (key : string) : bool :=
  match p !! key with
  | Some (PBool b) => b
  | Some (PStr s) => String.eqb s "true"
  | _ => false
  end.

(** ** The ACME provider *)

Record IssuedCertificate := mkIssuedCertificate {
  ic_CertPEM : string;
  ic_ChainPEM : string;
  ic_PrivateKey : string;
  ic_NotBefore : option Stamp;
  ic_NotAfter : option Stamp
}.

(** [App.ACMEProvider], [None] when not configured. *)
Class Acme `{Env} := {
  acme_IssueDNS01 : option (string -> string -> M IssuedCertificate)
}.

Definition day : Z := 24 * hour.

(** [cloudflare_credentials c JOIN users u ON
    u.active_cloudflare_token_version=c.token_version AND u.id=c.user_id WHERE
    c.user_id=? AND c.status='valid'] *)
Definition active_token (uid : string) (db : DB) : option CfCredential :=
  snd <$> head (select (fun _ c =>
    (cc_user_id c == uid) && (cc_status c == TkValid) &&
    match users db !! uid with
    | Some u => u_active_cf_version u == Some (cc_version c)
    | None => false
    end) (cf_credentials db)).

(** [WHERE resource_type='domain' AND resource_id=? AND status IN
    ('pending','running')] *)
Definition open_domain_operation (domainID : string) (_ : string) (o : Operation) : bool :=
  (o_resource_type o == "domain"%string) && (o_resource_id o == domainID) && op_open (o_status o).

Definition dns_type_text (t : DnsType) : string :=
  match t with DnsA => "A" | DnsAAAA => "AAAA" | DnsCNAME => "CNAME" end.

Section Workers.
Context `{Env} `{Provider} `{Acme}.

(** *** Failures of domain operations *)

Definition fail_operation (phase code message : string) (t : Stamp) (o : Operation) : Operation :=
  o <| o_status := OpFailed |> <| o_phase := phase |> <| o_step := "failed"%string |>
    <| o_error_code := Some code |> <| o_error_message := Some message |>
    <| o_updated := t |> <| o_completed := Some t |>.

Definition markDomainDNSFailure (domainID code message : string) : M unit :=
  t ← nowString;
  exec (set_domain_status (fun k _ => k == domainID) DsDnsError t);;
  exec (fun db => db <| operations ::=
    update_where (open_domain_operation domainID) (fail_operation "dns" code message t) |>).

Definition markDomainDNSCanceled (domainID : string) : M unit :=
  t ← nowString;
  exec (set_domain_status (fun k _ => k == domainID) DsPendingDns t);;
  exec (fun db => db <| operations ::=
    update_where (open_domain_operation domainID) (fun o =>
      o <| o_status := OpCanceled |> <| o_phase := "dns"%string |> <| o_step := "canceled"%string |>
        <| o_error_code := Some "DNS_OPERATION_CANCELED"%string |>
        <| o_error_message := Some "Cloudflare DNS operation was canceled."%string |>
        <| o_updated := t |> <| o_completed := Some t |>) |>).

Definition markDomainDeleteFailure (domainID code message : string) : M unit :=
  t ← nowString;
  exec (fun db => db <| operations ::=
    update_where (open_delete "domain" domainID) (fail_operation "dns" code message t) |>).

Definition markUserDeleteFailure (operationID : string) (e : GoErr) : M unit :=
  t ← nowString;
  exec (fun db => db <| operations ::=
    update_where (fun k o => (k == operationID) && op_open (o_status o))
      (fail_operation "external" "USER_DELETE_EXTERNAL_CLEANUP_FAILED"
         (safeError (error_text e)) t) |>).

(** A denied permission is recorded, any other provider error is returned. *)
Definition or_denied {A} (mark : string -> string -> M unit) (e : GoErr) (a : A) : M A :=
  match cloudflarePermissionError e with
  | Some (code, message) => mark code message;; ret a
  | None => fail e
  end.

(** *** Deleting a domain *)

Definition finalizeDeletedDomain (domainID : string) : M unit :=
  r ← attempt (query_row (fun db => d_mapping_id <$> domains db !! domainID));
  t ← nowString;
  exec (fun db => db <| dns_records ::= delete_where (fun _ n => n_domain_id n == Some domainID) |>);;
  exec (fun db => db <| certificates ::= delete_where (fun _ c => c_domain_id c == domainID) |>);;
  exec (delete_domains (fun k d => (k == domainID) && (d_status d == DsDeleting)));;
  exec (fun db => db <| operations ::= update_where
    (fun _ o => (o_resource_type o == "domain"%string) && (o_resource_id o == domainID) &&
                (o_op_type o == "delete"%string) && (op_open (o_status o) || (o_status o == OpFailed)))
    (operation_done t) |>);;
  match r with
  | Ok mappingID => if String.eqb mappingID "" then ret tt else finalizeDeletedMapping mappingID
  | Err _ => ret tt
  end.

Definition user_token (uid : string) (c : CfCredential) : M string :=
  Decrypt (cc_ciphertext c) (cc_nonce c) (cloudflare_aad uid).

Definition deleteDomainExternal (p : Payload) : M unit :=
  let userID := payloadString p "user_id" in
  let domainID := payloadString p "domain_id" in
  fail_if (String.eqb userID "" || String.eqb domainID "")
    (ErrMsg "domain deletion job payload is invalid");;
  r ← attempt (query_row (fun db => snd <$> latest_dns domainID db));
  match r with
  | Err (ErrSql NoRows) => finalizeDeletedDomain domainID
  | Err e => fail e
  | Ok n =>
      let recordID := default ""%string (n_record_id n) in
      let zoneID := default ""%string (n_zone_id n) in
      if negb (n_managed n) || String.eqb recordID "" || String.eqb zoneID ""
      then finalizeDeletedDomain domainID
      else
        c ← attempt (query_row (active_token userID));
        match c with
        | Err (ErrSql NoRows) =>
            markDomainDeleteFailure domainID "CLOUDFLARE_TOKEN_MISSING"
              "Cloudflare Token is required to remove the managed DNS record."
        | Err e => fail e
        | Ok c =>
            token ← user_token userID c;
            d ← attempt (DeleteDNS token (mkZone zoneID "") recordID);
            match d with
            | Err e => or_denied (markDomainDeleteFailure domainID) e tt
            | Ok _ => finalizeDeletedDomain domainID
            end
        end
  end.

(** *** Deleting a user *)

(** [strings.Trim(s, "/")] *)
Fixpoint trim_left_slash (s : string) : string :=
  match s with
  | String c s' => if Ascii.eqb c "/" then trim_left_slash s' else s
  | EmptyString => EmptyString
  end.
Fixpoint trim_right_slash (s : string) : string :=
  match s with
  | EmptyString => EmptyString
  | String c s' =>
      match trim_right_slash s' with
      | EmptyString => if Ascii.eqb c "/" then EmptyString else String c EmptyString
      | r => String c r
      end
  end.
Definition trim_slashes (s : string) : string := trim_right_slash (trim_left_slash s).

Definition domainResidueIdentifier (domainID : string) : M string :=
  r ← attempt (query_row (fun db => snd <$> latest_dns domainID db));
  match r with
  | Err _ => ret domainID
  | Ok n =>
      let identifier := trim_slashes (TrimSpace (default ""%string (n_zone_id n)) ++ "/" ++
                                      TrimSpace (default ""%string (n_record_id n)))%string in
      ret (if String.eqb identifier "" then domainID else identifier)
  end.

Definition recordExternalResidue (userID operationID resourceType resourceID provider identifier
    reason : string) : M unit :=
  residueID ← newID;
  t ← nowString;
  exec_checked (insert_residue residueID
    {| x_user_id := Some userID; x_operation := Some operationID; x_resource_type := resourceType;
       x_resource_id := resourceID; x_provider := provider; x_identifier := identifier;
       x_reason := reason; x_created := t; x_resolved := None |}).

(** One domain of a user under deletion: cleaned up, or recorded as an
    external residue when the deletion is forced, or the end of the attempt. *)
Definition delete_user_domain (userID operationID : string) (force : bool) (domainID : string)
    : M unit :=
  r ← attempt (deleteDomainExternal (delete_payload userID domainID));
  stillPresent ← query (fun db => count_where (fun k _ => k == domainID) (domains db));
  match r, stillPresent =? 0 with
  | Ok _, true => ret tt
  | _, _ =>
      if negb force then
        let e := match r with
                 | Err e => e
                 | Ok _ => ErrMsg "domain deletion is blocked by external cleanup"
                 end in
        ignore (markUserDeleteFailure operationID e);;
        fail e
      else
        identifier ← domainResidueIdentifier domainID;
        let reason := match r with
                      | Err e => safeError (error_text e)
                      | Ok _ => "domain cleanup left an external record"%string
                      end in
        recordExternalResidue userID operationID "domain" domainID "cloudflare" identifier reason;;
        ignore (audit_system userID "user_delete_external_residue" "domain" domainID
          "external_residue" [("provider"%string, PStr "cloudflare"); ("residue_count"%string, PInt 1)]
          operationID);;
        finalizeDeletedDomain domainID
  end.

Definition oldest_domain (a b : string * Domain) : bool := sql_lt (d_created a.2) (d_created b.2).

(** [UPDATE operations SET user_id=NULL WHERE user_id=? AND id<>?] *)
Definition orphan_operations (userID operationID : string) (db : DB) : DB :=
  db <| operations ::= update_where
    (fun k o => (o_user_id o == Some userID) && negb (k == operationID))
    (fun o => o <| o_user_id := None |>) |>.

Definition finish_user_delete_tx (userID operationID : string) (residueCount : Z) : M (outcome unit) :=
  t ← nowString;
  exec (orphan_operations userID operationID);;
  let compensation := if 0 <? residueCount then "external_residue"%string else "not_required"%string in
  exec (fun db => db <| operations ::= update_where (fun k _ => k == operationID) (fun o =>
    (operation_done t o) <| o_user_id := None |> <| o_compensation := compensation |>) |>);;
  exec (delete_users (fun k u => (k == userID) && (u_status u == UDeleting)));;
  ret (Commit tt).

Definition deleteUserExternal (p : Payload) : M unit :=
  let userID := payloadString p "user_id" in
  let operationID := payloadString p "operation_id" in
  let force := payloadBool p "force" in
  fail_if (String.eqb userID "" || String.eqb operationID "")
    (ErrMsg "user deletion job payload is invalid");;
  r ← attempt (query_row (fun db =>
    u ← users db !! userID; if u_role u == RUser then Some (u_status u) else None));
  match r with
  | Err (ErrSql NoRows) => ret tt
  | Err e => fail e
  | Ok status =>
      fail_if (status != UDeleting) (ErrMsg "user is not in deleting state");;
      domainIDs ← query (fun db => map fst (order_by oldest_domain
        (select (fun _ d => (d_user_id d == userID) && (d_status d == DsDeleting)) (domains db))));
      for_each domainIDs (delete_user_domain userID operationID force);;
      finalizeDeletedMappings userID;;
      mappingCount ← query (fun db => count_where (fun _ m => m_user_id m == userID) (mappings db));
      domainCount ← query (fun db => count_where (fun _ d => d_user_id d == userID) (domains db));
      fail_if (negb (mappingCount =? 0) || negb (domainCount =? 0))
        (ErrMsg "user deletion is waiting for local resources");;
      residueCount ← query (open_residues operationID);
      transaction (finish_user_delete_tx userID operationID residueCount);;
      ignore EnqueueRouterSnapshot
  end.

(** *** Verifying a Cloudflare token *)

(** [json.Marshal] of the capabilities is an argument. *)
Context (json_capabilities : Capabilities -> string).

Definition token_verdict (c : Capabilities) : TokenStatus :=
  if negb (cap_TokenValid c) then TkInvalid
  else match cap_Missing c with [] => TkValid | _ => TkPermissionDenied end.

Definition token_status_text (s : TokenStatus) : string :=
  match s with
  | TkMissing => "missing" | TkPending => "pending" | TkValid => "valid" | TkInvalid => "invalid"
  | TkPermissionDenied => "permission_denied" | TkRetired => "retired"
  end.

Definition verifyCloudflareToken (p : Payload) : M unit :=
  let userID := payloadString p "user_id" in
  let version := payloadInt64 p "token_version" in
  fail_if (String.eqb userID "" || (version <=? 0)) (ErrMsg "cloudflare token job payload is invalid");;
  r ← attempt (query_row (fun db => head (select (fun _ c =>
    (cc_user_id c == userID) && (cc_version c =? version) && (cc_status c == TkPending))
    (cf_credentials db))));
  match r with
  | Err (ErrSql NoRows) => ret tt
  | Err e => fail e
  | Ok (credentialID, c) =>
      token ← user_token userID c;
      capabilities ← VerifyToken token;
      let status := token_verdict capabilities in
      t ← nowString;
      (if status == TkValid then
         exec (fun db => db <| cf_credentials ::= update_where
           (fun _ c => (cc_user_id c == userID) && (cc_status c == TkValid) &&
                       negb (cc_version c =? version))
           (fun c => c <| cc_status := TkRetired |> <| cc_retired := Some t |>) |>);;
         exec (fun db => db <| users ::= update_where (fun k _ => k == userID) (fun u =>
           u <| u_active_cf_version := Some version |> <| u_updated := t |>) |>)
       else ret tt);;
      exec (fun db => db <| cf_credentials ::= update_where (fun k _ => k == credentialID) (fun c =>
        c <| cc_status := status |> <| cc_capabilities := json_capabilities capabilities |>
          <| cc_verified := Some t |>
          <| cc_activated := if status == TkValid then Some t else cc_activated c |>) |>);;
      ignore (audit_system userID "cloudflare_token_verified" "cloudflare_token" (itoa version)
        (token_status_text status) [("token_status"%string, PStr (token_status_text status))] "")
  end.

(** *** Synchronising the DNS record of a domain *)

(** The zones of all pages, at most a hundred. *)
Fixpoint list_zones (n : nat) (token : string) (page : Z) : M (list Zone) :=
  match n with
  | O => ret []
  | S n' =>
      '(items, more) ← ListZones token page;
      if (more : bool) then rest ← list_zones n' token (page + 1); ret (items ++ rest)%list
      else ret items
  end.

Definition same_record (desired r : CfRecord) : bool :=
  EqualFold (rec_Type r) (rec_Type desired) && EqualFold (rec_Name r) (rec_Name desired) &&
  String.eqb (rec_Content r) (rec_Content desired) && (rec_TTL r =? rec_TTL desired) &&
  Bool.eqb (rec_Proxied r) (rec_Proxied desired).

(** After a lost response the record may be there already: a read that finds
    it turns the error into success. *)
Definition upsertDNSWithRecovery (token : string) (zone : Zone) (desired : CfRecord) : M CfRecord :=
  r ← attempt (UpsertDNS token zone desired);
  match r with
  | Ok selected => ret selected
  | Err e =>
      actual ← attempt (ListDNS token zone (rec_Name desired) (rec_Type desired));
      match actual with
      | Ok records =>
          match List.find (same_record desired) records with
          | Some record => ret record
          | None => fail e
          end
      | Err _ => fail e
      end
  end.

Definition saveDNSRecord (userID domainID : string) (zone : Zone) (record : CfRecord)
    (managed adopted : bool) : M unit :=
  t ← nowString;
  exec (fun db => db <| dns_records ::= delete_where (fun _ n => n_domain_id n == Some domainID) |>);;
  dnsID ← newID;
  exec_checked (fun db =>
    match dns_type_of (rec_Type record) with
    | None => Err CheckViolation
    | Some ty => insert_dns_record dnsID
        {| n_user_id := userID; n_domain_id := Some domainID; n_type := ty;
           n_name := rec_Name record;
           n_normalized := ToLower (TrimSuffix (rec_Name record) ".");
           n_content := rec_Content record; n_ttl := rec_TTL record;
           n_proxied := rec_Proxied record; n_zone_id := Some (zone_ID zone);
           n_record_id := Some (rec_ID record); n_managed := managed; n_adopted := adopted;
           n_sync_status := "synced"; n_last_synced := Some t |} db
    end).

(** The record the domain should have: the stored intent, proxied exactly in
    the mode [cloudflare_proxy]; and whether the panel manages it. *)
Definition desired_record (normalized : string) (mode : HttpsMode) (n : option DnsRecord)
    : CfRecord * bool :=
  let proxied := mode == CloudflareProxy in
  match n with
  | Some n => (mkCfRecord "" (dns_type_text (n_type n)) normalized (n_content n) (n_ttl n) proxied,
               n_managed n)
  | None => (mkCfRecord "" "CNAME" normalized (cfg_FRPSPublicHost env_config) 300 proxied, false)
  end.

(** An existing record that already says what is wanted. *)
Definition acceptable (action : string) (desired r : CfRecord) : bool :=
  EqualFold (rec_Type r) (rec_Type desired) && EqualFold (rec_Content r) (rec_Content desired) &&
  Bool.eqb (rec_Proxied r) (rec_Proxied desired) &&
  (negb (String.eqb action "sync") || (rec_TTL r =? rec_TTL desired)).

Definition differs (r desired : CfRecord) : bool :=
  negb (String.eqb (rec_Content r) (rec_Content desired)) ||
  negb (Bool.eqb (rec_Proxied r) (rec_Proxied desired)) ||
  negb (String.eqb (rec_Type r) (rec_Type desired)) || negb (rec_TTL r =? rec_TTL desired).

(** What to do with the records found: nothing more, write the desired one,
    or report a conflict.  [records[0]] of an empty list panics. *)
Inductive DnsDecision :=
| Conflict
| PanicEmpty
| Keep (r : CfRecord) (managed adopted : bool)
| Write (adopted : bool).

Definition decide_dns (action : string) (desired : CfRecord) (records : list CfRecord)
    : DnsDecision :=
  let found := List.find (acceptable action desired) records in
  let selected := default empty_record found in
  let adopted := match found with Some _ => true | None => false end in
  let act a := String.eqb action a in
  if String.eqb (rec_ID selected) "" && negb (bool_decide (records = [])) &&
     negb (act "adopt" || act "overwrite" || act "sync")%string
  then Conflict
  else
    match String.eqb (rec_ID selected) "" && act "adopt"%string, records with
    | true, [] => PanicEmpty
    | true, r :: _ =>
        if String.eqb (rec_ID r) "" then Write true else Keep r false true
    | false, _ =>
        if String.eqb (rec_ID selected) "" then Write adopted
        else if (act "overwrite" || act "sync")%string && differs selected desired then Write adopted
        else if act "sync"%string then Keep selected true false
        else Keep selected false adopted
    end.

(** What follows a synchronised record: the certificate, or the router. *)
Definition after_dns (userID domainID : string) (mode : HttpsMode) (zone : Zone) : M unit :=
  t ← nowString;
  let http_only := mode == HttpOnly in
  (if http_only then ret tt
   else
     certID ← newID;
     exec_checked (insert_certificate_or_ignore certID
       {| c_domain_id := domainID; c_provider := "acme"; c_status := CPending;
          c_not_before := None; c_not_after := None; c_renew_after := None; c_cert_path := None;
          c_key_ciphertext := None; c_key_nonce := None; c_cert_hash := None; c_updated := t |}));;
  exec (fun db => db <| domains ::= update_where
    (fun k d => (k == domainID) && (d_user_id d == userID)) (fun d =>
      d <| d_zone_id := Some (zone_ID zone) |>
        <| d_status := if http_only then DsPendingRouter else DsPendingCertificate |>
        <| d_updated := t |>) |>);;
  exec (fun db => db <| operations ::= update_where (open_domain_operation domainID) (fun o =>
    o <| o_status := OpRunning |>
      <| o_phase := if http_only then "router"%string else "certificate"%string |>
      <| o_step := if http_only then "awaiting_snapshot"%string else "awaiting_acme"%string |>
      <| o_updated := t |>) |>);;
  if http_only then EnqueueRouterSnapshot
  else if cfg_ACMEEnabled env_config then
    Enqueue "acme_certificate_issue" "domain" domainID ("domain:" ++ domainID ++ ":acme")
      (delete_payload userID domainID) None;;
    ret tt
  else ret tt.

(** The provider's part of a synchronisation, from the zones to the stored
    record: [Some zone] when the record is in place, [None] when the domain
    was marked. *)
Definition sync_with_provider (userID domainID normalized action token : string) (mode : HttpsMode)
    : M (option Zone) :=
  let mark := markDomainDNSFailure domainID in
  zones ← attempt (list_zones 100 token 1);
  match zones with
  | Err e => or_denied mark e None
  | Ok zones =>
      match MatchZone normalized zones with
      | None =>
          mark "CLOUDFLARE_ZONE_NOT_FOUND"%string
            "No accessible Cloudflare Zone matches this hostname."%string;; ret None
      | Some zone =>
          records ← attempt (ListDNS token zone normalized "");
          match records with
          | Err e => or_denied mark e None
          | Ok records =>
              n ← attempt (query_row (fun db => snd <$> latest_dns domainID db));
              let '(desired, desiredManaged) :=
                desired_record normalized mode (match n with Ok n => Some n | Err _ => None end) in
              if String.eqb action "sync" && negb desiredManaged then
                mark "DNS_RECORD_NOT_MANAGED"%string
                  "Only DNS records managed by the panel can be updated by this action."%string;;
                ret None
              else
                let save selected managed adopted :=
                  fail_if (String.eqb (rec_ID selected) "")
                    (ErrMsg "provider returned an empty DNS record id");;
                  saveDNSRecord userID domainID zone selected managed adopted;;
                  ret (Some zone) in
                match decide_dns action desired records with
                | Conflict =>
                    mark "DNS_CONFLICT_REQUIRES_ACTION"%string
                      "Cloudflare already has a conflicting record; choose adopt or overwrite."%string;;
                    ret None
                | PanicEmpty => fail (ErrPanic "index out of range [0] with length 0")
                | Keep r managed adopted => save r managed adopted
                | Write adopted =>
                    u ← attempt (upsertDNSWithRecovery token zone desired);
                    match u with
                    | Err e => or_denied mark e None
                    | Ok r => save r true adopted
                    end
                end
          end
      end
  end.

Definition syncDomainDNS (p : Payload) : M unit :=
  let userID := payloadString p "user_id" in
  let domainID := payloadString p "domain_id" in
  let action := prefer (payloadString p "action") "check" in
  fail_if (String.eqb userID "" || String.eqb domainID "") (ErrMsg "domain DNS job payload is invalid");;
  r ← attempt (query_row (fun db =>
    d ← domains db !! domainID; if d_user_id d == userID then Some d else None));
  match r with
  | Err (ErrSql NoRows) => ret tt
  | Err e => fail e
  | Ok d =>
      if (d_status d == DsDeleted) || (d_status d == DsDeleting) then ret tt
      else if String.eqb action "cancel" then markDomainDNSCanceled domainID
      else
        c ← attempt (query_row (active_token userID));
        match c with
        | Err (ErrSql NoRows) =>
            markDomainDNSFailure domainID "CLOUDFLARE_TOKEN_MISSING"
              "No verified Cloudflare Token is active."
        | Err e => fail e
        | Ok c =>
            token ← user_token userID c;
            done_ ← sync_with_provider userID domainID (d_normalized d) action token (d_https_mode d);
            match done_ with
            | None => ret tt
            | Some zone => after_dns userID domainID (d_https_mode d) zone
            end
        end
  end.

(** *** Issuing a certificate *)

(** The file of a certificate, outside the database; the write can fail.  Its calls
    are those of [KeyFiles.writeAtomicPrivate]. *)
Definition writeAtomicPrivate (path content : string) : M unit := exec (fun db => db).

Definition store_certificate (domainID certPath ciphertext nonce hash : string)
    (certificate : IssuedCertificate) (t : Stamp) : M unit :=
  let mine (_ : string) c := (c_domain_id c == domainID) && (c_provider c == "acme"%string) in
  affected ← exec_count (fun db => count_where mine (certificates db))
    (fun db => db <| certificates ::= update_where mine (fun c =>
      c <| c_status := CValid |> <| c_not_before := ic_NotBefore certificate |>
        <| c_not_after := ic_NotAfter certificate |>
        <| c_renew_after := (fun a => a - 30 * day) <$> ic_NotAfter certificate |>
        <| c_cert_path := Some certPath |> <| c_key_ciphertext := Some ciphertext |>
        <| c_key_nonce := Some nonce |> <| c_cert_hash := Some hash |> <| c_updated := t |>) |>);
  fail_if (negb (affected =? 1)) (ErrMsg "ACME certificate row is missing").

Definition issueCertificate (p : Payload) : M unit :=
  let userID := payloadString p "user_id" in
  let domainID := payloadString p "domain_id" in
  fail_if (String.eqb userID "" || String.eqb domainID "") (ErrMsg "ACME job payload is invalid");;
  r ← attempt (query_row (fun db =>
    d ← domains db !! domainID;
    if (d_user_id d == userID) && negb ((d_status d == DsDeleted) || (d_status d == DsDeleting))
    then Some (d_normalized d) else None));
  match r with
  | Err (ErrSql NoRows) => ret tt
  | Err e => fail e
  | Ok domain =>
      match (if cfg_ACMEEnabled env_config then acme_IssueDNS01 else None) with
      | None => fail (ErrBlocked "ACME provider is not configured")
      | Some issue =>
          c ← attempt (query_row (active_token userID));
          match c with
          | Err (ErrSql NoRows) => fail (ErrBlocked "ACME is waiting for a verified Cloudflare Token")
          | Err e => fail e
          | Ok c =>
              token ← user_token userID c;
              certificate ← issue token domain;
              fail_if (String.eqb (ic_CertPEM certificate) "" ||
                       String.eqb (ic_PrivateKey certificate) "" ||
                       negb (Nat.eqb (String.length env_certificate_key) 32))
                (ErrMsg "ACME provider returned incomplete certificate material");;
              let certificateDir := (cfg_DataDir env_config ++ "/certificates/" ++ domainID)%string in
              let certPath := (certificateDir ++ "/cert.pem")%string in
              let fullChain := (ic_CertPEM certificate ++ ic_ChainPEM certificate)%string in
              writeAtomicPrivate certPath fullChain;;
              (if String.eqb (ic_ChainPEM certificate) "" then ret tt
               else writeAtomicPrivate (certificateDir ++ "/chain.pem") (ic_ChainPEM certificate));;
              '(ciphertext, nonce) ← encryptWithKey env_certificate_key (ic_PrivateKey certificate)
                ("domain:" ++ domainID ++ ":certificate_private_key:v1");
              t ← nowString;
              store_certificate domainID certPath ciphertext nonce (sha256Hex fullChain) certificate t;;
              exec (set_domain_status (fun k _ => k == domainID) DsPendingRouter t);;
              exec (fun db => db <| operations ::= update_where (open_domain_operation domainID)
                (fun o => o <| o_phase := "router"%string |> <| o_step := "awaiting_snapshot"%string |>
                            <| o_status := OpRunning |> <| o_updated := t |>) |>);;
              EnqueueRouterSnapshot
          end
      end
  end.

(** *** Seeding *)

Definition seed_user_deletes : M unit :=
  seeds ← query (fun db => map (fun ko => (o_resource_id ko.2, ko.1, o_compensation ko.2))
    (select (fun _ o => (o_resource_type o == "user"%string) && (o_op_type o == "delete"%string) &&
                        op_open (o_status o)) (operations db)));
  for_each seeds (fun '(userID, operationID, compensation) =>
    enqueueUserDeleteJob userID operationID (compensation_forces compensation);; ret tt).

Definition dns_seed_status (s : DomainStatus) : bool :=
  (s == DsPendingDns) || (s == DsDnsError) || (s == DsPendingClient) || (s == DsPendingRouter).

Definition seed_domains : M unit :=
  seeds ← query (fun db => map (fun kd => (d_user_id kd.2, kd.1))
    (select (fun _ d => dns_seed_status (d_status d)) (domains db)));
  for_each seeds (fun '(userID, domainID) => enqueue_dns userID domainID "check").

Definition seed_tokens : M unit :=
  seeds ← query (fun db => map (fun kc => (cc_user_id kc.2, cc_version kc.2))
    (select (fun _ c => cc_status c == TkPending) (cf_credentials db)));
  for_each seeds (fun '(userID, version) => enqueue_token_verify userID version).

(** A certificate to request or to renew. *)
Definition certificate_due (t : Stamp) (c : Certificate) : bool :=
  (c_provider c == "acme"%string) &&
  ((c_status c == CPending) ||
   ((c_status c == CValid) && match c_renew_after c with Some r => sql_le r t | None => false end)).

Definition seed_certificates : M unit :=
  t ← nowString;
  exec (fun db => db <| jobs ::= update_where
    (fun _ j => (j_type j == "acme_certificate_issue"%string) && (j_status j == JRetryWait))
    (fun j => j <| j_run_after := t |>) |>);;
  t2 ← nowString;
  seeds ← query (fun db => omap (fun kc =>
    d ← domains db !! c_domain_id kc.2; Some (d_user_id d, c_domain_id kc.2))
    (select (fun _ c => certificate_due t2 c) (certificates db)));
  for_each seeds (fun '(userID, domainID) =>
    Enqueue "acme_certificate_issue" "domain" domainID ("domain:" ++ domainID ++ ":acme")
      (delete_payload userID domainID) None;; ret tt).

Definition seedPendingJobs : M unit :=
  seed_user_deletes;;
  seed_domains;;
  seed_tokens;;
  if cfg_ACMEEnabled env_config then seed_certificates else ret tt.
End Workers.
