(* ===== verification/WorkersSpec.v ===== *)
(** What the external-operation worker guarantees: a deletion that completes
    leaves nothing of the user; a record the panel does not own is written only
    on request; a failed verification keeps the token in use. *)

From S2P Require Import Prelude StateError GoText GoNet Timestamps Schema Effects Logic Validation Sample Store Jobs Frames Sessions SessionsSpec Mappings MappingsSpec Domains Apply ApplySpec Users UsersSpec Operations Cloudflare Workers.
From Stdlib Require Import Ascii String.
Open Scope Z_scope.

Lemma preserves_reads I {A} (m : M A) : reads m -> preserves I m.
Proof. intros Hm w Hw. by rewrite Hm. Qed.

(** ** Deletion of a user *)

(** Nothing of the user is left. *)
Record purged (uid : string) (db : DB) : Prop := mkPurged {
  pg_user : users db !! uid = None;
  pg_sessions k s : sessions db !! k = Some s -> s_user_id s <> uid;
  pg_frp k c : frp_credentials db !! k = Some c -> fc_user_id c <> uid;
  pg_runtime k c : runtime_credentials db !! k = Some c -> rc_user_id c <> uid;
  pg_mappings k m : mappings db !! k = Some m -> m_user_id m <> uid;
  pg_domains k d : domains db !! k = Some d -> d_user_id d <> uid;
  pg_dns k n : dns_records db !! k = Some n -> n_user_id n <> uid;
  pg_tokens k c : cf_credentials db !! k = Some c -> cc_user_id c <> uid
}.

Section UserDeletion.
Context (P : string -> User -> bool) (db : DB).
Let gone_user := gone P (users db).

Lemma users_delete_users : users (delete_users P db) = delete_where P (users db).
Proof. reflexivity. Qed.
Lemma sessions_delete_users :
  sessions (delete_users P db) = delete_where (fun _ s => gone_user (s_user_id s)) (sessions db).
Proof. reflexivity. Qed.
Lemma frp_credentials_delete_users :
  frp_credentials (delete_users P db) = delete_where (fun _ c => gone_user (fc_user_id c)) (frp_credentials db).
Proof. reflexivity. Qed.
Lemma runtime_credentials_delete_users :
  runtime_credentials (delete_users P db) =
  delete_where (fun _ c => gone_user (rc_user_id c)) (runtime_credentials db).
Proof. reflexivity. Qed.
Lemma cf_credentials_delete_users :
  cf_credentials (delete_users P db) = delete_where (fun _ c => gone_user (cc_user_id c)) (cf_credentials db).
Proof. reflexivity. Qed.
Lemma mappings_delete_users :
  mappings (delete_users P db) = delete_where (fun _ m => gone_user (m_user_id m)) (mappings db).
Proof. reflexivity. Qed.
Lemma domains_delete_users : exists db',
  domains (delete_users P db) = delete_where (fun _ d => gone_user (d_user_id d)) (domains db').
Proof. eexists. reflexivity. Qed.
Lemma dns_records_delete_users : exists t,
  dns_records (delete_users P db) = delete_where (fun _ n => gone_user (n_user_id n)) t.
Proof. eexists. reflexivity. Qed.
Lemma operations_delete_users :
  operations (delete_users P db) =
  delete_where (fun _ o => match o_user_id o with Some u => gone_user u | None => false end) (operations db).
Proof. reflexivity. Qed.

Lemma delete_users_purged uid u :
  users db !! uid = Some u -> P uid u = true -> purged uid (delete_users P db).
Proof.
  intros Hu HP. assert (gone_user uid = true) as Hg by (unfold gone_user, gone; by rewrite Hu).
  assert (forall V (t : Table V) (f : V -> string) k r,
    delete_where (fun _ r => gone_user (f r)) t !! k = Some r -> f r <> uid) as Hno.
  { intros V t f k r [_ Hr]%lookup_delete_where_Some E. congruence. }
  split.
  - rewrite users_delete_users, lookup_delete_where, Hu. simpl. by rewrite HP.
  - intros k s. rewrite sessions_delete_users. apply Hno.
  - intros k c. rewrite frp_credentials_delete_users. apply Hno.
  - intros k c. rewrite runtime_credentials_delete_users. apply Hno.
  - intros k m. rewrite mappings_delete_users. apply Hno.
  - intros k d. destruct domains_delete_users as [db' ->]. apply Hno.
  - intros k n. destruct dns_records_delete_users as [t ->]. apply Hno.
  - intros k c. rewrite cf_credentials_delete_users. apply Hno.
Qed.
End UserDeletion.

Lemma insert_residue_Ok id r db db' :
  insert_residue id r db = Ok db' -> db' = db <| residues ::= <[id := r]> |>.
Proof. unfold insert_residue. rewrite !reject_Ok. by intros (_ & _ & [= <-]). Qed.

(** An invariant that the cleanup of a domain or a mapping leaves alone. *)
Class Kept (I : DB -> Prop) : Prop := {
  kept_bookkept :: Bookkept I;
  kept_dns db f : I db -> I (db <| dns_records ::= f |>);
  kept_certificates db f : I db -> I (db <| certificates ::= f |>);
  kept_domains P db : I db -> I (delete_domains P db);
  kept_mappings P db : I db -> I (delete_mappings P db)
}.

(** The users are those of [U]. *)
Definition users_are (U : Table User) (db : DB) : Prop := users db = U.

(** The external residues recorded are those of [R]. *)
Definition residues_are (R : Table Residue) (db : DB) : Prop :=
  forall k, is_Some (residues db !! k) <-> is_Some (R !! k).

#[export] Instance users_are_kept U : Kept (users_are U).
Proof. split; [split|..]; intros ? ? HI; exact HI. Qed.

#[export] Instance residues_are_kept R : Kept (residues_are R).
Proof. split; [split|..]; intros ? ? HI; exact HI. Qed.

Section Cleanup.
Context `{ProviderReads} (I : DB -> Prop) {K : Kept I}.

Lemma finalizeDeletedMapping_kept mid : preserves I (finalizeDeletedMapping mid).
Proof. unfold finalizeDeletedMapping. preserve; [by apply kept_mappings|by apply bk_operations]. Qed.

Lemma finalizeDeletedDomain_kept did : preserves I (finalizeDeletedDomain did).
Proof.
  unfold finalizeDeletedDomain. preserve; try apply finalizeDeletedMapping_kept.
  - by apply kept_dns.
  - by apply kept_certificates.
  - by apply kept_domains.
  - by apply bk_operations.
Qed.

Lemma markDomainDeleteFailure_kept did code message : preserves I (markDomainDeleteFailure did code message).
Proof. unfold markDomainDeleteFailure. preserve. by apply bk_operations. Qed.

Lemma deleteDomainExternal_kept p : preserves I (deleteDomainExternal p).
Proof.
  unfold deleteDomainExternal, user_token, Decrypt, decryptWithKey, or_denied.
  preserve; try apply finalizeDeletedDomain_kept; try apply markDomainDeleteFailure_kept.
  apply preserves_reads, DeleteDNS_reads.
Qed.

Lemma markUserDeleteFailure_kept op e : preserves I (markUserDeleteFailure op e).
Proof. unfold markUserDeleteFailure. preserve. by apply bk_operations. Qed.

(** A forced deletion also records a residue. *)
Lemma delete_user_domain_kept uid op force did :
  (force = true -> forall db f, I db -> I (db <| residues ::= f |>)) ->
  preserves I (delete_user_domain uid op force did).
Proof.
  intros Hres. unfold delete_user_domain, domainResidueIdentifier, recordExternalResidue, audit_system.
  destruct force; cbn [negb]; preserve; try apply deleteDomainExternal_kept; try apply markUserDeleteFailure_kept;
    try apply finalizeDeletedDomain_kept;
    match goal with Hi : insert_residue _ _ _ = Ok _ |- _ => apply insert_residue_Ok in Hi as -> end;
    by apply Hres.
Qed.

Lemma finalizeDeletedMappings_kept uid : preserves I (finalizeDeletedMappings uid).
Proof. unfold finalizeDeletedMappings. preserve. apply finalizeDeletedMapping_kept. Qed.
End Cleanup.

Section Deletion.
Context `{ProviderReads}.

Lemma finish_user_delete_tx_Ok uid op n w o w' u :
  users (w_db w) !! uid = Some u -> u_status u = UDeleting ->
  finish_user_delete_tx uid op n w = (Ok o, w') ->
  o = Commit tt /\ purged uid (w_db w') /\
  (forall k, k <> uid -> users (w_db w') !! k = users (w_db w) !! k) /\
  (forall k, is_Some (residues (w_db w') !! k) <-> is_Some (residues (w_db w) !! k)) /\
  (forall x, operations (w_db w') !! op = Some x -> o_status x = OpSucceeded /\ o_user_id x = None).
Proof.
  intros Hu Hst Hrun. unfold finish_user_delete_tx in Hrun.
  apply bind_Ok in Hrun as (t & w1 & [_ ->]%now_Ok & Hrun).
  apply bind_Ok in Hrun as (? & w2 & (_ & ->)%exec_Ok & Hrun). cbv zeta in Hrun.
  apply bind_Ok in Hrun as (? & w3 & (_ & ->)%exec_Ok & Hrun).
  apply bind_Ok in Hrun as (? & w4 & (_ & ->)%exec_Ok & [<- ->]%ret_Ok). cbn [w_db w_tick step].
  set (db2 := (orphan_operations uid op (w_db w)) <| operations ::= _ |>).
  assert (users db2 = users (w_db w) /\ residues db2 = residues (w_db w)) as [Eu Er] by done.
  assert (forall x, operations db2 !! op = Some x -> o_status x = OpSucceeded /\ o_user_id x = None) as Hop.
  { intros y (y0 & _ & ->)%lookup_update_where_Some. by rewrite bool_decide_true. }
  clearbody db2. split; [done|]. split.
  - apply (delete_users_purged _ _ _ u); [by rewrite Eu|].
    by rewrite Hst, !bool_decide_true.
  - split_and!.
    + intros k Hk. rewrite users_delete_users, lookup_delete_where, Eu.
      destruct (users (w_db w) !! k); [|done]. simpl. by rewrite bool_decide_false.
    + intros k. rewrite <- Er. unfold delete_users. cbn [residues set]. apply lookup_update_where_is_Some.
    + intros y. rewrite operations_delete_users. intros [Hy _]%lookup_delete_where_Some. by apply Hop.
Qed.

(** An operation record that no bookkeeping after the deletion touches. *)
Lemma EnqueueRouterSnapshot_jobs I :
  (forall db f, I db -> I (db <| jobs ::= f |>)) -> preserves I EnqueueRouterSnapshot.
Proof.
  intros Hj. unfold EnqueueRouterSnapshot, Enqueue. preserve. unfold insert_job_or_ignore.
  destruct (_ || _); [done|by apply Hj].
Qed.

End Deletion.

(** ** Records the panel does not own *)

(** The actions by which a user consents to a record that is already there. *)
Definition consents (action : string) : bool :=
  existsb (String.eqb action) ["adopt"; "overwrite"; "sync"]%string.

Lemma consents_false action :
  consents action = false ->
  String.eqb action "adopt" = false /\ String.eqb action "overwrite" = false /\ String.eqb action "sync" = false.
Proof.
  unfold consents. simpl. rewrite orb_false_r. intros [? [? ?]%orb_false_iff]%orb_false_iff. by split_and!.
Qed.

Section Decision.
Context `{Env}.

Lemma find_acceptable action desired records r :
  List.find (acceptable action desired) records = Some r -> r ∈ records /\ acceptable action desired r = true.
Proof. intros [Hin Ha]%List.find_some. split; [by apply list_elem_of_In|done]. Qed.

(** What is decided about the records found at a name, all of which have an
    identifier.  A write needs an empty name or the user's word: where any record
    is, the desired one is written only on [overwrite], or on [sync] and then
    only when the record there differs.  A record that is kept is one of those
    found; it already says what is wanted, unless the user adopts it as it is; and
    it is the panel's only after a [sync].  The rest is a conflict, but for
    [adopt] at an empty name, which panics. *)
Theorem decide_dns_needs_consent action desired records :
  (forall r, r ∈ records -> rec_ID r <> ""%string) ->
  match decide_dns action desired records with
  | Conflict => records <> [] /\ consents action = false /\
      (forall r, r ∈ records -> acceptable action desired r = false)
  | PanicEmpty => records = [] /\ action = "adopt"%string
  | Write adopted =>
      records = [] /\ adopted = false \/
      (action = "overwrite"%string \/ action = "sync"%string) /\
      (adopted = true -> exists r, r ∈ records /\ acceptable action desired r = true /\ differs r desired = true)
  | Keep r managed adopted => r ∈ records /\
      (acceptable action desired r = true \/ action = "adopt"%string) /\
      (managed = true <-> action = "sync"%string) /\ (adopted = true <-> action <> "sync"%string)
  end.
Proof.
  intros Hid. unfold decide_dns. destruct (List.find _ _) as [r|] eqn:Hf.
  - change (default empty_record (Some r)) with r. apply find_acceptable in Hf as [Hin Ha]. cbv zeta.
    rewrite (proj2 (String.eqb_neq _ _) (Hid _ Hin)). cbn [andb].
    destruct (_ && differs r desired) eqn:Hw.
    + apply andb_true_iff in Hw as [Hact Hd]. right.
      split; [by apply orb_true_iff in Hact as [Ho%String.eqb_eq|Ho%String.eqb_eq]; auto|]. intros _. by exists r.
    + destruct (String.eqb_spec action "sync") as [->|Hn]; split_and!; auto; by split.
  - assert (forall r, r ∈ records -> acceptable action desired r = false) as Hno.
    { intros r Hr. apply (List.find_none _ _ Hf). by apply list_elem_of_In. }
    change (default empty_record None) with empty_record. cbv zeta. cbn [rec_ID empty_record String.eqb andb].
    destruct records as [|r l].
    + rewrite bool_decide_true by done. cbn [negb andb].
      destruct (String.eqb_spec action "adopt") as [->|Hn]; [done|]. by left.
    + rewrite bool_decide_false by done. cbn [negb andb].
      assert (consents action = (String.eqb action "adopt" || String.eqb action "overwrite" || String.eqb action "sync")) as <-.
      { unfold consents. simpl. by rewrite orb_false_r, orb_assoc. }
      destruct (consents action) eqn:Hc; cbn [negb]; [|by split_and!].
      destruct (String.eqb_spec action "adopt") as [->|Hn].
      * assert (r ∈ r :: l) as Hr by left. rewrite (proj2 (String.eqb_neq _ _) (Hid r Hr)).
        split_and!; auto; by split.
      * right. split; [|done]. unfold consents in Hc. simpl in Hc. rewrite orb_false_r in Hc.
        apply orb_true_iff in Hc as [?%String.eqb_eq|Hc]; [done|].
        apply orb_true_iff in Hc as [?%String.eqb_eq|?%String.eqb_eq]; auto.
Qed.
End Decision.

Section Foreign.
Context `{ProviderReads}.

Lemma list_zones_reads n token page : reads (list_zones n token page).
Proof.
  revert page. induction n as [|n IH]; intros page; [done|]. cbn [list_zones].
  apply reads_bind; [apply ListZones_reads|]. intros [items more].
  destruct more; [|done]. apply reads_bind; [apply IH|done].
Qed.

(** A foreign record is left alone.  Where the hostname has records, none of
    which says what is wanted, and the user has not asked for one of the actions
    that take them over, a synchronisation makes no write call: for every
    provider it is the recording of the conflict and nothing else, and when it
    succeeds the domain is in [dns_error] and its open operations have failed. *)
Theorem foreign_record_untouched userID domainID normalized action token mode w zones w1 zone records w2 :
  list_zones 100 token 1 w = (Ok zones, w1) -> MatchZone normalized zones = Some zone ->
  ListDNS token zone normalized "" w1 = (Ok records, w2) -> records <> [] ->
  consents action = false ->
  let stored := if env_fault (w_tick w2) then None else snd <$> latest_dns domainID (w_db w) in
  (forall r, r ∈ records -> acceptable action (desired_record normalized mode stored).1 r = false) ->
  let run := sync_with_provider userID domainID normalized action token mode w in
  run = (markDomainDNSFailure domainID "DNS_CONFLICT_REQUIRES_ACTION"
           "Cloudflare already has a conflicting record; choose adopt or overwrite.";; ret None) (step w2) /\
  w_db w2 = w_db w /\
  (is_ok (fst run) = true ->
   (forall d, domains (w_db w) !! domainID = Some d ->
      d_status <$> domains (w_db (snd run)) !! domainID = Some DsDnsError) /\
   (forall k o, operations (w_db w) !! k = Some o -> open_domain_operation domainID k o = true ->
      o_status <$> operations (w_db (snd run)) !! k = Some OpFailed)).
Proof.
  intros Hz Hm Hl Hne Hc stored Hno run.
  pose proof (list_zones_reads 100 token 1 w) as E1. rewrite Hz in E1. cbn [snd] in E1.
  pose proof (ListDNS_reads token zone normalized "" w1) as E2. rewrite Hl in E2. cbn [snd] in E2.
  assert (w_db w2 = w_db w) as E by congruence.
  assert (run = (markDomainDNSFailure domainID "DNS_CONFLICT_REQUIRES_ACTION"
    "Cloudflare already has a conflicting record; choose adopt or overwrite.";; ret None) (step w2)) as Hrun.
  { unfold run, sync_with_provider. cbv zeta.
    rewrite (bind_run (attempt (list_zones 100 token 1)) _ w (Ok zones) w1) by (by apply attempt_Ok).
    rewrite Hm.
    rewrite (bind_run (attempt (ListDNS token zone normalized "")) _ w1 (Ok records) w2) by (by apply attempt_Ok).
    assert (attempt (query_row (fun db => snd <$> latest_dns domainID db)) w2 =
      (Ok (match stored with Some n => Ok n | None =>
             Err (ErrSql (if env_fault (w_tick w2) then DriverError else NoRows)) end), step w2)) as Hq.
    { apply attempt_Ok. unfold query_row, stored. rewrite E. destruct (env_fault _); [done|].
      by destruct (snd <$> _). }
    rewrite (bind_run _ _ _ _ _ Hq).
    assert ((match (match stored with Some n => Ok n | None =>
             Err (ErrSql (if env_fault (w_tick w2) then DriverError else NoRows)) end) with
       | Ok n => Some n | Err _ => None end) = stored) as -> by (by destruct stored).
    destruct (desired_record normalized mode stored) as [desired managed]. cbn [fst] in Hno.
    destruct (consents_false _ Hc) as (Ha & Ho & Hs). rewrite Hs. cbn [andb].
    assert (List.find (acceptable action desired) records = None) as Hf.
    { destruct (List.find _ _) as [r|] eqn:Hf; [|done]. apply find_acceptable in Hf as [Hin Hr]. by rewrite Hno in Hr. }
    unfold decide_dns. rewrite Hf, Ha, Ho, Hs, (bool_decide_false _ Hne). reflexivity. }
  split; [exact Hrun|]. split; [exact E|]. rewrite Hrun. clear Hrun run. intros Hok.
  destruct ((markDomainDNSFailure _ _ _;; _) (step w2)) as [[r|] w'] eqn:Er; [|done]. cbn [snd]. clear Hok.
  apply bind_Ok in Er as (? & w3 & Hmark & [_ ->]%ret_Ok). unfold markDomainDNSFailure in Hmark.
  apply bind_Ok in Hmark as (t & w4 & [_ ->]%now_Ok & Hmark).
  apply bind_Ok in Hmark as (? & w5 & (_ & ->)%exec_Ok & (_ & ->)%exec_Ok). cbn [w_db w_tick step].
  split.
  - intros d Hd. unfold set_domain_status. cbn [domains set]. rewrite lookup_update_where, E, Hd. simpl.
    by rewrite bool_decide_true.
  - intros k o Ho Hopen. cbn [operations set]. rewrite lookup_update_where.
    change (operations (set_domain_status (fun k _ => k == domainID) DsDnsError t (w_db w2)))
      with (operations (w_db w2)). rewrite E, Ho. simpl. by rewrite Hopen.
Qed.
End Foreign.

(** ** Verification of a token *)

Section Tokens.
Context `{ProviderReads} (json_capabilities : Capabilities -> string).

Definition pending_token (uid : string) (version : Z) (db : DB) : option (string * CfCredential) :=
  head (select (fun _ c => (cc_user_id c == uid) && (cc_version c =? version) && (cc_status c == TkPending))
    (cf_credentials db)).

(** A new token takes over only when the provider accepts it.  When the
    verification of a pending token succeeds as a job, the token's row has the
    status the provider's answer justifies.  If that is [valid] the user's active
    version is this one and no other version of the user is valid; otherwise no
    user and no other token has changed, so the token in use stays in use. *)
Theorem token_verification p w x w' k c :
  let uid := payloadString p "user_id" in
  let version := payloadInt64 p "token_version" in
  pending_token uid version (w_db w) = Some (k, c) ->
  verifyCloudflareToken json_capabilities p w = (Ok x, w') ->
  exists token caps c' w1 w2,
    user_token uid c (step w) = (Ok token, w1) /\ VerifyToken token w1 = (Ok caps, w2) /\
    cf_credentials (w_db w') !! k = Some c' /\ cc_status c' = token_verdict caps /\
    cc_version c' = version /\ cc_ciphertext c' = cc_ciphertext c /\
    (token_verdict caps = TkValid ->
       (forall u, users (w_db w) !! uid = Some u ->
          u_active_cf_version <$> users (w_db w') !! uid = Some (Some version)) /\
       (forall k' c', cf_credentials (w_db w') !! k' = Some c' -> cc_user_id c' = uid ->
          cc_status c' = TkValid -> cc_version c' = version)) /\
    (token_verdict caps <> TkValid ->
       users (w_db w') = users (w_db w) /\
       (forall k', k' <> k -> cf_credentials (w_db w') !! k' = cf_credentials (w_db w) !! k')).
Proof.
  intros uid version Hp Hrun. unfold verifyCloudflareToken in Hrun. cbv zeta in Hrun. fold uid version in Hrun.
  apply bind_Ok in Hrun as (? & w1 & [_ ->]%fail_if_Ok & Hrun).
  apply bind_Ok in Hrun as (r & w1 & Hq & Hrun). apply (proj1 (attempt_Ok _ _ _ _)) in Hq.
  unfold query_row in Hq. fold (pending_token uid version (w_db w)) in Hq. rewrite Hp in Hq.
  destruct (env_fault _); injection Hq as <- <-; [by apply fail_Ok in Hrun|].
  apply bind_Ok in Hrun as (token & w1 & Htok & Hrun).
  apply bind_Ok in Hrun as (caps & w2 & Hver & Hrun).
  assert (w_db w1 = w_db w) as E1.
  { unfold user_token, Decrypt, decryptWithKey in Htok. by run_inv; subst. }
  assert (w_db w2 = w_db w) as E2.
  { rewrite <- E1. pose proof (VerifyToken_reads token w1) as E. by rewrite Hver in E. }
  clear E1. apply head_select_Some in Hp as [Hk Hpend].
  apply andb_true_iff in Hpend as [[Hu Hv]%andb_true_iff Hst].
  apply bool_decide_eq_true in Hu, Hst. apply Z.eqb_eq in Hv.
  apply bind_Ok in Hrun as (t & w3 & [_ ->]%now_Ok & Hrun).
  apply bind_Ok in Hrun as (? & w4 & Hact & Hrun).
  apply bind_Ok in Hrun as (? & w5 & (_ & ->)%exec_Ok & Hrun).
  apply ignored_audit in Hrun as [f Hf]. cbn [w_db w_tick] in Hf. rewrite Hf. clear Hf.
  exists token, caps.
  destruct (token_verdict caps == TkValid) eqn:Ev; [apply bool_decide_eq_true in Ev|apply bool_decide_eq_false in Ev];
    eexists; exists w1, w2; (split; [done|]); (split; [done|]).
  - apply bind_Ok in Hact as (? & w6 & (_ & ->)%exec_Ok & (_ & ->)%exec_Ok). cbn [w_db w_tick step].
    rewrite E2. split.
    { etransitivity; [exact (lookup_update_where _ _ _ _)|].
      match goal with |- _ <$> ?t !! k = _ => assert (t !! k = Some c) as -> end.
      { etransitivity; [exact (lookup_update_where _ _ _ _)|]. rewrite Hk. simpl.
        by rewrite Hst, (bool_decide_false (TkPending = TkValid)), andb_false_r by done. }
      simpl. by rewrite bool_decide_true. }
    split; [done|]. split; [done|]. split; [done|]. split; [|done]. intros _. split.
    + intros u Hu'. etransitivity; [exact (f_equal (fmap u_active_cf_version) (lookup_update_where _ _ _ _))|].
      match goal with |- context [users ?db !! uid] => change (users db) with (users (w_db w)) end.
      rewrite Hu'. simpl. by rewrite bool_decide_true.
    + intros k' c' (c1 & (c0 & Hc0 & ->)%lookup_update_where_Some & ->)%lookup_update_where_Some.
      destruct (k' == k) eqn:Ek; [apply bool_decide_eq_true in Ek as ->|].
      * assert (c0 = c) as -> by congruence. rewrite Hst, (bool_decide_false (TkPending = TkValid)), andb_false_r by done.
        intros _ _. exact Hv.
      * destruct (cc_user_id c0 == uid) eqn:Eu; cbn [andb].
        -- destruct (cc_status c0 == TkValid) eqn:Es; cbn [andb].
           ++ destruct (cc_version c0 =? version) eqn:Ec; cbn [negb]; [|done]. intros _ _. by apply Z.eqb_eq.
           ++ intros _ Hs. apply bool_decide_eq_false in Es. by destruct Es.
        -- intros Hs _. apply bool_decide_eq_false in Eu. by destruct Eu.
  - apply ret_Ok in Hact as [_ ->]. cbn [w_db step]. rewrite E2.
    split; [etransitivity; [exact (lookup_update_where _ _ _ _)|]; rewrite Hk; simpl; by rewrite bool_decide_true|].
    split; [done|]. split; [done|]. split; [done|]. split; [intros Hv'; by destruct Ev|].
    intros _. split; [done|]. intros k' Hne. etransitivity; [exact (lookup_update_where _ _ _ _)|].
    destruct (cf_credentials (w_db w) !! k'); [|done]. simpl. by rewrite bool_decide_false.
Qed.
End Tokens.

(** ** Instances

    A provider that accepts every token, knows one zone, and finds one record of
    somebody else at every name. *)

Definition sample_zone : Zone := mkZone "z1" "example.com".
Definition foreign_record : CfRecord := mkCfRecord "r1" "A" "app.example.com" "192.0.2.1" 300 false.

#[export] Instance sample_provider : @Provider sample_env | 1000 :=
  {| VerifyToken _ := ret (mkCapabilities true true true true true []);
     ListZones _ _ := ret ([sample_zone], false);
     ListDNS _ _ _ _ := ret [foreign_record];
     UpsertDNS _ _ r := ret r; CreateDNS _ _ r := ret r; DeleteDNS _ _ _ := ret tt |}.

#[export] Instance sample_provider_reads : @ProviderReads sample_env sample_provider | 1000.
Proof. split; intros; intros w; reflexivity. Qed.

Definition sample_deleting : World := snd (DeleteUser sample_admin "u-alice" false "k1" sample_both).
Definition sample_delete_payload : Payload :=
  match fst (DeleteUser sample_admin "u-alice" false "k1" sample_both) with
  | Ok op => user_delete_payload "u-alice" op false
  | Err _ => ∅
  end.
Definition sample_alice_deleting : User :=
  default (sample_user "" RUser) (users (w_db sample_deleting) !! "u-alice"%string).


Lemma decide_dns_needs_consent_witness :
  let desired := mkCfRecord "" "CNAME" "app.example.com" "frp.example.com" 300 false in
  decide_dns "check" desired [foreign_record] = Conflict /\ consents "check" = false.
Proof.
  cbv zeta. assert (decide_dns "check" (mkCfRecord "" "CNAME" "app.example.com" "frp.example.com" 300 false)
    [foreign_record] = Conflict) as E by (vm_compute; reflexivity).
  split; [exact E|].
  pose proof (decide_dns_needs_consent "check" (mkCfRecord "" "CNAME" "app.example.com" "frp.example.com" 300 false)
    [foreign_record]) as H. rewrite E in H. apply H. intros r ->%list_elem_of_singleton. discriminate.
Defined.

Definition sample_unresolved : World :=
  mkWorld ((w_db sample_both) <| domains := <["d-1"%string :=
    {| d_user_id := "u-alice"; d_mapping_id := "m-1"; d_hostname := "app.example.com";
       d_normalized := "app.example.com"; d_zone_id := None; d_https_mode := HttpOnly; d_redirect := false;
       d_status := DsPendingDns; d_revision := 1; d_created := 0; d_updated := 0 |}]> ∅ |>) 0.

Lemma foreign_record_untouched_witness :
  d_status <$> domains (w_db (snd (sync_with_provider "u-alice" "d-1" "app.example.com" "check" "token" HttpOnly
    sample_unresolved))) !! "d-1"%string = Some DsDnsError.
Proof.
  destruct (foreign_record_untouched "u-alice" "d-1" "app.example.com" "check" "token" HttpOnly sample_unresolved
    [sample_zone] sample_unresolved sample_zone [foreign_record] sample_unresolved) as (_ & _ & Hst).
  - vm_compute. reflexivity.
  - vm_compute. reflexivity.
  - reflexivity.
  - discriminate.
  - vm_compute. reflexivity.
  - intros r ->%list_elem_of_singleton. vm_compute. reflexivity.
  - refine (proj1 (Hst _) _ _); [vm_compute; reflexivity|exact (lookup_insert_eq _ _ _)].
Defined.

Definition sample_token_world : World :=
  snd (SaveCloudflareToken sample_caller "a-cloudflare-token-of-alice" sample_password sample_both).
Definition sample_token_row : string * CfCredential :=
  default (""%string, mkCfCredential "" 0 "" "" TkMissing "" None None None 0)
    (pending_token "u-alice" 1 (w_db sample_token_world)).

Lemma token_verification_witness :
  exists w', verifyCloudflareToken (fun _ => "{}"%string) (token_payload "u-alice" 1) sample_token_world = (Ok tt, w') /\
    exists c', cf_credentials (w_db w') !! fst sample_token_row = Some c' /\ cc_version c' = 1.
Proof.
  sample_run (verifyCloudflareToken (fun _ => "{}"%string) (token_payload "u-alice" 1) sample_token_world) x w' E
    (fun (_ : unit) (_ : World) => true) HP.
  destruct x. exists w'. split; [reflexivity|].
  destruct (token_verification (fun _ => "{}"%string) (token_payload "u-alice" 1) sample_token_world tt w'
    (fst sample_token_row) (snd sample_token_row) ltac:(vm_compute; reflexivity) E)
    as (_ & _ & c' & _ & _ & _ & _ & Hc & _ & Hv & _).
  exists c'. exact (conj Hc Hv).
Defined.
