(* ===== verification/Router.v ===== *)
(** The router ([server/internal/router]): signed, versioned snapshots of
    routes, the runtime that loads them and answers requests, its certificate
    store, and the watcher that reloads the snapshot file. *)

From S2P Require Import Prelude StateError GoText Timestamps Encoding Schema Effects.
From Stdlib Require Import Ascii String.
Open Scope Z_scope.

(** ** Snapshots ([snapshot.go]) *)

Record Route := mkRoute {
  ro_Hostname : string;
  ro_Target : string;
  ro_HTTPSMode : string;
  ro_HTTPRedirect : bool;
  ro_Status : string
}.

Record Snapshot := mkSnapshot {
  sn_SchemaVersion : string;
  sn_Version : Z;
  sn_ControlRoutes : list Route;
  sn_BusinessRoutes : list Route;
  sn_Hash : string;
  sn_HMAC : string;
  sn_GeneratedAt : Stamp
}.
#[export] Instance Eta_Snapshot : Eta Snapshot := fun r =>
  mkSnapshot r.(sn_SchemaVersion) r.(sn_Version) r.(sn_ControlRoutes) r.(sn_BusinessRoutes)
    r.(sn_Hash) r.(sn_HMAC) r.(sn_GeneratedAt).
#[export] Instance Route_eq_dec : EqDecision Route.
Proof. solve_decision. Defined.
#[export] Instance Snapshot_eq_dec : EqDecision Snapshot.
Proof. solve_decision. Defined.

(** [json.Marshal] of a snapshot and HMAC-SHA256 under a key. *)
Class SnapshotCodec := {
  json_snapshot : Snapshot -> string;
  hmac_sha256 : string -> string -> string;
  snapshot_sha256 : string -> string
}.

Section Snapshots.
Context `{SnapshotCodec}.

Definition snapshot_hash (s : Snapshot) : string := hex_encode (snapshot_sha256 (json_snapshot s)).
Definition snapshot_mac (key : string) (s : Snapshot) : string :=
  hex_encode (hmac_sha256 key (json_snapshot s)).

(** [now] is the time [Build] reads. *)
Definition Build (now : Stamp) (version : Z) (control business : list Route) (key : string)
    : Snapshot :=
  let s := {| sn_SchemaVersion := "v1"; sn_Version := version; sn_ControlRoutes := control;
              sn_BusinessRoutes := business; sn_Hash := ""; sn_HMAC := "";
              sn_GeneratedAt := now |} in
  let s := s <| sn_Hash := snapshot_hash s |> in
  s <| sn_HMAC := snapshot_mac key s |>.

Definition verifyHash (s : Snapshot) : bool :=
  String.eqb (sn_Hash s)
    (snapshot_hash ((s <| sn_Hash := ""%string |>) <| sn_HMAC := ""%string |>)).

Definition Verify (s : Snapshot) (key : string) : bool :=
  let h := sn_HMAC s in
  let s := s <| sn_HMAC := ""%string |> in
  verifyHash s && String.eqb h (snapshot_mac key s).
End Snapshots.

(** ** Hosts *)

Section Hosts.
Context `{UnicodeTables}.

(** [strings.Index(value, "]")]: the position of the first bracket. *)
Fixpoint index_bracket (s : string) : option nat :=
  match s with
  | EmptyString => None
  | String c s' => if Ascii.eqb c "]" then Some 0%nat else S <$> index_bracket s'
  end.

Definition netSplitHostPort (value : string) : option (string * string) :=
  if HasPrefix value "[" then
    match index_bracket value with
    | Some end_ =>
        if Nat.ltb 0 end_ && Nat.ltb (end_ + 2) (String.length value) &&
           HasPrefix (drop_str (S end_) value) ":"
        then Some (drop_str 1 (take_str end_ value), drop_str (end_ + 2) value)
        else None
    | None => None
    end
  else
    match SplitByte value ":" with
    | [host; port] => if String.eqb port "" then None else Some (host, port)
    | _ => None
    end.

Definition normalizeHost (value : string) : string :=
  let value := ToLower (TrimSuffix (TrimSpace value) ".") in
  match netSplitHostPort value with
  | Some (host, _) => TrimSuffix host "."
  | None => value
  end.

Definition normalizeSNI (value : string) : string :=
  ToLower (TrimSuffix (TrimSpace value) ".").
End Hosts.

(** ** Certificates *)

Section Certificates.
Context {KeyPair : Type} `{UnicodeTables}.

(** The set a [CertificateStore] holds.  [Replace] ranges over a Go map: two
    hostnames with the same normal form keep the one visited last. *)
Definition Replace (certificates : list (string * KeyPair)) : Table KeyPair :=
  fold_left (fun t '(hostname, c) => <[normalizeSNI hostname := c]> t) certificates ∅.

Definition certificate (store : Table KeyPair) (serverName : string) : option KeyPair :=
  store !! normalizeSNI serverName.
End Certificates.

(** ** The runtime ([runtime.go]) *)

Definition maxRouterHeaderBytes : Z := Z.shiftl 64 10.
Definition maxRouterBodyBytes : Z := Z.shiftl 8 20.

Record Runtime := mkRuntime {
  run_key : string;
  run_current : option Snapshot;
  run_control : string;
  run_business : string
}.
#[export] Instance Eta_Runtime : Eta Runtime := fun r =>
  mkRuntime r.(run_key) r.(run_current) r.(run_control) r.(run_business).

Definition NewRuntime (valid_target : string -> bool) (key controlTarget businessTarget : string)
    : res string Runtime :=
  if negb (valid_target controlTarget) then Err "invalid router control target"%string
  else if negb (valid_target businessTarget) then Err "invalid router business target"%string
  else Ok (mkRuntime key None controlTarget businessTarget).

(** The zero snapshot of a new runtime has version 0. *)
Definition CurrentVersion (r : Runtime) : Z :=
  match run_current r with Some s => sn_Version s | None => 0 end.

Record Request := mkRequest {
  rq_Method : string;
  rq_RequestURI : string;
  rq_Proto : string;
  rq_Host : string;
  rq_Headers : list (string * list string);
  rq_TLS : bool;
  rq_Path : string;
  rq_RawQuery : string;
  rq_ContentLength : Z;
  rq_RemoteAddr : string
}.

(** What [ServeHTTP] does: an error reply, a redirect, or a request passed to a
    target with the headers the target sees. *)
Inductive Answer :=
| HttpError (status : Z) (text : string)
| Redirect (scheme host path query : string)
| Proxied (target host : string) (headers : list (string * list string)).

Section Runtime.
Context `{SnapshotCodec} `{UnicodeTables}.

Definition Load (r : Runtime) (s : Snapshot) : res string Runtime :=
  if negb (String.eqb (sn_SchemaVersion s) "v1") || (sn_Version s <? 1) ||
     negb (Verify s (run_key r))
  then Err "router snapshot integrity check failed"%string
  else if sn_Version s <=? CurrentVersion r
  then Err "router snapshot version is not newer"%string
  else Ok (r <| run_current := Some s |>).

Definition requestHeaderBytes (q : Request) : Z :=
  let len s := Z.of_nat (String.length s) in
  len (rq_Method q) + len (rq_RequestURI q) + len (rq_Proto q) + 4 +
  fold_right Z.add 0 (map (fun '(name, values) =>
    len name + 2 + fold_right Z.add 0 (map (fun v => len v + 2) values)) (rq_Headers q)).

Definition forwarded_headers : list string :=
  ["Forwarded"; "X-Forwarded-For"; "X-Forwarded-Host"; "X-Forwarded-Proto"]%string.

Definition stripForwardedHeaders (headers : list (string * list string))
    : list (string * list string) :=
  base.filter (fun h => h.1 ∉ forwarded_headers) headers.

Definition requestProto (q : Request) : string := if rq_TLS q then "https" else "http".

Definition requestClientIP (q : Request) : string :=
  match netSplitHostPort (rq_RemoteAddr q) with
  | Some (host, _) => host
  | None => rq_RemoteAddr q
  end.

(** [header.Set] *)
Definition set_header (name value : string) (headers : list (string * list string))
    : list (string * list string) :=
  (name, [value]) :: base.filter (fun h => h.1 <> name) headers.

Definition director_headers (q : Request) : list (string * list string) :=
  let h := set_header "X-Forwarded-Proto" (requestProto q) (stripForwardedHeaders (rq_Headers q)) in
  let ip := requestClientIP q in
  if String.eqb ip "" then h else set_header "X-Forwarded-For" ip h.

Definition find_route (host : string) (routes : list Route) : option Route :=
  List.find (fun ro => String.eqb (normalizeHost (ro_Hostname ro)) host) routes.

Definition select_route (r : Runtime) (host : string) : option (Route * string) :=
  let control := from_option sn_ControlRoutes [] (run_current r) in
  let business := from_option sn_BusinessRoutes [] (run_current r) in
  match find_route host control with
  | Some ro => Some (ro, run_control r)
  | None => (fun ro => (ro, run_business r)) <$> find_route host business
  end.

Definition ServeHTTP (r : Runtime) (q : Request) : Answer :=
  if maxRouterHeaderBytes <? requestHeaderBytes q
  then HttpError 431 "request headers too large"
  else
    match select_route r (normalizeHost (rq_Host q)) with
    | None => HttpError 404 "route not found"
    | Some (ro, target) =>
        if negb (String.eqb (ro_Status ro) "active") then HttpError 502 "upstream unavailable"
        else if negb (rq_TLS q) && ro_HTTPRedirect ro
        then Redirect "https" (normalizeHost (ro_Hostname ro)) (rq_Path q) (rq_RawQuery q)
        else if maxRouterBodyBytes <? rq_ContentLength q
        then HttpError 413 "request body too large"
        else Proxied target (rq_Host q) (director_headers q)
    end.

(** ** The watcher ([watcher.go]) *)

(** What [os.Stat] and [os.ReadFile] find at the snapshot path: an error, or a
    file with its modification time and size, and the snapshot its content
    decodes to. *)
Inductive FileState :=
| StatError
| File (modified size : Z) (content : option Snapshot).

Definition fileFingerprint : Type := option (Z * Z).

Definition LoadFile (r : Runtime) (content : option Snapshot) : res string Runtime :=
  match content with
  | None => Err "decode router snapshot"%string
  | Some s => Load r s
  end.

Definition reloadIfChanged (st : Runtime * fileFingerprint) (f : FileState)
    : Runtime * fileFingerprint :=
  let '(r, previous) := st in
  match f with
  | StatError => (r, None)
  | File modified size content =>
      let current := Some (modified, size) in
      if bool_decide (current = previous) then (r, previous)
      else (match LoadFile r content with Ok r' => r' | Err _ => r end, current)
  end.

(** The watcher's loop: one turn per tick of its timer. *)
Definition watch (st : Runtime * fileFingerprint) (files : list FileState)
    : Runtime * fileFingerprint := fold_left reloadIfChanged files st.
End Runtime.
