(* ===== verification/RouterSpec.v ===== *)
(** What the router guarantees: a snapshot it accepts is one the control side
    signed; whatever happens to the snapshot file, the last good snapshot stays
    in force; and a request reaches only the two fixed upstreams, by the route
    of its host, with the router's own forwarding headers. *)

From S2P Require Import Prelude StateError GoText GoNet Timestamps Encoding Schema Effects Logic Sample Router.
From Stdlib Require Import Ascii String.
Open Scope Z_scope.

(** ** Signed snapshots *)

Section Signatures.
Context `{SnapshotCodec}.

(** The snapshot a signature is computed over. *)
Definition unsigned (s : Snapshot) : Snapshot := s <| sn_HMAC := ""%string |>.

Lemma Verify_true s key :
  Verify s key = true <->
  sn_HMAC s = snapshot_mac key (unsigned s) /\
  sn_Hash s = snapshot_hash ((unsigned s) <| sn_Hash := ""%string |>).
Proof.
  unfold Verify, verifyHash. rewrite andb_true_iff, !String.eqb_eq. unfold unsigned. cbn [set sn_Hash]. tauto.
Qed.

(** A snapshot that [Build] signs verifies under the same key, and carries
    the version and the routes it was built from.  Two snapshots that verify
    under one key with the same signature were signed over the same bytes, or
    exhibit a collision of the HMAC. *)
Theorem snapshot_signature now v control business key s s' :
  Verify (Build now v control business key) key = true /\
  sn_Version (Build now v control business key) = v /\
  sn_ControlRoutes (Build now v control business key) = control /\
  sn_BusinessRoutes (Build now v control business key) = business /\
  (Verify s key = true -> Verify s' key = true -> sn_HMAC s = sn_HMAC s' ->
   json_snapshot (unsigned s) = json_snapshot (unsigned s') \/
   exists x y, x <> y /\ hex_encode (hmac_sha256 key x) = hex_encode (hmac_sha256 key y)).
Proof.
  split; [by apply Verify_true|]. do 3 (split; [done|]).
  intros [H1 _]%Verify_true [H2 _]%Verify_true E. rewrite H1, H2 in E. unfold snapshot_mac in E.
  destruct (decide (json_snapshot (unsigned s) = json_snapshot (unsigned s'))) as [|Hn]; [by left|].
  right. eauto.
Qed.
End Signatures.

(** ** Reloading *)

Section Reloading.
Context `{SnapshotCodec}.

Lemma Load_Ok r s r' :
  Load r s = Ok r' <->
  sn_SchemaVersion s = "v1"%string /\ 1 <= sn_Version s /\ Verify s (run_key r) = true /\
  CurrentVersion r < sn_Version s /\ r' = r <| run_current := Some s |>.
Proof.
  unfold Load. destruct (_ || _ || _) eqn:E1.
  - split; [done|]. intros (Hs & Hv & Hver & _). rewrite Hs, Hver in E1. cbn in E1.
    rewrite orb_false_r in E1. apply Z.ltb_lt in E1. lia.
  - apply orb_false_iff in E1 as [[E1 E2]%orb_false_iff E3].
    apply negb_false_iff, String.eqb_eq in E1. apply Z.ltb_ge in E2. apply negb_false_iff in E3.
    destruct (_ <=? _) eqn:E4; [apply Z.leb_le in E4|apply Z.leb_gt in E4].
    + split; [done|]. intros (_ & _ & _ & Hlt & _). lia.
    + split; [intros [= <-]; by split_and!|by intros (_ & _ & _ & _ & ->)].
Qed.

(** What a runtime can have become since it was [r]: its key and upstreams are
    fixed, and its snapshot is the one it had or a newer one, verified under its
    key, that one of the files held. *)
Definition descends (r r' : Runtime) (files : list FileState) : Prop :=
  run_key r' = run_key r /\ run_control r' = run_control r /\ run_business r' = run_business r /\
  CurrentVersion r <= CurrentVersion r' /\
  (run_current r' = run_current r \/
   exists s modified size, run_current r' = Some s /\ File modified size (Some s) ∈ files /\
     Verify s (run_key r) = true /\ sn_SchemaVersion s = "v1"%string /\ CurrentVersion r < sn_Version s).

Lemma descends_refl r files : descends r r files.
Proof. split_and!; try done. by left. Qed.

Lemma reload_descends r fp f : descends r (reloadIfChanged (r, fp) f).1 [f].
Proof.
  unfold reloadIfChanged. destruct f as [|modified size content]; [apply descends_refl|].
  destruct (bool_decide _); [apply descends_refl|]. cbn [fst].
  destruct content as [s|]; cbn [LoadFile]; [|apply descends_refl].
  destruct (Load r s) as [r'|] eqn:E; [|apply descends_refl].
  apply Load_Ok in E as (Hs & _ & Hv & Hlt & ->). split_and!; try done.
  - change (CurrentVersion r <= sn_Version s). lia.
  - right. exists s, modified, size. split_and!; try done. by apply list_elem_of_singleton.
Qed.

Lemma descends_trans r r' r'' f files :
  descends r r' [f] -> descends r' r'' files -> descends r r'' (f :: files).
Proof.
  intros (K1 & C1 & B1 & V1 & S1) (K2 & C2 & B2 & V2 & S2). split_and!; try congruence; [lia|].
  destruct S2 as [S2|(s & m & z & Hs & Hin & Hv & Hsch & Hlt)].
  - rewrite S2. destruct S1 as [|(s & m & z & Hs & Hin & ?)]; [by left|].
    apply list_elem_of_singleton in Hin as <-. right. exists s, m, z. split_and!; try tauto. left.
  - right. exists s, m, z. rewrite <- K1. split_and!; try done; [by right|lia].
Qed.

(** C7: the last good snapshot stays in force.  Whatever the watcher finds at the
    snapshot path over time (nothing, an unreadable or undecodable file, a
    snapshot of another key, an older version), the key and the upstreams of the
    runtime stay, its version never goes down, and its snapshot is the one it
    started with or a newer one that one of the files held and that verifies. *)
Theorem watch_keeps_last_good r fp files :
  descends r (watch (r, fp) files).1 files.
Proof.
  revert r fp. induction files as [|f files IH]; intros r fp; [apply descends_refl|].
  unfold watch. cbn [fold_left]. fold (watch (reloadIfChanged (r, fp) f) files).
  pose proof (reload_descends r fp f) as H1.
  destruct (reloadIfChanged (r, fp) f) as [r1 fp1]. eapply descends_trans; [exact H1|apply IH].
Qed.

(** C31: a good new file is served.  When the file at the snapshot path is not the
    one seen last and holds a snapshot of the supported schema, signed under the
    runtime's key and newer than the current one, one turn of the watcher makes
    it current, and a further turn over the same file changes nothing. *)
Theorem reload_progress r fp modified size s :
  fp <> Some (modified, size) -> sn_SchemaVersion s = "v1"%string -> 1 <= sn_Version s ->
  Verify s (run_key r) = true -> CurrentVersion r < sn_Version s ->
  let st := reloadIfChanged (r, fp) (File modified size (Some s)) in
  run_current st.1 = Some s /\ reloadIfChanged st (File modified size (Some s)) = st.
Proof.
  intros Hfp Hs H1 Hv Hlt. unfold reloadIfChanged at 1 2. rewrite bool_decide_false by congruence.
  cbn [LoadFile fst]. rewrite (proj2 (Load_Ok r s _)) by by split_and!.
  cbv zeta. split; [done|]. cbn [fst]. unfold reloadIfChanged. by rewrite bool_decide_true.
Qed.
End Reloading.

(** ** Requests *)

Section Requests.
Context `{SnapshotCodec} `{UnicodeTables}.

(** The first route of a host, and whether a host has one. *)
Definition routed (host : string) (routes : list Route) : Prop :=
  exists ro, ro ∈ routes /\ normalizeHost (ro_Hostname ro) = host.

Lemma find_route_Some host routes ro :
  find_route host routes = Some ro -> ro ∈ routes /\ normalizeHost (ro_Hostname ro) = host.
Proof.
  intros Hf. apply List.find_some in Hf as [Hin E]. apply String.eqb_eq in E.
  split; [by apply list_elem_of_In|done].
Qed.

Lemma find_route_None host routes : find_route host routes = None -> ~ routed host routes.
Proof.
  intros Hf (ro & Hin & E). apply list_elem_of_In in Hin.
  apply (List.find_none _ _ Hf) in Hin. by rewrite E, String.eqb_refl in Hin.
Qed.

Definition control_routes (r : Runtime) : list Route := from_option sn_ControlRoutes [] (run_current r).
Definition business_routes (r : Runtime) : list Route := from_option sn_BusinessRoutes [] (run_current r).

Lemma select_route_Some r host ro target :
  select_route r host = Some (ro, target) ->
  normalizeHost (ro_Hostname ro) = host /\
  (ro ∈ control_routes r /\ target = run_control r \/
   ~ routed host (control_routes r) /\ ro ∈ business_routes r /\ target = run_business r).
Proof.
  unfold select_route. fold (control_routes r) (business_routes r).
  destruct (find_route host (control_routes r)) as [ro'|] eqn:E1.
  - intros [= <- <-]. apply find_route_Some in E1 as [? ?]. auto.
  - destruct (find_route host (business_routes r)) as [ro'|] eqn:E2; [|done].
    intros [= <- <-]. apply find_route_Some in E2 as [? ?]. apply find_route_None in E1. auto 6.
Qed.

(** The values of a header, as [http.Header] keeps them. *)
Definition header_values (name : string) (headers : list (string * list string)) : list (list string) :=
  map snd (base.filter (fun h => h.1 = name) headers).

Lemma header_values_without name P `{!forall x, Decision (P x)} headers :
  (forall h, h.1 = name -> P h) ->
  header_values name (base.filter P headers) = header_values name headers.
Proof. intros HP. unfold header_values. by rewrite list_filter_filter_l. Qed.

Lemma header_values_removed name P `{!forall x, Decision (P x)} headers :
  (forall h, h.1 = name -> ~ P h) -> header_values name (base.filter P headers) = [].
Proof.
  intros HP. unfold header_values. induction headers as [|h hs IH]; [done|].
  rewrite (filter_cons P). case_decide as D; [|done]. rewrite filter_cons.
  case_decide as E; [by destruct (HP h E)|done].
Qed.

Lemma header_values_set name name' v headers :
  header_values name (set_header name' v headers) =
  if decide (name = name') then [[v]] else header_values name headers.
Proof.
  unfold set_header. unfold header_values at 1. rewrite filter_cons. simpl.
  case_decide as D; [rewrite decide_True by done|rewrite decide_False by done].
  - simpl. f_equal. apply header_values_removed. intros h E Hn. by rewrite E in Hn.
  - apply header_values_without. intros h -> ->. done.
Qed.

Lemma header_values_stripped name headers :
  header_values name (stripForwardedHeaders headers) =
  if decide (name ∈ forwarded_headers) then [] else header_values name headers.
Proof.
  unfold stripForwardedHeaders. case_decide.
  - apply header_values_removed. intros h -> Hn. by apply Hn.
  - apply header_values_without. by intros h ->.
Qed.

(** What the upstream sees of a header: the router's own forwarding headers,
    none of the client's, and everything else as sent. *)
Definition forwarded (q : Request) (name : string) : list (list string) :=
  if decide (name = "X-Forwarded-Proto"%string) then [[requestProto q]]
  else if decide (name = "X-Forwarded-For"%string) then
    if String.eqb (requestClientIP q) "" then [] else [[requestClientIP q]]
  else if decide (name = "Forwarded"%string \/ name = "X-Forwarded-Host"%string) then []
  else header_values name (rq_Headers q).

Lemma director_forwarded q name : header_values name (director_headers q) = forwarded q name.
Proof.
  unfold director_headers, forwarded. destruct (String.eqb (requestClientIP q) "");
    rewrite ?header_values_set, header_values_stripped; unfold forwarded_headers;
    repeat case_decide; try done; exfalso; set_solver.
Qed.

End Requests.

(** ** Instances

    A codec that writes a snapshot out field by field, and a MAC that prepends
    the key. *)

Definition sample_route_text (ro : Route) : string :=
  join "," [ro_Hostname ro; ro_Target ro; ro_HTTPSMode ro; if ro_HTTPRedirect ro then "r" else "-";
            ro_Status ro]%string.

Definition sample_codec : SnapshotCodec :=
  {| json_snapshot s := join "|" (sn_SchemaVersion s :: itoa (sn_Version s) :: sn_Hash s :: sn_HMAC s ::
       itoa (sn_GeneratedAt s) :: map sample_route_text (sn_ControlRoutes s) ++
       map sample_route_text (sn_BusinessRoutes s))%list;
     hmac_sha256 key s := (key ++ s)%string;
     snapshot_sha256 s := s |}.

Definition sample_control_route : Route :=
  mkRoute "panel.example.com" "http://127.0.0.1:8080" "control" false "active".
Definition sample_business_route : Route :=
  mkRoute "app.example.com" "http://127.0.0.1:8081" "auto_certificate" true "active".

Definition sample_snapshot (v : Z) : Snapshot :=
  @Build sample_codec 0 v [sample_control_route] [sample_business_route] "key".

Definition sample_runtime : Runtime :=
  mkRuntime "key" (Some (sample_snapshot 3)) "http://127.0.0.1:8080" "http://127.0.0.1:8081".

Lemma snapshot_signature_witness :
  @Verify sample_codec (sample_snapshot 1) "key" = true /\
  @Verify sample_codec ((sample_snapshot 1) <| sn_Version := 2 |>) "key" = false.
Proof.
  split; [|vm_compute; reflexivity].
  exact (proj1 (@snapshot_signature sample_codec 0 1 [sample_control_route] [sample_business_route] "key"
    (sample_snapshot 1) (sample_snapshot 1))).
Defined.

Lemma watch_keeps_last_good_witness :
  exists r, @watch sample_codec (sample_runtime, None)
      [StatError; File 1 10 None; File 2 10 (Some (sample_snapshot 2)); File 3 10 (Some (sample_snapshot 4))]
      = (r, Some (3, 10)) /\ 3 <= CurrentVersion r.
Proof.
  eexists. split; [vm_compute; reflexivity|].
  exact (proj1 (proj2 (proj2 (proj2 (@watch_keeps_last_good sample_codec sample_runtime None
    [StatError; File 1 10 None; File 2 10 (Some (sample_snapshot 2)); File 3 10 (Some (sample_snapshot 4))]))))).
Defined.

Lemma reload_progress_witness :
  run_current (@reloadIfChanged sample_codec (sample_runtime, Some (2, 10))
    (File 3 10 (Some (sample_snapshot 4)))).1 = Some (sample_snapshot 4).
Proof.
  apply (@reload_progress sample_codec sample_runtime (Some (2, 10)) 3 10 (sample_snapshot 4));
    [discriminate|reflexivity|vm_compute; discriminate|vm_compute; reflexivity|vm_compute; reflexivity].
Defined.

Definition sample_request (host : string) : Request :=
  mkRequest "GET" "/" "HTTP/1.1" host [("X-Forwarded-For", ["1.2.3.4"]); ("Accept", ["*/*"])]%string
    true "/" "" 0 "10.0.0.9:5555".

