(* ===== verification/RouterControl.v ===== *)
(** The control side of the router ([server/internal/service/router_service.go])
    and the dispatch of jobs to their handlers ([handleJob] of
    [cloudflare_jobs.go]) with the worker that calls it, and the certificates the
    router's listener serves ([RouterCertificates]): a snapshot is built from the bound domains, written,
    recorded, and the domains and operations it settles are updated.  A snapshot
    it publishes is the next version, signed for the running router and accepted
    by it; it is the only active one; and every routed domain ends in the state
    its mapping and its certificate justify. *)

From S2P Require Import Prelude StateError GoText GoNet Timestamps Encoding GoPath Schema Effects Logic Validation Sample Store Jobs Sessions SessionsSpec Mappings MappingsSpec Domains Apply ApplySpec Users Operations Cloudflare Workers Router RouterSpec.
From Stdlib Require Import Ascii String.
Open Scope Z_scope.

Record RouterStatusView := mkRouterStatusView {
  rsv_ConfigVersion : Z;
  rsv_AppliedVersion : Z;
  rsv_LastGoodVersion : option Z;
  rsv_LastGoodPath : string;
  rsv_LastGoodHash : string;
  rsv_LastApplyError : string;
  rsv_SnapshotDirectory : string;
  rsv_Adapter : string
}.

Record routeSource := mkRouteSource {
  src_domainID : string;
  src_hostname : string;
  src_httpsMode : HttpsMode;
  src_redirect : bool;
  src_mappingStatus : Lifecycle;
  src_domainStatus : DomainStatus
}.

Definition https_mode_text (m : HttpsMode) : string :=
  match m with
  | AutoCertificate => "auto_certificate"
  | CloudflareProxy => "cloudflare_proxy"
  | HttpOnly => "http_only"
  end.

(** [status NOT IN ('deleted','deleting','dns_error')] *)
Definition routable (s : DomainStatus) : bool :=
  negb ((s == DsDeleted) || (s == DsDeleting) || (s == DsDnsError)).

(** [FROM domain_bindings d JOIN mappings m ON m.id=d.mapping_id WHERE d.status NOT
    IN (...) ORDER BY d.normalized_domain] *)
Definition route_sources (db : DB) : list routeSource :=
  omap (fun kd =>
    m ← mappings db !! d_mapping_id kd.2;
    Some {| src_domainID := kd.1; src_hostname := d_normalized kd.2;
            src_httpsMode := d_https_mode kd.2; src_redirect := d_redirect kd.2;
            src_mappingStatus := m_lifecycle m; src_domainStatus := d_status kd.2 |})
    (order_by (fun a b : string * Domain => String.ltb (d_normalized a.2) (d_normalized b.2))
      (select (fun _ d => routable (d_status d)) (domains db))).

(** Where a routed domain and its open operation end up. *)
Record RouteState := mkRouteState {
  rs_domain : DomainStatus;
  rs_operation : OpStatus;
  rs_phase : string;
  rs_step : string
}.

Section RouterControl.
Context `{Env} `{SnapshotCodec}.

Definition routerSnapshotDir : string :=
  if String.eqb (cfg_RouterSnapshotDir env_config) ""
  then (cfg_DataDir env_config ++ "/router")%string else cfg_RouterSnapshotDir env_config.

Definition RouterStatus : M RouterStatusView :=
  s ← query_row (fun db => Some (router_state db));
  ret {| rsv_ConfigVersion := rst_config_version s; rsv_AppliedVersion := rst_applied_version s;
         rsv_LastGoodVersion := rst_last_good s;
         rsv_LastGoodPath := default ""%string (rst_last_good_path s);
         rsv_LastGoodHash := default ""%string (rst_last_good_hash s);
         rsv_LastApplyError := default ""%string (rst_last_error s);
         rsv_SnapshotDirectory := routerSnapshotDir; rsv_Adapter := "file-last-good" |}.

(** *** The state a snapshot leaves a domain in *)

Definition awaiting_certificate : RouteState :=
  mkRouteState DsPendingCertificate OpRunning "certificate" "awaiting_valid_certificate".
Definition route_applied : RouteState := mkRouteState DsActive OpSucceeded "router" "applied".

(** [certificate] is the status of the domain's ACME certificate, if any. *)
Definition route_state (s : routeSource) (certificate : option CertStatus) : RouteState :=
  if (src_domainStatus s == DsPendingCertificate) && (src_httpsMode s != HttpOnly)
  then awaiting_certificate
  else if src_mappingStatus s == LRunning then
    if src_httpsMode s == HttpOnly then route_applied
    else match certificate with
         | Some CValid => route_applied
         | Some CError | Some CExpired =>
             mkRouteState DsCertificateError OpFailed "certificate" "failed"
         | _ => awaiting_certificate
         end
  else mkRouteState DsPendingClient OpRunning "client" "awaiting_apply".

(** The certificate is read only where the decision needs it. *)
Definition needs_certificate (s : routeSource) : bool :=
  negb ((src_domainStatus s == DsPendingCertificate) && (src_httpsMode s != HttpOnly)) &&
  (src_mappingStatus s == LRunning) && (src_httpsMode s != HttpOnly).

Definition read_certificate (domainID : string) : M (option CertStatus) :=
  r ← attempt (query_row (fun db => (c_status ∘ snd) <$>
    head (select (fun _ c => (c_domain_id c == domainID) && (c_provider c == "acme"%string))
      (certificates db))));
  match r with
  | Ok s => ret (Some s)
  | Err (ErrSql NoRows) => ret None
  | Err e => fail e
  end.

Definition settle_domain (t : Stamp) (s : routeSource) : M unit :=
  if src_domainStatus s == DsPendingDns then ret tt
  else
    certificate ← (if needs_certificate s then read_certificate (src_domainID s) else ret None);
    let st := route_state s certificate in
    exec (set_domain_status (fun k _ => k == src_domainID s) (rs_domain st) t);;
    exec (fun db => db <| operations ::= update_where (open_domain_operation (src_domainID s))
      (fun o => o <| o_status := rs_operation st |> <| o_phase := rs_phase st |>
        <| o_step := rs_step st |> <| o_updated := t |>
        <| o_completed := if rs_operation st == OpSucceeded then Some t else o_completed o |>) |>).

Definition finalizeDomainRouterStates (sources : list routeSource) : M unit :=
  t ← nowString;
  for_each sources (settle_domain t).

(** *** Building a snapshot *)

Definition control_route (hostname : string) : Route :=
  {| ro_Hostname := hostname; ro_Target := cfg_RouterControlTarget env_config;
     ro_HTTPSMode := "control"; ro_HTTPRedirect := false; ro_Status := "active" |}.

Definition business_route (s : routeSource) : Route :=
  {| ro_Hostname := src_hostname s; ro_Target := cfg_RouterBusinessTarget env_config;
     ro_HTTPSMode := https_mode_text (src_httpsMode s); ro_HTTPRedirect := src_redirect s;
     ro_Status := if src_mappingStatus s == LRunning then "active" else "offline" |}.

(** The file of a snapshot, outside the database; the write can fail. *)
Definition AtomicWrite (path : string) (s : Snapshot) : M unit :=
  fail_if (negb (String.eqb (sn_SchemaVersion s) "v1"))
    (ErrMsg "unsupported router snapshot schema");;
  exec (fun db => db).

Definition snap_open (s : SnapStatus) : bool :=
  (s == SnPending) || (s == SnApplying) || (s == SnActive).

Definition supersede_snapshots (db : DB) : DB :=
  db <| router_snapshots ::= map_imap (fun _ r =>
    Some (if snap_open (rt_status r) then r <| rt_status := SnSuperseded |> else r)) |>.

Definition insert_router_snapshot (v : Z) (r : RouterSnapshotRow) (db : DB) : res SqlError DB :=
  reject (router_snapshots db !! v != None) UniqueViolation $
  Ok (db <| router_snapshots ::= <[v := r]> |>).

Definition BuildRouterSnapshot : M Snapshot :=
  fail_if (negb (Nat.eqb (String.length env_router_key) 32))
    (ErrMsg "router snapshot key is unavailable");;
  sources ← query route_sources;
  current ← query (fun db => rst_config_version (router_state db));
  t0 ← now;
  let snapshot := Build t0 (current + 1)
    (map control_route (cfg_RouterControlHosts env_config)) (map business_route sources)
    env_router_key in
  let path := (routerSnapshotDir ++ "/snapshot-v" ++ itoa (sn_Version snapshot) ++ ".json")%string in
  AtomicWrite path snapshot;;
  AtomicWrite (routerSnapshotDir ++ "/last-good.json") snapshot;;
  fail_if (negb (Verify snapshot env_router_key))
    (ErrMsg "router snapshot self-verification failed");;
  t ← nowString;
  exec supersede_snapshots;;
  exec_checked (insert_router_snapshot (sn_Version snapshot)
    {| rt_path := path; rt_hash := sn_Hash snapshot; rt_hmac := sn_HMAC snapshot;
       rt_status := SnActive; rt_generated := t; rt_applied := t |});;
  exec (fun db => db <| router_state ::= fun s =>
    s <| rst_config_version := sn_Version snapshot |> <| rst_applied_version := sn_Version snapshot |>
      <| rst_last_good := Some (sn_Version snapshot) |> <| rst_last_good_path := Some path |>
      <| rst_last_good_hash := Some (sn_Hash snapshot) |> <| rst_last_error := None |>
      <| rst_updated := t |> |>);;
  finalizeDomainRouterStates sources;;
  ret snapshot.

(** *** Dispatch *)

Context `{Provider} `{Acme} (json_capabilities : Capabilities -> string).

Definition handleJob (job : ClaimedJob) : M unit :=
  let ty := cj_type job in
  if String.eqb ty "cloudflare_token_verify"
  then verifyCloudflareToken json_capabilities (cj_payload job)
  else if String.eqb ty "domain_dns_sync" then syncDomainDNS (cj_payload job)
  else if String.eqb ty "domain_delete" then deleteDomainExternal (cj_payload job)
  else if String.eqb ty "user_delete" then deleteUserExternal (cj_payload job)
  else if String.eqb ty "acme_certificate_issue" then issueCertificate (cj_payload job)
  else if String.eqb ty "router_snapshot_apply" then BuildRouterSnapshot;; ret tt
  else fail (ErrMsg "unsupported job type").

(** The worker.  Beside it the seeding is repeated every day, and the lease of a
    running job renewed. *)
Definition RunJobs (rounds : nat) (done : nat -> option GoErr) : M unit :=
  seedPendingJobs;;
  st ← or_fail (ErrPanic "nil job store") env_jobs;
  Run rounds done st handleJob.
End RouterControl.

(** ** The certificates of the router *)

(** The file system and [tls.X509KeyPair], for a certificate and a private key in
    PEM. *)
Class TlsFiles := {
  KeyPair : Type;
  tf_getwd : nat -> res string string;
  tf_read : nat -> string -> res string string;
  tf_key_pair : string -> string -> res string KeyPair
}.

Record certificateRow := mkcertificateRow {
  cr_domainID : string;
  cr_hostname : string;
  cr_path : string;
  cr_ciphertext : string;
  cr_nonce : string
}.

Definition row_of (c : Certificate) (d : Domain) : certificateRow :=
  mkcertificateRow (c_domain_id c) (d_normalized d) (default ""%string (c_cert_path c))
    (default ""%string (c_key_ciphertext c)) (default ""%string (c_key_nonce c)).

(** [FROM certificates c JOIN domain_bindings d ON d.id=c.domain_binding_id WHERE
    c.provider='acme' AND c.status='valid' AND d.status NOT IN
    ('deleted','deleting')] *)
Definition certificate_rows (db : DB) : list certificateRow :=
  omap (fun kc =>
    d ← domains db !! c_domain_id kc.2;
    if (d_status d == DsDeleted) || (d_status d == DsDeleting) then None
    else Some (row_of kc.2 d))
    (select (fun _ c => (c_provider c == "acme"%string) && (c_status c == CValid)) (certificates db)).

Definition certificate_aad (domainID : string) : string := ("domain:" ++ domainID ++ ":certificate_private_key:v1")%string.

Section Certificates.
Context `{Env} `{TlsFiles}.

Definition asked {A} (f : nat -> res string A) : M A := fun w =>
  (match f (w_tick w) with Ok a => Ok a | Err e => Err (ErrMsg e) end, step w).

(** [filepath.Abs] *)
Definition absolute (path : string) : M string :=
  if is_rooted path then ret (Clean path)
  else wd ← asked tf_getwd; ret (Join [wd; path]).

Definition load_certificate (root : string) (item : certificateRow) : M (string * KeyPair) :=
  fail_if (String.eqb (cr_path item) "" || String.eqb (cr_ciphertext item) "" || String.eqb (cr_nonce item) "")
    (ErrMsg ("certificate material is incomplete for " ++ cr_hostname item));;
  certPath ← absolute (cr_path item);
  fail_if (negb (String.eqb certPath root) && negb (HasPrefix certPath (root ++ "/")))
    (ErrMsg "certificate path escapes server data directory");;
  certPEM ← asked (fun n => tf_read n certPath);
  privatePEM ← decryptWithKey env_certificate_key (cr_ciphertext item) (cr_nonce item) (certificate_aad (cr_domainID item));
  certified ← asked (fun _ => tf_key_pair certPEM privatePEM);
  ret (ToLower (TrimSuffix (TrimSpace (cr_hostname item)) "."), certified).

Fixpoint load_certificates (root : string) (items : list certificateRow) : M (Table KeyPair) :=
  match items with
  | [] => ret ∅
  | item :: items =>
      '(hostname, certified) ← load_certificate root item;
      rest ← load_certificates root items;
      ret (match rest !! hostname with Some _ => rest | None => <[hostname := certified]> rest end)
  end.

Definition RouterCertificates : M (Table KeyPair) :=
  rows ← query certificate_rows;
  root ← absolute (cfg_DataDir env_config);
  load_certificates root rows.
End Certificates.

(** ** The sources of the routes *)

Definition source_of (k : string) (d : Domain) (m : Mapping) : routeSource :=
  {| src_domainID := k; src_hostname := d_normalized d; src_httpsMode := d_https_mode d;
     src_redirect := d_redirect d; src_mappingStatus := m_lifecycle m; src_domainStatus := d_status d |}.

Lemma elem_of_route_sources s db :
  s ∈ route_sources db <->
  exists k d m, domains db !! k = Some d /\ routable (d_status d) = true /\
    mappings db !! d_mapping_id d = Some m /\ s = source_of k d m.
Proof.
  unfold route_sources. rewrite list_elem_of_omap. split.
  - intros ([k d] & Hin & Hs). rewrite elem_of_order_by in Hin. apply elem_of_select in Hin as [Hk Hr].
    cbn [fst snd] in *. destruct (mappings db !! d_mapping_id d) as [m|] eqn:Hm; [|done].
    injection Hs as <-. by exists k, d, m.
  - intros (k & d & m & Hk & Hr & Hm & ->). exists (k, d). split.
    + apply elem_of_order_by, elem_of_select. done.
    + cbn [fst snd]. by rewrite Hm.
Qed.

Lemma route_sources_NoDup db : NoDup (map src_domainID (route_sources db)).
Proof.
  eapply sublist_NoDup; [|apply (omap_keys_sublist _ fst)].
  - rewrite order_by_perm. apply select_keys_NoDup.
  - intros [k d] s Hs. cbn [fst snd] in *. destruct (mappings db !! _); [|done]. by injection Hs as <-.
Qed.

Section Control.
Context `{Env}.

(** ** The state a domain is left in *)

Definition certificate_of (domainID : string) (db : DB) : option CertStatus :=
  (c_status ∘ snd) <$>
    head (select (fun _ c => (c_domain_id c == domainID) && (c_provider c == "acme"%string)) (certificates db)).

(** The status of a source's domain after a snapshot. *)
Definition settled (db : DB) (s : routeSource) : DomainStatus :=
  if src_domainStatus s == DsPendingDns then DsPendingDns
  else rs_domain (route_state s (certificate_of (src_domainID s) db)).

Lemma route_state_unneeded s c : needs_certificate s = false -> route_state s c = route_state s None.
Proof.
  unfold needs_certificate, route_state.
  destruct ((src_domainStatus s == DsPendingCertificate) && (src_httpsMode s != HttpOnly)); [done|].
  destruct (src_mappingStatus s == LRunning); [|done]. by destruct (src_httpsMode s == HttpOnly).
Qed.

Lemma read_certificate_Ok domainID w c w' :
  read_certificate domainID w = (Ok c, w') -> w_db w' = w_db w /\ c = certificate_of domainID (w_db w).
Proof.
  unfold read_certificate, certificate_of. intros Hrun.
  apply bind_Ok in Hrun as (r & w1 & Hr & Hrun). apply (proj1 (attempt_Ok _ _ _ _)) in Hr.
  unfold query_row in Hr. destruct (env_fault _); [injection Hr as <- <-; by apply fail_Ok in Hrun|].
  destruct (_ <$> _) as [st|]; injection Hr as <- <-; by apply ret_Ok in Hrun as [<- ->].
Qed.

(** The tables a settlement leaves alone. *)
Definition same_routes (db db' : DB) : Prop :=
  certificates db' = certificates db /\ mappings db' = mappings db /\
  router_state db' = router_state db /\ router_snapshots db' = router_snapshots db.

Lemma settle_domain_Ok t s w u w' :
  settle_domain t s w = (Ok u, w') -> same_routes (w_db w) (w_db w') /\
  domains (w_db w') =
    (if src_domainStatus s == DsPendingDns then domains (w_db w)
     else update_where (fun k _ => k == src_domainID s)
            (fun d => d <| d_status := settled (w_db w) s |> <| d_updated := t |>) (domains (w_db w))).
Proof.
  unfold settle_domain, settled. destruct (src_domainStatus s == DsPendingDns); [by intros [_ ->]%ret_Ok|].
  intros Hrun. apply bind_Ok in Hrun as (c & w1 & Hc & Hrun).
  assert (w_db w1 = w_db w /\ route_state s c = route_state s (certificate_of (src_domainID s) (w_db w))) as [E Es].
  { destruct (needs_certificate s) eqn:En; [by apply read_certificate_Ok in Hc as [-> ->]|].
    apply ret_Ok in Hc as [<- ->]. split; [done|]. symmetry. by apply route_state_unneeded. }
  rewrite Es in Hrun. cbv zeta in Hrun.
  apply bind_Ok in Hrun as (? & w2 & (_ & ->)%exec_Ok & (_ & ->)%exec_Ok). cbn [w_db w_tick].
  rewrite <- E. split; [by split_and!|]. reflexivity.
Qed.

Lemma settled_same db db' s : certificates db' = certificates db -> settled db' s = settled db s.
Proof. unfold settled, certificate_of. by intros ->. Qed.

Lemma same_routes_trans db1 db2 db3 : same_routes db1 db2 -> same_routes db2 db3 -> same_routes db1 db3.
Proof. unfold same_routes. intros (-> & -> & -> & ->) (-> & -> & -> & ->). done. Qed.

(** A settlement over all sources: each source's domain gets its status, the
    other domains keep their row. *)
Lemma settle_all_Ok t l w u w' :
  NoDup (map src_domainID l) -> for_each l (settle_domain t) w = (Ok u, w') ->
  same_routes (w_db w) (w_db w') /\
  forall k d, domains (w_db w) !! k = Some d ->
    exists d', domains (w_db w') !! k = Some d' /\
      (forall s, s ∈ l -> src_domainID s = k -> src_domainStatus s = d_status d ->
         d_status d' = settled (w_db w) s) /\
      ((forall s, s ∈ l -> src_domainID s <> k) -> d' = d).
Proof.
  revert w. induction l as [|s l IH]; intros w Hnd Hrun.
  - apply ret_Ok in Hrun as [_ ->]. split; [by split_and!|]. intros k d Hk. exists d. split; [done|].
    split; [by intros s ?%not_elem_of_nil|done].
  - cbn [map] in Hnd. apply NoDup_cons in Hnd as [Hni Hnd]. cbn [for_each] in Hrun.
    apply bind_Ok in Hrun as (? & w1 & [Hsame Hdom]%settle_domain_Ok & Hrun).
    apply IH in Hrun as [Hsame' Hrest]; [|done]. split; [by eapply same_routes_trans|].
    intros k d Hk.
    assert (exists d1, domains (w_db w1) !! k = Some d1 /\
      (src_domainID s = k -> src_domainStatus s = d_status d -> d_status d1 = settled (w_db w) s) /\
      (src_domainID s <> k -> d1 = d)) as (d1 & Hk1 & Hd1 & Hd1').
    { rewrite Hdom. unfold settled. destruct (src_domainStatus s == DsPendingDns) eqn:E.
      - exists d. split_and!; try done. apply bool_decide_eq_true in E. congruence.
      - rewrite lookup_update_where, Hk. eexists. split; [reflexivity|].
        destruct (k == src_domainID s) eqn:Ek; [apply bool_decide_eq_true in Ek as ->|apply bool_decide_eq_false in Ek];
          by split. }
    destruct (Hrest k d1 Hk1) as (d' & Hk' & Hin & Hout). exists d'. split; [done|]. split.
    + intros s' [->|Hs']%elem_of_cons Hid Hst.
      * rewrite Hout; [by apply Hd1|]. intros s'' Hs'' Heq. apply Hni. rewrite Hid, <- Heq.
        apply list_elem_of_In, in_map. by apply list_elem_of_In.
      * rewrite <- (settled_same _ (w_db w1)) by apply Hsame. apply Hin; [done|done|].
        rewrite Hd1'; [done|]. intros Heq. apply Hni. rewrite Heq, <- Hid.
        apply list_elem_of_In, in_map. by apply list_elem_of_In.
    + intros Hno. rewrite Hout; [apply Hd1'; apply Hno; left|]. intros s' Hs'. apply Hno. by right.
Qed.

(** ** A published snapshot *)

Context `{SnapshotCodec}.

Definition signed_snapshot (t : Stamp) (db : DB) : Snapshot :=
  Build t (rst_config_version (router_state db) + 1)
    (map control_route (cfg_RouterControlHosts env_config)) (map business_route (route_sources db))
    env_router_key.

Lemma publish_tables s t path db db1 :
  insert_router_snapshot (sn_Version s)
    {| rt_path := path; rt_hash := sn_Hash s; rt_hmac := sn_HMAC s; rt_status := SnActive;
       rt_generated := t; rt_applied := t |} (supersede_snapshots db) = Ok db1 ->
  domains db1 = domains db /\ certificates db1 = certificates db /\ mappings db1 = mappings db /\
  exists r, rt_status r = SnActive /\ rt_hash r = sn_Hash s /\ rt_path r = path /\
    router_snapshots db1 !! sn_Version s = Some r /\
    (forall v r', router_snapshots db1 !! v = Some r' -> v <> sn_Version s -> snap_open (rt_status r') = false).
Proof.
  unfold insert_router_snapshot. intros (_ & [= <-])%reject_Ok. do 3 (split; [done|]).
  eexists. split_and!; [..|exact (lookup_insert_eq _ _ _)|]; try done.
  intros v r' Hv Hne. cbn [router_snapshots set] in Hv. rewrite lookup_insert_ne in Hv by congruence.
  unfold supersede_snapshots in Hv. cbn [router_snapshots set] in Hv. rewrite map_lookup_imap in Hv.
  destruct (router_snapshots db !! v) as [r0|]; [|done]. simpl in Hv.
  destruct (snap_open (rt_status r0)) eqn:E; injection Hv as <-; done.
Qed.

Lemma router_state_updated g db x :
  router_state db = x -> router_state (db <| router_state ::= g |>) = g x.
Proof. by intros <-. Qed.

Lemma BuildRouterSnapshot_run w s w' :
  BuildRouterSnapshot w = (Ok s, w') ->
  exists t db1 t' path f w1,
    s = signed_snapshot t (w_db w) /\ Verify s env_router_key = true /\
    domains db1 = domains (w_db w) /\ certificates db1 = certificates (w_db w) /\
    mappings db1 = mappings (w_db w) /\
    (exists r, rt_status r = SnActive /\ rt_hash r = sn_Hash s /\ rt_path r = path /\
      router_snapshots db1 !! sn_Version s = Some r /\
      (forall v r', router_snapshots db1 !! v = Some r' -> v <> sn_Version s -> snap_open (rt_status r') = false)) /\
    router_state db1 = f (router_state (w_db w)) /\
    (forall x, rst_config_version (f x) = sn_Version s /\ rst_applied_version (f x) = sn_Version s /\
       rst_last_good (f x) = Some (sn_Version s) /\ rst_last_good_path (f x) = Some path /\
       rst_last_good_hash (f x) = Some (sn_Hash s)) /\
    w_db w1 = db1 /\ exists u, for_each (route_sources (w_db w)) (settle_domain t') w1 = (Ok u, w').
Proof.
  unfold BuildRouterSnapshot. intros Hrun.
  apply bind_Ok in Hrun as (? & w0 & [_ ->]%fail_if_Ok & Hrun).
  apply bind_Ok in Hrun as (l & w1 & (_ & -> & ->)%query_Ok & Hrun).
  apply bind_Ok in Hrun as (c & w2 & (_ & -> & ->)%query_Ok & Hrun).
  apply bind_Ok in Hrun as (t & w3 & [_ ->]%now_Ok & Hrun). cbn [w_db step] in Hrun. cbv zeta in Hrun.
  fold (signed_snapshot t (w_db w)) in Hrun. remember (signed_snapshot t (w_db w)) as sn eqn:Hsn.
  unfold AtomicWrite in Hrun.
  apply bind_Ok in Hrun as (? & w4 & Haw & Hrun).
  apply bind_Ok in Haw as (? & w5 & [_ ->]%fail_if_Ok & (_ & ->)%exec_Ok).
  apply bind_Ok in Hrun as (? & w6 & Haw & Hrun).
  apply bind_Ok in Haw as (? & w7 & [_ ->]%fail_if_Ok & (_ & ->)%exec_Ok).
  apply bind_Ok in Hrun as (? & w8 & [Hv ->]%fail_if_Ok & Hrun). apply negb_false_iff in Hv.
  apply bind_Ok in Hrun as (t' & w9 & [_ ->]%now_Ok & Hrun).
  apply bind_Ok in Hrun as (? & w10 & (_ & ->)%exec_Ok & Hrun).
  apply bind_Ok in Hrun as (? & w11 & (_ & db1 & Hins & ->)%exec_checked_Ok & Hrun).
  apply bind_Ok in Hrun as (? & w12 & (_ & ->)%exec_Ok & Hrun).
  apply bind_Ok in Hrun as (? & w13 & Hfin & [<- ->]%ret_Ok). cbn [w_db w_tick step] in *.
  assert (router_state db1 = router_state (w_db w)) as Ers.
  { clear -Hins. unfold insert_router_snapshot in Hins. by apply reject_Ok in Hins as (_ & [= <-]). }
  apply publish_tables in Hins as (Ed & Ec & Em & Hs).
  unfold finalizeDomainRouterStates in Hfin.
  apply bind_Ok in Hfin as (t'' & w14 & [_ ->]%now_Ok & Hfin). cbn [w_db w_tick step] in Hfin.
  match type of Hfin with for_each _ _ (step (mkWorld (?db <| router_state ::= ?g |>) ?n)) = _ =>
    exists t, (db <| router_state ::= g |>), t'', (routerSnapshotDir ++ "/snapshot-v" ++ itoa (sn_Version sn) ++ ".json")%string,
      g, (step (mkWorld (db <| router_state ::= g |>) n)) end.
  split; [exact Hsn|]. split; [exact Hv|].
  split; [exact Ed|]. split; [exact Ec|]. split; [exact Em|]. split; [exact Hs|].
  split; [match goal with |- router_state (_ <| router_state ::= ?g |>) = _ => exact (router_state_updated g _ _ Ers) end|]. split; [intros y; by split_and!|].
  split; [reflexivity|]. eexists; exact Hfin.
Qed.

(** C6: a published snapshot is the next version and the running router takes it.
    When a build succeeds, its version is one more than the configuration version
    was, which is now recorded as the applied and last good version with its
    hash; it routes every control host to the control upstream and every routable
    domain of an existing mapping to the business upstream, active exactly when
    the mapping runs; no other snapshot is active; and every runtime under the
    server's key that holds an earlier version loads it. *)
Theorem published_snapshot_loads w s w' :
  BuildRouterSnapshot w = (Ok s, w') ->
  let v := rst_config_version (router_state (w_db w)) + 1 in
  sn_Version s = v /\ Verify s env_router_key = true /\
  rst_config_version (router_state (w_db w')) = v /\
  rst_last_good (router_state (w_db w')) = Some v /\
  rst_last_good_hash (router_state (w_db w')) = Some (sn_Hash s) /\
  sn_ControlRoutes s = map control_route (cfg_RouterControlHosts env_config) /\
  (forall ro, ro ∈ sn_BusinessRoutes s <->
     exists k d m, domains (w_db w) !! k = Some d /\ routable (d_status d) = true /\
       mappings (w_db w) !! d_mapping_id d = Some m /\ ro = business_route (source_of k d m)) /\
  (exists r, router_snapshots (w_db w') !! v = Some r /\ rt_status r = SnActive /\ rt_hash r = sn_Hash s) /\
  (forall x r, router_snapshots (w_db w') !! x = Some r -> rt_status r = SnActive -> x = v) /\
  (forall r, run_key r = env_router_key -> CurrentVersion r < v -> 0 < v ->
     Load r s = Ok (r <| run_current := Some s |>)).
Proof.
  intros (t & db1 & t' & path & f & w1 & Hs & Hv & _ & _ & _ & (r & Hr & Hh & _ & Hk & Hone) & Hf & Hfx & Hw1
    & u & Hfin)%BuildRouterSnapshot_run v.
  apply settle_all_Ok in Hfin as [(_ & _ & Est & Esn) _]; [|apply route_sources_NoDup].
  rewrite Hw1 in Est, Esn. rewrite Est, Esn, Hf. specialize (Hfx (router_state (w_db w))).
  destruct Hfx as (F1 & F2 & F3 & F4 & F5).
  assert (sn_Version s = v) as Ev by (rewrite Hs; reflexivity). rewrite Ev in *.
  split_and!; try done.
  - by rewrite Hs.
  - intros ro. rewrite Hs. cbn [signed_snapshot Build sn_BusinessRoutes set].
    rewrite list_elem_of_fmap. split.
    + intros (src & -> & (k & d & m & ? & ? & ? & ->)%elem_of_route_sources). by exists k, d, m.
    + intros (k & d & m & ? & ? & ? & ->). eexists. split; [reflexivity|].
      apply elem_of_route_sources. by exists k, d, m.
  - exists r. by split_and!.
  - intros x r' Hx Ha. destruct (decide (x = v)) as [|Hne]; [done|].
    specialize (Hone _ _ Hx Hne). by rewrite Ha in Hone.
  - intros r0 Hkey Hcur Hpos. apply Load_Ok. rewrite Hkey, Ev. split_and!; try done; [by rewrite Hs|lia].
Qed.

(** The status of a domain after a snapshot that routes its mapping. *)
Definition domain_after (db : DB) (k : string) (d : Domain) : DomainStatus :=
  match mappings db !! d_mapping_id d with
  | Some m => if routable (d_status d) then settled db (source_of k d m) else d_status d
  | None => d_status d
  end.

(** A domain is announced as active only when it can serve.  After a
    successful build every domain has the status its mapping and its ACME
    certificate justify; a routed domain that ends active has a running mapping
    and is either plain HTTP or has a valid certificate; a failed certificate
    shows as an error; and deleted, deleting and misconfigured domains, and those
    still waiting for DNS, keep their status. *)
Theorem router_settles_domains w s w' k d :
  BuildRouterSnapshot w = (Ok s, w') -> domains (w_db w) !! k = Some d ->
  exists d', domains (w_db w') !! k = Some d' /\ d_status d' = domain_after (w_db w) k d /\
    (routable (d_status d) = false \/ d_status d = DsPendingDns -> d_status d' = d_status d) /\
    (forall m, mappings (w_db w) !! d_mapping_id d = Some m -> routable (d_status d) = true ->
       d_status d' = DsActive ->
       m_lifecycle m = LRunning /\
       (d_https_mode d = HttpOnly \/ certificate_of k (w_db w) = Some CValid)) /\
    (forall m, mappings (w_db w) !! d_mapping_id d = Some m -> routable (d_status d) = true ->
       d_status d <> DsPendingDns -> m_lifecycle m <> LRunning -> d_status d <> DsPendingCertificate ->
       d_status d' = DsPendingClient).
Proof.
  intros (t & db1 & t' & path & f & w1 & _ & _ & Hd & Hc & Hm & _ & _ & _ & Hw1 & u & Hfin)%BuildRouterSnapshot_run Hk.
  apply settle_all_Ok in Hfin as [_ Hall]; [|apply route_sources_NoDup].
  rewrite Hw1, Hd in Hall. destruct (Hall k d Hk) as (d' & Hk' & Hin & Hout).
  assert (d_status d' = domain_after (w_db w) k d) as E.
  { unfold domain_after. destruct (mappings (w_db w) !! d_mapping_id d) as [m|] eqn:Em;
      [destruct (routable (d_status d)) eqn:Er|].
    - rewrite <- (settled_same _ db1) by done. apply Hin; [|done|done].
      apply elem_of_route_sources. by exists k, d, m.
    - rewrite Hout; [done|]. intros s' (k0 & d0 & m0 & Hk0 & Hr0 & _ & ->)%elem_of_route_sources ?.
      cbn in *. subst. congruence.
    - rewrite Hout; [done|]. intros s' (k0 & d0 & m0 & Hk0 & Hr0 & Hm0 & ->)%elem_of_route_sources ?.
      cbn in *. subst. congruence. }
  exists d'. rewrite E. unfold domain_after. split; [done|]. split; [done|]. split_and!.
  - intros [E0|E0]; rewrite E0; [by case_match|]. destruct (mappings (w_db w) !! d_mapping_id d); [|done].
    unfold settled, source_of. cbn [src_domainStatus]. by rewrite E0.
  - intros m -> ->. unfold settled, route_state, source_of.
    cbn [src_domainStatus src_httpsMode src_mappingStatus src_domainID].
    destruct (d_status d == DsPendingDns); [done|]. destruct (_ && _); [done|].
    destruct (m_lifecycle m == LRunning) eqn:El; [|done]. apply bool_decide_eq_true in El.
    destruct (d_https_mode d == HttpOnly) eqn:Eh; [apply bool_decide_eq_true in Eh; auto|].
    destruct (certificate_of k (w_db w)) as [[]|]; try done. auto.
  - intros m -> -> Hn Hl Hp. unfold settled, route_state, source_of.
    cbn [src_domainStatus src_httpsMode src_mappingStatus src_domainID].
    by rewrite !(bool_decide_false _ Hn), (bool_decide_false _ Hp), (bool_decide_false _ Hl).
Qed.
End Control.

(** ** What the router serves *)

Section Served.
Context `{Env} `{TlsFiles}.

Definition db_same : World -> World -> Prop := fun w w' => w_db w' = w_db w.
#[local] Instance db_same_preorder : PreOrder db_same.
Proof. split; unfold db_same; [done|congruence]. Qed.

Lemma asked_same {A} (f : nat -> res string A) : moves db_same (asked f).
Proof. done. Qed.
Lemma absolute_same p : moves db_same (absolute p).
Proof. unfold absolute. pose proof (@asked_same). destruct (is_rooted p); repeat move_step. Qed.

Lemma asked_Ok {A} (f : nat -> res string A) w a w' : asked f w = (Ok a, w') <-> f (w_tick w) = Ok a /\ w' = step w.
Proof. unfold asked. destruct (f (w_tick w)); solve_run. Qed.

Lemma RouterCertificates_same : moves db_same RouterCertificates.
Proof.
  unfold RouterCertificates. apply moves_bind; [typeclasses eauto|intros w; unfold query; by case_match|intros rows].
  apply moves_bind; [typeclasses eauto|apply absolute_same|intros root]. induction rows as [|item rows IH]; cbn [load_certificates];
    [apply moves_ret; typeclasses eauto|]. apply moves_bind; [typeclasses eauto| |intros [hostname certified]; repeat move_step; apply IH].
  pose proof (@asked_same). pose proof absolute_same. unfold load_certificate, decryptWithKey. repeat move_step; by apply asked_same.
Qed.

(** The pair of a row: its certificate file lies below the data directory, and its
    key opens as the key of this row's domain. *)
Definition backs (root : string) (item : certificateRow) (hostname : string) (certified : KeyPair) : Prop :=
  hostname = ToLower (TrimSuffix (TrimSpace (cr_hostname item)) ".") /\
  exists certPath certPEM privatePEM n,
    (certPath = root \/ HasPrefix certPath (root ++ "/") = true) /\ tf_read n certPath = Ok certPEM /\
    env_gcm_open env_certificate_key (cr_nonce item) (cr_ciphertext item) (certificate_aad (cr_domainID item)) = Some privatePEM /\
    tf_key_pair certPEM privatePEM = Ok certified.

Lemma load_certificate_Ok root item w hostname certified w' :
  load_certificate root item w = (Ok (hostname, certified), w') -> w_db w' = w_db w /\ backs root item hostname certified.
Proof.
  unfold load_certificate, decryptWithKey. intros (? & w1 & (_ & ->)%fail_if_Ok & E)%bind_Ok.
  apply bind_Ok in E as (certPath & w2 & E2 & E). pose proof (absolute_same (cr_path item) w) as H2. rewrite E2 in H2.
  apply bind_Ok in E as (? & w3 & [Hp ->]%fail_if_Ok & E). apply bind_Ok in E as (cert & w4 & [Hr ->]%asked_Ok & E).
  apply bind_Ok in E as (priv & w5 & E5 & E).
  apply bind_Ok in E5 as (? & ? & [_ ->]%fail_if_Ok & E5). apply bind_Ok in E5 as (? & ? & [_ ->]%fail_if_Ok & [Ho ->]%or_fail_Ok).
  apply bind_Ok in E as (certified' & w6 & [Hk ->]%asked_Ok & [= <- <- <-]). split; [done|]. split; [done|].
  exists certPath, cert, priv, (w_tick w2). split; [|done].
  destruct (String.eqb_spec certPath root); [by left|right]. by destruct (HasPrefix certPath (root ++ "/")).
Qed.

Lemma load_certificates_Ok root items w t w' :
  load_certificates root items w = (Ok t, w') ->
  w_db w' = w_db w /\ (forall hostname certified, t !! hostname = Some certified -> exists item, item ∈ items /\ backs root item hostname certified) /\
  (forall item, item ∈ items -> is_Some (t !! ToLower (TrimSuffix (TrimSpace (cr_hostname item)) "."))).
Proof.
  revert w t w'. induction items as [|item items IH]; intros w t w'; cbn [load_certificates].
  { intros [= <- <-]. split; [done|]. split; [by intros ? ?; rewrite lookup_empty|by intros ? ?%elem_of_nil]. }
  intros ([hostname certified] & w1 & [H1 Hb]%load_certificate_Ok & E)%bind_Ok.
  apply bind_Ok in E as (rest & w2 & (H4 & Hrest & Hall)%IH & [= <- <-]). split; [congruence|]. split.
  - intros h q. destruct (rest !! hostname) as [q'|] eqn:Er.
    + intros Hq. destruct (Hrest h q Hq) as (i & Hi & ?). exists i. split; [by right|done].
    + destruct (decide (hostname = h)) as [->|Hne].
      * rewrite lookup_insert_eq. intros [= ->]. exists item. split; [by left|done].
      * rewrite lookup_insert_ne by done. intros Hq. destruct (Hrest h q Hq) as (i & Hi & ?). exists i. split; [by right|done].
  - intros i [->|Hi]%elem_of_cons.
    + destruct Hb as [<- _]. destruct (rest !! hostname) eqn:Er; [by rewrite Er|]. rewrite lookup_insert_eq. by eexists.
    + destruct (rest !! hostname); [by apply Hall|]. destruct (decide (hostname = ToLower (TrimSuffix (TrimSpace (cr_hostname i)) "."))) as [<-|Hne].
      * rewrite lookup_insert_eq. by eexists.
      * rewrite lookup_insert_ne by done. by apply Hall.
Qed.

Lemma elem_of_certificate_rows item db :
  item ∈ certificate_rows db <->
  exists k c d, certificates db !! k = Some c /\ domains db !! c_domain_id c = Some d /\
    c_provider c = "acme"%string /\ c_status c = CValid /\ d_status d <> DsDeleted /\ d_status d <> DsDeleting /\ item = row_of c d.
Proof.
  unfold certificate_rows. rewrite list_elem_of_omap. split.
  - intros ([k c] & [Hk [Hp Hv]%andb_true_iff]%elem_of_select & E). cbn [snd] in *.
    destruct (domains db !! c_domain_id c) as [d|] eqn:Hd; [|done]. cbn in E.
    destruct (d_status d == DsDeleted) eqn:E1, (d_status d == DsDeleting) eqn:E2; try done. injection E as <-.
    exists k, c, d. apply bool_decide_eq_true in Hp, Hv. apply bool_decide_eq_false in E1, E2. done.
  - intros (k & c & d & Hk & Hd & Hp & Hv & E1 & E2 & ->). exists (k, c). split.
    + apply elem_of_select. split; [done|]. by rewrite !bool_decide_true.
    + cbn [snd]. rewrite Hd. cbn. by rewrite !bool_decide_false.
Qed.

(** The router serves valid certificates of live domains, each with the key that
    was sealed for its own domain.  When [RouterCertificates] succeeds, every host it
    has a pair for is the host of a domain that is not deleted, whose ACME
    certificate is valid, whose certificate file lies in the data directory, and
    whose key opens under the name of that domain; and every such domain has a pair. *)
Theorem served_certificates_are_valid w t w' :
  RouterCertificates w = (Ok t, w') ->
  w_db w' = w_db w /\ exists root,
  (forall hostname certified, t !! hostname = Some certified -> exists k c d,
     certificates (w_db w) !! k = Some c /\ domains (w_db w) !! c_domain_id c = Some d /\
     c_provider c = "acme"%string /\ c_status c = CValid /\ d_status d <> DsDeleted /\ d_status d <> DsDeleting /\
     backs root (row_of c d) hostname certified) /\
  (forall k c d, certificates (w_db w) !! k = Some c -> domains (w_db w) !! c_domain_id c = Some d ->
     c_provider c = "acme"%string -> c_status c = CValid -> d_status d <> DsDeleted -> d_status d <> DsDeleting ->
     is_Some (t !! ToLower (TrimSuffix (TrimSpace (d_normalized d)) "."))).
Proof.
  unfold RouterCertificates. intros (rows & w1 & (_ & -> & ->)%query_Ok & E)%bind_Ok.
  apply bind_Ok in E as (root & w2 & E2 & (E3 & Hrows & Hall)%load_certificates_Ok).
  pose proof (absolute_same (cfg_DataDir env_config) (step w)) as Hs. rewrite E2 in Hs.
  split; [by rewrite E3|]. exists root. split.
  - intros hostname certified Ht. destruct (Hrows _ _ Ht) as (item & Hin & Hb).
    apply elem_of_certificate_rows in Hin as (k & c & d & Hc & Hd & Hp & Hv & Hl1 & Hl2 & ->). by exists k, c, d.
  - intros k c d Hc Hd Hp Hv Hl1 Hl2. apply (Hall (row_of c d)). apply elem_of_certificate_rows. by exists k, c, d.
Qed.
End Served.

(** ** Instances *)

Definition sample_domain (st : DomainStatus) (mode : HttpsMode) : Domain :=
  {| d_user_id := "u-alice"; d_mapping_id := sample_mapping_id; d_hostname := "app.example.com";
     d_normalized := "app.example.com"; d_zone_id := None; d_https_mode := mode; d_redirect := false;
     d_status := st; d_revision := 1; d_created := 0; d_updated := 0 |}.

(** The sample mapping running, with a plain domain behind its DNS record and
    one whose certificate is still awaited. *)
Definition sample_routed : World :=
  let w := snd (sample_ack "succeeded" 1 sample_mapped) in
  mkWorld ((w_db w) <| domains := <["d-1"%string := sample_domain DsPendingRouter HttpOnly]>
    (<["d-2"%string := sample_domain DsPendingRouter AutoCertificate]> ∅) |>) (w_tick w).

Lemma published_snapshot_loads_witness :
  exists s w', @BuildRouterSnapshot sample_env sample_codec sample_routed = (Ok s, w') /\
    @Load sample_codec (mkRuntime env_router_key None "" "") s
      = Ok (mkRuntime env_router_key (Some s) "" "").
Proof.
  sample_run (@BuildRouterSnapshot sample_env sample_codec sample_routed) s w' E
    (fun s (_ : World) => Nat.eqb (List.length (sn_BusinessRoutes s)) 2) HP.
  exists s, w'. split; [reflexivity|].
  destruct (@published_snapshot_loads sample_env sample_codec _ _ _ E) as (_ & _ & _ & _ & _ & _ & _ & _ & _ & Hl).
  apply (Hl (mkRuntime env_router_key None "" "")); [reflexivity|vm_compute; reflexivity|vm_compute; reflexivity].
Defined.

Lemma router_settles_domains_witness :
  exists s w' d1 d2, @BuildRouterSnapshot sample_env sample_codec sample_routed = (Ok s, w') /\
    domains (w_db w') !! "d-1"%string = Some d1 /\ d_status d1 = DsActive /\
    domains (w_db w') !! "d-2"%string = Some d2 /\ d_status d2 = DsPendingCertificate.
Proof.
  sample_run (@BuildRouterSnapshot sample_env sample_codec sample_routed) s w' E
    (fun (_ : Snapshot) (_ : World) => true) HP.
  assert (domains (w_db sample_routed) !! "d-1"%string = Some (sample_domain DsPendingRouter HttpOnly)) as H1
    by (vm_compute; reflexivity).
  assert (domains (w_db sample_routed) !! "d-2"%string = Some (sample_domain DsPendingRouter AutoCertificate)) as H2
    by (vm_compute; reflexivity).
  destruct (@router_settles_domains sample_env sample_codec _ _ _ _ _ E H1) as (d1 & K1 & S1 & _).
  destruct (@router_settles_domains sample_env sample_codec _ _ _ _ _ E H2) as (d2 & K2 & S2 & _).
  exists s, w', d1, d2. split; [reflexivity|]. split; [exact K1|]. split; [rewrite S1; vm_compute; reflexivity|].
  split; [exact K2|]. rewrite S2. vm_compute. reflexivity.
Defined.
