(* ===== verification/KeyFiles.v ===== *)
(** The secrets the server keeps in files: its keys ([crypto.Load] and
    [loadOrCreate] of [server/internal/crypto/crypto.go]) and the transport secret
    of FRPS ([LoadOrCreateTransportSecret] of [server/internal/config/config.go]);
    and the files of certificates ([writeAtomicPrivate] of
    [server/internal/service/cloudflare_jobs.go]).

    Several servers may be started on one data directory, so these functions are
    programs whose system calls another process may run between.  A program is the
    tree of its calls; [run] executes one alone, [interleave] several in the order
    of a schedule.  A process that the schedule leaves out has been killed. *)

From S2P Require Import Prelude GoText GoPath Encoding.
From Stdlib Require Import Ascii String.
Open Scope Z_scope.

(** ** Programs *)

(** What [os.IsNotExist] and [os.IsExist] tell apart. *)
Inductive OsError := NotExist | Exist | OsText (text : string).
#[export] Instance OsError_eq_dec : EqDecision OsError.
Proof. solve_decision. Defined.

(** [SysHandle] is any call on an open file or directory that changes no content
    ([Chmod], [Sync], [Close]), [SysWrite] a write of a whole file that was empty. *)
Inductive Syscall :=
| SysReadFile (path : string)
| SysMkdirAll (path : string)
| SysRandom (n : nat)
| SysCreateTemp (dir prefix : string)
| SysOpenTruncated (path : string)
| SysWrite (path content : string)
| SysHandle
| SysLink (source target : string)
| SysRename (source target : string)
| SysRemove (path : string).

Inductive Prog (A : Type) :=
| Done (r : res OsError A)
| Call (c : Syscall) (k : res OsError string -> Prog A).
Arguments Done {A} r.
Arguments Call {A} c k.

Section Programs.
Context {A B : Type}.

Definition give (a : A) : Prog A := Done (Ok a).
Definition raise (e : OsError) : Prog A := Done (Err e).

Fixpoint then_do (p : Prog A) (k : A -> Prog B) : Prog B :=
  match p with
  | Done (Ok a) => k a
  | Done (Err e) => Done (Err e)
  | Call c f => Call c (fun r => then_do (f r) k)
  end.

(** The result of a call whose error the code inspects, or ignores. *)
Fixpoint catch (p : Prog A) : Prog (res OsError A) :=
  match p with
  | Done r => Done (Ok r)
  | Call c f => Call c (fun r => catch (f r))
  end.

Fixpoint wrap_error (f : OsError -> OsError) (p : Prog A) : Prog A :=
  match p with
  | Done (Ok a) => Done (Ok a)
  | Done (Err e) => Done (Err (f e))
  | Call c k => Call c (fun r => wrap_error f (k r))
  end.
End Programs.

#[export] Instance Prog_ret : MRet Prog := @give.
#[export] Instance Prog_bind : MBind Prog := fun A B k p => then_do p k.

(** [defer cleanup()] before [body]. *)
Definition with_deferred {A} (cleanup : Prog unit) (body : Prog A) : Prog A :=
  r ← catch body; catch cleanup;; Done r.

Definition syscall (c : Syscall) : Prog string := Call c Done.
Definition syscall_ (c : Syscall) : Prog unit := syscall c;; give tt.

(** [os.WriteFile] truncates the file, writes, and closes it. *)
Definition os_WriteFile (path content : string) : Prog unit :=
  syscall_ (SysOpenTruncated path);; syscall_ (SysWrite path content);; syscall_ SysHandle.

Definition syncDirectory (path : string) : Prog unit :=
  syscall_ SysHandle;; with_deferred (syscall_ SysHandle) (syscall_ SysHandle).

(** ** The transport secret *)

Definition nl : string := String (ascii_of_nat 10) "".

Definition readTransportSecret (path : string) : Prog string :=
  encoded ← syscall (SysReadFile path);
  let value := TrimSpace encoded in
  if Nat.ltb (String.length value) 32 then raise (OsText "FRPS transport secret is too short") else give value.

(** The new secret is written to a file of its own, which is then linked under
    the name of the secret, unless there is one. *)
Definition publish_secret (path value temporaryName : string) : Prog string :=
  with_deferred (catch (syscall_ SysHandle);; catch (syscall_ (SysRemove temporaryName));; give tt) (
    syscall_ SysHandle;;
    syscall_ (SysWrite temporaryName (value ++ nl));;
    syscall_ SysHandle;;
    syscall_ SysHandle;;
    linked ← catch (syscall_ (SysLink temporaryName path));
    match linked with
    | Err Exist => readTransportSecret path
    | Err e => raise e
    | Ok _ => syncDirectory (Dir path);; give value
    end).

Definition LoadOrCreateTransportSecret (path : string) : Prog string :=
  if String.eqb (TrimSpace path) "" then raise (OsText "FRPS transport secret file is required")
  else
    found ← catch (readTransportSecret path);
    match found with
    | Ok value => give value
    | Err NotExist =>
        syscall_ (SysMkdirAll (Dir path));;
        randomBytes ← syscall (SysRandom 32);
        let value := b64_encode url_alphabet randomBytes in
        temporaryName ← syscall (SysCreateTemp (Dir path) ("." ++ Base path ++ ".tmp-"));
        publish_secret path value temporaryName
    | Err e => raise e
    end.

(** ** The files of certificates ([writeAtomicPrivate] of [cloudflare_jobs.go])

    [stamp] is the time in nanoseconds, in decimal. *)

Definition writeAtomicPrivate (path content stamp : string) : Prog unit :=
  let tmp := path ++ ".tmp." ++ stamp in
  with_deferred (syscall_ (SysRemove tmp)) (
    syscall_ (SysMkdirAll (Dir path));;
    syscall_ (SysOpenTruncated tmp);;
    written ← catch (syscall_ (SysWrite tmp content));
    match written with Ok _ => give tt | Err e => catch (syscall_ SysHandle);; raise e end;;
    synced ← catch (syscall_ SysHandle);
    match synced with Ok _ => give tt | Err e => catch (syscall_ SysHandle);; raise e end;;
    syscall_ SysHandle;;
    syscall_ (SysRename tmp path);;
    syncDirectory (Dir path)).

(** ** The keys *)

(** [ed25519.NewKeyFromSeed] and SHA-256. *)
Class KeyMath := { private_of_seed : string -> string; key_sha256 : string -> string }.

Record Manager := mkManager {
  mn_MasterKey : string;
  mn_RouterKey : string;
  mn_CertificateKey : string;
  mn_SignKey : string;
  mn_KeyID : string
}.
#[export] Instance Manager_eq_dec : EqDecision Manager.
Proof. solve_decision. Defined.

Section Keys.
Context `{KeyMath}.

Definition private_key_size : nat := 64.

(** [ed25519.GenerateKey] takes a seed of 32 random bytes. *)
Definition new_key (size : nat) : Prog string :=
  if Nat.eqb size private_key_size
  then seed ← syscall (SysRandom 32); give (private_of_seed seed)
  else syscall (SysRandom size).

Definition loadOrCreate (path : string) (size : nat) : Prog string :=
  found ← catch (syscall (SysReadFile path));
  match found with
  | Ok content =>
      if Nat.eqb (String.length content) size then give content
      else raise (OsText (Base path ++ " has invalid length"))
  | Err _ =>
      syscall_ (SysMkdirAll (Dir path));;
      content ← new_key size;
      os_WriteFile path content;;
      give content
  end.

Definition error_text_of (e : OsError) : string :=
  match e with NotExist => "file does not exist" | Exist => "file already exists" | OsText t => t end.
Definition prefixed (prefix : string) (e : OsError) : OsError := OsText (prefix ++ error_text_of e).

(** The public key is the second half of the private one. *)
Definition key_id (signKey : string) : string :=
  b64_encode url_alphabet (take_str 8 (key_sha256 (drop_str 32 signKey))).

Definition Load (dataDir masterPath signingPath : string) : Prog Manager :=
  master ← wrap_error (prefixed "master key: ") (loadOrCreate masterPath 32);
  signing ← wrap_error (prefixed "config signing key: ") (loadOrCreate signingPath private_key_size);
  routerKey ← wrap_error (prefixed "router snapshot key: ") (loadOrCreate (Join [dataDir; "router-snapshot.key"]) 32);
  certificateKey ← wrap_error (prefixed "certificate wrapping key: ")
    (loadOrCreate (Join [dataDir; "certificate-wrapping.key"]) 32);
  give (mkManager master routerKey certificateKey signing (key_id signing)).

(** [Sign], for the signature [ed25519.Sign] makes of a text under a key. *)
Definition Manager_Sign (ed25519_sign : string -> string -> string) (m : Manager) (data : string) : string :=
  b64_encode url_alphabet (ed25519_sign (mn_SignKey m) data).
End Keys.

(** ** The machine

    The [n]-th call of all the processes of a machine may fail; [mc_torn] is how
    much of a write that fails is in the file, [mc_temp] the random digits in the
    name of a temporary file, [mc_random] what the random generator fills a buffer
    with.  Files are named by their clean absolute paths. *)

Class Machine := {
  mc_fault : nat -> option OsError;
  mc_torn : nat -> nat;
  mc_random : nat -> nat -> string;
  mc_random_length n k : String.length (mc_random n k) = k;
  mc_temp : nat -> string;
  mc_temp_digits n : forallb_str is_digit (mc_temp n) = true;
  mc_cwd : string
}.

Abbreviation Disk := (gmap string string).
Record Host := mkHost { h_files : Disk; h_tick : nat }.

Section Machine.
Context `{Machine}.

Definition file_key (path : string) : string :=
  if is_rooted path then Clean path else Clean (mc_cwd ++ "/" ++ path).

Definition temp_name (dir prefix : string) (n : nat) : string :=
  dir ++ (if HasSuffix dir "/" then "" else "/") ++ prefix ++ mc_temp n.

(** A call that does not fail. *)
Definition answer (n : nat) (c : Syscall) (fs : Disk) : res OsError string * Disk :=
  match c with
  | SysReadFile path => (match fs !! file_key path with Some s => Ok s | None => Err NotExist end, fs)
  | SysMkdirAll _ | SysHandle => (Ok "", fs)
  | SysRandom k => (Ok (mc_random n k), fs)
  | SysCreateTemp dir prefix =>
      let path := temp_name dir prefix n in
      match fs !! file_key path with
      | Some _ => (Err Exist, fs)
      | None => (Ok path, <[file_key path := ""]> fs)
      end
  | SysOpenTruncated path => (Ok "", <[file_key path := ""]> fs)
  | SysWrite path content => (Ok "", <[file_key path := content]> fs)
  | SysLink source target =>
      match fs !! file_key source, fs !! file_key target with
      | None, _ => (Err NotExist, fs)
      | Some _, Some _ => (Err Exist, fs)
      | Some s, None => (Ok "", <[file_key target := s]> fs)
      end
  | SysRename source target =>
      match fs !! file_key source with
      | Some s => (Ok "", <[file_key target := s]> (delete (file_key source) fs))
      | None => (Err NotExist, fs)
      end
  | SysRemove path =>
      match fs !! file_key path with
      | Some _ => (Ok "", delete (file_key path) fs)
      | None => (Err NotExist, fs)
      end
  end%string.

(** What a call that fails leaves. *)
Definition broken (n : nat) (c : Syscall) (fs : Disk) : Disk :=
  match c with
  | SysWrite path content => <[file_key path := take_str (mc_torn n) content]> fs
  | _ => fs
  end.

Definition perform (c : Syscall) (h : Host) : res OsError string * Host :=
  let n := h_tick h in
  match mc_fault n with
  | Some e => (Err e, mkHost (broken n c (h_files h)) (S n))
  | None => let '(r, fs) := answer n c (h_files h) in (r, mkHost fs (S n))
  end.

Fixpoint run {A} (p : Prog A) (h : Host) : res OsError A * Host :=
  match p with
  | Done r => (r, h)
  | Call c k => let '(r, h') := perform c h in run (k r) h'
  end.

(** Processes that take turns, a call at a time. *)
Definition turn {A} (i : nat) (s : Host * list (Prog A)) : Host * list (Prog A) :=
  match s.2 !! i with
  | Some (Call c k) => let '(r, h) := perform c s.1 in (h, <[i := k r]> s.2)
  | _ => s
  end.
Definition interleave {A} (schedule : list nat) (s : Host * list (Prog A)) : Host * list (Prog A) :=
  fold_left (fun s i => turn i s) schedule s.
End Machine.

(** ** Names of temporary files *)

(** A path whose last component is a name. *)
Definition last_component (path : string) : string := List.last (SplitByte path "/") "".
Definition named (path : string) : Prop := plain_name (last_component path).

Lemma SplitByte_single s x : SplitByte s "/" = [x] -> x = s.
Proof.
  revert x. induction s as [|c s IH]; simpl; [by intros x [= <-]|]. intros x.
  destruct (Ascii.eqb c "/"); [intros [= _ E]; by apply SplitByte_nonempty in E|].
  destruct (SplitByte s "/") as [|y [|z l]] eqn:Es; intros E; inversion E; subst; [|by rewrite (IH y)].
  by apply SplitByte_nonempty in Es.
Qed.

Lemma drop_slashes_id s : last_component s <> "" -> drop_slashes s = s.
Proof.
  unfold last_component. induction s as [|c s IH]; [done|]. cbn [drop_slashes SplitByte]. intros Hl.
  destruct (decide (s = "")) as [->|Hs].
  { cbn in *. destruct (Ascii.eqb c "/"); done. }
  assert (List.last (SplitByte s "/") "" <> "") as Hl'.
  { pose proof (SplitByte_nonempty s "/"). destruct (Ascii.eqb c "/"), (SplitByte s "/") as [|x [|y l]] eqn:E; try done.
    apply SplitByte_single in E. by subst. }
  rewrite IH by done. by destruct (String.eqb_spec s "").
Qed.

Lemma Base_named path : named path -> Base path = last_component path.
Proof.
  intros (Hn & _). unfold Base. rewrite drop_slashes_id by done. fold (last_component path).
  destruct (String.eqb_spec path "") as [->|]; [done|]. by destruct (last_component path).
Qed.

Lemma last_component_app r s : last_component (r ++ String "/" s) = last_component s.
Proof.
  unfold last_component. rewrite SplitByte_app. pose proof (SplitByte_nonempty s "/") as Hn.
  destruct (exists_last Hn) as (l & x & ->). by rewrite app_assoc, !last_last.
Qed.

Lemma clean_top x : named x -> exists st, clean_stack x = last_component x :: st.
Proof.
  intros Hn. unfold clean_stack. rewrite (app_removelast_last "" (SplitByte_nonempty x "/")).
  rewrite fold_left_app. cbn [fold_left]. fold (last_component x). rewrite clean_step_plain by done. eauto.
Qed.

Section Names.
Context `{Machine}.

Lemma key_top path : named path -> exists st, clean_stack (file_key path) = last_component path :: st.
Proof.
  intros Hn. unfold file_key. destruct (is_rooted path).
  - destruct (Clean_stack path) as [_ ->]. by apply clean_top.
  - destruct (Clean_stack (mc_cwd ++ "/" ++ path)) as [_ ->].
    change ("/" ++ path) with (String "/" path). rewrite <- (last_component_app mc_cwd path).
    apply clean_top. unfold named. by rewrite last_component_app.
Qed.

Lemma no_slash_plain c : no_slash c -> SplitByte c "/" = [c].
Proof. apply SplitByte_plain. Qed.

Lemma plain_temp_part name n : no_slash name -> plain_name ("." ++ name ++ ".tmp-" ++ mc_temp n).
Proof.
  intros Hn. split; [done|]. split; [by destruct name|]. split.
  { destruct name as [|a [|b name]]; done. }
  rewrite !forallb_str_append. rewrite Hn. simpl.
  pose proof (mc_temp_digits n) as Hd. induction (mc_temp n) as [|a s IH]; [done|]. simpl in *.
  apply andb_true_iff in Hd as [Ha Hd]. rewrite IH by done. rewrite andb_true_r. apply negb_true_iff, Ascii.eqb_neq.
  by intros ->.
Qed.

(** The temporary file is not the file itself. *)
Lemma temp_apart path n :
  named path -> file_key (temp_name (Dir path) ("." ++ Base path ++ ".tmp-") n) <> file_key path.
Proof.
  intros Hn E. set (part := ("." ++ last_component path ++ ".tmp-" ++ mc_temp n)%string).
  assert (plain_name part) as Hp by (apply plain_temp_part; apply Hn).
  assert (exists r, temp_name (Dir path) ("." ++ Base path ++ ".tmp-") n = r ++ String "/" part) as [r Hr].
  { unfold temp_name. rewrite Base_named by done. destruct (HasSuffix (Dir path) "/") eqn:Hs.
    - unfold HasSuffix in Hs. destruct (Nat.ltb _ _); [done|]. apply String.eqb_eq in Hs.
      exists (take_str (String.length (Dir path) - 1) (Dir path)). rewrite <- (take_drop_str (String.length (Dir path) - 1) (Dir path)) at 1.
      simpl String.length in Hs at 2. rewrite Hs. subst part. by rewrite !append_assoc.
    - exists (Dir path). subst part. by rewrite !append_assoc. }
  assert (last_component (temp_name (Dir path) ("." ++ Base path ++ ".tmp-") n) = part) as Hl.
  { rewrite Hr, last_component_app. unfold last_component. rewrite no_slash_plain by apply Hp. done. }
  destruct (key_top (temp_name (Dir path) ("." ++ Base path ++ ".tmp-") n)) as [st1 E1]; [unfold named; by rewrite Hl|].
  destruct (key_top path Hn) as [st2 E2]. rewrite E, E2, Hl in E1. injection E1 as E1 _.
  apply (f_equal String.length) in E1. subst part. rewrite !length_app_str in E1. simpl in E1. lia.
Qed.
End Names.

(** ** Processes that share a disk

    A process owns the temporary files it made.  It may rely on the others to leave
    those, and the published file [p], as they are, and guarantees the same to
    them.  [safe Q own P fs]: however the others run between its calls, and
    whichever calls fail, [P] keeps this up and ends with what [Q] says of its
    result, the files it still owns, and the disk. *)

Section Sharing.
Context `{Machine} (p : string).

Definition rely (own : gset string) (fs fs' : Disk) : Prop :=
  forall q c, q ∈ own \/ q = p -> fs !! q = Some c -> fs' !! q = Some c.

Definition guarantee (own own' : gset string) (fs fs' : Disk) : Prop :=
  (forall q c, q ∉ own -> fs !! q = Some c -> fs' !! q = Some c) /\
  (forall q, q ∈ own' -> q <> p /\ is_Some (fs' !! q) /\ (q ∈ own \/ fs !! q = None)).

Definition owned (own : gset string) (fs : Disk) : Prop := forall q, q ∈ own -> q <> p /\ is_Some (fs !! q).

Fixpoint safe {A} (Q : res OsError A -> gset string -> Disk -> Prop) (own : gset string) (P : Prog A) (fs : Disk) : Prop :=
  match P with
  | Done r => forall fs', rely own fs fs' -> Q r own fs'
  | Call c k => forall fs' n, rely own fs fs' -> owned own fs' ->
      let '(r, h) := perform c (mkHost fs' n) in
      exists own', guarantee own own' fs' (h_files h) /\ safe Q own' (k r) (h_files h)
  end.

#[global] Instance rely_preorder own : PreOrder (rely own).
Proof. split; unfold rely; eauto. Qed.

Lemma rely_refl own fs : rely own fs fs.
Proof. reflexivity. Qed.

Lemma safe_rely {A} Q own (P : Prog A) fs fs' : rely own fs fs' -> safe Q own P fs -> safe Q own P fs'.
Proof.
  intros Hr. destruct P as [r|c k]; simpl.
  - intros HQ fs2 H2. apply HQ. by etrans.
  - intros HP fs2 n H2. apply HP. by etrans.
Qed.

Lemma safe_weaken {A} (Q Q' : res OsError A -> gset string -> Disk -> Prop) own P fs :
  (forall r o d, Q r o d -> Q' r o d) -> safe Q own P fs -> safe Q' own P fs.
Proof.
  intros HQ. revert own fs. induction P as [r|c k IH]; simpl; intros own fs HP; [by auto|].
  intros fs' n Hr Ho. specialize (HP fs' n Hr Ho). destruct (perform c _) as [r h].
  destruct HP as (own' & Hg & HP). eauto.
Qed.

(** What a program does after another. *)
Definition after_ok {A B} (k : A -> Prog B) (Q : res OsError B -> gset string -> Disk -> Prop)
    (r : res OsError A) (own : gset string) (fs : Disk) : Prop :=
  match r with Ok a => safe Q own (k a) fs | Err e => Q (Err e) own fs end.

Lemma safe_bind {A B} (P : Prog A) (k : A -> Prog B) Q own fs :
  safe (after_ok k Q) own P fs -> safe Q own (P ≫= k) fs.
Proof.
  revert own fs. induction P as [[a|e]|c f IH]; intros own fs HP; cbn.
  - exact (HP fs (rely_refl _ _)).
  - intros fs' Hr. exact (HP fs' Hr).
  - intros fs' n Hr Ho. specialize (HP fs' n Hr Ho). destruct (perform c _) as [r h].
    destruct HP as (own' & Hg & HP). exists own'. split; [done|]. by apply IH.
Qed.

Lemma safe_catch {A} (P : Prog A) Q own fs :
  safe (fun r => Q (Ok r)) own P fs -> safe Q own (catch P) fs.
Proof.
  revert own fs. induction P as [r|c f IH]; intros own fs HP; cbn; [exact HP|].
  intros fs' n Hr Ho. specialize (HP fs' n Hr Ho). destruct (perform c _) as [r h].
  destruct HP as (own' & Hg & HP). eauto.
Qed.

(** An answer is a value that what follows is told. *)
Definition told (Q : res OsError string -> gset string -> Disk -> Prop) (c : Syscall) (own : gset string) (fs : Disk) : Prop :=
  forall fs' n, rely own fs fs' -> owned own fs' ->
    let '(r, h) := perform c (mkHost fs' n) in
    exists own', guarantee own own' fs' (h_files h) /\ (forall fs2, rely own' (h_files h) fs2 -> Q r own' fs2).

Lemma safe_syscall Q c own fs : told Q c own fs -> safe Q own (syscall c) fs.
Proof. intros HQ. exact HQ. Qed.

(** A call that changes no file. *)
Definition quiet (c : Syscall) : bool :=
  match c with SysReadFile _ | SysMkdirAll _ | SysRandom _ | SysHandle => true | _ => false end.

Lemma guarantee_same own fs : owned own fs -> guarantee own own fs fs.
Proof. intros Ho. split; [done|]. intros q Hq. destruct (Ho q Hq). auto. Qed.

Lemma quiet_files c h : quiet c = true -> h_files (snd (perform c h)) = h_files h.
Proof. unfold perform. destruct (mc_fault _); destruct c; try done; simpl; by repeat case_match. Qed.

Lemma told_quiet c (Q : res OsError string -> gset string -> Disk -> Prop) own fs :
  quiet c = true ->
  (forall fs' n r, rely own fs fs' -> r = fst (perform c (mkHost fs' n)) -> forall fs2, rely own fs' fs2 -> Q r own fs2) ->
  told Q c own fs.
Proof.
  intros Hc HQ fs' n Hr Ho. pose proof (quiet_files c (mkHost fs' n) Hc) as Hf. specialize (HQ fs' n _ Hr eq_refl).
  destruct (perform c _) as [r h]. simpl in Hf. rewrite Hf. exists own. split; [by apply guarantee_same|]. exact HQ.
Qed.

(** Bounded programs: at most [n] calls. *)
Fixpoint within {A} (n : nat) (P : Prog A) : Prop :=
  match P with
  | Done _ => True
  | Call c k => match n with O => False | S n => forall r, within n (k r) end
  end.
End Sharing.

Section Calls.
Context `{Machine} (p : string).
Abbreviation Post := (res OsError string -> gset string -> Disk -> Prop).
Implicit Types (own : gset string) (fs : Disk).

Definition unit_of (r : res OsError string) : res OsError unit :=
  match r with Ok _ => Ok tt | Err e => Err e end.

Lemma safe_unit c (Q : res OsError unit -> gset string -> Disk -> Prop) own fs :
  told p (fun r => Q (unit_of r)) c own fs -> safe p Q own (syscall_ c) fs.
Proof.
  intros HQ. unfold syscall_. apply safe_bind, safe_syscall. intros fs' n Hr Ho. specialize (HQ fs' n Hr Ho).
  destruct (perform c _) as [r h]. destruct HQ as (own' & Hg & HQ). exists own'. split; [done|].
  intros fs2 H2. destruct r as [s|e]; [|exact (HQ fs2 H2)]. intros fs3 H3. apply (HQ fs3). by etrans.
Qed.

(** A call that changes no file, when its answer does not matter. *)
Lemma safe_quiet c (Q : res OsError unit -> gset string -> Disk -> Prop) own fs :
  quiet c = true -> (forall r fs', rely p own fs fs' -> Q r own fs') -> safe p Q own (syscall_ c) fs.
Proof.
  intros Hc HQ. apply safe_unit, told_quiet; [done|]. intros fs' n r Hr _ fs2 H2. apply HQ. by etrans.
Qed.

(** Creating, writing, linking and removing a temporary file. *)
Lemma told_create dir prefix (Q : Post) fs :
  (forall n, file_key (temp_name dir prefix n) <> p) ->
  (forall path fs', file_key path <> p -> rely p ∅ fs fs' -> is_Some (fs' !! file_key path) -> Q (Ok path) {[file_key path]} fs') ->
  (forall e fs', Q (Err e) ∅ fs') ->
  told p Q (SysCreateTemp dir prefix) ∅ fs.
Proof.
  intros Hne HOk HErr fs' n Hr Ho. unfold perform. cbn [h_tick h_files].
  destruct (mc_fault n) as [e|]; [exists ∅; split; [by apply guarantee_same|intros; apply HErr]|]. simpl.
  set (path := temp_name dir prefix n). destruct (fs' !! file_key path) as [c|] eqn:E; simpl.
  { exists ∅. split; [by apply guarantee_same|intros; apply HErr]. }
  exists {[file_key path]}. split; [split|].
  - intros q c _ Hq. rewrite lookup_insert_ne; [done|congruence].
  - intros q ->%elem_of_singleton. rewrite lookup_insert_eq. split; [apply Hne|]. eauto.
  - intros fs2 H2. apply HOk; [apply Hne| |].
    + etrans; [exact Hr|]. intros q c [Hq|Hq] E2; [by apply elem_of_empty in Hq|]. subst q.
      apply H2; [by right|]. rewrite lookup_insert_ne; [done|]. apply Hne.
    + eexists. apply (H2 _ ""); [left; by apply elem_of_singleton|apply lookup_insert_eq].
Qed.

Lemma told_write path content (Q : Post) own fs :
  file_key path ∈ own -> file_key path <> p ->
  (forall fs', rely p {[p]} fs fs' -> fs' !! file_key path = Some content -> Q (Ok "") own fs') ->
  (forall e fs', rely p {[p]} fs fs' -> Q (Err e) own fs') ->
  told p Q (SysWrite path content) own fs.
Proof.
  intros Hin Hp HOk HErr fs' n Hr Ho.
  assert (forall c, guarantee p own own fs' (<[file_key path := c]> fs')) as Hg.
  { intros c. split.
    - intros q c' Hq E. rewrite lookup_insert_ne; [done|]. by intros <-.
    - intros q Hq. destruct (Ho q Hq) as [? Hs]. split; [done|]. split; [|by left].
      destruct (decide (q = file_key path)) as [->|]; [rewrite lookup_insert_eq; eauto|by rewrite lookup_insert_ne]. }
  assert (forall c fs2, rely p own (<[file_key path := c]> fs') fs2 -> rely p {[p]} fs fs2) as Hp2.
  { intros c fs2 H2 q d Hq E. assert (q = p) as -> by set_solver. apply H2; [by right|].
    rewrite lookup_insert_ne by done. apply Hr; [by right|done]. }
  unfold perform. cbn [h_tick h_files]. destruct (mc_fault n) as [e|]; simpl; exists own; (split; [apply Hg|]); intros fs2 H2.
  - apply HErr. by eapply Hp2.
  - apply HOk; [by eapply Hp2|]. apply H2; [by left|apply lookup_insert_eq].
Qed.

Lemma told_link source target content (Q : Post) own fs :
  file_key source ∈ own -> file_key target = p -> fs !! file_key source = Some content ->
  (forall fs', fs' !! p = Some content -> Q (Ok "") own fs') ->
  (forall e fs', Q (Err e) own fs') ->
  told p Q (SysLink source target) own fs.
Proof.
  intros Hin Hp Hc HOk HErr fs' n Hr Ho. apply (Hr _ content) in Hc; [|by left].
  unfold perform. cbn [h_tick h_files]. destruct (mc_fault n) as [e|];
    [exists own; split; [by apply guarantee_same|intros; apply HErr]|]. cbn [answer]. rewrite Hc, Hp.
  destruct (fs' !! p) as [c|] eqn:E; simpl; exists own.
  { split; [by apply guarantee_same|intros; apply HErr]. }
  split; [split|].
  - intros q d _ Hq. rewrite lookup_insert_ne; [done|congruence].
  - intros q Hq. destruct (Ho q Hq) as [Hne Hs]. rewrite lookup_insert_ne by done. auto.
  - intros fs2 H2. apply HOk, H2; [by right|]. apply lookup_insert_eq.
Qed.

Lemma told_remove path (Q : Post) fs :
  file_key path <> p ->
  (forall r own fs', rely p {[p]} fs fs' -> Q r own fs') ->
  told p Q (SysRemove path) {[file_key path]} fs.
Proof.
  intros Hp HQ fs' n Hr Ho.
  assert (forall o fs2 fs3, fs2 !! p = fs' !! p -> rely p o fs2 fs3 -> rely p {[p]} fs fs3) as Hp2.
  { intros o fs2 fs3 E H2 q d Hq Eq. assert (q = p) as -> by set_solver. apply H2; [by right|]. rewrite E. apply Hr; [by right|done]. }
  unfold perform. cbn [h_tick h_files]. destruct (mc_fault n) as [e|]; simpl.
  { exists {[file_key path]}. split; [by apply guarantee_same|]. intros fs2 H2. apply HQ. by eapply Hp2. }
  destruct (fs' !! file_key path) as [c|]; simpl.
  - exists ∅. split; [split|].
    + intros q d Hq E. rewrite lookup_delete_ne; [done|set_solver].
    + intros q Hq. by apply elem_of_empty in Hq.
    + intros fs2 H2. apply HQ. eapply Hp2; [|exact H2]. by rewrite lookup_delete_ne.
  - exists {[file_key path]}. split; [by apply guarantee_same|]. intros fs2 H2. apply HQ. by eapply Hp2.
Qed.
End Calls.

(** One step of a proof of [safe]: a sequence, a caught error, a call that changes
    no file. *)
Ltac safe_step :=
  match goal with
  | |- safe _ _ _ (mbind _ _) _ => apply safe_bind
  | |- safe _ _ _ (catch _) _ => apply safe_catch
  | |- safe _ _ _ (syscall_ _) _ => apply safe_quiet; [reflexivity|]
  end.

(** ** A secret and the line it is written as *)

Lemma TrimSpace_line v : forallb_str graphic v = true -> v <> "" -> TrimSpace (v ++ nl) = v.
Proof.
  intros Hg Hn. assert (String.length (v ++ nl) = S (String.length v)) as Hlen.
  { rewrite length_app_str. unfold nl. simpl. lia. }
  assert (trim_left_n (S (String.length v)) (v ++ nl) = v ++ nl) as Hl.
  { destruct v as [|c v]; [done|]. cbn [trim_left_n].
    destruct (List.find _ go_spaces) as [w|] eqn:E; [|done]. apply List.find_some in E as [Hin Hw].
    assert (forallb (fun w => match w with String a _ => negb (graphic a) | "" => false end) go_spaces = true) as Hall by reflexivity.
    rewrite forallb_forall in Hall. specialize (Hall w Hin). destruct w as [|a w]; [done|].
    rewrite append_cons in Hw. cbn [HasPrefix] in Hw. apply andb_true_iff in Hw as [Hw _]. apply Ascii.eqb_eq in Hw as ->.
    cbn [forallb_str] in Hg. apply andb_true_iff in Hg as [Hg _]. by rewrite Hg in Hall. }
  unfold TrimSpace. rewrite !Hlen, Hl, Hlen. cbn [trim_right_n].
  assert (forall a, HasSuffix (v ++ nl) (String a "") = String.eqb nl (String a "")) as Hs.
  { intros a. unfold HasSuffix. rewrite Hlen. cbn [String.length Nat.sub]. rewrite Nat.sub_0_r, drop_str_app. done. }
  assert (List.find (HasSuffix (v ++ nl)) go_spaces = Some (bytes [10%nat])) as ->.
  { unfold go_spaces, bytes. cbn [List.find fold_right]. by rewrite !Hs. }
  rewrite Hlen. cbn [bytes fold_right String.length Nat.sub]. rewrite Nat.sub_0_r, take_str_app.
  destruct (String.length v); [done|]. cbn [trim_right_n]. rewrite (find_spaces_None _ v); [done| |done].
  intros w. apply HasSuffix_chars.
Qed.

Lemma b64_graphic s : forallb_str graphic (b64_encode url_alphabet s) = true.
Proof. apply b64_encode_chars. intros x. by destruct x as [[] [] [] [] [] []]. Qed.

Section Secret.
Context `{Machine} (path : string) (Hpath : named path).
Abbreviation p := (file_key path).

Definition new_secret (v : string) : Prop := TrimSpace (v ++ nl) = v /\ (32 <= String.length v)%nat.

Lemma random_secret n : new_secret (b64_encode url_alphabet (mc_random n 32)).
Proof using Type.
  assert (String.length (b64_encode url_alphabet (mc_random n 32)) = 43%nat) as Hl.
  { by rewrite b64_length, mc_random_length. }
  split; [|rewrite Hl; lia]. apply TrimSpace_line; [apply b64_graphic|]. intros E. by rewrite E in Hl.
Qed.

(** The secret a call returns is the one in the file. *)
Definition published (r : res OsError string) (_ : gset string) (fs : Disk) : Prop :=
  match r with
  | Ok v => (32 <= String.length v)%nat /\ exists c, fs !! p = Some c /\ TrimSpace c = v
  | Err _ => True
  end.

(** It stays there. *)
Definition later (fs fs' : Disk) : Prop := forall c, fs !! p = Some c -> fs' !! p = Some c.
#[local] Instance later_preorder : PreOrder later.
Proof. split; unfold later; eauto. Qed.
Lemma rely_later o fs fs' : rely p o fs fs' -> later fs fs'.
Proof using Type. intros Hr c. apply Hr. by right. Qed.

Lemma published_later r o o' fs fs' : later fs fs' -> published r o fs -> published r o' fs'.
Proof using Type. destruct r as [v|e]; [|done]. intros Hr (Hl & c & Hc & Ht). split; [done|]. exists c. split; [by apply Hr|done]. Qed.

Definition keeps_own (own : gset string) (r : res OsError string) (o : gset string) (fs : Disk) : Prop :=
  o = own /\ published r o fs.

Lemma read_published own fs : safe p (keeps_own own) own (readTransportSecret path) fs.
Proof using Type.
  unfold readTransportSecret. safe_step. apply safe_syscall, told_quiet; [done|].
  intros fs' n r Hr -> fs2 H2. unfold perform. cbn [h_tick h_files]. destruct (mc_fault n) as [e|]; [done|]. cbn [answer].
  destruct (fs' !! p) as [c|] eqn:E; [|done]. simpl. destruct (Nat.ltb_spec (String.length (TrimSpace c)) 32) as [|Hlen]; [done|].
  intros fs3 H3. split; [done|]. split; [done|]. exists c. split; [|done]. eapply rely_later; [exact H3|]. by eapply rely_later.
Qed.

Lemma sync_published v own fs :
  published (Ok v) own fs -> safe p (keeps_own own) own (syncDirectory (Dir path);; give v) fs.
Proof using Type.
  intros Hv. unfold syncDirectory, with_deferred. repeat safe_step.
  intros [[]|e] fs1 H1; [|done]. cbn [after_ok]. repeat safe_step.
  intros r fs2 H2. cbn [after_ok]. repeat safe_step. intros r' fs3 H3. cbn [after_ok].
  intros fs4 H4. destruct r as [[]|e]; [|done]. cbn [after_ok]. intros fs5 H5. split; [done|].
  eapply published_later; [|exact Hv].
  etrans; [by eapply rely_later|]. etrans; [by eapply rely_later|]. etrans; [by eapply rely_later|].
  etrans; by eapply rely_later.
Qed.

(** Removing the temporary file leaves the result what it is. *)
Lemma cleanup_published r tmp fs :
  file_key tmp <> p -> published r ∅ fs ->
  safe p published {[file_key tmp]}
    (catch (catch (syscall_ SysHandle);; catch (syscall_ (SysRemove tmp));; give tt);; Done r) fs.
Proof using Type.
  intros Hne Hr. repeat safe_step. intros r1 fs1 H1. cbn [after_ok]. safe_step. safe_step. apply safe_unit.
  apply told_remove; [done|]. intros r2 own fs2 H2. cbn [after_ok]. intros fs3 H3. cbn [after_ok]. intros fs4 H4.
  eapply published_later; [|exact Hr].
  etrans; [by eapply rely_later|]. etrans; [by eapply rely_later|]. etrans; by eapply rely_later.
Qed.

Lemma publish_published v tmp fs :
  file_key tmp <> p -> new_secret v -> safe p published {[file_key tmp]} (publish_secret path v tmp) fs.
Proof using Type.
  intros Hne [Hv Hlen]. unfold publish_secret, with_deferred. safe_step. safe_step.
  apply safe_weaken with (Q := keeps_own {[file_key tmp]}).
  { intros r o d [-> Hr]. apply cleanup_published; [done|]. by eapply published_later. }
  assert (forall e d, keeps_own {[file_key tmp]} (Err e) {[file_key tmp]} d) as HE by done.
  safe_step. safe_step. intros [[]|e] fs1 _; [|done]. cbn [after_ok]. safe_step.
  apply safe_unit, (told_write _ _ (v ++ nl)); [by apply elem_of_singleton|done| |done].
  intros fs2 _ E2. cbn [after_ok unit_of]. safe_step. safe_step. intros [[]|e] fs3 H3; [|done]. cbn [after_ok].
  safe_step. safe_step. intros [[]|e] fs4 H4; [|done]. cbn [after_ok]. safe_step. safe_step. apply safe_unit.
  apply told_link with (content := v ++ nl); [by apply elem_of_singleton|done| | |].
  - apply H4; [left; by apply elem_of_singleton|]. apply H3; [left; by apply elem_of_singleton|done].
  - intros fs5 E5. cbn [after_ok unit_of]. apply sync_published. split; [done|]. eauto.
  - intros e fs5. cbn [after_ok unit_of]. destruct e; [done| |done]. apply read_published.
Qed.

Lemma load_published fs : safe p published ∅ (LoadOrCreateTransportSecret path) fs.
Proof using Hpath.
  unfold LoadOrCreateTransportSecret. destruct (String.eqb (TrimSpace path) ""); [done|].
  safe_step. safe_step. apply safe_weaken with (Q := keeps_own ∅); [|apply read_published].
  intros [v|[| |t]] o d [-> Hr]; [| |done..]; cbn [after_ok].
  - intros d2 H2. eapply published_later; [by eapply rely_later|done].
  - safe_step. safe_step. intros [[]|e] fs1 _; [|done]. cbn [after_ok]. safe_step. apply safe_syscall, told_quiet; [done|].
    intros fs' n r _ -> fs2 _. unfold perform. cbn [h_tick h_files]. destruct (mc_fault n) as [e|]; [done|]. cbn [answer fst after_ok].
    safe_step. apply safe_syscall, told_create; [intros k; by apply temp_apart| |done].
    intros tmp fs3 Hne _ _. cbn [after_ok]. apply publish_published; [done|apply random_secret].
Qed.
End Secret.

(** ** Schedules *)

Section Schedules.
Context `{Machine} (p : string) {A : Type} (Q : res OsError A -> gset string -> Disk -> Prop).

(** Every process is safe, and no two own the same file. *)
Definition coherent (s : Host * list (Prog A)) : Prop := exists owns : list (gset string),
  List.length owns = List.length s.2 /\
  (forall i P own, s.2 !! i = Some P -> owns !! i = Some own -> safe p Q own P (h_files s.1) /\ owned p own (h_files s.1)) /\
  (forall i j own own', i <> j -> owns !! i = Some own -> owns !! j = Some own' -> own ## own').

Lemma turn_coherent i s : coherent s -> coherent (turn i s).
Proof.
  intros (owns & Hl & Hs & Hd). unfold turn. destruct (s.2 !! i) as [[r|c k]|] eqn:Ei; [by exists owns| |by exists owns].
  destruct (lookup_lt_is_Some_2 owns i) as [own Ho]; [rewrite Hl; by eapply lookup_lt_Some|].
  destruct (Hs i _ own Ei Ho) as [Hsafe Hown]. specialize (Hsafe (h_files s.1) (h_tick s.1) (rely_refl _ _ _) Hown).
  destruct s as [[fs n] procs]. cbn [fst snd h_files h_tick] in *. destruct (perform c (mkHost fs n)) as [r h].
  destruct Hsafe as (own' & [Hg1 Hg2] & Hsafe). exists (<[i := own']> owns). cbn [fst snd].
  split; [by rewrite !length_insert|]. split.
  - intros j P o HP Hj. destruct (decide (j = i)) as [->|Hne].
    + rewrite list_lookup_insert_eq in HP by (by eapply lookup_lt_Some).
      rewrite list_lookup_insert_eq in Hj by (by eapply lookup_lt_Some). simplify_eq.
      split; [done|]. intros q Hq. destruct (Hg2 q Hq) as (? & ? & _). auto.
    + rewrite list_lookup_insert_ne in HP by done. rewrite list_lookup_insert_ne in Hj by done. destruct (Hs j P o HP Hj) as [Hj1 Hj2].
      assert (rely p o fs (h_files h)) as Hrely.
      { intros q d Hq. apply Hg1. intros Hqi. destruct Hq as [Hq| ->]; [|by destruct (Hown p Hqi)].
        pose proof (Hd i j own o (not_eq_sym Hne) Ho Hj). set_solver. }
      split; [by eapply safe_rely|]. intros q Hq. destruct (Hj2 q Hq) as [? [d Hd']]. split; [done|].
      exists d. apply Hrely; [by left|done].
  - assert (forall j o, j <> i -> owns !! j = Some o -> own' ## o) as Hfresh.
    { intros j o Hne Hj q Hq Hqo. destruct (Hg2 q Hq) as (_ & _ & [Hq'|Hq']).
      - pose proof (Hd i j own o (not_eq_sym Hne) Ho Hj). set_solver.
      - destruct (lookup_lt_is_Some_2 procs j) as [P HP]; [rewrite <- Hl; by eapply lookup_lt_Some|].
        destruct (Hs j P o HP Hj) as [_ Hj2]. destruct (Hj2 q Hqo) as [_ [d Hd']]. congruence. }
    assert (<[i := own']> owns !! i = Some own') as Hi by (apply list_lookup_insert_eq; by eapply lookup_lt_Some).
    intros j1 j2 o1 o2 Hne H1 H2. destruct (decide (j1 = i)) as [->|N1], (decide (j2 = i)) as [->|N2]; [done|..].
    + rewrite Hi in H1. rewrite list_lookup_insert_ne in H2 by done. simplify_eq. by eapply Hfresh.
    + rewrite Hi in H2. rewrite list_lookup_insert_ne in H1 by done. simplify_eq. symmetry. by eapply Hfresh.
    + rewrite list_lookup_insert_ne in H1 by done. rewrite list_lookup_insert_ne in H2 by done. by apply (Hd j1 j2).
Qed.

Lemma interleave_coherent schedule s : coherent s -> coherent (interleave schedule s).
Proof. revert s. induction schedule as [|i l IH]; intros s Hs; [done|]. apply IH. by apply turn_coherent. Qed.

Lemma start_coherent fs n m P :
  (forall d, safe p Q ∅ P d) -> coherent (mkHost fs n, replicate m P).
Proof.
  intros HP. exists (replicate m ∅). cbn [fst snd]. split; [by rewrite !length_replicate|]. split.
  - intros i P' own [-> _]%lookup_replicate_1 [-> _]%lookup_replicate_1. split; [apply HP|]. intros q Hq. set_solver.
  - intros i j own own' _ [-> _]%lookup_replicate_1 [-> _]%lookup_replicate_1. set_solver.
Qed.

(** A result that is there is safe now. *)
Lemma coherent_done s i r : coherent s -> s.2 !! i = Some (Done r) -> exists own, Q r own (h_files s.1).
Proof.
  intros (owns & Hl & Hs & _) Hi. destruct (lookup_lt_is_Some_2 owns i) as [own Ho]; [rewrite Hl; by eapply lookup_lt_Some|].
  destruct (Hs i _ own Hi Ho) as [Hsafe _]. exists own. apply (Hsafe (h_files s.1)), rely_refl.
Qed.
End Schedules.

Section Bounded.
Context `{Machine}.

Lemma within_le {A} (P : Prog A) n m : (n <= m)%nat -> within n P -> within m P.
Proof.
  revert n m. induction P as [r|c k IH]; intros [|n] [|m] Hle HP; try done; try lia.
  intros r. apply (IH r n); [lia|apply HP].
Qed.
Lemma within_bind {A B} (P : Prog A) (k : A -> Prog B) n m :
  within n P -> (forall a, within m (k a)) -> within (n + m) (P ≫= k).
Proof.
  revert n. induction P as [[a|e]|c f IH]; intros n HP Hk; cbn.
  - eapply within_le; [|apply Hk]. lia.
  - by destruct (n + m)%nat.
  - destruct n as [|n]; [done|]. intros r. apply IH; [apply HP|done].
Qed.
Lemma within_catch {A} (P : Prog A) n : within n P -> within n (catch P).
Proof.
  revert n. induction P as [r|c f IH]; intros n HP; cbn; [by destruct n|].
  destruct n as [|n]; [done|]. intros r. apply IH, HP.
Qed.
Lemma within_done {A} n (r : res OsError A) : within n (Done r).
Proof. by destruct n. Qed.
Lemma within_if {A} (b : bool) n (P P' : Prog A) : within n P -> within n P' -> within n (if b then P else P').
Proof. by destruct b. Qed.

Lemma within_syscall n c : within (S n) (syscall c).
Proof. intros r. apply within_done. Qed.
Lemma within_syscall_ n c : within (S n) (syscall_ c).
Proof. intros [s|e]; apply within_done. Qed.

(** A process that has had as many turns as it has calls is done. *)
Lemma turns_suffice {A} schedule (s : Host * list (Prog A)) i P n :
  s.2 !! i = Some P -> within n P -> (n <= count_occ Nat.eq_dec schedule i)%nat ->
  exists r, (interleave schedule s).2 !! i = Some (Done r).
Proof.
  revert s P n. induction schedule as [|j l IH]; intros s P n Hi HP Hn.
  - simpl in Hn. assert (n = 0)%nat as -> by lia. destruct P as [r|c k]; [by exists r|done].
  - change (interleave (j :: l) s) with (interleave l (turn j s)). simpl in Hn. destruct (decide (j = i)) as [->|Hne].
    + destruct (Nat.eq_dec i i) as [_|]; [|done]. destruct P as [r|c k].
      * apply (IH (turn i s) (Done r) 0%nat); [unfold turn; by rewrite Hi|done|lia].
      * destruct n as [|n]; [done|]. destruct (perform c s.1) as [r h] eqn:Ep.
        apply (IH (turn i s) (k r) n); [|apply HP|lia]. unfold turn. rewrite Hi, Ep.
        apply list_lookup_insert_eq. by eapply lookup_lt_Some.
    + destruct (Nat.eq_dec j i) as [|_]; [done|]. apply (IH (turn j s) P n); [|done|lia]. unfold turn.
      destruct (s.2 !! j) as [[r|c k]|]; [done| |done]. destruct (perform c s.1) as [r h]. cbn [snd].
      by rewrite list_lookup_insert_ne.
Qed.
End Bounded.

(** A sequence of single calls. *)
Ltac within_calls :=
  repeat match goal with
         | |- within (S ?n) (syscall_ _ ≫= _) => apply (within_bind _ _ 1 n); [apply within_syscall_|intros _]
         | |- within (S ?n) (syscall _ ≫= _) => apply (within_bind _ _ 1 n); [apply within_syscall|let x := fresh "x" in intros x]
         | |- within (S ?n) (catch (syscall_ _) ≫= _) => apply (within_bind _ _ 1 n); [apply within_catch, within_syscall_|let x := fresh "x" in intros x]
         | |- within _ (syscall_ _) => apply within_syscall_
         | |- within _ (catch _) => apply within_catch
         | |- within _ (Done _) => apply within_done
         | |- within _ (give _) => apply within_done
         | |- within _ (raise _) => apply within_done
         end.

Lemma read_within path : within 1 (readTransportSecret path).
Proof. unfold readTransportSecret. within_calls. apply within_if; within_calls. Qed.

Lemma dir_sync_within dir : within 3 (syncDirectory dir).
Proof. unfold syncDirectory, with_deferred. within_calls. Qed.

Lemma publish_within path v tmp : within 10 (publish_secret path v tmp).
Proof.
  unfold publish_secret, with_deferred. apply (within_bind _ _ 8 2).
  - within_calls. destruct x as [[]|[| |t]]; within_calls.
    + apply (within_bind _ _ 3 0); [apply dir_sync_within|intros []; within_calls].
    + eapply within_le; [|apply read_within]. lia.
  - intros r. apply (within_bind _ _ 2 0); [within_calls|intros _; within_calls].
Qed.

Lemma load_within path : within 14 (LoadOrCreateTransportSecret path).
Proof.
  unfold LoadOrCreateTransportSecret. destruct (String.eqb _ _); within_calls.
  apply (within_bind _ _ 1 13); [apply within_catch, read_within|]. intros [v|[| |t]]; within_calls. apply publish_within.
Qed.

(** C14: One transport secret, however many servers start at once.  Any number of
    processes look for the secret of one path, their system calls interleaved in any
    order, any of the calls failing and any of the processes being killed: those
    that return a secret return the same one, of at least 32 bytes, which is the
    content of the file; and a process that has had fourteen turns has returned. *)
Theorem one_transport_secret `{Machine} path fs m schedule :
  named path ->
  let s := interleave schedule (mkHost fs 0, replicate m (LoadOrCreateTransportSecret path)) in
  (forall i j v v', s.2 !! i = Some (Done (Ok v)) -> s.2 !! j = Some (Done (Ok v')) -> v = v') /\
  (forall i v, s.2 !! i = Some (Done (Ok v)) ->
     (32 <= String.length v)%nat /\ exists c, h_files s.1 !! file_key path = Some c /\ TrimSpace c = v) /\
  (forall i, (i < m)%nat -> (14 <= count_occ Nat.eq_dec schedule i)%nat -> exists r, s.2 !! i = Some (Done r)).
Proof.
  intros Hn s.
  assert (coherent (file_key path) (published path) s) as Hc.
  { apply interleave_coherent, start_coherent. intros d. by apply load_published. }
  assert (forall i v, s.2 !! i = Some (Done (Ok v)) ->
     (32 <= String.length v)%nat /\ exists c, h_files s.1 !! file_key path = Some c /\ TrimSpace c = v) as Hp.
  { intros i v Hi. by destruct (coherent_done _ _ _ _ _ Hc Hi) as [own Hr]. }
  split; [|split; [done|]].
  - intros i j v v' (_ & c & Hv & <-)%Hp (_ & c' & Hv' & <-)%Hp. congruence.
  - intros i Hi Ht. eapply turns_suffice; [|apply (load_within path)|done]. cbn [snd]. by apply lookup_replicate_2.
Qed.

(** ** The keys *)

Section Running.
Context `{Machine}.

Lemma run_bind {A B} (P : Prog A) (k : A -> Prog B) h :
  run (P ≫= k) h = match run P h with (Ok a, h') => run (k a) h' | (Err e, h') => (Err e, h') end.
Proof.
  revert h. induction P as [[a|e]|c f IH]; intros h; [done..|]. cbn. destruct (perform c h) as [r h']. apply IH.
Qed.
Lemma run_catch {A} (P : Prog A) h : run (catch P) h = let '(r, h') := run P h in (Ok r, h').
Proof. revert h. induction P as [r|c f IH]; intros h; [done|]. cbn. destruct (perform c h) as [r h']. apply IH. Qed.
Lemma run_wrap {A} f (P : Prog A) h a h' : run (wrap_error f P) h = (Ok a, h') <-> run P h = (Ok a, h').
Proof.
  revert h. induction P as [[b|e]|c k IH]; intros h; [done..|]. cbn. destruct (perform c h) as [r h1]. apply IH.
Qed.
Lemma run_bind_Ok {A B} (P : Prog A) (k : A -> Prog B) h b h' :
  run (P ≫= k) h = (Ok b, h') -> exists a h1, run P h = (Ok a, h1) /\ run (k a) h1 = (Ok b, h').
Proof. rewrite run_bind. destruct (run P h) as [[a|e] h1]; [|done]. eauto. Qed.

Lemma run_syscall_Ok c h s h' :
  run (syscall c) h = (Ok s, h') ->
  mc_fault (h_tick h) = None /\ answer (h_tick h) c (h_files h) = (Ok s, h_files h') /\ h_tick h' = S (h_tick h).
Proof.
  unfold syscall. cbn. unfold perform. destruct (mc_fault (h_tick h)); [done|].
  destruct (answer _ c _) as [r fs]. cbn. by intros [= -> <-].
Qed.
Lemma run_syscall__Ok c h u h' :
  run (syscall_ c) h = (Ok u, h') -> exists s,
  mc_fault (h_tick h) = None /\ answer (h_tick h) c (h_files h) = (Ok s, h_files h') /\ h_tick h' = S (h_tick h).
Proof. intros (s & h1 & Hc & [= _ <-])%run_bind_Ok. exists s. by apply run_syscall_Ok in Hc. Qed.

Lemma WriteFile_Ok path content h u h' :
  run (os_WriteFile path content) h = (Ok u, h') -> h_files h' = <[file_key path := content]> (h_files h).
Proof.
  unfold os_WriteFile. intros (? & h1 & (? & _ & E1 & _)%run_syscall__Ok & E)%run_bind_Ok.
  apply run_bind_Ok in E as (? & h2 & (? & _ & E2 & _)%run_syscall__Ok & (? & _ & E3 & _)%run_syscall__Ok).
  cbn in E1, E2, E3. injection E1 as _ E1. injection E2 as _ E2. injection E3 as _ E3.
  rewrite <- E3, <- E2, <- E1. by rewrite insert_insert_eq.
Qed.
End Running.

Section KeyTheorems.
Context `{Machine} `{KeyMath} (Hprivate : forall s, String.length s = 32%nat -> String.length (private_of_seed s) = 64%nat).

Lemma new_key_Ok size h c h' :
  run (new_key size) h = (Ok c, h') -> h_files h' = h_files h /\ String.length c = size.
Proof using Hprivate.
  unfold new_key. destruct (Nat.eqb_spec size private_key_size) as [->|].
  - intros (s & h1 & (_ & E & _)%run_syscall_Ok & [= <- <-])%run_bind_Ok. cbn in E. injection E as <- E.
    split; [done|]. apply Hprivate, mc_random_length.
  - intros (_ & E & _)%run_syscall_Ok. cbn in E. injection E as <- E. split; [done|]. apply mc_random_length.
Qed.

Lemma loadOrCreate_Ok path size h c h' :
  run (loadOrCreate path size) h = (Ok c, h') ->
  h_files h' !! file_key path = Some c /\ String.length c = size /\
  forall q, q <> file_key path -> h_files h' !! q = h_files h !! q.
Proof using Hprivate.
  unfold loadOrCreate. intros E. apply run_bind_Ok in E as (r & h1 & E1 & E). rewrite run_catch in E1.
  unfold syscall in E1. cbn in E1. unfold perform in E1. cbn in E1.
  assert (h_files h1 = h_files h /\ (forall s, r = Ok s -> h_files h !! file_key path = Some s)) as [Ef Er].
  { destruct (mc_fault _); [by injection E1 as <- <-|]. injection E1 as <- <-. split; [done|]. intros s. by destruct (h_files h !! _) as [s'|]; intros [= ->]. }
  destruct r as [content|e].
  - destruct (Nat.eqb_spec (String.length content) size) as [Hs|]; [|done]. injection E as <- <-. rewrite Ef. auto.
  - apply run_bind_Ok in E as (? & h2 & (? & _ & E2 & _)%run_syscall__Ok & E). cbn in E2. injection E2 as _ E2.
    apply run_bind_Ok in E as (content & h3 & [E3 Hs]%new_key_Ok & E).
    apply run_bind_Ok in E as (? & h4 & E4%WriteFile_Ok & [= <- <-]). rewrite E4, lookup_insert_eq. split; [done|].
    split; [done|]. intros q Hq. rewrite lookup_insert_ne by done. congruence.
Qed.

Lemma loadOrCreate_found path size h c :
  mc_fault (h_tick h) = None -> h_files h !! file_key path = Some c -> String.length c = size ->
  run (loadOrCreate path size) h = (Ok c, mkHost (h_files h) (S (h_tick h))).
Proof using Type.
  intros Hf Hc <-. unfold loadOrCreate. rewrite run_bind, run_catch. unfold syscall. cbn. unfold perform. rewrite Hf. cbn.
  rewrite Hc. by rewrite Nat.eqb_refl.
Qed.

Lemma found_bind {A} path size h c f (k : string -> Prog A) :
  mc_fault (h_tick h) = None -> h_files h !! file_key path = Some c -> String.length c = size ->
  run (wrap_error f (loadOrCreate path size) ≫= k) h = run (k c) (mkHost (h_files h) (S (h_tick h))).
Proof using Type. intros. rewrite run_bind. by rewrite (proj2 (run_wrap _ _ _ c (mkHost (h_files h) (S (h_tick h)))) (loadOrCreate_found _ _ _ _ ltac:(done) ltac:(done) ltac:(done))). Qed.

Definition key_paths (dataDir masterPath signingPath : string) : list string :=
  map file_key [masterPath; signingPath; Join [dataDir; "router-snapshot.key"]; Join [dataDir; "certificate-wrapping.key"]].

(** The keys a server has are the keys it will have.  When [Load] has returned a
    set of keys, whatever calls failed meanwhile, then a later [Load] over the same
    files, whose calls do not fail, returns the same keys, and writes nothing. *)
Theorem keys_are_stable dataDir masterPath signingPath h m h1 h2 :
  NoDup (key_paths dataDir masterPath signingPath) ->
  run (Load dataDir masterPath signingPath) h = (Ok m, h1) ->
  h_files h2 = h_files h1 -> (forall n, (h_tick h2 <= n)%nat -> mc_fault n = None) ->
  run (Load dataDir masterPath signingPath) h2 = (Ok m, mkHost (h_files h1) (h_tick h2 + 4)).
Proof using Hprivate.
  intros Hnd E Ef Hn. unfold key_paths in Hnd. cbn [map] in Hnd. rewrite !NoDup_cons, !elem_of_cons in Hnd.
  unfold Load in E.
  apply run_bind_Ok in E as (master & h3 & (Em & Lm & Fm)%run_wrap%loadOrCreate_Ok & E).
  apply run_bind_Ok in E as (signing & h4 & (Es & Ls & Fs)%run_wrap%loadOrCreate_Ok & E).
  apply run_bind_Ok in E as (router & h5 & (Er & Lr & Fr)%run_wrap%loadOrCreate_Ok & E).
  apply run_bind_Ok in E as (cert & h6 & (Ec & Lc & Fc)%run_wrap%loadOrCreate_Ok & [= <- <-]).
  assert (h_files h6 !! file_key masterPath = Some master) by (rewrite Fc, Fr, Fs; tauto).
  assert (h_files h6 !! file_key signingPath = Some signing) by (rewrite Fc, Fr; tauto).
  assert (h_files h6 !! file_key (Join [dataDir; "router-snapshot.key"]) = Some router) by (rewrite Fc; tauto).
  unfold Load. rewrite (found_bind _ _ _ master) by (rewrite ?Ef; auto with lia).
  rewrite (found_bind _ _ _ signing) by (cbn; rewrite ?Ef; auto with lia).
  rewrite (found_bind _ _ _ router) by (cbn; rewrite ?Ef; auto with lia).
  rewrite (found_bind _ _ _ cert) by (cbn; rewrite ?Ef; auto with lia).
  cbn. rewrite Ef. repeat f_equal. lia.
Qed.

(** A key that cannot be read is replaced.  [loadOrCreate] makes a new key
    whatever the error of the read was, where [LoadOrCreateTransportSecret] stops:
    after one failing read, with the calls after it working, the key that was in the
    file is gone. *)
Theorem unreadable_key_is_replaced path h e :
  mc_fault (h_tick h) = Some e -> (forall n, (h_tick h < n)%nat -> mc_fault n = None) ->
  run (loadOrCreate path 32) h =
    (Ok (mc_random (h_tick h + 2) 32),
     mkHost (<[file_key path := mc_random (h_tick h + 2) 32]> (h_files h)) (h_tick h + 6)).
Proof using Type.
  intros He Hn. unfold loadOrCreate. rewrite run_bind, run_catch. unfold syscall at 1. cbn. unfold perform. cbn.
  rewrite He. repeat (cbn; unfold perform; cbn; rewrite Hn by lia). cbn. rewrite insert_insert_eq.
  repeat f_equal; lia.
Qed.

(** Two servers that start at once can have different keys.  Between the read that
    finds no key and the write of a new one another process may do the same; the one
    that writes first goes on with a key that is in no file. *)
Theorem concurrent_keys_differ path fs :
  (forall n, mc_fault n = None) -> fs !! file_key path = None ->
  exists schedule h, interleave schedule (mkHost fs 0, replicate 2 (loadOrCreate path 32)) =
    (h, [Done (Ok (mc_random 4 32)); Done (Ok (mc_random 5 32))]) /\
    h_files h !! file_key path = Some (mc_random 5 32).
Proof using Type.
  intros Hn Hp. exists [0; 1; 0; 1; 0; 1; 0; 0; 0; 1; 1; 1]%nat. eexists. split.
  - repeat (cbn; unfold perform; rewrite ?Hn, ?Hp). cbn. reflexivity.
  - cbn. by rewrite lookup_insert_eq.
Qed.
End KeyTheorems.

(** ** Files written whole *)

Section Whole.
Context `{Machine}.

(** The first [n] calls of a program, after which it may be killed. *)
Fixpoint steps {A} (n : nat) (P : Prog A) (h : Host) : Prog A * Host :=
  match n, P with
  | S n, Call c k => let '(r, h') := perform c h in steps n (k r) h'
  | _, _ => (P, h)
  end.

(** [I] holds of the disk between any two calls, and [Q] of what is returned. *)
Fixpoint throughout {A} (I : Disk -> Prop) (Q : res OsError A -> Disk -> Prop) (P : Prog A) (fs : Disk) : Prop :=
  match P with
  | Done r => I fs /\ Q r fs
  | Call c k => I fs /\ forall n, let '(r, h) := perform c (mkHost fs n) in throughout I Q (k r) (h_files h)
  end.

Lemma throughout_steps {A} I Q (P : Prog A) h n :
  throughout I Q P (h_files h) -> I (h_files (steps n P h).2) /\ forall r, (steps n P h).1 = Done r -> Q r (h_files (steps n P h).2).
Proof.
  revert P h. induction n as [|n IH]; intros [r|c k] h HP; cbn in *.
  - destruct HP as [HI HQ]. split; [done|]. by intros r' [= <-].
  - by destruct HP.
  - destruct HP as [HI HQ]. split; [done|]. by intros r' [= <-].
  - destruct HP as [_ HP]. specialize (HP (h_tick h)). destruct h as [fs t]. cbn in *.
    destruct (perform c (mkHost fs t)) as [r h']. by apply IH.
Qed.

Lemma throughout_bind {A B} I Q (P : Prog A) (k : A -> Prog B) fs :
  throughout I (fun r fs => match r with Ok a => throughout I Q (k a) fs | Err e => Q (Err e) fs end) P fs -> throughout I Q (P ≫= k) fs.
Proof.
  revert fs. induction P as [[a|e]|c f IH]; intros fs; cbn; [by intros []|done|]. intros [HI HP]. split; [done|].
  intros n. specialize (HP n). destruct (perform c _) as [r h]. by apply IH.
Qed.
Lemma throughout_catch {A} I Q (P : Prog A) fs : throughout I (fun r => Q (Ok r)) P fs -> throughout I Q (catch P) fs.
Proof.
  revert fs. induction P as [r|c f IH]; intros fs; cbn; [done|]. intros [HI HP]. split; [done|].
  intros n. specialize (HP n). destruct (perform c _) as [r h]. by apply IH.
Qed.
Lemma throughout_weaken {A} I (Q Q' : res OsError A -> Disk -> Prop) P fs :
  (forall r fs, I fs -> Q r fs -> Q' r fs) -> throughout I Q P fs -> throughout I Q' P fs.
Proof.
  intros HQ. revert fs. induction P as [r|c f IH]; intros fs; cbn; [intros []; auto|]. intros [HI HP]. split; [done|].
  intros n. specialize (HP n). destruct (perform c _) as [r h]. by apply IH.
Qed.
Lemma throughout_deferred {A} I (Q R : res OsError A -> Disk -> Prop) (finish : Prog unit) (body : Prog A) fs :
  throughout I R body fs -> (forall r fs, I fs -> R r fs -> throughout I (fun _ => Q r) finish fs) ->
  throughout I Q (with_deferred finish body) fs.
Proof.
  intros Hb Hf. apply throughout_bind, throughout_catch. revert Hb. apply throughout_weaken. intros r fs2 HI HR.
  apply throughout_bind, throughout_catch. specialize (Hf r fs2 HI HR). revert Hf. by apply throughout_weaken.
Qed.

Lemma throughout_call (I : Disk -> Prop) (Q : res OsError unit -> Disk -> Prop) c fs :
  I fs -> (forall n r h, perform c (mkHost fs n) = (r, h) -> I (h_files h) /\ Q (match r with Ok _ => Ok tt | Err e => Err e end) (h_files h)) ->
  throughout I Q (syscall_ c) fs.
Proof.
  intros HI HQ. split; [done|]. intros n. destruct (perform c (mkHost fs n)) as [r h] eqn:E. specialize (HQ n r h E).
  by destruct r.
Qed.
Lemma throughout_quiet (I : Disk -> Prop) (Q : res OsError unit -> Disk -> Prop) c fs :
  quiet c = true -> I fs -> (forall r, Q r fs) -> throughout I Q (syscall_ c) fs.
Proof.
  intros Hc HI HQ. apply throughout_call; [done|]. intros n r h E. pose proof (quiet_files c (mkHost fs n) Hc) as Hf.
  rewrite E in Hf. cbn in Hf. by rewrite Hf.
Qed.

(** *** The file and its temporary file *)

Lemma SplitByte_last path s : no_slash s ->
  exists l x, SplitByte path "/" = (l ++ [x])%list /\ SplitByte (path ++ s) "/" = (l ++ [(x ++ s)%string])%list.
Proof using Type.
  intros Hs. induction path as [|c path (l & x & E1 & E2)].
  - exists [], "". split; [done|]. by apply no_slash_plain.
  - rewrite append_cons. cbn [SplitByte]. rewrite E1, E2. destruct (Ascii.eqb c "/"); [by exists ("" :: l), x|].
    destruct l as [|y l]; [by exists [], (String c x)|by exists (String c y :: l), x].
Qed.
Lemma last_component_plain path s : no_slash s -> last_component (path ++ s) = last_component path ++ s.
Proof using Type.
  intros Hs. unfold last_component. destruct (SplitByte_last path s Hs) as (l & x & -> & ->). by rewrite !last_last.
Qed.

Context (path content stamp : string) (Hpath : named path) (Hstamp : forallb_str is_digit stamp = true).
Abbreviation p := (file_key path).
Abbreviation tmp := (file_key (path ++ ".tmp." ++ stamp)).

Lemma tmp_apart : tmp <> p.
Proof using Hpath Hstamp.
  set (s := ".tmp." ++ stamp).
  assert (no_slash s) as Hs.
  { subst s. unfold no_slash. rewrite forallb_str_append. cbn. revert Hstamp. clear. induction stamp as [|a t IH]; [done|]. cbn.
    intros [Ha Ht]%andb_true_iff. rewrite IH by done. rewrite andb_true_r. apply negb_true_iff, Ascii.eqb_neq. by intros ->. }
  assert (named (path ++ s)) as Hn.
  { unfold named. rewrite last_component_plain by done. destruct Hpath as (Hne & _ & _ & Hsl).
    assert (6 <= String.length (last_component path ++ s))%nat as Hl.
    { rewrite length_app_str. subst s. rewrite length_app_str. destruct (last_component path); [done|]. simpl. lia. }
    split; [by intros E; rewrite E in Hl; simpl in Hl; lia|]. split; [by intros E; rewrite E in Hl; simpl in Hl; lia|].
    split; [by intros E; rewrite E in Hl; simpl in Hl; lia|]. unfold no_slash in *. by rewrite forallb_str_append, Hsl, Hs. }
  destruct (key_top _ Hn) as [st1 E1]. destruct (key_top path Hpath) as [st2 E2]. intros E. rewrite E, E2, last_component_plain in E1 by done.
  injection E1 as E1 _. apply (f_equal String.length) in E1. rewrite length_app_str in E1. subst s. rewrite length_app_str in E1. simpl in E1. lia.
Qed.

Context (fs0 : Disk).

Definition others (d : Disk) : Prop := forall q, q <> p -> q <> tmp -> d !! q = fs0 !! q.
Definition as_before (d : Disk) : Prop := d !! p = fs0 !! p /\ others d.
Definition whole (d : Disk) : Prop := (d !! p = fs0 !! p \/ d !! p = Some content) /\ others d.
Definition placed (r : res OsError unit) (d : Disk) : Prop := is_Some (match r with Ok u => Some u | Err _ => None end) -> d !! p = Some content.

Lemma as_before_whole d : as_before d -> whole d.
Proof using Type. intros []. split; auto. Qed.
Lemma as_before_tmp d c : as_before d -> as_before (<[tmp := c]> d).
Proof using Hpath Hstamp.
  intros [Hp Ho]. pose proof tmp_apart. split; [by rewrite lookup_insert_ne|]. intros q H1 H2. rewrite lookup_insert_ne by done. by apply Ho.
Qed.

(** A call on the temporary file. *)
Lemma before_tmp (c : Syscall) (Q : res OsError unit -> Disk -> Prop) d :
  (c = SysOpenTruncated (path ++ ".tmp." ++ stamp) \/ c = SysWrite (path ++ ".tmp." ++ stamp) content) ->
  as_before d -> (forall e d', as_before d' -> Q (Err e) d') ->
  (forall d', as_before d' -> (c = SysWrite (path ++ ".tmp." ++ stamp) content -> d' !! tmp = Some content) -> Q (Ok tt) d') ->
  throughout whole Q (syscall_ c) d.
Proof using Hpath Hstamp.
  intros Hc Hd HE HO. apply throughout_call; [by apply as_before_whole|]. intros n r h. unfold perform. cbn [h_tick h_files].
  destruct (mc_fault n) as [e|].
  - intros [= <- <-]. cbn [h_files]. destruct Hc as [->| ->]; cbn [broken]; [|pose proof (as_before_tmp d (take_str (mc_torn n) content) Hd)];
      (split; [by apply as_before_whole|by apply HE]).
  - destruct Hc as [->| ->]; cbn [answer]; intros [= <- <-]; cbn [h_files]; pose proof (as_before_tmp d) as Ht;
      (split; [by apply as_before_whole, Ht|apply HO; [by apply Ht|]]); [done|intros _; apply lookup_insert_eq].
Qed.

Lemma raise_throughout (Q : res OsError unit -> Disk -> Prop) e d : whole d -> Q (Err e) d ->
  throughout whole Q (catch (syscall_ SysHandle);; raise e) d.
Proof using Type.
  intros Hw HQ. apply throughout_bind, throughout_catch, throughout_quiet; [done|done|]. intros r. done.
Qed.

Lemma placed_err e d : placed (Err e) d.
Proof using Type. by intros []. Qed.

(** The rename, and what follows it. *)
Lemma rename_throughout d : as_before d -> d !! tmp = Some content ->
  throughout whole placed (syscall_ (SysRename (path ++ ".tmp." ++ stamp) path);; syncDirectory (Dir path)) d.
Proof using Hpath Hstamp.
  intros Hd Ht. pose proof tmp_apart as Hne. apply throughout_bind, throughout_call; [by apply as_before_whole|]. intros n r h. unfold perform.
  cbn [h_tick h_files]. destruct (mc_fault n) as [e|].
  { intros [= <- <-]. cbn. split; [by apply as_before_whole|apply placed_err]. }
  cbn [answer]. rewrite Ht. intros [= <- <-]. cbn [h_files]. set (d' := <[p := content]> (delete tmp d)).
  assert (d' !! p = Some content) as Hp by apply lookup_insert_eq.
  assert (whole d') as Hw.
  { split; [by right|]. intros q H1 H2. subst d'. rewrite lookup_insert_ne, lookup_delete_ne by done. by apply Hd. }
  split; [done|]. unfold syncDirectory. apply throughout_bind, throughout_quiet; [done|done|]. intros [u|e]; [|by intros _].
  apply (throughout_deferred _ _ (fun _ d => d !! p = Some content)).
  - by apply throughout_quiet.
  - intros r d2 H1 H2. apply throughout_quiet; [done|done|]. by intros _ _.
Qed.

Lemma body_throughout d : as_before d ->
  throughout whole placed
    (syscall_ (SysMkdirAll (Dir path));; syscall_ (SysOpenTruncated (path ++ ".tmp." ++ stamp));;
     written ← catch (syscall_ (SysWrite (path ++ ".tmp." ++ stamp) content));
     match written with Ok _ => give tt | Err e => catch (syscall_ SysHandle);; raise e end;;
     synced ← catch (syscall_ SysHandle);
     match synced with Ok _ => give tt | Err e => catch (syscall_ SysHandle);; raise e end;;
     syscall_ SysHandle;; syscall_ (SysRename (path ++ ".tmp." ++ stamp) path);; syncDirectory (Dir path)) d.
Proof using Hpath Hstamp.
  intros Hd. pose proof placed_err. apply throughout_bind, throughout_quiet; [done|by apply as_before_whole|]. intros [u|e]; [|done].
  apply throughout_bind, before_tmp; [by left|done|done|]. intros d1 Hd1 _.
  apply throughout_bind, throughout_catch, before_tmp; [by right|done| |].
  { intros e d2 Hd2. apply throughout_bind, raise_throughout; [by apply as_before_whole|done]. }
  intros d2 Hd2 Ht. specialize (Ht eq_refl). apply throughout_bind. split; [by apply as_before_whole|].
  apply throughout_bind, throughout_catch, throughout_quiet; [done|by apply as_before_whole|]. intros [u2|e].
  2: { apply throughout_bind, raise_throughout; [by apply as_before_whole|done]. }
  apply throughout_bind. split; [by apply as_before_whole|]. apply throughout_bind, throughout_quiet; [done|by apply as_before_whole|].
  intros [u3|e]; [|done]. by apply rename_throughout.
Qed.

(** C25: A certificate's file is whole at any moment.  [writeAtomicPrivate] may be killed
    after any number of its calls, and any of them may fail: the file then has its old
    content or the new one, never a part of it, and no other file but the temporary
    one has changed; when the function returned without an error it has the new one. *)
Theorem private_files_are_whole n t :
  let '(P, h) := steps n (writeAtomicPrivate path content stamp) (mkHost fs0 t) in
  (h_files h !! p = fs0 !! p \/ h_files h !! p = Some content) /\
  (forall q, q <> p -> q <> tmp -> h_files h !! q = fs0 !! q) /\
  (forall u, P = Done (Ok u) -> h_files h !! p = Some content).
Proof using Hpath Hstamp.
  assert (throughout whole placed (writeAtomicPrivate path content stamp) fs0) as Ht.
  { unfold writeAtomicPrivate. apply (throughout_deferred _ _ placed); [by apply body_throughout|]. intros r d Hw HQ.
    pose proof tmp_apart as Hne. apply throughout_call; [done|]. intros m r' h. unfold perform. cbn [h_tick h_files].
    destruct (mc_fault m); [by intros [= <- <-]|]. cbn [answer]. destruct (d !! tmp) as [c|]; intros [= <- <-]; [|done]. cbn [h_files].
    destruct Hw as [Hw Ho]. split; [split|].
    - by rewrite lookup_delete_ne.
    - intros q H1 H2. rewrite lookup_delete_ne by done. by apply Ho.
    - intros Hs. rewrite lookup_delete_ne by done. by apply HQ. }
  destruct (throughout_steps _ _ _ (mkHost fs0 t) n Ht) as [[Hw Ho] HQ]. destruct (steps n _ _) as [P h]. cbn [fst snd] in *.
  split; [done|]. split; [done|]. intros u ->. by apply (HQ (Ok u) eq_refl).
Qed.
End Whole.
