(* ===== verification/Issuer.v ===== *)
(** Certificates from an ACME server by a DNS-01 challenge in Cloudflare
    ([server/internal/acme/cloudflare_dns01.go], [manager.go]), over connections
    whose clock is checked ([server/internal/clock/clock.go]).

    The ACME library, ECDSA, X.509 and the resolver answer through [AcmeEnv]; the
    Cloudflare client is [Cloudflare.http_provider].  The effects that the provider
    has on the outside are kept in a log. *)

From S2P Require Import Prelude StateError GoText GoNet Timestamps Encoding RateLimit GoPath GoJson GoJsonRead GoJsonSpec Schema Effects Logic Sample Cloudflare.
From Stdlib Require Import Ascii String.
Open Scope Z_scope.

(** ** The clock check *)

Definition DefaultTolerance : Z := 5 * minute.

(** [-delta] wraps. *)
Definition Check (reference local tolerance : Z) : res string unit :=
  let tolerance := if tolerance <=? 0 then DefaultTolerance else tolerance in
  let delta := Sub local reference in
  let delta := if delta <? 0 then wrap64 (- delta) else delta in
  if tolerance <? delta then Err "clock skew exceeds tolerance"%string else Ok tt.

(** [http.ParseTime] is [parse]; [date] the header's value, [""] when there is none. *)
Definition ValidateResponse (parse : string -> option Stamp) (date : string) (local tolerance : Z) : res string unit :=
  if String.eqb date "" then Ok tt
  else match parse date with
       | None => Err "invalid provider Date header"%string
       | Some reference => Check reference local tolerance
       end.

(** What a transport answers, [date] the header of a response. *)
Definition RoundTrip {R} (parse : string -> option Stamp) (date : R -> string) (answer : res string R) (local tolerance : Z)
    : res string R :=
  match answer with
  | Err e => Err e
  | Ok response => match ValidateResponse parse (date response) local tolerance with Err e => Err e | Ok _ => Ok response end
  end.

(** ** PEM *)

Definition line_break : string := String (ascii_of_nat 10) "".

Fixpoint pem_lines (n : nat) (s : string) : string :=
  match n with
  | O => ""
  | S n => if String.eqb s "" then "" else take_str 64 s ++ line_break ++ pem_lines n (drop_str 64 s)
  end%string.
Definition pem_encode (type der : string) : string :=
  let text := std_encode der in
  ("-----BEGIN " ++ type ++ "-----" ++ line_break ++ pem_lines (String.length text) text ++
   "-----END " ++ type ++ "-----" ++ line_break)%string.

(** ** The ACME server *)

Record Challenge := mkChallenge { ch_Type : string; ch_Token : string; ch_URI : string }.
Record Authorization := mkAuthorization {
  az_URI : string; az_Status : string; az_Identifier : string; az_Challenges : list (option Challenge) }.
Record Order := mkOrder { ord_URI : string; ord_AuthzURLs : list string }.

(** A key pair is its private key in PKCS #8. *)
Record accountMaterial := mkaccountMaterial { acc_key : string; acc_uri : string }.

(** What the [n]-th effect is answered with. *)
Class AcmeEnv := {
  ae_generate_key : nat -> res string string;
  ae_csr : string -> string -> res string string;
  ae_register : nat -> string -> string -> res string string;
  ae_order : nat -> accountMaterial -> string -> res string Order;
  ae_authorization : nat -> accountMaterial -> string -> res string Authorization;
  ae_challenge_record : accountMaterial -> string -> res string string;
  ae_accept : nat -> accountMaterial -> Challenge -> res string unit;
  ae_wait : nat -> accountMaterial -> string -> res string unit;
  ae_create_cert : nat -> accountMaterial -> string -> string -> res string (list string);
  ae_parse_certificate : string -> res string (Stamp * Stamp);
  ae_marshal_key : string -> res string string;
  ae_parse_key : string -> res string (option string);
  ae_lookup_txt : nat -> string -> list string * option string;
  ae_ctx : nat -> option string;
  ae_read_fault : nat -> option string;
  ae_write_fault : nat -> option (string * nat)
}.

Record CertificatePEM := mkCertificatePEM {
  cp_CertPEM : string; cp_ChainPEM : string; cp_PrivateKey : string; cp_NotBefore : Stamp; cp_NotAfter : Stamp }.

(** ** The provider *)

Record CloudflareDNS01Config := mkCloudflareDNS01Config {
  dc_DirectoryURL : string;
  dc_Email : string;
  dc_AccountKeyPath : string;
  dc_Propagation : Z;
  dc_ClockTolerance : Z
}.
Record CloudflareDNS01Provider := mkCloudflareDNS01Provider { dp_config : CloudflareDNS01Config; dp_key : string }.

Definition NewCloudflareDNS01 (config : CloudflareDNS01Config) (wrappingKey : string) : res string CloudflareDNS01Provider :=
  if negb (Nat.eqb (String.length wrappingKey) 32) then Err "ACME account wrapping key must be 32 bytes"%string
  else if String.eqb (TrimSpace (dc_DirectoryURL config)) "" || String.eqb (TrimSpace (dc_Email config)) "" ||
          String.eqb (TrimSpace (dc_AccountKeyPath config)) ""
  then Err "ACME directory URL and email are required"%string
  else
    let propagation := if dc_Propagation config <=? 0 then 2 * minute else dc_Propagation config in
    let tolerance := if dc_ClockTolerance config <=? 0 then DefaultTolerance else dc_ClockTolerance config in
    Ok (mkCloudflareDNS01Provider
          (mkCloudflareDNS01Config (dc_DirectoryURL config) (dc_Email config) (dc_AccountKeyPath config) propagation tolerance)
          wrappingKey).

(** What the provider does outside, the latest first. *)
Inductive AcmeEvent :=
| Registered (uri : string)
| TXTCreated (zone : Zone) (id : string)
| TXTDeleted (zone : Zone) (id : string)
| TXTSeen (name value : string)
| Accepted (name value : string).

(** [iw_account] is the content of the account file, [iw_records] the variable
    [challengeRecords]. *)
Record IssuerWorld := mkIssuerWorld {
  iw_world : World;
  iw_account : option string;
  iw_records : list (Zone * string);
  iw_log : list AcmeEvent
}.
#[export] Instance Eta_IssuerWorld : Eta IssuerWorld := fun r =>
  mkIssuerWorld r.(iw_world) r.(iw_account) r.(iw_records) r.(iw_log).

Abbreviation IS := (ST IssuerWorld GoErr).

Section Operations.
Context `{Env} `{Transport} `{AcmeEnv} `{GoFloat}.

Definition on_world {A} (m : M A) : IS A := fun w =>
  let '(r, v) := m (iw_world w) in (r, w <| iw_world := v |>).
Definition log (e : AcmeEvent) : IS unit := fun w => (Ok tt, w <| iw_log ::= cons e |>).
Definition lift_text {A} (r : res string A) : IS A := match r with Ok a => ret a | Err e => fail (ErrMsg e) end.

(** An answer of the outside. *)
Definition ask {A} (f : nat -> A) : IS A := fun w => (Ok (f (w_tick (iw_world w))), w <| iw_world ::= step |>).
Definition ask_res {A} (f : nat -> res string A) : IS A := r ← ask f; lift_text r.

(** *** The account *)

Definition account_aad : string := "acme-account:v1".

Record accountState := mkaccountState { as_AccountURI : string; as_KeyDER : string }.
#[local] Instance Eta_accountState : Eta accountState := fun r => mkaccountState r.(as_AccountURI) r.(as_KeyDER).

Definition account_json (a : accountState) : JSON :=
  JObject [("account_uri", JString (as_AccountURI a)); ("key_der", JString (std_encode (as_KeyDER a)))]%string.

(** A [[]byte]: a base64 text, or an array of numbers. *)
Definition decode_byte (t : JText) : ascii * bool :=
  match t with
  | TNull => (Ascii.zero, true)
  | TNumber lit => match Atoi lit with
                   | Some v => if (0 <=? v) && (v <? 256) && negb (HasPrefix lit "-")
                               then (ascii_of_nat (Z.to_nat v), true) else (Ascii.zero, false)
                   | None => (Ascii.zero, false)
                   end
  | _ => (Ascii.zero, false)
  end.
Definition decode_bytes (t : JText) (a : string) : string * bool :=
  match t with
  | TNull => (""%string, true)
  | TString s => match std_decode s with Some b => (b, true) | None => (a, false) end
  | TArray l => (string_of_list_ascii (map (fun x => fst (decode_byte x)) l), forallb (fun x => snd (decode_byte x)) l)
  | _ => (a, false)
  end.

Definition account_fields : list (struct_field accountState) :=
  [("account_uri", on_field as_AccountURI (fun f a => a <| as_AccountURI ::= f |>) decode_string);
   ("key_der", on_field as_KeyDER (fun f a => a <| as_KeyDER ::= f |>) decode_bytes)]%string.
Definition account_target : Target accountState :=
  mkTarget (decode_struct (assign_fields account_fields)) (fun a => json_marshal (account_json a)).

(** [os.ReadFile]: [None] when there is no file. *)
Definition read_account : IS (option string) := fun w =>
  match ae_read_fault (w_tick (iw_world w)) with
  | Some e => (Err (ErrMsg e), w <| iw_world ::= step |>)
  | None => (Ok (iw_account w), w <| iw_world ::= step |>)
  end.
(** [os.WriteFile]: a failing write leaves a prefix. *)
Definition write_account (content : string) : IS unit := fun w =>
  match ae_write_fault (w_tick (iw_world w)) with
  | Some (e, n) => (Err (ErrMsg e), (w <| iw_world ::= step |>) <| iw_account := Some (take_str n content) |>)
  | None => (Ok tt, (w <| iw_world ::= step |>) <| iw_account := Some content |>)
  end.
Definition make_account_dir : IS unit :=
  r ← ask ae_read_fault; match r with Some e => fail (ErrMsg e) | None => ret tt end.

Definition stored_account (p : CloudflareDNS01Provider) (encoded : string) : IS accountMaterial :=
  fail_if (Nat.ltb (String.length encoded) 12) (ErrMsg "invalid encrypted ACME account");;
  plaintext ← on_world (decryptWithKey (dp_key p) (drop_str 12 encoded) (take_str 12 encoded) account_aad);
  match json_unmarshal account_target plaintext (mkaccountState "" "") with
  | (stored, true) =>
      private ← lift_text (ae_parse_key (as_KeyDER stored));
      match private with
      | Some key =>
          if String.eqb (as_AccountURI stored) "" then fail (ErrMsg "invalid stored ACME account")
          else ret (mkaccountMaterial key (as_AccountURI stored))
      | None => fail (ErrMsg "invalid stored ACME account")
      end
  | _ => fail (ErrMsg "json")
  end.

Definition register_account (p : CloudflareDNS01Provider) : IS accountMaterial :=
  key ← ask_res ae_generate_key;
  uri ← ask_res (fun n => ae_register n key ("mailto:" ++ dc_Email (dp_config p)));
  log (Registered uri);;
  keyDER ← lift_text (ae_marshal_key key);
  '(ciphertext, nonce) ← on_world (encryptWithKey (dp_key p) (json_marshal (account_json (mkaccountState uri keyDER))) account_aad);
  make_account_dir;;
  write_account (nonce ++ ciphertext);;
  ret (mkaccountMaterial key uri).

Definition loadOrRegisterAccount (p : CloudflareDNS01Provider) : IS accountMaterial :=
  found ← read_account;
  match found with
  | Some encoded => stored_account p encoded
  | None => register_account p
  end.

(** *** The zone *)

Fixpoint find_zone (pages : nat) (page : Z) (token domain : string) : IS Zone :=
  match pages with
  | O => fail (ErrMsg ("no Cloudflare Zone matches " ++ domain))
  | S pages =>
      '(zones, more) ← on_world (http_ListZones token page);
      match MatchZone domain zones with
      | Some zone => ret zone
      | None => if (more : bool) then find_zone pages (page + 1) token domain
                else fail (ErrMsg ("no Cloudflare Zone matches " ++ domain))
      end
  end.

(** [CloudflareToken(ctx)]: an empty token is none. *)
Definition providerAndZone (token : option string) (domain : string) : IS (string * Zone) :=
  match token with
  | None | Some EmptyString => fail (ErrMsg "ACME Cloudflare token is unavailable")
  | Some token => zone ← find_zone 100 1 token domain; ret (token, zone)
  end.

(** *** The challenge *)

Definition dnsChallenge (challenges : list (option Challenge)) : res string Challenge :=
  match List.find (fun c => match c with Some c => String.eqb (ch_Type c) "dns-01" | None => false end) challenges with
  | Some (Some c) => Ok c
  | _ => Err "ACME authorization has no dns-01 challenge"%string
  end.

Definition rounds_exhausted : GoErr := ErrMsg "waitTXT: more rounds than the model allows".

(** One lookup every two seconds until the record is seen, the deadline has
    passed, or the context ends. *)
Fixpoint wait_rounds (fuel : nat) (name expected : string) (deadline : Stamp) : IS unit :=
  match fuel with
  | O => fail rounds_exhausted
  | S fuel =>
      '(values, err) ← ask (fun n => ae_lookup_txt n name);
      if existsb (fun v => String.eqb (TrimSpace v) expected) values then log (TXTSeen name expected)
      else
        t ← on_world now;
        if deadline <? t then
          fail (ErrMsg ("DNS propagation for " ++ name ++
                        match err with Some e => " failed: " ++ e | None => " timed out" end)%string)
        else
          done ← ask ae_ctx;
          match done with Some e => fail (ErrMsg e) | None => wait_rounds fuel name expected deadline end
  end.

Definition wait_fuel (timeout : Z) : nat := (Z.to_nat (timeout / (2 * second)) + 2)%nat.

Definition waitTXT (name expected : string) (timeout : Z) : IS unit :=
  t ← on_world now; wait_rounds (wait_fuel timeout) name expected (t + timeout).

Definition txt_name (identifier : string) : string := ("_acme-challenge." ++ identifier)%string.
Definition txt_record (identifier value : string) : CfRecord := mkCfRecord "" "TXT" (txt_name identifier) value 120 false.

(** [defer]: every record made is deleted, whatever the deletions answer. *)
Definition delete_records (token : string) (records : list (Zone * string)) : IS unit :=
  for_each records (fun '(zone, id) => log (TXTDeleted zone id);; ignore (on_world (http_DeleteDNS token zone id))).
Definition cleanup (token : option string) : IS unit := fun w => delete_records (default ""%string token) (iw_records w) w.

Definition remember (zone : Zone) (id : string) : IS unit := fun w => (Ok tt, w <| iw_records ::= fun l => (l ++ [(zone, id)])%list |>).

(** The record [id] was made. *)
Definition keep_record (zone : Zone) (id : string) : IS unit :=
  log (TXTCreated zone id);;
  fail_if (String.eqb id "") (ErrMsg "cloudflare returned an empty ACME TXT record id");;
  remember zone id.

(** An authorization that is not valid yet. *)
Definition fulfil (p : CloudflareDNS01Provider) (token : option string) (account : accountMaterial) (a : Authorization) : IS unit :=
  challenge ← lift_text (dnsChallenge (az_Challenges a));
  value ← lift_text (ae_challenge_record account (ch_Token challenge));
  '(token, zone) ← providerAndZone token (az_Identifier a);
  record ← on_world (http_CreateDNS token zone (txt_record (az_Identifier a) value));
  keep_record zone (rec_ID record);;
  waitTXT (txt_name (az_Identifier a)) value (dc_Propagation (dp_config p));;
  log (Accepted (txt_name (az_Identifier a)) value);;
  ask_res (fun n => ae_accept n account challenge);;
  ask_res (fun n => ae_wait n account (az_URI a)).

Definition authorize_one (p : CloudflareDNS01Provider) (token : option string) (account : accountMaterial) (url : string) : IS unit :=
  a ← ask_res (fun n => ae_authorization n account url);
  if String.eqb (az_Status a) "valid" then ret tt else fulfil p token account a.

(** The certificate of a chain, the leaf first. *)
Definition assemble (certificateKey : string) (der : list string) : IS CertificatePEM :=
  match der with
  | [] => fail (ErrMsg "ACME returned an empty certificate chain")
  | leaf :: chain =>
      '(notBefore, notAfter) ← lift_text (ae_parse_certificate leaf);
      privateKeyDER ← lift_text (ae_marshal_key certificateKey);
      ret (mkCertificatePEM (pem_encode "CERTIFICATE" leaf)
             (fold_right String.append ""%string (map (pem_encode "CERTIFICATE") chain))
             (pem_encode "PRIVATE KEY" privateKeyDER) notBefore notAfter)
  end.

Definition IssueDNS01 (p : CloudflareDNS01Provider) (token : option string) (domain : string) : IS CertificatePEM :=
  account ← loadOrRegisterAccount p;
  certificateKey ← ask_res ae_generate_key;
  csrDER ← lift_text (ae_csr domain certificateKey);
  order ← ask_res (fun n => ae_order n account domain);
  (fun w => (Ok tt, w <| iw_records := [] |>));;
  deferred (cleanup token) (
    for_each (ord_AuthzURLs order) (authorize_one p token account);;
    der ← ask_res (fun n => ae_create_cert n account (ord_URI order) csrDER);
    assemble certificateKey der).

(** [Manager.IssueDNS01] ([manager.go]). *)
Definition Manager_IssueDNS01 (enabled : bool) (provider : option CloudflareDNS01Provider) (token : option string) (domain : string)
    : IS CertificatePEM :=
  match enabled, provider with
  | true, Some p => if String.eqb domain "" then fail (ErrMsg "ACME domain is required") else IssueDNS01 p token domain
  | _, _ => fail (ErrMsg "ACME provider is not configured")
  end.
End Operations.

(** ** The clock check: what it lets through *)

(** A response is taken when its date is within the tolerance; and also when its
    date is so far in the future that the difference to the clock has no value in 64
    bits, for the absolute value of the smallest duration is negative. *)
Theorem clock_check_exact reference local tolerance :
  tolerance < max_duration ->
  let tolerance' := if tolerance <=? 0 then DefaultTolerance else tolerance in
  Check reference local tolerance = Ok tt <->
    Z.abs (local - reference) <= tolerance' \/ local - reference <= - 2 ^ 63.
Proof.
  intros Ht tolerance'. unfold Check. fold tolerance'.
  assert (0 < tolerance' < 2 ^ 63 - 1) as Hp.
  { subst tolerance'. unfold max_duration in Ht. destruct (Z.leb_spec tolerance 0); [|lia]. done. }
  unfold Sub. clearbody tolerance'.
  assert (forall b : bool, (if b then Err "clock skew exceeds tolerance" else Ok tt) = (Ok tt : res string unit) <-> b = false) as ->.
  { by intros []. }
  rewrite Z.ltb_ge. destruct (Z.ltb_spec (Z.max (- 2 ^ 63) (Z.min max_duration (local - reference))) 0) as [Hn|Hn].
  - destruct (decide (local - reference <= - 2 ^ 63)) as [Hl|Hl].
    + replace (Z.max (- 2 ^ 63) (Z.min max_duration (local - reference))) with (- 2 ^ 63) by (unfold max_duration; lia).
      change (wrap64 (- - 2 ^ 63)) with (- 2 ^ 63). lia.
    + rewrite wrap64_exact by (unfold max_duration; lia). unfold max_duration in *. lia.
  - unfold max_duration in *. lia.
Qed.

(** ** The challenge records *)

(** The records made, in order. *)
Definition made (l : list AcmeEvent) : list (Zone * string) :=
  omap (fun e => match e with TXTCreated zone id => if String.eqb id "" then None else Some (zone, id) | _ => None end) (rev l).
Definition deletion (e : AcmeEvent) : bool := match e with TXTDeleted _ _ => true | _ => false end.

(** An acceptance comes right after the value was seen. *)
Fixpoint accepted_seen (l : list AcmeEvent) : bool :=
  match l with
  | Accepted name value :: l' =>
      match l' with TXTSeen n v :: _ => String.eqb n name && String.eqb v value | _ => false end && accepted_seen l'
  | _ :: l' => accepted_seen l'
  | [] => true
  end.

Lemma made_app a b : made (a ++ b) = (made b ++ made a)%list.
Proof. unfold made. by rewrite rev_app_distr, omap_app. Qed.
Lemma accepted_seen_app a b : accepted_seen a = true -> accepted_seen b = true -> accepted_seen (a ++ b) = true.
Proof.
  intros Ha Hb. induction a as [|e a IH]; [done|]. destruct e; try exact (IH Ha). cbn [accepted_seen app] in *.
  apply andb_true_iff in Ha as [H1 H2]. rewrite IH by done. destruct a as [|[] a]; try done. cbn [app]. by rewrite H1.
Qed.

Section Records.
Context `{Env} `{Transport} `{AcmeEnv} `{GoFloat}.

(** The variable [challengeRecords] has the records that were made, none has been
    deleted, and nothing was accepted that was not seen. *)
Definition tracked (w w' : IssuerWorld) : Prop := exists new,
  iw_log w' = (new ++ iw_log w)%list /\ existsb deletion new = false /\ accepted_seen new = true /\
  iw_records w' = (iw_records w ++ made new)%list.
#[local] Instance tracked_preorder : PreOrder tracked.
Proof.
  split.
  - intros w. exists []. cbn. by rewrite app_nil_r.
  - intros w1 w2 w3 (n1 & E1 & D1 & A1 & R1) (n2 & E2 & D2 & A2 & R2). exists (n2 ++ n1)%list.
    rewrite E2, E1, R2, R1, existsb_app, D1, D2, made_app, !app_assoc. split_and!; [done..| |done]. by apply accepted_seen_app.
Qed.

(** Nothing is written down. *)
Definition silent (w w' : IssuerWorld) : Prop := iw_log w' = iw_log w /\ iw_records w' = iw_records w.
Lemma silent_tracked {A} (m : IS A) : moves silent m -> moves tracked m.
Proof. intros Hm w. destruct (Hm w) as [E1 E2]. exists []. rewrite E1, E2. cbn. by rewrite app_nil_r. Qed.
#[local] Instance silent_preorder : PreOrder silent.
Proof. split; unfold silent; [done|]. intros w1 w2 w3 [] []. split; congruence. Qed.

Lemma silent_world {A} (m : M A) : moves silent (on_world m).
Proof. intros w. unfold on_world. by destruct (m (iw_world w)). Qed.
Lemma silent_ask {A} (f : nat -> A) : moves silent (ask f).
Proof. done. Qed.
Lemma silent_text {A} (r : res string A) : moves silent (lift_text r).
Proof. by destruct r. Qed.
Lemma silent_ask_res {A} (f : nat -> res string A) : moves silent (ask_res f).
Proof. unfold ask_res. apply moves_bind; [typeclasses eauto|apply silent_ask|intros r; apply silent_text]. Qed.
#[local] Hint Resolve silent_world silent_ask silent_text silent_ask_res : moves.

Lemma silent_zone pages page token domain : moves silent (find_zone pages page token domain).
Proof. revert page. induction pages as [|n IH]; intros page; simpl; repeat move_step; try apply IH. Qed.
Lemma silent_provider token domain : moves silent (providerAndZone token domain).
Proof. unfold providerAndZone. repeat move_step; apply silent_zone. Qed.

Lemma silent_fails {A} (m : IS A) w : moves silent m -> silent w (snd (m w)).
Proof. intros Hm. apply Hm. Qed.

(** What waiting ends with: an error, or the value seen as the latest event. *)
Lemma wait_seen fuel name value deadline w u w' :
  wait_rounds fuel name value deadline w = (Ok u, w') -> iw_log w' = TXTSeen name value :: iw_log w /\ iw_records w' = iw_records w.
Proof.
  revert w. induction fuel as [|n IH]; intros w; [done|]. cbn [wait_rounds]. unfold ask at 1, mbind, M_bind, bind. cbn.
  destruct (ae_lookup_txt _ _) as [values err]. destruct (existsb _ values); [by intros [= <- <-]|].
  destruct (deadline <? _); [done|]. destruct (ae_ctx _); [done|]. intros E. by apply IH in E.
Qed.
Lemma wait_fails fuel name value deadline w e w' :
  wait_rounds fuel name value deadline w = (Err e, w') -> silent w w'.
Proof.
  revert w. induction fuel as [|n IH]; intros w; [by intros [= <- <-]|]. cbn [wait_rounds]. unfold ask at 1, mbind, M_bind, bind. cbn.
  destruct (ae_lookup_txt _ _) as [values err]. destruct (existsb _ values); [done|].
  destruct (deadline <? _); [by intros [= <- <-]|]. destruct (ae_ctx _); [by intros [= <- <-]|].
  intros E. by apply IH in E.
Qed.

Lemma keep_tracked zone id : moves tracked (keep_record zone id).
Proof.
  intros w. exists [TXTCreated zone id]. unfold keep_record, log, remember, mbind, M_bind, bind, made. cbn.
  destruct (String.eqb id "") eqn:E; cbn; rewrite ?app_nil_r; done.
Qed.

Lemma waitTXT_tracked name value timeout : moves tracked (waitTXT name value timeout).
Proof.
  unfold waitTXT. apply moves_bind; [typeclasses eauto|apply silent_tracked, silent_world|]. intros t w.
  destruct (wait_rounds _ name value _ w) as [[u|e] w'] eqn:E.
  - apply wait_seen in E as [E1 E2]. exists [TXTSeen name value]. cbn. rewrite E1, E2, app_nil_r. done.
  - apply wait_fails in E as [E1 E2]. exists []. cbn. rewrite E1, E2, app_nil_r. done.
Qed.

(** What follows the wait for a value may accept it first. *)
Lemma accept_tracked {A} name value timeout (k : IS A) :
  moves tracked k -> moves tracked (waitTXT name value timeout;; log (Accepted name value);; k).
Proof.
  intros Hk w. pose proof (waitTXT_tracked name value timeout w) as Hw. unfold mbind at 1, M_bind, bind.
  destruct (waitTXT name value timeout w) as [[[]|e] w1] eqn:E; [|done]. clear Hw.
  assert (tracked w (w1 <| iw_log ::= cons (Accepted name value) |>)) as Ht.
  { unfold waitTXT, mbind, M_bind, bind, on_world, now in E. apply wait_seen in E as [E1 E2]. cbn in E1, E2.
    exists [Accepted name value; TXTSeen name value]. cbn. rewrite E1, E2, !String.eqb_refl, app_nil_r. done. }
  etrans; [exact Ht|]. apply Hk.
Qed.

Lemma authorize_tracked p token account url : moves tracked (authorize_one p token account url).
Proof.
  unfold authorize_one. apply moves_bind; [typeclasses eauto|apply silent_tracked, silent_ask_res|intros a].
  destruct (String.eqb (az_Status a) "valid"); [apply moves_ret, _|]. unfold fulfil.
  apply moves_bind; [typeclasses eauto|apply silent_tracked, silent_text|intros challenge].
  apply moves_bind; [typeclasses eauto|apply silent_tracked, silent_text|intros value].
  apply moves_bind; [typeclasses eauto|apply silent_tracked, silent_provider|intros [tok zone]].
  apply moves_bind; [typeclasses eauto|apply silent_tracked, silent_world|intros record].
  apply moves_bind; [typeclasses eauto|apply keep_tracked|intros _]. apply accept_tracked.
  apply moves_bind; [typeclasses eauto|apply silent_tracked, silent_ask_res|intros _]. apply silent_tracked, silent_ask_res.
Qed.

Lemma assemble_silent key der : moves silent (assemble key der).
Proof. unfold assemble. repeat move_step. Qed.

(** Nothing but a registration is written down. *)
Definition registers (w w' : IssuerWorld) : Prop := exists new, iw_log w' = (new ++ iw_log w)%list /\
  forallb (fun e => match e with Registered _ => true | _ => false end) new = true.
#[local] Instance registers_preorder : PreOrder registers.
Proof.
  split; [by intros w; exists []|]. intros w1 w2 w3 (n1 & E1 & F1) (n2 & E2 & F2). exists (n2 ++ n1)%list.
  by rewrite E2, E1, app_assoc, forallb_app, F1, F2.
Qed.
Lemma silent_registers {A} (m : IS A) : moves silent m -> moves registers m.
Proof. intros Hm w. exists []. by destruct (Hm w) as [-> _]. Qed.
Lemma silent_read : moves silent read_account.
Proof. intros w. unfold read_account. by case_match. Qed.
Lemma silent_write c : moves silent (write_account c).
Proof. intros w. unfold write_account. destruct (ae_write_fault _) as [[]|]; done. Qed.
Lemma silent_dir : moves silent make_account_dir.
Proof. unfold make_account_dir. repeat move_step. Qed.
Lemma silent_stored p encoded : moves silent (stored_account p encoded).
Proof. unfold stored_account. repeat move_step. Qed.
Lemma registers_log uri : moves registers (log (Registered uri)).
Proof. intros w. by exists [Registered uri]. Qed.

Lemma account_registers p : moves registers (loadOrRegisterAccount p).
Proof.
  pose proof silent_read. pose proof silent_dir. unfold loadOrRegisterAccount, register_account.
  repeat first [apply registers_log | apply silent_registers; first [apply silent_stored | apply silent_write | solve [auto with moves]] | move_step].
Qed.

Lemma registers_tracked new l l' :
  existsb deletion l = false -> accepted_seen l = true ->
  forallb (fun e => match e with Registered _ => true | _ => false end) new = true -> l' = (l ++ new)%list ->
  existsb deletion l' = false /\ accepted_seen l' = true /\ made l' = made l.
Proof.
  intros Hd Ha Hr ->. rewrite existsb_app, Hd, made_app.
  assert (existsb deletion new = false /\ accepted_seen new = true /\ made new = []) as (-> & An & ->).
  { induction new as [|[] new IH]; try done. cbn in Hr. destruct (IH Hr) as (E1 & E2 & E3).
    change (Registered uri :: new) with ([Registered uri] ++ new)%list. rewrite made_app, E3. done. }
  split_and!; [done|by apply accepted_seen_app|done].
Qed.

Lemma delete_log token records w :
  iw_log (snd (delete_records token records w)) = (map (fun zi => TXTDeleted (fst zi) (snd zi)) (rev records) ++ iw_log w)%list.
Proof.
  revert w. unfold delete_records. induction records as [|[zone id] l IH]; intros w; [done|]. cbn [for_each rev].
  erewrite bind_run by reflexivity. rewrite IH. cbn [snd]. unfold on_world.
  destruct (http_DeleteDNS token zone id _) as [r v]. cbn [snd iw_log set]. by rewrite map_app, <- app_assoc.
Qed.

Lemma after_account p token domain w r w' :
  IssueDNS01 p token domain w = (r, w') ->
  (exists new, iw_log w' = (new ++ iw_log w)%list /\ forallb (fun e => match e with Registered _ => true | _ => false end) new = true) \/
  exists w1 key csr account order, registers w w1 /\ iw_records w1 = [] /\
    deferred (cleanup token) (
      for_each (ord_AuthzURLs order) (authorize_one p token account);;
      der ← ask_res (fun n => ae_create_cert n account (ord_URI order) csr);
      assemble key der) w1 = (r, w').
Proof.
  unfold IssueDNS01. intros E. pose proof (account_registers p w) as Hr.
  apply bind_cases in E as [(e & E & ->)|(account & w1 & E1 & E)]; [left; by rewrite E in Hr|]. rewrite E1 in Hr. cbn [snd] in Hr.
  assert (forall A (m : IS A) w2 x w3, registers w w2 -> moves silent m -> m w2 = (x, w3) -> registers w w3) as Hs.
  { intros A m w2 x w3 Hw Hm Ex. etrans; [exact Hw|]. specialize (silent_registers m Hm w2). by rewrite Ex. }
  apply bind_cases in E as [(e & E & ->)|(key & w2 & E2 & E)]; [left; eapply Hs; [exact Hr|apply silent_ask_res|exact E]|].
  apply (Hs _ _ _ _ _ Hr (silent_ask_res _)) in E2 as Hr2.
  apply bind_cases in E as [(e & E & ->)|(csr & w3 & E3 & E)]; [left; eapply Hs; [exact Hr2|apply silent_text|exact E]|].
  apply (Hs _ _ _ _ _ Hr2 (silent_text _)) in E3 as Hr3.
  apply bind_cases in E as [(e & E & ->)|(order & w4 & E4 & E)]; [left; eapply Hs; [exact Hr3|apply silent_ask_res|exact E]|].
  apply (Hs _ _ _ _ _ Hr3 (silent_ask_res _)) in E4 as Hr4.
  erewrite bind_run in E by reflexivity. right. exists (w4 <| iw_records := [] |>), key, csr, account, order.
  split; [|done]. etrans; [exact Hr4|]. by exists [].
Qed.


(** ** Waiting for the record *)

(** A round that goes on only depends on what follows it. *)
Lemma wait_round n m name expected deadline w :
  (deadline < env_now (S (w_tick (iw_world w))) \/
   forall w', w_tick (iw_world w') = (w_tick (iw_world w) + 3)%nat ->
     wait_rounds n name expected deadline w' = wait_rounds m name expected deadline w') ->
  wait_rounds (S n) name expected deadline w = wait_rounds (S m) name expected deadline w.
Proof.
  intros Hnm. cbn [wait_rounds]. unfold ask, on_world, now, mbind, M_bind, bind. cbn [iw_world set w_tick step].
  destruct (ae_lookup_txt (w_tick (iw_world w)) name) as [values err]. destruct (existsb _ values); [done|].
  cbn [iw_world set w_tick step]. destruct (deadline <? env_now (S (w_tick (iw_world w)))) eqn:E; [done|]. apply Z.ltb_ge in E.
  destruct (ae_ctx _); [done|]. destruct Hnm as [|Hnm]; [lia|]. apply Hnm. cbn. lia.
Qed.

Lemma wait_rounds_enough k fuel name expected deadline w :
  (forall n, env_now n <= env_now (S n)) -> (forall n, env_now n + 2 * second <= env_now (n + 3)%nat) ->
  deadline < env_now (S (w_tick (iw_world w))) + Z.of_nat fuel * (2 * second) ->
  wait_rounds (S fuel + k) name expected deadline w = wait_rounds (S fuel) name expected deadline w.
Proof.
  intros Hmono Hstep. revert w. induction fuel as [|fuel IH]; intros w Hd; apply wait_round; [left; lia|right].
  intros w' Hw'. apply IH. rewrite Hw'. specialize (Hstep (S (w_tick (iw_world w)))).
  replace (S (w_tick (iw_world w)) + 3)%nat with (S (w_tick (iw_world w) + 3)) in Hstep by lia. lia.
Qed.

(** Waiting for the record ends.  When the clock does not go back and is two
    seconds later after a wait of two seconds, the rounds that the model allows are
    enough: with more of them [waitTXT] would do the same. *)
Theorem waitTXT_ends k name expected timeout w :
  0 <= timeout ->
  (forall n, env_now n <= env_now (S n)) -> (forall n, env_now n + 2 * second <= env_now (n + 3)%nat) ->
  waitTXT name expected timeout w =
    (t ← on_world now; wait_rounds (wait_fuel timeout + k) name expected (t + timeout)) w.
Proof.
  intros Ht Hmono Hstep. unfold waitTXT. erewrite !bind_run by reflexivity. unfold wait_fuel.
  replace (Z.to_nat (timeout / (2 * second)) + 2)%nat with (S (S (Z.to_nat (timeout / (2 * second)))))%nat by lia.
  symmetry. apply wait_rounds_enough; [done|done|]. cbn [iw_world set w_tick step].
  pose proof (Hmono (w_tick (iw_world w))). pose proof (Hmono (S (w_tick (iw_world w)))).
  pose proof (Z.div_mod timeout (2 * second) ltac:(done)). pose proof (Z.mod_pos_bound timeout (2 * second) ltac:(done)).
  pose proof (Z.div_pos timeout (2 * second) Ht ltac:(done)). unfold second in *. lia.
Qed.
End Records.

(** ** The stored account *)

Section Account.
Context `{Env} `{Transport} `{AcmeEnv} `{GoFloat}.

Lemma account_field_uri u (a : accountState) : assign_fields account_fields "account_uri" (TString u) a = (mkaccountState u (as_KeyDER a), true).
Proof. reflexivity. Qed.
Lemma account_field_key k (a : accountState) :
  assign_fields account_fields "key_der" (TString (std_encode k)) a = (mkaccountState (as_AccountURI a) k, true).
Proof.
  transitivity (let '(v, ok) := decode_bytes (TString (std_encode k)) (as_KeyDER a) in (mkaccountState (as_AccountURI a) v, ok)); [reflexivity|].
  unfold decode_bytes. by rewrite std_decode_encode.
Qed.

Lemma std_encode_utf8 k : valid_utf8 (std_encode k) = true.
Proof.
  apply valid_ascii. unfold std_encode, padding. rewrite forallb_str_append. apply andb_true_iff. split.
  - apply b64_encode_chars. intros x. by destruct x as [[] [] [] [] [] []].
  - by repeat case_match.
Qed.

Lemma account_reads_back a :
  valid_utf8 (as_AccountURI a) = true ->
  json_unmarshal account_target (json_marshal (account_json a)) (mkaccountState "" "") = (a, true).
Proof.
  intros Hu. unfold json_unmarshal. rewrite (parse_written 1); [| |done].
  - cbn [account_target tg_decode]. unfold account_json. cbn [text_of map fst snd]. unfold decode_struct. cbn [fold_left fst snd].
    rewrite account_field_uri. cbn [fst snd]. rewrite account_field_key. by destruct a.
  - apply writes_object. exists 0%nat. split; [done|]. repeat constructor; try done. apply std_encode_utf8.
Qed.

(** What is relied on: AES-GCM opens what it sealed, the random generator fills its
    buffer, and a private key is parsed from its own encoding. *)
Record account_laws (key : string) : Prop := {
  al_open n text : env_gcm_open key n (env_gcm_seal key n text account_aad) account_aad = Some text;
  al_random n s : env_random n 12 = Some s -> String.length s = 12%nat;
  al_parse k der : ae_marshal_key k = Ok der -> ae_parse_key der = Ok (Some k)
}.

(** The account is in the file. *)
Definition holds_account (p : CloudflareDNS01Provider) (a : accountMaterial) (content : string) : Prop :=
  exists nonce der, ae_marshal_key (acc_key a) = Ok der /\ String.length nonce = 12%nat /\ aes_key_ok (dp_key p) = true /\
    content = (nonce ++ env_gcm_seal (dp_key p) nonce (json_marshal (account_json (mkaccountState (acc_uri a) der))) account_aad)%string.

Lemma lift_text_Ok {A} (r : res string A) w a w' : lift_text r w = (Ok a, w') -> r = Ok a /\ w' = w.
Proof. destruct r as [b|e]; [|done]. by intros [= <- <-]. Qed.
Lemma ask_res_Ok {A} (f : nat -> res string A) w a w' :
  ask_res f w = (Ok a, w') -> f (w_tick (iw_world w)) = Ok a /\ iw_account w' = iw_account w.
Proof. unfold ask_res, ask, mbind, M_bind, bind. cbn. by intros [-> ->]%lift_text_Ok. Qed.

Lemma register_holds p w a w' :
  account_laws (dp_key p) -> register_account p w = (Ok a, w') -> exists content, iw_account w' = Some content /\ holds_account p a content.
Proof.
  intros HL. unfold register_account. intros (key & w1 & (_ & _)%ask_res_Ok & E)%bind_Ok.
  apply bind_Ok in E as (uri & w2 & (_ & _)%ask_res_Ok & E). apply bind_Ok in E as (? & w3 & [= <- <-] & E).
  apply bind_Ok in E as (der & w4 & [Hder ->]%lift_text_Ok & E). apply bind_Ok in E as ([ct nonce] & w5 & E5 & E).
  apply bind_Ok in E as (? & w6 & _ & E). apply bind_Ok in E as (? & w7 & E7 & [= <- <-]).
  unfold write_account in E7. destruct (ae_write_fault _) as [[]|]; [done|]. injection E7 as _ <-. cbn [iw_account set].
  eexists. split; [done|]. unfold on_world in E5. destruct (encryptWithKey _ _ _ _) as [r v] eqn:Ee. injection E5 as -> <-.
  unfold encryptWithKey in Ee. apply bind_Ok in Ee as (? & v1 & [Hk ->]%fail_if_Ok & Ee).
  apply bind_Ok in Ee as (nc & v2 & [Hn ->]%rand_read_Ok & [= <- <- <-]).
  exists nc, der. split; [done|]. split; [by eapply al_random|]. split; [by apply negb_false_iff in Hk|done].
Qed.

Lemma split_nonce n c : String.length n = 12%nat -> take_str 12 (n ++ c) = n.
Proof. intros <-. apply take_str_app. Qed.
Lemma drop_nonce n c : String.length n = 12%nat -> drop_str 12 (n ++ c) = c.
Proof. intros <-. apply drop_str_app. Qed.

Lemma stored_holds p a content w :
  account_laws (dp_key p) -> valid_utf8 (acc_uri a) = true -> acc_uri a <> ""%string -> holds_account p a content ->
  exists w', stored_account p content w = (Ok a, w') /\ iw_log w' = iw_log w.
Proof.
  intros HL Hu Hne (nonce & der & Hder & Hn & Hk & ->). unfold stored_account.
  rewrite length_app_str, Hn, split_nonce, drop_nonce by done. cbn [Nat.ltb Nat.leb Nat.add fail_if].
  eexists. split; [|reflexivity].
  erewrite bind_run by reflexivity.
  erewrite bind_run; cycle 1.
  { unfold on_world, decryptWithKey. rewrite Hk. cbn [negb fail_if]. erewrite bind_run by reflexivity.
    rewrite Hn. cbn [Nat.eqb negb fail_if]. erewrite bind_run by reflexivity. rewrite (al_open _ HL). reflexivity. }
  cbn beta. rewrite account_reads_back by done. cbn [as_KeyDER as_AccountURI].
  rewrite (al_parse _ HL _ _ Hder). erewrite bind_run by reflexivity.
  destruct (String.eqb_spec (acc_uri a) ""); [done|]. by destruct a, w.
Qed.

(** C24: An account is registered once.  When registering it succeeded, the account
    that the file holds is the one that every later issue uses, with the same key, and
    nothing is registered again, as long as the file can be read. *)
Theorem account_is_kept p w a w1 w2 :
  account_laws (dp_key p) -> iw_account w = None -> loadOrRegisterAccount p w = (Ok a, w1) ->
  valid_utf8 (acc_uri a) = true -> acc_uri a <> ""%string ->
  iw_account w2 = iw_account w1 -> ae_read_fault (w_tick (iw_world w2)) = None ->
  exists w3, loadOrRegisterAccount p w2 = (Ok a, w3) /\ iw_log w3 = iw_log w2.
Proof.
  intros HL Hnone E Hu Hne E2 Hf. unfold loadOrRegisterAccount in E.
  apply bind_Ok in E as (found & w0 & E0 & E). unfold read_account in E0. destruct (ae_read_fault (w_tick (iw_world w))); [done|].
  injection E0 as <- <-. rewrite Hnone in E. apply register_holds in E as (content & Hc & Hh); [|done].
  unfold loadOrRegisterAccount. rewrite Hc in E2. erewrite bind_run; cycle 1.
  { unfold read_account. rewrite Hf, E2. reflexivity. }
  destruct (stored_holds p a content (w2 <| iw_world ::= step |>) HL Hu Hne Hh) as (w3 & E3 & Hl). by exists w3.
Qed.
End Account.
