(* ===== verification/Backup.v ===== *)
(** Backups ([server/internal/backup/backup.go]): a package of the database and
    the data directory, encrypted under a password; reading it back; and putting
    a database in the place of another.

    Files are kept by their absolute path.  Directories are not modelled, only the
    outcome of creating one.  Every call of the system and every statement on the
    restored file may fail.  SQLite's file format, zip and scrypt are arguments. *)

From S2P Require Import Prelude StateError GoText GoPath GoNet Timestamps GoTime Encoding GoJson GoJsonRead Schema Effects Logic Validation Store Jobs ClientToml.
From Stdlib Require Import Ascii String.
Open Scope Z_scope.

(** ** Files *)

Inductive Entry := Regular (content : string) | Special.
Abbreviation Files := (gmap string Entry).

(** What a database file holds: its tables, with those that the services use, the
    version of the schema, and when it was last restored. *)
Record Image := mkImage {
  im_tables : list string;
  im_db : DB;
  im_version : Z;
  im_restored : option Stamp
}.
#[export] Instance Eta_Image : Eta Image := fun r => mkImage r.(im_tables) r.(im_db) r.(im_version) r.(im_restored).

(** A file in a zip archive: what can be read of it, and the error at its end. *)
Record ZipEntry := mkZipEntry { ze_Name : string; ze_Data : string; ze_Error : option string }.

Record BackupWorld := mkBackupWorld { bw_world : World; bw_files : Files }.
#[export] Instance Eta_BackupWorld : Eta BackupWorld := fun r => mkBackupWorld r.(bw_world) r.(bw_files).

(** [bk_fault n] is the error of the system at effect [n], [bk_torn n] how much of
    a write that fails is on disk, [bk_temp n] the random part of the name of a
    temporary file, [bk_order] the order in which a map is ranged over. *)
Class BackupEnv := {
  bk_fault : nat -> option string;
  bk_torn : nat -> nat;
  bk_temp : nat -> string;
  bk_tempdir : string;
  bk_cwd : string;
  bk_live : DB -> Image;
  bk_order : nat -> list string -> list string;
  bk_order_perm n l : Permutation (bk_order n l) l;
  sqlite_file : Image -> string;
  sqlite_open : string -> option Image;
  bk_scrypt : string -> string -> string;
  zip_file : list (string * string) -> string;
  zip_open : string -> option (list ZipEntry)
}.

Abbreviation BK := (ST BackupWorld string).

Definition passed (w : BackupWorld) : BackupWorld := w <| bw_world ::= step |>.

Section Calls.
Context `{Env} `{BackupEnv}.

Definition in_service {A} (m : M A) : BK A := fun w =>
  let '(x, v) := m (bw_world w) in
  (match x with Ok a => Ok a | Err e => Err (error_text e) end, w <| bw_world := v |>).

(** The key of a path. *)
Definition abs_path (p : string) : string := if is_rooted p then Clean p else Join [bk_cwd; p].

Definition os_call {A} (ok : Files -> res string (A * Files)) : BK A := fun w =>
  match bk_fault (w_tick (bw_world w)) with
  | Some e => (Err e, passed w)
  | None => match ok (bw_files w) with
            | Ok (a, fs) => (Ok a, passed w <| bw_files := fs |>)
            | Err e => (Err e, passed w)
            end
  end.

Definition not_exist : string := "no such file or directory".

Definition os_effect (f : Files -> Files) : BK unit := os_call (fun fs => Ok (tt, f fs)).
Definition os_MkdirAll : BK unit := os_effect id.
Definition os_Stat (path : string) : BK unit :=
  os_call (fun fs => match fs !! abs_path path with Some _ => Ok (tt, fs) | None => Err not_exist end).
Definition os_ReadFile (path : string) : BK string :=
  os_call (fun fs => match fs !! abs_path path with
                     | Some (Regular s) => Ok (s, fs)
                     | Some Special => Err "not a regular file"%string
                     | None => Err not_exist
                     end).
Definition os_Remove (path : string) : BK unit :=
  os_call (fun fs => match fs !! abs_path path with Some _ => Ok (tt, delete (abs_path path) fs) | None => Err not_exist end).
Definition os_Rename (source target : string) : BK unit :=
  os_call (fun fs => match fs !! abs_path source with
                     | Some x => Ok (tt, <[abs_path target := x]> (delete (abs_path source) fs))
                     | None => Err not_exist
                     end).

(** [os.CreateTemp]: an empty file with a name that was free. *)
Definition temp_path (dir prefix suffix : string) (n : nat) : string :=
  (dir ++ (if HasSuffix dir "/" then "" else "/") ++ prefix ++ bk_temp n ++ suffix)%string.
Definition os_CreateTemp (dir prefix suffix : string) : BK string := fun w =>
  let path := temp_path dir prefix suffix (w_tick (bw_world w)) in
  os_call (fun fs => match fs !! abs_path path with
                     | None => Ok (path, <[abs_path path := Regular ""]> fs)
                     | Some _ => Err "file exists"%string
                     end) w.

(** [Write] of an empty file. *)
Definition file_Write (path content : string) : BK unit := fun w =>
  match bk_fault (w_tick (bw_world w)) with
  | None => (Ok tt, passed w <| bw_files ::= <[abs_path path := Regular content]> |>)
  | Some e => (Err e, passed w <| bw_files ::= <[abs_path path := Regular (take_str (bk_torn (w_tick (bw_world w))) content)]> |>)
  end.

(** [Chmod], [Sync] and [Close] of a file, [os.Open] of one that is there. *)
Definition file_call : BK unit := os_effect id.

(** [filepath.Abs]: a relative path needs the working directory. *)
Definition Abs (p : string) : BK string :=
  if is_rooted p then ret (Clean p) else os_effect id;; ret (abs_path p).

Definition writeAtomic (path content : string) : BK unit :=
  os_MkdirAll;;
  tmp ← os_CreateTemp (Dir path) ".backup-tmp-" "";
  deferred (os_Remove tmp) (
    file_call;;
    file_Write tmp content;;
    file_call;;
    file_call;;
    os_Rename tmp path;;
    file_call;;
    file_call).
End Calls.

(** ** Packages *)

Record Manifest := mkManifest {
  mf_Format : string; mf_CreatedAt : string; mf_MigrationVersion : Z; mf_Files : gmap string string }.
#[export] Instance Eta_Manifest : Eta Manifest := fun r =>
  mkManifest r.(mf_Format) r.(mf_CreatedAt) r.(mf_MigrationVersion) r.(mf_Files).

Definition packageMagic : string := "FPPB1".
Definition backupSaltSize : nat := 16.
Definition nonce_size : nat := 12.
Definition backup_format : string := "frp-panel-backup-v1".
Definition manifest_name : string := "manifest.json".
Definition database_name : string := "server.db".
Definition short_password : string := "backup password must be at least 12 characters".

(** [0], or a limit of a file in the archive. *)
Definition file_limit (name : string) : Z := if String.eqb name database_name then 512 * 2 ^ 20 else 64 * 2 ^ 20.
Definition length_of (s : string) : Z := Z.of_nat (String.length s).

Definition validArchiveFileName (name : string) : bool :=
  if negb (HasPrefix name "files/") || HasSuffix name "/" then false
  else
    let relative := TrimPrefix name "files/" in
    if String.eqb relative "" || Contains relative "\" then false
    else forallb (fun part => negb (String.eqb part "" || String.eqb part "." || String.eqb part "..")) (SplitByte relative "/").

(** [filepath.Rel] of a path in or below [root]. *)
Definition rel_parts (root path : string) : list string :=
  drop (List.length (rev (clean_stack root))) (rev (clean_stack path)).
Definition Rel (root path : string) : string :=
  match rel_parts root path with [] => "." | l => join_path l end.
Definition in_tree (root path : string) : bool :=
  is_rooted path && String.eqb (Clean path) path && bool_decide (take (List.length (clean_stack root)) (rev (clean_stack path)) = rev (clean_stack root)).

(** The directories [backups] and [logs] are skipped. *)
Definition skipped_dir (root path : string) : bool :=
  existsb (fun c => String.eqb c "backups" || String.eqb c "logs") (removelast (rel_parts root path)).
Definition skipped_suffixes : list string := [".tmp"; ".db"; ".db-wal"; ".db-shm"; ".log"]%string.
Definition skipped_file (output path : string) : bool :=
  String.eqb path output || existsb (HasSuffix path) skipped_suffixes.

(** The files that are collected; a file that is too long is left out. *)
Definition collected (root output path content : string) : bool :=
  in_tree root path && negb (skipped_dir root path) && negb (skipped_file output path)
  && (length_of content <=? 64 * 2 ^ 20).
Definition archive_name (root path : string) : string := ("files/" ++ Rel root path)%string.

Section Packages.
Context `{Env} `{BackupEnv}.

(** [filepath.WalkDir]: the regular files that are collected. *)
Definition walked (root output : string) (fs : Files) : list (string * string) :=
  omap (fun kv : string * Entry =>
    match kv.2 with
    | Regular content => if collected root output kv.1 content then Some (kv.1, content) else None
    | Special => None
    end) (order_by (fun a b => String.ltb a.1 b.1) (map_to_list fs)).

Fixpoint read_walked (root : string) (l : list (string * string)) (files : gmap string string) : BK (gmap string string) :=
  match l with
  | [] => ret files
  | (path, _) :: l =>
      content ← os_ReadFile path;
      read_walked root l (<[archive_name root path := content]> files)
  end.

Definition collectDataFiles (dataDir output : string) : BK (gmap string string) :=
  root ← Abs dataDir;
  outputPath ← attempt (Abs output);
  let outputPath := match outputPath with Ok p => p | Err _ => ""%string end in
  l ← os_call (fun fs => Ok (walked root outputPath fs, fs));
  read_walked root l ∅.

Definition sorted_names (files : gmap string string) : list (string * string) :=
  order_by (fun a b => String.ltb a.1 b.1) (map_to_list files).

Definition manifest_json (m : Manifest) : JSON := JObject
  [("format", JString (mf_Format m)); ("created_at", JString (mf_CreatedAt m));
   ("migration_version", JInt (mf_MigrationVersion m));
   ("files", JObject (map (fun kv => (kv.1, JString kv.2)) (sorted_names (mf_Files m))))]%string.

(** The archive of the files, the manifest first. *)
Definition archive_of `{GoFloat} (m : Manifest) (files : gmap string string) : string :=
  zip_file ((manifest_name, json_marshal (manifest_json m)) :: sorted_names files).

Definition migrationVersion : BK Z := fun w =>
  match bk_fault (w_tick (bw_world w)) with
  | Some _ => (Ok 0, passed w)
  | None => (Ok (im_version (bk_live (w_db (bw_world w)))), passed w)
  end.

(** [VACUUM INTO] *)
Definition vacuum_into (path : string) : BK unit := fun w =>
  match bk_fault (w_tick (bw_world w)) with
  | Some e => (Err e, passed w)
  | None => (Ok tt, passed w <| bw_files ::= <[abs_path path := Regular (sqlite_file (bk_live (w_db (bw_world w))))]> |>)
  end.

Definition seal_package (password salt nonce archive : string) : string :=
  (packageMagic ++ salt ++ nonce ++ env_gcm_seal (bk_scrypt password salt) nonce archive backup_format)%string.

(** [CreateWithOptions]; [dataDir] is the option, [""] for none. *)
Definition CreateWithOptions `{GoFloat} (output password dataDir : string) : BK unit :=
  fail_if (Nat.ltb (String.length password) 12) short_password;;
  tmp ← os_CreateTemp bk_tempdir "frp-panel-backup-" ".db";
  deferred (os_Remove tmp) (
    vacuum_into tmp;;
    file_call;;
    databaseBytes ← os_ReadFile tmp;
    additional ← (if String.eqb dataDir "" then ret ∅ else collectDataFiles dataDir output);
    let files := additional ∪ {[database_name := databaseBytes]} in
    let checksums := sha256Hex <$> files in
    version ← migrationVersion;
    t ← in_service now;
    let archive := archive_of (mkManifest backup_format (RFC3339Nano t) version checksums) files in
    salt ← in_service (rand_read backupSaltSize);
    nonce ← in_service (rand_read nonce_size);
    os_MkdirAll;;
    writeAtomic output (seal_package password salt nonce archive)).

(** ** Reading a package *)

(** A [map[string]string]. *)
Definition decode_texts (t : JText) (m : gmap string string) : gmap string string * bool :=
  match t with
  | TObject fields =>
      fold_left (fun r kv => let '(s, ok) := decode_string kv.2 ""%string in (<[kv.1 := s]> r.1, r.2 && ok)) fields (m, true)
  | TNull => (∅, true)
  | _ => (m, false)
  end.

Definition manifest_fields : list (struct_field Manifest) :=
  [("format", on_field mf_Format (fun f m => m <| mf_Format ::= f |>) decode_string);
   ("created_at", on_field mf_CreatedAt (fun f m => m <| mf_CreatedAt ::= f |>) decode_string);
   ("migration_version", on_field mf_MigrationVersion (fun f m => m <| mf_MigrationVersion ::= f |>) decode_int64);
   ("files", on_field mf_Files (fun f m => m <| mf_Files ::= f |>) decode_texts)]%string.
Definition manifest_target `{GoFloat} : Target Manifest :=
  mkTarget (decode_struct (assign_fields manifest_fields)) (fun m => json_marshal (manifest_json m)).

(** [io.ReadAll(io.LimitReader(file, n))] *)
Definition read_limited (e : ZipEntry) (n : Z) : res string string :=
  if n <=? length_of (ze_Data e) then Ok (take_str (Z.to_nat n) (ze_Data e))
  else match ze_Error e with Some err => Err err | None => Ok (ze_Data e) end.

Definition read_entry `{GoFloat} (e : ZipEntry) (got : Manifest * gmap string string) : res string (Manifest * gmap string string) :=
  let '(manifest, files) := got in
  if String.eqb (ze_Name e) manifest_name then
    match read_limited e (2 ^ 20) with
    | Err err => Err err
    | Ok data => match json_unmarshal manifest_target data manifest with
                 | (m, true) => Ok (m, files)
                 | _ => Err "invalid manifest"%string
                 end
    end
  else if negb (String.eqb (ze_Name e) database_name) && negb (HasPrefix (ze_Name e) "files/") then
    Err "backup contains an invalid file path"%string
  else match files !! ze_Name e with
  | Some _ => Err "backup contains duplicate file entries"%string
  | None =>
    if negb (String.eqb (ze_Name e) database_name) && negb (validArchiveFileName (ze_Name e)) then
      Err "backup contains an unsafe file path"%string
    else
      let limit := file_limit (ze_Name e) in
      match read_limited e (limit + 1) with
      | Err err => Err err
      | Ok data => if limit <? length_of data then Err "backup file exceeds size limit"%string
                   else Ok (manifest, <[ze_Name e := data]> files)
      end
  end.

Fixpoint read_archive `{GoFloat} (l : list ZipEntry) (got : Manifest * gmap string string) : res string (Manifest * gmap string string) :=
  match l with
  | [] => Ok got
  | e :: l => match read_entry e got with Ok got' => read_archive l got' | Err err => Err err end
  end.

(** The checks of the manifest against the files, in the order given. *)
Definition checksum_error (m : Manifest) (files : gmap string string) (name : string) : option string :=
  match files !! name with
  | None => Some "backup file is missing"%string
  | Some content =>
      if EqualFold (default ""%string (mf_Files m !! name)) (sha256Hex content) then None
      else Some "backup file checksum mismatch"%string
  end.
Definition unlisted_error (m : Manifest) (name : string) : option string :=
  if String.eqb (default ""%string (mf_Files m !! name)) "" then Some "backup file is not listed in the manifest"%string else None.

Definition keys {A} (m : gmap string A) : list string := map fst (map_to_list m).

Definition ranged (l : list string) (check : string -> option string) : BK unit := fun w =>
  match omap check (bk_order (w_tick (bw_world w)) l) with
  | [] => (Ok tt, passed w)
  | e :: _ => (Err e, passed w)
  end.

Definition lift_res {A} (x : res string A) : BK A := fun w => (x, w).

Definition DecodePackage `{GoFloat} (input password : string) : BK (Manifest * gmap string string) :=
  fail_if (Nat.ltb (String.length password) 12) short_password;;
  encoded ← os_ReadFile input;
  let pos := String.length packageMagic in
  let minimum := (pos + backupSaltSize + 12 + 16)%nat in
  fail_if (Nat.ltb (String.length encoded) minimum || negb (String.eqb (take_str pos encoded) packageMagic)) "invalid backup package"%string;;
  let salt := take_str backupSaltSize (drop_str pos encoded) in
  let sealed := drop_str (pos + backupSaltSize) encoded in
  let nonce := take_str nonce_size sealed in
  archive ← or_fail "backup authentication failed"%string
    (env_gcm_open (bk_scrypt password salt) nonce (drop_str nonce_size sealed) backup_format);
  entries ← or_fail "zip: not a valid zip file"%string (zip_open archive);
  '(manifest, files) ← lift_res (read_archive entries (mkManifest "" "" 0 ∅, ∅));
  fail_if (negb (String.eqb (mf_Format manifest) backup_format) || String.eqb (default ""%string (files !! database_name)) "")
    "backup manifest or database is missing"%string;;
  fail_if (String.eqb (default ""%string (mf_Files manifest !! database_name)) "") "backup manifest does not checksum the database"%string;;
  ranged (keys (mf_Files manifest)) (checksum_error manifest files);;
  ranged (keys files) (unlisted_error manifest);;
  ret (manifest, files).

Definition Decode `{GoFloat} (input password : string) : BK (Manifest * string) :=
  '(manifest, files) ← DecodePackage input password;
  match files !! database_name with
  | Some database => ret (manifest, database)
  | None => fail "backup database is missing"%string
  end.
End Packages.

(** ** Restoring *)

Section Restore.
Context `{Env} `{BackupEnv} `{GoFloat}.

Definition restore_target_required : string := "restore target is required".

(** [time.Format("20060102T150405Z")] *)
Definition compact_stamp (t : Stamp) : string :=
  let s := seconds_of t in
  let '(y, m, d) := date_of (s / day_seconds) in
  let c := s mod day_seconds in
  (padded 4 y ++ padded 2 m ++ padded 2 d ++ "T" ++ padded 2 (c / 3600) ++ padded 2 (c / 60 mod 60) ++ padded 2 (c mod 60) ++ "Z")%string.

(** [PRAGMA integrity_check] *)
Definition integrity_check (path : string) : BK unit :=
  os_call (fun fs => match fs !! abs_path path with
                     | Some (Regular s) => match sqlite_open s with
                                           | Some _ => Ok (tt, fs)
                                           | None => Err "restored database integrity check failed"%string
                                           end
                     | _ => Err "restored database integrity check failed"%string
                     end).

(** A table that cannot be asked about is taken for absent. *)
Definition tableExists (path table : string) : BK bool := fun w =>
  match bk_fault (w_tick (bw_world w)) with
  | Some _ => (Ok false, passed w)
  | None =>
      (Ok (match bw_files w !! abs_path path with
           | Some (Regular s) => match sqlite_open s with
                                 | Some im => existsb (String.eqb table) (im_tables im)
                                 | None => false
                                 end
           | _ => false
           end), passed w)
  end.

(** A statement on the database file [path]. *)
Definition exec_file (path : string) (f : Image -> Image) : BK unit :=
  os_call (fun fs => match fs !! abs_path path with
                     | Some (Regular s) => match sqlite_open s with
                                           | Some im => Ok (tt, <[abs_path path := Regular (sqlite_file (f im))]> fs)
                                           | None => Err "file is not a database"%string
                                           end
                     | _ => Err "unable to open database file"%string
                     end).

Definition revoke_session (now : Stamp) (s : Session) : Session :=
  match s_revoked s with
  | Some _ => s
  | None => s <| s_revoked := Some now |> <| s_revoke_reason := Some "RESTORE"%string |>
  end.
Definition revoke_credential (now : Stamp) (c : RuntimeCredential) : RuntimeCredential :=
  match rc_revoked c with Some _ => c | None => c <| rc_revoked := Some now |> end.

Definition revoke_sessions (now : Stamp) (im : Image) : Image := im <| im_db ::= fun db => db <| sessions ::= fmap (revoke_session now) |> |>.
Definition revoke_credentials (now : Stamp) (im : Image) : Image :=
  im <| im_db ::= fun db => db <| runtime_credentials ::= fmap (revoke_credential now) |> |>.
Definition mark_restored (now : Stamp) (im : Image) : Image := im <| im_restored := Some now |>.

(** An update of a table that is there. *)
Definition update_table (path table : string) (f : Image -> Image) : BK unit :=
  there ← tableExists path table;
  if (there : bool) then exec_file path f else ret tt.

(** What is done to the database once it is in its place. *)
Definition revoke_restored (target : string) : BK unit :=
  t ← in_service now;
  r ← attempt (
    update_table target "sessions" (revoke_sessions t);;
    update_table target "frp_runtime_credentials" (revoke_credentials t);;
    update_table target "system_identity" (mark_restored t));
  closeErr ← attempt file_call;
  match r with Err e => fail e | Ok _ => match closeErr with Err e => fail e | Ok _ => ret tt end end.

(** The file [target] under another name: that name, [""] when there is none. *)
Definition set_aside (target : string) : BK string :=
  found ← attempt (os_Stat target);
  match found with
  | Ok _ =>
      t ← in_service now;
      let previous := (target ++ ".before-restore-" ++ compact_stamp t)%string in
      os_Rename target previous;;
      ret previous
  | Err _ => ret ""%string
  end.

(** Putting the file [tmp] in the place of [target]. *)
Definition install (tmp target : string) : BK string :=
  previous ← set_aside target;
  r ← attempt (os_Rename tmp target);
  match r with
  | Ok _ => ret previous
  | Err e =>
      (if String.eqb previous "" then ret tt else ignore (os_Rename previous target));;
      fail e
  end.

(** The path of a file of the package below the data directory. *)
Definition restored_path (root name : string) : option string :=
  let clean := Clean (TrimPrefix name "files/") in
  if String.eqb clean "." || String.eqb clean ".." || HasPrefix clean "../" || is_rooted clean then None
  else Some (Join [root; clean]).

Definition restore_file (root : string) (files : gmap string string) (name : string) : BK unit :=
  if negb (HasPrefix name "files/") then ret tt
  else match restored_path root name with
  | None => fail "backup file path escapes data directory"%string
  | Some target =>
      os_MkdirAll;;
      writeAtomic target (default ""%string (files !! name));;
      file_call
  end.

Definition restoreDataFiles (dataDir : string) (files : gmap string string) : BK unit :=
  root ← Abs dataDir;
  os_MkdirAll;;
  names ← (fun w => (Ok (bk_order (w_tick (bw_world w)) (keys files)), passed w));
  for_each names (restore_file root files).

Definition RestoreWithOptions (input password target dataDir : string) : BK string :=
  fail_if (String.eqb (Clean target) "." || String.eqb target "") restore_target_required;;
  '(_, files) ← DecodePackage input password;
  let parent := Dir target in
  os_MkdirAll;;
  tmp ← os_CreateTemp parent ".frp-panel-restore-" ".db";
  deferred (os_Remove tmp) (
    file_call;;
    file_Write tmp (default ""%string (files !! database_name));;
    file_call;;
    integrity_check tmp;;
    previous ← install tmp target;
    revoke_restored target;;
    (if String.eqb dataDir "" then ret tt else restoreDataFiles dataDir files);;
    ret previous).
End Restore.
