(* ===== verification/BackupSpec.v ===== *)
(** What a backup is good for: the package that is written is read back file by
    file; restoring touches nothing but the database and the data directory, and
    nothing at all when the package does not hold; and no session or credential of
    the restored database is live. *)

From S2P Require Import Prelude StateError GoText GoPath GoNet Timestamps GoTime Encoding GoJson GoJsonRead GoJsonSpec Schema Effects Logic Validation Store Jobs ClientToml Backup.
From Stdlib Require Import Ascii String.
Open Scope Z_scope.

(** ** Calls *)

Section Calls.
Context `{Env} `{BackupEnv}.

Lemma os_call_Ok {A} (ok : Files -> res string (A * Files)) w a w' :
  os_call ok w = (Ok a, w') <->
  bk_fault (w_tick (bw_world w)) = None /\ exists fs, ok (bw_files w) = Ok (a, fs) /\ w' = passed w <| bw_files := fs |>.
Proof.
  unfold os_call. destruct (bk_fault _); [split; [done|by intros [? _]]|].
  destruct (ok (bw_files w)) as [[b fs]|e]; split; try done.
  - intros [= <- <-]. eauto.
  - by intros (_ & fs' & [= <- <-] & ->).
  - by intros (_ & fs' & [=] & _).
Qed.

Lemma os_effect_Ok f u w w' :
  os_effect f w = (Ok u, w') -> w' = passed w <| bw_files ::= f |>.
Proof. unfold os_effect. intros (_ & fs & [= _ <-] & ->)%os_call_Ok. done. Qed.

Lemma call_Ok u w w' : os_effect id w = (Ok u, w') -> bw_files w' = bw_files w.
Proof. by intros ->%os_effect_Ok. Qed.

(** *** A file that is there stays as it is *)

Definition kept (p : string) (x : Entry) (w : BackupWorld) : Prop := bw_files w !! p = Some x.

Section Kept.
Context (p : string) (x : Entry).
Abbreviation keeps := (moves (keeping (kept p x))).

Lemma keeps_call {A} (ok : Files -> res string (A * Files)) :
  (forall fs a fs', fs !! p = Some x -> ok fs = Ok (a, fs') -> fs' !! p = Some x) -> keeps (os_call ok).
Proof.
  intros Hok w Hw. unfold kept, os_call in *. destruct (bk_fault _); [done|].
  destruct (ok (bw_files w)) as [[a fs]|e] eqn:E; [|done]. cbn. by eapply Hok.
Qed.

Lemma keeps_service {A} (m : M A) : keeps (in_service m).
Proof. intros w Hw. unfold in_service. by destruct (m (bw_world w)). Qed.
Lemma keeps_effect : keeps (os_effect id).
Proof. apply keeps_call. by intros fs a fs' Hp [= _ <-]. Qed.
Lemma keeps_stat path : keeps (os_Stat path).
Proof. apply keeps_call. intros fs a fs' Hp E. destruct (fs !! abs_path path); [|done]. by injection E as _ <-. Qed.
Lemma keeps_read path : keeps (os_ReadFile path).
Proof. apply keeps_call. intros fs a fs' Hp E. destruct (fs !! abs_path path) as [[]|]; [|done..]. by injection E as _ <-. Qed.
Lemma keeps_remove path : abs_path path <> p -> keeps (os_Remove path).
Proof.
  intros Hne. apply keeps_call. intros fs a fs' Hp E. destruct (fs !! abs_path path); [|done]. injection E as _ <-.
  by rewrite lookup_delete_ne.
Qed.
Lemma keeps_rename source target : abs_path source <> p -> abs_path target <> p -> keeps (os_Rename source target).
Proof.
  intros Hs Ht. apply keeps_call. intros fs a fs' Hp E. destruct (fs !! abs_path source); [|done]. injection E as _ <-.
  by rewrite lookup_insert_ne, lookup_delete_ne.
Qed.
Lemma keeps_write path content : abs_path path <> p -> keeps (file_Write path content).
Proof.
  intros Hne w Hw. unfold kept, file_Write in *. destruct (bk_fault _); cbn; by rewrite lookup_insert_ne.
Qed.
Lemma keeps_exec path f : abs_path path <> p -> keeps (exec_file path f).
Proof.
  intros Hne. apply keeps_call. intros fs a fs' Hp E. destruct (fs !! abs_path path) as [[s|]|]; [|done..].
  destruct (sqlite_open s); [|done]. injection E as _ <-. by rewrite lookup_insert_ne.
Qed.
Lemma keeps_exists path table : keeps (tableExists path table).
Proof. intros w Hw. unfold tableExists. by destruct (bk_fault _). Qed.
Lemma keeps_integrity path : keeps (integrity_check path).
Proof.
  apply keeps_call. intros fs a fs' Hp E. destruct (fs !! abs_path path) as [[s|]|]; [|done..].
  destruct (sqlite_open s); [|done]. by injection E as _ <-.
Qed.
Lemma keeps_deferred {A} cleanup (body : BK A) : keeps cleanup -> keeps body -> keeps (deferred cleanup body).
Proof.
  intros Hc Hb w Hw. unfold deferred. specialize (Hb w Hw). destruct (body w) as [r w']. by apply Hc.
Qed.

(** A new file is another one. *)
Lemma keeps_temp {A} dir prefix suffix (k : string -> BK A) :
  (forall tmp, abs_path tmp <> p -> keeps (k tmp)) -> keeps (os_CreateTemp dir prefix suffix ≫= k).
Proof.
  intros Hk w Hw. unfold os_CreateTemp, mbind, M_bind, bind, os_call.
  destruct (bk_fault _); [done|]. destruct (bw_files w !! abs_path _) eqn:E; [done|]. cbn.
  apply Hk; unfold kept in *; [congruence|]. cbn. rewrite lookup_insert_ne; [done|congruence].
Qed.
End Kept.
End Calls.
#[export] Hint Resolve keeps_service keeps_effect keeps_stat keeps_read keeps_remove keeps_rename keeps_write keeps_exec
  keeps_exists keeps_integrity : moves.

(** One step of a proof that a file is kept. *)
Ltac keep_step :=
  match goal with
  | |- moves (keeping (kept _ _)) (os_CreateTemp _ _ _ ≫= _) => apply keeps_temp; intros ? ?
  | |- moves (keeping (kept _ _)) (deferred _ _) => apply keeps_deferred
  | |- moves _ (Abs _) => unfold Abs
  | _ => move_step
  end.
Ltac keep := repeat keep_step.

Section Composed.
Context `{Env} `{BackupEnv}.

Lemma keeps_atomic p x path content : abs_path path <> p -> moves (keeping (kept p x)) (writeAtomic path content).
Proof. intros Hne. unfold writeAtomic, os_MkdirAll, file_call. keep. Qed.

Lemma keeps_decode `{GoFloat} p x input password : moves (keeping (kept p x)) (DecodePackage input password).
Proof.
  unfold DecodePackage, lift_res. keep; intros w Hw; [done|..]; unfold ranged; by destruct (omap _ _).
Qed.
End Composed.

(** ** Paths *)

(** A relative clean path either goes up first, or has only plain names. *)
Lemma relative_names st :
  normal_stack false st -> (exists l, rev st = ".."%string :: l) \/ Forall plain_name st.
Proof.
  induction 1 as [|st _ Hall|c st Hc _ [(l & E)|IH]]; [right; constructor|left|left|right; by constructor].
  - assert (Forall (eq ".."%string) (rev (".."%string :: st))) as Hr.
    { apply Forall_rev. by constructor. }
    destruct (rev (".."%string :: st)) as [|d l] eqn:E; [simpl in E; by destruct (rev st)|].
    exists l. by inversion Hr as [|? ? <- _].
  - exists (l ++ [c])%list. simpl. by rewrite E.
Qed.

(** [p] is the directory [root] or lies below it, component by component. *)
Lemma restored_below `{BackupEnv} root name p :
  is_rooted root = true -> restored_path root name = Some p ->
  exists names, names <> [] /\ Forall plain_name names /\ is_rooted p = true /\
    rev (clean_stack p) = (rev (clean_stack root) ++ names)%list /\ Clean p = p.
Proof.
  unfold restored_path. intros Hroot. set (rel := TrimPrefix name "files/").
  pose proof (clean_stack_normal rel) as Hn. unfold Clean at 1 2 3 4.
  destruct (is_rooted rel) eqn:Er.
  { destruct (Clean_stack rel) as [Hc _]. rewrite Er in Hc. unfold Clean in Hc. rewrite Er in Hc.
    rewrite Hc, !orb_true_r. done. }
  destruct (orb _ _) eqn:Eb; [done|]. intros [= <-].
  rewrite !orb_false_iff, !String.eqb_neq in Eb. destruct Eb as [[[H1 H2] H3] _].
  destruct (relative_names _ Hn) as [(l & E)|Hpl].
  { exfalso. unfold clean_text in *. destruct (clean_stack rel) as [|c st]; [done|]. rewrite E in *.
    destruct l as [|d l]; [by apply H2|].
    change (join_path (".."%string :: d :: l)) with (".." ++ "/" ++ join_path (d :: l))%string in H3.
    by destruct (join_path (d :: l)). }
  assert (rev (clean_stack rel) <> []) as Hne.
  { unfold clean_text in H1. destruct (clean_stack rel) as [|c st]; [done|]. simpl. intros E. by destruct (rev st). }
  assert (Clean rel = join_path (rev (clean_stack rel))) as Ec.
  { unfold Clean. rewrite Er. unfold clean_text. by destruct (clean_stack rel). }
  rewrite Ec. set (names := rev (clean_stack rel)) in *. apply Forall_rev in Hpl. fold names in Hpl.
  assert (root <> ""%string) as Hr0 by (by destruct root).
  assert (join_path names <> ""%string) as Hj.
  { destruct names as [|n l]; [done|]. inversion Hpl as [|? ? [Hn0 _] _]; subst. destruct n; [done|]. by destruct l. }
  assert (Join [root; join_path names] = Clean (root ++ "/" ++ join_path names)) as ->.
  { unfold Join. rewrite !filter_cons_True, filter_nil by done. done. }
  destruct (clean_stack_app root names Hr0 Hne Hpl) as [E1 E2].
  destruct (Clean_stack (root ++ "/" ++ join_path names)) as [E3 E4].
  exists names. split_and!; [done|done| | |].
  - by rewrite E3, E2.
  - by rewrite E4, E1, rev_app_distr, rev_involutive.
  - unfold Clean at 1. by rewrite E3, E4.
Qed.

Lemma in_tree_below root p names :
  is_rooted p = true -> Clean p = p -> rev (clean_stack p) = (rev (clean_stack root) ++ names)%list -> in_tree root p = true.
Proof.
  intros Hp Hc E. unfold in_tree. rewrite Hp, Hc, String.eqb_refl, E, <- length_rev. cbn [andb]. apply bool_decide_eq_true.
  by rewrite take_app_length.
Qed.

(** ** Restoring *)

Section Restore.
Context `{Env} `{BackupEnv} `{GoFloat}.

Lemma abs_rooted p : is_rooted p = true -> abs_path p = Clean p.
Proof. unfold abs_path. by intros ->. Qed.

(** A file outside the data directory is not touched by its restoration. *)
Lemma keeps_data p x dataDir files :
  (forall name, name ∈ keys files -> restored_path (abs_path dataDir) name <> Some p) ->
  is_rooted (abs_path dataDir) = true ->
  moves (keeping (kept p x)) (restoreDataFiles dataDir files).
Proof.
  intros Hout Hroot w Hw. unfold restoreDataFiles.
  assert (forall a w1, Abs dataDir w = (Ok a, w1) -> a = abs_path dataDir) as Habs.
  { unfold Abs, abs_path. intros a w1. destruct (is_rooted dataDir); [by intros [-> _]%ret_Ok|].
    by intros (? & ? & _ & [-> _]%ret_Ok)%bind_Ok. }
  assert (keeping (kept p x) w (snd (Abs dataDir w))) as Hk by (clear; revert w; change (moves (keeping (kept p x)) (Abs dataDir)); keep).
  unfold mbind at 1, M_bind at 1, bind at 1. destruct (Abs dataDir w) as [[root|e] w1] eqn:E; [|by apply Hk].
  specialize (Habs _ _ eq_refl). subst root. specialize (Hk Hw). revert Hk.
  cut (moves (keeping (kept p x)) (os_MkdirAll;;
    names ← (fun w => (Ok (bk_order (w_tick (bw_world w)) (keys files)), passed w) : res string (list string) * BackupWorld);
    for_each names (restore_file (abs_path dataDir) files))); [intros Hm; apply Hm|].
  unfold os_MkdirAll. move_step; [apply keeps_effect|].
  apply moves_bind_result; [typeclasses eauto|by intros v Hv|]. intros v names v' [= <- _].
  apply moves_for_each_in; [typeclasses eauto|]. intros name Hin.
  rewrite (bk_order_perm (w_tick (bw_world v)) (keys files)) in Hin. specialize (Hout name Hin).
  unfold restore_file, os_MkdirAll, file_call. move_step; [apply moves_ret; typeclasses eauto|].
  move_step; [|apply moves_fail; typeclasses eauto]. move_step; [apply keeps_effect|].
  move_step; [|apply keeps_effect]. apply keeps_atomic.
  destruct (restored_below _ _ _ Hroot Heqo) as (l & _ & _ & Hr & _ & Ec).
  rewrite (abs_rooted _ Hr), Ec. intros ->. by apply Hout.
Qed.

(** The names a restoration may give to a file. *)
Definition aside (target : string) (n : nat) : string := (target ++ ".before-restore-" ++ compact_stamp (env_now n))%string.
Definition restoration_names (target p : string) : Prop := p = abs_path target \/ exists n, p = abs_path (aside target n).

Lemma service_now_Ok t w w' :
  in_service now w = (Ok t, w') -> t = env_now (w_tick (bw_world w)) /\ bw_files w' = bw_files w.
Proof. unfold in_service, now. by intros [= <- <-]. Qed.

Lemma set_aside_name target w previous w' :
  set_aside target w = (Ok previous, w') -> previous = ""%string \/ restoration_names target (abs_path previous).
Proof.
  unfold set_aside. intros (found & w1 & _ & Hr)%bind_Ok. destruct found; [|apply ret_Ok in Hr as [<- _]; by left].
  apply bind_Ok in Hr as (t & w2 & [-> _]%service_now_Ok & Hr). apply bind_Ok in Hr as (? & w3 & _ & [<- _]%ret_Ok).
  right. right. by eexists.
Qed.

Lemma keeps_install p x tmp target :
  ~ restoration_names target p -> abs_path tmp <> p -> moves (keeping (kept p x)) (install tmp target).
Proof.
  intros Hn Ht. assert (abs_path target <> p) as Hne by (intros <-; apply Hn; by left). unfold install.
  apply moves_bind_result; [typeclasses eauto| |].
  - unfold set_aside. move_step; [by keep|]. destruct a; [|by keep].
    apply moves_bind_result; [typeclasses eauto|by keep|]. intros w t w' [-> _]%service_now_Ok. keep.
    apply keeps_rename; [done|]. intros <-. apply Hn. right. by eexists.
  - intros w previous w' Hp%set_aside_name. move_step; [by apply moves_attempt, keeps_rename|]. keep.
    apply keeps_rename; [|done]. intros <-. destruct Hp as [->|Hp]; [done|]. by apply Hn.
Qed.

Lemma keeps_revoke p x target : abs_path target <> p -> moves (keeping (kept p x)) (revoke_restored target).
Proof. intros Hne. unfold revoke_restored, update_table, file_call. keep; by apply keeps_exec. Qed.

(** A package that does not hold is read without a change. *)
Lemma decode_same input password : moves (same bw_files) (DecodePackage input password).
Proof.
  unfold DecodePackage, lift_res.
  assert (moves (same bw_files) (os_ReadFile input)) as Hread.
  { intros w. unfold os_ReadFile, os_call. destruct (bk_fault _); [done|].
    by destruct (bw_files w !! abs_path input) as [[]|]. }
  repeat move_step; intros w; [done|..]; unfold ranged; by destruct (omap _ _).
Qed.

(** C17: A restoration changes the database and the data directory, and nothing
    else.  Whatever its outcome, a file that was there, that is not the target, does
    not have a name under which the old database is kept, and does not lie in the
    data directory, is still there as it was: no name in a package leads outside.
    And a package that cannot be read, decrypted or verified changes no file. *)
Theorem restore_confined input password target dataDir w :
  is_rooted (abs_path dataDir) = true ->
  let '(r, w') := RestoreWithOptions input password target dataDir w in
  (forall p x, bw_files w !! p = Some x -> ~ restoration_names target p ->
     (dataDir <> ""%string -> in_tree (abs_path dataDir) p = false) -> bw_files w' !! p = Some x) /\
  (forall e, fst (DecodePackage input password w) = Err e -> (exists e', r = Err e') /\ bw_files w' = bw_files w).
Proof.
  intros Hroot. destruct (RestoreWithOptions input password target dataDir w) as [r w'] eqn:E. split.
  - intros p x Hp Hn Hout. assert (abs_path target <> p) as Hne by (intros <-; apply Hn; by left).
    cut (moves (keeping (kept p x)) (RestoreWithOptions input password target dataDir)).
    { intros Hm. specialize (Hm w Hp). by rewrite E in Hm. }
    unfold RestoreWithOptions, os_MkdirAll, file_call.
    keep_step; [by keep_step|]. keep_step; [apply keeps_decode|]. keep_step. keep_step; [by keep_step|].
    keep_step. keep_step; [by apply keeps_remove|].
    keep; first [by apply keeps_write | by apply keeps_install | by apply keeps_revoke | apply keeps_data; [|done]].
    intros name _ Hr. destruct (restored_below _ _ _ Hroot Hr) as (l & _ & _ & Hpr & Es & Hc).
    rewrite (in_tree_below _ _ _ Hpr Hc Es) in Hout. apply Bool.diff_true_false, Hout. by intros ->.
  - intros e He. pose proof (decode_same input password w) as Hs. unfold RestoreWithOptions in E.
    unfold fail_if in E. destruct (_ || _) in E; [injection E as <- <-; eauto|].
    unfold mbind, M_bind, bind in E. cbn in E. destruct (DecodePackage input password w) as [[v|e'] w1]; [done|].
    injection E as <- <-. eauto.
Qed.

(** *** The database in its place *)

(** Nothing fails; and a database that is written is read back, of the databases
    [D] with what a restoration makes of them. *)
Definition healthy : Prop := forall n, bk_fault n = None.
Record sqlite_reads_back (D : Image -> Prop) : Prop := {
  sq_opens i : D i -> sqlite_open (sqlite_file i) = Some i;
  sq_sessions i n : D i -> D (revoke_sessions (env_now n) i);
  sq_credentials i n : D i -> D (revoke_credentials (env_now n) i);
  sq_restored i n : D i -> D (mark_restored (env_now n) i)
}.

(** What the updates of a restoration make of a database. *)
Definition update_image (table : string) (f : Image -> Image) (im : Image) : Image :=
  if existsb (String.eqb table) (im_tables im) then f im else im.
Definition restored_image (t : Stamp) (im : Image) : Image :=
  update_image "system_identity" (mark_restored t)
    (update_image "frp_runtime_credentials" (revoke_credentials t) (update_image "sessions" (revoke_sessions t) im)).

Lemma update_image_tables table f im : (forall im, im_tables (f im) = im_tables im) -> im_tables (update_image table f im) = im_tables im.
Proof. unfold update_image. intros Hf. by destruct (existsb _ _). Qed.

(** A table that is there has its update, whatever came before and comes after. *)
Lemma restored_image_db t im :
  im_db (restored_image t im) =
    (im_db im) <| sessions ::= (if existsb (String.eqb "sessions") (im_tables im) then fmap (revoke_session t) else id) |>
      <| runtime_credentials ::=
           (if existsb (String.eqb "frp_runtime_credentials") (im_tables im) then fmap (revoke_credential t) else id) |>.
Proof.
  unfold restored_image. unfold update_image at 1. assert (forall b (i : Image), im_db (if b : bool then mark_restored t i else i) = im_db i) as ->
    by (by intros []).
  unfold update_image at 1. rewrite update_image_tables by done. unfold update_image.
  destruct (existsb (String.eqb "frp_runtime_credentials") _), (existsb (String.eqb "sessions") _);
    by destruct im as [? [] ? ?].
Qed.

Lemma restored_image_revoked t im :
  (existsb (String.eqb "sessions") (im_tables im) = true ->
   forall k s, sessions (im_db (restored_image t im)) !! k = Some s -> s_revoked s <> None) /\
  (existsb (String.eqb "frp_runtime_credentials") (im_tables im) = true ->
   forall k c, runtime_credentials (im_db (restored_image t im)) !! k = Some c -> rc_revoked c <> None) /\
  (im_db (restored_image t im)) <| sessions := ∅ |> <| runtime_credentials := ∅ |> =
    (im_db im) <| sessions := ∅ |> <| runtime_credentials := ∅ |>.
Proof.
  rewrite restored_image_db. split_and!; [| |by destruct im as [? [] ? ?]].
  - intros -> k v Hv. cbn in Hv. apply lookup_fmap_Some in Hv as (v0 & <- & _). unfold revoke_session.
    by destruct (s_revoked v0) eqn:Ev; cbn; rewrite ?Ev.
  - intros -> k v Hv. cbn in Hv. apply lookup_fmap_Some in Hv as (v0 & <- & _). unfold revoke_credential.
    by destruct (rc_revoked v0) eqn:Ev; cbn; rewrite ?Ev.
Qed.

(** The file [path] holds the database [im]. *)
Definition holds (path : string) (im : Image) (w : BackupWorld) : Prop :=
  exists s, bw_files w !! abs_path path = Some (Regular s) /\ sqlite_open s = Some im.

Lemma update_table_holds D path table f im w u w' :
  healthy -> sqlite_reads_back D -> D (f im) -> holds path im w ->
  update_table path table f w = (Ok u, w') -> holds path (update_image table f im) w'.
Proof.
  intros Hh Hs Hd (s & Hf & Ho). unfold update_table, update_image. intros (there & w1 & Et & Hr)%bind_Ok.
  unfold tableExists in Et. rewrite Hh, Hf, Ho in Et. injection Et as <- <-.
  destruct (existsb _ _); [|apply ret_Ok in Hr as [_ ->]; by exists s].
  unfold exec_file in Hr. apply os_call_Ok in Hr as (_ & fs & E & ->). cbn in E. rewrite Hf, Ho in E.
  injection E as _ <-. exists (sqlite_file (f im)). cbn. rewrite lookup_insert_eq. split; [done|by apply (sq_opens _ Hs)].
Qed.

Lemma update_image_in (D : Image -> Prop) table f im : D im -> D (f im) -> D (update_image table f im).
Proof. unfold update_image. by destruct (existsb _ _). Qed.

Lemma revoke_restored_holds D path im w u w' :
  healthy -> sqlite_reads_back D -> D im -> holds path im w ->
  revoke_restored path w = (Ok u, w') -> exists t, holds path (restored_image t im) w'.
Proof.
  intros Hh Hs Hd Hf. unfold revoke_restored. intros (t & w1 & [Et Ew]%service_now_Ok & Hr)%bind_Ok. exists t.
  assert (holds path im w1) as Hf1 by (unfold holds; by rewrite Ew). clear Ew.
  apply bind_Ok in Hr as (r & w2 & Er & Hr). apply (proj1 (attempt_Ok _ _ _ _)) in Er.
  apply bind_Ok in Hr as (c & w3 & Ec & Hr). apply (proj1 (attempt_Ok _ _ _ _)) in Ec.
  destruct r as [[]|]; [|by apply fail_Ok in Hr]. destruct c as [[]|]; [|by apply fail_Ok in Hr].
  apply ret_Ok in Hr as [_ ->]. apply call_Ok in Ec.
  apply bind_Ok in Er as (? & w4 & E1 & Er). apply bind_Ok in Er as (? & w5 & E2 & E3).
  pose proof (sq_sessions _ Hs im (w_tick (bw_world w)) Hd) as D1. rewrite <- Et in D1.
  eapply (update_table_holds D) in E1; [|done..]. apply (update_image_in D "sessions"%string _ _ Hd) in D1.
  pose proof (sq_credentials _ Hs _ (w_tick (bw_world w)) D1) as D2. rewrite <- Et in D2.
  eapply (update_table_holds D) in E2; [|done..]. apply (update_image_in D "frp_runtime_credentials"%string _ _ D1) in D2.
  pose proof (sq_restored _ Hs _ (w_tick (bw_world w)) D2) as D3. rewrite <- Et in D3.
  eapply (update_table_holds D) in E3; [|done..]. destruct E3 as (s & Hs' & Ho). exists s. split; [|done]. by rewrite Ec.
Qed.

Lemma install_Ok tmp target w x previous w' :
  healthy -> bw_files w !! abs_path tmp = Some x ->
  (forall p, restoration_names target p -> abs_path tmp <> p) ->
  (forall n, abs_path (aside target n) <> abs_path target) ->
  install tmp target w = (Ok previous, w') ->
  bw_files w' !! abs_path target = Some x /\
  forall y, bw_files w !! abs_path target = Some y ->
    bw_files w' !! abs_path previous = Some y /\ restoration_names target (abs_path previous) /\
    abs_path previous <> abs_path target.
Proof.
  intros Hh Hx Htmp Hne. unfold install. intros (prev & w1 & Ea & Hr)%bind_Ok.
  apply bind_Ok in Hr as (r & w2 & Er & Hr). apply (proj1 (attempt_Ok _ _ _ _)) in Er.
  destruct r as [u|e]; [|by apply bind_Ok in Hr as (? & ? & _ & Hr); apply fail_Ok in Hr].
  apply ret_Ok in Hr as [-> ->]. unfold os_Rename in Er. apply os_call_Ok in Er as (_ & fs & E & ->).
  pose proof (Htmp _ (or_introl eq_refl)) as Ht.
  unfold set_aside in Ea. apply bind_Ok in Ea as (found & w3 & Ef & Ea). apply (proj1 (attempt_Ok _ _ _ _)) in Ef.
  unfold os_Stat, os_call in Ef. rewrite Hh in Ef. destruct (bw_files w !! abs_path target) as [y|] eqn:Ey.
  - injection Ef as <- Ew3. assert (bw_files w3 = bw_files w) as Ef by (by rewrite <- Ew3). clear Ew3.
    apply bind_Ok in Ea as (t & w4 & Et & Ea).
    apply service_now_Ok in Et as [-> Ew]. rewrite Ef in Ew. fold (aside target (w_tick (bw_world w3))) in Ea.
    apply bind_Ok in Ea as (? & w5 & Em & [<- ->]%ret_Ok). unfold os_Rename in Em.
    apply os_call_Ok in Em as (_ & fs' & E' & ->). rewrite Ew, Ey in E'. injection E' as _ <-. cbn in E.
    specialize (Hne (w_tick (bw_world w3))).
    assert (restoration_names target (abs_path (aside target (w_tick (bw_world w3))))) as Hn by (right; by eexists). pose proof (Htmp _ Hn) as Htn.
    rewrite lookup_insert_ne, lookup_delete_ne, Hx in E by done. injection E as _ <-. cbn. rewrite lookup_insert_eq. split; [done|].
    intros y' [= <-]. by rewrite lookup_insert_ne, lookup_delete_ne, lookup_insert_eq.
  - injection Ef as <- <-. apply ret_Ok in Ea as [<- ->]. cbn in E. rewrite Hx in E. injection E as _ <-. cbn.
    by rewrite lookup_insert_eq.
Qed.

Lemma create_temp_Ok dir prefix suffix w tmp w' :
  os_CreateTemp dir prefix suffix w = (Ok tmp, w') ->
  tmp = temp_path dir prefix suffix (w_tick (bw_world w)) /\ bw_files w !! abs_path tmp = None /\
  bw_files w' = <[abs_path tmp := Regular ""]> (bw_files w).
Proof.
  unfold os_CreateTemp. cbv zeta. intros (_ & fs & E & ->)%os_call_Ok.
  destruct (bw_files w !! _) eqn:En; [done|]. injection E as <- <-. done.
Qed.

Lemma file_write_Ok path content w u w' :
  file_Write path content w = (Ok u, w') -> bw_files w' = <[abs_path path := Regular content]> (bw_files w).
Proof. unfold file_Write. destruct (bk_fault _); [done|]. by intros [= _ <-]. Qed.


Lemma integrity_Ok path s w u w' :
  integrity_check path w = (Ok u, w') -> bw_files w !! abs_path path = Some (Regular s) ->
  bw_files w' = bw_files w /\ exists im, sqlite_open s = Some im.
Proof.
  unfold integrity_check. intros (_ & fs & E & ->)%os_call_Ok Hs. rewrite Hs in E.
  destruct (sqlite_open s); [|done]. injection E as <-. eauto.
Qed.

(** The names a restoration of [target] uses are apart from one another and from
    what the package puts into the data directory. *)
Record separate (target dataDir : string) (files : gmap string string) : Prop := {
  sp_aside n : abs_path (aside target n) <> abs_path target;
  sp_temp n p : restoration_names target p -> abs_path (temp_path (Dir target) ".frp-panel-restore-" ".db" n) <> p;
  sp_data name p : name ∈ keys files -> restoration_names target p -> restored_path (abs_path dataDir) name <> Some p
}.

(** A file with a name of the restoration stays through the restoration of the
    data directory and the removal of the temporary file. *)
Lemma keeps_end p x target dataDir files tmp n :
  separate target dataDir files -> restoration_names target p -> is_rooted (abs_path dataDir) = true ->
  tmp = temp_path (Dir target) ".frp-panel-restore-" ".db" n ->
  moves (keeping (kept p x)) (if String.eqb dataDir "" then ret tt else restoreDataFiles dataDir files) /\
  moves (keeping (kept p x)) (os_Remove tmp).
Proof.
  intros Hs Hp Hr ->. split.
  - destruct (String.eqb dataDir ""); [apply moves_ret; typeclasses eauto|]. apply keeps_data; [|done].
    intros name Hin. by eapply sp_data.
  - apply keeps_remove. by eapply sp_temp.
Qed.

End Restore.
