(* ===== verification/BackupRoundTrip.v ===== *)
(** What [CreateWithOptions] writes is what [DecodePackage] reads: the database and
    every file of the data directory, under their names. *)

From S2P Require Import Prelude StateError GoText GoPath GoNet Timestamps GoTime Encoding GoJson GoJsonRead GoJsonSpec Schema Effects Logic Validation Store Jobs ClientToml Backup BackupSpec.
From Stdlib Require Import Ascii String.
Open Scope Z_scope.

(** ** Names *)

Lemma rooted_plain p : is_rooted p = true -> Forall plain_name (clean_stack p).
Proof.
  intros Hp. pose proof (clean_stack_normal p) as Hn. rewrite Hp in Hn.
  induction Hn as [|st Hf _|c st Hc _ IH]; [constructor|done|by constructor].
Qed.

Lemma plain_no_slash l : Forall plain_name l -> Forall no_slash l.
Proof. intros Hl. eapply Forall_impl; [exact Hl|]. intros c Hc. apply Hc. Qed.

(** What lies in a directory is told apart by its name there. *)
Lemma Rel_inj root p q : in_tree root p = true -> in_tree root q = true -> Rel root p = Rel root q -> p = q.
Proof.
  unfold in_tree, Rel. rewrite !andb_true_iff, !String.eqb_eq, !bool_decide_eq_true. unfold rel_parts.
  intros [[Hp Cp] Tp] [[Hq Cq] Tq]. rewrite !length_rev.
  pose proof (take_drop (List.length (clean_stack root)) (rev (clean_stack p))) as Ep. rewrite Tp in Ep.
  pose proof (take_drop (List.length (clean_stack root)) (rev (clean_stack q))) as Eq. rewrite Tq in Eq.
  pose proof (Forall_drop plain_name (List.length (clean_stack root)) _ (Forall_rev (rooted_plain p Hp))) as Np.
  pose proof (Forall_drop plain_name (List.length (clean_stack root)) _ (Forall_rev (rooted_plain q Hq))) as Nq.
  revert Ep Eq Np Nq. generalize (drop (List.length (clean_stack root)) (rev (clean_stack p))) as a.
  generalize (drop (List.length (clean_stack root)) (rev (clean_stack q))) as b. intros b a Ep Eq Na Nb Hab.
  assert (forall l, Forall plain_name l -> l <> [] -> join_path l <> "."%string) as Hdot.
  { intros l Hl Hne E. apply (f_equal (fun s => SplitByte s "/")) in E.
    rewrite SplitByte_join in E by (done || by apply plain_no_slash). subst l. simpl in Hl. inversion Hl as [|? ? (_ & Hc & _)]; subst. by apply Hc. }
  assert (a = b) as Hl.
  { destruct a as [|x a], b as [|y b]; try done.
    - exfalso. by apply (Hdot (y :: b)).
    - exfalso. by apply (Hdot (x :: a)).
    - apply (f_equal (fun s => SplitByte s "/")) in Hab.
      by rewrite !SplitByte_join in Hab by (done || by apply plain_no_slash). }
  subst b. rewrite Ep in Eq. apply (f_equal (@rev string)) in Eq. rewrite !rev_involutive in Eq.
  rewrite <- Cp, <- Cq. unfold Clean. by rewrite Hp, Hq, Eq.
Qed.

(** ** Maps filled one entry at a time *)

Definition put_each {A} (l : list (string * A)) (m : gmap string A) : gmap string A :=
  fold_left (fun m kv => <[kv.1 := kv.2]> m) l m.

Lemma put_each_lookup {A} (l : list (string * A)) m k v :
  NoDup (map fst l) -> put_each l m !! k = Some v <-> (k, v) ∈ l \/ (k ∉ map fst l /\ m !! k = Some v).
Proof.
  revert m. induction l as [|[k' v'] l IH]; intros m Hn; simpl.
  { split; [intros Hm; right; split; [set_solver|done]|intros [[]%elem_of_nil|[_ ?]]; done]. }
  apply NoDup_cons in Hn as [Hk' Hn]. unfold put_each in *. cbn [fold_left fst snd]. rewrite (IH _ Hn).
  rewrite !elem_of_cons. destruct (decide (k = k')) as [->|Hne].
  - rewrite lookup_insert_eq. assert ((k', v) ∈ l -> False) as Hx.
    { intros Hin. apply Hk'. apply list_elem_of_fmap. by exists (k', v). }
    naive_solver.
  - rewrite lookup_insert_ne by done. naive_solver.
Qed.

Lemma NoDup_names {A} (m : gmap string A) lt : NoDup (map fst (order_by lt (map_to_list m))).
Proof.
  rewrite (order_by_perm lt (map_to_list m)). apply NoDup_fst_map_to_list.
Qed.

Lemma put_each_sorted {A} (m : gmap string A) lt : put_each (order_by lt (map_to_list m)) ∅ = m.
Proof.
  apply map_eq. intros k. apply option_eq. intros v. rewrite (put_each_lookup _ _ _ _ (NoDup_names m lt)).
  rewrite order_by_perm, elem_of_map_to_list, lookup_empty. naive_solver.
Qed.

(** ** What is collected *)

Section Collecting.
Context `{Env} `{BackupEnv}.

Lemma elem_of_walked root output fs p c :
  (p, c) ∈ walked root output fs <-> fs !! p = Some (Regular c) /\ collected root output p c = true.
Proof.
  unfold walked. rewrite list_elem_of_omap. split.
  - intros ([q e] & Hin & E). rewrite order_by_perm, elem_of_map_to_list in Hin. cbn in E.
    destruct e as [content|]; [|done]. destruct (collected _ _ _ _) eqn:Ec; [|done]. by injection E as <- <-.
  - intros [Hp Hc]. exists (p, Regular c). rewrite order_by_perm, elem_of_map_to_list. cbn. by rewrite Hc.
Qed.

Lemma NoDup_omap_fst {A B} (f : string * A -> option (string * B)) l :
  (forall x y, f x = Some y -> y.1 = x.1) -> NoDup (map fst l) -> NoDup (map fst (omap f l)).
Proof.
  intros Hf. induction l as [|x l IH]; [constructor|]. simpl. intros [Hx Hl]%NoDup_cons.
  destruct (f x) as [y|] eqn:E; [|by apply IH]. simpl. apply NoDup_cons. split; [|by apply IH].
  rewrite (Hf _ _ E). intros Hin. apply Hx. apply list_elem_of_fmap in Hin as (z & Ez & Hz).
  apply list_elem_of_omap in Hz as (u & Hu & Eu). apply list_elem_of_fmap. exists u. split; [|done]. pose proof (Hf _ _ Eu). congruence.
Qed.

Definition named (root : string) (l : list (string * string)) : list (string * string) :=
  map (fun kv => (archive_name root kv.1, kv.2)) l.

Lemma named_NoDup root output fs : NoDup (map fst (named root (walked root output fs))).
Proof.
  unfold named. rewrite map_map. cbn [fst].
  assert (NoDup (map fst (walked root output fs))) as Hn.
  { unfold walked. apply NoDup_omap_fst; [|apply NoDup_names]. intros [p e] y. cbn.
    destruct e as [c|]; [|done]. destruct (collected _ _ _ _); [|done]. by intros [= <-]. }
  rewrite <- (map_map fst (archive_name root)). apply NoDup_fmap_2_strong; [|exact Hn].
  intros p q Hp Hq. apply list_elem_of_fmap in Hp as ([p' c] & -> & Hp), Hq as ([q' d] & -> & Hq).
  apply elem_of_walked in Hp as [_ Hp], Hq as [_ Hq]. unfold collected in Hp, Hq. rewrite !andb_true_iff in Hp, Hq.
  cbn. unfold archive_name. intros Hr%append_inj_l. destruct Hp as [[[Hp _] _] _], Hq as [[[Hq _] _] _].
  exact (Rel_inj root _ _ Hp Hq Hr).
Qed.

Definition data_files (root output : string) (fs : Files) : gmap string string := put_each (named root (walked root output fs)) ∅.

Lemma data_files_lookup root output fs name c :
  data_files root output fs !! name = Some c <->
  exists p, name = archive_name root p /\ fs !! p = Some (Regular c) /\ collected root output p c = true.
Proof.
  unfold data_files. rewrite (put_each_lookup _ _ _ _ (named_NoDup root output fs)), lookup_empty.
  unfold named. rewrite list_elem_of_fmap. split.
  - intros [([p d] & [= -> ->] & Hin)|[_ [=]]]. apply elem_of_walked in Hin. exists p. naive_solver.
  - intros (p & -> & Hp & Hc). left. exists (p, c). split; [done|]. by apply elem_of_walked.
Qed.

Lemma os_read_Ok path w s w' :
  os_ReadFile path w = (Ok s, w') -> bw_files w !! abs_path path = Some (Regular s) /\ bw_files w' = bw_files w.
Proof.
  unfold os_ReadFile. intros (_ & fs & E & ->)%os_call_Ok. destruct (bw_files w !! _) as [[]|]; [|done..].
  by injection E as <- <-.
Qed.

Lemma read_walked_Ok root l m w files w' :
  (forall p c, (p, c) ∈ l -> bw_files w !! abs_path p = Some (Regular c)) ->
  read_walked root l m w = (Ok files, w') ->
  bw_files w' = bw_files w /\ files = put_each (named root l) m.
Proof.
  revert m w. induction l as [|[p c] l IH]; intros m w Hl; cbn [read_walked].
  - by intros [<- ->]%ret_Ok.
  - intros (s & w1 & [Hs Hw]%os_read_Ok & Hr)%bind_Ok.
    rewrite (Hl p c) in Hs by left. injection Hs as ->.
    apply IH in Hr as [Hw' ->]; [by rewrite Hw'|]. intros q d Hin. rewrite Hw. apply Hl. by right.
Qed.

Lemma Abs_Ok p w a w' : Abs p w = (Ok a, w') -> a = abs_path p /\ bw_files w' = bw_files w.
Proof.
  unfold Abs. destruct (is_rooted p) eqn:E; [intros [<- ->]%ret_Ok; by rewrite abs_rooted|].
  by intros (? & w1 & ?%call_Ok & [<- ->]%ret_Ok)%bind_Ok.
Qed.

Lemma collect_Ok dataDir output w files w' :
  is_rooted output = true \/ healthy ->
  collectDataFiles dataDir output w = (Ok files, w') ->
  bw_files w' = bw_files w /\ files = data_files (abs_path dataDir) (abs_path output) (bw_files w).
Proof.
  intros Ho. unfold collectDataFiles. intros (root & w1 & [-> E1]%Abs_Ok & Hr)%bind_Ok.
  apply bind_Ok in Hr as (out & w2 & E2 & Hr). apply (proj1 (attempt_Ok _ _ _ _)) in E2.
  assert (out = Ok (abs_path output) /\ bw_files w2 = bw_files w1) as [-> E2'].
  { destruct out as [o|e]; [by apply Abs_Ok in E2 as [-> ->]|]. exfalso. unfold Abs in E2.
    destruct (is_rooted output); [done|]. destruct Ho as [|Ho]; [done|].
    unfold mbind, M_bind, bind, os_effect, os_call in E2. by rewrite Ho in E2. }
  apply bind_Ok in Hr as (l & w3 & E3 & Hr). apply os_call_Ok in E3 as (_ & fs & [= <- <-] & ->).
  apply read_walked_Ok in Hr as [Hw ->]; cbn in *.
  - split; [congruence|]. unfold data_files. congruence.
  - intros p c [Hp Hc]%elem_of_walked. unfold collected, in_tree in Hc. rewrite !andb_true_iff, String.eqb_eq in Hc.
    destruct Hc as [[[[[Hroot Hclean] _] _] _] _]. by rewrite (abs_rooted _ Hroot), Hclean.
Qed.
End Collecting.

(** ** The manifest *)

Lemma digit_char_ascii d : 0 <= d < 10 -> is_ascii (digit_char d) = true.
Proof.
  intros Hd. unfold is_ascii, byte_in, digit_char. rewrite nat_ascii_embedding by lia.
  apply andb_true_iff. rewrite !Z.leb_le. lia.
Qed.

Lemma digits_of_ascii n v : Forall (fun d => is_ascii (digit_char d) = true) (digits_of n v).
Proof.
  revert v. induction n as [|n IH]; intros v; [constructor|]. cbn [digits_of]. apply Forall_app. split; [apply IH|].
  constructor; [|constructor]. apply digit_char_ascii, Z.mod_pos_bound. lia.
Qed.

Lemma digit_text_ascii l s :
  Forall (fun d => is_ascii (digit_char d) = true) l -> forallb_str is_ascii s = true ->
  forallb_str is_ascii (fold_right (fun d s => String (digit_char d) s) s l) = true.
Proof. intros Hl Hs. induction Hl as [|d l Hd _ IH]; [done|]. cbn. by rewrite Hd, IH. Qed.

Lemma padded_ascii n v : forallb_str is_ascii (padded n v) = true.
Proof. apply digit_text_ascii; [apply digits_of_ascii|done]. Qed.

Lemma fraction_ascii v : forallb_str is_ascii (fraction_text v) = true.
Proof.
  unfold fraction_text. assert (Forall (fun d => is_ascii (digit_char d) = true) (rev (drop_zeros (rev (digits_of 9 v))))) as Hl.
  { apply Forall_rev. pose proof (Forall_rev (digits_of_ascii 9 v)) as Hr. revert Hr.
    generalize (rev (digits_of 9 v)) as l. induction l as [|d l IH]; [done|]. intros Hl. cbn [drop_zeros].
    inversion Hl; subst. destruct d; auto. }
  destruct (rev (drop_zeros _)) as [|d ds]; [done|]. by apply (digit_text_ascii (d :: ds)).
Qed.

Lemma RFC3339Nano_utf8 t : valid_utf8 (RFC3339Nano t) = true.
Proof.
  apply valid_ascii. unfold RFC3339Nano, date_text, clock_text. destruct (date_of _) as [[y m] d].
  by rewrite !forallb_str_append, !padded_ascii, fraction_ascii.
Qed.

Section Manifest.
Context `{Env} `{GoFloat}.

Definition text_fields (l : list (string * string)) : list (string * JSON) := map (fun kv => (kv.1, JString kv.2)) l.

Lemma decode_texts_put l m :
  decode_texts (text_of (JObject (text_fields l))) m = (put_each l m, true).
Proof.
  cbn [text_of decode_texts]. unfold text_fields, put_each. rewrite map_map. cbn [fst snd text_of].
  revert m. induction l as [|[k v] l IH]; intros m; [done|]. cbn. apply IH.
Qed.

(** The manifests that JSON carries. *)
Definition portable (m : Manifest) : Prop :=
  valid_utf8 (mf_Format m) = true /\ valid_utf8 (mf_CreatedAt m) = true /\ 0 <= mf_MigrationVersion m < 2 ^ 63 /\
  forall k v, mf_Files m !! k = Some v -> valid_utf8 k = true /\ valid_utf8 v = true.

Lemma manifest_field_texts s (m : Manifest) :
  assign_fields manifest_fields "format" (TString s) m = (m <| mf_Format := s |>, true) /\
  assign_fields manifest_fields "created_at" (TString s) m = (m <| mf_CreatedAt := s |>, true).
Proof. split; reflexivity. Qed.
Lemma manifest_field_version v (m : Manifest) : 0 <= v < 2 ^ 63 ->
  assign_fields manifest_fields "migration_version" (TNumber (itoa v)) m = (m <| mf_MigrationVersion := v |>, true).
Proof.
  intros Hv. transitivity (on_field mf_MigrationVersion (fun f m => m <| mf_MigrationVersion ::= f |>) decode_int64 (TNumber (itoa v)) m);
    [reflexivity|]. unfold on_field, decode_int64. by rewrite Atoi_itoa.
Qed.
Lemma manifest_field_files l (m : Manifest) :
  assign_fields manifest_fields "files" (text_of (JObject (text_fields l))) m = (m <| mf_Files ::= put_each l |>, true).
Proof.
  transitivity (on_field mf_Files (fun f m => m <| mf_Files ::= f |>) decode_texts (text_of (JObject (text_fields l))) m);
    [reflexivity|]. unfold on_field. by rewrite decode_texts_put.
Qed.

Lemma manifest_reads_back m :
  portable m -> json_unmarshal manifest_target (json_marshal (manifest_json m)) (mkManifest "" "" 0 ∅) = (m, true).
Proof.
  intros (H1 & H2 & H3 & H4). unfold json_unmarshal. rewrite (parse_written 2); [| |done].
  - cbn [manifest_target tg_decode]. unfold manifest_json. fold (text_fields (sorted_names (mf_Files m))).
    cbn [text_of map fst snd]. unfold decode_struct. cbn [fold_left fst snd].
    rewrite (proj1 (manifest_field_texts _ _)). cbn [fst snd].
    rewrite (proj2 (manifest_field_texts _ _)). cbn [fst snd].
    rewrite manifest_field_version by done. cbn [fst snd].
    rewrite (manifest_field_files (sorted_names (mf_Files m))). cbn. unfold sorted_names. rewrite put_each_sorted. by destruct m.
  - apply writes_object. exists 1%nat. split; [done|]. repeat constructor; try done.
    + by apply itoa_literal.
    + apply writes_object. exists 0%nat. split; [done|]. apply Forall_forall. intros kv Hin.
      apply list_elem_of_fmap in Hin as ([k v] & -> & Hin). unfold sorted_names in Hin.
      rewrite order_by_perm, elem_of_map_to_list in Hin. by apply H4.
Qed.
End Manifest.

(** ** Packages *)

Section Packages.
Context `{Env} `{BackupEnv} `{GoFloat}.

(** What is relied on: AES-GCM opens what it sealed, under a tag of 16 bytes; a
    digest is not empty; an archive has the entries it was made of; the random
    source gives as many bytes as it is asked for. *)
Record package_laws : Prop := {
  gcm_opens k n p a : env_gcm_open k n (env_gcm_seal k n p a) a = Some p;
  gcm_tag k n p a : (16 <= String.length (env_gcm_seal k n p a))%nat;
  digest_some s : env_sha256 s <> ""%string;
  zip_reads l : zip_open (zip_file l) = Some (map (fun kv => mkZipEntry kv.1 kv.2 None) l);
  random_full n k b : env_random n k = Some b -> String.length b = k
}.

(** The files a package carries: within the limits, and with names in UTF-8 that
    an archive may have. *)
Record restorable (m : Manifest) (files : gmap string string) : Prop := {
  rs_database : exists db, files !! database_name = Some db /\ db <> ""%string /\ length_of db <= 512 * 2 ^ 20;
  rs_files name c : files !! name = Some c -> name <> database_name -> validArchiveFileName name = true /\ length_of c <= 64 * 2 ^ 20;
  rs_names name c : files !! name = Some c -> valid_utf8 name = true;
  rs_manifest : length_of (json_marshal (manifest_json m)) < 2 ^ 20;
  rs_version : 0 <= mf_MigrationVersion m < 2 ^ 63
}.

Lemma sha256Hex_some s : package_laws -> sha256Hex s <> ""%string.
Proof.
  intros Hl. unfold sha256Hex. pose proof (digest_some Hl s) as Hd.
  destruct (env_sha256 s); [done|]. done.
Qed.

Lemma sha256Hex_ascii s : forallb_str is_ascii (sha256Hex s) = true.
Proof. apply hex_encode_chars. intros n. by apply (hex_digits_all (fun n => is_ascii (hex_digit n))). Qed.

Lemma EqualFold_ascii s : forallb_str is_ascii s = true -> EqualFold s s = true.
Proof. intros Hs. unfold EqualFold. by rewrite Hs, String.eqb_refl. Qed.

Lemma read_whole (kv : string * string) n :
  length_of kv.2 < n -> read_limited (mkZipEntry kv.1 kv.2 None) n = Ok kv.2.
Proof. intros Hn. unfold read_limited. cbn. destruct (Z.leb_spec n (length_of kv.2)); [lia|done]. Qed.

Definition archived (kv : string * string) : Prop :=
  (kv.1 = database_name \/ validArchiveFileName kv.1 = true) /\ length_of kv.2 <= file_limit kv.1.

Lemma read_entry_archived kv m files :
  archived kv -> files !! kv.1 = None ->
  read_entry (mkZipEntry kv.1 kv.2 None) (m, files) = Ok (m, <[kv.1 := kv.2]> files).
Proof.
  intros [Hname Hlen] Hfree. unfold read_entry. cbn [ze_Name]. rewrite Hfree.
  assert (negb (String.eqb kv.1 database_name) && negb (HasPrefix kv.1 "files/") = false /\
          negb (String.eqb kv.1 database_name) && negb (validArchiveFileName kv.1) = false /\
          String.eqb kv.1 manifest_name = false) as (-> & -> & ->).
  { destruct Hname as [->|Hv]; [done|]. rewrite Hv, !andb_false_r.
    assert (HasPrefix kv.1 "files/" = true) as Hp.
    { unfold validArchiveFileName in Hv. destruct (HasPrefix kv.1 "files/"); [done|]. discriminate Hv. }
    rewrite Hp, andb_false_r. split_and!; [done..|]. apply String.eqb_neq. intros E. by rewrite E in Hp. }
  rewrite read_whole by lia. destruct (Z.ltb_spec (file_limit kv.1) (length_of kv.2)); [lia|done].
Qed.

Lemma read_archived l m files :
  Forall archived l -> NoDup (map fst l) -> (forall kv, kv ∈ l -> files !! kv.1 = None) ->
  read_archive (map (fun kv => mkZipEntry kv.1 kv.2 None) l) (m, files) = Ok (m, put_each l files).
Proof.
  intros Hl. revert files. induction Hl as [|kv l Hkv Hl IH]; intros files Hn Hfree; [done|].
  cbn [map read_archive]. rewrite read_entry_archived by (done || apply Hfree; left).
  apply NoDup_cons in Hn as [Hx Hn]. apply IH; [done|]. intros kv' Hin.
  rewrite lookup_insert_ne; [apply Hfree; by right|]. intros E. apply Hx. apply list_elem_of_fmap. by exists kv'.
Qed.

(** The manifest [CreateWithOptions] puts in, and what is read of the archive. *)
Definition manifest_of (t : Stamp) (version : Z) (files : gmap string string) : Manifest :=
  mkManifest backup_format (RFC3339Nano t) version (sha256Hex <$> files).

Lemma archive_reads_back t version files entries :
  package_laws -> restorable (manifest_of t version files) files ->
  zip_open (archive_of (manifest_of t version files) files) = Some entries ->
  read_archive entries (mkManifest "" "" 0 ∅, ∅) = Ok (manifest_of t version files, files).
Proof.
  intros Hl Hr. unfold archive_of. rewrite (zip_reads Hl). intros E. apply (inj Some) in E. rewrite <- E. clear E.
  set (kv := (manifest_name, json_marshal (manifest_json (manifest_of t version files)))).
  assert (forall l g, read_archive (map (fun kv : string * string => mkZipEntry kv.1 kv.2 None) (kv :: l)) g =
    match read_entry (mkZipEntry kv.1 kv.2 None) g with
    | Ok g' => read_archive (map (fun kv : string * string => mkZipEntry kv.1 kv.2 None) l) g'
    | Err e => Err e
    end) as -> by done.
  assert (read_entry (mkZipEntry kv.1 kv.2 None) (mkManifest "" "" 0 ∅, ∅) = Ok (manifest_of t version files, ∅)) as ->.
  { unfold read_entry. cbn [ze_Name]. change (String.eqb kv.1 manifest_name) with true. cbv iota.
    rewrite (read_whole kv) by apply Hr. unfold kv, snd. rewrite manifest_reads_back; [done|]. split_and!; [done|apply RFC3339Nano_utf8|apply Hr..|].
    cbn. intros k v Hv. apply lookup_fmap_Some in Hv as (c & <- & Hc). split; [by eapply Hr|].
    apply valid_ascii, sha256Hex_ascii. }
  rewrite read_archived.
  - unfold sorted_names. by rewrite put_each_sorted.
  - apply Forall_forall. intros [name c] Hin. unfold sorted_names in Hin. rewrite order_by_perm, elem_of_map_to_list in Hin.
    unfold archived, file_limit. cbn. destruct (String.eqb_spec name database_name) as [->|Hne].
    + destruct (rs_database _ _ Hr) as (db & Hdb & _ & Hlen). rewrite Hdb in Hin. injection Hin as <-. split; [by left|done].
    + destruct (rs_files _ _ Hr _ _ Hin Hne). split; [by right|done].
  - apply NoDup_names.
  - intros kv' _. apply lookup_empty.
Qed.

(** A package apart. *)
Lemma package_parts salt nonce sealed :
  String.length salt = backupSaltSize -> String.length nonce = nonce_size ->
  let encoded := (packageMagic ++ salt ++ nonce ++ sealed)%string in
  let pos := String.length packageMagic in
  String.length encoded = (pos + backupSaltSize + nonce_size + String.length sealed)%nat /\
  take_str pos encoded = packageMagic /\ take_str backupSaltSize (drop_str pos encoded) = salt /\
  take_str nonce_size (drop_str (pos + backupSaltSize) encoded) = nonce /\
  drop_str nonce_size (drop_str (pos + backupSaltSize) encoded) = sealed.
Proof.
  intros Hs Hn encoded pos. unfold encoded, pos.
  assert (drop_str (String.length packageMagic + backupSaltSize) (packageMagic ++ salt ++ nonce ++ sealed)%string = (nonce ++ sealed)%string) as ->.
  { rewrite <- Hs, <- length_app_str. rewrite <- (append_assoc packageMagic salt). apply drop_str_app. }
  rewrite !length_app_str, Hs, Hn, take_str_app, drop_str_app, <- Hs, take_str_app, <- Hn, take_str_app, drop_str_app.
  split_and!; [lia|done..].
Qed.

Lemma ranged_none l check w :
  (forall x, x ∈ l -> check x = None) -> ranged l check w = (Ok tt, passed w).
Proof.
  intros Hc. unfold ranged. assert (omap check (bk_order (w_tick (bw_world w)) l) = []) as ->; [|done].
  assert (forall x, x ∈ bk_order (w_tick (bw_world w)) l -> check x = None) as Hc'.
  { intros x. rewrite (bk_order_perm _ l). apply Hc. }
  revert Hc'. generalize (bk_order (w_tick (bw_world w)) l) as l'. induction l' as [|x l' IH]; [done|].
  intros Hx. simpl. rewrite Hx by left. apply IH. intros y Hy. apply Hx. by right.
Qed.

Lemma elem_of_keys {A} (m : gmap string A) k : k ∈ keys m <-> is_Some (m !! k).
Proof.
  unfold keys. rewrite list_elem_of_fmap. split.
  - intros ([k' v] & -> & Hin). apply elem_of_map_to_list in Hin. by exists v.
  - intros [v Hv]. exists (k, v). by rewrite elem_of_map_to_list.
Qed.

(** Reading a file that holds the package of some files. *)
Lemma decode_package input password salt nonce t version files w :
  package_laws -> restorable (manifest_of t version files) files -> healthy ->
  (12 <= String.length password)%nat -> String.length salt = backupSaltSize -> String.length nonce = nonce_size ->
  bw_files w !! abs_path input = Some (Regular (seal_package password salt nonce (archive_of (manifest_of t version files) files))) ->
  fst (DecodePackage input password w) = Ok (manifest_of t version files, files).
Proof.
  intros Hl Hr Hh Hp Hs Hn Hf. unfold DecodePackage.
  rewrite (proj2 (Nat.ltb_ge (String.length password) 12)) by lia. unfold fail_if at 1.
  rewrite (bind_run _ _ _ tt w) by done.
  set (archive := archive_of (manifest_of t version files) files) in *.
  rewrite (bind_run _ _ _ (seal_package password salt nonce archive) (passed w)).
  2:{ unfold os_ReadFile, os_call. by rewrite Hh, Hf. }
  unfold seal_package. cbv zeta.
  destruct (package_parts salt nonce (env_gcm_seal (bk_scrypt password salt) nonce archive backup_format) Hs Hn) as (-> & -> & -> & -> & ->).
  rewrite String.eqb_refl. rewrite (proj2 (Nat.ltb_ge _ _)) by (pose proof (gcm_tag Hl (bk_scrypt password salt) nonce archive backup_format); unfold nonce_size; lia).
  rewrite (bind_run _ _ _ tt (passed w)) by done. rewrite (gcm_opens Hl).
  rewrite (bind_run _ _ _ archive (passed w)) by done.
  destruct (zip_open archive) as [entries|] eqn:Ez; [|unfold archive, archive_of in Ez; by rewrite (zip_reads Hl) in Ez].
  rewrite (bind_run _ _ _ entries (passed w)) by done. unfold lift_res.
  rewrite (archive_reads_back t version files entries Hl Hr Ez).
  rewrite (bind_run _ _ _ (manifest_of t version files, files) (passed w)) by done.
  destruct (rs_database _ _ Hr) as (db & Hdb & Hne & _).
  cbn [manifest_of mf_Format mf_Files]. rewrite lookup_fmap, Hdb. cbn [fmap option_fmap option_map default].
  unfold id. rewrite (proj2 (String.eqb_neq db "")), (proj2 (String.eqb_neq (sha256Hex db) "")) by (done || by apply sha256Hex_some).
  rewrite (bind_run _ _ _ tt (passed w)), (bind_run _ _ _ tt (passed w)) by done.
  rewrite (bind_run _ _ _ tt (passed (passed w))).
  2:{ apply ranged_none. intros name Hin%elem_of_keys. unfold checksum_error. rewrite lookup_fmap in Hin.
    destruct (files !! name) as [c|] eqn:E; [|by destruct Hin]. cbn. rewrite lookup_fmap, E. cbn.
    by rewrite EqualFold_ascii by apply sha256Hex_ascii. }
  rewrite (bind_run _ _ _ tt (passed (passed (passed w)))); [done|].
  apply ranged_none. intros name [c Hc]%elem_of_keys. unfold unlisted_error. cbn. rewrite lookup_fmap, Hc. cbn.
  by rewrite (proj2 (String.eqb_neq _ _) (sha256Hex_some c Hl)).
Qed.

(** ** Writing a package *)

(** The temporary files are apart from the package and the data directory. *)
Record apart (output dataDir : string) : Prop := {
  ap_database n : abs_path (temp_path bk_tempdir "frp-panel-backup-" ".db" n) <> abs_path output;
  ap_atomic n : abs_path (temp_path (Dir output) ".backup-tmp-" "" n) <> abs_path output;
  ap_data n : in_tree (abs_path dataDir) (abs_path (temp_path bk_tempdir "frp-panel-backup-" ".db" n)) = false
}.

Lemma writeAtomic_Ok path content w u w' :
  (forall n, abs_path (temp_path (Dir path) ".backup-tmp-" "" n) <> abs_path path) ->
  writeAtomic path content w = (Ok u, w') -> bw_files w' !! abs_path path = Some (Regular content).
Proof.
  intros Ht. unfold writeAtomic. intros (? & w1 & ?%call_Ok & Hr)%bind_Ok.
  apply bind_Ok in Hr as (tmp & w2 & (Etmp & _ & E2)%create_temp_Ok & Hr). apply deferred_Ok in Hr as (w9 & Hr & ->).
  apply bind_Ok in Hr as (? & w3 & E3%call_Ok & Hr). apply bind_Ok in Hr as (? & w4 & E4%file_write_Ok & Hr).
  apply bind_Ok in Hr as (? & w5 & E5%call_Ok & Hr). apply bind_Ok in Hr as (? & w6 & E6%call_Ok & Hr).
  apply bind_Ok in Hr as (? & w7 & E7 & Hr). apply bind_Ok in Hr as (? & w8 & E8%call_Ok & E9%call_Ok).
  apply os_call_Ok in E7 as (_ & fs & E & ->). rewrite E6, E5, E4, lookup_insert_eq in E. injection E as _ <-.
  apply (keeps_remove _ _ tmp); [rewrite Etmp; apply Ht|]. unfold kept. rewrite E9, E8. cbn. by rewrite lookup_insert_eq.
Qed.

Lemma in_service_Ok {A} (m : M A) w a w' :
  in_service m w = (Ok a, w') -> bw_files w' = bw_files w /\ exists v, m (bw_world w) = (Ok a, v).
Proof. unfold in_service. destruct (m (bw_world w)) as [[b|e] v]; [|done]. intros [= <- <-]. eauto. Qed.

Lemma optional_Ok dataDir output w files w' :
  is_rooted output = true ->
  (if String.eqb dataDir "" then ret ∅ else collectDataFiles dataDir output) w = (Ok files, w') ->
  bw_files w' = bw_files w /\ forall name c, files !! name = Some c <->
    dataDir <> ""%string /\ data_files (abs_path dataDir) (abs_path output) (bw_files w) !! name = Some c.
Proof.
  intros Ho. destruct (String.eqb_spec dataDir "") as [->|Hne].
  - intros [<- ->]%ret_Ok. split; [done|]. intros name c. rewrite lookup_empty. naive_solver.
  - intros [Hw ->]%collect_Ok; [|by left]. split; [done|]. naive_solver.
Qed.

(** What [CreateWithOptions] leaves behind. *)
Lemma create_Ok output password dataDir w w1 :
  apart output dataDir -> is_rooted output = true ->
  CreateWithOptions output password dataDir w = (Ok tt, w1) ->
  exists additional n t version salt nonce ks kn,
    let image := sqlite_file (bk_live (w_db (bw_world w))) in
    let files := additional ∪ {[database_name := image]} in
    (12 <= String.length password)%nat /\ env_random ks backupSaltSize = Some salt /\ env_random kn nonce_size = Some nonce /\
    (forall name c, additional !! name = Some c <-> dataDir <> ""%string /\ data_files (abs_path dataDir) (abs_path output)
       (<[abs_path (temp_path bk_tempdir "frp-panel-backup-" ".db" n) := Regular image]> (bw_files w)) !! name = Some c) /\
    bw_files w1 !! abs_path output =
      Some (Regular (seal_package password salt nonce (archive_of (manifest_of t version files) files))).
Proof.
  intros Hap Ho. unfold CreateWithOptions. intros (? & w2 & E0 & Hr)%bind_Ok. unfold fail_if in E0.
  destruct (Nat.ltb_spec (String.length password) 12); [done|]. apply ret_Ok in E0 as [_ ->].
  apply bind_Ok in Hr as (tmp & w3 & E1 & Hr).
  assert (w_db (bw_world w3) = w_db (bw_world w)) as Edb.
  { unfold os_CreateTemp in E1. cbv zeta in E1. apply os_call_Ok in E1 as (_ & fs & _ & ->). done. }
  apply create_temp_Ok in E1 as (Etmp & _ & E1). apply deferred_Ok in Hr as (w9 & Hr & ->).
  apply bind_Ok in Hr as (? & w4 & E2 & Hr). unfold vacuum_into in E2. destruct (bk_fault _); [done|].
  injection E2 as _ <-. apply bind_Ok in Hr as (? & w5 & E3%call_Ok & Hr). cbn in E3. rewrite Edb in E3.
  apply bind_Ok in Hr as (bytes & w6 & [E4 E4']%os_read_Ok & Hr). rewrite E3, lookup_insert_eq in E4. injection E4 as <-.
  apply bind_Ok in Hr as (additional & w7 & [E5 Hadd]%optional_Ok & Hr); [|done]. cbv zeta in Hr.
  apply bind_Ok in Hr as (version & w8 & _ & Hr). apply bind_Ok in Hr as (t & w10 & _ & Hr).
  apply bind_Ok in Hr as (salt & w11 & (_ & v1 & E6)%in_service_Ok & Hr).
  apply bind_Ok in Hr as (nonce & w12 & (_ & v2 & E7)%in_service_Ok & Hr).
  apply bind_Ok in Hr as (? & w13 & _ & Hr). apply writeAtomic_Ok in Hr; [|apply Hap].
  apply rand_read_Ok in E6 as [E6 _], E7 as [E7 _].
  exists additional, (w_tick (bw_world w)), t, version, salt, nonce, (w_tick (bw_world w10)), (w_tick (bw_world w11)).
  cbv zeta. split_and!; [done|done|done| |].
  - intros name c. rewrite Hadd, E4', E3, E1, insert_insert_eq, Etmp. done.
  - apply (keeps_remove _ _ tmp); [rewrite Etmp; apply Hap|exact Hr].
Qed.

(** C16: What is backed up is what is read back.  When a backup was written, there
    are files, listed with their digests in its manifest, which are the database as it stood and
    the files of the data directory that are collected, each under its name; and
    as long as they are within the limits of a package and have names an archive
    may have, decoding the package with the password gives exactly them. *)
Theorem backup_round_trip output password dataDir w w1 :
  package_laws -> apart output dataDir -> is_rooted output = true ->
  CreateWithOptions output password dataDir w = (Ok tt, w1) ->
  exists t version files,
    let m := manifest_of t version files in
    files !! database_name = Some (sqlite_file (bk_live (w_db (bw_world w)))) /\
    (forall name c, name <> database_name -> files !! name = Some c <->
       dataDir <> ""%string /\ exists p, name = archive_name (abs_path dataDir) p /\ bw_files w !! p = Some (Regular c) /\
         collected (abs_path dataDir) (abs_path output) p c = true) /\
    (healthy -> restorable m files -> forall w2, bw_files w2 !! abs_path output = bw_files w1 !! abs_path output ->
       fst (DecodePackage output password w2) = Ok (m, files)).
Proof.
  intros Hl Hap Ho Hc.
  destruct (create_Ok _ _ _ _ _ Hap Ho Hc) as (additional & n & t & version & salt & nonce & ks & kn & Hp & Hs & Hn & Hadd & Hw1).
  cbv zeta in Hadd, Hw1. set (files := additional ∪ {[database_name := sqlite_file (bk_live (w_db (bw_world w)))]}) in *.
  exists t, version, files. cbv zeta. split_and!.
  - apply lookup_union_Some_raw. right. split; [|apply lookup_singleton_eq].
    destruct (additional !! database_name) as [c|] eqn:E; [|done]. exfalso.
    apply Hadd in E as [_ (p & Hp' & _)%data_files_lookup]. discriminate Hp'.
  - intros name c Hne. unfold files. rewrite lookup_union_l by (by apply lookup_singleton_ne). rewrite Hadd, data_files_lookup.
    split; intros (Hd & p & -> & Hpc & Hcol); (split; [done|]); exists p; (split; [done|]); (split; [|done]).
    + rewrite lookup_insert_ne in Hpc; [done|]. intros <-. unfold collected in Hcol. by rewrite (ap_data _ _ Hap) in Hcol.
    + rewrite lookup_insert_ne; [done|]. intros <-. unfold collected in Hcol. by rewrite (ap_data _ _ Hap) in Hcol.
  - intros Hh Hr w2 Hw2. rewrite Hw1 in Hw2.
    apply (decode_package _ _ _ _ _ _ _ _ Hl Hr Hh Hp) in Hw2; [done|by apply (random_full Hl ks)|by apply (random_full Hl kn)].
Qed.
End Packages.
