(* ===== verification/Startup.v ===== *)
(** How the server is started and stopped: its configuration
    ([server/internal/config/config.go]), the migrations of its database
    ([server/internal/db/db.go]), the FRPS process ([server/internal/frps/process.go])
    and the command itself ([server/cmd/server/main.go]), with the commands that
    checkpoint a database and restore a backup.

    SQLite is a parameter: what a statement does to the tables.  What the server
    does is a log of services started and stopped; the components it starts are
    those of the other files. *)

From S2P Require Import Prelude StateError GoText GoNet Timestamps Encoding GoUrl GoPath GoJson ClientSecurity Schema Effects Logic Validation Store Jobs Sessions Router RouterControl KeyFiles Issuer Backup.
From Stdlib Require Import Ascii String.
Open Scope Z_scope.

(** ** The configuration *)

Record ServerConfig := mkServerConfig {
  sc_ListenAddr : string;
  sc_TLSCertFile : string;
  sc_TLSKeyFile : string;
  sc_DataDir : string;
  sc_DBPath : string;
  sc_MasterKeyPath : string;
  sc_ConfigSigningPath : string;
  sc_FRPSPublicHost : string;
  sc_FRPSPublicPort : Z;
  sc_FRPSBindAddress : string;
  sc_FRPSBindPort : Z;
  sc_FRPSBinary : string;
  sc_FRPSBinarySHA256 : string;
  sc_FRPSConfigPath : string;
  sc_FRPSTransportSecretFile : string;
  sc_Environment : string;
  sc_AdminPassword : string;
  sc_AllowedOrigins : list string;
  sc_SessionTTLHours : Z;
  sc_ClientLeaseSeconds : Z;
  sc_PortStart : Z;
  sc_PortEnd : Z;
  sc_AdminWebDir : string;
  sc_CloudflareAPIBaseURL : string;
  sc_RouterSnapshotDir : string;
  sc_RouterListenAddr : string;
  sc_RouterTLSEnabled : bool;
  sc_RouterControlHosts : list string;
  sc_RouterControlTarget : string;
  sc_RouterBusinessTarget : string;
  sc_FRPSVhostHTTPPort : Z;
  sc_ACMEEnabled : bool;
  sc_ACMEDirectoryURL : string;
  sc_ACMEEmail : string
}.

Section Settings.
(** [os.Getenv] *)
Context (getenv_os : string -> string).
#[local] Abbreviation getenv := (ClientSecurity.getenv getenv_os).

Definition getenvInt (key : string) (fallback : Z) : Z :=
  match Atoi (getenv_os key) with
  | Some value => if value <=? 0 then fallback else value
  | None => fallback
  end.

Definition default_origins : list string :=
  ["http://127.0.0.1:5173"; "http://localhost:5173"; "http://127.0.0.1:5174"; "http://localhost:5174";
   "http://127.0.0.1:7410"; "http://localhost:7410"; "http://127.0.0.1:7400"; "http://localhost:7400"]%string.

Definition LoadServer : ServerConfig :=
  let dataDir := getenv "FRP_SERVER_DATA_DIR" "./data" in
  let allowedOrigins := splitCSV (getenv_os "FRP_ALLOWED_ORIGINS") in
  {| sc_ListenAddr := getenv "SERVER_LISTEN_ADDR" "127.0.0.1:7400";
     sc_TLSCertFile := getenv_os "SERVER_TLS_CERT_FILE";
     sc_TLSKeyFile := getenv_os "SERVER_TLS_KEY_FILE";
     sc_DataDir := dataDir;
     sc_DBPath := getenv "FRP_SERVER_DB" (Join [dataDir; "server.db"]);
     sc_MasterKeyPath := getenv "FRP_SERVER_MASTER_KEY_FILE" (Join [dataDir; "server-master.key"]);
     sc_ConfigSigningPath := getenv "FRP_CONFIG_SIGNING_KEY_FILE" (Join [dataDir; "config-signing.key"]);
     sc_FRPSPublicHost := getenv "FRPS_PUBLIC_HOST" "frp.example.com";
     sc_FRPSPublicPort := getenvInt "FRPS_PUBLIC_PORT" 7000;
     sc_FRPSBindAddress := getenv "FRPS_BIND_ADDRESS" "127.0.0.1";
     sc_FRPSBindPort := getenvInt "FRPS_BIND_PORT" 7000;
     sc_FRPSBinary := getenv_os "FRPS_BINARY";
     sc_FRPSBinarySHA256 := getenv_os "FRPS_BINARY_SHA256";
     sc_FRPSConfigPath := getenv_os "FRPS_CONFIG_PATH";
     sc_FRPSTransportSecretFile := getenv "FRPS_TRANSPORT_SECRET_FILE" (Join [dataDir; "frps-transport.secret"]);
     sc_Environment := getenv "FRP_PANEL_ENV" "development";
     sc_AdminPassword := getenv_os "FRP_ADMIN_PASSWORD";
     sc_AllowedOrigins := match allowedOrigins with [] => default_origins | _ => allowedOrigins end;
     sc_SessionTTLHours := getenvInt "FRP_SESSION_TTL_HOURS" 12;
     sc_ClientLeaseSeconds := getenvInt "FRP_CLIENT_LEASE_SECONDS" 120;
     sc_PortStart := getenvInt "FRP_PORT_START" 6000;
     sc_PortEnd := getenvInt "FRP_PORT_END" 6999;
     sc_AdminWebDir := getenv_os "FRP_ADMIN_WEB_DIR";
     sc_CloudflareAPIBaseURL := getenv "CLOUDFLARE_API_BASE_URL" "https://api.cloudflare.com/client/v4";
     sc_RouterSnapshotDir := getenv "FRP_ROUTER_SNAPSHOT_DIR" (Join [dataDir; "router"]);
     sc_RouterListenAddr := getenv_os "FRP_ROUTER_LISTEN_ADDR";
     sc_RouterTLSEnabled := String.eqb (getenv_os "FRP_ROUTER_TLS_ENABLED") "true";
     sc_RouterControlHosts := splitCSV (getenv_os "FRP_ROUTER_CONTROL_HOSTS");
     sc_RouterControlTarget := getenv "FRP_ROUTER_CONTROL_TARGET" "http://127.0.0.1:7400";
     sc_RouterBusinessTarget := getenv "FRP_ROUTER_BUSINESS_TARGET" "http://127.0.0.1:8080";
     sc_FRPSVhostHTTPPort := getenvInt "FRPS_VHOST_HTTP_PORT" 8080;
     sc_ACMEEnabled := String.eqb (getenv_os "FRP_ACME_ENABLED") "true";
     sc_ACMEDirectoryURL := getenv "FRP_ACME_DIRECTORY_URL" "https://acme-v02.api.letsencrypt.org/directory";
     sc_ACMEEmail := getenv_os "FRP_ACME_EMAIL" |}%string.
End Settings.

Section Security.
Context `{UnicodeTables} `{GoUrl}.

Definition blank (s : string) : bool := String.eqb (TrimSpace s) "".

Definition routerListenerIsLoopback (address : string) : bool :=
  match SplitHostPort (TrimSpace address) with
  | Err _ => false
  | Ok (host, _) => match ParseIP (Trim host brackets) with Some ip => IsLoopback ip | None => false end
  end.

Definition https_origin (origin : string) : bool :=
  match url_Parse origin with
  | Err _ => false
  | Ok u => String.eqb (u_Scheme u) "https" && negb (String.eqb (u_Host u) "") && (u_User u == None) &&
            String.eqb (u_Path u) "" && String.eqb (u_RawQuery u) "" && String.eqb (u_Fragment u) ""
  end.

Definition production (c : ServerConfig) : bool := EqualFold (TrimSpace (sc_Environment c)) "production".

(** What is asked of a production server.  The origin that is refused is quoted at
    the end of the message. *)
Definition validate_production (c : ServerConfig) : res string unit :=
  if blank (sc_TLSCertFile c) || blank (sc_TLSKeyFile c)
  then Err "production Server Panel requires SERVER_TLS_CERT_FILE and SERVER_TLS_KEY_FILE"%string
  else if match sc_AllowedOrigins c with [] => true | _ => false end
  then Err "production Server Panel requires explicit FRP_ALLOWED_ORIGINS"%string
  else match List.find (fun origin => negb (https_origin origin)) (sc_AllowedOrigins c) with
       | Some _ => Err "production allowed origin must be an https origin"%string
       | None =>
           if negb (blank (sc_RouterListenAddr c)) && negb (routerListenerIsLoopback (sc_RouterListenAddr c)) &&
              negb (sc_RouterTLSEnabled c)
           then Err "production Router listener requires FRP_ROUTER_TLS_ENABLED=true"%string
           else Ok tt
       end.

Definition ValidateTransportSecurity (c : ServerConfig) : res string unit :=
  if negb (Bool.eqb (blank (sc_TLSCertFile c)) (blank (sc_TLSKeyFile c)))
  then Err "server TLS certificate and key must be configured together"%string
  else if sc_RouterTLSEnabled c && blank (sc_RouterListenAddr c)
  then Err "router TLS cannot be enabled without FRP_ROUTER_LISTEN_ADDR"%string
  else match (if blank (sc_RouterListenAddr c) then Ok ("", "") else SplitHostPort (TrimSpace (sc_RouterListenAddr c)))%string with
       | Err e => Err ("router listen address is invalid: " ++ e)%string
       | Ok _ => if production c then validate_production c else Ok tt
       end.
End Security.

Definition EnsureDirs (c : ServerConfig) : Prog unit :=
  wrap_error (prefixed "create data dir: ") (syscall_ (SysMkdirAll (sc_DataDir c))).

(** ** Migrations *)

(** [strings.Split] by a separator of more than one byte. *)
Fixpoint split_on (sep s acc : string) (skip : nat) : list string :=
  match s with
  | EmptyString => [acc]
  | String c s' =>
      match skip with
      | S k => split_on sep s' acc k
      | O => if HasPrefix s sep then acc :: split_on sep s' "" (String.length sep - 1)
             else split_on sep s' (acc ++ String c "") 0
      end
  end%string.

(** The statements of a migration file. *)
Definition statements (contents : string) : list string :=
  List.filter (fun s => negb (String.eqb s "")) (map TrimSpace (split_on "-- statement" contents "" 0)).

Example statements_split : statements "-- statement
CREATE TABLE a (b TEXT);
-- statement
CREATE TABLE c (d TEXT);" = ["CREATE TABLE a (b TEXT);"; "CREATE TABLE c (d TEXT);"]%string.
Proof. vm_compute. reflexivity. Qed.

(** [fmt.Sscanf(name, "%d_", &version)]: blanks, a sign, digits, an underscore. *)
Fixpoint leading_digits (s : string) : string :=
  match s with String c s' => if is_digit c then String c (leading_digits s') else ""%string | _ => ""%string end.
Definition version_of (name : string) : option Z :=
  let s := TrimLeft name [" "; ascii_of_nat 9]%char in
  let sign := if HasPrefix s "-" then "-" else if HasPrefix s "+" then "+" else "" in
  let digits := leading_digits (TrimPrefix s sign) in
  if HasPrefix (drop_str (String.length digits) (TrimPrefix s sign)) "_" then Atoi (sign ++ digits) else None%string.

Example versions : map version_of ["001_initial.sql"; "007_http_only_constraints.sql"; "12.sql"; "notes_1.sql"; "_x"]%string
  = [Some 1; Some 7; None; None; None].
Proof. vm_compute. reflexivity. Qed.

(** What a statement with its arguments does to the tables.  No migration names
    [schema_migrations], whose rows are kept apart. *)
Class SqlEngine (T : Type) := { sql_exec : string -> list string -> T -> res string T }.

(** [db_versions]: [None] when the table [schema_migrations] does not exist. *)
Record Database (T : Type) := mkDatabase { db_tables : T; db_versions : option (gset Z) }.
Arguments mkDatabase {T} db_tables db_versions.
Arguments db_tables {T} d.
Arguments db_versions {T} d.

(** A connection, with the number of calls made of it. *)
Record Conn (T : Type) := mkConn { cn_db : Database T; cn_tick : nat }.
Arguments mkConn {T} cn_db cn_tick.
Arguments cn_db {T} c.
Arguments cn_tick {T} c.

Section Migrations.
(** [fault n]: the error of the [n]-th call, when it fails; a server that is killed
    makes no further call that works. *)
Context {T : Type} `{SqlEngine T} (fault : nat -> option string).

Abbreviation SQ := (ST (Conn T) string).

Definition on_database {A} (f : Database T -> res string (A * Database T)) : SQ A := fun c =>
  match fault (cn_tick c) with
  | Some e => (Err e, mkConn (cn_db c) (S (cn_tick c)))
  | None => match f (cn_db c) with
            | Ok (a, d) => (Ok a, mkConn d (S (cn_tick c)))
            | Err e => (Err e, mkConn (cn_db c) (S (cn_tick c)))
            end
  end.

Definition run_statement (args : list string) (statement : string) (d : Database T) : res string (unit * Database T) :=
  match sql_exec statement args (db_tables d) with
  | Ok t => Ok (tt, mkDatabase t (db_versions d))
  | Err e => Err e
  end.
Definition add_version (v : Z) (d : Database T) : res string (unit * Database T) :=
  match db_versions d with
  | None => Err "no such table: schema_migrations"%string
  | Some vs => if decide (v ∈ vs) then Err "UNIQUE constraint failed: schema_migrations.version"%string
               else Ok (tt, mkDatabase (db_tables d) (Some ({[v]} ∪ vs)))
  end.
Definition is_applied (v : Z) (d : Database T) : res string (bool * Database T) :=
  match db_versions d with
  | None => Err "no such table: schema_migrations"%string
  | Some vs => Ok (bool_decide (v ∈ vs), d)
  end.
(** [CREATE TABLE IF NOT EXISTS schema_migrations] *)
Definition create_versions (d : Database T) : res string (unit * Database T) :=
  Ok (tt, mkDatabase (db_tables d) (Some (default ∅ (db_versions d)))).

(** A call that changes no table. *)
Definition plain_call : SQ unit := on_database (fun d => Ok (tt, d)).

(** [BeginTx], the body, [Commit]; after an error the connection is rolled back. *)
Definition in_transaction (body : SQ unit) : SQ unit := plain_call;; body;; plain_call.
Definition transaction (body : SQ unit) : SQ unit := fun c =>
  match in_transaction body c with
  | (Ok _, c') => (Ok tt, c')
  | (Err e, c') => (Err e, mkConn (cn_db c) (cn_tick c'))
  end.

Definition migrate_entry (entry : string * string) : SQ unit :=
  match version_of entry.1 with
  | None => ret tt
  | Some version =>
      applied ← on_database (is_applied version);
      if applied : bool then ret tt
      else transaction (
        map_err (fun e => "migration " ++ entry.1 ++ ": " ++ e)%string
          (for_each (statements entry.2) (fun s => on_database (run_statement [] s)));;
        on_database (add_version version))
  end.

(** [entries] are the embedded files in the order of their names. *)
Definition migrate (entries : list (string * string)) : SQ unit :=
  on_database create_versions;; for_each entries migrate_entry.

Definition identity_statement : string :=
  "INSERT OR IGNORE INTO system_identity(singleton_id,server_instance_id,created_at) VALUES(1,?,datetime('now'))".
Definition ensureSystemIdentity (new_id : string) : SQ unit :=
  on_database (run_statement [new_id] identity_statement).

Definition pragmas : list string :=
  ["PRAGMA journal_mode=WAL"; "PRAGMA foreign_keys=ON"; "PRAGMA busy_timeout=5000"; "PRAGMA synchronous=FULL"]%string.

(** A pragma changes no table. *)
Definition Open (entries : list (string * string)) (new_id : string) : SQ unit :=
  map_err (fun e => "open sqlite: " ++ e)%string plain_call;;
  for_each pragmas (fun pragma =>
    map_err (fun e => "set " ++ pragma ++ ": " ++ e)%string (on_database (fun d => Ok (tt, d))));;
  migrate entries;;
  ensureSystemIdentity new_id.

Definition Checkpoint : SQ unit := plain_call.

(** The command [db-checkpoint]. *)
Definition checkpoint_command (databasePath : string) (entries : list (string * string)) (new_id : string) : SQ unit :=
  fail_if (String.eqb databasePath "") "-db or FRP_SERVER_DB is required"%string;;
  map_err (fun e => "open database: " ++ e)%string (Open entries new_id);;
  map_err (fun e => "checkpoint failed: " ++ e)%string Checkpoint.
End Migrations.

(** ** The FRPS process *)

(** The [n]-th question the server asks outside: the bytes of a file, the output of
    a command that ran to its end and whether it failed, the process that a command
    started, and whether that process has ended by now. *)
Class FrpsEnv := {
  fr_read : nat -> string -> res string string;
  fr_sha256 : string -> string;
  fr_combined : nat -> list string -> string * bool;
  fr_start : nat -> list string -> res string Z;
  fr_ended : nat -> Z -> bool
}.

Record FrpsConfig := mkFrpsConfig { fc_Binary : string; fc_SHA256 : string; fc_Config : string }.

(** The goroutine that waits for the process sends its result once. *)
Inductive Waiter := Waiting | Sent | Received.
Record Process := mkProcess { pr_pid : Z; pr_done : Waiter }.

Section Frps.
Context `{UnicodeTables} `{FrpsEnv}.

Definition VerifyBinary (n : nat) (path expectedSHA256 : string) : res string unit :=
  if String.eqb path "" || String.eqb expectedSHA256 "" then Err "FRPS binary and SHA-256 are required"%string
  else match fr_read n path with
       | Err e => Err e
       | Ok content =>
           let actual := hex_encode (fr_sha256 content) in
           if EqualFold actual (TrimSpace expectedSHA256) then Ok tt
           else Err ("FRPS binary SHA-256 mismatch: got " ++ actual)%string
       end.

Definition VerifyConfig (n : nat) (binary configPath : string) : res string unit :=
  if blank binary || blank configPath then Err "FRPS binary and config path are required"%string
  else match fr_combined n [binary; "verify"; "-c"; configPath]%string with
       | (_, false) => Ok tt
       | (output, true) =>
           let message := TrimSpace output in
           Err ("FRPS config verification failed: " ++ (if Nat.ltb 240 (String.length message) then take_str 240 message else message))%string
       end.

(** The questions [n], [n+1] and [n+2]. *)
Definition Start (n : nat) (c : FrpsConfig) : res string Process :=
  match VerifyBinary n (fc_Binary c) (fc_SHA256 c) with
  | Err e => Err e
  | Ok _ =>
      if String.eqb (fc_Config c) "" then Err "FRPS config path is required"%string
      else match VerifyConfig (n + 1) (fc_Binary c) (fc_Config c) with
           | Err e => Err e
           | Ok _ =>
               match fr_start (n + 2) [fc_Binary c; "-c"; fc_Config c]%string with
               | Err e => Err e
               | Ok pid => Ok (mkProcess pid Waiting)
               end
           end
  end.

Definition PID (p : option Process) : Z := match p with Some p => pr_pid p | None => 0 end.

(** What became of the process. *)
Inductive Ending := EndedItself | Killed.

(** [Stop] interrupts the process and, unless it has ended by the next instruction,
    kills it and waits.  [None]: it waits for ever, for the result was taken. *)
Definition Stop (n : nat) (p : Process) : option (Ending * Process) :=
  match pr_done p with
  | Received => None
  | Sent => Some (EndedItself, mkProcess (pr_pid p) Received)
  | Waiting => Some (if fr_ended n (pr_pid p) then EndedItself else Killed, mkProcess (pr_pid p) Received)
  end.
End Frps.

(** ** The command *)

Inductive Service :=
| SDatabase
| SFrps (pid : Z)
| SWorker
| SWatcher (snapshot : string)
| SReload
| SRouter (addr : string) (tls : bool)
| SPanel (addr : string) (tls : option (string * string)).
#[export] Instance Service_eq_dec : EqDecision Service.
Proof. solve_decision. Defined.

Inductive PanelEvent := Started (s : Service) | Stopped (s : Service) | Logged (what : string).
#[export] Instance PanelEvent_eq_dec : EqDecision PanelEvent.
Proof. solve_decision. Defined.

Inductive StartError :=
| InsecureTransport (text : string)
| FileError (e : OsError)
| DatabaseError (text : string)
| FrpsError (text : string)
| AdminError (e : GoErr)
| RouterError (text : string).

(** What the server has and has done; the latest event first. *)
Record Panel := mkPanel {
  pn_host : Host;
  pn_conn : Conn DB;
  pn_certificates : option (list string);
  pn_log : list PanelEvent
}.
#[export] Instance Eta_Panel : Eta Panel := fun r =>
  mkPanel r.(pn_host) r.(pn_conn) r.(pn_certificates) r.(pn_log).

(** Outside: faults of the connection, the identifier of a new server, and why a
    listener does not open. *)
Class PanelEnv := {
  pe_fault : nat -> option string;
  pe_new_id : string;
  pe_listen : nat -> string -> option string;
  pe_migrations : list (string * string)
}.

Abbreviation PS := (ST Panel StartError).

(** [jobs.New] *)
Definition jobs_New (fresh owner : string) : JobStore :=
  {| st_owner := if String.eqb owner "" then fresh else owner; st_lease := 30 * second; st_retry_base := second |}.

Section Command.
Context `{base : Env} `{GoUrl} `{Machine} `{KeyMath} `{SqlEngine DB} `{FrpsEnv} `{PanelEnv} `{TlsFiles}.

(** *** Parts of the state *)

Definition on_host {A} (p : Prog A) : PS A := fun w =>
  let '(r, h) := KeyFiles.run p (pn_host w) in
  (match r with Ok a => Ok a | Err e => Err (FileError e) end, w <| pn_host := h |>).
Definition on_conn {A} (m : ST (Conn DB) string A) : PS A := fun w =>
  let '(r, c) := m (pn_conn w) in
  (match r with Ok a => Ok a | Err e => Err (DatabaseError e) end, w <| pn_conn := c |>).

Definition world_of (c : Conn DB) : World := mkWorld (db_tables (cn_db c)) (cn_tick c).
Definition conn_of (c : Conn DB) (v : World) : Conn DB := mkConn (mkDatabase (w_db v) (db_versions (cn_db c))) (w_tick v).
Definition on_service {A} (m : M A) : PS A := fun w =>
  let '(r, v) := m (world_of (pn_conn w)) in
  (match r with Ok a => Ok a | Err e => Err (AdminError e) end, w <| pn_conn ::= fun c => conn_of c v |>).

Definition event (e : PanelEvent) : PS unit := fun w => (Ok tt, w <| pn_log ::= cons e |>).
Definition tick (n : nat) : PS nat := fun w =>
  (Ok (cn_tick (pn_conn w)), w <| pn_conn ::= fun c => mkConn (cn_db c) (cn_tick c + n) |>).

(** *** The service *)

(** The configuration the service reads. *)
Definition service_config (c : ServerConfig) (transportSecret : string) : Config :=
  {| cfg_AdminPassword := sc_AdminPassword c; cfg_DataDir := sc_DataDir c;
     cfg_SessionTTLHours := sc_SessionTTLHours c; cfg_PortStart := sc_PortStart c; cfg_PortEnd := sc_PortEnd c;
     cfg_FRPSBindPort := sc_FRPSBindPort c; cfg_FRPSPublicHost := sc_FRPSPublicHost c;
     cfg_FRPSPublicPort := sc_FRPSPublicPort c; cfg_FRPSTransportSecret := transportSecret;
     cfg_RouterControlHosts := sc_RouterControlHosts c; cfg_RouterControlTarget := sc_RouterControlTarget c;
     cfg_RouterBusinessTarget := sc_RouterBusinessTarget c; cfg_RouterSnapshotDir := sc_RouterSnapshotDir c;
     cfg_ACMEEnabled := sc_ACMEEnabled c |}.

(** [service.New] *)
Definition service_New (c : ServerConfig) (transportSecret : string) (secrets : Manager) : Env := {|
  env_now := env_now; env_id := env_id; env_random := env_random; env_fault := env_fault;
  env_config := service_config c transportSecret;
  env_jobs := Some (jobs_New "" "server-worker");
  env_audit := env_audit; env_sha256 := env_sha256; env_hash_body := env_hash_body; env_argon2 := env_argon2;
  env_gcm_seal := env_gcm_seal; env_gcm_open := env_gcm_open; env_sql_text := env_sql_text;
  env_master_key := mn_MasterKey secrets;
  env_certificate_key := mn_CertificateKey secrets;
  env_router_key := mn_RouterKey secrets;
  env_unicode := env_unicode; env_idna := env_idna |}.

(** *** Steps of [run] *)

(** The FRPS process, when any of its settings is given, around the rest. *)
Definition with_frps {A} (c : ServerConfig) (rest : PS A) : PS A :=
  if String.eqb (sc_FRPSBinary c) "" && String.eqb (sc_FRPSBinarySHA256 c) "" && String.eqb (sc_FRPSConfigPath c) ""
  then rest
  else
    n ← tick 3;
    match Start n (mkFrpsConfig (sc_FRPSBinary c) (sc_FRPSBinarySHA256 c) (sc_FRPSConfigPath c)) with
    | Err e => event (Logged "frps_start");; fail (FrpsError e)
    | Ok process =>
        event (Started (SFrps (PID (Some process))));;
        deferred (n ← tick 1; match Stop n process with
                              | Some _ => event (Stopped (SFrps (PID (Some process))))
                              | None => ret tt
                              end)
          (event (Logged "frps_started");; rest)
    end.

Definition acme_account_path (c : ServerConfig) : string := (sc_DataDir c ++ "/acme/account.key")%string.

(** The provider of certificates, when there is one. *)
Definition acme_provider (c : ServerConfig) (secrets : Manager) : PS (option CloudflareDNS01Provider) :=
  if sc_ACMEEnabled c then
    match NewCloudflareDNS01 (mkCloudflareDNS01Config (sc_ACMEDirectoryURL c) (sc_ACMEEmail c) (acme_account_path c) 0 0)
            (mn_MasterKey secrets) with
    | Ok provider => ret (Some provider)
    | Err _ => event (Logged "acme_provider");; ret None
    end
  else ret None.

Definition url_target (target : string) : bool :=
  match url_Parse target with
  | Ok u => negb (String.eqb (u_Scheme u) "") && negb (String.eqb (u_Host u) "")
  | Err _ => false
  end.

(** A listener: what it serves, unless it does not open. *)
Definition serve (addr : string) (s : Service) (stopped : string) : PS unit :=
  n ← tick 1;
  match pe_listen n addr with
  | Some _ => event (Logged stopped)
  | None => event (Started s)
  end.

Definition set_certificates (hostnames : list string) : PS unit := fun w =>
  (Ok tt, w <| pn_certificates := Some hostnames |>).
Definition first_certificates (app : Env) : PS unit :=
  r ← attempt (on_service (@RouterCertificates app _));
  match r with
  | Ok certificates => set_certificates (map fst (map_to_list (@Replace _ env_unicode (map_to_list certificates))))
  | Err _ => event (Logged "router_tls_certificates")
  end.

Definition watched_snapshot (c : ServerConfig) : string := Join [sc_RouterSnapshotDir c; "last-good.json"%string].

(** The router, when it has an address. *)
Definition start_router (c : ServerConfig) (app : Env) (secrets : Manager) : PS unit :=
  if String.eqb (sc_RouterListenAddr c) "" then ret tt
  else match NewRuntime url_target (mn_RouterKey secrets) (sc_RouterControlTarget c) (sc_RouterBusinessTarget c) with
  | Err e => event (Logged "router_runtime");; fail (RouterError e)
  | Ok _ =>
      event (Started (SWatcher (watched_snapshot c)));;
      (if sc_RouterTLSEnabled c then first_certificates app;; event (Started SReload) else ret tt);;
      event (Logged "router_started");;
      serve (sc_RouterListenAddr c) (SRouter (sc_RouterListenAddr c) (sc_RouterTLSEnabled c))
        (if sc_RouterTLSEnabled c then "router_tls_listener" else "router_stopped")
  end.

Definition panel_tls (c : ServerConfig) : option (string * string) :=
  if String.eqb (sc_TLSCertFile c) "" then None else Some (sc_TLSCertFile c, sc_TLSKeyFile c).
Definition start_panel (c : ServerConfig) : PS unit :=
  event (Logged "server_started");;
  serve (sc_ListenAddr c) (SPanel (sc_ListenAddr c) (panel_tls c)) "server_stopped".

(** After the signal.  [Shutdown] closes the listeners. *)
Definition shutdown (c : ServerConfig) : PS unit :=
  event (Stopped SWorker);;
  (if String.eqb (sc_RouterListenAddr c) "" then ret tt
   else event (Stopped (SWatcher (watched_snapshot c)));;
        event (Stopped SReload);;
        event (Stopped (SRouter (sc_RouterListenAddr c) (sc_RouterTLSEnabled c))));;
  event (Stopped (SPanel (sc_ListenAddr c) (panel_tls c))).

Definition require_secure (c : ServerConfig) : PS unit :=
  match ValidateTransportSecurity c with
  | Err e => event (Logged "server_transport_security");; fail (InsecureTransport e)
  | Ok _ => ret tt
  end.

(** The log's line for an error that ends the start. *)
Definition or_logged {A} (what : string) (m : PS A) : PS A := fun w =>
  match m w with
  | (Err e, w') => (Err e, w' <| pn_log ::= cons (Logged what) |>)
  | r => r
  end.

(** From the administrator on. *)
Definition serve_all (c : ServerConfig) (app : Env) (secrets : Manager) : PS unit :=
  _ ← acme_provider c secrets;
  initialPassword ← or_logged "admin_initialization" (on_service (@EnsureAdmin app));
  (if String.eqb initialPassword "" then ret tt else event (Logged "initial_admin_ready"));;
  deferred (event (Stopped SWorker)) (
    r ← attempt (on_service (@EnqueueRouterSnapshot app));
    (match r with Ok _ => ret tt | Err _ => event (Logged "router_snapshot_seed") end);;
    event (Started SWorker);;
    start_router c app secrets;;
    start_panel c;;
    shutdown c).

(** The whole life of a server, which a signal ends. *)
Definition run (c : ServerConfig) : PS unit :=
  require_secure c;;
  or_logged "config" (on_host (EnsureDirs c));;
  transportSecret ← or_logged "frps_transport_secret" (on_host (LoadOrCreateTransportSecret (sc_FRPSTransportSecretFile c)));
  secrets ← or_logged "secrets" (on_host (Load (sc_DataDir c) (sc_MasterKeyPath c) (sc_ConfigSigningPath c)));
  or_logged "database" (on_conn (Open pe_fault pe_migrations pe_new_id));;
  event (Started SDatabase);;
  deferred (event (Stopped SDatabase)) (
    with_frps c (serve_all c (service_New c transportSecret secrets) secrets)).
End Command.

(** ** Restoring a backup *)

(** The function [restore] of the command [backup-restore]. *)
Definition restore_command `{Env} `{BackupEnv} `{GoFloat} (input password target dataDir : string) : BK string :=
  fail_if (String.eqb input "" || String.eqb target "") "input and target are required"%string;;
  fail_if (String.eqb password "") "FRP_BACKUP_PASSWORD is required"%string;;
  RestoreWithOptions input password target dataDir.

(** ** Migrations: what a run leaves behind *)

Section Upgrade.
Context {T : Type} `{SqlEngine T}.
Abbreviation SQ := (ST (Conn T) string).

(** A connection on which every call works. *)
Definition calm (n : nat) : option string := None.

(** What [m] does and returns depends on the database only. *)
Definition timeless {A} (m : SQ A) : Prop := forall d n n',
  fst (m (mkConn d n)) = fst (m (mkConn d n')) /\ cn_db (snd (m (mkConn d n))) = cn_db (snd (m (mkConn d n'))).

(** A run of [m] that succeeds, some calls of which might have failed, does what
    the run [m'] does on which all work. *)
Definition agrees {A} (m m' : SQ A) : Prop := forall c a c', m c = (Ok a, c') ->
  forall n, exists n', m' (mkConn (cn_db c) n) = (Ok a, mkConn (cn_db c') n').

Lemma timeless_ret {A} (a : A) : timeless (ret a).
Proof. done. Qed.
Lemma timeless_database {A} (f : Database T -> res string (A * Database T)) : timeless (on_database calm f).
Proof. intros d n n'. unfold on_database. cbn. by destruct (f d) as [[a d']|e]. Qed.
Lemma timeless_bind {A B} (m : SQ A) (k : A -> SQ B) : timeless m -> (forall a, timeless (k a)) -> timeless (m ≫= k).
Proof.
  intros Hm Hk d n n'. destruct (Hm d n n') as [E1 E2]. unfold mbind, M_bind, bind.
  destruct (m (mkConn d n)) as [[a|e] [d1 n1]], (m (mkConn d n')) as [[a'|e'] [d2 n2]]; cbn in *; simplify_eq; [apply Hk|done].
Qed.
Lemma timeless_for_each {A} (l : list A) (body : A -> SQ unit) : (forall a, timeless (body a)) -> timeless (for_each l body).
Proof. intros Hb. induction l as [|a l IH]; [apply timeless_ret|]. by apply timeless_bind. Qed.
Lemma timeless_map_err {A} f (m : SQ A) : timeless m -> timeless (map_err f m).
Proof.
  intros Hm d n n'. destruct (Hm d n n') as [E1 E2]. unfold map_err.
  destruct (m (mkConn d n)) as [[a|e] c1], (m (mkConn d n')) as [[a'|e'] c2]; cbn in *; by simplify_eq.
Qed.
Lemma timeless_transaction (body : SQ unit) : timeless body -> timeless (transaction calm body).
Proof.
  intros Hb d n n'. unfold transaction.
  assert (timeless (in_transaction calm body)) as Ht.
  { repeat (apply timeless_bind; [first [done|apply timeless_database]|intros _]). apply timeless_database. }
  destruct (Ht d n n') as [E1 E2].
  destruct (in_transaction calm body (mkConn d n)) as [[a|e] c1], (in_transaction calm body (mkConn d n')) as [[a'|e'] c2];
    cbn in *; by simplify_eq.
Qed.
Lemma timeless_entry e : timeless (migrate_entry calm e).
Proof.
  unfold migrate_entry. destruct (version_of e.1); [|apply timeless_ret].
  apply timeless_bind; [apply timeless_database|intros []]; [apply timeless_ret|]. apply timeless_transaction.
  apply timeless_bind; [apply timeless_map_err, timeless_for_each; intros s; apply timeless_database|intros _; apply timeless_database].
Qed.
Lemma timeless_migrate entries : timeless (migrate calm entries).
Proof. apply timeless_bind; [apply timeless_database|intros _]. apply timeless_for_each, timeless_entry. Qed.

Context (fault : nat -> option string).

Lemma agrees_ret {A} (a : A) : agrees (ret a) (ret a).
Proof. intros [d n0] b c' [= <- <-] n. by exists n. Qed.
Lemma agrees_database {A} (f : Database T -> res string (A * Database T)) : agrees (on_database fault f) (on_database calm f).
Proof.
  intros [d n0] a c' E n. unfold on_database in *. cbn in *. destruct (fault n0); [done|].
  destruct (f d) as [[b d']|e]; [|done]. injection E as -> <-. by exists (S n).
Qed.
Lemma agrees_bind {A B} (m m' : SQ A) (k k' : A -> SQ B) :
  agrees m m' -> (forall a, agrees (k a) (k' a)) -> agrees (m ≫= k) (m' ≫= k').
Proof.
  intros Hm Hk c b c' (a & c1 & E1 & E2)%bind_Ok n. destruct (Hm _ _ _ E1 n) as [n1 E1'].
  destruct (Hk _ _ _ _ E2 n1) as [n2 E2']. exists n2. by rewrite (bind_run _ _ _ _ _ E1').
Qed.
Lemma agrees_for_each {A} (l : list A) (body body' : A -> SQ unit) :
  (forall a, agrees (body a) (body' a)) -> agrees (for_each l body) (for_each l body').
Proof. intros Hb. induction l as [|a l IH]; [apply agrees_ret|]. by apply agrees_bind. Qed.
Lemma agrees_map_err {A} f (m m' : SQ A) : agrees m m' -> agrees (map_err f m) (map_err f m').
Proof. intros Hm c a c' E%map_err_Ok n. destruct (Hm _ _ _ E n) as [n' E']. exists n'. by apply map_err_Ok. Qed.
Lemma agrees_transaction (body body' : SQ unit) : agrees body body' -> agrees (transaction fault body) (transaction calm body').
Proof.
  intros Hb c a c' E n. unfold transaction in *.
  assert (agrees (in_transaction fault body) (in_transaction calm body')) as Ha.
  { repeat (apply agrees_bind; [first [done|apply agrees_database]|intros _]). apply agrees_database. }
  destruct (in_transaction fault body c) as [[[]|e] c1] eqn:E1; [|done]. injection E as <- <-. destruct (Ha _ _ _ E1 n) as [n' ->]. by exists n'.
Qed.
Lemma agrees_entry e : agrees (migrate_entry fault e) (migrate_entry calm e).
Proof.
  unfold migrate_entry. destruct (version_of e.1); [|apply agrees_ret].
  apply agrees_bind; [apply agrees_database|intros []]; [apply agrees_ret|]. apply agrees_transaction.
  apply agrees_bind; [apply agrees_map_err, agrees_for_each; intros s; apply agrees_database|intros _; apply agrees_database].
Qed.

(** An entry that fails changes nothing. *)
Lemma entry_atomic e c err c' : migrate_entry fault e c = (Err err, c') -> cn_db c' = cn_db c.
Proof.
  unfold migrate_entry. destruct (version_of e.1); [|done].
  intros [E|([] & c1 & E1 & E)]%bind_Err; [|done|].
  - unfold on_database in E. destruct (fault _); [by injection E as _ <-|].
    destruct (is_applied z (cn_db c)) as [[b d]|]; [done|by injection E as _ <-].
  - assert (cn_db c1 = cn_db c) as <-.
    { unfold on_database in E1. destruct (fault _); [done|]. unfold is_applied in E1. destruct (db_versions (cn_db c)); [|done].
      by injection E1 as _ <-. }
    unfold transaction in E. destruct (in_transaction _ _ c1) as [[[]|e1] c2]; [done|]. by injection E as _ <-.
Qed.

(** The versions that are recorded stay recorded. *)
Definition grows (c c' : Conn T) : Prop :=
  forall vs, db_versions (cn_db c) = Some vs -> exists vs', db_versions (cn_db c') = Some vs' /\ vs ⊆ vs'.
#[local] Instance grows_preorder : PreOrder grows.
Proof.
  split; [by intros c vs E; exists vs|]. intros c1 c2 c3 H12 H23 vs E. destruct (H12 vs E) as (vs2 & E2 & S2).
  destruct (H23 vs2 E2) as (vs3 & E3 & S3). exists vs3. split; [done|]. set_solver.
Qed.
Lemma database_grows {A} (f : Database T -> res string (A * Database T)) :
  (forall d a d' n, f d = Ok (a, d') -> grows (mkConn d n) (mkConn d' (S n))) -> moves grows (on_database fault f).
Proof.
  intros Hf [d n]. unfold on_database. cbn. destruct (fault n); [by intros vs E; exists vs|].
  destruct (f d) as [[a d']|e] eqn:E; [by eapply Hf|]. by intros vs E'; exists vs.
Qed.
Lemma statement_grows args s : moves grows (on_database fault (run_statement args s)).
Proof.
  apply database_grows. intros d a d' n. unfold run_statement. destruct (sql_exec _ _ _); [|done]. intros [= _ <-] vs E. by exists vs.
Qed.
Lemma same_grows : moves grows (on_database fault (fun d => Ok (tt, d))).
Proof. apply database_grows. intros d a d' n [= _ <-] vs E. by exists vs. Qed.
Lemma version_grows v : moves grows (on_database fault (add_version v)).
Proof.
  apply database_grows. intros d a d' n. unfold add_version. destruct (db_versions d) as [vs|] eqn:Ev; [|done].
  destruct (decide _); [done|]. intros [= _ <-] vs' E. cbn in *. simplify_eq. eexists. split; [done|]. set_solver.
Qed.
Lemma applied_grows v : moves grows (on_database fault (is_applied v)).
Proof.
  apply database_grows. intros d a d' n. unfold is_applied. destruct (db_versions d) eqn:Ev; [|done]. intros [= _ <-] vs E. by exists vs.
Qed.
Lemma transaction_grows body : moves grows body -> moves grows (transaction fault body).
Proof.
  intros Hb c. unfold transaction. assert (moves grows (in_transaction fault body)) as Ht.
  { repeat (apply moves_bind; [typeclasses eauto|first [done|apply same_grows]|intros _]). apply same_grows. }
  specialize (Ht c). destruct (in_transaction fault body c) as [[[]|e] c1]; [done|]. by intros vs E; exists vs.
Qed.
Lemma entry_grows e : moves grows (migrate_entry fault e).
Proof.
  unfold migrate_entry. destruct (version_of e.1); [|apply moves_ret; typeclasses eauto].
  apply moves_bind; [typeclasses eauto|apply applied_grows|intros []]; [apply moves_ret; typeclasses eauto|].
  apply transaction_grows, moves_bind; [typeclasses eauto| |intros _; apply version_grows].
  apply moves_map_err, moves_for_each; [typeclasses eauto|]. intros s. apply statement_grows.
Qed.
Lemma entries_grow l : moves grows (for_each l (migrate_entry fault)).
Proof. apply moves_for_each; [typeclasses eauto|apply entry_grows]. Qed.

(** The entry has nothing to do. *)
Definition settled_entry (e : string * string) (d : Database T) : Prop :=
  match version_of e.1 with Some v => exists vs, db_versions d = Some vs /\ v ∈ vs | None => True end.

Lemma settled_grows e c c' : grows c c' -> settled_entry e (cn_db c) -> settled_entry e (cn_db c').
Proof.
  unfold settled_entry. intros Hg. destruct (version_of e.1); [|done]. intros (vs & Hv & Hin).
  destruct (Hg vs Hv) as (vs' & E & Hs). exists vs'. split; [done|]. set_solver.
Qed.
Lemma settled_noop e d n : settled_entry e d -> exists n', migrate_entry calm e (mkConn d n) = (Ok tt, mkConn d n').
Proof.
  unfold settled_entry, migrate_entry. destruct (version_of e.1) as [v|]; [|by intros _; exists n]. intros (vs & Hv & Hin).
  exists (S n). erewrite bind_run; cycle 1.
  { unfold on_database, is_applied. cbn. rewrite Hv. by rewrite bool_decide_true. }
  done.
Qed.
Lemma entry_settles e c c' : migrate_entry fault e c = (Ok tt, c') -> settled_entry e (cn_db c').
Proof.
  unfold migrate_entry, settled_entry. destruct (version_of e.1) as [v|]; [|done].
  intros (b & c1 & E1 & E)%bind_Ok. unfold on_database in E1. destruct (fault _); [done|]. unfold is_applied in E1.
  destruct (db_versions (cn_db c)) as [vs|] eqn:Ev; [|done]. injection E1 as <- <-. case_bool_decide as Hin.
  { injection E as <-. by exists vs. }
  unfold transaction in E. destruct (in_transaction _ _ _) as [[[]|] c2] eqn:Et; [|done]. injection E as <-.
  apply bind_Ok in Et as (? & c3 & _ & Et). apply bind_Ok in Et as (? & c4 & Eb & Et).
  apply bind_Ok in Eb as (? & c5 & _ & Ev'). unfold on_database in Ev'. destruct (fault _); [done|]. unfold add_version in Ev'.
  destruct (db_versions (cn_db c5)) as [vs5|]; [|done]. destruct (decide _); [done|]. injection Ev' as _ <-.
  unfold plain_call, on_database in Et. destruct (fault _); [done|]. injection Et as <-. cbn. eexists. split; [done|]. set_solver.
Qed.

(** The entries that a run went through, and the rest. *)
Lemma entries_resume l c r c' :
  for_each l (migrate_entry fault) c = (r, c') ->
  (forall n n', fst (for_each l (migrate_entry calm) (mkConn (cn_db c') n)) = fst (for_each l (migrate_entry calm) (mkConn (cn_db c) n')) /\
     cn_db (snd (for_each l (migrate_entry calm) (mkConn (cn_db c') n))) = cn_db (snd (for_each l (migrate_entry calm) (mkConn (cn_db c) n')))) /\
  exists k, (r = Ok tt -> k = List.length l) /\ forall n, exists n',
    for_each (take k l) (migrate_entry calm) (mkConn (cn_db c) n) = (Ok tt, mkConn (cn_db c') n').
Proof.
  revert c. induction l as [|e l IH]; intros c.
  { intros [= <- <-]. split; [done|]. exists 0%nat. split; [done|]. intros n. by exists n. }
  intros [(err & E & ->)|([] & c1 & E1 & E)]%bind_cases; [|change (for_each l (migrate_entry fault) c1 = (r, c')) in E].
  - apply entry_atomic in E. rewrite E. split; [intros n n'; by apply timeless_for_each, timeless_entry|].
    exists 0%nat. split; [done|]. intros n. by exists n.
  - destruct (IH _ E) as (Hsame & k & Hk & Hpre). split.
    + intros n n'. pose proof (entry_settles _ _ _ E1) as Hs. apply (settled_grows e c1 c') in Hs; cycle 1.
      { pose proof (entries_grow l c1) as Hg. rewrite E in Hg. exact Hg. }
      destruct (settled_noop e (cn_db c') n Hs) as [n1 En]. destruct (agrees_entry e c tt c1 E1 n') as [n2 En'].
      cbn [for_each]. rewrite (bind_run _ _ _ _ _ En), (bind_run _ _ _ _ _ En'). apply Hsame.
    + exists (S k). split; [intros Hr; by rewrite Hk|]. intros n. destruct (agrees_entry e c tt c1 E1 n) as [n1 En].
      destruct (Hpre n1) as [n2 E2]. exists n2. cbn [take for_each]. by rewrite (bind_run _ _ _ _ _ En).
Qed.

Lemma entries_settled l c c' e : for_each l (migrate_entry fault) c = (Ok tt, c') -> e ∈ l -> settled_entry e (cn_db c').
Proof.
  revert c. induction l as [|e' l IH]; intros c; [by intros _ ?%elem_of_nil|]. intros ([] & c1 & E1 & E)%bind_Ok.
  change (for_each l (migrate_entry fault) c1 = (Ok tt, c')) in E. intros [->|Hin]%elem_of_cons; [|by eapply IH].
  apply entry_settles in E1. eapply settled_grows; [|exact E1]. pose proof (entries_grow l c1) as Hg. rewrite E in Hg. exact Hg.
Qed.

Lemma Open_settles entries new_id c c' e :
  Open fault entries new_id c = (Ok tt, c') -> e ∈ entries -> settled_entry e (cn_db c').
Proof.
  unfold Open. intros (? & c1 & _ & (? & c2 & _ & (? & c3 & E3 & E4)%bind_Ok)%bind_Ok)%bind_Ok Hin.
  apply bind_Ok in E3 as (? & c4 & _ & E3). pose proof (statement_grows [new_id] identity_statement c3) as Hg.
  unfold ensureSystemIdentity in E4. rewrite E4 in Hg. eapply settled_grows; [exact Hg|].
  destruct x1. by eapply entries_settled.
Qed.

Lemma create_versions_settled (d : Database T) n : is_Some (db_versions d) -> on_database calm create_versions (mkConn d n) = (Ok tt, mkConn d (S n)).
Proof. destruct d as [t [vs|]]; [done|by intros []]. Qed.

(** C13: Migrations can be interrupted and resumed.  Whatever call of [migrate] fails,
    or after which call the server is killed, the database is as it was, or as a full
    run over the first few files leaves it: no file is half applied.  A later run
    that is not disturbed ends exactly as it would have from the start; after a run
    that succeeded it changes nothing. *)
Theorem migrations_resume entries c r c' :
  migrate fault entries c = (r, c') ->
  let again (d : Database T) n := migrate calm entries (mkConn d n) in
  (forall n n', fst (again (cn_db c') n) = fst (again (cn_db c) n') /\ cn_db (snd (again (cn_db c') n)) = cn_db (snd (again (cn_db c) n'))) /\
  (cn_db c' = cn_db c \/
   exists k, forall n, exists n', migrate calm (take k entries) (mkConn (cn_db c) n) = (Ok tt, mkConn (cn_db c') n')) /\
  (r = Ok tt -> forall n, exists n', again (cn_db c') n = (Ok tt, mkConn (cn_db c') n')).
Proof.
  intros [(err & E & ->)|([] & c1 & E1 & E)]%bind_cases again.
  - assert (cn_db c' = cn_db c) as ->.
    { unfold on_database in E. destruct (fault _); [by injection E as _ <-|done]. }
    split; [|by split; [left|]]. intros n n'. by apply timeless_migrate.
  - pose proof (entries_grow entries c1) as Hg. rewrite E in Hg. cbn [snd] in Hg.
    assert (is_Some (db_versions (cn_db c'))) as Hsome.
    { unfold on_database in E1. destruct (fault _); [done|]. injection E1 as <-. destruct (Hg _ eq_refl) as (vs' & -> & _). by eexists. }
    assert (forall n, again (cn_db c') n = for_each entries (migrate_entry calm) (mkConn (cn_db c') (S n))) as Hagain.
    { intros n. unfold again, migrate. by rewrite (bind_run _ _ _ _ _ (create_versions_settled _ n Hsome)). }
    assert (forall l n, exists n', migrate calm l (mkConn (cn_db c) n) = for_each l (migrate_entry calm) (mkConn (cn_db c1) n')) as Hfirst.
    { intros l n. destruct (agrees_database create_versions c tt c1 E1 n) as [n' En]. exists n'. unfold migrate.
      by rewrite (bind_run _ _ _ _ _ En). }
    destruct (entries_resume entries c1 r c' E) as (Hsame & k & Hk & Hpre). split; [|split].
    + intros n n'. rewrite Hagain. destruct (Hfirst entries n') as [n2 E2]. unfold again at 1 2. rewrite E2. apply Hsame.
    + right. exists k. intros n. destruct (Hfirst (take k entries) n) as [n2 ->]. apply Hpre.
    + intros Hr n. rewrite Hagain. specialize (Hk Hr). subst k. rewrite firstn_all in Hpre. destruct (Hpre 0%nat) as [n2 E2].
      destruct (Hsame (S n) 0%nat) as [S1 S2]. rewrite E2 in S1, S2. cbn [fst snd cn_db] in S1, S2.
      destruct (for_each entries (migrate_entry calm) (mkConn (cn_db c') (S n))) as [x [d n3]] eqn:Ex. cbn in S1, S2. subst.
      exists n3. reflexivity.
Qed.
End Upgrade.

(** ** What is left running *)

(** The latest word of the log on a service. *)
Fixpoint running (s : Service) (log : list PanelEvent) : bool :=
  match log with
  | [] => false
  | Started s' :: log => if decide (s = s') then true else running s log
  | Stopped s' :: log => if decide (s = s') then false else running s log
  | Logged _ :: log => running s log
  end.

Section Lifetimes.
Context `{base : Env} `{GoUrl} `{Machine} `{KeyMath} `{SqlEngine DB} `{FrpsEnv} `{PanelEnv} `{TlsFiles}.

(** Only services of [P] run. *)
Definition only (P : Service -> Prop) (w : Panel) : Prop := forall s, running s (pn_log w) = true -> P s.

Lemma only_weaken (P Q : Service -> Prop) w : (forall s, P s -> Q s) -> only P w -> only Q w.
Proof. intros HPQ Hw s Hs. by apply HPQ, Hw. Qed.
Lemma started_only P s : leads (only P) (only (fun x => P x \/ x = s)) (event (Started s)).
Proof. intros w Hw x. cbn. destruct (decide (x = s)); [by right|]. intros Hx. left. by apply Hw. Qed.
Lemma started_hoare P s F : hoare (only P) (event (Started s)) (fun _ => only (fun x => P x \/ x = s)) F.
Proof. exact (started_only P s). Qed.
Lemma stopped_only P s : leads (only P) (only (fun x => P x /\ x <> s)) (event (Stopped s)).
Proof. intros w Hw x. cbn. destruct (decide (x = s)); [done|]. intros Hx. split; [by apply Hw|done]. Qed.

(** What leaves the log as it is, or adds a line to it, starts nothing. *)
Definition quiet (w w' : Panel) : Prop := forall s, running s (pn_log w') = running s (pn_log w).
#[local] Instance quiet_preorder : PreOrder quiet.
Proof. split; unfold quiet; [done|]. intros w1 w2 w3 E1 E2 s. by rewrite E2. Qed.

Lemma quiet_logged what : moves quiet (event (Logged what)).
Proof. by intros w s. Qed.
Lemma quiet_host {A} (p : Prog A) : moves quiet (on_host p).
Proof. intros w s. unfold on_host. by destruct (KeyFiles.run p (pn_host w)). Qed.
Lemma quiet_conn {A} (m : ST (Conn DB) string A) : moves quiet (on_conn m).
Proof. intros w s. unfold on_conn. by destruct (m (pn_conn w)). Qed.
Lemma quiet_service {A} (m : M A) : moves quiet (on_service m).
Proof. intros w s. unfold on_service. by destruct (m (world_of (pn_conn w))). Qed.
Lemma quiet_tick n : moves quiet (tick n).
Proof. by intros w s. Qed.
Lemma quiet_certificates l : moves quiet (set_certificates l).
Proof. by intros w s. Qed.
Lemma quiet_or_logged {A} what (m : PS A) : moves quiet m -> moves quiet (or_logged what m).
Proof. intros Hm w s. specialize (Hm w s). unfold or_logged. destruct (m w) as [[a|e] w1]; done. Qed.
#[local] Hint Resolve quiet_logged quiet_host quiet_conn quiet_service quiet_tick quiet_certificates : moves.

Lemma quiet_first app : moves quiet (first_certificates app).
Proof. unfold first_certificates. repeat move_step. Qed.
Lemma quiet_secure c : moves quiet (require_secure c).
Proof. unfold require_secure. repeat move_step. Qed.
Lemma quiet_acme c secrets : moves quiet (acme_provider c secrets).
Proof. unfold acme_provider. repeat move_step. Qed.

Lemma quiet_only {A} (P F : Service -> Prop) (m : PS A) :
  moves quiet m -> (forall s, P s -> F s) -> hoare (only P) m (fun _ => only P) (only F).
Proof.
  intros Hm HF w Hw. specialize (Hm w). destruct (m w) as [[a|e] w1]; intros s Hs; [|apply HF]; apply Hw; by rewrite <- (Hm s).
Qed.
Lemma quiet_then_leads {A} P (m : PS A) : moves quiet m -> leads (only P) (only P) m.
Proof. intros Hm w Hw s Hs. apply Hw. by rewrite <- (Hm w s). Qed.

(** A step that starts services, then the rest. *)
Lemma leads_then {A B} (P Q R : Service -> Prop) (m : PS A) (k : A -> PS B) :
  leads (only P) (only Q) m -> (forall s, Q s -> R s) -> (forall a, leads (only Q) (only R) (k a)) -> leads (only P) (only R) (m ≫= k).
Proof. intros Hm HQR Hk. apply (leads_bind _ (only Q)); [done|intros w; by apply only_weaken|done]. Qed.
Lemma leads_weaken {A} (P Q Q' : Service -> Prop) (m : PS A) :
  leads (only P) (only Q) m -> (forall s, Q s -> Q' s) -> leads (only P) (only Q') m.
Proof. intros Hm HQ w Hw. eapply only_weaken; [exact HQ|by apply Hm]. Qed.
Lemma quiet_then {A B} (P R : Service -> Prop) (m : PS A) (k : A -> PS B) :
  moves quiet m -> (forall s, P s -> R s) -> (forall a, leads (only P) (only R) (k a)) -> leads (only P) (only R) (m ≫= k).
Proof. intros Hm. by apply leads_then, quiet_then_leads. Qed.

(** The services of a router and of a panel. *)
Definition router_service (c : ServerConfig) (s : Service) : Prop :=
  sc_RouterListenAddr c <> ""%string /\
  (s = SWatcher (watched_snapshot c) \/ s = SReload \/ s = SRouter (sc_RouterListenAddr c) (sc_RouterTLSEnabled c)).
Definition panel_service (c : ServerConfig) (s : Service) : Prop := s = SPanel (sc_ListenAddr c) (panel_tls c).

Lemma serve_leads P addr s what : leads (only P) (only (fun x => P x \/ x = s)) (serve addr s what).
Proof.
  unfold serve. apply quiet_then; [apply quiet_tick|by left|intros n]. destruct (pe_listen n addr).
  - eapply leads_weaken; [apply quiet_then_leads, quiet_logged|by left].
  - apply started_only.
Qed.

Lemma start_router_only P c app secrets :
  hoare (only P) (start_router c app secrets) (fun _ => only (fun s => P s \/ router_service c s)) (only P).
Proof.
  unfold start_router. destruct (String.eqb_spec (sc_RouterListenAddr c) "") as [|Hne].
  { apply hoare_ret. intros w. apply only_weaken. by left. }
  destruct (NewRuntime _ _ _ _) as [rt|e].
  2: { eapply hoare_bind; [apply quiet_only; [apply quiet_logged|done]|intros ?; by apply hoare_fail]. }
  assert (forall (m : PS unit) Q, (forall w, is_ok (fst (m w)) = true) -> leads (only P) (only Q) m -> hoare (only P) m (fun _ => only Q) (only P)) as Hok.
  { intros m Q Ho Hl w Hw. specialize (Ho w). specialize (Hl w Hw). by destruct (m w) as [[a|e] w1]. }
  apply Hok.
  - intros w. unfold first_certificates. destruct (sc_RouterTLSEnabled c); unfold mbind, M_bind, bind; cbn; unfold attempt, on_service;
      [destruct (RouterCertificates _) as [[t|e] v]; cbn|]; unfold serve, mbind, M_bind, bind; cbn; by case_match.
  - apply (leads_then _ (fun s => P s \/ s = SWatcher (watched_snapshot c))); [apply started_only|unfold router_service; naive_solver|intros _].
    apply (leads_then _ (fun s => (P s \/ s = SWatcher (watched_snapshot c)) \/ s = SReload)).
    + destruct (sc_RouterTLSEnabled c); [|intros w Hw; eapply only_weaken; [|exact Hw]; by left].
      apply quiet_then; [apply quiet_first|by left|intros _; apply started_only].
    + unfold router_service. naive_solver.
    + intros _. apply quiet_then; [apply quiet_logged|unfold router_service; naive_solver|intros _].
      eapply leads_weaken; [apply serve_leads|]. unfold router_service. naive_solver.
Qed.

Lemma start_panel_ok c w : exists w', start_panel c w = (Ok tt, w').
Proof. unfold start_panel, serve, mbind, M_bind, bind. cbn. case_match; by eexists. Qed.

Lemma start_panel_only P c : leads (only P) (only (fun s => P s \/ panel_service c s)) (start_panel c).
Proof. unfold start_panel. apply quiet_then; [apply quiet_logged|by left|intros _]. apply serve_leads. Qed.

Lemma shutdown_only P c :
  leads (only (fun s => ((P s \/ s = SWorker) \/ router_service c s) \/ panel_service c s)) (only P) (shutdown c).
Proof.
  unfold shutdown. set (Q := fun s => ((P s \/ s = SWorker) \/ router_service c s) \/ panel_service c s).
  intros w Hw. destruct (String.eqb_spec (sc_RouterListenAddr c) "") as [Ea|Ea]; unfold mbind, M_bind, bind; cbn; intros s Hs; cbn in Hs;
    repeat (case_decide; [done|]); specialize (Hw s Hs); unfold Q, router_service, panel_service in Hw; naive_solver.
Qed.

Lemma leads_hoare {A} (P Q : Panel -> Prop) (m : PS A) : leads P Q m -> hoare P m (fun _ => Q) Q.
Proof. intros Hm w Hw. specialize (Hm w Hw). by destruct (m w) as [[a|e] w1]. Qed.

Lemma serve_all_only P c app secrets :
  ~ P SWorker -> hoare (only P) (serve_all c app secrets) (fun _ => only P) (only P).
Proof.
  intros HW. unfold serve_all. eapply hoare_bind; [apply quiet_only; [apply quiet_acme|done]|intros ?].
  eapply hoare_bind; [apply quiet_only; [apply quiet_or_logged, quiet_service|done]|intros password].
  eapply hoare_bind; [apply quiet_only; [destruct (String.eqb password ""); [apply moves_ret, _|apply quiet_logged]|done]|intros ?].
  set (F := fun s => P s \/ s = SWorker).
  assert (leads (only F) (only P) (event (Stopped SWorker))) as Hstop.
  { eapply leads_weaken; [apply stopped_only|]. subst F. naive_solver. }
  apply (hoare_deferred _ _ _ (fun _ => only F) (fun _ => only P) (only F) (only P)); [|done..].
  eapply hoare_bind; [apply quiet_only; [apply moves_attempt, quiet_service|by left]|intros r].
  eapply hoare_bind; [apply quiet_only; [destruct r; [apply moves_ret, _|apply quiet_logged]|by left]|intros ?].
  eapply hoare_bind; [apply started_hoare|intros ?].
  eapply hoare_bind; [apply start_router_only|intros ?].
  intros w Hw. apply (start_panel_only _ c) in Hw. destruct (start_panel_ok c w) as [w1 E]. rewrite E in Hw.
  rewrite (bind_run _ _ _ _ _ E). apply shutdown_only in Hw. cbn [snd] in Hw.
  destruct (shutdown c w1) as [[u|e] w2]; (eapply only_weaken; [|exact Hw]; by left).
Qed.

Lemma with_frps_only {A} (P : Service -> Prop) c (rest : PS A) :
  (forall pid, ~ P (SFrps pid)) -> ~ P SWorker ->
  (forall Q : Service -> Prop, ~ Q SWorker -> hoare (only Q) rest (fun _ => only Q) (only Q)) ->
  hoare (only P) (with_frps c rest) (fun _ => only P) (only P).
Proof.
  intros HP HW Hrest. unfold with_frps. destruct (_ && _); [by apply Hrest|].
  eapply hoare_bind; [apply quiet_only; [apply quiet_tick|done]|intros n]. destruct (Start n _) as [process|e] eqn:Es.
  2: { eapply hoare_bind; [apply quiet_only; [apply quiet_logged|done]|intros ?; by apply hoare_fail]. }
  assert (pr_done process = Waiting) as Hd.
  { unfold Start in Es. repeat case_match; try done. by injection Es as <-. }
  set (frps := SFrps _). set (Q := fun s => P s \/ s = frps).
  assert (~ Q SWorker) as HQ by (unfold Q; naive_solver).
  eapply hoare_bind; [apply started_hoare|intros ?].
  assert (leads (only Q) (only P) (n0 ← tick 1; match Stop n0 process with Some _ => event (Stopped frps) | None => ret tt end)) as Hstop.
  { intros w Hw. erewrite bind_run by reflexivity. unfold Stop. rewrite Hd.
    eapply only_weaken; [|apply (stopped_only Q frps); exact Hw]. unfold Q. naive_solver. }
  apply (hoare_deferred _ _ _ (fun _ => only Q) (fun _ => only P) (only Q) (only P)); [|done..].
  eapply hoare_bind; [apply quiet_only; [apply quiet_logged|done]|intros ?]. by apply Hrest.
Qed.

(** C12: Nothing is left running.  However the command ends, at whatever step a start
    fails or by the signal after which it shuts down, every service it started has
    been stopped: the FRPS process, the worker, the watcher and the listener of the
    router, the listener of the panel, and the database. *)
Theorem nothing_left_running c w r w' :
  (forall s, running s (pn_log w) = false) -> run c w = (r, w') -> forall s, running s (pn_log w') = false.
Proof.
  intros Hw E s.
  assert (hoare (only (fun _ => False)) (run c) (fun _ => only (fun _ => False)) (only (fun _ => False))) as Hr.
  { unfold run. eapply hoare_bind; [apply quiet_only; [apply quiet_secure|done]|intros ?].
    do 4 (eapply hoare_bind; [apply quiet_only; [apply quiet_or_logged; first [apply quiet_host|apply quiet_conn]|done]|intros ?]).
    eapply hoare_bind; [apply started_hoare|intros ?].
    pose (Q := fun s => False \/ s = SDatabase).
    eapply (hoare_deferred _ _ _ (fun _ => only Q) (fun _ => only _) (only Q)).
    - apply (with_frps_only Q); [unfold Q; naive_solver..|]. intros R HR. by apply serve_all_only.
    - intros ?. eapply leads_weaken; [apply stopped_only|]. unfold Q. naive_solver.
    - eapply leads_weaken; [apply stopped_only|]. unfold Q. naive_solver. }
  specialize (Hr w). rewrite E in Hr.
  assert (only (fun _ => False) w') as Ho.
  { destruct r; apply Hr; intros x Hx; by rewrite Hw in Hx. }
  destruct (running s (pn_log w')) eqn:Es; [|done]. by destruct (Ho s Es).
Qed.
(** ** What is started, and when *)

(** The events of a run. *)
Definition adds (P : PanelEvent -> Prop) (w w' : Panel) : Prop :=
  exists new, pn_log w' = (new ++ pn_log w)%list /\ Forall P new.
#[local] Instance adds_preorder P : PreOrder (adds P).
Proof.
  split; [by intros w; exists []|]. intros w1 w2 w3 (n1 & E1 & F1) (n2 & E2 & F2). exists (n2 ++ n1)%list.
  rewrite E2, E1, app_assoc. split; [done|]. by apply Forall_app.
Qed.
Lemma adds_event (P : PanelEvent -> Prop) e : P e -> moves (adds P) (event e).
Proof. intros He w. exists [e]. split; [done|]. by constructor. Qed.
Lemma adds_logged {A} (P : PanelEvent -> Prop) what (m : PS A) : P (Logged what) -> moves (adds P) m -> moves (adds P) (or_logged what m).
Proof.
  intros HP Hm w. specialize (Hm w). unfold or_logged. destruct (m w) as [[a|e] w1]; [done|].
  etrans; [exact Hm|]. exists [Logged what]. split; [done|]. by constructor.
Qed.
Lemma adds_host {A} P (p : Prog A) : moves (adds P) (on_host p).
Proof. intros w. exists []. unfold on_host. by destruct (KeyFiles.run p (pn_host w)). Qed.
Lemma adds_conn {A} P (m : ST (Conn DB) string A) : moves (adds P) (on_conn m).
Proof. intros w. exists []. unfold on_conn. by destruct (m (pn_conn w)). Qed.
Lemma adds_service {A} P (m : M A) : moves (adds P) (on_service m).
Proof. intros w. exists []. unfold on_service. by destruct (m (world_of (pn_conn w))). Qed.
Lemma adds_tick P n : moves (adds P) (tick n).
Proof. intros w. by exists []. Qed.
Lemma adds_certificates P l : moves (adds P) (set_certificates l).
Proof. intros w. by exists []. Qed.
#[local] Hint Resolve adds_host adds_conn adds_service adds_tick adds_certificates : moves.

(** One step of a run, whose events are in [P]. *)
Ltac add_step :=
  first [apply adds_event | apply adds_logged | move_step].

Lemma adds_serve P addr s what : P (Logged what) -> P (Started s) -> moves (adds P) (serve addr s what).
Proof. intros HL HS. unfold serve. repeat add_step; done. Qed.

Lemma run_adds (P : PanelEvent -> Prop) c :
  (forall what, P (Logged what)) -> (forall s, P (Stopped s)) ->
  (ValidateTransportSecurity c = Ok tt -> P (Started SDatabase) /\ (forall pid, P (Started (SFrps pid))) /\ P (Started SWorker) /\
     P (Started SReload) /\ P (Started (SWatcher (watched_snapshot c))) /\
     P (Started (SRouter (sc_RouterListenAddr c) (sc_RouterTLSEnabled c))) /\ P (Started (SPanel (sc_ListenAddr c) (panel_tls c)))) ->
  moves (adds P) (run c).
Proof.
  intros HL HS Hok. unfold run, require_secure. destruct (ValidateTransportSecurity c) as [[]|e].
  2: { intros w. exists [Logged "server_transport_security"%string]. split; [done|]. by repeat constructor. }
  destruct (Hok eq_refl) as (? & ? & ? & ? & ? & ? & ?).
  unfold with_frps, serve_all, start_router, start_panel, shutdown, first_certificates, acme_provider.
  repeat first [apply adds_serve | add_step]; auto.
Qed.

Definition secure_service (s : Service) : Prop :=
  match s with
  | SPanel _ (Some (cert, key)) => blank cert = false /\ blank key = false
  | SPanel _ None => False
  | SRouter addr tls => tls = true \/ blank addr = true \/ routerListenerIsLoopback addr = true
  | _ => True
  end.

(** C10: In production nothing is served in plaintext.  Whatever the other settings
    are, when a run starts anything at all, every origin a browser may come from is an
    https origin; a panel it starts is served with a certificate and a key; a router
    it starts is served with TLS, or listens on a loopback address (an address of
    blanks, on which no listener opens, is let through as well). *)
Theorem production_is_encrypted c w r w' :
  production c = true -> run c w = (r, w') ->
  exists new, pn_log w' = (new ++ pn_log w)%list /\
    forall s, Started s ∈ new -> secure_service s /\ Forall (fun origin => https_origin origin = true) (sc_AllowedOrigins c).
Proof.
  intros Hp E.
  pose proof (run_adds (fun e => match e with
    | Started s => secure_service s /\ Forall (fun origin => https_origin origin = true) (sc_AllowedOrigins c) | _ => True end) c) as Hr.
  destruct Hr with w as (new & En & Hf); [done|done| |].
  - unfold ValidateTransportSecurity. destruct (negb _); [done|]. destruct (sc_RouterTLSEnabled c && _); [done|].
    destruct (if blank _ then _ else _); [|done]. rewrite Hp. unfold validate_production.
    destruct (blank (sc_TLSCertFile c)) eqn:Ec; [done|]. destruct (blank (sc_TLSKeyFile c)) eqn:Ek; [done|]. cbn [orb].
    destruct (match sc_AllowedOrigins c with [] => true | _ => false end); [done|].
    destruct (List.find _ _) eqn:Ef; [done|]. intros Hrt.
    assert (Forall (fun origin => https_origin origin = true) (sc_AllowedOrigins c)) as Ho.
    { apply Forall_forall. intros o Ho. apply negb_false_iff. by apply (find_none _ _ Ef), list_elem_of_In. }
    assert (sc_RouterTLSEnabled c = true \/ blank (sc_RouterListenAddr c) = true \/ routerListenerIsLoopback (sc_RouterListenAddr c) = true) as Hl.
    { revert Hrt. destruct (sc_RouterTLSEnabled c); [by left|]. destruct (blank (sc_RouterListenAddr c)); [by right; left|].
      destruct (routerListenerIsLoopback (sc_RouterListenAddr c)); [by right; right|done]. }
    split_and!; try done. unfold panel_tls. destruct (String.eqb_spec (sc_TLSCertFile c) "") as [E0|]; [|done]. by rewrite E0 in Ec.
  - exists new. rewrite E in En. split; [done|]. intros s Hs. by apply (proj1 (Forall_forall _ _) Hf _ Hs).
Qed.

(** *** A start that succeeds *)

Lemma count_where_pos {V} (P : string -> V -> bool) t : 0 < count_where P t -> exists k r, t !! k = Some r /\ P k r = true.
Proof using Type.
  unfold count_where. destruct (select P t) as [|[k r] l] eqn:E; [done|]. intros _. exists k, r.
  apply elem_of_select. rewrite E. left.
Qed.

Definition has_admin (db : DB) : Prop :=
  exists k u, users db !! k = Some u /\ u_role u = RAdmin /\ u_status u <> UDeleted.

Lemma EnsureAdmin_admin (app : Env) v password v' : @EnsureAdmin app v = (Ok password, v') -> has_admin (w_db v').
Proof using Type.
  unfold EnsureAdmin. intros (count & v1 & (_ & -> & ->)%query_Ok & E)%bind_Ok.
  destruct (Z.ltb_spec 0 (count_where (fun _ u => (u_role u == RAdmin) && (u_status u != UDeleted)) (users (w_db v)))) as [Hc|Hc].
  - injection E as <- <-. apply count_where_pos in Hc as (k & u & Hk & [Hr Hs]%andb_true_iff).
    exists k, u. apply bool_decide_eq_true in Hr. apply negb_true_iff, bool_decide_eq_false in Hs. done.
  - do 5 (apply bind_Ok in E as (? & ? & _ & E)). apply bind_Ok in E as ([ct nonce] & v2 & _ & E).
    apply bind_Ok in E as (? & v3 & (_ & db3 & E3 & ->)%exec_checked_Ok & E).
    apply bind_Ok in E as (? & ? & [-> ->]%newID_Ok & E).
    apply bind_Ok in E as (? & ? & (_ & db4 & E4 & ->)%exec_checked_Ok & [= _ <-]). cbn [w_db step] in *.
    assert (users db4 = users db3) as Eu.
    { unfold insert_frp_credential in E4. repeat (apply reject_Ok in E4 as [_ E4]). by injection E4 as <-. }
    unfold insert_user in E3. repeat (apply reject_Ok in E3 as [_ E3]). injection E3 as <-.
    unfold has_admin. rewrite Eu. do 2 eexists. split; [apply lookup_insert_eq|]. done.
Qed.

(** What stays once the database is open and has an administrator. *)
Definition stays (w w' : Panel) : Prop :=
  db_versions (cn_db (pn_conn w')) = db_versions (cn_db (pn_conn w)) /\
  (has_admin (db_tables (cn_db (pn_conn w))) -> has_admin (db_tables (cn_db (pn_conn w')))).
#[local] Instance stays_preorder : PreOrder stays.
Proof. split; unfold stays; [done|]. intros w1 w2 w3 [] []. split; [congruence|auto]. Qed.

Lemma stays_event e : moves stays (event e).
Proof. done. Qed.
Lemma stays_tick n : moves stays (tick n).
Proof. done. Qed.
Lemma stays_certificates l : moves stays (set_certificates l).
Proof. done. Qed.
Lemma stays_service {A} (app : Env) (m : M A) : (forall v, has_admin (w_db v) -> has_admin (w_db (snd (m v)))) -> moves stays (on_service m).
Proof. intros Hm w. unfold on_service. specialize (Hm (world_of (pn_conn w))). destruct (m _) as [r v]. split; [done|exact Hm]. Qed.
Lemma stays_logged {A} what (m : PS A) : moves stays m -> moves stays (or_logged what m).
Proof. intros Hm w. specialize (Hm w). unfold or_logged. by destruct (m w) as [[a|e] w1]. Qed.
#[local] Hint Resolve stays_event stays_tick stays_certificates : moves.

Lemma stays_snapshot (app : Env) : moves stays (on_service (@EnqueueRouterSnapshot app)).
Proof.
  apply (stays_service app). intros v Hv. revert v Hv. change (preserves has_admin (@EnqueueRouterSnapshot app)).
  unfold EnqueueRouterSnapshot, Enqueue. preserve. unfold insert_job_or_ignore. by destruct (_ || _).
Qed.
Lemma stays_routers (app : Env) : moves stays (on_service (@RouterCertificates app _)).
Proof.
  apply (stays_service app). intros v Hv. destruct (RouterCertificates v) as [r v1] eqn:E. cbn [snd].
  assert (moves (@db_same) (@RouterCertificates app _)) as Hm by apply RouterCertificates_same.
  specialize (Hm v). rewrite E in Hm. unfold db_same in Hm. cbn [snd] in Hm. by rewrite Hm.
Qed.

Lemma stays_start_router c app secrets : moves stays (start_router c app secrets).
Proof. pose proof stays_routers. unfold start_router, first_certificates, serve. repeat move_step. Qed.

(** The database is ready: every migration is recorded, and there is an administrator. *)
Definition ready (w : Panel) : Prop :=
  (forall entry, entry ∈ pe_migrations -> settled_entry entry (cn_db (pn_conn w))) /\ has_admin (db_tables (cn_db (pn_conn w))).
Definition migrated (w : Panel) : Prop := forall entry, entry ∈ pe_migrations -> settled_entry entry (cn_db (pn_conn w)).

Lemma stays_migrated w w' : stays w w' -> migrated w -> migrated w'.
Proof. intros [Hv _] Hm entry Hin. specialize (Hm entry Hin). unfold settled_entry in *. destruct (version_of entry.1); [|done]. by rewrite Hv. Qed.
Lemma stays_ready w w' : stays w w' -> ready w -> ready w'.
Proof. intros Hs [Hm Ha]. split; [by apply (stays_migrated w)|by apply Hs]. Qed.

Lemma stays_hoare {A} (P : Panel -> Prop) (m : PS A) : (forall w w', stays w w' -> P w -> P w') -> moves stays m -> hoare P m (fun _ => P) (fun _ => True).
Proof. intros HP Hm w Hw. specialize (Hm w). destruct (m w) as [[a|e] w1]; [|done]. by eapply HP. Qed.

Lemma serve_all_ready c app secrets : hoare migrated (serve_all c app secrets) (fun _ => ready) (fun _ => True).
Proof.
  unfold serve_all. pose proof stays_snapshot. pose proof stays_start_router.
  eapply hoare_bind; [apply stays_hoare; [apply stays_migrated|unfold acme_provider; repeat move_step]|intros ?].
  apply (hoare_bind _ _ (fun _ => ready)).
  { intros w Hw. unfold or_logged, on_service. destruct (EnsureAdmin _) as [[password|e] v] eqn:E; [|done]. split.
    - intros entry Hin. exact (Hw entry Hin).
    - by apply EnsureAdmin_admin in E. }
  intros password. apply stays_hoare; [apply stays_ready|]. destruct (String.eqb password ""); repeat move_step;
    unfold start_panel, serve, shutdown; repeat move_step.
Qed.

Lemma with_frps_ready c app secrets : hoare migrated (@with_frps base _ _ c (serve_all c app secrets)) (fun _ => ready) (fun _ => True).
Proof.
  unfold with_frps. destruct (_ && _); [apply serve_all_ready|].
  eapply hoare_bind; [apply stays_hoare; [apply stays_migrated|apply stays_tick]|intros n]. destruct (Start n _) as [process|e].
  2: { intros w Hw. done. }
  eapply hoare_bind; [apply stays_hoare; [apply stays_migrated|apply stays_event]|intros ?].
  apply (hoare_deferred _ _ _ (fun _ => ready) (fun _ => ready) (fun _ => True) (fun _ => True)); [| |done].
  - eapply hoare_bind; [apply stays_hoare; [apply stays_migrated|apply stays_event]|intros ?]. apply serve_all_ready.
  - intros ? w Hw. unfold mbind, M_bind, bind. cbn. destruct (Stop _ process); exact Hw.
Qed.

Lemma migrated_conn w u w' : on_conn (Open pe_fault pe_migrations pe_new_id) w = (Ok u, w') -> migrated w'.
Proof.
  unfold on_conn. destruct (Open _ _ _ (pn_conn w)) as [[[]|e] cn] eqn:E; [|done]. intros [= _ <-] entry Hin.
  by eapply Open_settles.
Qed.

Lemma or_logged_Ok {A} what (m : PS A) w a w' : or_logged what m w = (Ok a, w') -> m w = (Ok a, w').
Proof. unfold or_logged. by destruct (m w) as [[]]. Qed.

Definition wants_frps (c : ServerConfig) : bool :=
  negb (String.eqb (sc_FRPSBinary c) "" && String.eqb (sc_FRPSBinarySHA256 c) "" && String.eqb (sc_FRPSConfigPath c) "").

(** The binary has the digest it is expected to have. *)
Definition verified (c : ServerConfig) : Prop := exists n content,
  fr_read n (sc_FRPSBinary c) = Ok content /\
  EqualFold (hex_encode (fr_sha256 content)) (TrimSpace (sc_FRPSBinarySHA256 c)) = true.

Lemma with_frps_verified {A} c (rest : PS A) w a w' : with_frps c rest w = (Ok a, w') -> wants_frps c = true -> verified c.
Proof.
  unfold with_frps, wants_frps. destruct (_ && _); [done|]. intros (n & w1 & _ & E)%bind_Ok _.
  destruct (Start n _) as [process|e] eqn:Es; [|by apply bind_Ok in E as (? & ? & _ & E)].
  unfold Start in Es. destruct (VerifyBinary n _ _) as [u|e] eqn:Ev; [|done]. unfold VerifyBinary in Ev. cbn in Ev.
  destruct (_ || _); [done|]. destruct (fr_read n _) as [content|e] eqn:Er; [|done]. destruct (EqualFold _ _) eqn:Ee; [|done].
  by exists n, content.
Qed.

Definition no_listener (e : PanelEvent) : Prop :=
  match e with Started (SPanel _ _) | Started (SRouter _ _) => False | _ => True end.
Definition unserved (w0 w : Panel) : Prop := adds no_listener w0 w.
Lemma unserved_hoare {A} w0 (m : PS A) : moves (adds no_listener) m -> hoare (unserved w0) m (fun _ => unserved w0) (unserved w0).
Proof. intros Hm w Hw. specialize (Hm w). destruct (m w) as [[a|e] w1]; (etrans; [exact Hw|exact Hm]). Qed.
Lemma unserved_leads w0 (m : PS unit) : moves (adds no_listener) m -> leads (unserved w0) (unserved w0) m.
Proof. intros Hm w Hw. etrans; [exact Hw|apply Hm]. Qed.

Lemma shutdown_ok c w : exists w', shutdown c w = (Ok tt, w').
Proof. unfold shutdown, mbind, M_bind, bind. cbn. destruct (String.eqb _ _); cbn; by eexists. Qed.

Lemma start_router_fails c app secrets w e w' : start_router c app secrets w = (Err e, w') -> adds no_listener w w'.
Proof.
  unfold start_router. destruct (String.eqb _ _); [done|]. destruct (NewRuntime _ _ _ _) as [rt|err].
  - unfold first_certificates, serve, mbind, M_bind, bind, attempt. destruct (sc_RouterTLSEnabled c); cbn;
      [destruct (on_service _ _) as [[t|e1] w1]; cbn|]; by case_match.
  - intros [= _ <-]. exists [Logged "router_runtime"%string]. split; [done|]. by repeat constructor.
Qed.

Lemma serve_all_unserved w0 c app secrets : hoare (unserved w0) (serve_all c app secrets) (fun _ _ => True) (unserved w0).
Proof.
  unfold serve_all. eapply hoare_bind; [apply unserved_hoare; unfold acme_provider; repeat add_step; done|intros ?].
  eapply hoare_bind; [apply unserved_hoare; repeat add_step; done|intros password].
  eapply hoare_bind; [apply unserved_hoare; destruct (String.eqb password ""); repeat add_step; done|intros ?].
  apply (hoare_deferred _ _ _ (fun _ _ => True) (fun _ _ => True) (unserved w0)); [|done|apply unserved_leads; by apply adds_event].
  eapply hoare_bind; [apply unserved_hoare; repeat add_step; done|intros r].
  eapply hoare_bind; [apply unserved_hoare; destruct r; repeat add_step; done|intros ?].
  eapply hoare_bind; [apply unserved_hoare; repeat add_step; done|intros ?].
  intros w Hw. unfold mbind at 1, M_bind at 1, bind at 1. destruct (start_router c app secrets w) as [[u|e] w1] eqn:E.
  - destruct (start_panel_ok c w1) as [w2 E2]. destruct (shutdown_ok c w2) as [w3 E3]. by rewrite (bind_run _ _ _ _ _ E2), E3.
  - etrans; [exact Hw|]. by eapply start_router_fails.
Qed.

Lemma with_frps_unserved w0 c app secrets : hoare (unserved w0) (@with_frps base _ _ c (serve_all c app secrets)) (fun _ _ => True) (unserved w0).
Proof.
  unfold with_frps. destruct (_ && _); [apply serve_all_unserved|].
  eapply hoare_bind; [apply unserved_hoare; repeat add_step; done|intros n]. destruct (Start n _) as [process|e].
  2: { eapply hoare_bind; [apply unserved_hoare; repeat add_step; done|intros ?; by apply hoare_fail]. }
  eapply hoare_bind; [apply unserved_hoare; repeat add_step; done|intros ?].
  apply (hoare_deferred _ _ _ (fun _ _ => True) (fun _ _ => True) (unserved w0)); [|done|].
  - eapply hoare_bind; [apply unserved_hoare; repeat add_step; done|intros ?]. apply serve_all_unserved.
  - apply unserved_leads. repeat add_step; done.
Qed.

(** C11: What serves is ready, and what is not ready does not serve.  A start that fails,
    at whatever step, has opened no listener.  When it does not fail, the database the
    server ran on has every migration recorded and an administrator who is not
    deleted, and an FRPS that was asked for ran from a file with the expected
    digest. *)
Theorem serves_only_when_ready c w r w' :
  run c w = (r, w') ->
  match r with
  | Ok _ => ready w' /\ (wants_frps c = true -> verified c)
  | Err _ => exists new, pn_log w' = (new ++ pn_log w)%list /\ Forall no_listener new
  end.
Proof.
  intros E. destruct r as [u|e].
  - unfold run in E. do 2 (apply bind_Ok in E as (? & ? & _ & E)).
    apply bind_Ok in E as (secret & ? & _ & E). apply bind_Ok in E as (secrets & ? & _ & E). apply bind_Ok in E as (? & w5 & E5 & E).
    apply or_logged_Ok, migrated_conn in E5. apply bind_Ok in E as (? & w5' & E6 & E).
    assert (migrated w5') as E7 by (by injection E6 as _ <-). apply deferred_Ok in E as (w7 & E & ->). split.
    + pose proof (with_frps_ready c (service_New c secret secrets) secrets w5' E7) as Hr.
      rewrite E in Hr. exact Hr.
    + by eapply with_frps_verified.
  - assert (hoare (unserved w) (run c) (fun _ _ => True) (unserved w)) as Hr.
    { unfold run. eapply hoare_bind; [apply unserved_hoare; unfold require_secure; repeat add_step; done|intros ?].
      do 5 (eapply hoare_bind; [apply unserved_hoare; repeat add_step; done|intros ?]).
      apply (hoare_deferred _ _ _ (fun _ _ => True) (fun _ _ => True) (unserved w)); [apply with_frps_unserved|done|].
      apply unserved_leads. by apply adds_event. }
    specialize (Hr w). rewrite E in Hr. apply Hr. by exists [].
Qed.
End Lifetimes.
