(* ===== verification/ServerViews.v ===== *)
(** What the server answers: the texts of the enumerated columns, the dashboard,
    and the JSON documents of the views, field by field as the struct tags of
    [server/internal/service/service.go] and the maps of the handlers name
    them. *)

From S2P Require Import Prelude StateError GoText GoPath GoNet GoJson GoJsonRead GoHttp Timestamps GoTime Schema Effects Logic Validation Store Sessions Mappings Domains Apply Users Operations Router RouterControl.
From Stdlib Require Import Ascii String.
Open Scope Z_scope.

(** ** Enumerations *)

Definition channel_text (c : Channel) : string :=
  match c with AdminPanel => "admin_panel" | ClientPanel => "client_panel" end.
Definition lifecycle_text (l : Lifecycle) : string :=
  match l with
  | LReserved => "reserved" | LPendingApply => "pending_apply" | LRunning => "running" | LOffline => "offline"
  | LConfigError => "config_error" | LDisabled => "disabled" | LDeleting => "deleting" | LDeleted => "deleted"
  end.
Definition desired_text (d : DesiredState) : string := match d with DEnabled => "enabled" | DDisabled => "disabled" end.
Definition observed_text (o : Observed) : string := match o with ObOffline => "offline" | ObRunning => "running" end.
Definition dns_type_text (t : DnsType) : string := match t with DnsA => "A" | DnsAAAA => "AAAA" | DnsCNAME => "CNAME" end.
Definition domain_status_text (s : DomainStatus) : string :=
  match s with
  | DsReserved => "reserved" | DsPendingDns => "pending_dns" | DsPendingClient => "pending_client"
  | DsPendingCertificate => "pending_certificate" | DsPendingRouter => "pending_router" | DsActive => "active"
  | DsOffline => "offline" | DsDnsError => "dns_error" | DsCertificateError => "certificate_error"
  | DsRouterError => "router_error" | DsDeleting => "deleting" | DsDeleted => "deleted"
  end.
Definition token_status_text (s : TokenStatus) : string :=
  match s with
  | TkMissing => "missing" | TkPending => "pending" | TkValid => "valid" | TkInvalid => "invalid"
  | TkPermissionDenied => "permission_denied" | TkRetired => "retired"
  end.
Definition op_status_text (s : OpStatus) : string :=
  match s with
  | OpPending => "pending" | OpRunning => "running" | OpSucceeded => "succeeded" | OpFailed => "failed"
  | OpCanceled => "canceled"
  end.

(** ** The dashboard *)

Record Counts := mkCounts { co_TotalMappings : Z; co_Running : Z; co_Pending : Z; co_Offline : Z; co_Errors : Z }.
#[export] Instance Eta_Counts : Eta Counts := fun r =>
  mkCounts r.(co_TotalMappings) r.(co_Running) r.(co_Pending) r.(co_Offline) r.(co_Errors).

Record DashboardView := mkDashboardView {
  da_User : UserSummary;
  da_DesiredConfigVersion : Z;
  da_AppliedConfigVersion : Z;
  da_ObservedClientStatus : string;
  da_FRPCredential : FRPCredentialStatus;
  da_LastHeartbeatAt : option Stamp;
  da_LastErrorCode : string;
  da_LastErrorMessage : string;
  da_Mappings : option (list MappingView);
  da_Counts : Counts
}.

Definition count_mapping (c : Counts) (m : MappingView) : Counts :=
  match mv_lifecycle m with
  | LRunning => c <| co_Running ::= Z.succ |>
  | LOffline => c <| co_Offline ::= Z.succ |>
  | LConfigError => c <| co_Errors ::= Z.succ |>
  | _ => c <| co_Pending ::= Z.succ |>
  end.

Definition count_all (l : list MappingView) : Counts :=
  fold_left count_mapping l (mkCounts (Z.of_nat (List.length l)) 0 0 0 0).

Section Dashboard.
Context `{Env}.

(** Without a row of the runtime state, or when it cannot be read, its fields
    stay empty; a list that cannot be read is [nil]. *)
Definition Dashboard (ac : AuthContext) : M DashboardView :=
  u ← query_row (fun db => users db !! ac_UserID ac);
  credential ← attempt (query_row (frp_credential_of (ac_UserID ac)));
  credential ← (match credential with
    | Ok c => ret (mkFRPCredentialStatus true (fc_secret_version c) (fc_rotated c) "active")
    | Err (ErrSql NoRows) => ret (mkFRPCredentialStatus false 0 None "missing")
    | Err e => fail e
    end);
  state ← attempt (query_row (fun db => runtime_state db !! ac_UserID ac));
  items ← attempt (ListMappings (ac_UserID ac));
  let items := match items with Ok l => Some l | Err _ => None end in
  let text (f : RuntimeState -> option string) := match state with Ok s => default ""%string (f s) | Err _ => ""%string end in
  ret {| da_User := user_summary (ac_UserID ac) u; da_DesiredConfigVersion := u_desired_config u;
         da_AppliedConfigVersion := u_applied_config u;
         da_ObservedClientStatus := text (fun s => Some (rs_observed s)); da_FRPCredential := credential;
         da_LastHeartbeatAt := match state with Ok s => rs_last_heartbeat s | Err _ => None end;
         da_LastErrorCode := text rs_last_error_code; da_LastErrorMessage := text rs_last_error_message;
         da_Mappings := items; da_Counts := count_all (default [] items) |}.
End Dashboard.

(** ** Documents *)

(** Fields with [omitempty]. *)
Definition when {A} (o : option A) (name : string) (text : A -> string) : list (string * string) :=
  match o with Some a => [(name, text a)] | None => [] end.
Definition unless_empty (name value : string) : list (string * string) :=
  if String.eqb value "" then [] else [(name, json_string value)].

(** A time, and a text column that holds one. *)
Definition json_stamp (t : Stamp) : string := json_string (RFC3339Nano t).
Definition json_opt_stamp (t : option Stamp) : string :=
  match t with Some t => json_stamp t | None => json_string "" end.

Definition json_list {A} (encode : A -> string) (l : list A) : string := ("[" ++ join "," (map encode l) ++ "]")%string.

Definition auth_json (ac : AuthContext) : string := json_object
  [("session_id", json_string (ac_SessionID ac)); ("user_id", json_string (ac_UserID ac));
   ("username", json_string (ac_Username ac)); ("role", json_string (role_text (ac_Role ac)));
   ("status", json_string (user_status_text (ac_Status ac))); ("generation", itoa (ac_Generation ac));
   ("channel", json_string (channel_text (ac_Channel ac))); ("must_change_password", json_bool (ac_MustChange ac));
   ("must_change_username", json_bool (ac_MustChangeUsername ac)); ("expires_at", json_stamp (ac_ExpiresAt ac))]%string.

Definition summary_fields (u : UserSummary) : list (string * string) :=
  [("id", json_string (us_ID u)); ("username", json_string (us_Username u));
   ("role", json_string (role_text (us_Role u))); ("status", json_string (user_status_text (us_Status u)));
   ("must_change_password", json_bool (us_MustChangePassword u));
   ("must_change_username", json_bool (us_MustChangeUsername u))]%string.

(** [requestID] is the field the handler sets. *)
Definition login_json (r : LoginResult) (requestID : string) : string := json_object
  ([("token", json_string (lr_Token r)); ("session_expires_at", json_stamp (lr_SessionExpires r))]%string
   ++ unless_empty "csrf_token" (lr_CSRFToken r)
   ++ [("user"%string, json_object (summary_fields (lr_User r)))]
   ++ unless_empty "runtime_credential" (lr_RuntimeCredential r)
   ++ unless_empty "frp_username" (lr_FRPUsername r)
   ++ unless_empty "frp_secret" (lr_FRPSecret r)
   ++ unless_empty "frps_transport_secret" (lr_FRPSTransportSecret r)
   ++ unless_empty "request_id" requestID)%list.

Definition mapping_json (v : MappingView) : string := json_object
  ([("id", json_string (mv_id v)); ("user_id", json_string (mv_user_id v)); ("name", json_string (mv_name v));
    ("proxy_type", json_string (proxy_type_text (mv_proxy_type v)));
    ("lifecycle_status", json_string (lifecycle_text (mv_lifecycle v)));
    ("desired_state", json_string (desired_text (mv_desired v)));
    ("observed_state", json_string (observed_text (mv_observed v))); ("revision", itoa (mv_revision v));
    ("local_ip", json_string (mv_local_ip v)); ("local_port", itoa (mv_local_port v))]%string
   ++ when (mv_remote_port v) "remote_port" itoa
   ++ [("created_at", json_stamp (mv_created v)); ("updated_at", json_stamp (mv_updated v))]%string)%list.

Definition domain_json (v : DomainView) : string := json_object
  [("id", json_string (dv_id v)); ("mapping_id", json_string (dv_mapping_id v));
   ("hostname", json_string (dv_hostname v)); ("normalized_domain", json_string (dv_normalized v));
   ("https_mode", json_string (https_mode_text (dv_https_mode v))); ("http_redirect", json_bool (dv_redirect v));
   ("dns_type", json_string (dns_type_text (dv_dns_type v))); ("dns_content", json_string (dv_dns_content v));
   ("dns_ttl", itoa (dv_dns_ttl v)); ("dns_proxied", json_bool (dv_dns_proxied v));
   ("dns_managed_by_panel", json_bool (dv_dns_managed v)); ("dns_adopted", json_bool (dv_dns_adopted v));
   ("status", json_string (domain_status_text (dv_status v))); ("revision", itoa (dv_revision v));
   ("created_at", json_stamp (dv_created v)); ("updated_at", json_stamp (dv_updated v))]%string.

Definition credential_json (c : FRPCredentialStatus) : string := json_object
  ([("present", json_bool (fcs_Present c)); ("secret_version", itoa (fcs_SecretVersion c))]%string
   ++ when (fcs_RotatedAt c) "rotated_at" json_stamp
   ++ [("status"%string, json_string (fcs_Status c))])%list.

Definition dashboard_json (d : DashboardView) : string := json_object
  ([("user", json_object (summary_fields (da_User d))); ("desired_config_version", itoa (da_DesiredConfigVersion d));
    ("applied_config_version", itoa (da_AppliedConfigVersion d));
    ("observed_client_status", json_string (da_ObservedClientStatus d));
    ("frp_credential", credential_json (da_FRPCredential d))]%string
   ++ when (da_LastHeartbeatAt d) "last_heartbeat_at" json_stamp
   ++ unless_empty "last_error_code" (da_LastErrorCode d)
   ++ unless_empty "last_error_message" (da_LastErrorMessage d)
   ++ [("mappings", match da_Mappings d with Some l => json_list mapping_json l | None => "null" end);
       ("counts", json_object
          [("total_mappings", itoa (co_TotalMappings (da_Counts d))); ("running", itoa (co_Running (da_Counts d)));
           ("pending", itoa (co_Pending (da_Counts d))); ("offline", itoa (co_Offline (da_Counts d)));
           ("errors", itoa (co_Errors (da_Counts d)))])]%string)%list.

Definition user_json (u : UserRecord) : string := json_object
  (summary_fields (ur_Summary u)
   ++ [("created_at", json_stamp (ur_CreatedAt u)); ("desired_config_version", itoa (ur_DesiredConfig u));
       ("applied_config_version", itoa (ur_AppliedConfig u));
       ("active_session_generation", itoa (ur_ActiveSessionGen u));
       ("frp_credential", credential_json (ur_FRPCredential u))]%string)%list.

(** Maps: the keys in their order. *)
Definition residue_json (x : ResidueView) : string := json_object
  [("created_at", json_stamp (rv_created_at x)); ("identifier", json_string (rv_identifier x));
   ("provider", json_string (rv_provider x)); ("reason", json_string (rv_reason x));
   ("resolved_at", json_opt_stamp (rv_resolved_at x)); ("resource_id", json_string (rv_resource_id x));
   ("resource_type", json_string (rv_resource_type x))]%string.

Definition operation_json (v : OperationView) : string :=
  let o := ov_row v in
  json_object
  [("compensation_status", json_string (o_compensation o)); ("created_at", json_stamp (o_created o));
   ("error_code", json_string (default ""%string (o_error_code o)));
   ("error_message", json_string (default ""%string (o_error_message o)));
   ("external_residue_count", itoa (ov_residue_count v)); ("external_residues", json_list residue_json (ov_residues v));
   ("id", json_string (ov_id v)); ("operation_type", json_string (o_op_type o)); ("phase", json_string (o_phase o));
   ("resource_id", json_string (o_resource_id o)); ("resource_type", json_string (o_resource_type o));
   ("status", json_string (op_status_text (o_status o))); ("step", json_string (o_step o));
   ("updated_at", json_stamp (o_updated o)); ("user_id", json_string (default ""%string (o_user_id o)))]%string.

Definition router_status_json (r : RouterStatusView) : string := json_object
  ([("router_config_version", itoa (rsv_ConfigVersion r)); ("router_applied_version", itoa (rsv_AppliedVersion r))]%string
   ++ when (rsv_LastGoodVersion r) "last_good_snapshot_version" itoa
   ++ unless_empty "last_good_snapshot_path" (rsv_LastGoodPath r)
   ++ unless_empty "last_good_snapshot_hash" (rsv_LastGoodHash r)
   ++ unless_empty "last_router_apply_error" (rsv_LastApplyError r)
   ++ [("snapshot_directory", json_string (rsv_SnapshotDirectory r)); ("adapter", json_string (rsv_Adapter r))]%string)%list.

Definition secret_reset_json (r : SecretReset) : string := json_object
  [("status", json_string "rotated"); ("secret_version", itoa (sr_secret_version r));
   ("session_generation", itoa (sr_session_generation r))]%string.

(** *** The snapshot

    A slice without elements is [nil], which is [null]. *)

Definition config_item_value (i : ConfigItem) : JSON := JObject
  [("custom_domains", match ci_custom_domains i with [] => JNull | l => JArray (map JString l) end);
   ("local_ip", JString (ci_local_ip i)); ("local_port", JInt (ci_local_port i));
   ("mapping_id", JString (ci_mapping_id i)); ("name", JString (ci_name i));
   ("proxy_type", JString (proxy_type_text (ci_proxy_type i)));
   ("remote_port", match ci_remote_port i with Some p => JInt p | None => JNull end);
   ("revision", JInt (ci_revision i))]%string.

Definition config_payload_value (p : ConfigPayload) : JSON := JObject
  [("frps_public_host", JString (cp_frps_public_host p)); ("frps_public_port", JInt (cp_frps_public_port p));
   ("mappings", JArray (map config_item_value (cp_mappings p)));
   ("transport_secret_ref", JString (cp_transport_secret_ref p))]%string.

Definition snapshot_value (s : ConfigSnapshot) : JSON := JObject
  [("schema_version", JString (cfs_SchemaVersion s)); ("config_version", JInt (cfs_ConfigVersion s));
   ("user_id", JString (cfs_UserID s)); ("session_generation", JInt (cfs_SessionGeneration s));
   ("issued_at", JString (RFC3339Nano (cfs_IssuedAt s))); ("expires_at", JString (RFC3339Nano (cfs_ExpiresAt s)));
   ("config_hash", JString (cfs_ConfigHash s)); ("signing_key_id", JString (cfs_SigningKeyID s));
   ("signature", JString (cfs_Signature s)); ("payload", config_payload_value (cfs_Payload s))]%string.

Definition snapshot_json `{GoFloat} (s : ConfigSnapshot) : string := json_marshal (snapshot_value s).

(** ** Stored responses

    The documents the service keeps with an idempotency key. *)
Definition response_text (r : Response) : string :=
  match r with
  | RespMapping v => mapping_json v
  | RespDomain v => domain_json v
  | RespOperation op => json_object [("operation_id", json_string op); ("status", json_string "pending")]
  | RespAction op action => json_object
      ([("action", json_string action)] ++ when op "operation_id" json_string ++ [("status", json_string "pending")])%list
  | RespOk => json_object [("ok", "true")]
  | RespSecret v => secret_reset_json v
  | RespText t => t
  end%string.
