(* ===== verification/ServerAPI.v ===== *)
(** The HTTP API of the server, the parts every request goes through
    ([server/internal/httpapi/httpapi.go]): the state of [API], replies, the
    middleware, the idempotency of writes, and the notifications that go out on
    the WebSockets.

    A request is run to its end; requests that are under way at the same time
    are counted by [sa_busy], and a WebSocket keeps its place in that count for as
    long as it is open.  The lock [writeIdempotencyMu] is held across the handler,
    so that writes with an idempotency record do not interleave. *)

From S2P Require Import Prelude StateError GoText GoPath GoNet GoUrl GoJson GoJsonRead GoHttp Timestamps GoTime Encoding RateLimit Schema Effects Logic Validation Store Jobs Sessions Backup ServerViews.
From Stdlib Require Import Ascii String.
Import Limiter.
Open Scope Z_scope.

(** ** Requests *)

(** What of an [http.Request] is read.  [sq_Header] is [r.Header.Get], [sq_Cookie]
    the value of the named cookie, [sq_Query] the parsed query, [sq_EscapedPath]
    the path as it is written in the URL; [sq_RequestID] and [sq_Auth] are the
    values the middleware puts in the context. *)
Record ServerRequest := mkServerRequest {
  sq_Method : string;
  sq_Path : string;
  sq_EscapedPath : string;
  sq_Query : gmap string (list string);
  sq_Header : string -> string;
  sq_Cookie : string -> option string;
  sq_RemoteAddr : string;
  sq_Body : string;
  sq_RequestID : string;
  sq_Auth : option AuthContext
}.
#[export] Instance Eta_ServerRequest : Eta ServerRequest := fun r =>
  mkServerRequest r.(sq_Method) r.(sq_Path) r.(sq_EscapedPath) r.(sq_Query) r.(sq_Header) r.(sq_Cookie)
    r.(sq_RemoteAddr) r.(sq_Body) r.(sq_RequestID) r.(sq_Auth).

(** [url.QueryEscape] *)
Definition query_safe (c : ascii) : bool :=
  is_digit c || in_range 65 90 c || in_range 97 122 c || existsb (Ascii.eqb c) ["-"; "_"; "."; "~"]%char.
Definition upper_hex (d : Z) : ascii := ascii_of_nat (Z.to_nat (if d <? 10 then 48 + d else 55 + d)).
Fixpoint QueryEscape (s : string) : string :=
  match s with
  | EmptyString => EmptyString
  | String c s' =>
      if query_safe c then String c (QueryEscape s')
      else if Ascii.eqb c " " then String "+" (QueryEscape s')
      else String "%" (String (upper_hex (code c / 16)) (String (upper_hex (code c mod 16)) (QueryEscape s')))
  end.

(** [url.Values.Encode]: by key. *)
Definition query_encode (q : gmap string (list string)) : string :=
  join "&" (flat_map (fun kv => map (fun v => QueryEscape (fst kv) ++ "=" ++ QueryEscape v)%string (snd kv))
    (order_by (fun a b => String.ltb (fst a) (fst b)) (map_to_list q))).

(** [r.URL.Query().Get(key)] *)
Definition query_get (q : gmap string (list string)) (key : string) : string :=
  match q !! key with Some (v :: _) => v | _ => ""%string end.

(** ** State *)

(** [wsEnvelope], with its payload encoded ([""] is none). *)
Record WsEnvelope := mkWsEnvelope {
  ev_MessageID : string;
  ev_Timestamp : Stamp;
  ev_Type : string;
  ev_Payload : string
}.

(** What of [API] changes, with the application it serves, the files beside it and
    the reply being written.  Connections are numbers; [sa_sent] is what was written on them,
    latest last; [sa_hijacked] is the connection the request under way has become,
    and that request. *)
Record ServerAPI := mkServerAPI {
  sa_world : World;
  sa_files : Files;
  sa_apiLimit : Limiter;
  sa_loginLimit : Limiter;
  sa_busy : nat;
  sa_clients : gmap string (gset nat);
  sa_sent : list (nat * WsEnvelope);
  sa_hijacked : option (nat * ServerRequest);
  sa_reply : ReplyWriter
}.
#[export] Instance Eta_ServerAPI : Eta ServerAPI := fun r =>
  mkServerAPI r.(sa_world) r.(sa_files) r.(sa_apiLimit) r.(sa_loginLimit) r.(sa_busy) r.(sa_clients) r.(sa_sent)
    r.(sa_hijacked) r.(sa_reply).

(** The settings the API reads, and what the outside answers besides [Env]: whether a message
    on a connection is written at an effect, the public half of the signing key,
    [Ed25519] signatures, the start of the process, the length of the write-ahead log. *)
Class ServerEnv := {
  sv_float :: GoFloat;
  sv_AllowedOrigins : list string;
  sv_Environment : string;
  sv_ws_written : nat -> nat -> bool;
  sv_public_key : string;
  sv_key_id : string;
  sv_sign : string -> string;
  sv_started : Stamp;
  sv_wal_bytes : nat -> Z;
  sv_backup :: BackupEnv
}.

(** A handler reports its errors in the reply; an error of the computation is a
    panic, after which [net/http] drops the connection. *)
Abbreviation HS := (ST ServerAPI string).

(** [New] *)
Definition NewServerAPI (w : World) (files : Files) : ServerAPI :=
  mkServerAPI w files (newRequestRateLimiter 600 minute) (newRequestRateLimiter 10 minute) 0 ∅ [] None no_reply.

Definition max_concurrent_requests : nat := 128.

(** ** Effects *)

Definition set_reply (f : ReplyWriter -> ReplyWriter) : HS unit := fun a => (Ok tt, a <| sa_reply ::= f |>).
Definition set_header (name value : string) : HS unit := set_reply (fun w => w <| rp_Header ::= <[name := value]> |>).

(** The first status written stays; writing a body without one writes 200. *)
Definition WriteHeader (status : Z) : HS unit :=
  set_reply (fun w => w <| rp_Status ::= fun o => match o with Some s => Some s | None => Some status end |>).
Definition Write (body : string) : HS unit :=
  WriteHeader 200;;
  set_reply (fun w => w <| rp_Body ::= fun b => (b ++ body)%string |>).
Definition add_cookie (c : SetCookie) : HS unit := set_reply (fun w => w <| rp_Cookies ::= fun l => (l ++ [c])%list |>).

Section Calls.
Context `{E : Env}.

(** The environment of a call that carries the metadata of a request. *)
Definition with_audit (m : auditRequestMetadata) : Env := {|
  env_now := env_now; env_id := env_id; env_random := env_random; env_fault := env_fault;
  env_config := env_config; env_jobs := env_jobs; env_audit := m; env_sha256 := env_sha256;
  env_hash_body := env_hash_body; env_argon2 := env_argon2; env_gcm_seal := env_gcm_seal;
  env_gcm_open := env_gcm_open; env_master_key := env_master_key; env_sql_text := env_sql_text;
  env_certificate_key := env_certificate_key; env_router_key := env_router_key;
  env_unicode := env_unicode; env_idna := env_idna |}.

Definition remoteIP (r : ServerRequest) : string := remote_host (sq_RemoteAddr r).
Definition UserAgent (r : ServerRequest) : string := sq_Header r "User-Agent".

(** [service.WithRequestMetadata], of a request whose identifier is set. *)
Definition request_metadata (r : ServerRequest) : auditRequestMetadata :=
  mkauditRequestMetadata (remoteIP r) (UserAgent r) (sq_RequestID r).

(** A computation of the service on the world of the API; a panic stays one. *)
Definition in_world {A} (m : M A) : HS (res GoErr A) := fun a =>
  let '(x, w) := m (sa_world a) in
  (match x with Err (ErrPanic text) => Err text | _ => Ok x end, a <| sa_world := w |>).

(** A call of the service with the request's context. *)
Definition serviced {A} (r : ServerRequest) (m : Env -> M A) : HS (res GoErr A) :=
  in_world (m (with_audit (request_metadata r))).

Definition time_now : HS Stamp := fun a => (Ok (env_now (w_tick (sa_world a))), a <| sa_world ::= step |>).
Definition shortID : HS string := fun a => (Ok (env_id (w_tick (sa_world a))), a <| sa_world ::= step |>).

Definition api_allow (key : string) (now : Stamp) : HS (bool * Z) := fun a =>
  let '(x, l) := allow key now (sa_apiLimit a) in (Ok x, a <| sa_apiLimit := l |>).
Definition login_allow (key : string) (now : Stamp) : HS (bool * Z) := fun a =>
  let '(x, l) := allow key now (sa_loginLimit a) in (Ok x, a <| sa_loginLimit := l |>).
Definition login_reset (key : string) : HS unit := fun a => (Ok tt, a <| sa_loginLimit ::= reset key |>).
End Calls.

(** A call of the service by the request [r]. *)
Notation "'service' r , m" := (serviced r (fun E' : Env => m)) (at level 10, r at level 9, m at level 200).

(** [authFrom]: without an authenticated caller, the zero value. *)
Definition zero_auth : AuthContext :=
  {| ac_SessionID := ""; ac_UserID := ""; ac_Username := ""; ac_Role := RUser; ac_Status := UActive;
     ac_Generation := 0; ac_Channel := ClientPanel; ac_MustChange := false; ac_MustChangeUsername := false;
     ac_ExpiresAt := 0; ac_CSRFTokenHash := ""; ac_SourceIP := ""; ac_UserAgent := ""; ac_RequestID := "" |}.
Definition authFrom (r : ServerRequest) : AuthContext := default zero_auth (sq_Auth r).

(** ** Replies *)

Section Replies.
Context `{Env} `{ServerEnv}.

(** A value with its encoding. *)
Definition writeJSON (status : Z) (encoded : string) : HS unit :=
  set_header "Content-Type" "application/json";;
  WriteHeader status;;
  Write (encoded ++ newline).

Definition unavailable : string := "服务暂时不可用，请稍后重试。".

Definition problem_json (r : ServerRequest) (status : Z) (code detail : string) : string := json_object
  [("type", json_string (problem_type code)); ("title", json_string code); ("status", itoa status);
   ("detail", json_string detail); ("instance", json_string (sq_Path r)); ("code", json_string code);
   ("request_id", json_string (sq_RequestID r))]%string.

Definition problem (r : ServerRequest) (status : Z) (code detail : string) : HS unit :=
  let detail := if 500 <=? status then unavailable else detail in
  set_header "Content-Type" "application/problem+json";;
  WriteHeader status;;
  Write (problem_json r status code detail ++ newline).

(** The input of a handler, or a problem. *)
Definition decodeJSON {A} (decode : JText -> A -> A * bool) (r : ServerRequest) (a : A) : HS (option A) :=
  match decode_body decode (sq_Body r) a with
  | Ok a' => ret (Some a')
  | Err detail => problem r 400 "INVALID_JSON" detail;; ret None
  end.

(** ** Middleware *)

Definition Next : Type := ServerRequest -> HS unit.

Definition line_breaks : list ascii := [ascii_of_nat 13; ascii_of_nat 10].

Definition requestID (next : Next) : Next := fun r =>
  let given := sq_Header r "X-Request-ID" in
  value ← (if String.eqb given "" || Nat.ltb 80 (String.length given) || ContainsAny given line_breaks
           then shortID else ret given);
  set_header "X-Request-ID" value;;
  next (r <| sq_RequestID := value |>).

Definition security_headers : list (string * string) :=
  [("Content-Security-Policy", "default-src 'self'; connect-src 'self' http://127.0.0.1:5173 http://localhost:5173; img-src 'self' data:; style-src 'self' 'unsafe-inline'; script-src 'self'");
   ("X-Content-Type-Options", "nosniff"); ("X-Frame-Options", "DENY"); ("Referrer-Policy", "no-referrer");
   ("Cache-Control", "no-store")]%string.

Definition securityHeaders (next : Next) : Next := fun r =>
  for_each security_headers (fun kv => set_header (fst kv) (snd kv));;
  next r.

Definition cors (next : Next) : Next := fun r =>
  let origin := sq_Header r "Origin" in
  (if negb (String.eqb origin "") && existsb (String.eqb origin) sv_AllowedOrigins then
     set_header "Access-Control-Allow-Origin" origin;;
     set_header "Access-Control-Allow-Credentials" "true";;
     set_header "Access-Control-Allow-Headers" "Authorization, Content-Type, Idempotency-Key, X-CSRF-Token, X-FRP-Protocol-Version, X-Request-ID";;
     set_header "Access-Control-Allow-Methods" "GET, POST, PUT, DELETE, OPTIONS"
   else ret tt);;
  if String.eqb (sq_Method r) "OPTIONS" then WriteHeader 204 else next r.

Definition too_many (r : ServerRequest) (delay : Z) (code detail : string) : HS unit :=
  set_header "Retry-After" (itoa (retry_seconds delay));;
  problem r 429 code detail.

Definition rateLimit (next : Next) : Next := fun r =>
  now ← time_now;
  verdict ← api_allow (remoteIP r) now;
  if negb (fst verdict) then too_many r (snd verdict) "RATE_LIMITED" "请求过于频繁，请稍后重试。"
  else next r.

(** The slot is given back when the handler returns: for a request that became a
    WebSocket, when that ends. *)
Definition with_slot (m : HS unit) : HS unit := fun a =>
  let '(x, a') := m (a <| sa_busy ::= S |> <| sa_hijacked := None |>) in
  (x, match sa_hijacked a' with Some _ => a' | None => a' <| sa_busy ::= pred |> end).

Definition concurrencyLimit (next : Next) : Next := fun r a =>
  if Nat.ltb (sa_busy a) max_concurrent_requests then with_slot (next r) a
  else (set_header "Retry-After" "1";;
        problem r 429 "CONCURRENCY_LIMITED" "并发请求已达到上限，请稍后重试。") a.

(** [accessLog]: two readings of the clock and a line of the log. *)
Definition accessLog (next : Next) : Next := fun r =>
  _ ← time_now;
  next r;;
  _ ← time_now;
  ret tt.

Definition loopbackOnly (next : Next) : Next := fun r =>
  match ParseIP (Trim (remoteIP r) brackets) with
  | Some ip => if IsLoopback ip then next r else problem r 404 "NOT_FOUND" "资源不存在。"
  | None => problem r 404 "NOT_FOUND" "资源不存在。"
  end.

Definition protocolV1 (next : Next) : Next := fun r =>
  let requested := TrimSpace (sq_Header r "X-FRP-Protocol-Version") in
  if negb (String.eqb requested "") && negb (String.eqb requested "v1") then
    set_header "Upgrade-Required" "v1";;
    problem r 426 "UPGRADE_REQUIRED" "HTTP API protocol version is unsupported; use v1."
  else next r.

Definition expired_code (e : GoErr) : string :=
  if Contains (error_text e) "replaced" then "SESSION_REPLACED" else "SESSION_EXPIRED".

Definition safe_method (method : string) : bool := existsb (String.eqb method) ["GET"; "HEAD"; "OPTIONS"]%string.

(** The token of a request, and whether it is its cookie. *)
Definition presented (r : ServerRequest) : string * bool :=
  let header := sq_Header r "Authorization" in
  if String.eqb header "" then
    match sq_Cookie r "frp_server_session" with
    | Some cookie => (("Bearer " ++ cookie)%string, true)
    | None => (header, false)
    end
  else (header, false).

Definition authenticate (next : Next) : Next := fun r =>
  let '(token, cookieAuth) := presented r in
  ac ← service r, Authenticate token;
  match ac with
  | Err e => problem r 401 (expired_code e) "当前会话已失效，请重新登录。"
  | Ok ac =>
      if cookieAuth && negb (safe_method (sq_Method r)) && negb (ValidateCSRF ac (sq_Header r "X-CSRF-Token"))
      then problem r 403 "CSRF_INVALID" "请求校验失败，请刷新面板。"
      else next (r <| sq_Auth := Some ac |>)
  end.

Definition requireAdmin (next : Next) : Next := fun r =>
  if ac_Role (authFrom r) != RAdmin then problem r 404 "FORBIDDEN" "资源不存在。" else next r.
End Replies.

(** ** Buffered replies *)

Section Buffered.
Context `{Env} `{ServerEnv}.

(** [newBufferedResponseWriter], and what the handler made of it. *)
Definition buffered (m : HS unit) : HS ReplyWriter := fun a =>
  let parent := sa_reply a in
  let '(x, a') := m (a <| sa_reply := mkReplyWriter (rp_Header parent) (rp_Cookies parent) None "" |>) in
  (match x with Ok _ => Ok (sa_reply a') | Err text => Err text end, a' <| sa_reply := parent |>).

Definition buffer_status (b : ReplyWriter) : Z := default 200 (rp_Status b).

(** The headers of the buffer replace those of the parent; the cookies are the
    values of one header. *)
Definition copy_headers (b : ReplyWriter) : HS unit := set_reply (fun w =>
  w <| rp_Header := rp_Header b ∪ rp_Header w |>
    <| rp_Cookies ::= fun l => match rp_Cookies b with [] => l | l' => l' end |>).

(** [writeBufferedResponse] with a body of its own. *)
Definition write_buffer (b : ReplyWriter) (body : string) : HS unit :=
  copy_headers b;;
  (if String.eqb body "" then ret tt
   else set_header "Content-Length" (itoa (Z.of_nat (String.length body))));;
  WriteHeader (buffer_status b);;
  Write body.

Definition write_method (method : string) : bool :=
  existsb (String.eqb method) ["POST"; "PUT"; "DELETE"; "PATCH"]%string.

(** A JSON object gets the identifier of the request. *)
Definition with_request_id (id body : string) : string :=
  match json_parse body with
  | Some t =>
      match to_interface t with
      | JObject fields =>
          if numbers_fit t && negb (existsb (fun kv => String.eqb (fst kv) "request_id") fields)
          then json_marshal (JObject (put_new ("request_id"%string, JString id) fields))
          else body
      | _ => body
      end
  | None => body
  end.

Definition success (status : Z) : bool := (200 <=? status) && (status <? 300).

Definition content_type (w : ReplyWriter) : string := default ""%string (rp_Header w !! "Content-Type"%string).

Definition responseMetadata (next : Next) : Next := fun r =>
  if String.eqb (sq_Path r) "/api/v1/ws" || negb (write_method (sq_Method r)) then next r
  else
    b ← buffered (next r);
    let body := rp_Body b in
    write_buffer b
      (if success (buffer_status b) && HasPrefix (content_type b) "application/json" && negb (String.eqb body "")
       then with_request_id (sq_RequestID r) body else body).

(** ** Idempotent writes *)

Definition idempotency_key (r : ServerRequest) : string := TrimSpace (sq_Header r "Idempotency-Key").

Definition requireWriteIdempotency (next : Next) : Next := fun r =>
  let length := Z.of_nat (String.length (idempotency_key r)) in
  if write_method (sq_Method r) && ((length <? 16) || (128 <? length))
  then problem r 428 "IDEMPOTENCY_KEY_REQUIRED" "所有已认证写请求必须携带 16 至 128 字符的 Idempotency-Key。"
  else next r.

(** The writes whose record the service makes within its transaction. *)
Definition serviceOwnsIdempotency (method path : string) : bool :=
  let to m := String.eqb method m in
  (String.eqb path "/api/v1/mappings" && to "POST")
  || (HasPrefix path "/api/v1/mappings/" && (to "PUT" || to "DELETE"))
  || (HasSuffix path "/toggle" && to "POST")
  || (String.eqb path "/api/v1/domains" && to "POST")
  || (HasPrefix path "/api/v1/domains/" && (to "DELETE" || HasSuffix path "/dns-action" && to "POST"))
  || (String.eqb path "/api/v1/auth/reset-frp-credential" && to "POST")
  || (HasSuffix path "/reset-frp-credential" && to "POST")
  || (HasPrefix path "/api/v1/admin/users/" && to "DELETE").

Definition normalizedIdempotencyPath (r : ServerRequest) : string :=
  let query := query_encode (sq_Query r) in
  if String.eqb query "" then sq_EscapedPath r else (sq_EscapedPath r ++ "?" ++ query)%string.

Definition hashIdempotencyBody (body : string) : string := sha256Hex body.

Definition idempotencyAAD (ac : AuthContext) (method path key : string) : string :=
  join ":" ["idempotency"; ac_UserID ac; itoa (ac_Generation ac); method; path; key]%string.

(** [encryptedIdempotencyResponse] *)
Record EncryptedResponse := mkEncryptedResponse { er_Version : Z; er_Ciphertext : string; er_Nonce : string }.

Definition decode_encrypted : Target EncryptedResponse := mkTarget (decode_struct (assign_fields [
    ("version", on_field er_Version (fun f e => mkEncryptedResponse (f (er_Version e)) (er_Ciphertext e) (er_Nonce e)) decode_int64);
    ("ciphertext", on_field er_Ciphertext (fun f e => mkEncryptedResponse (er_Version e) (f (er_Ciphertext e)) (er_Nonce e)) decode_string);
    ("nonce", on_field er_Nonce (fun f e => mkEncryptedResponse (er_Version e) (er_Ciphertext e) (f (er_Nonce e))) decode_string)]%string))
  (fun e => json_marshal (JObject
    [("version", JInt (er_Version e)); ("ciphertext", JString (er_Ciphertext e)); ("nonce", JString (er_Nonce e))]%string)).

Definition encryptIdempotencyResponse (body aad : string) : M string :=
  '(ciphertext, nonce) ← Encrypt body aad;
  ret (tg_encode decode_encrypted
    (mkEncryptedResponse 1 (b64_encode url_alphabet ciphertext) (b64_encode url_alphabet nonce))).

(** A text that is not such a document is the response itself. *)
Definition decryptIdempotencyResponse (stored aad : string) : M string :=
  match json_unmarshal decode_encrypted stored (mkEncryptedResponse 0 "" "") with
  | (e, true) =>
      if (er_Version e =? 1) && negb (String.eqb (er_Ciphertext e) "") && negb (String.eqb (er_Nonce e) "") then
        ciphertext ← or_fail (ErrMsg "illegal base64 data") (DecodeString url_alphabet (er_Ciphertext e));
        nonce ← or_fail (ErrMsg "illegal base64 data") (DecodeString url_alphabet (er_Nonce e));
        Decrypt ciphertext nonce aad
      else ret stored
  | _ => ret stored
  end.

(** The row of a reply that succeeded. *)
Definition record_response (ac : AuthContext) (method path key bodyHash : string) (status : Z) (stored : string) : M unit :=
  recordID ← newID;
  t ← now;
  t' ← now;
  exec_checked (insert_idempotency recordID
    {| i_user_id := ac_UserID ac; i_generation := ac_Generation ac; i_method := method; i_path := path; i_key := key;
       i_body_hash := bodyHash; i_status := status; i_response := RespText stored; i_operation := None;
       i_expires := t + 24 * hour; i_created := t' |}).

(** A reply is kept when it succeeded; when that fails, which is only logged, the
    reply goes out all the same. *)
Definition keep_response (r : ServerRequest) (ac : AuthContext) (path key bodyHash aad : string) (b : ReplyWriter) : HS unit :=
  if success (buffer_status b) then
    stored ← service r, encryptIdempotencyResponse (rp_Body b) aad;
    match stored with
    | Ok stored =>
        _ ← service r, record_response ac (sq_Method r) path key bodyHash (buffer_status b) stored;
        ret tt
    | Err _ => ret tt
    end
  else ret tt.

Definition replay_response (r : ServerRequest) (bodyHash aad : string) (row : Idempotency) : HS unit :=
  if negb (String.eqb (i_body_hash row) bodyHash)
  then problem r 409 "IDEMPOTENCY_KEY_REUSED" "幂等键已用于不同请求。"
  else
    body ← service r, decryptIdempotencyResponse (response_text (i_response row)) aad;
    match body with
    | Err _ => problem r 500 "IDEMPOTENCY_RESPONSE_UNAVAILABLE" "幂等响应暂时无法恢复，请联系管理员。"
    | Ok body =>
        set_header "Content-Type" "application/json";;
        WriteHeader (i_status row);;
        Write body
    end.

Definition idempotency_mw (next : Next) : Next := fun r =>
  if negb (write_method (sq_Method r)) || serviceOwnsIdempotency (sq_Method r) (sq_Path r) then next r
  else
    let ac := authFrom r in
    let key := idempotency_key r in
    if max_body <? Z.of_nat (String.length (sq_Body r))
    then problem r 413 "REQUEST_BODY_TOO_LARGE" "请求体超过允许大小。"
    else
      let path := normalizedIdempotencyPath r in
      let bodyHash := hashIdempotencyBody (sq_Body r) in
      let aad := idempotencyAAD ac (sq_Method r) path key in
      row ← service r, query_row (find_idempotency ac (sq_Method r) path key);
      match row with
      | Ok row => replay_response r bodyHash aad row
      | Err (ErrSql NoRows) =>
          b ← buffered (next r);
          keep_response r ac path key bodyHash aad b;;
          write_buffer b (rp_Body b)
      | Err _ => problem r 500 "IDEMPOTENCY_LOOKUP_FAILED" "幂等状态暂时无法读取，请稍后重试。"
      end.
End Buffered.

(** ** Notifications *)

Section Notifications.
Context `{Env} `{ServerEnv}.

(** [conn.WriteJSON]: a connection the message cannot be written on is closed and
    forgotten. *)
Definition deliver (userID : string) (conn : nat) (message : WsEnvelope) : HS unit := fun a =>
  (Ok tt,
   if sv_ws_written conn (w_tick (sa_world a)) then a <| sa_sent ::= fun l => (l ++ [(conn, message)])%list |>
   else a <| sa_clients ::= alter (.∖ {[ conn ]}) userID |>).

(** The deadline of the write reads the clock once more. *)
Definition write_to (userID messageType payload : string) (conn : nat) : HS unit :=
  id ← shortID;
  t ← time_now;
  _ ← time_now;
  deliver userID conn (mkWsEnvelope id t messageType payload).

Definition notifyUser (userID messageType payload : string) : HS unit := fun a =>
  for_each (elements (default ∅ (sa_clients a !! userID))) (write_to userID messageType payload) a.

Definition notifyConfigChanged (userID resourceType resourceID : string) : HS unit :=
  notifyUser userID "config_version_changed" (json_object
    [("force_full_sync", "true"); ("resource_id", json_string resourceID); ("resource_type", json_string resourceType)]%string).
End Notifications.
