(* ===== verification/ServerHandlers.v ===== *)
(** The handlers of the server's API for sessions, mappings, domains and
    configurations ([health] to [retryOperation] of
    [server/internal/httpapi/httpapi.go]): what each reads of the request, the
    call of the service it makes, the reply and the messages that go out. *)

From S2P Require Import Prelude StateError GoText GoPath GoNet GoUrl GoJson GoJsonRead GoHttp Timestamps GoTime Encoding RateLimit Schema Effects Logic Validation Store Jobs Sessions Mappings Domains Apply Users Operations ServerViews ServerAPI.
From Stdlib Require Import Ascii String.
Import Limiter.
Open Scope Z_scope.

(** ** Inputs *)

Record Credentials := mkCredentials { cr_Username : string; cr_Password : string }.
Record PasswordChange := mkPasswordChange { pc_CurrentPassword : string; pc_NewUsername : string; pc_NewPassword : string }.
#[export] Instance Eta_PasswordChange : Eta PasswordChange := fun r =>
  mkPasswordChange r.(pc_CurrentPassword) r.(pc_NewUsername) r.(pc_NewPassword).
Record ToggleInput := mkToggleInput {
  ti_Enabled : bool; ti_ExpectedConfigVersion : option Z; ti_ExpectedRevision : option Z }.
Record Versions := mkVersions { ve_ClientPanelVersion : string; ve_FRPCVersion : string }.

#[export] Instance Eta_LoginResult : Eta LoginResult := fun r =>
  mkLoginResult r.(lr_Token) r.(lr_SessionID) r.(lr_SessionExpires) r.(lr_CSRFToken) r.(lr_User)
    r.(lr_RuntimeCredential) r.(lr_FRPUsername) r.(lr_FRPSecret) r.(lr_FRPSTransportSecret).
#[export] Instance Eta_MappingRequest : Eta MappingRequest := fun r =>
  mkMappingRequest r.(mq_name) r.(mq_proxy_type) r.(mq_local_ip) r.(mq_local_port) r.(mq_remote_port)
    r.(mq_expected_config) r.(mq_expected_revision).
#[export] Instance Eta_DomainRequest : Eta DomainRequest := fun r =>
  mkDomainRequest r.(dq_mapping_id) r.(dq_hostname) r.(dq_https_mode) r.(dq_redirect) r.(dq_dns_type)
    r.(dq_dns_content) r.(dq_dns_ttl) r.(dq_expected_config).
#[export] Instance Eta_ApplyResultRequest : Eta ApplyResultRequest := fun r =>
  mkApplyResultRequest r.(ar_Status) r.(ar_ConfigVersion) r.(ar_AppliedConfigHash) r.(ar_ErrorCode)
    r.(ar_ErrorMessage) r.(ar_ClientPanelVersion) r.(ar_FRPCVersion).

Definition decode_bool (t : JText) (a : bool) : bool * bool :=
  match t with TBool b => (b, true) | TNull => (a, true) | _ => (a, false) end.

(** A pointer: [null] is [nil]; [zero] is what a new target holds. *)
Definition decode_pointer {A} (zero : A) (decode : JText -> A -> A * bool) (t : JText) (o : option A) : option A * bool :=
  match t with
  | TNull => (None, true)
  | _ => let '(v, ok) := decode t (default zero o) in (Some v, ok)
  end.

Section Inputs.
Context `{GoFloat} `{UnicodeTables}.

(** A body with one text field. *)
Definition decode_single (name : string) : JText -> string -> string * bool :=
  decode_struct (assign_known [(name, decode_string)]).

Definition decode_credentials : JText -> Credentials -> Credentials * bool := decode_struct (assign_known [
  ("Username", on_field cr_Username (fun f c => mkCredentials (f (cr_Username c)) (cr_Password c)) decode_string);
  ("Password", on_field cr_Password (fun f c => mkCredentials (cr_Username c) (f (cr_Password c))) decode_string)]%string).

Definition decode_password_change : JText -> PasswordChange -> PasswordChange * bool := decode_struct (assign_known [
  ("current_password", on_field pc_CurrentPassword (fun f r => r <| pc_CurrentPassword ::= f |>) decode_string);
  ("new_username", on_field pc_NewUsername (fun f r => r <| pc_NewUsername ::= f |>) decode_string);
  ("new_password", on_field pc_NewPassword (fun f r => r <| pc_NewPassword ::= f |>) decode_string)]%string).

Definition decode_mapping : JText -> MappingRequest -> MappingRequest * bool := decode_struct (assign_known [
  ("name", on_field mq_name (fun f r => r <| mq_name ::= f |>) decode_string);
  ("proxy_type", on_field mq_proxy_type (fun f r => r <| mq_proxy_type ::= f |>) decode_string);
  ("local_ip", on_field mq_local_ip (fun f r => r <| mq_local_ip ::= f |>) decode_string);
  ("local_port", on_field mq_local_port (fun f r => r <| mq_local_port ::= f |>) decode_int64);
  ("remote_port", on_field mq_remote_port (fun f r => r <| mq_remote_port ::= f |>) (decode_pointer 0 decode_int64));
  ("expected_config_version",
     on_field mq_expected_config (fun f r => r <| mq_expected_config ::= f |>) (decode_pointer 0 decode_int64));
  ("expected_revision",
     on_field mq_expected_revision (fun f r => r <| mq_expected_revision ::= f |>) (decode_pointer 0 decode_int64))]%string).

Definition decode_toggle : JText -> ToggleInput -> ToggleInput * bool := decode_struct (assign_known [
  ("enabled", on_field ti_Enabled
     (fun f i => mkToggleInput (f (ti_Enabled i)) (ti_ExpectedConfigVersion i) (ti_ExpectedRevision i)) decode_bool);
  ("expected_config_version", on_field ti_ExpectedConfigVersion
     (fun f i => mkToggleInput (ti_Enabled i) (f (ti_ExpectedConfigVersion i)) (ti_ExpectedRevision i))
     (decode_pointer 0 decode_int64));
  ("expected_revision", on_field ti_ExpectedRevision
     (fun f i => mkToggleInput (ti_Enabled i) (ti_ExpectedConfigVersion i) (f (ti_ExpectedRevision i)))
     (decode_pointer 0 decode_int64))]%string).

Definition decode_domain : JText -> DomainRequest -> DomainRequest * bool := decode_struct (assign_known [
  ("mapping_id", on_field dq_mapping_id (fun f r => r <| dq_mapping_id ::= f |>) decode_string);
  ("hostname", on_field dq_hostname (fun f r => r <| dq_hostname ::= f |>) decode_string);
  ("https_mode", on_field dq_https_mode (fun f r => r <| dq_https_mode ::= f |>) decode_string);
  ("http_redirect", on_field dq_redirect (fun f r => r <| dq_redirect ::= f |>) decode_bool);
  ("dns_type", on_field dq_dns_type (fun f r => r <| dq_dns_type ::= f |>) decode_string);
  ("dns_content", on_field dq_dns_content (fun f r => r <| dq_dns_content ::= f |>) decode_string);
  ("dns_ttl", on_field dq_dns_ttl (fun f r => r <| dq_dns_ttl ::= f |>) decode_int64);
  ("expected_config_version",
     on_field dq_expected_config (fun f r => r <| dq_expected_config ::= f |>) (decode_pointer 0 decode_int64))]%string).

Definition decode_apply_result : JText -> ApplyResultRequest -> ApplyResultRequest * bool := decode_struct (assign_known [
  ("status", on_field ar_Status (fun f r => r <| ar_Status ::= f |>) decode_string);
  ("config_version", on_field ar_ConfigVersion (fun f r => r <| ar_ConfigVersion ::= f |>) decode_int64);
  ("applied_config_hash", on_field ar_AppliedConfigHash (fun f r => r <| ar_AppliedConfigHash ::= f |>) decode_string);
  ("error_code", on_field ar_ErrorCode (fun f r => r <| ar_ErrorCode ::= f |>) decode_string);
  ("error_message", on_field ar_ErrorMessage (fun f r => r <| ar_ErrorMessage ::= f |>) decode_string);
  ("client_panel_version", on_field ar_ClientPanelVersion (fun f r => r <| ar_ClientPanelVersion ::= f |>) decode_string);
  ("frpc_version", on_field ar_FRPCVersion (fun f r => r <| ar_FRPCVersion ::= f |>) decode_string)]%string).

Definition decode_versions : JText -> Versions -> Versions * bool := decode_struct (assign_known [
  ("client_panel_version", on_field ve_ClientPanelVersion (fun f v => mkVersions (f (ve_ClientPanelVersion v)) (ve_FRPCVersion v)) decode_string);
  ("frpc_version", on_field ve_FRPCVersion (fun f v => mkVersions (ve_ClientPanelVersion v) (f (ve_FRPCVersion v))) decode_string)]%string).
End Inputs.

Definition no_mapping : MappingRequest := mkMappingRequest "" "" "" 0 None None None.
Definition no_domain : DomainRequest := mkDomainRequest "" "" "" false "" "" 0 None.
Definition no_result : ApplyResultRequest := mkApplyResultRequest "" 0 "" "" "" "" "".

(** ** What handlers share *)

Section Handlers.
Context `{Env} `{ServerEnv}.

(** The rest of a handler, with the input or the result of a call. *)
Definition with_input {A} (decode : JText -> A -> A * bool) (zero : A) (r : ServerRequest) (k : A -> HS unit) : HS unit :=
  input ← decodeJSON decode r zero;
  match input with Some i => k i | None => ret tt end.

Definition or_else {A} (x : res GoErr A) (bad : GoErr -> HS unit) (k : A -> HS unit) : HS unit :=
  match x with Ok a => k a | Err e => bad e end.

Definition ok_json : string := json_object [("ok", "true")]%string.

Definition mapping_problem_of (e : GoErr) : Z * string * string :=
  if Contains (error_text e) "quota exceeded" then
    (429, "QUOTA_EXCEEDED", "当前资源或待处理任务已达到配额，请等待现有任务完成或联系管理员。")
  else match e with
  | ErrNotFound => (404, "NOT_FOUND", "资源不存在。")
  | ErrPortReserved => (409, "PORT_ALREADY_RESERVED", "远程端口已被占用。")
  | ErrConfigConflict => (409, "CONFIG_VERSION_CONFLICT", "配置已发生变化，请刷新后重试。")
  | ErrRevisionConflict => (409, "RESOURCE_REVISION_CONFLICT", "资源 Revision 已发生变化，请刷新后重试。")
  | ErrIdempotencyReuse => (409, "IDEMPOTENCY_KEY_REUSED", "幂等键已用于不同请求。")
  | ErrForbidden => (403, "FORBIDDEN", "没有访问权限。")
  | _ => (400, "VALIDATION_FAILED", "请求未通过校验。")
  end%string.

Definition mappingProblem (r : ServerRequest) (e : GoErr) : HS unit :=
  let '(status, code, detail) := mapping_problem_of e in problem r status code detail.

(** A caller who must change password or name first is refused. *)
Definition mustChange (r : ServerRequest) (k : HS unit) : HS unit :=
  let ac := authFrom r in
  if (ac_MustChange ac || ac_MustChangeUsername ac) && negb (String.eqb (sq_Path r) "/api/v1/auth/change-password")
  then problem r 403 "AUTH_PASSWORD_CHANGE_REQUIRED" "首次登录必须先修改密码。"
  else k.

Definition page_number (r : ServerRequest) (key : string) (zero : Z) : Z :=
  match Atoi (TrimSpace (query_get (sq_Query r) key)) with
  | Some v => if 0 <? v then v else zero
  | None => zero
  end.

Definition pageParams (r : ServerRequest) : Z * Z :=
  (page_number r "page" 1, Z.min 200 (page_number r "page_size" 50)).

(** The key as it stands in the header. *)
Definition sent_key (r : ServerRequest) : string := sq_Header r "Idempotency-Key".

Definition requireReauthTicket (r : ServerRequest) (ticket : string) (k : HS unit) : HS unit :=
  x ← service r, RequireReauthTicket (authFrom r) ticket;
  or_else x (fun _ => problem r 401 "AUTH_REAUTH_REQUIRED" "敏感操作需要先完成二次认证。") (fun _ => k).

(** A page of a list. *)
Definition page_json (items : string) (info : PageInfo) : string := json_object
  [("items", items); ("page", itoa (pi_Page info)); ("page_size", itoa (pi_PageSize info));
   ("total", itoa (pi_Total info))]%string.

Definition status_message (status message : string) : string := json_object
  [("message", json_string message); ("status", json_string status)]%string.

Definition pending_operation (opID : string) : string := json_object
  [("operation_id", json_string opID); ("status", json_string "pending")]%string.

(** ** State of the service *)

Definition health (r : ServerRequest) : HS unit :=
  writeJSON 200 (json_object [("service", json_string "frp-panel-server"); ("started_at", json_stamp sv_started);
    ("status", json_string "ok")]%string).

(** A number that cannot be read stays 0. *)
Definition counted (q : DB -> Z) : HS Z :=
  n ← in_world (query q);
  ret (match n with Ok v => v | Err _ => 0 end).

(** A statement that reads SQLite's clock. *)
Definition counted_now (q : Stamp -> DB -> Z) : HS Z := fun a => counted (q (env_now (w_tick (sa_world a)))) a.

(** The size of the write-ahead log. *)
Definition wal_size : HS Z := fun a => (Ok (sv_wal_bytes (w_tick (sa_world a))), a <| sa_world ::= step |>).

(** [datetime('now')], and the comparison of a stored text with it: SQLite reads
    the clock when it runs the statement, and compares byte by byte. *)
Definition sqlite_datetime (t : Stamp) : string :=
  let s := seconds_of t in (date_text (s / day_seconds) ++ " " ++ clock_text (s mod day_seconds))%string.

Definition counts_as_session (t : Stamp) (s : Session) : bool :=
  bool_decide (s_revoked s = None) && String.ltb (sqlite_datetime t) (RFC3339Nano (s_expires s)).

(** [status LIKE 'pending_%' OR status IN ('reserved','deleting')] *)
Definition pending_domain (d : Domain) : bool :=
  match d_status d with
  | DsPendingDns | DsPendingClient | DsPendingCertificate | DsPendingRouter | DsReserved | DsDeleting => true
  | _ => false
  end.
Definition pending_certificate (c : Certificate) : bool := match c_status c with CPending | CRenewing => true | _ => false end.
Definition pending_job (j : Job) : bool := match j_status j with JPending | JRunning | JRetryWait => true | _ => false end.

Definition metrics_text (values : list (string * Z)) : string :=
  concat "" (map (fun kv => "frp_panel_" ++ fst kv ++ " " ++ itoa (snd kv) ++ newline)%string values).

Definition metrics (r : ServerRequest) : HS unit :=
  users ← counted (fun db => count_where (fun _ u => u_status u == UActive) (users db));
  mappings ← counted (fun db => count_where (fun _ m => m_lifecycle m != LDeleted) (mappings db));
  sessions ← counted_now (fun t db => count_where (fun _ s => counts_as_session t s) (sessions db));
  portLeases ← counted (fun db => count_where (fun _ _ => true) (leases db));
  pendingDomains ← counted (fun db => count_where (fun _ d => pending_domain d) (domains db));
  pendingCertificates ← counted (fun db => count_where (fun _ c => pending_certificate c) (certificates db));
  pendingJobs ← counted (fun db => count_where (fun _ j => pending_job j) (jobs db));
  routerLag ← counted (fun db => rst_config_version (router_state db) - rst_applied_version (router_state db));
  walBytes ← wal_size;
  set_header "Content-Type" "text/plain; version=0.0.4";;
  Write (metrics_text
    [("active_users", users); ("mappings", mappings); ("sessions", sessions); ("port_leases", portLeases);
     ("pending_domains", pendingDomains); ("pending_certificates", pendingCertificates); ("pending_jobs", pendingJobs);
     ("router_version_lag", routerLag); ("sqlite_wal_bytes", walBytes)]%string).

Definition ServerVersion : string := "0.1.0".
Definition ProtocolVersion : string := "v1".
Definition ConfigSchemaVersion : string := "v1".
Definition MinimumClientVersion : string := "0.1.0".
Definition LatestClientVersion : string := "0.1.0".
Definition MinimumFRPCVersion : string := "0.68.0".

Definition compatibility (r : ServerRequest) : HS unit :=
  writeJSON 200 (json_object
    [("config_schema_version", json_string ConfigSchemaVersion); ("latest_client_version", json_string LatestClientVersion);
     ("minimum_client_version", json_string MinimumClientVersion); ("minimum_frpc_version", json_string MinimumFRPCVersion);
     ("protocol_version", json_string ProtocolVersion); ("server_version", json_string ServerVersion)]%string).

(** ** Sessions *)

Definition secure_cookies : bool := String.eqb sv_Environment "production".

(** [int(time.Until(t).Seconds())] *)
Definition seconds_until (t : Stamp) : HS Z :=
  now ← time_now;
  ret (Z.quot (t - now) second).

Definition login_key (panel : string) (r : ServerRequest) (i : Credentials) : string :=
  (panel ++ "|" ++ remoteIP r ++ "|" ++ TrimSpace (cr_Username i))%string.

(** An attempt that the limit of the key lets through. *)
Definition login_attempt (r : ServerRequest) (limitKey : string) (k : HS unit) : HS unit :=
  now ← time_now;
  verdict ← login_allow limitKey now;
  if negb (fst verdict) then too_many r (snd verdict) "AUTH_RATE_LIMITED" "登录尝试过于频繁，请稍后重试。" else k.

Definition adminLogin (r : ServerRequest) : HS unit :=
  with_input decode_credentials (mkCredentials "" "") r (fun i =>
  let limitKey := login_key "admin" r i in
  login_attempt r limitKey (
  result ← service r, Login (cr_Username i) (cr_Password i) "admin_panel" (remoteIP r) (UserAgent r);
  or_else result (fun _ => problem r 401 "AUTH_INVALID_CREDENTIALS" "用户名或密码不正确。") (fun result =>
  login_reset limitKey;;
  age ← seconds_until (lr_SessionExpires result);
  add_cookie (mkSetCookie "frp_server_session" (lr_Token result) true secure_cookies age);;
  age ← seconds_until (lr_SessionExpires result);
  add_cookie (mkSetCookie "frp_server_csrf" (lr_CSRFToken result) false secure_cookies age);;
  writeJSON 200 (login_json (result <| lr_Token := ""%string |>) (sq_RequestID r))))).

Definition clientLogin (r : ServerRequest) : HS unit :=
  with_input decode_credentials (mkCredentials "" "") r (fun i =>
  let limitKey := login_key "client" r i in
  login_attempt r limitKey (
  result ← service r, Login (cr_Username i) (cr_Password i) "client_panel" (remoteIP r) (UserAgent r);
  or_else result (fun e =>
    problem r 401 (if Contains (error_text e) "disabled" then "AUTH_USER_DISABLED" else "AUTH_INVALID_CREDENTIALS")
      "用户名或密码不正确，或账号已停用。") (fun result =>
  login_reset limitKey;;
  notifyUser (us_ID (lr_User result)) "session_replaced" (json_object [("session_id", json_string (lr_SessionID result))]%string);;
  writeJSON 200 (login_json result (sq_RequestID r))))).

Definition logout (r : ServerRequest) : HS unit :=
  x ← service r, Logout (authFrom r) "USER_LOGOUT";
  or_else x (fun _ => problem r 500 "LOGOUT_FAILED" "退出登录失败。") (fun _ =>
  add_cookie (mkSetCookie "frp_server_session" "" true secure_cookies (-1));;
  add_cookie (mkSetCookie "frp_server_csrf" "" false secure_cookies (-1));;
  writeJSON 200 ok_json).

Definition changePassword (r : ServerRequest) : HS unit :=
  with_input decode_password_change (mkPasswordChange "" "" "") r (fun i =>
  x ← service r, ChangeCredentials (authFrom r) (pc_CurrentPassword i) (pc_NewUsername i) (pc_NewPassword i);
  or_else x (fun _ => problem r 400 "PASSWORD_CHANGE_FAILED" "密码修改失败，请检查当前密码和新密码要求。") (fun _ =>
  writeJSON 200 ok_json)).

Definition reauth (r : ServerRequest) : HS unit :=
  with_input (decode_single "current_password") "" r (fun password =>
  x ← service r, IssueReauthTicket (authFrom r) password;
  or_else x (fun _ => problem r 401 "AUTH_INVALID_CREDENTIALS" "当前密码不正确。") (fun tx =>
  writeJSON 200 (json_object [("expires_at", json_stamp (snd tx)); ("reauth_ticket", json_string (fst tx))]%string))).

Definition frp_reset_problem_of (e : GoErr) : Z * string * string :=
  match e with
  | ErrInvalidCredentials => (401, "AUTH_INVALID_CREDENTIALS", "当前密码不正确。")
  | ErrReauthRequired => (401, "AUTH_REAUTH_REQUIRED", "敏感操作需要先完成二次认证。")
  | ErrForbidden => (403, "FORBIDDEN", "没有权限重置该 FRP 凭证。")
  | ErrIdempotencyReuse => (409, "IDEMPOTENCY_KEY_REUSED", "幂等键已用于不同的 FRP 凭证重置请求。")
  | ErrNotFound => (404, "NOT_FOUND", "目标用户不存在。")
  | _ => (400, "FRP_SECRET_RESET_FAILED", "FRP 凭证重置失败。")
  end%string.

Definition frpResetProblem (r : ServerRequest) (e : GoErr) : HS unit :=
  let '(status, code, detail) := frp_reset_problem_of e in problem r status code detail.

Definition reason_json (reason : string) : string := json_object [("reason", json_string reason)]%string.

(** What both resets do once the ticket holds: [target] is the user in the path,
    [""] for the caller; [notified] is who is told. *)
Definition reset_credential (r : ServerRequest) (target notified ticket : string) : HS unit :=
  x ← service r, ResetFRPCredential (authFrom r) target ticket (sent_key r);
  or_else x (frpResetProblem r) (fun result =>
  notifyUser notified "frp_secret_rotated" (json_object
    [("secret_version", itoa (sr_secret_version result)); ("session_generation", itoa (sr_session_generation result))]%string);;
  notifyUser notified "shutdown_frpc" (reason_json "frp_secret_rotated");;
  writeJSON 200 (secret_reset_json result)).

Definition resetFRPCredential (r : ServerRequest) : HS unit :=
  mustChange r (with_input (decode_single "reauth_ticket") "" r (fun ticket =>
  requireReauthTicket r ticket (reset_credential r "" (ac_UserID (authFrom r)) ticket))).

Definition me (r : ServerRequest) : HS unit := writeJSON 200 (auth_json (authFrom r)).

Definition dashboard (r : ServerRequest) : HS unit :=
  x ← service r, Dashboard (authFrom r);
  or_else x (fun _ => problem r 500 "DASHBOARD_FAILED" "无法读取面板状态。") (fun out => writeJSON 200 (dashboard_json out)).

(** ** Mappings *)

Definition listMappings (r : ServerRequest) : HS unit :=
  let '(page, pageSize) := pageParams r in
  x ← service r, ListMappingsPage (ac_UserID (authFrom r)) page pageSize;
  or_else x (fun _ => problem r 500 "MAPPINGS_READ_FAILED" "无法读取映射。") (fun found =>
  let '(items, info) := found in
  version ← in_world (query_row (fun db => u_desired_config <$> users db !! ac_UserID (authFrom r)));
  writeJSON 200 (json_object
    [("config_version", itoa (match version with Ok v => v | Err _ => 0 end)); ("items", json_list mapping_json items);
     ("page", itoa (pi_Page info)); ("page_size", itoa (pi_PageSize info)); ("total", itoa (pi_Total info))]%string)).

Definition createMapping (r : ServerRequest) : HS unit :=
  mustChange r (with_input decode_mapping no_mapping r (fun input =>
  x ← service r, CreateMapping (authFrom r) input (sent_key r);
  or_else x (mappingProblem r) (fun item =>
  notifyConfigChanged (ac_UserID (authFrom r)) "mapping" (mv_id item);;
  writeJSON 201 (mapping_json item)))).

Definition updateMapping (r : ServerRequest) (id : string) : HS unit :=
  mustChange r (with_input decode_mapping no_mapping r (fun input =>
  x ← service r, UpdateMapping (authFrom r) id input (sent_key r);
  or_else x (mappingProblem r) (fun item =>
  notifyConfigChanged (ac_UserID (authFrom r)) "mapping" (mv_id item);;
  writeJSON 200 (mapping_json item)))).

(** [force] of the query *)
Definition forced (r : ServerRequest) : bool := String.eqb (query_get (sq_Query r) "force") "true".

Definition deleteMapping (r : ServerRequest) (id : string) : HS unit :=
  mustChange r (
  x ← service r, DeleteMapping (authFrom r) id (forced r) (sent_key r);
  or_else x (mappingProblem r) (fun opID =>
  notifyConfigChanged (ac_UserID (authFrom r)) "mapping" id;;
  notifyUser (ac_UserID (authFrom r)) "mapping_deleted"
    (json_object [("mapping_id", json_string id); ("operation_id", json_string opID)]%string);;
  writeJSON 202 (pending_operation opID))).

Definition toggleMapping (r : ServerRequest) (id : string) : HS unit :=
  mustChange r (with_input decode_toggle (mkToggleInput false None None) r (fun i =>
  x ← service r, ToggleMapping (authFrom r) id (ti_Enabled i)
    (mkToggleMappingOptions (ti_ExpectedConfigVersion i) (ti_ExpectedRevision i) (sent_key r));
  or_else x (mappingProblem r) (fun _ =>
  notifyConfigChanged (ac_UserID (authFrom r)) "mapping" id;;
  writeJSON 200 ok_json))).

(** ** Domains *)

Definition listDomains (r : ServerRequest) : HS unit :=
  let '(page, pageSize) := pageParams r in
  x ← service r, ListDomainsPage (ac_UserID (authFrom r)) page pageSize;
  or_else x (fun _ => problem r 500 "DOMAINS_READ_FAILED" "无法读取域名绑定。") (fun found =>
  writeJSON 200 (page_json (json_list domain_json (fst found)) (snd found))).

Definition createDomain (r : ServerRequest) : HS unit :=
  mustChange r (with_input decode_domain no_domain r (fun input =>
  x ← service r, CreateDomain (authFrom r) input (sent_key r);
  or_else x (mappingProblem r) (fun item =>
  notifyConfigChanged (ac_UserID (authFrom r)) "domain" (dv_id item);;
  writeJSON 202 (domain_json item)))).

Definition deleteDomain (r : ServerRequest) (id : string) : HS unit :=
  mustChange r (
  x ← service r, DeleteDomain (authFrom r) id (sent_key r);
  or_else x (mappingProblem r) (fun opID =>
  notifyConfigChanged (ac_UserID (authFrom r)) "domain" id;;
  writeJSON 202 (pending_operation opID))).

Definition domainDNSAction (r : ServerRequest) (id : string) : HS unit :=
  mustChange r (with_input (decode_single "action") "" r (fun action =>
  x ← service r, ResolveDomainDNS (authFrom r) id action (sent_key r);
  or_else x (mappingProblem r) (fun _ =>
  notifyConfigChanged (ac_UserID (authFrom r)) "domain" id;;
  writeJSON 202 (json_object [("action", json_string action); ("status", json_string "pending")]%string)))).

(** ** Configurations *)

(** The endpoints of a user's client. *)
Definition user_only (r : ServerRequest) (k : HS unit) : HS unit :=
  if ac_Role (authFrom r) != RUser then problem r 404 "FORBIDDEN" "资源不存在。" else k.

Definition fullConfig (r : ServerRequest) : HS unit :=
  user_only r (
  if ac_MustChange (authFrom r) || ac_MustChangeUsername (authFrom r)
  then problem r 403 "AUTH_PASSWORD_CHANGE_REQUIRED" "首次登录必须先修改密码。"
  else
    x ← service r, FullConfig snapshot_json sv_key_id sv_sign (authFrom r);
    or_else x (fun _ => problem r 500 "CONFIG_READ_FAILED" "无法生成配置快照。")
      (fun snapshot => writeJSON 200 (snapshot_json snapshot))).

Definition signingKey (r : ServerRequest) : HS unit :=
  user_only r (writeJSON 200 (json_object
    [("algorithm", json_string "Ed25519"); ("key_id", json_string sv_key_id);
     ("public_key", json_string (hex_encode sv_public_key))]%string)).

Definition applyResult (r : ServerRequest) : HS unit :=
  user_only r (with_input decode_apply_result no_result r (fun input =>
  x ← service r, ApplyResult (authFrom r) input;
  or_else x (fun e =>
    match e with
    | ErrConfigConflict => problem r 409 "CONFIG_VERSION_CONFLICT" "配置版本已变化，旧应用结果被拒绝。"
    | _ => problem r 400 "CONFIG_APPLY_FAILED" "配置应用结果未能写入。"
    end) (fun _ =>
  writeJSON 200 (json_object [("ok", "true"); ("request_id", json_string (sq_RequestID r))]%string)))).

(** The input counts whether or not it could be decoded. *)
Definition heartbeat (r : ServerRequest) : HS unit :=
  user_only r (
  _ ← decodeJSON decode_versions r (mkVersions "" "");
  let input := body_target decode_versions (sq_Body r) (mkVersions "" "") in
  x ← service r, Heartbeat (authFrom r) (ve_ClientPanelVersion input) (ve_FRPCVersion input);
  or_else x (fun _ => problem r 500 "HEARTBEAT_FAILED" "心跳写入失败。") (fun _ =>
  t ← time_now;
  writeJSON 200 (json_object [("ok", "true"); ("server_time", json_stamp t)]%string))).

(** ** Operations *)

Definition operations (r : ServerRequest) : HS unit :=
  let '(page, pageSize) := pageParams r in
  x ← service r, OperationsPage (ac_UserID (authFrom r)) (ac_Role (authFrom r) == RAdmin) page pageSize;
  or_else x (fun _ => problem r 500 "OPERATIONS_READ_FAILED" "无法读取操作记录。") (fun found =>
  writeJSON 200 (page_json (json_list operation_json (fst found)) (snd found))).

Definition retryOperation (r : ServerRequest) (id : string) : HS unit :=
  mustChange r (
  x ← service r, RetryOperation (authFrom r) id;
  or_else x (mappingProblem r) (fun _ => writeJSON 202 (pending_operation id))).
End Handlers.
