(* ===== verification/ServerAdmin.v ===== *)
(** The handlers of the server's API for Cloudflare credentials, accounts, the
    router and backups ([cloudflareStatus] to [createBackup] of
    [server/internal/httpapi/httpapi.go]). *)

From S2P Require Import Prelude StateError GoText GoPath GoNet GoUrl GoJson GoJsonRead GoHttp Timestamps GoTime Encoding RateLimit Schema Effects Logic Validation Store Jobs Sessions Mappings Domains Apply Users Operations Router RouterControl Backup ServerViews ServerAPI ServerHandlers.
From Stdlib Require Import Ascii String.
Open Scope Z_scope.

(** ** Inputs *)

(** A ticket and what it is for. *)
Record Ticketed := mkTicketed { tk_Value : string; tk_ReauthTicket : string }.

Section Admin.
Context `{Env} `{ServerEnv}.

(** A body with the field [name] and a ticket. *)
Definition decode_ticketed (name : string) : JText -> Ticketed -> Ticketed * bool := decode_struct (assign_known [
  (name, on_field tk_Value (fun f i => mkTicketed (f (tk_Value i)) (tk_ReauthTicket i)) decode_string);
  ("reauth_ticket"%string, on_field tk_ReauthTicket (fun f i => mkTicketed (tk_Value i) (f (tk_ReauthTicket i))) decode_string)]).

(** A handler that wants a ticket with its input, or only a ticket. *)
Definition ticketed (name : string) (r : ServerRequest) (k : Ticketed -> HS unit) : HS unit :=
  with_input (decode_ticketed name) (mkTicketed "" "") r (fun i => requireReauthTicket r (tk_ReauthTicket i) (k i)).
Definition with_ticket (r : ServerRequest) (k : string -> HS unit) : HS unit :=
  with_input (decode_single "reauth_ticket") "" r (fun ticket => requireReauthTicket r ticket (k ticket)).

(** ** Cloudflare *)

(** [capabilities] is what could be decoded of the stored text. *)
Definition map_json (m : option (gmap string JSON)) : string :=
  match m with
  | Some m => json_marshal (JObject (order_by (fun a b => String.ltb (fst a) (fst b)) (map_to_list m)))
  | None => "null"
  end.
Definition capabilities_json (stored : string) : string :=
  map_json (fst (json_unmarshal (mkTarget decode_map map_json) stored (Some ∅))).

Definition token_status_json (v : TokenStatusView) : string :=
  if ts_configured v then json_object
    [("capabilities", capabilities_json (ts_capabilities v)); ("configured", "true");
     ("status", json_string (token_status_text (ts_status v))); ("token_version", itoa (ts_version v));
     ("verified_at", json_opt_stamp (ts_verified v))]%string
  else json_object [("configured", "false"); ("status", json_string "missing")]%string.

Definition cloudflareStatus (r : ServerRequest) : HS unit :=
  x ← service r, CloudflareStatus (ac_UserID (authFrom r));
  or_else x (fun _ => problem r 500 "CLOUDFLARE_STATUS_FAILED" "无法读取 Cloudflare Token 状态。")
    (fun status => writeJSON 200 (token_status_json status)).

Definition cloudflareToken (r : ServerRequest) : HS unit :=
  mustChange r (ticketed "token" r (fun i =>
  x ← service r, SaveCloudflareToken (authFrom r) (tk_Value i) (tk_ReauthTicket i);
  or_else x (fun e =>
    match e with
    | ErrReauthRequired | ErrInvalidCredentials => problem r 401 "AUTH_REAUTH_REQUIRED" "敏感操作需要先完成二次认证。"
    | _ => problem r 400 "CLOUDFLARE_TOKEN_INVALID" "Cloudflare Token 未通过本地格式校验，当前 active Token 不变。"
    end) (fun _ =>
  writeJSON 202 (status_message "pending" "Token 已加密保存，等待权限验证。")))).

Definition clearCloudflare (r : ServerRequest) : HS unit :=
  with_ticket r (fun ticket =>
  x ← service r, ClearCloudflareToken (authFrom r) ticket;
  or_else x (fun e =>
    match e with
    | ErrInvalidCredentials => problem r 401 "AUTH_INVALID_CREDENTIALS" "当前管理员密码不正确。"
    | ErrReauthRequired => problem r 401 "AUTH_REAUTH_REQUIRED" "敏感操作需要先完成二次认证。"
    | _ => problem r 500 "CLOUDFLARE_TOKEN_CLEAR_FAILED" "清除 Cloudflare Token 失败。"
    end) (fun _ =>
  writeJSON 200 (status_message "missing" "Token 已清除；已有 DNS 记录不会被自动删除。"))).

(** ** Accounts *)

Definition adminUsers (r : ServerRequest) : HS unit :=
  let '(page, pageSize) := pageParams r in
  x ← service r, AdminUsersPage page pageSize;
  or_else x (fun _ => problem r 500 "USERS_READ_FAILED" "无法读取用户。") (fun found =>
  writeJSON 200 (page_json (json_list user_json (fst found)) (snd found))).

Definition shown_once : string := "只展示一次，请通过受保护渠道交付。".

Definition createUser (r : ServerRequest) : HS unit :=
  ticketed "username" r (fun i =>
  x ← service r, CreateUser (authFrom r) (tk_Value i);
  or_else x (fun _ => problem r 400 "USER_CREATE_FAILED" "用户创建失败。") (fun made =>
  writeJSON 201 (json_object [("initial_password", json_string (snd made)); ("user", user_json (fst made));
    ("warning", json_string shown_once)]%string))).

Definition deleteUser (r : ServerRequest) (id : string) : HS unit :=
  with_ticket r (fun _ =>
  x ← service r, DeleteUser (authFrom r) id (forced r) (sent_key r);
  or_else x (mappingProblem r) (fun opID =>
  notifyUser id "user_disabled" (reason_json "user_delete_requested");;
  notifyUser id "shutdown_frpc" (reason_json "user_delete_requested");;
  writeJSON 202 (json_object [("force", json_bool (forced r)); ("operation_id", json_string opID);
    ("status", json_string "pending")]%string))).

Definition setUserStatus (r : ServerRequest) (id : string) : HS unit :=
  ticketed "status" r (fun i =>
  x ← service r, SetUserStatus (authFrom r) id (tk_Value i);
  or_else x (mappingProblem r) (fun _ =>
  (if String.eqb (tk_Value i) "disabled" then notifyUser id "user_disabled" (reason_json "admin_action")
   else notifyUser id "force_full_sync" (reason_json "user_reactivated"));;
  writeJSON 200 ok_json)).

Definition resetPassword (r : ServerRequest) (id : string) : HS unit :=
  with_ticket r (fun _ =>
  x ← service r, ResetUserPassword (authFrom r) id;
  or_else x (mappingProblem r) (fun password =>
  notifyUser id "session_replaced" (reason_json "password_reset");;
  writeJSON 200 (json_object [("initial_password", json_string password); ("warning", json_string shown_once)]%string))).

Definition adminResetFRPCredential (r : ServerRequest) (id : string) : HS unit :=
  with_ticket r (fun ticket => reset_credential r id id ticket).

Definition adminOperations (r : ServerRequest) : HS unit := operations r.

Definition pending_mapping (m : Mapping) : bool := match m_lifecycle m with LReserved | LPendingApply => true | _ => false end.

Definition adminStats (r : ServerRequest) : HS unit :=
  activeUsers ← counted (fun db => count_where (fun _ u => (u_role u == RUser) && (u_status u == UActive)) (users db));
  allMappings ← counted (fun db => count_where (fun _ m => m_lifecycle m != LDeleted) (mappings db));
  pending ← counted (fun db => count_where (fun _ m => pending_mapping m) (mappings db));
  errorsCount ← counted (fun db => count_where (fun _ m => m_lifecycle m == LConfigError) (mappings db));
  now ← time_now;
  writeJSON 200 (json_object
    [("active_users", itoa activeUsers); ("errors", itoa errorsCount);
     ("frps_public_host", json_string (cfg_FRPSPublicHost env_config));
     ("frps_public_port", itoa (cfg_FRPSPublicPort env_config)); ("mappings", itoa allMappings);
     ("pending", itoa pending); ("server_uptime_seconds", itoa (Z.quot (now - sv_started) second))]%string).

(** ** Router and backups *)

Definition routerStatus (r : ServerRequest) : HS unit :=
  x ← service r, RouterStatus;
  or_else x (fun _ => problem r 500 "ROUTER_STATUS_FAILED" "无法读取 Router Snapshot 状态。")
    (fun status => writeJSON 200 (router_status_json status)).

Definition routerRebuild (r : ServerRequest) : HS unit :=
  with_ticket r (fun _ =>
  x ← service r, EnqueueRouterSnapshot;
  or_else x (fun _ => problem r 500 "ROUTER_REBUILD_FAILED" "Router Snapshot 任务无法入队。")
    (fun _ => writeJSON 202 (status_message "pending" "Router Snapshot rebuild queued."))).

(** A backup of the database and the files beside it. *)
Definition in_backup {A} (m : BK A) : HS (res string A) := fun a =>
  let '(x, w) := m (mkBackupWorld (sa_world a) (sa_files a)) in
  (Ok x, a <| sa_world := bw_world w |> <| sa_files := bw_files w |>).

Definition createBackup (r : ServerRequest) : HS unit :=
  ticketed "password" r (fun i =>
  t ← time_now;
  let file := ("backup-" ++ compact_stamp t ++ ".fppb")%string in
  let path := (cfg_DataDir env_config ++ "/backups/" ++ file)%string in
  x ← in_backup (CreateWithOptions path (tk_Value i) (cfg_DataDir env_config));
  match x with
  | Err _ => problem r 400 "BACKUP_FAILED" "加密备份创建失败。"
  | Ok _ =>
      _ ← service r, Audit (authFrom r) "backup_created" "backup" path "success" [] "";
      writeJSON 201 (json_object [("file", json_string ("backups/" ++ file)); ("status", json_string "succeeded")]%string)
  end).
End Admin.
