(* ===== verification/ServerPlugin.v ===== *)
(** The plugin endpoint FRPS asks before every login, proxy and connection
    ([frpPlugin] to [frpPluginReject] of
    [server/internal/httpapi/httpapi.go]): what it reads of a request, and the
    verdicts it passes on. *)

From S2P Require Import Prelude StateError GoText GoPath GoNet GoUrl GoJson GoJsonRead GoHttp Timestamps RateLimit Schema Effects Logic Validation Store Jobs Sessions Authorize ServerViews ServerAPI ClientToml.
From Stdlib Require Import Ascii String.
Open Scope Z_scope.

(** ** Reading the content *)

Section Reading.
Context `{GoFloat}.

Definition frpPluginMap (value : JSON) : list (string * JSON) :=
  match value with JObject fields => fields | _ => [] end.

(** [value == float64(int64(value))], with the integer.  In range that is a value
    without a fraction; out of range the conversion is the machine's, and only
    2^63 can equal a converted integer. *)
Definition integral (m e : Z) : option Z :=
  if (0 <=? e) || (m =? 0) then
    let v := m * 2 ^ e in
    if (- 2 ^ 63 <=? v) && (v <? 2 ^ 63) then Some v
    else if (v =? 2 ^ 63) && (2 ^ 63 - 512 <=? int_overflow m e) then Some (int_overflow m e)
    else None
  else None.

Definition frpPluginString (value : JSON) : string :=
  match value with
  | JString s => s
  | JNumber m e => match integral m e with Some v => itoa v | None => "" end
  | _ => ""
  end.

(** The texts of an object that are not blank. *)
Definition frpPluginStringMap (value : JSON) : gmap string string :=
  fold_left (fun result kv =>
    let s := TrimSpace (frpPluginString (snd kv)) in
    if String.eqb s "" then result else <[fst kv := s]> result) (frpPluginMap value) ∅.

Definition frpPluginStrings (value : JSON) : list string :=
  match value with
  | JArray items => base.filter (fun s => s <> ""%string) (map (fun i => TrimSpace (frpPluginString i)) items)
  | _ => []
  end.

(** [metas[key]] *)
Definition meta (metas : gmap string string) (key : string) : string := default ""%string (metas !! key).

Definition parseFRPGeneration (value : string) : option Z :=
  let parsed := TrimSpace value in
  if String.eqb parsed "" then None
  else match Atoi parsed with
       | Some g => if 0 <? g then Some g else None
       | None => None
       end.

(** [strconv.Atoi] without its error: a number out of range is cut to the range. *)
Definition Atoi_value (s : string) : Z :=
  match Atoi s with
  | Some v => v
  | None =>
      let digits d := negb (String.eqb d "") && forallb_str is_digit d in
      match s with
      | String "-" d => if digits d then - 2 ^ 63 else 0
      | String "+" d => if digits d then 2 ^ 63 - 1 else 0
      | _ => if digits s then 2 ^ 63 - 1 else 0
      end
  end.

Definition parseFRPInt (value : JSON) : Z :=
  match value with
  | JNumber m e => int_of_float m e
  | JString s => Atoi_value s
  | _ => 0
  end.

(** The user and the metadata of the login, which every other operation carries
    under [user]. *)
Definition frpPluginIdentity (operation : string) (content : gmap string JSON) : string * gmap string string :=
  let at_ key := default JNull (content !! key) in
  if String.eqb operation "Login" then (TrimSpace (frpPluginString (at_ "user")), frpPluginStringMap (at_ "metas"))%string
  else
    let user := frpPluginMap (at_ "user"%string) in
    (TrimSpace (frpPluginString (field user "user")), frpPluginStringMap (field user "metas")).
End Reading.

Definition frpVersionAtLeast (actual minimum : string) : bool :=
  match parse_version actual, parse_version minimum with
  | Some a, Some m => version_ge a m
  | _, _ => false
  end.

(** ** Verdicts *)

(** The detail each refusal of [authorizeFRP] goes with. *)
Definition denial_detail (code : string) : string :=
  let is_ c := String.eqb code c in
  if is_ "FRP_RUNTIME_CREDENTIAL_INVALID" then "FRP runtime credential is invalid."
  else if is_ "FRP_USER_CREDENTIAL_INVALID" then "User FRP credential is invalid."
  else if is_ "AUTH_USER_DISABLED" then "User is not active."
  else if is_ "SESSION_GENERATION_MISMATCH" then "Session generation is stale."
  else if is_ "SESSION_EXPIRED" then "Runtime credential has expired."
  else if is_ "FRP_OPERATION_NOT_ALLOWED" then "FRP operation is not allowed."
  else if is_ "MAPPING_NOT_FOUND" then "Mapping is not available."
  else if is_ "MAPPING_NOT_AUTHORIZED" then "Mapping is not authorized."
  else if is_ "PROXY_TYPE_NOT_ALLOWED" then "Proxy type is not authorized."
  else if is_ "RESOURCE_REVISION_CONFLICT" then "Mapping revision is stale."
  else if is_ "PORT_NOT_ALLOWED" then "Remote port is not authorized."
  else if is_ "DOMAIN_NOT_AUTHORIZED" then "Hostname is not authorized."
  else if is_ "DOMAIN_REQUIRED" then "HTTP mapping requires an authorized hostname."
  else "".

(** [frpPluginResponse] *)
Inductive PluginResponse := PluginAllow | PluginReject (reason : string).

Definition frpPluginReject (code detail : string) : PluginResponse :=
  PluginReject (TrimSpace code ++ (if String.eqb detail "" then "" else ": " ++ TrimSpace detail)).

Definition denied (code : string) : PluginResponse := frpPluginReject code (denial_detail code).

Definition plugin_json (p : PluginResponse) : string :=
  match p with
  | PluginAllow => json_object [("reject", "false"); ("unchange", "true")]
  | PluginReject reason => json_object ([("reject", "true")] ++ unless_empty "reject_reason" reason)%list
  end%string.

(** [frpPluginEnvelope]: the content as it was parsed; [None] when it is missing. *)
Record PluginEnvelope := mkPluginEnvelope { pe_Version : string; pe_Operation : string; pe_Content : option JText }.

(** The flat request of older tools. *)
Record FlatRequest := mkFlatRequest {
  fl_Operation : string; fl_Username : string; fl_RuntimeCredential : string; fl_SessionGeneration : Z;
  fl_MappingID : string; fl_MappingRevision : Z; fl_RemotePort : Z; fl_Hostname : string }.
#[export] Instance Eta_FlatRequest : Eta FlatRequest := fun r =>
  mkFlatRequest r.(fl_Operation) r.(fl_Username) r.(fl_RuntimeCredential) r.(fl_SessionGeneration)
    r.(fl_MappingID) r.(fl_MappingRevision) r.(fl_RemotePort) r.(fl_Hostname).

Section Plugin.
Context `{Env} `{ServerEnv}.

Definition decode_envelope : JText -> PluginEnvelope -> PluginEnvelope * bool := decode_struct (assign_known [
  ("version", on_field pe_Version (fun f e => mkPluginEnvelope (f (pe_Version e)) (pe_Operation e) (pe_Content e)) decode_string);
  ("op", on_field pe_Operation (fun f e => mkPluginEnvelope (pe_Version e) (f (pe_Operation e)) (pe_Content e)) decode_string);
  ("content", on_field pe_Content (fun f e => mkPluginEnvelope (pe_Version e) (pe_Operation e) (f (pe_Content e)))
     (fun t _ => (Some t, true)))]%string).

Definition decode_flat : JText -> FlatRequest -> FlatRequest * bool := decode_struct (assign_known [
  ("operation", on_field fl_Operation (fun f r => r <| fl_Operation ::= f |>) decode_string);
  ("frp_username", on_field fl_Username (fun f r => r <| fl_Username ::= f |>) decode_string);
  ("runtime_credential", on_field fl_RuntimeCredential (fun f r => r <| fl_RuntimeCredential ::= f |>) decode_string);
  ("session_generation", on_field fl_SessionGeneration (fun f r => r <| fl_SessionGeneration ::= f |>) decode_int64);
  ("mapping_id", on_field fl_MappingID (fun f r => r <| fl_MappingID ::= f |>) decode_string);
  ("mapping_revision", on_field fl_MappingRevision (fun f r => r <| fl_MappingRevision ::= f |>) decode_int64);
  ("remote_port", on_field fl_RemotePort (fun f r => r <| fl_RemotePort ::= f |>) decode_int64);
  ("hostname", on_field fl_Hostname (fun f r => r <| fl_Hostname ::= f |>) decode_string)]%string).

(** [AuthorizeFRPWithCredentials]: the answer to one question.  [authorizeFRP] never fails. *)
Definition AuthorizeFRPWithCredentials (r : ServerRequest) (q : FRPRequest) : HS Verdict :=
  v ← service r, authorizeFRP q;
  ret (match v with Ok v => v | Err _ => Denied "FRP_RUNTIME_CREDENTIAL_INVALID" end).

(** One question per hostname, until one is refused. *)
Fixpoint authorize_hostnames (r : ServerRequest) (q : FRPRequest) (hostnames : list string) : HS PluginResponse :=
  match hostnames with
  | [] => ret PluginAllow
  | h :: rest =>
      v ← AuthorizeFRPWithCredentials r
        (mkFRPRequest (fr_operation q) (fr_frpUsername q) (fr_runtimeCredential q) (fr_userFRPSecret q)
           (fr_generation q) (fr_mappingID q) (fr_mappingRevision q) (fr_remotePort q) h (fr_requestedProxyType q));
      match v with
      | Denied code => ret (denied code)
      | Allowed => authorize_hostnames r q rest
      end
  end.

(** The branch of [NewProxy]. *)
Definition authorize_new_proxy (r : ServerRequest) (content : gmap string JSON)
    (username runtimeCredential userFRPSecret : string) (generation : Z) : HS PluginResponse :=
  let at_ key := default JNull (content !! key) in
  let mappingMetas := frpPluginStringMap (at_ "metas"%string) in
  let mappingID := TrimSpace (meta mappingMetas "mapping_id") in
  match String.eqb mappingID "", parseFRPGeneration (meta mappingMetas "mapping_revision") with
  | false, Some mappingRevision =>
      let proxyName := TrimSpace (frpPluginString (at_ "proxy_name"%string)) in
      let expected := ("mapping-" ++ mappingID)%string in
      if negb (String.eqb proxyName expected) && negb (String.eqb proxyName (username ++ "." ++ expected))
      then ret (frpPluginReject "PROXY_NAME_NOT_ALLOWED" "代理名称不是平台生成的 Mapping 名称。")
      else
        let remotePort := parseFRPInt (at_ "remote_port"%string) in
        let proxyType := ToLower (TrimSpace (frpPluginString (at_ "proxy_type"%string))) in
        if String.eqb proxyType "" then ret (frpPluginReject "FRP_PROXY_TYPE_REQUIRED" "FRP 代理缺少 proxy_type。")
        else
          let hostnames := frpPluginStrings (at_ "custom_domains"%string) in
          if (String.eqb proxyType "tcp" || String.eqb proxyType "udp") && negb (Nat.eqb (List.length hostnames) 0)
          then ret (frpPluginReject "PROXY_DOMAINS_NOT_ALLOWED" "TCP/UDP 代理不能携带业务域名。")
          else
            authorize_hostnames r
              (mkFRPRequest "NewProxy" username runtimeCredential userFRPSecret generation mappingID mappingRevision
                 remotePort "" proxyType)
              (match hostnames with [] => [""%string] | l => l end)
  | _, _ => ret (frpPluginReject "FRP_MAPPING_METADATA_REQUIRED" "FRP 代理缺少 mapping_id 或 mapping_revision。")
  end.

(** What is answered to a content that is an object. *)
Definition plugin_answer (r : ServerRequest) (operation : string) (content : gmap string JSON) : HS PluginResponse :=
  if String.eqb operation "Login" &&
     negb (frpVersionAtLeast (frpPluginString (default JNull (content !! "version"%string))) "0.68.0")
  then ret (frpPluginReject "FRP_VERSION_UNSUPPORTED" "FRPC 版本低于平台要求。")
  else
    let '(username, metas) := frpPluginIdentity operation content in
    let runtimeCredential := TrimSpace (meta metas "frp_runtime_credential") in
    let userFRPSecret := TrimSpace (meta metas "frp_user_secret") in
    match parseFRPGeneration (meta metas "session_generation") with
    | Some generation =>
        if String.eqb username "" || String.eqb runtimeCredential "" || String.eqb userFRPSecret "" then
          ret (frpPluginReject "FRP_AUTHENTICATION_REQUIRED" "FRP 身份或运行时会话元数据缺失。")
        else if String.eqb operation "NewProxy" then
          authorize_new_proxy r content username runtimeCredential userFRPSecret generation
        else
          v ← AuthorizeFRPWithCredentials r
            (mkFRPRequest operation username runtimeCredential userFRPSecret generation "" 0 0 "" "");
          ret (match v with Allowed => PluginAllow | Denied code => denied code end)
    | None => ret (frpPluginReject "FRP_AUTHENTICATION_REQUIRED" "FRP 身份或运行时会话元数据缺失。")
    end.

Definition frpPluginRPC (r : ServerRequest) (operation : string) : HS unit :=
  let version := TrimSpace (query_get (sq_Query r) "version") in
  if negb (String.eqb version "") && negb (String.eqb version "0.1.0")
  then problem r 400 "FRP_PLUGIN_VERSION_UNSUPPORTED" "FRP 插件协议版本不受支持。"
  else
    envelope ← decodeJSON decode_envelope r (mkPluginEnvelope "" "" None);
    match envelope with
    | None => ret tt
    | Some envelope =>
        match pe_Content envelope with
        | None | Some TNull => problem r 400 "FRP_PLUGIN_CONTENT_REQUIRED" "FRP 插件请求缺少 content。"
        | Some t =>
            match decode_map t None with
            | (Some content, true) =>
                answer ← plugin_answer r operation content;
                writeJSON 200 (plugin_json answer)
            | _ => problem r 400 "FRP_PLUGIN_CONTENT_INVALID" "FRP 插件 content 必须是 JSON 对象。"
            end
        end
    end.

Definition frpPlugin (r : ServerRequest) : HS unit :=
  if negb (String.eqb (sq_Method r) "POST")
  then problem r 405 "METHOD_NOT_ALLOWED" "FRP 插件接口只接受 POST。"
  else
    let operation := TrimSpace (query_get (sq_Query r) "op") in
    if negb (String.eqb operation "") then frpPluginRPC r operation
    else
      input ← decodeJSON decode_flat r (mkFlatRequest "" "" "" 0 "" 0 0 "");
      match input with
      | None => ret tt
      | Some i =>
          v ← AuthorizeFRPWithCredentials r
            (mkFRPRequest (fl_Operation i) (fl_Username i) (fl_RuntimeCredential i) "" (fl_SessionGeneration i)
               (fl_MappingID i) (fl_MappingRevision i) (fl_RemotePort i) (fl_Hostname i) "");
          match v with
          | Denied code => problem r 403 code (denial_detail code)
          | Allowed => writeJSON 200 (json_object [("allowed", "true")]%string)
          end
      end.
End Plugin.
