(* ===== verification/ServerHTTP.v ===== *)
(** The server's API as a whole ([routeTree], [websocket] and [writeWS] of
    [server/internal/httpapi/httpapi.go]): the routes with the middleware they go
    through, the life of a WebSocket, and the table of routes the command
    [route-manifest] prints.

    A request that becomes a WebSocket does not return until that ends; what the
    other side sends, and the end, are events of their own, so that other requests
    come between. *)

From S2P Require Import Prelude StateError GoText GoPath GoNet GoUrl GoJson GoJsonRead GoHttp Timestamps GoTime Encoding RateLimit Schema Effects Logic Validation Store Jobs Sessions Mappings Domains Apply Authorize Users Operations Backup ServerViews ServerAPI ServerHandlers ServerAdmin ServerPlugin.
From Stdlib Require Import Ascii String.
Open Scope Z_scope.

(** ** Routes *)

(** The static pages, which [net/http] serves from the web directory. *)
Inductive StaticPage := IndexPage | Assets | FaviconIco | FaviconSvg.

Inductive Endpoint :=
| EpHealth | EpMetrics | EpStatic (page : StaticPage) | EpPlugin
| EpCompatibility | EpAdminLogin | EpClientLogin
| EpLogout | EpChangePassword | EpReauth | EpResetFRPCredential | EpMe | EpDashboard
| EpListMappings | EpCreateMapping | EpUpdateMapping | EpDeleteMapping | EpToggleMapping
| EpListDomains | EpCreateDomain | EpDeleteDomain | EpDomainDNSAction
| EpFullConfig | EpSigningKey | EpApplyResult | EpHeartbeat | EpOperations | EpRetryOperation
| EpCloudflareStatus | EpCloudflareToken | EpClearCloudflare | EpWebSocket
| EpAdminUsers | EpCreateUser | EpDeleteUser | EpSetUserStatus | EpResetPassword | EpAdminResetFRPCredential
| EpAdminOperations | EpAdminStats | EpRouterStatus | EpRouterRebuild | EpCreateBackup.
#[export] Instance StaticPage_eq_dec : EqDecision StaticPage.
Proof. solve_decision. Defined.
#[export] Instance Endpoint_eq_dec : EqDecision Endpoint.
Proof. solve_decision. Defined.

(** What a route goes through: nothing; the protocol and the metadata of
    responses; a session with its idempotency; the role besides. *)
Inductive Area := Root | Public | Session | Admin.
#[export] Instance Area_eq_dec : EqDecision Area.
Proof. solve_decision. Defined.

Abbreviation Route := (string * string * Area * Endpoint)%type.

Definition root_routes : list Route :=
  [("GET", "/healthz", Root, EpHealth); ("GET", "/metrics", Root, EpMetrics); ("GET", "/", Root, EpStatic IndexPage);
   ("*", "/assets/*", Root, EpStatic Assets); ("GET", "/favicon.ico", Root, EpStatic FaviconIco);
   ("*", "/favicon.svg", Root, EpStatic FaviconSvg); ("*", "/internal/frp/plugin", Root, EpPlugin);
   ("GET", "/api/v1/compatibility", Public, EpCompatibility);
   ("POST", "/api/v1/auth/admin-login", Public, EpAdminLogin);
   ("POST", "/api/v1/auth/client-login", Public, EpClientLogin)]%string.

Definition session_routes : list Route :=
  [("POST", "/api/v1/auth/logout", Session, EpLogout); ("POST", "/api/v1/auth/change-password", Session, EpChangePassword);
   ("POST", "/api/v1/auth/reauth", Session, EpReauth);
   ("POST", "/api/v1/auth/reset-frp-credential", Session, EpResetFRPCredential);
   ("GET", "/api/v1/me", Session, EpMe); ("GET", "/api/v1/dashboard", Session, EpDashboard);
   ("GET", "/api/v1/mappings", Session, EpListMappings); ("POST", "/api/v1/mappings", Session, EpCreateMapping);
   ("PUT", "/api/v1/mappings/{id}", Session, EpUpdateMapping); ("DELETE", "/api/v1/mappings/{id}", Session, EpDeleteMapping);
   ("POST", "/api/v1/mappings/{id}/toggle", Session, EpToggleMapping); ("GET", "/api/v1/domains", Session, EpListDomains);
   ("POST", "/api/v1/domains", Session, EpCreateDomain); ("DELETE", "/api/v1/domains/{id}", Session, EpDeleteDomain);
   ("POST", "/api/v1/domains/{id}/dns-action", Session, EpDomainDNSAction);
   ("GET", "/api/v1/config/full", Session, EpFullConfig); ("GET", "/api/v1/config/signing-key", Session, EpSigningKey);
   ("POST", "/api/v1/config/apply-result", Session, EpApplyResult);
   ("POST", "/api/v1/session/heartbeat", Session, EpHeartbeat); ("GET", "/api/v1/operations", Session, EpOperations);
   ("POST", "/api/v1/operations/{id}/retry", Session, EpRetryOperation);
   ("GET", "/api/v1/cloudflare/status", Admin, EpCloudflareStatus);
   ("POST", "/api/v1/cloudflare/token", Admin, EpCloudflareToken);
   ("DELETE", "/api/v1/cloudflare/token", Admin, EpClearCloudflare); ("GET", "/api/v1/ws", Session, EpWebSocket)]%string.

Definition admin_routes : list Route :=
  [("GET", "/api/v1/admin/users", Admin, EpAdminUsers); ("POST", "/api/v1/admin/users", Admin, EpCreateUser);
   ("DELETE", "/api/v1/admin/users/{id}", Admin, EpDeleteUser);
   ("POST", "/api/v1/admin/users/{id}/status", Admin, EpSetUserStatus);
   ("POST", "/api/v1/admin/users/{id}/reset-password", Admin, EpResetPassword);
   ("POST", "/api/v1/admin/users/{id}/reset-frp-credential", Admin, EpAdminResetFRPCredential);
   ("GET", "/api/v1/admin/operations", Admin, EpAdminOperations); ("GET", "/api/v1/admin/stats", Admin, EpAdminStats);
   ("GET", "/api/v1/admin/router/status", Admin, EpRouterStatus);
   ("POST", "/api/v1/admin/router/rebuild", Admin, EpRouterRebuild); ("POST", "/api/v1/admin/backups", Admin, EpCreateBackup)]%string.

Definition routes : list Route := (root_routes ++ session_routes ++ admin_routes)%list.

(** The table that the command [route-manifest] prints ([collectRoutes]): the
    methods and patterns of the API in order. *)
Definition manifest_before (a b : string * string) : bool :=
  if String.eqb a.2 b.2 then String.ltb a.1 b.1 else String.ltb a.2 b.2.
Definition collectRoutes : list (string * string) :=
  order_by manifest_before (List.filter (fun r => HasPrefix r.2 "/api/v1") (map (fun '(method, path, _, _) => (method, path)) routes)).

Example manifest_once : bool_decide (NoDup collectRoutes) = true /\ List.length collectRoutes = 39%nat.
Proof. vm_compute. done. Qed.

(** The router (chi), the file server (net/http) and the handshake (gorilla):
    the route of a request with its [id]; for a request without one, the innermost
    router its path leads to, and that router's reply; a file; a connection, or
    the reply that there is none. *)
Class ServerWeb := {
  chi_match : list Route -> ServerRequest -> option (Route * string);
  chi_within : string -> Area;
  chi_unmatched : ServerRequest -> ReplyWriter -> ReplyWriter;
  serve_file : StaticPage -> ServerRequest -> ReplyWriter -> ReplyWriter;
  ws_upgrade : ServerRequest -> nat -> res (Z * string) nat;
  ws_time_ok : string -> bool
}.

Section API.
Context `{Env} `{ServerEnv} `{ServerWeb}.

(** ** WebSockets *)

Definition send_on (conn : nat) (message : WsEnvelope) : HS unit := fun a =>
  (Ok tt, if sv_ws_written conn (w_tick (sa_world a)) then a <| sa_sent ::= fun l => (l ++ [(conn, message)])%list |> else a).

(** [writeWS], whose error nobody reads. *)
Definition writeWS (conn : nat) (messageType payload : string) : HS unit :=
  id ← shortID;
  t ← time_now;
  _ ← time_now;
  send_on conn (mkWsEnvelope id t messageType payload).

Definition requested_version (r : ServerRequest) : string :=
  let version := TrimSpace (sq_Header r "X-FRP-Protocol-Version") in
  if String.eqb version "" then TrimSpace (query_get (sq_Query r) "protocol_version") else version.

(** [CheckOrigin] *)
Definition origin_allowed (r : ServerRequest) : bool := existsb (String.eqb (sq_Header r "Origin")) sv_AllowedOrigins.

(** The handshake; a reply of its own when it fails. *)
Definition handshake (r : ServerRequest) : HS (res (Z * string) nat) := fun a =>
  (Ok (if origin_allowed r then ws_upgrade r (w_tick (sa_world a)) else Err (403, "Forbidden"%string)), a <| sa_world ::= step |>).
Definition upgrade (r : ServerRequest) : HS (option nat) :=
  x ← handshake r;
  match x with
  | Ok conn => ret (Some conn)
  | Err (status, text) =>
      set_header "Sec-Websocket-Version" "13";;
      set_header "Content-Type" "text/plain; charset=utf-8";;
      WriteHeader status;;
      Write (text ++ newline);;
      ret None
  end.

(** The connection joins those of its user. *)
Definition attach (conn : nat) (r : ServerRequest) : HS unit := fun a =>
  let userID := ac_UserID (authFrom r) in
  (Ok tt, a <| sa_clients ::= <[userID := {[conn]} ∪ default ∅ (sa_clients a !! userID)]> |>
            <| sa_hijacked := Some (conn, r) |>).

(** [websocket], up to its first wait for a message. *)
Definition websocket (r : ServerRequest) : HS unit :=
  let version := requested_version r in
  if negb (String.eqb version "") && negb (String.eqb version "v1") then
    set_header "Upgrade-Required" "v1";;
    problem r 426 "UPGRADE_REQUIRED" "WebSocket protocol version is unsupported; use v1."
  else
    conn ← upgrade r;
    match conn with
    | None => ret tt
    | Some conn =>
        attach conn r;;
        writeWS conn "connected" (json_object [("user_id", json_string (ac_UserID (authFrom r)))]%string)
    end.

(** The end of [websocket]: the connection is forgotten, and the slot given back. *)
Definition websocket_end (conn : nat) (r : ServerRequest) : HS unit := fun a =>
  let userID := ac_UserID (authFrom r) in
  let rest := default ∅ (sa_clients a !! userID) ∖ {[conn]} in
  (Ok tt, a <| sa_clients ::= (if bool_decide (rest = ∅) then delete userID else <[userID := rest]>) |> <| sa_busy ::= pred |>).

(** What of a message is read. *)
Record WsMessage := mkWsMessage { wm_ProtocolVersion : string; wm_Type : string }.

Definition decode_instant {A} (t : JText) (a : A) : A * bool :=
  match t with TString s => (a, ws_time_ok s) | TNull => (a, true) | _ => (a, false) end.

Definition message_target : Target WsMessage := mkTarget (decode_struct (assign_fields [
  ("message_id", fun t m => (m, snd (decode_string t "")));
  ("protocol_version", on_field wm_ProtocolVersion (fun f m => mkWsMessage (f (wm_ProtocolVersion m)) (wm_Type m)) decode_string);
  ("timestamp", decode_instant);
  ("type", on_field wm_Type (fun f m => mkWsMessage (wm_ProtocolVersion m) (f (wm_Type m))) decode_string);
  ("payload", fun t m => (m, numbers_fit t))]%string)) (fun _ => "null"%string).

(** One message; the answer is whether the connection goes on. *)
Definition websocket_message (conn : nat) (r : ServerRequest) (data : string) : HS bool :=
  let '(message, ok) := json_unmarshal message_target data (mkWsMessage "" "") in
  if ok && negb (String.eqb (wm_ProtocolVersion message) "v1") then
    writeWS conn "protocol_error" (json_object
      [("code", json_string "UPGRADE_REQUIRED"); ("minimum_protocol_version", json_string "v1")]%string);;
    ret false
  else if String.eqb (wm_Type message) "heartbeat" then
    x ← service r, TouchSession (authFrom r);
    match x with
    | Err _ =>
        writeWS conn "session_expired" (reason_json "session_no_longer_valid");;
        ret false
    | Ok _ =>
        t ← time_now;
        writeWS conn "heartbeat_ack" (json_object [("server_time", json_stamp t)]%string);;
        ret true
    end
  else ret true.

(** ** Handlers and middleware *)

Definition reply_with (f : ReplyWriter -> ReplyWriter) : HS unit := set_reply f.

Definition handler (e : Endpoint) (id : string) : Next :=
  match e with
  | EpHealth => health
  | EpMetrics => metrics
  | EpStatic page => fun r => reply_with (serve_file page r)
  | EpPlugin => loopbackOnly frpPlugin
  | EpCompatibility => compatibility
  | EpAdminLogin => adminLogin
  | EpClientLogin => clientLogin
  | EpLogout => logout
  | EpChangePassword => changePassword
  | EpReauth => reauth
  | EpResetFRPCredential => resetFRPCredential
  | EpMe => me
  | EpDashboard => dashboard
  | EpListMappings => listMappings
  | EpCreateMapping => createMapping
  | EpUpdateMapping => fun r => updateMapping r id
  | EpDeleteMapping => fun r => deleteMapping r id
  | EpToggleMapping => fun r => toggleMapping r id
  | EpListDomains => listDomains
  | EpCreateDomain => createDomain
  | EpDeleteDomain => fun r => deleteDomain r id
  | EpDomainDNSAction => fun r => domainDNSAction r id
  | EpFullConfig => fullConfig
  | EpSigningKey => signingKey
  | EpApplyResult => applyResult
  | EpHeartbeat => heartbeat
  | EpOperations => operations
  | EpRetryOperation => fun r => retryOperation r id
  | EpCloudflareStatus => cloudflareStatus
  | EpCloudflareToken => cloudflareToken
  | EpClearCloudflare => clearCloudflare
  | EpWebSocket => websocket
  | EpAdminUsers => adminUsers
  | EpCreateUser => createUser
  | EpDeleteUser => fun r => deleteUser r id
  | EpSetUserStatus => fun r => setUserStatus r id
  | EpResetPassword => fun r => resetPassword r id
  | EpAdminResetFRPCredential => fun r => adminResetFRPCredential r id
  | EpAdminOperations => adminOperations
  | EpAdminStats => adminStats
  | EpRouterStatus => routerStatus
  | EpRouterRebuild => routerRebuild
  | EpCreateBackup => createBackup
  end.

Definition public_area (next : Next) : Next := protocolV1 (responseMetadata next).
Definition session_area (next : Next) : Next :=
  public_area (authenticate (requireWriteIdempotency (idempotency_mw next))).

Definition within (area : Area) (next : Next) : Next :=
  match area with
  | Root => next
  | Public => public_area next
  | Session => session_area next
  | Admin => session_area (requireAdmin next)
  end.

(** The routes with a handler for each endpoint. *)
Definition dispatch (handle : Endpoint -> string -> Next) : Next := fun r =>
  match chi_match routes r with
  | Some (route, id) => within (snd (fst route)) (handle (snd route) id) r
  | None => within (chi_within (sq_Path r)) (fun r => reply_with (chi_unmatched r)) r
  end.

(** [routeTree] *)
Definition serve_with (handle : Endpoint -> string -> Next) : Next :=
  requestID (securityHeaders (cors (rateLimit (concurrencyLimit (accessLog (dispatch handle)))))).
Definition serve : Next := serve_with handler.

(** ** The server *)

(** The API with the connections that are open, each with the request it was. *)
Record Server := mkServer { sv_api : ServerAPI; sv_open : gmap nat ServerRequest }.

Inductive ServerEvent :=
| Requested (r : ServerRequest)
| Received (conn : nat) (data : string)
| Closed (conn : nat).

Definition end_connection (conn : nat) (r : ServerRequest) (s : Server) : Server :=
  mkServer (snd (websocket_end conn r (sv_api s))) (delete conn (sv_open s)).

(** What comes in.  A connection that is open is not the answer to another
    handshake; a panic ends the request, and a message of a connection that is
    not open does not arrive. *)
Definition server_step (s : Server) (e : ServerEvent) : Server :=
  match e with
  | Requested r =>
      let a := snd (serve r ((sv_api s) <| sa_reply := no_reply |> <| sa_hijacked := None |>)) in
      mkServer a (match sa_hijacked a with Some (conn, r') => <[conn := r']> (sv_open s) | None => sv_open s end)
  | Received conn data =>
      match sv_open s !! conn with
      | Some r =>
          let '(x, a) := websocket_message conn r data (sv_api s) in
          let s' := mkServer a (sv_open s) in
          match x with Ok true => s' | _ => end_connection conn r s' end
      | None => s
      end
  | Closed conn => match sv_open s !! conn with Some r => end_connection conn r s | None => s end
  end.

Definition server_run (s : Server) (l : list ServerEvent) : Server := fold_left server_step l s.
End API.
