(* ===== verification/ServerHTTPSpec.v ===== *)
(** The server's API: what a request leaves alone, slots and connections, who gets
    behind the gate, and writes that are not done twice. *)

From S2P Require Import Prelude StateError GoText GoPath GoNet GoUrl GoJson GoJsonRead GoHttp Timestamps GoTime Encoding RateLimit Schema Effects Logic Validation Store Jobs Sessions Mappings Domains Apply Authorize Users Operations Backup ServerViews ServerAPI ServerHandlers ServerAdmin ServerPlugin ServerHTTP.
From Stdlib Require Import Ascii String.
Open Scope Z_scope.

(** ** What the parts of a handler do to the rest

    A preorder [R] is calm when clocks, calls of the service, replies, messages
    and a connection that is dropped move along it. *)
Class Calm (R : ServerAPI -> ServerAPI -> Prop) := {
  calm_order :: PreOrder R;
  calm_world a w : R a (a <| sa_world := w |>);
  calm_files a x : R a (a <| sa_files := x |>);
  calm_login a x : R a (a <| sa_loginLimit := x |>);
  calm_api a x : R a (a <| sa_apiLimit := x |>);
  calm_sent a x : R a (a <| sa_sent := x |>);
  calm_drop a u c : R a (a <| sa_clients ::= alter (.∖ {[c]}) u |>);
  calm_reply a x : R a (a <| sa_reply := x |>)
}.

(** The places taken, and what the request under way has become. *)
Definition slots (a : ServerAPI) : nat * option (nat * ServerRequest) := (sa_busy a, sa_hijacked a).
#[export] Instance Calm_slots : Calm (same slots).
Proof. split; try done. typeclasses eauto. Qed.
#[export] Instance Calm_busy : Calm (same sa_busy).
Proof. split; try done. typeclasses eauto. Qed.

(** The connections of a user. *)
Definition clients_of (a : ServerAPI) (u : string) : gset nat := default ∅ (sa_clients a !! u).
Definition shrinks (a a' : ServerAPI) : Prop := forall u, clients_of a' u ⊆ clients_of a u.
#[export] Instance Calm_shrinks : Calm shrinks.
Proof.
  split; try (intros; intros ?; done).
  - split; [by intros a u|]. intros a b c H1 H2 u. etrans; [apply H2|apply H1].
  - intros a u c v. unfold clients_of. cbn. destruct (decide (u = v)) as [<-|Hne].
    + rewrite lookup_alter_eq. destruct (sa_clients a !! u) as [x|]; cbn; set_solver.
    + by rewrite lookup_alter_ne.
Qed.

Section Calm.
Context `{Env} `{ServerEnv} (R : ServerAPI -> ServerAPI -> Prop) `{Q : !Calm R}.
Abbreviation keeps := (moves R).

Lemma q_set_reply g : keeps (set_reply g).
Proof using Q. intros a. apply calm_reply. Qed.
Lemma q_in_world {A} (m : M A) : keeps (in_world m).
Proof using Q. intros a. unfold in_world. destruct (m (sa_world a)) as [x w]. apply calm_world. Qed.
Lemma q_serviced {A} r (m : Env -> M A) : keeps (serviced r m).
Proof using Q. apply q_in_world. Qed.
Lemma q_time_now : keeps time_now.
Proof using Q. intros a. apply calm_world. Qed.
Lemma q_shortID : keeps shortID.
Proof using Q. intros a. apply calm_world. Qed.
Lemma q_api_allow key now : keeps (api_allow key now).
Proof using Q. intros a. unfold api_allow. destruct (Limiter.allow _ _ _). apply calm_api. Qed.
Lemma q_login_allow key now : keeps (login_allow key now).
Proof using Q. intros a. unfold login_allow. destruct (Limiter.allow _ _ _). apply calm_login. Qed.
Lemma q_login_reset key : keeps (login_reset key).
Proof using Q. intros a. apply calm_login. Qed.
Lemma q_deliver u c m : keeps (deliver u c m).
Proof using Q. intros a. unfold deliver. destruct (sv_ws_written _ _); [apply calm_sent|apply calm_drop]. Qed.
Lemma q_send_on c m : keeps (send_on c m).
Proof using Q. intros a. unfold send_on. destruct (sv_ws_written _ _); [apply calm_sent|done]. Qed.
Lemma q_in_backup {A} (m : BK A) : keeps (in_backup m).
Proof using Q.
  intros a. unfold in_backup. destruct (m _) as [x w]. cbn [snd]. etrans; [apply calm_world|apply calm_files].
Qed.
Lemma q_counted q : keeps (counted q).
Proof using Q. unfold counted. move_step; [apply q_in_world|]. by move_step. Qed.
Lemma q_counted_now q : keeps (counted_now q).
Proof using Q. intros a. apply q_counted. Qed.
Lemma q_wal_size : keeps wal_size.
Proof using Q. intros a. apply calm_world. Qed.
End Calm.
#[export] Hint Resolve q_set_reply q_in_world q_serviced q_time_now q_shortID q_api_allow q_login_allow q_login_reset
  q_deliver q_send_on q_in_backup q_counted q_counted_now q_wal_size : moves.

Section Handlers.
Context `{Env} `{ServerEnv} (R : ServerAPI -> ServerAPI -> Prop) `{Q : !Calm R}.
Abbreviation keeps := (moves R).

Lemma q_notify u t p : keeps (notifyUser u t p).
Proof using Q.
  intros a. unfold notifyUser.
  generalize (elements (default ∅ (sa_clients a !! u))). intros l. revert a.
  change (keeps (for_each l (write_to u t p))). move_step. unfold write_to. repeat move_step.
Qed.
#[local] Hint Resolve q_notify : moves.

Ltac quiet_unfold := unfold with_ticket, ticketed, login_attempt, reset_credential, requireReauthTicket, mustChange, user_only,
  with_input, or_else, decodeJSON, mappingProblem, frpResetProblem, too_many, notifyConfigChanged, seconds_until, writeJSON,
  problem, set_header, Write, WriteHeader, add_cookie.

Lemma q_hostnames r q l : keeps (authorize_hostnames r q l).
Proof using Q.
  induction l as [|h l IH]; cbn [authorize_hostnames]; [apply moves_ret; typeclasses eauto|].
  move_step; [|by destruct a; [|apply moves_ret; typeclasses eauto]].
  unfold AuthorizeFRPWithCredentials. repeat move_step.
Qed.
#[local] Hint Resolve q_hostnames : moves.

(** Every handler but that of the WebSocket. *)
Lemma q_handler `{ServerWeb} e id r : e <> EpWebSocket -> keeps (handler e id r).
Proof using Q.
  intros Hne. destruct e; try done; cbn [handler];
    unfold health, metrics, reply_with, compatibility, adminLogin, clientLogin, logout, changePassword, reauth, resetFRPCredential,
      me, dashboard, listMappings, createMapping, updateMapping, deleteMapping, toggleMapping, listDomains, createDomain,
      deleteDomain, domainDNSAction, fullConfig, signingKey, applyResult, heartbeat, adminOperations, operations, retryOperation,
      cloudflareStatus, cloudflareToken, clearCloudflare, adminUsers, createUser, deleteUser, setUserStatus, resetPassword,
      adminResetFRPCredential, adminStats, routerStatus, routerRebuild, createBackup, loopbackOnly, frpPlugin, frpPluginRPC,
      plugin_answer, authorize_new_proxy, AuthorizeFRPWithCredentials; quiet_unfold; repeat move_step.
Qed.
End Handlers.

(** ** Slots and connections *)

(** What a run may do when it starts without a connection of its own: it goes on
    without one, or becomes one of the user it serves. *)
Definition joined (o : option (nat * ServerRequest)) (u : string) : gset nat :=
  match o with Some (conn, r) => if decide (u = ac_UserID (authFrom r)) then {[conn]} else ∅ | None => ∅ end.
Definition fresh (n : nat) (f : string -> gset nat) (a : ServerAPI) : Prop :=
  slots a = (n, None) /\ forall u, clients_of a u ⊆ f u.
Definition served (n : nat) (f : string -> gset nat) (a : ServerAPI) : Prop :=
  sa_busy a = n /\ forall u, clients_of a u ⊆ f u ∪ joined (sa_hijacked a) u.
Definition settled (n : nat) (f : string -> gset nat) (a : ServerAPI) : Prop :=
  match sa_hijacked a with Some _ => served (S n) f a /\ (n < max_concurrent_requests)%nat | None => served n f a end.

(** A claim that only the slots and the connections decide, and that fewer
    connections keep. *)
Class SlotClaim (P : ServerAPI -> Prop) := slot_claim : forall a a', slots a' = slots a -> shrinks a a' -> P a -> P a'.
#[export] Instance SlotClaim_fresh n f : SlotClaim (fresh n f).
Proof. intros a a' Hs Hc [Ha Hf]. split; [congruence|]. intros u. etrans; [apply Hc|apply Hf]. Qed.
#[export] Instance SlotClaim_served n f : SlotClaim (served n f).
Proof.
  intros a a' [= Hb Ho] Hc [Ha Hf]. split; [congruence|]. intros u. rewrite Ho. etrans; [apply Hc|apply Hf].
Qed.
#[export] Instance SlotClaim_settled n f : SlotClaim (settled n f).
Proof.
  intros a a' Hs Hc. pose proof (f_equal snd Hs) as Ho. cbn in Ho. unfold settled. rewrite Ho.
  destruct (sa_hijacked a); [intros [Ha Hn]; split; [|done]|intros Ha]; by eapply slot_claim.
Qed.
#[export] Instance Calm_slot_claim P : SlotClaim P -> Calm (keeping P).
Proof.
  intros HP. split; try typeclasses eauto; intros a; intros; intros Ha; refine (slot_claim a _ _ _ Ha);
    first [done|by apply calm_drop|intros ?; done].
Qed.

Lemma fresh_served n f a : fresh n f a -> served n f a.
Proof. intros [[= Hb Ho] Hf]. split; [done|]. intros u. rewrite Ho. etrans; [apply Hf|]. set_solver. Qed.

Section Leads.
Context `{Env} `{ServerEnv} (P Q : ServerAPI -> Prop) `{HP : !Calm (keeping P), HQ : !Calm (keeping Q)} (HPQ : forall a, P a -> Q a).

Lemma leads_after {A B} (m : HS A) (k : A -> HS B) : moves (keeping P) m -> (forall a, leads P Q (k a)) -> leads P Q (m ≫= k).
Proof using HPQ. intros Hm Hk. apply (leads_bind P P Q); [by apply leads_keeping|done|done]. Qed.
Lemma leads_before {A B} (m : HS A) (k : A -> HS B) : leads P Q m -> (forall a, moves (keeping Q) (k a)) -> leads P Q (m ≫= k).
Proof using Type. intros Hm Hk. apply (leads_bind P Q Q); [done|done|]. intros a. apply leads_keeping, Hk. Qed.
Lemma leads_stop {A} (m : HS A) : moves (keeping P) m -> leads P Q m.
Proof using HPQ. intros Hm w Hw. apply HPQ, Hm, Hw. Qed.

Lemma leads_buffered m : leads P Q m -> leads P Q (buffered m).
Proof using HP HQ.
  intros Hm a Ha. unfold buffered. 
  pose proof (Hm _ (calm_reply (R := keeping P) a (mkReplyWriter (rp_Header (sa_reply a)) (rp_Cookies (sa_reply a)) None "") Ha)) as Hm'.
  destruct (m _) as [x a']. exact (calm_reply (R := keeping Q) a' _ Hm').
Qed.

(** What comes before the handler, and after it. *)
Lemma leads_access next r : (forall r', leads P Q (next r')) -> leads P Q (accessLog next r).
Proof using HP HQ HPQ.
  intros Hn. unfold accessLog. apply leads_after; [by move_step|]. intros _. apply leads_before; [apply Hn|].
  intros _. repeat move_step.
Qed.

Lemma leads_problem r status code detail : leads P Q (problem r status code detail).
Proof using HP HPQ. apply leads_stop. unfold problem, set_header, WriteHeader, Write. repeat move_step. Qed.

Lemma leads_public next r : (forall r', leads P Q (next r')) -> leads P Q (public_area next r).
Proof using HP HQ HPQ.
  intros Hn. unfold public_area, protocolV1. case_match; [apply leads_after; [by move_step|intros _; apply leads_problem]|].
  unfold responseMetadata. case_match; [done|]. apply leads_before; [by apply leads_buffered|].
  intros b. unfold write_buffer, copy_headers, set_header, WriteHeader, Write. repeat move_step.
Qed.

Lemma leads_idempotent next r : (forall r', leads P Q (next r')) -> leads P Q (idempotency_mw next r).
Proof using HP HQ HPQ.
  intros Hn. unfold idempotency_mw. case_match; [done|]. case_match; [apply leads_problem|].
  apply leads_after; [by move_step|]. intros [row|e].
  - apply leads_stop. unfold replay_response, problem, set_header, WriteHeader, Write. repeat move_step.
  - destruct e as [| | | | | | | | | | |[] | | |]; try apply leads_problem.
    apply leads_before; [by apply leads_buffered|]. intros b. unfold keep_response, write_buffer, copy_headers, set_header, WriteHeader, Write.
    repeat move_step.
Qed.

Lemma leads_session next r : (forall r', leads P Q (next r')) -> leads P Q (session_area next r).
Proof using HP HQ HPQ.
  intros Hn. apply leads_public. intros r1. unfold authenticate. destruct (presented _) as [token cookieAuth].
  apply leads_after; [by move_step|].
  intros [ac|e]; [|apply leads_problem]. case_match; [apply leads_problem|].
  unfold requireWriteIdempotency. case_match; [apply leads_problem|by apply leads_idempotent].
Qed.

Lemma leads_within area next r : (forall r', leads P Q (next r')) -> leads P Q (within area next r).
Proof using HP HQ HPQ.
  intros Hn. destruct area; cbn [within]; [apply Hn|by apply leads_public|by apply leads_session|].
  apply leads_session. intros r'. unfold requireAdmin. case_match; [apply leads_problem|apply Hn].
Qed.

Lemma leads_dispatch `{ServerWeb} handle r : (forall e id r', leads P Q (handle e id r')) -> leads P Q (dispatch handle r).
Proof using HP HQ HPQ.
  intros Hn. unfold dispatch. case_match; [case_match|]; apply leads_within; [intros; apply Hn|].
  intros r'. apply leads_stop. unfold reply_with. by move_step.
Qed.
End Leads.

Section Slots.
Context `{Env} `{ServerEnv} `{ServerWeb} (n : nat) (f : string -> gset nat).

Lemma leads_websocket r : leads (fresh n f) (served n f) (websocket r).
Proof using Type.
  unfold websocket. case_match.
  { apply leads_stop; [by intros; apply fresh_served|]. unfold problem, set_header, WriteHeader, Write. repeat move_step. }
  apply leads_after; [by intros; apply fresh_served| |].
  { unfold upgrade. move_step; [intros a; by apply calm_world|]. unfold set_header, WriteHeader, Write. repeat move_step. }
  intros [conn|]; [|intros w Hw; by apply fresh_served].
  apply leads_before; [|intros _; unfold writeWS; repeat move_step].
  intros a [[= Hb Ho] Hf]. split; [done|]. intros u. cbn. unfold clients_of. cbn.
  destruct (decide (u = ac_UserID (authFrom r))) as [->|Hne].
  - rewrite lookup_insert_eq. cbn. specialize (Hf (ac_UserID (authFrom r))). unfold clients_of in Hf. set_solver.
  - rewrite lookup_insert_ne by done. specialize (Hf u). unfold clients_of in Hf. set_solver.
Qed.

Lemma leads_handler e id r : leads (fresh n f) (served n f) (handler e id r).
Proof using Type.
  destruct (decide (e = EpWebSocket)) as [->|Hne]; [apply leads_websocket|].
  apply leads_stop; [by intros; apply fresh_served|]. by apply q_handler; [typeclasses eauto|].
Qed.

Lemma leads_inner r : leads (fresh n f) (served n f) (accessLog (dispatch handler) r).
Proof using Type.
  apply leads_access; try typeclasses eauto; [apply fresh_served|]. intros r'.
  apply leads_dispatch; try typeclasses eauto; [apply fresh_served|]. apply leads_handler.
Qed.
End Slots.

Section Slots.
Context `{Env} `{ServerEnv} `{ServerWeb} (n : nat) (f : string -> gset nat).

Lemma fresh_settled a : fresh n f a -> settled n f a.
Proof using Type. intros Ha. pose proof (proj1 Ha) as [= _ Ho]. unfold settled. rewrite Ho. by apply fresh_served. Qed.

Lemma leads_limit r : leads (fresh n f) (settled n f) (concurrencyLimit (accessLog (dispatch handler)) r).
Proof using Type.
  intros a Ha. pose proof Ha as [[= Hb Ho] Hf]. unfold concurrencyLimit. destruct (Nat.ltb _ _) eqn:Hlt.
  - apply Nat.ltb_lt in Hlt. unfold with_slot.
    pose proof (leads_inner (S n) f r (a <| sa_busy ::= S |> <| sa_hijacked := None |>)) as Hi.
    destruct (accessLog _ _ _) as [x a']. cbn [snd] in Hi |- *.
    destruct Hi as [Hb' Hc]; [split; [by cbn; rewrite Hb|done]|]. unfold settled.
    destruct (sa_hijacked a') as [[conn r']|] eqn:Ho'.
    + rewrite Ho'. split; [|by rewrite <- Hb]. split; [done|]. by rewrite Ho'.
    + cbn. rewrite Ho'. split; cbn; [by rewrite Hb'|done].
  - apply fresh_settled. revert a Ha Hb Ho Hf Hlt. intros a Ha _ _ _ _. revert a Ha.
    apply leads_keeping. unfold problem, set_header, WriteHeader, Write. repeat move_step.
Qed.

Lemma leads_serve r : leads (fresh n f) (settled n f) (serve r).
Proof using Type.
  unfold serve, serve_with, requestID. pose proof fresh_settled as Hfs.
  apply leads_after; [done|destruct (_ || _); by move_step|]. intros v.
  apply leads_after; [done|unfold set_header; by move_step|]. intros _.
  unfold securityHeaders. apply leads_after; [done|unfold set_header; repeat move_step|]. intros _.
  unfold cors. apply leads_after; [done|unfold set_header; repeat move_step|]. intros _.
  case_match; [apply leads_stop; [done|unfold WriteHeader; by move_step]|].
  unfold rateLimit. apply leads_after; [done|by move_step|]. intros t. apply leads_after; [done|by move_step|]. intros verdict.
  case_match; [apply leads_stop; [done|unfold too_many, problem, set_header, WriteHeader, Write; repeat move_step]|].
  apply leads_limit.
Qed.
End Slots.

Section Server.
Context `{Env} `{ServerEnv} `{ServerWeb}.

Lemma q_message R `{!Calm R} conn r data : moves R (websocket_message conn r data).
Proof using Type. unfold websocket_message, writeWS. repeat move_step. Qed.

(** What a step assumes of the handshake: its connection is a new one. *)
Definition distinct (s : Server) (e : ServerEvent) : Prop :=
  match e with
  | Requested r =>
      match sa_hijacked (sv_api (server_step s e)) with Some (conn, _) => sv_open s !! conn = None | None => True end
  | _ => True
  end.

Inductive server_reachable : Server -> Prop :=
| server_start w files : server_reachable (mkServer (NewServerAPI w files) ∅)
| server_next s e : server_reachable s -> distinct s e -> server_reachable (server_step s e).

(** Every place taken is that of an open connection, there are not more than the
    limit, and the connections listed for a user are open and the user's own. *)
Definition slots_ok (s : Server) : Prop :=
  sa_busy (sv_api s) = size (sv_open s) /\ (sa_busy (sv_api s) <= max_concurrent_requests)%nat /\
  forall u conn, conn ∈ clients_of (sv_api s) u -> exists r, sv_open s !! conn = Some r /\ ac_UserID (authFrom r) = u.

Lemma slots_ok_requested s r : slots_ok s -> distinct s (Requested r) -> slots_ok (server_step s (Requested r)).
Proof using Type.
  intros (Hb & Hle & Hc) Hd. cbn [distinct server_step] in Hd |- *.
  pose proof (leads_serve (size (sv_open s)) (clients_of (sv_api s)) r ((sv_api s) <| sa_reply := no_reply |> <| sa_hijacked := None |>)) as Hs.
  destruct (serve r _) as [x a]. cbn [snd sv_api] in *.
  assert (settled (size (sv_open s)) (clients_of (sv_api s)) a) as Hs'.
  { apply Hs. split; [|done]. unfold slots. cbn. by rewrite Hb. }
  clear Hs. revert Hs' Hd. unfold settled. destruct (sa_hijacked a) as [[conn r']|] eqn:Ho.
  - intros [[Hb' Hcl] Hn] Hd. split; [|split]; cbn [sv_api sv_open].
    + rewrite map_size_insert_None by done. done.
    + rewrite Hb'. lia.
    + intros u c Hin. specialize (Hcl u c Hin). rewrite Ho in Hcl. cbn [joined] in Hcl.
      destruct (decide (c = conn)) as [->|Hne].
      * rewrite lookup_insert_eq. destruct (decide (u = ac_UserID (authFrom r'))) as [->|Hu]; [by exists r'|].
        exfalso. apply elem_of_union in Hcl as [Hin'|Hin']; [|set_solver].
        destruct (Hc _ _ Hin') as (? & ? & _). congruence.
      * rewrite lookup_insert_ne by done. apply Hc. destruct (decide _); set_solver.
  - intros [Hb' Hcl] _. split; [|split]; cbn [sv_api sv_open]; [done|lia|].
    intros u c Hin. specialize (Hcl u c Hin). rewrite Ho in Hcl. apply Hc. cbn [joined] in Hcl. set_solver.
Qed.

Lemma slots_ok_ended s conn r : slots_ok s -> sv_open s !! conn = Some r -> slots_ok (end_connection conn r s).
Proof using Type.
  intros (Hb & Hle & Hc) Ho. unfold end_connection, websocket_end. cbn [snd].
  set (u0 := ac_UserID (authFrom r)).
  assert (forall u, clients_of ((sv_api s) <| sa_clients ::=
      (if bool_decide (default ∅ (sa_clients (sv_api s) !! u0) ∖ {[conn]} = ∅) then delete u0
       else <[u0 := default ∅ (sa_clients (sv_api s) !! u0) ∖ {[conn]}]>) |> <| sa_busy ::= pred |>) u
    ⊆ clients_of (sv_api s) u ∖ {[conn]}) as Hcl.
  { intros u. unfold clients_of. cbn. destruct (decide (u = u0)) as [->|Hne].
    - case_bool_decide; [rewrite lookup_delete_eq|rewrite lookup_insert_eq]; cbn; set_solver.
    - assert (conn ∉ clients_of (sv_api s) u) as Hnin.
      { intros Hin. destruct (Hc _ _ Hin) as (r' & Hr' & <-). apply Hne. by simplify_eq. }
      unfold clients_of in Hnin.
      case_bool_decide; [rewrite lookup_delete_ne by done|rewrite lookup_insert_ne by done]; set_solver. }
  split; [|split]; cbn [sv_api sv_open].
  - cbn. rewrite Hb, map_size_delete, Ho. cbn. lia.
  - cbn. lia.
  - intros u c Hin. specialize (Hcl u c Hin). assert (c <> conn) as Hne by set_solver.
    rewrite lookup_delete_ne by done. apply Hc. set_solver.
Qed.

Lemma slots_ok_step s e : slots_ok s -> distinct s e -> slots_ok (server_step s e).
Proof using Type.
  intros Hs Hd. destruct e as [r|conn data|conn]; [by apply slots_ok_requested|..]; cbn [server_step];
    (destruct (sv_open s !! conn) as [r|] eqn:Ho; [|done]); [|by apply slots_ok_ended].
  pose proof (q_message (same slots) conn r data (sv_api s)) as Hm. pose proof (q_message shrinks conn r data (sv_api s)) as Hsh.
  destruct (websocket_message _ _ _ _) as [x a]. cbn [snd] in Hm, Hsh.
  assert (slots_ok (mkServer a (sv_open s))) as Ha.
  { destruct Hs as (Hb & Hle & Hc). pose proof (f_equal fst Hm) as Hb'. cbn in Hb'.
    split; [|split]; cbn [sv_api sv_open]; [congruence|by rewrite Hb'|]. intros u c Hin. apply Hc, Hsh, Hin. }
  destruct x as [[]|]; [done|by apply slots_ok_ended..].
Qed.

(** C27: whatever comes in, in whatever order, the number of places taken is
    that of the open WebSockets and never above the limit, so no request that
    has ended keeps one, and a connection listed for notifications of a user is
    open and was authenticated as that user. *)
Theorem slots_invariant s : server_reachable s -> slots_ok s.
Proof using Type.
  induction 1 as [w files|s e Hr IH Hd]; [|by apply slots_ok_step].
  split; [|split]; [done|by apply Nat.le_0_l|]. intros u conn Hin. unfold clients_of in Hin. cbn in Hin.
  rewrite lookup_empty in Hin. set_solver.
Qed.
End Server.
