(* ===== verification/ServerGateSpec.v ===== *)
(** The server's API: who gets behind the gate, what wants a ticket, what happens
    when there is no place left, and writes that are not done twice. *)

From S2P Require Import Prelude StateError GoText GoPath GoNet GoUrl GoJson GoJsonRead GoJsonSpec GoHttp Timestamps GoTime Encoding RateLimit Schema Effects Logic Validation Store Jobs Sessions SessionsSpec Mappings MappingsSpec Domains Apply Authorize Users Operations Backup ServerViews ServerAPI ServerHandlers ServerAdmin ServerPlugin ServerHTTP ServerHTTPSpec.
From Stdlib Require Import Ascii String.
Open Scope Z_scope.

(** ** Before the handler *)

(** A request with the identifier it is given. *)
Definition named (v : string) (r : ServerRequest) : ServerRequest := r <| sq_RequestID := v |>.

(** All but the clock, the limiters and the reply. *)
Definition state_of (a : ServerAPI) :=
  (w_db (sa_world a), sa_files a, sa_busy a, sa_clients a, sa_sent a).

(** A computation that answers, and leaves everything but those alone and the
    status of the reply open. *)
Definition passed (a a' : ServerAPI) : Prop :=
  state_of a' = state_of a /\ rp_Status (sa_reply a') = rp_Status (sa_reply a) /\ sa_hijacked a' = sa_hijacked a /\
  (w_tick (sa_world a) <= w_tick (sa_world a'))%nat.
Definition passes {A} (m : HS A) : Prop := forall a, exists v a', m a = (Ok v, a') /\ passed a a'.

Section Passes.
Context `{Env} `{ServerEnv}.

Lemma passed_trans a b c : passed a b -> passed b c -> passed a c.
Proof using Type. intros (?&?&?&?) (?&?&?&?). split_and!; [congruence..|]. by etrans. Qed.
Lemma passes_ret {A} (x : A) : passes (ret x).
Proof using Type. intros a. by exists x, a. Qed.
Lemma passes_bind {A B} (m : HS A) (k : A -> HS B) : passes m -> (forall v, passes (k v)) -> passes (m ≫= k).
Proof using Type.
  intros Hm Hk a. destruct (Hm a) as (v & a1 & E & H1). destruct (Hk v a1) as (v2 & a2 & E2 & H2).
  exists v2, a2. rewrite (bind_run _ _ _ _ _ E). split; [done|by eapply passed_trans].
Qed.
Lemma passes_set_header name value : passes (set_header name value).
Proof using Type. intros a. by eexists _, _. Qed.
Lemma passes_for_each {A} (l : list A) body : (forall x, passes (body x)) -> passes (for_each l body).
Proof using Type.
  intros Hb. induction l as [|x l IH]; [apply passes_ret|]. by apply passes_bind.
Qed.
Lemma passes_time_now : passes time_now.
Proof using Type. intros a. eexists _, _. split; [done|]. split_and!; [done..|]. cbn. lia. Qed.
Lemma passes_shortID : passes shortID.
Proof using Type. intros a. eexists _, _. split; [done|]. split_and!; [done..|]. cbn. lia. Qed.
Lemma passes_api_allow key t : passes (api_allow key t).
Proof using Type. intros a. unfold api_allow. destruct (Limiter.allow _ _ _) as [x l]. by eexists _, _. Qed.

Lemma passes_then {A} (m : HS A) a : passes m ->
  exists v a', passed a a' /\ forall B (k : A -> HS B), (m ≫= k) a = k v a'.
Proof using Type. intros Hm. destruct (Hm a) as (v & a' & E & Hp). exists v, a'. split; [done|]. intros B k. by apply bind_run. Qed.
End Passes.

Section Outer.
Context `{Env} `{ServerEnv}.

Definition outer (next : Next) : Next := requestID (securityHeaders (cors (rateLimit next))).

(** The status a reply has already stays. *)
Definition first_status (o : option Z) (status : Z) : option Z := match o with Some s => Some s | None => Some status end.

Lemma problem_status r status code detail a :
  rp_Status (sa_reply (snd (problem r status code detail a))) = first_status (rp_Status (sa_reply a)) status.
Proof using Type. destruct a as [? ? ? ? ? ? ? ? [h c [s|] b]]; reflexivity. Qed.

(** Either one of the first middlewares answers (a preflight, or a client above
    its rate), or what is behind them runs. *)
Lemma outer_cases r a :
  (exists x a', state_of a' = state_of a /\ sa_hijacked a' = sa_hijacked a /\
     (sq_Method r <> "OPTIONS"%string -> rp_Status (sa_reply a) = None -> rp_Status (sa_reply a') = Some 429) /\
     forall next, outer next r a = (x, a')) \/
  (exists v a', passed a a' /\ forall next, outer next r a = next (named v r) a').
Proof using Type.
  unfold outer, requestID.
  destruct (passes_then (if String.eqb (sq_Header r "X-Request-ID") "" || Nat.ltb 80 (String.length (sq_Header r "X-Request-ID"))
    || ContainsAny (sq_Header r "X-Request-ID") line_breaks then shortID else ret (sq_Header r "X-Request-ID")) a) as (v & a1 & H1 & E1).
  { case_match; [apply passes_shortID|apply passes_ret]. }
  destruct (passes_then (set_header "X-Request-ID" v) a1 (passes_set_header _ _)) as ([] & a2 & H2 & E2).
  destruct (passes_then (for_each security_headers (fun kv => set_header (fst kv) (snd kv))) a2) as ([] & a3 & H3 & E3).
  { apply passes_for_each. intros x. apply passes_set_header. }
  set (allowed := (let origin := sq_Header r "Origin" in
    if negb (String.eqb origin "") && existsb (String.eqb origin) sv_AllowedOrigins then
     set_header "Access-Control-Allow-Origin" origin;;
     set_header "Access-Control-Allow-Credentials" "true";;
     set_header "Access-Control-Allow-Headers" "Authorization, Content-Type, Idempotency-Key, X-CSRF-Token, X-FRP-Protocol-Version, X-Request-ID";;
     set_header "Access-Control-Allow-Methods" "GET, POST, PUT, DELETE, OPTIONS"
   else ret tt) : HS unit).
  destruct (passes_then allowed a3) as ([] & a4 & H4 & E4).
  { unfold allowed. cbv zeta. destruct (_ && _); [|apply passes_ret]. repeat (apply passes_bind; [|intros _]); apply passes_set_header. }
  assert (passed a a4) as Ha4 by (repeat (eapply passed_trans; [eassumption|]); done).
  assert (forall next, (requestID (securityHeaders (cors (rateLimit next))) r) a =
    (if String.eqb (sq_Method r) "OPTIONS" then WriteHeader 204 else rateLimit next (named v r)) a4) as E.
  { intros next. unfold requestID. rewrite E1, E2. unfold securityHeaders. rewrite E3. exact (E4 _ _). }
  unfold requestID in E. destruct (String.eqb (sq_Method r) "OPTIONS") eqn:Eopt.
  { left. eexists _, _. split; [|split; [|split; [|exact E]]]; [exact (proj1 Ha4)|exact (proj1 (proj2 (proj2 Ha4)))|]. apply String.eqb_eq in Eopt. done. }
  destruct (passes_then time_now a4 passes_time_now) as (t & a5 & H5 & E5).
  destruct (passes_then (api_allow (remoteIP (named v r)) t) a5 (passes_api_allow _ _)) as (verdict & a6 & H6 & E6).
  assert (passed a a6) as Ha6 by (repeat (eapply passed_trans; [eassumption|]); done).
  unfold rateLimit in E. setoid_rewrite E5 in E. setoid_rewrite E6 in E.
  destruct (negb (fst verdict)).
  - left. destruct (too_many (named v r) (snd verdict) "RATE_LIMITED" "请求过于频繁，请稍后重试。" a6) as [x a7] eqn:E7.
    exists x, a7. split; [|split; [|split; [|exact E]]].
    + etrans; [|exact (proj1 Ha6)]. by injection E7 as _ <-.
    + etrans; [|exact (proj1 (proj2 (proj2 Ha6)))]. by injection E7 as _ <-.
    + intros _ Hn. change a7 with (snd (x, a7)). rewrite <- E7. unfold too_many.
      destruct (passes_then (set_header "Retry-After" (itoa (retry_seconds (snd verdict)))) a6 (passes_set_header _ _)) as ([] & a8 & (_ & H8 & _ & _) & E8).
      rewrite E8, problem_status, H8. destruct Ha6 as (_ & -> & _). by rewrite Hn.
  - right. exists v, a6. done.
Qed.
End Outer.

(** ** No place left *)

Section Saturated.
Context `{Env} `{ServerEnv} `{ServerWeb}.

(** As many open WebSockets as there are places, and every other request
    is answered 429 and has no effect, until one of them ends. *)
Theorem websockets_fill_the_server s r :
  slots_ok s -> base.size (sv_open s) = max_concurrent_requests -> sq_Method r <> "OPTIONS"%string ->
  let s' := server_step s (Requested r) in
  rp_Status (sa_reply (sv_api s')) = Some 429 /\ state_of (sv_api s') = state_of (sv_api s) /\ sv_open s' = sv_open s.
Proof using Type.
  intros (Hb & _ & _) Hfull Hm. cbn [server_step].
  set (a := (sv_api s) <| sa_reply := no_reply |> <| sa_hijacked := None |>).
  assert (rp_Status (sa_reply (snd (serve r a))) = Some 429 /\ state_of (snd (serve r a)) = state_of (sv_api s) /\
    sa_hijacked (snd (serve r a)) = None) as (Hr & Hs & Ho); [|cbv zeta; rewrite Ho; done].
  destruct (outer_cases r a) as [(x & a' & Hs & Ho & Hst & E)|(v & a' & (Hs & Hst & Ho & _) & E)];
    unfold serve, serve_with; fold (outer (concurrencyLimit (accessLog (dispatch handler)))); rewrite E.
  - split; [by apply Hst|done].
  - unfold concurrencyLimit. assert (sa_busy a' = max_concurrent_requests) as ->.
    { injection Hs as _ _ Hb' _ _. rewrite Hb'. cbn. congruence. }
    rewrite Nat.ltb_irrefl.
    destruct (passes_then (set_header "Retry-After" "1") a' (passes_set_header _ _)) as ([] & a2 & (G1 & G2 & G3 & _) & E2).
    rewrite E2, problem_status, G2, Hst. split; [done|]. split; [etrans; [|etrans; [exact G1|exact Hs]]; done|].
    etrans; [|etrans; [exact G3|exact Ho]]. done.
Qed.
End Saturated.

(** ** The gate

    Two handlers that agree on the requests that are let in are told apart by no
    request that is not.  [agree r w next next']: they do on what [r] becomes,
    from a state with the database of [w], not before it. *)
Definition later (w w' : World) : Prop := w_db w' = w_db w /\ (w_tick w <= w_tick w')%nat.
#[export] Instance later_preorder : PreOrder later.
Proof. split; [done|]. intros a b c [??] [??]. split; [congruence|lia]. Qed.

Lemma passed_later a a' : passed a a' -> later (sa_world a) (sa_world a').
Proof. intros (Hs & _ & _ & Ht). split; [by injection Hs|done]. Qed.

Definition agree (r : ServerRequest) (w : World) (next next' : Next) : Prop :=
  forall v a, later w (sa_world a) -> next (named v r) a = next' (named v r) a.

Section Agree.
Context `{Env} `{ServerEnv} (r : ServerRequest) (w : World).

Lemma then_agree {A B} (m : HS A) (k k' : A -> HS B) a : passes m -> later w (sa_world a) ->
  (forall x a', later w (sa_world a') -> k x a' = k' x a') -> (m ≫= k) a = (m ≫= k') a.
Proof using Type.
  intros Hm Hd Hk. destruct (passes_then m a Hm) as (x & a' & Hp%passed_later & E). rewrite !E.
  apply Hk. by etrans.
Qed.
Lemma agree_then {A B} (m m' : HS A) (k : A -> HS B) a : m a = m' a -> (m ≫= k) a = (m' ≫= k) a.
Proof using Type. unfold mbind, M_bind, bind. by intros ->. Qed.
Lemma buffered_agree (m m' : HS unit) a : later w (sa_world a) ->
  (forall a', later w (sa_world a') -> m a' = m' a') -> buffered m a = buffered m' a.
Proof using Type. intros Hd Hm. unfold buffered. by rewrite Hm. Qed.

Lemma agree_outer next next' a : later w (sa_world a) -> agree r w next next' -> outer next r a = outer next' r a.
Proof using Type.
  intros Hd Hn. destruct (outer_cases r a) as [(x & a' & _ & _ & _ & E)|(v & a' & Hp%passed_later & E)]; rewrite !E; [done|].
  apply Hn. by etrans.
Qed.

Lemma agree_concurrency next next' : agree r w next next' -> agree r w (concurrencyLimit next) (concurrencyLimit next').
Proof using Type.
  intros Hn v a Hd. unfold concurrencyLimit. case_match; [|done]. unfold with_slot. by rewrite Hn.
Qed.
Lemma agree_access next next' : agree r w next next' -> agree r w (accessLog next) (accessLog next').
Proof using Type.
  intros Hn v a Hd. unfold accessLog. apply then_agree; [apply passes_time_now|done|]. intros _ a' Hd'. apply agree_then, Hn, Hd'.
Qed.
Lemma agree_public next next' : agree r w next next' -> agree r w (public_area next) (public_area next').
Proof using Type.
  intros Hn v a Hd. unfold public_area, protocolV1. case_match; [done|]. unfold responseMetadata. case_match; [by apply Hn|].
  apply agree_then, buffered_agree; [done|]. intros a' Hd'. by apply Hn.
Qed.

(** What a request to [area] proves: the bearer it presents is that of a session
    that is not revoked, of an active user, neither of whose expiries a reading of the
    clock from now on has passed, of the user's generation when it is a client's;
    a write on the strength of the cookie shows the session's CSRF token; a
    write has a key; and the user has the role. *)
Definition admitted (area : Area) : Prop :=
  exists k s u n,
    sessions (w_db w) !! k = Some s /\ s_hash s = bearer_hash (fst (presented r)) /\
    users (w_db w) !! s_user_id s = Some u /\ s_revoked s = None /\ u_status u = UActive /\
    (w_tick w <= n)%nat /\ env_now n <= s_expires s /\ env_now n <= s_idle_expires s /\
    (s_channel s = ClientPanel -> u_generation u = s_generation s) /\
    (snd (presented r) = true -> safe_method (sq_Method r) = false -> s_csrf_hash s = sha256Hex (sq_Header r "X-CSRF-Token")) /\
    (write_method (sq_Method r) = true -> 16 <= Z.of_nat (String.length (idempotency_key r)) <= 128) /\
    (area = Admin -> u_role u = RAdmin).

Lemma csrf_valid ac token : ValidateCSRF ac token = true -> ac_CSRFTokenHash ac = sha256Hex token.
Proof using Type. unfold ValidateCSRF. case_match; [done|]. by intros ?%String.eqb_eq. Qed.

Lemma idempotent_next next next' r' : next r' = next' r' -> idempotency_mw next r' = idempotency_mw next' r'.
Proof using Type. unfold idempotency_mw. by intros ->. Qed.

(** Behind the session and, for an administrator, the role. *)
Definition behind (area : Area) (next : Next) : Next :=
  authenticate (requireWriteIdempotency (idempotency_mw (if decide (area = Admin) then requireAdmin next else next))).

Lemma agree_behind area next next' : ~ admitted area -> agree r w (behind area next) (behind area next').
Proof using Type.
  intros Hno v a [Hd Ht]. unfold behind, authenticate. change (presented (named v r)) with (presented r).
  destruct (presented r) as [token cookieAuth] eqn:Ep.
  unfold mbind, M_bind, bind, serviced, in_world.
  destruct (Authenticate token (sa_world a)) as [[ac|e] w'] eqn:Ea; [|by destruct e].
  apply Authenticate_run in Ea as (k & s & u & t & -> & Hk & Hh & Hu & Hr & Hac & He & Hi & Hg & -> & _).
  destruct (cookieAuth && _ && _) eqn:Ecsrf; [done|].
  unfold requireWriteIdempotency. destruct (write_method _ && _) eqn:Elen; [done|].
  assert (area = Admin /\ u_role u <> RAdmin \/ admitted area) as [[-> Hrole]|Hyes].
  { destruct (decide (area = Admin /\ u_role u <> RAdmin)) as [?|Hadm]; [by left|]. right.
    rewrite Hd in Hk, Hu. exists k, s, u, (S (w_tick (sa_world a))). rewrite Ep. split_and!; try done; [lia|..].
    - intros [= ->] Hsafe. cbn [andb] in Ecsrf. change (sq_Method (named v r)) with (sq_Method r) in Ecsrf.
      rewrite Hsafe in Ecsrf. apply negb_false_iff, csrf_valid in Ecsrf. exact Ecsrf.
    - intros Hw. change (write_method (sq_Method r) && ((Z.of_nat (String.length (idempotency_key r)) <? 16)
        || (128 <? Z.of_nat (String.length (idempotency_key r)))) = false) in Elen. rewrite Hw in Elen. cbn [andb] in Elen.
      apply orb_false_iff in Elen as [?%Z.ltb_ge ?%Z.ltb_ge]. done.
    - intros ->. destruct (u_role u) eqn:Erole; [done|]. exfalso. apply Hadm. done. }
  - apply (f_equal (fun m => m _)), idempotent_next. rewrite !decide_True by done. unfold requireAdmin.
    assert (ac_Role (authFrom ((named v r) <| sq_Auth := Some (auth_context k s u) |>)) = u_role u) as -> by done.
    by rewrite bool_decide_false.
  - by destruct Hno.
Qed.
End Agree.

(** What only a request that is let in changes: everything but the renewal of a
    session, the clock, the limiters and the slots. *)
Definition protected (a : ServerAPI) :=
  ((w_db (sa_world a)) <| sessions := ∅ |>, sa_files a, sa_clients a, sa_sent a).

Section Gate.
Context `{Env} `{ServerEnv} `{ServerWeb}.
Abbreviation quiet := (moves (same protected)).

Lemma quiet_reply f : quiet (set_reply f).
Proof using Type. by intros a. Qed.
Lemma quiet_serviced {A} r (m : Env -> M A) :
  moves (same (fun w => (w_db w) <| sessions := ∅ |>)) (m (with_audit (request_metadata r))) -> quiet (serviced r m).
Proof using Type.
  intros Hm a. unfold serviced, in_world. specialize (Hm (sa_world a)). destruct (m _ _) as [x w].
  unfold same in *. cbn [snd] in *. 
  change (protected (a <| sa_world := w |>)) with ((w_db w) <| sessions := ∅ |>, sa_files a, sa_clients a, sa_sent a). by rewrite Hm.
Qed.
Lemma quiet_time_now : quiet time_now.
Proof using Type. by intros a. Qed.
Lemma quiet_buffered m : quiet m -> quiet (buffered m).
Proof using Type.
  intros Hm a. unfold buffered. specialize (Hm (a <| sa_reply := mkReplyWriter (rp_Header (sa_reply a)) (rp_Cookies (sa_reply a)) None "" |>)).
  destruct (m _) as [x a']. exact Hm.
Qed.
#[local] Hint Resolve quiet_reply quiet_time_now quiet_buffered : moves.

Ltac quiet := unfold problem, set_header, WriteHeader, Write, copy_headers; repeat move_step.

Lemma quiet_authenticate token : moves (same (fun w => (w_db w) <| sessions := ∅ |>)) (Authenticate token).
Proof using Type.
  unfold Authenticate. repeat first [move_step|intros w; unfold exec, query_row, now; by repeat case_match].
Qed.

(** A handler that panics. *)
Definition dead : Endpoint -> string -> Next := fun _ _ _ => fail "unreached"%string.

(** A reply that is no success is not kept. *)
Definition unsuccessful (next : Next) : Prop := forall r, quiet (next r) /\
  forall a, rp_Status (sa_reply a) = None ->
    match next r a with (Ok _, a') => success (buffer_status (sa_reply a')) = false | _ => True end.

Lemma quiet_idempotent next r : unsuccessful next -> quiet (idempotency_mw next r).
Proof using Type.
  intros Hn. unfold idempotency_mw. case_match; [apply Hn|]. case_match; [quiet|].
  move_step; [apply quiet_serviced; intros w; unfold query_row; by repeat case_match|].
  destruct a as [row|e].
  { unfold replay_response. case_match; [quiet|]. move_step; [|quiet].
    apply quiet_serviced. unfold decryptIdempotencyResponse, Decrypt, decryptWithKey. repeat move_step. }
  destruct e as [| | | | | | | | | | |[] | | |]; try (quiet; fail).
  apply moves_bind_result; [typeclasses eauto|apply quiet_buffered, Hn|]. intros a b a' E.
  assert (success (buffer_status b) = false) as Hb.
  { unfold buffered in E. pose proof (proj2 (Hn r) (a <| sa_reply := mkReplyWriter (rp_Header (sa_reply a)) (rp_Cookies (sa_reply a)) None "" |>) eq_refl) as Hs.
    destruct (next r _) as [[x|e] a1]; [|done]. by injection E as <- _. }
  unfold keep_response, write_buffer. rewrite Hb. quiet.
Qed.

Lemma unsuccessful_dead e id : unsuccessful (dead e id).
Proof using H. intros r. split; [by move_step|done]. Qed.
Lemma unsuccessful_admin next : unsuccessful next -> unsuccessful (requireAdmin next).
Proof using Type.
  intros Hn r. unfold requireAdmin. case_match; [|apply Hn]. split; [quiet|]. intros a Ha.
  pose proof (problem_status r 404 "FORBIDDEN" "资源不存在。" a) as Hp. rewrite Ha in Hp.
  destruct (problem _ _ _ _ _) as [[] a']; [|done]. cbn [snd] in Hp. unfold buffer_status. by rewrite Hp.
Qed.

Lemma quiet_session next r : unsuccessful next -> quiet (session_area next r).
Proof using Type.
  intros Hn. unfold session_area, public_area, protocolV1. case_match; [quiet|].
  assert (forall r', quiet (authenticate (requireWriteIdempotency (idempotency_mw next)) r')) as Ha.
  { intros r'. unfold authenticate. destruct (presented r') as [token cookieAuth].
    move_step; [apply quiet_serviced, quiet_authenticate|]. destruct a as [ac|e]; [|quiet].
    case_match; [quiet|]. unfold requireWriteIdempotency. case_match; [quiet|by apply quiet_idempotent]. }
  unfold responseMetadata. case_match; [apply Ha|]. move_step; [apply quiet_buffered, Ha|]. unfold write_buffer. quiet.
Qed.

Lemma quiet_limit next r : quiet (next r) -> quiet (concurrencyLimit next r).
Proof using Type.
  intros Hn a. unfold concurrencyLimit. destruct (Nat.ltb _ _);
    [|match goal with |- same _ ?x (snd (?m ?x)) => enough (quiet m) as Hq by apply Hq end; quiet]. unfold with_slot.
  specialize (Hn (a <| sa_busy ::= S |> <| sa_hijacked := None |>)). destruct (next r _) as [x a']. cbn [snd] in *.
  by case_match.
Qed.

(** C1: behind the gate nothing happens without credentials.  For a route with
    a session, or with the role of an administrator besides, a request that does
    not prove what [admitted] says gets an answer in which the handlers have no
    part, and changes nothing: not the database (but for the renewal of the
    session it may have presented), not the files, no message is sent and no
    connection made or dropped. *)
Theorem gate_of_sessions r a route id :
  (forall v, chi_match routes (named v r) = Some (route, id)) ->
  snd (fst route) = Session \/ snd (fst route) = Admin ->
  ~ admitted r (sa_world a) (snd (fst route)) ->
  (forall handle, serve_with handle r a = serve r a) /\ protected (snd (serve r a)) = protected a.
Proof using Type.
  intros Hroute Harea Hno.
  assert (forall h h', serve_with h r a = serve_with h' r a) as Hsame.
  { intros h h'. apply (agree_outer r (sa_world a)); [done|].
    apply agree_concurrency, agree_access. intros v a' Hl. unfold dispatch. rewrite Hroute.
    assert (forall area next, area = Session \/ area = Admin -> within area next = public_area (behind area next)) as Hw.
    { by intros ? ? [-> | ->]. }
    rewrite !Hw by done. by apply (agree_public r (sa_world a)); [apply agree_behind|]. }
  split; [intros handle; apply Hsame|]. unfold serve. rewrite (Hsame handler dead). 
  destruct (outer_cases r a) as [(x & a' & Hs & _ & _ & E)|(v & a' & (Hs & _) & E)];
    unfold serve_with; fold (outer (concurrencyLimit (accessLog (dispatch dead)))); rewrite E; unfold protected;
    injection Hs as Hdb Hf _ Hc Hl.
  { cbn [snd]. congruence. }
  etrans; [|by rewrite <- Hdb, <- Hf, <- Hc, <- Hl].
  apply quiet_limit. unfold accessLog, dispatch. rewrite Hroute. pose proof (unsuccessful_dead (snd route) id) as Hdead.
  assert (quiet (within (snd (fst route)) (dead (snd route) id) (named v r))) as Hin.
  { destruct Harea as [-> | ->]; apply quiet_session; [done|by apply unsuccessful_admin]. }
  repeat move_step.
Qed.
End Gate.

(** ** Tickets *)

(** The caller has no ticket that is of its generation and lives at a reading
    of the clock from now on. *)
Definition no_ticket `{Env} (ac : AuthContext) (w : World) : Prop :=
  forall k x n, reauth_tickets (w_db w) !! k = Some x -> t_user_id x = ac_UserID ac -> t_generation x = ac_Generation ac ->
    (w_tick w <= n)%nat -> sql_lt (env_now n) (t_expires x) = false.

Lemma no_ticket_refused `{Env} ac ticket w : no_ticket ac w ->
  exists e w', RequireReauthTicket ac ticket w = (Err e, w') /\ w_db w' = w_db w.
Proof.
  intros Hno. unfold RequireReauthTicket, fail_if, mbind, M_bind, bind, now, query, ret, fail.
  destruct (String.eqb _ _); [by eexists _, _|]. cbn [step w_tick w_db].
  destruct (env_fault _); [by eexists _, _|].
  assert (count_where (ticket_valid ac (sha256Hex (TrimSpace ticket)) (env_now (w_tick w))) (reauth_tickets (w_db w)) = 0) as ->;
    [|by eexists _, _].
  apply count_where_zero. intros i x Hi. unfold ticket_valid. apply not_true_is_false.
  intros [[[Hu%bool_decide_eq_true Hg%Z.eqb_eq]%andb_true_iff _]%andb_true_iff Ht]%andb_true_iff.
  by rewrite (Hno i x (w_tick w)) in Ht.
Qed.

Section Tickets.
Context `{Env} `{ServerEnv} `{ServerWeb}.

(** The endpoints that want a second proof of the caller's password. *)
Definition guarded (e : Endpoint) : bool :=
  match e with
  | EpResetFRPCredential | EpCloudflareToken | EpClearCloudflare | EpCreateUser | EpDeleteUser | EpSetUserStatus
  | EpResetPassword | EpAdminResetFRPCredential | EpRouterRebuild | EpCreateBackup => true
  | _ => false
  end.

Lemma ticket_refused r ticket k a : no_ticket (authFrom r) (sa_world a) ->
  state_of (snd (requireReauthTicket r ticket k a)) = state_of a.
Proof using Type.
  intros Hno. unfold requireReauthTicket, mbind, M_bind, bind, serviced, in_world.
  destruct (@no_ticket_refused (with_audit (request_metadata r)) (authFrom r) ticket (sa_world a) Hno) as (e & w' & Ht & Hd).
  rewrite Ht. transitivity (state_of (a <| sa_world := w' |>)); [by destruct e|]. unfold state_of. cbn. by rewrite Hd.
Qed.

Lemma with_input_same {A} decode (zero : A) r k a : (forall i, state_of (snd (k i a)) = state_of a) ->
  state_of (snd (with_input decode zero r k a)) = state_of a.
Proof using Type.
  intros Hk. unfold with_input, decodeJSON. destruct (decode_body _ _ _) as [i|text]; [apply Hk|done].
Qed.
Lemma mustChange_same r k a : state_of (snd (k a)) = state_of a -> state_of (snd (mustChange r k a)) = state_of a.
Proof using Type. intros Hk. unfold mustChange. by case_match. Qed.

(** C26: what is sensitive takes a second proof of the password.  Accounts made,
    deleted, suspended or given a new password, a tunnel credential that is reset, the
    Cloudflare token, a rebuild of the router's snapshot and a backup: called by
    someone who has no live ticket, each of their handlers leaves the database,
    the files and the connections as they were, and sends nothing. *)
Theorem sensitive_needs_ticket e id r a :
  guarded e = true -> no_ticket (authFrom r) (sa_world a) -> state_of (snd (handler e id r a)) = state_of a.
Proof using Type.
  intros He Hno. destruct e; try discriminate He; cbn [handler];
    unfold resetFRPCredential, cloudflareToken, clearCloudflare, createUser, deleteUser, setUserStatus, resetPassword,
      adminResetFRPCredential, routerRebuild, createBackup, ticketed, with_ticket;
    repeat first [apply mustChange_same|apply with_input_same; intros i]; by apply ticket_refused.
Qed.
End Tickets.

(** ** Writes that are not done twice *)

(** What is relied on: AES-GCM opens what it sealed and never seals to nothing;
    the random source gives as many bytes as it is asked for. *)
Record cipher_laws `{Env} : Prop := {
  cipher_opens k n p a : env_gcm_open k n (env_gcm_seal k n p a) a = Some p;
  cipher_some k n p a : env_gcm_seal k n p a <> ""%string;
  random_whole n k b : env_random n k = Some b -> String.length b = k
}.

Section Cipher.
Context `{Env} `{ServerEnv}.

Lemma b64_url_utf8 s : valid_utf8 (b64_encode url_alphabet s) = true.
Proof using Type. apply valid_ascii, b64_encode_chars. intros x. by destruct x as [[] [] [] [] [] []]. Qed.

(** The stored document is read back. *)
Lemma encrypted_reads_back c n :
  valid_utf8 c = true -> valid_utf8 n = true ->
  json_unmarshal decode_encrypted (tg_encode decode_encrypted (mkEncryptedResponse 1 c n)) (mkEncryptedResponse 0 "" "")
  = (mkEncryptedResponse 1 c n, true).
Proof using Type.
  intros Hc Hn. unfold json_unmarshal. cbn [tg_encode decode_encrypted]. cbn [er_Version er_Ciphertext er_Nonce].
  rewrite (parse_written 1); [reflexivity| |done].
  apply writes_object. exists 0%nat. split; [done|]. repeat constructor; done.
Qed.

Lemma encrypted_decrypts body aad w stored w1 w2 :
  cipher_laws -> encryptIdempotencyResponse body aad w = (Ok stored, w1) ->
  decryptIdempotencyResponse stored aad w2 = (Ok body, w2).
Proof using Type.
  intros Hl He. unfold encryptIdempotencyResponse, Encrypt, encryptWithKey in He. run_inv. subst.
  unfold decryptIdempotencyResponse. rewrite encrypted_reads_back by apply b64_url_utf8.
  match goal with Hr : env_random _ _ = Some ?b |- _ => pose proof (random_whole Hl _ _ _ Hr) as Hlen; rename b into nonce end.
  match goal with He : (env_gcm_seal _ _ _ _, _) = _ |- _ => injection He as <- <- end.
  cbn [er_Version er_Ciphertext er_Nonce].
  assert (forall s, s <> ""%string -> String.eqb (b64_encode url_alphabet s) "" = false) as Hne.
  { intros t Ht. apply String.eqb_neq. by apply b64_encode_nonempty. }
  rewrite !Hne by (apply (cipher_some Hl) || by destruct nonce). cbn [negb andb Z.eqb Pos.eqb].
  rewrite !DecodeString_encode by by right. unfold Decrypt, decryptWithKey.
  match goal with Hk : negb (aes_key_ok env_master_key) = false |- _ =>
    do 2 (erewrite bind_run by reflexivity); rewrite Hk, Hlen, (cipher_opens Hl) end. reflexivity.
Qed.

Lemma cipher_audit m : cipher_laws -> @cipher_laws (with_audit m).
Proof using Type. intros [H1 H2 H3]. by split. Qed.

End Cipher.

Section Replay.
Context `{Env} `{ServerEnv}.

(** The key of a write and the scope of its record. *)
Definition write_id (r : ServerRequest) :=
  (sq_Method r, normalizedIdempotencyPath r, idempotency_key r, hashIdempotencyBody (sq_Body r),
   ac_UserID (authFrom r), ac_Generation (authFrom r)).
Definition record_of (r : ServerRequest) (db : DB) : option Idempotency :=
  find_idempotency (authFrom r) (sq_Method r) (normalizedIdempotencyPath r) (idempotency_key r) db.
Definition keep (r : ServerRequest) (b : ReplyWriter) : HS unit :=
  keep_response r (authFrom r) (normalizedIdempotencyPath r) (idempotency_key r) (hashIdempotencyBody (sq_Body r))
    (idempotencyAAD (authFrom r) (sq_Method r) (normalizedIdempotencyPath r) (idempotency_key r)) b.

(** What is recorded of a reply, when a record is made. *)
Lemma kept_record r b a a' row :
  record_of r (w_db (sa_world a)) = None -> keep r b a = (Ok tt, a') -> record_of r (w_db (sa_world a')) = Some row ->
  i_body_hash row = hashIdempotencyBody (sq_Body r) /\ i_status row = buffer_status b /\
  exists stored w w1, i_response row = RespText stored /\
    @encryptIdempotencyResponse (with_audit (request_metadata r)) _ (rp_Body b)
      (idempotencyAAD (authFrom r) (sq_Method r) (normalizedIdempotencyPath r) (idempotency_key r)) w = (Ok stored, w1).
Proof using Type.
  intros Hno Hk Hrow. unfold keep, keep_response in Hk.
  destruct (success (buffer_status b)); [|by injection Hk as <-; congruence].
  apply bind_Ok in Hk as (x & a1 & He & Hk). unfold serviced, in_world in He.
  destruct (@encryptIdempotencyResponse _ _ _ _ _) as [y w1] eqn:Ee.
  assert (w_db w1 = w_db (sa_world a)) as Hd1.
  { revert Ee. unfold encryptIdempotencyResponse, Encrypt, encryptWithKey, fail_if, rand_read, mbind, M_bind, bind, ret, fail.
    repeat case_match; intros; by simplify_eq. }
  assert (a1 = a <| sa_world := w1 |>) as -> by congruence.
  destruct y as [stored|e]; [|destruct e; try discriminate He; injection He as <-; injection Hk as <-; cbn in Hrow; congruence].
  injection He as <-. apply bind_Ok in Hk as (z & a2 & Hr & Hk). injection Hk as <-.
  unfold serviced, in_world in Hr. destruct (@record_response _ _ _ _ _ _ _ _ _) as [y2 w2] eqn:Er.
  pose proof (f_equal (fun p => w_db (sa_world (snd p))) Hr) as Hd2. cbn in Hd2. rewrite <- Hd2 in Hrow. clear Hr Hd2 a2.
  unfold record_of in *. set (path := normalizedIdempotencyPath r) in *. set (key := idempotency_key r) in *.
  unfold record_response, newID, now, exec_checked, mbind, M_bind, bind in Er. cbn [step w_db w_tick sa_world set] in Er.
  destruct (env_fault _); [injection Er as _ <-; cbn [step w_db] in Hrow; congruence|].
  destruct (insert_idempotency _ _ _) as [db'|] eqn:Ei; [|injection Er as _ <-; cbn [step w_db] in Hrow; congruence].
  injection Er as _ <-. cbn [w_db] in Hrow. apply insert_idempotency_Ok in Ei as (_ & Hnew & ->).
  apply find_idempotency_Some in Hrow as (i & Hi & Hm). cbn in Hi.
  apply lookup_insert_Some in Hi as [[_ <-]|[_ Hi]].
  - cbn. split_and!; [done..|]. exists stored, (sa_world a), w1. done.
  - exfalso. rewrite Hnew in Hm; done.
Qed.

End Replay.
