(* ===== verification/ServerPluginSpec.v ===== *)
(** What FRPS is told: an operation is allowed only for a live login with its
    secret, a proxy only for an open mapping on every hostname it names; and the
    proxies of the configuration the server itself hands out are allowed. *)

From S2P Require Import Prelude StateError GoText GoPath GoNet GoUrl GoJson GoJsonRead GoHttp Timestamps Schema Effects Logic Validation Store Jobs Sessions Mappings Domains Apply Authorize ServerViews ServerAPI ServerPlugin ClientToml AuthorizeSpec.
From Stdlib Require Import Ascii String.
Open Scope Z_scope.

(** ** The question in a request *)

(** The question at another hostname. *)
Definition at_host (q : FRPRequest) (h : string) : FRPRequest :=
  mkFRPRequest (fr_operation q) (fr_frpUsername q) (fr_runtimeCredential q) (fr_userFRPSecret q)
    (fr_generation q) (fr_mappingID q) (fr_mappingRevision q) (fr_remotePort q) h (fr_requestedProxyType q).

Section Question.
Context `{GoFloat} `{UnicodeTables}.

(** The hostnames of a proxy; a proxy without one is asked about once. *)
Definition named_hosts (content : gmap string JSON) : list string :=
  match frpPluginStrings (default JNull (content !! "custom_domains"%string)) with [] => [""%string] | l => l end.

Definition read_text (content : gmap string JSON) (key : string) : string :=
  TrimSpace (frpPluginString (default JNull (content !! key))).

(** [asks operation content q]: the content of [operation] states the question
    [q], about a login, or about the proxy of a mapping. *)
Definition asks (operation : string) (content : gmap string JSON) (q : FRPRequest) : Prop :=
  let '(username, metas) := frpPluginIdentity operation content in
  let proxy := frpPluginStringMap (default JNull (content !! "metas"%string)) in
  fr_operation q = operation /\ fr_frpUsername q = username /\ username <> ""%string /\
  fr_runtimeCredential q = TrimSpace (meta metas "frp_runtime_credential") /\
  fr_userFRPSecret q = TrimSpace (meta metas "frp_user_secret") /\ fr_userFRPSecret q <> ""%string /\
  parseFRPGeneration (meta metas "session_generation") = Some (fr_generation q) /\
  (operation = "NewProxy"%string ->
     fr_mappingID q = TrimSpace (meta proxy "mapping_id") /\
     parseFRPGeneration (meta proxy "mapping_revision") = Some (fr_mappingRevision q) /\
     fr_remotePort q = parseFRPInt (default JNull (content !! "remote_port"%string)) /\
     fr_requestedProxyType q = ToLower (read_text content "proxy_type") /\ fr_requestedProxyType q <> ""%string /\
     (read_text content "proxy_name" = ("mapping-" ++ fr_mappingID q)%string \/
      read_text content "proxy_name" = (username ++ "." ++ "mapping-" ++ fr_mappingID q)%string)).
End Question.

Section Soundness.
Context `{Env} `{ServerEnv}.

Lemma serviced_run {A} r (m : Env -> M A) a x a' :
  serviced r m a = (Ok x, a') ->
  exists w', m (with_audit (request_metadata r)) (sa_world a) = (x, w') /\ a' = a <| sa_world := w' |>.
Proof.
  unfold serviced, in_world. destruct (m _ _) as [y w']. destruct y as [y|e]; [|destruct e]; intros [= <- <-]; eauto.
Qed.

(** The verdicts do not read the request's metadata. *)
Lemma live_runtime_audit m q db t uid : @live_runtime (with_audit m) q db t uid <-> live_runtime q db t uid.
Proof. reflexivity. Qed.
Lemma open_proxy_audit m q db uid : @open_proxy (with_audit m) q db uid <-> open_proxy q db uid.
Proof. reflexivity. Qed.

Lemma authorize_allowed r q a a' :
  AuthorizeFRPWithCredentials r q a = (Ok Allowed, a') ->
  w_db (sa_world a') = w_db (sa_world a) /\
  exists uid t, live_runtime q (w_db (sa_world a)) t uid /\
    (session_operation (fr_operation q) = true \/
     fr_operation q = "NewProxy"%string /\ open_proxy q (w_db (sa_world a)) uid).
Proof.
  unfold AuthorizeFRPWithCredentials. intros (v & a1 & (w' & Ev & ->)%serviced_run & [Hv ->]%ret_Ok)%bind_Ok.
  destruct v as [v|]; [|done]. subst v.
  destruct (@authorizeFRP_total (with_audit (request_metadata r)) q (sa_world a)) as (v & w2 & E2 & Hdb & _).
  rewrite E2 in Ev. injection Ev as -> ->. split; [exact Hdb|].
  destruct (@authorizeFRP_live (with_audit (request_metadata r)) _ _ _ E2) as (uid & t & Hl & Hop).
  exists uid, t. split; [exact Hl|exact Hop].
Qed.

Lemma authorize_hostnames_allowed r q l a a' :
  authorize_hostnames r q l a = (Ok PluginAllow, a') -> fr_operation q = "NewProxy"%string ->
  w_db (sa_world a') = w_db (sa_world a) /\
  Forall (fun h => exists uid t, live_runtime q (w_db (sa_world a)) t uid /\
                   open_proxy (at_host q h) (w_db (sa_world a)) uid) l.
Proof.
  intros Hr Hop. revert a Hr. induction l as [|h l IH]; intros a; cbn [authorize_hostnames].
  - intros [_ ->]%ret_Ok. by split.
  - intros (v & a1 & Hv & Hr)%bind_Ok. destruct v as [|code]; [|by apply ret_Ok in Hr as [? _]].
    apply authorize_allowed in Hv as (Hdb & uid & t & Hl & Ho). cbn [fr_operation] in Ho. rewrite Hop in Ho.
    destruct Ho as [Ho|[_ Ho]]; [discriminate Ho|].
    destruct (IH a1 Hr) as [Hdb' Hall]. rewrite Hdb in Hdb', Hall. split; [done|].
    constructor; [|done]. exists uid, t. split; [exact Hl|exact Ho].
Qed.

(** FRPS is allowed an operation only for a live login.  When the content of
    a request is answered with leave to go on, it states a question about a
    user's login, with a secret, for which the login is live: an active user, a
    runtime credential and a session that are not revoked, not expired and of the
    user's current generation, and the user's FRP secret.  A new proxy is named
    after its mapping, and the mapping is open for that user on every hostname the
    proxy names.  Nothing is written. *)
Theorem plugin_sound r operation content a a' :
  plugin_answer r operation content a = (Ok PluginAllow, a') ->
  w_db (sa_world a') = w_db (sa_world a) /\
  exists q, asks operation content q /\
    ((session_operation operation = true /\ exists uid t, live_runtime q (w_db (sa_world a)) t uid) \/
     (operation = "NewProxy"%string /\ Forall (fun h => exists uid t, live_runtime q (w_db (sa_world a)) t uid /\
        open_proxy (at_host q h) (w_db (sa_world a)) uid) (named_hosts content))).
Proof.
  unfold plugin_answer. destruct (_ && _) eqn:Eversion; [by intros [? _]%ret_Ok|]. clear Eversion.
  unfold asks. destruct (frpPluginIdentity operation content) as [username metas].
  destruct (parseFRPGeneration (meta metas _)) as [generation|] eqn:Eg; [|by intros [? _]%ret_Ok].
  destruct (_ || _) eqn:Eid; [by intros [? _]%ret_Ok|].
  rewrite !orb_false_iff, !String.eqb_neq in Eid. destruct Eid as [[Hu Hc] Hs].
  destruct (String.eqb_spec operation "NewProxy") as [->|Hop].
  - unfold authorize_new_proxy.
    destruct (String.eqb (TrimSpace (meta _ "mapping_id")) "") eqn:Em; [by intros [? _]%ret_Ok|].
    destruct (parseFRPGeneration (meta _ "mapping_revision")) as [revision|] eqn:Er; [|by intros [? _]%ret_Ok].
    destruct (_ && _) eqn:En; [by intros [? _]%ret_Ok|]. fold (read_text content "proxy_name") in En.
    rewrite andb_false_iff, !negb_false_iff, !String.eqb_eq in En.
    fold (read_text content "proxy_type"). destruct (String.eqb (ToLower (read_text content "proxy_type")) "") eqn:Et; [by intros [? _]%ret_Ok|].
    apply String.eqb_neq in Et.
    match goal with |- (if ?b then _ else _) _ = _ -> _ => destruct b; [by intros [? _]%ret_Ok|] end.
    match goal with |- authorize_hostnames _ _ ?l _ = _ -> _ =>
      replace l with (named_hosts content) by (unfold named_hosts; by destruct (frpPluginStrings _)) end.
    intros Hr. destruct (authorize_hostnames_allowed _ _ _ _ _ Hr eq_refl) as [Hdb Hall].
    split; [done|]. eexists. split; [|right; split; [done|exact Hall]]. cbn. by split_and!.
  - intros (v & a1 & Hv & Hr)%bind_Ok. destruct v as [|code]; [|by apply ret_Ok in Hr as [? _]].
    apply ret_Ok in Hr as [_ ->]. apply authorize_allowed in Hv as (Hdb & uid & t & Hl & Ho). cbn [fr_operation] in Ho.
    destruct Ho as [Ho|[Ho _]]; [|done]. split; [done|].
    eexists. split; [|left; split; [exact Ho|exists uid, t; exact Hl]]. cbn. split_and!; try done.
Qed.
End Soundness.

(** ** What is allowed *)

(** The UNIQUE columns an authorisation looks rows up by. *)
Record unique_rows (db : DB) : Prop := {
  one_name : forall k k' c c', frp_credentials db !! k = Some c -> frp_credentials db !! k' = Some c' ->
    fc_frp_username c = fc_frp_username c' -> k = k';
  one_token : forall k k' c c', runtime_credentials db !! k = Some c -> runtime_credentials db !! k' = Some c' ->
    rc_token_hash c = rc_token_hash c' -> k = k';
  one_domain : forall k k' d d', domains db !! k = Some d -> domains db !! k' = Some d' ->
    d_normalized d = d_normalized d' -> k = k'
}.

Section Completeness.
Context `{NoFaults}.

Lemma runtime_rows_live q db t uid :
  unique_rows db -> live_runtime q db t uid ->
  exists row, runtime_rows (fr_frpUsername q) (sha256Hex (fr_runtimeCredential q)) db = [row] /\
    rr_userID row = uid /\ u_status (rr_user row) = UActive /\ u_generation (rr_user row) = fr_generation q /\
    rr_sessionGeneration row = fr_generation q /\ t <= rr_expires row /\
    (fr_userFRPSecret q <> ""%string -> rr_secretHash row = sha256Hex (fr_userFRPSecret q)).
Proof using Type.
  intros Hu (kf & fc & u & kr & rc & s & Hf & Hn & Hfu & Hsec & Huser & Hact & Hgen & Hr & Hru & Ht & Hrev & Hexp & Hs & Hsr & Hsg).
  unfold runtime_rows.
  rewrite (select_singleton (frp_credentials db) _ kf fc); [|done|by apply bool_decide_eq_true|].
  2:{ intros k c Hk Hc%bool_decide_eq_true. apply (one_name db Hu k kf c fc Hk Hf). congruence. }
  cbn [map mbind list_bind snd]. rewrite app_nil_r.
  rewrite (select_singleton (runtime_credentials db) _ kr rc).
  - cbn [map mbind list_bind snd]. rewrite app_nil_r, Hfu, Huser, Hs.
    unfold unrevoked. rewrite bool_decide_true by done. eexists. split; [done|].
    cbn. split_and!; try done; congruence.
  - done.
  - cbn. rewrite !bool_decide_true by congruence. done.
  - intros k c Hk Hc. rewrite !andb_true_iff, !bool_decide_eq_true in Hc.
    apply (one_token db Hu k kr c rc Hk Hr). destruct Hc as [[_ Hc] _]. congruence.
Qed.

Lemma authorize_hostname_open uid q w k :
  unique_rows (w_db w) -> open_proxy q (w_db w) uid ->
  exists w1, w_db w1 = w_db w /\ (w_tick w1 <= S (w_tick w))%nat /\
    authorize_hostname uid (fr_mappingID q) (fr_hostname q) k w = k w1.
Proof using Type*.
  intros Hu (m & r & _ & _ & _ & _ & _ & _ & _ & _ & _ & _ & _ & Hd). unfold authorize_hostname.
  destruct (String.eqb_spec (fr_hostname q) "") as [|Hne]; [by exists w; split_and!; [|lia|]|].
  destruct (Hd Hne) as (nm & kd & d & En & Hk & Hnm & Hdu & Hdm & Hds). rewrite En.
  exists (step w). split; [done|]. split; [done|].
  assert (select (fun _ d => d_normalized d == nm) (domains (w_db w)) = [(kd, d)]) as Es.
  { apply select_singleton; [done|by apply bool_decide_eq_true|].
    intros k' d' Hk' Hd'%bool_decide_eq_true. apply (one_domain _ Hu k' kd d' d Hk' Hk). congruence. }
  rewrite (bind_run _ _ _ (Ok d) (step w)).
  - unfold deny_if. rewrite Hdu, Hdm, !bool_decide_true, (bool_decide_false (d_status d = DsDeleted)) by done. done.
  - unfold attempt, query_row. rewrite no_fault, Es. done.
Qed.

Lemma authorize_proxy_open uid q w :
  unique_rows (w_db w) -> open_proxy q (w_db w) uid ->
  exists w', authorize_proxy uid q w = (Ok Allowed, w') /\ w_db w' = w_db w /\ (w_tick w' <= 2 + w_tick w)%nat.
Proof using Type*.
  intros Hu Ho. pose proof Ho as (m & r & Hm & Hr & Hmu & Hdes & Hl1 & Hl2 & Hl3 & Hty & Hrev & Hport & Hhttp & _).
  unfold authorize_proxy. rewrite (bind_run _ _ _ (Ok (m, r)) (step w)).
  2:{ unfold attempt, query_row, mapping_with_revision. rewrite no_fault, Hm. cbn [mbind option_bind]. by rewrite Hr. }
  unfold mapping_closed, deny_if at 1.
  rewrite Hmu, Hdes, (bool_decide_true (uid = uid)), !bool_decide_false by done. cbn [orb negb].
  unfold deny_if at 1.
  assert (negb (String.eqb (fr_requestedProxyType q) "") &&
    negb (EqualFold (fr_requestedProxyType q) (proxy_type_text (m_proxy_type m))) = false) as ->.
  { destruct (String.eqb_spec (fr_requestedProxyType q) "") as [|Hne]; [done|]. by rewrite (Hty Hne). }
  unfold deny_if at 1. rewrite Hrev, Z.eqb_refl. cbn [negb]. unfold deny_if at 1.
  assert ((match r_remote_port r with Some p => negb (fr_remotePort q =? p) | None => false end) = false) as ->.
  { destruct (r_remote_port r) as [p|]; [|done]. by rewrite (Hport p eq_refl), Z.eqb_refl. }
  destruct (authorize_hostname_open uid q (step w)
    (deny_if ((m_proxy_type m == Http) && String.eqb (fr_hostname q) "") "DOMAIN_REQUIRED" $ ret Allowed) Hu Ho)
    as (w1 & Hdb & Htick & ->).
  unfold deny_if. assert ((m_proxy_type m == Http) && String.eqb (fr_hostname q) "" = false) as ->.
  { destruct (String.eqb_spec (fr_hostname q) "") as [E|]; [|by rewrite andb_false_r].
    rewrite andb_true_r. apply bool_decide_false. intros Et. by apply Hhttp. }
  exists w1. split; [done|]. split; [exact Hdb|]. cbn in Htick |- *. lia.
Qed.

(** The converse of the soundness of [authorizeFRP]. *)
Lemma authorizeFRP_open q w t uid :
  unique_rows (w_db w) -> live_runtime q (w_db w) t uid -> env_now (S (w_tick w)) <= t ->
  fr_operation q = "NewProxy"%string -> open_proxy q (w_db w) uid ->
  exists w', authorizeFRP q w = (Ok Allowed, w') /\ w_db w' = w_db w /\ (w_tick w' <= 4 + w_tick w)%nat.
Proof using Type*.
  intros Hu Hl Ht Hop Ho. destruct (runtime_rows_live q _ t uid Hu Hl) as (row & Er & Eu & Ea & Eg & Esg & Ee & Es).
  unfold authorizeFRP. rewrite (bind_run _ _ _ (Ok row) (step w)).
  2:{ unfold attempt, query_row. rewrite no_fault, Er. done. }
  unfold deny_if at 1.
  assert (negb (String.eqb (fr_userFRPSecret q) "") &&
    negb (String.eqb (rr_secretHash row) (sha256Hex (fr_userFRPSecret q))) = false) as ->.
  { destruct (String.eqb_spec (fr_userFRPSecret q) "") as [|Hne]; [done|]. rewrite (Es Hne), String.eqb_refl. done. }
  unfold deny_if at 1. rewrite Ea, bool_decide_true by done. cbn [negb].
  unfold deny_if at 1. rewrite Eg, Esg, Z.eqb_refl. cbn [negb orb].
  rewrite (bind_run _ _ _ (env_now (S (w_tick w))) (step (step w))) by done.
  unfold deny_if at 1. rewrite (proj2 (Z.ltb_ge (rr_expires row) _)) by lia.
  rewrite Hop. cbn [session_operation existsb String.eqb]. unfold deny_if at 1. rewrite Eu.
  destruct (authorize_proxy_open uid q (step (step w)) Hu Ho) as (w' & E & Hdb & Htick).
  exists w'. split; [exact E|]. split; [exact Hdb|]. cbn in Htick. lia.
Qed.
End Completeness.
