(* ===== verification/EndToEnd.v ===== *)
(** How the parts fit: the proxies of the configuration the server hands out are
    the ones its FRPS plugin lets through. *)

From S2P Require Import Prelude StateError GoText GoPath GoNet GoUrl GoJson GoJsonRead GoHttp Timestamps Schema Effects Logic Validation Store Jobs Sessions Mappings Domains Apply Authorize ServerViews ServerAPI ServerPlugin AuthorizeSpec ServerPluginSpec.
From Stdlib Require Import Ascii String.
Open Scope Z_scope.

(** ** What a configuration lists *)

Section Served.
Context `{Env}.

Lemma elem_of_page {A} limit offset (l : list A) x : x ∈ page_of limit offset l -> x ∈ l.
Proof.
  unfold page_of. intros Hx. rewrite <- (take_drop (Z.to_nat offset) l). apply elem_of_app. right.
  rewrite <- (take_drop (Z.to_nat limit)). apply elem_of_app. by left.
Qed.

Lemma ListMappings_rows uid w l w' v :
  ListMappings uid w = (Ok l, w') -> v ∈ l ->
  w_db w' = w_db w /\ exists k m, mappings (w_db w) !! k = Some m /\ m_user_id m = uid /\ m_lifecycle m <> LDeleted /\
    v = mapping_view (w_db w) k m.
Proof.
  unfold ListMappings, ListMappingsPage. intros Hr Hv. destruct (normalizePage _ _) as [page size].
  apply bind_Ok in Hr as ([items info] & w1 & Hr & [-> ->]%ret_Ok).
  apply bind_Ok in Hr as (total & w2 & (_ & -> & ->)%query_Ok & Hr).
  apply bind_Ok in Hr as (rows & w3 & (_ & -> & ->)%query_Ok & [[= <- _] ->]%ret_Ok).
  split; [done|]. apply list_elem_of_fmap in Hv as ([k m] & -> & Hkm).
  apply elem_of_page, elem_of_order_by, elem_of_select in Hkm as [Hk Ho].
  unfold owned_mapping in Ho. rewrite andb_true_iff, negb_true_iff, bool_decide_eq_true, bool_decide_eq_false in Ho.
  exists k, m. by destruct Ho.
Qed.

Lemma ListMappings_db uid w r w' : ListMappings uid w = (r, w') -> w_db w' = w_db w.
Proof.
  unfold ListMappings, ListMappingsPage. destruct (normalizePage _ _) as [page size].
  unfold mbind, M_bind, bind, query, ret. destruct (env_fault (w_tick w)); [by intros [= _ <-]|].
  cbn. destruct (env_fault (S (w_tick w))); by intros [= _ <-].
Qed.

Lemma ListDomains_rows uid w r w' :
  ListDomains uid w = (r, w') -> w_db w' = w_db w /\
  forall l v, r = Ok l -> v ∈ l -> exists k d, domains (w_db w) !! k = Some d /\ d_user_id d = uid /\
    d_status d <> DsDeleted /\ v = domain_view (w_db w) k d.
Proof.
  unfold ListDomains, ListDomainsPage. destruct (normalizePage _ _) as [page size].
  unfold mbind, M_bind, bind, query, ret. destruct (env_fault (w_tick w)); [by intros [= <- <-]|].
  cbn. destruct (env_fault (S (w_tick w))); intros [= <- <-]; (split; [done|]); intros l v Hl Hv; [done|].
  injection Hl as <-. apply list_elem_of_fmap in Hv as ([k d] & -> & Hkd).
  apply elem_of_page, elem_of_order_by, elem_of_select in Hkd as [Hk Ho].
  unfold owned_domain in Ho. rewrite andb_true_iff, negb_true_iff, bool_decide_eq_true, bool_decide_eq_false in Ho.
  exists k, d. by destruct Ho.
Qed.

(** A mapping as a configuration lists it. *)
Definition served_row (uid : string) (db : DB) (i : ConfigItem) : Prop :=
  exists m, mappings db !! ci_mapping_id i = Some m /\ m_user_id m = uid /\ m_desired m = DEnabled /\
    m_lifecycle m <> LDeleted /\ m_lifecycle m <> LDeleting /\ ci_proxy_type i = m_proxy_type m /\
    ci_revision i = from_option r_revision 0 (current_revision db m) /\
    ci_remote_port i = current_revision db m ≫= r_remote_port /\
    (forall h, h ∈ ci_custom_domains i -> exists k d, domains db !! k = Some d /\ d_normalized d = h /\
       d_user_id d = uid /\ d_mapping_id d = ci_mapping_id i /\ d_status d <> DsDeleted).

Lemma FullConfig_rows json key sign ac w snapshot w' i :
  FullConfig json key sign ac w = (Ok snapshot, w') -> i ∈ cp_mappings (cfs_Payload snapshot) ->
  served_row (ac_UserID ac) (w_db w) i /\ served_row (ac_UserID ac) (w_db w') i.
Proof.
  unfold FullConfig. intros (u & w1 & (_ & _ & ->)%query_row_Ok & Hr)%bind_Ok Hi.
  apply bind_Ok in Hr as (ms & w2 & Hm & Hr).
  apply bind_Ok in Hr as (ds & w3 & Hd & Hr). apply (proj1 (attempt_Ok _ _ _ _)) in Hd.
  apply bind_Ok in Hr as (t & w4 & [_ ->]%now_Ok & Hr). cbv zeta in Hr.
  apply bind_Ok in Hr as (row & w5 & [_ ->]%newID_Ok & Hr). apply bind_Ok in Hr as (t2 & w6 & [_ ->]%now_Ok & Hr).
  apply bind_Ok in Hr as (? & w7 & Hex & [<- ->]%ret_Ok). cbn in Hi.
  apply exec_checked_Ok in Hex as (_ & db' & Hex & ->). unfold replace_config_snapshot, reject in Hex.
  destruct (absent _ _); [done|]. injection Hex as <-.
  assert (served_row (ac_UserID ac) (w_db w) i) as Hrow; [|split; [exact Hrow|]].
  2:{ apply ListDomains_rows in Hd as [Ed _]. rewrite (ListMappings_db _ _ _ _ Hm) in Ed. cbn in Ed |- *. by rewrite Ed. }
  apply list_elem_of_fmap in Hi as (v & -> & Hv). apply list_elem_of_filter in Hv as [Hs Hv].
  destruct (ListMappings_rows _ _ _ _ _ Hm Hv) as [Hdb (k & m & Hk & Hu & Hl & ->)].
  apply ListDomains_rows in Hd as [_ Hd]. rewrite Hdb in Hd. cbn [w_db step] in *.
  unfold served in Hs. apply negb_true_iff in Hs. rewrite orb_false_iff, !bool_decide_eq_false in Hs. cbn in Hs.
  exists m. cbn. split_and!; try done; try (by destruct Hs).
  { destruct (m_desired m); [done|]. by destruct Hs. }
  intros h Hh. unfold custom_domains in Hh. apply list_elem_of_fmap in Hh as (dv & -> & Hdv).
  apply list_elem_of_filter in Hdv as [[Hnd Hmid] Hin].
  destruct ds as [l|]; [|by apply elem_of_nil in Hin].
  destruct (Hd l dv eq_refl Hin) as (kd & d & Hkd & Hdu & Hds & ->). cbn in *. by exists kd, d.
Qed.
End Served.

(** ** The proxy FRPS announces *)

(** [announces content username metas i]: the content of a [NewProxy] request of
    the user names the proxy of the configuration's item [i], in the form the
    client writes it to FRPC's file: the name [mapping-] and the identifier behind
    the user's, the type, the port unless it is http, the domains and the two
    entries of the proxy's metadata. *)
Record announces `{GoFloat} (content : gmap string JSON) (username : string) (metas : gmap string string) (i : ConfigItem) : Prop := {
  an_identity : frpPluginIdentity "NewProxy" content = (username, metas);
  an_name : read_text content "proxy_name" = (username ++ "." ++ "mapping-" ++ ci_mapping_id i)%string;
  an_type : read_text content "proxy_type" = proxy_type_text (ci_proxy_type i);
  an_mapping : let proxy := frpPluginStringMap (default JNull (content !! "metas"%string)) in
    TrimSpace (meta proxy "mapping_id") = ci_mapping_id i /\ meta proxy "mapping_revision" = itoa (ci_revision i);
  an_port : parseFRPInt (default JNull (content !! "remote_port"%string)) =
    match ci_proxy_type i with Http => 0 | _ => default 0 (ci_remote_port i) end;
  an_domains : frpPluginStrings (default JNull (content !! "custom_domains"%string)) = ci_custom_domains i
}.

(** What a proxy needs to be let through: an http one has a domain and no port,
    the others have no domain. *)
Definition complete (i : ConfigItem) : Prop :=
  match ci_proxy_type i with
  | Http => ci_custom_domains i <> [] /\ ci_remote_port i = None
  | _ => ci_custom_domains i = []
  end.

Section EndToEnd.
Context `{NoFaults} `{ServerEnv}.

Lemma digits_graphic s : forallb_str is_digit s = true -> forallb_str graphic s = true.
Proof.
  induction s as [|c s IH]; [done|]. cbn. intros [Hc Hs]%andb_true_iff. rewrite IH, andb_true_r by done.
  clear - Hc. destruct c as [[] [] [] [] [] [] [] []]; (discriminate Hc || reflexivity).
Qed.

Lemma parse_revision v : 0 < v < 2 ^ 63 -> parseFRPGeneration (itoa v) = Some v.
Proof.
  intros Hv. destruct (itoa_digits v ltac:(lia)) as (Hd & Hne & _). unfold parseFRPGeneration.
  rewrite TrimSpace_graphic by (by apply digits_graphic).
  rewrite (proj2 (String.eqb_neq _ _) Hne), Atoi_itoa by lia. by rewrite (proj2 (Z.ltb_lt 0 v)) by lia.
Qed.

Lemma proxy_type_lower t : ToLower (proxy_type_text t) = proxy_type_text t.
Proof. by destruct t. Qed.
Lemma proxy_type_fold t : EqualFold (proxy_type_text t) (proxy_type_text t) = true.
Proof. by destruct t. Qed.

(** The row stands for an open proxy at each of its hostnames. *)
Lemma served_open q i db uid h :
  served_row uid db i -> complete i -> 0 < ci_revision i ->
  (forall m, mappings db !! ci_mapping_id i = Some m -> m_lifecycle m <> LDisabled) ->
  (forall k d, domains db !! k = Some d -> normalizeDomain (d_normalized d) = Ok (d_normalized d)) ->
  fr_mappingID q = ci_mapping_id i -> fr_mappingRevision q = ci_revision i ->
  fr_requestedProxyType q = proxy_type_text (ci_proxy_type i) ->
  fr_remotePort q = (match ci_proxy_type i with Http => 0 | _ => default 0 (ci_remote_port i) end) ->
  h ∈ match ci_custom_domains i with [] => [""%string] | l => l end ->
  open_proxy (at_host q h) db uid.
Proof using Type.
  intros (m & Hm & Hu & Hdes & Hl1 & Hl2 & Hty & Hrev & Hport & Hdom) Hc Hpos Hld Hnorm Emid Erev Etype Eport Hh.
  unfold open_proxy. cbn. rewrite Emid. destruct (current_revision db m) as [r|] eqn:Er.
  2:{ cbn in Hrev. lia. }
  cbn in Hrev, Hport. exists m, r. split_and!; try done.
  - by apply Hld.
  - intros _. rewrite Etype, Hty. apply proxy_type_fold.
  - congruence.
  - intros p Hp. rewrite Eport, Hport, Hp. unfold complete in Hc. rewrite Hport, Hp in Hc.
    destruct (ci_proxy_type i); [done|done|]. by destruct Hc.
  - intros Ht ->. unfold complete in Hc. rewrite Hty, Ht in Hc. destruct Hc as [Hne _].
    destruct (ci_custom_domains i) as [|x l] eqn:El; [done|].
    destruct (Hdom ""%string Hh) as (k & d & Hk & Hn & _). apply Hnorm in Hk. rewrite Hn in Hk.
    unfold normalizeDomain in Hk. cbn in Hk. discriminate Hk.
  - intros Hne. destruct (ci_custom_domains i) as [|x l] eqn:El.
    { apply list_elem_of_singleton in Hh. by subst h. }
    destruct (Hdom h Hh) as (k & d & Hk & Hn & Hdu & Hdm & Hds). exists h, k, d.
    split_and!; try done. rewrite <- Hn. by apply (Hnorm k).
Qed.

#[local] Instance no_faults_audit m : @NoFaults (with_audit m).
Proof using Type*. intros n. exact (@no_fault H H0 n). Qed.

Lemma authorize_hostnames_open r q l a t uid :
  unique_rows (w_db (sa_world a)) -> live_runtime q (w_db (sa_world a)) t uid -> fr_operation q = "NewProxy"%string ->
  (forall n, (n <= w_tick (sa_world a) + 4 * List.length l)%nat -> env_now n <= t) ->
  Forall (fun h => open_proxy (at_host q h) (w_db (sa_world a)) uid) l ->
  exists a', authorize_hostnames r q l a = (Ok PluginAllow, a').
Proof using Type*.
  intros Hu Hl Hop Ht Hall. revert a Hu Hl Ht Hall. induction l as [|h l IH]; intros a Hu Hl Ht Hall.
  { eexists. reflexivity. }
  apply Forall_cons in Hall as [Hh Hall]. cbn [authorize_hostnames].
  destruct (@authorizeFRP_open (with_audit (request_metadata r)) (no_faults_audit _) (at_host q h) (sa_world a) t uid Hu)
    as (w' & E & Hdb & Htick); [exact Hl|apply (Ht (S (w_tick (sa_world a)))); cbn; lia|exact Hop|exact Hh|].
  rewrite (bind_run _ _ _ Allowed (a <| sa_world := w' |>)).
  - apply IH; cbn.
    + by rewrite Hdb.
    + rewrite Hdb. exact Hl.
    + intros n Hn. apply Ht. cbn. lia.
    + by rewrite Hdb.
  - unfold AuthorizeFRPWithCredentials.
    rewrite (bind_run _ _ _ (Ok Allowed) (a <| sa_world := w' |>)); [done|].
    unfold serviced, in_world. fold (at_host q h). rewrite E. done.
Qed.

(** The login a request states. *)
Definition login_of (username : string) (metas : gmap string string) (generation : Z) : FRPRequest :=
  mkFRPRequest "NewProxy" username (TrimSpace (meta metas "frp_runtime_credential"))
    (TrimSpace (meta metas "frp_user_secret")) generation "" 0 0 "" "".

(** C9: The proxies the server hands out are the ones it lets through.  Take an item
    of the configuration [FullConfig] answers a user with, that is complete for its
    type and not disabled by its last acknowledgement.  When FRPS asks the plugin
    about the proxy the client announces for it, in a login of that user that is
    live, the answer is leave to go on: port, type, name, revision and every domain
    agree with the tables. *)
Theorem served_proxy_allowed json key sign ac w snapshot w' i r content username metas generation t a :
  FullConfig json key sign ac w = (Ok snapshot, w') -> i ∈ cp_mappings (cfs_Payload snapshot) ->
  complete i -> 0 < ci_revision i < 2 ^ 63 ->
  w_db (sa_world a) = w_db w' -> unique_rows (w_db w') ->
  (forall m, mappings (w_db w') !! ci_mapping_id i = Some m -> m_lifecycle m <> LDisabled) ->
  (forall k d, domains (w_db w') !! k = Some d -> normalizeDomain (d_normalized d) = Ok (d_normalized d)) ->
  announces content username metas i -> ci_mapping_id i <> ""%string -> username <> ""%string ->
  TrimSpace (meta metas "frp_runtime_credential") <> ""%string ->
  TrimSpace (meta metas "frp_user_secret") <> ""%string ->
  parseFRPGeneration (meta metas "session_generation") = Some generation ->
  live_runtime (login_of username metas generation) (w_db w') t (ac_UserID ac) ->
  (forall n, (n <= w_tick (sa_world a) + 4 * S (List.length (ci_custom_domains i)))%nat -> env_now n <= t) ->
  exists a', plugin_answer r "NewProxy" content a = (Ok PluginAllow, a').
Proof using Type*.
  intros Hfull Hi Hc Hrev Hdb Hu Hld Hnorm [Hid Hname Htype Hmap Hport Hdoms] Hmid Hun Hcred Hsec Hgen Hlive Hclock.
  destruct (FullConfig_rows _ _ _ _ _ _ _ _ Hfull Hi) as [_ Hrow]. cbv zeta in Hmap. destruct Hmap as [Emid Emrev].
  unfold plugin_answer. cbn [String.eqb Ascii.eqb Bool.eqb andb]. rewrite Hid, Hgen.
  rewrite !(proj2 (String.eqb_neq _ _)) by done. cbn [orb]. unfold authorize_new_proxy.
  fold (read_text content "proxy_name") (read_text content "proxy_type").
  rewrite Emid, Emrev, (parse_revision _ Hrev), Hname, Htype, Hport, Hdoms, proxy_type_lower, String.eqb_refl, andb_false_r.
  rewrite (proj2 (String.eqb_neq _ _) Hmid).
  assert (String.eqb (proxy_type_text (ci_proxy_type i)) "" = false) as -> by (by destruct (ci_proxy_type i)).
  match goal with |- context [if ?b then ret (frpPluginReject "PROXY_DOMAINS_NOT_ALLOWED" _) else _] =>
    assert (b = false) as -> end.
  { unfold complete in Hc. destruct (ci_proxy_type i); first [by rewrite Hc|done]. }
  apply authorize_hostnames_open with (t := t) (uid := ac_UserID ac); rewrite ?Hdb; try done.
  - intros n Hn. apply Hclock. destruct (ci_custom_domains i); cbn in Hn |- *; lia.
  - apply Forall_forall. intros h Hh. apply (served_open _ i); try done; [lia|].
    by destruct (ci_custom_domains i).
Qed.
End EndToEnd.
