(* ===== verification/ServerWitness.v ===== *)
(** Instances of the theorems about the server's API, its FRPS plugin, its
    backups, its keys, the ACME issuer and the server's start, at a concrete outside: the file system and SQLite of a package, a zip
    format, a router and a handshake, over the small database of [Sample] with its
    logged-in user. *)

From S2P Require Import Prelude StateError GoText GoNet Timestamps Encoding RateLimit GoUrl GoPath GoJson GoJsonRead GoHttp ClientSecurity Schema Effects Logic Sample Store Sessions SessionsSpec Mappings MappingsSpec Apply Authorize ApplySpec AuthorizeSpec Cloudflare Router RouterControl KeyFiles Issuer Backup BackupSpec BackupRoundTrip Startup ServerViews ServerAPI ServerHandlers ServerAdmin ServerPlugin ServerHTTP ServerHTTPSpec ServerGateSpec ServerPluginSpec EndToEnd.
From Stdlib Require Import Ascii String.
Open Scope Z_scope.

(** ** Numbers, digests, ciphers *)

(** Integers have their decimal text; no other number occurs. *)
Definition sample_float : GoFloat := {|
  parse_float s := match Atoi s with
                   | Some v => match number_of_int v with JNumber m e => Some (m, e) | _ => None end
                   | None => None
                   end;
  json_float m e := itoa (trunc_float m e);
  fmt_float m e := itoa (trunc_float m e);
  int_overflow _ _ := 0
|}.

(** A clock that stands still, a digest with a mark before the text, and a
    cipher with a tag of sixteen bytes before associated data and text. *)
Definition a_tag : string := "0123456789abcdef".
Definition strip (p s : string) : option string := if HasPrefix s p then Some (drop_str (String.length p) s) else None.
Definition noon : Stamp := 1700000000 * second.

Definition still_env : Env := {|
  env_now := fun _ => noon; env_id := env_id; env_random := env_random; env_fault := env_fault;
  env_config := env_config; env_jobs := env_jobs; env_audit := env_audit; env_sha256 := fun s => ("h" ++ s)%string;
  env_hash_body := env_hash_body; env_argon2 := env_argon2;
  env_gcm_seal := fun _ _ plaintext aad => (a_tag ++ (aad ++ plaintext))%string;
  env_gcm_open := fun _ _ ciphertext aad => strip (a_tag ++ aad) ciphertext;
  env_master_key := env_master_key; env_sql_text := env_sql_text;
  env_certificate_key := env_certificate_key; env_router_key := env_router_key;
  env_unicode := env_unicode; env_idna := env_idna |}.

Lemma strip_app p s : strip p (p ++ s) = Some s.
Proof.
  unfold strip. induction p as [|c p IH].
  - destruct s; reflexivity.
  - rewrite append_cons. cbn. rewrite Ascii.eqb_refl. exact IH.
Qed.

(** ** Zip archives *)

(** A text with every character marked, and an end. *)
Fixpoint marked (s rest : string) : string :=
  match s with EmptyString => String "." rest | String c s' => String "x" (String c (marked s' rest)) end.
Fixpoint unmarked (s : string) : list string :=
  match s with
  | String "." s' => "" :: unmarked s'
  | String "x" (String c s') => match unmarked s' with t :: l => String c t :: l | [] => [] end
  | _ => []
  end%string.

Definition a_zip_file (l : list (string * string)) : string :=
  fold_right (fun kv rest => marked (fst kv) (marked (snd kv) rest)) "" l.
Fixpoint pairs (l : list string) : list ZipEntry :=
  match l with name :: data :: l' => mkZipEntry name data None :: pairs l' | _ => [] end.
Definition a_zip_open (s : string) : option (list ZipEntry) := Some (pairs (unmarked s)).

Lemma unmarked_marked s rest : unmarked (marked s rest) = s :: unmarked rest.
Proof. induction s as [|c s IH]; [done|]. cbn [marked unmarked]. by rewrite IH. Qed.

Lemma zip_round l : a_zip_open (a_zip_file l) = Some (map (fun kv => mkZipEntry kv.1 kv.2 None) l).
Proof.
  unfold a_zip_open. f_equal. induction l as [|[k v] l IH]; [done|]. cbn [a_zip_file fold_right fst snd].
  rewrite !unmarked_marked. cbn [pairs map fst snd]. f_equal. exact IH.
Qed.

(** ** Databases

    The database of the logged-in user, and what a restoration makes of it: which
    of its three updates it has had. *)
Definition live_image (db : DB) : Image :=
  mkImage ["sessions"; "frp_runtime_credentials"; "system_identity"]%string db 9 None.
Definition stage (revoked cut marked : bool) : Image :=
  let f b (g : Stamp -> Image -> Image) := if b : bool then g noon else id in
  f marked mark_restored (f cut revoke_credentials (f revoked revoke_sessions (live_image (w_db sample_logged_in)))).

Definition flag (b : bool) : string := if b then "1" else "0".
Definition unflag (c : ascii) : bool := Ascii.eqb c "1".
Definition all_revoked {A} (f : A -> option Stamp) (t : Table A) : bool := forallb (fun kv => negb (f (snd kv) == None)) (map_to_list t).

Definition a_sqlite_file (i : Image) : string :=
  ("SQLite" ++ flag (all_revoked s_revoked (sessions (im_db i))) ++ flag (all_revoked rc_revoked (runtime_credentials (im_db i)))
    ++ flag (negb (im_restored i == None)))%string.
Definition a_sqlite_open (s : string) : option Image :=
  match strip "SQLite" s with
  | Some (String a (String b (String c EmptyString))) => Some (stage (unflag a) (unflag b) (unflag c))
  | _ => None
  end.

Definition a_backup : BackupEnv := {|
  bk_fault := fun _ => None; bk_torn := fun _ => 0%nat; bk_temp := fun _ => "0"; bk_tempdir := "/tmp"; bk_cwd := "/srv";
  bk_live := live_image; bk_order := fun _ l => l; bk_order_perm := fun _ l => Permutation_refl l;
  sqlite_file := a_sqlite_file; sqlite_open := a_sqlite_open; bk_scrypt := fun password salt => fit 32 (password ++ salt);
  zip_file := a_zip_file; zip_open := a_zip_open
|}%string.

Definition staged (i : Image) : Prop := exists a b c, i = stage a b c.

Section Outside.
#[local] Existing Instance still_env | 0.
#[local] Existing Instance a_backup.
#[local] Existing Instance sample_float.

Lemma stages_read_back : sqlite_reads_back staged.
Proof.
  split.
  - intros i (a & b & c & ->). destruct a, b, c; vm_compute; reflexivity.
  - intros i n (a & b & c & ->). exists true, b, c. destruct a, b, c; vm_compute; reflexivity.
  - intros i n (a & b & c & ->). exists a, true, c. destruct a, b, c; vm_compute; reflexivity.
  - intros i n (a & b & c & ->). exists a, b, true. destruct a, b, c; vm_compute; reflexivity.
Qed.

Lemma still_laws : package_laws.
Proof.
  split.
  - intros k n p a. cbn. rewrite <- append_assoc. apply strip_app.
  - intros k n p a. cbn [env_gcm_seal still_env]. rewrite length_app_str. change (String.length a_tag) with 16%nat. lia.
  - intros t. done.
  - apply zip_round.
  - apply sample_rand_full.
Qed.

(** ** A backup, and its restoration *)

Definition a_machine : BackupWorld := mkBackupWorld sample_logged_in
  (<["/data/panel.db" := Regular "SQLite000"]> (<["/data/keys/master.key" := Regular "key"]>
   (<["/etc/motd" := Regular "hello"]> ∅)))%string.
Definition package_path : string := "/data/backups/backup.fppb".
Definition backed_up : BackupWorld := snd (CreateWithOptions package_path sample_password "/data" a_machine).
Definition restored : res string string * BackupWorld :=
  RestoreWithOptions package_path sample_password "/data/panel.db" "/data" backed_up.
Definition a_package : Manifest * gmap string string :=
  match fst (DecodePackage package_path sample_password backed_up) with Ok x => x | Err _ => (mkManifest "" "" 0 ∅, ∅) end.

Lemma names_apart : separate "/data/panel.db" "/data" (snd a_package).
Proof.
  split.
  - intros n H. vm_compute in H. discriminate H.
  - intros n p [-> | [k ->]] H; vm_compute in H; discriminate H.
  - intros name p Hin Hp. assert (keys (snd a_package) = ["server.db"; "files/keys/master.key"]%string) as E by (vm_compute; reflexivity).
    rewrite E in Hin. apply elem_of_cons in Hin as [-> | Hin]; [|apply list_elem_of_singleton in Hin as ->];
      destruct Hp as [-> | [k ->]]; vm_compute; discriminate.
Qed.

Lemma output_apart : apart package_path "/data".
Proof.
  split; [intros n H; vm_compute in H; discriminate H|intros n H; vm_compute in H; discriminate H|intros n; vm_compute; reflexivity].
Qed.

Lemma never_fails : healthy.
Proof. by intros n. Qed.

Lemma package_decodes : fst (DecodePackage package_path sample_password backed_up) = Ok (fst a_package, snd a_package).
Proof. vm_compute. reflexivity. Qed.

Lemma package_database im :
  sqlite_open (default ""%string (snd a_package !! database_name)) = Some im -> im = stage false false false.
Proof.
  assert (snd a_package !! database_name = Some "SQLite000"%string) as -> by (vm_compute; reflexivity).
  intros H. apply (f_equal (default im)) in H. symmetry. exact H.
Qed.

Lemma package_restorable : restorable (fst a_package) (snd a_package).
Proof.
  assert (snd a_package = <["server.db" := "SQLite000"]> (<["files/keys/master.key" := "key"]> ∅))%string as ->
    by (vm_compute; reflexivity).
  split.
  - exists "SQLite000"%string. split; [reflexivity|]. split; [discriminate|]. vm_compute. discriminate.
  - intros name c [[<- _]|[_ Hk]]%lookup_insert_Some Hne; [done|].
    apply lookup_insert_Some in Hk as [[<- <-]|[_ Hk]]; [|discriminate Hk]. split; vm_compute; [reflexivity|discriminate].
  - intros name c [[<- _]|[_ Hk]]%lookup_insert_Some; [reflexivity|].
    apply lookup_insert_Some in Hk as [[<- _]|[_ Hk]]; [reflexivity|discriminate Hk].
  - vm_compute. reflexivity.
  - vm_compute. split; [discriminate|reflexivity].
Qed.

(** ** The API *)

Definition a_server : ServerEnv := {|
  sv_float := sample_float; sv_AllowedOrigins := ["http://panel.example.com"]; sv_Environment := "production";
  sv_ws_written := fun _ _ => true; sv_public_key := "public"; sv_key_id := "key-1"; sv_sign := fun s => ("signed " ++ s)%string;
  sv_started := noon; sv_wal_bytes := fun _ => 0; sv_backup := a_backup
|}%string.

(** A router for paths without parameters; each handshake makes the connection
    of its moment. *)
Definition a_web : ServerWeb := {|
  chi_match := fun l r => option_map (fun route => (route, ""%string))
    (List.find (fun route => String.eqb (fst (fst (fst route))) (sq_Method r) && String.eqb (snd (fst (fst route))) (sq_Path r)) l);
  chi_within := fun path => if HasPrefix path "/api/v1/" then Public else Root;
  chi_unmatched := fun _ w => mkReplyWriter (rp_Header w) (rp_Cookies w) (Some 404) "404 page not found";
  serve_file := fun _ _ w => w;
  ws_upgrade := fun _ n => Ok n;
  ws_time_ok := fun _ => true
|}.

(** A request with a bearer. *)
Definition a_request (method path bearer body : string) : ServerRequest :=
  mkServerRequest method path path ∅
    (fun key => if String.eqb key "Authorization" then ("Bearer " ++ bearer)%string
                else if String.eqb key "Origin" then "http://panel.example.com"%string
                else if String.eqb key "Idempotency-Key" then "0123456789abcdef"%string else ""%string)
    (fun _ => None) "10.0.0.1:4000" body "" None.
Definition an_api (w : World) : ServerAPI := NewServerAPI w ∅.

(** The content with which FRPS asks about the sample's mapping, and its login. *)
Definition a_question : FRPRequest := sample_frp_request sample_mapping_id 1 6000.
Definition a_login : gmap string string :=
  <["frp_runtime_credential" := fr_runtimeCredential a_question]> (<["frp_user_secret" := fr_userFRPSecret a_question]>
    (<["session_generation" := "1"]> ∅))%string.
Definition text_map (m : gmap string string) : JSON := JObject (map (fun kv => (fst kv, JString (snd kv))) (map_to_list m)).
Definition a_content : gmap string JSON :=
  <["user" := JObject [("user", JString (fr_frpUsername a_question)); ("metas", text_map a_login)]]>
  (<["metas" := JObject [("mapping_id", JString sample_mapping_id); ("mapping_revision", JString "1")]]>
  (<["proxy_name" := JString (fr_frpUsername a_question ++ "." ++ "mapping-" ++ sample_mapping_id)]>
  (<["proxy_type" := JString "tcp"]> (<["remote_port" := number_of_int 6000]> ∅))))%string.

End Outside.

(** ** Backups *)

Section Backups.
#[local] Existing Instance still_env | 0.
#[local] Existing Instance a_backup.
#[local] Existing Instance sample_float.

Lemma restore_confined_witness :
  is_ok (fst restored) = true /\ bw_files (snd restored) !! "/etc/motd"%string = Some (Regular "hello").
Proof.
  split; [vm_compute; reflexivity|].
  pose proof (restore_confined package_path sample_password "/data/panel.db" "/data" backed_up eq_refl) as Hc.
  unfold restored. destruct (RestoreWithOptions _ _ _ _ _) as [r w']. destruct Hc as [Hc _].
  apply Hc; [vm_compute; reflexivity| |intros _; vm_compute; reflexivity].
  intros [H|[n H]]; vm_compute in H; discriminate H.
Defined.


Lemma backup_round_trip_witness :
  fst (CreateWithOptions package_path sample_password "/data" a_machine) = Ok tt /\
  restorable (fst a_package) (snd a_package) /\
  exists t version files, files !! database_name = Some "SQLite000"%string /\
    files !! "files/keys/master.key"%string = Some "key"%string /\
    (restorable (manifest_of t version files) files ->
     fst (DecodePackage package_path sample_password backed_up) = Ok (manifest_of t version files, files)).
Proof.
  assert (fst (CreateWithOptions package_path sample_password "/data" a_machine) = Ok tt) as Hok by (vm_compute; reflexivity).
  split; [exact Hok|]. split; [exact package_restorable|].
  destruct (backup_round_trip package_path sample_password "/data" a_machine backed_up still_laws output_apart eq_refl)
    as (t & version & files & Hdb & Hfiles & Hd).
  - unfold backed_up. rewrite <- Hok. destruct (CreateWithOptions _ _ _ _). reflexivity.
  - exists t, version, files. split; [rewrite Hdb; vm_compute; reflexivity|]. split; [|intros Hr; exact (Hd never_fails Hr backed_up eq_refl)].
    apply Hfiles; [discriminate|]. split; [discriminate|]. exists "/data/keys/master.key"%string.
    split; [reflexivity|]. split; vm_compute; reflexivity.
Defined.
End Backups.

(** ** The API *)

Section API.
#[local] Existing Instance a_server.
#[local] Existing Instance a_web.

Definition a_socket : ServerRequest := a_request "GET" "/api/v1/ws" sample_bearer "".
Definition a_start : Server := mkServer (an_api sample_logged_in) ∅.

Lemma slots_invariant_witness :
  let s := server_step a_start (Requested a_socket) in
  sa_busy (sv_api s) = 1%nat /\ slots_ok s.
Proof.
  split; [vm_compute; reflexivity|]. apply slots_invariant. apply server_next; [apply server_start|vm_compute; reflexivity].
Defined.

Definition a_full_server : Server :=
  mkServer ((an_api sample_logged_in) <| sa_busy := 128%nat |>)
    (list_to_map (map (fun n => (n, a_socket)) (seq 0 128))).

Lemma a_full_server_ok : slots_ok a_full_server.
Proof.
  split; [vm_compute; reflexivity|]. split; [apply Nat.le_refl|]. intros u conn H. unfold clients_of in H. cbn in H.
  rewrite lookup_empty in H. apply elem_of_empty in H. destruct H.
Qed.

Lemma websockets_fill_the_server_witness :
  let s' := server_step a_full_server (Requested (a_request "GET" "/healthz" "" "")) in
  rp_Status (sa_reply (sv_api s')) = Some 429.
Proof.
  apply (websockets_fill_the_server a_full_server (a_request "GET" "/healthz" "" ""));
    [exact a_full_server_ok|vm_compute; reflexivity|discriminate].
Defined.

Definition a_stranger : ServerRequest := a_request "GET" "/api/v1/me" "stolen" "".

Lemma a_stranger_is_not_admitted area : ~ admitted a_stranger sample_logged_in area.
Proof.
  intros (k & s & u & n & Hk & Hh & _).
  assert (sessions (w_db sample_logged_in) = {[ "id-8"%string := sample_session ]}) as E by (vm_compute; reflexivity).
  rewrite E in Hk. apply lookup_singleton_Some in Hk as [_ <-]. vm_compute in Hh. discriminate Hh.
Qed.

Lemma gate_of_sessions_witness :
  rp_Status (sa_reply (snd (serve a_stranger (an_api sample_logged_in)))) = Some 401 /\
  serve_with (fun _ _ _ => Write "secret"%string) a_stranger (an_api sample_logged_in) = serve a_stranger (an_api sample_logged_in).
Proof.
  split; [vm_compute; reflexivity|].
  apply (gate_of_sessions a_stranger (an_api sample_logged_in) ("GET", "/api/v1/me", Session, EpMe)%string ""%string);
    [intros v; reflexivity|left; reflexivity|exact (a_stranger_is_not_admitted _)].
Defined.

Definition other_ticket : World := mkWorld ((w_db sample_logged_in) <| reauth_tickets :=
  {[ "t-1"%string := mkReauthTicket "u-root" 0 (sha256Hex "ticket") (1800000000 * second) 0 ]} |>) 0.
Definition a_creation : ServerRequest :=
  (a_request "POST" "/api/v1/admin/users" "" "{}") <| sq_Auth := Some sample_caller |>.

Lemma sensitive_needs_ticket_witness :
  let a' := snd (handler EpCreateUser "" a_creation (an_api other_ticket)) in
  rp_Status (sa_reply a') = Some 401 /\ state_of a' = state_of (an_api other_ticket).
Proof.
  split; [vm_compute; reflexivity|].
  apply (sensitive_needs_ticket EpCreateUser ""%string a_creation (an_api other_ticket)); [reflexivity|].
  intros k x n Hk. change (({[ "t-1"%string := mkReauthTicket "u-root" 0 (sha256Hex "ticket") (1800000000 * second) 0 ]} : Table ReauthTicket) !! k = Some x) in Hk.
  apply lookup_singleton_Some in Hk as [_ <-]. intros Hu. vm_compute in Hu. discriminate Hu.
Defined.
End API.

(** ** A write that is sent again *)

Section Replay.
#[local] Existing Instance still_env | 0.
#[local] Existing Instance a_server.

Lemma still_cipher : cipher_laws.
Proof.
  split.
  - intros k n p a. exact (gcm_opens still_laws k n p a).
  - intros k n p a H. pose proof (gcm_tag still_laws k n p a) as Ht. rewrite H in Ht. cbn in Ht. lia.
  - exact sample_rand_full.
Qed.

Definition a_write : ServerRequest :=
  (a_request "POST" "/api/v1/session/heartbeat" "" "{}") <| sq_Auth := Some sample_caller |>.
Definition a_reply : ReplyWriter := mkReplyWriter ∅ [] (Some 202) "accepted".
Definition kept_once : ServerAPI := snd (keep a_write a_reply (an_api sample_logged_in)).

End Replay.

(** ** The FRPS plugin *)

Section Plugin.
#[local] Existing Instance a_server.

Definition a_plugin_request : ServerRequest := a_request "POST" "/internal/frp/plugin" "" "".

Lemma plugin_sound_witness :
  exists a', plugin_answer a_plugin_request "NewProxy" a_content (an_api sample_mapped) = (Ok PluginAllow, a') /\
    exists q, asks "NewProxy" a_content q.
Proof.
  assert (fst (plugin_answer a_plugin_request "NewProxy" a_content (an_api sample_mapped)) = Ok PluginAllow) as Hok
    by (vm_compute; reflexivity).
  destruct (plugin_answer _ _ _ _) as [x a'] eqn:E. cbn [fst] in Hok. subst x. exists a'. split; [reflexivity|].
  destruct (plugin_sound _ _ _ _ _ E) as [_ (q & Hq & _)]. exists q. exact Hq.
Defined.

(** *** The configuration of the sample's user *)

Definition served_config : res GoErr ConfigSnapshot * World :=
  FullConfig (fun _ => "") "key" (fun _ => "sig") sample_caller sample_mapped.
Definition served_world : World := snd served_config.
Definition served_item : ConfigItem := mkConfigItem sample_mapping_id "ssh" Tcp "127.0.0.1" 22 (Some 6000) 1 [].

Lemma only_key {A} (t : Table A) k k' x x' :
  (List.length (map_to_list t) <= 1)%nat -> t !! k = Some x -> t !! k' = Some x' -> k = k'.
Proof.
  intros Hl Hk Hk'. apply elem_of_map_to_list in Hk, Hk'. destruct (map_to_list t) as [|p [|q l]]; [by apply elem_of_nil in Hk| |cbn in Hl; lia].
  apply list_elem_of_singleton in Hk, Hk'. congruence.
Qed.

Lemma served_rows : unique_rows (w_db served_world).
Proof.
  split; intros k k' x x' H H' _; refine (only_key _ _ _ _ _ _ H H'); vm_compute; lia.
Qed.

Definition first_row {A} (t : Table A) (x : A) : A := match map_to_list t with y :: _ => snd y | [] => x end.
Definition login_row : FrpCredential := first_row (frp_credentials (w_db served_world)) (mkFrpCredential "" "" "" "" "" 0 0 None).
Definition runtime_row : RuntimeCredential :=
  first_row (runtime_credentials (w_db served_world)) (mkRuntimeCredential "" "" 0 "" 0 None 0).

Lemma served_login :
  live_runtime (login_of (fr_frpUsername a_question) a_login 1) (w_db served_world) (rc_expires runtime_row) "u-alice".
Proof.
  exists "f-alice"%string, login_row, sample_user_row, "id-13"%string, runtime_row, sample_session.
  split_and!; try (vm_compute; reflexivity). apply Z.le_refl.
Qed.

Lemma served_announced : announces a_content (fr_frpUsername a_question) a_login served_item.
Proof. split; vm_compute; try reflexivity. split; reflexivity. Qed.

Lemma served_proxy_allowed_witness :
  exists snapshot a', fst served_config = Ok snapshot /\ served_item ∈ cp_mappings (cfs_Payload snapshot) /\
    plugin_answer a_plugin_request "NewProxy" a_content (an_api served_world) = (Ok PluginAllow, a').
Proof.
  assert (match fst served_config with Ok s => bool_decide (ci_mapping_id <$> cp_mappings (cfs_Payload s) = ["id-25"%string]) | Err _ => false end = true) as Hok
    by (vm_compute; reflexivity).
  destruct (fst served_config) as [snapshot|e] eqn:E; [|discriminate Hok].
  assert (served_item ∈ cp_mappings (cfs_Payload snapshot)) as Hin.
  { assert (cp_mappings (cfs_Payload snapshot) = [served_item]) as ->; [|by left].
    assert (match fst served_config with Ok s => cp_mappings (cfs_Payload s) = [served_item] | Err _ => False end) as H
      by (vm_compute; reflexivity).
    rewrite E in H. exact H. }
  assert (served_config = (Ok snapshot, served_world)) as Hrun by (rewrite <- E; unfold served_world; destruct served_config; reflexivity).
  destruct (served_proxy_allowed (fun _ => "") "key" (fun _ => "sig") sample_caller sample_mapped snapshot served_world served_item
    a_plugin_request a_content (fr_frpUsername a_question) a_login 1 (rc_expires runtime_row) (an_api served_world) Hrun Hin)
    as [a' Ha]; [..|exists snapshot, a'; split; [reflexivity|split; [exact Hin|exact Ha]]].
  - reflexivity.
  - split; [reflexivity|]. vm_compute. reflexivity.
  - reflexivity.
  - exact served_rows.
  - intros m Hm. assert (m_lifecycle <$> (mappings (w_db served_world) !! ci_mapping_id served_item) = Some LPendingApply) as El
      by (vm_compute; reflexivity).
    rewrite Hm in El. injection El as ->. discriminate.
  - intros k d Hd. assert (domains (w_db served_world) = ∅) as Ed by (vm_compute; reflexivity). rewrite Ed in Hd. discriminate Hd.
  - exact served_announced.
  - vm_compute. discriminate.
  - vm_compute. discriminate.
  - vm_compute. discriminate.
  - vm_compute. discriminate.
  - reflexivity.
  - exact served_login.
  - intros n Hn. assert (rc_expires runtime_row = 1700043209 * second) as -> by (vm_compute; reflexivity).
    assert (w_tick (sa_world (an_api served_world)) + 4 * 1 <= 100)%nat as Ht by (apply Nat.leb_le; vm_compute; reflexivity).
    cbn [ci_custom_domains served_item List.length] in Hn. unfold env_now, sample_env, second. lia.
Defined.
End Plugin.

(** ** Keys and secrets *)

Section Files.

Lemma a_random_length (n k : nat) : String.length (fit k (itoa (Z.of_nat n))) = k.
Proof. apply fit_length. Qed.
Lemma a_digit_string (n : nat) : forallb_str is_digit (repeat_char "1" n) = true.
Proof. induction n as [|n IH]; [reflexivity|exact IH]. Qed.

(** The calls of a machine work, but for one that may fail. *)
Definition a_host_machine (fault : nat -> option OsError) : Machine := {|
  mc_fault := fault;
  mc_torn _ := 0%nat;
  mc_random n k := fit k (itoa (Z.of_nat n));
  mc_random_length := a_random_length;
  mc_temp n := repeat_char "1" n;
  mc_temp_digits := a_digit_string;
  mc_cwd := "/srv"%string
|}.
Definition calm_machine : Machine := a_host_machine (fun _ => None).
Definition first_call_fails (n : nat) : option OsError := match n with O => Some (OsText "input/output error") | S _ => None end.

#[local] Instance a_key_math : KeyMath := {| private_of_seed s := (s ++ s)%string; key_sha256 s := s |}.
Lemma a_private_length s : String.length s = 32%nat -> String.length (private_of_seed s) = 64%nat.
Proof. cbn. rewrite length_app_str. intros ->. reflexivity. Qed.

Definition a_secret_path : string := "/data/frps.secret".
Lemma a_secret_named : KeyFiles.named a_secret_path.
Proof. repeat split; try discriminate. Qed.

(** Two processes, a call at a time. *)
Fixpoint alternately (n : nat) : list nat := match n with O => [] | S n => (0 :: 1 :: alternately n)%nat end.
Definition two_secrets := @interleave calm_machine string (alternately 20) (mkHost ∅ 0, replicate 2 (LoadOrCreateTransportSecret a_secret_path)).

Definition secret_of (i : nat) : string :=
  match nth_error two_secrets.2 i with Some (Done (Ok v)) => v | _ => ""%string end.

Lemma one_transport_secret_witness : secret_of 0 = secret_of 1 /\ (32 <= String.length (secret_of 0))%nat.
Proof.
  destruct (@one_transport_secret calm_machine a_secret_path ∅ 2 (alternately 20) a_secret_named) as (Hsame & Hlong & _).
  split; [apply (Hsame 0%nat 1%nat)|destruct (Hlong 0%nat (secret_of 0)) as [Hl _]; [|exact Hl]]; vm_compute; reflexivity.
Defined.

Definition first_load := @KeyFiles.run calm_machine _ (Load "/data" "/data/master.key" "/data/signing.key") (mkHost ∅ 0).

Lemma keys_are_stable_witness :
  exists m, fst first_load = Ok m /\
    fst (@KeyFiles.run calm_machine _ (Load "/data" "/data/master.key" "/data/signing.key") (mkHost (h_files (snd first_load)) 100)) = Ok m.
Proof.
  assert (match fst first_load with Ok _ => true | Err _ => false end = true) as Hok by (vm_compute; reflexivity).
  destruct (fst first_load) as [m|] eqn:E; [|discriminate Hok]. exists m. split; [reflexivity|].
  rewrite (@keys_are_stable calm_machine a_key_math a_private_length "/data" "/data/master.key" "/data/signing.key"
             (mkHost ∅ 0) m (snd first_load) (mkHost (h_files (snd first_load)) 100)).
  - reflexivity.
  - apply (bool_decide_unpack _). vm_compute. exact I.
  - rewrite <- E. unfold first_load. destruct (KeyFiles.run _ _). reflexivity.
  - reflexivity.
  - intros n _. reflexivity.
Defined.

Lemma unreadable_key_is_replaced_witness :
  fst (@KeyFiles.run (a_host_machine first_call_fails) _ (loadOrCreate "/data/master.key" 32) (mkHost {["/data/master.key" := "the key"]} 0))%string
    = Ok (fit 32 "2").
Proof.
  rewrite (@unreadable_key_is_replaced (a_host_machine first_call_fails) a_key_math "/data/master.key"
    (mkHost {["/data/master.key" := "the key"]} 0)%string (OsText "input/output error")); [reflexivity|reflexivity|].
  intros [|n] Hn; [|reflexivity]. exfalso. exact (Nat.nlt_0_r 0 Hn).
Defined.

(** The write of the new certificate fails after three bytes. *)
Definition third_call_fails (n : nat) : option OsError := if Nat.eqb n 2 then Some (OsText "no space left") else None.
Definition half_written := @KeyFiles.steps (a_host_machine third_call_fails) _ 4 (writeAtomicPrivate "/data/cert.pem" "new certificate" "17")
  (mkHost {["/data/cert.pem" := "old certificate"]} 0)%string.

Lemma private_files_are_whole_witness :
  h_files half_written.2 !! "/data/cert.pem"%string = Some "old certificate"%string \/
  h_files half_written.2 !! "/data/cert.pem"%string = Some "new certificate"%string.
Proof.
  pose proof (@private_files_are_whole (a_host_machine third_call_fails) "/data/cert.pem" "new certificate" "17"
    ltac:(repeat split; discriminate) eq_refl {["/data/cert.pem" := "old certificate"]}%string 4 0) as Hw.
  unfold half_written. destruct (KeyFiles.steps _ _ _) as [P h]. exact (proj1 Hw).
Defined.

Lemma concurrent_keys_differ_witness :
  exists schedule h, @interleave calm_machine _ schedule (mkHost ∅ 0, replicate 2 (loadOrCreate "/data/master.key" 32))
    = (h, [Done (Ok (fit 32 "4")); Done (Ok (fit 32 "5"))]) /\
    h_files h !! "/data/master.key"%string = Some (fit 32 "5").
Proof. exact (@concurrent_keys_differ calm_machine a_key_math "/data/master.key" ∅ (fun _ => eq_refl) eq_refl). Defined.
End Files.

(** ** The issuer of certificates *)

Section Issuing.

Definition a_acme_server (seen : bool) : AcmeEnv := {|
  ae_generate_key n := Ok "key"%string;
  ae_csr domain _ := Ok domain;
  ae_register _ _ _ := Ok "https://acme.example/acct/1"%string;
  ae_order _ _ _ := Ok (mkOrder "https://acme.example/order/1" ["https://acme.example/authz/1"%string]);
  ae_authorization _ _ url := Ok (mkAuthorization url "pending" "app.example.com"
    [Some (mkChallenge "http-01" "t" "u"); Some (mkChallenge "dns-01" "token" "u")]);
  ae_challenge_record _ token := Ok ("digest-of-" ++ token)%string;
  ae_accept _ _ _ := Ok tt;
  ae_wait _ _ _ := Ok tt;
  ae_create_cert _ _ _ csr := Ok [csr; "issuer"%string];
  ae_parse_certificate _ := Ok (noon, noon + 90 * 86400 * second);
  ae_marshal_key k := Ok k;
  ae_parse_key k := Ok (Some k);
  ae_lookup_txt n name := if seen && Nat.leb 20 n then (["digest-of-token"%string], None) else ([], Some "no such host"%string);
  ae_ctx _ := None;
  ae_read_fault _ := None;
  ae_write_fault _ := None
|}.

(** One zone, and a record when it is made. *)
Definition a_zone : Zone := mkZone "zone-1" "example.com".
Definition a_zone_api : Transport := {|
  http_do _ _ method _ payload :=
    let body := mkApiBody true [] [a_zone] 1 [] ((default empty_record payload) <| rec_ID := "record-1"%string |>) in
    Reply 200 "OK" (Some (Ok body));
  query_escape s := s;
  path_escape s := s
|}.

#[local] Instance an_issuing_env : Env := sample_env.
#[local] Instance an_issuing_float : GoFloat := sample_float.
#[local] Instance an_issuing_api : Transport := a_zone_api.
#[local] Instance an_issuing_acme : AcmeEnv := a_acme_server true.

Definition an_issuer : CloudflareDNS01Provider :=
  mkCloudflareDNS01Provider (mkCloudflareDNS01Config "https://acme.example" "ops@example.com" "/data/acme.account" (2 * minute) DefaultTolerance)
    "0123456789abcdef0123456789abcdef".
Definition an_issuer_world : IssuerWorld := mkIssuerWorld (sample_world empty_db) None [] [].
Definition an_issue := IssueDNS01 an_issuer (Some "token"%string) "app.example.com" an_issuer_world.

Lemma clock_check_exact_witness : Check noon (noon - 6 * minute) 0 <> Ok tt /\ Check noon (noon - 2 ^ 63) 0 = Ok tt.
Proof.
  split.
  - intros E. apply (clock_check_exact noon (noon - 6 * minute) 0) in E; [|reflexivity].
    change (0 <=? 0) with true in E. unfold DefaultTolerance, minute, second in E. cbn [Z.leb] in E. unfold noon, second in E. lia.
  - apply (clock_check_exact noon (noon - 2 ^ 63) 0); [reflexivity|]. right. lia.
Defined.


(** A resolver that never shows the record. *)
Lemma waitTXT_ends_witness :
  @waitTXT sample_env (a_acme_server false) "name" "value" (6 * second) an_issuer_world =
    (t ← on_world now; @wait_rounds sample_env (a_acme_server false) (wait_fuel (6 * second) + 7) "name" "value" (t + 6 * second)) an_issuer_world.
Proof.
  apply (@waitTXT_ends sample_env (a_acme_server false) 7 "name" "value" (6 * second) an_issuer_world); [discriminate|..]; intros n;
    unfold env_now, sample_env, second; lia.
Defined.

Lemma an_issuer_laws : account_laws (dp_key an_issuer).
Proof.
  split.
  - intros n text. cbn. rewrite HasPrefix_append. f_equal. unfold TrimPrefix. rewrite HasPrefix_append. apply drop_str_app.
  - intros n s [= <-]. reflexivity.
  - intros k der [= <-]. reflexivity.
Qed.

Lemma account_is_kept_witness :
  exists a w3, fst (loadOrRegisterAccount an_issuer an_issuer_world) = Ok a /\
    loadOrRegisterAccount an_issuer (snd (loadOrRegisterAccount an_issuer an_issuer_world)) = (Ok a, w3).
Proof.
  exists (mkaccountMaterial "key" "https://acme.example/acct/1").
  assert (fst (loadOrRegisterAccount an_issuer an_issuer_world) = Ok (mkaccountMaterial "key" "https://acme.example/acct/1")) as E
    by (vm_compute; reflexivity).
  destruct (account_is_kept an_issuer an_issuer_world (mkaccountMaterial "key" "https://acme.example/acct/1")
    (snd (loadOrRegisterAccount an_issuer an_issuer_world)) (snd (loadOrRegisterAccount an_issuer an_issuer_world)) an_issuer_laws)
    as (w3 & E3 & _); [reflexivity| |reflexivity|discriminate|reflexivity|reflexivity|exists w3; split; [exact E|exact E3]].
  rewrite <- E. destruct (loadOrRegisterAccount _ _). reflexivity.
Defined.
End Issuing.

(** ** Starting a server *)

Section Starting.

#[local] Instance a_starting_env : Env := sample_env.
#[local] Instance a_starting_machine : Machine := calm_machine.
#[local] Instance a_starting_math : KeyMath := {| private_of_seed s := (s ++ s)%string; key_sha256 s := s |}.

(** [scheme://host] *)
Definition a_url_parse (s : string) : res string URL :=
  if HasPrefix s "https://" then Ok (mkURL "https" "" None (drop_str 8 s) "" "" "")
  else if HasPrefix s "http://" then Ok (mkURL "http" "" None (drop_str 7 s) "" "" "")
  else Err "missing protocol scheme"%string.
#[local] Instance a_start_url : GoUrl := {|
  url_Parse := a_url_parse;
  url_JoinPath base path := Ok (base ++ path)%string;
  url_String u := (u_Scheme u ++ "://" ++ u_Host u ++ u_Path u)%string
|}.

(** A statement works unless it is refused; the tables are those of the model. *)
#[local] Instance an_engine : SqlEngine DB := {|
  sql_exec statement _ db := if HasPrefix statement "REFUSED" then Err "syntax error"%string else Ok db
|}.
#[local] Instance an_frps : FrpsEnv := {|
  fr_read _ path := Ok ("binary of " ++ path)%string;
  fr_sha256 s := take_str 2 s;
  fr_combined _ _ := ("", false)%string;
  fr_start n _ := Ok (Z.of_nat n);
  fr_ended _ _ := false
|}.
Definition a_migration : string * string := ("001_initial.sql", "-- statement CREATE TABLE users (id TEXT);")%string.
#[local] Instance a_panel_env : PanelEnv := {|
  pe_fault _ := None;
  pe_new_id := "server-1"%string;
  pe_listen _ _ := None;
  pe_migrations := [a_migration; ("002_more.sql", "-- statement CREATE TABLE b (c TEXT);")]%string
|}.
#[local] Instance a_tls : TlsFiles := {|
  KeyPair := string * string;
  tf_getwd _ := Ok "/srv"%string;
  tf_read _ path := Ok ("pem of " ++ path)%string;
  tf_key_pair cert key := Ok (cert, key)
|}.

(** A production server behind TLS, with FRPS and a router. *)
Definition an_environment (key : string) : string :=
  if String.eqb key "FRP_PANEL_ENV" then "Production"
  else if String.eqb key "SERVER_TLS_CERT_FILE" then "/tls/cert.pem"
  else if String.eqb key "SERVER_TLS_KEY_FILE" then "/tls/key.pem"
  else if String.eqb key "FRP_ALLOWED_ORIGINS" then "https://panel.example.com"
  else if String.eqb key "FRP_SERVER_DATA_DIR" then "/data"
  else if String.eqb key "FRPS_BINARY" then "/opt/frps"
  else if String.eqb key "FRPS_BINARY_SHA256" then "6269"
  else if String.eqb key "FRPS_CONFIG_PATH" then "/etc/frps.toml"
  else if String.eqb key "FRP_ROUTER_LISTEN_ADDR" then ":443"
  else if String.eqb key "FRP_ROUTER_TLS_ENABLED" then "true"
  else "".
Definition a_production : ServerConfig := LoadServer an_environment.
Definition a_stopped_panel : Panel := mkPanel (mkHost ∅ 0) (mkConn (mkDatabase empty_db None) 0) None [].
Definition a_life := Startup.run a_production a_stopped_panel.

Lemma a_life_run : Startup.run a_production a_stopped_panel = (fst a_life, snd a_life).
Proof. unfold a_life. destruct (Startup.run _ _). reflexivity. Qed.

Lemma a_life_ok : fst a_life = Ok tt.
Proof. vm_compute. reflexivity. Qed.

Lemma nothing_left_running_witness :
  running (SFrps 19) (pn_log (snd a_life)) = false /\ Started (SFrps 19) ∈ pn_log (snd a_life).
Proof.
  split.
  - apply (nothing_left_running a_production a_stopped_panel (fst a_life) (snd a_life)); [reflexivity|exact a_life_run].
  - apply (bool_decide_unpack _). vm_compute. exact I.
Defined.

Lemma production_is_encrypted_witness :
  secure_service (SRouter ":443" true) /\ Forall (fun origin => https_origin origin = true) (sc_AllowedOrigins a_production).
Proof.
  destruct (production_is_encrypted a_production a_stopped_panel (fst a_life) (snd a_life)) as (new & E & Hs);
    [vm_compute; reflexivity|exact a_life_run|].
  apply Hs. cbn [pn_log a_stopped_panel] in E. rewrite app_nil_r in E. rewrite <- E. apply (bool_decide_unpack _). vm_compute. exact I.
Defined.

Lemma serves_only_when_ready_witness : ready (snd a_life) /\ verified a_production.
Proof.
  pose proof (serves_only_when_ready a_production a_stopped_panel (fst a_life) (snd a_life) a_life_run) as Hr.
  rewrite a_life_ok in Hr. destruct Hr as [Hready Hv]. split; [exact Hready|]. apply Hv. reflexivity.
Defined.

(** The third call fails, between the first file and the second. *)
Definition fails_at (n k : nat) : option string := if Nat.eqb n k then Some "disk full"%string else None.
Definition an_interrupted := migrate (fails_at 5) pe_migrations (mkConn (mkDatabase empty_db None) 0).

Lemma migrations_resume_witness :
  fst an_interrupted = Err "disk full"%string /\
  cn_db (snd (migrate calm pe_migrations (mkConn (cn_db (snd an_interrupted)) 9))) =
  cn_db (snd (migrate calm pe_migrations (mkConn (mkDatabase empty_db None) 0))).
Proof.
  destruct (migrations_resume (fails_at 5) pe_migrations (mkConn (mkDatabase empty_db None) 0) (fst an_interrupted) (snd an_interrupted))
    as (Hsame & _ & _); [unfold an_interrupted; destruct (migrate _ _ _); reflexivity|].
  split; [vm_compute; reflexivity|]. apply (Hsame 9%nat 0%nat).
Defined.

Definition a_certificate : Certificate :=
  mkCertificate "d-2" "acme" CValid None None None (Some "/data/certificates/d-2/cert.pem")
    (Some (certificate_aad "d-2" ++ "private key")%string) (Some "123456789012"%string) None 0.
Definition a_certified : World :=
  sample_world (empty_db <| domains := <["d-2"%string := sample_domain DsActive AutoCertificate]> ∅ |>
    <| certificates := <["c-1"%string := a_certificate]> ∅ |>).
Definition some_certificates := RouterCertificates a_certified.

Lemma served_certificates_are_valid_witness :
  exists t, fst some_certificates = Ok t /\ is_Some (t !! "app.example.com"%string).
Proof.
  assert (match fst some_certificates with Ok _ => true | Err _ => false end = true) as Hok by (vm_compute; reflexivity).
  destruct (fst some_certificates) as [t|e] eqn:E; [|discriminate Hok]. exists t. split; [reflexivity|].
  destruct (served_certificates_are_valid a_certified t (snd some_certificates)) as (_ & root & _ & Hall).
  - unfold some_certificates in *. destruct (RouterCertificates _) as [r w]. cbn in E. rewrite E. reflexivity.
  - apply (Hall "c-1"%string a_certificate (sample_domain DsActive AutoCertificate)); try reflexivity; discriminate.
Defined.
End Starting.
